(* ===== verification/_CoqProject ===== *)
-Q . S2P
Prelude.v
Records.v
Hash.v
CanonicalJson.v
Store.v
Work.v
Processes.v
WorkLife.v
Actions.v
Budget.v
Runtime.v
Registry.v
Hierarchy.v
Ledger.v
Dispatch.v
Authority.v
Outputs.v
Validator.v
Services.v
Projections.v
Transition.v
RunControl.v
Scheduler.v
History.v
Journal.v
Claims.v
Quiescence.v
Lineage.v
Matching.v
Scans.v
Text.v
Groups.v
DisplayIds.v
Evidence.v
Verdicts.v
Policy.v
Gates.v
Traversal.v
Findings.v
Reports.v
Reproduction.v
Execution.v
LineageExamples.v
Finite.v
ContractExamples.v
LedgerExamples.v
DispatchExamples.v
RuntimeExamples.v
JournalExamples.v
SchedulerExamples.v
ControlExamples.v
ScanExamples.v
VerdictExamples.v
ReproductionExamples.v
