(* ===== verification/Prelude.v ===== *)
(** * A verification development for sastsimi

    sastsimi runs security analyses of a repository. Language models, scanners
    and containers propose and check vulnerabilities; a transactional runtime
    decides what each of them may do, pays for it from a budget, records what
    happened as immutable revisions, and derives from those records what is
    known. This development models that runtime, and the pure parts of the
    analysis that decide what the records mean. File names below are under
    [src/src/sastsimi].

    ** Conventions

    A Python [str] is the [string] of its UTF-8 bytes; [Text] recovers code
    points where the code looks at them. An [int] is a [Z]; a datetime is a [Z]
    of microseconds since the epoch. A [dict] that is only looked up is a
    [gmap]; one whose order matters is the list of its items in insertion order.
    A table of [storage/models.py] is a [gmap] on its primary key, or the list
    of its rows in insertion order where the code selects by other columns. A
    function that can raise returns [result]: [Ok] with its value, or [Err] with
    the exception and its message. A transaction is a function of the tables
    that returns the tables it commits; [Err] is the rollback. Ids and clock
    readings a transaction draws are arguments, numbered in the order it draws
    them ([Services.Tick], [Validator.ClaimTick], [Validator.AuthTick]).

    ** The parts and their files

    - [Prelude] holds the error monad, its inversion lemmas and tactics, and the
      lemmas on lists, options and folds the other files share.
    - The data every record carries: [Records] ([contracts/base.py],
      [contracts/records.py], [contracts/refs.py], [storage/records.py]),
      [Hash] (SHA-256 of the standard library, executable) and [CanonicalJson]
      ([contracts/canonical_json.py]).
    - [Store] ([storage/codec.py], [storage/repositories.py]): the tables
      [records] and [record_revisions] with stage, publish, resolve and
      [is_revision_descendant]. It is written against the class [StoredRecord]
      and proved against [StoredRecordLaws].
    - The contracts of the runtime: [Work] ([contracts/work.py]), [Processes]
      ([contracts/hypothesis.py], [contracts/dynamic.py],
      [contracts/static.py], [contracts/_domain.py]), [Actions]
      ([contracts/actions.py]) and [Budget] ([contracts/budget.py],
      [storage/budget_limits.py]).
    - [WorkLife]: the work values the services publish, as one step relation.
    - [Runtime]: the records the services look inside ([Rec]), the tables
      ([Db], [storage/models.py]), [storage/run_states.py] and the cancellation
      latch of [storage/run_control.py]. The class [Codec] is the JSON
      serialisation of pydantic models, [Registry.CodecLaws] what is used of it
      (parsing what was printed, injectivity), and [Runtime.TrustedEvidence]
      the host's pricing evidence.
    - The budget: [Registry] ([storage/budget_registry.py]), [Hierarchy]
      ([storage/budget_hierarchy.py]) and [Ledger]
      ([storage/budget_service.py]).
    - [Dispatch] ([storage/dispatches.py], [storage/lease_recovery.py]): the
      boundary to external effects.
    - [Authority] ([storage/action_policy.py], [storage/current_inputs.py],
      [storage/action_context.py], [contracts/result_registry.py]) and
      [Validator] ([storage/action_validator.py],
      [storage/authorization.py]): who may do what, and single-use decisions.
      [Authority.Host] is what the deployment supplies and
      [Authority.StageRules] the read-only rules of other modules; nothing is
      assumed of either.
    - [Services] ([storage/work_service.py], [storage/attempt_service.py],
      [storage/verification_state.py], [storage/dynamic_state.py]):
      registering, readying and starting work.
    - [Outputs] ([storage/output_closures.py], [storage/output_receipts.py],
      [storage/intermediate_policy.py]): which records an action may publish.
      [Projections] ([storage/policy_runtime.py], [storage/run_projections.py],
      [storage/chaining_registration.py], [storage/report_projection.py]): what
      a result writes besides its work. [Transition]
      ([storage/transition_service.py]): results, journaled as PREPARED,
      published or aborted, recovered, and cancellation. The class
      [Projections.OutcomeRules] holds the read-only rules of the result kinds;
      nothing is assumed of it.
    - [Scheduler] ([storage/work_dispatch.py]): a worker claims a READY work
      (reserve, authorize, start, debit, in one savepoint), renews its lease, and
      a user reopens a blocked cohort. The class [Scheduler.EvidenceRecords]
      says which records are run inputs and dynamic results, and what the code
      reads of them.
    - [RunControl] ([storage/run_control.py], [storage/cancellation_targets.py],
      the dataclasses of [ports/scheduler.py]): the cancellation of a run, the
      external requests it leaves open, what was observed of each, the
      reconciliation that cancels its works and closes its dispatches, and the
      closing of the run. Its state [Control] is the tables of [Runtime] with
      those of run control.
    - [History]: the services modelled here as one step relation on the tables,
      its invariant and what every history of their transactions keeps. [Journal] does the same for the journal of
      results, [Claims] for the scheduler and [Quiescence] for run control; each
      shows its histories to be histories of [History].
    - The evidence model: [Evidence] (hypotheses, claims, playbooks and results:
      [contracts/verification.py], and what it uses of [contracts/hypothesis.py],
      [contracts/static.py] and [contracts/_domain.py]), [Verdicts] (dynamic runs
      of [contracts/dynamic.py], the closure of a verdict, the router of
      [verification/verdict_router.py]), [Policy] ([contracts/policy.py]), [Gates]
      ([contracts/gates.py]), [Findings] (the records of [contracts/reporting.py]
      and the traversal of the evidence) and [Reports] (its conditions and its
      two closures). [Reproduction] and [Execution] are the rest of
      [contracts/dynamic.py]: the records of an attempt with its log, and the
      closure that binds a dynamic result to them. [Traversal] is the loop both
      evidence closures run. The fields a record is hashed by are the class
      [Evidence.Dumped], and a record of any class, as [walk] sees it, is
      [Findings.AnyRecord]; nothing is assumed of either.
    - Chaining: [Lineage] ([chaining/lineage.py],
      [storage/chaining_projection.py]) and [Matching]
      ([chaining/matching.py]).
    - Scans and findings: [Scans] ([simple_runtime/semgrep_fallback_plan.py]),
      [Text], [Groups] ([simple_runtime/finding_groups.py]) and [DisplayIds]
      ([reporting/finding_display_id.py]).
    - [Finite] builds a lawful [Codec] for any finite list of records; the files
      [*Examples] use it to run the services by [vm_compute] and to apply each
      theorem where its hypotheses hold.

    How they interact: a service of [Services] calls [Validator.claim] with a
    decision [Validator.authorize] issued; [claim] checks the role and owner
    ([Authority]), the reservation ([Ledger], through [Hierarchy] and
    [Registry]) and publishes the used decision ([Store]); the service then
    publishes the next revision of the work ([Work], [WorkLife]) and moves the
    current pointers. External effects go through [Validator.claim_external]
    and [Dispatch]. [History.runtime_step] is the union of these transactions;
    "every history" below is a sequence of them, so a theorem over histories says
    nothing of the other writers of the tables, which the last part names.
    [Scheduler.try_claim_ready] composes [Ledger.reserve], [Validator.authorize],
    [Services.start] and [Ledger.commit_usage], and is undone as a whole when one
    of them refuses for budget. [Transition.finish] claims its decision in the
    same way, publishes the records of its result ([Outputs]), what they imply
    ([Projections]), the ended attempt and the next revision of the work
    ([Services.save]) in one transaction.
    [RunControl.reconcile_cancellation] runs [Transition.cancel_in_transaction]
    and [Dispatch.reconcile_dispatch] in one transaction.

    ** What the theorems show

    - Identity: canonical encodings are equal exactly for equal values; a
      reference resolves to the one record it was computed from, and published
      revisions form the unbranched chain 1..n ([CanonicalJson], [Store]).
    - Work: the services implement the abstract life cycle ([History],
      [WorkLife]); terminal work stays terminal, cancellation is always possible
      and final for the modelled services, registration is idempotent,
      parallelism is bounded.
    - Results: the journal refines the runtime; an entry settles once, a version
      of a work has one committed result, a commit is replayed and never
      published twice, a failed commit changes no work, recovery leaves no open
      entry and [TransitionService] publishes only cancellations of a cancelled
      run ([Journal]).
    - Scheduling: the scheduler refines the runtime; a version of a work is
      claimed once and its lease has one holder, a cancelled run is not
      scheduled, a claim takes exactly the work it names and its ledger entry
      debits exactly its retry,
      and a cohort is reopened as a whole or not at all ([Claims]).
    - Cancellation: run control refines the journal; a reconciliation cancels
      every open work of the run whose requests are known and closes those
      requests, an observation is durable, and a run that was closed stays over
      through every later history of the modelled services ([Quiescence]).
    - Authority: a decision is exactly the conjunction of its required checks,
      is final, and is used once ([Validator], [History], [Actions]).
    - Budget: no history of the runtime exceeds a limit of the execution
      profile; reservations settle once; the ledger balances and its operations
      are idempotent; the walks over ancestry terminate ([Ledger], [Registry],
      [Hierarchy]).
    - Effects: at most one request of a work has an unknown outcome, a dispatch
      is recorded once, recovery releases exactly what was never sent
      ([Dispatch]).
    - Verdicts and reports: an accepted verdict answers every question of its
      hypothesis with evidence and says what its dynamic run showed; the router
      follows it; the evidence closure terminates and is what the verdict can be
      traced to; a finding carries every condition of the records behind it; and
      a draft that passes its closure reports a TRUE, reproduced, accepted and
      permitted finding, with its conditions ([Verdicts], [Findings], [Reports]).
    - Reproductions: an accepted log pairs what it starts with what it finishes
      and only grows; a proof of concept in a closed result was executed, the
      candidate's bytes by a command the agent asked for in an environment that
      was checked, and the evidence leads to its output; everything an attempt
      used is cleaned up, and an agent that was invoked was allowed
      ([Reproduction], [Execution]).
    - Chaining: lineage traversal terminates and is correct, retention keeps the
      deepest successes, every pair of primitives has one owner, and the store
      accepts the service's exclusions exactly when no two retained candidates
      share an ancestor, which the service does not ensure ([Lineage],
      [Matching]).
    - Scans and findings: chunks cover every target within the operating
      system's command length; findings are grouped exactly when they are proven
      the same flow; display names are stable and unambiguous.

    ** Fuel

    Recursions that are not structural are cut, and each cut is shown never to
    be reached: [Registry.execution] by CPython's recursion limit of 1000, of
    which two levels are used; [Hierarchy.verification_root] by the number of
    stored records plus 2; [Store.is_revision_descendant] by the number of
    revisions plus 2; [Findings.evidence_closure] and [Execution.rests_on] by the
    number of references the supplied records hold. [Lineage.lineage] recurses
    under CPython's recursion limit, as the code does: its theorems ask for a
    limit above the number of resolvable references.

    ** What is not modelled

    - The read-only rules of each result kind ([storage/hypothesis_projections.py],
      [storage/verification_projection.py], [storage/dynamic_projection.py] and
      the like): they look at the whole evidence model and return records or
      raise; the interface [Projections.OutcomeRules].
    - [storage/stage_policy.py], [storage/context_policy.py] and
      [RuntimeValidator.record_invocation] (checks over prompts, artifacts and
      every result class): interfaces of [Authority.StageRules], or absent.
    - The registrars that write [work_states] by themselves:
      [storage/dynamic_registration.py] (a verification's dynamic child, made
      READY while its parent is parked as BLOCKED, with a COMMITTED journal entry
      of its own), the registrations of [storage/chaining_registration.py]
      ([register_pending], [promote_ready]) and
      [storage/chaining_child_registration.py], and the direct use of a decision
      in [storage/analysis_finalization.py]. They are not steps of
      [History.runtime_step], [Journal.journal_step] or
      [Quiescence.control_step]. They compose modelled operations (claims,
      reservations, debits, saves), but the three registrars do not check the
      cancellation latch or the closing of a run, so the theorems that a
      cancelled or closed run gets no work ([History.cancellation_final],
      [Journal.cancelled_run_publishes_nothing], [Quiescence.quiescent_run_over])
      hold of histories without them only. The hand-off's entry was never
      PREPARED, as the journal's invariant asks, and the chaining children have a
      registration key that is not [WorkService]'s, as the tables' invariant
      asks. [storage/verification_registration.py] registers
      through [WorkService.register]; the projections it writes with it are not
      modelled.
    - [WorkService.registration_scope], [BudgetProfileRegistry.pin_execution]
      and [pin_binding], which also read the production authority catalogue.
    - [simple_runtime] (SQL persistence and stage orchestration) beyond scan
      planning and finding groups; surface coverage and evidence graphs
      (heuristics over syntax trees).
    - The texts of a report ([validate_report_content] and the patterns of
      [contracts/reporting.py]), the patterns [contracts/dynamic.py] looks for in
      commands and diagnostics, and the records of the scanners in
      [contracts/static.py].
    - [agents], [providers], [prompts], [static_analysis], [sandbox],
      [reproduction], [setup]: drivers of language models, scanners and
      containers. [interfaces], [dashboard], [progress], [observability],
      [composition], [config]: user interfaces and wiring. [verification] (its
      router apart) and [orchestration] sequence model calls over the stores; [policy],
      [security], [capabilities] and [evaluation] read documents, secrets and
      reports. Where they change the runtime's tables they do it through
      [storage], by the transactions modelled here or by the registrars above.
    - Concurrency below a transaction: SQLite's write lock serialises the
      modelled transactions, so an interleaving is a sequence of steps. *)
From stdpp Require Export prelude strings gmap list.
From Stdlib Require Export ZArith Lia.
From Stdlib Require Import Sorting.Sorted.

#[global] Open Scope Z_scope.
#[export] Set Warnings "-no-such-hyp,-clear-no-such-hyp".
Set Warnings "-no-such-hyp,-clear-no-such-hyp".

(** ** Python exceptions and the error monad *)

(** The exception classes the modelled code raises or lets through.
    [ValueError] also stands for pydantic's [ValidationError], which is a
    subclass of it. *)
Inductive exn :=
| ValueError (msg : string)
| LookupError (msg : string)
| TypeError (msg : string)
| RuntimeError (msg : string)
| AssertionError
| IntegrityError
| NoResultFound
| MultipleResultsFound
| RecursionError
| IndexError
| KeyError
| AttributeError
| OverflowError.

#[export] Instance exn_eq_dec : EqDecision exn.
Proof. solve_decision. Defined.

Inductive result (A : Type) :=
| Ok (a : A)
| Err (e : exn).
Arguments Ok {A} a.
Arguments Err {A} e.

#[export] Instance result_eq_dec `{EqDecision A} : EqDecision (result A).
Proof. solve_decision. Defined.

Definition rbind {A B} (c : result A) (k : A -> result B) : result B :=
  match c with
  | Ok a => k a
  | Err e => Err e
  end.

Declare Scope py_scope.
Delimit Scope py_scope with py.
#[global] Open Scope py_scope.

Notation "'let!' x := c 'in' k" := (rbind c (fun x => k))
  (at level 10, x pattern, c at level 99, k at level 200,
   format "'[v' 'let!'  x  :=  c  'in' '//' k ']'") : py_scope.

Notation "'do!' c ';;' k" := (rbind c (fun _ => k))
  (at level 10, c at level 99, k at level 200,
   format "'[v' 'do!'  c  ';;' '//' k ']'") : py_scope.

(** [raise_if b with m ;; k] is [if b: raise ValueError(m)] followed by [k]. *)
Notation "'raise_if' b 'with' m ';;' k" :=
  (if b then Err (ValueError m) else k)
  (at level 10, b at level 99, m at level 99, k at level 200,
   format "'[v' 'raise_if'  b  'with'  m  ';;' '//' k ']'") : py_scope.

(** [for x in l: f(x)], where [f] may raise. *)
Fixpoint for_each {A} (f : A -> result unit) (l : list A) : result unit :=
  match l with
  | [] => Ok tt
  | x :: l => do! f x ;; for_each f l
  end.

(** A comprehension [f(x) for x in l] whose body may raise. *)
Fixpoint map_result {A B} (f : A -> result B) (l : list A) : result (list B) :=
  match l with
  | [] => Ok []
  | x :: l => let! y := f x in let! ys := map_result f l in Ok (y :: ys)
  end.

(** A loop over [l] that threads an accumulator and may raise. *)
Fixpoint fold_result {A B} (f : B -> A -> result B) (b : B) (l : list A) : result B :=
  match l with
  | [] => Ok b
  | x :: l => let! b' := f b x in fold_result f b' l
  end.

Definition is_none {A} (o : option A) : bool :=
  match o with None => true | Some _ => false end.
Definition is_some {A} (o : option A) : bool := negb (is_none o).

(** [bool(t)] of a tuple. *)
Definition nonempty {A} (l : list A) : bool :=
  match l with [] => false | _ => true end.

(** Equality tests as Python's [==] and [!=] on values of one type. *)
Abbreviation eqb x y := (bool_decide (x = y)).
Abbreviation neqb x y := (negb (bool_decide (x = y))).

(** [t.count(x)] *)
Definition py_count `{EqDecision A} (x : A) (l : list A) : nat :=
  length (filter (fun y => y = x) l).

(** [len(set(l)) != len(l)] *)
Definition has_duplicates `{EqDecision A} (l : list A) : bool :=
  negb (bool_decide (NoDup l)).

Definition mem `{EqDecision A} (x : A) (l : list A) : bool := bool_decide (x ∈ l).

(** ** Lemmas on the error monad *)

Lemma rbind_Ok {A B} (c : result A) (k : A -> result B) b :
  rbind c k = Ok b <-> exists a, c = Ok a /\ k a = Ok b.
Proof.
  split.
  - destruct c as [a | e]; simpl; [eauto | discriminate].
  - intros (a & -> & H). exact H.
Qed.

#[export] Instance Ok_inj {A} : Inj (=) (=) (@Ok A).
Proof. intros x y H. injection H as H. exact H. Qed.

Lemma raise_if_Ok {A} (b : bool) e (k : result A) r :
  (if b then Err e else k) = Ok r <-> b = false /\ k = Ok r.
Proof. destruct b; split; [discriminate | intros [? _]; discriminate | auto | tauto]. Qed.

Lemma for_each_Ok {A} (f : A -> result unit) l :
  for_each f l = Ok tt <-> Forall (fun x => f x = Ok tt) l.
Proof.
  induction l as [| x l IH]; simpl; [split; auto; constructor |].
  rewrite rbind_Ok, Forall_cons. split.
  - intros ([] & Hx & Hl). apply IH in Hl. auto.
  - intros [Hx Hl]. exists tt. split; [exact Hx | apply IH; exact Hl].
Qed.

Lemma map_result_Forall2 {A B} (f : A -> result B) l ys :
  map_result f l = Ok ys <-> Forall2 (fun x y => f x = Ok y) l ys.
Proof.
  revert ys. induction l as [| x l IH]; intros ys; simpl.
  - split; [intros [= <-]; constructor | intros H; inversion H; reflexivity].
  - rewrite rbind_Ok. split.
    + intros (y & Hy & H). apply rbind_Ok in H. destruct H as (zs & Hzs & [= <-]).
      constructor; [exact Hy | apply IH; exact Hzs].
    + intros H. inversion H as [| ? y ? zs Hy Hzs]; subst.
      exists y. split; [exact Hy |]. apply rbind_Ok. exists zs.
      split; [apply IH; exact Hzs | reflexivity].
Qed.

Lemma fold_result_app {A B} (f : B -> A -> result B) b l1 l2 :
  fold_result f b (l1 ++ l2) = let! b' := fold_result f b l1 in fold_result f b' l2.
Proof.
  revert b. induction l1 as [| x l1 IH]; intros b; simpl; [reflexivity |].
  destruct (f b x) as [b' | e]; simpl; [apply IH | reflexivity].
Qed.

(** An invariant of the loop body is an invariant of the loop. *)
Lemma fold_result_inv {A B} (P : B -> Prop) (f : B -> A -> result B) b l b' :
  (forall b x b', x ∈ l -> P b -> f b x = Ok b' -> P b') ->
  P b -> fold_result f b l = Ok b' -> P b'.
Proof.
  revert b. induction l as [| x l IH]; simpl; intros b Hstep Hb Hf.
  - injection Hf as <-. exact Hb.
  - apply rbind_Ok in Hf. destruct Hf as (c & Hc & Hf).
    apply (IH c); [| eapply Hstep; eauto using list_elem_of_here | exact Hf].
    intros b0 y b1 Hy. apply Hstep. apply list_elem_of_further. exact Hy.
Qed.

Lemma is_none_true {A} (o : option A) : is_none o = true <-> o = None.
Proof. destruct o; split; intros H; auto; discriminate. Qed.
Lemma is_none_false {A} (o : option A) : is_none o = false <-> exists x, o = Some x.
Proof. destruct o; split; intros H; eauto; [discriminate | destruct H; discriminate]. Qed.
Lemma is_some_true {A} (o : option A) : is_some o = true <-> exists x, o = Some x.
Proof. destruct o; split; intros H; eauto; [discriminate | destruct H; discriminate]. Qed.
Lemma is_some_false {A} (o : option A) : is_some o = false <-> o = None.
Proof. destruct o; split; intros H; auto; discriminate. Qed.
Lemma nonempty_true {A} (l : list A) : nonempty l = true <-> l <> [].
Proof. destruct l; simpl; split; intros H; auto; congruence. Qed.
Lemma nonempty_false {A} (l : list A) : nonempty l = false <-> l = [].
Proof. destruct l; simpl; split; intros H; auto; congruence. Qed.

Lemma mem_true `{EqDecision A} (x : A) l : mem x l = true <-> x ∈ l.
Proof. unfold mem. apply bool_decide_eq_true. Qed.
Lemma mem_false `{EqDecision A} (x : A) l : mem x l = false <-> x ∉ l.
Proof. unfold mem. apply bool_decide_eq_false. Qed.
Lemma has_duplicates_false `{EqDecision A} (l : list A) :
  has_duplicates l = false <-> NoDup l.
Proof. unfold has_duplicates. rewrite negb_false_iff. apply bool_decide_eq_true. Qed.

(** [(p) != (q)] on truth values. *)
Lemma bool_neq_false (b c : bool) : neqb b c = false <-> (b = true <-> c = true).
Proof.
  rewrite negb_false_iff, bool_decide_eq_true.
  destruct b, c; intuition discriminate.
Qed.
Lemma bool_neq_true (b c : bool) : neqb b c = true <-> (b = true <-> c = false).
Proof.
  rewrite negb_true_iff, bool_decide_eq_false.
  destruct b, c; intuition discriminate.
Qed.
Lemma andb_false_imp (a b : bool) : a && b = false <-> (a = true -> b = false).
Proof. destruct a, b; simpl; intuition discriminate. Qed.
Lemma length_omap_le {A B} (f : A -> option B) (l : list A) :
  (length (omap f l) <= length l)%nat.
Proof. induction l as [| x l IH]; cbn; [lia |]. destruct (f x); cbn; lia. Qed.

Lemma filter_id {A} (P : A -> Prop) `{forall x, Decision (P x)} (l : list A) :
  Forall P l -> filter P l = l.
Proof.
  induction 1 as [| x l Hx _ IH]; [reflexivity |].
  rewrite filter_cons_True by assumption. rewrite IH. reflexivity.
Qed.

Lemma NoDup_map_inj {A B} (f : A -> B) l x y :
  NoDup (map f l) -> x ∈ l -> y ∈ l -> f x = f y -> x = y.
Proof.
  induction l as [| z l IH]; simpl; intros Hnd Hx Hy Hf; [inversion Hx |].
  inversion Hnd as [| ? ? Hz Hl]; subst. apply elem_of_cons in Hx, Hy.
  destruct Hx as [-> | Hx], Hy as [-> | Hy]; auto; exfalso; apply Hz;
    [rewrite Hf | rewrite <- Hf]; apply (list_elem_of_fmap_2 f); assumption.
Qed.

Lemma StronglySorted_map {A B} (R : A -> A -> Prop) (P : A -> Prop) (Q : B -> B -> Prop)
  (f : A -> B) l :
  StronglySorted R l -> Forall P l -> (forall x y, P x -> P y -> R x y -> Q (f x) (f y)) ->
  StronglySorted Q (map f l).
Proof.
  intros Hs Hp Himp. induction Hs as [| x l _ IH Hx]; simpl; constructor.
  - apply IH. inversion Hp; assumption.
  - inversion Hp as [| ? ? Hpx Hpl]; subst. apply Forall_map.
    rewrite Forall_forall in *. intros y Hy. apply Himp; auto.
Qed.

Lemma StronglySorted_snoc {A} (R : A -> A -> Prop) l x :
  StronglySorted R l -> Forall (fun y => R y x) l -> StronglySorted R (l ++ [x]).
Proof.
  intros Hs. induction Hs as [| y l Hl IH Hy]; intros Hx; simpl; [repeat constructor |].
  inversion Hx; subst. constructor; [auto |]. apply Forall_app. auto.
Qed.

Lemma StronglySorted_drop {A} (R : A -> A -> Prop) l1 x l2 :
  StronglySorted R (l1 ++ x :: l2) -> StronglySorted R (l1 ++ l2).
Proof.
  induction l1 as [| y l1 IH]; simpl; intros Hs; inversion Hs as [| ? ? Hl Hy]; subst.
  - exact Hl.
  - constructor; [auto |]. rewrite Forall_app, Forall_cons in Hy. apply Forall_app. tauto.
Qed.

Lemma StronglySorted_and {A} (R S : A -> A -> Prop) l :
  StronglySorted R l -> StronglySorted S l -> StronglySorted (fun x y => R x y /\ S x y) l.
Proof.
  induction l as [| x l IH]; intros HR HS; [constructor |].
  inversion HR; inversion HS; subst. constructor; [auto |]. apply Forall_and; auto.
Qed.

Lemma StronglySorted_elem {A} (R : A -> A -> Prop) l x y :
  StronglySorted R l -> x ∈ l -> y ∈ l -> x = y \/ R x y \/ R y x.
Proof.
  induction 1 as [| z l _ IH Hz]; intros Hx Hy; [inversion Hx |].
  rewrite Forall_forall in Hz. apply elem_of_cons in Hx, Hy.
  destruct Hx as [-> | Hx], Hy as [-> | Hy]; auto.
Qed.

(** A loop whose body returns and preserves [P] returns. *)
Lemma fold_result_total {A B} (P : B -> Prop) (f : B -> A -> result B) b l :
  (forall b x, x ∈ l -> P b -> exists b', f b x = Ok b' /\ P b') -> P b ->
  exists b', fold_result f b l = Ok b' /\ P b'.
Proof.
  revert b. induction l as [| x l IH]; intros b Hf Hb; [exists b; auto |].
  destruct (Hf b x ltac:(left) Hb) as (b1 & Hx & Hb1). simpl. rewrite Hx.
  apply IH; [| exact Hb1]. intros b' y Hy. apply Hf. right. exact Hy.
Qed.

(** A loop that raises does so in one of its iterations. *)
Lemma fold_result_Err {A B} (f : B -> A -> result B) b l e :
  fold_result f b l = Err e -> exists b' x, x ∈ l /\ f b' x = Err e.
Proof.
  revert b. induction l as [| x l IH]; intros b Hf; [discriminate |]. simpl in Hf.
  destruct (f b x) as [b' | e'] eqn:Hx; simpl in Hf.
  - destruct (IH _ Hf) as (b0 & y & Hy & Hfy). exists b0, y. split; [right |]; auto.
  - injection Hf as ->. exists b, x. split; [left | exact Hx].
Qed.

Lemma opt_not_none {A} (o : option A) : o <> None <-> is_Some o.
Proof. destruct o; split; intros H; eauto; try congruence. destruct H; discriminate. Qed.

Create Rewrite HintDb py_bool.
#[export] Hint Rewrite orb_false_iff orb_true_iff andb_true_iff andb_false_imp
  bool_neq_false bool_neq_true : py_bool.
Create Rewrite HintDb py.
#[export] Hint Rewrite @is_none_true @is_none_false @is_some_true @is_some_false
  @nonempty_true @nonempty_false @mem_true @mem_false @has_duplicates_false
  orb_false_iff orb_true_iff andb_true_iff andb_false_imp negb_true_iff negb_false_iff
  @bool_decide_eq_true @bool_decide_eq_false
  Nat.eqb_eq Nat.eqb_neq Z.ltb_lt Z.ltb_ge Z.leb_le Z.leb_gt Z.eqb_eq Z.eqb_neq : py.

(** ** Tactics *)

(** [unguard H] peels the guards and binds off a computation known to return
    [Ok], leaving one hypothesis per guard passed and per call that returned. *)
Ltac unguard_step H :=
  lazymatch type of H with
  | (if ?b then Err _ else _) = Ok _ =>
      let G := fresh "G" in destruct b eqn:G; [discriminate H |]
  | rbind ?c _ = Ok _ =>
      let x := fresh "x" in let E := fresh "E" in
      destruct c as [x | ?] eqn:E; simpl in H; [| discriminate H];
      lazymatch type of x with unit => destruct x | _ => idtac end
  end.
Ltac unguard H := simpl in H; repeat (unguard_step H; simpl in H).

(** One call of a computation that returned: its value and the rest. *)
Tactic Notation "call" hyp(H) "as" simple_intropattern(x) simple_intropattern(E) :=
  apply rbind_Ok in H; destruct H as (x & E & H); cbv beta iota zeta in H.

(** [guards] is the converse: it splits a goal [c = Ok v] into the guards to
    discharge and the calls to evaluate. *)
Ltac guards :=
  repeat match goal with
  | |- (if _ then Err _ else _) = Ok _ => apply raise_if_Ok; split
  | |- rbind _ _ = Ok _ => apply rbind_Ok; eexists; split
  end.

(** [boolify] turns every boolean test in the context into a proposition. *)
Ltac boolify := autorewrite with py_bool in *; autorewrite with py in *.

(** Case analysis on the first test or match a goal is stuck on. *)
Ltac case_goal :=
  match goal with
  | |- context [if ?b then _ else _] => destruct b eqn:?
  | |- context [match ?x with _ => _ end] => destruct x eqn:?
  end.

(** ** Lists related element by element *)

Lemma Forall2_weaken {A B} (Q R : A -> B -> Prop) l k :
  Forall2 Q l k -> (forall x y, x ∈ l -> Q x y -> R x y) -> Forall2 R l k.
Proof.
  induction 1 as [| x y l k Hxy _ IH]; intros Himp; constructor.
  - apply Himp; [left | exact Hxy].
  - apply IH. intros a b Ha. apply Himp. right. exact Ha.
Qed.

Lemma Forall2_compose {A B C} (Q : A -> B -> Prop) (R : B -> C -> Prop) (S : A -> C -> Prop) l k m :
  Forall2 Q l k -> Forall2 R k m -> (forall x y z, Q x y -> R y z -> S x z) -> Forall2 S l m.
Proof.
  intros Hq Hr Himp. revert m Hr. induction Hq as [| x y l k Hxy _ IH]; intros m Hr; inversion Hr; subst;
    constructor; eauto.
Qed.

Lemma existsb_false {A} (f : A -> bool) l x : existsb f l = false -> x ∈ l -> f x = false.
Proof.
  intros He Hx. apply not_true_iff_false. intros Hf. apply not_true_iff_false in He. apply He.
  apply existsb_exists. exists x. split; [apply list_elem_of_In, Hx | exact Hf].
Qed.
