(* ===== verification/Records.v ===== *)
(** * Records: revision metadata and reference types

    The identity layer every stored record carries ([contracts/base.py],
    [contracts/records.py]) and the four exact-reference types with their local
    and exact checks ([contracts/refs.py]). Opaque IDs are their strings, which
    hold UTF-8 bytes; datetimes are integers (microseconds since the epoch).
    [RunMeta] and its subclass [RecordMeta] are one record whose [rm_code] is
    [Some] exactly for the subclass. *)
From S2P Require Import Prelude.

(** ** Field types of [contracts/base.py] *)

Definition NonNegativeInt (z : Z) : bool := 0 <=? z.
Definition PositiveInt (z : Z) : bool := 1 <=? z.

(** The characters of [\s], as UTF-8 byte sequences: no other character. *)
Fixpoint all_space (s : string) : bool :=
  match s with
  | EmptyString => true
  | String c s1 =>
      let n := Ascii.nat_of_ascii c in
      if ((9 <=? n) && (n <=? 13) || (n =? 32))%nat then all_space s1
      else
        match s1 with
        | EmptyString => false
        | String d s2 =>
            let m := Ascii.nat_of_ascii d in
            if ((n =? 194) && ((m =? 133) || (m =? 160)))%nat then all_space s2
            else
              match s2 with
              | EmptyString => false
              | String e s3 =>
                  let k := Ascii.nat_of_ascii e in
                  if ((n =? 225) && (m =? 154) && (k =? 128)
                      || (n =? 226) && (m =? 128) &&
                         ((128 <=? k) && (k <=? 138) || (k =? 168) || (k =? 169) || (k =? 175))
                      || (n =? 226) && (m =? 129) && (k =? 159)
                      || (n =? 227) && (m =? 128) && (k =? 128))%nat
                  then all_space s3 else false
              end
        end
  end.

Definition NonEmptyStr (s : string) : bool := negb (all_space s).

Fixpoint all_chars (p : Ascii.ascii -> bool) (s : string) : bool :=
  match s with
  | EmptyString => true
  | String c s => p c && all_chars p s
  end.

Definition is_lower_hex (c : Ascii.ascii) : bool :=
  let n := Ascii.nat_of_ascii c in
  ((48 <=? n) && (n <=? 57) || (97 <=? n) && (n <=? 102))%nat.

Definition Sha256 (s : string) : bool :=
  (String.length s =? 64)%nat && all_chars is_lower_hex s.

(** ** Metadata of [contracts/records.py] *)

Record RevisionMeta := mkRevisionMeta {
  record_id : string;
  logical_record_id : string;
  record_type : string;
  schema_version : string;
  revision_number : Z;
  previous_record_id : option string;
  created_at : Z;
}.

Record CodeScope := mkCodeScope {
  workspace_id : string;
  commit_id : string;
  hypothesis_id : option string;
  attempt_id : option string;
}.

(** [RunMeta], and [RecordMeta] when [rm_code] is [Some]. *)
Record RunMeta := mkRunMeta {
  rm_rev :> RevisionMeta;
  rm_analysis_id : string;
  rm_code : option CodeScope;
}.

Record PolicyCacheMeta := mkPolicyCacheMeta {
  pcm_rev :> RevisionMeta;
  pcm_program_id : string;
}.

Inductive RecordMetadata :=
| MRun (m : RunMeta)
| MPolicy (m : PolicyCacheMeta).

#[export] Instance RevisionMeta_eq_dec : EqDecision RevisionMeta.
Proof. solve_decision. Defined.
#[export] Instance CodeScope_eq_dec : EqDecision CodeScope.
Proof. solve_decision. Defined.
#[export] Instance RunMeta_eq_dec : EqDecision RunMeta.
Proof. solve_decision. Defined.
#[export] Instance PolicyCacheMeta_eq_dec : EqDecision PolicyCacheMeta.
Proof. solve_decision. Defined.
#[export] Instance RecordMetadata_eq_dec : EqDecision RecordMetadata.
Proof. solve_decision. Defined.

Definition meta_rev (m : RecordMetadata) : RevisionMeta :=
  match m with MRun m => m | MPolicy m => m end.

(** [isinstance(meta, RecordMeta)] *)
Definition is_RecordMeta (m : RunMeta) : bool := is_some (rm_code m).

(** [getattr(meta, name, None)] for the scope attributes. *)
Definition rm_workspace_id (m : RunMeta) : option string := workspace_id <$> rm_code m.
Definition rm_commit_id (m : RunMeta) : option string := commit_id <$> rm_code m.
Definition rm_hypothesis_id (m : RunMeta) : option string := rm_code m ≫= hypothesis_id.
Definition rm_attempt_id (m : RunMeta) : option string := rm_code m ≫= attempt_id.

Definition meta_analysis_id (m : RecordMetadata) : option string :=
  match m with MRun m => Some (rm_analysis_id m) | MPolicy _ => None end.
Definition meta_workspace_id (m : RecordMetadata) : option string :=
  match m with MRun m => rm_workspace_id m | MPolicy _ => None end.
Definition meta_commit_id (m : RecordMetadata) : option string :=
  match m with MRun m => rm_commit_id m | MPolicy _ => None end.
Definition meta_hypothesis_id (m : RecordMetadata) : option string :=
  match m with MRun m => rm_hypothesis_id m | MPolicy _ => None end.
Definition meta_program_id (m : RecordMetadata) : option string :=
  match m with MRun _ => None | MPolicy m => Some (pcm_program_id m) end.

(** The runtime class of the metadata: [type(meta)]. *)
Inductive MetaKind := KRunMeta | KRecordMeta | KPolicyCacheMeta.
#[export] Instance MetaKind_eq_dec : EqDecision MetaKind.
Proof. solve_decision. Defined.

Definition run_kind (m : RunMeta) : MetaKind :=
  if is_RecordMeta m then KRecordMeta else KRunMeta.
Definition meta_kind (m : RecordMetadata) : MetaKind :=
  match m with MRun m => run_kind m | MPolicy _ => KPolicyCacheMeta end.

(** [RevisionMeta.revision_shape], after the integer field check. *)
Definition revision_shape (m : RevisionMeta) : result unit :=
  raise_if negb (PositiveInt (revision_number m)) with "greater_than_equal" ;;
  raise_if neqb (eqb (revision_number m) 1) (is_none (previous_record_id m))
    with "First revision alone must have previous_record_id=null" ;;
  raise_if eqb (previous_record_id m) (Some (record_id m))
    with "A revision cannot reference itself" ;;
  Ok tt.

Definition validate_revision (previous current : RecordMetadata) : result unit :=
  let p := meta_rev previous in
  let c := meta_rev current in
  raise_if neqb (meta_kind previous) (meta_kind current)
    with "Metadata kind cannot change between revisions" ;;
  raise_if neqb (logical_record_id p) (logical_record_id c)
           || neqb (record_type p) (record_type c)
           || neqb (meta_analysis_id previous) (meta_analysis_id current)
           || neqb (meta_workspace_id previous) (meta_workspace_id current)
           || neqb (meta_commit_id previous) (meta_commit_id current)
           || neqb (meta_hypothesis_id previous) (meta_hypothesis_id current)
           || neqb (meta_program_id previous) (meta_program_id current)
    with "Revision identity or scope mismatch" ;;
  raise_if neqb (previous_record_id c) (Some (record_id p))
           || eqb (record_id c) (record_id p)
           || neqb (revision_number c) (revision_number p + 1)
    with "RECORD_REVISION_MISMATCH: exact predecessor and next revision required" ;;
  raise_if created_at c <? created_at p
    with "Revision created_at precedes predecessor" ;;
  Ok tt.

(** ** Exact references of [contracts/refs.py] *)

Record RunStoredDataRef := mkRunStoredDataRef {
  rs_stored_data_id : string;
  rs_data_kind : string;
  rs_content_hash : string;
  rs_analysis_id : string;
  rs_record_id : option string;
}.

Record StoredDataRef := mkStoredDataRef {
  sd_stored_data_id : string;
  sd_data_kind : string;
  sd_content_hash : string;
  sd_workspace_id : string;
  sd_commit_id : string;
  sd_record_id : option string;
}.

Record HostConfigurationRef := mkHostConfigurationRef {
  hc_stored_data_id : string;
  hc_data_kind : string;
  hc_content_hash : string;
  hc_host_id : string;
  hc_publication_analysis_id : string;
  hc_publication_workspace_id : string;
  hc_publication_commit_id : string;
  hc_record_id : string;
}.

Record PolicyCacheRef := mkPolicyCacheRef {
  pc_stored_data_id : string;
  pc_record_id : string;
  pc_content_hash : string;
  pc_program_id : string;
  pc_schema_version : string;
}.

Inductive RecordRef :=
| RRun (r : RunStoredDataRef)
| RStored (r : StoredDataRef)
| RHost (r : HostConfigurationRef)
| RPolicy (r : PolicyCacheRef).

(** [BudgetScopeRef = RunStoredDataRef | StoredDataRef] *)
Inductive BudgetScopeRef :=
| BRun (r : RunStoredDataRef)
| BStored (r : StoredDataRef).

Definition scope_ref (r : BudgetScopeRef) : RecordRef :=
  match r with BRun r => RRun r | BStored r => RStored r end.
Coercion scope_ref : BudgetScopeRef >-> RecordRef.
Coercion RStored : StoredDataRef >-> RecordRef.
Coercion RRun : RunStoredDataRef >-> RecordRef.

#[export] Instance RunStoredDataRef_eq_dec : EqDecision RunStoredDataRef.
Proof. solve_decision. Defined.
#[export] Instance StoredDataRef_eq_dec : EqDecision StoredDataRef.
Proof. solve_decision. Defined.
#[export] Instance HostConfigurationRef_eq_dec : EqDecision HostConfigurationRef.
Proof. solve_decision. Defined.
#[export] Instance PolicyCacheRef_eq_dec : EqDecision PolicyCacheRef.
Proof. solve_decision. Defined.
#[export] Instance RecordRef_eq_dec : EqDecision RecordRef.
Proof. solve_decision. Defined.
#[export] Instance BudgetScopeRef_eq_dec : EqDecision BudgetScopeRef.
Proof. solve_decision. Defined.

#[export] Instance scope_ref_inj : Inj (=) (=) scope_ref.
Proof. intros [] [] [=]; congruence. Qed.

Definition data_kind (r : RecordRef) : string :=
  match r with
  | RRun r => rs_data_kind r
  | RStored r => sd_data_kind r
  | RHost r => hc_data_kind r
  | RPolicy _ => "policy_cache_record"
  end.

Definition ref_record_id (r : RecordRef) : option string :=
  match r with
  | RRun r => rs_record_id r
  | RStored r => sd_record_id r
  | RHost r => Some (hc_record_id r)
  | RPolicy r => Some (pc_record_id r)
  end.

Definition ref_content_hash (r : RecordRef) : string :=
  match r with
  | RRun r => rs_content_hash r
  | RStored r => sd_content_hash r
  | RHost r => hc_content_hash r
  | RPolicy r => pc_content_hash r
  end.

(** [reference(record)], from the record's metadata, its content hash and the
    [host_id] attribute of a host-configuration record. *)
Definition reference_of (meta : RecordMetadata) (hash : string) (host_id : option string)
  : RecordRef :=
  let rev := meta_rev meta in
  match meta with
  | MRun m =>
      match rm_code m, host_id with
      | Some code, Some host =>
          RHost (mkHostConfigurationRef (record_id rev) (record_type rev) hash host
                   (rm_analysis_id m) (workspace_id code) (commit_id code) (record_id rev))
      | Some code, None =>
          RStored (mkStoredDataRef (record_id rev) (record_type rev) hash
                     (workspace_id code) (commit_id code) (Some (record_id rev)))
      | None, _ =>
          RRun (mkRunStoredDataRef (record_id rev) (record_type rev) hash
                  (rm_analysis_id m) (Some (record_id rev)))
      end
  | MPolicy m =>
      RPolicy (mkPolicyCacheRef (record_id rev) (record_id rev) hash
                 (pcm_program_id m) (schema_version rev))
  end.

Definition require_record_ref (ref : RecordRef) (kind : option string) : result unit :=
  raise_if is_none (ref_record_id ref) with "Stored-record reference requires record_id" ;;
  raise_if match kind with Some k => neqb (data_kind ref) k | None => false end
    with "Reference data_kind mismatch" ;;
  Ok tt.

Definition validate_ref_scope (ref : RecordRef) (meta : RecordMetadata) : result unit :=
  match ref, meta with
  | RHost _, MPolicy _ =>
      Err (ValueError "Policy cache cannot carry host configuration metadata")
  | RHost _, MRun _ => Ok tt
  | RPolicy r, MPolicy m =>
      raise_if neqb (pc_program_id r) (pcm_program_id m) with "Policy program mismatch" ;;
      Ok tt
  | RPolicy _, MRun _ => Ok tt
  | RStored _, MPolicy _ =>
      Err (ValueError "Policy cache cannot carry code-scoped local metadata")
  | RStored r, MRun m =>
      raise_if match rm_code m with
               | Some code => neqb (sd_workspace_id r, sd_commit_id r)
                                   (workspace_id code, commit_id code)
               | None => false
               end
        with "WORKSPACE_MISMATCH" ;;
      Ok tt
  | RRun r, MRun m =>
      raise_if neqb (rs_analysis_id r) (rm_analysis_id m) with "Analysis mismatch" ;;
      Ok tt
  | RRun _, MPolicy _ => Err (ValueError "Analysis mismatch")
  end.

Definition revision_mismatch (ref : RecordRef) (meta : RecordMetadata) (hash : string) : bool :=
  neqb (ref_record_id ref) (Some (record_id (meta_rev meta)))
  || neqb (ref_content_hash ref) hash.

Definition validate_exact_ref (ref : RecordRef) (meta : RecordMetadata) (hash : string)
  (analysis : option string) : result unit :=
  do! require_record_ref ref (Some (record_type (meta_rev meta))) ;;
  match ref with
  | RHost r =>
      raise_if match meta with
               | MRun m =>
                   match rm_code m with
                   | Some code =>
                       neqb (hc_publication_analysis_id r, hc_publication_workspace_id r,
                             hc_publication_commit_id r)
                            (rm_analysis_id m, workspace_id code, commit_id code)
                   | None => true
                   end
               | MPolicy _ => true
               end
        with "Host configuration publication scope mismatch" ;;
      raise_if revision_mismatch ref meta hash
        with "RECORD_REVISION_MISMATCH: record_id/content_hash mismatch" ;;
      Ok tt
  | _ =>
      do! match meta with
          | MPolicy m =>
              raise_if match ref with
                       | RPolicy r => neqb (pc_schema_version r) (schema_version m)
                       | _ => true
                       end
                with "Policy cache reference kind/schema mismatch" ;;
              Ok tt
          | MRun m =>
              raise_if match ref, rm_code m with
                       | RStored _, Some _ | RRun _, None => false
                       | _, _ => true
                       end
                with "Record reference kind mismatch" ;;
              raise_if neqb analysis (Some (rm_analysis_id m))
                with "Consuming analysis mismatch or missing" ;;
              Ok tt
          end ;;
      do! validate_ref_scope ref meta ;;
      raise_if revision_mismatch ref meta hash
        with "RECORD_REVISION_MISMATCH: record_id/content_hash mismatch" ;;
      Ok tt
  end.

(** ** New revisions ([storage/records.py]) *)

(** [next_meta(meta, clock, ids)], with the fresh id and the clock reading. *)
Definition next_rev (m : RevisionMeta) (id : string) (now : Z) : RevisionMeta :=
  mkRevisionMeta id (logical_record_id m) (record_type m) (schema_version m)
    (revision_number m + 1) (Some (record_id m)) now.

Definition next_meta (m : RunMeta) (id : string) (now : Z) : result RunMeta :=
  let m' := mkRunMeta (next_rev m id now) (rm_analysis_id m) (rm_code m) in
  do! revision_shape m' ;;
  Ok m'.

(** [fresh_meta(meta, kind, clock, ids, attempt_id=...)] *)
Definition fresh_meta (m : RunMeta) (kind id : string) (now : Z) (attempt : option string)
  : result RunMeta :=
  let rev := mkRevisionMeta id id kind (schema_version m) 1 None now in
  let m' := mkRunMeta rev (rm_analysis_id m)
              ((fun c => mkCodeScope (workspace_id c) (commit_id c) (hypothesis_id c) attempt)
                 <$> rm_code m) in
  do! revision_shape m' ;;
  Ok m'.

(** ** Lemmas *)

Lemma revision_shape_Ok m :
  revision_shape m = Ok tt <->
  1 <= revision_number m /\ (revision_number m = 1 <-> previous_record_id m = None)
  /\ previous_record_id m <> Some (record_id m).
Proof.
  unfold revision_shape, PositiveInt. split.
  - intros H. unguard H. boolify. naive_solver.
  - intros (H1 & H2 & H3). rewrite !raise_if_Ok. repeat split; boolify; naive_solver.
Qed.

Lemma next_meta_Ok (m : RunMeta) id now m' :
  next_meta m id now = Ok m' ->
  m' = mkRunMeta (next_rev m id now) (rm_analysis_id m) (rm_code m) /\ id <> record_id m
  /\ 0 <= revision_number m.
Proof.
  unfold next_meta. intros H. unguard H. injection H as <-.
  apply revision_shape_Ok in E. simpl in E.
  destruct E as (H1 & H2 & H3). repeat split; [congruence | lia].
Qed.

(** [next_meta] is a valid next revision, and only then does it succeed. *)
Lemma next_meta_valid (m : RunMeta) id now :
  revision_shape m = Ok tt -> id <> record_id m ->
  next_meta m id now = Ok (mkRunMeta (next_rev m id now) (rm_analysis_id m) (rm_code m)).
Proof.
  intros H Hid. apply revision_shape_Ok in H. destruct H as (H1 & _).
  unfold next_meta. replace (revision_shape _) with (Ok tt); [reflexivity |].
  symmetry. apply revision_shape_Ok. simpl.
  repeat split; first [lia | congruence | intros; lia | intros; discriminate].
Qed.

Lemma require_record_ref_Ok ref kind :
  require_record_ref ref kind = Ok tt <->
  ref_record_id ref <> None /\ (forall k, kind = Some k -> data_kind ref = k).
Proof.
  unfold require_record_ref. rewrite !raise_if_Ok. split.
  - intros (H1 & H2 & _). boolify. destruct H1 as [x Hx].
    split; [congruence |]. intros k ->. boolify. exact H2.
  - intros (H1 & H2). repeat split; [| destruct kind; boolify; auto].
    destruct (ref_record_id ref); [reflexivity | congruence].
Qed.

Lemma validate_revision_Ok p c :
  validate_revision p c = Ok tt <->
  meta_kind p = meta_kind c
  /\ logical_record_id (meta_rev p) = logical_record_id (meta_rev c)
  /\ record_type (meta_rev p) = record_type (meta_rev c)
  /\ meta_analysis_id p = meta_analysis_id c
  /\ meta_workspace_id p = meta_workspace_id c
  /\ meta_commit_id p = meta_commit_id c
  /\ meta_hypothesis_id p = meta_hypothesis_id c
  /\ meta_program_id p = meta_program_id c
  /\ previous_record_id (meta_rev c) = Some (record_id (meta_rev p))
  /\ record_id (meta_rev c) <> record_id (meta_rev p)
  /\ revision_number (meta_rev c) = revision_number (meta_rev p) + 1
  /\ created_at (meta_rev p) <= created_at (meta_rev c).
Proof.
  unfold validate_revision. rewrite !raise_if_Ok. boolify. intuition congruence.
Qed.

(** The successor built by [next_meta] is accepted as the next revision. *)
Lemma next_meta_revision (m : RunMeta) id now m' :
  next_meta m id now = Ok m' -> created_at m <= now ->
  validate_revision (MRun m) (MRun m') = Ok tt.
Proof.
  intros H Hnow. apply next_meta_Ok in H. destruct H as (-> & Hid & _).
  apply validate_revision_Ok. repeat split; auto.
Qed.
