(* ===== verification/Hash.v ===== *)
(** * SHA-256

    [hashlib.sha256(data).hexdigest()] of the Python standard library, which
    the canonical JSON hashes and the exact references use: 32-bit words as
    [Z] with the wrap-around written out, a message as its bytes. *)
From Stdlib Require String.
From S2P Require Import Prelude Records.

Definition w32 (z : Z) : Z := Z.land z 4294967295.
Definition add32 (x y : Z) : Z := w32 (x + y).
Definition rotr (x n : Z) : Z :=
  Z.lor (Z.shiftr x n) (w32 (Z.shiftl x (32 - n))).

Definition round_constants : list Z :=
  [1116352408; 1899447441; 3049323471; 3921009573; 961987163; 1508970993; 2453635748;
   2870763221; 3624381080; 310598401; 607225278; 1426881987; 1925078388; 2162078206;
   2614888103; 3248222580; 3835390401; 4022224774; 264347078; 604807628; 770255983;
   1249150122; 1555081692; 1996064986; 2554220882; 2821834349; 2952996808; 3210313671;
   3336571891; 3584528711; 113926993; 338241895; 666307205; 773529912; 1294757372;
   1396182291; 1695183700; 1986661051; 2177026350; 2456956037; 2730485921; 2820302411;
   3259730800; 3345764771; 3516065817; 3600352804; 4094571909; 275423344; 430227734;
   506948616; 659060556; 883997877; 958139571; 1322822218; 1537002063; 1747873779;
   1955562222; 2024104815; 2227730452; 2361852424; 2428436474; 2756734187; 3204031479;
   3329325298].

Record words := mkWords {
  wa : Z; wb : Z; wc : Z; wd : Z; we : Z; wf : Z; wg : Z; wh : Z;
}.

Definition initial_words : words :=
  mkWords 1779033703 3144134277 1013904242 2773480762 1359893119 2600822924 528734635
          1541459225.

Definition round (s : words) (kw : Z * Z) : words :=
  let s1 := Z.lxor (Z.lxor (rotr (we s) 6) (rotr (we s) 11)) (rotr (we s) 25) in
  let ch := Z.lxor (Z.land (we s) (wf s)) (Z.land (w32 (Z.lnot (we s))) (wg s)) in
  let t1 := w32 (wh s + s1 + ch + fst kw + snd kw) in
  let s0 := Z.lxor (Z.lxor (rotr (wa s) 2) (rotr (wa s) 13)) (rotr (wa s) 22) in
  let maj := Z.lxor (Z.lxor (Z.land (wa s) (wb s)) (Z.land (wa s) (wc s)))
                    (Z.land (wb s) (wc s)) in
  mkWords (add32 t1 (add32 s0 maj)) (wa s) (wb s) (wc s) (add32 (wd s) t1) (we s) (wf s)
          (wg s).

Definition small0 (x : Z) : Z := Z.lxor (Z.lxor (rotr x 7) (rotr x 18)) (Z.shiftr x 3).
Definition small1 (x : Z) : Z := Z.lxor (Z.lxor (rotr x 17) (rotr x 19)) (Z.shiftr x 10).

(** The message schedule, newest word first. *)
Fixpoint extend (n : nat) (w : list Z) : list Z :=
  match n with
  | O => w
  | S n =>
      let at_ i := nth i w 0 in
      extend n (w32 (small1 (at_ 1%nat) + at_ 6%nat + small0 (at_ 14%nat) + at_ 15%nat) :: w)
  end.

Fixpoint words_of (bytes : list Z) : list Z :=
  match bytes with
  | a :: b :: c :: d :: rest =>
      (a * 16777216 + b * 65536 + c * 256 + d) :: words_of rest
  | _ => []
  end.

Definition compress (s : words) (block : list Z) : words :=
  let schedule := rev (extend 48 (rev (words_of block))) in
  let r := fold_left round (combine round_constants schedule) s in
  mkWords (add32 (wa s) (wa r)) (add32 (wb s) (wb r)) (add32 (wc s) (wc r))
          (add32 (wd s) (wd r)) (add32 (we s) (we r)) (add32 (wf s) (wf r))
          (add32 (wg s) (wg r)) (add32 (wh s) (wh r)).

Definition bytes_of (s : string) : list Z :=
  map (fun c => Z.of_nat (Ascii.nat_of_ascii c)) (String.list_ascii_of_string s).

Definition big_endian64 (n : Z) : list Z :=
  map (fun i => Z.land (Z.shiftr n i) 255) [56; 48; 40; 32; 24; 16; 8; 0].

(** The padded message has a whole number of 64-byte blocks. *)
Definition pad (bytes : list Z) : list Z :=
  let n := Z.of_nat (length bytes) in
  bytes ++ [128] ++ repeat 0 (Z.to_nat ((55 - n) mod 64)) ++ big_endian64 (8 * n).

Fixpoint digest_blocks (n : nat) (s : words) (bytes : list Z) : words :=
  match n with
  | O => s
  | S n => digest_blocks n (compress s (firstn 64 bytes)) (skipn 64 bytes)
  end.

Definition digest (bytes : list Z) : words :=
  let padded := pad bytes in
  digest_blocks (Nat.div (length padded) 64) initial_words padded.

Definition hex_digit (n : Z) : Ascii.ascii :=
  Ascii.ascii_of_nat (Z.to_nat (if n <? 10 then 48 + n else 87 + n)).

Definition hex_word (w : Z) : list Ascii.ascii :=
  map (fun i => hex_digit (Z.land (Z.shiftr w i) 15)) [28; 24; 20; 16; 12; 8; 4; 0].

(** [hashlib.sha256(s).hexdigest()] *)
Definition sha256 (s : string) : string :=
  let d := digest (bytes_of s) in
  String.string_of_list_ascii
    (concat (map hex_word [wa d; wb d; wc d; wd d; we d; wf d; wg d; wh d])).

Example sha256_empty :
  sha256 "" = "e3b0c44298fc1c149afbf4c8996fb92427ae41e4649b934ca495991b7852b855".
Proof. vm_compute. reflexivity. Qed.
Example sha256_abc :
  sha256 "abc" = "ba7816bf8f01cfea414140de5dae2223b00361a396177a9cb410ff61f20015ad".
Proof. vm_compute. reflexivity. Qed.
Example sha256_two_blocks :
  sha256 "abcdbcdecdefdefgefghfghighijhijkijkljklmklmnlmnomnopnopq" =
  "248d6a61d20638b8e5c026930c3e6039a33ce45964ff2167f6ecedd419db06c1".
Proof. vm_compute. reflexivity. Qed.

Lemma hex_digit_lower n : 0 <= n < 16 -> is_lower_hex (hex_digit n) = true.
Proof.
  intros H. assert (Hn : In n (map Z.of_nat (seq 0 16))).
  { apply in_map_iff. exists (Z.to_nat n). split; [lia | apply in_seq; lia]. }
  simpl in Hn. repeat destruct Hn as [<- | Hn]; try reflexivity. destruct Hn.
Qed.

Lemma all_chars_list p l :
  all_chars p (String.string_of_list_ascii l) = forallb p l.
Proof. induction l as [| c l IH]; simpl; [reflexivity | rewrite IH; reflexivity]. Qed.

Lemma length_list l : String.length (String.string_of_list_ascii l) = length l.
Proof. induction l; simpl; congruence. Qed.

(** A digest is a well-formed [Sha256] contract value. *)
Lemma sha256_wf s : Sha256 (sha256 s) = true.
Proof.
  unfold Sha256, sha256. rewrite all_chars_list, length_list.
  apply andb_true_iff. split; [reflexivity |].
  apply forallb_forall. intros c Hc. apply in_concat in Hc.
  destruct Hc as (l & Hl & Hc). apply in_map_iff in Hl. destruct Hl as (w & <- & _).
  unfold hex_word in Hc. apply in_map_iff in Hc. destruct Hc as (i & <- & _).
  apply hex_digit_lower.
  change 15 with (Z.ones 4). rewrite Z.land_ones by lia.
  apply Z.mod_pos_bound. lia.
Qed.
