(* ===== verification/CanonicalJson.v ===== *)
(** * Canonical JSON

    [contracts/canonical_json.py]: normalisation of Python values to JSON
    values, the compact sorted-key encoding, and the content hash. A Python
    string is its UTF-8 encoding; a dictionary is the list of its items in
    insertion order. *)
From stdpp Require Import pretty.
From Stdlib Require Import Sorting.Sorted.
From S2P Require Import Prelude Records Hash.
Set Warnings "-register-all".

(** ** Values *)

(** An aware datetime, by its UTC fields ([astimezone(UTC)]). *)
Record DateTime := mkDateTime {
  dt_year : Z; dt_month : Z; dt_day : Z;
  dt_hour : Z; dt_minute : Z; dt_second : Z; dt_microsecond : Z;
}.

(** What [_normalize] reads of a pydantic model instance: whether its class is
    a [ContractModel] or [OpaqueId], whether it carries members beyond its
    fields, and [canonical_omitted_null_fields()]. *)
Record ModelInfo := mkModelInfo {
  mi_contract : bool;
  mi_extra : bool;
  mi_omitted_null : list string;
}.

Inductive value :=
| VNone
| VBool (b : bool)
| VInt (z : Z)
| VStr (s : string)
| VEnum (v : value)
| VDatetime (aware : bool) (utc : DateTime)
| VUuid (text : string)
| VMapping (items : list (option string * value))   (** [None]: a key that is not a [str] *)
| VSequence (items : list value)
| VModel (info : ModelInfo) (fields : list (string * value))
| VOpaqueId (info : ModelInfo) (root : value)
| VOther (type_name : string).

(** The values [json.dumps] is given. *)
Inductive json :=
| JNull
| JBool (b : bool)
| JInt (z : Z)
| JStr (s : string)
| JArr (items : list json)
| JObj (members : list (string * json)).

(** ** Python helpers *)

Fixpoint str_leb (s t : string) : bool :=
  match s, t with
  | EmptyString, _ => true
  | String _ _, EmptyString => false
  | String c s, String d t =>
      if Ascii.eqb c d then str_leb s t
      else (Ascii.nat_of_ascii c <? Ascii.nat_of_ascii d)%nat
  end.

(** [list.sort(key=...)]: stable. *)
Fixpoint insert_by {A} (le : A -> A -> bool) (x : A) (l : list A) : list A :=
  match l with
  | [] => [x]
  | y :: l' => if le x y then x :: y :: l' else y :: insert_by le x l'
  end.
Definition sort_by {A} (le : A -> A -> bool) (l : list A) : list A :=
  foldr (insert_by le) [] l.

Definition key_leb {A} (x y : string * A) : bool := str_leb x.1 y.1.

(** [",".join(parts)] *)
Fixpoint join (sep : string) (parts : list string) : string :=
  match parts with
  | [] => ""
  | p :: rest => match rest with [] => p | _ => p +:+ sep +:+ join sep rest end
  end.

Definition hex_char (n : nat) : string := String (hex_digit (Z.of_nat n)) "".

(** One character of a JSON string under [ensure_ascii=False]. *)
Definition escape (c : Ascii.ascii) : string :=
  let n := Ascii.nat_of_ascii c in
  if (n =? 34)%nat then "\" +:+ String c ""
  else if (n =? 92)%nat then "\\"
  else if (n =? 10)%nat then "\n"
  else if (n =? 13)%nat then "\r"
  else if (n =? 9)%nat then "\t"
  else if (n =? 12)%nat then "\f"
  else if (n =? 8)%nat then "\b"
  else if (n <? 32)%nat then "\u00" +:+ hex_char (n / 16) +:+ hex_char (n mod 16)
  else String c "".

Fixpoint escaped (s : string) : string :=
  match s with
  | EmptyString => ""
  | String c s => escape c +:+ escaped s
  end.

Definition dquote : string := String (Ascii.ascii_of_nat 34) "".
Definition quote (s : string) : string := dquote +:+ escaped s +:+ dquote.

Definition member (kv : string * string) : string := quote kv.1 +:+ ":" +:+ kv.2.

(** [json.dumps(value, ensure_ascii=False, sort_keys=True, separators=(",", ":"),
    allow_nan=False).encode("utf-8")] *)
Fixpoint _encode (v : json) : string :=
  match v with
  | JNull => "null"
  | JBool b => if b then "true" else "false"
  | JInt z => pretty z
  | JStr s => quote s
  | JArr items => "[" +:+ join "," (map _encode items) +:+ "]"
  | JObj members =>
      "{" +:+ join "," (map member
                 (sort_by key_leb (map (fun kv => (kv.1, _encode kv.2)) members))) +:+ "}"
  end.

(** ** Normalisation *)

Definition zero_padded (width : nat) (z : Z) : string :=
  let digits := pretty z in
  String.string_of_list_ascii (repeat (Ascii.ascii_of_nat 48) (width - String.length digits))
  +:+ digits.

(** [value.astimezone(UTC).isoformat(timespec="microseconds").replace("+00:00", "Z")] *)
Definition isoformat (d : DateTime) : string :=
  zero_padded 4 (dt_year d) +:+ "-" +:+ zero_padded 2 (dt_month d) +:+ "-"
  +:+ zero_padded 2 (dt_day d) +:+ "T" +:+ zero_padded 2 (dt_hour d) +:+ ":"
  +:+ zero_padded 2 (dt_minute d) +:+ ":" +:+ zero_padded 2 (dt_second d) +:+ "."
  +:+ zero_padded 6 (dt_microsecond d) +:+ "Z".

Definition SetListPolicy := list (list string * option string).

Fixpoint policy_key (policy : SetListPolicy) (path : list string) : option (option string) :=
  match policy with
  | [] => None
  | (p, key) :: policy => if eqb p path then Some key else policy_key policy path
  end.

Fixpoint assoc {A} (key : string) (members : list (string * A)) : option A :=
  match members with
  | [] => None
  | (k, v) :: members => if eqb k key then Some v else assoc key members
  end.

(** [sort_key(item)] *)
Definition sort_key (key : option string) (item : json) : result string :=
  match key with
  | None => Ok (_encode item)
  | Some key =>
      match item with
      | JObj members =>
          match assoc key members with
          | Some v => Ok (_encode v)
          | None => Err (ValueError "Semantic list item missing key")
          end
      | _ => Err (ValueError "Semantic list item missing key")
      end
  end.

(** [if path in policy: items.sort(key=sort_key)] *)
Definition sort_items (policy : SetListPolicy) (path : list string) (items : list json)
  : result (list json) :=
  match policy_key policy path with
  | None => Ok items
  | Some key =>
      let! keys := map_result (sort_key key) items in
      Ok (map snd (sort_by key_leb (zip keys items)))
  end.

Definition is_VNone (v : value) : bool := match v with VNone => true | _ => false end.

(** The keys of a dictionary under construction are unique: a repeated key
    keeps its place and takes the new value. The mappings here have unique
    keys, so items are kept as they are. *)
Fixpoint _normalize (policy : SetListPolicy) (reject_hash : bool) (path : list string)
  (v : value) {struct v} : result json :=
  let check_model info k :=
    if negb (mi_contract info)
    then Err (TypeError "Canonical JSON requires a contract model")
    else raise_if mi_extra info
           with "Canonical contract models cannot contain extra members" ;;
         k in
  let fix members (omit : list string) (kvs : list (string * value))
    : result (list (string * json)) :=
    match kvs with
    | [] => Ok []
    | (k, x) :: kvs =>
        if mem k omit && is_VNone x then members omit kvs
        else let! j := _normalize policy reject_hash (path ++ [k]) x in
             let! js := members omit kvs in Ok ((k, j) :: js)
    end in
  let fix items_ (kvs : list (option string * value)) : result (list (string * json)) :=
    match kvs with
    | [] => Ok []
    | (Some k, x) :: kvs =>
        let! j := _normalize policy reject_hash (path ++ [k]) x in
        let! js := items_ kvs in Ok ((k, j) :: js)
    | (None, _) :: _ => Err (TypeError "JSON object keys must be strings")
    end in
  let fix elements (l : list value) : result (list json) :=
    match l with
    | [] => Ok []
    | x :: l =>
        let! j := _normalize policy reject_hash (path ++ ["*"]) x in
        let! js := elements l in Ok (j :: js)
    end in
  match v with
  | VModel info fields =>
      check_model info
        (raise_if reject_hash && negb (nonempty path)
                  && existsb (fun kv => eqb kv.1 "content_hash"
                                        && negb (mem kv.1 (mi_omitted_null info)
                                                 && is_VNone kv.2)) fields
           with "content_hash member would be self-referential" ;;
         let! js := members (mi_omitted_null info) fields in Ok (JObj js))
  | VOpaqueId info root => check_model info (_normalize policy reject_hash path root)
  | VEnum x => _normalize policy reject_hash path x
  | VDatetime aware utc =>
      raise_if negb aware with "Canonical datetime must be timezone-aware" ;;
      Ok (JStr (isoformat utc))
  | VUuid text => Ok (JStr text)
  | VNone => Ok JNull
  | VStr s => Ok (JStr s)
  | VBool b => Ok (JBool b)
  | VInt z => Ok (JInt z)
  | VMapping kvs =>
      if existsb (fun kv => is_none kv.1) kvs
      then Err (TypeError "JSON object keys must be strings")
      else
        raise_if reject_hash && negb (nonempty path)
                 && existsb (fun kv => eqb kv.1 (Some "content_hash")) kvs
          with "content_hash member would be self-referential" ;;
        let! js := items_ kvs in Ok (JObj js)
  | VSequence l =>
      let! js := elements l in
      let! js := sort_items policy path js in Ok (JArr js)
  | VOther _ => Err (TypeError "Unsupported canonical JSON value")
  end.

Definition canonical_bytes (set_list_keys : SetListPolicy) (v : value) : result string :=
  let! j := _normalize set_list_keys false [] v in Ok (_encode j).

Definition content_hash (set_list_keys : SetListPolicy) (v : value) : result string :=
  let! j := _normalize set_list_keys true [] v in Ok (sha256 (_encode j)).

(** ** The encoding *)

Section json_ind.
Variable P : json -> Prop.
Hypothesis Hnull : P JNull.
Hypothesis Hbool : forall b, P (JBool b).
Hypothesis Hint : forall z, P (JInt z).
Hypothesis Hstr : forall s, P (JStr s).
Hypothesis Harr : forall l, Forall P l -> P (JArr l).
Hypothesis Hobj : forall l, Forall (fun kv : string * json => P kv.2) l -> P (JObj l).

Fixpoint json_nested_ind (v : json) : P v :=
  match v with
  | JNull => Hnull
  | JBool b => Hbool b
  | JInt z => Hint z
  | JStr s => Hstr s
  | JArr l => Harr l ((fix go l := match l return Forall P l with
                                   | [] => @List.Forall_nil _ _
                                   | x :: l => @List.Forall_cons _ _ _ _ (json_nested_ind x) (go l)
                                   end) l)
  | JObj l => Hobj l ((fix go l := match l return Forall (fun kv : string * json => P kv.2) l with
                                   | [] => @List.Forall_nil _ _
                                   | x :: l => @List.Forall_cons _ _ _ _ (json_nested_ind x.2) (go l)
                                   end) l)
  end.
End json_ind.

(** The value with every object's members in key order. *)
Fixpoint canon (v : json) : json :=
  match v with
  | JArr items => JArr (map canon items)
  | JObj members => JObj (sort_by key_leb (map (fun kv => (kv.1, canon kv.2)) members))
  | v => v
  end.

(** The encoding without the key sort. *)
Fixpoint print (v : json) : string :=
  match v with
  | JNull => "null"
  | JBool b => if b then "true" else "false"
  | JInt z => pretty z
  | JStr s => quote s
  | JArr items => "[" +:+ join "," (map print items) +:+ "]"
  | JObj members =>
      "{" +:+ join "," (map member (map (fun kv => (kv.1, print kv.2)) members)) +:+ "}"
  end.

Lemma insert_by_map {A B} (g : A -> B) (le : A -> A -> bool) (le' : B -> B -> bool) x l :
  (forall a b, le' (g a) (g b) = le a b) ->
  insert_by le' (g x) (map g l) = map g (insert_by le x l).
Proof.
  intros Hle. induction l as [| y l IH]; simpl; [reflexivity |].
  rewrite Hle. destruct (le x y); simpl; [reflexivity | rewrite IH; reflexivity].
Qed.

Lemma sort_by_map {A B} (g : A -> B) (le : A -> A -> bool) (le' : B -> B -> bool) l :
  (forall a b, le' (g a) (g b) = le a b) ->
  sort_by le' (map g l) = map g (sort_by le l).
Proof.
  intros Hle. unfold sort_by. induction l as [| x l IH]; simpl; [reflexivity |].
  rewrite IH. apply insert_by_map. exact Hle.
Qed.

Lemma encode_print v : _encode v = print (canon v).
Proof.
  induction v as [| | | | l IH | l IH] using json_nested_ind; simpl; try reflexivity.
  - do 3 f_equal. rewrite map_map. apply map_ext_Forall. exact IH.
  - do 4 f_equal. rewrite <- sort_by_map with (le' := key_leb) by reflexivity.
    rewrite map_map. f_equal. apply map_ext_Forall.
    eapply Forall_impl; [exact IH |]. intros [k v] Hv. simpl in *. rewrite Hv. reflexivity.
Qed.

(** *** Characters and strings *)

Definition unescape1 (s : string) : option (Ascii.ascii * string) :=
  match s with
  | EmptyString => None
  | String c s =>
      if (Ascii.nat_of_ascii c =? 92)%nat then
        match s with
        | String d s =>
            let m := Ascii.nat_of_ascii d in
            if (m =? 110)%nat then Some (Ascii.ascii_of_nat 10, s)
            else if (m =? 114)%nat then Some (Ascii.ascii_of_nat 13, s)
            else if (m =? 116)%nat then Some (Ascii.ascii_of_nat 9, s)
            else if (m =? 102)%nat then Some (Ascii.ascii_of_nat 12, s)
            else if (m =? 98)%nat then Some (Ascii.ascii_of_nat 8, s)
            else if (m =? 117)%nat then
              match s with
              | String _ (String _ (String h (String l s))) =>
                  let digit c := let n := Ascii.nat_of_ascii c in
                                 if (n <? 58)%nat then (n - 48)%nat else (n - 87)%nat in
                  Some (Ascii.ascii_of_nat (16 * digit h + digit l), s)
              | _ => None
              end
            else Some (d, s)
        | EmptyString => None
        end
      else Some (c, s)
  end.

Lemma unescape1_escape c s : unescape1 (escape c +:+ s) = Some (c, s).
Proof. destruct c as [[] [] [] [] [] [] [] []]; reflexivity. Qed.

Lemma escape_first c s : exists d t, escape c +:+ s = String d t /\ d <> Ascii.ascii_of_nat 34.
Proof.
  destruct c as [[] [] [] [] [] [] [] []];
    (eexists; eexists; split; [reflexivity | intros [=]]).
Qed.

Lemma escape_inj c d r r' : escape c +:+ r = escape d +:+ r' -> c = d /\ r = r'.
Proof.
  intros H. apply (f_equal unescape1) in H. rewrite !unescape1_escape in H.
  injection H as -> ->. auto.
Qed.

Lemma sapp_assoc (a b c : string) : (a +:+ b) +:+ c = a +:+ (b +:+ c).
Proof. induction a as [| x a IH]; simpl; [reflexivity | exact (f_equal (String x) IH)]. Qed.
Lemma sapp_cons c (a b : string) : String c a +:+ b = String c (a +:+ b).
Proof. reflexivity. Qed.
Lemma sapp_nil (a : string) : "" +:+ a = a.
Proof. reflexivity. Qed.

Lemma escaped_inj s t r r' :
  escaped s +:+ (dquote +:+ r) = escaped t +:+ (dquote +:+ r') -> s = t /\ r = r'.
Proof.
  revert t. induction s as [| c s IH]; intros [| d t]; cbn [escaped];
    rewrite ?sapp_nil, ?sapp_assoc; intros H.
  - injection H as H. rewrite !sapp_nil in H. auto.
  - destruct (escape_first d (escaped t +:+ (dquote +:+ r'))) as (x & y & Hx & Hn).
    rewrite Hx in H. injection H as H _. congruence.
  - destruct (escape_first c (escaped s +:+ (dquote +:+ r))) as (x & y & Hx & Hn).
    rewrite Hx in H. injection H as H _. congruence.
  - apply escape_inj in H. destruct H as [-> H]. apply IH in H. destruct H as [-> ->]. auto.
Qed.

Lemma quote_inj s t r r' : quote s +:+ r = quote t +:+ r' -> s = t /\ r = r'.
Proof.
  unfold quote. rewrite !sapp_assoc. intros H. injection H as H. rewrite !sapp_nil in H.
  apply escaped_inj in H. exact H.
Qed.

(** *** Integers *)

Definition numeric (c : Ascii.ascii) : bool :=
  let n := Ascii.nat_of_ascii c in
  (((48 <=? n) && (n <=? 57)) || (n =? 45))%nat.

Lemma pretty_go_numeric x s :
  all_chars numeric s = true -> all_chars numeric (pretty_N_go x s) = true.
Proof.
  revert s. induction (N.lt_wf_0 x) as [x _ IH]; intros s Hs.
  destruct (decide (0 < x)%N) as [Hx | Hx].
  - rewrite pretty_N_go_step by exact Hx. apply IH; [apply N.div_lt; lia |].
    simpl. rewrite Hs, andb_true_r. unfold pretty_N_char. repeat case_match; reflexivity.
  - replace x with 0%N by lia. rewrite pretty_N_go_0. exact Hs.
Qed.

Lemma pretty_go_suffix x s : exists a, pretty_N_go x s = a +:+ s.
Proof.
  revert s. induction (N.lt_wf_0 x) as [x _ IH]; intros s.
  destruct (decide (0 < x)%N) as [Hx | Hx].
  - rewrite pretty_N_go_step by exact Hx.
    destruct (IH (x `div` 10)%N) with (s := String (pretty_N_char (x `mod` 10)) s) as [a Ha];
      [apply N.div_lt; lia |].
    exists (a +:+ String (pretty_N_char (x `mod` 10)) ""). rewrite Ha, sapp_assoc. reflexivity.
  - exists "". replace x with 0%N by lia. apply pretty_N_go_0.
Qed.

Lemma pretty_numeric (z : Z) : all_chars numeric (pretty z) = true.
Proof.
  destruct z as [| p | p]; [reflexivity | |].
  - exact (pretty_go_numeric (N.pos p) "" eq_refl).
  - exact (pretty_go_numeric (N.pos p) "" eq_refl).
Qed.

Lemma pretty_first (z : Z) : exists c t, pretty z = String c t /\ numeric c = true.
Proof.
  pose proof (pretty_numeric z) as Hn. destruct (pretty z) as [| c t] eqn:Hz.
  - exfalso. destruct z as [| p | p]; [discriminate | | discriminate].
    change (pretty_N_go (N.pos p) "" = "") in Hz. rewrite pretty_N_go_step in Hz by lia.
    destruct (pretty_go_suffix (N.pos p `div` 10)
                (String (pretty_N_char (N.pos p `mod` 10)) "")) as [[| c a] Ha];
      rewrite Ha in Hz; discriminate Hz.
  - exists c, t. simpl in Hn. apply andb_true_iff in Hn. destruct Hn. auto.
Qed.

(** What may follow a value inside an encoding. *)
Definition stop (r : string) : Prop :=
  match r with
  | EmptyString => True
  | String c _ => c = Ascii.ascii_of_nat 44 \/ c = Ascii.ascii_of_nat 93 \/ c = Ascii.ascii_of_nat 125
  end.

Lemma numeric_prefix a b r r' :
  all_chars numeric a = true -> all_chars numeric b = true -> stop r -> stop r' ->
  a +:+ r = b +:+ r' -> a = b /\ r = r'.
Proof.
  intros Ha Hb Hr Hr'. revert b Hb.
  induction a as [| c a IH]; intros [| d b] Hb H; rewrite ?sapp_nil, ?sapp_cons in H; simpl in Ha, Hb.
  - auto.
  - subst r. destruct Hr as [-> | [-> | ->]]; discriminate Hb.
  - subst r'. destruct Hr' as [-> | [-> | ->]]; discriminate Ha.
  - injection H as -> H. apply andb_true_iff in Ha, Hb.
    destruct (IH (proj2 Ha) b (proj2 Hb) H) as [-> ->]. auto.
Qed.

(** *** The encoding is self-delimiting *)

Definition delimited {A} (f : A -> string) (a : A) : Prop :=
  forall b r r', stop r -> stop r' -> f a +:+ r = f b +:+ r' -> a = b /\ r = r'.

(** [f] never returns a string that starts with [stop]. *)
Definition visible {A} (f : A -> string) : Prop :=
  forall a r, exists c t, f a +:+ r = String c t /\ ~ stop (String c t).

Lemma join_cons (p : string) rest r :
  join "," (p :: rest) +:+ r
  = p +:+ (match rest with [] => r | _ => "," +:+ (join "," rest +:+ r) end).
Proof.
  destruct rest as [| q rest]; [reflexivity |].
  cbn [join]. rewrite !sapp_assoc. reflexivity.
Qed.

Definition closing (r : string) : Prop :=
  match r with
  | EmptyString => False
  | String c _ => c = Ascii.ascii_of_nat 93 \/ c = Ascii.ascii_of_nat 125
  end.

Lemma closing_stop r : closing r -> stop r.
Proof. destruct r; simpl; tauto. Qed.

Lemma join_inj {A} (f : A -> string) l l' r r' :
  visible f -> Forall (delimited f) l -> closing r -> closing r' ->
  join "," (map f l) +:+ r = join "," (map f l') +:+ r' -> l = l' /\ r = r'.
Proof.
  intros Hv Hl Hr Hr'. revert l'.
  induction Hl as [| x l Hx Hl IH]; intros [| y l']; cbn [map]; intros H.
  - auto.
  - exfalso. rewrite join_cons in H. cbn [join] in H. rewrite sapp_nil in H.
    edestruct (Hv y) as (c & t & Hc & Hn). rewrite Hc in H. subst r.
    apply Hn, closing_stop, Hr.
  - exfalso. rewrite join_cons in H. cbn [join] in H. rewrite sapp_nil in H.
    edestruct (Hv x) as (c & t & Hc & Hn). rewrite Hc in H. subst r'.
    apply Hn, closing_stop, Hr'.
  - rewrite !join_cons in H. apply Hx in H.
    + destruct H as [-> H]. destruct l as [| x1 l1], l' as [| y1 l1']; cbn [map] in H.
      * auto.
      * exfalso. subst r. destruct Hr; discriminate.
      * exfalso. subst r'. destruct Hr'; discriminate.
      * injection H as H. rewrite !sapp_nil in H. apply (IH (y1 :: l1')) in H.
        destruct H as [-> ->]. auto.
    + destruct l; [apply closing_stop, Hr | simpl; auto].
    + destruct l'; [apply closing_stop, Hr' | simpl; auto].
Qed.

Lemma print_first v r :
  exists c t, print v +:+ r = String c t
    /\ match v with
       | JNull => c = Ascii.ascii_of_nat 110
       | JBool b => c = if b then Ascii.ascii_of_nat 116 else Ascii.ascii_of_nat 102
       | JInt _ => numeric c = true
       | JStr _ => c = Ascii.ascii_of_nat 34
       | JArr _ => c = Ascii.ascii_of_nat 91
       | JObj _ => c = Ascii.ascii_of_nat 123
       end.
Proof.
  destruct v as [| [] | z | s | l | l]; cbn [print];
    try (eexists; eexists; split; [reflexivity | reflexivity]).
  destruct (pretty_first z) as (c & t & -> & Hc). eexists; eexists; split; [reflexivity | exact Hc].
Qed.

Lemma print_visible : visible print.
Proof.
  intros v r. destruct (print_first v r) as (c & t & Hc & Hv). exists c, t.
  split; [exact Hc |]. intros Hs. simpl in Hs.
  destruct v as [| [] | | | |]; destruct Hs as [-> | [-> | ->]]; discriminate Hv.
Qed.

Definition print_member (kv : string * json) : string := member (kv.1, print kv.2).

Lemma member_delimited kv : delimited print kv.2 -> delimited print_member kv.
Proof.
  intros Hv [k' v'] r r' Hr Hr' H. destruct kv as [k v]. unfold print_member, member in H.
  cbn [fst snd] in *. rewrite !sapp_assoc in H. apply quote_inj in H. destruct H as [-> H].
  injection H as H. rewrite !sapp_nil in H. apply Hv in H; auto. destruct H as [-> ->]. auto.
Qed.

Lemma member_visible : visible print_member.
Proof.
  intros [k v] r. unfold print_member, member, quote, dquote. cbn [fst snd].
  rewrite !sapp_assoc. eexists; eexists. split; [reflexivity |].
  intros [H | [H | H]]; discriminate H.
Qed.

Lemma print_delimited v : delimited print v.
Proof.
  induction v as [| b | z | s | l IH | l IH] using json_nested_ind;
    intros w r r' Hr Hr' H;
    match type of H with
    | print ?v +:+ _ = _ =>
        destruct (print_first v r) as (c & t & Hc & Hv);
        destruct (print_first w r') as (c' & t' & Hc' & Hw)
    end;
    assert (c = c') as <- by congruence.
  - destruct w as [| [] | | | |]; subst; try discriminate. injection H as H. rewrite !sapp_nil in H. auto.
  - destruct b, w as [| [] | | | |]; subst; try discriminate; injection H as H; rewrite !sapp_nil in H; auto.
  - destruct w as [| [] | z' | | |]; subst; try discriminate. cbn [print] in H.
    apply numeric_prefix in H; auto using pretty_numeric.
    destruct H as [H ->]. apply pretty_Z_inj in H. subst. auto.
  - destruct w as [| [] | | s' | |]; subst; try discriminate. cbn [print] in H.
    apply quote_inj in H. destruct H as [-> ->]. auto.
  - destruct w as [| [] | | | l' |]; subst; try discriminate.
    cbn [print] in H. rewrite !sapp_assoc in H. injection H as H. rewrite ?sapp_nil in H.
    apply (join_inj print) in H; simpl; auto using print_visible.
    destruct H as [-> H]. injection H as H. rewrite !sapp_nil in H. auto.
  - destruct w as [| [] | | | | l']; subst; try discriminate.
    cbn [print] in H. rewrite !sapp_assoc in H. injection H as H. rewrite ?sapp_nil in H.
    rewrite !map_map in H. apply (join_inj print_member) in H; simpl; auto using member_visible.
    + destruct H as [-> H]. injection H as H. rewrite !sapp_nil in H. auto.
    + eapply Forall_impl; [exact IH |]. intros kv. apply member_delimited.
Qed.

Lemma encode_canon v w : _encode v = _encode w -> canon v = canon w.
Proof.
  rewrite !encode_print. intros H.
  apply (print_delimited (canon v) (canon w) "" ""); simpl; auto. congruence.
Qed.

(** C34. Canonical JSON is unambiguous: two values have the same encoding exactly
    when they are equal up to the order of object members. *)
Theorem encode_unambiguous v w : _encode v = _encode w <-> canon v = canon w.
Proof.
  split; [apply encode_canon |]. rewrite !encode_print. congruence.
Qed.

(** ** Order independence *)

Lemma str_leb_refl s : str_leb s s = true.
Proof. induction s; simpl; [reflexivity | rewrite Ascii.eqb_refl; assumption]. Qed.

Lemma nat_of_ascii_inj c d : Ascii.nat_of_ascii c = Ascii.nat_of_ascii d -> c = d.
Proof.
  intros H. apply (f_equal Ascii.ascii_of_nat) in H. rewrite !Ascii.ascii_nat_embedding in H.
  exact H.
Qed.

Lemma str_leb_total s t : str_leb s t = true \/ str_leb t s = true.
Proof.
  revert t. induction s as [| c s IH]; intros [| d t]; simpl; auto.
  rewrite (Ascii.eqb_sym d c). destruct (Ascii.eqb_spec c d) as [-> | Hcd]; [apply IH |].
  rewrite !Nat.ltb_lt. assert (Ascii.nat_of_ascii c <> Ascii.nat_of_ascii d); [| lia].
  intros H. apply Hcd, nat_of_ascii_inj, H.
Qed.

Lemma str_leb_antisym s t : str_leb s t = true -> str_leb t s = true -> s = t.
Proof.
  revert t. induction s as [| c s IH]; intros [| d t]; simpl; auto; try discriminate.
  rewrite (Ascii.eqb_sym d c). destruct (Ascii.eqb_spec c d) as [-> | Hcd].
  - intros H1 H2. rewrite (IH t); auto.
  - rewrite !Nat.ltb_lt. lia.
Qed.

Lemma str_leb_trans s t u : str_leb s t = true -> str_leb t u = true -> str_leb s u = true.
Proof.
  revert t u. induction s as [| c s IH]; intros [| d t] [| e u]; simpl; auto; try discriminate.
  destruct (Ascii.eqb_spec c d) as [-> | Hcd], (Ascii.eqb_spec d e) as [-> | Hde];
    rewrite ?Nat.ltb_lt.
  - rewrite ?Ascii.eqb_refl. apply IH.
  - auto.
  - intros H _. destruct (Ascii.eqb_spec c e); [congruence | apply Nat.ltb_lt; exact H].
  - intros H1 H2. destruct (Ascii.eqb_spec c e) as [-> |]; [lia | apply Nat.ltb_lt; lia].
Qed.

Section sort_by.
Context {A : Type} (le : A -> A -> bool).
Hypothesis le_total : forall x y, le x y = true \/ le y x = true.
Hypothesis le_trans : forall x y z, le x y = true -> le y z = true -> le x z = true.

Lemma insert_by_perm x l : insert_by le x l ≡ₚ x :: l.
Proof.
  induction l as [| y l IH]; simpl; [reflexivity |].
  destruct (le x y); [reflexivity |]. rewrite IH. apply Permutation_swap.
Qed.

Lemma sort_by_perm l : sort_by le l ≡ₚ l.
Proof.
  induction l as [| x l IH]; simpl; [reflexivity |].
  rewrite insert_by_perm, IH. reflexivity.
Qed.

Lemma insert_by_sorted x l :
  StronglySorted (fun a b => le a b = true) l ->
  StronglySorted (fun a b => le a b = true) (insert_by le x l).
Proof.
  induction 1 as [| y l Hl IH Hy]; simpl; [repeat constructor |].
  destruct (le x y) eqn:Hxy.
  - constructor; [constructor; assumption |]. constructor; [exact Hxy |].
    eapply Forall_impl; [exact Hy |]. intros z. apply le_trans. exact Hxy.
  - constructor; [exact IH |]. rewrite insert_by_perm. constructor; [| exact Hy].
    destruct (le_total x y); congruence.
Qed.

Lemma sort_by_sorted l : StronglySorted (fun a b => le a b = true) (sort_by le l).
Proof. induction l; simpl; [constructor | apply insert_by_sorted; assumption]. Qed.

(** Sorting forgets the order of the input when [le] separates its elements. *)
Lemma sort_by_unique l l' :
  (forall x y, x ∈ l -> y ∈ l -> le x y = true -> le y x = true -> x = y) ->
  l ≡ₚ l' -> sort_by le l = sort_by le l'.
Proof.
  intros Hanti Hp.
  assert (Hq : sort_by le l ≡ₚ sort_by le l') by (rewrite !sort_by_perm; exact Hp).
  assert (Ha : forall x y, x ∈ sort_by le l -> y ∈ sort_by le l ->
                 le x y = true -> le y x = true -> x = y).
  { intros x y. rewrite !sort_by_perm. apply Hanti. }
  clear Hp Hanti. pose proof (sort_by_sorted l) as Hs. pose proof (sort_by_sorted l') as Hs'.
  revert Hq Ha Hs Hs'. generalize (sort_by le l) (sort_by le l'). clear l l'.
  induction l as [| x l IH]; intros l' Hq Ha Hs Hs'.
  - apply Permutation_nil_l in Hq. congruence.
  - destruct l' as [| y l']; [apply Permutation_nil_r in Hq; discriminate |].
    inversion Hs as [| ? ? Hl Hx]; inversion Hs' as [| ? ? Hl' Hy]; subst.
    assert (x = y) as <-.
    { assert (Hxin : x ∈ y :: l') by (rewrite <- Hq; left).
      assert (Hyin : y ∈ x :: l) by (rewrite Hq; left).
      apply Ha; [left | exact Hyin | |].
      - apply elem_of_cons in Hyin. destruct Hyin as [-> | Hin];
          [destruct (le_total x x); assumption |].
        rewrite Forall_forall in Hx. apply Hx, Hin.
      - apply elem_of_cons in Hxin. destruct Hxin as [-> | Hin];
          [destruct (le_total y y); assumption |].
        rewrite Forall_forall in Hy. apply Hy, Hin. }
    f_equal. apply IH; auto.
    + apply (Permutation_cons_inv (a := x)). exact Hq.
    + intros a b Hain Hbin. apply Ha; right; assumption.
Qed.
End sort_by.

Lemma key_leb_total {A} (x y : string * A) : key_leb x y = true \/ key_leb y x = true.
Proof. apply str_leb_total. Qed.
Lemma key_leb_trans {A} (x y z : string * A) :
  key_leb x y = true -> key_leb y z = true -> key_leb x z = true.
Proof. apply str_leb_trans. Qed.

Lemma unique_keys {A} (l : list (string * A)) x y :
  NoDup (map fst l) -> x ∈ l -> y ∈ l -> x.1 = y.1 -> x = y.
Proof.
  induction l as [| z l IH]; simpl; intros Hn Hx Hy Hk; [inversion Hx |].
  apply NoDup_cons in Hn. destruct Hn as [Hz Hn].
  apply elem_of_cons in Hx, Hy.
  destruct Hx as [-> | Hx], Hy as [-> | Hy]; auto; exfalso; apply Hz.
  - rewrite Hk. apply list_elem_of_fmap_2. exact Hy.
  - rewrite <- Hk. apply list_elem_of_fmap_2. exact Hx.
Qed.

(** A dictionary's insertion order does not reach its canonical bytes, nor
    therefore its content hash. *)
Theorem encode_member_order members members' :
  NoDup (map fst members) -> members ≡ₚ members' ->
  _encode (JObj members) = _encode (JObj members').
Proof.
  intros Hn Hp. rewrite !encode_print. f_equal. cbn [canon]. f_equal.
  apply sort_by_unique; [apply key_leb_total | apply key_leb_trans | |].
  - intros x y Hx Hy H1 H2.
    eapply unique_keys; [| exact Hx | exact Hy | apply str_leb_antisym; assumption].
    rewrite map_map. exact Hn.
  - apply Permutation_map. exact Hp.
Qed.

(** *** Lists whose order carries no meaning *)

Lemma normalize_sequence policy reject path l :
  _normalize policy reject path (VSequence l)
  = let! js := map_result (_normalize policy reject (path ++ ["*"])) l in
    let! js := sort_items policy path js in Ok (JArr js).
Proof.
  simpl. f_equal.
  induction l as [| x l IH]; simpl; [reflexivity | rewrite IH; reflexivity].
Qed.

Lemma sort_key_None items : map_result (sort_key None) items = Ok (map _encode items).
Proof. induction items as [| x l IH]; simpl; [reflexivity | rewrite IH; reflexivity]. Qed.

Lemma encode_sorted_items items :
  map _encode (map snd (sort_by key_leb (zip (map _encode items) items)))
  = sort_by str_leb (map _encode items).
Proof.
  assert (Hf : map fst (zip (map _encode items) items) = map _encode items).
  { induction items; simpl; congruence. }
  rewrite <- Hf at 2. rewrite (sort_by_map fst key_leb str_leb) by reflexivity.
  rewrite map_map. apply map_ext_Forall.
  rewrite sort_by_perm. clear Hf.
  induction items as [| x l IH]; simpl; constructor; auto.
Qed.

Lemma map_result_perm {A B} (f : A -> result B) l l' ys :
  l ≡ₚ l' -> map_result f l = Ok ys -> exists ys', map_result f l' = Ok ys' /\ ys ≡ₚ ys'.
Proof.
  intros Hp. revert ys.
  induction Hp as [| x l l' Hp IH | x y l | l1 l2 l3 _ IH1 _ IH2]; intros ys H.
  - exists ys. auto.
  - unguard H. injection H as <-. destruct (IH _ eq_refl) as (ys' & Hl' & Hy).
    exists (x0 :: ys'). simpl. rewrite Hl', E. simpl. split; [| rewrite Hy]; reflexivity.
  - unguard H. unguard E0. injection H as <-. injection E0 as <-.
    eexists. simpl. rewrite E, E1. simpl. rewrite E2. simpl.
    split; [reflexivity | apply Permutation_swap].
  - destruct (IH1 _ H) as (ys1 & H1 & Hy1). destruct (IH2 _ H1) as (ys2 & H2 & Hy2).
    exists ys2. split; [exact H2 | rewrite Hy1; exact Hy2].
Qed.

(** Under a set-list policy the order of the listed items does not reach the
    canonical bytes either. *)
Theorem canonical_set_list policy l l' b :
  policy_key policy [] = Some None -> l ≡ₚ l' ->
  canonical_bytes policy (VSequence l) = Ok b ->
  canonical_bytes policy (VSequence l') = Ok b.
Proof.
  unfold canonical_bytes. intros Hk Hp. rewrite !normalize_sequence.
  destruct (map_result _ l) as [js | e] eqn:Hjs; [| discriminate].
  destruct (map_result_perm _ _ _ _ Hp Hjs) as (js' & -> & Hq). simpl.
  unfold sort_items. rewrite Hk, !sort_key_None. simpl. rewrite !encode_sorted_items.
  intros [= <-]. do 4 f_equal. symmetry.
  apply sort_by_unique; [apply str_leb_total | apply str_leb_trans | |].
  - intros x y _ _. apply str_leb_antisym.
  - apply Permutation_map. exact Hq.
Qed.

(** A content hash is the digest of the canonical bytes. *)
Lemma content_hash_bytes policy v h :
  content_hash policy v = Ok h ->
  exists j, _normalize policy true [] v = Ok j /\ h = sha256 (_encode j).
Proof.
  unfold content_hash. intros H. apply rbind_Ok in H. destruct H as (j & Hj & [= <-]). eauto.
Qed.
