(* ===== verification/Store.v ===== *)
(** * The record store

    [storage/codec.py] and [storage/repositories.py]: immutable candidate
    records staged by id, and the published revisions over them. A transaction
    is a function of the tables that returns the tables it commits; an
    exception rolls it back. *)
From S2P Require Import Prelude Records Hash CanonicalJson.

(** ** The contract between the store and the record models *)

(** What the store reads of a contract model: its [meta], its [host_id]
    attribute, the fields [_normalize] visits, and [model_validate_json] of the
    class registered for a record kind ([RESULT_REGISTRY] before
    [CORE_SCHEMAS]). *)
Class StoredRecord (R : Type) := {
  rec_meta : R -> RecordMetadata;
  rec_host_id : R -> option string;
  rec_value : R -> value;
  schema : string -> option (string -> result R);
}.

(** Documented behaviour of the models: JSON validation of a model's own JSON
    gives the model back, that JSON shows the [record_type], and a validated
    model has passed [RevisionMeta.revision_shape]. *)
Class StoredRecordLaws (R : Type) `{StoredRecord R} : Prop := {
  parse_canonical r model payload r' :
    schema (record_type (meta_rev (rec_meta r))) = Some model ->
    canonical_bytes [] (rec_value r) = Ok payload ->
    model payload = Ok r' -> r' = r;
  bytes_kind r r' payload :
    canonical_bytes [] (rec_value r) = Ok payload ->
    canonical_bytes [] (rec_value r') = Ok payload ->
    record_type (meta_rev (rec_meta r)) = record_type (meta_rev (rec_meta r'));
  parse_shape kind model payload r :
    schema kind = Some model -> model payload = Ok r ->
    revision_shape (meta_rev (rec_meta r)) = Ok tt;
}.

(** ** Tables *)

Record Row := mkRow {
  row_logical : string;
  row_revision : Z;
  row_kind : string;
  row_hash : string;
  row_payload : string;
  row_ref : RecordRef;
}.

(** The tables [records] and [record_revisions], each keyed by [record_id];
    a revision row holds its [logical_record_id] and [revision_number]. *)
Record Store := mkStore {
  records : gmap string Row;
  record_revisions : gmap string (string * Z);
}.

Definition empty_store : Store := mkStore ∅ ∅.

Section store.
Context {R : Type} `{StoredRecord R}.

Definition rec_rev (r : R) : RevisionMeta := meta_rev (rec_meta r).

(** [codec.decode(kind, payload)] *)
Definition decode (kind payload : string) : result R :=
  match schema kind with
  | None => Err (ValueError "Unknown record kind")
  | Some model =>
      let! r := model payload in
      raise_if neqb (record_type (rec_rev r)) kind with "RECORD_KIND_MISMATCH" ;;
      Ok r
  end.

(** [codec.encode(record)] *)
Definition encode (r : R) : result string :=
  let! payload := canonical_bytes [] (rec_value r) in
  let! _ := decode (record_type (rec_rev r)) payload in
  Ok payload.

(** [reference(record)] *)
Definition reference (r : R) : result RecordRef :=
  let! h := content_hash [] (rec_value r) in
  Ok (reference_of (rec_meta r) h (rec_host_id r)).

(** [str(ref.record_id)] *)
Definition ref_key (ref : RecordRef) : string :=
  match ref_record_id ref with Some id => id | None => "None" end.

(** [SQLiteRecordStore.stage] *)
Definition stage (s : Store) (r : R) : result (RecordRef * Store) :=
  let! payload := encode r in
  let! ref := reference r in
  match records s !! record_id (rec_rev r) with
  | Some old =>
      raise_if neqb (row_payload old) payload
        with "RECORD_REVISION_MISMATCH: immutable record ID" ;;
      Ok (row_ref old, s)
  | None =>
      let row := mkRow (logical_record_id (rec_rev r)) (revision_number (rec_rev r))
                   (record_type (rec_rev r)) (ref_content_hash ref) payload ref in
      Ok (ref, mkStore (<[record_id (rec_rev r) := row]> (records s)) (record_revisions s))
  end.

(** The row a key selects, joined with [record_revisions] unless [candidate]. *)
Definition select_row (s : Store) (candidate : bool) (key : string) : option Row :=
  if candidate || is_some (record_revisions s !! key) then records s !! key else None.

(** [SQLiteRecordStore.resolve] *)
Definition resolve (s : Store) (ref : RecordRef) (candidate : bool) : result R :=
  match select_row s candidate (ref_key ref) with
  | None => Err (LookupError "Exact record is not published")
  | Some row =>
      raise_if neqb (row_ref row) ref with "RECORD_REVISION_MISMATCH: exact reference" ;;
      let! r := decode (row_kind row) (row_payload row) in
      let! h := content_hash [] (rec_value r) in
      raise_if neqb h (ref_content_hash ref) with "HASH_MISMATCH" ;;
      Ok r
  end.

(** Insertion into [record_revisions] under its primary key and
    [UniqueConstraint("logical_record_id", "revision_number")]. *)
Definition insert_revision (s : Store) (id logical : string) (revision : Z) : result Store :=
  if is_some (record_revisions s !! id)
     || mem (logical, revision) (map snd (map_to_list (record_revisions s)))
  then Err IntegrityError
  else Ok (mkStore (records s) (<[id := (logical, revision)]> (record_revisions s))).

(** [SQLiteRecordStore.publish] *)
Definition publish (s : Store) (ref : RecordRef) : result Store :=
  let! r := resolve s ref true in
  let m := rec_rev r in
  if is_some (record_revisions s !! record_id m) then Ok s
  else
    do! match previous_record_id m with
        | None => Ok tt
        | Some prev =>
            match select_row s false prev with
            | None => Err (ValueError "Missing published predecessor")
            | Some row =>
                let! p := decode (row_kind row) (row_payload row) in
                validate_revision (rec_meta p) (rec_meta r)
            end
        end ;;
    insert_revision s (record_id m) (logical_record_id m) (revision_number m).

(** The [while] loop of [is_revision_descendant]; [None] is fuel exhausted,
    which [descends_fuel] below excludes for the fuel it is given. *)
Fixpoint descend (fuel : nat) (s : Store) (earlier_ref : RecordRef) (earlier_id : string)
  (visited : list string) (current : R) : option (result bool) :=
  match fuel with
  | O => None
  | S fuel =>
      let m := rec_rev current in
      if eqb (record_id m) earlier_id then
        Some (let! ref := reference current in Ok (eqb ref earlier_ref))
      else if mem (record_id m) visited then Some (Ok false)
      else
        match previous_record_id m with
        | None => Some (Ok false)
        | Some prev =>
            match select_row s false prev with
            | None => Some (Ok false)
            | Some row =>
                match (let! p := decode (row_kind row) (row_payload row) in
                       do! validate_revision (rec_meta p) (rec_meta current) ;;
                       Ok p) with
                | Err e => Some (Err e)
                | Ok p => descend fuel s earlier_ref earlier_id (record_id m :: visited) p
                end
            end
        end
  end.

Definition descend_fuel (s : Store) : nat := S (S (size (record_revisions s))).

(** [SQLiteRecordStore.is_revision_descendant] *)
Definition is_revision_descendant (s : Store) (earlier_ref later_ref : RecordRef)
  : option (result bool) :=
  match resolve s earlier_ref false with
  | Err e => Some (Err e)
  | Ok earlier =>
      match resolve s later_ref false with
      | Err e => Some (Err e)
      | Ok current =>
          if neqb (meta_kind (rec_meta earlier)) (meta_kind (rec_meta current))
             || neqb (logical_record_id (rec_rev earlier)) (logical_record_id (rec_rev current))
             || neqb (record_type (rec_rev earlier)) (record_type (rec_rev current))
             || (revision_number (rec_rev current) <? revision_number (rec_rev earlier))
          then Some (Ok false)
          else descend (descend_fuel s) s earlier_ref (record_id (rec_rev earlier)) [] current
      end
  end.
End store.

(** ** Lemmas *)

Lemma select_row_Some s c key row :
  select_row s c key = Some row <->
  records s !! key = Some row /\ (c = true \/ is_Some (record_revisions s !! key)).
Proof.
  unfold select_row. destruct c; simpl; [intuition auto |].
  destruct (record_revisions s !! key); simpl; split.
  - eauto.
  - tauto.
  - discriminate.
  - intros [_ [Hd | [? Hd]]]; discriminate.
Qed.

Lemma reference_of_id meta h host :
  ref_record_id (reference_of meta h host) = Some (record_id (meta_rev meta)).
Proof. destruct meta as [m | m]; [destruct m as [? ? [|]], host |]; reflexivity. Qed.

Lemma reference_of_hash meta h host : ref_content_hash (reference_of meta h host) = h.
Proof. destruct meta as [m | m]; [destruct m as [? ? [|]], host |]; reflexivity. Qed.

Section store_laws.
Context {R : Type} `{StoredRecordLaws R}.
Implicit Types (s : Store) (r : R).

(** The row [stage] writes for a record. *)
Definition row_holds (row : Row) r : Prop :=
  encode r = Ok (row_payload row) /\ reference r = Ok (row_ref row)
  /\ row_logical row = logical_record_id (rec_rev r)
  /\ row_revision row = revision_number (rec_rev r)
  /\ row_kind row = record_type (rec_rev r)
  /\ row_hash row = ref_content_hash (row_ref row).

Lemma encode_decode r payload :
  encode r = Ok payload -> decode (record_type (rec_rev r)) payload = Ok r.
Proof.
  unfold encode. intros He. apply rbind_Ok in He. destruct He as (b & Hb & He).
  apply rbind_Ok in He. destruct He as (r' & Hd & [= ->]).
  rewrite Hd. f_equal. unfold decode in Hd.
  destruct (schema _) as [model |] eqn:Hs; [| discriminate]. unguard Hd.
  injection Hd as ->. eapply parse_canonical; eauto.
Qed.

Lemma encode_shape r payload : encode r = Ok payload -> revision_shape (rec_rev r) = Ok tt.
Proof.
  intros He. apply encode_decode in He. unfold decode in He.
  destruct (schema _) as [model |] eqn:Hs; [| discriminate]. unguard He.
  injection He as ->. eapply parse_shape; eauto.
Qed.

Lemma row_decode row r : row_holds row r -> decode (row_kind row) (row_payload row) = Ok r.
Proof. intros (He & _ & _ & _ & -> & _). apply encode_decode, He. Qed.

Lemma row_holds_inj row r r' : row_holds row r -> row_holds row r' -> r = r'.
Proof. intros H1 H2. apply row_decode in H1, H2. congruence. Qed.

Lemma reference_key r ref : reference r = Ok ref -> ref_key ref = record_id (rec_rev r).
Proof.
  unfold reference. intros Hr. unguard Hr. injection Hr as <-.
  unfold ref_key. rewrite reference_of_id. reflexivity.
Qed.

Lemma reference_hash r ref :
  reference r = Ok ref -> content_hash [] (rec_value r) = Ok (ref_content_hash ref).
Proof.
  unfold reference. intros Hr. unguard Hr. injection Hr as <-.
  rewrite reference_of_hash. reflexivity.
Qed.

(** *** The invariant *)

Definition published s r : Prop :=
  exists row, select_row s false (record_id (rec_rev r)) = Some row /\ row_holds row r.

Record store_wf s : Prop := {
  wf_rows id row :
    records s !! id = Some row -> exists r, record_id (rec_rev r) = id /\ row_holds row r;
  wf_revisions id key :
    record_revisions s !! id = Some key ->
    exists row, records s !! id = Some row /\ key = (row_logical row, row_revision row);
  wf_unique i j key :
    record_revisions s !! i = Some key -> record_revisions s !! j = Some key -> i = j;
  wf_chain r prev :
    published s r -> previous_record_id (rec_rev r) = Some prev ->
    exists p, published s p /\ record_id (rec_rev p) = prev
      /\ validate_revision (rec_meta p) (rec_meta r) = Ok tt;
}.

Lemma published_id s r r' :
  published s r -> published s r' -> record_id (rec_rev r) = record_id (rec_rev r') -> r = r'.
Proof.
  intros (row & Hr & Hh) (row' & Hr' & Hh') Hid. rewrite Hid in Hr.
  replace row' with row in Hh' by congruence. eapply row_holds_inj; eauto.
Qed.

Lemma published_row s r :
  published s r <->
  (exists row, records s !! record_id (rec_rev r) = Some row /\ row_holds row r)
  /\ is_Some (record_revisions s !! record_id (rec_rev r)).
Proof.
  unfold published. split.
  - intros (row & Hs & Hh). apply select_row_Some in Hs.
    destruct Hs as [Hr [? | Hp]]; [discriminate |]. eauto.
  - intros ((row & Hr & Hh) & Hp). exists row. rewrite select_row_Some. auto.
Qed.

Lemma published_shape s r : published s r -> revision_shape (rec_rev r) = Ok tt.
Proof. intros (row & _ & (He & _)). eapply encode_shape, He. Qed.

(** [resolve] returns exactly the record its reference was made from. *)
Lemma resolve_Ok s ref c r :
  store_wf s ->
  resolve s ref c = Ok r <->
  reference r = Ok ref
  /\ exists row, select_row s c (record_id (rec_rev r)) = Some row /\ row_holds row r.
Proof.
  intros Hwf. unfold resolve. split.
  - destruct (select_row s c (ref_key ref)) as [row |] eqn:Hs; [| discriminate].
    intros Hr. unguard Hr. injection Hr as ->. boolify. subst ref.
    pose proof Hs as Hs'. apply select_row_Some in Hs'. destruct Hs' as [Hrow _].
    destruct (wf_rows _ Hwf _ _ Hrow) as (r' & Hid & Hh).
    pose proof (row_decode _ _ Hh) as Hd. replace r' with r in * by congruence.
    split; [apply Hh |]. exists row. rewrite Hid. auto.
  - intros (Href & row & Hs & Hh). rewrite (reference_key _ _ Href), Hs.
    rewrite (row_decode _ _ Hh). destruct Hh as (_ & Hh & _).
    replace (row_ref row) with ref by congruence.
    rewrite bool_decide_eq_true_2 by reflexivity. simpl.
    rewrite (reference_hash _ _ Href). simpl.
    rewrite bool_decide_eq_true_2 by reflexivity. reflexivity.
Qed.

Lemma resolve_published s ref r :
  store_wf s -> resolve s ref false = Ok r <-> reference r = Ok ref /\ published s r.
Proof. apply resolve_Ok. Qed.

(** *** [stage] *)

Lemma encode_inj r r' payload : encode r = Ok payload -> encode r' = Ok payload -> r = r'.
Proof.
  intros Hr Hr'. pose proof (encode_decode _ _ Hr) as Hd.
  pose proof (encode_decode _ _ Hr') as Hd'.
  replace (record_type (rec_rev r)) with (record_type (rec_rev r')) in Hd by
    (apply rbind_Ok in Hr; destruct Hr as (b & Hb & Hr);
     apply rbind_Ok in Hr; destruct Hr as (? & _ & [= ->]);
     apply rbind_Ok in Hr'; destruct Hr' as (b' & Hb' & Hr');
     apply rbind_Ok in Hr'; destruct Hr' as (? & _ & [= ->]);
     eapply bytes_kind; eauto).
  congruence.
Qed.

Lemma stage_Ok s r ref s' :
  store_wf s -> stage s r = Ok (ref, s') ->
  exists row, row_holds row r /\ row_ref row = ref
    /\ record_revisions s' = record_revisions s
    /\ records s' = <[record_id (rec_rev r) := row]> (records s)
    /\ (records s !! record_id (rec_rev r) = None
        \/ records s !! record_id (rec_rev r) = Some row).
Proof.
  intros Hwf. unfold stage. intros Hs.
  apply rbind_Ok in Hs. destruct Hs as (payload & He & Hs).
  apply rbind_Ok in Hs. destruct Hs as (href & Href & Hs).
  destruct (records s !! _) as [old |] eqn:Hold.
  - unguard Hs. injection Hs as <- <-. boolify.
    destruct (wf_rows _ Hwf _ _ Hold) as (r' & Hid & Hh). exists old.
    replace r' with r in *.
    + repeat split; auto; try apply Hh. rewrite insert_id; auto.
    + eapply encode_inj; [exact He |]. rewrite <- G. apply Hh.
  - injection Hs as <- <-. eexists (mkRow _ _ _ _ _ _). simpl.
    repeat split; eauto.
Qed.

Lemma stage_published s r ref s' r' :
  store_wf s -> stage s r = Ok (ref, s') -> published s' r' <-> published s r'.
Proof.
  intros Hwf Hs. destruct (stage_Ok _ _ _ _ Hwf Hs) as (row & _ & _ & Hrev & Hrec & Hold).
  rewrite !published_row, Hrev, Hrec.
  destruct (decide (record_id (rec_rev r) = record_id (rec_rev r'))) as [<- | Hne].
  - rewrite lookup_insert_eq. destruct Hold as [Hold | ->]; [| reflexivity].
    rewrite Hold. split.
    + intros [_ [key Hk]]. destruct (wf_revisions _ Hwf _ _ Hk) as (? & ? & _). congruence.
    + intros [(? & ? & _) _]. discriminate.
  - rewrite lookup_insert_ne by exact Hne. reflexivity.
Qed.

Lemma stage_wf s r ref s' : store_wf s -> stage s r = Ok (ref, s') -> store_wf s'.
Proof.
  intros Hwf Hs. pose proof (fun r' => stage_published _ _ _ _ r' Hwf Hs) as Hpub.
  destruct (stage_Ok _ _ _ _ Hwf Hs) as (row & Hh & _ & Hrev & Hrec & Hold). split.
  - intros id row'. rewrite Hrec, lookup_insert_Some.
    intros [[<- <-] | [_ Hr]]; [eauto | eapply wf_rows; eauto].
  - intros id key. rewrite Hrev. intros Hk.
    destruct (wf_revisions _ Hwf _ _ Hk) as (row' & Hr & Hkey). exists row'. split; [| exact Hkey].
    rewrite Hrec, lookup_insert_Some.
    destruct (decide (record_id (rec_rev r) = id)) as [<- | Hne]; [left | right]; auto.
    split; [reflexivity |]. destruct Hold; congruence.
  - rewrite Hrev. apply wf_unique, Hwf.
  - intros r' prev Hp Hprev. apply Hpub in Hp.
    destruct (wf_chain _ Hwf _ _ Hp Hprev) as (p & Hpp & ? & ?).
    exists p. rewrite Hpub. auto.
Qed.

(** *** [publish] *)

Lemma publish_Ok s ref s' :
  store_wf s -> publish s ref = Ok s' ->
  exists r row, reference r = Ok ref /\ row_holds row r
    /\ records s !! record_id (rec_rev r) = Some row
    /\ records s' = records s
    /\ ((s' = s /\ published s r)
        \/ (record_revisions s !! record_id (rec_rev r) = None
            /\ record_revisions s' = <[record_id (rec_rev r) := (row_logical row, row_revision row)]>
                                       (record_revisions s)
            /\ (forall id, record_revisions s !! id <> Some (row_logical row, row_revision row))
            /\ forall prev, previous_record_id (rec_rev r) = Some prev ->
                 exists p, published s p /\ record_id (rec_rev p) = prev
                   /\ validate_revision (rec_meta p) (rec_meta r) = Ok tt)).
Proof.
  intros Hwf Hp. unfold publish in Hp. apply rbind_Ok in Hp. destruct Hp as (r & Hres & Hp).
  apply (resolve_Ok _ _ _ _ Hwf) in Hres. destruct Hres as (Href & row & Hrow & Hh).
  apply select_row_Some in Hrow. destruct Hrow as [Hrow _].
  exists r, row. split; [exact Href |]. split; [exact Hh |]. split; [exact Hrow |].
  destruct (record_revisions s !! record_id (rec_rev r)) as [key |] eqn:Hkey; simpl in Hp.
  - injection Hp as <-. split; [reflexivity |]. left. split; [reflexivity |].
    apply published_row. eauto.
  - apply rbind_Ok in Hp. destruct Hp as ([] & Hprev & Hins).
    unfold insert_revision in Hins. rewrite Hkey in Hins. simpl in Hins.
    destruct (mem _ _) eqn:Hmem; [discriminate |]. injection Hins as <-.
    pose proof Hh as (_ & _ & Hl & Hv & _). rewrite Hl, Hv.
    split; [reflexivity |]. right. split; [reflexivity |]. split; [reflexivity |]. split.
    + intros id Hid. apply mem_false in Hmem. apply Hmem.
      apply list_elem_of_fmap. exists (id, (logical_record_id (rec_rev r), revision_number (rec_rev r))).
      split; [reflexivity |]. apply elem_of_map_to_list. exact Hid.
    + intros prev Hpr. rewrite Hpr in Hprev.
      destruct (select_row s false prev) as [prow |] eqn:Hsel; [| discriminate].
      apply rbind_Ok in Hprev. destruct Hprev as (p & Hd & Hval).
      pose proof Hsel as Hsel'. apply select_row_Some in Hsel'. destruct Hsel' as [Hprow _].
      destruct (wf_rows _ Hwf _ _ Hprow) as (p' & Hid & Hph).
      pose proof (row_decode _ _ Hph) as Hd'. replace p' with p in * by congruence.
      exists p. split; [| auto]. exists prow. rewrite Hid. auto.
Qed.

Lemma publish_published s ref s' r' :
  store_wf s -> publish s ref = Ok s' ->
  published s' r' <-> published s r' \/
    (reference r' = Ok ref /\ exists row, records s !! record_id (rec_rev r') = Some row
                                       /\ row_holds row r').
Proof.
  intros Hwf Hp. destruct (publish_Ok _ _ _ Hwf Hp)
    as (r & row & Href & Hh & Hrow & Hrec & Hcase).
  assert (Hsame : reference r' = Ok ref ->
                  (exists row', records s !! record_id (rec_rev r') = Some row' /\ row_holds row' r') ->
                  r' = r).
  { intros Href' (row' & Hrow' & Hh').
    rewrite <- (reference_key _ _ Href'), (reference_key _ _ Href) in Hrow'.
    eapply row_holds_inj; [exact Hh' |]. replace row' with row by congruence. exact Hh. }
  destruct Hcase as [[-> Hpub] | (Hnone & Hrev & _)].
  - split; [tauto |]. intros [? | [? ?]]; [assumption |]. rewrite (Hsame); auto.
  - rewrite !published_row, Hrec, Hrev. split.
    + intros [(row' & Hrow' & Hh') Hk].
      destruct (decide (record_id (rec_rev r) = record_id (rec_rev r'))) as [He | Hne].
      * right. assert (r' = r) as ->; [| eauto].
        eapply row_holds_inj; [exact Hh' |]. replace row' with row by congruence. exact Hh.
      * rewrite lookup_insert_ne in Hk by exact Hne. left. eauto.
    + intros [[Hr Hk] | [Href' Hr]].
      * split; [exact Hr |]. apply lookup_insert_is_Some'. auto.
      * rewrite (Hsame Href' Hr) in *. split; [eauto |]. rewrite lookup_insert_eq. eauto.
Qed.

Lemma publish_wf s ref s' : store_wf s -> publish s ref = Ok s' -> store_wf s'.
Proof.
  intros Hwf Hp. pose proof (fun r => publish_published _ _ _ r Hwf Hp) as Hpub.
  destruct (publish_Ok _ _ _ Hwf Hp) as (r & row & Href & Hh & Hrow & Hrec & Hcase).
  destruct Hcase as [[-> _] | (Hnone & Hrev & Hfresh & Hprev)]; [exact Hwf |]. split.
  - rewrite Hrec. apply wf_rows, Hwf.
  - intros id key. rewrite Hrev, Hrec, lookup_insert_Some.
    intros [[<- <-] | [_ Hk]]; [eauto | eapply wf_revisions; eauto].
  - intros i j key. rewrite Hrev, !lookup_insert_Some.
    intros [[<- <-] | [_ Hi]] [[<- Hj] | [_ Hj]]; auto.
    + destruct (Hfresh _ Hj).
    + subst key. destruct (Hfresh _ Hi).
    + eapply wf_unique; eauto.
  - intros r' prev Hp' Hprev'. apply Hpub in Hp'.
    assert (exists p, published s p /\ record_id (rec_rev p) = prev
              /\ validate_revision (rec_meta p) (rec_meta r') = Ok tt) as (p & Hpp & ? & ?).
    { destruct Hp' as [Hp' | (Href' & row' & Hrow' & Hh')].
      - eapply wf_chain; eauto.
      - assert (r' = r) as ->; [| auto].
        rewrite <- (reference_key _ _ Href'), (reference_key _ _ Href) in Hrow'.
        eapply row_holds_inj; [exact Hh' |]. replace row' with row by congruence. exact Hh. }
    exists p. rewrite Hpub. auto.
Qed.

(** *** Reachable stores *)

Inductive store_step s s' : Prop :=
| step_stage r ref : stage s r = Ok (ref, s') -> store_step s s'
| step_publish ref : publish s ref = Ok s' -> store_step s s'.

Lemma store_step_wf s s' : store_wf s -> store_step s s' -> store_wf s'.
Proof. intros Hwf [r ref Hs | ref Hp]; eauto using stage_wf, publish_wf. Qed.

Lemma empty_store_wf : store_wf empty_store.
Proof.
  split; simpl.
  - intros id row. rewrite lookup_empty. discriminate.
  - intros id key. rewrite lookup_empty. discriminate.
  - intros i j key. rewrite lookup_empty. discriminate.
  - intros r prev (row & Hrow & _). apply select_row_Some in Hrow.
    destruct Hrow as [Hrow _]. simpl in Hrow. rewrite lookup_empty in Hrow. discriminate.
Qed.

Lemma store_steps_wf s s' : rtc store_step s s' -> store_wf s -> store_wf s'.
Proof. induction 1; eauto using store_step_wf. Qed.

(** A step adds to the tables and changes nothing in them. *)
Lemma store_step_mono s s' :
  store_wf s -> store_step s s' ->
  records s ⊆ records s' /\ record_revisions s ⊆ record_revisions s'.
Proof.
  intros Hwf [r ref Hs | ref Hp].
  - destruct (stage_Ok _ _ _ _ Hwf Hs) as (row & _ & _ & -> & -> & Hold).
    split; [| reflexivity]. destruct Hold as [Hold | Hold].
    + apply insert_subseteq. exact Hold.
    + rewrite insert_id by exact Hold. reflexivity.
  - destruct (publish_Ok _ _ _ Hwf Hp) as (r & row & _ & _ & _ & -> & Hcase).
    split; [reflexivity |]. destruct Hcase as [[-> _] | (Hnone & -> & _)]; [reflexivity |].
    apply insert_subseteq. exact Hnone.
Qed.

Lemma store_steps_mono s s' :
  store_wf s -> rtc store_step s s' ->
  records s ⊆ records s' /\ record_revisions s ⊆ record_revisions s'.
Proof.
  intros Hwf Hs. induction Hs as [s | s s1 s' Hstep Hs IH]; [split; reflexivity |].
  destruct (store_step_mono _ _ Hwf Hstep), (IH (store_step_wf _ _ Hwf Hstep)).
  split; etransitivity; eauto.
Qed.

Lemma select_row_mono s s' c key row :
  records s ⊆ records s' -> record_revisions s ⊆ record_revisions s' ->
  select_row s c key = Some row -> select_row s' c key = Some row.
Proof.
  intros Hr Hv. rewrite !select_row_Some. intros [Hrow Hc].
  split; [eapply lookup_weaken; eauto |].
  destruct Hc as [-> | [x Hx]]; [auto | right]. exists x. eapply lookup_weaken; eauto.
Qed.

Lemma resolve_mono s s' ref c r :
  store_wf s -> store_wf s' -> records s ⊆ records s' ->
  record_revisions s ⊆ record_revisions s' ->
  resolve s ref c = Ok r -> resolve s' ref c = Ok r.
Proof.
  intros Hwf Hwf' Hr Hv. rewrite !resolve_Ok by assumption.
  intros (Href & row & Hsel & Hh). split; [exact Href |].
  exists row. split; [eapply select_row_mono; eauto | exact Hh].
Qed.

(** ** Theorems *)

(** A logical record has one published record of each revision. *)
Lemma published_revision s r r' :
  store_wf s -> published s r -> published s r' ->
  logical_record_id (rec_rev r) = logical_record_id (rec_rev r') ->
  revision_number (rec_rev r) = revision_number (rec_rev r') -> r = r'.
Proof.
  intros Hs Hp Hp' Hl Hn. apply (published_id s); [exact Hp | exact Hp' |].
  apply published_row in Hp, Hp'.
  destruct Hp as [(row1 & Hr1 & Hh1) [key1 Hkey1]], Hp' as [(row2 & Hr2 & Hh2) [key2 Hkey2]].
  apply (wf_unique _ Hs _ _ _ Hkey1). rewrite Hkey2. f_equal.
  destruct (wf_revisions _ Hs _ _ Hkey1) as (row1' & Hr1' & ->).
  destruct (wf_revisions _ Hs _ _ Hkey2) as (row2' & Hr2' & ->).
  replace row1' with row1 by congruence. replace row2' with row2 by congruence.
  destruct Hh1 as (_ & _ & -> & -> & _), Hh2 as (_ & _ & -> & -> & _). congruence.
Qed.

(** C3. Whatever sequence of stagings and publications ran, every published
    logical record has exactly one published revision for each number from 1
    to its latest: the history is an unbranched initial segment. *)
Theorem published_history s r k :
  rtc store_step empty_store s -> published s r -> 1 <= k <= revision_number (rec_rev r) ->
  exists! r', published s r'
    /\ logical_record_id (rec_rev r') = logical_record_id (rec_rev r)
    /\ revision_number (rec_rev r') = k.
Proof.
  intros Hs. apply store_steps_wf in Hs; [| apply empty_store_wf]. intros Hp Hk.
  assert (Hex : exists r', published s r'
    /\ logical_record_id (rec_rev r') = logical_record_id (rec_rev r)
    /\ revision_number (rec_rev r') = k).
  { remember (Z.to_nat (revision_number (rec_rev r) - k)) as n eqn:Hn.
    revert r Hp Hk Hn. induction n as [| n IH]; intros r Hp Hk Hn.
    - exists r. repeat split; auto. lia.
    - pose proof (published_shape _ _ Hp) as Hsh. apply revision_shape_Ok in Hsh.
      destruct Hsh as (_ & Hfirst & _).
      destruct (previous_record_id (rec_rev r)) as [prev |] eqn:Hprev;
        [| destruct Hfirst as [_ Hf]; specialize (Hf eq_refl); lia].
      destruct (wf_chain _ Hs _ _ Hp Hprev) as (p & Hpp & _ & Hval).
      apply validate_revision_Ok in Hval.
      destruct Hval as (_ & Hl & _ & _ & _ & _ & _ & _ & _ & _ & Hrev & _).
      destruct (IH p Hpp) as (r' & Hp' & Hl' & Hk'); unfold rec_rev in *; [lia | lia |].
      exists r'. repeat split; auto. congruence. }
  destruct Hex as (r' & Hp' & Hl' & Hk'). exists r'. split; [auto |].
  intros r'' (Hp'' & Hl'' & Hk''). apply (published_revision s); auto; congruence.
Qed.

(** Records are durable: a reference that resolves keeps resolving to the
    same record after any further stagings and publications. *)
Theorem resolve_durable s s' ref c r :
  rtc store_step empty_store s -> rtc store_step s s' ->
  resolve s ref c = Ok r -> resolve s' ref c = Ok r.
Proof.
  intros H0s Hs. apply store_steps_wf in H0s; [| apply empty_store_wf].
  destruct (store_steps_mono _ _ H0s Hs) as [Hr Hv].
  apply resolve_mono; eauto using store_steps_wf.
Qed.

(** C33. What is staged and published is what resolves, and repeating either
    operation changes nothing. *)
Theorem stage_publish_resolve s r ref s1 s2 :
  rtc store_step empty_store s -> stage s r = Ok (ref, s1) -> publish s1 ref = Ok s2 ->
  resolve s2 ref false = Ok r /\ stage s2 r = Ok (ref, s2) /\ publish s2 ref = Ok s2.
Proof.
  intros H0s Hs Hp. apply store_steps_wf in H0s; [| apply empty_store_wf].
  pose proof (stage_wf _ _ _ _ H0s Hs) as Hwf1. pose proof (publish_wf _ _ _ Hwf1 Hp) as Hwf2.
  destruct (stage_Ok _ _ _ _ H0s Hs) as (row & Hh & Hrow & _ & Hrec & _).
  assert (Href : reference r = Ok ref) by (rewrite <- Hrow; apply Hh).
  assert (Hpub : published s2 r).
  { apply (publish_published _ _ _ _ Hwf1 Hp). right. split; [exact Href |].
    exists row. rewrite Hrec, lookup_insert_eq. auto. }
  pose proof Hpub as Hpub'. apply published_row in Hpub'.
  destruct Hpub' as [(row2 & Hrow2 & Hh2) [key Hkey]].
  assert (Hres : forall c, resolve s2 ref c = Ok r).
  { intros c. apply resolve_Ok; [exact Hwf2 |]. split; [exact Href |].
    exists row2. rewrite select_row_Some. eauto. }
  split; [apply Hres |]. split.
  - unfold stage. destruct Hh2 as (He2 & Href2 & _). rewrite He2, Href, Hrow2. simpl.
    rewrite bool_decide_eq_true_2 by reflexivity. simpl. congruence.
  - unfold publish. rewrite Hres. simpl. rewrite Hkey. reflexivity.
Qed.

(** References are exact: the record a reference resolves to is the one
    record whose canonical reference it is; a candidate resolves only where
    candidates are asked for; and a record id never names a second record. *)
Theorem resolve_exact s ref c r :
  rtc store_step empty_store s -> resolve s ref c = Ok r ->
  reference r = Ok ref
  /\ (record_revisions s !! record_id (rec_rev r) = None ->
      c = true /\ resolve s ref false = Err (LookupError "Exact record is not published"))
  /\ forall r', record_id (rec_rev r') = record_id (rec_rev r) -> r' <> r ->
       forall ref' s', stage s r' <> Ok (ref', s').
Proof.
  intros H0s. apply store_steps_wf in H0s; [| apply empty_store_wf]. intros Hres.
  apply (resolve_Ok _ _ _ _ H0s) in Hres. destruct Hres as (Href & row & Hsel & Hh).
  split; [exact Href |]. split.
  - intros Hnone. apply select_row_Some in Hsel.
    destruct Hsel as [_ [-> | [? ?]]]; [| congruence]. split; [reflexivity |].
    unfold resolve, select_row. rewrite (reference_key _ _ Href), Hnone. reflexivity.
  - intros r' Hid Hne ref' s' Hstage. apply select_row_Some in Hsel. destruct Hsel as [Hrow _].
    destruct (stage_Ok _ _ _ _ H0s Hstage) as (row' & Hh' & _ & _ & _ & Hold).
    rewrite Hid, Hrow in Hold. destruct Hold as [? | [= ->]]; [discriminate |].
    apply Hne. eapply row_holds_inj; eauto.
Qed.

(** *** Descent *)

(** The published predecessor of a published revision. *)
Definition predecessor s (r p : R) : Prop :=
  published s p /\ previous_record_id (rec_rev r) = Some (record_id (rec_rev p))
  /\ validate_revision (rec_meta p) (rec_meta r) = Ok tt.

Lemma predecessor_fun s r p p' : predecessor s r p -> predecessor s r p' -> p = p'.
Proof. intros (H1 & H2 & _) (H3 & H4 & _). apply (published_id s); congruence. Qed.

Lemma predecessor_scope s r p :
  predecessor s r p ->
  meta_kind (rec_meta p) = meta_kind (rec_meta r)
  /\ logical_record_id (rec_rev p) = logical_record_id (rec_rev r)
  /\ record_type (rec_rev p) = record_type (rec_rev r)
  /\ revision_number (rec_rev r) = revision_number (rec_rev p) + 1.
Proof.
  intros (_ & _ & Hv). apply validate_revision_Ok in Hv. unfold rec_rev. intuition auto.
Qed.

Lemma descend_scope s r e :
  rtc (predecessor s) r e ->
  meta_kind (rec_meta e) = meta_kind (rec_meta r)
  /\ logical_record_id (rec_rev e) = logical_record_id (rec_rev r)
  /\ record_type (rec_rev e) = record_type (rec_rev r)
  /\ revision_number (rec_rev e) <= revision_number (rec_rev r).
Proof.
  induction 1 as [r | r p e Hp _ (H1 & H2 & H3 & H4)]; [repeat split; lia |].
  apply predecessor_scope in Hp. destruct Hp as (Hk & Hl & Ht & Hn).
  repeat split; try congruence. lia.
Qed.

Lemma published_dom s r :
  published s r -> record_id (rec_rev r) ∈ dom (record_revisions s).
Proof. intros Hp. apply published_row in Hp. apply elem_of_dom, Hp. Qed.

Lemma descend_spec s e eref fuel visited r :
  store_wf s -> published s e -> reference e = Ok eref -> published s r ->
  NoDup visited ->
  (forall v, v ∈ visited -> exists rv, published s rv /\ record_id (rec_rev rv) = v
               /\ revision_number (rec_rev r) < revision_number (rec_rev rv)) ->
  (size (record_revisions s) < fuel + length visited)%nat ->
  exists b, descend fuel s eref (record_id (rec_rev e)) visited r = Some (Ok b)
    /\ (b = true <-> rtc (predecessor s) r e).
Proof.
  intros Hwf He Heref. revert visited r.
  induction fuel as [| fuel IH]; intros visited r Hr Hnd Hv Hfuel.
  - exfalso. assert (length visited <= size (record_revisions s))%nat; [| lia].
    rewrite <- size_dom. rewrite <- (size_list_to_set (C := gset string) visited) by exact Hnd.
    apply subseteq_size. intros v Hvin. apply elem_of_list_to_set in Hvin.
    destruct (Hv v Hvin) as (rv & Hrv & <- & _). apply published_dom, Hrv.
  - simpl. case_bool_decide as Hid.
    { assert (r = e) as -> by eauto using published_id.
      rewrite Heref. simpl. exists true. rewrite bool_decide_eq_true_2 by reflexivity.
      split; [reflexivity |]. split; [constructor | reflexivity]. }
    assert (Hnv : record_id (rec_rev r) ∉ visited).
    { intros Hin. destruct (Hv _ Hin) as (rv & Hrv & Hidv & Hlt).
      assert (rv = r) as -> by eauto using published_id. lia. }
    unfold mem. rewrite bool_decide_eq_false_2 by exact Hnv.
    destruct (previous_record_id (rec_rev r)) as [prev |] eqn:Hprev.
    + destruct (wf_chain _ Hwf _ _ Hr Hprev) as (p & Hp & Hpid & Hval).
      assert (Hpred : predecessor s r p) by (repeat split; congruence).
      pose proof Hp as (row & Hsel & Hh). rewrite <- Hpid, Hsel, (row_decode _ _ Hh). simpl.
      rewrite Hval. simpl. destruct (predecessor_scope _ _ _ Hpred) as (_ & _ & _ & Hn).
      edestruct (IH (record_id (rec_rev r) :: visited) p) as (b & Hb & Hiff);
        [assumption | constructor; assumption | | simpl; lia |].
      { intros v Hin. apply elem_of_cons in Hin. destruct Hin as [-> | Hin].
        - exists r. repeat split; auto. lia.
        - destruct (Hv v Hin) as (rv & ? & ? & ?). exists rv. repeat split; auto. lia. }
      exists b. split; [exact Hb |]. rewrite Hiff. split.
      * intros Hrtc. eapply rtc_l; eauto.
      * intros Hrtc. inversion Hrtc as [| ? p' ? Hp' Hrest]; subst; [congruence |].
        rewrite (predecessor_fun _ _ _ _ Hpred Hp'). exact Hrest.
    + exists false. split; [reflexivity |]. split; [discriminate |].
      intros Hrtc. inversion Hrtc as [| ? p' ? (_ & Hp' & _) _]; subst; congruence.
Qed.

(** [is_revision_descendant] terminates and is exact: on two published
    references it returns whether the later record reaches the earlier one
    through published predecessors, and never raises. *)
Theorem is_revision_descendant_correct s eref lref e l :
  rtc store_step empty_store s ->
  resolve s eref false = Ok e -> resolve s lref false = Ok l ->
  exists b, is_revision_descendant s eref lref = Some (Ok b)
    /\ (b = true <-> rtc (predecessor s) l e).
Proof.
  intros H0s He Hl. apply store_steps_wf in H0s; [| apply empty_store_wf].
  unfold is_revision_descendant. rewrite He, Hl.
  apply (resolve_published _ _ _ H0s) in He, Hl.
  destruct He as [Heref He], Hl as [_ Hl]. case_match eqn:Hg.
  - exists false. split; [reflexivity |]. split; [discriminate |]. intros Hrtc.
    apply descend_scope in Hrtc. destruct Hrtc as (H1 & H2 & H3 & H4).
    rewrite H1, H2, H3, !bool_decide_eq_true_2 in Hg by reflexivity. simpl in Hg.
    apply Z.ltb_lt in Hg. lia.
  - apply descend_spec; auto; [constructor | intros v Hv; inversion Hv |].
    unfold descend_fuel. simpl. lia.
Qed.
End store_laws.
