(* ===== verification/Work.v ===== *)
(** * Work: the work and attempt life cycle of [contracts/work.py]

    The work, attempt, transition and commit records with their validators, the
    table of admitted status changes, and the checks that relate two records
    (a transition to its work, an attempt to its work and predecessor, a commit
    to its transition, a child to its parent). Validators return [Ok tt] or the
    first exception the code raises. *)
From S2P Require Import Prelude Records.

Inductive WorkType :=
| WORKSPACE_PREP | REPOSITORY_PROFILE | STATIC_TOOL | STATIC_NORMALIZE
| HYPOTHESIS_PROPOSAL | CONTEXT_RETRIEVAL | PRO_EVIDENCE | CON_EVIDENCE
| VERIFICATION | DYNAMIC_REPRO | PRIMITIVE_UPDATE | CHAINING | CWE_LABEL
| POLICY_FETCH | TECHNICAL_GATE | RULE_SCOPE_GATE | FINDING_NORMALIZE | REPORT_DRAFT.

Inductive WorkStatus :=
| PENDING | READY | RUNNING | BLOCKED | SUCCEEDED | PARTIAL | FAILED | CANCELLED.

Inductive AttemptStatus :=
| A_RUNNING | A_SUCCEEDED | A_PARTIAL | A_FAILED | A_CANCELLED.

Inductive TransitionTargetStatus :=
| T_READY | T_RUNNING | T_BLOCKED | T_SUCCEEDED | T_PARTIAL | T_FAILED | T_CANCELLED.

Inductive CommitTargetStatus :=
| C_BLOCKED | C_SUCCEEDED | C_PARTIAL | C_FAILED | C_CANCELLED.

Inductive SubjectType := S_ANALYSIS | S_PROPOSAL | S_HYPOTHESIS | S_REPORT.
Inductive AttemptTrigger := INITIAL | RETRY | RESUME.
Inductive WaitingFor := W_RETRY | W_AUTH | W_APPROVAL | W_INPUT | W_BUDGET | W_DEPENDENCY.
Inductive CommitState := PREPARED | COMMITTED | ABORTED.

#[export] Instance WorkType_eq_dec : EqDecision WorkType.
Proof. solve_decision. Defined.
#[export] Instance WorkStatus_eq_dec : EqDecision WorkStatus.
Proof. solve_decision. Defined.
#[export] Instance AttemptStatus_eq_dec : EqDecision AttemptStatus.
Proof. solve_decision. Defined.
#[export] Instance TransitionTargetStatus_eq_dec : EqDecision TransitionTargetStatus.
Proof. solve_decision. Defined.
#[export] Instance CommitTargetStatus_eq_dec : EqDecision CommitTargetStatus.
Proof. solve_decision. Defined.
#[export] Instance SubjectType_eq_dec : EqDecision SubjectType.
Proof. solve_decision. Defined.
#[export] Instance AttemptTrigger_eq_dec : EqDecision AttemptTrigger.
Proof. solve_decision. Defined.
#[export] Instance WaitingFor_eq_dec : EqDecision WaitingFor.
Proof. solve_decision. Defined.
#[export] Instance CommitState_eq_dec : EqDecision CommitState.
Proof. solve_decision. Defined.

(** [WorkStatus(target.value)] and [AttemptStatus(status.value)] *)
Definition target_work_status (t : TransitionTargetStatus) : WorkStatus :=
  match t with
  | T_READY => READY | T_RUNNING => RUNNING | T_BLOCKED => BLOCKED
  | T_SUCCEEDED => SUCCEEDED | T_PARTIAL => PARTIAL | T_FAILED => FAILED
  | T_CANCELLED => CANCELLED
  end.
Definition commit_work_status (t : CommitTargetStatus) : WorkStatus :=
  match t with
  | C_BLOCKED => BLOCKED | C_SUCCEEDED => SUCCEEDED | C_PARTIAL => PARTIAL
  | C_FAILED => FAILED | C_CANCELLED => CANCELLED
  end.

Definition TERMINAL_WORK_STATUSES : list WorkStatus := [SUCCEEDED; PARTIAL; FAILED; CANCELLED].
Definition terminal_work (s : WorkStatus) : bool := mem s TERMINAL_WORK_STATUSES.

(** [_ALLOWED_TRANSITIONS.get(status, frozenset())] *)
Definition allowed_transitions (s : WorkStatus) : list WorkStatus :=
  match s with
  | PENDING => [READY; CANCELLED]
  | READY => [RUNNING; BLOCKED; CANCELLED]
  | RUNNING => READY :: BLOCKED :: TERMINAL_WORK_STATUSES
  | BLOCKED => [READY; FAILED; CANCELLED]
  | FAILED => [READY]
  | SUCCEEDED | PARTIAL | CANCELLED => []
  end.

(** ** Scoped records *)

(** [ScopedRecord.reference_scopes], over the record's references in field order. *)
Definition reference_scopes (refs : list RecordRef) (meta : RunMeta) : result unit :=
  for_each (fun ref => validate_ref_scope ref (MRun meta)) refs.

Definition opt_ref (o : option BudgetScopeRef) : list RecordRef :=
  match o with Some r => [scope_ref r] | None => [] end.
Definition opt_stored (o : option StoredDataRef) : list RecordRef :=
  match o with Some r => [RStored r] | None => [] end.

(** [subject_id], by the ID class the subject type selects. *)
Inductive SubjectId :=
| SubAnalysis (id : string) | SubProposal (id : string)
| SubHypothesis (id : string) | SubReport (id : string).

#[export] Instance SubjectId_eq_dec : EqDecision SubjectId.
Proof. solve_decision. Defined.

Definition subject_kind (s : SubjectId) : SubjectType :=
  match s with
  | SubAnalysis _ => S_ANALYSIS | SubProposal _ => S_PROPOSAL
  | SubHypothesis _ => S_HYPOTHESIS | SubReport _ => S_REPORT
  end.

Record WorkExecutionState := mkWork {
  w_meta : RunMeta;
  w_work_id : string;
  w_parent_work_ref : option BudgetScopeRef;
  w_work_type : WorkType;
  w_subject_type : SubjectType;
  w_subject_id : SubjectId;
  w_work_generation : Z;
  w_status : WorkStatus;
  w_state_version : Z;
  w_last_transition_ref : option BudgetScopeRef;
  w_last_transition_commit_ref : option BudgetScopeRef;
  w_active_attempt_id : option string;
  w_input_hash : string;
  w_dedupe_key : string;
  w_trigger_primitive_ref : option StoredDataRef;
  w_input_refs : list RecordRef;
  w_output_refs : list RecordRef;
  w_gap_ids : list string;
  w_error_ids : list string;
  w_waiting_for : list WaitingFor;
  w_stop_reason : option string;
  w_started_at : option Z;
  w_finished_at : option Z;
  w_elapsed_ms : Z;
}.

#[export] Instance WorkExecutionState_eq_dec : EqDecision WorkExecutionState.
Proof. solve_decision. Defined.

Definition work_refs (w : WorkExecutionState) : list RecordRef :=
  opt_ref (w_parent_work_ref w) ++ opt_ref (w_last_transition_ref w)
  ++ opt_ref (w_last_transition_commit_ref w) ++ opt_stored (w_trigger_primitive_ref w)
  ++ w_input_refs w ++ w_output_refs w.

(** [not value] for an optional string *)
Definition no_text (o : option string) : bool :=
  match o with None => true | Some s => eqb s "" end.

Definition precedes (later earlier : option Z) : bool :=
  match later, earlier with Some l, Some e => l <? e | _, _ => false end.

(** [WorkExecutionState.typed_subject] *)
Definition typed_subject (w : WorkExecutionState) : result unit :=
  raise_if neqb (subject_kind (w_subject_id w)) (w_subject_type w) with "model_type" ;;
  Ok tt.

(** The numeric, hash and text constraints of the declared fields. *)
Definition work_fields (w : WorkExecutionState) : bool :=
  eqb (revision_shape (w_meta w)) (Ok tt)
  && NonEmptyStr (w_work_id w)
  && PositiveInt (w_work_generation w) && PositiveInt (w_state_version w)
  && Sha256 (w_input_hash w) && Sha256 (w_dedupe_key w)
  && NonNegativeInt (w_elapsed_ms w)
  && match w_stop_reason w with Some s => NonEmptyStr s | None => true end.

Definition partial_shape (w : WorkExecutionState) : result unit :=
  raise_if negb (mem (w_work_type w)
                     [STATIC_TOOL; STATIC_NORMALIZE; CONTEXT_RETRIEVAL; DYNAMIC_REPRO])
           || negb (nonempty (w_output_refs w))
    with "PARTIAL requires an eligible work type and outputs" ;;
  raise_if neqb (w_work_type w) DYNAMIC_REPRO
           && negb (nonempty (w_error_ids w) || nonempty (w_gap_ids w))
    with "Static/context PARTIAL requires gaps or errors" ;;
  if eqb (w_work_type w) DYNAMIC_REPRO then
    match w_output_refs w with
    | [ref] => require_record_ref ref (Some "dynamic_reproduction_result")
    | _ => Err (ValueError "Dynamic PARTIAL requires one result")
    end
  else Ok tt.

Definition optional_record_ref (ref : option BudgetScopeRef) (kind : string) : result unit :=
  match ref with Some r => require_record_ref r (Some kind) | None => Ok tt end.

Definition child_work_types : list WorkType :=
  [PRO_EVIDENCE; CON_EVIDENCE; DYNAMIC_REPRO; CWE_LABEL; FINDING_NORMALIZE].

(** [WorkExecutionState.work_shape] *)
Definition work_shape (w : WorkExecutionState) : result unit :=
  let record_meta := is_RecordMeta (w_meta w) in
  let status := w_status w in
  let terminal := terminal_work status in
  raise_if neqb (w_work_type w) WORKSPACE_PREP && negb record_meta
    with "Post-workspace work requires RecordMeta" ;;
  raise_if eqb (w_work_type w) WORKSPACE_PREP && record_meta
    with "WORKSPACE_PREP must retain RunMeta" ;;
  raise_if record_meta && is_some (rm_attempt_id (w_meta w))
    with "Work metadata attempt_id must be null" ;;
  raise_if eqb (w_subject_type w) S_ANALYSIS
           && neqb (w_subject_id w) (SubAnalysis (rm_analysis_id (w_meta w)))
    with "Analysis subject mismatch" ;;
  raise_if eqb (w_subject_type w) S_HYPOTHESIS
           && (negb record_meta
               || neqb (Some (w_subject_id w)) (SubHypothesis <$> rm_hypothesis_id (w_meta w)))
    with "Hypothesis subject mismatch" ;;
  raise_if neqb (eqb status RUNNING) (is_some (w_active_attempt_id w))
    with "Only RUNNING has an active attempt" ;;
  raise_if neqb terminal (is_some (w_finished_at w))
    with "Only terminal work has finished_at" ;;
  raise_if precedes (w_finished_at w) (w_started_at w)
    with "finished_at precedes started_at" ;;
  raise_if eqb status RUNNING && is_none (w_started_at w)
    with "RUNNING requires started_at" ;;
  raise_if mem status [PENDING; READY]
           && (nonempty (w_output_refs w) || nonempty (w_waiting_for w))
    with "PENDING/READY require empty outputs and waiting_for" ;;
  raise_if eqb status BLOCKED
           && (negb (nonempty (w_waiting_for w)) || no_text (w_stop_reason w))
    with "BLOCKED requires waiting_for and stop_reason" ;;
  raise_if neqb status BLOCKED && nonempty (w_waiting_for w)
    with "Only BLOCKED can wait" ;;
  raise_if terminal && no_text (w_stop_reason w)
    with "Terminal work requires stop_reason" ;;
  raise_if eqb status SUCCEEDED && neqb (w_stop_reason w) (Some "COMPLETED")
    with "SUCCEEDED stop_reason must be COMPLETED" ;;
  raise_if eqb status FAILED && negb (nonempty (w_error_ids w))
    with "FAILED requires error_ids" ;;
  do! (if eqb status PARTIAL then partial_shape w else Ok tt) ;;
  do! optional_record_ref (w_last_transition_ref w) "state_transition" ;;
  do! optional_record_ref (w_last_transition_commit_ref w) "transition_commit" ;;
  do! optional_record_ref (w_parent_work_ref w) "work_execution_state" ;;
  raise_if eqb status PENDING
           && (neqb (w_state_version w) 1 || is_some (w_last_transition_ref w)
               || is_some (w_last_transition_commit_ref w))
    with "Initial PENDING has version 1 and no transition" ;;
  raise_if neqb status PENDING
           && (is_none (w_last_transition_ref w) || (w_state_version w <? 2))
    with "Non-PENDING work requires its transition and advanced version" ;;
  raise_if neqb (mem (w_work_type w) child_work_types) (is_some (w_parent_work_ref w))
    with "Parent required only for declared child work types" ;;
  raise_if eqb (w_work_type w) FINDING_NORMALIZE && neqb (w_subject_type w) S_HYPOTHESIS
    with "FINDING_NORMALIZE requires a hypothesis subject" ;;
  raise_if neqb (eqb (w_work_type w) CHAINING) (is_some (w_trigger_primitive_ref w))
    with "Only CHAINING requires trigger_primitive_ref" ;;
  match w_trigger_primitive_ref w with
  | Some ref =>
      do! require_record_ref ref (Some "primitive") ;;
      raise_if neqb (w_subject_type w) S_ANALYSIS
               || negb (py_count (RStored ref) (w_input_refs w) =? 1)%nat
        with "CHAINING requires analysis subject and one trigger input" ;;
      Ok tt
  | None => Ok tt
  end.

(** [WorkExecutionState.model_validate] *)
Definition validate_work (w : WorkExecutionState) : result WorkExecutionState :=
  raise_if negb (work_fields w) with "ValidationError" ;;
  do! typed_subject w ;;
  do! reference_scopes (work_refs w) (w_meta w) ;;
  do! work_shape w ;;
  Ok w.

(** ** Attempts *)

Record WorkAttempt := mkAttempt {
  a_meta : RunMeta;
  a_work_id : string;
  a_attempt_id : string;
  a_attempt_number : Z;
  a_trigger : AttemptTrigger;
  a_input_hash : string;
  a_status : AttemptStatus;
  a_output_refs : list RecordRef;
  a_gap_ids : list string;
  a_error_ids : list string;
  a_started_at : Z;
  a_finished_at : option Z;
  a_elapsed_ms : Z;
}.

#[export] Instance WorkAttempt_eq_dec : EqDecision WorkAttempt.
Proof. solve_decision. Defined.

Definition _attempt_meta (meta : RunMeta) (attempt : option string) : result unit :=
  raise_if is_RecordMeta meta && neqb (rm_attempt_id meta) attempt
    with "Metadata attempt_id mismatch" ;;
  Ok tt.

Definition attempt_fields (a : WorkAttempt) : bool :=
  eqb (revision_shape (a_meta a)) (Ok tt)
  && NonEmptyStr (a_work_id a) && NonEmptyStr (a_attempt_id a)
  && PositiveInt (a_attempt_number a) && Sha256 (a_input_hash a)
  && NonNegativeInt (a_elapsed_ms a).

(** [WorkAttempt.attempt_shape] *)
Definition attempt_shape (a : WorkAttempt) : result unit :=
  raise_if neqb (eqb (a_attempt_number a) 1) (eqb (a_trigger a) INITIAL)
    with "Only first attempt has INITIAL trigger" ;;
  raise_if neqb (eqb (a_status a) A_RUNNING) (is_none (a_finished_at a))
    with "Only running attempt has finished_at=null" ;;
  raise_if precedes (a_finished_at a) (Some (a_started_at a))
    with "finished_at precedes started_at" ;;
  raise_if eqb (a_status a) A_FAILED && negb (nonempty (a_error_ids a))
    with "Failed attempt requires errors" ;;
  _attempt_meta (a_meta a) (Some (a_attempt_id a)).

Definition validate_attempt (a : WorkAttempt) : result WorkAttempt :=
  raise_if negb (attempt_fields a) with "ValidationError" ;;
  do! reference_scopes (a_output_refs a) (a_meta a) ;;
  do! attempt_shape a ;;
  Ok a.

(** ** Transitions and commits *)

Record StateTransition := mkTransition {
  t_meta : RunMeta;
  t_transition_id : string;
  t_work_id : string;
  t_action_decision_ref : BudgetScopeRef;
  t_from_status : WorkStatus;
  t_to_status : TransitionTargetStatus;
  t_expected_state_version : Z;
  t_new_state_version : Z;
  t_attempt_id : option string;
  t_cause : string;
  t_output_refs : list RecordRef;
  t_gap_ids : list string;
  t_error_ids : list string;
  t_dedupe_key : string;
  t_created_at : Z;
}.

#[export] Instance StateTransition_eq_dec : EqDecision StateTransition.
Proof. solve_decision. Defined.

(** [StateTransition.transition_shape] *)
Definition transition_shape (t : StateTransition) : result unit :=
  raise_if negb (mem (target_work_status (t_to_status t)) (allowed_transitions (t_from_status t)))
    with "STATE_TRANSITION_INVALID" ;;
  raise_if neqb (t_new_state_version t) (t_expected_state_version t + 1)
    with "State version must increase by exactly one" ;;
  raise_if eqb (t_to_status t) T_RUNNING && is_none (t_attempt_id t)
    with "Starting RUNNING requires the new attempt_id" ;;
  do! require_record_ref (t_action_decision_ref t) (Some "action_decision") ;;
  _attempt_meta (t_meta t) (t_attempt_id t).

Definition validate_transition (t : StateTransition) : result StateTransition :=
  raise_if negb (eqb (revision_shape (t_meta t)) (Ok tt)
                 && PositiveInt (t_expected_state_version t)
                 && PositiveInt (t_new_state_version t)
                 && NonEmptyStr (t_cause t) && Sha256 (t_dedupe_key t))
    with "ValidationError" ;;
  do! reference_scopes (scope_ref (t_action_decision_ref t) :: t_output_refs t) (t_meta t) ;;
  do! transition_shape t ;;
  Ok t.

Record TransitionCommit := mkCommit {
  c_meta : RunMeta;
  c_transition_commit_id : string;
  c_work_id : string;
  c_transition_ref : BudgetScopeRef;
  c_expected_state_version : Z;
  c_target_state_version : Z;
  c_attempt_id : option string;
  c_target_status : CommitTargetStatus;
  c_output_refs : list RecordRef;
  c_gap_ids : list string;
  c_error_ids : list string;
  c_state : CommitState;
  c_prepared_at : Z;
  c_committed_at : option Z;
  c_abort_reason : option string;
}.

#[export] Instance TransitionCommit_eq_dec : EqDecision TransitionCommit.
Proof. solve_decision. Defined.

(** [TransitionCommit.commit_shape] *)
Definition commit_shape (c : TransitionCommit) : result unit :=
  raise_if neqb (c_target_state_version c) (c_expected_state_version c + 1)
    with "Target version must increase by exactly one" ;;
  do! require_record_ref (c_transition_ref c) (Some "state_transition") ;;
  do! _attempt_meta (c_meta c) (c_attempt_id c) ;;
  raise_if neqb (eqb (c_state c) COMMITTED) (is_some (c_committed_at c))
    with "Only COMMITTED has committed_at" ;;
  raise_if neqb (eqb (c_state c) ABORTED) (is_some (c_abort_reason c))
    with "Only ABORTED has abort_reason" ;;
  raise_if precedes (c_committed_at c) (Some (c_prepared_at c))
    with "committed_at precedes prepared_at" ;;
  Ok tt.

Definition validate_commit (c : TransitionCommit) : result TransitionCommit :=
  raise_if negb (eqb (revision_shape (c_meta c)) (Ok tt)
                 && PositiveInt (c_expected_state_version c)
                 && PositiveInt (c_target_state_version c)
                 && match c_abort_reason c with Some s => NonEmptyStr s | None => true end)
    with "ValidationError" ;;
  do! reference_scopes (scope_ref (c_transition_ref c) :: c_output_refs c) (c_meta c) ;;
  do! commit_shape c ;;
  Ok c.

(** ** Checks between two records *)

Definition _validate_metadata_scope (left right : RunMeta) : result unit :=
  raise_if neqb (run_kind left) (run_kind right)
           || neqb (rm_analysis_id left) (rm_analysis_id right)
    with "Metadata kind or analysis scope mismatch" ;;
  raise_if match rm_code left, rm_code right with
           | Some l, Some r =>
               neqb (workspace_id l, commit_id l, hypothesis_id l)
                    (workspace_id r, commit_id r, hypothesis_id r)
           | _, _ => false
           end
    with "Metadata workspace/commit/hypothesis scope mismatch" ;;
  Ok tt.

Definition validate_transition_context (t : StateTransition) (w : WorkExecutionState)
  (retry_trigger : option AttemptTrigger) : result unit :=
  do! _validate_metadata_scope (t_meta t) (w_meta w) ;;
  raise_if neqb (t_work_id t) (w_work_id w)
           || neqb (t_expected_state_version t) (w_state_version w)
           || neqb (t_from_status t) (w_status w)
    with "STATE_VERSION_CONFLICT: transition does not match current work" ;;
  raise_if eqb (t_from_status t) RUNNING && neqb (t_attempt_id t) (w_active_attempt_id w)
    with "ATTEMPT_NOT_ACTIVE" ;;
  raise_if eqb (t_from_status t) RUNNING && eqb (t_to_status t) T_READY
           && (neqb (w_work_type w) DYNAMIC_REPRO || neqb retry_trigger (Some RETRY))
    with "RUNNING -> READY requires dynamic session RETRY" ;;
  Ok tt.

Definition validate_attempt_context (a : WorkAttempt) (w : WorkExecutionState)
  (previous : option WorkAttempt) : result unit :=
  raise_if neqb (a_work_id a) (w_work_id w) || neqb (a_input_hash a) (w_input_hash w)
    with "Attempt work/input_hash mismatch" ;;
  raise_if neqb (run_kind (a_meta a)) (run_kind (w_meta w))
           || neqb (rm_analysis_id (a_meta a)) (rm_analysis_id (w_meta w))
    with "Attempt metadata kind or analysis mismatch" ;;
  raise_if match rm_code (a_meta a), rm_code (w_meta w) with
           | Some l, Some r =>
               neqb (workspace_id l) (workspace_id r) || neqb (commit_id l) (commit_id r)
               || neqb (hypothesis_id l) (hypothesis_id r)
           | _, _ => false
           end
    with "Attempt workspace/commit/hypothesis mismatch" ;;
  raise_if eqb (a_status a) A_RUNNING
           && (neqb (w_status w) RUNNING
               || neqb (w_active_attempt_id w) (Some (a_attempt_id a)))
    with "ATTEMPT_NOT_ACTIVE" ;;
  raise_if match previous with
           | Some p =>
               neqb (a_work_id p) (a_work_id a) || eqb (a_attempt_id p) (a_attempt_id a)
               || neqb (a_attempt_number p + 1) (a_attempt_number a)
               || eqb (a_status p) A_RUNNING
           | None => false
           end
    with "Previous attempt must be ended and numbering consecutive" ;;
  Ok tt.

(** [transition_hash] is [content_hash(transition)]. *)
Definition validate_commit_transition (c : TransitionCommit) (t : StateTransition)
  (transition_hash : string) : result unit :=
  do! _validate_metadata_scope (c_meta c) (t_meta t) ;;
  do! validate_exact_ref (c_transition_ref c) (MRun (t_meta t)) transition_hash
        (Some (rm_analysis_id (c_meta c))) ;;
  raise_if neqb (c_work_id c) (t_work_id t)
           || neqb (c_expected_state_version c) (t_expected_state_version t)
           || neqb (c_target_state_version c) (t_new_state_version t)
           || neqb (c_attempt_id c) (t_attempt_id t)
           || neqb (commit_work_status (c_target_status c)) (target_work_status (t_to_status t))
           || neqb (c_output_refs c) (t_output_refs t)
           || neqb (c_gap_ids c) (t_gap_ids t)
           || neqb (c_error_ids c) (t_error_ids t)
           || neqb (ref_record_id (c_transition_ref c)) (Some (record_id (t_meta t)))
    with "TransitionCommit does not match exact StateTransition" ;;
  Ok tt.

(** [parent_hash] is [content_hash(parent)]. *)
Definition validate_parent_work (child parent : WorkExecutionState) (parent_hash : string)
  : result unit :=
  match w_parent_work_ref child with
  | None => Err (ValueError "Child work requires its exact parent reference")
  | Some ref =>
      do! _validate_metadata_scope (w_meta child) (w_meta parent) ;;
      do! validate_exact_ref ref (MRun (w_meta parent)) parent_hash
            (Some (rm_analysis_id (w_meta child))) ;;
      raise_if neqb (w_subject_type child) (w_subject_type parent)
               || neqb (w_subject_id child) (w_subject_id parent)
        with "Parent and child hypothesis subjects must match" ;;
      if eqb (w_work_type child) FINDING_NORMALIZE then
        raise_if neqb (w_work_type parent) RULE_SCOPE_GATE || neqb (w_status parent) SUCCEEDED
          with "FINDING_NORMALIZE requires a successful RULE_SCOPE_GATE parent" ;;
        Ok tt
      else
        raise_if neqb (w_work_type parent) VERIFICATION
          with "Verification child requires a VERIFICATION parent" ;;
        Ok tt
  end.

(** ** Lemmas on scopes *)

(** The scope check of a reference sees only the run and code scope. *)
Lemma validate_ref_scope_same ref m m' :
  rm_analysis_id m = rm_analysis_id m' ->
  (workspace_id <$> rm_code m) = (workspace_id <$> rm_code m') ->
  (commit_id <$> rm_code m) = (commit_id <$> rm_code m') ->
  validate_ref_scope ref (MRun m) = validate_ref_scope ref (MRun m').
Proof.
  intros Ha Hw Hc. destruct ref as [r | r | r | r]; simpl; [rewrite Ha | | |]; try reflexivity.
  destruct (rm_code m) as [c |], (rm_code m') as [c' |]; simpl in *; try discriminate;
    [| reflexivity].
  injection Hw as Hw. injection Hc as Hc. rewrite Hw, Hc. reflexivity.
Qed.

Lemma reference_scopes_same refs m m' :
  rm_analysis_id m = rm_analysis_id m' ->
  (workspace_id <$> rm_code m) = (workspace_id <$> rm_code m') ->
  (commit_id <$> rm_code m) = (commit_id <$> rm_code m') ->
  reference_scopes refs m = reference_scopes refs m'.
Proof.
  intros Ha Hw Hc. unfold reference_scopes. induction refs as [| r refs IH]; [reflexivity |].
  simpl. rewrite (validate_ref_scope_same r m m' Ha Hw Hc), IH. reflexivity.
Qed.

Lemma metadata_scope_Ok l r :
  _validate_metadata_scope l r = Ok tt ->
  rm_analysis_id l = rm_analysis_id r /\
  (workspace_id <$> rm_code l) = (workspace_id <$> rm_code r) /\
  (commit_id <$> rm_code l) = (commit_id <$> rm_code r).
Proof.
  unfold _validate_metadata_scope, run_kind, is_RecordMeta. intros H. unguard H. boolify.
  destruct G as [Hk Ha]. split; [exact Ha |].
  destruct (rm_code l), (rm_code r); simplify_eq/=; auto. boolify. simplify_eq. split; congruence.
Qed.

Lemma reference_scopes_app l1 l2 m :
  reference_scopes (l1 ++ l2) m = Ok tt <->
  reference_scopes l1 m = Ok tt /\ reference_scopes l2 m = Ok tt.
Proof. unfold reference_scopes. rewrite !for_each_Ok, Forall_app. reflexivity. Qed.

Lemma reference_scopes_one r m :
  reference_scopes [r] m = Ok tt <-> validate_ref_scope r (MRun m) = Ok tt.
Proof.
  unfold reference_scopes. rewrite for_each_Ok, Forall_singleton. reflexivity.
Qed.
