(* ===== verification/Processes.v ===== *)
(** * Processes: the current projections of a hypothesis

    [VerificationAssignment] and [HypothesisProcessState] of
    [contracts/hypothesis.py], [DynamicReproductionState] of
    [contracts/dynamic.py], [CodeWorkspace] of [contracts/static.py], and the
    scope validator of [DomainRecord] ([contracts/_domain.py]) on them: the
    records the runtime services advance together with a work. *)
From S2P Require Import Prelude Records Work.

(** ** Domain records *)

(** [DomainRecord.domain_scope] for a class whose [KIND] is [kind], with
    [HYPOTHESIS = True] and [ATTEMPT = False]: [known] lists the references
    whose field name is in [REFERENCE_KINDS] with the kind it demands, and
    [refs] all the references of the record. *)
Definition domain_scope (kind : string) (meta : RunMeta)
  (known : list (option StoredDataRef * string)) (refs : list RecordRef) : result unit :=
  raise_if negb (is_RecordMeta meta) with "ValidationError" ;;
  raise_if neqb (record_type meta) kind with "RECORD_KIND_MISMATCH" ;;
  raise_if existsb (fun '(ref, k) =>
             match ref with
             | Some r => is_none (sd_record_id r) || neqb (sd_data_kind r) k
             | None => false
             end) known
    with "REFERENCE_KIND_MISMATCH" ;;
  raise_if is_none (rm_hypothesis_id meta) || is_some (rm_attempt_id meta)
    with "METADATA_SCOPE_MISMATCH" ;;
  reference_scopes refs meta.

(** ** Assignments and processes *)

Inductive AssignmentStatus := ACTIVE_ASSIGNMENT | SUPERSEDED_ASSIGNMENT.
Inductive ProcessStatus :=
| H_REGISTERED | H_ASSIGNED | H_VERIFYING | H_TERMINAL | H_FAILED | H_CANCELLED.

#[export] Instance AssignmentStatus_eq_dec : EqDecision AssignmentStatus.
Proof. solve_decision. Defined.
#[export] Instance ProcessStatus_eq_dec : EqDecision ProcessStatus.
Proof. solve_decision. Defined.

Record VerificationAssignment := mkAssignment {
  va_meta : RunMeta;
  va_assignment_id : string;
  va_owner_identity_ref : StoredDataRef;
  va_assignment_generation : Z;
  va_status : AssignmentStatus;
  va_previous_assignment_ref : option StoredDataRef;
  va_assigned_at : Z;
}.

Record HypothesisProcessState := mkProcess {
  h_meta : RunMeta;
  h_proposal_ref : StoredDataRef;
  h_status : ProcessStatus;
  h_verification_assignment_ref : option StoredDataRef;
  h_verification_generation : Z;
  h_verification_work_ref : option StoredDataRef;
  h_verification_result_ref : option StoredDataRef;
  h_started_at : Z;
  h_finished_at : option Z;
  h_elapsed_ms : Z;
}.

#[export] Instance VerificationAssignment_eq_dec : EqDecision VerificationAssignment.
Proof. solve_decision. Defined.
#[export] Instance HypothesisProcessState_eq_dec : EqDecision HypothesisProcessState.
Proof. solve_decision. Defined.

Definition require_kind (ref : option StoredDataRef) (kind : string) : result unit :=
  match ref with Some r => require_record_ref (RStored r) (Some kind) | None => Ok tt end.

(** [VerificationAssignment.assignment_chain] *)
Definition assignment_chain (a : VerificationAssignment) : result unit :=
  raise_if neqb (eqb (va_assignment_generation a) 1) (is_none (va_previous_assignment_ref a))
    with "ASSIGNMENT_PREVIOUS_REQUIRED" ;;
  require_kind (va_previous_assignment_ref a) "verification_assignment".

(** [HypothesisProcessState.process_shape] *)
Definition process_shape (h : HypothesisProcessState) : result unit :=
  raise_if neqb (mem (h_status h) [H_TERMINAL; H_FAILED; H_CANCELLED])
                (is_some (h_finished_at h))
    with "PROCESS_TERMINAL_TIME_MISMATCH" ;;
  raise_if eqb (h_status h) H_REGISTERED
           && (neqb (h_verification_generation h) 0
               || is_some (h_verification_assignment_ref h)
               || is_some (h_verification_work_ref h) || is_some (h_verification_result_ref h))
    with "REGISTERED_PROCESS_HAS_NO_ASSIGNMENT" ;;
  raise_if mem (h_status h) [H_ASSIGNED; H_VERIFYING; H_TERMINAL; H_FAILED]
           && is_none (h_verification_assignment_ref h)
    with "PROCESS_ASSIGNMENT_REQUIRED" ;;
  raise_if mem (h_status h) [H_VERIFYING; H_FAILED] && is_none (h_verification_work_ref h)
    with "PROCESS_WORK_REQUIRED" ;;
  raise_if eqb (h_status h) H_TERMINAL
           && (is_some (h_verification_work_ref h) || is_none (h_verification_result_ref h))
    with "TERMINAL_PROCESS_RESULT_REQUIRED" ;;
  raise_if eqb (h_status h) H_FAILED && is_some (h_verification_result_ref h)
    with "FAILED_PROCESS_HAS_NO_VERDICT" ;;
  do! require_kind (h_verification_assignment_ref h) "verification_assignment" ;;
  require_kind (h_verification_work_ref h) "work_execution_state".

(** [HypothesisProcessState.model_validate] *)
Definition validate_process (h : HypothesisProcessState) : result HypothesisProcessState :=
  raise_if negb (eqb (revision_shape (h_meta h)) (Ok tt)
                 && NonNegativeInt (h_verification_generation h)
                 && NonNegativeInt (h_elapsed_ms h))
    with "ValidationError" ;;
  do! domain_scope "hypothesis_process_state" (h_meta h)
        [(Some (h_proposal_ref h), "hypothesis_proposal");
         (h_verification_result_ref h, "verification_result")]
        (RStored (h_proposal_ref h) :: opt_stored (h_verification_assignment_ref h)
         ++ opt_stored (h_verification_work_ref h)
         ++ opt_stored (h_verification_result_ref h)) ;;
  do! process_shape h ;;
  Ok h.

(** ** Dynamic reproduction *)

Inductive DynamicStatus :=
| D_NOT_REQUESTED | D_RUNNING | D_SUCCEEDED | D_PARTIAL | D_FAILED | D_BLOCKED | D_CANCELLED.
#[export] Instance DynamicStatus_eq_dec : EqDecision DynamicStatus.
Proof. solve_decision. Defined.

Record DynamicReproductionState := mkDynamicState {
  y_meta : RunMeta;
  y_verification_generation : Z;
  y_dynamic_work_ref : option StoredDataRef;
  y_status : DynamicStatus;
  y_request_ref : option StoredDataRef;
  y_dynamic_result_ref : option StoredDataRef;
  y_started_at : option Z;
  y_finished_at : option Z;
  y_elapsed_ms : Z;
}.

#[export] Instance DynamicReproductionState_eq_dec : EqDecision DynamicReproductionState.
Proof. solve_decision. Defined.

(** [DynamicReproductionState.state_shape] *)
Definition dynamic_shape (y : DynamicReproductionState) : result unit :=
  if eqb (y_status y) D_NOT_REQUESTED then
    raise_if is_some (y_dynamic_work_ref y) || is_some (y_request_ref y)
             || is_some (y_dynamic_result_ref y) || is_some (y_started_at y)
             || is_some (y_finished_at y) || neqb (y_elapsed_ms y) 0
      with "DYNAMIC_STATE_NOT_REQUESTED" ;;
    Ok tt
  else
    raise_if is_none (y_dynamic_work_ref y) || is_none (y_request_ref y)
             || is_none (y_started_at y)
      with "DYNAMIC_STATE_EXECUTION_REQUIRED" ;;
    raise_if eqb (y_status y) D_RUNNING && is_some (y_dynamic_result_ref y)
      with "DYNAMIC_STATE_RESULT_REQUIRED" ;;
    let ended := mem (y_status y) [D_SUCCEEDED; D_PARTIAL; D_FAILED; D_CANCELLED] in
    raise_if ended && is_none (y_dynamic_result_ref y)
      with "DYNAMIC_STATE_RESULT_REQUIRED" ;;
    raise_if neqb ended (is_some (y_finished_at y)) with "DYNAMIC_STATE_TERMINAL_TIME" ;;
    raise_if precedes (y_finished_at y) (y_started_at y) with "DYNAMIC_STATE_TIME_RANGE" ;;
    do! require_kind (y_dynamic_work_ref y) "work_execution_state" ;;
    do! require_kind (y_request_ref y) "dynamic_reproduction_request" ;;
    require_kind (y_dynamic_result_ref y) "dynamic_reproduction_result".

(** [DynamicReproductionState.model_validate] *)
Definition validate_dynamic (y : DynamicReproductionState) : result DynamicReproductionState :=
  raise_if negb (eqb (revision_shape (y_meta y)) (Ok tt)
                 && PositiveInt (y_verification_generation y)
                 && NonNegativeInt (y_elapsed_ms y))
    with "ValidationError" ;;
  do! domain_scope "dynamic_reproduction_state" (y_meta y)
        [(y_request_ref y, "dynamic_reproduction_request");
         (y_dynamic_result_ref y, "dynamic_reproduction_result")]
        (opt_stored (y_dynamic_work_ref y) ++ opt_stored (y_request_ref y)
         ++ opt_stored (y_dynamic_result_ref y)) ;;
  do! dynamic_shape y ;;
  Ok y.

(** ** Workspaces *)

Inductive WorkspaceStatus := PREPARING | WORKSPACE_READY | WORKSPACE_FAILED | REMOVED.
#[export] Instance WorkspaceStatus_eq_dec : EqDecision WorkspaceStatus.
Proof. solve_decision. Defined.

Record CodeWorkspace := mkWorkspace {
  cw_meta : RunMeta;
  cw_workspace_id : string;
  cw_analysis_id : string;
  cw_repository_url : string;
  cw_commit_id : option string;
  cw_status : WorkspaceStatus;
}.
#[export] Instance CodeWorkspace_eq_dec : EqDecision CodeWorkspace.
Proof. solve_decision. Defined.

(** [CodeWorkspace.workspace_shape] *)
Definition workspace_shape (w : CodeWorkspace) : result unit :=
  raise_if is_RecordMeta (cw_meta w) || neqb (record_type (cw_meta w)) "code_workspace"
           || neqb (cw_analysis_id w) (rm_analysis_id (cw_meta w))
    with "METADATA_SCOPE_MISMATCH" ;;
  raise_if eqb (cw_status w) WORKSPACE_READY && is_none (cw_commit_id w)
           || eqb (cw_status w) PREPARING && is_some (cw_commit_id w)
    with "WORKSPACE_NOT_READY" ;;
  Ok tt.
