(* ===== verification/WorkLife.v ===== *)
(** * WorkLife: the work values the services publish, and their life cycle

    The declarative reading of the work validator, the exact work values built
    by [WorkService.make_ready], [AttemptService.start],
    [TransitionService.finish] and [TransitionService.cancel_in_transaction],
    and the step relation those four publications generate. *)
From S2P Require Import Prelude Records Work.

(** ** Specification of a well-formed work *)

Record WorkShape (w : WorkExecutionState) : Prop := {
  ws_meta : w_work_type w = WORKSPACE_PREP <-> rm_code (w_meta w) = None;
  ws_meta_attempt : rm_attempt_id (w_meta w) = None;
  ws_analysis : w_subject_type w = S_ANALYSIS ->
    w_subject_id w = SubAnalysis (rm_analysis_id (w_meta w));
  ws_hypothesis : w_subject_type w = S_HYPOTHESIS ->
    Some (w_subject_id w) = SubHypothesis <$> rm_hypothesis_id (w_meta w);
  ws_running : w_status w = RUNNING <-> is_Some (w_active_attempt_id w);
  ws_terminal : w_status w ∈ TERMINAL_WORK_STATUSES <-> is_Some (w_finished_at w);
  ws_times : precedes (w_finished_at w) (w_started_at w) = false;
  ws_started : w_status w = RUNNING -> is_Some (w_started_at w);
  ws_fresh : w_status w ∈ [PENDING; READY] -> w_output_refs w = [];
  ws_waiting : w_status w = BLOCKED <-> w_waiting_for w <> [];
  ws_reason : w_status w ∈ BLOCKED :: TERMINAL_WORK_STATUSES ->
    no_text (w_stop_reason w) = false;
  ws_succeeded : w_status w = SUCCEEDED -> w_stop_reason w = Some "COMPLETED";
  ws_failed : w_status w = FAILED -> w_error_ids w <> [];
  ws_partial : w_status w = PARTIAL -> partial_shape w = Ok tt;
  ws_refs : optional_record_ref (w_last_transition_ref w) "state_transition" = Ok tt
    /\ optional_record_ref (w_last_transition_commit_ref w) "transition_commit" = Ok tt
    /\ optional_record_ref (w_parent_work_ref w) "work_execution_state" = Ok tt;
  ws_pending : w_status w = PENDING ->
    w_state_version w = 1 /\ w_last_transition_ref w = None
    /\ w_last_transition_commit_ref w = None;
  ws_advanced : w_status w <> PENDING ->
    is_Some (w_last_transition_ref w) /\ 2 <= w_state_version w;
  ws_parent : w_work_type w ∈ child_work_types <-> is_Some (w_parent_work_ref w);
  ws_finding : w_work_type w = FINDING_NORMALIZE -> w_subject_type w = S_HYPOTHESIS;
  ws_chaining : w_work_type w = CHAINING <-> is_Some (w_trigger_primitive_ref w);
  ws_trigger : forall ref, w_trigger_primitive_ref w = Some ref ->
    require_record_ref ref (Some "primitive") = Ok tt
    /\ w_subject_type w = S_ANALYSIS /\ py_count (RStored ref) (w_input_refs w) = 1%nat;
}.

Lemma work_shape_sound w : work_shape w = Ok tt -> WorkShape w.
Proof.
  unfold work_shape, is_RecordMeta. intros H. unguard H. unfold terminal_work in *.
  boolify. constructor; auto; try tauto.
  - split; [exact G0 |]. intros Hc. destruct (decide (w_work_type w = WORKSPACE_PREP)); auto.
    destruct (G n) as [c Hc']. congruence.
  - destruct (rm_code (w_meta w)) eqn:Hc; [apply G1; eauto |].
    unfold rm_attempt_id. rewrite Hc. reflexivity.
  - split; [intros Hs; apply (G9 Hs) |]. intros Hw.
    destruct (decide (w_status w = BLOCKED)) as [| Hs]; [assumption |].
    destruct (Hw (G10 Hs)).
  - intros Hs. apply elem_of_cons in Hs. destruct Hs as [Hs | Hs]; [apply G9, Hs | auto].
  - intros Hs. rewrite bool_decide_true in E by exact Hs. exact E.
  - intros ref Href. rewrite Href in H. unguard H. boolify. tauto.
Qed.

Lemma work_shape_complete w : WorkShape w -> work_shape w = Ok tt.
Proof.
  intros [M1 M2 M3 M4 M5 M6 M7 M8 M9 M10 M11 M12 M13 M14 (M15 & M16 & M17) M18 M19 M20 M21 M22 M23].
  assert (Hwait : w_status w <> BLOCKED -> w_waiting_for w = []).
  { intros Hs. destruct (w_waiting_for w) eqn:E; [reflexivity |].
    destruct Hs. apply M10. discriminate. }
  assert (Hhyp : w_subject_type w = S_HYPOTHESIS -> is_Some (rm_code (w_meta w))).
  { intros Hs. specialize (M4 Hs). unfold rm_hypothesis_id in M4.
    destruct (rm_code (w_meta w)); [eauto | discriminate]. }
  unfold work_shape, is_RecordMeta, terminal_work.
  guards; try exact M15; try exact M16; try exact M17; boolify; auto.
  - intros Hn. destruct (rm_code (w_meta w)) eqn:E; [eauto |]. destruct Hn. apply M1. reflexivity.
  - apply M1.
  - intros Hs. split; [apply Hhyp; exact Hs | auto].
  - intros Hs. split; [auto |]. apply Hwait. intros Hb. rewrite Hb in Hs. set_solver.
  - intros Hs. split; [apply M10; exact Hs |]. apply M11. rewrite Hs. left.
  - intros Hs. apply M11. right. exact Hs.
  - case_bool_decide; [auto | reflexivity].
  - intros Hs. apply M18 in Hs. tauto.
  - destruct (w_trigger_primitive_ref w) as [ref |] eqn:E; [| reflexivity].
    destruct (M23 ref eq_refl) as (H1 & H2 & H3). guards; eauto. boolify. auto.
Qed.

Lemma work_shape_spec w : work_shape w = Ok tt <-> WorkShape w.
Proof. split; [apply work_shape_sound | apply work_shape_complete]. Qed.

(** ** The published work values *)

(** [WorkExecutionState.model_validate(work.model_dump() | dict(...))]: every
    field the services overwrite, the others carried over. *)
Definition next_work (w : WorkExecutionState) (meta : RunMeta) (status : WorkStatus)
  (version : Z) (attempt : option string) (transition : option BudgetScopeRef)
  (commit : option BudgetScopeRef) (outputs : list RecordRef) (gaps errors : list string)
  (waiting : list WaitingFor) (reason : option string) (started finished : option Z)
  : WorkExecutionState :=
  mkWork meta (w_work_id w) (w_parent_work_ref w) (w_work_type w) (w_subject_type w)
    (w_subject_id w) (w_work_generation w) status version transition commit attempt
    (w_input_hash w) (w_dedupe_key w) (w_trigger_primitive_ref w) (w_input_refs w)
    outputs gaps errors waiting reason started finished (w_elapsed_ms w).

(** [WorkService.make_ready] *)
Definition ready_work (w : WorkExecutionState) (meta : RunMeta) (t : StateTransition)
  (transition_ref : BudgetScopeRef) : WorkExecutionState :=
  next_work w meta READY (t_new_state_version t) (w_active_attempt_id w)
    (Some transition_ref) (w_last_transition_commit_ref w) [] (w_gap_ids w) (w_error_ids w)
    [] None (w_started_at w) (w_finished_at w).

(** [WorkDispatchStore.resume_blocked]: the explicit user resume. *)
Definition resumed_work (w : WorkExecutionState) (meta : RunMeta) (t : StateTransition)
  (transition_ref : BudgetScopeRef) : WorkExecutionState :=
  next_work w meta READY (t_new_state_version t) (w_active_attempt_id w)
    (Some transition_ref) (w_last_transition_commit_ref w) [] [] [] [] None
    (w_started_at w) None.

(** [AttemptService.start] *)
Definition running_work (w : WorkExecutionState) (meta : RunMeta) (t : StateTransition)
  (transition_ref : BudgetScopeRef) (a : WorkAttempt) : WorkExecutionState :=
  next_work w meta RUNNING (t_new_state_version t) (Some (a_attempt_id a))
    (Some transition_ref) (w_last_transition_commit_ref w) (w_output_refs w) (w_gap_ids w)
    (w_error_ids w) (w_waiting_for w) (w_stop_reason w)
    (match w_started_at w with Some s => Some s | None => Some (a_started_at a) end)
    (w_finished_at w).

(** [TransitionService.finish]; [waiting] is the reason a BLOCKED result waits for. *)
Definition finished_work (w : WorkExecutionState) (meta : RunMeta) (t : StateTransition)
  (c : TransitionCommit) (commit_ref : BudgetScopeRef) (waiting : WaitingFor) (now : Z)
  : WorkExecutionState :=
  let terminal := neqb (c_target_status c) C_BLOCKED in
  next_work w meta (commit_work_status (c_target_status c)) (c_target_state_version c) None
    (Some (c_transition_ref c)) (Some commit_ref) (c_output_refs c) (c_gap_ids c)
    (c_error_ids c) (if terminal then [] else [waiting]) (Some (t_cause t))
    (w_started_at w) (if terminal then Some now else None).

(** [TransitionService.cancel_in_transaction] *)
Definition cancelled_work (w : WorkExecutionState) (meta : RunMeta)
  (transition_ref commit_ref : BudgetScopeRef) (now : Z) : WorkExecutionState :=
  next_work w meta CANCELLED (w_state_version w + 1) None (Some transition_ref)
    (Some commit_ref) (w_output_refs w) (w_gap_ids w) (w_error_ids w) []
    (Some "CANCELLATION_REQUESTED") (w_started_at w) (Some now).

(** The attempt a terminal or blocking commit ends ([TransitionService.finish]). *)
Definition ended_status (target : CommitTargetStatus) : AttemptStatus :=
  match target with
  | C_SUCCEEDED => A_SUCCEEDED | C_PARTIAL => A_PARTIAL | C_FAILED => A_FAILED
  | C_BLOCKED | C_CANCELLED => A_CANCELLED
  end.

Definition ended_attempt (a : WorkAttempt) (meta : RunMeta) (w : WorkExecutionState)
  (c : TransitionCommit) (now : Z) : WorkAttempt :=
  mkAttempt meta (a_work_id a) (a_attempt_id a) (a_attempt_number a) (a_trigger a)
    (a_input_hash a) (ended_status (c_target_status c)) (w_output_refs w) (w_gap_ids w)
    (w_error_ids w) (a_started_at a) (Some now) (a_elapsed_ms a).

(** ** The life cycle as a step relation *)

Inductive work_step (w : WorkExecutionState) : WorkExecutionState -> Prop :=
| step_make_ready t id now meta ref w' :
    validate_transition t = Ok t ->
    validate_transition_context t w None = Ok tt ->
    t_to_status t = T_READY -> w_status w ∈ [PENDING; BLOCKED] ->
    next_meta (w_meta w) id now = Ok meta ->
    validate_work (ready_work w meta t ref) = Ok w' ->
    work_step w w'
| step_resume t id now meta ref w' :
    validate_transition t = Ok t ->
    t_expected_state_version t = w_state_version w -> t_from_status t = w_status w ->
    t_to_status t = T_READY -> w_status w ∈ [BLOCKED; FAILED] ->
    w_active_attempt_id w = None ->
    (w_status w = FAILED -> w_work_type w = DYNAMIC_REPRO /\ w_stop_reason w = Some "FAILED") ->
    next_meta (w_meta w) id now = Ok meta ->
    validate_work (resumed_work w meta t ref) = Ok w' ->
    work_step w w'
| step_start t a prior id now meta ref w' :
    validate_transition t = Ok t -> validate_attempt a = Ok a ->
    validate_transition_context t w None = Ok tt ->
    w_status w = READY -> t_to_status t = T_RUNNING -> t_attempt_id t = Some (a_attempt_id a) ->
    a_status a = A_RUNNING ->
    next_meta (w_meta w) id now = Ok meta ->
    validate_work (running_work w meta t ref a) = Ok w' ->
    validate_attempt_context a w' prior = Ok tt ->
    work_step w w'
| step_finish t c hash commit_ref waiting id created now meta w' :
    validate_transition t = Ok t -> validate_commit c = Ok c -> c_state c = PREPARED ->
    validate_commit_transition c t hash = Ok tt ->
    validate_transition_context t w None = Ok tt ->
    next_meta (w_meta w) id created = Ok meta ->
    validate_work (finished_work w meta t c commit_ref waiting now) = Ok w' ->
    work_step w w'
| step_cancel transition_ref commit_ref id created now meta w' :
    terminal_work (w_status w) = false ->
    next_meta (w_meta w) id created = Ok meta ->
    validate_work (cancelled_work w meta transition_ref commit_ref now) = Ok w' ->
    work_step w w'.

Inductive work_steps : nat -> WorkExecutionState -> WorkExecutionState -> Prop :=
| steps_refl w : work_steps 0 w w
| steps_next n w1 w2 w3 : work_step w1 w2 -> work_steps n w2 w3 -> work_steps (S n) w1 w3.

(** What no step changes. *)
Definition same_work (w w' : WorkExecutionState) : Prop :=
  w_work_id w = w_work_id w' /\ w_parent_work_ref w = w_parent_work_ref w'
  /\ w_work_type w = w_work_type w' /\ w_subject_type w = w_subject_type w'
  /\ w_subject_id w = w_subject_id w' /\ w_work_generation w = w_work_generation w'
  /\ w_input_hash w = w_input_hash w' /\ w_dedupe_key w = w_dedupe_key w'
  /\ w_trigger_primitive_ref w = w_trigger_primitive_ref w'
  /\ w_input_refs w = w_input_refs w'
  /\ rm_analysis_id (w_meta w) = rm_analysis_id (w_meta w')
  /\ rm_code (w_meta w) = rm_code (w_meta w')
  /\ logical_record_id (w_meta w) = logical_record_id (w_meta w').

(** ** Lemmas on steps *)

Lemma validate_work_Ok w w' :
  validate_work w = Ok w' <->
  w' = w /\ work_fields w = true /\ typed_subject w = Ok tt
  /\ reference_scopes (work_refs w) (w_meta w) = Ok tt /\ WorkShape w.
Proof.
  unfold validate_work. split.
  - intros H. unguard H. injection H as <-. boolify.
    rewrite <- work_shape_spec. auto.
  - intros (-> & H1 & H2 & H3 & H4). apply work_shape_spec in H4.
    rewrite H1, H2, H3, H4. reflexivity.
Qed.

Lemma transition_context_Ok t w r :
  validate_transition_context t w r = Ok tt ->
  t_work_id t = w_work_id w /\ t_expected_state_version t = w_state_version w
  /\ t_from_status t = w_status w
  /\ (w_status w = RUNNING -> t_attempt_id t = w_active_attempt_id w)
  /\ (w_status w = RUNNING -> t_to_status t = T_READY ->
      w_work_type w = DYNAMIC_REPRO /\ r = Some RETRY).
Proof.
  unfold validate_transition_context. intros H. unguard H. boolify.
  destruct G as ((Hid & Hver) & Hfrom). rewrite Hfrom in *. tauto.
Qed.

Lemma validate_transition_Ok t :
  validate_transition t = Ok t ->
  target_work_status (t_to_status t) ∈ allowed_transitions (t_from_status t)
  /\ t_new_state_version t = t_expected_state_version t + 1.
Proof.
  unfold validate_transition. intros H. unguard H. unfold transition_shape in E0.
  unguard E0. boolify. auto.
Qed.

Lemma commit_transition_Ok c t hash :
  validate_commit_transition c t hash = Ok tt ->
  c_work_id c = t_work_id t /\ c_expected_state_version c = t_expected_state_version t
  /\ c_target_state_version c = t_new_state_version t /\ c_attempt_id c = t_attempt_id t
  /\ commit_work_status (c_target_status c) = target_work_status (t_to_status t)
  /\ c_output_refs c = t_output_refs t /\ c_gap_ids c = t_gap_ids t
  /\ c_error_ids c = t_error_ids t.
Proof.
  unfold validate_commit_transition. intros H. unguard H. boolify. tauto.
Qed.

(** A published [next_work] keeps the identity of the work and extends its
    revision chain by one. *)
Lemma next_work_publish w m id now w' st v at_ tr co o g e wa re s f :
  next_meta (w_meta w) id now = Ok m ->
  validate_work (next_work w m st v at_ tr co o g e wa re s f) = Ok w' ->
  same_work w w' /\ w_state_version w' = v /\ w_status w' = st
  /\ revision_number (w_meta w') = revision_number (w_meta w) + 1
  /\ previous_record_id (w_meta w') = Some (record_id (w_meta w))
  /\ validate_work w' = Ok w'.
Proof.
  intros Hm Hv. pose proof Hv as Hv'. apply validate_work_Ok in Hv'.
  destruct Hv' as (-> & _). apply next_meta_Ok in Hm. destruct Hm as (-> & _).
  repeat split; try reflexivity. exact Hv.
Qed.

(** Every step publishes a valid next revision of the same work, and its status
    change is in the transition table. *)
Lemma work_step_inv w w' :
  work_step w w' ->
  same_work w w' /\ w_state_version w' = w_state_version w + 1
  /\ w_status w' ∈ allowed_transitions (w_status w)
  /\ revision_number (w_meta w') = revision_number (w_meta w) + 1
  /\ previous_record_id (w_meta w') = Some (record_id (w_meta w))
  /\ validate_work w' = Ok w'.
Proof.
  intros [t id now m ref w0 Ht Hc Hto Hs Hm Hv
         | t id now m ref w0 Ht Hver Hfrom Hto Hs Ha Hf Hm Hv
         | t a p id now m ref w0 Ht Hat Hc Hs Hto Hta Hst Hm Hv Hac
         | t c hash cr wa id created now m w0 Ht Hvc Hst Hct Hc Hm Hv
         | tr cr id created now m w0 Hs Hm Hv];
    destruct (next_work_publish _ _ _ _ _ _ _ _ _ _ _ _ _ _ _ _ _ Hm Hv)
      as (S1 & -> & -> & S2);
    (split; [exact S1 | split; [| split; [| exact S2]]]);
    try apply validate_transition_Ok in Ht; try apply transition_context_Ok in Hc.
  - destruct Ht, Hc; lia.
  - destruct Ht as [Ht _], Hc as (_ & _ & <- & _). rewrite Hto in Ht. exact Ht.
  - destruct Ht; lia.
  - destruct Ht as [Ht _]. rewrite <- Hfrom, Hto in *. exact Ht.
  - destruct Ht, Hc; lia.
  - rewrite Hs. set_solver.
  - apply commit_transition_Ok in Hct. destruct Ht, Hc, Hct; lia.
  - apply commit_transition_Ok in Hct. destruct Hct as (_ & _ & _ & _ & -> & _).
    destruct Ht as [Ht _], Hc as (_ & _ & <- & _). exact Ht.
  - reflexivity.
  - unfold terminal_work in Hs. boolify. destruct (w_status w); set_solver.
Qed.

#[export] Instance same_work_preorder : PreOrder same_work.
Proof.
  split; [repeat split; reflexivity |].
  intros w1 w2 w3 H1 H2. unfold same_work in *. intuition congruence.
Qed.

(** A reference a store just published for a record of the work's scope. *)
Definition published_ref (r : BudgetScopeRef) (kind : string) (m : RunMeta) : Prop :=
  require_record_ref r (Some kind) = Ok tt /\ validate_ref_scope r (MRun m) = Ok tt.

(** The fields [next_work] carries over keep the references they hold in scope. *)
Lemma next_work_scopes w id now st v at_ tr co o g e wa re s f m :
  next_meta (w_meta w) id now = Ok m ->
  reference_scopes (work_refs w) (w_meta w) = Ok tt ->
  reference_scopes (opt_ref tr) (w_meta w) = Ok tt ->
  reference_scopes (opt_ref co) (w_meta w) = Ok tt ->
  reference_scopes o (w_meta w) = Ok tt ->
  reference_scopes (work_refs (next_work w m st v at_ tr co o g e wa re s f)) m = Ok tt.
Proof.
  intros Hm H Htr Hco Ho. apply next_meta_Ok in Hm. destruct Hm as (-> & _).
  rewrite (reference_scopes_same _ _ (w_meta w)) by reflexivity.
  unfold work_refs in *. simpl. rewrite !reference_scopes_app in *. tauto.
Qed.

(** The carried-over fields also keep their declared constraints. *)
Lemma next_work_fields w id now st v at_ tr co o g e wa re s f m :
  next_meta (w_meta w) id now = Ok m ->
  work_fields w = true -> PositiveInt v = true ->
  (forall r, re = Some r -> NonEmptyStr r = true) ->
  work_fields (next_work w m st v at_ tr co o g e wa re s f) = true.
Proof.
  intros Hm H Hv Hr. unfold next_meta in Hm. unguard Hm. injection Hm as <-.
  unfold work_fields in *. boolify. simpl.
  rewrite Hv. destruct re as [r |]; [rewrite (Hr r eq_refl) |]; intuition.
Qed.

Lemma NonEmptyStr_text s : NonEmptyStr s = true -> no_text (Some s) = false.
Proof.
  unfold no_text. intros H. boolify. intros ->. discriminate.
Qed.

Lemma work_version_pos w : work_fields w = true -> PositiveInt (w_state_version w + 1) = true.
Proof. unfold work_fields, PositiveInt. intros H. boolify. lia. Qed.

(** ** Properties *)

(** a registered work, after any number of published steps, is still the same
    work, is valid, and its version and revision count the steps exactly. *)
Theorem work_reachable n w0 w :
  validate_work w0 = Ok w0 -> w_status w0 = PENDING -> work_steps n w0 w ->
  same_work w0 w /\ validate_work w = Ok w
  /\ w_state_version w = 1 + Z.of_nat n
  /\ revision_number (w_meta w) = revision_number (w_meta w0) + Z.of_nat n
  /\ (w_status w = PENDING <-> n = 0%nat).
Proof.
  intros Hv Hp Hs.
  assert (Hver : w_state_version w0 = 1).
  { apply validate_work_Ok in Hv. destruct Hv as (_ & _ & _ & _ & Hw).
    apply (ws_pending _ Hw Hp). }
  assert (Hgen : same_work w0 w /\ validate_work w = Ok w
     /\ w_state_version w = w_state_version w0 + Z.of_nat n
     /\ revision_number (w_meta w) = revision_number (w_meta w0) + Z.of_nat n
     /\ (n <> 0%nat -> w_status w <> PENDING)).
  { clear Hp Hver. induction Hs as [w | n w1 w2 w3 Hst Hs IH].
    - rewrite !Z.add_0_r. repeat split; auto; lia.
    - apply work_step_inv in Hst. destruct Hst as (S1 & S2 & S3 & S4 & S5 & S6).
      destruct (IH S6) as (I1 & I2 & I3 & I4 & I5).
      split; [etransitivity; eassumption |]. split; [assumption |].
      split; [lia |]. split; [lia |]. intros _.
      destruct n as [| n]; [| apply I5; discriminate].
      inversion Hs; subst. intros Hw. rewrite Hw in S3. destruct (w_status w1); set_solver. }
  destruct Hgen as (I1 & I2 & I3 & I4 & I5). rewrite Hver in I3.
  refine (conj I1 (conj I2 (conj I3 (conj I4 (conj _ _)))));
    [| intros ->; inversion Hs; subst; assumption].
  intros Hw. destruct n; [reflexivity |]. destruct (I5 ltac:(discriminate) Hw).
Qed.

(** Succeeded, partial and cancelled work never changes again; failed work only
    through an explicit resume of dynamic reproduction work back to READY. *)
Theorem terminal_work_absorbing w w' :
  work_step w w' -> terminal_work (w_status w) = true ->
  w_status w = FAILED /\ w_work_type w = DYNAMIC_REPRO /\ w_status w' = READY
  /\ w_error_ids w' = [] /\ w_finished_at w' = None.
Proof.
  intros Hst Hterm. pose proof (work_step_inv _ _ Hst) as (_ & _ & Hal & _).
  unfold terminal_work in Hterm. boolify.
  assert (Hf : w_status w = FAILED) by (destruct (w_status w); set_solver).
  rewrite Hf in Hal. simpl in Hal. apply list_elem_of_singleton in Hal.
  destruct Hst as [t id now m ref w0 Ht Hc Hto Hs Hm Hv
         | t id now m ref w0 Ht Hver Hfrom Hto Hs Ha Hfr Hm Hv
         | t a p id now m ref w0 Ht Hat Hc Hs Hto Hta Hst Hm Hv Hac
         | t c hash cr wa id created now m w0 Ht Hvc Hst Hct Hc Hm Hv
         | tr cr id created now m w0 Hs Hm Hv].
  - rewrite Hf in Hs. set_solver.
  - apply validate_work_Ok in Hv. destruct Hv as (-> & _). simpl. destruct (Hfr Hf). auto.
  - congruence.
  - apply validate_work_Ok in Hv. destruct Hv as (-> & _). simpl in Hal.
    destruct (c_target_status c); discriminate.
  - rewrite Hf in Hs. discriminate.
Qed.

(** Optimistic concurrency: once a step is published, every transition prepared
    against the superseded work version is refused. *)
Theorem stale_transition_rejected w w' t r r' :
  work_step w w' -> validate_transition_context t w r = Ok tt ->
  validate_transition_context t w' r' =
    Err (ValueError "STATE_VERSION_CONFLICT: transition does not match current work").
Proof.
  intros Hst Hc. pose proof (work_step_inv _ _ Hst) as (Hsame & Hver & _).
  unfold validate_transition_context in Hc. unguard Hc. boolify.
  destruct G as ((_ & Hv) & _).
  unfold validate_transition_context.
  assert (Hscope : _validate_metadata_scope (t_meta t) (w_meta w')
                   = _validate_metadata_scope (t_meta t) (w_meta w)).
  { destruct Hsame as (_ & _ & _ & _ & _ & _ & _ & _ & _ & _ & Ha & Hcode & _).
    unfold _validate_metadata_scope, run_kind, is_RecordMeta. rewrite Ha, Hcode. reflexivity. }
  rewrite Hscope, E. simpl.
  rewrite (bool_decide_false (t_expected_state_version t = w_state_version w')) by lia.
  rewrite orb_true_r. reflexivity.
Qed.

(** A next revision with the carried-over identity is well formed as soon as its
    new status fields are. *)
Lemma next_work_valid w id now m st v at_ tr co o g e wa re s f :
  validate_work w = Ok w -> next_meta (w_meta w) id now = Ok m ->
  PositiveInt v = true -> (forall r, re = Some r -> NonEmptyStr r = true) ->
  reference_scopes (opt_ref tr) (w_meta w) = Ok tt ->
  reference_scopes (opt_ref co) (w_meta w) = Ok tt ->
  reference_scopes o (w_meta w) = Ok tt ->
  let w' := next_work w m st v at_ tr co o g e wa re s f in
  WorkShape w' -> validate_work w' = Ok w'.
Proof.
  intros Hw Hm Hv Hre Htr Hco Ho w' Hshape.
  apply validate_work_Ok in Hw. destruct Hw as (_ & Hf & Ht & Hs & _).
  apply validate_work_Ok. split; [reflexivity |].
  split; [eapply next_work_fields; eauto |]. split; [exact Ht |].
  split; [eapply next_work_scopes; eauto | exact Hshape].
Qed.

(** The shape of a next revision, from the shape of the work it replaces. *)
Lemma next_work_shape w id now m st v at_ tr co o g e wa re s f :
  WorkShape w -> next_meta (w_meta w) id now = Ok m ->
  (st = RUNNING <-> is_Some at_) -> (st ∈ TERMINAL_WORK_STATUSES <-> is_Some f) ->
  precedes f s = false -> (st = RUNNING -> is_Some s) ->
  (st ∈ [PENDING; READY] -> o = []) -> (st = BLOCKED <-> wa <> []) ->
  (st ∈ BLOCKED :: TERMINAL_WORK_STATUSES -> no_text re = false) ->
  (st = SUCCEEDED -> re = Some "COMPLETED") -> (st = FAILED -> e <> []) ->
  let w' := next_work w m st v at_ tr co o g e wa re s f in
  (st = PARTIAL -> partial_shape w' = Ok tt) ->
  optional_record_ref tr "state_transition" = Ok tt ->
  optional_record_ref co "transition_commit" = Ok tt ->
  st <> PENDING -> is_Some tr -> 2 <= v -> WorkShape w'.
Proof.
  intros Hw Hm **. apply next_meta_Ok in Hm. destruct Hm as (-> & _). subst w'.
  destruct Hw. constructor; simpl; auto; try tauto.
Qed.

Lemma published_scope r kind m :
  published_ref r kind m ->
  reference_scopes (opt_ref (Some r)) m = Ok tt
  /\ optional_record_ref (Some r) kind = Ok tt.
Proof. intros [H1 H2]. split; [apply reference_scopes_one; exact H2 | exact H1]. Qed.

(** Settles the side conditions on a concrete status. *)
Lemma terminal_statuses s :
  s ∈ TERMINAL_WORK_STATUSES <-> s = SUCCEEDED \/ s = PARTIAL \/ s = FAILED \/ s = CANCELLED.
Proof. unfold TERMINAL_WORK_STATUSES. set_solver. Qed.

Ltac status_case := intros; first
  [ discriminate | exact eq_refl | assumption | tauto | eexists; reflexivity
  | match goal with H : is_Some None |- _ => destruct H; discriminate end
  | intuition discriminate | congruence | solve [auto] ].
Ltac status_cases :=
  rewrite ?elem_of_cons, ?terminal_statuses, ?elem_of_nil;
  first [status_case | split; status_case].

(** What a prepared commit inherits from its work through the transition. *)
Lemma commit_in_scope c t hash w :
  validate_commit c = Ok c -> validate_commit_transition c t hash = Ok tt ->
  validate_transition_context t w None = Ok tt ->
  reference_scopes (c_output_refs c) (w_meta w) = Ok tt
  /\ reference_scopes (opt_ref (Some (c_transition_ref c))) (w_meta w) = Ok tt
  /\ optional_record_ref (Some (c_transition_ref c)) "state_transition" = Ok tt.
Proof.
  intros Hc Hct Hctx.
  unfold validate_transition_context in Hctx. unguard Hctx. apply metadata_scope_Ok in E.
  unfold validate_commit_transition in Hct. unguard Hct. apply metadata_scope_Ok in E0.
  unfold validate_commit in Hc. unguard Hc. unfold commit_shape in E3. unguard E3.
  destruct E as (A1 & A2 & A3), E0 as (B1 & B2 & B3).
  assert (Hs : forall refs, reference_scopes refs (c_meta c) = reference_scopes refs (w_meta w)).
  { intros refs. apply reference_scopes_same; congruence. }
  rewrite Hs in E2. unfold reference_scopes in E2. simpl in E2. unguard E2.
  split; [exact E2 |]. split; [apply reference_scopes_one; assumption | assumption].
Qed.

Lemma transition_text t :
  validate_transition t = Ok t ->
  NonEmptyStr (t_cause t) = true /\ 2 <= t_new_state_version t.
Proof.
  intros H. pose proof H as H'. apply validate_transition_Ok in H'.
  unfold validate_transition in H. unguard H. unfold PositiveInt in *. boolify.
  intuition lia.
Qed.

(** Cancellation never fails to publish: whatever its status, a valid work that
    is not terminal has a valid cancelled revision, which keeps its outputs. *)
Theorem cancel_always_possible w id (created now : Z) tr cr :
  validate_work w = Ok w -> terminal_work (w_status w) = false ->
  id <> record_id (w_meta w) ->
  (forall s, w_started_at w = Some s -> s <= now) ->
  published_ref tr "state_transition" (w_meta w) ->
  published_ref cr "transition_commit" (w_meta w) ->
  exists w', work_step w w' /\ w_status w' = CANCELLED
    /\ w_output_refs w' = w_output_refs w /\ w_active_attempt_id w' = None
    /\ created_at (w_meta w') = created /\ w_finished_at w' = Some now.
Proof.
  intros Hv Hterm Hid Hnow Htr Hcr.
  destruct (published_scope _ _ _ Htr) as [Htr1 Htr2].
  destruct (published_scope _ _ _ Hcr) as [Hcr1 Hcr2].
  pose proof Hv as Hv'. apply validate_work_Ok in Hv'. destruct Hv' as (_ & Hf & _ & Hs & Hw).
  assert (Hm : revision_shape (w_meta w) = Ok tt).
  { unfold work_fields in Hf. boolify. tauto. }
  assert (Hver : 1 <= w_state_version w).
  { unfold work_fields, PositiveInt in Hf. boolify. lia. }
  pose proof (next_meta_valid (w_meta w) id created Hm Hid) as Hnm.
  exists (cancelled_work w (mkRunMeta (next_rev (w_meta w) id created) (rm_analysis_id (w_meta w))
                         (rm_code (w_meta w))) tr cr now).
  split; [eapply (step_cancel _ tr cr id created now); [exact Hterm | exact Hnm |] | repeat split].
  unfold cancelled_work. eapply next_work_valid; eauto.
  - unfold PositiveInt. boolify. lia.
  - intros r [= <-]. reflexivity.
  - unfold work_refs in Hs. rewrite !reference_scopes_app in Hs. tauto.
  - eapply next_work_shape; eauto; try discriminate; try lia; try (clear; status_cases).
    unfold precedes. destruct (w_started_at w); [| reflexivity]. boolify. auto.
Qed.

(** A prepared result that matches its transition and its work is publishable
    exactly when it meets the demands of its target status. *)
Theorem finish_publishes_iff w t c hash id created now meta cr waiting :
  validate_work w = Ok w -> validate_transition t = Ok t -> validate_commit c = Ok c ->
  validate_commit_transition c t hash = Ok tt ->
  validate_transition_context t w None = Ok tt ->
  next_meta (w_meta w) id created = Ok meta ->
  published_ref cr "transition_commit" (w_meta w) ->
  (forall s, w_started_at w = Some s -> s <= now) ->
  let w' := finished_work w meta t c cr waiting now in
  validate_work w' = Ok w' <->
  (c_target_status c = C_SUCCEEDED -> t_cause t = "COMPLETED")
  /\ (c_target_status c = C_FAILED -> c_error_ids c <> [])
  /\ (c_target_status c = C_PARTIAL -> partial_shape w' = Ok tt).
Proof.
  intros Hv Ht Hc Hct Hctx Hm Hcr Hnow w'.
  split.
  - intros Hv'. apply validate_work_Ok in Hv'. destruct Hv' as (_ & _ & _ & _ & Hw').
    repeat split; intros Hst.
    + pose proof (ws_succeeded _ Hw') as H. subst w'. simpl in H. rewrite Hst in H.
      injection (H eq_refl) as ->. reflexivity.
    + apply (ws_failed _ Hw'). subst w'. simpl. rewrite Hst. reflexivity.
    + apply (ws_partial _ Hw'). subst w'. simpl. rewrite Hst. reflexivity.
  - intros (H1 & H2 & H3).
    destruct (published_scope _ _ _ Hcr) as [Hcr1 Hcr2].
    destruct (commit_in_scope _ _ _ _ Hc Hct Hctx) as (Ho & Htr1 & Htr2).
    destruct (transition_text _ Ht) as [Htext Hver].
    apply commit_transition_Ok in Hct. destruct Hct as (_ & _ & Hcv & _).
    pose proof Hv as Hv'. apply validate_work_Ok in Hv'. destruct Hv' as (_ & _ & _ & _ & Hw).
    subst w'. unfold finished_work in *.
    eapply next_work_valid; eauto.
    + rewrite Hcv. unfold PositiveInt. boolify. lia.
    + intros r [= <-]. exact Htext.
    + eapply next_work_shape; eauto; try lia.
      all: try (clear - H1 H2 H3; destruct (c_target_status c); simpl in *; status_cases).
      * destruct (c_target_status c); simpl; unfold precedes;
          destruct (w_started_at w); try reflexivity; boolify; auto.
      * intros _. apply NonEmptyStr_text. exact Htext.
      * destruct (c_target_status c); simpl; try discriminate. intros _. f_equal. auto.
Qed.
