(* ===== verification/Actions.v ===== *)
(** * Actions: action requests and single-use decisions of [contracts/actions.py]

    The action request with its shape validator, the table of checks an action
    needs, the decision record, and the rules a chain of decision revisions
    obeys: a decision is claimed at most once and only ever gains outcomes. *)
From S2P Require Import Prelude Records Work.

Inductive ActionType :=
| REGISTER_WORK | CHANGE_WORK_STATE | START_ATTEMPT | CANCEL_WORK
| RESTART_VERIFICATION_GENERATION | READ_CODE | RUN_TOOL | CALL_LLM | FETCH_POLICY
| REQUEST_DYNAMIC_REPRO | RUN_SANDBOX | SAVE_RESULT | CALL_TECHNICAL_GATE
| CALL_RULE_SCOPE_GATE | CREATE_REPORT_DRAFT.

Inductive RequesterRole :=
| Q_ORCHESTRATION | Q_HYPOTHESIS | Q_PRO | Q_CON | Q_VERIFICATION | Q_CWE_LABELING
| Q_CHAINING | Q_TECHNICAL_GATE | Q_RULE_SCOPE_GATE | Q_REPORTER | Q_REPOSITORY_LOADER
| Q_CONTEXT_RETRIEVAL_SERVICE | Q_STATIC_ANALYSIS | Q_POLICY_COLLECTOR | Q_POLICY_PARSER
| Q_PRIMITIVE_ADMISSION_RUNTIME | Q_DYNAMIC_REPRODUCTION | Q_REPRODUCTION_SETUP_AUTOMATION
| Q_SANDBOX_CONTROLLER | Q_REPRODUCTION_SESSION_MANAGER | Q_BUDGET_RUNTIME
| Q_R8_EVALUATION_RUNTIME | Q_RECOVERY.

Inductive CheckType :=
| K_SCHEMA | K_AUTHORITY | K_IDENTITY | K_REVISION | K_STATE | K_BUDGET | K_TOOL
| K_FILE_PATH | K_PROVIDER | K_SESSION | K_GATE_ORDER | K_REPORT_READY | K_REDACTION.

Inductive CheckResult := PASS | FAIL.
Inductive Decision := ALLOW | DENY.
Inductive UseStatus := UNUSED | USED | NOT_USED | EXPIRED.
Inductive SessionMode := M_NEW | M_RESUME | M_AUTO.
Inductive GenerationRestartReason :=
| DYNAMIC_REQUEST_REPLACEMENT_REQUIRED | SANDBOX_PROFILE_REVISION_CHANGED.

#[export] Instance ActionType_eq_dec : EqDecision ActionType.
Proof. solve_decision. Defined.
#[export] Instance RequesterRole_eq_dec : EqDecision RequesterRole.
Proof. solve_decision. Defined.
#[export] Instance CheckType_eq_dec : EqDecision CheckType.
Proof. solve_decision. Defined.
#[export] Instance CheckResult_eq_dec : EqDecision CheckResult.
Proof. solve_decision. Defined.
#[export] Instance Decision_eq_dec : EqDecision Decision.
Proof. solve_decision. Defined.
#[export] Instance UseStatus_eq_dec : EqDecision UseStatus.
Proof. solve_decision. Defined.
#[export] Instance SessionMode_eq_dec : EqDecision SessionMode.
Proof. solve_decision. Defined.
#[export] Instance GenerationRestartReason_eq_dec : EqDecision GenerationRestartReason.
Proof. solve_decision. Defined.

(** [REQUIRED_CHECKS], each frozenset as a list without duplicates. *)
Definition REQUIRED_CHECKS (t : ActionType) : list CheckType :=
  match t with
  | REGISTER_WORK => [K_SCHEMA; K_AUTHORITY; K_IDENTITY; K_REVISION; K_STATE; K_BUDGET]
  | CHANGE_WORK_STATE => [K_SCHEMA; K_AUTHORITY; K_IDENTITY; K_STATE]
  | START_ATTEMPT => [K_SCHEMA; K_AUTHORITY; K_STATE; K_BUDGET]
  | CANCEL_WORK => [K_SCHEMA; K_AUTHORITY; K_IDENTITY; K_STATE]
  | RESTART_VERIFICATION_GENERATION =>
      [K_SCHEMA; K_AUTHORITY; K_IDENTITY; K_REVISION; K_STATE; K_BUDGET]
  | READ_CODE => [K_SCHEMA; K_AUTHORITY; K_IDENTITY; K_REVISION; K_BUDGET; K_FILE_PATH]
  | RUN_TOOL => [K_SCHEMA; K_AUTHORITY; K_REVISION; K_BUDGET; K_TOOL; K_FILE_PATH]
  | CALL_LLM => [K_SCHEMA; K_AUTHORITY; K_IDENTITY; K_REVISION; K_STATE; K_BUDGET;
                 K_PROVIDER; K_SESSION; K_REDACTION]
  | FETCH_POLICY => [K_SCHEMA; K_AUTHORITY; K_REVISION; K_STATE; K_BUDGET; K_TOOL; K_REDACTION]
  | REQUEST_DYNAMIC_REPRO =>
      [K_SCHEMA; K_AUTHORITY; K_IDENTITY; K_REVISION; K_STATE; K_BUDGET]
  | RUN_SANDBOX => [K_SCHEMA; K_AUTHORITY; K_IDENTITY; K_REVISION; K_STATE; K_BUDGET]
  | SAVE_RESULT => [K_SCHEMA; K_AUTHORITY; K_IDENTITY; K_REVISION; K_STATE; K_REDACTION]
  | CALL_TECHNICAL_GATE => [K_SCHEMA; K_AUTHORITY; K_IDENTITY; K_REVISION; K_STATE; K_BUDGET;
                            K_PROVIDER; K_SESSION; K_GATE_ORDER; K_REDACTION]
  | CALL_RULE_SCOPE_GATE => [K_SCHEMA; K_AUTHORITY; K_IDENTITY; K_REVISION; K_STATE; K_BUDGET;
                             K_PROVIDER; K_SESSION; K_GATE_ORDER; K_REDACTION]
  | CREATE_REPORT_DRAFT => [K_SCHEMA; K_AUTHORITY; K_IDENTITY; K_REVISION; K_STATE; K_BUDGET;
                            K_PROVIDER; K_SESSION; K_REPORT_READY; K_REDACTION]
  end.

Definition _LLM_ACTIONS : list ActionType :=
  [CALL_LLM; CALL_TECHNICAL_GATE; CALL_RULE_SCOPE_GATE; CREATE_REPORT_DRAFT].

(** ** Action requests *)

Record ActionRequest := mkAction {
  q_meta : RunMeta;
  q_action_id : string;
  q_requested_by : RequesterRole;
  q_requester_identity_ref : BudgetScopeRef;
  q_action_type : ActionType;
  q_work_ref : option BudgetScopeRef;
  q_expected_state_version : option Z;
  q_expected_verification_generation : option Z;
  q_generation_restart_reason : option GenerationRestartReason;
  q_generation_restart_basis_refs : list BudgetScopeRef;
  q_input_refs : list RecordRef;
  q_dynamic_request_ref : option StoredDataRef;
  q_reproduction_plan_ref : option StoredDataRef;
  q_result_kind : option string;
  q_candidate_result_ref : option RecordRef;
  q_llm_call_spec_ref : option StoredDataRef;
  q_tool_name : option string;
  q_file_paths : list string;
  q_provider_profile_ref : option BudgetScopeRef;
  q_session_mode : option SessionMode;
  q_sandbox_profile_ref : option BudgetScopeRef;
  q_resource_profile_ref : option StoredDataRef;
  q_run_policy_state_ref : option StoredDataRef;
  q_image_digest : option string;
  q_network_targets : list string;
  q_resource_limits : option (gmap string Z);
  q_reason : string;
  q_requested_at : Z;
}.

#[export] Instance ActionRequest_eq_dec : EqDecision ActionRequest.
Proof. solve_decision. Defined.

Definition kind_count (kind : string) (refs : list RecordRef) : nat :=
  length (filter (fun r => data_kind r = kind) refs).

(** [_IMAGE_DIGEST.fullmatch(value)] for [^sha256:[0-9a-f]{64}$] *)
Definition image_digest_ok (s : string) : bool :=
  String.prefix "sha256:" s && Sha256 (String.substring 7 (String.length s - 7) s).

(** [len({ref.record_id for ref in refs})] *)
Definition distinct_record_ids (refs : list RecordRef) : nat :=
  length (remove_dups (map ref_record_id refs)).

(** [for ref in refs: require_record_ref(ref)] *)
Definition require_all (refs : list RecordRef) : result unit :=
  for_each (fun r => require_record_ref r None) refs.

(** [for ref, kind in ...: if ref is not None: require_record_ref(ref, kind)] *)
Definition require_optional (ref : option RecordRef) (kind : option string) : result unit :=
  match ref with Some r => require_record_ref r kind | None => Ok tt end.

(** [ref is None or self.input_refs.count(ref) != 1] *)
Definition not_fixed_once (q : ActionRequest) (ref : option RecordRef) : bool :=
  match ref with
  | None => true
  | Some r => negb (py_count r (q_input_refs q) =? 1)%nat
  end.

Definition restart_kind_count (q : ActionRequest) (kind shown : string) (count : nat)
  : result unit :=
  raise_if negb (kind_count kind (q_input_refs q) =? count)%nat
    with ("Generation restart requires " ++ shown ++ " exact " ++ kind ++ " inputs")%string ;;
  Ok tt.

(** [ActionRequest._validate_restart_inputs] *)
Definition _validate_restart_inputs (q : ActionRequest) : result unit :=
  raise_if neqb (q_requested_by q) Q_VERIFICATION || negb (is_RecordMeta (q_meta q))
           || is_none (rm_hypothesis_id (q_meta q)) || is_none (q_work_ref q)
    with "Generation restart requires hypothesis-local VERIFICATION and current work" ;;
  raise_if has_duplicates (q_input_refs q)
    with "Generation restart input_refs must be unique" ;;
  do! require_all (q_input_refs q) ;;
  raise_if existsb (not_fixed_once q)
             ((scope_ref <$> q_work_ref q) :: (RStored <$> q_dynamic_request_ref q)
              :: (scope_ref <$> q_sandbox_profile_ref q)
              :: map (fun r => Some (scope_ref r)) (q_generation_restart_basis_refs q))
    with "Generation restart must fix work, old request, profile and each basis exactly once" ;;
  do! restart_kind_count q "hypothesis_process_state" "1" 1 ;;
  do! restart_kind_count q "verification_assignment" "1" 1 ;;
  do! restart_kind_count q "work_execution_state" "2" 2 ;;
  do! restart_kind_count q "dynamic_reproduction_request" "1" 1 ;;
  do! restart_kind_count q "playbook_policy" "1" 1 ;;
  do! restart_kind_count q "verification_playbook" "1" 1 ;;
  let profiles := filter (fun r => data_kind r = "sandbox_profile") (q_input_refs q) in
  let profile_count :=
    if eqb (q_generation_restart_reason q) (Some SANDBOX_PROFILE_REVISION_CHANGED)
    then 2%nat else 1%nat in
  raise_if negb (length profiles =? profile_count)%nat
           || negb (distinct_record_ids profiles =? profile_count)%nat
    with "Request replacement fixes one old profile; profile change fixes distinct old/new revisions" ;;
  Ok tt.

(** The RUN_SANDBOX branch of [action_shape]. *)
Definition sandbox_shape (q : ActionRequest) : result unit :=
  do! require_optional (RStored <$> q_reproduction_plan_ref q) (Some "reproduction_plan") ;;
  do! require_optional (scope_ref <$> q_sandbox_profile_ref q) (Some "sandbox_profile") ;;
  do! require_optional (RStored <$> q_resource_profile_ref q)
        (Some "dynamic_reproduction_lifecycle_profile") ;;
  do! require_optional (RStored <$> q_run_policy_state_ref q) (Some "run_policy_state") ;;
  raise_if existsb (not_fixed_once q)
             [RStored <$> q_dynamic_request_ref q; RStored <$> q_reproduction_plan_ref q;
              scope_ref <$> q_sandbox_profile_ref q; RStored <$> q_resource_profile_ref q]
    with "RUN_SANDBOX must fix each execution input exactly once" ;;
  let requirements :=
    filter (fun r => data_kind r = "environment_requirements") (q_input_refs q) in
  raise_if negb (length requirements =? 1)%nat
    with "RUN_SANDBOX requires one environment_requirements input" ;;
  do! require_all requirements ;;
  let recipe_sources := kind_count "recipe_source" (q_input_refs q) in
  let recipes := kind_count "environment_recipe" (q_input_refs q) in
  do! match q_image_digest q with
      | None =>
          raise_if negb (recipe_sources =? 1)%nat || negb (recipes =? 0)%nat
            with "RUN_SANDBOX build phase requires one exact recipe_source" ;;
          Ok tt
      | Some digest =>
          raise_if negb (image_digest_ok digest) || negb (recipes =? 1)%nat
                   || negb (recipe_sources =? 0)%nat
            with "RUN_SANDBOX run phase requires sha256 image and one exact recipe" ;;
          Ok tt
      end ;;
  raise_if match q_run_policy_state_ref q with
           | Some r => mem (RStored r) (q_input_refs q)
           | None => false
           end
    with "run_policy_state_ref is audit-only, not input_refs" ;;
  Ok tt.

(** [ActionRequest.action_shape] *)
Definition action_shape (q : ActionRequest) : result unit :=
  let kind := q_action_type q in
  do! require_record_ref (q_requester_identity_ref q) None ;;
  raise_if neqb (is_some (q_work_ref q)) (is_some (q_expected_state_version q))
    with "work_ref and expected_state_version must occur together" ;;
  do! require_optional (scope_ref <$> q_work_ref q) (Some "work_execution_state") ;;
  let restart := eqb kind RESTART_VERIFICATION_GENERATION in
  raise_if neqb restart (is_some (q_expected_verification_generation q))
           || neqb restart (is_some (q_generation_restart_reason q))
    with "Generation fields are required only for generation restart" ;;
  raise_if neqb restart (nonempty (q_generation_restart_basis_refs q))
    with "Generation restart requires exact basis refs" ;;
  do! require_all (map scope_ref (q_generation_restart_basis_refs q)) ;;
  let llm := mem kind _LLM_ACTIONS in
  raise_if neqb llm (is_some (q_llm_call_spec_ref q))
           || neqb llm (is_some (q_provider_profile_ref q))
           || neqb llm (is_some (q_session_mode q))
    with "Provider/spec/session required only for LLM stage actions" ;;
  raise_if llm && is_none (q_work_ref q) with "LLM action requires current work" ;;
  raise_if eqb kind CALL_LLM && mem (q_requested_by q) [Q_PRO; Q_CON]
           && neqb (q_session_mode q) (Some M_NEW)
    with "PRO and CON CALL_LLM require session_mode=NEW" ;;
  do! require_optional (RStored <$> q_llm_call_spec_ref q) (Some "llm_call_spec") ;;
  do! require_optional (scope_ref <$> q_provider_profile_ref q) (Some "provider_profile") ;;
  let save := eqb kind SAVE_RESULT in
  raise_if neqb save (is_some (q_result_kind q)) || neqb save (is_some (q_candidate_result_ref q))
    with "Only SAVE_RESULT requires result_kind and candidate_result_ref" ;;
  do! require_optional (q_candidate_result_ref q) (q_result_kind q) ;;
  raise_if neqb (eqb kind RUN_TOOL) (is_some (q_tool_name q))
    with "Only RUN_TOOL requires tool_name" ;;
  raise_if neqb (mem kind [READ_CODE; RUN_TOOL]) (nonempty (q_file_paths q))
    with "READ_CODE/RUN_TOOL require file_paths; other actions leave them empty" ;;
  let dynamic := mem kind [REQUEST_DYNAMIC_REPRO; RUN_SANDBOX; RESTART_VERIFICATION_GENERATION] in
  raise_if neqb dynamic (is_some (q_dynamic_request_ref q))
    with "Dynamic request required for request, sandbox and generation restart" ;;
  do! require_optional (RStored <$> q_dynamic_request_ref q) (Some "dynamic_reproduction_request") ;;
  let sandbox := eqb kind RUN_SANDBOX in
  raise_if neqb sandbox (is_some (q_reproduction_plan_ref q))
           || neqb sandbox (is_some (q_resource_profile_ref q))
           || neqb sandbox (is_some (q_run_policy_state_ref q))
    with "RUN_SANDBOX requires plan and profile/audit refs" ;;
  raise_if neqb (sandbox || restart) (is_some (q_sandbox_profile_ref q))
    with "Sandbox profile required only for sandbox or generation restart" ;;
  do! require_optional (scope_ref <$> q_sandbox_profile_ref q) (Some "sandbox_profile") ;;
  do! (if restart then _validate_restart_inputs q else Ok tt) ;;
  raise_if negb sandbox
           && (is_some (q_image_digest q) || nonempty (q_network_targets q)
               || is_some (q_resource_limits q))
    with "Sandbox execution fields cannot be used by other actions" ;;
  if sandbox then sandbox_shape q else Ok tt.

Definition optional_text (o : option string) : bool :=
  match o with Some s => NonEmptyStr s | None => true end.
Definition optional_positive (o : option Z) : bool :=
  match o with Some v => PositiveInt v | None => true end.

(** The numeric and text constraints of the declared fields. *)
Definition action_fields (q : ActionRequest) : bool :=
  eqb (revision_shape (q_meta q)) (Ok tt) && NonEmptyStr (q_action_id q)
  && optional_positive (q_expected_state_version q)
  && optional_positive (q_expected_verification_generation q)
  && optional_text (q_result_kind q) && optional_text (q_tool_name q)
  && forallb NonEmptyStr (q_file_paths q) && optional_text (q_image_digest q)
  && forallb NonEmptyStr (q_network_targets q)
  && match q_resource_limits q with
     | Some limits => forallb (fun kv => NonNegativeInt kv.2) (map_to_list limits)
     | None => true
     end
  && NonEmptyStr (q_reason q).

Definition opt_record (o : option RecordRef) : list RecordRef :=
  match o with Some r => [r] | None => [] end.

Definition action_refs (q : ActionRequest) : list RecordRef :=
  scope_ref (q_requester_identity_ref q) :: opt_ref (q_work_ref q)
  ++ map scope_ref (q_generation_restart_basis_refs q) ++ q_input_refs q
  ++ opt_stored (q_dynamic_request_ref q) ++ opt_stored (q_reproduction_plan_ref q)
  ++ opt_record (q_candidate_result_ref q) ++ opt_stored (q_llm_call_spec_ref q)
  ++ opt_ref (q_provider_profile_ref q) ++ opt_ref (q_sandbox_profile_ref q)
  ++ opt_stored (q_resource_profile_ref q) ++ opt_stored (q_run_policy_state_ref q).

(** [ActionRequest.model_validate] *)
Definition validate_action (q : ActionRequest) : result ActionRequest :=
  raise_if negb (action_fields q) with "ValidationError" ;;
  do! reference_scopes (action_refs q) (q_meta q) ;;
  do! action_shape q ;;
  Ok q.

(** ** Decisions *)

(** [CheckedConfigurationRef = BudgetScopeRef | HostConfigurationRef] *)
Inductive CheckedConfigurationRef :=
| CScope (r : BudgetScopeRef)
| CHost (r : HostConfigurationRef).

Definition checked_ref (r : CheckedConfigurationRef) : RecordRef :=
  match r with CScope r => scope_ref r | CHost r => RHost r end.

Record ActionCheck := mkActionCheck {
  k_check_type : CheckType;
  k_result : CheckResult;
  k_reason_code : string;
  k_safe_message : string;
}.

#[export] Instance CheckedConfigurationRef_eq_dec : EqDecision CheckedConfigurationRef.
Proof. solve_decision. Defined.
#[export] Instance ActionCheck_eq_dec : EqDecision ActionCheck.
Proof. solve_decision. Defined.

Record ActionDecision := mkDecision {
  d_meta : RunMeta;
  d_decision_id : string;
  d_action_ref : BudgetScopeRef;
  d_decision : Decision;
  d_required_checks : list CheckType;
  d_check_results : list ActionCheck;
  d_checked_state_version : option Z;
  d_checked_config_refs : list CheckedConfigurationRef;
  d_valid_until : option Z;
  d_error_ids : list string;
  d_use_status : UseStatus;
  d_used_at : option Z;
  d_expired_at : option Z;
  d_expire_reason : option string;
  d_outcome_refs : list RecordRef;
  d_decided_at : Z;
}.

#[export] Instance ActionDecision_eq_dec : EqDecision ActionDecision.
Proof. solve_decision. Defined.

(** [set(a) == set(b)] *)
Definition same_set `{EqDecision A} (a b : list A) : bool :=
  forallb (fun x => mem x b) a && forallb (fun x => mem x a) b.

(** [ActionDecision.decision_shape] *)
Definition decision_shape (d : ActionDecision) : result unit :=
  do! require_record_ref (d_action_ref d) (Some "action_request") ;;
  let checks := map k_check_type (d_check_results d) in
  raise_if negb (nonempty (d_required_checks d)) || has_duplicates (d_required_checks d)
           || has_duplicates checks || negb (same_set checks (d_required_checks d))
    with "Required checks and results must be nonempty, unique and set-equal" ;;
  let failed := existsb (fun c => eqb (k_result c) FAIL) (d_check_results d) in
  raise_if neqb failed (eqb (d_decision d) DENY)
    with "Any FAIL requires DENY; all PASS requires ALLOW" ;;
  do! (if eqb (d_decision d) DENY then
         raise_if neqb (d_use_status d) NOT_USED || negb (nonempty (d_error_ids d))
                  || is_some (d_valid_until d)
           with "DENY requires NOT_USED, errors and no validity" ;;
         Ok tt
       else
         raise_if eqb (d_use_status d) NOT_USED || nonempty (d_error_ids d)
                  || match d_valid_until d with
                     | Some v => v <=? d_decided_at d
                     | None => true
                     end
           with "ALLOW requires future validity and no errors" ;;
         Ok tt) ;;
  raise_if neqb (eqb (d_use_status d) USED) (is_some (d_used_at d))
    with "Only USED has used_at" ;;
  let expired := eqb (d_use_status d) EXPIRED in
  raise_if neqb expired (is_some (d_expired_at d)) || neqb expired (is_some (d_expire_reason d))
    with "Only EXPIRED has expiration time and reason" ;;
  raise_if neqb (d_use_status d) USED && nonempty (d_outcome_refs d)
    with "Only USED can have outcomes" ;;
  raise_if match d_used_at d with
           | Some u =>
               match d_valid_until d with
               | Some v => negb ((d_decided_at d <=? u) && (u <=? v))
               | None => true
               end
           | None => false
           end
    with "used_at must be within decision validity" ;;
  raise_if precedes (d_expired_at d) (Some (d_decided_at d))
    with "expired_at precedes decided_at" ;;
  raise_if eqb (revision_number (d_meta d)) 1 && eqb (d_decision d) ALLOW
           && neqb (d_use_status d) UNUSED
    with "Initial ALLOW revision must be UNUSED" ;;
  require_all (map checked_ref (d_checked_config_refs d)).

Definition decision_refs (d : ActionDecision) : list RecordRef :=
  scope_ref (d_action_ref d) :: map checked_ref (d_checked_config_refs d) ++ d_outcome_refs d.

(** [ActionDecision.model_validate] *)
Definition validate_decision (d : ActionDecision) : result ActionDecision :=
  raise_if negb (eqb (revision_shape (d_meta d)) (Ok tt)
                 && match d_checked_state_version d with
                    | Some v => PositiveInt v | None => true end
                 && match d_expire_reason d with
                    | Some s => NonEmptyStr s | None => true end)
    with "ValidationError" ;;
  do! reference_scopes (decision_refs d) (d_meta d) ;;
  do! decision_shape d ;;
  Ok d.

Definition validate_decision_for_action (d : ActionDecision) (t : ActionType) : result unit :=
  raise_if negb (same_set (d_required_checks d) (REQUIRED_CHECKS t))
    with "Required-check set differs from action type" ;;
  Ok tt.

Definition validate_generation_restart_context (q : ActionRequest)
  (current_request : StoredDataRef) (current_profile : BudgetScopeRef)
  (approved_profile : option BudgetScopeRef) : result unit :=
  raise_if neqb (q_action_type q) RESTART_VERIFICATION_GENERATION
    with "Expected a generation restart action" ;;
  do! require_record_ref current_request (Some "dynamic_reproduction_request") ;;
  do! require_record_ref current_profile (Some "sandbox_profile") ;;
  raise_if neqb (q_dynamic_request_ref q) (Some current_request)
           || negb (py_count (scope_ref current_profile) (q_input_refs q) =? 1)%nat
    with "Generation restart must retain the old current request/profile" ;;
  if eqb (q_generation_restart_reason q) (Some DYNAMIC_REQUEST_REPLACEMENT_REQUIRED) then
    raise_if neqb (q_sandbox_profile_ref q) (Some current_profile)
             || is_some approved_profile
      with "Request replacement must retain the current sandbox profile" ;;
    Ok tt
  else
    match approved_profile with
    | None => Err (ValueError "Profile change requires the approved new exact profile")
    | Some approved =>
        do! require_record_ref approved (Some "sandbox_profile") ;;
        raise_if eqb approved current_profile
                 || neqb (q_sandbox_profile_ref q) (Some approved)
          with "Profile change must select the approved new sandbox profile" ;;
        Ok tt
    end.

(** [allowed.get(previous.use_status, set())] of [validate_decision_revision] *)
Definition allowed_use (s : UseStatus) : list UseStatus :=
  match s with
  | UNUSED => [USED; EXPIRED]
  | USED => [USED]
  | NOT_USED | EXPIRED => []
  end.

Definition validate_decision_revision (p c : ActionDecision) : result unit :=
  do! validate_revision (MRun (d_meta p)) (MRun (d_meta c)) ;;
  raise_if neqb (d_decision_id p) (d_decision_id c) || neqb (d_action_ref p) (d_action_ref c)
           || neqb (d_decision p) (d_decision c)
           || neqb (d_required_checks p) (d_required_checks c)
           || neqb (d_check_results p) (d_check_results c)
           || neqb (d_checked_state_version p) (d_checked_state_version c)
           || neqb (d_checked_config_refs p) (d_checked_config_refs c)
           || neqb (d_valid_until p) (d_valid_until c)
           || neqb (d_decided_at p) (d_decided_at c)
           || neqb (d_error_ids p) (d_error_ids c)
    with "Decision revision changed immutable decision fields" ;;
  raise_if negb (mem (d_use_status c) (allowed_use (d_use_status p)))
    with "Decision use state cannot be reopened" ;;
  raise_if eqb (d_use_status p) UNUSED && eqb (d_use_status c) USED
           && nonempty (d_outcome_refs c)
    with "First USED claim must have empty outcome_refs" ;;
  raise_if neqb (take (length (d_outcome_refs p)) (d_outcome_refs c)) (d_outcome_refs p)
    with "Decision outcomes must be append-only" ;;
  raise_if eqb (d_use_status p) USED && neqb (d_used_at c) (d_used_at p)
    with "Claim timestamp is immutable" ;;
  Ok tt.

(** [RuntimeValidator.claim] and [record_outcome]: the revisions they publish. *)
Definition used_decision (d : ActionDecision) (meta : RunMeta) (now : Z) : ActionDecision :=
  mkDecision meta (d_decision_id d) (d_action_ref d) (d_decision d) (d_required_checks d)
    (d_check_results d) (d_checked_state_version d) (d_checked_config_refs d) (d_valid_until d)
    (d_error_ids d) USED (Some now) (d_expired_at d) (d_expire_reason d) (d_outcome_refs d)
    (d_decided_at d).

Definition completed_decision (d : ActionDecision) (meta : RunMeta) (outputs : list RecordRef)
  : ActionDecision :=
  mkDecision meta (d_decision_id d) (d_action_ref d) (d_decision d) (d_required_checks d)
    (d_check_results d) (d_checked_state_version d) (d_checked_config_refs d) (d_valid_until d)
    (d_error_ids d) (d_use_status d) (d_used_at d) (d_expired_at d) (d_expire_reason d)
    (d_outcome_refs d ++ outputs) (d_decided_at d).

(** ** Lemmas *)

Lemma same_set_spec `{EqDecision A} (a b : list A) :
  same_set a b = true <-> (forall x, x ∈ a <-> x ∈ b).
Proof.
  unfold same_set. rewrite andb_true_iff, !forallb_forall.
  setoid_rewrite mem_true. setoid_rewrite <- list_elem_of_In. firstorder.
Qed.

Lemma decision_revision_Ok p c :
  validate_decision_revision p c = Ok tt ->
  d_decision_id p = d_decision_id c /\ d_action_ref p = d_action_ref c
  /\ d_decision p = d_decision c /\ d_use_status c ∈ allowed_use (d_use_status p)
  /\ (d_use_status p = UNUSED -> d_use_status c = USED -> d_outcome_refs c = [])
  /\ (d_outcome_refs p `prefix_of` d_outcome_refs c)
  /\ (d_use_status p = USED -> d_used_at c = d_used_at p)
  /\ revision_number (d_meta c) = revision_number (d_meta p) + 1.
Proof.
  unfold validate_decision_revision. intros H. unguard H.
  apply validate_revision_Ok in E. boolify.
  destruct E as (_ & _ & _ & _ & _ & _ & _ & _ & _ & _ & Hrev & _). simpl in Hrev.
  repeat split; try tauto.
  exists (drop (length (d_outcome_refs p)) (d_outcome_refs c)).
  rewrite <- G2 at 1. symmetry. apply take_drop.
Qed.

(** A chain of accepted revisions of one decision. *)
Inductive decision_chain : ActionDecision -> ActionDecision -> Prop :=
| chain_refl d : decision_chain d d
| chain_next d1 d2 d3 :
    validate_decision_revision d1 d2 = Ok tt -> decision_chain d2 d3 -> decision_chain d1 d3.

Lemma chain_not_reopened d d' s :
  decision_chain d d' -> d_use_status d = s -> s <> UNUSED -> d_use_status d' = s.
Proof.
  intros H. revert s. induction H as [d | d1 d2 d3 Hr _ IH]; intros s Hs Hu; [exact Hs |].
  apply decision_revision_Ok in Hr. destruct Hr as (_ & _ & _ & Hal & _).
  rewrite Hs in Hal. apply IH; [| exact Hu]. destruct s; simpl in Hal; set_solver.
Qed.

(** A decision is claimed at most once. Along any chain of accepted revisions its
    identity never changes, its outcomes are only extended, no status but UNUSED is
    ever left, and a claim keeps its timestamp. *)
Theorem decision_claimed_once d d' :
  decision_chain d d' ->
  d_decision_id d = d_decision_id d' /\ d_action_ref d = d_action_ref d'
  /\ d_decision d = d_decision d'
  /\ (d_outcome_refs d `prefix_of` d_outcome_refs d')
  /\ (d_use_status d <> UNUSED -> d_use_status d' = d_use_status d)
  /\ (d_use_status d = USED -> d_used_at d' = d_used_at d)
  /\ (d_use_status d ∈ [NOT_USED; EXPIRED] -> d' = d)
  /\ revision_number (d_meta d) <= revision_number (d_meta d').
Proof.
  intros H. pose proof (fun s => chain_not_reopened d d' s H) as Hre.
  induction H as [d | d1 d2 d3 Hr Hc IH].
  - repeat split; auto; reflexivity.
  - apply decision_revision_Ok in Hr.
    destruct Hr as (R1 & R2 & R3 & Hal & _ & R6 & R7 & R8).
    destruct (IH (fun s => chain_not_reopened d2 d3 s Hc))
      as (I1 & I2 & I3 & I4 & I5 & I6 & I7 & I8).
    split; [congruence |]. split; [congruence |]. split; [congruence |].
    split; [etransitivity; eassumption |]. split; [auto |]. split; [| split; [| lia]].
    + intros Hu. rewrite <- (R7 Hu). apply I6. rewrite Hu in Hal. set_solver.
    + intros Hu. exfalso. destruct (d_use_status d1); simpl in Hal; set_solver.
Qed.

(** A valid, unused, allowed decision can be claimed at every instant of its
    validity: the claimed revision is valid and accepted as its successor. *)
Theorem claim_within_validity d id now meta v :
  validate_decision d = Ok d -> d_decision d = ALLOW -> d_use_status d = UNUSED ->
  d_valid_until d = Some v -> d_decided_at d <= now <= v -> created_at (d_meta d) <= now ->
  next_meta (d_meta d) id now = Ok meta ->
  validate_decision (used_decision d meta now) = Ok (used_decision d meta now)
  /\ validate_decision_revision d (used_decision d meta now) = Ok tt.
Proof.
  intros Hv Hal Hun Hval Hnow Hcr Hm.
  pose proof (next_meta_revision _ _ _ _ Hm Hcr) as Hrev.
  assert (Hshape : revision_shape meta = Ok tt).
  { unfold next_meta in Hm. unguard Hm. injection Hm as <-. assumption. }
  apply next_meta_Ok in Hm. destruct Hm as (-> & Hid & Hpos).
  unfold validate_decision in Hv. unguard Hv.
  unfold decision_shape in E0. rewrite Hal, Hun in E0. unguard E0.
  assert (Hout : d_outcome_refs d = []) by (destruct (d_outcome_refs d); [reflexivity | discriminate]).
  split.
  - unfold validate_decision, decision_shape, decision_refs in *. simpl.
    rewrite (reference_scopes_same _ _ (d_meta d)) by reflexivity.
    rewrite Hal, Hval in *. simpl in *. guards; eauto.
    + simpl in Hshape. rewrite Hshape, bool_decide_true by reflexivity.
      boolify. tauto.
    + unguard E2. boolify. tauto.
    + boolify. lia.
    + boolify. destruct G as ((Gr & _) & _). apply revision_shape_Ok in Gr. intros [? _]. lia.
  - unfold validate_decision_revision. guards; [exact Hrev | ..]; simpl; boolify; auto.
    + repeat split.
    + rewrite Hun. left.
    + rewrite firstn_all. reflexivity.
    + rewrite Hun. discriminate.
Qed.

(** Least authority: an accepted action carries execution parameters only where
    its type needs them. Images, networks and limits belong to RUN_SANDBOX; provider
    and session to LLM stages, always on current work, a fresh session for the two
    debaters; a sandbox run pins a digest with exactly one recipe, or builds from
    exactly one recipe source, and never takes the policy audit record as an input. *)
Theorem action_least_authority q :
  action_shape q = Ok tt ->
  (q_action_type q <> RUN_SANDBOX ->
     q_image_digest q = None /\ q_network_targets q = [] /\ q_resource_limits q = None
     /\ q_reproduction_plan_ref q = None)
  /\ (q_action_type q ∈ _LLM_ACTIONS <-> is_Some (q_provider_profile_ref q))
  /\ (q_action_type q ∈ _LLM_ACTIONS -> is_Some (q_work_ref q) /\ is_Some (q_session_mode q))
  /\ (q_action_type q = CALL_LLM -> q_requested_by q ∈ [Q_PRO; Q_CON] ->
        q_session_mode q = Some M_NEW)
  /\ (q_action_type q = RUN_SANDBOX ->
        (forall r, q_run_policy_state_ref q = Some r -> RStored r ∉ q_input_refs q)
        /\ match q_image_digest q with
           | Some s => image_digest_ok s = true /\
               kind_count "environment_recipe" (q_input_refs q) = 1%nat /\
               kind_count "recipe_source" (q_input_refs q) = 0%nat
           | None => kind_count "recipe_source" (q_input_refs q) = 1%nat /\
               kind_count "environment_recipe" (q_input_refs q) = 0%nat
           end).
Proof.
  unfold action_shape. intros H. unguard H. clear E E0 E1 E2 E3 E4 E5 E6.
  split; [| split; [| split; [| split]]].
  - intros Hk. rewrite (bool_decide_false _ Hk) in *. boolify. intuition.
    destruct (q_reproduction_plan_ref q); [| reflexivity]. naive_solver.
  - boolify. intuition.
  - intros Hk. boolify. intuition.
  - intros Hk Hr. boolify. intuition.
  - intros Hk. rewrite (bool_decide_true _ Hk) in H. unfold sandbox_shape in H. unguard H.
    split; [intros r Hr; rewrite Hr in *; boolify; assumption |].
    destruct (q_image_digest q);
      match goal with E : (if _ then Err _ else Ok tt) = Ok tt |- _ => unguard E end;
      boolify; intuition.
Qed.
