(* ===== verification/Budget.v ===== *)
(** * Budget: budget profiles, reservations and ledger entries

    The budget contracts of [contracts/budget.py] and the trusted operation
    selection of [storage/budget_limits.py]. *)
From S2P Require Import Prelude Records Work Actions.

Inductive Purpose := PRODUCTION | EVALUATION | LOCAL_EVALUATION.
Inductive ProfileStatus := DRAFT | ACTIVE | RETIRED.

Inductive OperationKind :=
| O_WORKSPACE_PREP | O_REPOSITORY_PROFILE | O_STATIC_TOOL | O_STATIC_NORMALIZE
| O_POLICY_COLLECT | O_POLICY_PARSE | O_HYPOTHESIS_GENERATE | O_CONTEXT_RETRIEVAL
| O_PRO_EVIDENCE | O_CON_EVIDENCE | O_VERIFICATION_SYNTHESIS | O_PRIMITIVE_UPDATE
| O_CHAINING | O_DYNAMIC_REPRO | O_CWE_LABELING | O_TECHNICAL_GATE | O_RULE_SCOPE_GATE
| O_FINDING_NORMALIZE | O_REPORTER.

Inductive BudgetAgentRole :=
| G_HYPOTHESIS | G_PRO | G_CON | G_VERIFICATION | G_CWE_LABELING | G_CHAINING
| G_TECHNICAL_GATE | G_RULE_SCOPE_GATE | G_REPORTER | G_POLICY_PARSER
| G_DYNAMIC_REPRODUCTION | G_REPOSITORY_LOADER | G_STATIC_ANALYSIS | G_POLICY_COLLECTOR.

Inductive ReservationStatus := R_RESERVED | R_COMMITTED | R_RELEASED.

#[export] Instance Purpose_eq_dec : EqDecision Purpose.
Proof. solve_decision. Defined.
#[export] Instance ProfileStatus_eq_dec : EqDecision ProfileStatus.
Proof. solve_decision. Defined.
#[export] Instance OperationKind_eq_dec : EqDecision OperationKind.
Proof. solve_decision. Defined.
#[export] Instance BudgetAgentRole_eq_dec : EqDecision BudgetAgentRole.
Proof. solve_decision. Defined.
#[export] Instance ReservationStatus_eq_dec : EqDecision ReservationStatus.
Proof. solve_decision. Defined.

(** [WORK_OPERATIONS[work_type]] *)
Definition WORK_OPERATIONS (t : WorkType) : OperationKind * option BudgetAgentRole :=
  match t with
  | WORKSPACE_PREP => (O_WORKSPACE_PREP, Some G_REPOSITORY_LOADER)
  | REPOSITORY_PROFILE => (O_REPOSITORY_PROFILE, Some G_STATIC_ANALYSIS)
  | STATIC_TOOL => (O_STATIC_TOOL, Some G_STATIC_ANALYSIS)
  | STATIC_NORMALIZE => (O_STATIC_NORMALIZE, Some G_STATIC_ANALYSIS)
  | HYPOTHESIS_PROPOSAL => (O_HYPOTHESIS_GENERATE, Some G_HYPOTHESIS)
  | CONTEXT_RETRIEVAL => (O_CONTEXT_RETRIEVAL, None)
  | PRO_EVIDENCE => (O_PRO_EVIDENCE, Some G_PRO)
  | CON_EVIDENCE => (O_CON_EVIDENCE, Some G_CON)
  | VERIFICATION => (O_VERIFICATION_SYNTHESIS, Some G_VERIFICATION)
  | DYNAMIC_REPRO => (O_DYNAMIC_REPRO, Some G_DYNAMIC_REPRODUCTION)
  | PRIMITIVE_UPDATE => (O_PRIMITIVE_UPDATE, None)
  | CHAINING => (O_CHAINING, Some G_CHAINING)
  | CWE_LABEL => (O_CWE_LABELING, Some G_CWE_LABELING)
  | POLICY_FETCH => (O_POLICY_COLLECT, Some G_POLICY_COLLECTOR)
  | TECHNICAL_GATE => (O_TECHNICAL_GATE, Some G_TECHNICAL_GATE)
  | RULE_SCOPE_GATE => (O_RULE_SCOPE_GATE, Some G_RULE_SCOPE_GATE)
  | FINDING_NORMALIZE => (O_FINDING_NORMALIZE, None)
  | REPORT_DRAFT => (O_REPORTER, Some G_REPORTER)
  end.

(** ** Profiles *)

(** [ApprovedProfile]: the approval fields two profile classes share. *)
Record Approval := mkApproval {
  ap_approval_ref : option BudgetScopeRef;
  ap_approved_by : option string;
  ap_approved_at : option Z;
  ap_status : ProfileStatus;
}.

Record ExecutionBudgetProfile := mkExecutionProfile {
  ep_meta : RunMeta;
  ep_approval : Approval;
  ep_profile_key : string;
  ep_purpose : Purpose;
  max_analysis_elapsed_ms : Z;
  max_total_cost_minor_units : Z;
  ep_currency : string;
  ep_pricing_revision_ref : BudgetScopeRef;
  max_total_work : Z;
  max_total_llm_calls : Z;
  max_total_retries : Z;
  max_parallel_work : Z;
}.

Record WorkBudgetLimit := mkWorkLimit {
  l_limit_key : string;
  l_work_type : WorkType;
  l_operation_kind : OperationKind;
  l_agent_role : option BudgetAgentRole;
  l_timeout_ms : option Z;
  l_max_attempts : option Z;
  l_max_calls_per_work : option Z;
  l_max_items_per_work : option Z;
}.

Record WorkBudgetProfile := mkWorkProfile {
  wp_meta : RunMeta;
  wp_profile_key : string;
  wp_purpose : Purpose;
  wp_limits : list WorkBudgetLimit;
  wp_status : ProfileStatus;
}.

Record VerificationBudgetProfile := mkVerificationProfile {
  vp_meta : RunMeta;
  vp_profile_key : string;
  max_verification_elapsed_ms : Z;
  max_work_per_verification : Z;
  max_llm_calls_per_verification : Z;
  max_retries_per_work : Z;
  max_parallel_evidence_calls : Z;
  vp_status : ProfileStatus;
}.

Record DynamicReproductionLifecycleProfile := mkDynamicProfile {
  dp_meta : RunMeta;
  dp_profile_key : string;
  dp_preflight_budget_ref : StoredDataRef;
  dp_preflight_budget_source : string;
  max_new_attempts : Z;
  dp_status : ProfileStatus;
  dp_created_at : Z;
}.

Record BudgetProfileBinding := mkBinding {
  b_meta : RunMeta;
  b_approval : Approval;
  b_binding_key : string;
  b_purpose : Purpose;
  b_execution_budget_profile_ref : RunStoredDataRef;
  b_work_budget_profile_ref : StoredDataRef;
  b_verification_budget_profile_ref : StoredDataRef;
  b_dynamic_lifecycle_profile_ref : StoredDataRef;
}.

Record BudgetUnits := mkUnits {
  u_elapsed_ms : Z;
  u_work_count : Z;
  u_llm_call_count : Z;
  u_retry_count : Z;
  u_cost_minor_units : Z;
  u_currency : string;
}.

Record BudgetReservation := mkReservation {
  r_meta : RunMeta;
  r_reservation_id : string;
  r_budget_binding_ref : BudgetScopeRef;
  r_action_ref : BudgetScopeRef;
  r_work_ref : BudgetScopeRef;
  r_requested_units : BudgetUnits;
  r_status : ReservationStatus;
  r_ledger_entry_ref : option BudgetScopeRef;
  r_reserved_at : Z;
  r_finalized_at : option Z;
}.

Record BudgetLedgerEntry := mkLedgerEntry {
  e_meta : RunMeta;
  e_ledger_entry_id : string;
  e_reservation_ref : BudgetScopeRef;
  e_budget_binding_ref : BudgetScopeRef;
  e_action_ref : BudgetScopeRef;
  e_work_ref : BudgetScopeRef;
  e_actual_units : BudgetUnits;
  e_usage_refs : list BudgetScopeRef;
  e_sequence : Z;
  e_committed_at : Z;
}.

Record BudgetRemaining := mkRemaining {
  m_budget_binding_ref : BudgetScopeRef;
  m_as_of_sequence : Z;
  m_available_units : BudgetUnits;
  m_active_reservation_count : Z;
}.

#[export] Instance Approval_eq_dec : EqDecision Approval.
Proof. solve_decision. Defined.
#[export] Instance ExecutionBudgetProfile_eq_dec : EqDecision ExecutionBudgetProfile.
Proof. solve_decision. Defined.
#[export] Instance WorkBudgetLimit_eq_dec : EqDecision WorkBudgetLimit.
Proof. solve_decision. Defined.
#[export] Instance WorkBudgetProfile_eq_dec : EqDecision WorkBudgetProfile.
Proof. solve_decision. Defined.
#[export] Instance VerificationBudgetProfile_eq_dec : EqDecision VerificationBudgetProfile.
Proof. solve_decision. Defined.
#[export] Instance DynamicProfile_eq_dec : EqDecision DynamicReproductionLifecycleProfile.
Proof. solve_decision. Defined.
#[export] Instance BudgetProfileBinding_eq_dec : EqDecision BudgetProfileBinding.
Proof. solve_decision. Defined.
#[export] Instance BudgetUnits_eq_dec : EqDecision BudgetUnits.
Proof. solve_decision. Defined.
#[export] Instance BudgetReservation_eq_dec : EqDecision BudgetReservation.
Proof. solve_decision. Defined.
#[export] Instance BudgetLedgerEntry_eq_dec : EqDecision BudgetLedgerEntry.
Proof. solve_decision. Defined.

(** ** Validators *)

(** [CodeBudgetProfile.analysis_profile]; the class narrows [meta] to [RecordMeta]. *)
Definition analysis_profile (meta : RunMeta) : result unit :=
  raise_if negb (is_RecordMeta meta) with "ValidationError" ;;
  raise_if is_some (rm_hypothesis_id meta) || is_some (rm_attempt_id meta)
    with "Budget profile is analysis-wide: hypothesis/attempt must be null" ;;
  Ok tt.

(** [ApprovedProfile.approval_shape] *)
Definition approval_shape (a : Approval) : result unit :=
  raise_if eqb (ap_status a) ACTIVE
           && (is_none (ap_approval_ref a) || is_none (ap_approved_by a)
               || is_none (ap_approved_at a))
    with "ACTIVE requires exact approval reference, approver and time" ;;
  raise_if eqb (ap_status a) DRAFT && (is_some (ap_approval_ref a) || is_some (ap_approved_at a))
    with "DRAFT approval_ref/approved_at must be null" ;;
  require_optional (scope_ref <$> ap_approval_ref a) None.

(** [ExecutionBudgetProfile.model_validate] *)
Definition validate_execution_profile (p : ExecutionBudgetProfile) : result unit :=
  raise_if negb (eqb (revision_shape (ep_meta p)) (Ok tt)
                 && NonNegativeInt (max_analysis_elapsed_ms p)
                 && NonNegativeInt (max_total_cost_minor_units p)
                 && NonNegativeInt (max_total_work p)
                 && NonNegativeInt (max_total_llm_calls p)
                 && NonNegativeInt (max_total_retries p)
                 && NonNegativeInt (max_parallel_work p))
    with "ValidationError" ;;
  do! reference_scopes (opt_ref (ap_approval_ref (ep_approval p))
                        ++ [scope_ref (ep_pricing_revision_ref p)]) (ep_meta p) ;;
  do! approval_shape (ep_approval p) ;;
  raise_if is_RecordMeta (ep_meta p) with "ExecutionBudgetProfile requires RunMeta" ;;
  require_record_ref (ep_pricing_revision_ref p) None.

(** [WorkBudgetProfile.unique_limits] *)
Definition limit_scope (l : WorkBudgetLimit) : WorkType * OperationKind * option BudgetAgentRole :=
  (l_work_type l, l_operation_kind l, l_agent_role l).

Definition unique_limits (p : WorkBudgetProfile) : result unit :=
  raise_if has_duplicates (map l_limit_key (wp_limits p))
           || has_duplicates (map limit_scope (wp_limits p))
    with "Duplicate limit_key or work/operation/role" ;;
  Ok tt.

(** [BudgetProfileBinding.binding_shape] *)
Definition binding_shape (b : BudgetProfileBinding) : result unit :=
  do! require_record_ref (b_execution_budget_profile_ref b) (Some "execution_budget_profile") ;;
  do! require_record_ref (b_work_budget_profile_ref b) (Some "work_budget_profile") ;;
  do! require_record_ref (b_verification_budget_profile_ref b)
        (Some "verification_budget_profile") ;;
  require_record_ref (b_dynamic_lifecycle_profile_ref b)
    (Some "dynamic_reproduction_lifecycle_profile").

(** [BudgetProfileBinding.model_validate] *)
Definition validate_binding_profile (b : BudgetProfileBinding) : result unit :=
  raise_if negb (eqb (revision_shape (b_meta b)) (Ok tt)) with "ValidationError" ;;
  do! reference_scopes
        (opt_ref (ap_approval_ref (b_approval b))
         ++ [RRun (b_execution_budget_profile_ref b); RStored (b_work_budget_profile_ref b);
             RStored (b_verification_budget_profile_ref b);
             RStored (b_dynamic_lifecycle_profile_ref b)]) (b_meta b) ;;
  do! analysis_profile (b_meta b) ;;
  do! approval_shape (b_approval b) ;;
  binding_shape b.

(** [BudgetUnits] field constraints *)
Definition units_fields (u : BudgetUnits) : bool :=
  NonNegativeInt (u_elapsed_ms u) && NonNegativeInt (u_work_count u)
  && NonNegativeInt (u_llm_call_count u) && NonNegativeInt (u_retry_count u)
  && NonNegativeInt (u_cost_minor_units u) && NonEmptyStr (u_currency u).

Definition validate_budget_scope (ref : BudgetScopeRef) (meta : option RunMeta) : result unit :=
  do! require_record_ref ref
        (Some match ref with
              | BRun _ => "execution_budget_profile"
              | BStored _ => "budget_profile_binding"
              end) ;;
  raise_if match meta with
           | Some m => neqb (is_RecordMeta m) (match ref with BStored _ => true | BRun _ => false end)
           | None => false
           end
    with "Budget scope must follow run bootstrap versus workspace binding" ;;
  Ok tt.

(** [BudgetReservation.reservation_shape] *)
Definition reservation_shape (r : BudgetReservation) : result unit :=
  do! validate_budget_scope (r_budget_binding_ref r) (Some (r_meta r)) ;;
  do! require_record_ref (r_action_ref r) (Some "action_request") ;;
  do! require_record_ref (r_work_ref r) (Some "work_execution_state") ;;
  raise_if neqb (eqb (r_status r) R_RESERVED) (is_none (r_finalized_at r))
    with "Only RESERVED has finalized_at=null" ;;
  raise_if neqb (eqb (r_status r) R_COMMITTED) (is_some (r_ledger_entry_ref r))
    with "Only COMMITTED requires ledger_entry_ref" ;;
  do! require_optional (scope_ref <$> r_ledger_entry_ref r) (Some "budget_ledger_entry") ;;
  raise_if precedes (r_finalized_at r) (Some (r_reserved_at r))
    with "finalized_at precedes reserved_at" ;;
  Ok tt.

Definition reservation_refs (r : BudgetReservation) : list RecordRef :=
  [scope_ref (r_budget_binding_ref r); scope_ref (r_action_ref r); scope_ref (r_work_ref r)]
  ++ opt_ref (r_ledger_entry_ref r).

(** [BudgetReservation.model_validate] *)
Definition validate_reservation (r : BudgetReservation) : result BudgetReservation :=
  raise_if negb (eqb (revision_shape (r_meta r)) (Ok tt) && units_fields (r_requested_units r))
    with "ValidationError" ;;
  do! reference_scopes (reservation_refs r) (r_meta r) ;;
  do! reservation_shape r ;;
  Ok r.

(** [BudgetLedgerEntry.model_validate] with [ledger_shape] *)
Definition validate_ledger_entry (e : BudgetLedgerEntry) : result BudgetLedgerEntry :=
  raise_if negb (eqb (revision_shape (e_meta e)) (Ok tt) && units_fields (e_actual_units e)
                 && PositiveInt (e_sequence e))
    with "ValidationError" ;;
  do! reference_scopes
        (scope_ref (e_reservation_ref e) :: scope_ref (e_budget_binding_ref e)
         :: scope_ref (e_action_ref e) :: scope_ref (e_work_ref e)
         :: map scope_ref (e_usage_refs e)) (e_meta e) ;;
  do! validate_budget_scope (e_budget_binding_ref e) (Some (e_meta e)) ;;
  do! require_record_ref (e_reservation_ref e) (Some "budget_reservation") ;;
  do! require_record_ref (e_action_ref e) (Some "action_request") ;;
  do! require_record_ref (e_work_ref e) (Some "work_execution_state") ;;
  Ok e.

(** [BudgetRemaining.model_validate] with [remaining_scope] *)
Definition validate_remaining (m : BudgetRemaining) : result BudgetRemaining :=
  raise_if negb (NonNegativeInt (m_as_of_sequence m) && units_fields (m_available_units m)
                 && NonNegativeInt (m_active_reservation_count m))
    with "ValidationError" ;;
  do! validate_budget_scope (m_budget_binding_ref m) None ;;
  Ok m.

Fixpoint find_limit (limits : list WorkBudgetLimit)
  (scope : WorkType * OperationKind * option BudgetAgentRole) : option WorkBudgetLimit :=
  match limits with
  | [] => None
  | l :: limits => if eqb (limit_scope l) scope then Some l else find_limit limits scope
  end.

Definition select_work_limit (p : WorkBudgetProfile) (work_type : WorkType)
  (operation_kind : OperationKind) (agent_role : option BudgetAgentRole)
  : result WorkBudgetLimit :=
  raise_if neqb (wp_status p) ACTIVE with "Budget profile is not ACTIVE" ;;
  match find_limit (wp_limits p) (work_type, operation_kind, agent_role) with
  | Some l => Ok l
  | None => Err (ValueError "Unlisted operation: DENY")
  end.

Definition validate_reservation_revision (p c : BudgetReservation) : result unit :=
  do! validate_revision (MRun (r_meta p)) (MRun (r_meta c)) ;;
  raise_if neqb (r_status p) R_RESERVED || eqb (r_status c) R_RESERVED
    with "Reservation may only finalize once" ;;
  raise_if neqb (r_reservation_id p) (r_reservation_id c)
           || neqb (r_budget_binding_ref p) (r_budget_binding_ref c)
           || neqb (r_action_ref p) (r_action_ref c)
           || neqb (r_work_ref p) (r_work_ref c)
           || neqb (r_requested_units p) (r_requested_units c)
           || neqb (r_reserved_at p) (r_reserved_at c)
    with "Reservation identity, scope and requested units are immutable" ;;
  Ok tt.

(** ** Operation selection of [storage/budget_limits.py] *)

Definition EXTERNAL_ACTIONS : list ActionType :=
  [READ_CODE; RUN_TOOL; CALL_LLM; FETCH_POLICY; RUN_SANDBOX; CALL_TECHNICAL_GATE;
   CALL_RULE_SCOPE_GATE; CREATE_REPORT_DRAFT].

Definition LOCAL_MANUAL_REPAIR_ATTEMPTS : Z := 11.
Definition LOCAL_MANUAL_REPAIR_CALLS : Z := 12.

Definition allows_local_manual_repair_scope (purpose : Purpose) (work_status : WorkStatus)
  (transition_cause : option string) (attempt_trigger : option AttemptTrigger) : bool :=
  if neqb purpose LOCAL_EVALUATION then false
  else if mem work_status [BLOCKED; FAILED] then true
  else if eqb work_status READY then eqb transition_cause (Some "USER_RESUME")
  else eqb work_status RUNNING
       && match attempt_trigger with
          | Some t => mem t [RESUME; RETRY]
          | None => false
          end.

Definition allows_local_manual_repair_attempt (purpose : Purpose) (action_type : ActionType)
  (action_reason : string) (work_status : WorkStatus) (transition_cause : option string)
  (attempt_trigger : option AttemptTrigger) : bool :=
  if neqb purpose LOCAL_EVALUATION || neqb action_type START_ATTEMPT
     || neqb action_reason "Claim exact READY work"
  then false
  else allows_local_manual_repair_scope purpose work_status transition_cause attempt_trigger.

Definition local_manual_repair_call_allowance (purpose : Purpose) (action_type : ActionType)
  (work_status : WorkStatus) (transition_cause : option string)
  (attempt_trigger : option AttemptTrigger) : Z :=
  if negb (mem action_type EXTERNAL_ACTIONS) then 0
  else if negb (allows_local_manual_repair_scope purpose work_status transition_cause
                  attempt_trigger) then 0
  else LOCAL_MANUAL_REPAIR_CALLS.

Definition operation (work_type : WorkType) (action : ActionRequest)
  : OperationKind * option BudgetAgentRole :=
  if eqb work_type POLICY_FETCH && eqb (q_requested_by action) Q_POLICY_PARSER
  then (O_POLICY_PARSE, Some G_POLICY_PARSER)
  else WORK_OPERATIONS work_type.
