(* ===== verification/Runtime.v ===== *)
(** * Runtime state

    The record classes the runtime services look inside, the run state of
    [contracts/analysis.py], and the tables of [storage/models.py] the services
    read and write. A table whose [payload] column holds the JSON of one class
    holds that class's values here: the column is only ever written by [encode]
    and read back by [model_validate_json]. *)
From S2P Require Import Prelude Records CanonicalJson Store Work Processes Actions Budget.

(** ** [contracts/analysis.py] *)

Inductive RunStatus := RUN_RUNNING | RUN_COMPLETE | RUN_PARTIAL | RUN_FAILED | RUN_CANCELLED.

Record AnalysisRunState := mkRunState {
  s_meta : RunMeta;
  s_purpose : Purpose;
  s_eval_config_refs : list BudgetScopeRef;
  s_analysis_input_ref : RunStoredDataRef;
  s_program_id : string;
  s_execution_budget_profile_ref : RunStoredDataRef;
  s_budget_binding_ref : option StoredDataRef;
  s_workspace_id : option string;
  s_commit_id : option string;
  s_workspace_ref : option RunStoredDataRef;
  s_run_policy_state_ref : option StoredDataRef;
  s_status : RunStatus;
  s_analysis_result_ref : option RunStoredDataRef;
  s_started_at : Z;
  s_finished_at : option Z;
  s_elapsed_ms : Z;
}.

#[export] Instance RunStatus_eq_dec : EqDecision RunStatus.
Proof. solve_decision. Defined.
#[export] Instance AnalysisRunState_eq_dec : EqDecision AnalysisRunState.
Proof. solve_decision. Defined.

Definition optional_kind (ref : option RecordRef) (kind : string) : result unit :=
  match ref with Some r => require_record_ref r (Some kind) | None => Ok tt end.

(** [AnalysisRunState.state_shape] *)
Definition state_shape (s : AnalysisRunState) : result unit :=
  raise_if is_RecordMeta (s_meta s) with "AnalysisRunState requires RunMeta" ;;
  do! require_record_ref (s_analysis_input_ref s) (Some "analysis_run_input") ;;
  raise_if neqb (nonempty (s_eval_config_refs s)) (eqb (s_purpose s) EVALUATION)
    with "Only EVALUATION requires exact evaluation configuration" ;;
  raise_if neqb (eqb (s_status s) RUN_RUNNING) (is_none (s_analysis_result_ref s))
    with "Terminal analysis requires its result" ;;
  raise_if neqb (eqb (s_status s) RUN_RUNNING) (is_none (s_finished_at s))
    with "Only terminal analysis has finished_at" ;;
  raise_if mem (s_status s) [RUN_COMPLETE; RUN_PARTIAL]
           && (is_none (s_workspace_id s) || is_none (s_commit_id s))
    with "Completed analysis requires workspace and commit" ;;
  do! require_record_ref (s_execution_budget_profile_ref s) (Some "execution_budget_profile") ;;
  do! optional_kind (RStored <$> s_budget_binding_ref s) "budget_profile_binding" ;;
  do! optional_kind (RRun <$> s_workspace_ref s) "code_workspace" ;;
  do! optional_kind (RStored <$> s_run_policy_state_ref s) "run_policy_state" ;;
  do! optional_kind (RRun <$> s_analysis_result_ref s) "analysis_run_result" ;;
  raise_if is_some (s_budget_binding_ref s)
           && (is_none (s_workspace_id s) || is_none (s_commit_id s)
               || is_none (s_workspace_ref s))
    with "Binding requires exact workspace identity" ;;
  Ok tt.

(** ** The records the services distinguish with [isinstance]

    [RecOther] is a record of any other class, its remaining fields one opaque
    text. *)

Inductive Rec :=
| RecWork (w : WorkExecutionState)
| RecAttempt (a : WorkAttempt)
| RecTransition (t : StateTransition)
| RecCommit (c : TransitionCommit)
| RecAction (q : ActionRequest)
| RecDecision (d : ActionDecision)
| RecReservation (r : BudgetReservation)
| RecLedger (e : BudgetLedgerEntry)
| RecExecution (p : ExecutionBudgetProfile)
| RecWorkProfile (p : WorkBudgetProfile)
| RecVerification (p : VerificationBudgetProfile)
| RecDynamic (p : DynamicReproductionLifecycleProfile)
| RecBinding (b : BudgetProfileBinding)
| RecRunState (s : AnalysisRunState)
| RecProcess (h : HypothesisProcessState)
| RecAssignment (a : VerificationAssignment)
| RecDynamicState (y : DynamicReproductionState)
| RecWorkspace (w : CodeWorkspace)
| RecOther (meta : RecordMetadata) (host_id : option string) (content : string).

#[export] Instance Rec_eq_dec : EqDecision Rec.
Proof. solve_decision. Defined.

Definition rec_metadata (r : Rec) : RecordMetadata :=
  match r with
  | RecWork w => MRun (w_meta w)
  | RecAttempt a => MRun (a_meta a)
  | RecTransition t => MRun (t_meta t)
  | RecCommit c => MRun (c_meta c)
  | RecAction q => MRun (q_meta q)
  | RecDecision d => MRun (d_meta d)
  | RecReservation r => MRun (r_meta r)
  | RecLedger e => MRun (e_meta e)
  | RecExecution p => MRun (ep_meta p)
  | RecWorkProfile p => MRun (wp_meta p)
  | RecVerification p => MRun (vp_meta p)
  | RecDynamic p => MRun (dp_meta p)
  | RecBinding b => MRun (b_meta b)
  | RecRunState s => MRun (s_meta s)
  | RecProcess h => MRun (h_meta h)
  | RecAssignment a => MRun (va_meta a)
  | RecDynamicState y => MRun (y_meta y)
  | RecWorkspace w => MRun (cw_meta w)
  | RecOther m _ _ => m
  end.

Definition rec_host (r : Rec) : option string :=
  match r with RecOther _ h _ => h | _ => None end.

(** Field access and JSON validation of the contract classes (pydantic). *)
Class Codec := {
  model_value : Rec -> value;
  model_schema : string -> option (string -> result Rec);
}.

#[export] Instance Rec_stored `{Codec} : StoredRecord Rec := {|
  rec_meta := rec_metadata;
  rec_host_id := rec_host;
  rec_value := model_value;
  schema := model_schema;
|}.

(** Evidence the host injects ([ports/trusted_evidence.py]). *)
Class TrustedEvidence := {
  pricing : ExecutionBudgetProfile -> bool;
  item_count : ActionRequest -> WorkExecutionState -> option Z;
}.

(** ** Tables of [storage/models.py] *)

Record ReservationRow := mkReservationRow {
  rr_reservation_id : string;
  rr_analysis_id : string;
  rr_action_id : string;
  rr_status : ReservationStatus;
  rr_payload : BudgetReservation;
  rr_initial_ref : RecordRef;
  rr_claimed : bool;
  rr_item_count : option Z;
}.

Record LedgerRow := mkLedgerRow {
  lr_ledger_entry_id : string;
  lr_reservation_id : string;
  lr_analysis_id : string;
  lr_sequence : Z;
  lr_payload : BudgetLedgerEntry;
}.

Record WorkRow := mkWorkRow {
  wr_registration_key : string;
  wr_payload : WorkExecutionState;
  wr_worker_id : option string;
  wr_lease_expires_at : option Z;
}.

Record DispatchRow := mkDispatchRow {
  x_action_id : string;
  x_work_id : string;
  x_attempt_id : string;
  x_decision_ref : RecordRef;
  x_reservation_ref : RecordRef;
  x_prepared_at : Z;
  x_dispatched_at : option Z;
  x_returned_at : option Z;
  x_provider_request_id : option string;
  x_idempotency_key : option string;
  x_reconciled_at : option Z;
}.

(** The columns [work_id], [expected_state_version] and [state] are those of the
    payload; [request] holds the references of the transition, of the PREPARED
    commit and of the candidate records. *)
Record CommitRow := mkCommitRow {
  cr_candidate_binding : string;
  cr_payload : TransitionCommit;
  cr_transition : RecordRef;
  cr_commit : RecordRef;
  cr_records : list RecordRef;
}.

Record MatchRow := mkMatchRow {
  mt_analysis_id : string;
  mt_primitive_match_id : string;
  mt_upstream_result_ref : StoredDataRef;
  mt_downstream_input_ref : StoredDataRef;
  mt_matched_input_id : string;
  mt_source_result_ref : StoredDataRef;
}.

#[export] Instance MatchRow_eq_dec : EqDecision MatchRow.
Proof. solve_decision. Defined.

Record Db := mkDb {
  db_store : Store;
  analysis_runs : gmap string AnalysisRunState;
  current_records : gmap string (string * Z);
  run_controls : list string;
  work_states : gmap string WorkRow;
  work_attempts : gmap string WorkAttempt;
  budget_profiles : gmap (string * string) RecordRef;
  budget_reservations : list ReservationRow;
  budget_ledger_entries : list LedgerRow;
  external_dispatches : list DispatchRow;
  transition_commits : gmap string CommitRow;
  artifacts : list string;
  match_reservations : list MatchRow;
}.

Definition set_store (db : Db) (s : Store) : Db :=
  mkDb s (analysis_runs db) (current_records db) (run_controls db) (work_states db)
    (work_attempts db) (budget_profiles db) (budget_reservations db)
    (budget_ledger_entries db) (external_dispatches db)
    (transition_commits db) (artifacts db) (match_reservations db).
Definition set_runs (db : Db) runs current : Db :=
  mkDb (db_store db) runs current (run_controls db) (work_states db)
    (work_attempts db) (budget_profiles db) (budget_reservations db)
    (budget_ledger_entries db) (external_dispatches db)
    (transition_commits db) (artifacts db) (match_reservations db).
Definition set_works (db : Db) works current : Db :=
  mkDb (db_store db) (analysis_runs db) current (run_controls db) works
    (work_attempts db) (budget_profiles db) (budget_reservations db)
    (budget_ledger_entries db) (external_dispatches db)
    (transition_commits db) (artifacts db) (match_reservations db).
Definition set_profiles (db : Db) profiles : Db :=
  mkDb (db_store db) (analysis_runs db) (current_records db) (run_controls db)
    (work_states db) (work_attempts db) profiles (budget_reservations db)
    (budget_ledger_entries db) (external_dispatches db)
    (transition_commits db) (artifacts db) (match_reservations db).
Definition set_reservations (db : Db) reservations : Db :=
  mkDb (db_store db) (analysis_runs db) (current_records db) (run_controls db)
    (work_states db) (work_attempts db) (budget_profiles db) reservations
    (budget_ledger_entries db) (external_dispatches db)
    (transition_commits db) (artifacts db) (match_reservations db).
Definition set_ledger (db : Db) ledger : Db :=
  mkDb (db_store db) (analysis_runs db) (current_records db) (run_controls db)
    (work_states db) (work_attempts db) (budget_profiles db) (budget_reservations db)
    ledger (external_dispatches db)
    (transition_commits db) (artifacts db) (match_reservations db).
Definition set_dispatches (db : Db) dispatches : Db :=
  mkDb (db_store db) (analysis_runs db) (current_records db) (run_controls db)
    (work_states db) (work_attempts db) (budget_profiles db) (budget_reservations db)
    (budget_ledger_entries db) dispatches
    (transition_commits db) (artifacts db) (match_reservations db).

Definition set_attempts (db : Db) attempts : Db :=
  mkDb (db_store db) (analysis_runs db) (current_records db) (run_controls db)
    (work_states db) attempts (budget_profiles db) (budget_reservations db)
    (budget_ledger_entries db) (external_dispatches db)
    (transition_commits db) (artifacts db) (match_reservations db).
Definition set_commits (db : Db) commits : Db :=
  mkDb (db_store db) (analysis_runs db) (current_records db) (run_controls db)
    (work_states db) (work_attempts db) (budget_profiles db) (budget_reservations db)
    (budget_ledger_entries db) (external_dispatches db)
    commits (artifacts db) (match_reservations db).
Definition set_artifacts (db : Db) digests : Db :=
  mkDb (db_store db) (analysis_runs db) (current_records db) (run_controls db)
    (work_states db) (work_attempts db) (budget_profiles db) (budget_reservations db)
    (budget_ledger_entries db) (external_dispatches db)
    (transition_commits db) digests (match_reservations db).
Definition set_matches (db : Db) matches : Db :=
  mkDb (db_store db) (analysis_runs db) (current_records db) (run_controls db)
    (work_states db) (work_attempts db) (budget_profiles db) (budget_reservations db)
    (budget_ledger_entries db) (external_dispatches db)
    (transition_commits db) (artifacts db) matches.

Definition empty_db : Db := mkDb empty_store ∅ ∅ [] ∅ ∅ ∅ [] [] [] ∅ [] [].

(** ** The validator's tables

    [action_requests], [action_checks], [action_output_closures] and
    [action_decisions], next to the tables of [Runtime.Db]. *)

Record IssuedRow := mkIssued {
  i_request_ref : RecordRef;
  i_decision_ref : RecordRef;
}.

Record ClosureRow := mkClosure {
  cl_decision_ref : RecordRef;
  cl_output_refs : list RecordRef;
  cl_content_hash : string;
}.

Record DecisionRow := mkDecisionRow {
  dr_decision_id : string;
  dr_action_id : string;
  dr_payload : ActionDecision;
}.

Record Rt := mkRt {
  rt_db : Db;
  action_requests : gmap string IssuedRow;
  action_checks : gmap string (list ActionCheck);
  action_output_closures : gmap string ClosureRow;
  action_decisions : list DecisionRow;
}.

Definition set_db (rt : Rt) (db : Db) : Rt :=
  mkRt db (action_requests rt) (action_checks rt) (action_output_closures rt)
    (action_decisions rt).
Definition set_decisions (rt : Rt) (rows : list DecisionRow) : Rt :=
  mkRt (rt_db rt) (action_requests rt) (action_checks rt) (action_output_closures rt) rows.

(** [insert(action_decisions)] under its keys. *)
Definition insert_decision (rt : Rt) (row : DecisionRow) : result Rt :=
  if mem (dr_decision_id row) (map dr_decision_id (action_decisions rt))
     || mem (dr_action_id row) (map dr_action_id (action_decisions rt))
  then Err IntegrityError
  else Ok (set_decisions rt (action_decisions rt ++ [row])).

(** [update(action_decisions).where(decision_id == id).values(payload=...)] *)
Definition update_decision (rt : Rt) (d : ActionDecision) : Rt :=
  set_decisions rt
    (map (fun row => if eqb (dr_decision_id row) (d_decision_id d)
                     then mkDecisionRow (dr_decision_id row) (dr_action_id row) d else row)
       (action_decisions rt)).

(** [run_control.cancel_latched] and [reject_cancelled] *)
Definition cancel_latched (db : Db) (analysis_id : string) : bool :=
  mem analysis_id (run_controls db).
Definition reject_cancelled (db : Db) (analysis_id : string) : result unit :=
  raise_if cancel_latched db analysis_id with "RUN_CANCELLED" ;; Ok tt.

Section runtime.
Context `{Codec}.

(** [records.stage], [records.publish] and both in a row, on the database. *)
Definition stage_db (db : Db) (r : Rec) : result (RecordRef * Db) :=
  let! (ref, s) := stage (db_store db) r in Ok (ref, set_store db s).
Definition publish_db (db : Db) (ref : RecordRef) : result Db :=
  let! s := publish (R := Rec) (db_store db) ref in Ok (set_store db s).
Definition stage_publish (db : Db) (r : Rec) : result (RecordRef * Db) :=
  let! (ref, db) := stage_db db r in
  let! db := publish_db db ref in
  Ok (ref, db).
Definition resolve_db (db : Db) (ref : RecordRef) (candidate : bool) : result Rec :=
  resolve (db_store db) ref candidate.

(** ** [storage/run_states.py] *)

Definition get_run (db : Db) (analysis_id : string) : result AnalysisRunState :=
  match analysis_runs db !! analysis_id with
  | Some s => Ok s
  | None => Err (ValueError "BUDGET run state is unavailable")
  end.

(** The attributes [save_run] lets no revision change, and those it lets no
    revision change once set. *)
Definition run_immutable (p c : AnalysisRunState) : bool :=
  neqb (s_purpose p) (s_purpose c) || neqb (s_eval_config_refs p) (s_eval_config_refs c)
  || neqb (s_analysis_input_ref p) (s_analysis_input_ref c)
  || neqb (s_program_id p) (s_program_id c)
  || neqb (s_execution_budget_profile_ref p) (s_execution_budget_profile_ref c).
Definition run_set_once (p c : AnalysisRunState) : bool :=
  is_some (s_workspace_id p) && neqb (s_workspace_id p) (s_workspace_id c)
  || is_some (s_commit_id p) && neqb (s_commit_id p) (s_commit_id c)
  || is_some (s_budget_binding_ref p)
     && neqb (s_budget_binding_ref p) (s_budget_binding_ref c).

Definition save_run (db : Db) (state : AnalysisRunState) (previous : option AnalysisRunState)
  : result Db :=
  do! match previous with
      | Some p =>
          do! validate_revision (MRun (s_meta p)) (MRun (s_meta state)) ;;
          raise_if run_immutable p state with "RUN_STATE_IMMUTABLE" ;;
          raise_if run_set_once p state with "RUN_STATE_IMMUTABLE" ;;
          Ok tt
      | None => Ok tt
      end ;;
  let! (_, db) := stage_publish db (RecRunState state) in
  let id := rm_analysis_id (s_meta state) in
  let logical := logical_record_id (s_meta state) in
  let pointer := (record_id (s_meta state), revision_number (s_meta state)) in
  match previous with
  | None =>
      if is_some (analysis_runs db !! id) || is_some (current_records db !! logical)
      then Err IntegrityError
      else Ok (set_runs db (<[id := state]> (analysis_runs db))
                 (<[logical := pointer]> (current_records db)))
  | Some p =>
      raise_if neqb (analysis_runs db !! id) (Some p)
        with "STATE_VERSION_CONFLICT: analysis" ;;
      let! pref := reference (RecRunState p) in
      raise_if neqb (fst <$> current_records db !! logical) (Some (ref_key pref))
        with "STATE_VERSION_CONFLICT: analysis pointer" ;;
      Ok (set_runs db (<[id := state]> (analysis_runs db))
            (<[logical := pointer]> (current_records db)))
  end.
End runtime.
