(* ===== verification/Registry.v ===== *)
(** * The budget profile registry

    [storage/budget_registry.py]: which execution profile a budget scope stands
    for. [execution] and [validate_binding] call each other; the recursion is
    cut at Python's recursion limit and [execution_fuel_enough] shows that two
    levels are all a well-formed store needs. *)
From S2P Require Import Prelude Records CanonicalJson Store Work Processes Actions Budget Runtime.

(** ** The registered classes *)

(** The record kind each class is registered under in [RESULT_REGISTRY] and
    [CORE_SCHEMAS]. *)
Definition rec_kind (r : Rec) : option string :=
  match r with
  | RecWork _ => Some "work_execution_state"
  | RecAttempt _ => Some "work_attempt"
  | RecTransition _ => Some "state_transition"
  | RecCommit _ => Some "transition_commit"
  | RecAction _ => Some "action_request"
  | RecDecision _ => Some "action_decision"
  | RecReservation _ => Some "budget_reservation"
  | RecLedger _ => Some "budget_ledger_entry"
  | RecExecution _ => Some "execution_budget_profile"
  | RecWorkProfile _ => Some "work_budget_profile"
  | RecVerification _ => Some "verification_budget_profile"
  | RecDynamic _ => Some "dynamic_reproduction_lifecycle_profile"
  | RecBinding _ => Some "budget_profile_binding"
  | RecRunState _ => Some "analysis_run_state"
  | RecProcess _ => Some "hypothesis_process_state"
  | RecAssignment _ => Some "verification_assignment"
  | RecDynamicState _ => Some "dynamic_reproduction_state"
  | RecWorkspace _ => Some "code_workspace"
  | RecOther _ _ _ => None
  end.

Definition registered_kinds : list string :=
  ["work_execution_state"; "work_attempt"; "state_transition"; "transition_commit";
   "action_request"; "action_decision"; "budget_reservation"; "budget_ledger_entry";
   "execution_budget_profile"; "work_budget_profile"; "verification_budget_profile";
   "dynamic_reproduction_lifecycle_profile"; "budget_profile_binding"; "analysis_run_state";
   "hypothesis_process_state"; "verification_assignment"; "dynamic_reproduction_state";
   "code_workspace"].

(** The class validators [model_validate_json] runs on these classes. *)
Definition rec_valid (r : Rec) : bool :=
  match r with
  | RecReservation r => eqb (validate_reservation r) (Ok r)
  | RecLedger e => eqb (validate_ledger_entry e) (Ok e)
  | RecExecution p => eqb (validate_execution_profile p) (Ok tt)
  | RecBinding b => eqb (validate_binding_profile b) (Ok tt)
  | RecRunState s => eqb (state_shape s) (Ok tt)
  | RecWork w => eqb (validate_work w) (Ok w)
  | RecAttempt a => eqb (validate_attempt a) (Ok a)
  | RecTransition t => eqb (validate_transition t) (Ok t)
  | RecCommit c => eqb (validate_commit c) (Ok c)
  | RecAction q => eqb (validate_action q) (Ok q)
  | RecDecision d => eqb (validate_decision d) (Ok d)
  | RecProcess h => eqb (validate_process h) (Ok h)
  | RecDynamicState y => eqb (validate_dynamic y) (Ok y)
  | RecWorkspace w => eqb (workspace_shape w) (Ok tt)
  | _ => true
  end.

(** Documented behaviour of the schema registry: a kind parses to its class,
    and what parses has passed the class validators. *)
Class CodecLaws `{Codec} : Prop := {
  codec_store :: StoredRecordLaws Rec;
  parse_class kind model payload r :
    model_schema kind = Some model -> model payload = Ok r ->
    match rec_kind r with Some k => k = kind | None => kind ∉ registered_kinds end;
  parse_valid kind model payload r :
    model_schema kind = Some model -> model payload = Ok r -> rec_valid r = true;
}.

Section registry.
Context `{Codec}.

(** [BudgetProfileRegistry.pin] *)
Definition pin (db : Db) (ref : RecordRef) (analysis_id : string) : result Db :=
  match budget_profiles db !! (analysis_id, data_kind ref) with
  | Some old =>
      raise_if neqb old ref with "BUDGET binding is already pinned for this analysis" ;;
      Ok db
  | None => Ok (set_profiles db (<[(analysis_id, data_kind ref) := ref]> (budget_profiles db)))
  end.

Definition profile_status (r : Rec) : option ProfileStatus :=
  match r with
  | RecExecution p => Some (ap_status (ep_approval p))
  | RecBinding b => Some (ap_status (b_approval b))
  | RecWorkProfile p => Some (wp_status p)
  | RecVerification p => Some (vp_status p)
  | RecDynamic p => Some (dp_status p)
  | _ => None
  end.

Definition is_work_profile (r : Rec) : bool :=
  match r with RecWorkProfile _ => true | _ => false end.
Definition is_verification_profile (r : Rec) : bool :=
  match r with RecVerification _ => true | _ => false end.
Definition is_dynamic_profile (r : Rec) : bool :=
  match r with RecDynamic _ => true | _ => false end.

(** One round of the loop of [validate_binding]. *)
Definition check_bound_profile (db : Db) (binding : BudgetProfileBinding)
  (part : StoredDataRef * (Rec -> bool)) : result unit :=
  let! profile := resolve_db db part.1 false in
  raise_if negb (part.2 profile) || neqb (profile_status profile) (Some ACTIVE)
    with "BUDGET requires all ACTIVE exact profiles" ;;
  raise_if neqb (meta_analysis_id (rec_metadata profile), meta_workspace_id (rec_metadata profile),
                 meta_commit_id (rec_metadata profile))
                (Some (rm_analysis_id (b_meta binding)), rm_workspace_id (b_meta binding),
                 rm_commit_id (b_meta binding))
    with "BUDGET profile scope mismatch" ;;
  raise_if match profile with
           | RecWorkProfile p => neqb (wp_purpose p) (b_purpose binding)
           | _ => false
           end
    with "BUDGET purpose mismatch" ;;
  Ok tt.

Definition bound_profiles (binding : BudgetProfileBinding)
  : list (StoredDataRef * (Rec -> bool)) :=
  [(b_work_budget_profile_ref binding, is_work_profile);
   (b_verification_budget_profile_ref binding, is_verification_profile);
   (b_dynamic_lifecycle_profile_ref binding, is_dynamic_profile)].

(** [BudgetProfileRegistry.validate_binding], over [self.execution] *)
Definition validate_binding_with
  (execution : BudgetScopeRef -> string -> result ExecutionBudgetProfile)
  (db : Db) (binding : BudgetProfileBinding) : result unit :=
  raise_if neqb (ap_status (b_approval binding)) ACTIVE
    with "BUDGET requires full ACTIVE binding" ;;
  let! e := execution (BRun (b_execution_budget_profile_ref binding))
                      (rm_analysis_id (b_meta binding)) in
  raise_if neqb (ep_purpose e) (b_purpose binding) with "BUDGET purpose mismatch" ;;
  for_each (check_bound_profile db binding) (bound_profiles binding).

(** The body of [BudgetProfileRegistry.execution], over its recursive calls *)
Definition execution_step
  (execution : BudgetScopeRef -> string -> result ExecutionBudgetProfile)
  (db : Db) (ref : BudgetScopeRef) (analysis_id : string) : result ExecutionBudgetProfile :=
  raise_if neqb (budget_profiles db !! (analysis_id, data_kind ref)) (Some (scope_ref ref))
    with "BUDGET unavailable: unpinned profile or consuming analysis mismatch" ;;
  let! profile := resolve_db db ref false in
  let! state := get_run db analysis_id in
  let expected :=
    match profile with
    | RecBinding _ => RStored <$> s_budget_binding_ref state
    | _ => Some (RRun (s_execution_budget_profile_ref state))
    end in
  raise_if neqb expected (Some (scope_ref ref))
    with "BUDGET exact run-state binding mismatch" ;;
  match profile with
  | RecBinding b =>
      do! validate_binding_with execution db b ;;
      execution (BRun (b_execution_budget_profile_ref b)) analysis_id
  | RecExecution p =>
      raise_if neqb (rm_analysis_id (ep_meta p)) analysis_id
               || neqb (ap_status (ep_approval p)) ACTIVE
        with "BUDGET unavailable: ACTIVE execution profile required" ;;
      Ok p
  | _ => Err (ValueError "BUDGET unavailable: ACTIVE execution profile required")
  end.

Fixpoint execution_fuel (fuel : nat) (db : Db) (ref : BudgetScopeRef) (analysis_id : string)
  : result ExecutionBudgetProfile :=
  match fuel with
  | O => Err RecursionError
  | S fuel => execution_step (execution_fuel fuel db) db ref analysis_id
  end.

Definition recursion_limit : nat := 1000.

Definition execution (db : Db) := execution_fuel recursion_limit db.
Definition validate_binding (db : Db) := validate_binding_with (execution db) db.
End registry.

(** ** Lemmas *)

Section registry_laws.
Context `{CodecLaws}.
Implicit Types (db : Db) (r : Rec).

Definition db_wf db : Prop := store_wf (R := Rec) (db_store db).

Lemma decode_class kind payload r :
  decode kind payload = Ok r ->
  record_type (meta_rev (rec_metadata r)) = kind /\ rec_valid r = true
  /\ match rec_kind r with Some k => k = kind | None => kind ∉ registered_kinds end.
Proof.
  unfold decode. destruct (schema kind) as [model |] eqn:Hs; [| discriminate].
  intros Hd. unguard Hd. injection Hd as ->. boolify.
  split; [exact G |]. split; [eapply parse_valid | eapply parse_class]; eauto.
Qed.

Lemma scope_reference_kind r (ref : BudgetScopeRef) :
  reference r = Ok (scope_ref ref) -> data_kind ref = record_type (meta_rev (rec_metadata r)).
Proof.
  unfold reference. intros Hr. unguard Hr. injection Hr as Hr.
  unfold rec_meta in Hr. simpl in Hr.
  destruct (rec_metadata r) as [m | m]; [destruct m as [rev an [code |]], (rec_host r) |];
    destruct ref; simpl in *; (discriminate || (injection Hr as <-; reflexivity) || (subst; reflexivity)).
Qed.

(** A budget scope resolves to a validated record of the class of its kind. *)
Lemma resolve_scope db (ref : BudgetScopeRef) c r :
  db_wf db -> resolve_db db ref c = Ok r ->
  rec_valid r = true /\ reference r = Ok (scope_ref ref)
  /\ match rec_kind r with
     | Some k => data_kind ref = k
     | None => data_kind ref ∉ registered_kinds
     end.
Proof.
  intros Hwf Hr. apply resolve_Ok in Hr; [| exact Hwf].
  destruct Hr as (Href & row & _ & Hh). pose proof (row_decode _ _ Hh) as Hd.
  apply decode_class in Hd. destruct Hd as (Ht & Hv & Hc). rewrite <- Ht in Hc.
  rewrite (scope_reference_kind _ _ Href).
  destruct (rec_kind r); auto.
Qed.

Lemma binding_execution_kind b :
  validate_binding_profile b = Ok tt ->
  rs_data_kind (b_execution_budget_profile_ref b) = "execution_budget_profile".
Proof.
  unfold validate_binding_profile, binding_shape. intros Hv. unguard Hv.
  apply require_record_ref_Ok in E2. apply E2. reflexivity.
Qed.

(** An execution-profile reference is answered without recursion. *)
Lemma execution_direct db ref a f g :
  db_wf db -> data_kind (scope_ref ref) = "execution_budget_profile" ->
  execution_step f db ref a = execution_step g db ref a.
Proof.
  intros Hwf Hk. unfold execution_step. destruct (negb _); [reflexivity |].
  destruct (resolve_db db ref false) as [r | e] eqn:Hr; [simpl | reflexivity].
  destruct (get_run db a); [simpl | reflexivity].
  apply (resolve_scope _ _ _ _ Hwf) in Hr. destruct Hr as (_ & _ & Hc).
  destruct r; try reflexivity. simpl in Hc. congruence.
Qed.

Lemma validate_binding_ext f g db b :
  f (BRun (b_execution_budget_profile_ref b)) (rm_analysis_id (b_meta b))
  = g (BRun (b_execution_budget_profile_ref b)) (rm_analysis_id (b_meta b)) ->
  validate_binding_with f db b = validate_binding_with g db b.
Proof. unfold validate_binding_with. intros ->. reflexivity. Qed.

Lemma execution_two db ref a n m :
  db_wf db -> execution_fuel (S (S n)) db ref a = execution_fuel (S (S m)) db ref a.
Proof.
  intros Hwf. change (execution_step (execution_fuel (S n) db) db ref a
                      = execution_step (execution_fuel (S m) db) db ref a).
  unfold execution_step. destruct (negb _); [reflexivity |].
  destruct (resolve_db db ref false) as [r | e] eqn:Hr; [cbn [rbind] | reflexivity].
  destruct (get_run db a); [cbn [rbind] | reflexivity].
  apply (resolve_scope _ _ _ _ Hwf) in Hr. destruct Hr as (Hv & _ & _).
  destruct r; try reflexivity. simpl in Hv. boolify.
  pose proof (binding_execution_kind _ Hv) as Hk.
  assert (He : forall a, execution_fuel (S n) db (BRun (b_execution_budget_profile_ref b)) a
               = execution_fuel (S m) db (BRun (b_execution_budget_profile_ref b)) a).
  { intros a'. apply execution_direct; auto. }
  rewrite He. erewrite validate_binding_ext by apply He. reflexivity.
Qed.

(** The mutual recursion of [execution] and [validate_binding] is at most
    two levels deep on a well-formed store: any larger allowance gives the
    same profile or the same error. *)
Theorem execution_fuel_enough db ref a n :
  db_wf db -> (2 <= n)%nat -> execution_fuel n db ref a = execution db ref a.
Proof.
  intros Hwf Hn. unfold execution, recursion_limit.
  destruct n as [| [| n]]; [lia | lia |].
  apply (execution_two _ _ _ n 998). exact Hwf.
Qed.

(** What a binding promises once [validate_binding] accepts it. *)
Definition binding_active db (st : AnalysisRunState) (b : BudgetProfileBinding)
  (p : ExecutionBudgetProfile) : Prop :=
  ap_status (b_approval b) = ACTIVE /\ ep_purpose p = b_purpose b
  /\ b_execution_budget_profile_ref b = s_execution_budget_profile_ref st
  /\ exists wp vp dp,
       resolve_db db (b_work_budget_profile_ref b) false = Ok (RecWorkProfile wp)
       /\ resolve_db db (b_verification_budget_profile_ref b) false = Ok (RecVerification vp)
       /\ resolve_db db (b_dynamic_lifecycle_profile_ref b) false = Ok (RecDynamic dp)
       /\ wp_status wp = ACTIVE /\ vp_status vp = ACTIVE /\ dp_status dp = ACTIVE
       /\ wp_purpose wp = b_purpose b
       /\ rm_analysis_id (wp_meta wp) = rm_analysis_id (b_meta b)
       /\ rm_analysis_id (vp_meta vp) = rm_analysis_id (b_meta b)
       /\ rm_analysis_id (dp_meta dp) = rm_analysis_id (b_meta b).

Lemma execution_fuel_direct db ref a n p :
  db_wf db -> data_kind (scope_ref ref) = "execution_budget_profile" ->
  execution_fuel n db ref a = Ok p ->
  exists st, get_run db a = Ok st /\ scope_ref ref = RRun (s_execution_budget_profile_ref st)
    /\ resolve_db db ref false = Ok (RecExecution p)
    /\ rm_analysis_id (ep_meta p) = a /\ ap_status (ep_approval p) = ACTIVE.
Proof.
  intros Hwf Hk. destruct n as [| n]; [discriminate |].
  simpl. unfold execution_step. intros He. unguard He.
  pose proof (resolve_scope _ _ _ _ Hwf E) as (_ & _ & Hc).
  destruct x; try discriminate; [| simpl in Hc; congruence].
  unguard He. injection He as ->. boolify. exists x0. intuition congruence.
Qed.

Lemma check_bound_profile_Ok db b ref f :
  check_bound_profile db b (ref, f) = Ok tt ->
  exists r, resolve_db db ref false = Ok r /\ f r = true /\ profile_status r = Some ACTIVE
    /\ meta_analysis_id (rec_metadata r) = Some (rm_analysis_id (b_meta b))
    /\ match r with RecWorkProfile p => wp_purpose p = b_purpose b | _ => True end.
Proof.
  unfold check_bound_profile. simpl. intros Hc. unguard Hc. exists x. split; [reflexivity |].
  boolify. destruct G as [G G']. injection G0 as G0 _ _.
  repeat split; auto. destruct x; auto. boolify. exact G1.
Qed.

Lemma validate_binding_Ok exec db st b p :
  exec (BRun (b_execution_budget_profile_ref b)) (rm_analysis_id (b_meta b)) = Ok p ->
  b_execution_budget_profile_ref b = s_execution_budget_profile_ref st ->
  validate_binding_with exec db b = Ok tt -> binding_active db st b p.
Proof.
  unfold validate_binding_with, binding_active. intros He Hst Hv. unguard Hv.
  injection He as ->. unfold bound_profiles in Hv. simpl in Hv. unguard Hv.
  apply check_bound_profile_Ok in E0, E1, E2. boolify.
  destruct E0 as (r0 & R0 & F0 & S0 & A0 & P0), E1 as (r1 & R1 & F1 & S1 & A1 & _),
    E2 as (r2 & R2 & F2 & S2' & A2 & _).
  destruct r0; try discriminate F0. destruct r1; try discriminate F1.
  destruct r2; try discriminate F2. simpl in *.
  repeat split; auto. exists p0, p1, p2. intuition congruence.
Qed.

(** Whatever its scope, [execution] returns the run's own execution profile. *)
Lemma execution_fuel_profile db ref a n p :
  db_wf db -> execution_fuel n db ref a = Ok p ->
  exists st, get_run db a = Ok st
    /\ resolve_db db (RRun (s_execution_budget_profile_ref st)) false = Ok (RecExecution p)
    /\ rm_analysis_id (ep_meta p) = a /\ ap_status (ep_approval p) = ACTIVE.
Proof.
  intros Hwf He. destruct n as [| n]; [discriminate |].
  simpl in He. unfold execution_step in He. unguard He. boolify.
  pose proof (resolve_scope _ _ _ _ Hwf E) as (Hv & Href & Hc).
  destruct x; try discriminate He.
  - unguard He. injection He as ->. boolify. injection G0 as G0.
    exists x0. rewrite G0. intuition congruence.
  - unguard He. simpl in Hv. boolify. pose proof (binding_execution_kind _ Hv) as Hk.
    destruct (execution_fuel_direct db (BRun (b_execution_budget_profile_ref b)) _ _ _ Hwf Hk He)
      as (st & Hst & Hs & Hr & Han & Hact).
    exists st. injection Hs as <-. simpl in Hr. intuition congruence.
Qed.

(** [execution] answers only with the run's own pinned ACTIVE execution
    profile, and for a binding scope only when the run is bound to that
    binding and every profile of it is ACTIVE, of the binding's analysis and
    of one purpose. *)
Theorem execution_sound db ref a p :
  db_wf db -> execution db ref a = Ok p ->
  exists st, get_run db a = Ok st
    /\ budget_profiles db !! (a, data_kind ref) = Some (scope_ref ref)
    /\ resolve_db db (RRun (s_execution_budget_profile_ref st)) false = Ok (RecExecution p)
    /\ rm_analysis_id (ep_meta p) = a /\ ap_status (ep_approval p) = ACTIVE
    /\ (scope_ref ref = RRun (s_execution_budget_profile_ref st)
        \/ exists b, resolve_db db ref false = Ok (RecBinding b)
             /\ Some (scope_ref ref) = RStored <$> s_budget_binding_ref st
             /\ binding_active db st b p).
Proof.
  intros Hwf He. destruct (execution_fuel_profile _ _ _ _ _ Hwf He) as (st & Hst & Hr & Ha & Hact).
  exists st. unfold execution, recursion_limit in He.
  change (execution_step (execution_fuel 999 db) db ref a = Ok p) in He.
  revert He. generalize 999%nat. intros fuel He. unfold execution_step in He. unguard He.
  boolify. do 5 (split; [assumption |]).
  destruct x; try discriminate He; [left | right].
  - replace st with x0 by congruence. congruence.
  - unguard He. exists b. split; [reflexivity |]. split; [congruence |].
    pose proof (resolve_scope _ _ _ _ Hwf E) as (Hv & _ & _). simpl in Hv. boolify.
    pose proof (binding_execution_kind _ Hv) as Hk.
    pose proof E1 as Hx. unfold validate_binding_with in Hx. unguard Hx.
    pose proof (execution_fuel_direct db (BRun (b_execution_budget_profile_ref b))) as Hdirect.
    destruct (Hdirect _ _ _ Hwf Hk E2) as (st1 & Hs1 & Href1 & Hr1 & Ha1 & _).
    destruct (Hdirect _ _ _ Hwf Hk He) as (st2 & Hs2 & Href2 & Hr2 & _ & _).
    replace p with x by congruence. eapply validate_binding_Ok; [exact E2 | | exact E1].
    replace st with st2 by congruence. injection Href2 as ->. reflexivity.
Qed.
End registry_laws.
