(* ===== verification/Hierarchy.v ===== *)
(** * Verification and dynamic caps

    [storage/budget_hierarchy.py]: the root Verification a work belongs to, and
    the caps a reservation must fit under that root and for its own work. The
    walk to the root is cut at the number of stored records;
    [verification_root_terminates] shows the cut is never reached. *)
From S2P Require Import Prelude Records CanonicalJson Store Work Actions Budget Runtime.
From S2P Require Import Registry.

(** [Σ getattr(units, name)] *)
Definition sum_of (f : BudgetUnits -> Z) (l : list BudgetUnits) : Z :=
  foldr (fun u n => f u + n) 0 l.

Section hierarchy.
Context `{Codec}.

Fixpoint root_loop (fuel : nat) (db : Db) (seen : list string) (work : WorkExecutionState)
  : result (option string) :=
  match fuel with
  | O => Err RecursionError
  | S fuel =>
      raise_if mem (w_work_id work) seen with "BUDGET cyclic work ancestry" ;;
      if eqb (w_work_type work) VERIFICATION then Ok (Some (w_work_id work))
      else
        match w_parent_work_ref work with
        | None => Ok None
        | Some parent_ref =>
            let! parent := resolve_db db parent_ref false in
            match parent with
            | RecWork parent => root_loop fuel db (w_work_id work :: seen) parent
            | _ => Err (ValueError "BUDGET invalid verification ancestor")
            end
        end
  end.

Definition root_fuel (db : Db) : nat := S (S (size (records (db_store db)))).

Definition verification_root (db : Db) (work : WorkExecutionState) : result (option string) :=
  root_loop (root_fuel db) db [] work.

(** [transition.cause] of [work.last_transition_ref] *)
Definition transition_cause (db : Db) (work : WorkExecutionState) : result (option string) :=
  match w_last_transition_ref work with
  | None => Ok None
  | Some ref =>
      let! transition := resolve_db db ref true in
      Ok (match transition with RecTransition t => Some (t_cause t) | _ => None end)
  end.

(** [attempt.trigger] of [work.active_attempt_id] *)
Definition attempt_trigger (db : Db) (work : WorkExecutionState) : option AttemptTrigger :=
  match w_active_attempt_id work with
  | None => None
  | Some id => a_trigger <$> work_attempts db !! id
  end.

Definition is_evidence (t : WorkType) : bool := mem t [PRO_EVIDENCE; CON_EVIDENCE].

Definition action_type_in (r : Rec) (kinds : list ActionType) : bool :=
  match r with RecAction q => mem (q_action_type q) kinds | _ => false end.

(** What the loop of [check_hierarchy] accumulates. *)
Record Usage := mkUsage {
  h_scope_units : list BudgetUnits;
  h_work_units : list BudgetUnits;
  h_attempts : Z;
  h_evidence_calls : Z;
}.

Definition hierarchy_step (db : Db) (reservation : BudgetReservation)
  (work : WorkExecutionState) (root : option string) (acc : Usage) (row : ReservationRow)
  : result Usage :=
  let other := rr_payload row in
  if eqb (r_reservation_id other) (r_reservation_id reservation) then Ok acc
  else
    let! other_work := resolve_db db (r_work_ref other) true in
    match other_work with
    | RecWork other_work =>
        let! other_action := resolve_db db (r_action_ref other) false in
        let! evidence :=
          if negb (h_evidence_calls acc =? 0) && eqb (r_status other) R_RESERVED
             && is_evidence (w_work_type other_work)
          then
            let! other_root := verification_root db other_work in
            Ok (if eqb other_root root && action_type_in other_action EXTERNAL_ACTIONS
                then h_evidence_calls acc + 1 else h_evidence_calls acc)
          else Ok (h_evidence_calls acc) in
        let! units :=
          match r_ledger_entry_ref other with
          | None => Ok (r_requested_units other)
          | Some ref =>
              let! entry := resolve_db db ref false in
              match entry with
              | RecLedger e => Ok (e_actual_units e)
              | _ => Err AssertionError
              end
          end in
        let! in_scope :=
          if is_some root
          then let! other_root := verification_root db other_work in Ok (eqb other_root root)
          else Ok false in
        let same_work := eqb (w_work_id other_work) (w_work_id work) in
        Ok (mkUsage
              (if in_scope then h_scope_units acc ++ [units] else h_scope_units acc)
              (if same_work then h_work_units acc ++ [units] else h_work_units acc)
              (if same_work && action_type_in other_action [START_ATTEMPT]
               then h_attempts acc + 1 else h_attempts acc)
              evidence)
    | _ => Err AssertionError
    end.

(** The rows of an analysis whose status is not [RELEASED]. *)
Definition live_reservations (db : Db) (analysis_id : string) : list ReservationRow :=
  filter (fun row => rr_analysis_id row = analysis_id /\ rr_status row <> R_RELEASED)
    (budget_reservations db).

(** The caps on a [DYNAMIC_REPRO] work's remaining time. *)
Definition check_dynamic_time (db : Db) (reservation : BudgetReservation)
  (work : WorkExecutionState) (action : ActionRequest) (binding : BudgetProfileBinding)
  (dynamic : DynamicReproductionLifecycleProfile) (previous : list BudgetUnits)
  : result unit :=
  let! preflight := resolve_db db (dp_preflight_budget_ref dynamic) false in
  match preflight with
  | RecWorkProfile preflight =>
      raise_if neqb (dp_preflight_budget_ref dynamic) (b_work_budget_profile_ref binding)
               || neqb (dp_preflight_budget_source dynamic) "WORK_REMAINING_TIME"
        with "BLOCKED waiting_for=BUDGET: preflight evidence unavailable" ;;
      let (kind, role) := operation (w_work_type work) action in
      let! limit := select_work_limit preflight (w_work_type work) kind role in
      match l_timeout_ms limit with
      | None => Err (ValueError "BLOCKED waiting_for=BUDGET: work timeout unavailable")
      | Some work_maximum =>
          let previous_elapsed := sum_of u_elapsed_ms previous in
          raise_if (work_maximum <=? previous_elapsed)
                   || (work_maximum - previous_elapsed
                         <? u_elapsed_ms (r_requested_units reservation))
            with "BUDGET_EXCEEDED: dynamic remaining time" ;;
          Ok tt
      end
  | _ => Err (ValueError "BLOCKED waiting_for=BUDGET: preflight evidence unavailable")
  end.

(** [check_hierarchy] *)
Definition check_hierarchy (db : Db) (reservation : BudgetReservation)
  (work : WorkExecutionState) (action : ActionRequest) (binding : BudgetProfileBinding)
  : result unit :=
  let! root := verification_root db work in
  let! profile := resolve_db db (b_verification_budget_profile_ref binding) false in
  let! dynamic := resolve_db db (b_dynamic_lifecycle_profile_ref binding) false in
  match profile, dynamic with
  | RecVerification profile, RecDynamic dynamic =>
      let! cause := transition_cause db work in
      let! run := get_run db (rm_analysis_id (w_meta work)) in
      let local_repair_extra :=
        if allows_local_manual_repair_scope (s_purpose run) (w_status work) cause
             (attempt_trigger db work)
        then LOCAL_MANUAL_REPAIR_ATTEMPTS else 0 in
      let start :=
        mkUsage [r_requested_units reservation] [r_requested_units reservation]
          (if eqb (q_action_type action) START_ATTEMPT then 1 else 0)
          (if is_evidence (w_work_type work) && mem (q_action_type action) EXTERNAL_ACTIONS
           then 1 else 0) in
      let! usage := fold_result (hierarchy_step db reservation work root) start
                      (live_reservations db (rm_analysis_id (w_meta work))) in
      do! (if is_some root then
             raise_if max_work_per_verification profile
                        <? sum_of u_work_count (h_scope_units usage)
               with "BUDGET_EXCEEDED: Verification work_count" ;;
             raise_if max_verification_elapsed_ms profile
                        <? sum_of u_elapsed_ms (h_scope_units usage)
               with "BUDGET_EXCEEDED: Verification elapsed_ms" ;;
             raise_if max_llm_calls_per_verification profile
                        <? sum_of u_llm_call_count (h_scope_units usage)
               with "BUDGET_EXCEEDED: Verification llm_call_count" ;;
             raise_if max_retries_per_work profile + local_repair_extra
                        <? sum_of u_retry_count (h_work_units usage)
               with "BUDGET_EXCEEDED: retries per work" ;;
             Ok tt
           else Ok tt) ;;
      raise_if max_parallel_evidence_calls profile <? h_evidence_calls usage
        with "BUDGET_EXCEEDED: parallel evidence calls" ;;
      raise_if eqb (w_work_type work) DYNAMIC_REPRO
               && (max_new_attempts dynamic + 1 + local_repair_extra <? h_attempts usage)
        with "BUDGET_EXCEEDED: dynamic attempts" ;;
      if eqb (w_work_type work) DYNAMIC_REPRO
      then check_dynamic_time db reservation work action binding dynamic
             (tail (h_work_units usage))
      else Ok tt
  | _, _ => Err AssertionError
  end.
End hierarchy.

(** ** Theorems *)

Section hierarchy_laws.
Context `{CodecLaws}.
Implicit Types (db : Db) (w : WorkExecutionState).

Definition parent_of db w p : Prop :=
  exists ref, w_parent_work_ref w = Some ref /\ resolve_db db ref false = Ok (RecWork p).

Lemma parent_fun db w p p' : parent_of db w p -> parent_of db w p' -> p = p'.
Proof. intros (ref & Hr & Hp) (ref' & Hr' & Hp'). congruence. Qed.

(** A well-formed store never exhausts the interpreter's stack. *)
Lemma resolve_no_recursion db (ref : RecordRef) c :
  db_wf db -> resolve_db db ref c <> Err RecursionError.
Proof.
  intros Hwf. unfold resolve_db, resolve.
  destruct (select_row _ _ _) as [row |] eqn:Hs; [| discriminate].
  apply select_row_Some in Hs. destruct Hs as [Hrow _].
  destruct (wf_rows _ Hwf _ _ Hrow) as (r & _ & Hh). destruct (negb _); [discriminate |].
  rewrite (row_decode _ _ Hh). destruct Hh as (_ & Href & _).
  pose proof (reference_hash _ _ Href) as Hh. simpl in Hh |- *. rewrite Hh. simpl.
  destruct (negb _); discriminate.
Qed.

(** The work ids of the stored works. *)
Definition stored_work (kv : string * Row) : option string :=
  match decode (row_kind kv.2) (row_payload kv.2) with
  | Ok (RecWork w) => Some (w_work_id w)
  | _ => None
  end.
Definition stored_works db : list string :=
  omap stored_work (map_to_list (records (db_store db))).

Lemma stored_works_length db : (length (stored_works db) <= size (records (db_store db)))%nat.
Proof.
  unfold stored_works. rewrite <- length_map_to_list. apply length_omap_le.
Qed.

Lemma resolved_stored db (ref : RecordRef) w :
  db_wf db -> resolve_db db ref false = Ok (RecWork w) -> w_work_id w ∈ stored_works db.
Proof.
  intros Hwf Hr. apply (resolve_Ok _ _ _ _ Hwf) in Hr. destruct Hr as (_ & row & Hs & Hh).
  apply select_row_Some in Hs. destruct Hs as [Hrow _].
  apply list_elem_of_omap. exists (record_id (rec_rev (RecWork w)), row).
  split; [apply elem_of_map_to_list; exact Hrow |].
  unfold stored_work. cbn [snd]. rewrite (row_decode _ _ Hh). reflexivity.
Qed.

Lemma root_loop_spec db id0 fuel seen w :
  db_wf db -> NoDup seen -> w_work_id w ∈ id0 :: stored_works db ->
  (forall id, id ∈ seen -> id ∈ id0 :: stored_works db) ->
  (size (records (db_store db)) + 2 <= fuel + length seen)%nat ->
  match root_loop fuel db seen w with
  | Ok (Some id) => exists v, rtc (parent_of db) w v /\ w_work_type v = VERIFICATION
                              /\ w_work_id v = id
  | Ok None => forall v, rtc (parent_of db) w v -> w_work_type v <> VERIFICATION
  | Err e => e <> RecursionError
  end.
Proof.
  intros Hwf. revert seen w. induction fuel as [| fuel IH]; intros seen w Hnd Hw Hseen Hfuel.
  - exfalso. assert (length seen <= length (id0 :: stored_works db))%nat.
    { apply submseteq_length, NoDup_submseteq; assumption. }
    pose proof (stored_works_length db). simpl in *. lia.
  - simpl. destruct (mem _ _) eqn:Hm; [discriminate |]. apply mem_false in Hm.
    case_bool_decide as Hv; [exists w; repeat split; auto; reflexivity |].
    destruct (w_parent_work_ref w) as [ref |] eqn:Hp.
    + destruct (resolve_db db ref false) as [r | e] eqn:Hr; simpl.
      * destruct r as [p | | | | | | | | | | | | | | | | | |]; try discriminate.
        assert (Hpar : parent_of db w p) by (exists ref; auto).
        specialize (IH (w_work_id w :: seen) p). simpl in IH.
        assert (Hstep : forall v, rtc (parent_of db) w v -> v = w \/ rtc (parent_of db) p v).
        { intros v Hrtc. inversion Hrtc as [| ? p' ? Hp' Hrest]; subst; [auto |].
          right. rewrite (parent_fun _ _ _ _ Hpar Hp'). exact Hrest. }
        destruct (root_loop fuel db (w_work_id w :: seen) p) as [[id |] | e].
        -- destruct IH as (v & Hrtc & Hvt & Hid); [constructor; auto | | | lia |].
           { right. eapply resolved_stored; eauto. }
           { intros id' Hin. apply elem_of_cons in Hin. destruct Hin as [-> | Hin]; auto. }
           exists v. split; [eapply rtc_l; eauto | auto].
        -- intros v Hrtc. destruct (Hstep v Hrtc) as [-> | Hrest]; [exact Hv |].
           revert v Hrtc Hrest. intros v _. apply IH; [constructor; auto | | | lia].
           { right. eapply resolved_stored; eauto. }
           { intros id' Hin. apply elem_of_cons in Hin. destruct Hin as [-> | Hin]; auto. }
        -- apply IH; [constructor; auto | | | lia].
           { right. eapply resolved_stored; eauto. }
           { intros id' Hin. apply elem_of_cons in Hin. destruct Hin as [-> | Hin]; auto. }
      * intros ->. eapply resolve_no_recursion; eauto.
    + intros v Hrtc. inversion Hrtc as [| ? p' ? (ref & Hr & _) _]; subst; congruence.
Qed.

(** The walk to the root Verification terminates, on cyclic ancestries
    too, and is exact: it returns the id of a VERIFICATION work among the work
    and its published ancestors, or [None] only when there is none. *)
Theorem verification_root_correct db w :
  db_wf db ->
  match verification_root db w with
  | Ok (Some id) => exists v, rtc (parent_of db) w v /\ w_work_type v = VERIFICATION
                              /\ w_work_id v = id
  | Ok None => forall v, rtc (parent_of db) w v -> w_work_type v <> VERIFICATION
  | Err e => e <> RecursionError
  end.
Proof.
  intros Hwf. apply (root_loop_spec db (w_work_id w)); [exact Hwf | constructor | left | |].
  - intros id Hin. inversion Hin.
  - unfold root_fuel. simpl. lia.
Qed.

(** *** The caps *)

(** What a live reservation is charged: its ledger entry's units once it has
    one, its requested units until then. *)
Definition charge db (r : BudgetReservation) : BudgetUnits :=
  match r_ledger_entry_ref r with
  | None => r_requested_units r
  | Some ref =>
      match resolve_db db ref false with
      | Ok (RecLedger e) => e_actual_units e
      | _ => r_requested_units r
      end
  end.

(** The live reservations, other than [r], that a predicate on works picks. *)
Definition charged db (r : BudgetReservation) (pick : WorkExecutionState -> bool)
  (rows : list ReservationRow) : list BudgetUnits :=
  omap (fun row =>
    if eqb (r_reservation_id (rr_payload row)) (r_reservation_id r) then None
    else match resolve_db db (r_work_ref (rr_payload row)) true with
         | Ok (RecWork w) => if pick w then Some (charge db (rr_payload row)) else None
         | _ => None
         end) rows.

Definition under db (root : option string) w : bool :=
  is_some root && eqb (verification_root db w) (Ok root).
Definition same_work w w' : bool := eqb (w_work_id w') (w_work_id w).

Lemma hierarchy_fold db r w root rows acc usage :
  fold_result (hierarchy_step db r w root) acc rows = Ok usage ->
  h_scope_units usage = h_scope_units acc ++ charged db r (under db root) rows
  /\ h_work_units usage = h_work_units acc ++ charged db r (same_work w) rows.
Proof.
  revert acc. induction rows as [| row rows IH]; intros acc Hf; simpl in Hf.
  - injection Hf as <-. rewrite !app_nil_r. auto.
  - apply rbind_Ok in Hf. destruct Hf as (acc' & Hstep & Hf). apply IH in Hf. clear IH.
    destruct Hf as [-> ->]. unfold charged. simpl. fold (charged db r).
    unfold hierarchy_step in Hstep. case_bool_decide as Hid; [injection Hstep as <-; auto |].
    apply rbind_Ok in Hstep. destruct Hstep as (ow & Hw & Hstep).
    rewrite Hw. destruct ow as [w' | | | | | | | | | | | | | | | | | |]; try discriminate.
    apply rbind_Ok in Hstep. destruct Hstep as (oa & _ & Hstep).
    apply rbind_Ok in Hstep. destruct Hstep as (ev & _ & Hstep).
    apply rbind_Ok in Hstep. destruct Hstep as (units & Hu & Hstep).
    apply rbind_Ok in Hstep. destruct Hstep as (scope & Hs & [= <-]).
    assert (units = charge db (rr_payload row)) as ->.
    { unfold charge. destruct (r_ledger_entry_ref (rr_payload row)) as [ref |].
      - apply rbind_Ok in Hu. destruct Hu as (e & He & Hu). rewrite He.
        destruct e; try discriminate. congruence.
      - congruence. }
    assert (scope = under db root w') as ->.
    { unfold under. destruct (is_some root); [| injection Hs as <-; reflexivity].
      apply rbind_Ok in Hs. destruct Hs as (root' & Hr & [= <-]). rewrite Hr. simpl.
      apply bool_decide_ext. split; congruence. }
    cbn [h_scope_units h_work_units]. unfold same_work at 2.
    destruct (under db root w'), (eqb (w_work_id w') (w_work_id w)); cbn;
      rewrite <- ?app_assoc; auto.
Qed.

(** The hierarchy check enforces its caps: a reservation it lets through
    fits, together with everything charged so far, under the work, time and LLM
    call limits of its root Verification and the retry limit of its work
    (with the manual-repair slots of local evaluation). *)
Theorem check_hierarchy_caps db r w q b root vp run cause :
  check_hierarchy db r w q b = Ok tt ->
  verification_root db w = Ok (Some root) ->
  resolve_db db (b_verification_budget_profile_ref b) false = Ok (RecVerification vp) ->
  get_run db (rm_analysis_id (w_meta w)) = Ok run -> transition_cause db w = Ok cause ->
  let live := live_reservations db (rm_analysis_id (w_meta w)) in
  let scope := r_requested_units r :: charged db r (under db (Some root)) live in
  let own := r_requested_units r :: charged db r (same_work w) live in
  sum_of u_work_count scope <= max_work_per_verification vp
  /\ sum_of u_elapsed_ms scope <= max_verification_elapsed_ms vp
  /\ sum_of u_llm_call_count scope <= max_llm_calls_per_verification vp
  /\ sum_of u_retry_count own
       <= max_retries_per_work vp
          + (if allows_local_manual_repair_scope (s_purpose run) (w_status w) cause
                  (attempt_trigger db w)
             then LOCAL_MANUAL_REPAIR_ATTEMPTS else 0).
Proof.
  intros Hc Hroot Hvp Hrun Hcause. unfold check_hierarchy in Hc.
  rewrite Hroot, Hvp, Hcause, Hrun in Hc. cbn [rbind] in Hc.
  apply rbind_Ok in Hc. destruct Hc as (dyn & _ & Hc). destruct dyn; try discriminate.
  cbn [rbind] in Hc. apply rbind_Ok in Hc. destruct Hc as (usage & Hf & Hc).
  apply rbind_Ok in Hc. destruct Hc as ([] & Hcaps & _).
  apply hierarchy_fold in Hf. destruct Hf as [Hs Hw]. cbn [h_scope_units h_work_units] in Hs, Hw.
  simpl in Hcaps. rewrite !raise_if_Ok in Hcaps. rewrite Hs, Hw in Hcaps.
  boolify. intuition.
Qed.
End hierarchy_laws.
