(* ===== verification/Ledger.v ===== *)
(** * The budget ledger

    [storage/budget_service.py]: reservations, usage commits and releases over
    the tables [budget_reservations] and [budget_ledger_entries], with the
    reservation checks of [storage/action_validator.py]. Each operation is one
    transaction: it returns the tables it commits, or the exception that rolls
    them back. *)
From S2P Require Import Prelude Records CanonicalJson Store Work Actions Budget Runtime.
From S2P Require Import Registry Hierarchy.

(** [UNIT_FIELDS] *)
Definition UNIT_FIELDS : list (BudgetUnits -> Z) :=
  [u_elapsed_ms; u_work_count; u_llm_call_count; u_retry_count; u_cost_minor_units].

(** [sum] and [max(..., default=0)] over the ledger *)
Definition max_sequence (entries : list BudgetLedgerEntry) : Z :=
  foldr (fun e n => Z.max (e_sequence e) n) 0 entries.

(** [LLM_ACTIONS] as [validate_operation] and [check_reservation] spell them. *)
Definition llm_actions : list ActionType :=
  [CALL_LLM; CALL_TECHNICAL_GATE; CALL_RULE_SCOPE_GATE; CREATE_REPORT_DRAFT].

Definition call_actions : list ActionType :=
  [RUN_TOOL; CALL_LLM; FETCH_POLICY; RUN_SANDBOX; READ_CODE; CALL_TECHNICAL_GATE;
   CALL_RULE_SCOPE_GATE; CREATE_REPORT_DRAFT].

Section ledger.
Context `{Codec} `{TrustedEvidence}.

Definition reserved_rows (db : Db) (analysis_id : string) : list BudgetReservation :=
  map rr_payload
    (filter (fun row => rr_analysis_id row = analysis_id /\ rr_status row = R_RESERVED)
       (budget_reservations db)).

Definition ledger_entries (db : Db) (analysis_id : string) : list BudgetLedgerEntry :=
  map lr_payload (filter (fun row => lr_analysis_id row = analysis_id)
                    (budget_ledger_entries db)).

(** [BudgetService.available] *)
Definition available (db : Db) (scope : BudgetScopeRef) (analysis_id : string)
  (exclude_reservation : option string) : result BudgetRemaining :=
  let! profile := execution db scope analysis_id in
  let reservations := reserved_rows db analysis_id in
  let entries := ledger_entries db analysis_id in
  let used :=
    map r_requested_units
      (filter (fun r => Some (r_reservation_id r) <> exclude_reservation) reservations)
    ++ map e_actual_units entries in
  let remaining f limit := Z.max 0 (limit - sum_of f used) in
  validate_remaining
    (mkRemaining scope (max_sequence entries)
       (mkUnits (remaining u_elapsed_ms (max_analysis_elapsed_ms profile))
                (remaining u_work_count (max_total_work profile))
                (remaining u_llm_call_count (max_total_llm_calls profile))
                (remaining u_retry_count (max_total_retries profile))
                (remaining u_cost_minor_units (max_total_cost_minor_units profile))
                (ep_currency profile))
       (Z.of_nat (length reservations))).

(** Whether some requested unit is above what remains. *)
Definition exceeds (requested remaining : BudgetUnits) : bool :=
  existsb (fun f => f remaining <? f requested) UNIT_FIELDS.

(** The items already admitted for the reservation's work. *)
Definition admitted_step (db : Db) (work : WorkExecutionState) (n : Z) (row : ReservationRow)
  : result Z :=
  let! prior := resolve_db db (r_work_ref (rr_payload row)) true in
  match prior with
  | RecWork w =>
      if eqb (w_work_id w) (w_work_id work) then
        match rr_item_count row with
        | None => Err (ValueError "BLOCKED waiting_for=BUDGET: item history unproven")
        | Some k => Ok (n + k)
        end
      else Ok n
  | _ => Ok n
  end.

(** The earlier reservations of the work for one of [kinds]. *)
Definition operation_step (db : Db) (reservation : BudgetReservation)
  (work : WorkExecutionState) (kinds : list ActionType) (n : Z) (row : ReservationRow)
  : result Z :=
  let other := rr_payload row in
  if eqb (r_reservation_id other) (r_reservation_id reservation) then Ok n
  else
    let! other_work := resolve_db db (r_work_ref other) true in
    let! other_action := resolve_db db (r_action_ref other) false in
    Ok (match other_work with
        | RecWork w =>
            if eqb (w_work_id w) (w_work_id work) && action_type_in other_action kinds
            then n + 1 else n
        | _ => n
        end).

(** The ceiling on the work's operations of the action's kind, and the kinds
    it counts. *)
Definition ceiling_of (limit : WorkBudgetLimit) (action : ActionRequest)
  : option Z * list ActionType :=
  if eqb (q_action_type action) START_ATTEMPT then (l_max_attempts limit, [START_ATTEMPT])
  else if mem (q_action_type action) call_actions
       then (l_max_calls_per_work limit, call_actions)
       else (None, []).

Definition repaired_ceiling (run : AnalysisRunState) (work : WorkExecutionState)
  (action : ActionRequest) (cause : option string) (trigger : option AttemptTrigger)
  (ceiling : option Z) : option Z :=
  match ceiling with
  | None => None
  | Some c =>
      if eqb (q_action_type action) START_ATTEMPT then
        Some (if allows_local_manual_repair_attempt (s_purpose run) (q_action_type action)
                   (q_reason action) (w_status work) cause None
              then c + LOCAL_MANUAL_REPAIR_ATTEMPTS else c)
      else Some (c + local_manual_repair_call_allowance (s_purpose run) (q_action_type action)
                       (w_status work) cause trigger)
  end.

(** The part of [validate_operation] for work under a binding: item
    admission, operation ceiling and timeout. *)
Definition validate_work_limit (db : Db) (reservation : BudgetReservation)
  (work : WorkExecutionState) (action : ActionRequest) (scope : BudgetProfileBinding)
  : result unit :=
  let! profile := resolve_db db (b_work_budget_profile_ref scope) false in
  match profile with
  | RecWorkProfile profile =>
      let (kind, role) := operation (w_work_type work) action in
      let! limit := select_work_limit profile (w_work_type work) kind role in
      match l_max_items_per_work limit, item_count action work with
      | Some max_items, Some count_items =>
          raise_if count_items <? 0
            with "BLOCKED waiting_for=BUDGET: trusted item admission unavailable" ;;
          raise_if max_items <? count_items with "BUDGET_EXCEEDED: work items" ;;
          let live := live_reservations db (rm_analysis_id (w_meta work)) in
          let! admitted := fold_result (admitted_step db work) count_items
              (filter (fun row => rr_reservation_id row <> r_reservation_id reservation) live) in
          raise_if max_items <? admitted with "BUDGET_EXCEEDED: cumulative work items" ;;
          let (ceiling, kinds) := ceiling_of limit action in
          let! cause := transition_cause db work in
          let! run := get_run db (rm_analysis_id (w_meta work)) in
          let ceiling := repaired_ceiling run work action cause (attempt_trigger db work)
                           ceiling in
          do! (if nonempty kinds then
                 match ceiling with
                 | None => Err (ValueError "BUDGET unavailable: operation limit is unspecified")
                 | Some ceiling =>
                     let! count := fold_result (operation_step db reservation work kinds) 0 live in
                     raise_if ceiling <=? count with "BUDGET_EXCEEDED: work operation limit" ;;
                     Ok tt
                 end
               else Ok tt) ;;
          raise_if match l_timeout_ms limit with
                   | Some t => t <? u_elapsed_ms (r_requested_units reservation)
                   | None => false
                   end
            with "BUDGET_EXCEEDED: work timeout" ;;
          Ok tt
      | _, _ => Err (ValueError "BLOCKED waiting_for=BUDGET: trusted item admission unavailable")
      end
  | _ => Err AssertionError
  end.

(** The units an external action must have left and must request. *)
Definition applicable_units (action : ActionRequest) : list (BudgetUnits -> Z) :=
  [u_elapsed_ms; u_cost_minor_units]
  ++ if mem (q_action_type action) llm_actions then [u_llm_call_count] else [].

Definition exhausted (units : BudgetUnits) (fields : list (BudgetUnits -> Z)) : bool :=
  existsb (fun f => f units <=? 0) fields.

(** [BudgetService.validate_operation] *)
Definition validate_operation (db : Db) (reservation : BudgetReservation)
  (work : WorkExecutionState) (action : ActionRequest) : result unit :=
  let analysis_id := rm_analysis_id (w_meta work) in
  let binding_ref := r_budget_binding_ref reservation in
  let requested := r_requested_units reservation in
  let! remaining := available db binding_ref analysis_id (Some (r_reservation_id reservation)) in
  raise_if exceeds requested (m_available_units remaining)
    with "BUDGET_EXCEEDED: requested capacity no longer fits" ;;
  raise_if mem (q_action_type action) [REGISTER_WORK; START_ATTEMPT]
           && exhausted (m_available_units remaining)
                [u_elapsed_ms; u_cost_minor_units; u_llm_call_count; u_work_count]
    with "BUDGET_EXCEEDED: executable capacity exhausted" ;;
  let! scope := resolve_db db binding_ref false in
  do! match scope with
      | RecBinding b =>
          do! validate_binding db b ;; check_hierarchy db reservation work action b
      | _ => Ok tt
      end ;;
  do! (if mem (q_action_type action) EXTERNAL_ACTIONS then
         let! profile := execution db binding_ref analysis_id in
         let! remaining := available db binding_ref analysis_id
                             (Some (r_reservation_id reservation)) in
         raise_if exhausted (m_available_units remaining) (applicable_units action)
           with "BUDGET_EXCEEDED: execution capacity exhausted" ;;
         raise_if negb (pricing profile) || exhausted requested (applicable_units action)
           with "BLOCKED waiting_for=BUDGET: positive execution/pricing proof required" ;;
         Ok tt
       else Ok tt) ;;
  if eqb (w_work_type work) WORKSPACE_PREP then
    match scope with
    | RecBinding _ => Err (ValueError "BUDGET bootstrap requires run execution profile")
    | _ => Ok tt
    end
  else
    match scope with
    | RecBinding b => validate_work_limit db reservation work action b
    | _ => Err (ValueError "BUDGET requires full ACTIVE binding")
    end.

Definition find_reservation (db : Db) (id : string) : option ReservationRow :=
  find (fun row => eqb (rr_reservation_id row) id) (budget_reservations db).

(** [insert(budget_reservations)] under its unique [action_id]. *)
Definition insert_reservation (db : Db) (row : ReservationRow) : result Db :=
  if mem (rr_reservation_id row) (map rr_reservation_id (budget_reservations db))
     || mem (rr_action_id row) (map rr_action_id (budget_reservations db))
  then Err IntegrityError
  else Ok (set_reservations db (budget_reservations db ++ [row])).

(** [BudgetService.reserve] *)
Definition reserve (db : Db) (request : BudgetReservation) : result (BudgetReservation * Db) :=
  let! reservation := validate_reservation request in
  match find_reservation db (r_reservation_id reservation) with
  | Some existing =>
      let! initial := resolve_db db (rr_initial_ref existing) false in
      match initial with
      | RecReservation initial =>
          raise_if neqb initial reservation with "Reservation identity mismatch" ;;
          Ok (rr_payload existing, db)
      | _ => Err (ValueError "Reservation identity mismatch")
      end
  | None =>
      raise_if neqb (r_status reservation) R_RESERVED with "New reservation must be RESERVED" ;;
      let! work := resolve_db db (r_work_ref reservation) true in
      let! action := resolve_db db (r_action_ref reservation) true in
      let analysis_id := rm_analysis_id (r_meta reservation) in
      match work with
      | RecWork work =>
          raise_if neqb (rm_analysis_id (w_meta work)) analysis_id
                   || neqb (meta_analysis_id (rec_metadata action)) (Some analysis_id)
            with "BUDGET analysis/work mismatch" ;;
          match action with
          | RecAction action =>
              let! db := publish_db db (r_action_ref reservation) in
              do! validate_operation db reservation work action ;;
              let! remaining := available db (r_budget_binding_ref reservation) analysis_id None in
              raise_if neqb (u_currency (r_requested_units reservation))
                            (u_currency (m_available_units remaining))
                with "BUDGET currency unavailable" ;;
              raise_if exceeds (r_requested_units reservation) (m_available_units remaining)
                with "BUDGET_EXCEEDED" ;;
              let! (ref, db) := stage_publish db (RecReservation reservation) in
              let row :=
                mkReservationRow (r_reservation_id reservation) analysis_id
                  (ref_key (r_action_ref reservation)) (r_status reservation) reservation ref
                  false (item_count action work) in
              let! db := insert_reservation db row in
              Ok (reservation, db)
          | _ => Err (ValueError "BUDGET requires exact action")
          end
      | _ => Err (ValueError "BUDGET analysis/work mismatch")
      end
  end.

(** [update(budget_reservations).where(reservation_id == id)] *)
Definition update_reservation (db : Db) (id : string) (f : ReservationRow -> ReservationRow) : Db :=
  set_reservations db
    (map (fun row => if eqb (rr_reservation_id row) id then f row else row)
       (budget_reservations db)).

(** [.values(status=current.status.value, payload=encode(current))] *)
Definition settle (current : BudgetReservation) (row : ReservationRow) : ReservationRow :=
  mkReservationRow (rr_reservation_id row) (rr_analysis_id row) (rr_action_id row)
    (r_status current) current (rr_initial_ref row) (rr_claimed row) (rr_item_count row).

(** [.values(claimed=1)] *)
Definition mark_claimed (row : ReservationRow) : ReservationRow :=
  mkReservationRow (rr_reservation_id row) (rr_analysis_id row) (rr_action_id row)
    (rr_status row) (rr_payload row) (rr_initial_ref row) true (rr_item_count row).

(** [BudgetService.finalize] *)
Definition finalize (db : Db) (previous current : BudgetReservation) : result Db :=
  do! validate_reservation_revision previous current ;;
  let! (_, db) := stage_publish db (RecReservation current) in
  Ok (update_reservation db (r_reservation_id current) (settle current)).

(** [.values(claimed=0)] *)
Definition mark_unclaimed (row : ReservationRow) : ReservationRow :=
  mkReservationRow (rr_reservation_id row) (rr_analysis_id row) (rr_action_id row)
    (rr_status row) (rr_payload row) (rr_initial_ref row) false (rr_item_count row).

(** What [lease_recovery.retire_undispatched] does to a reservation whose
    effect was never performed. *)
Definition retire (db : Db) (reservation released : BudgetReservation) : result Db :=
  let! db := finalize db reservation released in
  Ok (update_reservation db (r_reservation_id reservation) mark_unclaimed).

Definition find_entry (db : Db) (reservation_id : string) : option LedgerRow :=
  find (fun row => eqb (lr_reservation_id row) reservation_id) (budget_ledger_entries db).

(** [insert(budget_ledger_entries)] under its keys. *)
Definition insert_entry (db : Db) (row : LedgerRow) : result Db :=
  if mem (lr_ledger_entry_id row) (map lr_ledger_entry_id (budget_ledger_entries db))
     || mem (lr_reservation_id row) (map lr_reservation_id (budget_ledger_entries db))
     || mem (lr_analysis_id row, lr_sequence row)
            (map (fun r => (lr_analysis_id r, lr_sequence r)) (budget_ledger_entries db))
  then Err IntegrityError
  else Ok (set_ledger db (budget_ledger_entries db ++ [row])).

(** The finalized revision [commit_usage] and [retire_undispatched] write,
    with the fresh record id, the clock at [next_meta] and at [finalized_at]. *)
Definition finalized_reservation (r : BudgetReservation) (id : string) (meta_now now : Z)
  (status : ReservationStatus) (entry : option BudgetScopeRef) : result BudgetReservation :=
  let! meta := next_meta (r_meta r) id meta_now in
  validate_reservation
    (mkReservation meta (r_reservation_id r) (r_budget_binding_ref r) (r_action_ref r)
       (r_work_ref r) (r_requested_units r) status entry (r_reserved_at r) (Some now)).

(** A staged record's reference as a budget scope reference. *)
Definition scope_of (ref : RecordRef) : option BudgetScopeRef :=
  match ref with RRun r => Some (BRun r) | RStored r => Some (BStored r) | _ => None end.

Definition check_usage (db : Db) (analysis_id : string) (usage : BudgetScopeRef) : result unit :=
  let! resolved := resolve_db db usage false in
  raise_if neqb (meta_analysis_id (rec_metadata resolved)) (Some analysis_id)
    with "Usage analysis mismatch" ;;
  Ok tt.

(** [BudgetService.commit_usage] *)
Definition commit_usage (db : Db) (request : BudgetLedgerEntry) (id : string) (meta_now now : Z)
  : result (BudgetLedgerEntry * Db) :=
  let! entry := validate_ledger_entry request in
  let! initial := resolve_db db (e_reservation_ref entry) false in
  match initial with
  | RecReservation initial =>
      let reservation_id := r_reservation_id initial in
      match find_entry db reservation_id with
      | Some old =>
          raise_if neqb (lr_payload old) entry
            with "Duplicate debit differs from committed usage" ;;
          Ok (lr_payload old, db)
      | None =>
          match find_reservation db reservation_id with
          | None => Err NoResultFound
          | Some row =>
              let reservation := rr_payload row in
              let analysis_id := rm_analysis_id (e_meta entry) in
              raise_if neqb (r_status reservation) R_RESERVED
                with "Reservation already finalized" ;;
              raise_if neqb (e_budget_binding_ref entry) (r_budget_binding_ref reservation)
                       || neqb (e_action_ref entry) (r_action_ref reservation)
                       || neqb (e_work_ref entry) (r_work_ref reservation)
                with "Ledger scope mismatch" ;;
              raise_if neqb analysis_id (rm_analysis_id (r_meta reservation))
                       || neqb (u_currency (e_actual_units entry))
                               (u_currency (r_requested_units reservation))
                with "Ledger analysis/currency mismatch" ;;
              let! remaining := available db (e_budget_binding_ref entry) analysis_id None in
              raise_if neqb (e_sequence entry) (m_as_of_sequence remaining + 1)
                with "Ledger sequence must be consecutive" ;;
              do! for_each (check_usage db analysis_id) (e_usage_refs entry) ;;
              let! (ref, db) := stage_publish db (RecLedger entry) in
              let! finalized :=
                finalized_reservation reservation id meta_now now R_COMMITTED (scope_of ref) in
              let! db := finalize db reservation finalized in
              let! db := insert_entry db
                  (mkLedgerRow (e_ledger_entry_id entry) reservation_id analysis_id
                     (e_sequence entry) entry) in
              Ok (entry, db)
          end
      end
  | _ => Err (ValueError "Expected exact reservation")
  end.

(** [BudgetService.release] *)
Definition release (db : Db) (request : BudgetReservation) : result (BudgetReservation * Db) :=
  let! release := validate_reservation request in
  match find_reservation db (r_reservation_id release) with
  | None => Err NoResultFound
  | Some row =>
      let previous := rr_payload row in
      if neqb (r_status previous) R_RESERVED then Ok (previous, db)
      else
        raise_if rr_claimed row || neqb (r_status release) R_RELEASED
          with "BUDGET: cannot release uncertain or used reservation" ;;
        let! db := finalize db previous release in
        Ok (release, db)
  end.

(** [RuntimeValidator.check_reservation] *)
Definition check_reservation (db : Db) (ref : option RecordRef) (action : ActionRequest)
  (work : WorkExecutionState) (allow_claimed : bool) : result BudgetReservation :=
  match ref with
  | None => Err (ValueError "BUDGET reservation required")
  | Some ref =>
      let! r := resolve_db db ref false in
      match r with
      | RecReservation reservation =>
          raise_if eqb (q_action_type action) REGISTER_WORK
                   && (u_work_count (r_requested_units reservation) <? 1)
            with "BUDGET reservation must include the new work" ;;
          raise_if mem (q_action_type action) llm_actions
                   && (u_llm_call_count (r_requested_units reservation) <? 1)
            with "BUDGET reservation must include the LLM call" ;;
          raise_if match find_reservation db (r_reservation_id reservation) with
                   | None => true
                   | Some row => neqb (rr_status row) R_RESERVED
                                 || (rr_claimed row && negb allow_claimed)
                   end
            with "BUDGET reservation is unavailable or already claimed" ;;
          let! action_ref := reference (RecAction action) in
          let! work_ref := reference (RecWork work) in
          raise_if neqb (scope_ref (r_action_ref reservation)) action_ref
                   || neqb (scope_ref (r_work_ref reservation)) work_ref
                   || neqb (rm_analysis_id (r_meta reservation)) (rm_analysis_id (w_meta work))
            with "BUDGET reservation action/work mismatch" ;;
          let! _ := execution db (r_budget_binding_ref reservation)
                      (rm_analysis_id (w_meta work)) in
          do! validate_operation db reservation work action ;;
          Ok reservation
      | _ => Err (ValueError "BUDGET reservation required")
      end
  end.

(** The [needs_budget] part of [RuntimeValidator.claim]: the reservation is
    checked and marked claimed. *)
Definition claim_reservation (db : Db) (ref : option RecordRef) (action : ActionRequest)
  (work : WorkExecutionState) : result (BudgetReservation * Db) :=
  let! reservation := check_reservation db ref action work false in
  Ok (reservation, update_reservation db (r_reservation_id reservation) mark_claimed).
End ledger.

(** ** Store effects *)

Section effects.
Context `{CodecLaws} `{TrustedEvidence}.
Implicit Types (db : Db).

(** [db'] is [db] with a store some stagings and publications further. *)
Definition store_grown db db' : Prop :=
  exists s, db' = set_store db s /\ rtc (store_step (R := Rec)) (db_store db) s.

#[export] Instance store_grown_preorder : PreOrder store_grown.
Proof.
  split.
  - intros db. exists (db_store db). destruct db. split; [reflexivity | constructor].
  - intros db1 db2 db3 (s & -> & Hs) (s' & -> & Hs'). exists s'.
    split; [reflexivity |]. simpl in Hs'. etransitivity; eauto.
Qed.

Lemma store_grown_wf db db' : store_grown db db' -> db_wf db -> db_wf db'.
Proof. intros (s & -> & Hs). apply store_steps_wf, Hs. Qed.

Lemma resolve_grown db db' ref c r :
  db_wf db -> rtc (store_step (R := Rec)) (db_store db) (db_store db') ->
  resolve_db db ref c = Ok r -> resolve_db db' ref c = Ok r.
Proof.
  intros Hwf Hs. destruct (store_steps_mono _ _ Hwf Hs) as [Hr Hv].
  apply resolve_mono; auto. exact (store_steps_wf _ _ Hs Hwf).
Qed.

Lemma publish_db_Ok db ref db' : publish_db db ref = Ok db' -> store_grown db db'.
Proof.
  unfold publish_db. intros Hp. unguard Hp. injection Hp as <-.
  exists x. split; [reflexivity |]. apply rtc_once. eapply step_publish; eauto.
Qed.

Lemma stage_publish_Ok db (r : Rec) ref db' :
  stage_publish db r = Ok (ref, db') -> store_grown db db'.
Proof.
  unfold stage_publish, stage_db. intros Hp.
  destruct (stage (db_store db) r) as [[ref0 s0] |] eqn:Hs; [| discriminate]. simpl in Hp.
  destruct (publish_db _ ref0) as [db1 |] eqn:Hpub; [| discriminate]. simpl in Hp.
  injection Hp as <- <-. apply publish_db_Ok in Hpub. etransitivity; [| exact Hpub].
  exists s0. split; [reflexivity |]. apply rtc_once. eapply step_stage; eauto.
Qed.

Lemma stage_publish_resolved db r ref db' :
  db_wf db -> stage_publish db r = Ok (ref, db') ->
  reference r = Ok ref /\ resolve_db db' ref false = Ok r.
Proof.
  unfold stage_publish, stage_db. intros Hwf Hp.
  destruct (stage (db_store db) r) as [[ref0 s0] |] eqn:Hs; [| discriminate]. simpl in Hp.
  destruct (publish_db _ ref0) as [db1 |] eqn:Hpub; [| discriminate]. simpl in Hp.
  injection Hp as <- <-. unfold publish_db in Hpub. simpl in Hpub.
  destruct (publish s0 ref0) as [s1 |] eqn:Hps; [| discriminate]. injection Hpub as <-.
  pose proof (stage_wf _ _ _ _ Hwf Hs) as Hwf0. pose proof (publish_wf _ _ _ Hwf0 Hps) as Hwf1.
  destruct (stage_Ok _ _ _ _ Hwf Hs) as (row & Hh & Hrow & _ & Hrec & _).
  assert (Href : reference r = Ok ref0) by (rewrite <- Hrow; apply Hh).
  split; [exact Href |]. apply (resolve_published _ _ _ Hwf1). split; [exact Href |].
  apply (publish_published _ _ _ _ Hwf0 Hps). right. split; [exact Href |].
  exists row. rewrite Hrec, lookup_insert_eq. auto.
Qed.

(** *** What each operation did when it returned *)

Lemma validate_reservation_Ok r r' :
  validate_reservation r = Ok r' -> r' = r /\ units_fields (r_requested_units r) = true
    /\ reservation_shape r = Ok tt.
Proof.
  unfold validate_reservation. intros Hv. unguard Hv. injection Hv as <-.
  apply negb_false_iff, andb_true_iff in G. tauto.
Qed.

Lemma validate_entry_Ok e e' :
  validate_ledger_entry e = Ok e' -> e' = e /\ units_fields (e_actual_units e) = true
    /\ 1 <= e_sequence e.
Proof.
  unfold validate_ledger_entry. intros Hv. unguard Hv. injection Hv as <-.
  apply negb_false_iff in G. rewrite !andb_true_iff in G. destruct G as [[_ Hu] Hs].
  unfold PositiveInt in Hs. split; [reflexivity |]. split; [exact Hu | lia].
Qed.

Lemma reservation_revision_Ok p c :
  validate_reservation_revision p c = Ok tt ->
  r_status p = R_RESERVED /\ r_status c <> R_RESERVED
  /\ r_reservation_id c = r_reservation_id p /\ r_requested_units c = r_requested_units p
  /\ rm_analysis_id (r_meta c) = rm_analysis_id (r_meta p)
  /\ r_action_ref c = r_action_ref p /\ r_work_ref c = r_work_ref p
  /\ r_budget_binding_ref c = r_budget_binding_ref p.
Proof.
  unfold validate_reservation_revision. intros Hv. unguard Hv.
  apply validate_revision_Ok in E. simpl in E. boolify. intuition congruence.
Qed.


Lemma reserve_Ok db r r' db' :
  reserve db r = Ok (r', db') ->
  units_fields (r_requested_units r) = true
  /\ ((exists row, find_reservation db (r_reservation_id r) = Some row /\ db' = db
         /\ r' = rr_payload row
         /\ resolve_db db (rr_initial_ref row) false = Ok (RecReservation r))
      \/ (find_reservation db (r_reservation_id r) = None /\ r' = r
          /\ r_status r = R_RESERVED
          /\ exists db1 db2 m ref items,
               store_grown db db1
               /\ available db1 (r_budget_binding_ref r) (rm_analysis_id (r_meta r)) None = Ok m
               /\ exceeds (r_requested_units r) (m_available_units m) = false
               /\ stage_publish db1 (RecReservation r) = Ok (ref, db2)
               /\ insert_reservation db2
                    (mkReservationRow (r_reservation_id r) (rm_analysis_id (r_meta r))
                       (ref_key (r_action_ref r)) R_RESERVED r ref false items) = Ok db')).
Proof.
  unfold reserve. intros Hr. apply rbind_Ok in Hr. destruct Hr as (v & Hv & Hr).
  apply validate_reservation_Ok in Hv. destruct Hv as (-> & Hu & _). split; [exact Hu |].
  destruct (find_reservation db (r_reservation_id r)) as [row |] eqn:Hf.
  - left. exists row. apply rbind_Ok in Hr. destruct Hr as (i & Hi & Hr).
    destruct i; try discriminate. unguard Hr. injection Hr as <- <-. boolify.
    subst. auto.
  - right. unguard Hr. destruct x; try discriminate. unguard Hr.
    destruct x0; try discriminate. unguard Hr. destruct x1 as [ref db2]. unguard Hr.
    injection Hr as <- <-. rename E5 into Hins. boolify. rewrite G in Hins.
    do 3 (split; [auto |]). exists x, db2, x0, ref, (item_count q w).
    split; [eapply publish_db_Ok; eauto |]. auto.
Qed.

Lemma finalize_Ok db p c db' :
  finalize db p c = Ok db' ->
  validate_reservation_revision p c = Ok tt
  /\ exists db1, store_grown db db1
       /\ db' = update_reservation db1 (r_reservation_id c) (settle c).
Proof.
  unfold finalize. intros Hf. unguard Hf. destruct x as [ref db1]. injection Hf as <-.
  split; [reflexivity |]. exists db1. split; [eapply stage_publish_Ok; eauto | reflexivity].
Qed.

Lemma retire_Ok db p c db' :
  retire db p c = Ok db' ->
  validate_reservation_revision p c = Ok tt
  /\ exists db1, store_grown db db1
       /\ db' = update_reservation
                  (update_reservation db1 (r_reservation_id c) (settle c))
                  (r_reservation_id c) mark_unclaimed.
Proof.
  unfold retire. intros Hr. apply rbind_Ok in Hr. destruct Hr as (db2 & Hf & Hr).
  injection Hr as <-. apply finalize_Ok in Hf. destruct Hf as (Hv & db1 & Hg & ->).
  split; [exact Hv |]. exists db1. split; [exact Hg |].
  apply reservation_revision_Ok in Hv. destruct Hv as (_ & _ & -> & _). reflexivity.
Qed.

Lemma finalized_reservation_Ok r id t1 t2 st entry r' :
  finalized_reservation r id t1 t2 st entry = Ok r' -> r_status r' = st.
Proof.
  unfold finalized_reservation. intros Hf. unguard Hf.
  apply validate_reservation_Ok in Hf. destruct Hf as (-> & _). reflexivity.
Qed.

Lemma commit_usage_Ok db e id t1 t2 e' db' :
  commit_usage db e id t1 t2 = Ok (e', db') ->
  e' = e /\ units_fields (e_actual_units e) = true /\ 1 <= e_sequence e
  /\ exists initial, resolve_db db (e_reservation_ref e) false = Ok (RecReservation initial)
     /\ ((exists old, find_entry db (r_reservation_id initial) = Some old
            /\ lr_payload old = e /\ db' = db)
         \/ (find_entry db (r_reservation_id initial) = None
             /\ exists row m db1 fin,
                  find_reservation db (r_reservation_id initial) = Some row
                  /\ rm_analysis_id (e_meta e) = rm_analysis_id (r_meta (rr_payload row))
                  /\ available db (e_budget_binding_ref e) (rm_analysis_id (e_meta e)) None = Ok m
                  /\ e_sequence e = m_as_of_sequence m + 1
                  /\ validate_reservation_revision (rr_payload row) fin = Ok tt
                  /\ r_status fin = R_COMMITTED
                  /\ store_grown db db1
                  /\ insert_entry (update_reservation db1 (r_reservation_id fin) (settle fin))
                       (mkLedgerRow (e_ledger_entry_id e) (r_reservation_id initial)
                          (rm_analysis_id (e_meta e)) (e_sequence e) e) = Ok db')).
Proof.
  unfold commit_usage. intros Hc. apply rbind_Ok in Hc. destruct Hc as (v & Hv & Hc).
  apply validate_entry_Ok in Hv. destruct Hv as (-> & Hu & Hseq).
  apply rbind_Ok in Hc. destruct Hc as (i & Hi & Hc). destruct i as [| | | | | | r | | | | | | | | | | | |];
    try discriminate.
  destruct (find_entry db (r_reservation_id r)) as [old |] eqn:Hf.
  - unguard Hc. injection Hc as <- <-. boolify. repeat split; auto.
    exists r. split; [exact Hi |]. left. exists old. auto.
  - destruct (find_reservation db (r_reservation_id r)) as [row |] eqn:Hrow; [| discriminate].
    unguard Hc. destruct x0 as [ref db1]. unguard Hc. injection Hc as <- <-. boolify.
    match goal with Hx : finalize _ _ _ = Ok _, Hy : insert_entry _ _ = Ok _ |- _ =>
      apply finalize_Ok in Hx; destruct Hx as (Hrev & db2 & Hg & ->); rename Hy into Hins
    end. repeat split; auto. exists r. split; [exact Hi |]. right.
    split; [exact Hf |]. exists row, x, db2, x0. repeat split; auto; try tauto.
    + eapply finalized_reservation_Ok; eauto.
    + etransitivity; [| exact Hg]. eapply stage_publish_Ok; eauto.
Qed.

Lemma release_Ok db r r' db' :
  release db r = Ok (r', db') ->
  exists row, find_reservation db (r_reservation_id r) = Some row
    /\ ((r_status (rr_payload row) <> R_RESERVED /\ r' = rr_payload row /\ db' = db)
        \/ (rr_claimed row = false /\ r' = r /\ r_status r = R_RELEASED
            /\ validate_reservation_revision (rr_payload row) r = Ok tt
            /\ exists db1, store_grown db db1
                 /\ db' = update_reservation db1 (r_reservation_id r) (settle r))).
Proof.
  unfold release. intros Hr. apply rbind_Ok in Hr. destruct Hr as (v & Hv & Hr).
  apply validate_reservation_Ok in Hv. destruct Hv as (-> & _).
  destruct (find_reservation db _) as [row |] eqn:Hf; [| discriminate]. exists row.
  split; [reflexivity |]. destruct (negb _) eqn:Hst in Hr.
  - injection Hr as <- <-. left. boolify. auto.
  - unguard Hr. injection Hr as <- <-. apply finalize_Ok in E. destruct E as (Hrev & Hdb).
    right. boolify. tauto.
Qed.

Lemma claim_reservation_Ok db ref q w r db' :
  claim_reservation db ref q w = Ok (r, db') ->
  db' = update_reservation db (r_reservation_id r) mark_claimed
  /\ exists row, find_reservation db (r_reservation_id r) = Some row
       /\ rr_status row = R_RESERVED /\ rr_claimed row = false.
Proof.
  unfold claim_reservation. intros Hc. unguard Hc. injection Hc as <- <-.
  split; [reflexivity |]. unfold check_reservation in E.
  destruct ref as [ref |]; [| discriminate]. unguard E. destruct x0; try discriminate.
  unguard E. injection E as <-.
  destruct (find_reservation db _) as [row |]; [| discriminate]. exists row.
  split; [reflexivity |]. boolify. destruct G1 as [G1 G1'].
  destruct (rr_claimed row); auto.
Qed.

(** *** Rows by id *)

Definition keeps_id (g : ReservationRow -> ReservationRow) : Prop :=
  forall row, rr_reservation_id (g row) = rr_reservation_id row.

Lemma settle_id c : keeps_id (settle c).
Proof. intros row. reflexivity. Qed.
Lemma mark_claimed_id : keeps_id mark_claimed.
Proof. intros row. reflexivity. Qed.
Lemma mark_unclaimed_id : keeps_id mark_unclaimed.
Proof. intros row. reflexivity. Qed.

Lemma find_reservation_Some db id row :
  find_reservation db id = Some row ->
  row ∈ budget_reservations db /\ rr_reservation_id row = id.
Proof.
  intros Hf. apply find_some in Hf. destruct Hf as [Hin Hid]. boolify.
  rewrite <- list_elem_of_In in Hin. auto.
Qed.

Lemma find_reservation_None db id :
  find_reservation db id = None -> id ∉ map rr_reservation_id (budget_reservations db).
Proof.
  unfold find_reservation. induction (budget_reservations db) as [| row rows IH]; simpl.
  - intros _ Hin. inversion Hin.
  - case_bool_decide as Hid; [discriminate |]. intros Hf Hin.
    apply elem_of_cons in Hin. destruct Hin as [-> | Hin]; [congruence | exact (IH Hf Hin)].
Qed.

Lemma find_reservation_elem db row :
  NoDup (map rr_reservation_id (budget_reservations db)) -> row ∈ budget_reservations db ->
  find_reservation db (rr_reservation_id row) = Some row.
Proof.
  unfold find_reservation. induction (budget_reservations db) as [| r rows IH]; simpl;
    intros Hnd Hin; [inversion Hin |].
  apply NoDup_cons in Hnd. destruct Hnd as [Hr Hnd]. apply elem_of_cons in Hin.
  case_bool_decide as Hid.
  - destruct Hin as [-> | Hin]; [reflexivity |]. exfalso. apply Hr. rewrite Hid.
    apply list_elem_of_fmap_2. exact Hin.
  - destruct Hin as [-> | Hin]; [congruence | auto].
Qed.

Lemma update_ids db id g :
  keeps_id g ->
  map rr_reservation_id (budget_reservations (update_reservation db id g))
  = map rr_reservation_id (budget_reservations db).
Proof.
  intros Hg. simpl. rewrite map_map. apply map_ext. intros row.
  case_bool_decide; [apply Hg | reflexivity].
Qed.

Lemma find_update db id g id' :
  keeps_id g ->
  find_reservation (update_reservation db id g) id'
  = if eqb id id' then g <$> find_reservation db id' else find_reservation db id'.
Proof.
  intros Hg. unfold find_reservation. simpl.
  induction (budget_reservations db) as [| row rows IH]; simpl; [case_bool_decide; reflexivity |].
  destruct (decide (rr_reservation_id row = id)) as [Hrow | Hrow];
    [rewrite (bool_decide_eq_true_2 _ Hrow), Hg | rewrite (bool_decide_eq_false_2 _ Hrow)];
    destruct (decide (rr_reservation_id row = id')) as [Hid | Hid];
    [rewrite !(bool_decide_eq_true_2 _ Hid) | rewrite !(bool_decide_eq_false_2 _ Hid); exact IH
    | rewrite !(bool_decide_eq_true_2 _ Hid) | rewrite !(bool_decide_eq_false_2 _ Hid); exact IH].
  - rewrite bool_decide_eq_true_2 by congruence. reflexivity.
  - rewrite bool_decide_eq_false_2 by congruence. reflexivity.
Qed.

Lemma elem_update db id g row :
  row ∈ budget_reservations (update_reservation db id g) ->
  exists row0, row0 ∈ budget_reservations db
    /\ row = if eqb (rr_reservation_id row0) id then g row0 else row0.
Proof.
  simpl. intros Hin. apply list_elem_of_fmap in Hin. destruct Hin as (row0 & -> & Hin). eauto.
Qed.

Lemma insert_reservation_Ok db row db' :
  insert_reservation db row = Ok db' ->
  (rr_reservation_id row ∉ map rr_reservation_id (budget_reservations db))
  /\ db' = set_reservations db (budget_reservations db ++ [row]).
Proof.
  unfold insert_reservation. destruct (_ || _) eqn:Hd; [discriminate |]. intros [= <-].
  boolify. tauto.
Qed.

Lemma insert_entry_Ok db row db' :
  insert_entry db row = Ok db' ->
  (lr_reservation_id row ∉ map lr_reservation_id (budget_ledger_entries db))
  /\ db' = set_ledger db (budget_ledger_entries db ++ [row]).
Proof.
  unfold insert_entry. destruct (_ || _) eqn:Hd; [discriminate |]. intros [= <-].
  boolify. tauto.
Qed.

Lemma find_snoc {A} (p : A -> bool) l x :
  find p (l ++ [x]) = match find p l with Some y => Some y | None => if p x then Some x else None end.
Proof. induction l as [| y l IH]; simpl; [reflexivity | destruct (p y); auto]. Qed.

(** *** The invariant *)

Definition row_agrees (row : ReservationRow) : Prop :=
  rr_reservation_id row = r_reservation_id (rr_payload row)
  /\ rr_status row = r_status (rr_payload row)
  /\ rr_analysis_id row = rm_analysis_id (r_meta (rr_payload row))
  /\ units_fields (r_requested_units (rr_payload row)) = true.

Definition entry_agrees (row : LedgerRow) : Prop :=
  lr_analysis_id row = rm_analysis_id (e_meta (lr_payload row))
  /\ lr_sequence row = e_sequence (lr_payload row)
  /\ units_fields (e_actual_units (lr_payload row)) = true.

Record rows_wf db : Prop := {
  lw_store : db_wf db;
  lw_ids : NoDup (map rr_reservation_id (budget_reservations db));
  lw_rows row : row ∈ budget_reservations db -> row_agrees row;
  lw_initial row :
    row ∈ budget_reservations db ->
    exists r, resolve_db db (rr_initial_ref row) false = Ok (RecReservation r)
      /\ r_reservation_id r = rr_reservation_id row
      /\ r_requested_units r = r_requested_units (rr_payload row);
  lw_entries row : row ∈ budget_ledger_entries db -> entry_agrees row;
}.

(** Every ledger entry settles its reservation and every committed reservation
    has its entry; each analysis numbers its entries 1, 2, 3, ... *)
Record ledger_wf db : Prop := {
  lw_tables :> rows_wf db;
  lw_settled id :
    (exists row, find_reservation db id = Some row /\ r_status (rr_payload row) = R_COMMITTED)
    <-> is_Some (find_entry db id);
  lw_sequence a :
    map e_sequence (ledger_entries db a) = seqZ 1 (Z.of_nat (length (ledger_entries db a)));
}.

Lemma max_sequence_seq entries n :
  map e_sequence entries = seqZ 1 (Z.of_nat n) -> max_sequence entries = Z.of_nat n.
Proof.
  intros Hs. assert (Hm : max_sequence entries = foldr Z.max 0 (map e_sequence entries)).
  { unfold max_sequence. clear Hs. induction entries as [| e l IH]; simpl; congruence. }
  rewrite Hm, Hs. clear Hm Hs entries. induction n as [| n IH]; [reflexivity |].
  rewrite seqZ_S, foldr_app. simpl.
  assert (Hgen : forall l b, foldr Z.max b l = Z.max (foldr Z.max 0 l) b \/ b < 0).
  { intros l b. destruct (Z_lt_dec b 0); [auto | left].
    induction l as [| x l IHl]; simpl; [lia | rewrite IHl; lia]. }
  destruct (Hgen (seqZ 1 (Z.of_nat n)) (Z.max (1 + Z.of_nat n) 0)) as [-> |]; lia.
Qed.

Lemma available_Ok db scope a ex m :
  available db scope a ex = Ok m ->
  exists p, execution db scope a = Ok p
    /\ m_as_of_sequence m = max_sequence (ledger_entries db a)
    /\ let used := map r_requested_units
                     (filter (fun r => Some (r_reservation_id r) <> ex) (reserved_rows db a))
                   ++ map e_actual_units (ledger_entries db a) in
       let left f limit := Z.max 0 (limit - sum_of f used) in
       m_available_units m =
         mkUnits (left u_elapsed_ms (max_analysis_elapsed_ms p))
           (left u_work_count (max_total_work p)) (left u_llm_call_count (max_total_llm_calls p))
           (left u_retry_count (max_total_retries p))
           (left u_cost_minor_units (max_total_cost_minor_units p)) (ep_currency p).
Proof.
  unfold available. intros Ha. apply rbind_Ok in Ha. destruct Ha as (p & Hp & Ha).
  exists p. split; [exact Hp |]. unfold validate_remaining in Ha. unguard Ha.
  injection Ha as <-. split; reflexivity.
Qed.

(** *** Preservation *)

Lemma rows_wf_grown db db' :
  rtc (store_step (R := Rec)) (db_store db) (db_store db') ->
  budget_reservations db' = budget_reservations db ->
  budget_ledger_entries db' = budget_ledger_entries db ->
  rows_wf db -> rows_wf db'.
Proof.
  intros Hs Hr He [Hst Hids Hrows Hinit Hent]. split.
  - exact (store_steps_wf _ _ Hs Hst).
  - rewrite Hr. exact Hids.
  - rewrite Hr. exact Hrows.
  - rewrite Hr. intros row Hin. destruct (Hinit row Hin) as (r & Hres & Hr').
    exists r. split; [| exact Hr']. eapply resolve_grown; eauto.
  - rewrite He. exact Hent.
Qed.

Lemma ledger_wf_grown db db' :
  rtc (store_step (R := Rec)) (db_store db) (db_store db') ->
  budget_reservations db' = budget_reservations db ->
  budget_ledger_entries db' = budget_ledger_entries db ->
  ledger_wf db -> ledger_wf db'.
Proof.
  intros Hs Hr He [Hrows Hset Hseq]. split.
  - eapply rows_wf_grown; eauto.
  - intros id. unfold find_reservation, find_entry in *. rewrite Hr, He. apply Hset.
  - intros a. unfold ledger_entries in *. rewrite He. apply Hseq.
Qed.

Lemma store_grown_tables db db' :
  store_grown db db' ->
  rtc (store_step (R := Rec)) (db_store db) (db_store db')
  /\ budget_reservations db' = budget_reservations db
  /\ budget_ledger_entries db' = budget_ledger_entries db
  /\ analysis_runs db' = analysis_runs db.
Proof. intros (s & -> & Hs). auto. Qed.

Lemma ledger_wf_store db db' : store_grown db db' -> ledger_wf db -> ledger_wf db'.
Proof.
  intros Hg. apply store_grown_tables in Hg. destruct Hg as (Hs & Hr & He & _).
  apply ledger_wf_grown; assumption.
Qed.

Lemma insert_reservation_wf db row db' :
  ledger_wf db -> insert_reservation db row = Ok db' ->
  row_agrees row -> rr_status row = R_RESERVED ->
  resolve_db db (rr_initial_ref row) false = Ok (RecReservation (rr_payload row)) ->
  ledger_wf db'.
Proof.
  intros [[Hst Hids Hrows Hinit Hent] Hset Hseq] Hins Hag Hres Hi.
  apply insert_reservation_Ok in Hins. destruct Hins as [Hnew ->]. split; [split |  | ].
  - exact Hst.
  - simpl. rewrite map_app. apply NoDup_app. split; [exact Hids |]. split.
    + intros x Hx Hx'. apply list_elem_of_singleton in Hx'. simpl in Hx'. subst. auto.
    + apply NoDup_singleton.
  - simpl. intros row' Hin. apply elem_of_app in Hin. destruct Hin as [Hin | Hin]; [auto |].
    apply list_elem_of_singleton in Hin. subst. exact Hag.
  - simpl. intros row' Hin. apply elem_of_app in Hin. destruct Hin as [Hin | Hin]; [exact (Hinit _ Hin) |].
    apply list_elem_of_singleton in Hin. subst. exists (rr_payload row).
    split; [exact Hi |]. split; [symmetry; apply Hag | reflexivity].
  - exact Hent.
  - intros id. change (find_entry (set_reservations _ _) id) with (find_entry db id).
    rewrite <- Hset. unfold find_reservation. simpl. rewrite find_snoc.
    destruct (find _ (budget_reservations db)) as [old |] eqn:Hf; [reflexivity |].
    case_bool_decide as Hid; [| reflexivity]. destruct Hag as (_ & Hs & _ & _).
    split; intros (row' & [= <-] & Hc). congruence.
  - exact Hseq.
Qed.

Lemma settle_rows_wf db row fin :
  rows_wf db -> find_reservation db (r_reservation_id fin) = Some row ->
  validate_reservation_revision (rr_payload row) fin = Ok tt ->
  rows_wf (update_reservation db (r_reservation_id fin) (settle fin)).
Proof.
  intros [Hst Hids Hrows Hinit Hent] Hf Hv.
  apply reservation_revision_Ok in Hv. destruct Hv as (_ & _ & _ & Hu & Ha & _).
  pose proof Hf as Hf'. apply find_reservation_Some in Hf'. destruct Hf' as [Hin Hid].
  assert (Hone : forall row0, row0 ∈ budget_reservations db ->
                   rr_reservation_id row0 = r_reservation_id fin -> row0 = row).
  { intros row0 Hin0 Hid0. apply (find_reservation_elem db) in Hin0; [| exact Hids].
    congruence. }
  split.
  - exact Hst.
  - rewrite update_ids by apply settle_id. exact Hids.
  - intros row' Hin'. apply elem_update in Hin'. destruct Hin' as (row0 & Hin0 & ->).
    case_bool_decide as Hid0; [| auto]. rewrite (Hone _ Hin0 Hid0).
    destruct (Hrows _ Hin) as (H2 & H3 & H4 & H5). unfold row_agrees, settle.
    cbn [rr_reservation_id rr_status rr_analysis_id rr_payload]. rewrite Hu, Ha. auto.
  - intros row' Hin'. apply elem_update in Hin'. destruct Hin' as (row0 & Hin0 & ->).
    case_bool_decide as Hid0; [| exact (Hinit _ Hin0)]. rewrite (Hone _ Hin0 Hid0).
    destruct (Hinit _ Hin) as (r0 & Hr & Hi & Hq). exists r0. cbn. rewrite Hu. auto.
  - exact Hent.
Qed.

Lemma settle_find db fin id :
  find_reservation (update_reservation db (r_reservation_id fin) (settle fin)) id
  = if eqb (r_reservation_id fin) id then settle fin <$> find_reservation db id
    else find_reservation db id.
Proof. apply find_update, settle_id. Qed.

Lemma settle_release_wf db row fin :
  ledger_wf db -> find_reservation db (r_reservation_id fin) = Some row ->
  validate_reservation_revision (rr_payload row) fin = Ok tt -> r_status fin = R_RELEASED ->
  ledger_wf (update_reservation db (r_reservation_id fin) (settle fin)).
Proof.
  intros [Hwf Hset Hseq] Hf Hv Hs. split; [eapply settle_rows_wf; eauto | | exact Hseq].
  intros id. change (find_entry (update_reservation _ _ _) id) with (find_entry db id).
  rewrite <- Hset, settle_find. case_bool_decide as Hid; [subst id | reflexivity].
  rewrite Hf. simpl. apply reservation_revision_Ok in Hv. destruct Hv as (Hp & _).
  split; intros (row' & [= <-] & Hc); simpl in *; congruence.
Qed.

Lemma insert_entry_wf db row fin entry db' :
  ledger_wf db -> find_reservation db (r_reservation_id fin) = Some row ->
  validate_reservation_revision (rr_payload row) fin = Ok tt -> r_status fin = R_COMMITTED ->
  entry_agrees entry -> lr_reservation_id entry = r_reservation_id fin ->
  lr_sequence entry = max_sequence (ledger_entries db (lr_analysis_id entry)) + 1 ->
  insert_entry (update_reservation db (r_reservation_id fin) (settle fin)) entry = Ok db' ->
  ledger_wf db'.
Proof.
  intros [Hwf Hset Hseq] Hf Hv Hs Hag Hid Hnum Hins.
  apply insert_entry_Ok in Hins. destruct Hins as [Hnew ->].
  pose proof (settle_rows_wf _ _ _ Hwf Hf Hv) as [Hst Hids Hrows Hinit Hent].
  split; [split; auto | |].
  - simpl. intros e Hin. apply elem_of_app in Hin. destruct Hin as [Hin | Hin]; [auto |].
    apply list_elem_of_singleton in Hin. subst. exact Hag.
  - intros id. unfold find_entry. simpl. rewrite find_snoc.
    change (find_reservation (set_ledger _ _) id)
      with (find_reservation (update_reservation db (r_reservation_id fin) (settle fin)) id).
    rewrite settle_find, Hid. change (find _ (budget_ledger_entries db)) with (find_entry db id).
    case_bool_decide as Heq.
    + subst id. rewrite Hf. simpl. split; [| eauto]. intros _.
      destruct (find_entry db (r_reservation_id fin)); eauto.
    + rewrite Hset. destruct (find_entry db id); reflexivity.
  - intros a. unfold ledger_entries in *. simpl. rewrite filter_app, map_app, map_app, length_app.
    rewrite filter_cons, filter_nil. case_decide as Ha.
    + subst a. simpl. rewrite Hseq.
      erewrite max_sequence_seq in Hnum by apply Hseq.
      replace (length (map lr_payload _) + 1)%nat with (S (length (map lr_payload
        (filter (fun row => lr_analysis_id row = lr_analysis_id entry) (budget_ledger_entries db)))))
        by lia.
      rewrite seqZ_S. f_equal. destruct Hag as (_ & <- & _). rewrite Hnum. f_equal. lia.
    + simpl. rewrite app_nil_r, Nat.add_0_r. apply Hseq.
Qed.

(** Updates that leave a row's id, status, payload and initial reference keep
    the invariant. *)
Definition keeps_row (g : ReservationRow -> ReservationRow) : Prop :=
  forall row, rr_reservation_id (g row) = rr_reservation_id row
    /\ rr_analysis_id (g row) = rr_analysis_id row /\ rr_status (g row) = rr_status row
    /\ rr_payload (g row) = rr_payload row /\ rr_initial_ref (g row) = rr_initial_ref row.

Lemma keeps_row_id g : keeps_row g -> keeps_id g.
Proof. intros Hg row. apply Hg. Qed.

Lemma mark_wf db id g :
  keeps_row g -> ledger_wf db -> ledger_wf (update_reservation db id g).
Proof.
  intros Hg [[Hst Hids Hrows Hinit Hent] Hset Hseq]. split; [split | | exact Hseq].
  - exact Hst.
  - rewrite update_ids by apply keeps_row_id, Hg. exact Hids.
  - intros row' Hin'. apply elem_update in Hin'. destruct Hin' as (row0 & Hin0 & ->).
    case_bool_decide; [| auto]. destruct (Hg row0) as (G1 & G2 & G3 & G4 & _).
    unfold row_agrees. rewrite G1, G2, G3, G4. exact (Hrows _ Hin0).
  - intros row' Hin'. apply elem_update in Hin'. destruct Hin' as (row0 & Hin0 & ->).
    case_bool_decide; [| exact (Hinit _ Hin0)]. destruct (Hg row0) as (G1 & _ & _ & G4 & G5).
    rewrite G1, G4, G5. exact (Hinit _ Hin0).
  - exact Hent.
  - intros id'. change (find_entry (update_reservation _ _ _) id') with (find_entry db id').
    rewrite <- Hset, find_update by apply keeps_row_id, Hg.
    case_bool_decide; [| reflexivity]. destruct (find_reservation db id') as [row |]; simpl.
    + destruct (Hg row) as (_ & _ & _ & Hp & _). split; intros (row' & [= <-] & Hc).
      * exists row. rewrite <- Hp. auto.
      * exists (g row). rewrite Hp. auto.
    + split; intros (row' & Hx & _); discriminate.
Qed.

Lemma claim_wf db id : ledger_wf db -> ledger_wf (update_reservation db id mark_claimed).
Proof. apply mark_wf. intros row. auto. Qed.
Lemma unclaim_wf db id : ledger_wf db -> ledger_wf (update_reservation db id mark_unclaimed).
Proof. apply mark_wf. intros row. auto. Qed.

(** ** Histories *)

(** What the rest of the runtime may do between ledger operations: write
    other tables, stage and publish records, and revise run states without
    changing the execution profile they pin. *)
Definition env_step db db' : Prop :=
  rtc (store_step (R := Rec)) (db_store db) (db_store db')
  /\ budget_reservations db' = budget_reservations db
  /\ budget_ledger_entries db' = budget_ledger_entries db
  /\ forall a st, get_run db a = Ok st ->
       exists st', get_run db' a = Ok st'
         /\ s_execution_budget_profile_ref st' = s_execution_budget_profile_ref st.

(** One transaction on the ledger, with the commits restricted to [P]. *)
Inductive ledger_step (P : Db -> BudgetLedgerEntry -> Prop) db db' : Prop :=
| ls_reserve r r' : reserve db r = Ok (r', db') -> ledger_step P db db'
| ls_commit e id t1 t2 e' :
    P db e -> commit_usage db e id t1 t2 = Ok (e', db') -> ledger_step P db db'
| ls_release r r' : release db r = Ok (r', db') -> ledger_step P db db'
| ls_claim ref q w r : claim_reservation db ref q w = Ok (r, db') -> ledger_step P db db'
| ls_retire row c :
    find_reservation db (r_reservation_id c) = Some row -> r_status c = R_RELEASED ->
    retire db (rr_payload row) c = Ok db' -> ledger_step P db db'
| ls_env : env_step db db' -> ledger_step P db db'.

Definition any_commit db (e : BudgetLedgerEntry) : Prop := True.

(** The commit debits at most what its reservation set aside. *)
Definition within_reservation db (e : BudgetLedgerEntry) : Prop :=
  forall initial row,
    resolve_db db (e_reservation_ref e) false = Ok (RecReservation initial) ->
    find_reservation db (r_reservation_id initial) = Some row ->
    Forall (fun f => f (e_actual_units e) <= f (r_requested_units (rr_payload row))) UNIT_FIELDS.

Lemma grown_env db db' : store_grown db db' -> env_step db db'.
Proof.
  intros Hg. apply store_grown_tables in Hg. destruct Hg as (Hs & Hr & He & Ha).
  repeat split; auto. intros a st. unfold get_run. rewrite Ha. eauto.
Qed.

(** Saving a new revision of a run state is such a step. *)
Lemma save_run_env db state p db' :
  save_run db state (Some p) = Ok db' -> analysis_runs db !! rm_analysis_id (s_meta state) = Some p ->
  env_step db db'.
Proof.
  unfold save_run. intros Hs Hp. unguard Hs. destruct x as [ref db1]. unguard Hs.
  injection Hs as <-. apply stage_publish_Ok, store_grown_tables in E0.
  destruct E0 as (Hst & Hr & He & Ha). repeat split; auto.
  intros a st Hst'. unfold get_run in *. simpl. rewrite Ha in *.
  destruct (decide (a = rm_analysis_id (s_meta state))) as [-> | Hne].
  - rewrite lookup_insert_eq. rewrite Hp in Hst'. injection Hst' as <-. exists state.
    split; [reflexivity |].
    match goal with Hx : context [run_immutable] |- _ => rename Hx into Him end.
    unguard Him. unfold run_immutable in *. boolify. symmetry. intuition congruence.
  - rewrite lookup_insert_ne by congruence. eauto.
Qed.

Lemma find_unchanged db db' id :
  budget_reservations db' = budget_reservations db ->
  find_reservation db' id = find_reservation db id.
Proof. unfold find_reservation. intros ->. reflexivity. Qed.

Lemma entries_unchanged db db' a :
  budget_ledger_entries db' = budget_ledger_entries db ->
  ledger_entries db' a = ledger_entries db a.
Proof. unfold ledger_entries. intros ->. reflexivity. Qed.

Lemma row_payload_id db id row :
  rows_wf db -> find_reservation db id = Some row -> r_reservation_id (rr_payload row) = id.
Proof.
  intros Hwf Hf. apply find_reservation_Some in Hf. destruct Hf as [Hin <-].
  symmetry. apply (lw_rows _ Hwf _ Hin).
Qed.

Lemma reserve_wf db r r' db' : ledger_wf db -> reserve db r = Ok (r', db') -> ledger_wf db'.
Proof.
  intros Hwf Hr. apply reserve_Ok in Hr.
  destruct Hr as (Hu & [(row & _ & -> & _) | (Hf & -> & Hs & db1 & db2 & m & ref & items & Hg
                           & _ & _ & Hst & Hins)]); [exact Hwf |].
  pose proof (ledger_wf_store _ _ Hg Hwf) as Hwf1.
  pose proof (ledger_wf_store _ _ (stage_publish_Ok _ _ _ _ Hst) Hwf1) as Hwf2.
  eapply insert_reservation_wf; [exact Hwf2 | exact Hins | | reflexivity |].
  - repeat split; auto.
  - apply (stage_publish_resolved _ _ _ _ (lw_store _ Hwf1) Hst).
Qed.

Lemma commit_wf db e id t1 t2 e' db' :
  ledger_wf db -> commit_usage db e id t1 t2 = Ok (e', db') -> ledger_wf db'.
Proof.
  intros Hwf Hc. apply commit_usage_Ok in Hc.
  destruct Hc as (-> & Hu & Hseq & init & _ & [(old & _ & _ & ->) | (_ & row & m & db1 & fin & Hf
                  & Ha & Hav & Hnum & Hv & Hs & Hg & Hins)]); [exact Hwf |].
  pose proof (ledger_wf_store _ _ Hg Hwf) as Hwf1.
  apply store_grown_tables in Hg. destruct Hg as (_ & Hrows & Hent & _).
  pose proof (reservation_revision_Ok _ _ Hv) as (_ & _ & Hid & _).
  pose proof (row_payload_id _ _ _ Hwf Hf) as Hpid. rewrite Hid, Hpid in *.
  apply available_Ok in Hav. destruct Hav as (p & _ & Hmax & _).
  eapply (insert_entry_wf db1 row fin
            (mkLedgerRow (e_ledger_entry_id e) (r_reservation_id init)
               (rm_analysis_id (e_meta e)) (e_sequence e) e));
    [exact Hwf1 | | exact Hv | exact Hs | | | |].
  - rewrite (find_unchanged db) by exact Hrows. congruence.
  - exact (conj eq_refl (conj eq_refl Hu)).
  - simpl. congruence.
  - simpl. rewrite (entries_unchanged db) by exact Hent. congruence.
  - rewrite Hid. exact Hins.
Qed.

Lemma release_wf db r r' db' : ledger_wf db -> release db r = Ok (r', db') -> ledger_wf db'.
Proof.
  intros Hwf Hr. apply release_Ok in Hr.
  destruct Hr as (row & Hf & [(_ & _ & ->) | (_ & _ & Hs & Hv & db1 & Hg & ->)]); [exact Hwf |].
  pose proof (ledger_wf_store _ _ Hg Hwf) as Hwf1.
  apply store_grown_tables in Hg. destruct Hg as (_ & Hrows & _ & _).
  eapply settle_release_wf; eauto. rewrite (find_unchanged db) by exact Hrows. exact Hf.
Qed.

Lemma retire_wf db row c db' :
  ledger_wf db -> find_reservation db (r_reservation_id c) = Some row ->
  r_status c = R_RELEASED -> retire db (rr_payload row) c = Ok db' -> ledger_wf db'.
Proof.
  intros Hwf Hf Hs Hr. apply retire_Ok in Hr. destruct Hr as (Hv & db1 & Hg & ->).
  apply unclaim_wf. pose proof (ledger_wf_store _ _ Hg Hwf) as Hwf1.
  apply store_grown_tables in Hg. destruct Hg as (_ & Hrows & _ & _).
  eapply settle_release_wf; eauto. rewrite (find_unchanged db) by exact Hrows. exact Hf.
Qed.

Lemma ledger_step_wf P db db' : ledger_wf db -> ledger_step P db db' -> ledger_wf db'.
Proof.
  intros Hwf [r r' H2 | e id t1 t2 e' _ H2 | r r' H2 | ref q w r H2 | row c Hf Hc H2 | (Hs & Hr & He & _)].
  - eapply reserve_wf; eauto.
  - eapply commit_wf; eauto.
  - eapply release_wf; eauto.
  - apply claim_reservation_Ok in H2. destruct H2 as [-> _]. apply claim_wf, Hwf.
  - eapply retire_wf; eauto.
  - eapply ledger_wf_grown; eauto.
Qed.

Lemma ledger_steps_wf P db db' : rtc (ledger_step P) db db' -> ledger_wf db -> ledger_wf db'.
Proof. induction 1; eauto using ledger_step_wf. Qed.

Lemma ledger_step_store P db db' :
  ledger_step P db db' -> rtc (store_step (R := Rec)) (db_store db) (db_store db').
Proof.
  intros [r r' H2 | e id t1 t2 e' _ H2 | r r' H2 | ref q w r H2 | row c Hf Hc H2 | (Hs & _)];
    [| | | | | exact Hs].
  - apply reserve_Ok in H2. destruct H2 as (_ & [(row & _ & -> & _) | (_ & _ & _ & db1 & db2 & m
      & ref & items & Hg & _ & _ & Hst & Hins)]); [reflexivity |].
    apply insert_reservation_Ok in Hins. destruct Hins as [_ ->]. simpl.
    apply store_grown_tables in Hg. apply stage_publish_Ok, store_grown_tables in Hst.
    etransitivity; [apply Hg | apply Hst].
  - apply commit_usage_Ok in H2. destruct H2 as (_ & _ & _ & init & _ & [(old & _ & _ & ->) |
      (_ & row & m & db1 & fin & _ & _ & _ & _ & _ & _ & Hg & Hins)]); [reflexivity |].
    apply insert_entry_Ok in Hins. destruct Hins as [_ ->]. apply store_grown_tables in Hg. apply Hg.
  - apply release_Ok in H2. destruct H2 as (row & _ & [(_ & _ & ->) | (_ & _ & _ & _ & db1 & Hg & ->)]);
      [reflexivity |]. apply store_grown_tables in Hg. apply Hg.
  - apply claim_reservation_Ok in H2. destruct H2 as [-> _]. reflexivity.
  - apply retire_Ok in H2. destruct H2 as (_ & db1 & Hg & ->). apply store_grown_tables in Hg. apply Hg.
Qed.

Lemma ledger_steps_store P db db' :
  rtc (ledger_step P) db db' -> rtc (store_step (R := Rec)) (db_store db) (db_store db').
Proof.
  induction 1 as [| db1 db2 db3 Hs _ IH]; [reflexivity |].
  etransitivity; [eapply ledger_step_store; exact Hs | exact IH].
Qed.

(** *** How a row evolves *)

Record row_evolves (row row' : ReservationRow) : Prop := {
  ev_initial : rr_initial_ref row' = rr_initial_ref row;
  ev_requested : r_requested_units (rr_payload row') = r_requested_units (rr_payload row);
  ev_settled : r_status (rr_payload row) <> R_RESERVED -> rr_payload row' = rr_payload row;
  ev_spent : rr_claimed row = true \/ r_status (rr_payload row) <> R_RESERVED ->
    rr_claimed row' = true \/ r_status (rr_payload row') <> R_RESERVED;
}.

#[local] Instance row_evolves_preorder : PreOrder row_evolves.
Proof.
  split.
  - intros row. split; auto.
  - intros r1 r2 r3 [A1 B1 C1 D1] [A2 B2 C2 D2]. split; [congruence | congruence | | auto].
    intros Hs. rewrite C2, C1; auto. rewrite C1; auto.
Qed.

Definition rows_evolve db db' : Prop :=
  forall id row, find_reservation db id = Some row ->
    exists row', find_reservation db' id = Some row' /\ row_evolves row row'.

Lemma rows_evolve_same db db' :
  budget_reservations db' = budget_reservations db -> rows_evolve db db'.
Proof.
  intros Hr id row Hf. exists row. rewrite (find_unchanged db) by exact Hr.
  split; [exact Hf | reflexivity].
Qed.

Lemma rows_evolve_update db id g :
  keeps_id g ->
  (forall row, find_reservation db id = Some row -> row_evolves row (g row)) ->
  rows_evolve db (update_reservation db id g).
Proof.
  intros Hk Hg id' row Hf. rewrite find_update by exact Hk. case_bool_decide as Hid.
  - subst id'. rewrite Hf. eauto.
  - exists row. split; [exact Hf | reflexivity].
Qed.

Lemma settle_evolves row fin :
  validate_reservation_revision (rr_payload row) fin = Ok tt -> row_evolves row (settle fin row).
Proof.
  intros Hv. apply reservation_revision_Ok in Hv. destruct Hv as (Hp & Hc & _ & Hu & _).
  split; simpl; auto; congruence.
Qed.

Lemma rows_evolve_step P db db' : ledger_wf db -> ledger_step P db db' -> rows_evolve db db'.
Proof.
  intros Hwf [r r' H2 | e id t1 t2 e' _ H2 | r r' H2 | ref q w r H2 | row c Hf Hc H2 | (_ & Hr & _)].
  - apply reserve_Ok in H2. destruct H2 as (_ & [(row & _ & -> & _) | (_ & _ & _ & db1 & db2 & m
      & ref & items & Hg & _ & _ & Hst & Hins)]); [apply rows_evolve_same; reflexivity |].
    apply insert_reservation_Ok in Hins. destruct Hins as [_ ->].
    apply store_grown_tables in Hg. apply stage_publish_Ok, store_grown_tables in Hst.
    intros id row Hf. exists row. split; [| reflexivity].
    unfold find_reservation in *. simpl. rewrite find_snoc.
    destruct Hst as (_ & -> & _), Hg as (_ & -> & _). rewrite Hf. reflexivity.
  - apply commit_usage_Ok in H2. destruct H2 as (_ & _ & _ & init & _ & [(old & _ & _ & ->) |
      (_ & row & m & db1 & fin & Hf & _ & _ & _ & Hv & Hs & Hg & Hins)]);
      [apply rows_evolve_same; reflexivity |].
    apply insert_entry_Ok in Hins. destruct Hins as [_ ->].
    apply store_grown_tables in Hg. destruct Hg as (_ & Hr & _).
    pose proof (reservation_revision_Ok _ _ Hv) as (_ & _ & Hid & _).
    rewrite (row_payload_id _ _ _ Hwf Hf) in Hid. rewrite Hid.
    intros id' row' Hf'. apply (rows_evolve_update db1); [apply settle_id | |].
    + intros row0 Hf0. rewrite (find_unchanged db) in Hf0 by exact Hr.
      replace row0 with row by congruence. apply settle_evolves, Hv.
    + rewrite (find_unchanged db) by exact Hr. exact Hf'.
  - apply release_Ok in H2.
    destruct H2 as (row & Hf & [(_ & _ & ->) | (Hc & _ & _ & Hv & db1 & Hg & ->)]);
      [apply rows_evolve_same; reflexivity |].
    apply store_grown_tables in Hg. destruct Hg as (_ & Hr & _).
    intros id' row' Hf'. apply (rows_evolve_update db1); [apply settle_id | |].
    + intros row0 Hf0. rewrite (find_unchanged db) in Hf0 by exact Hr.
      replace row0 with row by congruence. apply settle_evolves, Hv.
    + rewrite (find_unchanged db) by exact Hr. exact Hf'.
  - apply claim_reservation_Ok in H2. destruct H2 as [-> _].
    apply rows_evolve_update; [apply mark_claimed_id |]. intros row _. split; simpl; auto.
  - apply retire_Ok in H2. destruct H2 as (Hv & db1 & Hg & ->).
    apply store_grown_tables in Hg. destruct Hg as (_ & Hr & _). intros id row' Hf'.
    rewrite find_update by apply mark_unclaimed_id. rewrite settle_find.
    rewrite (find_unchanged db) by exact Hr. rewrite Hf'.
    case_bool_decide as Hid; [| exists row'; split; [reflexivity | reflexivity]].
    subst id. replace row' with row by congruence. simpl. eexists. split; [reflexivity |].
    destruct (settle_evolves _ _ Hv) as [G1 G2 G3 G4].
    apply reservation_revision_Ok in Hv. split; simpl in *; auto. intros _. right. tauto.
  - apply rows_evolve_same, Hr.
Qed.

Lemma rows_evolve_steps P db db' :
  ledger_wf db -> rtc (ledger_step P) db db' -> rows_evolve db db'.
Proof.
  intros Hwf Hs. induction Hs as [| db1 db2 db3 Hs _ IH]; [apply rows_evolve_same; reflexivity |].
  intros id row Hf. destruct (rows_evolve_step _ _ _ Hwf Hs _ _ Hf) as (row2 & Hf2 & Hev).
  destruct (IH (ledger_step_wf _ _ _ Hwf Hs) _ _ Hf2) as (row3 & Hf3 & Hev3).
  exists row3. split; [exact Hf3 | etransitivity; eauto].
Qed.

Lemma find_entry_steps P db db' id row :
  rtc (ledger_step P) db db' -> find_entry db id = Some row -> find_entry db' id = Some row.
Proof.
  induction 1 as [| db1 db2 db3 Hs _ IH]; [auto |]. intros Hf. apply IH. clear IH.
  destruct Hs as [r r' H2 | e id' t1 t2 e' _ H2 | r r' H2 | ref q w r H2 | ? c _ _ H2 | (_ & _ & He & _)].
  - apply reserve_Ok in H2. destruct H2 as (_ & [(? & _ & -> & _) | (_ & _ & _ & db4 & db5 & m
      & ref & items & Hg & _ & _ & Hst & Hins)]); [exact Hf |].
    apply insert_reservation_Ok in Hins. destruct Hins as [_ ->].
    apply store_grown_tables in Hg. apply stage_publish_Ok, store_grown_tables in Hst.
    unfold find_entry in *. simpl. destruct Hst as (_ & _ & -> & _), Hg as (_ & _ & -> & _).
    exact Hf.
  - apply commit_usage_Ok in H2. destruct H2 as (_ & _ & _ & init & _ & [(old & _ & _ & ->) |
      (_ & ? & m & db4 & fin & _ & _ & _ & _ & _ & _ & Hg & Hins)]); [exact Hf |].
    apply insert_entry_Ok in Hins. destruct Hins as [_ ->].
    apply store_grown_tables in Hg. destruct Hg as (_ & _ & Hent & _).
    unfold find_entry in *. simpl. rewrite find_snoc, Hent, Hf. reflexivity.
  - apply release_Ok in H2. destruct H2 as (? & _ & [(_ & _ & ->) | (_ & _ & _ & _ & db4 & Hg & ->)]);
      [exact Hf |]. apply store_grown_tables in Hg. destruct Hg as (_ & _ & Hent & _).
    unfold find_entry in *. simpl. rewrite Hent. exact Hf.
  - apply claim_reservation_Ok in H2. destruct H2 as [-> _]. exact Hf.
  - apply retire_Ok in H2. destruct H2 as (_ & db4 & Hg & ->). apply store_grown_tables in Hg.
    destruct Hg as (_ & _ & Hent & _). unfold find_entry in *. simpl. rewrite Hent. exact Hf.
  - unfold find_entry in *. rewrite He. exact Hf.
Qed.

(** ** Theorems *)

(** C2. The books balance after every history: each reservation is COMMITTED
    exactly when it has its ledger entry, and each analysis numbers its
    entries 1, 2, 3, ... without gap. *)
Theorem ledger_balanced db db' :
  ledger_wf db -> rtc (ledger_step any_commit) db db' ->
  (forall id, (exists row, find_reservation db' id = Some row
                 /\ r_status (rr_payload row) = R_COMMITTED) <-> is_Some (find_entry db' id))
  /\ forall a, map e_sequence (ledger_entries db' a)
             = seqZ 1 (Z.of_nat (length (ledger_entries db' a))).
Proof. intros Hwf Hs. destruct (ledger_steps_wf _ _ _ Hs Hwf). split; assumption. Qed.

(** A reservation settles once: after any history its requested units are
    those reserved, and a committed or released reservation is still exactly
    the record it was. *)
Theorem reservation_settles_once db db' id row :
  ledger_wf db -> rtc (ledger_step any_commit) db db' -> find_reservation db id = Some row ->
  exists row', find_reservation db' id = Some row'
    /\ r_requested_units (rr_payload row') = r_requested_units (rr_payload row)
    /\ (r_status (rr_payload row) <> R_RESERVED -> rr_payload row' = rr_payload row).
Proof.
  intros Hwf Hs Hf. destruct (rows_evolve_steps _ _ _ Hwf Hs _ _ Hf) as (row' & Hf' & Hev).
  exists row'. split; [exact Hf' |]. split; apply Hev.
Qed.

(** A claimed reservation backs one use: whatever happens later it cannot
    be claimed again, and a release of it only ever reports that it has been
    settled. *)
Theorem claimed_once db ref q w r db1 db2 :
  ledger_wf db -> claim_reservation db ref q w = Ok (r, db1) ->
  rtc (ledger_step any_commit) db1 db2 ->
  (forall ref' q' w' r' db3, claim_reservation db2 ref' q' w' = Ok (r', db3) ->
     r_reservation_id r' <> r_reservation_id r)
  /\ (forall r' r'' db3, release db2 r' = Ok (r'', db3) ->
       r_reservation_id r' = r_reservation_id r ->
       r_status r'' <> R_RESERVED /\ db3 = db2).
Proof.
  intros Hwf Hc Hs. apply claim_reservation_Ok in Hc. destruct Hc as (-> & row & Hf & _).
  pose proof (claim_wf _ (r_reservation_id r) Hwf) as Hwf1.
  pose proof (ledger_steps_wf _ _ _ Hs Hwf1) as Hwf2.
  destruct (rows_evolve_steps _ _ _ Hwf1 Hs (r_reservation_id r) (mark_claimed row))
    as (row2 & Hf2 & [_ _ _ Hspent]).
  { rewrite find_update by apply mark_claimed_id.
    rewrite bool_decide_eq_true_2 by reflexivity. rewrite Hf. reflexivity. }
  specialize (Hspent (or_introl eq_refl)). split.
  - intros ref' q' w' r' db3 Hc Hid. apply claim_reservation_Ok in Hc.
    destruct Hc as (_ & row' & Hf' & Hst & Hcl). rewrite Hid, Hf2 in Hf'. injection Hf' as <-.
    apply find_reservation_Some in Hf2. destruct Hf2 as [Hin _].
    destruct (lw_rows _ Hwf2 _ Hin) as (_ & Hag & _). destruct Hspent; congruence.
  - intros r' r'' db3 Hr Hid. apply release_Ok in Hr.
    destruct Hr as (row' & Hf' & Hcase). rewrite Hid, Hf2 in Hf'. injection Hf' as <-.
    destruct Hcase as [(Hne & -> & ->) | (Hcl & _ & _ & Hv & _)]; [auto |].
    apply reservation_revision_Ok in Hv. destruct Hv as (Hp & _). destruct Hspent; congruence.
Qed.

(** Reserving is idempotent across histories: repeating a request that was
    granted returns that reservation in its current revision and changes
    nothing. *)
Theorem reserve_idempotent db r r' db1 db2 :
  ledger_wf db -> reserve db r = Ok (r', db1) -> rtc (ledger_step any_commit) db1 db2 ->
  exists row, find_reservation db2 (r_reservation_id r) = Some row
    /\ reserve db2 r = Ok (rr_payload row, db2)
    /\ r_requested_units (rr_payload row) = r_requested_units r'.
Proof.
  intros Hwf Hr Hs. pose proof (reserve_wf _ _ _ _ Hwf Hr) as Hwf1.
  pose proof (ledger_steps_store _ _ _ Hs) as Hst.
  assert (Hv : validate_reservation r = Ok r).
  { unfold reserve in Hr. apply rbind_Ok in Hr. destruct Hr as (v & Hv & _).
    pose proof Hv as Hv'. apply validate_reservation_Ok in Hv'. destruct Hv' as [-> _]. exact Hv. }
  assert (exists row, find_reservation db1 (r_reservation_id r) = Some row
            /\ rr_payload row = r'
            /\ resolve_db db1 (rr_initial_ref row) false = Ok (RecReservation r))
    as (row & Hf & <- & Hi).
  { apply reserve_Ok in Hr. destruct Hr as (_ & [(row & Hf & -> & -> & Hi) | (Hf & -> & _ & db3 & db4
      & m & ref & items & Hg & _ & _ & Hsp & Hins)]); [eauto |].
    apply insert_reservation_Ok in Hins. destruct Hins as [_ ->].
    pose proof (ledger_wf_store _ _ Hg Hwf) as Hwf3.
    destruct (stage_publish_resolved _ _ _ _ (lw_store _ Hwf3) Hsp) as [_ Hres].
    apply store_grown_tables in Hg. apply stage_publish_Ok, store_grown_tables in Hsp.
    exists (mkReservationRow (r_reservation_id r) (rm_analysis_id (r_meta r))
              (ref_key (r_action_ref r)) R_RESERVED r ref false items).
    split; [| split; [reflexivity | exact Hres]].
    unfold find_reservation in *. simpl. rewrite find_snoc.
    destruct Hsp as (_ & -> & _), Hg as (_ & -> & _). rewrite Hf. simpl.
    rewrite bool_decide_eq_true_2 by reflexivity. reflexivity. }
  destruct (rows_evolve_steps _ _ _ Hwf1 Hs _ _ Hf) as (row2 & Hf2 & [Hinit Hreq _ _]).
  exists row2. split; [exact Hf2 |]. split; [| exact Hreq].
  unfold reserve. rewrite Hv. simpl. rewrite Hf2, Hinit.
  rewrite (resolve_grown _ _ _ _ _ (lw_store _ Hwf1) Hst Hi). simpl.
  rewrite bool_decide_eq_true_2 by reflexivity. reflexivity.
Qed.

(** Committing is idempotent across histories: a usage commit that was
    accepted can be replayed with any new ids and clock, and returns the same
    entry without a second debit. *)
Theorem commit_idempotent db e id t1 t2 e' db1 db2 id' t1' t2' :
  ledger_wf db -> commit_usage db e id t1 t2 = Ok (e', db1) ->
  rtc (ledger_step any_commit) db1 db2 ->
  commit_usage db2 e id' t1' t2' = Ok (e', db2).
Proof.
  intros Hwf Hc Hs. pose proof (commit_wf _ _ _ _ _ _ _ Hwf Hc) as Hwf1.
  assert (Hv : validate_ledger_entry e = Ok e).
  { unfold commit_usage in Hc. apply rbind_Ok in Hc. destruct Hc as (v & Hv & _).
    pose proof Hv as Hv'. apply validate_entry_Ok in Hv'. destruct Hv' as [-> _]. exact Hv. }
  apply commit_usage_Ok in Hc. destruct Hc as (-> & _ & _ & init & Hi & Hcase).
  assert (exists old, find_entry db1 (r_reservation_id init) = Some old /\ lr_payload old = e
            /\ rtc (store_step (R := Rec)) (db_store db) (db_store db1))
    as (old & Hf & <- & Hst1).
  { destruct Hcase as [(old & Hf & Hp & ->) | (Hf & row & m & db3 & fin & _ & _ & _ & _ & _ & _ & Hg & Hins)].
    - exists old. split; [exact Hf | split; [exact Hp | reflexivity]].
    - apply insert_entry_Ok in Hins. destruct Hins as [_ ->]. apply store_grown_tables in Hg.
      destruct Hg as (Hst & _ & Hent & _).
      exists (mkLedgerRow (e_ledger_entry_id e) (r_reservation_id init)
                (rm_analysis_id (e_meta e)) (e_sequence e) e).
      split; [| split; [reflexivity | exact Hst]].
      unfold find_entry in *. simpl. rewrite find_snoc, Hent, Hf. simpl.
      rewrite bool_decide_eq_true_2 by reflexivity. reflexivity. }
  unfold commit_usage. rewrite Hv. simpl.
  rewrite (resolve_grown _ _ _ _ _ (lw_store _ Hwf)
             (transitivity Hst1 (ledger_steps_store _ _ _ Hs)) Hi). simpl.
  rewrite (find_entry_steps _ _ _ _ _ Hs Hf).
  rewrite bool_decide_eq_true_2 by reflexivity. reflexivity.
Qed.

(** *** Totals *)

(** What an analysis has used of one unit: its open reservations and its
    ledger. *)
Definition used db (a : string) (f : BudgetUnits -> Z) : Z :=
  sum_of f (map r_requested_units (reserved_rows db a)
            ++ map e_actual_units (ledger_entries db a)).

Definition LIMITS : list ((BudgetUnits -> Z) * (ExecutionBudgetProfile -> Z)) :=
  [(u_elapsed_ms, max_analysis_elapsed_ms); (u_work_count, max_total_work);
   (u_llm_call_count, max_total_llm_calls); (u_retry_count, max_total_retries);
   (u_cost_minor_units, max_total_cost_minor_units)].

Definition within_limits db (a : string) (p : ExecutionBudgetProfile) : Prop :=
  Forall (fun l => used db a l.1 <= l.2 p) LIMITS.

Lemma sum_of_app f l l' : sum_of f (l ++ l') = sum_of f l + sum_of f l'.
Proof. unfold sum_of. induction l as [| u l IH]; simpl; [reflexivity | rewrite IH; lia]. Qed.

Lemma reserved_rows_sum_snoc f rows a row :
  sum_of f (map r_requested_units (map rr_payload
    (filter (fun row => rr_analysis_id row = a /\ rr_status row = R_RESERVED) (rows ++ [row]))))
  = sum_of f (map r_requested_units (map rr_payload
      (filter (fun row => rr_analysis_id row = a /\ rr_status row = R_RESERVED) rows)))
    + if decide (rr_analysis_id row = a /\ rr_status row = R_RESERVED)
      then f (r_requested_units (rr_payload row)) else 0.
Proof.
  rewrite filter_app, !map_app, sum_of_app, filter_cons, filter_nil.
  case_decide; simpl; lia.
Qed.

Lemma reserved_settle f rows a id row g :
  NoDup (map rr_reservation_id rows) ->
  find (fun row => eqb (rr_reservation_id row) id) rows = Some row ->
  rr_status row = R_RESERVED -> rr_status (g row) <> R_RESERVED ->
  let open rows := sum_of f (map r_requested_units (map rr_payload
    (filter (fun row => rr_analysis_id row = a /\ rr_status row = R_RESERVED) rows))) in
  open (map (fun row => if eqb (rr_reservation_id row) id then g row else row) rows)
  = open rows - if decide (rr_analysis_id row = a)
                then f (r_requested_units (rr_payload row)) else 0.
Proof.
  intros Hnd Hf Hs Hg. simpl. revert Hnd Hf.
  induction rows as [| r rows IH]; intros Hnd Hf; [discriminate |].
  simpl in *. apply NoDup_cons in Hnd. destruct Hnd as [Hr Hnd].
  destruct (decide (rr_reservation_id r = id)) as [Hid | Hid].
  - rewrite (bool_decide_eq_true_2 _ Hid) in *. injection Hf as ->.
    replace (map _ rows) with rows.
    + rewrite !filter_cons. rewrite (decide_False (P := _ /\ rr_status (g row) = _)) by tauto.
      destruct (decide (rr_analysis_id row = a)) as [Ha | Ha].
      * rewrite decide_True by tauto. simpl. lia.
      * rewrite decide_False by tauto. lia.
    + clear - Hr Hid. induction rows as [| x rows IH]; simpl in *; [reflexivity |].
      rewrite bool_decide_eq_false_2.
      * f_equal. apply IH. intros Hin. apply Hr. right. exact Hin.
      * intros Hx. apply Hr. rewrite Hid, <- Hx. left.
  - rewrite (bool_decide_eq_false_2 _ Hid) in *. rewrite !filter_cons.
    specialize (IH Hnd Hf).
    destruct (decide (rr_analysis_id r = a /\ rr_status r = R_RESERVED)); simpl; lia.
Qed.

Lemma used_tables db db' a f :
  budget_reservations db' = budget_reservations db ->
  budget_ledger_entries db' = budget_ledger_entries db -> used db' a f = used db a f.
Proof. unfold used, reserved_rows, ledger_entries. intros -> ->. reflexivity. Qed.

Lemma units_nonneg u f : units_fields u = true -> f ∈ UNIT_FIELDS -> 0 <= f u.
Proof.
  unfold units_fields, NonNegativeInt. rewrite !andb_true_iff.
  intros [[[[[H2 H3] H4] H5] H6] _] Hf. unfold UNIT_FIELDS in Hf.
  repeat (apply elem_of_cons in Hf; destruct Hf as [-> | Hf]; [lia |]). inversion Hf.
Qed.

Lemma limits_units l : l ∈ LIMITS -> l.1 ∈ UNIT_FIELDS.
Proof.
  intros Hl. unfold LIMITS in Hl.
  repeat (apply elem_of_cons in Hl; destruct Hl as [-> | Hl]; [repeat constructor |]).
  inversion Hl.
Qed.

(** Settling the reservation [row] gives its units back. *)
Lemma used_settle db db1 id row fin a f :
  rows_wf db -> find_reservation db id = Some row ->
  validate_reservation_revision (rr_payload row) fin = Ok tt ->
  budget_reservations db1 = budget_reservations db ->
  budget_ledger_entries db1 = budget_ledger_entries db ->
  used (update_reservation db1 id (settle fin)) a f
  = used db a f - if decide (rr_analysis_id row = a)
                  then f (r_requested_units (rr_payload row)) else 0.
Proof.
  intros Hwf Hf Hv Hr He. apply reservation_revision_Ok in Hv. destruct Hv as (Hp & Hc & _).
  unfold used, reserved_rows, ledger_entries. simpl. rewrite Hr, He, !sum_of_app.
  rewrite (reserved_settle f _ a id row (settle fin)); [lia | apply Hwf | exact Hf | | exact Hc].
  apply find_reservation_Some in Hf. destruct Hf as [Hin _].
  destruct (lw_rows _ Hwf _ Hin) as (_ & -> & _). exact Hp.
Qed.

Lemma used_entry db a f entry :
  used (set_ledger db (budget_ledger_entries db ++ [entry])) a f
  = used db a f + if decide (lr_analysis_id entry = a)
                  then f (e_actual_units (lr_payload entry)) else 0.
Proof.
  unfold used, ledger_entries, reserved_rows. simpl.
  rewrite filter_app, !map_app, !sum_of_app, filter_cons, filter_nil.
  case_decide; simpl; lia.
Qed.

Lemma used_reservation db a f row :
  used (set_reservations db (budget_reservations db ++ [row])) a f
  = used db a f + if decide (rr_analysis_id row = a /\ rr_status row = R_RESERVED)
                  then f (r_requested_units (rr_payload row)) else 0.
Proof.
  unfold used, ledger_entries, reserved_rows. simpl.
  rewrite !sum_of_app, reserved_rows_sum_snoc. lia.
Qed.

Lemma exceeds_false u v f : exceeds u v = false -> f ∈ UNIT_FIELDS -> f u <= f v.
Proof.
  unfold exceeds. intros He Hf. apply list_elem_of_In in Hf.
  assert (Hx : (f v <? f u) = false).
  { destruct (f v <? f u) eqn:Hx; [| reflexivity].
    rewrite <- He. symmetry. apply existsb_exists. eauto. }
  lia.
Qed.

(** What [available] leaves of a limit. *)
Lemma available_left db scope a m p :
  available db scope a None = Ok m -> execution db scope a = Ok p ->
  Forall (fun l => l.1 (m_available_units m) = Z.max 0 (l.2 p - used db a l.1)) LIMITS.
Proof.
  intros Ha Hp. apply available_Ok in Ha. destruct Ha as (p' & Hp' & _ & Hu).
  replace p' with p in Hu by congruence. clear Hp' Hp.
  assert (Hall : forall (ex : option string) (rows : list BudgetReservation), ex = None ->
            filter (fun r => Some (r_reservation_id r) <> ex) rows = rows).
  { intros ex rows ->. induction rows as [| r l IH]; [reflexivity |].
    rewrite filter_cons, decide_True by discriminate. rewrite IH. reflexivity. }
  rewrite Hall in Hu by reflexivity. rewrite Hu. repeat constructor.
Qed.

Lemma run_profile db db' a st p ref p' :
  db_wf db -> get_run db a = Ok st ->
  resolve_db db (RRun (s_execution_budget_profile_ref st)) false = Ok (RecExecution p) ->
  store_grown db db' -> execution db' ref a = Ok p' -> p' = p.
Proof.
  intros Hwf Hst Hp Hg He. pose proof (store_grown_wf _ _ Hg Hwf) as Hwf'.
  apply store_grown_tables in Hg. destruct Hg as (Hs & _ & _ & Hrun).
  apply (execution_fuel_profile _ _ _ _ _ Hwf') in He.
  destruct He as (st' & Hst' & Hp' & _). unfold get_run in *. rewrite Hrun in Hst'.
  replace st' with st in * by congruence.
  apply (resolve_grown _ _ _ _ _ Hwf Hs) in Hp. congruence.
Qed.

Lemma reserve_within db r r' db' a st p :
  ledger_wf db -> get_run db a = Ok st ->
  resolve_db db (RRun (s_execution_budget_profile_ref st)) false = Ok (RecExecution p) ->
  within_limits db a p -> reserve db r = Ok (r', db') -> within_limits db' a p.
Proof.
  intros Hwf Hst Hp Hw Hr. apply reserve_Ok in Hr.
  destruct Hr as (Hu & [(? & _ & -> & _) | (_ & _ & _ & db1 & db2 & m & ref & items & Hg & Hav
                        & Hex & Hsp & Hins)]); [exact Hw |].
  apply insert_reservation_Ok in Hins. destruct Hins as [_ ->].
  pose proof Hg as Hg'. apply store_grown_tables in Hg'. destruct Hg' as (_ & Hr1 & He1 & _).
  apply stage_publish_Ok, store_grown_tables in Hsp. destruct Hsp as (_ & Hr2 & He2 & _).
  unfold within_limits in *. rewrite Forall_forall in *. intros l Hl. specialize (Hw l Hl).
  rewrite used_reservation. rewrite (used_tables db) by congruence. simpl.
  case_decide as Ha; [| lia]. destruct Ha as [Ha _]. subst a.
  pose proof Hav as Hav'. apply available_Ok in Hav'. destruct Hav' as (p' & He & _).
  assert (p' = p) as -> by (eapply run_profile; eauto; apply Hwf).
  pose proof (available_left _ _ _ _ _ Hav He) as Hleft. rewrite Forall_forall in Hleft.
  specialize (Hleft l Hl). rewrite (used_tables db) in Hleft by congruence.
  pose proof (exceeds_false _ _ _ Hex (limits_units _ Hl)). lia.
Qed.

Lemma commit_within db e id t1 t2 e' db' a p :
  ledger_wf db -> within_reservation db e -> within_limits db a p ->
  commit_usage db e id t1 t2 = Ok (e', db') -> within_limits db' a p.
Proof.
  intros Hwf Hin Hw Hc. apply commit_usage_Ok in Hc.
  destruct Hc as (_ & Hu & _ & init & Hi & [(? & _ & _ & ->) | (_ & row & m & db1 & fin & Hf & Ha
                  & _ & _ & Hv & _ & Hg & Hins)]); [exact Hw |].
  apply insert_entry_Ok in Hins. destruct Hins as [_ ->].
  apply store_grown_tables in Hg. destruct Hg as (_ & Hr1 & He1 & _).
  pose proof (reservation_revision_Ok _ _ Hv) as (_ & _ & Hid & _).
  rewrite (row_payload_id _ _ _ Hwf Hf) in Hid. rewrite Hid.
  specialize (Hin _ _ Hi Hf). rewrite Forall_forall in Hin. unfold within_limits in *. rewrite Forall_forall in *.
  intros l Hl. specialize (Hw l Hl). specialize (Hin _ (limits_units _ Hl)).
  rewrite used_entry, (used_settle db db1 _ row) by (auto; apply Hwf). simpl.
  pose proof Hf as Hf'. apply find_reservation_Some in Hf'. destruct Hf' as [Hrow _].
  destruct (lw_rows _ (lw_tables _ Hwf) _ Hrow) as (_ & _ & Han & _).
  rewrite Han, <- Ha. case_decide; lia.
Qed.

(** Settling only gives units back. *)
Lemma settle_within db db1 row fin a l p :
  rows_wf db -> find_reservation db (r_reservation_id fin) = Some row ->
  validate_reservation_revision (rr_payload row) fin = Ok tt ->
  budget_reservations db1 = budget_reservations db ->
  budget_ledger_entries db1 = budget_ledger_entries db -> l ∈ LIMITS ->
  used db a l.1 <= l.2 p ->
  used (update_reservation db1 (r_reservation_id fin) (settle fin)) a l.1 <= l.2 p.
Proof.
  intros Hwf Hf Hv Hr1 He1 Hl Hw. rewrite (used_settle db db1 _ row) by auto.
  pose proof Hf as Hf'. apply find_reservation_Some in Hf'. destruct Hf' as [Hrow _].
  destruct (lw_rows _ Hwf _ Hrow) as (_ & _ & _ & Hu).
  pose proof (units_nonneg _ _ Hu (limits_units _ Hl)). case_decide; lia.
Qed.

(** Claiming and unclaiming use nothing. *)
Lemma used_mark db id g a f :
  keeps_row g -> used (update_reservation db id g) a f = used db a f.
Proof.
  intros Hg. unfold used, reserved_rows, ledger_entries. simpl. f_equal. f_equal. f_equal.
  induction (budget_reservations db) as [| row rows IH]; simpl; [reflexivity |].
  destruct (Hg row) as (_ & Ha & Hs & Hp & _).
  rewrite !filter_cons. case_bool_decide; simpl; rewrite ?Ha, ?Hs; case_decide; simpl;
    rewrite ?IH, ?Hp; reflexivity.
Qed.

Lemma ledger_step_within db db' a st p :
  ledger_wf db -> get_run db a = Ok st ->
  resolve_db db (RRun (s_execution_budget_profile_ref st)) false = Ok (RecExecution p) ->
  within_limits db a p -> ledger_step within_reservation db db' -> within_limits db' a p.
Proof.
  intros Hwf Hst Hp Hw [r r' H2 | e id t1 t2 e' Hin H2 | r r' H2 | ref q w r H2 | row c Hf Hc H2 | (_ & Hr & He & _)].
  - eapply reserve_within; eauto.
  - eapply commit_within; eauto.
  - apply release_Ok in H2.
    destruct H2 as (row & Hf & [(_ & _ & ->) | (_ & _ & _ & Hv & db1 & Hg & ->)]); [exact Hw |].
    apply store_grown_tables in Hg. destruct Hg as (_ & Hr1 & He1 & _).
    unfold within_limits in *. rewrite Forall_forall in *. intros l Hl. specialize (Hw l Hl).
    eapply settle_within; eauto; apply Hwf.
  - apply claim_reservation_Ok in H2. destruct H2 as [-> _]. unfold within_limits in *.
    eapply Forall_impl; [exact Hw |]. intros l Hl. rewrite used_mark; [exact Hl |].
    intros row'. auto.
  - apply retire_Ok in H2. destruct H2 as (Hv & db1 & Hg & ->). unfold within_limits in *.
    apply store_grown_tables in Hg. destruct Hg as (_ & Hr1 & He1 & _).
    rewrite Forall_forall in *. intros l Hl. specialize (Hw l Hl).
    rewrite used_mark by (intros row'; auto). eapply settle_within; eauto; apply Hwf.
  - unfold within_limits in *. eapply Forall_impl; [exact Hw |]. intros l Hl.
    rewrite (used_tables db) by assumption. exact Hl.
Qed.

Lemma ledger_step_runs P db db' :
  ledger_step P db db' -> forall a st, get_run db a = Ok st ->
    exists st', get_run db' a = Ok st'
      /\ s_execution_budget_profile_ref st' = s_execution_budget_profile_ref st.
Proof.
  intros [r r' H2 | e id t1 t2 e' _ H2 | r r' H2 | ref q w r H2 | row c _ _ H2 | (_ & _ & _ & Hrun)] a st Hst;
    [| | | | | auto]; exists st; (split; [| reflexivity]); unfold get_run in *.
  - apply reserve_Ok in H2. destruct H2 as (_ & [(row & _ & -> & _) | (_ & _ & _ & db1 & db2 & m
      & ref & items & Hg & _ & _ & Hsp & Hins)]); [exact Hst |].
    apply insert_reservation_Ok in Hins. destruct Hins as [_ ->].
    apply store_grown_tables in Hg. apply stage_publish_Ok, store_grown_tables in Hsp.
    simpl. destruct Hsp as (_ & _ & _ & ->), Hg as (_ & _ & _ & ->). exact Hst.
  - apply commit_usage_Ok in H2. destruct H2 as (_ & _ & _ & init & _ & [(old & _ & _ & ->) |
      (_ & row & m & db1 & fin & _ & _ & _ & _ & _ & _ & Hg & Hins)]); [exact Hst |].
    apply insert_entry_Ok in Hins. destruct Hins as [_ ->].
    apply store_grown_tables in Hg. simpl. destruct Hg as (_ & _ & _ & ->). exact Hst.
  - apply release_Ok in H2. destruct H2 as (row & _ & [(_ & _ & ->) | (_ & _ & _ & _ & db1 & Hg & ->)]);
      [exact Hst |]. apply store_grown_tables in Hg. simpl. destruct Hg as (_ & _ & _ & ->). exact Hst.
  - apply claim_reservation_Ok in H2. destruct H2 as [-> _]. exact Hst.
  - apply retire_Ok in H2. destruct H2 as (_ & db1 & Hg & ->).
    apply store_grown_tables in Hg. simpl. destruct Hg as (_ & _ & _ & ->). exact Hst.
Qed.

(** C1. A run's budget is never exceeded: while commits debit at most what was
    reserved, no history of reservations, commits, releases, claims and
    retirements takes
    the open reservations plus the ledger of an analysis above any of the five
    limits of the execution profile its run state pins. *)
Theorem budget_never_exceeded db db' a st p :
  ledger_wf db -> get_run db a = Ok st ->
  resolve_db db (RRun (s_execution_budget_profile_ref st)) false = Ok (RecExecution p) ->
  within_limits db a p -> rtc (ledger_step within_reservation) db db' ->
  within_limits db' a p.
Proof.
  intros Hwf Hst Hp Hw Hs. revert st Hst Hp Hw.
  induction Hs as [| db1 db2 db3 Hstep _ IH]; intros st Hst Hp Hw; [exact Hw |].
  destruct (ledger_step_runs _ _ _ Hstep _ _ Hst) as (st2 & Hst2 & Href).
  apply (IH (ledger_step_wf _ _ _ Hwf Hstep) st2 Hst2).
  - rewrite Href. eapply resolve_grown; [apply Hwf | eapply ledger_step_store; eauto | exact Hp].
  - eapply ledger_step_within; eauto.
Qed.
End effects.
