(* ===== verification/Dispatch.v ===== *)
(** * The external dispatch boundary

    [storage/dispatches.py] and [storage/lease_recovery.py], with the row
    [RuntimeValidator.claim_external] inserts and the update
    [RunControlStore] closes a cancelled request with: an external effect
    is sent at most once, an unknown outcome blocks its work, and only effects
    that were never sent are released. *)
From S2P Require Import Prelude Records CanonicalJson Store Work Actions Budget Runtime.
From S2P Require Import Registry Hierarchy Ledger.

(** ** Queries *)

(** [dispatched_at IS NOT NULL AND returned_at IS NULL AND reconciled_at IS NULL] *)
Definition unresolved (row : DispatchRow) : bool :=
  is_some (x_dispatched_at row) && is_none (x_returned_at row) && is_none (x_reconciled_at row).

(** [reject_uncertain] *)
Definition reject_uncertain (db : Db) (work_id : string) : result unit :=
  raise_if existsb (fun row => eqb (x_work_id row) work_id && unresolved row)
             (external_dispatches db)
    with "BLOCKED waiting_for=INPUT: external request outcome is unknown" ;;
  Ok tt.

(** [lease_recovery.uncertain] *)
Definition uncertain (db : Db) (work : WorkExecutionState) : bool :=
  existsb (fun row => eqb (x_work_id row) (w_work_id work) && unresolved row)
    (external_dispatches db).

(** [select(active_attempt_id).where(work_id == id, status == "RUNNING").scalar()] *)
Definition active_attempt (db : Db) (work_id : string) : option string :=
  match work_states db !! work_id with
  | Some row =>
      if eqb (w_status (wr_payload row)) RUNNING
      then w_active_attempt_id (wr_payload row) else None
  | None => None
  end.

Definition rows_of_decision (db : Db) (decision_ref : RecordRef) : list DispatchRow :=
  filter (fun row => x_decision_ref row = decision_ref) (external_dispatches db).

(** [.one()] *)
Definition one {A} (rows : list A) : result A :=
  match rows with
  | [] => Err NoResultFound
  | [row] => Ok row
  | _ => Err MultipleResultsFound
  end.

(** [update(external_dispatches).where(w).values(f)] with the number of rows it
    matched. *)
Definition update_dispatches (db : Db) (w : DispatchRow -> bool)
  (f : DispatchRow -> DispatchRow) : nat * Db :=
  (length (filter (fun row => w row = true) (external_dispatches db)),
   set_dispatches db (map (fun row => if w row then f row else row) (external_dispatches db))).

Definition set_dispatched (now : Z) (provider_request_id idempotency_key : option string)
  (r : DispatchRow) : DispatchRow :=
  mkDispatchRow (x_action_id r) (x_work_id r) (x_attempt_id r) (x_decision_ref r)
    (x_reservation_ref r) (x_prepared_at r) (Some now) (x_returned_at r)
    provider_request_id idempotency_key (x_reconciled_at r).
Definition set_returned (now : Z) (r : DispatchRow) : DispatchRow :=
  mkDispatchRow (x_action_id r) (x_work_id r) (x_attempt_id r) (x_decision_ref r)
    (x_reservation_ref r) (x_prepared_at r) (x_dispatched_at r) (Some now)
    (x_provider_request_id r) (x_idempotency_key r) (x_reconciled_at r).
Definition set_reconciled (now : Z) (r : DispatchRow) : DispatchRow :=
  mkDispatchRow (x_action_id r) (x_work_id r) (x_attempt_id r) (x_decision_ref r)
    (x_reservation_ref r) (x_prepared_at r) (x_dispatched_at r) (x_returned_at r)
    (x_provider_request_id r) (x_idempotency_key r) (Some now).

(** ** Operations *)

(** The row [claim_external] inserts under the primary key [action_id]. *)
Definition insert_dispatch (db : Db) (action_id work_id attempt_id : string)
  (decision_ref reservation_ref : RecordRef) (now : Z) : result Db :=
  if mem action_id (map x_action_id (external_dispatches db)) then Err IntegrityError
  else Ok (set_dispatches db
             (external_dispatches db
              ++ [mkDispatchRow action_id work_id attempt_id decision_ref reservation_ref now
                    None None None None None])).

(** [RuntimeValidator.require_unresolved_dispatch] *)
Definition require_unresolved_dispatch (db : Db) (work_id attempt_id : string)
  (decision_ref : RecordRef) (action_id : string) : result unit :=
  raise_if match head (rows_of_decision db decision_ref) with
           | None => true
           | Some row =>
               neqb (x_work_id row) work_id || neqb (x_attempt_id row) attempt_id
               || neqb (x_action_id row) action_id || is_none (x_dispatched_at row)
               || is_some (x_returned_at row) || is_some (x_reconciled_at row)
               || neqb (active_attempt db work_id) (Some attempt_id)
           end
    with "EXTERNAL_DISPATCH_MISMATCH" ;;
  Ok tt.

(** [mark_dispatched] *)
Definition mark_dispatched (db : Db) (decision_ref : RecordRef)
  (provider_request_id idempotency_key : option string) (now : Z) : result Db :=
  let! row := one (rows_of_decision db decision_ref) in
  do! reject_uncertain db (x_work_id row) ;;
  raise_if neqb (active_attempt db (x_work_id row)) (Some (x_attempt_id row))
    with "ATTEMPT_NOT_ACTIVE" ;;
  let (rowcount, db) :=
    update_dispatches db
      (fun r => eqb (x_action_id r) (x_action_id row) && is_none (x_dispatched_at r))
      (set_dispatched now provider_request_id idempotency_key) in
  raise_if negb (rowcount =? 1)%nat with "ACTION_ALREADY_USED" ;;
  Ok db.

(** [mark_returned] *)
Definition mark_returned (db : Db) (decision_ref : RecordRef) (now : Z) : result Db :=
  let (rowcount, db) :=
    update_dispatches db
      (fun r => eqb (x_decision_ref r) decision_ref
                && is_some (x_dispatched_at r) && is_none (x_returned_at r))
      (set_returned now) in
  raise_if negb (rowcount =? 1)%nat with "EXTERNAL_DISPATCH_MISMATCH" ;;
  Ok db.

(** The update of [RunControlStore.reconcile_cancellation] for a cancelled
    request whose outcome the host observed. *)
Definition reconcile_dispatch (db : Db) (work_id attempt_id : string) (issued : RecordRef)
  (now : Z) : result Db :=
  let (rowcount, db) :=
    update_dispatches db
      (fun r => eqb (x_work_id r) work_id && eqb (x_attempt_id r) attempt_id
                && eqb (x_decision_ref r) issued && unresolved r)
      (set_reconciled now) in
  raise_if negb (rowcount =? 1)%nat with "CANCELLATION_DISPATCH_CAS_FAILED" ;;
  Ok db.

(** [str(work.active_attempt_id)] *)
Definition attempt_text (work : WorkExecutionState) : string :=
  match w_active_attempt_id work with Some id => id | None => "None" end.

Section recovery.
Context `{Codec}.

(** Whether the reservation is for a dispatch recovery must not release. *)
Definition performed (db : Db) (work : WorkExecutionState) (action_id : string) : bool :=
  match find (fun r => eqb (x_action_id r) action_id) (external_dispatches db) with
  | Some d => is_some (x_dispatched_at d) || neqb (x_attempt_id d) (attempt_text work)
  | None => false
  end.

(** One reservation of [retire_undispatched]; [tick] supplies the fresh record
    id and the three clock readings of its iteration. *)
Definition retire_reservation (tick : string -> string * Z * Z * Z) (work : WorkExecutionState)
  (db : Db) (row : ReservationRow) : result Db :=
  let reservation := rr_payload row in
  let! work_ref := reference (RecWork work) in
  if neqb (scope_ref (r_work_ref reservation)) work_ref then Ok db
  else
    let! action := resolve_db db (r_action_ref reservation) false in
    match action with
    | RecAction action =>
        if negb (mem (q_action_type action) EXTERNAL_ACTIONS)
           || performed db work (q_action_id action)
        then Ok db
        else
          let '(id, meta_now, now, reconciled_now) := tick (r_reservation_id reservation) in
          let! released := finalized_reservation reservation id meta_now now R_RELEASED
                             (r_ledger_entry_ref reservation) in
          let! db := retire db reservation released in
          Ok (snd (update_dispatches db
                     (fun r => eqb (x_action_id r) (q_action_id action))
                     (set_reconciled reconciled_now)))
    | _ => Ok db
    end.

(** [retire_undispatched] *)
Definition retire_undispatched (tick : string -> string * Z * Z * Z) (db : Db)
  (work : WorkExecutionState) : result Db :=
  fold_result (retire_reservation tick work) db
    (filter (fun row => rr_analysis_id row = rm_analysis_id (w_meta work)
                        /\ rr_status row = R_RESERVED)
       (budget_reservations db)).
End recovery.

(** ** The dispatch table *)

Section dispatch_laws.
Context `{CodecLaws} `{TrustedEvidence}.
Implicit Types (db : Db) (x : DispatchRow).

(** The table under its primary key, with at most one request in flight per
    work. *)
Record dispatch_wf db : Prop := {
  dw_ids : NoDup (map x_action_id (external_dispatches db));
  dw_flight x x' :
    x ∈ external_dispatches db -> x' ∈ external_dispatches db ->
    unresolved x = true -> unresolved x' = true -> x_work_id x = x_work_id x' -> x = x';
}.

(** What later updates leave of a row: its identity, and once sent its send. *)
Record row_keeps x x' : Prop := {
  rk_action : x_action_id x' = x_action_id x;
  rk_work : x_work_id x' = x_work_id x;
  rk_attempt : x_attempt_id x' = x_attempt_id x;
  rk_decision : x_decision_ref x' = x_decision_ref x;
  rk_sent : x_dispatched_at x <> None ->
    x_dispatched_at x' = x_dispatched_at x
    /\ x_provider_request_id x' = x_provider_request_id x
    /\ x_idempotency_key x' = x_idempotency_key x;
  rk_closed : x_dispatched_at x <> None -> unresolved x = false -> unresolved x' = false;
}.

#[local] Instance row_keeps_preorder : PreOrder row_keeps.
Proof.
  split; [intros x; split; auto |].
  intros x y z [A1 B1 C1 D1 E1 F1] [A2 B2 C2 D2 E2 F2]. split; try congruence.
  - intros Hs. destruct (E1 Hs) as (H2 & H3 & H4). destruct E2 as (? & ? & ?); [congruence |].
    repeat split; congruence.
  - intros Hs Hu. destruct (E1 Hs) as (H2 & _). apply F2; [congruence | auto].
Qed.

Lemma update_elem db w f x :
  x ∈ external_dispatches (snd (update_dispatches db w f)) <->
  exists x0, x0 ∈ external_dispatches db /\ x = if w x0 then f x0 else x0.
Proof. simpl. rewrite list_elem_of_fmap. naive_solver. Qed.

Definition keeps_identity (f : DispatchRow -> DispatchRow) : Prop :=
  forall x, x_action_id (f x) = x_action_id x /\ x_work_id (f x) = x_work_id x.

Lemma update_ids_dispatch db w f :
  keeps_identity f ->
  map x_action_id (external_dispatches (snd (update_dispatches db w f)))
  = map x_action_id (external_dispatches db).
Proof.
  intros Hf. simpl. rewrite map_map. apply map_ext. intros x.
  destruct (w x); [apply Hf | reflexivity].
Qed.

(** An update that closes the rows it writes keeps the table well formed. *)
Lemma update_closing_wf db w f :
  keeps_identity f -> (forall x, unresolved (f x) = false) -> dispatch_wf db ->
  dispatch_wf (snd (update_dispatches db w f)).
Proof.
  intros Hk Hc [Hids Hfl]. split; [rewrite update_ids_dispatch by exact Hk; exact Hids |].
  intros x x' Hx Hx' Hu Hu' Hw. apply update_elem in Hx, Hx'.
  destruct Hx as (y & Hy & ->), Hx' as (y' & Hy' & ->).
  destruct (w y); [rewrite Hc in Hu; discriminate |].
  destruct (w y'); [rewrite Hc in Hu'; discriminate |]. auto.
Qed.

Lemma set_returned_closed t x : unresolved (set_returned t x) = false.
Proof. unfold unresolved. simpl. rewrite andb_false_r. reflexivity. Qed.
Lemma set_reconciled_closed t x : unresolved (set_reconciled t x) = false.
Proof. unfold unresolved. simpl. apply andb_false_r. Qed.

Lemma reject_uncertain_Ok db work_id :
  reject_uncertain db work_id = Ok tt ->
  forall x, x ∈ external_dispatches db -> x_work_id x = work_id -> unresolved x = false.
Proof.
  unfold reject_uncertain. intros Hr. apply raise_if_Ok in Hr. destruct Hr as [Hr _].
  intros x Hx Hw. apply not_true_iff_false. intros Hu.
  apply not_true_iff_false in Hr. apply Hr, existsb_exists. exists x.
  split; [apply list_elem_of_In, Hx |]. rewrite Hu, bool_decide_true by exact Hw. reflexivity.
Qed.

Lemma rows_of_decision_elem db d x :
  x ∈ rows_of_decision db d <-> x_decision_ref x = d /\ x ∈ external_dispatches db.
Proof. unfold rows_of_decision. rewrite list_elem_of_filter. reflexivity. Qed.

Lemma same_action db x y :
  dispatch_wf db -> x ∈ external_dispatches db -> y ∈ external_dispatches db ->
  x_action_id x = x_action_id y -> x = y.
Proof. intros Hwf. apply NoDup_map_inj, Hwf. Qed.

Lemma mark_dispatched_Ok db d p k t db' :
  dispatch_wf db -> mark_dispatched db d p k t = Ok db' ->
  exists x, rows_of_decision db d = [x] /\ x ∈ external_dispatches db /\ x_dispatched_at x = None
    /\ (forall y, y ∈ external_dispatches db -> x_work_id y = x_work_id x -> unresolved y = false)
    /\ active_attempt db (x_work_id x) = Some (x_attempt_id x)
    /\ db' = snd (update_dispatches db
                   (fun r => eqb (x_action_id r) (x_action_id x) && is_none (x_dispatched_at r))
                   (set_dispatched t p k)).
Proof.
  unfold mark_dispatched. intros Hwf Hm. apply rbind_Ok in Hm. destruct Hm as (x & Hone & Hm).
  apply rbind_Ok in Hm. destruct Hm as ([] & Hrej & Hm).
  apply raise_if_Ok in Hm. destruct Hm as [Hact Hm]. simpl in Hm.
  apply raise_if_Ok in Hm. destruct Hm as [Hcount Hm]. injection Hm as <-. boolify.
  destruct (rows_of_decision db d) as [| x' []] eqn:Hrows; try discriminate.
  injection Hone as ->. exists x. split; [reflexivity |].
  assert (Hx : x ∈ external_dispatches db)
    by (apply (rows_of_decision_elem db d); rewrite Hrows; left).
  destruct (filter _ _) as [| y l] eqn:Hfilter in Hcount; [discriminate |].
  assert (Hy : y ∈ y :: l) by left. rewrite <- Hfilter in Hy. apply list_elem_of_filter in Hy.
  destruct Hy as [Hy Hyin]. boolify. destruct Hy as [Hid Hnone].
  apply (same_action db) in Hid; auto. subst y. do 2 (split; [assumption |]).
  split; [exact (reject_uncertain_Ok _ _ Hrej) |]. auto.
Qed.

Lemma mark_dispatched_wf db d p k t db' :
  dispatch_wf db -> mark_dispatched db d p k t = Ok db' -> dispatch_wf db'.
Proof.
  intros Hwf Hm. apply mark_dispatched_Ok in Hm; [| exact Hwf].
  destruct Hm as (x & _ & Hx & _ & Hquiet & _ & ->). split.
  - rewrite update_ids_dispatch; [apply Hwf |]. intros y. split; reflexivity.
  - assert (Hcase : forall y, y ∈ external_dispatches (snd (update_dispatches db
              (fun r => eqb (x_action_id r) (x_action_id x) && is_none (x_dispatched_at r))
              (set_dispatched t p k))) -> unresolved y = true -> x_work_id y = x_work_id x ->
              y = set_dispatched t p k x).
    { intros y Hy Hu Hw. apply update_elem in Hy. destruct Hy as (y0 & Hy0 & ->).
      destruct (_ && _) eqn:Hc.
      - boolify. destruct Hc as [Hid _]. apply (same_action db) in Hid; auto. congruence.
      - rewrite (Hquiet y0 Hy0 Hw) in Hu. discriminate. }
    intros y y' Hy Hy' Hu Hu' Hw.
    destruct (decide (x_work_id y = x_work_id x)) as [Hwx | Hwx].
    + rewrite (Hcase y), (Hcase y'); congruence.
    + assert (Hold : forall z, z ∈ external_dispatches (snd (update_dispatches db
                (fun r => eqb (x_action_id r) (x_action_id x) && is_none (x_dispatched_at r))
                (set_dispatched t p k))) -> x_work_id z <> x_work_id x ->
                z ∈ external_dispatches db).
      { intros z Hz Hzw. apply update_elem in Hz. destruct Hz as (z0 & Hz0 & ->).
        destruct (_ && _) eqn:Hc; [| exact Hz0]. boolify. destruct Hc as [Hid _].
        apply (same_action db) in Hid; auto. subst z0. destruct (Hzw eq_refl). }
      apply (dw_flight _ Hwf); auto. apply Hold; congruence.
Qed.

Lemma insert_dispatch_wf db a w t d r now db' :
  dispatch_wf db -> insert_dispatch db a w t d r now = Ok db' -> dispatch_wf db'.
Proof.
  intros [Hids Hfl] Hi. unfold insert_dispatch in Hi. destruct (mem _ _) eqn:Hm; [discriminate |].
  injection Hi as <-. apply mem_false in Hm. split; simpl.
  - rewrite map_app. apply NoDup_app. split; [exact Hids |]. split; [| apply NoDup_singleton].
    intros x Hx Hx'. apply list_elem_of_singleton in Hx'. simpl in Hx'. congruence.
  - intros x x' Hx Hx' Hu Hu' Hw. apply elem_of_app in Hx, Hx'.
    rewrite list_elem_of_singleton in Hx, Hx'.
    destruct Hx as [Hx | ->]; [| discriminate]. destruct Hx' as [Hx' | ->]; [| discriminate]. auto.
Qed.

(** ** Recovery *)

(** A dispatch row the recovery may have closed. *)
Definition closes x x' : Prop :=
  x' = x \/ x_dispatched_at x = None /\ exists t, x' = set_reconciled t x.
Definition reconciles db db' : Prop :=
  Forall2 closes (external_dispatches db) (external_dispatches db').

#[local] Instance closes_preorder : PreOrder closes.
Proof.
  split; [intros x; left; reflexivity |]. intros x y z [-> | (Hx & t & ->)] Hyz; [exact Hyz |].
  right. split; [exact Hx |]. destruct Hyz as [-> | (_ & u & ->)]; [eauto |]. exists u. reflexivity.
Qed.

#[local] Instance reconciles_preorder : PreOrder reconciles.
Proof.
  unfold reconciles. split; [intros db; reflexivity |].
  intros db1 db2 db3 H12 H23. etransitivity; eassumption.
Qed.

Lemma reconciles_same db db' : external_dispatches db' = external_dispatches db -> reconciles db db'.
Proof. intros Heq. unfold reconciles. rewrite Heq. apply (reflexivity (R := reconciles) db). Qed.

Lemma reconciles_ids db db' :
  reconciles db db' ->
  map x_action_id (external_dispatches db') = map x_action_id (external_dispatches db).
Proof.
  unfold reconciles. induction 1 as [| x x' l l' Hc _ IH]; simpl; [reflexivity |].
  destruct Hc as [-> | (_ & t & ->)]; simpl; congruence.
Qed.

Lemma reconciles_performed db db' w id :
  reconciles db db' -> performed db' w id = performed db w id.
Proof.
  unfold reconciles, performed. induction 1 as [| x x' l l' Hc _ IH]; simpl; [reflexivity |].
  destruct Hc as [-> | (_ & t & ->)]; simpl; case_bool_decide; auto.
Qed.

Lemma reconciles_wf db db' : reconciles db db' -> dispatch_wf db -> dispatch_wf db'.
Proof.
  intros Hr [Hids Hfl]. split; [rewrite (reconciles_ids _ _ Hr); exact Hids |].
  assert (Hold : forall x', x' ∈ external_dispatches db' -> unresolved x' = true ->
                   x' ∈ external_dispatches db).
  { intros x' Hx' Hu. apply list_elem_of_lookup in Hx'. destruct Hx' as [i Hi].
    destruct (Forall2_lookup_r _ _ _ _ _ Hr Hi) as (x & Hx & [-> | (_ & t & ->)]).
    - apply list_elem_of_lookup. eauto.
    - rewrite set_reconciled_closed in Hu. discriminate. }
  intros x x' Hx Hx' Hu Hu'. apply Hfl; auto.
Qed.

Lemma reconciles_sent db db' x :
  reconciles db db' -> x ∈ external_dispatches db -> x_dispatched_at x <> None ->
  x ∈ external_dispatches db'.
Proof.
  intros Hr Hx Hs. apply list_elem_of_lookup in Hx. destruct Hx as [i Hi].
  destruct (Forall2_lookup_l _ _ _ _ _ Hr Hi) as (x' & Hx' & [-> | (Hn & _)]); [| congruence].
  apply list_elem_of_lookup. eauto.
Qed.

(** Closing the rows of an action recovery may release. *)
Lemma update_reconciles db work id t :
  NoDup (map x_action_id (external_dispatches db)) -> performed db work id = false ->
  reconciles db (snd (update_dispatches db (fun r => eqb (x_action_id r) id) (set_reconciled t))).
Proof.
  unfold reconciles, performed. simpl. induction (external_dispatches db) as [| x l IH]; simpl;
    intros Hnd Hp; [constructor |].
  apply NoDup_cons in Hnd. destruct Hnd as [Hx Hnd]. case_bool_decide as Hid.
  - constructor.
    + right. apply orb_false_iff in Hp. destruct Hp as [Hp _]. apply is_some_false in Hp. eauto.
    + replace (map _ l) with l; [reflexivity |].
      clear - Hx Hid. induction l as [| y l IH]; simpl; [reflexivity |].
      rewrite bool_decide_false; [f_equal; apply IH; intros Hin; apply Hx; right; exact Hin |].
      intros Hy. apply Hx. rewrite Hid, <- Hy. left.
  - constructor; [left; reflexivity |]. apply IH; [exact Hnd | exact Hp].
Qed.

(** The reservation is for this work and its action, as the store of [db']
    resolves it, an external effect that was never sent. *)
Definition releasable db db' (work : WorkExecutionState) (row : ReservationRow) : Prop :=
  reference (RecWork work) = Ok (scope_ref (r_work_ref (rr_payload row)))
  /\ exists action, resolve_db db' (r_action_ref (rr_payload row)) false = Ok (RecAction action)
       /\ q_action_type action ∈ EXTERNAL_ACTIONS
       /\ performed db work (q_action_id action) = false.

Definition retired (row : ReservationRow) : Prop :=
  rr_status row = R_RELEASED /\ r_status (rr_payload row) = R_RELEASED /\ rr_claimed row = false.

Lemma store_grown_dispatches db db' :
  store_grown db db' -> external_dispatches db' = external_dispatches db.
Proof. intros (s & -> & _). reflexivity. Qed.

(** The tables [retire_undispatched] leaves alone. *)
Record quiet P db db' : Prop := {
  qt_ledger : rtc (ledger_step P) db db';
  qt_works : work_states db' = work_states db;
  qt_attempts : work_attempts db' = work_attempts db;
  qt_controls : run_controls db' = run_controls db;
  qt_commits : transition_commits db' = transition_commits db;
}.

#[export] Instance quiet_preorder P : PreOrder (quiet P).
Proof.
  split; [intros db; split; reflexivity |].
  intros x y z [] []. split; [etransitivity; eassumption | congruence ..].
Qed.

(** One iteration is at most one retirement, of its own row. *)
Lemma retire_reservation_quiet P tick work db row db' :
  ledger_wf db -> find_reservation db (rr_reservation_id row) = Some row ->
  retire_reservation tick work db row = Ok db' ->
  quiet P db db'
  /\ forall id, id <> rr_reservation_id row -> find_reservation db' id = find_reservation db id.
Proof.
  intros Hwf Hf Hr. unfold retire_reservation in Hr.
  apply rbind_Ok in Hr. destruct Hr as (wref & _ & Hr).
  destruct (neqb (scope_ref (r_work_ref (rr_payload row))) wref);
    [injection Hr as <-; split; [reflexivity | auto] |].
  apply rbind_Ok in Hr. destruct Hr as (action & _ & Hr).
  destruct action as [| | | | action | | | | | | | | | | | | | |];
    try (injection Hr as <-; split; [reflexivity | auto]).
  destruct (negb _ || _); [injection Hr as <-; split; [reflexivity | auto] |].
  destruct (tick _) as [[[id mnow] now] rnow]. apply rbind_Ok in Hr.
  destruct Hr as (fin & Hfin & Hr). apply rbind_Ok in Hr. destruct Hr as (db1 & Hret & Hr).
  set (db2 := snd (update_dispatches db1 _ _)) in Hr. assert (db' = db2) as -> by congruence.
  clear Hr. apply finalized_reservation_Ok in Hfin.
  pose proof (retire_Ok _ _ _ _ Hret) as (Hv & db0 & Hg & Hdb1).
  pose proof (row_payload_id _ _ _ Hwf Hf) as Hpid.
  pose proof (reservation_revision_Ok _ _ Hv) as (_ & _ & Hid & _).
  split.
  - assert (Hkeep : work_states db1 = work_states db /\ work_attempts db1 = work_attempts db
                    /\ run_controls db1 = run_controls db
                    /\ transition_commits db1 = transition_commits db).
    { rewrite Hdb1. destruct Hg as (s & -> & _). auto. }
    destruct Hkeep as (H5 & H6 & H7 & H8). split; [| exact H5 | exact H6 | exact H7 | exact H8].
    eapply rtc_l; [eapply (ls_retire _ _ _ row fin); [congruence | exact Hfin | exact Hret] |].
    apply rtc_once, ls_env. split; [reflexivity |]. split; [reflexivity |]. split; [reflexivity |].
    eauto.
  - intros id' Hne. change (find_reservation db2 id') with (find_reservation db1 id').
    rewrite Hdb1, find_update by apply mark_unclaimed_id.
    rewrite settle_find, bool_decide_false by congruence.
    apply find_unchanged. apply store_grown_tables in Hg. apply Hg.
Qed.

Lemma retire_undispatched_quiet P tick work db db' :
  ledger_wf db -> retire_undispatched tick db work = Ok db' -> quiet P db db'.
Proof.
  intros Hwf Hr. unfold retire_undispatched in Hr. set (rows := filter _ _) in Hr.
  assert (Hnd : NoDup (map rr_reservation_id rows)).
  { eapply sublist_NoDup; [apply (lw_ids _ (lw_tables _ Hwf)) |].
    apply (fmap_sublist rr_reservation_id). apply sublist_filter. }
  assert (Hfind : forall row, row ∈ rows -> find_reservation db (rr_reservation_id row) = Some row).
  { intros row Hin. unfold rows in Hin. rewrite list_elem_of_filter in Hin.
    apply find_reservation_elem; [apply Hwf | apply Hin]. }
  clearbody rows. revert db Hwf Hr Hfind. induction rows as [| row rows IH]; intros db Hwf Hr Hfind.
  { injection Hr as <-. reflexivity. }
  simpl in Hr, Hnd. apply rbind_Ok in Hr. destruct Hr as (db1 & Hone & Hr).
  apply NoDup_cons in Hnd. destruct Hnd as [Hout Hnd].
  apply (retire_reservation_quiet P) in Hone; [| exact Hwf | apply Hfind; left].
  destruct Hone as [Hre Hother]. etransitivity; [exact Hre |].
  apply (IH Hnd); [exact (ledger_steps_wf _ _ _ (qt_ledger _ _ _ Hre) Hwf) | exact Hr |].
  intros row' Hin. rewrite Hother; [apply Hfind; right; exact Hin |].
  intros Heq. apply Hout. rewrite <- Heq. apply list_elem_of_fmap_2, Hin.
Qed.

(** One iteration: the row is retired or left alone, and nothing else about the
    reservations changes. *)
Lemma retire_reservation_Ok tick work db row db' :
  ledger_wf db -> NoDup (map x_action_id (external_dispatches db)) ->
  find_reservation db (rr_reservation_id row) = Some row ->
  retire_reservation tick work db row = Ok db' ->
  rtc (ledger_step any_commit) db db' /\ reconciles db db'
  /\ (forall id, id <> rr_reservation_id row ->
        find_reservation db' id = find_reservation db id)
  /\ (releasable db db' work row /\ (exists row',
         find_reservation db' (rr_reservation_id row) = Some row' /\ retired row')
      \/ ~ releasable db db' work row /\ find_reservation db' (rr_reservation_id row) = Some row).
Proof.
  intros Hwf Hnd Hf Hr. unfold retire_reservation in Hr.
  apply rbind_Ok in Hr. destruct Hr as (wref & Hwref & Hr).
  assert (Hsame : forall (Hno : ~ releasable db db work row), Ok db = Ok db' ->
    rtc (ledger_step any_commit) db db' /\ reconciles db db'
    /\ (forall id, id <> rr_reservation_id row ->
          find_reservation db' id = find_reservation db id)
    /\ (releasable db db' work row /\ (exists row',
           find_reservation db' (rr_reservation_id row) = Some row' /\ retired row')
        \/ ~ releasable db db' work row /\ find_reservation db' (rr_reservation_id row) = Some row)).
  { intros Hno [= <-]. split; [constructor |]. split; [reflexivity |]. auto. }
  destruct (neqb (scope_ref (r_work_ref (rr_payload row))) wref) eqn:Hw.
  { apply Hsame in Hr; [exact Hr |]. intros [H2 _]. boolify. congruence. }
  apply rbind_Ok in Hr. destruct Hr as (action & Hact & Hr).
  destruct action as [| | | | action | | | | | | | | | | | | | |];
    try (apply Hsame in Hr; [exact Hr |]; intros (_ & act & Ha & _); congruence).
  destruct (negb _ || performed db work (q_action_id action)) eqn:Hskip.
  { apply Hsame in Hr; [exact Hr |]. intros (_ & a & Ha & Hext & Hperf).
    rewrite Hact in Ha. injection Ha as <-. apply orb_true_iff in Hskip.
    destruct Hskip as [Hs | Hs]; [boolify; contradiction | congruence]. }
  apply orb_false_iff in Hskip. destruct Hskip as [Hext Hperf].
  destruct (tick _) as [[[id mnow] now] rnow]. apply rbind_Ok in Hr.
  destruct Hr as (fin & Hfin & Hr). apply rbind_Ok in Hr. destruct Hr as (db1 & Hret & Hr).
  set (db2 := snd (update_dispatches db1 _ _)) in Hr. assert (db' = db2) as -> by congruence.
  clear Hr Hsame. apply finalized_reservation_Ok in Hfin.
  pose proof (retire_Ok _ _ _ _ Hret) as (Hv & db0 & Hg & Hdb1).
  pose proof (row_payload_id _ _ _ Hwf Hf) as Hpid.
  pose proof (reservation_revision_Ok _ _ Hv) as (_ & _ & Hid & _).
  assert (Hstep : ledger_step any_commit db db1).
  { eapply (ls_retire _ _ _ row fin); [congruence | exact Hfin | exact Hret]. }
  assert (Henv : ledger_step any_commit db1 db2).
  { apply ls_env. split; [reflexivity |]. split; [reflexivity |]. split; [reflexivity |]. eauto. }
  assert (Hsteps : rtc (ledger_step any_commit) db db2) by (eapply rtc_l; [exact Hstep | apply rtc_once, Henv]).
  split; [exact Hsteps |].
  assert (Hx1 : external_dispatches db1 = external_dispatches db)
    by (rewrite Hdb1; exact (store_grown_dispatches _ _ Hg)).
  split; [| split].
  - transitivity db1; [apply reconciles_same, Hx1 |]. apply (update_reconciles db1 work).
    + rewrite Hx1. exact Hnd.
    + rewrite <- Hperf. apply reconciles_performed, reconciles_same, Hx1.
  - intros id' Hne. change (find_reservation db2 id') with (find_reservation db1 id').
    rewrite Hdb1, find_update by apply mark_unclaimed_id.
    rewrite settle_find, bool_decide_false by congruence.
    apply find_unchanged. apply store_grown_tables in Hg. apply Hg.
  - left. split.
    + split; [boolify; congruence |]. exists action. split; [| boolify; auto].
      eapply resolve_grown; [apply Hwf | eapply ledger_steps_store; exact Hsteps | exact Hact].
    + change (find_reservation db2 (rr_reservation_id row))
        with (find_reservation db1 (rr_reservation_id row)).
      rewrite Hdb1, find_update by apply mark_unclaimed_id.
      rewrite settle_find, bool_decide_true by congruence.
      rewrite (find_unchanged db) by (apply store_grown_tables in Hg; apply Hg).
      rewrite Hf. simpl. eexists. split; [reflexivity |]. repeat split; exact Hfin.
Qed.

(** Resolving the action of a row once decides it for all later stores. *)
Lemma releasable_later db1 db2 db3 work row :
  reconciles db1 db2 ->
  (releasable db2 db3 work row <-> releasable db1 db3 work row).
Proof.
  intros Hr. unfold releasable. split; intros (Hw & a & Ha & He & Hp); (split; [exact Hw |]);
    exists a; (split; [exact Ha |]); (split; [exact He |]).
  - rewrite <- (reconciles_performed _ _ work (q_action_id a) Hr). exact Hp.
  - rewrite (reconciles_performed _ _ work (q_action_id a) Hr). exact Hp.
Qed.

Lemma releasable_resolved db db1 db' tick work row :
  db_wf db1 -> rtc (store_step (R := Rec)) (db_store db1) (db_store db') ->
  retire_reservation tick work db row = Ok db1 ->
  rtc (store_step (R := Rec)) (db_store db) (db_store db1) -> db_wf db ->
  (releasable db db1 work row <-> releasable db db' work row).
Proof.
  intros Hwf1 Hs1 Hr Hs Hwf. unfold retire_reservation in Hr.
  apply rbind_Ok in Hr. destruct Hr as (wref & Hwref & Hr).
  destruct (neqb (scope_ref (r_work_ref (rr_payload row))) wref) eqn:Hw.
  { split; intros [Hx _]; boolify; congruence. }
  apply rbind_Ok in Hr. destruct Hr as (action & Hact & _).
  pose proof (resolve_grown _ _ _ _ _ Hwf Hs Hact) as Hact1.
  pose proof (resolve_grown _ _ _ _ _ Hwf1 Hs1 Hact1) as Hact'.
  split; intros (Hx & a & Ha & Hrest); (split; [exact Hx |]); exists a; (split; [congruence | exact Hrest]).
Qed.

Lemma retire_rows_Ok tick work rows : forall db db',
  ledger_wf db -> NoDup (map x_action_id (external_dispatches db)) ->
  NoDup (map rr_reservation_id rows) ->
  (forall row, row ∈ rows -> find_reservation db (rr_reservation_id row) = Some row) ->
  fold_result (retire_reservation tick work) db rows = Ok db' ->
  rtc (ledger_step any_commit) db db' /\ reconciles db db'
  /\ (forall id, id ∉ map rr_reservation_id rows ->
        find_reservation db' id = find_reservation db id)
  /\ (forall row, row ∈ rows ->
        releasable db db' work row /\ (exists row',
          find_reservation db' (rr_reservation_id row) = Some row' /\ retired row')
        \/ ~ releasable db db' work row
           /\ find_reservation db' (rr_reservation_id row) = Some row).
Proof.
  induction rows as [| row rows IH]; intros db db' Hwf Hnd Hrows Hfind Hf.
  { injection Hf as <-. split; [constructor |]. split; [reflexivity |].
    split; [auto |]. intros row Hin. inversion Hin. }
  simpl in Hf, Hrows. apply rbind_Ok in Hf. destruct Hf as (db1 & Hone & Hf).
  apply NoDup_cons in Hrows. destruct Hrows as [Hout Hrows].
  pose proof Hone as Hone'.
  apply retire_reservation_Ok in Hone; [| exact Hwf | exact Hnd | apply Hfind; left].
  destruct Hone as (Hsteps & Hrec & Hother & Hrow).
  pose proof (ledger_steps_wf _ _ _ Hsteps Hwf) as Hwf1.
  assert (Hne : forall row', row' ∈ rows -> rr_reservation_id row' <> rr_reservation_id row).
  { intros row' Hin Heq. apply Hout. rewrite <- Heq. apply list_elem_of_fmap_2, Hin. }
  apply IH in Hf; [| exact Hwf1 | rewrite (reconciles_ids _ _ Hrec); exact Hnd | exact Hrows |].
  2:{ intros row' Hin. rewrite Hother by auto. apply Hfind. right. exact Hin. }
  destruct Hf as (Hsteps' & Hrec' & Hother' & Hrows').
  split; [etransitivity; eassumption |]. split; [etransitivity; eassumption |]. split.
  - intros id Hid. simpl in Hid. rewrite Hother', Hother; [reflexivity | |]; set_solver.
  - intros row' Hin. apply elem_of_cons in Hin. destruct Hin as [-> | Hin].
    + rewrite Hother' by exact Hout.
      rewrite <- (releasable_resolved db db1 db' tick work row); [exact Hrow | apply Hwf1 | | exact Hone'
        | exact (ledger_steps_store _ _ _ Hsteps) | apply Hwf].
      exact (ledger_steps_store _ _ _ Hsteps').
    + rewrite <- (releasable_later db db1 db' work row' Hrec). auto.
Qed.

(** Lease recovery releases exactly what was never sent: every RESERVED
    reservation of the work for an external action without a performed
    dispatch ends RELEASED and unclaimed, every other reservation and every
    dispatched request stays exactly as it was. *)
Theorem recovery_releases_unsent tick work db db' :
  ledger_wf db -> dispatch_wf db -> retire_undispatched tick db work = Ok db' ->
  (forall x, x ∈ external_dispatches db -> x_dispatched_at x <> None ->
     x ∈ external_dispatches db')
  /\ forall id row, find_reservation db id = Some row ->
       let due := rr_analysis_id row = rm_analysis_id (w_meta work)
                  /\ rr_status row = R_RESERVED /\ releasable db db' work row in
       due /\ (exists row', find_reservation db' id = Some row' /\ retired row')
       \/ ~ due /\ find_reservation db' id = Some row.
Proof.
  intros Hwf Hx Hr. unfold retire_undispatched in Hr.
  set (rows := filter _ _) in Hr.
  assert (Hrows : forall row, row ∈ rows <->
            (rr_analysis_id row = rm_analysis_id (w_meta work) /\ rr_status row = R_RESERVED)
            /\ row ∈ budget_reservations db)
    by (intros row; unfold rows; rewrite list_elem_of_filter; reflexivity).
  apply retire_rows_Ok in Hr; [| exact Hwf | apply Hx | |].
  2:{ eapply sublist_NoDup; [apply (lw_ids _ (lw_tables _ Hwf)) |].
      apply (fmap_sublist rr_reservation_id). apply sublist_filter. }
  2:{ intros row Hin. apply find_reservation_elem; [apply Hwf |]. apply Hrows, Hin. }
  destruct Hr as (_ & Hrec & Hother & Hall). split; [intros x; apply reconciles_sent, Hrec |].
  intros id row Hf due. pose proof Hf as Hf'. apply find_reservation_Some in Hf'.
  destruct Hf' as [Hin <-].
  destruct (decide (rr_analysis_id row = rm_analysis_id (w_meta work)
                    /\ rr_status row = R_RESERVED)) as [Hdue | Hdue].
  - assert (Hmem : row ∈ rows) by (apply Hrows; auto). destruct (Hall row Hmem) as [[Hrel Hret] | [Hrel Hsame]]; apply Hrows in Hmem.
    + left. unfold due. tauto.
    + right. unfold due. tauto.
  - right. split.
    + intros (Ha & Hs & _). apply Hdue. auto.
    + rewrite Hother; [exact Hf |]. intros Hid. apply list_elem_of_fmap in Hid.
      destruct Hid as (row' & Hid & Hin'). apply Hdue. apply Hrows in Hin'.
      replace row with row'; [apply Hin' |].
      eapply NoDup_map_inj; [apply (lw_ids _ (lw_tables _ Hwf)) | apply Hin' | exact Hin | congruence].
Qed.

(** ** Histories *)

(** One transaction on the dispatch table; [ds_env] is any transaction that
    leaves it alone. *)
Inductive dispatch_step db db' : Prop :=
| ds_prepare a w t d r now :
    insert_dispatch db a w t d r now = Ok db' -> dispatch_step db db'
| ds_dispatch d p k now : mark_dispatched db d p k now = Ok db' -> dispatch_step db db'
| ds_return d now : mark_returned db d now = Ok db' -> dispatch_step db db'
| ds_reconcile w t d now : reconcile_dispatch db w t d now = Ok db' -> dispatch_step db db'
| ds_recover tick work :
    ledger_wf db -> retire_undispatched tick db work = Ok db' -> dispatch_step db db'
| ds_env : external_dispatches db' = external_dispatches db -> dispatch_step db db'.

Lemma retire_undispatched_reconciles tick work db db' :
  ledger_wf db -> dispatch_wf db -> retire_undispatched tick db work = Ok db' -> reconciles db db'.
Proof.
  intros Hwf Hx Hr. unfold retire_undispatched in Hr.
  apply retire_rows_Ok in Hr; [apply Hr | exact Hwf | apply Hx | |].
  - eapply sublist_NoDup; [apply (lw_ids _ (lw_tables _ Hwf)) |].
    apply (fmap_sublist rr_reservation_id). apply sublist_filter.
  - intros row Hin. rewrite list_elem_of_filter in Hin. apply find_reservation_elem; [apply Hwf | apply Hin].
Qed.

(** Every step keeps the rows it finds, in the sense of [row_keeps]. *)
Definition rows_keep db db' : Prop :=
  forall x, x ∈ external_dispatches db ->
    exists x', x' ∈ external_dispatches db' /\ row_keeps x x'.

Lemma update_keeps db w f :
  (forall x, x ∈ external_dispatches db -> w x = true -> row_keeps x (f x)) ->
  rows_keep db (snd (update_dispatches db w f)).
Proof.
  intros Hf x Hx. exists (if w x then f x else x). split; [apply update_elem; eauto |].
  destruct (w x) eqn:Hw; [auto | reflexivity].
Qed.

Lemma reconciles_keep db db' : reconciles db db' -> rows_keep db db'.
Proof.
  intros Hr x Hx. apply list_elem_of_lookup in Hx. destruct Hx as [i Hi].
  destruct (Forall2_lookup_l _ _ _ _ _ Hr Hi) as (x' & Hx' & Hc). exists x'.
  split; [apply list_elem_of_lookup; eauto |].
  destruct Hc as [-> | (Hn & t & ->)]; [reflexivity |]. split; try reflexivity; congruence.
Qed.

Lemma mark_returned_Ok db d now db' :
  mark_returned db d now = Ok db' ->
  db' = snd (update_dispatches db
               (fun r => eqb (x_decision_ref r) d && is_some (x_dispatched_at r)
                         && is_none (x_returned_at r)) (set_returned now)).
Proof. unfold mark_returned. simpl. intros Hm. apply raise_if_Ok in Hm. destruct Hm. congruence. Qed.

Lemma reconcile_dispatch_Ok db w t d now db' :
  reconcile_dispatch db w t d now = Ok db' ->
  db' = snd (update_dispatches db
               (fun r => eqb (x_work_id r) w && eqb (x_attempt_id r) t
                         && eqb (x_decision_ref r) d && unresolved r) (set_reconciled now)).
Proof. unfold reconcile_dispatch. simpl. intros Hm. apply raise_if_Ok in Hm. destruct Hm. congruence. Qed.

Lemma dispatch_step_Ok db db' :
  dispatch_wf db -> dispatch_step db db' -> dispatch_wf db' /\ rows_keep db db'.
Proof.
  intros Hwf [a w t d r now Hs | d p k now Hs | d now Hs | w t d now Hs | tick work Hl Hs | Hs].
  - split; [eapply insert_dispatch_wf; eauto |]. unfold insert_dispatch in Hs.
    destruct (mem _ _); [discriminate |]. injection Hs as <-. intros x Hx. exists x.
    split; [apply elem_of_app; auto | reflexivity].
  - split; [eapply mark_dispatched_wf; eauto |]. apply mark_dispatched_Ok in Hs; [| exact Hwf].
    destruct Hs as (x & _ & _ & _ & _ & _ & ->). apply update_keeps. intros y _ Hy. boolify.
    destruct Hy as [_ Hn]. split; try reflexivity; congruence.
  - apply mark_returned_Ok in Hs. subst db'. split.
    + apply update_closing_wf; [intros x; auto | apply set_returned_closed | exact Hwf].
    + apply update_keeps. intros x _ _. split; try reflexivity; auto.
      intros _ _. apply set_returned_closed.
  - apply reconcile_dispatch_Ok in Hs. subst db'. split.
    + apply update_closing_wf; [intros x; auto | apply set_reconciled_closed | exact Hwf].
    + apply update_keeps. intros x _ _. split; try reflexivity; auto.
      intros _ _. apply set_reconciled_closed.
  - apply retire_undispatched_reconciles in Hs; auto.
    split; [eapply reconciles_wf; eauto | apply reconciles_keep, Hs].
  - split; [destruct Hwf; split; rewrite Hs; assumption |]. intros x Hx. exists x.
    rewrite Hs. split; [exact Hx | reflexivity].
Qed.

Lemma dispatch_steps_Ok db db' :
  rtc dispatch_step db db' -> dispatch_wf db -> dispatch_wf db' /\ rows_keep db db'.
Proof.
  induction 1 as [db0 | db1 db2 db3 Hs _ IH]; intros Hwf.
  - split; [exact Hwf |]. intros x Hx. exists x. split; [exact Hx | reflexivity].
  - destruct (dispatch_step_Ok _ _ Hwf Hs) as [Hwf2 Hk]. destruct (IH Hwf2) as [Hwf3 Hk3].
    split; [exact Hwf3 |]. intros x Hx. destruct (Hk x Hx) as (y & Hy & Hxy).
    destruct (Hk3 y Hy) as (z & Hz & Hyz). exists z. split; [exact Hz | etransitivity; eauto].
Qed.

(** C35. One request in flight: after every history a work has at most one
    request whose outcome is unknown, and while it has one no other request
    of that work is sent. *)
Theorem one_request_in_flight db db' :
  dispatch_wf db -> rtc dispatch_step db db' ->
  (forall x x', x ∈ external_dispatches db' -> x' ∈ external_dispatches db' ->
     unresolved x = true -> unresolved x' = true -> x_work_id x = x_work_id x' -> x = x')
  /\ forall x y d p k t db'', x ∈ external_dispatches db' -> unresolved x = true ->
       mark_dispatched db' d p k t = Ok db'' ->
       y ∈ external_dispatches db' -> x_decision_ref y = d -> x_work_id y <> x_work_id x.
Proof.
  intros Hwf Hs. destruct (dispatch_steps_Ok _ _ Hs Hwf) as [Hwf' _].
  split; [apply Hwf' |]. intros x y d p k t db'' Hx Hu Hm Hy Hd Hw.
  apply mark_dispatched_Ok in Hm; [| exact Hwf'].
  destruct Hm as (z & Hrows & _ & _ & Hquiet & _).
  assert (Hyz : y ∈ rows_of_decision db' d) by (apply rows_of_decision_elem; auto).
  rewrite Hrows in Hyz. apply list_elem_of_singleton in Hyz. subst z.
  rewrite (Hquiet x Hx) in Hu by congruence. discriminate.
Qed.

(** An external effect is sent at most once: a dispatch that was recorded
    keeps its time and provider ids through every history, and marking the
    same decision dispatched again is refused. *)
Theorem dispatched_once db d p k t db1 db2 :
  dispatch_wf db -> mark_dispatched db d p k t = Ok db1 -> rtc dispatch_step db1 db2 ->
  (exists x, x ∈ external_dispatches db2 /\ x_decision_ref x = d
     /\ x_dispatched_at x = Some t /\ x_provider_request_id x = p /\ x_idempotency_key x = k)
  /\ forall p' k' t', exists e, mark_dispatched db2 d p' k' t' = Err e.
Proof.
  intros Hwf Hm Hs. pose proof (mark_dispatched_wf _ _ _ _ _ _ Hwf Hm) as Hwf1.
  destruct (dispatch_steps_Ok _ _ Hs Hwf1) as [Hwf2 Hkeep].
  apply mark_dispatched_Ok in Hm; [| exact Hwf]. destruct Hm as (x & Hrows & Hx & Hn & _ & _ & ->).
  assert (Hd : x_decision_ref x = d).
  { apply (rows_of_decision_elem db d x). rewrite Hrows. left. }
  destruct (Hkeep (set_dispatched t p k x)) as (x' & Hx' & [_ _ _ Hdec Hsent _]).
  { apply update_elem. exists x. split; [exact Hx |].
    rewrite Hn, bool_decide_true by reflexivity. reflexivity. }
  simpl in *. destruct Hsent as (Ht & Hp & Hk); [congruence |]. split.
  - exists x'. repeat split; congruence.
  - intros p' k' t'. destruct (mark_dispatched db2 d p' k' t') as [db3 | e] eqn:Hm; [| eauto].
    exfalso. apply mark_dispatched_Ok in Hm; [| exact Hwf2].
    destruct Hm as (y & Hrows2 & _ & Hny & _).
    assert (Hin : x' ∈ rows_of_decision db2 d) by (apply rows_of_decision_elem; split; congruence).
    rewrite Hrows2 in Hin. apply list_elem_of_singleton in Hin. congruence.
Qed.
End dispatch_laws.
