(* ===== verification/Authority.v ===== *)
(** * Authority over actions

    [storage/action_policy.py] with the owners of
    [contracts/result_registry.py], [storage/current_inputs.py] and
    [storage/action_context.py]: which role may request an action, which inputs
    must be current, and who owns a hypothesis. *)
From S2P Require Import Prelude Records CanonicalJson Store Work Processes Actions Budget.
From S2P Require Import Runtime Registry Hierarchy Ledger Dispatch.

(** ** Roles *)

Definition WORK_CONTROL : list RequesterRole :=
  [Q_ORCHESTRATION; Q_VERIFICATION; Q_PRIMITIVE_ADMISSION_RUNTIME;
   Q_REPRODUCTION_SESSION_MANAGER; Q_RECOVERY].

(** Every [RequesterRole]. *)
Definition all_roles : list RequesterRole :=
  [Q_ORCHESTRATION; Q_HYPOTHESIS; Q_PRO; Q_CON; Q_VERIFICATION; Q_CWE_LABELING; Q_CHAINING;
   Q_TECHNICAL_GATE; Q_RULE_SCOPE_GATE; Q_REPORTER; Q_REPOSITORY_LOADER;
   Q_CONTEXT_RETRIEVAL_SERVICE; Q_STATIC_ANALYSIS; Q_POLICY_COLLECTOR; Q_POLICY_PARSER;
   Q_PRIMITIVE_ADMISSION_RUNTIME; Q_DYNAMIC_REPRODUCTION; Q_REPRODUCTION_SETUP_AUTOMATION;
   Q_SANDBOX_CONTROLLER; Q_REPRODUCTION_SESSION_MANAGER; Q_BUDGET_RUNTIME;
   Q_R8_EVALUATION_RUNTIME; Q_RECOVERY].

Definition ACTION_ROLES (t : ActionType) : list RequesterRole :=
  match t with
  | REGISTER_WORK => filter (fun r => r <> Q_REPRODUCTION_SESSION_MANAGER) WORK_CONTROL
  | CHANGE_WORK_STATE | START_ATTEMPT | CANCEL_WORK => WORK_CONTROL
  | RESTART_VERIFICATION_GENERATION => [Q_VERIFICATION]
  | READ_CODE =>
      [Q_HYPOTHESIS; Q_PRO; Q_CON; Q_VERIFICATION; Q_CWE_LABELING; Q_TECHNICAL_GATE]
  | RUN_TOOL => [Q_REPOSITORY_LOADER; Q_STATIC_ANALYSIS; Q_POLICY_COLLECTOR]
  | CALL_LLM =>
      [Q_HYPOTHESIS; Q_PRO; Q_CON; Q_VERIFICATION; Q_CWE_LABELING; Q_CHAINING; Q_POLICY_PARSER;
       Q_DYNAMIC_REPRODUCTION]
  | FETCH_POLICY => [Q_POLICY_COLLECTOR]
  | REQUEST_DYNAMIC_REPRO => [Q_VERIFICATION]
  | RUN_SANDBOX => [Q_REPRODUCTION_SETUP_AUTOMATION]
  | SAVE_RESULT => all_roles
  | CALL_TECHNICAL_GATE | CALL_RULE_SCOPE_GATE | CREATE_REPORT_DRAFT => [Q_VERIFICATION]
  end.

(** The owner of each kind of [RESULT_REGISTRY]. *)
Definition RESULT_REGISTRY : list (string * RequesterRole) :=
  [("analysis_run_input", Q_ORCHESTRATION); ("analysis_run_state", Q_ORCHESTRATION);
   ("hypothesis_process_state", Q_ORCHESTRATION); ("verification_assignment", Q_ORCHESTRATION);
   ("code_workspace", Q_REPOSITORY_LOADER); ("repository_profile", Q_STATIC_ANALYSIS);
   ("repository_execution_selection", Q_STATIC_ANALYSIS);
   ("code_context_response", Q_CONTEXT_RETRIEVAL_SERVICE);
   ("tool_run_result", Q_STATIC_ANALYSIS); ("static_fact_bundle", Q_STATIC_ANALYSIS);
   ("rule_execution_record", Q_STATIC_ANALYSIS); ("hypothesis_proposal", Q_ORCHESTRATION);
   ("proposal_process_state", Q_ORCHESTRATION); ("hypothesis_duplicate_review", Q_HYPOTHESIS);
   ("pro_evidence_result", Q_PRO); ("con_evidence_result", Q_CON);
   ("verification_result", Q_VERIFICATION); ("verification_initial_assessment", Q_VERIFICATION);
   ("dynamic_reproduction_tool_request", Q_DYNAMIC_REPRODUCTION);
   ("primitive_admission_decision", Q_PRIMITIVE_ADMISSION_RUNTIME);
   ("primitive", Q_PRIMITIVE_ADMISSION_RUNTIME); ("chaining_result", Q_CHAINING);
   ("dynamic_reproduction_request", Q_VERIFICATION);
   ("environment_requirements", Q_DYNAMIC_REPRODUCTION);
   ("reproduction_plan", Q_DYNAMIC_REPRODUCTION);
   ("environment_recipe", Q_REPRODUCTION_SETUP_AUTOMATION);
   ("sandbox_environment", Q_REPRODUCTION_SETUP_AUTOMATION);
   ("cleanup_result", Q_REPRODUCTION_SETUP_AUTOMATION);
   ("sandbox_policy_decision", Q_SANDBOX_CONTROLLER);
   ("sandbox_command_record", Q_REPRODUCTION_SESSION_MANAGER);
   ("poc_candidate", Q_DYNAMIC_REPRODUCTION);
   ("dynamic_reproduction_conclusion", Q_DYNAMIC_REPRODUCTION);
   ("agent_log", Q_REPRODUCTION_SESSION_MANAGER);
   ("poc_bundle", Q_REPRODUCTION_SESSION_MANAGER);
   ("dynamic_reproduction_result", Q_REPRODUCTION_SESSION_MANAGER);
   ("cwe_label", Q_CWE_LABELING); ("run_policy_state", Q_POLICY_COLLECTOR);
   ("policy_cache_record", Q_POLICY_COLLECTOR); ("policy_parser_result", Q_POLICY_PARSER);
   ("policy_collection_result", Q_POLICY_COLLECTOR);
   ("program_policy_record", Q_POLICY_COLLECTOR);
   ("technical_evidence_review", Q_TECHNICAL_GATE);
   ("rule_scope_impact_review", Q_RULE_SCOPE_GATE); ("finding", Q_VERIFICATION);
   ("report_draft", Q_REPORTER); ("budget_reservation", Q_BUDGET_RUNTIME);
   ("budget_ledger_entry", Q_BUDGET_RUNTIME);
   ("evaluation_run_result", Q_R8_EVALUATION_RUNTIME);
   ("evaluation_recommendation", Q_R8_EVALUATION_RUNTIME);
   ("analysis_run_result", Q_ORCHESTRATION)].

Definition check_role (action : ActionRequest) (identity_role : option RequesterRole)
  : result unit :=
  raise_if neqb identity_role (Some (q_requested_by action))
           || negb (mem (q_requested_by action) (ACTION_ROLES (q_action_type action)))
    with "AUTHORITY_DENIED" ;;
  if eqb (q_action_type action) SAVE_RESULT then
    raise_if neqb (assoc (default "" (q_result_kind action)) RESULT_REGISTRY) identity_role
      with "AUTHORITY_DENIED" ;;
    Ok tt
  else Ok tt.

(** ** What the validator is given *)

(** What the host supplies: the role of an identity, the evidence for a check
    and the outputs of an action ([ports/trusted_evidence.py]), the identity of
    the finding service, the capability resolver, and whether start-up recovery
    failed. *)
Class Host := {
  identity_role : BudgetScopeRef -> option RequesterRole;
  action_evidence : ActionRequest -> CheckType -> option (list BudgetScopeRef);
  authorized_outputs : ActionRequest -> option (list RecordRef);
  finding_service_identity_ref : option StoredDataRef;
  require_current_capability_ref : HostConfigurationRef -> result unit;
  recovery_failed : bool;
}.

(** The read-only rules of other modules: [stage_policy.check_stage] and
    [context_policy.require_context_request] and [check_context_response]. They
    raise or return; they change no table, so nothing below depends on how they
    decide. [initial_assessment] reads the fields [verification_work_id] and
    [verification_generation] of a [VerificationInitialAssessment]. *)
Class StageRules := {
  check_stage : Rt -> ActionRequest -> WorkExecutionState -> result unit;
  require_context_request : Rt -> ActionRequest -> WorkExecutionState -> result unit;
  check_context_response : Rt -> WorkExecutionState -> Rec -> result unit;
  initial_assessment : Rec -> string * Z;
}.

(** ** Current inputs *)

Section authority.
Context `{Codec} `{TrustedEvidence} `{Host} `{StageRules}.

Definition CURRENT_STATE_KINDS : list string :=
  ["code_workspace"; "analysis_run_state"; "work_execution_state"; "hypothesis_process_state";
   "verification_assignment"; "finding_index_state"].

Definition allowed_workspace_statuses (action : ActionRequest) (work : WorkExecutionState)
  : list WorkspaceStatus :=
  if eqb (q_action_type action) RUN_TOOL && eqb (q_requested_by action) Q_REPOSITORY_LOADER
     && eqb (w_work_type work) WORKSPACE_PREP
  then [PREPARING] else [WORKSPACE_READY].

(** [",".join(sorted(workspace_statuses))] of the two sets above *)
Definition expected_statuses (l : list WorkspaceStatus) : string :=
  if eqb l [PREPARING] then "PREPARING" else "READY".

(** [check_current_input] *)
Definition check_current_input (db : Db) (ref : RecordRef) (force : bool)
  (workspace_statuses : list WorkspaceStatus) : result unit :=
  if negb force && negb (mem (data_kind ref) CURRENT_STATE_KINDS) then Ok tt
  else
    let! record := resolve_db db ref false in
    let logical := logical_record_id (meta_rev (rec_metadata record)) in
    raise_if neqb (fst <$> current_records db !! logical) (Some (ref_key ref))
      with "STALE_RESULT: current-sensitive input superseded" ;;
    raise_if match record with
             | RecWorkspace w => negb (mem (cw_status w) workspace_statuses)
             | _ => false
             end
      with "STALE_RESULT: workspace is not " +:+ expected_statuses workspace_statuses ;;
    Ok tt.

(** ** Ownership *)

(** The record ids the current pointers of a kind name
    ([records JOIN current_records]). *)
Definition current_of_kind (db : Db) (kind : string) : list RecordRef :=
  omap (fun kv => match Store.records (db_store db) !! kv.2.1 with
                  | Some row => if eqb (row_kind row) kind then Some (row_ref row) else None
                  | None => None
                  end) (map_to_list (current_records db)).

(** [getattr(meta, name, None)] for analysis, workspace, commit, hypothesis. *)
Definition scope_names (m : RecordMetadata) :=
  (meta_analysis_id m, meta_workspace_id m, meta_commit_id m, meta_hypothesis_id m).

Definition current_process (db : Db) (work : WorkExecutionState)
  : result HypothesisProcessState :=
  let! candidates :=
    fold_result (fun acc ref =>
        let! record := resolve_db db ref false in
        match record with
        | RecProcess p =>
            Ok (if eqb (scope_names (MRun (h_meta p))) (scope_names (MRun (w_meta work)))
                then acc ++ [p] else acc)
        | _ => Err AssertionError
        end) [] (current_of_kind db "hypothesis_process_state") in
  match candidates with
  | [p] => Ok p
  | _ => Err (ValueError "AUTHORITY_DENIED: exact current hypothesis process required")
  end.

Definition check_owner (db : Db) (action : ActionRequest) (work : WorkExecutionState)
  : result unit :=
  if neqb (q_requested_by action) Q_VERIFICATION
     || is_none (rm_hypothesis_id (w_meta work))
  then Ok tt
  else
    let! process := current_process db work in
    match h_verification_assignment_ref process with
    | None => Err (ValueError "AUTHORITY_DENIED: no active assignment")
    | Some ref =>
        do! check_current_input db (RStored ref) false [WORKSPACE_READY] ;;
        let! record := resolve_db db (RStored ref) false in
        raise_if match record with
                 | RecAssignment a =>
                     neqb (va_status a) ACTIVE_ASSIGNMENT
                     || neqb (RStored (va_owner_identity_ref a))
                          (scope_ref (q_requester_identity_ref action))
                     || neqb (h_verification_generation process) (w_work_generation work)
                     || match q_expected_verification_generation action with
                        | Some g => neqb g (h_verification_generation process)
                        | None => false
                        end
                     || neqb (scope_names (MRun (va_meta a))) (scope_names (MRun (w_meta work)))
                 | _ => true
                 end
          with "AUTHORITY_DENIED: active owner/current generation mismatch" ;;
        Ok tt
    end.
End authority.
