(* ===== verification/Outputs.v ===== *)
(** * Admission of outputs

    [storage/output_closures.py], [storage/output_receipts.py],
    [storage/intermediate_policy.py] and [validate_result_owner] of
    [contracts/result_registry.py]: which records an action may publish, and
    which published intermediates have the receipt of their owner. *)
From S2P Require Import Prelude Records CanonicalJson Store Work Processes Actions Budget.
From S2P Require Import Runtime Registry Hierarchy Ledger Dispatch Authority.

(** ** The JSON value of references *)

Definition contract_info : ModelInfo := mkModelInfo true false [].
Definition id_value (s : string) : value := VOpaqueId contract_info (VStr s).
Definition optional_id (o : option string) : value :=
  match o with Some s => id_value s | None => VNone end.
Definition ref_value (ref : RecordRef) : value :=
  VModel contract_info
    match ref with
    | RRun r => [("stored_data_id", id_value (rs_stored_data_id r));
                 ("data_kind", VStr (rs_data_kind r)); ("content_hash", VStr (rs_content_hash r));
                 ("analysis_id", id_value (rs_analysis_id r));
                 ("record_id", optional_id (rs_record_id r))]
    | RStored r => [("stored_data_id", id_value (sd_stored_data_id r));
                    ("data_kind", VStr (sd_data_kind r));
                    ("content_hash", VStr (sd_content_hash r));
                    ("workspace_id", id_value (sd_workspace_id r));
                    ("commit_id", id_value (sd_commit_id r));
                    ("record_id", optional_id (sd_record_id r))]
    | RHost r => [("stored_data_id", id_value (hc_stored_data_id r));
                  ("data_kind", VStr (hc_data_kind r)); ("content_hash", VStr (hc_content_hash r));
                  ("configuration_scope", VStr "HOST"); ("host_id", VStr (hc_host_id r));
                  ("publication_analysis_id", id_value (hc_publication_analysis_id r));
                  ("publication_workspace_id", id_value (hc_publication_workspace_id r));
                  ("publication_commit_id", id_value (hc_publication_commit_id r));
                  ("record_id", id_value (hc_record_id r))]
    | RPolicy r => [("stored_data_id", id_value (pc_stored_data_id r));
                    ("data_kind", VStr "policy_cache_record");
                    ("record_id", id_value (pc_record_id r));
                    ("content_hash", VStr (pc_content_hash r));
                    ("program_id", id_value (pc_program_id r));
                    ("schema_version", VStr (pc_schema_version r))]
    end.

(** The class of a record: every class pins its [record_type]. *)
Definition kind_of (r : Rec) : string := record_type (meta_rev (rec_metadata r)).

Definition meta_attempt_id (m : RecordMetadata) : option string :=
  match m with MRun m => rm_attempt_id m | MPolicy _ => None end.

(** [same_scope] of [contracts/_domain.py], with its defaults *)
Definition same_scope (left right : RecordMetadata) : result unit :=
  raise_if neqb (scope_names left) (scope_names right) with "RECORD_SCOPE_MISMATCH" ;; Ok tt.

(** [INTERMEDIATE_KINDS] *)
Definition INTERMEDIATE_KINDS : list (WorkType * string * RequesterRole) :=
  [(WORKSPACE_PREP, "code_workspace", Q_REPOSITORY_LOADER);
   (POLICY_FETCH, "policy_parser_result", Q_POLICY_PARSER);
   (VERIFICATION, "verification_initial_assessment", Q_VERIFICATION);
   (VERIFICATION, "dynamic_reproduction_request", Q_VERIFICATION);
   (DYNAMIC_REPRO, "environment_requirements", Q_DYNAMIC_REPRODUCTION);
   (DYNAMIC_REPRO, "reproduction_plan", Q_DYNAMIC_REPRODUCTION);
   (DYNAMIC_REPRO, "environment_recipe", Q_REPRODUCTION_SETUP_AUTOMATION);
   (DYNAMIC_REPRO, "sandbox_environment", Q_REPRODUCTION_SETUP_AUTOMATION);
   (DYNAMIC_REPRO, "cleanup_result", Q_REPRODUCTION_SETUP_AUTOMATION);
   (DYNAMIC_REPRO, "sandbox_policy_decision", Q_SANDBOX_CONTROLLER);
   (DYNAMIC_REPRO, "sandbox_command_record", Q_REPRODUCTION_SESSION_MANAGER);
   (DYNAMIC_REPRO, "poc_candidate", Q_DYNAMIC_REPRODUCTION);
   (DYNAMIC_REPRO, "dynamic_reproduction_conclusion", Q_DYNAMIC_REPRODUCTION);
   (DYNAMIC_REPRO, "agent_log", Q_REPRODUCTION_SESSION_MANAGER);
   (DYNAMIC_REPRO, "poc_bundle", Q_REPRODUCTION_SESSION_MANAGER);
   (DYNAMIC_REPRO, "dynamic_reproduction_tool_request", Q_DYNAMIC_REPRODUCTION)].

(** The keyword arguments of [validate_result_owner], which its callers give
    for a finding only. *)
Record FindingAuthority := mkFindingAuthority {
  fa_requester_identity_ref : StoredDataRef;
  fa_finding_service_identity_ref : option StoredDataRef;
  fa_active_assignment_owner_ref : StoredDataRef;
  fa_finding_assignment : VerificationAssignment;
  fa_expected_assignment_ref : StoredDataRef;
}.

Section outputs.
Context `{Codec} `{TrustedEvidence} `{Host} `{StageRules}.

(** ** Receipts *)

(** [content_hash([request_ref, decision_ref, outputs])] *)
Definition closure_hash (request_ref decision_ref : RecordRef) (outputs : list RecordRef)
  : result string :=
  content_hash []
    (VSequence [ref_value request_ref; ref_value decision_ref;
                VSequence (map ref_value outputs)]).

(** [read_outputs] *)
Definition read_outputs (rt : Rt) (action : ActionRequest) (decision_ref : RecordRef)
  : result (list RecordRef) :=
  match action_output_closures rt !! q_action_id action with
  | None => Err (ValueError "OUTPUT_BINDING_MISMATCH: authorization closure missing")
  | Some row =>
      raise_if neqb (cl_decision_ref row) decision_ref
        with "OUTPUT_BINDING_MISMATCH: authorization closure missing" ;;
      let! request_ref := reference (RecAction action) in
      let! hash := closure_hash request_ref decision_ref (cl_output_refs row) in
      raise_if neqb (cl_content_hash row) hash
        with "OUTPUT_BINDING_MISMATCH: authorization closure hash" ;;
      Ok (cl_output_refs row)
  end.

(** ** Owners *)

(** [validate_result_owner]. The candidate is a valid record of the class its
    [record_type] names, so that its revalidation under the registered model
    fails exactly when the kinds differ. *)
Definition validate_result_owner (kind : string) (candidate : Rec) (requested_by : RequesterRole)
  (finding : option FindingAuthority) : result unit :=
  raise_if neqb (assoc kind RESULT_REGISTRY) (Some requested_by) with "RESULT_OWNER_MISMATCH" ;;
  raise_if neqb (kind_of candidate) kind with "RECORD_KIND_MISMATCH" ;;
  if eqb kind "finding" then
    match finding with
    | None => Err (ValueError "FINDING_NORMALIZER_AUTHORITY_REQUIRED")
    | Some f =>
        let assignment := fa_finding_assignment f in
        raise_if neqb (fa_finding_service_identity_ref f) (Some (fa_requester_identity_ref f))
                 || neqb (va_status assignment) ACTIVE_ASSIGNMENT
                 || neqb (va_owner_identity_ref assignment) (fa_active_assignment_owner_ref f)
          with "FINDING_NORMALIZER_AUTHORITY_REQUIRED" ;;
        let! hash := content_hash [] (model_value (RecAssignment assignment)) in
        do! validate_exact_ref (RStored (fa_expected_assignment_ref f))
              (MRun (va_meta assignment)) hash (meta_analysis_id (rec_metadata candidate)) ;;
        same_scope (rec_metadata candidate) (MRun (va_meta assignment))
    end
  else Ok tt.

(** The assignment a finding is saved under, as [derive_outputs] and
    [TransitionService.check] look it up. *)
Definition finding_authority (db : Db) (action : ActionRequest) (work : WorkExecutionState)
  : result FindingAuthority :=
  let! process := current_process db work in
  match h_verification_assignment_ref process with
  | None => Err (ValueError "FINDING_NORMALIZER_AUTHORITY_REQUIRED")
  | Some ref =>
      let! record := resolve_db db (RStored ref) false in
      match q_requester_identity_ref action, record with
      | BStored requester, RecAssignment assignment =>
          Ok (mkFindingAuthority requester finding_service_identity_ref
                (va_owner_identity_ref assignment) assignment ref)
      | _, _ => Err (ValueError "FINDING_NORMALIZER_AUTHORITY_REQUIRED")
      end
  end.

(** ** Intermediate results *)

(** [validate_intermediate_owner] *)
Definition validate_intermediate_owner (candidate : Rec) (action : ActionRequest)
  (work : WorkExecutionState) : result unit :=
  let kind := kind_of candidate in
  raise_if negb (mem (w_work_type work, kind, q_requested_by action) INTERMEDIATE_KINDS)
    with "INTERMEDIATE_PUBLICATION_DENIED" ;;
  raise_if match candidate with
           | RecWorkspace c =>
               neqb (w_work_type work) WORKSPACE_PREP || neqb (cw_status c) PREPARING
               || is_some (cw_commit_id c) || neqb (revision_number (cw_meta c)) 1
               || neqb (cw_analysis_id c) (rm_analysis_id (w_meta work))
           | _ => false
           end
    with "WORKSPACE_LIFECYCLE_INVALID" ;;
  raise_if eqb kind "verification_initial_assessment"
           && neqb (initial_assessment candidate) (w_work_id work, w_work_generation work)
    with "STALE_RESULT: initial assessment work/generation" ;;
  validate_result_owner kind candidate (q_requested_by action) None.

(** One iteration of the loop of [prepublished_output]: the action the used
    decision is for, when it is the receipt of [ref]. *)
Definition receipt (rt : Rt) (ref : RecordRef) (work : WorkExecutionState) (used : ActionDecision)
  : result (option ActionRequest) :=
  if neqb (d_decision used) ALLOW || neqb (d_use_status used) USED
     || negb (mem ref (d_outcome_refs used))
  then Ok None
  else
    let! action := resolve_db (rt_db rt) (scope_ref (d_action_ref used)) false in
    match action with
    | RecAction action =>
        let! work_ref := reference (RecWork work) in
        if neqb (q_action_type action) SAVE_RESULT
           || neqb (scope_ref <$> q_work_ref action) (Some work_ref)
           || neqb (rm_attempt_id (q_meta action)) (w_active_attempt_id work)
           || negb (mem (w_work_type work, data_kind ref, q_requested_by action)
                      INTERMEDIATE_KINDS)
        then Ok None
        else
          match action_requests rt !! q_action_id action with
          | None => Ok None
          | Some row =>
              let! issued := resolve_db (rt_db rt) (i_decision_ref row) false in
              match issued with
              | RecDecision issued =>
                  if neqb (d_decision issued) ALLOW || neqb (d_use_status issued) UNUSED
                     || neqb (d_action_ref issued) (d_action_ref used)
                     || neqb (d_decision_id issued) (d_decision_id used)
                     || neqb (logical_record_id (d_meta issued)) (logical_record_id (d_meta used))
                  then Ok None
                  else
                    let! outputs := read_outputs rt action (i_decision_ref row) in
                    Ok (if mem ref outputs then Some action else None)
              | _ => Ok None
              end
          end
    | _ => Ok None
    end.

Fixpoint find_receipt (rt : Rt) (ref : RecordRef) (work : WorkExecutionState)
  (rows : list DecisionRow) : result (option ActionRequest) :=
  match rows with
  | [] => Ok None
  | row :: rows =>
      let! found := receipt rt ref work (dr_payload row) in
      match found with
      | Some action => Ok (Some action)
      | None => find_receipt rt ref work rows
      end
  end.

(** [prepublished_output] *)
Definition prepublished_output (rt : Rt) (ref : RecordRef) (work : WorkExecutionState)
  : result bool :=
  match resolve_db (rt_db rt) ref false with
  | Err (LookupError _) => Ok false
  | Err e => Err e
  | Ok candidate =>
      let m := rec_metadata candidate in
      let workspace_preparing :=
        match candidate with
        | RecWorkspace c => eqb (w_work_type work) WORKSPACE_PREP && eqb (cw_status c) PREPARING
        | _ => false
        end in
      raise_if neqb (w_status work) RUNNING || is_none (w_active_attempt_id work)
               || (negb workspace_preparing
                   && neqb (meta_attempt_id m) (w_active_attempt_id work))
               || neqb (scope_names m) (scope_names (MRun (w_meta work)))
        with "INTERMEDIATE_RECEIPT_REQUIRED: work/attempt scope" ;;
      raise_if neqb (fst <$> current_records (rt_db rt) !! logical_record_id (meta_rev m))
                    (Some (ref_key ref))
        with "STALE_RESULT: prepublished intermediate is not current" ;;
      let! found := find_receipt rt ref work (action_decisions rt) in
      match found with
      | Some action => do! validate_intermediate_owner candidate action work ;; Ok true
      | None => Err (ValueError "INTERMEDIATE_RECEIPT_REQUIRED: exact owner decision/outcome")
      end
  end.

(** ** The outputs of an action *)

(** [records.resolve(connection, action.work_ref)], when it is a work. *)
Definition named_work (db : Db) (action : ActionRequest) : result (option WorkExecutionState) :=
  match q_work_ref action with
  | None => Ok None
  | Some ref =>
      let! resolved := resolve_db db (scope_ref ref) false in
      Ok match resolved with RecWork w => Some w | _ => None end
  end.

(** One iteration of the loop of [derive_outputs]. *)
Definition admit_output (rt : Rt) (action : ActionRequest) (ref : RecordRef) : result unit :=
  let! candidate := resolve_db (rt_db rt) ref true in
  let! work := named_work (rt_db rt) action in
  do! (if eqb (kind_of candidate) "code_context_response" then
         match work with
         | Some w => check_context_response rt w candidate
         | None => Err (ValueError "CONTEXT_RESPONSE_SCOPE_MISMATCH")
         end
       else Ok tt) ;;
  let owned := validate_result_owner (data_kind ref) candidate (q_requested_by action) in
  match work with
  | None => owned None
  | Some w =>
      let! published := prepublished_output rt ref w in
      if published then Ok tt
      else if eqb (data_kind ref) "verification_initial_assessment"
      then validate_intermediate_owner candidate action w
      else if eqb (data_kind ref) "finding"
      then let! f := finding_authority (rt_db rt) action w in owned (Some f)
      else owned None
  end.

(** [derive_outputs] *)
Definition derive_outputs (rt : Rt) (action : ActionRequest) : result (list RecordRef) :=
  match q_candidate_result_ref action with
  | None => Ok []
  | Some primary =>
      let outputs := default [primary] (authorized_outputs action) in
      raise_if negb (mem primary outputs) || negb (bool_decide (NoDup outputs))
        with "OUTPUT_BINDING_MISMATCH" ;;
      do! for_each (admit_output rt action) outputs ;;
      Ok outputs
  end.
End outputs.
