(* ===== verification/Validator.v ===== *)
(** * The runtime validator

    [RuntimeValidator] ([storage/action_validator.py]) and [authorize]
    ([storage/authorization.py]): an action is decided once, a decision is
    checked against the current state when it is used, and it is claimed once. *)
From stdpp Require Import countable.
From S2P Require Import Prelude Records CanonicalJson Store Work Processes Actions Budget.
From S2P Require Import Runtime Registry Hierarchy Ledger Dispatch Authority Outputs.

(** The clock readings and the fresh record id of one claim: [check], the two
    of [next_meta] and [used_at]. *)
Record ClaimTick := mkClaimTick {
  ct_checked : Z;
  ct_id : string;
  ct_meta_now : Z;
  ct_used : Z;
}.

Section validator.
Context `{Codec} `{TrustedEvidence} `{Host} `{StageRules}.

(** ** Using a decision *)

(** [record.meta.analysis_id], or the work's where there is none. *)
Definition input_in_analysis (record : Rec) (work : WorkExecutionState) : bool :=
  match meta_analysis_id (rec_metadata record) with
  | Some a => eqb a (rm_analysis_id (w_meta work))
  | None => true
  end.

(** One iteration of the loop of [check] over the inputs. *)
Definition check_input (db : Db) (decision : ActionDecision) (action : ActionRequest)
  (work : WorkExecutionState) (ref : RecordRef) : result unit :=
  match ref with
  | RHost host =>
      do! require_current_capability_ref host ;;
      raise_if negb (mem (CHost host) (d_checked_config_refs decision))
        with "CAPABILITY_PROFILE_NOT_AUTHORIZED" ;;
      Ok tt
  | _ =>
      do! check_current_input db ref false (allowed_workspace_statuses action work) ;;
      match resolve_db db ref false with
      | Ok resolved =>
          raise_if negb (input_in_analysis resolved work)
            with "ACTION_INPUT_SCOPE_MISMATCH" ;;
          Ok tt
      | Err (LookupError m) =>
          match ref with
          | RRun r =>
              if is_none (rs_record_id r) then
                raise_if neqb (rs_data_kind r) "artifact"
                         || neqb (rs_analysis_id r) (rm_analysis_id (w_meta work))
                         || neqb (rs_stored_data_id r) (rs_content_hash r)
                  with "ACTION_RUN_ARTIFACT_INVALID" ;;
                Ok tt
              else Err (LookupError m)
          | RStored r => if is_none (sd_record_id r) then Ok tt else Err (LookupError m)
          | _ => Err (LookupError m)
          end
      | Err e => Err e
      end
  end.

(** The reservation of a budgeted action is valid, and under a binding the
    decision was taken on the binding and its work profile. *)
Definition check_budget (db : Db) (decision : ActionDecision) (action : ActionRequest)
  (work : WorkExecutionState) (reservation_ref : option RecordRef) : result unit :=
  let! reservation := check_reservation db reservation_ref action work false in
  let! scope := resolve_db db (r_budget_binding_ref reservation) false in
  raise_if match scope with
           | RecBinding b =>
               existsb (fun ref => negb (mem ref (d_checked_config_refs decision)))
                 [CScope (r_budget_binding_ref reservation);
                  CScope (BStored (b_work_budget_profile_ref b))]
           | _ => false
           end
    with "BUDGET checked binding/work profile references are required" ;;
  Ok tt.

(** [RuntimeValidator.check], at the clock reading [now] *)
Definition check (rt : Rt) (now : Z) (decision_ref : RecordRef) (kind : ActionType)
  (work : WorkExecutionState) (reservation_ref : option RecordRef) (needs_budget : bool)
  : result (ActionDecision * ActionRequest) :=
  let db := rt_db rt in
  raise_if recovery_failed with "RECOVERY_FAILED" ;;
  let! decision := resolve_db db decision_ref false in
  match decision with
  | RecDecision decision =>
      let! action := resolve_db db (scope_ref (d_action_ref decision)) false in
      match action with
      | RecAction action =>
          raise_if neqb (q_action_type action) kind with "ACTION_TYPE_MISMATCH" ;;
          do! check_role action (identity_role (q_requester_identity_ref action)) ;;
          do! check_owner db action work ;;
          do! check_stage rt action work ;;
          raise_if neqb (i_decision_ref <$> action_requests rt !! q_action_id action)
                        (Some decision_ref)
            with "AUTHORITY_DENIED: decision was not issued by validator" ;;
          do! validate_decision_for_action decision kind ;;
          raise_if neqb (d_decision decision) ALLOW || neqb (d_use_status decision) UNUSED
                   || match d_valid_until decision with
                      | None => true
                      | Some v => negb ((d_decided_at decision <=? now) && (now <=? v))
                      end
            with "ACTION_EXPIRED_OR_DENIED" ;;
          raise_if mem (q_action_id action) (map dr_action_id (action_decisions rt))
            with "ACTION_ALREADY_USED" ;;
          raise_if neqb (rm_analysis_id (d_meta decision)) (rm_analysis_id (w_meta work))
                   || neqb (rm_analysis_id (q_meta action)) (rm_analysis_id (w_meta work))
            with "ACTION_ANALYSIS_MISMATCH" ;;
          do! match q_work_ref action with
              | None => Ok tt
              | Some ref =>
                  let! current := reference (RecWork work) in
                  raise_if neqb (scope_ref ref) current
                           || neqb (q_expected_state_version action)
                                   (Some (w_state_version work))
                           || neqb (d_checked_state_version decision)
                                   (Some (w_state_version work))
                    with "STATE_VERSION_CONFLICT" ;;
                  Ok tt
              end ;;
          do! for_each (check_input db decision action work)
                (w_input_refs work ++ q_input_refs action) ;;
          do! (if needs_budget then check_budget db decision action work reservation_ref
               else Ok tt) ;;
          Ok (decision, action)
      | _ => Err (ValueError "ACTION_TYPE_MISMATCH")
      end
  | _ => Err (ValueError "ACTION_INVALID")
  end.

(** [RuntimeValidator.claim] *)
Definition claim (rt : Rt) (tick : ClaimTick) (decision_ref : RecordRef) (kind : ActionType)
  (work : WorkExecutionState) (reservation_ref : option RecordRef) (needs_budget : bool)
  : result (ActionDecision * Rt) :=
  let! (decision, action) :=
    check rt (ct_checked tick) decision_ref kind work reservation_ref needs_budget in
  let! meta := next_meta (d_meta decision) (ct_id tick) (ct_meta_now tick) in
  let! used := validate_decision (used_decision decision meta (ct_used tick)) in
  let! (_, db) := stage_publish (rt_db rt) (RecDecision used) in
  let! rt := insert_decision (set_db rt db)
               (mkDecisionRow (d_decision_id used) (q_action_id action) used) in
  if needs_budget then
    let! (_, db) := claim_reservation (rt_db rt) reservation_ref action work in
    Ok (used, set_db rt db)
  else Ok (used, rt).

(** [RuntimeValidator.record_outcome] *)
Definition record_outcome (rt : Rt) (id : string) (now : Z) (claimed : ActionDecision)
  (outputs : list RecordRef) : result (ActionDecision * Rt) :=
  let! meta := next_meta (d_meta claimed) id now in
  let! completed := validate_decision (completed_decision claimed meta outputs) in
  do! validate_decision_revision claimed completed ;;
  let! (_, db) := stage_publish (rt_db rt) (RecDecision completed) in
  Ok (completed, update_decision (set_db rt db) completed).

(** ** Deciding an action *)

(** The value of a [CheckType]. *)
Definition check_name (c : CheckType) : string :=
  match c with
  | K_SCHEMA => "SCHEMA" | K_AUTHORITY => "AUTHORITY" | K_IDENTITY => "IDENTITY"
  | K_REVISION => "REVISION" | K_STATE => "STATE" | K_BUDGET => "BUDGET" | K_TOOL => "TOOL"
  | K_FILE_PATH => "FILE_PATH" | K_PROVIDER => "PROVIDER" | K_SESSION => "SESSION"
  | K_GATE_ORDER => "GATE_ORDER" | K_REPORT_READY => "REPORT_READY"
  | K_REDACTION => "REDACTION"
  end.

(** [sorted(REQUIRED_CHECKS[action_type], key=lambda value: value.value)] *)
Definition sorted_checks (t : ActionType) : list CheckType :=
  sort_by (fun a b => str_leb (check_name a) (check_name b)) (REQUIRED_CHECKS t).

(** The checks extend [config_refs] as they go, and what they added before they
    raised stays: a computation returns its result and the extended list. *)
Definition Gather (A : Type) : Type :=
  list CheckedConfigurationRef -> result A * list CheckedConfigurationRef.
Definition glift {A} (c : result A) : Gather A := fun refs => (c, refs).
Definition gather (new : list CheckedConfigurationRef) : Gather unit :=
  fun refs => (Ok tt, refs ++ new).
Definition gbind {A B} (c : Gather A) (k : A -> Gather B) : Gather B := fun refs =>
  match c refs with
  | (Ok a, refs) => k a refs
  | (Err e, refs) => (Err e, refs)
  end.
Fixpoint gfor_each {A} (f : A -> Gather unit) (l : list A) : Gather unit :=
  match l with
  | [] => glift (Ok tt)
  | x :: l => gbind (f x) (fun _ => gfor_each f l)
  end.

(** [list(dict.fromkeys(l))] *)
Definition from_keys `{EqDecision A} (l : list A) : list A :=
  foldl (fun acc x => if mem x acc then acc else acc ++ [x]) [] l.

(** What [except (ValueError, LookupError)] catches, with [str(error)]. *)
Definition caught (e : exn) : option string :=
  match e with
  | ValueError m | LookupError m => Some m
  | IndexError => Some "list index out of range"
  | _ => None
  end.

(** [action.meta] is always a [RunMeta]. *)
Definition run_finalization (action : ActionRequest) : bool :=
  eqb (q_action_type action) SAVE_RESULT
  && eqb (q_result_kind action) (Some "analysis_run_result") && is_none (q_work_ref action).

(** The IDENTITY, STATE and REVISION checks. *)
Definition authorize_state (rt : Rt) (action : ActionRequest) (work : option WorkExecutionState)
  : Gather unit :=
  let db := rt_db rt in
  if run_finalization action then
    glift (let! state := get_run db (rm_analysis_id (q_meta action)) in
           raise_if neqb (s_status state) RUN_RUNNING with "ANALYSIS_ALREADY_TERMINAL" ;;
           Ok tt)
  else
    match work with
    | None => glift (Err (ValueError "IDENTITY_MISMATCH"))
    | Some work =>
        gbind (glift (
          raise_if neqb (rm_analysis_id (q_meta action)) (rm_analysis_id (w_meta work))
            with "IDENTITY_MISMATCH" ;;
          do! check_owner db action work ;;
          check_stage rt action work)) (fun _ =>
        gbind (if eqb (q_action_type action) RUN_SANDBOX then
                 match q_sandbox_profile_ref action, q_resource_profile_ref action with
                 | Some p, Some r => gather [CScope p; CScope (BStored r)]
                 | _, _ => glift (Err AssertionError)
                 end
               else glift (Ok tt)) (fun _ =>
        gbind (glift (
          match q_work_ref action with
          | Some ref =>
              let! current := reference (RecWork work) in
              raise_if match work_states db !! w_work_id work with
                       | None => true
                       | Some row => neqb (wr_payload row) work
                       end
                       || neqb (scope_ref ref) current
                       || neqb (q_expected_state_version action) (Some (w_state_version work))
                with "STATE_VERSION_CONFLICT" ;;
              Ok tt
          | None =>
              raise_if neqb (q_action_type action) REGISTER_WORK
                       || neqb (w_status work) PENDING
                with "STATE_VERSION_CONFLICT" ;;
              Ok tt
          end)) (fun _ =>
        gfor_each (fun ref =>
            match ref with
            | RHost host =>
                gbind (glift (require_current_capability_ref host))
                  (fun _ => gather [CHost host])
            | _ => glift (check_current_input db ref false
                            (allowed_workspace_statuses action work))
            end) (w_input_refs work ++ q_input_refs action))))
    end.

(** The BUDGET check. *)
Definition authorize_budget (db : Db) (action : ActionRequest) (work : option WorkExecutionState)
  (reservation_ref : option RecordRef) : Gather unit :=
  match work with
  | None => glift (Err (ValueError "BUDGET_UNAVAILABLE"))
  | Some work =>
      gbind (glift (check_reservation db reservation_ref action work false)) (fun r =>
      gbind (gather [CScope (r_budget_binding_ref r)]) (fun _ =>
      gbind (glift (resolve_db db (r_budget_binding_ref r) false)) (fun scope =>
      match scope with
      | RecBinding b =>
          gather [CScope (BStored (b_work_budget_profile_ref b));
                  CScope (BStored (b_verification_budget_profile_ref b));
                  CScope (BStored (b_dynamic_lifecycle_profile_ref b))]
      | _ => glift (Ok tt)
      end)))
  end.

(** The body of the [try] for one check; the SCHEMA check is apart because it
    also returns the outputs. *)
Definition authorize_check (rt : Rt) (action : ActionRequest) (work : option WorkExecutionState)
  (reservation_ref : option RecordRef) (kind : CheckType) : Gather unit :=
  if recovery_failed then glift (Err (ValueError "RECOVERY_FAILED"))
  else
    match kind with
    | K_AUTHORITY =>
        glift (check_role action (identity_role (q_requester_identity_ref action)))
    | K_IDENTITY | K_STATE | K_REVISION => authorize_state rt action work
    | K_BUDGET => authorize_budget (rt_db rt) action work reservation_ref
    | K_SCHEMA => glift (let! _ := derive_outputs rt action in Ok tt)
    | _ =>
        match action_evidence action kind with
        | None => glift (Err (ValueError (check_name kind ++ "_UNPROVEN")%string))
        | Some evidence =>
            gbind (glift (for_each (fun ref : BudgetScopeRef =>
                                      let! _ := resolve_db (rt_db rt) ref false in Ok tt) evidence))
              (fun _ => gather (map CScope evidence))
        end
    end.

Definition check_entry (kind : CheckType) (outcome : result unit) : result ActionCheck :=
  match outcome with
  | Ok _ => Ok (mkActionCheck kind PASS "OK" "Trusted runtime check passed.")
  | Err e =>
      match caught e with
      | Some reason => Ok (mkActionCheck kind FAIL reason "Trusted runtime check failed.")
      | None => Err e
      end
  end.

(** The loop over the checks: the check results and the configuration they
    were taken on. *)
Definition run_checks (rt : Rt) (action : ActionRequest) (work : option WorkExecutionState)
  (reservation_ref : option RecordRef)
  : result (list ActionCheck * list CheckedConfigurationRef) :=
  fold_result (fun '(checks, refs) kind =>
      let (outcome, refs) := authorize_check rt action work reservation_ref kind refs in
      let! entry := check_entry kind outcome in
      Ok (checks ++ [entry], refs))
    ([], []) (sorted_checks (q_action_type action)).

(** [outputs] when the loop ends: what the SCHEMA check assigned. *)
Definition derived_outputs (rt : Rt) (action : ActionRequest) : list RecordRef :=
  if recovery_failed || negb (mem K_SCHEMA (REQUIRED_CHECKS (q_action_type action))) then []
  else match derive_outputs rt action with Ok outputs => outputs | Err _ => [] end.

(** The fresh ids and clock readings of [authorize]; times are in
    microseconds, and a decision is valid for a minute. *)
Record AuthTick := mkAuthTick {
  at_record_id : string;
  at_created : Z;
  at_decision_id : string;
  at_valid_from : Z;
  at_error_id : string;
  at_decided : Z;
}.

Definition one_minute : Z := 60 * 1000 * 1000.

(** The decision [authorize] writes. *)
Definition decision_of (action : ActionRequest) (request_ref : BudgetScopeRef) (tick : AuthTick)
  (work : option WorkExecutionState) (checks : list ActionCheck)
  (config_refs : list CheckedConfigurationRef) : ActionDecision :=
  let allowed := forallb (fun c => eqb (k_result c) PASS) checks in
  let m := q_meta action in
  let rev := mkRevisionMeta (at_record_id tick) (at_record_id tick) "action_decision"
               (schema_version m) 1 None (at_created tick) in
  mkDecision (mkRunMeta rev (rm_analysis_id m) (rm_code m)) (at_decision_id tick) request_ref
    (if allowed then ALLOW else DENY) (map k_check_type checks) checks
    (w_state_version <$> work) (from_keys config_refs)
    (if allowed then Some (at_valid_from tick + one_minute) else None)
    (if allowed then [] else [at_error_id tick])
    (if allowed then UNUSED else NOT_USED) None None None [] (at_decided tick).

(** The work the action is about: the one given, or the one it names. *)
Definition acted_work (db : Db) (work : option WorkExecutionState) (action : ActionRequest)
  : result (option WorkExecutionState) :=
  match work with None => named_work db action | Some _ => Ok work end.

(** [authorize] *)
Definition authorize (rt : Rt) (tick : AuthTick) (action : ActionRequest)
  (work : option WorkExecutionState) (reservation_ref : option RecordRef)
  : result (ActionDecision * Rt) :=
  let! action := validate_action action in
  match action_requests rt !! q_action_id action with
  | Some prior =>
      let! ref := reference (RecAction action) in
      raise_if neqb (i_request_ref prior) ref with "ACTION_IMMUTABLE" ;;
      let! old := resolve_db (rt_db rt) (i_decision_ref prior) false in
      match old with
      | RecDecision old => Ok (old, rt)
      | _ => Err AssertionError
      end
  | None =>
      let! (request_ref, db) := stage_publish (rt_db rt) (RecAction action) in
      let! work := acted_work db work action in
      let! (checks, config_refs) := run_checks (set_db rt db) action work reservation_ref in
      let outputs := derived_outputs (set_db rt db) action in
      match scope_of request_ref with
      | None => Err (ValueError "ValidationError")
      | Some action_ref =>
          let! decision :=
            validate_decision (decision_of action action_ref tick work checks config_refs) in
          let! (decision_ref, db) := stage_publish db (RecDecision decision) in
          let id := q_action_id action in
          let! hash := closure_hash request_ref decision_ref outputs in
          if is_some (action_output_closures rt !! id) || is_some (action_checks rt !! id)
          then Err IntegrityError
          else
            Ok (decision,
                mkRt db
                  (<[id := mkIssued request_ref decision_ref]> (action_requests rt))
                  (<[id := checks]> (action_checks rt))
                  (<[id := mkClosure decision_ref outputs hash]> (action_output_closures rt))
                  (action_decisions rt))
      end
  end.

(** ** External effects *)

(** The branch of [claim_external] for a request it has already prepared. *)
Definition prepared_again (rt : Rt) (now : Z) (existing : DispatchRow) (decision : ActionDecision)
  (action : Rec) (work : WorkExecutionState) (reservation_ref : option RecordRef)
  : result RecordRef :=
  raise_if match d_valid_until decision with None => true | Some v => v <? now end
    with "ACTION_EXPIRED_OR_DENIED" ;;
  if is_none (x_dispatched_at existing)
     && eqb (Some (x_reservation_ref existing)) reservation_ref
     && eqb (x_attempt_id existing) (attempt_text work)
  then
    match action with
    | RecAction action =>
        let! _ := check_reservation (rt_db rt) reservation_ref action work true in
        match find (fun row => eqb (dr_action_id row) (q_action_id action))
                (action_decisions rt) with
        | Some row => reference (RecDecision (dr_payload row))
        | None => Err NoResultFound
        end
    | _ => Err (ValueError "ACTION_INVALID")
    end
  else Err (ValueError "ACTION_ALREADY_USED").

(** [RuntimeValidator.claim_external]; [now] is its own clock reading and
    [prepared] the one of the inserted row. Without a reservation [claim] has
    raised, so the last [match] has one live branch. *)
Definition claim_external (rt : Rt) (tick : ClaimTick) (now prepared : Z) (work_id : string)
  (decision_ref : RecordRef) (reservation_ref : option RecordRef)
  : result (RecordRef * Rt) :=
  raise_if recovery_failed with "RECOVERY_FAILED" ;;
  match work_states (rt_db rt) !! work_id with
  | None => Err NoResultFound
  | Some row =>
      let work := wr_payload row in
      do! reject_uncertain (rt_db rt) work_id ;;
      raise_if neqb (w_status work) RUNNING with "ATTEMPT_NOT_ACTIVE" ;;
      let! decision := resolve_db (rt_db rt) decision_ref false in
      match decision with
      | RecDecision decision =>
          let! action := resolve_db (rt_db rt) (scope_ref (d_action_ref decision)) false in
          match head (rows_of_decision (rt_db rt) decision_ref) with
          | Some existing =>
              let! ref := prepared_again rt now existing decision action work reservation_ref in
              Ok (ref, rt)
          | None =>
              match action with
              | RecAction action =>
                  raise_if negb (mem (q_action_type action) call_actions)
                    with "ACTION_TYPE_MISMATCH" ;;
                  let! (claimed, rt) :=
                    claim rt tick decision_ref (q_action_type action) work reservation_ref true in
                  match reservation_ref with
                  | None => Err (ValueError "BUDGET reservation required")
                  | Some reservation_ref =>
                      let! db := insert_dispatch (rt_db rt) (q_action_id action) work_id
                                   (attempt_text work) decision_ref reservation_ref prepared in
                      let! ref := reference (RecDecision claimed) in
                      Ok (ref, set_db rt db)
                  end
              | _ => Err (ValueError "ACTION_TYPE_MISMATCH")
              end
          end
      | _ => Err (ValueError "ACTION_INVALID")
      end
  end.

(** One input of [RuntimeValidator.mark_dispatched]. *)
Definition recheck_input (db : Db) (decision : ActionDecision) (action : ActionRequest)
  (work : WorkExecutionState) (ref : RecordRef) : result unit :=
  match ref with
  | RHost host =>
      do! require_current_capability_ref host ;;
      raise_if negb (mem (CHost host) (d_checked_config_refs decision))
        with "CAPABILITY_PROFILE_NOT_AUTHORIZED" ;;
      Ok tt
  | _ => check_current_input db ref false (allowed_workspace_statuses action work)
  end.

(** [RuntimeValidator.mark_dispatched]: everything is checked again just before
    the effect is recorded as sent. *)
Definition validated_dispatch (rt : Rt) (now sent : Z) (decision_ref : RecordRef)
  (provider_request_id idempotency_key : option string) : result Rt :=
  let db := rt_db rt in
  let! row := one (rows_of_decision db decision_ref) in
  let! decision := resolve_db db decision_ref false in
  match decision with
  | RecDecision decision =>
      raise_if match d_valid_until decision with None => true | Some v => v <? now end
        with "ACTION_EXPIRED_OR_DENIED" ;;
      let! action := resolve_db db (scope_ref (d_action_ref decision)) false in
      match action with
      | RecAction action =>
          match work_states db !! x_work_id row with
          | None => Err NoResultFound
          | Some work_row =>
              let work := wr_payload work_row in
              do! (if eqb (q_action_type action) READ_CODE
                      && eqb (w_work_type work) CONTEXT_RETRIEVAL
                   then require_context_request rt action work else Ok tt) ;;
              do! check_role action (identity_role (q_requester_identity_ref action)) ;;
              do! check_owner db action work ;;
              do! check_stage rt action work ;;
              do! for_each (recheck_input db decision action work)
                    (w_input_refs work ++ q_input_refs action) ;;
              let! _ := check_reservation db (Some (x_reservation_ref row)) action work true in
              let! db := mark_dispatched db decision_ref provider_request_id idempotency_key
                           sent in
              Ok (set_db rt db)
          end
      | _ => Err AssertionError
      end
  | _ => Err (ValueError "ACTION_EXPIRED_OR_DENIED")
  end.
End validator.

(** [unbind H] is [unguard H] without simplification: it only splits the guards
    and the binds of [H], and destructs the pairs they return. *)
Ltac unbind H :=
  repeat first
    [ apply raise_if_Ok in H; let G := fresh "G" in destruct H as [G H]
    | let x := fresh "x" in let E := fresh "E" in
      apply rbind_Ok in H; destruct H as (x & E & H); cbv beta in H;
      lazymatch type of x with
      | unit => destruct x
      | (_ * _)%type => let y := fresh "x" in destruct x as [x y]
      | _ => idtac
      end ].

(** ** What the validator leaves alone *)

Section laws.
Context `{CodecLaws} `{TrustedEvidence} `{Host} `{StageRules}.
Implicit Types (db : Db) (rt : Rt).

(** [db'] is [db] with more records, other current pointers and reservations
    marked claimed: its other tables are the same, and for the ledger the
    change is a history of its own steps. *)
Record steady db db' : Prop := {
  sd_store : rtc (store_step (R := Rec)) (db_store db) (db_store db');
  sd_runs : analysis_runs db' = analysis_runs db;
  sd_controls : run_controls db' = run_controls db;
  sd_works : work_states db' = work_states db;
  sd_attempts : work_attempts db' = work_attempts db;
  sd_profiles : budget_profiles db' = budget_profiles db;
  sd_dispatches : external_dispatches db' = external_dispatches db;
  sd_commits : transition_commits db' = transition_commits db;
  sd_ledger P : rtc (ledger_step P) db db';
}.

#[export] Instance steady_preorder : PreOrder steady.
Proof.
  split; [intros db; split; reflexivity |].
  intros x y z [] []. split; [etransitivity; eassumption | congruence .. |].
  intros P. etransitivity; eauto.
Qed.

Lemma grown_steady db db' : store_grown db db' -> steady db db'.
Proof.
  intros Hg. pose proof (grown_env _ _ Hg) as He. destruct Hg as (s & -> & Hs).
  split; simpl; auto. intros P. apply rtc_once, ls_env, He.
Qed.

(** Writing current pointers. *)
Lemma pointer_steady db current : steady db (set_works db (work_states db) current).
Proof.
  split; simpl; try reflexivity. intros P. apply rtc_once, ls_env.
  repeat split; try reflexivity. intros a st Hst. exists st. auto.
Qed.

Lemma claim_reservation_steady db ref q w r db' :
  claim_reservation db ref q w = Ok (r, db') -> steady db db'.
Proof.
  intros Hc. pose proof Hc as Hc'. apply claim_reservation_Ok in Hc'. destruct Hc' as [-> _].
  split; simpl; try reflexivity. intros P. apply rtc_once. eapply ls_claim, Hc.
Qed.

Lemma stage_publish_steady db r ref db' : stage_publish db r = Ok (ref, db') -> steady db db'.
Proof. intros Hs. apply grown_steady. eapply stage_publish_Ok, Hs. Qed.

Lemma steady_wf db db' : steady db db' -> db_wf db -> db_wf db'.
Proof. intros Hq. apply store_steps_wf, Hq. Qed.

Lemma steady_resolve db db' ref c r :
  steady db db' -> db_wf db -> resolve_db db ref c = Ok r -> resolve_db db' ref c = Ok r.
Proof. intros Hq Hwf. apply resolve_grown; [exact Hwf | apply Hq]. Qed.

(** ** What each operation did when it returned *)

Lemma check_Ok rt now dref kind w res nb d q :
  check rt now dref kind w res nb = Ok (d, q) ->
  recovery_failed = false
  /\ resolve_db (rt_db rt) dref false = Ok (RecDecision d)
  /\ resolve_db (rt_db rt) (scope_ref (d_action_ref d)) false = Ok (RecAction q)
  /\ q_action_type q = kind
  /\ check_role q (identity_role (q_requester_identity_ref q)) = Ok tt
  /\ check_owner (rt_db rt) q w = Ok tt /\ check_stage rt q w = Ok tt
  /\ (exists req, action_requests rt !! q_action_id q = Some (mkIssued req dref))
  /\ d_decision d = ALLOW /\ d_use_status d = UNUSED
  /\ (exists v, d_valid_until d = Some v /\ d_decided_at d <= now <= v)
  /\ (q_action_id q ∉ map dr_action_id (action_decisions rt))
  /\ rm_analysis_id (d_meta d) = rm_analysis_id (w_meta w)
  /\ rm_analysis_id (q_meta q) = rm_analysis_id (w_meta w)
  /\ (forall ref, q_work_ref q = Some ref ->
        reference (RecWork w) = Ok (scope_ref ref)
        /\ q_expected_state_version q = Some (w_state_version w)
        /\ d_checked_state_version d = Some (w_state_version w))
  /\ Forall (fun ref => check_input (rt_db rt) d q w ref = Ok tt)
       (w_input_refs w ++ q_input_refs q)
  /\ (nb = true -> check_budget (rt_db rt) d q w res = Ok tt).
Proof.
  unfold check. intros Hc. apply raise_if_Ok in Hc. destruct Hc as [Hrec Hc].
  apply rbind_Ok in Hc. destruct Hc as (r & Hd & Hc).
  destruct r as [| | | | | decision | | | | | | | | | | | | |]; try discriminate.
  apply rbind_Ok in Hc. destruct Hc as (r & Hq & Hc).
  destruct r as [| | | | action | | | | | | | | | | | | | |]; try discriminate.
  unguard Hc. injection Hc as <- <-. boolify. destruct G1 as [[Hallow Huse] Hv].
  do 7 (split; [assumption |]).
  split. { destruct (action_requests rt !! q_action_id action) as [[req ref] |]; [| discriminate].
           exists req. simpl in *. congruence. }
  do 2 (split; [assumption |]).
  split. { destruct (d_valid_until decision) as [v |]; [| discriminate]. boolify. exists v. tauto. }
  split; [assumption |]. destruct G3. repeat (split; [assumption |]). split; [| split].
  - intros ref Href.
    match goal with Hx : match q_work_ref action with _ => _ end = _ |- _ => rename Hx into Hw end.
    rewrite Href in Hw. unguard Hw. boolify. intuition congruence.
  - apply for_each_Ok. assumption.
  - intros ->. assumption.
Qed.

Lemma validate_decision_Ok d d' : validate_decision d = Ok d' -> d' = d.
Proof. unfold validate_decision. intros Hv. unguard Hv. congruence. Qed.

Lemma insert_decision_Ok rt row rt' :
  insert_decision rt row = Ok rt' ->
  (dr_decision_id row ∉ map dr_decision_id (action_decisions rt))
  /\ (dr_action_id row ∉ map dr_action_id (action_decisions rt))
  /\ rt' = set_decisions rt (action_decisions rt ++ [row]).
Proof.
  unfold insert_decision. destruct (_ || _) eqn:E; [discriminate |]. intros [= <-].
  boolify. tauto.
Qed.

(** A claim publishes the used revision of the decision it checked and records
    it, on a database that is otherwise steady. *)
Lemma claim_Ok rt tick dref kind w res nb d rt' :
  claim rt tick dref kind w res nb = Ok (d, rt') ->
  exists d0 q meta,
    check rt (ct_checked tick) dref kind w res nb = Ok (d0, q)
    /\ next_meta (d_meta d0) (ct_id tick) (ct_meta_now tick) = Ok meta
    /\ d = used_decision d0 meta (ct_used tick)
    /\ validate_decision d = Ok d
    /\ (d_decision_id d ∉ map dr_decision_id (action_decisions rt))
    /\ steady (rt_db rt) (rt_db rt')
    /\ rt' = mkRt (rt_db rt') (action_requests rt) (action_checks rt) (action_output_closures rt)
               (action_decisions rt ++ [mkDecisionRow (d_decision_id d) (q_action_id q) d]).
Proof.
  unfold claim. intros Hc. apply rbind_Ok in Hc. destruct Hc as ([d0 q] & Hchk & Hc).
  apply rbind_Ok in Hc. destruct Hc as (meta & Hm & Hc).
  apply rbind_Ok in Hc. destruct Hc as (used & Hv & Hc).
  pose proof (validate_decision_Ok _ _ Hv) as ->.
  apply rbind_Ok in Hc. destruct Hc as ([ref db1] & Hs & Hc).
  apply rbind_Ok in Hc. destruct Hc as (rt1 & Hins & Hc).
  apply insert_decision_Ok in Hins. destruct Hins as (Hid & _ & ->).
  apply stage_publish_steady in Hs. exists d0, q, meta.
  destruct nb.
  - apply rbind_Ok in Hc. destruct Hc as ([r db2] & Hcr & [= <- <-]).
    repeat (split; [assumption || reflexivity |]).
    split; [| reflexivity]. etransitivity; [exact Hs |]. eapply claim_reservation_steady, Hcr.
  - injection Hc as <- <-. repeat (split; [assumption || reflexivity |]). reflexivity.
Qed.

(** What [authorize] did: it answered a known action from its row, or wrote a
    new decision. *)
Lemma authorize_Ok rt tick q w res d rt' :
  authorize rt tick q w res = Ok (d, rt') ->
  validate_action q = Ok q
  /\ ((rt' = rt /\ exists prior ref, action_requests rt !! q_action_id q = Some prior
         /\ reference (RecAction q) = Ok ref /\ i_request_ref prior = ref
         /\ resolve_db (rt_db rt) (i_decision_ref prior) false = Ok (RecDecision d))
      \/ (action_requests rt !! q_action_id q = None
          /\ exists request_ref action_ref db1 w' checks refs dref closure,
               stage_publish (rt_db rt) (RecAction q) = Ok (request_ref, db1)
               /\ scope_of request_ref = Some action_ref
               /\ acted_work db1 w q = Ok w'
               /\ run_checks (set_db rt db1) q w' res = Ok (checks, refs)
               /\ d = decision_of q action_ref tick w' checks refs
               /\ validate_decision d = Ok d
               /\ stage_publish db1 (RecDecision d) = Ok (dref, rt_db rt')
               /\ rt' = mkRt (rt_db rt')
                          (<[q_action_id q := mkIssued request_ref dref]> (action_requests rt))
                          (<[q_action_id q := checks]> (action_checks rt))
                          (<[q_action_id q := closure]> (action_output_closures rt))
                          (action_decisions rt))).
Proof.
  unfold authorize. intros Ha. apply rbind_Ok in Ha. destruct Ha as (q' & Hv & Ha).
  assert (q' = q) as -> by (unfold validate_action in Hv; unguard Hv; congruence).
  split; [exact Hv |]. destruct (action_requests rt !! q_action_id q) as [prior |] eqn:Hp.
  - left. apply rbind_Ok in Ha. destruct Ha as (ref & Href & Ha).
    apply raise_if_Ok in Ha. destruct Ha as [Heq Ha].
    apply rbind_Ok in Ha. destruct Ha as (old & Ho & Ha).
    destruct old as [| | | | | old | | | | | | | | | | | | |]; try discriminate.
    injection Ha as -> ->. split; [reflexivity |]. exists prior, ref. boolify. auto.
  - right. split; [reflexivity |]. apply rbind_Ok in Ha. destruct Ha as ([rref db1] & Hs & Ha).
    apply rbind_Ok in Ha. destruct Ha as (w' & Hw & Ha).
    apply rbind_Ok in Ha. destruct Ha as ([checks refs] & Hc & Ha).
    destruct (scope_of rref) as [aref |] eqn:Hsc; [| discriminate].
    apply rbind_Ok in Ha. destruct Ha as (d' & Hd & Ha).
    pose proof (validate_decision_Ok _ _ Hd) as ->.
    apply rbind_Ok in Ha. destruct Ha as ([dref db2] & Hs2 & Ha).
    apply rbind_Ok in Ha. destruct Ha as (hash & _ & Ha).
    destruct (_ || _); [discriminate |]. injection Ha as <- <-.
    exists rref, aref, db1, w', checks, refs, dref. eexists. auto 10.
Qed.

(** *** Checks and their configuration *)

(** The outcome of a check does not depend on the configuration gathered
    before it. *)
Definition refs_free {A} (g : Gather A) : Prop := forall refs, fst (g refs) = fst (g []).

Lemma glift_free {A} (c : result A) : refs_free (glift c).
Proof. intros refs. reflexivity. Qed.
Lemma gather_free new : refs_free (gather new).
Proof. intros refs. reflexivity. Qed.
Lemma gbind_free {A B} (c : Gather A) (k : A -> Gather B) :
  refs_free c -> (forall a, refs_free (k a)) -> refs_free (gbind c k).
Proof.
  intros Hc Hk refs. unfold gbind. specialize (Hc refs).
  destruct (c refs) as [[a | e] r1], (c []) as [[a' | e'] r2]; simpl in *; congruence.
Qed.
Lemma gfor_each_free {A} (f : A -> Gather unit) l :
  (forall x, refs_free (f x)) -> refs_free (gfor_each f l).
Proof.
  intros Hf. induction l as [| x l IH]; [apply glift_free |]. apply gbind_free; auto.
Qed.
Create HintDb gather discriminated.
#[local] Hint Resolve glift_free gather_free gbind_free gfor_each_free : gather.

Lemma authorize_check_free rt q w res kind : refs_free (authorize_check rt q w res kind).
Proof.
  unfold authorize_check, authorize_state, authorize_budget.
  repeat first [progress intros | apply gbind_free | apply gfor_each_free | case_goal];
    auto with gather.
Qed.

(** The check passes on its own. *)
Definition passes rt (q : ActionRequest) (w : option WorkExecutionState)
  (res : option RecordRef) (kind : CheckType) : Prop :=
  fst (authorize_check rt q w res kind []) = Ok tt.

Lemma run_checks_Ok rt q w res checks refs :
  run_checks rt q w res = Ok (checks, refs) ->
  map k_check_type checks = sorted_checks (q_action_type q)
  /\ (forallb (fun c => eqb (k_result c) PASS) checks = true
      <-> Forall (passes rt q w res) (sorted_checks (q_action_type q))).
Proof.
  unfold run_checks. generalize (sorted_checks (q_action_type q)) as kinds.
  assert (Hgen : forall kinds acc refs0,
    fold_result (fun '(checks, refs) kind =>
        let (outcome, refs) := authorize_check rt q w res kind refs in
        let! entry := check_entry kind outcome in
        Ok (checks ++ [entry], refs)) (acc, refs0) kinds = Ok (checks, refs) ->
    exists new, checks = acc ++ new /\ map k_check_type new = kinds
      /\ (forallb (fun c => eqb (k_result c) PASS) new = true <-> Forall (passes rt q w res) kinds)).
  { induction kinds as [| kind kinds IH]; intros acc refs0 Hf; simpl in Hf.
    - injection Hf as <- <-. exists []. rewrite app_nil_r. repeat split; auto.
    - pose proof (authorize_check_free rt q w res kind refs0) as Hfree.
      destruct (authorize_check rt q w res kind refs0) as [outcome refs1]. simpl in Hfree.
      destruct (check_entry kind outcome) as [entry | e] eqn:He; [| discriminate].
      destruct (IH _ _ Hf) as (new & -> & Hm & Hp). exists (entry :: new).
      rewrite <- app_assoc. split; [reflexivity |]. simpl. rewrite Hm, andb_true_iff, Hp.
      rewrite Forall_cons. unfold check_entry in He.
      destruct outcome as [[] | e]; [| destruct (caught e); [| discriminate]];
        injection He as <-; (split; [reflexivity |]); simpl.
      + unfold passes. rewrite <- Hfree. tauto.
      + unfold passes. rewrite <- Hfree. split; [intros [Hx _] | intros [Hx _]]; discriminate. }
  intros kinds Hf. destruct (Hgen _ _ _ Hf) as (new & -> & Hm & Hp). auto.
Qed.

(** C13. A new action is allowed exactly when every check its type requires
    passes on its own, on the database that holds the request: the decision
    issued for it carries exactly the required checks, is unused with a minute
    to be used in when it allows, and is marked never usable when it denies. *)
Theorem authorize_decides rt tick q w res d rt' :
  db_wf (rt_db rt) -> action_requests rt !! q_action_id q = None ->
  authorize rt tick q w res = Ok (d, rt') ->
  exists ref db1 w' dref,
    stage_publish (rt_db rt) (RecAction q) = Ok (ref, db1) /\ acted_work db1 w q = Ok w'
    /\ (d_decision d = ALLOW <-> Forall (passes (set_db rt db1) q w' res) (REQUIRED_CHECKS (q_action_type q)))
    /\ validate_decision_for_action d (q_action_type q) = Ok tt
    /\ action_requests rt' !! q_action_id q = Some (mkIssued ref dref)
    /\ resolve_db (rt_db rt') dref false = Ok (RecDecision d)
    /\ (d_decision d = ALLOW -> d_use_status d = UNUSED
          /\ d_valid_until d = Some (at_valid_from tick + one_minute))
    /\ (d_decision d = DENY -> d_use_status d = NOT_USED /\ d_valid_until d = None).
Proof.
  intros Hwf Hnew Ha. apply authorize_Ok in Ha.
  destruct Ha as (_ & [(_ & prior & ref & Hp & _) | (_ & rref & aref & db1 & w' & checks & refs
     & dref & cl & Hs1 & Hsc & Hw & Hc & -> & _ & Hs2 & ->)]); [congruence |].
  exists rref, db1, w', dref. apply run_checks_Ok in Hc. destruct Hc as [Hm Hp].
  pose proof (steady_wf _ _ (stage_publish_steady _ _ _ _ Hs1) Hwf) as Hwf1.
  pose proof (sort_by_perm (fun a b => str_leb (check_name a) (check_name b))
                (REQUIRED_CHECKS (q_action_type q))) as Hperm.
  change (sort_by _ _) with (sorted_checks (q_action_type q)) in Hperm.
  split; [exact Hs1 |]. split; [exact Hw |]. rewrite <- Hperm.
  split; [| split; [| split; [| split; [| split]]]]; simpl.
  - rewrite <- Hp. destruct (forallb _ checks); split; congruence.
  - unfold validate_decision_for_action. apply raise_if_Ok. split; [| reflexivity].
    apply negb_false_iff, same_set_spec. simpl. rewrite Hm. intros x. rewrite Hperm. reflexivity.
  - apply lookup_insert_eq.
  - exact (proj2 (stage_publish_resolved _ _ _ _ Hwf1 Hs2)).
  - destruct (forallb _ checks); [auto | discriminate].
  - destruct (forallb _ checks); [discriminate | auto].
Qed.

(** *** External effects *)

(** Preparing a request claims its action and adds its row, or finds the row
    not yet sent and answers with the same claimed decision. *)
Lemma claim_external_Ok rt tick now prepared wid dref res ref rt' :
  claim_external rt tick now prepared wid dref res = Ok (ref, rt') ->
  exists row d q, work_states (rt_db rt) !! wid = Some row
    /\ w_status (wr_payload row) = RUNNING
    /\ resolve_db (rt_db rt) dref false = Ok (RecDecision d)
    /\ resolve_db (rt_db rt) (scope_ref (d_action_ref d)) false = Ok (RecAction q)
    /\ ((rt' = rt /\ exists x used, head (rows_of_decision (rt_db rt) dref) = Some x
           /\ x_dispatched_at x = None
           /\ find (fun r => eqb (dr_action_id r) (q_action_id q)) (action_decisions rt) = Some used
           /\ reference (RecDecision (dr_payload used)) = Ok ref)
        \/ (head (rows_of_decision (rt_db rt) dref) = None
            /\ exists reservation claimed rt1 db,
                 res = Some reservation
                 /\ claim rt tick dref (q_action_type q) (wr_payload row) res true = Ok (claimed, rt1)
                 /\ insert_dispatch (rt_db rt1) (q_action_id q) wid (attempt_text (wr_payload row))
                      dref reservation prepared = Ok db
                 /\ reference (RecDecision claimed) = Ok ref /\ rt' = set_db rt1 db)).
Proof.
  unfold claim_external. intros Hc. apply raise_if_Ok in Hc. destruct Hc as [_ Hc].
  destruct (work_states (rt_db rt) !! wid) as [row |]; [| discriminate].
  apply rbind_Ok in Hc. destruct Hc as ([] & _ & Hc).
  apply raise_if_Ok in Hc. destruct Hc as [Hrun Hc]. boolify.
  apply rbind_Ok in Hc. destruct Hc as (rd & Hd & Hc).
  destruct rd as [| | | | | d | | | | | | | | | | | | |]; try discriminate.
  apply rbind_Ok in Hc. destruct Hc as (rq & Hq & Hc).
  destruct (head _) as [x |].
  - apply rbind_Ok in Hc. destruct Hc as (r & Hp & [= <- <-]). unfold prepared_again in Hp.
    apply raise_if_Ok in Hp. destruct Hp as [_ Hp].
    destruct (_ && _) eqn:Hsame; [| discriminate]. boolify. destruct Hsame as ((Hn & _) & _).
    destruct rq as [| | | | q | | | | | | | | | | | | | |]; try discriminate.
    apply rbind_Ok in Hp. destruct Hp as (reservation & _ & Hp).
    destruct (find _ (action_decisions rt)) as [used |] eqn:Hf; [| discriminate].
    exists row, d, q. repeat (split; [assumption || reflexivity |]). left.
    split; [reflexivity |]. exists x, used. auto.
  - destruct rq as [| | | | q | | | | | | | | | | | | | |]; try discriminate.
    apply raise_if_Ok in Hc. destruct Hc as [_ Hc].
    apply rbind_Ok in Hc. destruct Hc as ([claimed rt1] & Hcl & Hc).
    destruct res as [reservation |]; [| discriminate].
    apply rbind_Ok in Hc. destruct Hc as (db & Hi & Hc).
    apply rbind_Ok in Hc. destruct Hc as (r & Hr & [= <- <-]).
    exists row, d, q. repeat (split; [assumption || reflexivity |]). right.
    split; [reflexivity |]. exists reservation, claimed, rt1, db. auto.
Qed.

Lemma validated_dispatch_Ok rt now sent dref p k rt' :
  validated_dispatch rt now sent dref p k = Ok rt' ->
  exists db, mark_dispatched (rt_db rt) dref p k sent = Ok db /\ rt' = set_db rt db.
Proof.
  unfold validated_dispatch. intros Hv. unbind Hv.
  destruct x0 as [| | | | | d | | | | | | | | | | | | |]; try discriminate. unbind Hv.
  destruct x0 as [| | | | q | | | | | | | | | | | | | |]; try discriminate.
  destruct (work_states _ !! _); [| discriminate]. unbind Hv. injection Hv as <-. eauto.
Qed.

Lemma record_outcome_Ok rt id now claimed outputs d rt' :
  record_outcome rt id now claimed outputs = Ok (d, rt') ->
  exists meta, d = completed_decision claimed meta outputs
    /\ validate_decision d = Ok d
    /\ validate_decision_revision claimed d = Ok tt
    /\ steady (rt_db rt) (rt_db rt')
    /\ rt' = update_decision (set_db rt (rt_db rt')) d.
Proof.
  unfold record_outcome. intros Hr. apply rbind_Ok in Hr. destruct Hr as (meta & _ & Hr).
  apply rbind_Ok in Hr. destruct Hr as (d' & Hv & Hr).
  pose proof (validate_decision_Ok _ _ Hv) as ->.
  apply rbind_Ok in Hr. destruct Hr as ([] & Hrev & Hr).
  apply rbind_Ok in Hr. destruct Hr as ([ref db] & Hs & [= <- <-]).
  exists meta. repeat (split; [assumption || reflexivity |]).
  split; [eapply stage_publish_steady, Hs | reflexivity].
Qed.
End laws.
