(* ===== verification/Services.v ===== *)
(** * The work services

    [WorkService] ([storage/work_service.py]) and [AttemptService]
    ([storage/attempt_service.py]) with the projections a work advances
    ([storage/verification_state.py], [storage/dynamic_state.py]): a work is
    registered once, made ready and started, each in one transaction. *)
From S2P Require Import Prelude Records CanonicalJson Store Work Processes WorkLife Actions.
From S2P Require Import Budget Runtime Registry Hierarchy Ledger Dispatch Authority Outputs Validator.

(** ** The clock and the ids of a transaction

    [fresh n] and [clock n] are the [n]-th id and the [n]-th reading the
    transaction takes. *)

Record Tick := mkTick {
  fresh : nat -> string;
  clock : nat -> Z;
}.

(** What the transaction has left after its first [i] ids and [j] readings. *)
Definition after (i j : nat) (t : Tick) : Tick :=
  mkTick (fun n => fresh t (i + n)) (fun n => clock t (j + n)).

Definition claim_tick (t : Tick) : ClaimTick :=
  mkClaimTick (clock t 0) (fresh t 0) (clock t 1) (clock t 2).

(** ** Values *)

Definition work_type_name (t : WorkType) : string :=
  match t with
  | WORKSPACE_PREP => "WORKSPACE_PREP" | REPOSITORY_PROFILE => "REPOSITORY_PROFILE"
  | STATIC_TOOL => "STATIC_TOOL" | STATIC_NORMALIZE => "STATIC_NORMALIZE"
  | HYPOTHESIS_PROPOSAL => "HYPOTHESIS_PROPOSAL" | CONTEXT_RETRIEVAL => "CONTEXT_RETRIEVAL"
  | PRO_EVIDENCE => "PRO_EVIDENCE" | CON_EVIDENCE => "CON_EVIDENCE"
  | VERIFICATION => "VERIFICATION" | DYNAMIC_REPRO => "DYNAMIC_REPRO"
  | PRIMITIVE_UPDATE => "PRIMITIVE_UPDATE" | CHAINING => "CHAINING" | CWE_LABEL => "CWE_LABEL"
  | POLICY_FETCH => "POLICY_FETCH" | TECHNICAL_GATE => "TECHNICAL_GATE"
  | RULE_SCOPE_GATE => "RULE_SCOPE_GATE" | FINDING_NORMALIZE => "FINDING_NORMALIZE"
  | REPORT_DRAFT => "REPORT_DRAFT"
  end.

Definition subject_text (s : SubjectId) : string :=
  match s with SubAnalysis i | SubProposal i | SubHypothesis i | SubReport i => i end.

(** [content_hash([analysis_id, work_type, subject_id, work_generation, dedupe_key])] *)
Definition registration_key (work : WorkExecutionState) : result string :=
  content_hash []
    (VSequence [id_value (rm_analysis_id (w_meta work));
                VEnum (VStr (work_type_name (w_work_type work)));
                id_value (subject_text (w_subject_id work)); VInt (w_work_generation work);
                VStr (w_dedupe_key work)]).

(** A reference a [BudgetScopeRef] or a [StoredDataRef] field accepts. *)
Definition as_scope (ref : RecordRef) : result BudgetScopeRef :=
  match scope_of ref with Some r => Ok r | None => Err (ValueError "ValidationError") end.
Definition as_stored (ref : RecordRef) : result StoredDataRef :=
  match ref with RStored r => Ok r | _ => Err (ValueError "ValidationError") end.

Section services.
Context `{Codec} `{TrustedEvidence} `{Host} `{StageRules}.

(** ** Queries *)

Definition rows_of (db : Db) : list WorkRow := map snd (map_to_list (work_states db)).

Definition in_analysis (analysis_id : string) (status : WorkStatus) (row : WorkRow) : bool :=
  eqb (rm_analysis_id (w_meta (wr_payload row))) analysis_id
  && eqb (w_status (wr_payload row)) status.

(** [WorkService.get] *)
Definition get_work (db : Db) (work_id : string) : result WorkExecutionState :=
  match work_states db !! work_id with
  | Some row => Ok (wr_payload row)
  | None => Err NoResultFound
  end.

Definition by_work_id (a b : WorkExecutionState) : bool :=
  str_leb (w_work_id a) (w_work_id b).

(** [WorkService.ready_work]: the READY works of a run, by id. *)
Definition ready_works (db : Db) (analysis_id : string) (limit : Z)
  : result (list WorkExecutionState) :=
  raise_if eqb analysis_id "" || (limit <? 0) with "SCHEDULER_QUERY_INVALID" ;;
  Ok (take (Z.to_nat limit)
        (sort_by by_work_id
           (map wr_payload (filter (fun row => in_analysis analysis_id READY row = true)
                              (rows_of db))))).

(** [WorkService.work_for_run] *)
Definition work_for_run (db : Db) (analysis_id : string) : result (list WorkExecutionState) :=
  raise_if eqb analysis_id "" with "SCHEDULER_QUERY_INVALID" ;;
  Ok (sort_by by_work_id
        (filter (fun w => rm_analysis_id (w_meta w) = analysis_id) (map wr_payload (rows_of db)))).

(** [WorkService.attempts_for_work] *)
Definition attempts_of (db : Db) (work_id : string) : list WorkAttempt :=
  sort_by (fun a b => a_attempt_number a <=? a_attempt_number b)
    (filter (fun a => a_work_id a = work_id) (map snd (map_to_list (work_attempts db)))).

Definition attempts_for_work (db : Db) (work_id : string) : result (list WorkAttempt) :=
  raise_if eqb work_id "" with "SCHEDULER_QUERY_INVALID" ;;
  Ok (attempts_of db work_id).

(** ** The projections a work advances *)

(** The current records of a kind in the work's scope. *)
Definition scoped_current {A} (select : Rec -> option (A * RunMeta)) (db : Db) (kind : string)
  (work : WorkExecutionState) : result (list A) :=
  fold_result (fun acc ref =>
      let! record := resolve_db db ref false in
      Ok match select record with
         | Some (x, m) =>
             if eqb (scope_names (MRun m)) (scope_names (MRun (w_meta work)))
             then acc ++ [x] else acc
         | None => acc
         end) [] (current_of_kind db kind).

(** [update(current_records).where(logical_record_id == .., record_id == ..)]
    with its [rowcount != 1] check. *)
Definition move_pointer (db : Db) (from to : RunMeta) (conflict : string) : result Db :=
  raise_if neqb (fst <$> current_records db !! logical_record_id from) (Some (record_id from))
    with conflict ;;
  Ok (set_works db (work_states db)
        (<[logical_record_id from := (record_id to, revision_number to)]> (current_records db))).

(** The new values of the process: [FAILED] and [CANCELLED] end it too. *)
Definition advanced_process (p : HypothesisProcessState) (meta : RunMeta) (ref : StoredDataRef)
  (status : WorkStatus) (now : Z) : HypothesisProcessState :=
  let '(new_status, finished) :=
    match status with
    | FAILED => (H_FAILED, Some now)
    | CANCELLED => (H_CANCELLED, Some now)
    | _ => (h_status p, h_finished_at p)
    end in
  mkProcess meta (h_proposal_ref p) new_status (h_verification_assignment_ref p)
    (h_verification_generation p) (Some ref) (h_verification_result_ref p) (h_started_at p)
    finished (h_elapsed_ms p).

(** The readings one [advance_*] call takes: [finished_at], then [next_meta]. *)
Definition advance_readings (status : WorkStatus) : nat :=
  if mem status [FAILED; CANCELLED] then 1%nat else 0%nat.

(** [advance_verification_work] *)
Definition advance_verification_work (db : Db) (tick : Tick)
  (previous work : WorkExecutionState) : result Db :=
  if neqb (w_work_type work) VERIFICATION then Ok db
  else
    let! candidates :=
      scoped_current (fun r => match r with RecProcess p => Some (p, h_meta p) | _ => None end)
        db "hypothesis_process_state" work in
    match candidates with
    | [] => Ok db
    | [process] =>
        if neqb (h_status process) H_VERIFYING then Ok db
        else
          let! previous_ref := reference (RecWork previous) in
          raise_if neqb (RStored <$> h_verification_work_ref process) (Some previous_ref)
                   || neqb (h_verification_generation process) (w_work_generation work)
            with "VERIFICATION_PROCESS_CONFLICT" ;;
          raise_if eqb (w_status work) SUCCEEDED with "VERIFICATION_FINAL_RESULT_REQUIRED" ;;
          let! work_ref := reference (RecWork work) in
          let! meta := next_meta (h_meta process) (fresh tick 0)
                         (clock tick (advance_readings (w_status work))) in
          let! ref := as_stored work_ref in
          let! updated := validate_process
              (advanced_process process meta ref (w_status work) (clock tick 0)) in
          let! (_, db) := stage_publish db (RecProcess updated) in
          move_pointer db (h_meta process) (h_meta updated) "VERIFICATION_PROCESS_CONFLICT"
    | _ => Err (ValueError "VERIFICATION_PROCESS_CONFLICT")
    end.

(** [current_dynamic] *)
Definition current_dynamic (db : Db) (work : WorkExecutionState)
  : result DynamicReproductionState :=
  let! states :=
    scoped_current (fun r => match r with RecDynamicState y => Some (y, y_meta y) | _ => None end)
      db "dynamic_reproduction_state" work in
  match states with
  | [y] =>
      raise_if neqb (y_verification_generation y) (w_work_generation work)
        with "DYNAMIC_STATE_REQUIRED" ;;
      Ok y
  | _ => Err (ValueError "DYNAMIC_STATE_REQUIRED")
  end.

(** The value of a [DynamicReproductionState.status] that a work status has. *)
Definition dynamic_of (s : WorkStatus) : option DynamicStatus :=
  match s with
  | RUNNING => Some D_RUNNING | SUCCEEDED => Some D_SUCCEEDED | PARTIAL => Some D_PARTIAL
  | FAILED => Some D_FAILED | BLOCKED => Some D_BLOCKED | CANCELLED => Some D_CANCELLED
  | PENDING | READY => None
  end.

Definition recovery_block (y : DynamicReproductionState) (work : WorkExecutionState) : bool :=
  eqb (w_status work) BLOCKED && mem (y_status y) [D_RUNNING; D_FAILED]
  && negb (nonempty (w_output_refs work))
  && match w_stop_reason work with
     | Some reason => mem reason ["LEASE_EXPIRED"; "RECOVERY_FAILED"; "WORK_HANDLER_FAILED"]
     | None => false
     end.

Definition local_failed_repair (y : DynamicReproductionState)
  (previous work : WorkExecutionState) : bool :=
  eqb (w_status previous) FAILED && eqb (w_status work) READY && eqb (y_status y) D_FAILED
  && match y_dynamic_result_ref y with
     | Some ref => mem (RStored ref) (w_output_refs previous)
     | None => false
     end
  && negb (nonempty (w_output_refs work)).

(** The new values of the dynamic state. *)
Definition advanced_dynamic (y : DynamicReproductionState) (meta : RunMeta) (ref : StoredDataRef)
  (previous work : WorkExecutionState) : DynamicReproductionState :=
  let '(status, result_ref, finished) :=
    if recovery_block y work || local_failed_repair y previous work
    then (D_BLOCKED, None, None)
    else if eqb (w_status work) RUNNING && eqb (y_status y) D_BLOCKED
    then (D_RUNNING, None, None)
    else (y_status y, y_dynamic_result_ref y, y_finished_at y) in
  mkDynamicState meta (y_verification_generation y) (Some ref) status (y_request_ref y) result_ref
    (y_started_at y) finished (y_elapsed_ms y).

(** [advance_dynamic_work] *)
Definition advance_dynamic_work (db : Db) (tick : Tick) (previous work : WorkExecutionState)
  : result Db :=
  if neqb (w_work_type work) DYNAMIC_REPRO then Ok db
  else
    let! state := current_dynamic db work in
    let! previous_ref := reference (RecWork previous) in
    raise_if neqb (RStored <$> y_dynamic_work_ref state) (Some previous_ref)
      with "DYNAMIC_STATE_WORK_CONFLICT" ;;
    raise_if negb (mem (w_status work) [READY; RUNNING]) && negb (recovery_block state work)
             && (neqb (Some (y_status state)) (dynamic_of (w_status work))
                 || match y_dynamic_result_ref state with
                    | Some ref => negb (mem (RStored ref) (w_output_refs work))
                    | None => true
                    end)
      with "DYNAMIC_RESULT_PROJECTION_REQUIRED" ;;
    let! work_ref := reference (RecWork work) in
    let! meta := next_meta (y_meta state) (fresh tick 0) (clock tick 0) in
    let! ref := as_stored work_ref in
    let! updated := validate_dynamic (advanced_dynamic state meta ref previous work) in
    let! (_, db) := stage_publish db (RecDynamicState updated) in
    move_pointer db (y_meta state) (y_meta updated) "DYNAMIC_STATE_WORK_CONFLICT".

(** ** Publishing a work *)

(** [WorkService.point] *)
Definition point (db : Db) (work : WorkExecutionState) : result Db :=
  let logical := logical_record_id (w_meta work) in
  let pointer := (record_id (w_meta work), w_state_version work) in
  raise_if match current_records db !! logical with
           | Some (_, old) => neqb old (w_state_version work - 1)
           | None => false
           end
    with "STATE_VERSION_CONFLICT: current pointer" ;;
  Ok (set_works db (work_states db) (<[logical := pointer]> (current_records db))).

(** The columns [save] overwrites are those of the new payload. *)
Definition save_row (work : WorkExecutionState) (row : WorkRow) : WorkRow :=
  mkWorkRow (wr_registration_key row) work (wr_worker_id row) (wr_lease_expires_at row).

(** The [update(work_states)] of [save] under its state version. *)
Definition update_work (db : Db) (previous work : WorkExecutionState) : result Db :=
  match work_states db !! w_work_id work with
  | Some row =>
      raise_if neqb (w_state_version (wr_payload row)) (w_state_version previous)
        with "STATE_VERSION_CONFLICT" ;;
      Ok (set_works db (<[w_work_id work := save_row work row]> (work_states db))
            (current_records db))
  | None => Err (ValueError "STATE_VERSION_CONFLICT")
  end.

(** [WorkService.save]; the verification and the dynamic projection exclude
    each other, so both take the same ids and readings. *)
Definition save (db : Db) (tick : Tick) (previous work : WorkExecutionState) : result Db :=
  let! (_, db) := stage_publish db (RecWork work) in
  let! db := update_work db previous work in
  let! db := point db work in
  let! db := advance_verification_work db tick previous work in
  advance_dynamic_work db tick previous work.

(** [insert(work_states)] under its keys. *)
Definition insert_work (db : Db) (key : string) (work : WorkExecutionState) : result Db :=
  if is_some (work_states db !! w_work_id work)
     || mem key (map wr_registration_key (rows_of db))
  then Err IntegrityError
  else Ok (set_works db (<[w_work_id work := mkWorkRow key work None None]> (work_states db))
             (current_records db)).

(** ** Registration *)

Definition check_parent (db : Db) (work : WorkExecutionState) : result unit :=
  match w_parent_work_ref work with
  | None => Ok tt
  | Some ref =>
      let! parent := resolve_db db ref false in
      match parent with
      | RecWork p =>
          let! h := content_hash [] (model_value (RecWork p)) in
          validate_parent_work work p h
      | _ => Err (ValueError "Invalid parent work")
      end
  end.

(** The Primitive index a CHAINING work snapshots must be current. *)
Definition check_snapshot (db : Db) (work : WorkExecutionState) : result unit :=
  if eqb (w_work_type work) CHAINING then
    for_each (fun ref =>
        if eqb (data_kind ref) "primitive_index_state"
        then check_current_input db ref true [WORKSPACE_READY] else Ok tt)
      (w_input_refs work)
  else Ok tt.

(** [WorkService.register] *)
Definition register (rt : Rt) (tick : Tick) (work : WorkExecutionState)
  (decision_ref : RecordRef) (reservation_ref : option RecordRef)
  : result (WorkExecutionState * Rt) :=
  let! work := validate_work work in
  let! key := registration_key work in
  let db := rt_db rt in
  do! reject_cancelled db (rm_analysis_id (w_meta work)) ;;
  match find (fun row => eqb (wr_registration_key row) key) (rows_of db) with
  | Some old => Ok (wr_payload old, rt)
  | None =>
      raise_if neqb (w_status work) PENDING with "New work must be PENDING" ;;
      do! check_parent db work ;;
      do! check_snapshot db work ;;
      let! (_, rt) :=
        claim rt (claim_tick tick) decision_ref REGISTER_WORK work reservation_ref true in
      let! (_, db) := stage_publish (rt_db rt) (RecWork work) in
      let! db := insert_work db key work in
      let! db := point db work in
      Ok (work, set_db rt db)
  end.

(** [WorkService.make_ready] *)
Definition make_ready (rt : Rt) (tick : Tick) (transition : StateTransition)
  : result (WorkExecutionState * Rt) :=
  let! previous := get_work (rt_db rt) (t_work_id transition) in
  do! reject_cancelled (rt_db rt) (rm_analysis_id (w_meta previous)) ;;
  do! validate_transition_context transition previous None ;;
  raise_if neqb (t_to_status transition) T_READY
           || negb (mem (w_status previous) [PENDING; BLOCKED])
    with "STATE_TRANSITION_INVALID" ;;
  let! (_, rt) :=
    claim rt (claim_tick tick) (scope_ref (t_action_decision_ref transition)) CHANGE_WORK_STATE
      previous None false in
  let tick := after 1 3 tick in
  let! (ref, db) := stage_publish (rt_db rt) (RecTransition transition) in
  let! meta := next_meta (w_meta previous) (fresh tick 0) (clock tick 0) in
  let! transition_ref := as_scope ref in
  let! work := validate_work (ready_work previous meta transition transition_ref) in
  let! db := save db (after 1 1 tick) previous work in
  Ok (work, set_db rt db).

(** ** Starting an attempt *)

(** The attempts of a work by decreasing number: the first is the latest. *)
Definition latest_attempt (db : Db) (work_id : string) : option WorkAttempt :=
  last (attempts_of db work_id).

(** [insert(work_attempts)] under its keys. *)
Definition insert_attempt (db : Db) (a : WorkAttempt) : result Db :=
  if is_some (work_attempts db !! a_attempt_id a)
     || mem (a_work_id a, a_attempt_number a)
            (map (fun kv => (a_work_id kv.2, a_attempt_number kv.2))
               (map_to_list (work_attempts db)))
  then Err IntegrityError
  else Ok (set_attempts db (<[a_attempt_id a := a]> (work_attempts db))).

(** [.values(worker_id=..., lease_expires_at=...)] *)
Definition set_lease (db : Db) (work_id worker_id : string) (expires : Z) : Db :=
  set_works db
    (alter (fun row => mkWorkRow (wr_registration_key row) (wr_payload row) (Some worker_id)
                         (Some expires)) work_id (work_states db))
    (current_records db).

(** [.values(worker_id=None, lease_expires_at=None)] *)
Definition clear_lease (db : Db) (work_id : string) : Db :=
  set_works db
    (alter (fun row => mkWorkRow (wr_registration_key row) (wr_payload row) None None) work_id
       (work_states db))
    (current_records db).

(** The number of works of the run that are RUNNING. *)
Definition running (db : Db) (analysis_id : string) : nat :=
  length (filter (fun row => in_analysis analysis_id RUNNING row = true) (rows_of db)).

(** [AttemptService.start] *)
Definition start (rt : Rt) (tick : Tick) (transition : StateTransition) (attempt : WorkAttempt)
  (reservation_ref : RecordRef) (worker_id : string) (lease_expires_at : Z)
  : result (WorkExecutionState * Rt) :=
  raise_if neqb (a_status attempt) A_RUNNING || is_some (a_finished_at attempt)
           || nonempty (a_output_refs attempt) || nonempty (a_error_ids attempt)
           || nonempty (a_gap_ids attempt)
    with "ATTEMPT_NOT_ACTIVE: start requires a fresh RUNNING attempt" ;;
  raise_if eqb worker_id "" || (lease_expires_at <=? clock tick 0)
    with "Invalid worker lease" ;;
  let db := rt_db rt in
  let! previous := get_work db (t_work_id transition) in
  let analysis_id := rm_analysis_id (w_meta previous) in
  do! reject_cancelled db analysis_id ;;
  do! reject_uncertain db (w_work_id previous) ;;
  do! validate_transition_context transition previous None ;;
  raise_if neqb (w_status previous) READY || neqb (t_to_status transition) T_RUNNING
           || neqb (t_attempt_id transition) (Some (a_attempt_id attempt))
    with "ATTEMPT_NOT_ACTIVE" ;;
  let decision_ref := scope_ref (t_action_decision_ref transition) in
  let! (_, action) :=
    check rt (clock tick 1) decision_ref START_ATTEMPT previous (Some reservation_ref) true in
  let! reservation := check_reservation db (Some reservation_ref) action previous false in
  let! profile := execution db (r_budget_binding_ref reservation) analysis_id in
  raise_if max_parallel_work profile <=? Z.of_nat (running db analysis_id)
    with "BUDGET_EXCEEDED: parallel work" ;;
  let prior := latest_attempt db (w_work_id previous) in
  raise_if is_none prior && neqb (a_attempt_number attempt) 1
    with "Initial attempt must have number one" ;;
  raise_if is_some prior && (u_retry_count (r_requested_units reservation) <? 1)
    with "BUDGET requires a reserved retry unit" ;;
  let! (ref, db) := stage_publish db (RecTransition transition) in
  let! meta := next_meta (w_meta previous) (fresh tick 0) (clock tick 2) in
  let! transition_ref := as_scope ref in
  let! work := validate_work (running_work previous meta transition transition_ref attempt) in
  do! validate_attempt_context attempt work prior ;;
  let! (_, rt) :=
    claim (set_db rt db) (claim_tick (after 1 3 tick)) decision_ref START_ATTEMPT previous
      (Some reservation_ref) true in
  let! (_, db) := stage_publish (rt_db rt) (RecAttempt attempt) in
  let! db := save db (after 2 6 tick) previous work in
  let! db := insert_attempt db attempt in
  Ok (work, set_db rt (set_lease db (w_work_id work) worker_id lease_expires_at)).
End services.

(** ** What each service did when it returned *)

Section laws.
Context `{CodecLaws} `{TrustedEvidence} `{Host} `{StageRules}.
Implicit Types (db : Db) (rt : Rt) (w : WorkExecutionState).

(** The goal [steady db db'] continues after the record [db] stages. *)
Ltac staged_steady :=
  lazymatch goal with
  | Hs : stage_publish ?db _ = Ok _ |- steady ?db _ =>
      etransitivity; [eapply stage_publish_steady, Hs |]
  end.

Lemma point_steady db w db' : point db w = Ok db' -> steady db db'.
Proof.
  unfold point. intros Hm. apply raise_if_Ok in Hm. destruct Hm as [_ [= <-]].
  apply pointer_steady.
Qed.

Lemma advance_verification_steady db tick p w db' :
  advance_verification_work db tick p w = Ok db' -> steady db db'.
Proof.
  unfold advance_verification_work. destruct (negb _); [intros [= <-]; reflexivity |].
  intros Ha. apply rbind_Ok in Ha. destruct Ha as (l & _ & Ha).
  destruct l as [| h []]; [injection Ha as <-; reflexivity | | discriminate].
  destruct (negb _); [injection Ha as <-; reflexivity |]. unbind Ha. staged_steady.
  injection Ha as <-. apply pointer_steady.
Qed.

Lemma advance_dynamic_steady db tick p w db' :
  advance_dynamic_work db tick p w = Ok db' -> steady db db'.
Proof.
  unfold advance_dynamic_work. destruct (negb _); [intros [= <-]; reflexivity |].
  intros Ha. unbind Ha. staged_steady.
  injection Ha as <-. apply pointer_steady.
Qed.

(** Saving a work replaces the row of the version it was computed from. *)
Lemma save_Ok db tick p w db' :
  save db tick p w = Ok db' ->
  exists row db1 db2, work_states db !! w_work_id w = Some row
    /\ w_state_version (wr_payload row) = w_state_version p
    /\ steady db db1
    /\ db2 = set_works db1 (<[w_work_id w := save_row w row]> (work_states db1))
               (current_records db1)
    /\ steady db2 db'.
Proof.
  unfold save. intros Hs. apply rbind_Ok in Hs. destruct Hs as ([ref db1] & Hst & Hs).
  apply rbind_Ok in Hs. destruct Hs as (db2 & Hu & Hs).
  apply rbind_Ok in Hs. destruct Hs as (db3 & Hp & Hs).
  apply rbind_Ok in Hs. destruct Hs as (db4 & Hv & Hs).
  apply stage_publish_steady in Hst. unfold update_work in Hu.
  destruct (work_states db1 !! w_work_id w) as [row |] eqn:Hrow; [| discriminate].
  apply raise_if_Ok in Hu. destruct Hu as [Hver [= <-]]. boolify.
  rewrite (sd_works _ _ Hst) in Hrow. eexists row, db1, _.
  do 3 (split; [assumption |]). split; [reflexivity |].
  etransitivity; [eapply point_steady, Hp |].
  etransitivity; [eapply advance_verification_steady, Hv |].
  eapply advance_dynamic_steady, Hs.
Qed.

(** Registering answers with the work that has the key, or adds it. *)
Lemma register_Ok rt tick w dref res w' rt' :
  register rt tick w dref res = Ok (w', rt') ->
  validate_work w = Ok w /\ cancel_latched (rt_db rt) (rm_analysis_id (w_meta w)) = false
  /\ exists key, registration_key w = Ok key
    /\ ((rt' = rt /\ exists row, find (fun row => eqb (wr_registration_key row) key)
                                    (rows_of (rt_db rt)) = Some row /\ w' = wr_payload row)
        \/ (find (fun row => eqb (wr_registration_key row) key) (rows_of (rt_db rt)) = None
            /\ w' = w /\ w_status w = PENDING
            /\ exists d rt1 db1, claim rt (claim_tick tick) dref REGISTER_WORK w res true = Ok (d, rt1)
                 /\ steady (rt_db rt1) db1
                 /\ work_states db1 !! w_work_id w = None
                 /\ (key ∉ map wr_registration_key (rows_of db1))
                 /\ rt' = set_db rt1 (rt_db rt')
                 /\ steady (set_works db1 (<[w_work_id w := mkWorkRow key w None None]>
                                             (work_states db1)) (current_records db1))
                           (rt_db rt'))).
Proof.
  unfold register. intros Hr. apply rbind_Ok in Hr. destruct Hr as (v & Hv & Hr).
  pose proof Hv as Hv'. apply validate_work_Ok in Hv'. destruct Hv' as [-> _].
  split; [exact Hv |]. apply rbind_Ok in Hr. destruct Hr as (key & Hk & Hr).
  apply rbind_Ok in Hr. destruct Hr as ([] & Hc & Hr). apply raise_if_Ok in Hc.
  split; [apply Hc |]. exists key. split; [exact Hk |].
  destruct (find _ (rows_of (rt_db rt))) as [row |] eqn:Hf.
  - left. injection Hr as <- <-. eauto.
  - right. split; [reflexivity |]. apply raise_if_Ok in Hr. destruct Hr as [Hp Hr]. boolify.
    apply rbind_Ok in Hr. destruct Hr as ([] & _ & Hr).
    apply rbind_Ok in Hr. destruct Hr as ([] & _ & Hr).
    apply rbind_Ok in Hr. destruct Hr as ([d rt1] & Hcl & Hr).
    apply rbind_Ok in Hr. destruct Hr as ([ref db1] & Hst & Hr).
    apply rbind_Ok in Hr. destruct Hr as (db2 & Hi & Hr).
    apply rbind_Ok in Hr. destruct Hr as (db3 & Hpt & [= <- <-]).
    unfold insert_work in Hi. destruct (_ || _) eqn:Hdup; [discriminate |]. injection Hi as <-.
    boolify. destruct Hdup as [Hnone Hkey].
    split; [reflexivity |]. split; [exact Hp |]. exists d, rt1, db1.
    split; [exact Hcl |]. split; [eapply stage_publish_steady, Hst |].
    split; [destruct (work_states db1 !! _); [discriminate | reflexivity] |].
    split; [exact Hkey |]. split; [reflexivity |]. eapply point_steady, Hpt.
Qed.

(** A resolved record has passed its class validator. *)
Lemma resolved_valid db ref c r :
  db_wf db -> resolve_db db ref c = Ok r -> rec_valid r = true.
Proof.
  intros Hwf Hr. apply resolve_Ok in Hr; [| exact Hwf].
  destruct Hr as (_ & row & _ & Hh). apply row_decode, decode_class in Hh. apply Hh.
Qed.

Lemma staged_valid db r ref db' :
  db_wf db -> stage_publish db r = Ok (ref, db') -> rec_valid r = true.
Proof.
  intros Hwf Hs. pose proof (stage_publish_resolved _ _ _ _ Hwf Hs) as [_ Hr].
  eapply resolved_valid; [| exact Hr]. eapply steady_wf; [| exact Hwf].
  eapply stage_publish_steady, Hs.
Qed.

(** Making a work ready publishes its ready revision. *)
Lemma make_ready_Ok rt tick t w rt' :
  make_ready rt tick t = Ok (w, rt') ->
  exists p d rt1 db1 ref transition_ref meta,
    get_work (rt_db rt) (t_work_id t) = Ok p
    /\ cancel_latched (rt_db rt) (rm_analysis_id (w_meta p)) = false
    /\ validate_transition_context t p None = Ok tt
    /\ t_to_status t = T_READY /\ w_status p ∈ [PENDING; BLOCKED]
    /\ claim rt (claim_tick tick) (scope_ref (t_action_decision_ref t)) CHANGE_WORK_STATE p None
          false = Ok (d, rt1)
    /\ stage_publish (rt_db rt1) (RecTransition t) = Ok (ref, db1)
    /\ next_meta (w_meta p) (fresh tick 1) (clock tick 3) = Ok meta
    /\ validate_work (ready_work p meta t transition_ref) = Ok w
    /\ save db1 (after 1 1 (after 1 3 tick)) p w = Ok (rt_db rt')
    /\ rt' = set_db rt1 (rt_db rt').
Proof.
  unfold make_ready. intros Hr. apply rbind_Ok in Hr. destruct Hr as (p & Hp & Hr).
  apply rbind_Ok in Hr. destruct Hr as ([] & Hc & Hr). apply raise_if_Ok in Hc.
  apply rbind_Ok in Hr. destruct Hr as ([] & Hctx & Hr).
  apply raise_if_Ok in Hr. destruct Hr as [Hto Hr]. boolify.
  apply rbind_Ok in Hr. destruct Hr as ([d rt1] & Hcl & Hr).
  apply rbind_Ok in Hr. destruct Hr as ([ref db1] & Hst & Hr).
  apply rbind_Ok in Hr. destruct Hr as (meta & Hm & Hr).
  apply rbind_Ok in Hr. destruct Hr as (tref & _ & Hr).
  apply rbind_Ok in Hr. destruct Hr as (w' & Hv & Hr).
  apply rbind_Ok in Hr. destruct Hr as (db2 & Hs & [= <- <-]).
  exists p, d, rt1, db1, ref, tref, meta. destruct Hc, Hto. repeat (split; [assumption |]).
  reflexivity.
Qed.

Lemma insert_attempt_Ok db a db' :
  insert_attempt db a = Ok db' ->
  work_attempts db !! a_attempt_id a = None
  /\ (forall id b, work_attempts db !! id = Some b ->
        (a_work_id b, a_attempt_number b) <> (a_work_id a, a_attempt_number a))
  /\ work_attempts db' = <[a_attempt_id a := a]> (work_attempts db)
  /\ db' = set_attempts db (work_attempts db').
Proof.
  unfold insert_attempt. destruct (_ || _) eqn:E; [discriminate |]. intros [= <-]. boolify.
  destruct E as [Hn Hk]. split; [exact Hn |]. split; [| split; reflexivity].
  intros id b Hb Heq. apply Hk, list_elem_of_fmap. exists (id, b).
  split; [symmetry; exact Heq | apply elem_of_map_to_list, Hb].
Qed.

(** Starting publishes the running revision under the run's parallelism. *)
Lemma start_Ok rt tick t a res worker lease w rt' :
  start rt tick t a res worker lease = Ok (w, rt') ->
  exists p q reservation profile ref db1 transition_ref meta prior d rt1 ref2 db2 db3 db4,
    a_status a = A_RUNNING
    /\ get_work (rt_db rt) (t_work_id t) = Ok p
    /\ cancel_latched (rt_db rt) (rm_analysis_id (w_meta p)) = false
    /\ reject_uncertain (rt_db rt) (w_work_id p) = Ok tt
    /\ validate_transition_context t p None = Ok tt
    /\ w_status p = READY /\ t_to_status t = T_RUNNING
    /\ t_attempt_id t = Some (a_attempt_id a)
    /\ check_reservation (rt_db rt) (Some res) q p false = Ok reservation
    /\ execution (rt_db rt) (r_budget_binding_ref reservation) (rm_analysis_id (w_meta p))
        = Ok profile
    /\ Z.of_nat (running (rt_db rt) (rm_analysis_id (w_meta p))) < max_parallel_work profile
    /\ stage_publish (rt_db rt) (RecTransition t) = Ok (ref, db1)
    /\ next_meta (w_meta p) (fresh tick 0) (clock tick 2) = Ok meta
    /\ validate_work (running_work p meta t transition_ref a) = Ok w
    /\ validate_attempt_context a w prior = Ok tt
    /\ claim (set_db rt db1) (claim_tick (after 1 3 tick)) (scope_ref (t_action_decision_ref t))
          START_ATTEMPT p (Some res) true = Ok (d, rt1)
    /\ stage_publish (rt_db rt1) (RecAttempt a) = Ok (ref2, db2)
    /\ save db2 (after 2 6 tick) p w = Ok db3
    /\ insert_attempt db3 a = Ok db4
    /\ rt' = set_db rt1 (set_lease db4 (w_work_id w) worker lease).
Proof.
  unfold start. intros Hr. apply raise_if_Ok in Hr. destruct Hr as [Hact Hr].
  apply raise_if_Ok in Hr. destruct Hr as [_ Hr].
  apply rbind_Ok in Hr. destruct Hr as (p & Hp & Hr).
  apply rbind_Ok in Hr. destruct Hr as ([] & Hc & Hr). apply raise_if_Ok in Hc.
  apply rbind_Ok in Hr. destruct Hr as ([] & Hu & Hr).
  apply rbind_Ok in Hr. destruct Hr as ([] & Hctx & Hr).
  apply raise_if_Ok in Hr. destruct Hr as [Hto Hr].
  apply rbind_Ok in Hr. destruct Hr as ([d0 q] & _ & Hr).
  apply rbind_Ok in Hr. destruct Hr as (reservation & Hres & Hr).
  apply rbind_Ok in Hr. destruct Hr as (profile & Hprof & Hr).
  apply raise_if_Ok in Hr. destruct Hr as [Hcap Hr].
  apply raise_if_Ok in Hr. destruct Hr as [_ Hr].
  apply raise_if_Ok in Hr. destruct Hr as [_ Hr]. boolify.
  apply rbind_Ok in Hr. destruct Hr as ([ref db1] & Hst & Hr).
  apply rbind_Ok in Hr. destruct Hr as (meta & Hm & Hr).
  apply rbind_Ok in Hr. destruct Hr as (tref & _ & Hr).
  apply rbind_Ok in Hr. destruct Hr as (w' & Hv & Hr).
  apply rbind_Ok in Hr. destruct Hr as ([] & Hac & Hr).
  apply rbind_Ok in Hr. destruct Hr as ([d rt1] & Hcl & Hr).
  apply rbind_Ok in Hr. destruct Hr as ([ref2 db2] & Hst2 & Hr).
  apply rbind_Ok in Hr. destruct Hr as (db3 & Hs & Hr).
  apply rbind_Ok in Hr. destruct Hr as (db4 & Hi & [= <- <-]).
  eexists p, q, reservation, profile, ref, db1, tref, meta, _, d, rt1, ref2, db2, db3, db4.
  destruct Hc, Hto as [[Hs1 Hs2] Hs3], Hact as ((((Hact & _) & _) & _) & _).
  repeat (split; [eassumption |]). reflexivity.
Qed.
End laws.
