(* ===== verification/Projections.v ===== *)
(** * Projections of a committed result

    What a result commit writes besides its work: current pointers
    ([TransitionService.publish_pointer], [publish_current] of
    [storage/policy_runtime.py]), the run state ([storage/run_projections.py]),
    the reserved matches of a chaining result
    ([storage/chaining_registration.py]) and the outcome of a report draft
    ([storage/report_projection.py]). The rules that compute the projected
    records of each result kind are the interface [OutcomeRules]. *)
From S2P Require Import Prelude Records CanonicalJson Store Work Processes WorkLife Actions.
From S2P Require Import Budget Runtime Registry Hierarchy Ledger Dispatch Authority Outputs.
From S2P Require Import Validator Services.

(** ** The rules of the result kinds *)

(** [ChainingMatchIdentity] of [ports/chaining.py] *)
Record ChainingMatchIdentity := mkMatchIdentity {
  primitive_match_id : string;
  upstream_result_ref : StoredDataRef;
  downstream_input_ref : StoredDataRef;
  matched_input_id : string;
}.
#[export] Instance ChainingMatchIdentity_eq_dec : EqDecision ChainingMatchIdentity.
Proof. solve_decision. Defined.

(** What [run_policy_projection] publishes once its checks pass: the new policy
    state, the record it replaces and the policy cache. *)
Record PolicyUpdate := mkPolicyUpdate {
  pu_policy : Rec;
  pu_previous_record_id : string;
  pu_cache : option Rec;
}.

(** The read-only rules of [run_projections], [hypothesis_projections],
    [verification_projection], [dynamic_projection], [finding_projection],
    [primitive_projection], [report_state], [report_projection] and
    [chaining_projection], and [_validate_repository_profile]. They read tables
    and return records or raise; what they return is stored by the code below.
    A tick is given exactly when the code calls them with [publish=True].
    [match_candidates] and [draft_decision_ref] read the fields
    [primitive_match_candidates] of a [ChainingResult] and
    [action_decision_ref] of a [ReportDraft]. *)
Class OutcomeRules := {
  _validate_repository_profile :
    Rt -> WorkExecutionState -> Rec -> Rec -> nat -> CommitTargetStatus -> result unit;
  run_policy_update : Rt -> WorkExecutionState -> list Rec -> result (option PolicyUpdate);
  hypothesis_projection :
    Rt -> WorkExecutionState -> list Rec -> option Tick -> result (list Rec);
  verification_projection :
    Rt -> WorkExecutionState -> list Rec -> option Tick -> result (list Rec);
  dynamic_projection :
    Rt -> WorkExecutionState -> list Rec -> CommitTargetStatus -> option Tick ->
    result (list Rec);
  validate_finding_output : Rt -> WorkExecutionState -> list Rec -> result (option Rec);
  finding_index_projection :
    Rt -> Tick -> WorkExecutionState -> Rec -> TransitionCommit -> result Rec;
  validate_primitive_outputs : Rt -> WorkExecutionState -> list Rec -> result (list Rec);
  primitive_index_projection :
    Rt -> Tick -> WorkExecutionState -> list Rec -> result (option Rec);
  validate_chaining_output : Rt -> WorkExecutionState -> list Rec -> result unit;
  validate_report_output : Rt -> WorkExecutionState -> list Rec -> result unit;
  report_process_projection :
    Rt -> Tick -> WorkExecutionState -> list Rec -> TransitionCommit ->
    result (option (Rec * option RecordRef));
  match_candidates : Rec -> option (list ChainingMatchIdentity);
  draft_decision_ref : Rec -> StoredDataRef;
}.

Section projections.
Context `{Codec} `{TrustedEvidence} `{Host} `{StageRules} `{OutcomeRules}.

(** ** Current pointers *)

Definition set_pointer (db : Db) (logical : string) (pointer : string * Z) : Db :=
  set_works db (work_states db) (<[logical := pointer]> (current_records db)).

(** [TransitionService.publish_pointer]; a missing predecessor compares as the
    text [None]. *)
Definition publish_pointer (db : Db) (ref : RecordRef) : result Db :=
  let! record := resolve_db db ref false in
  let m := meta_rev (rec_metadata record) in
  match current_records db !! logical_record_id m with
  | None =>
      raise_if neqb (revision_number m) 1
        with "RECORD_REVISION_MISMATCH: missing current predecessor" ;;
      Ok (set_pointer db (logical_record_id m) (record_id m, 1))
  | Some (id, version) =>
      raise_if neqb id (default "None" (previous_record_id m))
        with "STALE_RESULT: current record predecessor" ;;
      Ok (set_pointer db (logical_record_id m) (record_id m, version + 1))
  end.

(** [stage], [publish] and [publish_pointer] in a row. *)
Definition publish_projection (db : Db) (r : Rec) : result Db :=
  let! (ref, db) := stage_publish db r in
  publish_pointer db ref.

(** [policy_runtime.publish_current] *)
Definition publish_current (db : Db) (m : RevisionMeta) (previous_record_id : option string)
  : result Db :=
  let current := current_records db !! logical_record_id m in
  match previous_record_id with
  | None =>
      raise_if neqb (revision_number m) 1
        with "RECORD_REVISION_MISMATCH: missing cache/state predecessor" ;;
      raise_if is_some current with "STATE_VERSION_CONFLICT: policy pointer" ;;
      Ok (set_pointer db (logical_record_id m) (record_id m, 1))
  | Some previous =>
      raise_if neqb current (Some (previous, revision_number m - 1))
        with "STATE_VERSION_CONFLICT: policy pointer" ;;
      Ok (set_pointer db (logical_record_id m) (record_id m, revision_number m))
  end.

(** ** The run state *)

Definition run_refs (s : AnalysisRunState) : list RecordRef :=
  map scope_ref (s_eval_config_refs s)
  ++ [RRun (s_analysis_input_ref s); RRun (s_execution_budget_profile_ref s)]
  ++ opt_stored (s_budget_binding_ref s)
  ++ match s_workspace_ref s with Some r => [RRun r] | None => [] end
  ++ opt_stored (s_run_policy_state_ref s)
  ++ match s_analysis_result_ref s with Some r => [RRun r] | None => [] end.

(** [AnalysisRunState.model_validate] *)
Definition validate_run (s : AnalysisRunState) : result AnalysisRunState :=
  raise_if negb (eqb (revision_shape (s_meta s)) (Ok tt) && NonNegativeInt (s_elapsed_ms s))
    with "ValidationError" ;;
  do! reference_scopes (run_refs s) (s_meta s) ;;
  do! state_shape s ;;
  Ok s.

(** The run state with the workspace of a committed [CodeWorkspace]. *)
Definition run_with_workspace (s : AnalysisRunState) (meta : RunMeta) (ref : RunStoredDataRef)
  (w : CodeWorkspace) : AnalysisRunState :=
  mkRunState meta (s_purpose s) (s_eval_config_refs s) (s_analysis_input_ref s) (s_program_id s)
    (s_execution_budget_profile_ref s) (s_budget_binding_ref s) (Some (cw_workspace_id w))
    (cw_commit_id w) (Some ref) (s_run_policy_state_ref s) (s_status s)
    (s_analysis_result_ref s) (s_started_at s) (s_finished_at s) (s_elapsed_ms s).

(** The run state with its frozen policy. *)
Definition run_with_policy (s : AnalysisRunState) (meta : RunMeta) (ref : StoredDataRef)
  : AnalysisRunState :=
  mkRunState meta (s_purpose s) (s_eval_config_refs s) (s_analysis_input_ref s) (s_program_id s)
    (s_execution_budget_profile_ref s) (s_budget_binding_ref s) (s_workspace_id s) (s_commit_id s)
    (s_workspace_ref s) (Some ref) (s_status s) (s_analysis_result_ref s) (s_started_at s)
    (s_finished_at s) (s_elapsed_ms s).

Definition as_run_ref (ref : RecordRef) : result RunStoredDataRef :=
  match ref with RRun r => Ok r | _ => Err (ValueError "ValidationError") end.

(** The branch of [TransitionService.finish] for a [CodeWorkspace]. *)
Definition project_workspace (db : Db) (tick : Tick) (w : CodeWorkspace) : result Db :=
  let! state := get_run db (cw_analysis_id w) in
  let! meta := next_meta (s_meta state) (fresh tick 0) (clock tick 0) in
  let! ref := reference (RecWorkspace w) in
  let! ref := as_run_ref ref in
  let! updated := validate_run (run_with_workspace state meta ref w) in
  save_run db updated (Some state).

(** [run_policy_projection] with [publish=True] *)
Definition run_policy_projection (rt : Rt) (tick : Tick) (work : WorkExecutionState)
  (outputs : list Rec) : result Db :=
  let db := rt_db rt in
  let! update := run_policy_update rt work outputs in
  match update with
  | None => Ok db
  | Some u =>
      let! db := publish_current db (meta_rev (rec_metadata (pu_policy u)))
                   (Some (pu_previous_record_id u)) in
      let! db := match pu_cache u with
                 | None => Ok db
                 | Some cache =>
                     let m := meta_rev (rec_metadata cache) in
                     publish_current db m (previous_record_id m)
                 end in
      let! state := get_run db (rm_analysis_id (w_meta work)) in
      let! meta := next_meta (s_meta state) (fresh tick 0) (clock tick 0) in
      let! ref := reference (pu_policy u) in
      let! ref := as_stored ref in
      let! updated := validate_run (run_with_policy state meta ref) in
      save_run db updated (Some state)
  end.

(** ** Matches of a chaining result *)

Definition triple (i : ChainingMatchIdentity) : StoredDataRef * StoredDataRef * string :=
  (upstream_result_ref i, downstream_input_ref i, matched_input_id i).

Definition row_triple (m : MatchRow) : string * (StoredDataRef * StoredDataRef * string) :=
  (mt_analysis_id m, (mt_upstream_result_ref m, mt_downstream_input_ref m, mt_matched_input_id m)).

(** One iteration of the loop of [reserve_for_result], with the identities it
    has seen. The references are stored as their canonical JSON, which is
    injective. *)
Definition reserve_match (analysis_id : string) (code : CodeScope) (source : StoredDataRef)
  (st : list MatchRow * list ChainingMatchIdentity) (i : ChainingMatchIdentity)
  : result (list MatchRow * list ChainingMatchIdentity) :=
  let '(rows, seen) := st in
  let up := upstream_result_ref i in
  let down := downstream_input_ref i in
  do! require_record_ref (RStored up) (Some "primitive") ;;
  do! require_record_ref (RStored down) (Some "primitive") ;;
  raise_if existsb (fun r => neqb (sd_workspace_id r, sd_commit_id r)
                                  (workspace_id code, commit_id code)) [up; down]
    with "CHAINING_RESERVATION_SCOPE_MISMATCH" ;;
  raise_if mem (primitive_match_id i) (map primitive_match_id seen)
           || mem (triple i) (map triple seen)
    with "CHAINING_MATCH_DUPLICATE" ;;
  let row := mkMatchRow analysis_id (primitive_match_id i) up down (matched_input_id i) source in
  match find (fun m => eqb (mt_analysis_id m) analysis_id
                       && eqb (mt_primitive_match_id m) (primitive_match_id i)) rows with
  | Some old =>
      raise_if neqb old row with "CHAINING_MATCH_DUPLICATE" ;;
      Ok (rows, seen ++ [i])
  | None =>
      raise_if mem (row_triple row) (map row_triple rows) with "CHAINING_MATCH_DUPLICATE" ;;
      Ok (rows ++ [row], seen ++ [i])
  end.

(** [reserve_chaining_result_matches] and [reserve_for_result] *)
Definition reserve_chaining_result_matches (db : Db) (outcome : Rec)
  (identities : list ChainingMatchIdentity) : result Db :=
  let mismatch := Err (ValueError "CHAINING_RESERVATION_SOURCE_MISMATCH") in
  let! ref := reference outcome in
  match ref with
  | RStored source_ref =>
      do! require_record_ref ref (Some "chaining_result") ;;
      let! source := resolve_db db ref false in
      match match_candidates source, rec_metadata source with
      | Some expected, MRun m =>
          match rm_code m with
          | Some code =>
              raise_if neqb identities expected with "CHAINING_RESERVATION_SOURCE_MISMATCH" ;;
              let! (rows, _) :=
                fold_result (reserve_match (rm_analysis_id m) code source_ref)
                  (match_reservations db, []) identities in
              Ok (set_matches db rows)
          | None => mismatch
          end
      | _, _ => mismatch
      end
  | _ => mismatch
  end.

(** The loop of [TransitionService.finish] over the chaining results. *)
Definition reserve_matches (db : Db) (outputs : list Rec) : result Db :=
  fold_result (fun db r =>
      match match_candidates r with
      | Some identities => reserve_chaining_result_matches db r identities
      | None => Ok db
      end) db outputs.

(** ** The decision a report draft was created under *)

(** [report_creation_decision] *)
Definition report_creation_decision (rt : Rt) (work : WorkExecutionState) (draft : Rec)
  : result ActionDecision :=
  let exact_ref := draft_decision_ref draft in
  let! exact := resolve_db (rt_db rt) (RStored exact_ref) false in
  match exact with
  | RecDecision exact_decision =>
      match find (fun row => eqb (dr_decision_id row) (d_decision_id exact_decision))
              (action_decisions rt) with
      | None => Err (ValueError "REPORT_CREATE_DECISION_NOT_USED")
      | Some row =>
          let decision := dr_payload row in
          let! action := resolve_db (rt_db rt) (scope_ref (d_action_ref decision)) false in
          match action with
          | RecAction action =>
              raise_if negb (is_RecordMeta (d_meta decision))
                       || negb (is_RecordMeta (q_meta action))
                with "REPORT_CREATE_DECISION_MISMATCH" ;;
              let redaction :=
                filter (fun c => k_check_type c = K_REDACTION) (d_check_results decision) in
              let! exact_reference := reference (RecDecision exact_decision) in
              let! work_ref := reference (RecWork work) in
              let! draft_ref := reference draft in
              raise_if neqb exact_reference (RStored exact_ref)
                       || neqb (d_decision decision) ALLOW
                       || neqb (d_use_status decision) USED
                       || neqb (map k_result redaction) [PASS]
                       || neqb (q_action_type action) CREATE_REPORT_DRAFT
                       || neqb (q_requested_by action) Q_VERIFICATION
                       || neqb (scope_ref <$> q_work_ref action) (Some work_ref)
                       || neqb (q_expected_state_version action) (Some (w_state_version work))
                       || neqb (d_checked_state_version decision) (Some (w_state_version work))
                       || neqb (rm_attempt_id (d_meta decision)) (w_active_attempt_id work)
                       || neqb (rm_attempt_id (q_meta action)) (w_active_attempt_id work)
                       || mem draft_ref (d_outcome_refs decision)
                with "REPORT_CREATE_DECISION_MISMATCH" ;;
              Ok decision
          | _ => Err (ValueError "STALE_RESULT: exact input kind mismatch")
          end
      end
  | _ => Err (ValueError "STALE_RESULT: exact input kind mismatch")
  end.
End projections.
