(* ===== verification/Transition.v ===== *)
(** * Result commits

    [TransitionService] ([storage/transition_service.py]): a result is staged
    and journaled as PREPARED in one transaction and published with its work in
    a second one; a journal that cannot be published is ABORTED, and after a
    crash every PREPARED journal is finished or aborted. Cancellation writes its
    own journal in the transaction of its caller. *)
From S2P Require Import Prelude Records CanonicalJson Store Work Processes WorkLife Actions.
From S2P Require Import Budget Runtime Registry Hierarchy Ledger Dispatch Authority Outputs.
From S2P Require Import Validator Services Projections.

(** [TransitionCommitRequest] of [ports/dto.py] *)
Record TransitionCommitRequest := mkCommitRequest {
  rq_transition : StateTransition;
  rq_commit : TransitionCommit;
  rq_records : list Rec;
}.

(** ** Values *)

(** The revision that settles a journal. *)
Definition settled_commit (c : TransitionCommit) (meta : RunMeta) (state : CommitState)
  (committed_at : option Z) (abort_reason : option string) : TransitionCommit :=
  mkCommit meta (c_transition_commit_id c) (c_work_id c) (c_transition_ref c)
    (c_expected_state_version c) (c_target_state_version c) (c_attempt_id c) (c_target_status c)
    (c_output_refs c) (c_gap_ids c) (c_error_ids c) state (c_prepared_at c) committed_at
    abort_reason.

(** The attempt a cancellation ends. *)
Definition cancelled_attempt (a : WorkAttempt) (meta : RunMeta) (now : Z) : WorkAttempt :=
  mkAttempt meta (a_work_id a) (a_attempt_id a) (a_attempt_number a) (a_trigger a)
    (a_input_hash a) A_CANCELLED (a_output_refs a) (a_gap_ids a) (a_error_ids a)
    (a_started_at a) (Some now) (a_elapsed_ms a).

(** [SAVE_RESULT] when there are outputs *)
Definition commit_action (c : TransitionCommit) : ActionType :=
  if nonempty (c_output_refs c) then SAVE_RESULT else CHANGE_WORK_STATE.

Definition decision_ref_of (t : StateTransition) : RecordRef := scope_ref (t_action_decision_ref t).

(** The record classes of a closure of outputs. *)
Definition of_kind (kind : string) (records : list Rec) : list Rec :=
  filter (fun r => kind_of r = kind) records.

(** The ids and clock readings of [finish]: a stream for each operation that
    draws from it. *)
Record FinishTick := mkFinishTick {
  ft : nat -> Tick;
  ft_retire : string -> string * Z * Z * Z;
}.

Section transition.
Context `{Codec} `{TrustedEvidence} `{Host} `{StageRules} `{OutcomeRules}.

(** ** Checking a request *)

(** [_validate_terminal_workspace] *)
Definition _validate_terminal_workspace (db : Db) (work : WorkExecutionState)
  (candidate : CodeWorkspace) (output_count : nat) : result unit :=
  let m : RevisionMeta := cw_meta candidate in
  let invalid := Err (ValueError "WORKSPACE_LIFECYCLE_INVALID") in
  raise_if neqb (w_work_type work) WORKSPACE_PREP || neqb output_count 1%nat
           || negb (mem (cw_status candidate) [WORKSPACE_READY; WORKSPACE_FAILED])
           || neqb (revision_number m) 2
           || neqb (cw_analysis_id candidate) (rm_analysis_id (w_meta work))
           || (eqb (cw_status candidate) WORKSPACE_READY && is_none (cw_commit_id candidate))
    with "WORKSPACE_LIFECYCLE_INVALID" ;;
  match previous_record_id m with
  | None => invalid
  | Some id =>
      match Store.records (db_store db) !! id with
      | None => invalid
      | Some row =>
          let! previous := decode (row_kind row) (row_payload row) in
          match previous with
          | RecWorkspace p =>
              raise_if neqb (cw_status p) PREPARING with "WORKSPACE_LIFECYCLE_INVALID" ;;
              do! validate_revision (MRun (cw_meta p)) (MRun (cw_meta candidate)) ;;
              raise_if neqb (cw_workspace_id p) (cw_workspace_id candidate)
                       || neqb (cw_analysis_id p) (cw_analysis_id candidate)
                       || neqb (cw_repository_url p) (cw_repository_url candidate)
                with "WORKSPACE_LIFECYCLE_INVALID" ;;
              let! state := get_run db (cw_analysis_id candidate) in
              let! ref := reference (RecWorkspace p) in
              raise_if neqb (fst <$> current_records db !! logical_record_id m)
                            (Some (record_id (cw_meta p)))
                       || neqb (RRun <$> s_workspace_ref state) (Some ref)
                with "WORKSPACE_LIFECYCLE_INVALID" ;;
              Ok tt
          | _ => invalid
          end
      end
  end.

(** The repository profile and selection of a request, which come together. *)
Definition check_repository (rt : Rt) (work : WorkExecutionState)
  (request : TransitionCommitRequest) : result unit :=
  let records := rq_records request in
  match of_kind "repository_profile" records,
        of_kind "repository_execution_selection" records with
  | [], [] => Ok tt
  | [profile], [selection] =>
      _validate_repository_profile rt work profile selection (length records)
        (c_target_status (rq_commit request))
  | _, _ => Err (ValueError "REPOSITORY_PROFILE_CLOSURE_MISMATCH")
  end.

(** One iteration of the loop of [check] over the records. *)
Definition check_record (rt : Rt) (action : ActionRequest) (work : WorkExecutionState)
  (output_count : nat) (record : Rec) : result unit :=
  do! match record with
      | RecWorkspace w => _validate_terminal_workspace (rt_db rt) work w output_count
      | _ => Ok tt
      end ;;
  do! (if eqb (kind_of record) "code_context_response"
       then check_context_response rt work record else Ok tt) ;;
  let! ref := reference record in
  let! published := prepublished_output rt ref work in
  let owned := validate_result_owner (kind_of record) record (q_requested_by action) in
  do! (if published then Ok tt
       else if eqb (kind_of record) "finding"
       then let! f := finding_authority (rt_db rt) action work in owned (Some f)
       else owned None) ;;
  raise_if negb (input_in_analysis record work) with "OUTPUT_ANALYSIS_MISMATCH" ;;
  raise_if is_some (meta_attempt_id (rec_metadata record))
           && neqb (meta_attempt_id (rec_metadata record)) (w_active_attempt_id work)
    with "ATTEMPT_NOT_ACTIVE" ;;
  Ok tt.

(** The calls of the projections with [publish=False], and the validators of
    whole closures. *)
Definition check_projections (rt : Rt) (work : WorkExecutionState)
  (request : TransitionCommitRequest) : result unit :=
  let records := rq_records request in
  let! _ := run_policy_update rt work records in
  let! _ := hypothesis_projection rt work records None in
  let! _ := verification_projection rt work records None in
  let! _ := dynamic_projection rt work records (c_target_status (rq_commit request)) None in
  let! _ := validate_finding_output rt work records in
  let! _ := validate_primitive_outputs rt work records in
  do! validate_chaining_output rt work records ;;
  validate_report_output rt work records.

(** The references of the records, when they are the outputs of the commit. *)
Definition bound_outputs (request : TransitionCommitRequest) : result (list RecordRef) :=
  let! refs := map_result reference (rq_records request) in
  raise_if negb (bool_decide (NoDup refs)) || negb (same_set refs (c_output_refs (rq_commit request)))
    with "OUTPUT_BINDING_MISMATCH" ;;
  Ok refs.

(** [TransitionService.check]; the columns of a row are those of its payload,
    so that their comparison always passes. *)
Definition check_transition (rt : Rt) (now : Z) (request : TransitionCommitRequest)
  : result WorkExecutionState :=
  let db := rt_db rt in
  let decision_ref := decision_ref_of (rq_transition request) in
  let! refs := bound_outputs request in
  let! work := get_work db (c_work_id (rq_commit request)) in
  do! validate_transition_context (rq_transition request) work None ;;
  let! (_, action) :=
    check rt now decision_ref (commit_action (rq_commit request)) work None false in
  do! for_each (fun ref => check_current_input db ref false [WORKSPACE_READY])
        (w_input_refs work) ;;
  do! (if nonempty refs then
         let! outputs := read_outputs rt action decision_ref in
         raise_if negb (same_set refs outputs) with "OUTPUT_BINDING_MISMATCH" ;; Ok tt
       else Ok tt) ;;
  do! check_repository rt work request ;;
  do! for_each (check_record rt action work (length (rq_records request)))
        (rq_records request) ;;
  do! check_projections rt work request ;;
  Ok work.

(** ** The journal *)

(** [content_hash([transition, commit, refs])] *)
Definition candidate_binding (t : StateTransition) (c : TransitionCommit) (refs : list RecordRef)
  : result string :=
  content_hash []
    (VSequence [model_value (RecTransition t); model_value (RecCommit c);
                VSequence (map ref_value refs)]).

(** [insert(transition_commits)] under its keys; the work exists. *)
Definition insert_commit (db : Db) (row : CommitRow) : result Db :=
  let key r := (c_work_id (cr_payload r), c_expected_state_version (cr_payload r),
                cr_candidate_binding r) in
  let id := c_transition_commit_id (cr_payload row) in
  if is_some (transition_commits db !! id)
     || mem (key row) (map (fun kv => key kv.2) (map_to_list (transition_commits db)))
  then Err IntegrityError
  else Ok (set_commits db (<[id := row]> (transition_commits db))).

(** [update(transition_commits).where(id).values(state=..., payload=...)] *)
Definition settle_row (db : Db) (row : CommitRow) (c : TransitionCommit) : Db :=
  set_commits db
    (<[c_transition_commit_id c :=
         mkCommitRow (cr_candidate_binding row) c (cr_transition row) (cr_commit row)
           (cr_records row)]> (transition_commits db)).

(** The same update with [state == "PREPARED"] in its [where], and whether it
    matched. *)
Definition settle_prepared (db : Db) (c : TransitionCommit) : bool * Db :=
  match transition_commits db !! c_transition_commit_id c with
  | Some row =>
      if eqb (c_state (cr_payload row)) PREPARED then (true, settle_row db row c) else (false, db)
  | None => (false, db)
  end.

(** The transaction of [commit] that journals a request. *)
Definition prepare (rt : Rt) (now : Z) (request : TransitionCommitRequest) : result Rt :=
  let t := rq_transition request in
  let c := rq_commit request in
  let! _ := check_transition rt now request in
  let! (transition_ref, db) := stage_publish (rt_db rt) (RecTransition t) in
  let! (commit_ref, db) := stage_publish db (RecCommit c) in
  let! refs := map_result reference (rq_records request) in
  let! binding := candidate_binding t c refs in
  let! db := insert_commit db (mkCommitRow binding c transition_ref commit_ref refs) in
  Ok (set_db rt db).

(** [TransitionService.abort] *)
Definition abort (rt : Rt) (tick : Tick) (prepared : TransitionCommit) (reason : string)
  : result Rt :=
  match transition_commits (rt_db rt) !! c_transition_commit_id prepared with
  | None => Err NoResultFound
  | Some row =>
      if neqb (c_state (cr_payload row)) PREPARED then Ok rt
      else
        let! meta := next_meta (c_meta prepared) (fresh tick 0) (clock tick 0) in
        let! aborted := validate_commit (settled_commit prepared meta ABORTED
                          (c_committed_at prepared) (Some reason)) in
        let! (_, db) := stage_publish (rt_db rt) (RecCommit aborted) in
        Ok (set_db rt (settle_row db row aborted))
  end.

(** ** Publishing a result *)

(** One record of the loop of [finish]: an intermediate is already published,
    a policy record gets its pointer from [run_policy_projection]. *)
Definition publish_output (rt : Rt) (tick : Tick) (work : WorkExecutionState) (db : Db)
  (record : Rec) : result Db :=
  let! ref := reference record in
  let! published := prepublished_output (set_db rt db) ref work in
  if published then Ok db
  else
    let! db := publish_db db ref in
    let! db := if mem (kind_of record) ["policy_cache_record"; "run_policy_state"] then Ok db
               else publish_pointer db ref in
    match record with
    | RecWorkspace w => project_workspace db tick w
    | _ => Ok db
    end.

(** The loops of [finish] over the records of a projection. *)
Definition publish_projections (db : Db) (records : list Rec) : result Db :=
  fold_result publish_projection db records.

(** [insert(artifacts)] unless the digest is there. *)
Definition add_artifacts (db : Db) (digests : list string) : Db :=
  set_artifacts db
    (foldl (fun l d => if mem d l then l else l ++ [d]) (artifacts db) digests).

(** The projections of the finding index, the report and the primitive index,
    which come after the new work is known. *)
Definition publish_indexes (rt : Rt) (tick : FinishTick) (previous work : WorkExecutionState)
  (records : list Rec) (committed : TransitionCommit) : result Rt :=
  let! finding := validate_finding_output rt previous records in
  let! rt := match finding with
             | None => Ok rt
             | Some f =>
                 let! index := finding_index_projection rt (ft tick 8) work f committed in
                 let! db := publish_projection (rt_db rt) index in
                 Ok (set_db rt db)
             end in
  let! report := report_process_projection rt (ft tick 9) previous records committed in
  let! rt := match report with
             | None => Ok rt
             | Some (state, draft_ref) =>
                 let! rt := match draft_ref with
                            | None => Ok rt
                            | Some draft_ref =>
                                match of_kind "report_draft" records with
                                | [draft] =>
                                    let! d := report_creation_decision rt previous draft in
                                    let! (_, rt) := record_outcome rt (fresh (ft tick 10) 0)
                                                      (clock (ft tick 10) 0) d [draft_ref] in
                                    Ok rt
                                | _ => Err (ValueError "REPORT_EXACT_OUTPUT_REQUIRED")
                                end
                            end in
                 let! db := publish_projection (rt_db rt) state in
                 Ok (set_db rt db)
             end in
  let! primitives := validate_primitive_outputs rt previous records in
  let! index := primitive_index_projection rt (ft tick 11) previous primitives in
  match index with
  | None => Ok rt
  | Some r => let! db := publish_projection (rt_db rt) r in Ok (set_db rt db)
  end.

(** The attempt of the work, ended with its result. *)
Definition end_attempt (db : Db) (tick : Tick) (previous work : WorkExecutionState)
  (c : TransitionCommit) : result Db :=
  match w_active_attempt_id previous with
  | None => Ok db
  | Some id =>
      match work_attempts db !! id with
      | None => Err NoResultFound
      | Some prior =>
          let! meta := next_meta (a_meta prior) (fresh tick 0) (clock tick 0) in
          let! ended := validate_attempt (ended_attempt prior meta work c (clock tick 1)) in
          let! (_, db) := stage_publish db (RecAttempt ended) in
          Ok (set_attempts db (<[a_attempt_id ended := ended]> (work_attempts db)))
      end
  end.

Definition requested_by_recovery (action : Rec) : bool :=
  match action with RecAction q => eqb (q_requested_by q) Q_RECOVERY | _ => false end.

(** The publications of [finish] up to the outcome of the decision and the
    projections of the result. *)
Definition publish_result (rt : Rt) (tick : FinishTick) (claimed : ActionDecision)
  (previous : WorkExecutionState) (request : TransitionCommitRequest)
  (committed : TransitionCommit) : result Rt :=
  let records := rq_records request in
  let! db := fold_result (publish_output rt (ft tick 3) previous) (rt_db rt) records in
  let! db := reserve_matches db records in
  let! (_, rt) := record_outcome (set_db rt db) (fresh (ft tick 4) 0) (clock (ft tick 4) 0)
                    claimed (c_output_refs committed) in
  let! db := run_policy_projection rt (ft tick 5) previous records in
  let rt := set_db rt db in
  let! hypotheses := hypothesis_projection rt previous records (Some (ft tick 6)) in
  let! db := publish_projections (rt_db rt) hypotheses in
  let rt := set_db rt db in
  let! verifications := verification_projection rt previous records (Some (ft tick 7)) in
  let! db := publish_projections (rt_db rt) verifications in
  let rt := set_db rt db in
  let! dynamics := dynamic_projection rt previous records (c_target_status (rq_commit request))
                     (Some (ft tick 12)) in
  let! db := publish_projections (rt_db rt) dynamics in
  Ok (set_db rt db).

(** The second transaction of [TransitionService.finish]. The digests of the
    artifacts are those of the records' canonical JSON; the files themselves
    were written before. *)
Definition finish (rt : Rt) (tick : FinishTick) (request : TransitionCommitRequest)
  : result (TransitionCommit * Rt) :=
  let t := rq_transition request in
  let c := rq_commit request in
  let records := rq_records request in
  let! digests := map_result (fun r => content_hash [] (model_value r)) records in
  let! previous := check_transition rt (clock (ft tick 0) 0) request in
  raise_if cancel_latched (rt_db rt) (rm_analysis_id (w_meta previous))
           && neqb (c_target_status c) C_CANCELLED
    with "RUN_CANCELLED" ;;
  let! (claimed, rt) :=
    claim rt (claim_tick (ft tick 1)) (decision_ref_of t) (commit_action c) previous None false in
  let! meta := next_meta (c_meta c) (fresh (ft tick 2) 0) (clock (ft tick 2) 0) in
  let! committed := validate_commit
      (settled_commit c meta COMMITTED (Some (clock (ft tick 2) 1)) (c_abort_reason c)) in
  let! (commit_ref, db) := stage_publish (rt_db rt) (RecCommit committed) in
  let! rt := publish_result (set_db rt db) tick claimed previous request committed in
  let rt := set_db rt (add_artifacts (rt_db rt) digests) in
  let terminal := neqb (c_target_status c) C_BLOCKED in
  let! action := resolve_db (rt_db rt) (scope_ref (d_action_ref claimed)) false in
  let known := negb (uncertain (rt_db rt) previous) in
  let recovery := requested_by_recovery action in
  let waiting := if recovery && known then W_RETRY else W_INPUT in
  let! db := if known && (terminal || recovery)
             then retire_undispatched (ft_retire tick) (rt_db rt) previous else Ok (rt_db rt) in
  let! meta := next_meta (w_meta previous) (fresh (ft tick 13) 0) (clock (ft tick 13) 0) in
  let! commit_ref := as_scope commit_ref in
  let! work := validate_work
      (finished_work previous meta t committed commit_ref waiting (clock (ft tick 13) 1)) in
  let! rt := publish_indexes (set_db rt db) tick previous work records committed in
  let! db := end_attempt (rt_db rt) (ft tick 14) previous work committed in
  let! db := save db (ft tick 15) previous work in
  let db := clear_lease db (w_work_id work) in
  Ok (committed, set_db rt (snd (settle_prepared db committed))).

(** ** The life of a request *)

(** The checks and the binding of [commit], before it reads the journal. *)
Definition commit_request (request : TransitionCommitRequest) : result string :=
  let t := rq_transition request in
  let c := rq_commit request in
  let! hash := content_hash [] (model_value (RecTransition t)) in
  do! validate_commit_transition c t hash ;;
  raise_if neqb (c_state c) PREPARED with "Initial journal must be PREPARED" ;;
  let! refs := bound_outputs request in
  candidate_binding t c refs.

(** The ids and readings of one [commit]: the check that journals, the check of
    [finish], its publication and the abort. *)
Record CommitTick := mkCommitTick {
  ct_prepared : Z;
  ct_finishing : Z;
  ct_finish : FinishTick;
  ct_abort : Tick;
}.

(** Both transactions of [finish]: a check, and the publication. *)
Definition finish_request (rt : Rt) (tick : CommitTick) (request : TransitionCommitRequest)
  : result (TransitionCommit * Rt) :=
  let! _ := check_transition rt (ct_finishing tick) request in
  finish rt (ct_finish tick) request.

(** How [finish] with its [except (ValueError, LookupError)] ends: with the
    commit, with an exception the journal was aborted for, or with another. *)
Inductive Ending := Committed (c : TransitionCommit) | Aborted (e : exn) | Raised (e : exn).

(** [finish] and the [abort] of its handler, with the tables they leave. *)
Definition finish_or_abort (rt : Rt) (tick : CommitTick) (request : TransitionCommitRequest)
  : Ending * Rt :=
  match finish_request rt tick request with
  | Ok (c, rt) => (Committed c, rt)
  | Err e =>
      match caught e with
      | Some reason =>
          match abort rt (ct_abort tick) (rq_commit request) reason with
          | Ok rt => (Aborted e, rt)
          | Err e => (Raised e, rt)
          end
      | None => (Raised e, rt)
      end
  end.

Definition stage_records (db : Db) (records : list Rec) : result Db :=
  fold_result (fun db r => let! (_, db) := stage_db db r in Ok db) db records.

(** [TransitionService.commit]: each transaction it runs stays when a later one
    raises. *)
Definition commit (rt : Rt) (tick : CommitTick) (request : TransitionCommitRequest)
  : result TransitionCommit * Rt :=
  match commit_request request with
  | Err e => (Err e, rt)
  | Ok binding =>
      match transition_commits (rt_db rt) !! c_transition_commit_id (rq_commit request) with
      | Some old =>
          let outcome := cr_payload old in
          if neqb (cr_candidate_binding old) binding
          then (Err (ValueError "TRANSITION_BINDING_MISMATCH"), rt)
          else
            match c_state outcome with
            | COMMITTED => (Ok outcome, rt)
            | ABORTED =>
                (Err (ValueError ("Transition already ABORTED: "
                                  ++ default "None" (c_abort_reason outcome))%string), rt)
            | PREPARED =>
                match finish_request rt tick request with
                | Ok (c, rt) => (Ok c, rt)
                | Err e => (Err e, rt)
                end
            end
      | None =>
          match stage_records (rt_db rt) (rq_records request) with
          | Err e => (Err e, rt)
          | Ok db =>
              let rt := set_db rt db in
              match prepare rt (ct_prepared tick) request with
              | Err e => (Err e, rt)
              | Ok rt =>
                  match finish_or_abort rt tick request with
                  | (Committed c, rt) => (Ok c, rt)
                  | (Aborted e, rt) | (Raised e, rt) => (Err e, rt)
                  end
              end
          end
      end
  end.

(** One journal of [recover_prepared]: its request is read back from the
    records it names. *)
Definition journaled_request (db : Db) (row : CommitRow) : result TransitionCommitRequest :=
  let! transition := resolve_db db (cr_transition row) false in
  let! prepared := resolve_db db (cr_commit row) false in
  let! candidates := map_result (fun ref => resolve_db db ref true) (cr_records row) in
  match transition, prepared with
  | RecTransition t, RecCommit c => Ok (mkCommitRequest t c candidates)
  | _, _ => Err AssertionError
  end.

Definition recover_row (rt : Rt) (tick : CommitTick) (row : CommitRow) : result unit * Rt :=
  match journaled_request (rt_db rt) row with
  | Err e => (Err e, rt)
  | Ok request =>
      match finish_or_abort rt tick request with
      | (Committed _, rt) | (Aborted _, rt) => (Ok tt, rt)
      | (Raised e, rt) => (Err e, rt)
      end
  end.

(** The journals that are PREPARED; the query promises no order. *)
Definition prepared_rows (db : Db) : list CommitRow :=
  filter (fun row => c_state (cr_payload row) = PREPARED)
    (map snd (map_to_list (transition_commits db))).

Fixpoint recover_rows (rt : Rt) (ticks : list CommitTick) (rows : list CommitRow)
  : result unit * Rt :=
  match rows, ticks with
  | row :: rows, tick :: ticks =>
      match recover_row rt tick row with
      | (Ok _, rt) => recover_rows rt ticks rows
      | (Err e, rt) => (Err e, rt)
      end
  | _, _ => (Ok tt, rt)
  end.

(** [TransitionService.recover_prepared]: one tick for each journal. *)
Definition recover_prepared (rt : Rt) (tick : nat -> CommitTick) : result unit * Rt :=
  let rows := prepared_rows (rt_db rt) in
  recover_rows rt (map tick (seq 0 (length rows))) rows.

(** ** Cancellation *)

Definition auth_tick (t : Tick) : AuthTick :=
  mkAuthTick (fresh t 0) (clock t 0) (fresh t 1) (clock t 1) (fresh t 2) (clock t 2).

(** The CANCEL_WORK action of a work. *)
Definition cancel_action (work : WorkExecutionState) (meta : RunMeta) (id : string)
  (identity_ref work_ref : BudgetScopeRef) (now : Z) : ActionRequest :=
  mkAction meta id Q_ORCHESTRATION identity_ref CANCEL_WORK (Some work_ref)
    (Some (w_state_version work)) None None [] (w_input_refs work) None None None None None None
    [] None None None None None None [] None "CANCELLATION_REQUESTED" now.

(** The transition to CANCELLED and its journal entry. *)
Definition cancel_transition (work : WorkExecutionState) (meta : RunMeta)
  (id dedupe_key : string) (decision_ref : BudgetScopeRef) (now : Z) : StateTransition :=
  mkTransition meta id (w_work_id work) decision_ref (w_status work) T_CANCELLED
    (w_state_version work) (w_state_version work + 1) (w_active_attempt_id work)
    "CANCELLATION_REQUESTED" (w_output_refs work) (w_gap_ids work) (w_error_ids work) dedupe_key now.

Definition cancel_commit (work : WorkExecutionState) (meta : RunMeta) (id : string)
  (transition_ref : BudgetScopeRef) (now : Z) : TransitionCommit :=
  mkCommit meta id (w_work_id work) transition_ref (w_state_version work)
    (w_state_version work + 1) (w_active_attempt_id work) C_CANCELLED (w_output_refs work)
    (w_gap_ids work) (w_error_ids work) PREPARED now None None.

(** The attempt a cancelled work was running. *)
Definition cancel_attempt (db : Db) (tick : Tick) (work : WorkExecutionState) (now : Z)
  : result Db :=
  match w_active_attempt_id work with
  | None => Ok db
  | Some id =>
      match work_attempts db !! id with
      | Some prior =>
          if neqb (a_status prior) A_RUNNING then Err NoResultFound
          else
            let! meta := next_meta (a_meta prior) (fresh tick 0) (clock tick 0) in
            let! ended := validate_attempt (cancelled_attempt prior meta now) in
            let! (_, db) := stage_publish db (RecAttempt ended) in
            Ok (set_attempts db (<[a_attempt_id ended := ended]> (work_attempts db)))
      | None => Err NoResultFound
      end
  end.

(** [TransitionService.cancel_in_transaction] *)
Definition cancel_in_transaction (rt : Rt) (tick : nat -> Tick) (work : WorkExecutionState)
  (identity_ref : BudgetScopeRef) : result (WorkExecutionState * Rt) :=
  if terminal_work (w_status work) then Ok (work, rt)
  else
    let now := clock (tick 0%nat) 0 in
    let attempt := w_active_attempt_id work in
    let! meta := fresh_meta (w_meta work) "action_request" (fresh (tick 1%nat) 0)
                   (clock (tick 1%nat) 0) attempt in
    let! work_ref := reference (RecWork work) in
    let! work_scope := as_scope work_ref in
    let! action := validate_action
        (cancel_action work meta (fresh (tick 1%nat) 1) identity_ref work_scope now) in
    let! (decision, rt) := authorize rt (auth_tick (tick 2%nat)) action (Some work) None in
    raise_if neqb (d_decision decision) ALLOW with "CANCELLATION_AUTHORITY_DENIED" ;;
    let! decision_ref := reference (RecDecision decision) in
    let! decision_scope := as_scope decision_ref in
    let! meta := fresh_meta (w_meta work) "state_transition" (fresh (tick 3%nat) 0)
                   (clock (tick 3%nat) 0) attempt in
    let! dedupe_key := content_hash []
        (VSequence [id_value (w_work_id work); VInt (w_state_version work); VStr "CANCELLED"]) in
    let! transition := validate_transition
        (cancel_transition work meta (fresh (tick 3%nat) 1) dedupe_key decision_scope now) in
    do! validate_transition_context transition work None ;;
    let! (transition_ref, db) := stage_publish (rt_db rt) (RecTransition transition) in
    let! transition_scope := as_scope transition_ref in
    let! meta := fresh_meta (w_meta work) "transition_commit" (fresh (tick 4%nat) 0)
                   (clock (tick 4%nat) 0) attempt in
    let! prepared := validate_commit
        (cancel_commit work meta (fresh (tick 4%nat) 1) transition_scope now) in
    let! hash := content_hash [] (model_value (RecTransition transition)) in
    do! validate_commit_transition prepared transition hash ;;
    let! (prepared_ref, db) := stage_publish db (RecCommit prepared) in
    let! binding := candidate_binding transition prepared [] in
    let! db := insert_commit db (mkCommitRow binding prepared transition_ref prepared_ref []) in
    let! (_, rt) :=
      claim (set_db rt db) (claim_tick (tick 5%nat)) decision_ref CANCEL_WORK work None false in
    let! meta := next_meta (c_meta prepared) (fresh (tick 6%nat) 0) (clock (tick 6%nat) 0) in
    let! committed := validate_commit
        (settled_commit prepared meta COMMITTED (Some now) (c_abort_reason prepared)) in
    let! (committed_ref, db) := stage_publish (rt_db rt) (RecCommit committed) in
    let (matched, db) := settle_prepared db committed in
    raise_if negb matched with "CANCELLATION_TRANSITION_CAS_FAILED" ;;
    let! committed_scope := as_scope committed_ref in
    let! meta := next_meta (w_meta work) (fresh (tick 7%nat) 0) (clock (tick 7%nat) 0) in
    let! cancelled :=
      validate_work (cancelled_work work meta transition_scope committed_scope now) in
    let! db := cancel_attempt db (tick 8%nat) work now in
    let! db := save db (tick 9%nat) work cancelled in
    raise_if match work_states db !! w_work_id work with
             | Some row => neqb (w_status (wr_payload row)) CANCELLED
                           || neqb (w_state_version (wr_payload row)) (w_state_version cancelled)
             | None => true
             end
      with "CANCELLATION_WORK_CAS_FAILED" ;;
    Ok (cancelled, set_db rt (clear_lease db (w_work_id work))).
End transition.
