(* ===== verification/RunControl.v ===== *)
(** * Durable cancellation

    [RunControlStore] ([storage/run_control.py]) and [CancellationTargetStore]
    ([storage/cancellation_targets.py]): the cancellation latch of a run, the
    external requests it leaves open, what the host observed of each, and the
    transactions that reconcile the run and close it. *)
From S2P Require Import Prelude Records CanonicalJson Store Work Processes Actions.
From S2P Require Import Budget Runtime Registry Hierarchy Ledger Dispatch Authority Outputs.
From S2P Require Import Validator Services Projections Transition.

(** ** Values

    The dataclasses of [ports/scheduler.py]; a [Literal] of a dataclass is not
    checked at run time, so it is a [string]. *)

Record SandboxCancellationResource := mkSandboxResource {
  sr_resource_kind : string;
  sr_resource_id : string;
  sr_resource_ref : option StoredDataRef;
  sr_resource_tag : option string;
  sr_labels : list (string * string);
  sr_lookup_by_name : bool;
  sr_preservation_reason : option string;
}.

Record CancellationTarget := mkTarget {
  g_target_kind : string;
  g_work : WorkExecutionState;
  g_attempt : WorkAttempt;
  g_action_request_ref : RecordRef;
  g_action_decision_ref : RecordRef;
  g_call_spec_ref : option StoredDataRef;
  g_sandbox_resource_refs : list StoredDataRef;
  g_issued_action_decision_ref : option RecordRef;
  g_sandbox_resources : list SandboxCancellationResource;
  g_sandbox_inventory_fingerprint : option string;
}.

Record CancellationResourceObservation := mkResourceObservation {
  ro_resource : SandboxCancellationResource;
  ro_status : string;
  ro_reason_code : option string;
}.

Record CancellationObservation := mkObservation {
  v_target : CancellationTarget;
  v_status : string;
  v_reason_code : option string;
  v_resource_observations : list CancellationResourceObservation;
}.

#[export] Instance SandboxCancellationResource_eq_dec : EqDecision SandboxCancellationResource.
Proof. solve_decision. Defined.
#[export] Instance CancellationTarget_eq_dec : EqDecision CancellationTarget.
Proof. solve_decision. Defined.
#[export] Instance CancellationResourceObservation_eq_dec :
  EqDecision CancellationResourceObservation.
Proof. solve_decision. Defined.
#[export] Instance CancellationObservation_eq_dec : EqDecision CancellationObservation.
Proof. solve_decision. Defined.

(** [_ObservationResource] *)
Record ObservationResource := mkObservationResource {
  or_kind : string;
  or_resource_id : string;
  or_ref : option string;
  or_tag : option string;
  or_labels : string;
  or_lookup_by_name : Z;
  or_preservation_reason : option string;
  or_inventory_fingerprint : string;
  or_ordinal : Z;
  or_count : Z;
}.

(** ** Tables

    A row of [run_controls] besides its key, and the values of a row of
    [cancellation_observations]; the table adds [observed_at]. *)

Record ControlRow := mkControlRow {
  ctl_cancel_requested_at : Z;
  ctl_cancel_reason : string;
  ctl_quiescent_at : option Z;
}.

Record ObservationValues := mkObservationValues {
  o_observation_key : string;
  o_analysis_id : string;
  o_work_id : string;
  o_attempt_id : string;
  o_action_ref : string;
  o_issued_decision_ref : string;
  o_decision_ref : string;
  o_target_kind : string;
  o_resource_kind : string;
  o_resource_id : string;
  o_resource_ref : option string;
  o_resource_tag : option string;
  o_labels : string;
  o_lookup_by_name : Z;
  o_preservation_reason : option string;
  o_inventory_fingerprint : string;
  o_resource_ordinal : Z;
  o_resource_count : Z;
  o_status : string;
  o_reason_code : option string;
}.

#[export] Instance ObservationValues_eq_dec : EqDecision ObservationValues.
Proof. solve_decision. Defined.

(** The runtime's tables with those of run control. [Runtime.run_controls] holds
    the keys of the rows [control_rows] completes. *)
Record Control := mkControl {
  ct_rt : Rt;
  control_rows : gmap string ControlRow;
  cancellation_observations : gmap string (ObservationValues * Z);
}.

Definition ct_db (ct : Control) : Db := rt_db (ct_rt ct).
Definition set_rt (ct : Control) (rt : Rt) : Control :=
  mkControl rt (control_rows ct) (cancellation_observations ct).
Definition set_controls (ct : Control) (rows : gmap string ControlRow) : Control :=
  mkControl (ct_rt ct) rows (cancellation_observations ct).
Definition set_observations (ct : Control) (rows : gmap string (ObservationValues * Z)) : Control :=
  mkControl (ct_rt ct) (control_rows ct) rows.

(** ** Statuses and reasons *)

Definition _CLOSED_STATUSES : list string := ["STOPPED"; "ABSENT"; "PRESERVED"].
Definition valid_status (s : string) : bool := mem s (_CLOSED_STATUSES ++ ["UNKNOWN"]).

(** [_SAFE_REASON.fullmatch]: [[A-Z0-9_]{1,64}\Z] *)
Definition safe_char (c : Ascii.ascii) : bool :=
  let n := Ascii.nat_of_ascii c in
  ((65 <=? n) && (n <=? 90) || (48 <=? n) && (n <=? 57) || (n =? 95))%nat.
Definition safe_reason (s : string) : bool :=
  (1 <=? String.length s)%nat && (String.length s <=? 64)%nat
  && forallb safe_char (String.list_ascii_of_string s).

(** [reason is not None and _SAFE_REASON.fullmatch(reason) is None] *)
Definition unsafe_reason (reason : option string) : bool :=
  match reason with Some s => negb (safe_reason s) | None => false end.

(** [_aggregate_sandbox] *)
Definition _aggregate_sandbox (observations : list CancellationResourceObservation)
  : string * option string :=
  if existsb (fun o => eqb (ro_status o) "UNKNOWN") observations
  then ("UNKNOWN", Some "SANDBOX_RESOURCE_UNKNOWN")
  else if existsb (fun o => eqb (ro_status o) "STOPPED") observations then ("STOPPED", None)
  else if existsb (fun o => eqb (ro_status o) "ABSENT") observations then ("ABSENT", None)
  else ("PRESERVED", Some "REUSABLE_BASELINE").

(** [_same_target_identity] *)
Definition target_identity (t : CancellationTarget) : CancellationTarget :=
  mkTarget (g_target_kind t) (g_work t) (g_attempt t) (g_action_request_ref t)
    (g_action_decision_ref t) (g_call_spec_ref t) [] (g_issued_action_decision_ref t) [] None.
Definition _same_target_identity (left right : CancellationTarget) : bool :=
  eqb (target_identity left) (target_identity right).

(** [observation.target.work.work_id] and [.meta.analysis_id] *)
Definition target_work_id (t : CancellationTarget) : string := w_work_id (g_work t).
Definition target_analysis_id (t : CancellationTarget) : string :=
  rm_analysis_id (w_meta (g_work t)).

(** One resource of a sandbox observation. *)
Definition check_resource_observation (o : CancellationResourceObservation) : result unit :=
  raise_if negb (valid_status (ro_status o)) with "CANCELLATION_OBSERVATION_STATUS_INVALID" ;;
  raise_if eqb (ro_status o) "PRESERVED"
           && (neqb (sr_resource_kind (ro_resource o)) "IMAGE"
               || neqb (sr_preservation_reason (ro_resource o)) (Some "REUSABLE_BASELINE"))
    with "CANCELLATION_PRESERVATION_INVALID" ;;
  raise_if unsafe_reason (ro_reason_code o) with "CANCELLATION_OBSERVATION_REASON_INVALID" ;;
  Ok tt.

(** [RunControlStore._validate_observation] *)
Definition _validate_observation (o : CancellationObservation) : result unit :=
  let target := v_target o in
  raise_if negb (valid_status (v_status o)) with "CANCELLATION_OBSERVATION_STATUS_INVALID" ;;
  raise_if unsafe_reason (v_reason_code o) with "CANCELLATION_OBSERVATION_REASON_INVALID" ;;
  raise_if is_none (g_issued_action_decision_ref target)
    with "CANCELLATION_TARGET_ISSUED_DECISION_REQUIRED" ;;
  if eqb (g_target_kind target) "SANDBOX" then
    raise_if negb (nonempty (g_sandbox_resources target))
             || is_none (g_sandbox_inventory_fingerprint target)
             || neqb (map ro_resource (v_resource_observations o)) (g_sandbox_resources target)
      with "CANCELLATION_SANDBOX_INVENTORY_MISMATCH" ;;
    do! for_each check_resource_observation (v_resource_observations o) ;;
    raise_if neqb (_aggregate_sandbox (v_resource_observations o)) (v_status o, v_reason_code o)
      with "CANCELLATION_OBSERVATION_STATUS_MISMATCH" ;;
    Ok tt
  else
    raise_if nonempty (v_resource_observations o)
      with "CANCELLATION_OBSERVATION_RESOURCE_INVALID" ;;
    Ok tt.

(** ** The rows of an observation *)

(** [d[k] = v] of a [dict], as the list of its items. *)
Fixpoint dict_set (l : list (string * string)) (k v : string) : list (string * string) :=
  match l with
  | [] => [(k, v)]
  | (k', v') :: l => if eqb k' k then (k', v) :: l else (k', v') :: dict_set l k v
  end.

(** [canonical_bytes(dict(labels)).decode()] *)
Definition labels_text (labels : list (string * string)) : result string :=
  canonical_bytes [] (VMapping (map (fun kv => (Some kv.1, VStr kv.2))
                        (fold_left (fun d kv => dict_set d kv.1 kv.2) labels []))).

(** [canonical_bytes(ref).decode()] *)
Definition ref_text (ref : RecordRef) : result string := canonical_bytes [] (ref_value ref).
Definition optional_text (ref : option StoredDataRef) : result (option string) :=
  match ref with
  | None => Ok None
  | Some r => let! t := ref_text (RStored r) in Ok (Some t)
  end.

(** [enumerate(xs)] *)
Definition enumerate {A} (l : list A) : list (Z * A) := zip (map Z.of_nat (seq 0 (length l))) l.

(** [zip(xs, ys, strict=True)] *)
Fixpoint zip_strict {A B} (l : list A) (k : list B) : result (list (A * B)) :=
  match l, k with
  | [], [] => Ok []
  | x :: l, y :: k => let! r := zip_strict l k in Ok ((x, y) :: r)
  | _, _ => Err (ValueError "zip() arguments differ in length")
  end.

(** [_resources] *)
Definition _resources (t : CancellationTarget) : result (list ObservationResource) :=
  if eqb (g_target_kind t) "SANDBOX" then
    match g_sandbox_resources t, g_sandbox_inventory_fingerprint t with
    | (_ :: _) as resources, Some fingerprint =>
        map_result (fun nr =>
            let '(ordinal, r) := nr in
            let! ref := optional_text (sr_resource_ref r) in
            let! labels := labels_text (sr_labels r) in
            Ok (mkObservationResource (sr_resource_kind r) (sr_resource_id r) ref
                  (sr_resource_tag r) labels (if sr_lookup_by_name r then 1 else 0)
                  (sr_preservation_reason r) fingerprint ordinal
                  (Z.of_nat (length resources))))
          (enumerate resources)
    | _, _ => Err (ValueError "CANCELLATION_SANDBOX_RESOURCE_MISSING")
    end
  else if eqb (g_target_kind t) "PROVIDER" then
    match g_call_spec_ref t with
    | None => Err (ValueError "CANCELLATION_CALL_SPEC_NOT_EXACT")
    | Some spec =>
        let! text := ref_text (RStored spec) in
        let! fingerprint := content_hash [] (ref_value (RStored spec)) in
        Ok [mkObservationResource "PROVIDER_CALL" (sd_stored_data_id spec) (Some text) None "{}" 0
              None fingerprint 0 1]
    end
  else if eqb (g_target_kind t) "STATIC" then
    let! fingerprint := content_hash []
        (VSequence [id_value (w_work_id (g_work t)); id_value (a_attempt_id (g_attempt t))]) in
    Ok [mkObservationResource "STATIC_ATTEMPT" (a_attempt_id (g_attempt t)) None None "{}" 0 None
          fingerprint 0 1]
  else Err (ValueError "CANCELLATION_TARGET_KIND_MISMATCH").

Definition text_value (o : option string) : value :=
  match o with Some s => VStr s | None => VNone end.

(** [_observation_key] *)
Definition _observation_key (t : CancellationTarget) (r : ObservationResource) : result string :=
  content_hash []
    (VSequence [VStr "cancellation-observation-v1"; VStr (g_target_kind t);
                id_value (target_analysis_id t); id_value (target_work_id t);
                id_value (a_attempt_id (g_attempt t)); ref_value (g_action_request_ref t);
                match g_issued_action_decision_ref t with
                | Some ref => ref_value ref
                | None => VNone
                end;
                ref_value (g_action_decision_ref t); VStr (or_kind r); VStr (or_resource_id r);
                text_value (or_ref r); text_value (or_tag r); VStr (or_labels r);
                VInt (or_lookup_by_name r); text_value (or_preservation_reason r);
                VStr (or_inventory_fingerprint r); VInt (or_ordinal r); VInt (or_count r)]).

(** [_observation_values] *)
Definition _observation_values (t : CancellationTarget) (status : string)
  (reason_code : option string) (r : ObservationResource) : result ObservationValues :=
  match g_issued_action_decision_ref t with
  | None => Err (ValueError "CANCELLATION_TARGET_ISSUED_DECISION_REQUIRED")
  | Some issued =>
      let! key := _observation_key t r in
      let! action_ref := ref_text (g_action_request_ref t) in
      let! issued_ref := ref_text issued in
      let! decision_ref := ref_text (g_action_decision_ref t) in
      Ok (mkObservationValues key (target_analysis_id t) (target_work_id t)
            (a_attempt_id (g_attempt t)) action_ref issued_ref decision_ref (g_target_kind t)
            (or_kind r) (or_resource_id r) (or_ref r) (or_tag r) (or_labels r)
            (or_lookup_by_name r) (or_preservation_reason r) (or_inventory_fingerprint r)
            (or_ordinal r) (or_count r) status reason_code)
  end.

(** [_resource_observations] *)
Definition _resource_observations (o : CancellationObservation)
  : result (list (ObservationResource * string * option string)) :=
  let! resources := _resources (v_target o) in
  if neqb (g_target_kind (v_target o)) "SANDBOX" then
    Ok (map (fun r => (r, v_status o, v_reason_code o)) resources)
  else
    let! pairs := zip_strict resources (v_resource_observations o) in
    Ok (map (fun p => (p.1, ro_status p.2, ro_reason_code p.2)) pairs).

(** The row of one resource, if there is one. *)
Definition observed_row (rows : gmap string (ObservationValues * Z)) (t : CancellationTarget)
  (r : ObservationResource) : result (option ObservationValues) :=
  let! key := _observation_key t r in
  match rows !! key with
  | None => Ok None
  | Some (row, _) =>
      let! expected := _observation_values t (o_status row) (o_reason_code row) r in
      raise_if neqb row expected with "CANCELLATION_OBSERVATION_SCOPE_MISMATCH" ;;
      Ok (Some row)
  end.

(** [statuses.pop()] of the set of the rows' statuses, when it has one element. *)
Definition one_status (rows : list ObservationValues) : result (string * option string) :=
  match map (fun r => (o_status r, o_reason_code r)) rows with
  | [] => Err (ValueError "CANCELLATION_OBSERVATION_CONFLICT")
  | s :: rest =>
      raise_if existsb (fun s' => neqb s' s) rest with "CANCELLATION_OBSERVATION_CONFLICT" ;;
      Ok s
  end.

(** The observation the rows of its resources spell. *)
Definition rebuilt_observation (t : CancellationTarget) (present : list ObservationValues)
  : result CancellationObservation :=
  if eqb (g_target_kind t) "SANDBOX" then
    let! pairs := zip_strict (g_sandbox_resources t) present in
    let observations := map (fun p => mkResourceObservation p.1 (o_status p.2) (o_reason_code p.2))
                          pairs in
    let (status, reason) := _aggregate_sandbox observations in
    Ok (mkObservation t status reason observations)
  else
    let! (status, reason) := one_status present in
    Ok (mkObservation t status reason []).

(** One iteration of [RunControlStore._observations]. *)
Definition observation_of (rows : gmap string (ObservationValues * Z)) (t : CancellationTarget)
  : result (option CancellationObservation) :=
  let! resources := _resources t in
  let! found := map_result (observed_row rows t) resources in
  let present := omap id found in
  match present with
  | [] => Ok None
  | _ :: _ =>
      raise_if negb (length present =? length resources)%nat
        with "CANCELLATION_OBSERVATION_INCOMPLETE" ;;
      let! observation := rebuilt_observation t present in
      do! _validate_observation observation ;;
      Ok (Some observation)
  end.
Definition _observations (rows : gmap string (ObservationValues * Z))
  (targets : list CancellationTarget) : result (list (option CancellationObservation)) :=
  map_result (observation_of rows) targets.

(** ** The latch *)

(** [insert(run_controls)]: the key. *)
Definition latch (db : Db) (analysis_id : string) : Db :=
  mkDb (db_store db) (analysis_runs db) (current_records db) (run_controls db ++ [analysis_id])
    (work_states db) (work_attempts db) (budget_profiles db) (budget_reservations db)
    (budget_ledger_entries db) (external_dispatches db) (transition_commits db) (artifacts db)
    (match_reservations db).

(** [RunControlStore.request_cancel]; the run exists. *)
Definition request_cancel (ct : Control) (analysis_id reason : string) (now : Z)
  : result Control :=
  raise_if eqb analysis_id "" || negb (safe_reason reason) with "RUN_CONTROL_INPUT_INVALID" ;;
  let db := ct_db ct in
  if cancel_latched db analysis_id then Ok ct
  else if is_none (analysis_runs db !! analysis_id) then Err IntegrityError
  else
    Ok (set_controls (set_rt ct (set_db (ct_rt ct) (latch db analysis_id)))
          (<[analysis_id := mkControlRow now reason None]> (control_rows ct))).

(** [RunControlStore.cancel_requested] *)
Definition cancel_requested (ct : Control) (analysis_id : string) : result bool :=
  raise_if eqb analysis_id "" with "RUN_CONTROL_INPUT_INVALID" ;;
  Ok (cancel_latched (ct_db ct) analysis_id).

(** What [RunControlStore.admit_resource_mutation] checks before it yields. *)
Definition admit_resource_mutation (ct : Control) (analysis_id : string) : result unit :=
  raise_if eqb analysis_id "" with "RUN_CONTROL_INPUT_INVALID" ;;
  raise_if cancel_latched (ct_db ct) analysis_id with "RUN_CANCELLED" ;;
  Ok tt.

(** [RunControlStore.cancellation_observations] *)
Definition observations_of_targets (ct : Control) (targets : list CancellationTarget)
  : result (list (option CancellationObservation)) :=
  raise_if match targets with
           | [] => false
           | t :: rest => existsb (fun t' => neqb (target_analysis_id t') (target_analysis_id t)) rest
           end
    with "CANCELLATION_TARGET_SCOPE_MISMATCH" ;;
  _observations (cancellation_observations ct) targets.

Section run_control.
Context `{Codec} `{TrustedEvidence} `{Host} `{StageRules}.

(** ** The open requests of a run *)

Definition _PROVIDER_ACTIONS : list ActionType :=
  [CALL_LLM; CALL_TECHNICAL_GATE; CALL_RULE_SCOPE_GATE; CREATE_REPORT_DRAFT].
Definition _STATIC_ACTIONS : list ActionType := [READ_CODE; RUN_TOOL; FETCH_POLICY].

(** [CancellationTargetStore._target_kind] *)
Definition _target_kind (kind : ActionType) : option string :=
  if mem kind _PROVIDER_ACTIONS then Some "PROVIDER"
  else if mem kind _STATIC_ACTIONS then Some "STATIC"
  else if eqb kind RUN_SANDBOX then Some "SANDBOX"
  else None.

(** [CancellationTargetStore._exact] *)
Definition _exact (db : Db) (ref : RecordRef) : result Rec :=
  match ref_record_id ref with
  | None => Err (ValueError "CANCELLATION_TARGET_EXACT_REF_REQUIRED")
  | Some id =>
      match select_row (db_store db) false id with
      | None => Err NoResultFound
      | Some row =>
          raise_if neqb (row_ref row) ref
            with "RECORD_REVISION_MISMATCH: exact cancellation target" ;;
          let! record := decode (row_kind row) (row_payload row) in
          let! hash := content_hash [] (rec_value record) in
          raise_if neqb hash (ref_content_hash ref) with "HASH_MISMATCH" ;;
          Ok record
      end
  end.

(** The works of the run by [work_id]. *)
Definition run_works (db : Db) (analysis_id : string) : list (string * WorkRow) :=
  sort_by key_leb
    (filter (fun kv => rm_analysis_id (w_meta (wr_payload kv.2)) = analysis_id)
       (map_to_list (work_states db))).

(** The running attempt of a RUNNING work. *)
Definition inventory_attempt (db : Db) (analysis_id id : string) (row : WorkRow)
  : result (option WorkAttempt) :=
  let work := wr_payload row in
  let invalid := ValueError "CANCELLATION_WORK_STATE_NOT_CURRENT" in
  if eqb (w_status work) RUNNING then
    if is_none (wr_worker_id row) || is_none (wr_lease_expires_at row) then Err invalid
    else
      match w_active_attempt_id work with
      | None => Err invalid
      | Some active_id =>
          match work_attempts db !! active_id with
          | None => Err invalid
          | Some attempt =>
              if neqb (a_work_id attempt) id || neqb (a_status attempt) A_RUNNING
                 || neqb (rm_analysis_id (a_meta attempt)) analysis_id
                 || neqb (a_attempt_id attempt) active_id
                 || neqb (a_input_hash attempt) (w_input_hash work)
              then Err invalid else Ok (Some attempt)
          end
      end
  else if is_some (wr_worker_id row) || is_some (wr_lease_expires_at row)
          || existsb (fun kv => eqb (a_work_id kv.2) id && eqb (a_status kv.2) A_RUNNING)
               (map_to_list (work_attempts db))
  then Err invalid else Ok None.

(** [CancellationTargetStore._work_inventory] *)
Definition _work_inventory (db : Db) (analysis_id : string)
  : result (list (string * (WorkExecutionState * option WorkAttempt))) :=
  map_result (fun kv =>
      let (id, row) := (kv : string * WorkRow) in
      raise_if neqb (w_work_id (wr_payload row)) id with "CANCELLATION_WORK_STATE_NOT_CURRENT" ;;
      let! attempt := inventory_attempt db analysis_id id row in
      Ok (id, (wr_payload row, attempt)))
    (run_works db analysis_id).

(** The open dispatches of the run's works, by [work_id] and [action_id]. *)
Definition dispatch_leb (x y : DispatchRow) : bool :=
  if eqb (x_work_id x) (x_work_id y) then str_leb (x_action_id x) (x_action_id y)
  else str_leb (x_work_id x) (x_work_id y).
Definition open_dispatches (db : Db) (analysis_id : string) : list DispatchRow :=
  sort_by dispatch_leb
    (filter (fun x => unresolved x = true
                      /\ (fun row => rm_analysis_id (w_meta (wr_payload row)))
                           <$> work_states db !! x_work_id x = Some analysis_id)
       (external_dispatches db)).

(** The target of one dispatch. *)
Definition target_of (rt : Rt) (inventory : list (string * (WorkExecutionState * option WorkAttempt)))
  (x : DispatchRow) : result CancellationTarget :=
  let db := rt_db rt in
  match assoc (x_work_id x) inventory with
  | Some (work, Some attempt) =>
      raise_if neqb (w_status work) RUNNING
               || neqb (Some (x_attempt_id x)) (w_active_attempt_id work)
        with "CANCELLATION_TARGET_SCOPE_MISMATCH" ;;
      let! issued := _exact db (x_decision_ref x) in
      match issued with
      | RecDecision issued =>
          let! action := _exact db (scope_ref (d_action_ref issued)) in
          match action with
          | RecAction action =>
              match find (fun row => eqb (dr_action_id row) (q_action_id action))
                      (action_decisions rt) with
              | None => Err (ValueError "CANCELLATION_TARGET_EXACT_REF_REQUIRED")
              | Some row =>
                  let used := dr_payload row in
                  let! action_ref := reference (RecAction action) in
                  let! work_ref := reference (RecWork work) in
                  raise_if neqb (d_use_status issued) UNUSED || neqb (d_use_status used) USED
                           || neqb (scope_ref (d_action_ref issued)) action_ref
                           || neqb (scope_ref (d_action_ref used)) action_ref
                           || neqb (q_action_id action) (x_action_id x)
                           || neqb (scope_ref <$> q_work_ref action) (Some work_ref)
                           || neqb (q_expected_state_version action) (Some (w_state_version work))
                    with "CANCELLATION_TARGET_SCOPE_MISMATCH" ;;
                  do! validate_decision_revision issued used ;;
                  match _target_kind (q_action_type action) with
                  | None => Err (ValueError "CANCELLATION_TARGET_KIND_MISMATCH")
                  | Some kind =>
                      do! (match q_llm_call_spec_ref action with
                           | Some spec => let! _ := _exact db (RStored spec) in Ok tt
                           | None => Ok tt
                           end) ;;
                      let! used_ref := reference (RecDecision used) in
                      Ok (mkTarget kind work attempt action_ref used_ref
                            (q_llm_call_spec_ref action) [] (Some (x_decision_ref x)) [] None)
                  end
              end
          | _ => Err (ValueError "CANCELLATION_TARGET_EXACT_REF_REQUIRED")
          end
      | _ => Err (ValueError "CANCELLATION_TARGET_EXACT_REF_REQUIRED")
      end
  | _ => Err (ValueError "CANCELLATION_TARGET_SCOPE_MISMATCH")
  end.

(** [CancellationTargetStore.cancellation_targets] *)
Definition cancellation_targets (rt : Rt) (analysis_id : string)
  : result (list CancellationTarget) :=
  raise_if eqb analysis_id "" with "RUN_CONTROL_INPUT_INVALID" ;;
  let! inventory := _work_inventory (rt_db rt) analysis_id in
  let! targets := map_result (target_of rt inventory) (open_dispatches (rt_db rt) analysis_id) in
  raise_if has_duplicates (map (fun t => (g_target_kind t, g_action_request_ref t,
                                          a_attempt_id (g_attempt t))) targets)
    with "DUPLICATE_CANCELLATION_TARGET" ;;
  Ok targets.

(** ** Recording an observation *)

(** [insert(cancellation_observations)] under its primary key. *)
Definition insert_observation (o : CancellationObservation) (now : Z)
  (rows : gmap string (ObservationValues * Z))
  (item : ObservationResource * string * option string)
  : result (gmap string (ObservationValues * Z)) :=
  let '(resource, status, reason) := item in
  let! values := _observation_values (v_target o) status reason resource in
  if is_some (rows !! o_observation_key values) then Err IntegrityError
  else Ok (<[o_observation_key values := (values, now)]> rows).

(** [RunControlStore.record_cancellation_observation] *)
Definition record_cancellation_observation (ct : Control) (o : CancellationObservation) (now : Z)
  : result Control :=
  do! _validate_observation o ;;
  let target := v_target o in
  raise_if negb (cancel_latched (ct_db ct) (target_analysis_id target))
    with "CANCELLATION_LATCH_REQUIRED" ;;
  let! current := cancellation_targets (ct_rt ct) (target_analysis_id target) in
  raise_if negb (existsb (_same_target_identity target) current)
    with "CANCELLATION_TARGET_NOT_CURRENT" ;;
  let! existing := observation_of (cancellation_observations ct) target in
  match existing with
  | Some existing =>
      raise_if neqb existing o with "CANCELLATION_OBSERVATION_CONFLICT" ;;
      Ok ct
  | None =>
      let! items := _resource_observations o in
      let! rows := fold_result (insert_observation o now) (cancellation_observations ct) items in
      Ok (set_observations ct rows)
  end.

(** ** Reconciling a cancelled run *)

(** The observations are those of the run's open requests, in order, and the
    recorded ones. *)
Definition check_observations (ct : Control) (analysis_id : string)
  (observations : list CancellationObservation) : result unit :=
  let! current := cancellation_targets (ct_rt ct) analysis_id in
  raise_if negb (length observations =? length current)%nat
           || existsb (fun p => negb (_same_target_identity (v_target p.1) p.2))
                (zip observations current)
    with "CANCELLATION_TARGET_NOT_CURRENT" ;;
  let! persisted := _observations (cancellation_observations ct) (map v_target observations) in
  raise_if existsb (fun p => neqb p.1 (Some p.2)) (zip persisted observations)
    with "CANCELLATION_OBSERVATION_NOT_DURABLE" ;;
  for_each _validate_observation observations.

(** The dispatch of an observation whose outcome is known, as it is closed
    afterwards. *)
Definition dispatch_matches (work_id attempt_id : string) (issued : RecordRef) (x : DispatchRow)
  : bool :=
  eqb (x_work_id x) work_id && eqb (x_attempt_id x) attempt_id && eqb (x_decision_ref x) issued
  && unresolved x.
Definition known_dispatch (db : Db) (found : list (CancellationTarget * RecordRef))
  (o : CancellationObservation) : result (list (CancellationTarget * RecordRef)) :=
  if eqb (v_status o) "UNKNOWN" then Ok found
  else
    let target := v_target o in
    match g_issued_action_decision_ref target with
    | None => Err AssertionError
    | Some issued =>
        match filter (fun x => dispatch_matches (target_work_id target)
                                 (a_attempt_id (g_attempt target)) issued x = true)
                (external_dispatches db) with
        | [] => Err (ValueError "CANCELLATION_DISPATCH_NOT_CURRENT")
        | [_] => Ok (found ++ [(target, issued)])
        | _ => Err MultipleResultsFound
        end
    end.

(** The works the loop collects: not terminal, and without an unknown outcome. *)
Definition nonterminal_works (db : Db) (analysis_id : string) (uncertain_ids : list string)
  : result (list WorkExecutionState) :=
  fold_result (fun found kv =>
      let (id, row) := (kv : string * WorkRow) in
      let work := wr_payload row in
      raise_if neqb (w_work_id work) id with "CANCELLATION_WORK_STATE_NOT_CURRENT" ;;
      Ok (if mem (w_status work) [PENDING; READY; RUNNING; BLOCKED]
             && negb (mem (w_work_id work) uncertain_ids)
          then found ++ [work] else found))
    [] (run_works db analysis_id).

(** [for work in nonterminal: cancel_in_transaction(...)] *)
Definition cancel_work (tick : string -> nat -> Tick) (identity : BudgetScopeRef) (rt : Rt)
  (work : WorkExecutionState) : result Rt :=
  let! (_, rt) := cancel_in_transaction rt (tick (w_work_id work)) work identity in Ok rt.

(** The closing of one dispatch. *)
Definition close_dispatch (now : string -> Z) (rt : Rt) (found : CancellationTarget * RecordRef)
  : result Rt :=
  let (target, issued) := found in
  let! db := reconcile_dispatch (rt_db rt) (target_work_id target)
               (a_attempt_id (g_attempt target)) issued (now (target_work_id target)) in
  Ok (set_db rt db).

(** [RunControlStore.reconcile_cancellation]; [identity] is there when the store
    was configured for reconciliation. *)
Definition reconcile_cancellation (ct : Control) (tick : string -> nat -> Tick)
  (now : string -> Z) (identity : option BudgetScopeRef) (analysis_id : string)
  (observations : list CancellationObservation) : result Control :=
  match identity with
  | None => Err (ValueError "RUN_CONTROL_RECONCILIATION_NOT_CONFIGURED")
  | Some identity =>
      raise_if eqb analysis_id "" with "RUN_CONTROL_RECONCILIATION_NOT_CONFIGURED" ;;
      raise_if has_duplicates (map (fun o => target_work_id (v_target o)) observations)
        with "DUPLICATE_CANCELLATION_TARGET" ;;
      let rt := ct_rt ct in
      let db := rt_db rt in
      raise_if negb (cancel_latched db analysis_id) with "CANCELLATION_LATCH_REQUIRED" ;;
      do! check_observations ct analysis_id observations ;;
      let uncertain_ids := map (fun o => target_work_id (v_target o))
                             (filter (fun o => v_status o = "UNKNOWN") observations) in
      raise_if existsb (fun kv =>
                   mem (c_work_id (cr_payload kv.2)) (map fst (run_works db analysis_id))
                   && eqb (c_state (cr_payload kv.2)) PREPARED)
                 (map_to_list (transition_commits db))
        with "CANCELLATION_PREPARED_RECOVERY_REQUIRED" ;;
      let! dispatches := fold_result (known_dispatch db) [] observations in
      let! nonterminal := nonterminal_works db analysis_id uncertain_ids in
      let! rt := fold_result (cancel_work tick identity) rt nonterminal in
      let! rt := fold_result (close_dispatch now) rt dispatches in
      Ok (set_rt ct rt)
  end.

(** ** Closing a cancelled run *)

(** An observation that does not prove its resource closed. *)
Definition observation_open (o : ObservationValues) : bool :=
  negb (mem (o_status o) _CLOSED_STATUSES)
  || eqb (o_status o) "PRESERVED"
     && (neqb (o_resource_kind o) "IMAGE"
         || neqb (o_preservation_reason o) (Some "REUSABLE_BASELINE")).

(** The observation that closed a reconciled dispatch. *)
Definition observed_closed (x : DispatchRow) (o : ObservationValues) : bool :=
  eqb (o_work_id o) (x_work_id x) && eqb (o_attempt_id o) (x_attempt_id x)
  && eqb (ref_text (x_decision_ref x)) (Ok (o_issued_decision_ref o))
  && mem (o_status o) _CLOSED_STATUSES.

(** The first check of [mark_quiescent]: no work is open or leased. *)
Definition open_work (row : WorkRow) : bool :=
  mem (w_status (wr_payload row)) [PENDING; READY; RUNNING; BLOCKED]
  || is_some (w_active_attempt_id (wr_payload row)) || is_some (wr_worker_id row)
  || is_some (wr_lease_expires_at row).

(** The second: no attempt runs, no entry is open and no request is unresolved. *)
Definition open_tables (db : Db) (ids : list string) : bool :=
  existsb (fun kv => mem (a_work_id kv.2) ids && eqb (a_status kv.2) A_RUNNING)
    (map_to_list (work_attempts db))
  || existsb (fun kv => mem (c_work_id (cr_payload kv.2)) ids
                        && eqb (c_state (cr_payload kv.2)) PREPARED)
       (map_to_list (transition_commits db))
  || existsb (fun x => mem (x_work_id x) ids && unresolved x) (external_dispatches db).

(** The observations of the run. *)
Definition run_observations (ct : Control) (analysis_id : string) : list ObservationValues :=
  filter (fun o => o_analysis_id o = analysis_id)
    (map (fun kv => kv.2.1) (map_to_list (cancellation_observations ct))).

(** [RunControlStore.mark_quiescent]; the update matches the row just read. *)
Definition mark_quiescent (ct : Control) (analysis_id : string) (now : Z) : result Control :=
  raise_if eqb analysis_id "" with "RUN_CONTROL_INPUT_INVALID" ;;
  let db := ct_db ct in
  match control_rows ct !! analysis_id with
  | None => Err (LookupError "RUN_CONTROL_NOT_FOUND")
  | Some control =>
      if is_some (ctl_quiescent_at control) then Ok ct
      else
        let rows := run_works db analysis_id in
        let ids := map fst rows in
        raise_if existsb (fun kv => open_work kv.2) rows with "RUN_NOT_QUIESCENT" ;;
        raise_if open_tables db ids with "RUN_NOT_QUIESCENT" ;;
        let observations := run_observations ct analysis_id in
        raise_if existsb observation_open observations with "RUN_NOT_QUIESCENT" ;;
        raise_if existsb (fun x =>
                     mem (x_work_id x) ids && is_some (x_dispatched_at x)
                     && is_none (x_returned_at x) && is_some (x_reconciled_at x)
                     && negb (existsb (observed_closed x) observations))
                   (external_dispatches db)
          with "RUN_NOT_QUIESCENT" ;;
        Ok (set_controls ct (<[analysis_id := mkControlRow (ctl_cancel_requested_at control)
              (ctl_cancel_reason control) (Some now)]> (control_rows ct)))
  end.
End run_control.
