(* ===== verification/Scheduler.v ===== *)
(** * The scheduler's store boundary

    [WorkDispatchStore] ([storage/work_dispatch.py]): claiming a READY work for
    a worker, renewing its lease, and reopening a blocked cohort, each in one
    transaction. *)
From S2P Require Import Prelude Records CanonicalJson Store Work Processes WorkLife Actions.
From S2P Require Import Budget Runtime Registry Hierarchy Ledger Dispatch Authority Outputs.
From S2P Require Import Validator Services.

(** ** Records the scheduler looks inside

    [AnalysisRunInput] of [contracts/analysis.py], and what the repair rule
    reads of a [DynamicReproductionResult] of [contracts/dynamic.py]. *)

Record AnalysisRunInput := mkRunInput {
  ri_meta : RunMeta;
  ri_repository_ref : string;
  ri_requested_git_ref : string;
  ri_program_id : string;
  ri_purpose : Purpose;
  ri_workspace_id : option string;
  ri_commit_id : option string;
  ri_production_profile_ref : option RunStoredDataRef;
  ri_production_onboarding_ref : option RunStoredDataRef;
  ri_production_authority_catalog_ref : option RunStoredDataRef;
}.

Record DynamicOutcome := mkDynamicOutcome {
  do_status : string;
  do_failure_category : string;
  do_failure_reason : option string;
  do_action_decision_ref : option StoredDataRef;
  do_agent_invoked : bool;
  do_environment_ref : option StoredDataRef;
  do_poc_candidate_ref : option StoredDataRef;
  do_poc_ref : option StoredDataRef;
  do_hypothesis_outcome : string;
}.

(** The two classes among the [RecOther] records: [isinstance] and the fields. *)
Class EvidenceRecords := {
  run_input : Rec -> option AnalysisRunInput;
  dynamic_outcome : Rec -> option DynamicOutcome;
}.

(** [WorkContext] of [ports/dto.py] *)
Record WorkContext := mkContext {
  cx_work : WorkExecutionState;
  cx_attempt : WorkAttempt;
}.

(** The ids and clock readings of one claim or one resumption: a stream for
    each record it builds and for each service it calls. *)
Record SchedTick := mkSchedTick {
  sk : nat -> Tick;
  sk_auth : AuthTick;
}.

(** ** Values *)

(** [_resume_reason_is_resolvable]: [allowed_waiting.get(reason) == waiting_for]. *)
Definition allowed_waiting (reason : string) : option (list WaitingFor) :=
  assoc reason [("WAITING_FOR_INPUT", [W_INPUT]); ("LEASE_EXPIRED", [W_RETRY]);
                ("WORK_HANDLER_FAILED", [W_RETRY])].

Definition _resume_reason_is_resolvable (purpose : Purpose) (work : WorkExecutionState) : bool :=
  eqb (allowed_waiting (default "" (w_stop_reason work))) (Some (w_waiting_for work))
  || (eqb purpose LOCAL_EVALUATION && eqb (w_work_type work) DYNAMIC_REPRO
      && eqb (w_stop_reason work) (Some "WORK_HANDLER_FAILED")
      && eqb (w_waiting_for work) [W_INPUT]).

(** The reasons of the failed checks, joined. *)
Definition denial_reasons (d : ActionDecision) : string :=
  String.concat "; "
    (map k_reason_code (filter (fun c => k_result c = FAIL) (d_check_results d))).

Definition require_allowed (d : ActionDecision) : result unit :=
  raise_if neqb (d_decision d) ALLOW with ("ACTION_DENIED: " +:+ denial_reasons d) ;; Ok tt.

(** The messages [try_claim_ready] answers with [None]. *)
Definition budget_refusal (message : string) : bool :=
  String.prefix "BUDGET_EXCEEDED" message || String.prefix "BUDGET unavailable" message.

Section scheduler.
Context `{Codec} `{TrustedEvidence} `{Host} `{StageRules} `{EvidenceRecords}.

(** ** The records of a claim and of a resumption *)

(** The action of [_start_action] and [_resume_action]. *)
Definition control_action (tick : Tick) (work : WorkExecutionState) (registration : ActionRequest)
  (kind : ActionType) (attempt : option string) (reason : string) : result ActionRequest :=
  let! meta := fresh_meta (w_meta work) "action_request" (fresh tick 0) (clock tick 0) attempt in
  let! work_ref := reference (RecWork work) in
  let! work_scope := as_scope work_ref in
  validate_action
    (mkAction meta (fresh tick 1) (q_requested_by registration)
       (q_requester_identity_ref registration) kind (Some work_scope)
       (Some (w_state_version work)) None None [] (w_input_refs work) None None None None None None
       [] None None None None None None [] None reason (clock tick 1)).

Definition _start_action (tick : Tick) (work : WorkExecutionState) (registration : ActionRequest)
  : result ActionRequest :=
  control_action tick work registration START_ATTEMPT (rm_attempt_id (w_meta work))
    "Claim exact READY work".

Definition _resume_action (tick : Tick) (work : WorkExecutionState) (registration : ActionRequest)
  : result ActionRequest :=
  control_action tick work registration CHANGE_WORK_STATE None "Resume exact local repair work".

Definition _start_transition (tick : Tick) (work : WorkExecutionState) (decision : ActionDecision)
  (attempt_id : string) : result StateTransition :=
  let! meta := fresh_meta (w_meta work) "state_transition" (fresh tick 0) (clock tick 0)
                 (Some attempt_id) in
  let! ref := reference (RecDecision decision) in
  let! decision_ref := as_scope ref in
  let! dedupe_key := content_hash []
      (VSequence [id_value (w_work_id work); VInt (w_state_version work); VStr "RUNNING";
                  id_value attempt_id]) in
  validate_transition
    (mkTransition meta (fresh tick 1) (w_work_id work) decision_ref READY T_RUNNING
       (w_state_version work) (w_state_version work + 1) (Some attempt_id) "STARTED" [] [] []
       dedupe_key (clock tick 1)).

Definition _resume_transition (tick : Tick) (work : WorkExecutionState) (decision : ActionDecision)
  : result StateTransition :=
  let! meta := fresh_meta (w_meta work) "state_transition" (fresh tick 0) (clock tick 0) None in
  let! ref := reference (RecDecision decision) in
  let! decision_ref := as_scope ref in
  let! dedupe_key := content_hash []
      (VSequence [id_value (w_work_id work); VInt (w_state_version work); VStr "USER_RESUME"]) in
  validate_transition
    (mkTransition meta (fresh tick 1) (w_work_id work) decision_ref (w_status work) T_READY
       (w_state_version work) (w_state_version work + 1) None "USER_RESUME" [] [] []
       dedupe_key (clock tick 1)).

(** The reservation of [try_claim_ready] and of [_require_resume_capacity]: a
    retry unit, or nothing. *)
Definition retry_reservation (tick : Tick) (work : WorkExecutionState) (scope : BudgetScopeRef)
  (action : ActionRequest) (retries : Z) (currency : string) (attempt : option string) (now : Z)
  : result BudgetReservation :=
  let! ref := reference (RecAction action) in
  let! action_ref := as_scope ref in
  let! ref := reference (RecWork work) in
  let! work_ref := as_scope ref in
  let! meta := fresh_meta (w_meta work) "budget_reservation" (fresh tick 0) (clock tick 0)
                 attempt in
  validate_reservation
    (mkReservation meta (fresh tick 1) scope action_ref work_ref (mkUnits 0 0 0 retries 0 currency)
       R_RESERVED None now None).

(** The RUNNING attempt of a claim. *)
Definition new_attempt (tick : Tick) (work : WorkExecutionState) (attempt_id : string) (number : Z)
  (trigger : AttemptTrigger) (now : Z) : result WorkAttempt :=
  let! meta := fresh_meta (w_meta work) "work_attempt" (fresh tick 0) (clock tick 0)
                 (Some attempt_id) in
  validate_attempt
    (mkAttempt meta (w_work_id work) attempt_id number trigger (w_input_hash work) A_RUNNING
       [] [] [] now None 0).

(** The ledger entry that debits exactly what the claim reserved. *)
Definition claim_entry (tick : Tick) (work : WorkExecutionState) (reservation : BudgetReservation)
  (scope : BudgetScopeRef) (action : ActionRequest) (sequence : Z) : result BudgetLedgerEntry :=
  let! meta := fresh_meta (w_meta work) "budget_ledger_entry" (fresh tick 0) (clock tick 0)
                 (rm_attempt_id (w_meta work)) in
  let! ref := reference (RecReservation reservation) in
  let! reservation_ref := as_scope ref in
  let! ref := reference (RecAction action) in
  let! action_ref := as_scope ref in
  let! ref := reference (RecWork work) in
  let! work_ref := as_scope ref in
  validate_ledger_entry
    (mkLedgerEntry meta (fresh tick 1) reservation_ref scope action_ref work_ref
       (r_requested_units reservation) [] sequence (clock tick 1)).

(** ** The registration of a work *)

(** One iteration of the loop of [_registration_context]. *)
Definition registration_match (db : Db) (work : WorkExecutionState)
  (matches : list (BudgetScopeRef * ActionRequest)) (row : ReservationRow)
  : result (list (BudgetScopeRef * ActionRequest)) :=
  let reservation := rr_payload row in
  let! candidate := resolve_db db (r_work_ref reservation) true in
  let! action := resolve_db db (r_action_ref reservation) false in
  match candidate, action with
  | RecWork candidate, RecAction action =>
      let direct := eqb (w_work_id candidate) (w_work_id work)
                    && eqb (q_action_type action) REGISTER_WORK in
      let handoff :=
        eqb (w_work_type work) DYNAMIC_REPRO
        && eqb (w_parent_work_ref work) (Some (r_work_ref reservation))
        && eqb (q_action_type action) REQUEST_DYNAMIC_REPRO
        && eqb (q_work_ref action) (Some (r_work_ref reservation))
        && match q_dynamic_request_ref action with
           | Some ref => eqb (w_input_refs work) [RStored ref]
           | None => false
           end
        && (u_work_count (r_requested_units reservation) =? 1) in
      Ok (if direct || handoff then matches ++ [(r_budget_binding_ref reservation, action)]
          else matches)
  | _, _ => Ok matches
  end.

Definition _registration_context (db : Db) (work : WorkExecutionState)
  : result (BudgetScopeRef * ActionRequest) :=
  let! matches := fold_result (registration_match db work) []
      (filter (fun row => rr_analysis_id row = rm_analysis_id (w_meta work))
         (budget_reservations db)) in
  match matches with
  | [found] => Ok found
  | _ => Err (ValueError "WORK_REGISTRATION_SCOPE_MISSING")
  end.

(** ** Claiming a READY work *)

(** The rows of [try_claim_ready]: the READY work at the version the scheduler
    saw, without a worker, and current. *)
Definition claimable_work (db : Db) (analysis_id work_id : string) (version : Z)
  : result (option WorkExecutionState) :=
  match work_states db !! work_id with
  | None => Ok None
  | Some row =>
      let work := wr_payload row in
      if neqb (rm_analysis_id (w_meta work)) analysis_id || neqb (w_status work) READY
         || neqb (w_state_version work) version || neqb (w_work_id work) work_id
         || is_some (w_active_attempt_id work) || is_some (wr_worker_id row)
         || is_some (wr_lease_expires_at row)
      then Ok None
      else
        match current_records db !! logical_record_id (w_meta work) with
        | None => Err NoResultFound
        | Some (id, current) =>
            Ok (if neqb id (record_id (w_meta work)) || neqb current (w_state_version work)
                then None else Some work)
        end
  end.

(** Why the claimed attempt runs: RESUME when the work was reopened from BLOCKED. *)
Definition claim_trigger (db : Db) (work : WorkExecutionState) (prior : option WorkAttempt)
  : result AttemptTrigger :=
  let first := if is_none prior then INITIAL else RETRY in
  match w_last_transition_ref work with
  | None => Ok first
  | Some ref =>
      let! last := resolve_db db ref false in
      match last with
      | RecTransition t =>
          raise_if neqb (t_work_id t) (w_work_id work) || neqb (t_to_status t) T_READY
                   || neqb (t_new_state_version t) (w_state_version work)
            with "WORK_LAST_TRANSITION_INVALID" ;;
          Ok (if eqb (t_from_status t) BLOCKED then RESUME else first)
      | _ => Err (ValueError "WORK_LAST_TRANSITION_INVALID")
      end
  end.

(** The number of the next attempt. *)
Definition next_number (prior : option WorkAttempt) : Z :=
  match prior with None => 1 | Some a => a_attempt_number a + 1 end.

(** The body of the savepoint: reserve, authorize, start and debit. *)
Definition claim_body (rt : Rt) (tick : SchedTick) (work : WorkExecutionState)
  (scope : BudgetScopeRef) (action : ActionRequest) (reservation : BudgetReservation)
  (attempt_id : string) (number : Z) (trigger : AttemptTrigger) (now : Z) (worker_id : string)
  (lease_expires_at : Z) : result (WorkContext * Rt) :=
  let! (_, db) := stage_db (rt_db rt) (RecAction action) in
  let! (reservation, db) := reserve db reservation in
  let! reservation_ref := reference (RecReservation reservation) in
  let! (decision, rt) :=
    authorize (set_db rt db) (sk_auth tick) action (Some work) (Some reservation_ref) in
  do! require_allowed decision ;;
  let! transition := _start_transition (sk tick 3%nat) work decision attempt_id in
  let! attempt := new_attempt (sk tick 4%nat) work attempt_id number trigger now in
  let! (claimed, rt) :=
    start rt (sk tick 5%nat) transition attempt reservation_ref worker_id lease_expires_at in
  let! remaining := available (rt_db rt) scope (rm_analysis_id (w_meta work)) None in
  let! entry :=
    claim_entry (sk tick 6%nat) work reservation scope action (m_as_of_sequence remaining + 1) in
  let! (_, db) := commit_usage (rt_db rt) entry (fresh (sk tick 7%nat) 0) (clock (sk tick 7%nat) 0)
                    (clock (sk tick 7%nat) 1) in
  Ok (mkContext claimed attempt, set_db rt db).

(** [WorkDispatchStore.try_claim_ready] *)
Definition try_claim_ready (rt : Rt) (tick : SchedTick) (analysis_id work_id : string)
  (version : Z) (worker_id : string) (lease_expires_at : Z) : result (option WorkContext * Rt) :=
  raise_if eqb analysis_id "" || eqb work_id "" || (version <? 1) || eqb worker_id ""
           || (lease_expires_at <=? clock (sk tick 0%nat) 0)
    with "SCHEDULER_CLAIM_INVALID" ;;
  raise_if recovery_failed with "RECOVERY_FAILED" ;;
  let db := rt_db rt in
  if cancel_latched db analysis_id then Ok (None, rt)
  else
    let! run := get_run db analysis_id in
    if neqb (s_status run) RUN_RUNNING then Ok (None, rt)
    else
      let! found := claimable_work db analysis_id work_id version in
      match found with
      | None => Ok (None, rt)
      | Some work =>
          let! (scope, registration) := _registration_context db work in
          let! profile := execution db scope analysis_id in
          if max_parallel_work profile <=? Z.of_nat (running db analysis_id) then Ok (None, rt)
          else
            let! remaining := available db scope analysis_id None in
            let prior := latest_attempt db work_id in
            if exhausted (m_available_units remaining)
                 [u_elapsed_ms; u_cost_minor_units; u_llm_call_count; u_work_count]
               || match prior with Some a => eqb (a_status a) A_RUNNING | None => false end
            then Ok (None, rt)
            else
              let! trigger := claim_trigger db work prior in
              let now := clock (sk tick 0%nat) 1 in
              let! action := _start_action (sk tick 1%nat) work registration in
              let! reservation :=
                retry_reservation (sk tick 2%nat) work scope action
                  (if is_none prior then 0 else 1) (ep_currency profile)
                  (rm_attempt_id (w_meta work)) now in
              match claim_body rt tick work scope action reservation (fresh (sk tick 0%nat) 0)
                      (next_number prior) trigger now worker_id lease_expires_at with
              | Ok (context, rt') => Ok (Some context, rt')
              | Err (ValueError message) =>
                  if budget_refusal message then Ok (None, rt) else Err (ValueError message)
              | Err e => Err e
              end
      end.

(** ** Renewing a lease *)

(** [current_attempt.model_copy(update=...)] *)
Definition renewed_attempt (a : WorkAttempt) (meta : RunMeta) (elapsed_ms : Z) : WorkAttempt :=
  mkAttempt meta (a_work_id a) (a_attempt_id a) (a_attempt_number a) (a_trigger a)
    (a_input_hash a) (a_status a) (a_output_refs a) (a_gap_ids a) (a_error_ids a)
    (a_started_at a) (a_finished_at a) elapsed_ms.

(** The lease is the worker's and has not run out. *)
Definition lease_active (row : WorkRow) (worker_id : string) (now : Z) : bool :=
  eqb (wr_worker_id row) (Some worker_id)
  && match wr_lease_expires_at row with Some expiry => now <? expiry | None => false end.

(** [WorkDispatchStore.renew_lease]; both updates match the rows just read. *)
Definition renew_lease (rt : Rt) (tick : Tick) (context : WorkContext) (worker_id : string)
  (lease_expires_at elapsed_ms : Z) : result (WorkContext * Rt) :=
  raise_if eqb worker_id "" || (lease_expires_at <=? clock tick 0)
           || (elapsed_ms <? a_elapsed_ms (cx_attempt context))
    with "LEASE_RENEWAL_INVALID" ;;
  let db := rt_db rt in
  do! reject_cancelled db (rm_analysis_id (w_meta (cx_work context))) ;;
  match work_states db !! w_work_id (cx_work context),
        work_attempts db !! a_attempt_id (cx_attempt context) with
  | Some row, Some attempt =>
      raise_if neqb (wr_payload row) (cx_work context) || neqb attempt (cx_attempt context)
               || neqb (w_status (wr_payload row)) RUNNING
               || neqb (w_active_attempt_id (wr_payload row)) (Some (a_attempt_id attempt))
               || negb (lease_active row worker_id (clock tick 1))
        with "LEASE_NOT_ACTIVE" ;;
      let! meta := next_meta (a_meta attempt) (fresh tick 0) (clock tick 2) in
      let renewed := renewed_attempt attempt meta elapsed_ms in
      let! (_, db) := stage_publish db (RecAttempt renewed) in
      let db := set_attempts db (<[a_attempt_id attempt := renewed]> (work_attempts db)) in
      Ok (mkContext (wr_payload row) renewed,
          set_db rt (set_lease db (w_work_id (wr_payload row)) worker_id lease_expires_at))
  | _, _ => Err NoResultFound
  end.

(** ** Reopening a blocked cohort *)

Definition Candidate : Type := WorkExecutionState * WorkAttempt.

(** The rows of the run. *)
Definition run_rows (db : Db) (analysis_id : string) : list WorkRow :=
  filter (fun row => rm_analysis_id (w_meta (wr_payload row)) = analysis_id) (rows_of db).

Definition with_status (status : WorkStatus) (row : WorkRow) : bool :=
  eqb (w_status (wr_payload row)) status.
Definition is_dynamic (row : WorkRow) : bool := eqb (w_work_type (wr_payload row)) DYNAMIC_REPRO.

(** [resumable_blocked_ids], [repairable_failed_ids] and
    [repairable_dynamic_blocked_ids] *)
Definition resumable_blocked (row : WorkRow) : bool :=
  with_status BLOCKED row && neqb (w_waiting_for (wr_payload row)) [W_DEPENDENCY].
Definition repairable_failed (purpose : Purpose) (row : WorkRow) : bool :=
  eqb purpose LOCAL_EVALUATION && with_status FAILED row && is_dynamic row.
Definition repairable_dynamic_blocked (row : WorkRow) : bool :=
  resumable_blocked row && is_dynamic row.

Definition ids_where (p : WorkRow -> bool) (rows : list WorkRow) : list string :=
  map (fun row => w_work_id (wr_payload row)) (filter (fun row => p row = true) rows).

Definition same_ids (l l' : list string) : bool :=
  forallb (fun x => mem x l') l && forallb (fun x => mem x l) l'.

Definition resumable_ids (purpose : Purpose) (rows : list WorkRow) : list string :=
  ids_where (fun row => resumable_blocked row || repairable_failed purpose row) rows.

(** [preferred_local_repair_ids] *)
Definition repair_ids (purpose : Purpose) (rows : list WorkRow) : list string :=
  let failed := ids_where (repairable_failed purpose) rows in
  if nonempty failed then failed else ids_where repairable_dynamic_blocked rows.

Definition local_dynamic_repair (purpose : Purpose) (rows : list WorkRow) (cohort : list string)
  : bool :=
  nonempty (repair_ids purpose rows) && same_ids cohort (repair_ids purpose rows).

(** [replay] *)
Definition is_replay (purpose : Purpose) (rows : list WorkRow) (cohort : list string) : bool :=
  negb (nonempty (resumable_ids purpose rows)) && same_ids (ids_where (with_status READY) rows) cohort.

(** A row that keeps the run from being quiescent. *)
Definition busy_row (replay : bool) (row : WorkRow) : bool :=
  mem (w_status (wr_payload row)) [PENDING; RUNNING]
  || (with_status READY row && negb replay)
  || is_some (w_active_attempt_id (wr_payload row)) || is_some (wr_worker_id row)
  || is_some (wr_lease_expires_at row).

(** An open journal entry, a running attempt or an external request without an
    outcome, of one of the works. *)
Definition busy_tables (db : Db) (ids : list string) : bool :=
  existsb (fun kv => mem (c_work_id (cr_payload kv.2)) ids && eqb (c_state (cr_payload kv.2)) PREPARED)
    (map_to_list (transition_commits db))
  || existsb (fun kv => mem (a_work_id kv.2) ids && eqb (a_status kv.2) A_RUNNING)
       (map_to_list (work_attempts db))
  || existsb (fun x => mem (x_work_id x) ids && is_none (x_returned_at x)
                       && is_none (x_reconciled_at x))
       (external_dispatches db).

(** The checks of [resume_blocked] on the whole cohort; the answer is [replay]. *)
Definition check_cohort (db : Db) (run : AnalysisRunState) (analysis_id : string)
  (cohort : list string) : result bool :=
  let rows := run_rows db analysis_id in
  let replay := is_replay (s_purpose run) rows cohort in
  raise_if negb replay && negb (local_dynamic_repair (s_purpose run) rows cohort)
           && negb (same_ids (resumable_ids (s_purpose run) rows) cohort)
    with "RESUME_COHORT_MISMATCH" ;;
  raise_if existsb (busy_row replay) rows
           || busy_tables db (map (fun row => w_work_id (wr_payload row)) rows)
    with "RUN_NOT_QUIESCENT" ;;
  Ok replay.

(** The run the cohort belongs to, at the state the caller saw. *)
Definition check_run (db : Db) (analysis_id : string) (expected : RunStoredDataRef)
  : result AnalysisRunState :=
  do! reject_cancelled db analysis_id ;;
  let! run := get_run db analysis_id in
  let! ref := reference (RecRunState run) in
  raise_if neqb ref (RRun expected) with "RESUME_RUN_STATE_CHANGED" ;;
  raise_if neqb (s_status run) RUN_RUNNING with "RUN_NOT_RESUMABLE" ;;
  do! check_current_input db ref false [WORKSPACE_READY] ;;
  let! input := resolve_db db (RRun (s_analysis_input_ref run)) false in
  raise_if match run_input input with
           | Some input =>
               neqb (rm_analysis_id (ri_meta input)) (rm_analysis_id (s_meta run))
               || neqb (ri_program_id input) (s_program_id run)
               || neqb (ri_purpose input) (s_purpose run)
           | None => true
           end
    with "RESUME_INPUT_CHANGED" ;;
  Ok run.

(** The first revision of a work:
    [record_revisions JOIN records WHERE revision_number == 1]. *)
Definition initial_work (db : Db) (work : WorkExecutionState) : result Rec :=
  let! found := one (filter (fun kv =>
      row_logical kv.2 = logical_record_id (w_meta work) /\ row_revision kv.2 = 1
      /\ is_some (record_revisions (db_store db) !! kv.1) = true)
    (map_to_list (Store.records (db_store db)))) in
  resolve_db db (row_ref found.2) false.

(** The fields of a work its revisions keep. *)
Definition work_identity (w : WorkExecutionState) :=
  (w_work_id w, w_work_type w, w_subject_type w, w_subject_id w, w_work_generation w,
   w_input_hash w, w_input_refs w, w_parent_work_ref w, w_trigger_primitive_ref w,
   w_dedupe_key w).

(** The current work and latest attempt of a candidate, with the checks of
    [resume_blocked] that come before its capacity. *)
Definition current_candidate (db : Db) (run : AnalysisRunState) (analysis_id : string)
  (supplied : WorkExecutionState) : result (WorkRow * WorkAttempt) :=
  match work_states db !! w_work_id supplied with
  | None => Err NoResultFound
  | Some row =>
      let work := wr_payload row in
      if neqb (rm_analysis_id (w_meta work)) analysis_id then Err NoResultFound
      else
        match latest_attempt db (w_work_id work) with
        | None => Err (ValueError "RESUME_ATTEMPT_HISTORY_REQUIRED")
        | Some previous =>
            let! work_ref := reference (RecWork work) in
            do! check_current_input db work_ref false [WORKSPACE_READY] ;;
            let! attempt_ref := reference (RecAttempt previous) in
            let! _ := resolve_db db attempt_ref false in
            do! validate_attempt_context previous work None ;;
            let! initial := initial_work db work in
            raise_if match initial with
                     | RecWork w => neqb (work_identity w) (work_identity work)
                     | _ => true
                     end
              with "RESUME_INPUT_CHANGED" ;;
            raise_if is_RecordMeta (w_meta work)
                     && (neqb (rm_workspace_id (w_meta work)) (s_workspace_id run)
                         || neqb (rm_commit_id (w_meta work)) (s_commit_id run))
              with "RESUME_SCOPE_MISMATCH" ;;
            do! (if is_some (rm_hypothesis_id (w_meta work)) then
                   let! process := current_process db work in
                   raise_if neqb (h_verification_generation process) (w_work_generation work)
                     with "RESUME_GENERATION_CHANGED" ;;
                   Ok tt
                 else Ok tt) ;;
            Ok (row, previous)
        end
  end.

(** [_require_resume_capacity] *)
Definition _require_resume_capacity (db : Db) (tick : SchedTick) (work : WorkExecutionState)
  (previous : WorkAttempt) (scope : BudgetScopeRef) (registration : ActionRequest) : result unit :=
  let! profile := execution db scope (rm_analysis_id (w_meta work)) in
  let! action := _start_action (sk tick 0%nat) work registration in
  let! reservation :=
    retry_reservation (sk tick 1%nat) work scope action 1 (ep_currency profile) None
      (clock (sk tick 1%nat) 1) in
  raise_if a_attempt_number previous <? 1 with "RESUME_ATTEMPT_HISTORY_REQUIRED" ;;
  validate_operation db reservation work action.

(** [_require_local_failed_dynamic_repair] *)
Definition repairable_outcome (o : DynamicOutcome) : bool :=
  let pre_boundary :=
    eqb (do_failure_category o) "INTERNAL"
    || (eqb (do_failure_category o) "ENVIRONMENT_SETUP"
        && match do_failure_reason o with
           | Some r => mem r ["SANDBOX_OWNERSHIP_INTENT_REQUIRED";
                              "REUSABLE_BASELINE_OWNERSHIP_REQUIRED"]
           | None => false
           end) in
  eqb (do_status o) "FAILED" && pre_boundary
  && negb (eqb (do_failure_category o) "INTERNAL" && is_some (do_action_decision_ref o))
  && negb (do_agent_invoked o) && is_none (do_environment_ref o)
  && is_none (do_poc_candidate_ref o) && is_none (do_poc_ref o)
  && eqb (do_hypothesis_outcome o) "INCONCLUSIVE".

Definition _require_local_failed_dynamic_repair (db : Db) (purpose : Purpose)
  (work : WorkExecutionState) (previous : WorkAttempt) : result unit :=
  raise_if neqb purpose LOCAL_EVALUATION || neqb (w_work_type work) DYNAMIC_REPRO
           || neqb (w_stop_reason work) (Some "FAILED") || nonempty (w_waiting_for work)
           || neqb (a_status previous) A_FAILED
    with "FAILED_WORK_NOT_REPAIRABLE" ;;
  match w_output_refs work with
  | [ref] =>
      let! result := resolve_db db ref false in
      raise_if negb (match dynamic_outcome result with
                     | Some o => repairable_outcome o
                     | None => false
                     end)
        with "FAILED_WORK_NOT_REPAIRABLE" ;;
      Ok tt
  | _ => Err (ValueError "FAILED_WORK_NOT_REPAIRABLE")
  end.

(** The replay of a candidate: its current revision is the one its own
    resumption wrote over the supplied one. *)
Definition check_replay (db : Db) (work : WorkExecutionState) (previous : WorkAttempt)
  (candidate : Candidate) : result unit :=
  let (supplied, attempt) := candidate in
  match w_last_transition_ref work with
  | None => Err (ValueError "RESUME_CANDIDATE_NOT_CURRENT")
  | Some ref =>
      let! transition := resolve_db db ref false in
      raise_if match transition with
               | RecTransition t =>
                   neqb (t_cause t) "USER_RESUME"
                   || negb (mem (t_from_status t) [BLOCKED; FAILED])
                   || neqb (t_expected_state_version t) (w_state_version supplied)
                   || neqb (previous_record_id (w_meta work)) (Some (record_id (w_meta supplied)))
               | _ => true
               end
        with "RESUME_CANDIDATE_NOT_CURRENT" ;;
      let! supplied_ref := reference (RecWork supplied) in
      let! stored := resolve_db db supplied_ref false in
      raise_if neqb stored (RecWork supplied) || neqb previous attempt
        with "RESUME_CANDIDATE_NOT_CURRENT" ;;
      Ok tt
  end.

(** A candidate that is to be reopened. *)
Definition check_blocked (db : Db) (purpose : Purpose) (row : WorkRow) (previous : WorkAttempt)
  (candidate : Candidate) : result unit :=
  let work := wr_payload row in
  let (supplied, attempt) := candidate in
  raise_if neqb work supplied || neqb previous attempt
           || negb (mem (w_status work) [BLOCKED; FAILED])
           || is_some (w_active_attempt_id work) || is_some (wr_worker_id row)
           || is_some (wr_lease_expires_at row) || eqb (a_status previous) A_RUNNING
           || neqb (a_work_id previous) (w_work_id work)
           || neqb (a_input_hash previous) (w_input_hash work)
    with "RESUME_CANDIDATE_NOT_CURRENT" ;;
  do! (if eqb (w_status work) FAILED
       then _require_local_failed_dynamic_repair db purpose work previous
       else raise_if negb (_resume_reason_is_resolvable purpose work)
              with "RESUME_REASON_NOT_RESOLVABLE" ;; Ok tt) ;;
  reject_uncertain db (w_work_id work).

(** One iteration of the validation loop: [demand] retries are already asked
    for, [found] holds the replayed works or the works to reopen. *)
Definition validate_candidate (run : AnalysisRunState) (analysis_id : string) (replay : bool)
  (tick : string -> SchedTick)
  (state : Rt * Z * list (WorkExecutionState * option ActionDecision)) (candidate : Candidate)
  : result (Rt * Z * list (WorkExecutionState * option ActionDecision)) :=
  let '(rt, demand, found) := state in
  let db := rt_db rt in
  let tick := tick (w_work_id (fst candidate)) in
  let! (row, previous) := current_candidate db run analysis_id (fst candidate) in
  let work := wr_payload row in
  let! (scope, registration) := _registration_context db work in
  do! _require_resume_capacity db tick work previous scope registration ;;
  let! remaining := available db scope analysis_id None in
  raise_if u_retry_count (m_available_units remaining) <? demand + 1
    with "BUDGET_EXCEEDED: resume cohort retries" ;;
  if replay then
    do! check_replay db work previous candidate ;;
    Ok (rt, demand + 1, found ++ [(work, None)])
  else
    do! check_blocked db (s_purpose run) row previous candidate ;;
    let! action := _resume_action (sk tick 2%nat) work registration in
    let! (decision, rt) := authorize rt (sk_auth tick) action (Some work) None in
    do! require_allowed decision ;;
    Ok (rt, demand + 1, found ++ [(work, Some decision)]).

(** One iteration of the loop that reopens. *)
Definition reopen (tick : string -> SchedTick) (state : Rt * list WorkExecutionState)
  (validated : WorkExecutionState * option ActionDecision)
  : result (Rt * list WorkExecutionState) :=
  let '(rt, resumed) := state in
  match validated with
  | (work, Some decision) =>
      let tick := tick (w_work_id work) in
      let! transition := _resume_transition (sk tick 3%nat) work decision in
      let! decision_ref := reference (RecDecision decision) in
      let! (_, rt) :=
        claim rt (claim_tick (sk tick 4%nat)) decision_ref CHANGE_WORK_STATE work None false in
      let! (ref, db) := stage_publish (rt_db rt) (RecTransition transition) in
      let! transition_ref := as_scope ref in
      let! meta := next_meta (w_meta work) (fresh (sk tick 5%nat) 0) (clock (sk tick 5%nat) 0) in
      let! ready := validate_work (resumed_work work meta transition transition_ref) in
      let! db := save db (sk tick 6%nat) work ready in
      Ok (set_db rt db, resumed ++ [ready])
  | (_, None) => Err AssertionError
  end.

(** [WorkDispatchStore.resume_blocked] *)
Definition resume_blocked (rt : Rt) (tick : string -> SchedTick) (candidates : list Candidate)
  (expected_run_state_ref : RunStoredDataRef) : result (list WorkExecutionState * Rt) :=
  match candidates with
  | [] => Err (ValueError "RESUME_CANDIDATES_REQUIRED")
  | (first, _) :: _ =>
      let analysis_id := rm_analysis_id (w_meta first) in
      let ids := map (fun c => w_work_id (fst c)) candidates in
      raise_if existsb (fun c => neqb (rm_analysis_id (w_meta (fst c))) analysis_id) candidates
               || has_duplicates ids
        with "RESUME_SCOPE_MISMATCH" ;;
      let db := rt_db rt in
      let! run := check_run db analysis_id expected_run_state_ref in
      let! replay := check_cohort db run analysis_id ids in
      let! (rt, _, found) :=
        fold_result (validate_candidate run analysis_id replay tick) (rt, 0, []) candidates in
      if replay then Ok (map fst found, rt)
      else
        let! (rt, resumed) := fold_result (reopen tick) (rt, []) found in
        Ok (resumed, rt)
  end.
End scheduler.

(** ** What a renewal did when it returned *)

Section laws.
Context `{CodecLaws} `{TrustedEvidence} `{Host} `{StageRules} `{EvidenceRecords}.

(** The row of a work under a new lease. *)
Definition relet (row : WorkRow) (worker_id : string) (expires : Z) : WorkRow :=
  mkWorkRow (wr_registration_key row) (wr_payload row) (Some worker_id) (Some expires).

Lemma renew_lease_Ok rt tick c worker expires elapsed c' rt' :
  renew_lease rt tick c worker expires elapsed = Ok (c', rt') ->
  exists row meta ref db,
    clock tick 0 < expires /\ a_elapsed_ms (cx_attempt c) <= elapsed
    /\ cancel_latched (rt_db rt) (rm_analysis_id (w_meta (cx_work c))) = false
    /\ work_states (rt_db rt) !! w_work_id (cx_work c) = Some row
    /\ work_attempts (rt_db rt) !! a_attempt_id (cx_attempt c) = Some (cx_attempt c)
    /\ wr_payload row = cx_work c /\ w_status (cx_work c) = RUNNING
    /\ w_active_attempt_id (cx_work c) = Some (a_attempt_id (cx_attempt c))
    /\ lease_active row worker (clock tick 1) = true
    /\ next_meta (a_meta (cx_attempt c)) (fresh tick 0) (clock tick 2) = Ok meta
    /\ let renewed := renewed_attempt (cx_attempt c) meta elapsed in
       stage_publish (rt_db rt) (RecAttempt renewed) = Ok (ref, db)
       /\ c' = mkContext (cx_work c) renewed
       /\ rt' = set_db rt (set_lease (set_attempts db
                  (<[a_attempt_id (cx_attempt c) := renewed]> (work_attempts db)))
                  (w_work_id (cx_work c)) worker expires).
Proof.
  unfold renew_lease. intros Hr. apply raise_if_Ok in Hr. destruct Hr as [Hin Hr].
  call Hr as [] Hc. apply raise_if_Ok in Hc. destruct Hc as [Hc _].
  destruct (work_states _ !! _) as [row |] eqn:Hrow; [| discriminate].
  destruct (work_attempts _ !! _) as [a |] eqn:Ha; [| discriminate].
  apply raise_if_Ok in Hr. destruct Hr as [Hact Hr]. boolify.
  destruct Hin as [[_ Hexp] Hel], Hact as [[[[Hpay Hatt] Hst] Hid] Hlease]. subst a.
  rewrite Hpay in *. call Hr as meta Hm. call Hr as [ref db] Hs. injection Hr as <- <-.
  exists row, meta, ref, db.
  repeat (split; [assumption || reflexivity |]). reflexivity.
Qed.
End laws.
