(* ===== verification/History.v ===== *)
(** * Histories of the runtime

    The modelled services as one step relation on the tables of a run, the
    invariant that types the tables, and what every history of their transactions
    keeps: works follow their life cycle, the run's parallelism and cancellation
    are respected, and an action is decided and claimed once. The writers of
    these tables that are not steps are named at [runtime_step]. *)
From S2P Require Import Prelude Records CanonicalJson Store Work Processes WorkLife Actions.
From S2P Require Import Budget Runtime Registry Hierarchy Ledger Dispatch Authority Outputs Validator.
From S2P Require Import Services Scheduler.

Section history.
Context `{CodecLaws} `{TrustedEvidence} `{Host} `{StageRules}.
Implicit Types (db : Db) (rt : Rt) (w p : WorkExecutionState).

(** ** Steps *)

(** The attempt a finished or parked work ends: the same attempt of the same
    work, no longer running. *)
Definition attempt_ended p (before after : gmap string WorkAttempt) : Prop :=
  after = before
  \/ exists id a a', w_active_attempt_id p = Some id /\ before !! id = Some a
       /\ a_attempt_id a' = id /\ a_work_id a' = a_work_id a
       /\ a_attempt_number a' = a_attempt_number a /\ validate_attempt a' = Ok a'
       /\ after = <[id := a']> before.

(** One transaction of the runtime. [rt_publish] is the publication of a work
    by the services that end, park or resume it: each computes a life-cycle
    step of the stored work, not to RUNNING, and saves it with [save], keeping
    or clearing its lease. [rt_claim] is a claim that is part of a longer
    transaction, [rt_renew] the renewal of a lease.
    [rt_other] stands for the transactions that leave works, attempts and the
    validator's tables alone: records, run states, budgets (commits restricted
    to [P]), dispatch marks and cancellation requests.
    Four writers of the same tables are not steps, so no history here contains
    their transactions: [DynamicRegistrationService]
    ([storage/dynamic_registration.py]), the registrations of
    [storage/chaining_registration.py] and
    [storage/chaining_child_registration.py], and the direct use of a decision in
    [storage/analysis_finalization.py]. The first three insert works, and make
    them READY, without the check of the cancellation latch that [register],
    [make_ready] and the premise of [rt_publish] have; the last two also keep
    keys and decisions by rules of their own. *)
Inductive runtime_step (P : Db -> BudgetLedgerEntry -> Prop) rt rt' : Prop :=
| rt_authorize tick q work res d :
    authorize rt tick q work res = Ok (d, rt') -> runtime_step P rt rt'
| rt_register tick w dref res w' :
    register rt tick w dref res = Ok (w', rt') -> runtime_step P rt rt'
| rt_make_ready tick t w : make_ready rt tick t = Ok (w, rt') -> runtime_step P rt rt'
| rt_start tick t a res worker lease w :
    start rt tick t a res worker lease = Ok (w, rt') -> runtime_step P rt rt'
| rt_claim_external tick now prepared wid dref res ref :
    claim_external rt tick now prepared wid dref res = Ok (ref, rt') -> runtime_step P rt rt'
| rt_dispatch now sent dref i k :
    validated_dispatch rt now sent dref i k = Ok rt' -> runtime_step P rt rt'
| rt_outcome id now row outputs d :
    row ∈ action_decisions rt ->
    record_outcome rt id now (dr_payload row) outputs = Ok (d, rt') -> runtime_step P rt rt'
| rt_claim tick dref kind w res needs_budget d :
    claim rt tick dref kind w res needs_budget = Ok (d, rt') -> runtime_step P rt rt'
| rt_publish tick p w attempts db (keep : bool) :
    get_work (rt_db rt) (w_work_id p) = Ok p -> work_step p w -> w_status w <> RUNNING ->
    (w_status w = READY -> cancel_latched (rt_db rt) (rm_analysis_id (w_meta w)) = false) ->
    attempt_ended p (work_attempts (rt_db rt)) attempts ->
    save (set_attempts (rt_db rt) attempts) tick p w = Ok db ->
    rt' = set_db rt (if keep then db else clear_lease db (w_work_id w)) ->
    runtime_step P rt rt'
| rt_renew tick c worker expires elapsed c' :
    renew_lease rt tick c worker expires elapsed = Ok (c', rt') -> runtime_step P rt rt'
| rt_other db :
    rtc (ledger_step P) (rt_db rt) db ->
    work_states db = work_states (rt_db rt) -> work_attempts db = work_attempts (rt_db rt) ->
    run_controls (rt_db rt) ⊆ run_controls db -> rt' = set_db rt db ->
    runtime_step P rt rt'.

(** ** What a step does to each table *)

(** A work that becomes ready or starts running is of a run that is not
    cancelled, and one that starts respects its run's parallelism. *)
Definition admitted db w : Prop :=
  let a := rm_analysis_id (w_meta w) in
  (w_status w = READY \/ w_status w = RUNNING -> cancel_latched db a = false)
  /\ (w_status w = RUNNING ->
        exists scope profile, execution db scope a = Ok profile
          /\ Z.of_nat (running db a) < max_parallel_work profile).

Inductive works_change db db' : Prop :=
| wc_same : work_states db' = work_states db -> works_change db db'
| wc_new w key :
    validate_work w = Ok w -> w_status w = PENDING -> registration_key w = Ok key ->
    cancel_latched db (rm_analysis_id (w_meta w)) = false ->
    work_states db !! w_work_id w = None -> (key ∉ map wr_registration_key (rows_of db)) ->
    work_states db' = <[w_work_id w := mkWorkRow key w None None]> (work_states db) ->
    works_change db db'
| wc_step id row row' :
    work_states db !! id = Some row -> wr_registration_key row' = wr_registration_key row ->
    work_step (wr_payload row) (wr_payload row') -> admitted db (wr_payload row') ->
    work_states db' = <[id := row']> (work_states db) ->
    works_change db db'
| wc_lease id row worker expires :
    work_states db !! id = Some row -> wr_worker_id row = Some worker ->
    work_states db' = <[id := relet row worker expires]> (work_states db) ->
    works_change db db'.

Inductive attempts_change db db' : Prop :=
| ac_same : work_attempts db' = work_attempts db -> attempts_change db db'
| ac_new a :
    validate_attempt a = Ok a -> work_attempts db !! a_attempt_id a = None ->
    (forall id b, work_attempts db !! id = Some b ->
       (a_work_id b, a_attempt_number b) <> (a_work_id a, a_attempt_number a)) ->
    work_attempts db' = <[a_attempt_id a := a]> (work_attempts db) -> attempts_change db db'
| ac_ended id a a' :
    work_attempts db !! id = Some a -> a_attempt_id a' = id -> a_work_id a' = a_work_id a ->
    a_attempt_number a' = a_attempt_number a -> validate_attempt a' = Ok a' ->
    work_attempts db' = <[id := a']> (work_attempts db) -> attempts_change db db'.

(** The request and the decision a row of [action_requests] names. *)
Definition issued_row db (id : string) (row : IssuedRow) : Prop :=
  exists q d, resolve_db db (i_request_ref row) false = Ok (RecAction q) /\ q_action_id q = id
    /\ resolve_db db (i_decision_ref row) false = Ok (RecDecision d)
    /\ scope_ref (d_action_ref d) = i_request_ref row.

Inductive requests_change rt rt' : Prop :=
| rc_same : action_requests rt' = action_requests rt -> requests_change rt rt'
| rc_new id row :
    action_requests rt !! id = None -> issued_row (rt_db rt') id row ->
    action_requests rt' = <[id := row]> (action_requests rt) -> requests_change rt rt'.

(** A row of [action_decisions]: a used decision on the action it names. *)
Definition used_row db (row : DecisionRow) : Prop :=
  d_decision_id (dr_payload row) = dr_decision_id row
  /\ d_use_status (dr_payload row) = USED
  /\ validate_decision (dr_payload row) = Ok (dr_payload row)
  /\ exists q, resolve_db db (scope_ref (d_action_ref (dr_payload row))) false = Ok (RecAction q)
       /\ q_action_id q = dr_action_id row.

Inductive decisions_change rt rt' : Prop :=
| dc_same : action_decisions rt' = action_decisions rt -> decisions_change rt rt'
| dc_claim row :
    used_row (rt_db rt') row ->
    (dr_decision_id row ∉ map dr_decision_id (action_decisions rt)) ->
    (dr_action_id row ∉ map dr_action_id (action_decisions rt)) ->
    action_decisions rt' = action_decisions rt ++ [row] -> decisions_change rt rt'
| dc_outcome row d :
    row ∈ action_decisions rt -> validate_decision_revision (dr_payload row) d = Ok tt ->
    validate_decision d = Ok d ->
    action_decisions rt' = action_decisions (update_decision rt d) -> decisions_change rt rt'.

Record effect P rt rt' : Prop := {
  ef_ledger : rtc (ledger_step P) (rt_db rt) (rt_db rt');
  ef_controls : run_controls (rt_db rt) ⊆ run_controls (rt_db rt');
  ef_works : works_change (rt_db rt) (rt_db rt');
  ef_attempts : attempts_change (rt_db rt) (rt_db rt');
  ef_requests : requests_change rt rt';
  ef_decisions : decisions_change rt rt';
}.

(** ** The invariant of the tables *)

(** Every row is a valid record of its class under its own key, works have
    distinct registration keys and attempts distinct numbers, an issued
    decision is for its action, and an action has one used decision. The key is
    the one [WorkService.register] computes; the works of
    [storage/chaining_child_registration.py] are stored under another. *)
Record runtime_typed rt : Prop := {
  ty_ledger : ledger_wf (rt_db rt);
  ty_work id row : work_states (rt_db rt) !! id = Some row ->
    w_work_id (wr_payload row) = id /\ validate_work (wr_payload row) = Ok (wr_payload row)
    /\ registration_key (wr_payload row) = Ok (wr_registration_key row);
  ty_keys id id' row row' :
    work_states (rt_db rt) !! id = Some row -> work_states (rt_db rt) !! id' = Some row' ->
    wr_registration_key row = wr_registration_key row' -> id = id';
  ty_attempt id a : work_attempts (rt_db rt) !! id = Some a ->
    a_attempt_id a = id /\ validate_attempt a = Ok a;
  ty_numbers id id' a a' :
    work_attempts (rt_db rt) !! id = Some a -> work_attempts (rt_db rt) !! id' = Some a' ->
    (a_work_id a, a_attempt_number a) = (a_work_id a', a_attempt_number a') -> id = id';
  ty_issued id row : action_requests rt !! id = Some row -> issued_row (rt_db rt) id row;
  ty_decisions : NoDup (map dr_decision_id (action_decisions rt));
  ty_actions : NoDup (map dr_action_id (action_decisions rt));
  ty_used row : row ∈ action_decisions rt -> used_row (rt_db rt) row;
}.

(** ** The effect of each service *)

(** Nothing but the works changed, for the other tables. *)
Record calm P db db' : Prop := {
  cm_ledger : rtc (ledger_step P) db db';
  cm_controls : run_controls db' = run_controls db;
  cm_attempts : work_attempts db' = work_attempts db;
  cm_commits : transition_commits db' = transition_commits db;
}.

#[local] Instance calm_preorder P : PreOrder (calm P).
Proof.
  split; [intros db; split; reflexivity |].
  intros x y z [] []. split; [etransitivity; eassumption | congruence ..].
Qed.

Lemma steady_calm P db db' : steady db db' -> calm P db db'.
Proof. intros Hs. split; apply Hs. Qed.

Lemma works_calm P db works current : calm P db (set_works db works current).
Proof.
  split; try reflexivity. apply rtc_once, ls_env. repeat split; try reflexivity.
  intros a st Hst. exists st. auto.
Qed.

Lemma attempts_ledger P db attempts : rtc (ledger_step P) db (set_attempts db attempts).
Proof.
  apply rtc_once, ls_env. repeat split; try reflexivity. intros a st Hst. exists st. auto.
Qed.

Lemma get_work_Ok db id w :
  get_work db id = Ok w -> exists row, work_states db !! id = Some row /\ wr_payload row = w.
Proof.
  unfold get_work. destruct (work_states db !! id) as [row |]; [| discriminate].
  intros [= <-]. eauto.
Qed.

(** Saving a step of the stored work replaces its payload. *)
Lemma save_effect P db0 db tick p w db' :
  work_states db = work_states db0 -> get_work db0 (w_work_id p) = Ok p -> work_step p w ->
  save db tick p w = Ok db' ->
  calm P db db'
  /\ exists row, work_states db0 !! w_work_id p = Some row /\ wr_payload row = p
      /\ work_states db' = <[w_work_id p := save_row w row]> (work_states db0).
Proof.
  intros Hsame Hp Hstep Hs. apply save_Ok in Hs.
  destruct Hs as (row & db1 & db2 & Hrow & _ & Hs1 & -> & Hs2).
  apply work_step_inv in Hstep. destruct Hstep as ((Hid & _) & _).
  apply get_work_Ok in Hp. destruct Hp as (row0 & Hrow0 & Hpay).
  rewrite <- Hid, Hsame, Hrow0 in Hrow. injection Hrow as ->. split.
  - etransitivity; [apply steady_calm, Hs1 |]. etransitivity; [apply works_calm |].
    apply steady_calm, Hs2.
  - exists row. split; [exact Hrow0 |]. split; [exact Hpay |].
    rewrite (sd_works _ _ Hs2). simpl. rewrite (sd_works _ _ Hs1), Hsame, Hid. reflexivity.
Qed.

(** What a claim adds to the validator's tables. *)
Lemma claim_effect rt tick dref kind w res nb d rt' :
  db_wf (rt_db rt) -> claim rt tick dref kind w res nb = Ok (d, rt') ->
  steady (rt_db rt) (rt_db rt') /\ action_requests rt' = action_requests rt
  /\ decisions_change rt rt' /\ length (action_decisions rt') = S (length (action_decisions rt)).
Proof.
  intros Hwf Hc. apply claim_Ok in Hc.
  destruct Hc as (d0 & q & meta & Hchk & _ & -> & Hv & Hid & Hst & ->).
  apply check_Ok in Hchk.
  destruct Hchk as (_ & _ & Hq & _ & _ & _ & _ & _ & _ & _ & _ & Hact & _).
  split; [exact Hst |]. split; [reflexivity |].
  split; [| simpl; rewrite length_app; simpl; lia].
  eapply (dc_claim _ _ (mkDecisionRow _ _ _)); [| exact Hid | exact Hact | reflexivity].
  split; [reflexivity |]. split; [reflexivity |]. split; [exact Hv |].
  exists q. split; [| reflexivity]. exact (steady_resolve _ _ _ _ _ Hst Hwf Hq).
Qed.

(** A used decision stays one, and an issued one too, as records are added. *)
Lemma used_row_grows db db' row :
  db_wf db -> rtc (store_step (R := Rec)) (db_store db) (db_store db') ->
  used_row db row -> used_row db' row.
Proof.
  intros Hwf Hs (H4 & H5 & H6 & q & Hq & Hid). repeat (split; [assumption |]).
  exists q. split; [eapply resolve_grown; eauto | exact Hid].
Qed.

Lemma issued_row_grows db db' id row :
  db_wf db -> rtc (store_step (R := Rec)) (db_store db) (db_store db') ->
  issued_row db id row -> issued_row db' id row.
Proof.
  intros Hwf Hs (q & d & Hq & Hid & Hd & Hr). exists q, d.
  repeat split; auto; eapply resolve_grown; eauto.
Qed.

Lemma set_db_decisions rt rt1 db : decisions_change rt rt1 ->
  rtc (store_step (R := Rec)) (db_store (rt_db rt1)) (db_store db) -> db_wf (rt_db rt1) ->
  decisions_change rt (set_db rt1 db).
Proof.
  intros [Hs | row Hu Hd Ha Hr | row d Hin Hrev Hv Hr] Hg Hwf.
  - apply dc_same, Hs.
  - eapply dc_claim; eauto. eapply used_row_grows; [exact Hwf | exact Hg | exact Hu].
  - eapply dc_outcome; eauto.
Qed.

Lemma scope_of_ref ref aref : scope_of ref = Some aref -> scope_ref aref = ref.
Proof. destruct ref; simpl; intros [= <-]; reflexivity. Qed.

Lemma steady_effect P rt db : steady (rt_db rt) db -> effect P rt (set_db rt db).
Proof.
  intros Hs. split; simpl.
  - apply Hs.
  - rewrite (sd_controls _ _ Hs). reflexivity.
  - apply wc_same, Hs.
  - apply ac_same, Hs.
  - apply rc_same. reflexivity.
  - apply dc_same. reflexivity.
Qed.

Lemma authorize_effect P rt tick q work res d rt' :
  runtime_typed rt -> authorize rt tick q work res = Ok (d, rt') -> effect P rt rt'.
Proof.
  intros Hty Ha. pose proof (lw_store _ (ty_ledger _ Hty)) as Hwf. apply authorize_Ok in Ha.
  destruct Ha as (_ & [(-> & _) | (Hnew & rref & aref & db1 & w' & checks & refs & dref & cl & Hs1
    & Hsc & _ & _ & -> & _ & Hs2 & Hrt)]).
  { destruct rt as [db ? ? ? ?]. apply (steady_effect P (mkRt db _ _ _ _)). reflexivity. }
  pose proof (stage_publish_resolved _ _ _ _ Hwf Hs1) as [_ Hq].
  pose proof (steady_wf _ _ (stage_publish_steady _ _ _ _ Hs1) Hwf) as Hwf1.
  pose proof (stage_publish_resolved _ _ _ _ Hwf1 Hs2) as [_ Hd].
  assert (Hst : steady (rt_db rt) (rt_db rt')).
  { etransitivity; eapply stage_publish_steady; eassumption. }
  split.
  - apply Hst.
  - rewrite (sd_controls _ _ Hst). reflexivity.
  - apply wc_same, Hst.
  - apply ac_same, Hst.
  - rewrite Hrt. eapply rc_new; [exact Hnew | | reflexivity]. simpl.
    eexists q, _. split; [| split; [reflexivity | split; [exact Hd |]]].
    + eapply steady_resolve; [eapply stage_publish_steady, Hs2 | exact Hwf1 | exact Hq].
    + simpl. apply scope_of_ref, Hsc.
  - rewrite Hrt. apply dc_same. reflexivity.
Qed.

Lemma register_effect P rt tick w dref res w' rt' :
  runtime_typed rt -> register rt tick w dref res = Ok (w', rt') -> effect P rt rt'.
Proof.
  intros Hty Hr. pose proof (lw_store _ (ty_ledger _ Hty)) as Hwf. apply register_Ok in Hr.
  destruct Hr as (Hv & Hc & key & Hk & [(-> & _) | (_ & _ & Hp & d & rt1 & db1 & Hcl & Hs1 & Hnone
    & Hkey & Hrt & Hs2)]).
  { destruct rt as [db ? ? ? ?]. apply (steady_effect P (mkRt db _ _ _ _)). reflexivity. }
  pose proof (claim_effect _ _ _ _ _ _ _ _ _ Hwf Hcl) as (Hst & Hreq & Hdec & _).
  pose proof (steady_wf _ _ Hst Hwf) as Hwf1.
  assert (Hs01 : steady (rt_db rt) db1) by (etransitivity; eassumption).
  assert (Hcalm : calm P (rt_db rt) (rt_db rt')).
  { etransitivity; [apply steady_calm, Hs01 |]. etransitivity; [apply works_calm |].
    apply steady_calm, Hs2. }
  split; [apply Hcalm | rewrite (cm_controls _ _ _ Hcalm); reflexivity | | apply ac_same, Hcalm | |].
  - rewrite (sd_works _ _ Hs01) in Hnone.
    assert (Hrows : rows_of db1 = rows_of (rt_db rt))
      by (unfold rows_of; rewrite (sd_works _ _ Hs01); reflexivity).
    rewrite Hrows in Hkey. eapply wc_new; eauto. rewrite (sd_works _ _ Hs2). simpl.
    rewrite (sd_works _ _ Hs01). reflexivity.
  - apply rc_same. rewrite Hrt. exact Hreq.
  - rewrite Hrt. apply set_db_decisions; [exact Hdec | | exact Hwf1].
    etransitivity; [apply Hs1 | apply Hs2].
Qed.

Lemma make_ready_step t w p meta tref id now :
  rec_valid (RecTransition t) = true ->
  validate_transition_context t p None = Ok tt -> t_to_status t = T_READY ->
  w_status p ∈ [PENDING; BLOCKED] -> next_meta (w_meta p) id now = Ok meta ->
  validate_work (ready_work p meta t tref) = Ok w -> work_step p w.
Proof.
  intros Hvt Hctx Hto Hs Hm Hv. simpl in Hvt. boolify.
  eapply step_make_ready; eauto.
Qed.

Lemma same_analysis p w : work_step p w -> rm_analysis_id (w_meta w) = rm_analysis_id (w_meta p).
Proof.
  intros Hs. apply work_step_inv in Hs. destruct Hs as [Hs _]. symmetry.
  apply Hs.
Qed.

Lemma make_ready_effect P rt tick t w rt' :
  runtime_typed rt -> make_ready rt tick t = Ok (w, rt') -> effect P rt rt'.
Proof.
  intros Hty Hr. pose proof (lw_store _ (ty_ledger _ Hty)) as Hwf. apply make_ready_Ok in Hr.
  destruct Hr as (p & d & rt1 & db1 & ref & tref & meta & Hp & Hc & Hctx & Hto & Hst & Hcl & Hs1
    & Hm & Hv & Hsv & Hrt).
  pose proof (claim_effect _ _ _ _ _ _ _ _ _ Hwf Hcl) as (Hst1 & Hreq & Hdec & _).
  pose proof (steady_wf _ _ Hst1 Hwf) as Hwf1.
  assert (Hstep : work_step p w).
  { eapply make_ready_step; eauto. eapply staged_valid; eauto. }
  assert (Hs01 : steady (rt_db rt) db1)
    by (etransitivity; [exact Hst1 | eapply stage_publish_steady, Hs1]).
  pose proof (transition_context_Ok _ _ _ Hctx) as (Hid & _). rewrite Hid in Hp.
  destruct (save_effect P _ _ _ _ _ _ (sd_works _ _ Hs01) Hp Hstep Hsv)
    as (Hcalm & row & Hrow & Hpay & Hworks).
  assert (Hcalm0 : calm P (rt_db rt) (rt_db rt'))
    by (etransitivity; [apply steady_calm, Hs01 | exact Hcalm]).
  split; [apply Hcalm0 | rewrite (cm_controls _ _ _ Hcalm0); reflexivity | | apply ac_same, Hcalm0 | |].
  - eapply wc_step; [exact Hrow | | | | exact Hworks]; simpl; [reflexivity | | ].
    + rewrite Hpay. exact Hstep.
    + split; [intros _; rewrite (same_analysis _ _ Hstep); exact Hc |].
      intros Hw. apply validate_work_Ok in Hv. destruct Hv as [-> _]. discriminate.
  - apply rc_same. rewrite Hrt. exact Hreq.
  - rewrite Hrt. apply set_db_decisions; [exact Hdec | | exact Hwf1].
    etransitivity; [eapply sd_store, stage_publish_steady, Hs1 |].
    eapply ledger_steps_store. apply (cm_ledger _ _ _ Hcalm).
Qed.

(** The row a started work has. *)
Definition leased (w : WorkExecutionState) (row : WorkRow) (worker : string) (lease : Z) : WorkRow :=
  mkWorkRow (wr_registration_key row) w (Some worker) (Some lease).

Lemma set_lease_works db w row works worker lease :
  work_states db = <[w_work_id w := save_row w row]> works ->
  work_states (set_lease db (w_work_id w) worker lease)
  = <[w_work_id w := leased w row worker lease]> works.
Proof. intros Hw. simpl. rewrite Hw, alter_insert_eq. reflexivity. Qed.

(** Starting claims its action, saves the running work and adds the attempt. *)
Lemma start_saved P rt tick t a res worker lease w rt' :
  runtime_typed rt -> start rt tick t a res worker lease = Ok (w, rt') ->
  exists p row scope profile rt1 db2 db3,
    validate_attempt a = Ok a /\ a_status a = A_RUNNING
    /\ work_states (rt_db rt) !! t_work_id t = Some row /\ wr_payload row = p
    /\ t_work_id t = w_work_id p /\ w_status p = READY /\ work_step p w
    /\ t_attempt_id t = Some (a_attempt_id a)
    /\ cancel_latched (rt_db rt) (rm_analysis_id (w_meta p)) = false
    /\ execution (rt_db rt) scope (rm_analysis_id (w_meta p)) = Ok profile
    /\ Z.of_nat (running (rt_db rt) (rm_analysis_id (w_meta p))) < max_parallel_work profile
    /\ work_attempts (rt_db rt) !! a_attempt_id a = None
    /\ (forall id b, work_attempts (rt_db rt) !! id = Some b ->
          (a_work_id b, a_attempt_number b) <> (a_work_id a, a_attempt_number a))
    /\ db_wf (rt_db rt1) /\ steady (rt_db rt) (rt_db rt1) /\ steady (rt_db rt1) db2
    /\ action_requests rt1 = action_requests rt /\ decisions_change rt rt1
    /\ calm P db2 db3
    /\ work_states db3 = <[w_work_id w := save_row w row]> (work_states (rt_db rt))
    /\ rt' = set_db rt1 (set_lease (set_attempts db3
                (<[a_attempt_id a := a]> (work_attempts (rt_db rt)))) (w_work_id w) worker lease).
Proof.
  intros Hty Hr. pose proof (lw_store _ (ty_ledger _ Hty)) as Hwf. apply start_Ok in Hr.
  destruct Hr as (p & q & r & profile & ref & db1 & tref & meta & prior & d & rt1 & ref2 & db2 & db3
    & db4 & Hact & Hp & Hc & _ & Hctx & Hready & Hto & Hid & _ & Hexec & Hcap & Hs1 & Hm & Hv & Hac
    & Hcl & Hs2 & Hsv & Hi & Hrt).
  pose proof (stage_publish_steady _ _ _ _ Hs1) as Hst1.
  pose proof (steady_wf _ _ Hst1 Hwf) as Hwf1.
  pose proof (claim_effect (set_db rt db1) _ _ _ _ _ _ _ _ Hwf1 Hcl) as (Hst2 & Hreq & Hdec & _).
  pose proof (steady_wf _ _ Hst2 Hwf1) as Hwf2.
  pose proof (stage_publish_steady _ _ _ _ Hs2) as Hst3.
  assert (Hst12 : steady (rt_db rt) (rt_db rt1)) by (etransitivity; [exact Hst1 | exact Hst2]).
  assert (Hst : steady (rt_db rt) db2) by (etransitivity; [exact Hst12 | exact Hst3]).
  pose proof (staged_valid _ _ _ _ Hwf Hs1) as Hvt. pose proof (staged_valid _ _ _ _ Hwf2 Hs2) as Hva.
  simpl in Hvt, Hva. boolify.
  assert (Hstep : work_step p w) by (eapply step_start; eauto).
  pose proof (transition_context_Ok _ _ _ Hctx) as (Hpid & _). rewrite Hpid in Hp.
  destruct (save_effect P _ _ _ _ _ _ (sd_works _ _ Hst) Hp Hstep Hsv)
    as (Hcalm & row & Hrow & Hpay & Hworks).
  assert (Hwid : w_work_id p = w_work_id w) by (apply work_step_inv in Hstep; apply Hstep).
  apply insert_attempt_Ok in Hi. destruct Hi as (Hfresh & Hnum & Hatt & Hdb4).
  assert (Hatt3 : work_attempts db3 = work_attempts (rt_db rt))
    by (rewrite (cm_attempts _ _ _ Hcalm); apply Hst).
  rewrite Hatt3 in Hfresh, Hnum, Hatt. rewrite Hatt in Hdb4. subst db4. rewrite Hwid in Hworks.
  exists p, row, (r_budget_binding_ref r), profile, rt1, db2, db3. rewrite Hpid.
  repeat (split; [assumption || reflexivity |]). split; [| auto].
  destruct Hdec as [He | row' Hu Hd Ha He | row' d' Hin Hrev Hv' He].
  - apply dc_same, He.
  - eapply dc_claim; eauto.
  - eapply dc_outcome; eauto.
Qed.

(** What it leaves of the works and attempts. *)
Lemma start_tables rt tick t a res worker lease w rt' :
  runtime_typed rt -> start rt tick t a res worker lease = Ok (w, rt') ->
  exists row scope profile,
    work_states (rt_db rt) !! t_work_id t = Some row /\ w_status (wr_payload row) = READY
    /\ work_step (wr_payload row) w /\ w_status w = RUNNING
    /\ w_active_attempt_id w = Some (a_attempt_id a)
    /\ execution (rt_db rt) scope (rm_analysis_id (w_meta w)) = Ok profile
    /\ Z.of_nat (running (rt_db rt) (rm_analysis_id (w_meta w))) < max_parallel_work profile
    /\ work_states (rt_db rt') = <[t_work_id t := leased w row worker lease]> (work_states (rt_db rt))
    /\ work_attempts (rt_db rt) !! a_attempt_id a = None
    /\ work_attempts (rt_db rt') = <[a_attempt_id a := a]> (work_attempts (rt_db rt))
    /\ run_controls (rt_db rt') = run_controls (rt_db rt)
    /\ transition_commits (rt_db rt') = transition_commits (rt_db rt).
Proof.
  intros Hty Hr. pose proof Hr as Hok. apply (start_saved any_commit _ _ _ _ _ _ _ _ _ Hty) in Hr.
  destruct Hr as (p & row & scope & profile & rt1 & db2 & db3 & _ & Hact & Hrow & Hpay & Hid & Hst & Hstep
    & _ & Hc & Hexec & Hcap & Hfresh & _ & _ & Hs1 & Hs2 & _ & _ & Hcalm & Hworks & ->).
  assert (Hwid : w_work_id p = w_work_id w) by (apply work_step_inv in Hstep; apply Hstep).
  apply start_Ok in Hok. destruct Hok as (p' & q & r & pr & ref & db1 & tref & meta & prior & d & rtx & ref2
    & dbx & dby & dbz & _ & _ & _ & _ & _ & _ & _ & _ & _ & _ & _ & _ & _ & Hv & _).
  apply validate_work_Ok in Hv. destruct Hv as [Hw _].
  exists row, scope, profile. rewrite Hpay, (same_analysis _ _ Hstep).
  do 3 (split; [assumption |]). split; [rewrite Hw; reflexivity |]. split; [rewrite Hw; reflexivity |].
  do 2 (split; [assumption |]). split.
  { rewrite Hid, Hwid. simpl rt_db. apply set_lease_works. exact Hworks. }
  split; [exact Hfresh |]. split; [reflexivity |]. simpl.
  rewrite (cm_controls _ _ _ Hcalm), (sd_controls _ _ Hs2), (sd_controls _ _ Hs1).
  rewrite (cm_commits _ _ _ Hcalm), (sd_commits _ _ Hs2), (sd_commits _ _ Hs1). auto.
Qed.

Lemma start_effect P rt tick t a res worker lease w rt' :
  runtime_typed rt -> start rt tick t a res worker lease = Ok (w, rt') -> effect P rt rt'.
Proof.
  intros Hty Hr. pose proof (start_tables _ _ _ _ _ _ _ _ _ Hty Hr) as Htab.
  apply (start_saved P _ _ _ _ _ _ _ _ _ Hty) in Hr.
  destruct Hr as (p & row & scope & profile & rt1 & db2 & db3 & Hva & _ & Hrow & Hpay & Hid & _ & Hstep
    & _ & Hc & Hexec & Hcap & Hfresh & Hnum & Hwf & Hs1 & Hs2 & Hreq & Hdec & Hcalm & _ & Hrt).
  destruct Htab as (row' & _ & _ & Hrow' & _ & _ & _ & _ & _ & _ & Hworks & _ & Hatt & Hctl & _).
  replace row' with row in * by congruence.
  assert (Hledger : rtc (ledger_step P) (rt_db rt) (rt_db rt')).
  { rewrite Hrt. simpl. etransitivity; [apply Hs1 |]. etransitivity; [apply Hs2 |].
    etransitivity; [apply (cm_ledger _ _ _ Hcalm) |].
    etransitivity; [apply attempts_ledger | apply works_calm]. }
  split; [exact Hledger | rewrite Hctl; reflexivity | | | |].
  - eapply (wc_step _ _ (t_work_id t) row (leased w row worker lease));
      [exact Hrow | reflexivity | | | exact Hworks]; simpl; [rewrite Hpay; exact Hstep |].
    split; intros _; rewrite (same_analysis _ _ Hstep); eauto.
  - eapply ac_new; [exact Hva | exact Hfresh | exact Hnum | exact Hatt].
  - apply rc_same. rewrite Hrt. exact Hreq.
  - rewrite Hrt. apply (set_db_decisions rt rt1); [exact Hdec | | exact Hwf].
    simpl. etransitivity; [apply Hs2 |]. eapply ledger_steps_store, (cm_ledger _ _ _ Hcalm).
Qed.

Lemma claim_external_effect P rt tick now prepared wid dref res ref rt' :
  runtime_typed rt -> claim_external rt tick now prepared wid dref res = Ok (ref, rt') ->
  effect P rt rt'.
Proof.
  intros Hty Hr. pose proof (lw_store _ (ty_ledger _ Hty)) as Hwf. apply claim_external_Ok in Hr.
  destruct Hr as (row & d & q & _ & _ & _ & _ & [(-> & _) | (_ & r & claimed & rt1 & db & _ & Hcl
    & Hi & _ & ->)]).
  { destruct rt as [db ? ? ? ?]. apply (steady_effect P (mkRt db _ _ _ _)). reflexivity. }
  pose proof (claim_effect _ _ _ _ _ _ _ _ _ Hwf Hcl) as (Hst & Hreq & Hdec & _).
  pose proof (steady_wf _ _ Hst Hwf) as Hwf1.
  unfold insert_dispatch in Hi. destruct (mem _ _); [discriminate |]. injection Hi as <-.
  split; simpl.
  - etransitivity; [apply Hst |]. apply rtc_once, ls_env. repeat split; try reflexivity.
    intros a st Hget. exists st. auto.
  - rewrite (sd_controls _ _ Hst). reflexivity.
  - apply wc_same. simpl. apply Hst.
  - apply ac_same. simpl. apply Hst.
  - apply rc_same. exact Hreq.
  - apply set_db_decisions; [exact Hdec | reflexivity | exact Hwf1].
Qed.

Lemma outcome_effect P rt id now row outputs d rt' :
  runtime_typed rt -> row ∈ action_decisions rt ->
  record_outcome rt id now (dr_payload row) outputs = Ok (d, rt') -> effect P rt rt'.
Proof.
  intros Hty Hin Hr. apply record_outcome_Ok in Hr. destruct Hr as (meta & _ & Hv & Hrev & Hst & Hrt).
  split.
  - apply Hst.
  - rewrite (sd_controls _ _ Hst). reflexivity.
  - apply wc_same, Hst.
  - apply ac_same, Hst.
  - apply rc_same. rewrite Hrt. reflexivity.
  - eapply dc_outcome; eauto. rewrite Hrt. reflexivity.
Qed.

Lemma dispatch_effect P rt now sent dref i k rt' :
  validated_dispatch rt now sent dref i k = Ok rt' -> effect P rt rt'.
Proof.
  intros Hd. apply validated_dispatch_Ok in Hd. destruct Hd as (db & Hm & ->).
  unfold mark_dispatched, update_dispatches in Hm. unbind Hm. cbv zeta in Hm.
  unbind Hm. injection Hm as <-.
  split; simpl; try reflexivity.
  - apply rtc_once, ls_env. repeat split; try reflexivity. intros a st Hst. exists st. auto.
  - apply wc_same. reflexivity.
  - apply ac_same. reflexivity.
  - apply rc_same. reflexivity.
  - apply dc_same. reflexivity.
Qed.

Lemma claim_step_effect P rt tick dref kind w res nb d rt' :
  runtime_typed rt -> claim rt tick dref kind w res nb = Ok (d, rt') -> effect P rt rt'.
Proof.
  intros Hty Hcl. pose proof (lw_store _ (ty_ledger _ Hty)) as Hwf.
  pose proof (claim_effect _ _ _ _ _ _ _ _ _ Hwf Hcl) as (Hst & Hreq & Hdec & _).
  split; [apply Hst | rewrite (sd_controls _ _ Hst); reflexivity | apply wc_same, Hst
         | apply ac_same, Hst | apply rc_same, Hreq | exact Hdec].
Qed.

(** Saving a work and changing its lease gives one row. *)
Lemma saved_works (keep : bool) db w row works :
  work_states db = <[w_work_id w := save_row w row]> works ->
  exists row', work_states (if keep then db else clear_lease db (w_work_id w))
               = <[w_work_id w := row']> works
    /\ wr_payload row' = w /\ wr_registration_key row' = wr_registration_key row.
Proof.
  intros Hw. destruct keep; [exists (save_row w row); auto |].
  exists (mkWorkRow (wr_registration_key row) w None None). simpl. rewrite Hw, alter_insert_eq. auto.
Qed.

Lemma clear_lease_calm P db id : calm P db (clear_lease db id).
Proof. apply works_calm. Qed.

Lemma publish_effect P rt tick p w attempts db (keep : bool) :
  get_work (rt_db rt) (w_work_id p) = Ok p -> work_step p w -> w_status w <> RUNNING ->
  (w_status w = READY -> cancel_latched (rt_db rt) (rm_analysis_id (w_meta w)) = false) ->
  attempt_ended p (work_attempts (rt_db rt)) attempts ->
  save (set_attempts (rt_db rt) attempts) tick p w = Ok db ->
  effect P rt (set_db rt (if keep then db else clear_lease db (w_work_id w))).
Proof.
  intros Hp Hstep Hrun Hready Hatt Hs.
  destruct (save_effect P (rt_db rt) (set_attempts (rt_db rt) attempts) _ _ _ _ eq_refl Hp
              Hstep Hs)
    as (Hcalm0 & row & Hrow & Hpay & Hworks0).
  assert (Hwid : w_work_id p = w_work_id w) by (apply work_step_inv in Hstep; apply Hstep).
  rewrite Hwid in Hworks0. destruct (saved_works keep _ _ _ _ Hworks0) as (row' & Hworks & Hpay' & Hkey).
  assert (Hcalm : calm P (set_attempts (rt_db rt) attempts)
                    (if keep then db else clear_lease db (w_work_id w)))
    by (destruct keep; [exact Hcalm0 | etransitivity; [exact Hcalm0 | apply clear_lease_calm]]).
  split; simpl.
  - etransitivity; [apply attempts_ledger | apply (cm_ledger _ _ _ Hcalm)].
  - rewrite (cm_controls _ _ _ Hcalm). reflexivity.
  - eapply wc_step; [exact Hrow | exact Hkey | | | rewrite Hwid; exact Hworks].
    + rewrite Hpay, Hpay'. exact Hstep.
    + rewrite Hpay'. split; [intros [Hw | Hw]; [exact (Hready Hw) | destruct (Hrun Hw)] |].
      intros Hw. destruct (Hrun Hw).
  - pose proof (cm_attempts _ _ _ Hcalm) as Ha. simpl in Ha.
    destruct Hatt as [-> | (id & a & a' & _ & H5 & H6 & H7 & H8 & H9 & ->)].
    + apply ac_same. exact Ha.
    + eapply ac_ended; eauto.
  - apply rc_same. reflexivity.
  - apply dc_same. reflexivity.
Qed.

(** A renewal replaces its attempt by a valid revision and moves the lease. *)
Lemma renew_effect P rt tick c worker expires elapsed c' rt' :
  runtime_typed rt -> renew_lease rt tick c worker expires elapsed = Ok (c', rt') ->
  effect P rt rt'.
Proof.
  intros Hty Hr. pose proof (lw_store _ (ty_ledger _ Hty)) as Hwf. apply renew_lease_Ok in Hr.
  destruct Hr as (row & meta & ref & db & _ & _ & _ & Hrow & Ha & _ & _ & _ & Hlease & _ & Hs & _ & ->).
  apply andb_true_iff in Hlease. destruct Hlease as [Hlease _].
  pose proof (stage_publish_steady _ _ _ _ Hs) as Hst.
  pose proof (staged_valid _ _ _ _ Hwf Hs) as Hva. simpl in Hva. boolify.
  split; simpl.
  - etransitivity; [apply Hst |]. etransitivity; [apply attempts_ledger | apply works_calm].
  - rewrite (sd_controls _ _ Hst). reflexivity.
  - eapply (wc_lease _ _ (w_work_id (cx_work c)) row worker expires);
      [exact Hrow | exact Hlease |].
    simpl. rewrite (sd_works _ _ Hst), <- (insert_id _ _ _ Hrow), alter_insert_eq.
    rewrite (insert_id _ _ _ Hrow). reflexivity.
  - eapply (ac_ended _ _ _ _ (renewed_attempt (cx_attempt c) meta elapsed) Ha); try reflexivity;
      [exact Hva |]. simpl. rewrite (sd_attempts _ _ Hst). reflexivity.
  - apply rc_same. reflexivity.
  - apply dc_same. reflexivity.
Qed.

(** Every transaction has such an effect. *)
Lemma runtime_step_effect P rt rt' : runtime_typed rt -> runtime_step P rt rt' -> effect P rt rt'.
Proof.
  intros Hty Hs. destruct Hs.
  - eapply authorize_effect; eauto.
  - eapply register_effect; eauto.
  - eapply make_ready_effect; eauto.
  - eapply start_effect; eauto.
  - eapply claim_external_effect; eauto.
  - eapply dispatch_effect; eauto.
  - eapply outcome_effect; eauto.
  - eapply claim_step_effect; eauto.
  - subst. eapply publish_effect; eauto.
  - eapply renew_effect; eauto.
  - subst. split; simpl; auto using wc_same, ac_same, rc_same, dc_same.
Qed.

(** ** The tables stay typed *)

(** The key of a registration is made of what no life-cycle step changes. *)
Lemma step_key p w : work_step p w -> registration_key w = registration_key p.
Proof.
  intros Hs. apply work_step_inv in Hs.
  destruct Hs as ((_ & _ & Ht & _ & Hsub & Hg & _ & Hd & _ & _ & Ha & _) & _).
  unfold registration_key. rewrite Ht, Hsub, Hg, Hd, Ha. reflexivity.
Qed.

Lemma rows_of_elem db row :
  row ∈ rows_of db <-> exists id, work_states db !! id = Some row.
Proof.
  unfold rows_of. rewrite list_elem_of_fmap. split.
  - intros ([id row'] & -> & Hin). apply elem_of_map_to_list in Hin. eauto.
  - intros [id Hid]. exists (id, row). split; [reflexivity | apply elem_of_map_to_list, Hid].
Qed.

(** The decision a revision follows: same identity and action, and a use stays
    a use at the same time. *)
Lemma revision_keeps (p c : ActionDecision) :
  validate_decision_revision p c = Ok tt ->
  d_decision_id c = d_decision_id p /\ d_action_ref c = d_action_ref p
  /\ (d_use_status p = USED -> d_use_status c = USED /\ d_used_at c = d_used_at p).
Proof.
  intros Hr. apply decision_revision_Ok in Hr.
  destruct Hr as (Hid & Ha & _ & Hu & _ & _ & Ht & _).
  split; [congruence |]. split; [congruence |]. intros Hp. split; [| auto].
  rewrite Hp in Hu. simpl in Hu. set_solver.
Qed.

Section preserved.
Context P rt rt' (Hty : runtime_typed rt) (Heff : effect P rt rt').

Lemma works_typed id row :
  work_states (rt_db rt') !! id = Some row ->
  w_work_id (wr_payload row) = id /\ validate_work (wr_payload row) = Ok (wr_payload row)
  /\ registration_key (wr_payload row) = Ok (wr_registration_key row).
Proof.
  destruct (ef_works _ _ _ Heff) as [Hw | w key Hv _ Hk _ _ _ Hw | i r r' Hi Hkey Hstep _ Hw
    | i r worker expires Hi Hwk Hw]; rewrite Hw; [apply (ty_work _ Hty) | | |].
  - rewrite lookup_insert_Some. intros [[<- <-] | [_ Hr]]; [auto | exact (ty_work _ Hty _ _ Hr)].
  - rewrite lookup_insert_Some. intros [[<- <-] | [_ Hr]]; [| exact (ty_work _ Hty _ _ Hr)].
    destruct (ty_work _ Hty _ _ Hi) as (Hid & _ & Hk). rewrite (step_key _ _ Hstep), Hkey.
    apply work_step_inv in Hstep. destruct Hstep as ((Hid' & _) & _ & _ & _ & _ & Hv).
    split; [congruence | auto].
  - rewrite lookup_insert_Some. intros [[<- <-] | [_ Hr]]; [exact (ty_work _ Hty _ _ Hi) |].
    exact (ty_work _ Hty _ _ Hr).
Qed.

Lemma keys_typed id id' row row' :
  work_states (rt_db rt') !! id = Some row -> work_states (rt_db rt') !! id' = Some row' ->
  wr_registration_key row = wr_registration_key row' -> id = id'.
Proof.
  assert (Hkept : forall i r r', work_states (rt_db rt) !! i = Some r ->
      wr_registration_key r' = wr_registration_key r ->
      <[i := r']> (work_states (rt_db rt)) !! id = Some row ->
      <[i := r']> (work_states (rt_db rt)) !! id' = Some row' ->
      wr_registration_key row = wr_registration_key row' -> id = id').
  { intros i r r' Hi Hkey. rewrite !lookup_insert_Some.
    intros [[<- <-] | [_ Hr]] [[<- <-] | [_ Hr']] Heq;
      [reflexivity | | | exact (ty_keys _ Hty _ _ _ _ Hr Hr' Heq)].
    - apply (ty_keys _ Hty _ _ r row' Hi Hr'). congruence.
    - apply (ty_keys _ Hty _ _ row r Hr Hi). congruence. }
  destruct (ef_works _ _ _ Heff) as [Hw | w key _ _ _ _ _ Hn Hw | i r r' Hi Hkey _ _ Hw
    | i r worker expires Hi Hwk Hw]; rewrite Hw; [apply (ty_keys _ Hty) | | |].
  - assert (Hnew : forall i r, work_states (rt_db rt) !! i = Some r -> wr_registration_key r <> key).
    { intros i r Hr Heq. apply Hn, list_elem_of_fmap. exists r. split; [congruence |].
      apply rows_of_elem. eauto. }
    rewrite !lookup_insert_Some. intros [[<- <-] | [_ Hr]] [[<- <-] | [_ Hr']] Heq; simpl in *;
      [reflexivity | | | exact (ty_keys _ Hty _ _ _ _ Hr Hr' Heq)]; exfalso.
    + apply (Hnew _ _ Hr'). congruence.
    + apply (Hnew _ _ Hr). congruence.
  - exact (Hkept i r r' Hi Hkey).
  - exact (Hkept i r (relet r worker expires) Hi eq_refl).
Qed.

Lemma attempts_typed id a :
  work_attempts (rt_db rt') !! id = Some a -> a_attempt_id a = id /\ validate_attempt a = Ok a.
Proof.
  destruct (ef_attempts _ _ _ Heff) as [Hw | b Hv _ _ Hw | i b b' Hi Hid _ _ Hv Hw]; rewrite Hw;
    [apply (ty_attempt _ Hty) | |]; rewrite lookup_insert_Some;
    intros [[<- <-] | [_ Hr]]; auto; exact (ty_attempt _ Hty _ _ Hr).
Qed.

Lemma numbers_typed id id' a a' :
  work_attempts (rt_db rt') !! id = Some a -> work_attempts (rt_db rt') !! id' = Some a' ->
  (a_work_id a, a_attempt_number a) = (a_work_id a', a_attempt_number a') -> id = id'.
Proof.
  destruct (ef_attempts _ _ _ Heff) as [Hw | b _ _ Hn Hw | i b b' Hi _ Hwk Hnb _ Hw]; rewrite Hw;
    [apply (ty_numbers _ Hty) | |]; rewrite !lookup_insert_Some;
    intros [[<- <-] | [_ Hr]] [[<- <-] | [_ Hr']] Heq;
    try reflexivity; try exact (ty_numbers _ Hty _ _ _ _ Hr Hr' Heq).
  - destruct (Hn _ _ Hr'). congruence.
  - destruct (Hn _ _ Hr). congruence.
  - apply (ty_numbers _ Hty _ _ b a' Hi Hr'). congruence.
  - apply (ty_numbers _ Hty _ _ a b Hr Hi). congruence.
Qed.

(** The rows that follow after a step: the claimed decisions stay, and the
    recorded outcomes revise them. *)
Definition row_follows (row row' : DecisionRow) : Prop :=
  dr_decision_id row' = dr_decision_id row /\ dr_action_id row' = dr_action_id row
  /\ d_action_ref (dr_payload row') = d_action_ref (dr_payload row)
  /\ d_used_at (dr_payload row') = d_used_at (dr_payload row).

Lemma update_decision_row d row :
  used_row (rt_db rt) row -> row ∈ action_decisions rt ->
  row_follows row (if eqb (dr_decision_id row) (d_decision_id d)
                   then mkDecisionRow (dr_decision_id row) (dr_action_id row) d else row)
  \/ forall row0, row0 ∈ action_decisions rt ->
       validate_decision_revision (dr_payload row0) d <> Ok tt.
Proof.
  intros Hu Hin. case_bool_decide as Hid; [| left; repeat split].
  destruct (validate_decision_revision (dr_payload row) d) as [[] | e] eqn:Hrev.
  - left. apply revision_keeps in Hrev. destruct Hrev as (_ & Ha & Hused), Hu as (_ & Hst & _).
    repeat split; auto. apply Hused, Hst.
  - right. intros row0 Hin0 Hrev0. pose proof (ty_used _ Hty _ Hin0) as (Hid0 & _).
    apply revision_keeps in Hrev0 as Hk. destruct Hk as (Hid0' & _).
    assert (row0 = row) as ->.
    { apply (NoDup_map_inj dr_decision_id (action_decisions rt)); auto using ty_decisions.
      congruence. }
    congruence.
Qed.

Lemma decisions_follow row :
  row ∈ action_decisions rt -> exists row', row' ∈ action_decisions rt' /\ row_follows row row'.
Proof.
  intros Hin. pose proof (ty_used _ Hty _ Hin) as Hu.
  destruct (ef_decisions _ _ _ Heff) as [Hd | r _ _ _ Hd | r d Hr Hrev _ Hd]; rewrite Hd.
  - exists row. split; [exact Hin | repeat split].
  - exists row. split; [apply elem_of_app; auto | repeat split].
  - destruct (update_decision_row d row Hu Hin) as [Hf | Hno]; [| destruct (Hno _ Hr Hrev)].
    eexists. split; [| exact Hf]. simpl. apply list_elem_of_fmap. eauto.
Qed.

Lemma update_decision_ids {A} (f : DecisionRow -> A) d :
  (forall row x, f (mkDecisionRow (dr_decision_id row) (dr_action_id row) x) = f row) ->
  map f (action_decisions (update_decision rt d)) = map f (action_decisions rt).
Proof.
  intros Hf. simpl. rewrite map_map. apply map_ext. intros row. case_bool_decide; auto.
Qed.

Lemma decision_keys_typed :
  NoDup (map dr_decision_id (action_decisions rt'))
  /\ NoDup (map dr_action_id (action_decisions rt')).
Proof.
  destruct (ef_decisions _ _ _ Heff) as [Hd | r _ Hn Ha Hd | r d _ _ _ Hd]; rewrite Hd.
  - split; apply Hty.
  - rewrite !map_app. split; apply NoDup_app; (split; [apply Hty |]);
      (split; [| apply NoDup_singleton]); intros x Hx Hx';
      apply list_elem_of_singleton in Hx'; congruence.
  - rewrite !update_decision_ids by reflexivity. split; apply Hty.
Qed.

Lemma used_typed row : row ∈ action_decisions rt' -> used_row (rt_db rt') row.
Proof.
  pose proof (lw_store _ (ty_ledger _ Hty)) as Hwf.
  pose proof (ledger_steps_store _ _ _ (ef_ledger _ _ _ Heff)) as Hs.
  assert (Hold : forall r, r ∈ action_decisions rt -> used_row (rt_db rt') r)
    by (intros r Hr; exact (used_row_grows _ _ _ Hwf Hs (ty_used _ Hty _ Hr))).
  destruct (ef_decisions _ _ _ Heff) as [Hd | r Hu _ _ Hd | r d Hr Hrev Hv Hd]; rewrite Hd.
  - apply Hold.
  - intros Hin. apply elem_of_app in Hin. destruct Hin as [Hin | Hin]; [auto |].
    apply list_elem_of_singleton in Hin. subst. exact Hu.
  - simpl. intros Hin. apply list_elem_of_fmap in Hin. destruct Hin as (row0 & -> & Hin).
    pose proof (Hold _ Hin) as Hu. case_bool_decide as Hid; [| exact Hu].
    pose proof (ty_used _ Hty _ Hr) as (Hrid & Hrst & _).
    pose proof (revision_keeps _ _ Hrev) as (Hdid & Hda & Hdu).
    assert (row0 = r) as ->.
    { apply (NoDup_map_inj dr_decision_id (action_decisions rt)); auto using ty_decisions.
      congruence. }
    destruct Hu as (_ & _ & _ & q & Hq & Hqid).
    split; [simpl; congruence |]. split; [apply Hdu, Hrst |]. split; [exact Hv |].
    exists q. simpl. rewrite Hda. auto.
Qed.

Lemma issued_typed id row : action_requests rt' !! id = Some row -> issued_row (rt_db rt') id row.
Proof.
  pose proof (lw_store _ (ty_ledger _ Hty)) as Hwf.
  pose proof (ledger_steps_store _ _ _ (ef_ledger _ _ _ Heff)) as Hs.
  destruct (ef_requests _ _ _ Heff) as [Hr | id0 row0 _ Hi Hr]; rewrite Hr.
  - intros Hrow. exact (issued_row_grows _ _ _ _ Hwf Hs (ty_issued _ Hty _ _ Hrow)).
  - rewrite lookup_insert_Some. intros [[<- <-] | [_ Hrow]]; [exact Hi |].
    exact (issued_row_grows _ _ _ _ Hwf Hs (ty_issued _ Hty _ _ Hrow)).
Qed.

Lemma effect_typed : runtime_typed rt'.
Proof.
  split.
  - eapply ledger_steps_wf; [apply (ef_ledger _ _ _ Heff) | apply (ty_ledger _ Hty)].
  - exact works_typed.
  - exact keys_typed.
  - exact attempts_typed.
  - exact numbers_typed.
  - exact issued_typed.
  - apply decision_keys_typed.
  - apply decision_keys_typed.
  - exact used_typed.
Qed.
End preserved.

Lemma runtime_step_typed P rt rt' :
  runtime_typed rt -> runtime_step P rt rt' -> runtime_typed rt'.
Proof. intros Hty Hs. eapply effect_typed; [exact Hty | eapply runtime_step_effect; eauto]. Qed.

(** ** The abstract life cycle

    What the work table promises: a set of works, to which a valid PENDING work
    with a new id and a new registration key may be added, and each of which
    may take a step of its life cycle. *)

#[local] Abbreviation Works := (gmap string WorkExecutionState).

Inductive life_step (s s' : Works) : Prop :=
| life_register w :
    validate_work w = Ok w -> w_status w = PENDING -> s !! w_work_id w = None ->
    (forall id v, s !! id = Some v -> registration_key v <> registration_key w) ->
    s' = <[w_work_id w := w]> s -> life_step s s'
| life_advance w w' :
    s !! w_work_id w = Some w -> work_step w w' -> s' = <[w_work_id w := w']> s ->
    life_step s s'.

Definition works_view rt : Works := wr_payload <$> work_states (rt_db rt).

Lemma works_view_lookup rt id w :
  works_view rt !! id = Some w <->
  exists row, work_states (rt_db rt) !! id = Some row /\ wr_payload row = w.
Proof.
  unfold works_view. rewrite lookup_fmap, fmap_Some. split; intros (row & H5 & H6); eauto.
Qed.

Lemma effect_refines P rt rt' :
  runtime_typed rt -> effect P rt rt' ->
  works_view rt' = works_view rt \/ life_step (works_view rt) (works_view rt').
Proof.
  intros Hty Heff. unfold works_view.
  destruct (ef_works _ _ _ Heff) as [Hw | w key Hv Hp Hk _ Hn Hkey Hw | i r r' Hi Hkey Hst _ Hw
    | i r worker expires Hi Hwk Hw];
    rewrite Hw; [left; reflexivity | right | right | left]; rewrite fmap_insert.
  - eapply life_register; [exact Hv | exact Hp | rewrite lookup_fmap, Hn; reflexivity | | reflexivity].
    intros id v Hid. apply (works_view_lookup rt) in Hid. destruct Hid as (row & Hrow & <-).
    rewrite (proj2 (proj2 (ty_work _ Hty _ _ Hrow))), Hk. intros [= Heq]. apply Hkey.
    apply list_elem_of_fmap. exists row. split; [congruence | apply rows_of_elem; eauto].
  - assert (Hid : w_work_id (wr_payload r) = i) by apply (ty_work _ Hty _ _ Hi).
    eapply life_advance; [| exact Hst | rewrite Hid; reflexivity].
    rewrite Hid, lookup_fmap, Hi. reflexivity.
  - apply insert_id. rewrite lookup_fmap, Hi. reflexivity.
Qed.

(** C4. The services refine the abstract life cycle: whatever transactions they
    run, the stored works change only by registrations of valid PENDING works
    under new ids and keys, and by life-cycle steps. *)
Theorem services_refine_life_cycle P rt rt' :
  runtime_typed rt -> rtc (runtime_step P) rt rt' -> rtc life_step (works_view rt) (works_view rt').
Proof.
  intros Hty Hs. induction Hs as [| rt1 rt2 rt3 Hs _ IH]; [reflexivity |].
  specialize (IH (runtime_step_typed _ _ _ Hty Hs)).
  destruct (effect_refines _ _ _ Hty (runtime_step_effect _ _ _ Hty Hs)) as [Heq | Hl].
  - rewrite <- Heq. exact IH.
  - eapply rtc_l; eauto.
Qed.

(** C14. The tables stay typed: after every history each row is a valid record of
    its class under its own key, registration keys and attempt numbers are
    distinct, every issued decision is for its action, and every action has at
    most one used decision. *)
Theorem runtime_tables_typed P rt rt' :
  runtime_typed rt -> rtc (runtime_step P) rt rt' -> runtime_typed rt'.
Proof. intros Hty Hs. induction Hs; eauto using runtime_step_typed. Qed.

(** ** Parallelism *)

Definition counts (a : string) (row : WorkRow) : nat := if in_analysis a RUNNING row then 1 else 0.

Lemma running_insert_new db db' id row a :
  work_states db !! id = None -> work_states db' = <[id := row]> (work_states db) ->
  running db' a = (counts a row + running db a)%nat.
Proof.
  intros Hn Hw. unfold running, rows_of. rewrite Hw.
  rewrite (map_to_list_insert _ _ _ Hn). cbn [map snd]. rewrite filter_cons.
  unfold counts. destruct (in_analysis a RUNNING row); [rewrite decide_True by reflexivity |];
    reflexivity.
Qed.

Lemma running_insert db db' id row row' a :
  work_states db !! id = Some row -> work_states db' = <[id := row']> (work_states db) ->
  (running db' a + counts a row = counts a row' + running db a)%nat.
Proof.
  intros Hi Hw. set (base := set_works db (delete id (work_states db)) (current_records db)).
  assert (Hb : work_states base !! id = None) by apply lookup_delete_eq.
  rewrite (running_insert_new base db' id row' a Hb), (running_insert_new base db id row a Hb);
    simpl.
  - lia.
  - rewrite insert_delete_eq, insert_id by exact Hi. reflexivity.
  - rewrite insert_delete_eq. exact Hw.
Qed.

(** The execution profile a run pins is the same after every history. *)
Lemma pinned_profile P db db' a st (p : ExecutionBudgetProfile) :
  ledger_wf db -> rtc (ledger_step P) db db' -> get_run db a = Ok st ->
  resolve_db db (RRun (s_execution_budget_profile_ref st)) false = Ok (RecExecution p) ->
  exists st', get_run db' a = Ok st'
    /\ resolve_db db' (RRun (s_execution_budget_profile_ref st')) false = Ok (RecExecution p).
Proof.
  intros Hwf Hs. revert st. induction Hs as [| db1 db2 db3 Hs _ IH]; intros st Hst Hp; [eauto |].
  destruct (ledger_step_runs _ _ _ Hs _ _ Hst) as (st2 & Hst2 & Href).
  apply (IH (ledger_step_wf _ _ _ Hwf Hs) st2 Hst2). rewrite Href.
  eapply resolve_grown; [apply Hwf | eapply ledger_step_store; eauto | exact Hp].
Qed.

Lemma running_step P rt rt' a st (p : ExecutionBudgetProfile) :
  runtime_typed rt -> effect P rt rt' -> get_run (rt_db rt) a = Ok st ->
  resolve_db (rt_db rt) (RRun (s_execution_budget_profile_ref st)) false = Ok (RecExecution p) ->
  Z.of_nat (running (rt_db rt) a) <= max_parallel_work p ->
  Z.of_nat (running (rt_db rt') a) <= max_parallel_work p.
Proof.
  intros Hty Heff Hst Hp Hle. pose proof (lw_store _ (ty_ledger _ Hty)) as Hwf.
  destruct (ef_works _ _ _ Heff) as [Hw | w key Hv Hpd Hk _ Hn Hkey Hw | i r r' Hi Hkey Hstep Had Hw
    | i r worker expires Hi Hwk Hw].
  - unfold running, rows_of in *. rewrite Hw. exact Hle.
  - rewrite (running_insert_new _ _ _ _ a Hn Hw). unfold counts, in_analysis. simpl.
    rewrite Hpd, andb_false_r. exact Hle.
  - pose proof (running_insert _ _ _ _ _ a Hi Hw) as Hc.
    assert (Hb : (counts a r' <= 1)%nat) by (unfold counts; destruct (in_analysis _ _ _); lia).
    destruct (counts a r') as [| n] eqn:Hr'; [lia |].
    unfold counts, in_analysis in Hr'. destruct (_ && _) eqn:Hrun in Hr'; [| discriminate].
    boolify. destruct Hrun as [Ha Hrun]. destruct (proj2 Had Hrun) as (scope & profile & He & Hlt).
    rewrite Ha in He, Hlt.
    apply (execution_fuel_profile _ _ _ _ _ Hwf) in He. destruct He as (st' & Hst' & Hp' & _).
    replace st' with st in Hp' by congruence. replace profile with p in Hlt by congruence. lia.
  - pose proof (running_insert _ _ _ _ _ a Hi Hw) as Hc.
    change (counts a (relet r worker expires)) with (counts a r) in Hc. lia.
Qed.

(** C10. A run never exceeds its parallelism: after every history of services,
    at most [max_parallel_work] of its works are RUNNING, for the execution
    profile its run state pins. *)
Theorem parallel_work_bounded P rt rt' a st (p : ExecutionBudgetProfile) :
  runtime_typed rt -> get_run (rt_db rt) a = Ok st ->
  resolve_db (rt_db rt) (RRun (s_execution_budget_profile_ref st)) false = Ok (RecExecution p) ->
  Z.of_nat (running (rt_db rt) a) <= max_parallel_work p -> rtc (runtime_step P) rt rt' ->
  Z.of_nat (running (rt_db rt') a) <= max_parallel_work p.
Proof.
  intros Hty Hst Hp Hle Hs. revert st Hst Hp Hle.
  induction Hs as [| rt1 rt2 rt3 Hs _ IH]; intros st Hst Hp Hle; [exact Hle |].
  pose proof (runtime_step_effect _ _ _ Hty Hs) as Heff.
  destruct (pinned_profile _ _ _ _ _ _ (ty_ledger _ Hty) (ef_ledger _ _ _ Heff) Hst Hp)
    as (st2 & Hst2 & Hp2).
  apply (IH (effect_typed _ _ _ Hty Heff) st2 Hst2 Hp2). eapply running_step; eauto.
Qed.

(** ** Cancellation *)

Definition latched db (a : string) : Prop := cancel_latched db a = true.

Lemma latched_step P rt rt' a : effect P rt rt' -> latched (rt_db rt) a -> latched (rt_db rt') a.
Proof.
  intros Heff. unfold latched, cancel_latched. rewrite !mem_true. apply (ef_controls _ _ _ Heff).
Qed.

(** Every work of a run was already there, and runs only if it ran. *)
Definition frozen a db db' : Prop :=
  forall id row', work_states db' !! id = Some row' ->
    rm_analysis_id (w_meta (wr_payload row')) = a ->
    exists row, work_states db !! id = Some row
      /\ rm_analysis_id (w_meta (wr_payload row)) = a
      /\ (w_status (wr_payload row') = RUNNING -> wr_payload row = wr_payload row').

#[local] Instance frozen_preorder a : PreOrder (frozen a).
Proof.
  split; [intros db id row Hrow Ha; exists row; auto |].
  intros x y z Hxy Hyz id row Hrow Ha. destruct (Hyz id row Hrow Ha) as (row2 & Hrow2 & Ha2 & Hr2).
  destruct (Hxy id row2 Hrow2 Ha2) as (row1 & Hrow1 & Ha1 & Hr1). exists row1.
  repeat (split; [assumption |]). intros Hrun. specialize (Hr2 Hrun). rewrite <- Hr2 in Hrun.
  rewrite (Hr1 Hrun). exact Hr2.
Qed.

Lemma frozen_step P rt rt' a :
  effect P rt rt' -> latched (rt_db rt) a -> frozen a (rt_db rt) (rt_db rt').
Proof.
  unfold latched. intros Heff Hl id row' Hrow' Ha.
  destruct (ef_works _ _ _ Heff) as [Hw | w key _ _ _ Hc _ _ Hw | i r r' Hi _ Hstep Had Hw
    | i r worker expires Hi Hwk Hw]; rewrite Hw in Hrow'.
  - exists row'. auto.
  - apply lookup_insert_Some in Hrow'. destruct Hrow' as [[_ <-] | [_ Hr]]; [| exists row'; auto].
    simpl in Ha. congruence.
  - apply lookup_insert_Some in Hrow'. destruct Hrow' as [[<- <-] | [_ Hr]]; [| exists row'; auto].
    exists r. split; [exact Hi |]. rewrite <- (same_analysis _ _ Hstep). split; [exact Ha |].
    intros Hrun. pose proof (proj1 Had (or_intror Hrun)) as Hc. rewrite Ha in Hc. congruence.
  - apply lookup_insert_Some in Hrow'. destruct Hrow' as [[<- <-] | [_ Hr]]; [| exists row'; auto].
    exists r. auto.
Qed.

Lemma frozen_steps P rt rt' a :
  runtime_typed rt -> rtc (runtime_step P) rt rt' -> latched (rt_db rt) a ->
  latched (rt_db rt') a /\ frozen a (rt_db rt) (rt_db rt').
Proof.
  intros Hty Hs. induction Hs as [rt0 | rt1 rt2 rt3 Hs _ IH]; intros Hl; [split; [exact Hl | reflexivity] |].
  pose proof (runtime_step_effect _ _ _ Hty Hs) as Heff.
  destruct (IH (effect_typed _ _ _ Hty Heff) (latched_step _ _ _ _ Heff Hl)) as [Hl3 Hf3].
  split; [exact Hl3 |]. etransitivity; [eapply frozen_step; eauto | exact Hf3].
Qed.

Lemma make_ready_admitted rt tick t w rt' :
  make_ready rt tick t = Ok (w, rt') -> cancel_latched (rt_db rt) (rm_analysis_id (w_meta w)) = false.
Proof.
  intros Hr. apply make_ready_Ok in Hr.
  destruct Hr as (p & d & rt1 & db1 & ref & tref & meta & _ & Hc & _ & _ & _ & _ & _ & Hm & Hv & _).
  apply validate_work_Ok in Hv. destruct Hv as [-> _]. apply next_meta_Ok in Hm.
  destruct Hm as [-> _]. exact Hc.
Qed.

Lemma start_admitted rt tick t b res worker lease w rt' :
  start rt tick t b res worker lease = Ok (w, rt') ->
  cancel_latched (rt_db rt) (rm_analysis_id (w_meta w)) = false.
Proof.
  intros Hr. apply start_Ok in Hr.
  destruct Hr as (p & q & r & profile & ref & db1 & tref & meta & prior & d & rt1 & ref2 & db2 & db3
    & db4 & _ & _ & Hc & _ & _ & _ & _ & _ & _ & _ & _ & _ & Hm & Hv & _).
  apply validate_work_Ok in Hv. destruct Hv as [-> _]. apply next_meta_Ok in Hm.
  destruct Hm as [-> _]. exact Hc.
Qed.

(** C11. The modelled services make cancellation final: once a run is cancelled,
    [WorkService.register], [WorkService.make_ready] and [AttemptService.start]
    refuse every work of it; and through every history of the transactions of
    [runtime_step] it stays cancelled, no work is added to it, and a work of it
    that is RUNNING is one that was RUNNING, unchanged. The dynamic and chaining
    registrations, which do not check the latch, are not such transactions. *)
Theorem cancellation_final P rt rt' a :
  runtime_typed rt -> cancel_latched (rt_db rt) a = true -> rtc (runtime_step P) rt rt' ->
  cancel_latched (rt_db rt') a = true
  /\ (forall id row', work_states (rt_db rt') !! id = Some row' ->
        rm_analysis_id (w_meta (wr_payload row')) = a ->
        exists row, work_states (rt_db rt) !! id = Some row
          /\ (w_status (wr_payload row') = RUNNING -> wr_payload row = wr_payload row'))
  /\ (forall tick w dref res w' rt2, register rt' tick w dref res = Ok (w', rt2) ->
        rm_analysis_id (w_meta w) <> a)
  /\ (forall tick t w rt2, make_ready rt' tick t = Ok (w, rt2) -> rm_analysis_id (w_meta w) <> a)
  /\ (forall tick t b res worker lease w rt2,
        start rt' tick t b res worker lease = Ok (w, rt2) -> rm_analysis_id (w_meta w) <> a).
Proof.
  intros Hty Hl Hs. destruct (frozen_steps _ _ _ a Hty Hs Hl) as [Hl' Hf]. unfold latched in Hl'.
  split; [exact Hl' |]. split; [| split; [| split]].
  - intros id row' Hrow Ha. destruct (Hf id row' Hrow Ha) as (row & H5 & _ & H6). eauto.
  - intros tick w dref res w' rt2 Hr. apply register_Ok in Hr. destruct Hr as (_ & Hc & _). congruence.
  - intros tick t w rt2 Hr. apply make_ready_admitted in Hr. congruence.
  - intros tick t b res worker lease w rt2 Hr. apply start_admitted in Hr. congruence.
Qed.

(** ** Decisions *)

Lemma decisions_follow_steps P rt rt' row :
  runtime_typed rt -> rtc (runtime_step P) rt rt' -> row ∈ action_decisions rt ->
  runtime_typed rt' /\ exists row', row' ∈ action_decisions rt' /\ row_follows row row'.
Proof.
  intros Hty Hs. revert row. induction Hs as [rt0 | rt1 rt2 rt3 Hs _ IH]; intros row Hin.
  - split; [exact Hty |]. exists row. split; [exact Hin | repeat split].
  - pose proof (runtime_step_effect _ _ _ Hty Hs) as Heff.
    destruct (decisions_follow _ _ _ Hty Heff row Hin) as (row2 & Hin2 & Hf2).
    destruct (IH (effect_typed _ _ _ Hty Heff) row2 Hin2) as (Hty3 & row3 & Hin3 & Hf3).
    split; [exact Hty3 |]. exists row3. split; [exact Hin3 |].
    unfold row_follows in *. intuition congruence.
Qed.

(** C12. An action is used once, by whichever service: a claimed decision stays
    claimed at its time through every history, and every later claim is of
    another action and another decision. *)
Theorem action_used_once P rt rt' row :
  runtime_typed rt -> row ∈ action_decisions rt -> rtc (runtime_step P) rt rt' ->
  (exists row', row' ∈ action_decisions rt' /\ dr_action_id row' = dr_action_id row
     /\ d_use_status (dr_payload row') = USED
     /\ d_used_at (dr_payload row') = d_used_at (dr_payload row))
  /\ forall tick dref kind w res nb d rt2, claim rt' tick dref kind w res nb = Ok (d, rt2) ->
       d_decision_id d <> dr_decision_id row /\ d_action_ref d <> d_action_ref (dr_payload row).
Proof.
  intros Hty Hin Hs. destruct (decisions_follow_steps _ _ _ _ Hty Hs Hin) as (Hty' & row' & Hin' & Hf).
  destruct Hf as (Hdid & Haid & Href & Hat). pose proof (ty_used _ Hty' _ Hin') as (_ & Hused & _ & q & Hq & Hqid).
  split; [exists row'; auto |]. intros tick dref kind w res nb d rt2 Hc. apply claim_Ok in Hc.
  destruct Hc as (d0 & q' & meta & Hchk & _ & -> & _ & Hfresh & _). apply check_Ok in Hchk.
  destruct Hchk as (_ & _ & Hq' & _ & _ & _ & _ & _ & _ & _ & _ & Hact & _). split.
  - intros Heq. apply Hfresh, list_elem_of_fmap. exists row'. split; [congruence | exact Hin'].
  - simpl. intros Heq. apply Hact, list_elem_of_fmap. exists row'. split; [| exact Hin'].
    rewrite <- Hqid. rewrite Href, <- Heq in Hq. congruence.
Qed.

Lemma issued_stays P rt rt' id row :
  runtime_typed rt -> rtc (runtime_step P) rt rt' -> action_requests rt !! id = Some row ->
  action_requests rt' !! id = Some row.
Proof.
  intros Hty Hs. induction Hs as [| rt1 rt2 rt3 Hs _ IH]; [auto |]. intros Hrow.
  pose proof (runtime_step_effect _ _ _ Hty Hs) as Heff. apply IH.
  - exact (effect_typed _ _ _ Hty Heff).
  - destruct (ef_requests _ _ _ Heff) as [-> | id0 row0 Hn _ ->]; [exact Hrow |].
    rewrite lookup_insert_ne; [exact Hrow | congruence].
Qed.

Lemma typed_steps P rt rt' : runtime_typed rt -> rtc (runtime_step P) rt rt' -> runtime_typed rt'.
Proof. intros Hty Hs. induction Hs; eauto using runtime_step_typed. Qed.

(** The decision a row names, after every history. *)
Lemma authorize_known rt tick q work res d rt' :
  runtime_typed rt -> authorize rt tick q work res = Ok (d, rt') ->
  validate_action q = Ok q
  /\ exists row ref, action_requests rt' !! q_action_id q = Some row
       /\ reference (RecAction q) = Ok ref /\ i_request_ref row = ref
       /\ resolve_db (rt_db rt') (i_decision_ref row) false = Ok (RecDecision d).
Proof.
  intros Hty Ha. pose proof (lw_store _ (ty_ledger _ Hty)) as Hwf. apply authorize_Ok in Ha.
  destruct Ha as (Hv & [(-> & prior & ref & H5 & H6 & H7 & H8) | (Hnew & rref & aref & db1 & w' & checks
    & refs & dref & cl & Hs1 & _ & _ & _ & -> & _ & Hs2 & Hrt)]); (split; [exact Hv |]);
    [eauto 10 |].
  pose proof (stage_publish_resolved _ _ _ _ Hwf Hs1) as [Href _].
  pose proof (steady_wf _ _ (stage_publish_steady _ _ _ _ Hs1) Hwf) as Hwf1.
  pose proof (stage_publish_resolved _ _ _ _ Hwf1 Hs2) as [_ Hd].
  exists (mkIssued rref dref), rref. rewrite Hrt. simpl. rewrite lookup_insert_eq. auto.
Qed.

(** A decision is final: asked again for the same action, after any history
    and whatever is offered with it, [authorize] answers with the decision it
    took and changes nothing, and it refuses any other request under the same
    action id. *)
Theorem decision_final P rt tick q work res d rt1 rt2 :
  runtime_typed rt -> authorize rt tick q work res = Ok (d, rt1) -> rtc (runtime_step P) rt1 rt2 ->
  (forall tick' work' res', authorize rt2 tick' q work' res' = Ok (d, rt2))
  /\ (forall tick' q' work' res' d' rt3, q_action_id q' = q_action_id q ->
        authorize rt2 tick' q' work' res' = Ok (d', rt3) ->
        reference (RecAction q') = reference (RecAction q) /\ d' = d /\ rt3 = rt2).
Proof.
  intros Hty Ha Hs.
  assert (Hty1 : runtime_typed rt1)
    by (eapply runtime_step_typed; [exact Hty | eapply (rt_authorize P), Ha]).
  destruct (authorize_known _ _ _ _ _ _ _ Hty Ha) as (Hv & row & ref & Hrow & Href & Hreq & Hd).
  pose proof (issued_stays _ _ _ _ _ Hty1 Hs Hrow) as Hrow2.
  assert (Hd2 : resolve_db (rt_db rt2) (i_decision_ref row) false = Ok (RecDecision d)).
  { eapply resolve_grown; [apply (lw_store _ (ty_ledger _ Hty1)) | | exact Hd].
    clear Ha Hd Hrow Hrow2 Hty. induction Hs as [| a b c Hs _ IH]; [reflexivity |].
    pose proof (runtime_step_effect _ _ _ Hty1 Hs) as Heff.
    etransitivity; [eapply ledger_steps_store, (ef_ledger _ _ _ Heff) |].
    apply IH. exact (effect_typed _ _ _ Hty1 Heff). }
  split.
  - intros tick' work' res'. unfold authorize. rewrite Hv. cbn [rbind].
    rewrite Hrow2, Href. cbn [rbind]. rewrite bool_decide_true by exact Hreq. cbn [negb].
    rewrite Hd2. reflexivity.
  - intros tick' q' work' res' d' rt3 Hid Ha'. apply authorize_Ok in Ha'. rewrite Hid, Hrow2 in Ha'.
    destruct Ha' as (_ & [(-> & prior & ref' & H5 & H6 & H7 & H8) | (Hno & _)]); [| discriminate].
    injection H5 as <-. rewrite H6, Href. split; [congruence |]. split; [congruence | reflexivity].
Qed.

(** ** Registration *)

Lemma registered_stays P rt rt' id row :
  runtime_typed rt -> rtc (runtime_step P) rt rt' -> work_states (rt_db rt) !! id = Some row ->
  exists row', work_states (rt_db rt') !! id = Some row'
    /\ wr_registration_key row' = wr_registration_key row.
Proof.
  intros Hty Hs. revert row. induction Hs as [| rt1 rt2 rt3 Hs _ IH]; [eauto |]. intros row Hrow.
  pose proof (runtime_step_effect _ _ _ Hty Hs) as Heff.
  assert (Hnext : exists row2, work_states (rt_db rt2) !! id = Some row2
                    /\ wr_registration_key row2 = wr_registration_key row).
  { assert (Hkept : forall i r r', work_states (rt_db rt1) !! i = Some r ->
        wr_registration_key r' = wr_registration_key r ->
        exists row2, <[i := r']> (work_states (rt_db rt1)) !! id = Some row2
          /\ wr_registration_key row2 = wr_registration_key row).
    { intros i r r' Hi Hkey. destruct (decide (i = id)) as [-> | Hne].
      - exists r'. rewrite lookup_insert_eq. split; congruence.
      - exists row. rewrite lookup_insert_ne by congruence. auto. }
    destruct (ef_works _ _ _ Heff) as [-> | w key _ _ _ _ Hn _ -> | i r r' Hi Hkey _ _ ->
      | i r worker expires Hi _ ->]; [eauto | | eauto | eauto].
    exists row. rewrite lookup_insert_ne by congruence. auto. }
  destruct Hnext as (row2 & Hrow2 & Hk2).
  destruct (IH (effect_typed _ _ _ Hty Heff) row2 Hrow2) as (row3 & Hrow3 & Hk3).
  exists row3. split; [exact Hrow3 | congruence].
Qed.

Lemma find_by_key rt row id :
  runtime_typed rt -> work_states (rt_db rt) !! id = Some row ->
  find (fun r => eqb (wr_registration_key r) (wr_registration_key row)) (rows_of (rt_db rt))
  = Some row.
Proof.
  intros Hty Hrow. destruct (find _ _) as [r |] eqn:Hf.
  - apply find_some in Hf. destruct Hf as [Hin Hk]. boolify. apply list_elem_of_In, rows_of_elem in Hin.
    destruct Hin as [id' Hid']. assert (id' = id) as -> by (eapply ty_keys; eauto). congruence.
  - exfalso. assert (Hin : row ∈ rows_of (rt_db rt)) by (apply rows_of_elem; eauto).
    apply list_elem_of_In in Hin. pose proof (find_none _ _ Hf row Hin) as Hn. simpl in Hn.
    rewrite bool_decide_true in Hn by reflexivity. discriminate.
Qed.

(** A work is registered once: after any history, a registration with the
    key of a registered work returns that work as it is now and changes
    nothing, while its run is not cancelled. *)
Theorem registered_once P rt tick w dref res w' rt1 rt2 :
  runtime_typed rt -> register rt tick w dref res = Ok (w', rt1) -> rtc (runtime_step P) rt1 rt2 ->
  exists row, work_states (rt_db rt2) !! w_work_id w' = Some row
    /\ w_work_id (wr_payload row) = w_work_id w'
    /\ forall tick' v dref' res', validate_work v = Ok v -> registration_key v = registration_key w ->
         cancel_latched (rt_db rt2) (rm_analysis_id (w_meta v)) = false ->
         register rt2 tick' v dref' res' = Ok (wr_payload row, rt2).
Proof.
  intros Hty Hr Hs.
  assert (Hty1 : runtime_typed rt1)
    by (eapply runtime_step_typed; [exact Hty | eapply (rt_register P), Hr]).
  pose proof (typed_steps _ _ _ Hty1 Hs) as Hty2.
  assert (Hreg : exists key row1, registration_key w = Ok key /\ wr_registration_key row1 = key
                   /\ work_states (rt_db rt1) !! w_work_id w' = Some row1).
  { apply register_Ok in Hr. destruct Hr as (_ & _ & key & Hk & Hr).
    destruct Hr as [(-> & row & Hf & ->) | (_ & -> & _ & d & rtx & dbx & _ & _ & _ & _ & Hrt & Hst)].
    - apply find_some in Hf. destruct Hf as [Hin Hkey]. boolify.
      apply list_elem_of_In, rows_of_elem in Hin. destruct Hin as [id Hid].
      exists key, row. destruct (ty_work _ Hty _ _ Hid) as (-> & _). auto.
    - exists key, (mkWorkRow key w None None). split; [exact Hk |]. split; [reflexivity |].
      rewrite (sd_works _ _ Hst). apply lookup_insert_eq. }
  destruct Hreg as (key & row1 & Hk & Hkey & Hrow1).
  destruct (registered_stays _ _ _ _ _ Hty1 Hs Hrow1) as (row & Hrow & Hkeep).
  exists row. split; [exact Hrow |]. split; [apply (ty_work _ Hty2 _ _ Hrow) |].
  intros tick' v dref' res' Hv Hkv Hc. unfold register. rewrite Hv. cbn [rbind].
  rewrite Hkv, Hk. cbn [rbind]. unfold reject_cancelled. rewrite Hc. cbn [rbind].
  rewrite <- Hkey, <- Hkeep, (find_by_key _ _ _ Hty2 Hrow). reflexivity.
Qed.
End history.
