(* ===== verification/Journal.v ===== *)
(** * The journal of results

    Every transaction of [Transition] is a sequence of transactions of
    [History]; with the journal they form one step relation. The COMMITTED entry
    [DynamicRegistrationService._park_parent] inserts by itself when a
    verification hands over to its dynamic run is not a step. Its invariant types
    the journal, and gives what a reader of the journal relies on: an entry
    settles once, a work version has one committed result, a committed result is
    replayed and never published again, and recovery leaves nothing open. *)
From S2P Require Import Prelude Records CanonicalJson Store Work Processes WorkLife Actions.
From S2P Require Import Budget Runtime Registry Hierarchy Ledger Dispatch Authority Outputs.
From S2P Require Import Validator Services Projections Transition History.

Section journal.
Context `{CodecLaws} `{TrustedEvidence} `{Host} `{StageRules} `{OutcomeRules}.
Context (P : Db -> BudgetLedgerEntry -> Prop).
Implicit Types (db : Db) (rt : Rt) (w p : WorkExecutionState) (c : TransitionCommit).

(** ** Publications that leave works and journal alone *)

Lemma steady_quiet db db' : steady db db' -> quiet P db db'.
Proof. intros Hs. split; apply Hs. Qed.

Lemma quiet_wf db db' : quiet P db db' -> ledger_wf db -> ledger_wf db'.
Proof. intros Hq. apply (ledger_steps_wf P), Hq. Qed.

Lemma stage_publish_quiet db r ref db' : stage_publish db r = Ok (ref, db') -> quiet P db db'.
Proof. intros Hs. eapply steady_quiet, stage_publish_steady, Hs. Qed.

Lemma publish_db_quiet db ref db' : publish_db db ref = Ok db' -> quiet P db db'.
Proof. intros Hp. apply steady_quiet, grown_steady. eapply publish_db_Ok, Hp. Qed.

Lemma set_pointer_quiet db logical pointer : quiet P db (set_pointer db logical pointer).
Proof. apply steady_quiet, pointer_steady. Qed.

Lemma publish_pointer_quiet db ref db' : publish_pointer db ref = Ok db' -> quiet P db db'.
Proof.
  unfold publish_pointer. intros Hp. call Hp as record _.
  destruct (current_records db !! _) as [[id version] |]; apply raise_if_Ok in Hp;
    destruct Hp as [_ [= <-]]; apply set_pointer_quiet.
Qed.

Lemma publish_projection_quiet db r db' : publish_projection db r = Ok db' -> quiet P db db'.
Proof.
  unfold publish_projection. intros Hp. call Hp as [ref db1] Hs.
  etransitivity; [eapply stage_publish_quiet, Hs | eapply publish_pointer_quiet, Hp].
Qed.

Lemma publish_current_quiet db m prev db' : publish_current db m prev = Ok db' -> quiet P db db'.
Proof.
  unfold publish_current. intros Hp. destruct prev; unbind Hp; injection Hp as <-;
    apply set_pointer_quiet.
Qed.

(** A loop of quiet publications is quiet. *)
Lemma fold_quiet {A} (f : Db -> A -> result Db) l db db' :
  (forall db x db', f db x = Ok db' -> quiet P db db') -> fold_result f db l = Ok db' ->
  quiet P db db'.
Proof.
  intros Hf. apply (fold_result_inv (quiet P db)); [| reflexivity].
  intros b x b' _ Hb Hx. etransitivity; [exact Hb | eapply Hf, Hx].
Qed.

Lemma save_run_quiet db state (p : AnalysisRunState) db' : save_run db state (Some p) = Ok db' -> quiet P db db'.
Proof.
  intros Hs. pose proof Hs as Hrun. unfold save_run in Hrun. call Hrun as [] _. call Hrun as [ref db1] Hst.
  cbv beta iota zeta in Hrun. unbind Hrun. injection Hrun as <-. boolify.
  pose proof (stage_publish_quiet _ _ _ _ Hst) as Hq.
  apply stage_publish_Ok, store_grown_tables in Hst. destruct Hst as (_ & _ & _ & Hr).
  rewrite Hr in *. split; [apply rtc_once, ls_env; eapply save_run_env; eauto | apply Hq ..].
Qed.

Lemma project_workspace_quiet db tick (w : CodeWorkspace) db' : project_workspace db tick w = Ok db' -> quiet P db db'.
Proof.
  unfold project_workspace. intros Hp. call Hp as ? ?. call Hp as ? ?. call Hp as ? ?. call Hp as ? ?.
  call Hp as ? ?. eapply save_run_quiet, Hp.
Qed.

Lemma run_policy_quiet rt tick w l db' :
  run_policy_projection rt tick w l = Ok db' -> quiet P (rt_db rt) db'.
Proof.
  unfold run_policy_projection. intros Hp. call Hp as u _.
  destruct u as [u |]; [| injection Hp as <-; reflexivity].
  apply rbind_Ok in Hp. destruct Hp as (db1 & H1' & Hp). apply publish_current_quiet in H1'.
  apply rbind_Ok in Hp. destruct Hp as (db2 & H2' & Hp). etransitivity; [exact H1' |].
  transitivity db2.
  - destruct (pu_cache u); [apply publish_current_quiet in H2'; exact H2' |].
    injection H2' as <-. reflexivity.
  - call Hp as ? ?. call Hp as ? ?. call Hp as ? ?. call Hp as ? ?. call Hp as ? ?.
    eapply save_run_quiet, Hp.
Qed.

Lemma publish_output_quiet rt tick w db r db' :
  publish_output rt tick w db r = Ok db' -> quiet P db db'.
Proof.
  unfold publish_output. intros Hp. call Hp as ref _.
  call Hp as published _.
  destruct published; [injection Hp as <-; reflexivity |].
  apply rbind_Ok in Hp. destruct Hp as (db1 & H1' & Hp). apply rbind_Ok in Hp.
  destruct Hp as (db2 & H2' & Hp). etransitivity; [eapply publish_db_quiet, H1' |].
  transitivity db2.
  - destruct (mem _ _); [injection H2' as <-; reflexivity | eapply publish_pointer_quiet, H2'].
  - destruct r; try (injection Hp as <-; reflexivity). eapply project_workspace_quiet, Hp.
Qed.

(** A change of the tables the ledger does not look at. *)
Lemma matches_quiet db rows : quiet P db (set_matches db rows).
Proof.
  split; try reflexivity. apply rtc_once, ls_env. repeat split; try reflexivity. eauto.
Qed.

Lemma add_artifacts_quiet db digests : quiet P db (add_artifacts db digests).
Proof.
  split; try reflexivity. apply rtc_once, ls_env. repeat split; try reflexivity. eauto.
Qed.

Lemma reserve_result_quiet db r l db' :
  reserve_chaining_result_matches db r l = Ok db' -> quiet P db db'.
Proof.
  unfold reserve_chaining_result_matches. intros Hp. call Hp as ref _. destruct ref; try discriminate Hp.
  call Hp as [] _. call Hp as source _. destruct (match_candidates source); [| discriminate].
  destruct (rec_metadata source) as [m |]; [| discriminate].
  destruct (rm_code m); [| discriminate]. apply raise_if_Ok in Hp. destruct Hp as [_ Hp].
  apply rbind_Ok in Hp. destruct Hp as ([rows seen] & _ & [= <-]). apply matches_quiet.
Qed.

Lemma reserve_matches_quiet db l db' : reserve_matches db l = Ok db' -> quiet P db db'.
Proof.
  apply fold_quiet. intros db0 r db1 Hr. destruct (match_candidates r).
  - eapply reserve_result_quiet, Hr.
  - injection Hr as <-. reflexivity.
Qed.

Lemma publish_projections_quiet db l db' : publish_projections db l = Ok db' -> quiet P db db'.
Proof. apply fold_quiet. exact publish_projection_quiet. Qed.

(** ** Transactions that leave works and journal alone *)

Record still rt rt' : Prop := {
  sl_steps : rtc (runtime_step P) rt rt';
  sl_works : work_states (rt_db rt') = work_states (rt_db rt);
  sl_attempts : work_attempts (rt_db rt') = work_attempts (rt_db rt);
  sl_controls : run_controls (rt_db rt') = run_controls (rt_db rt);
  sl_commits : transition_commits (rt_db rt') = transition_commits (rt_db rt);
}.

#[export] Instance still_preorder : PreOrder still.
Proof.
  split; [intros rt; split; reflexivity |].
  intros x y z [] []. split; [etransitivity; eassumption | congruence ..].
Qed.

Lemma set_db_id rt : set_db rt (rt_db rt) = rt.
Proof. destruct rt. reflexivity. Qed.

Lemma set_db_twice rt db db' : set_db (set_db rt db) db' = set_db rt db'.
Proof. reflexivity. Qed.

Lemma quiet_still rt db : quiet P (rt_db rt) db -> still rt (set_db rt db).
Proof.
  intros Hq. split; simpl; try apply Hq. apply rtc_once, (rt_other P rt _ db); try apply Hq.
  - rewrite (qt_controls _ _ _ Hq). reflexivity.
  - reflexivity.
Qed.

Lemma steady_still rt rt' : steady (rt_db rt) (rt_db rt') -> runtime_step P rt rt' -> still rt rt'.
Proof. intros Hs Hr. split; [apply rtc_once, Hr | apply Hs ..]. Qed.

Lemma claim_still rt tick dref kind w res nb d rt' :
  claim rt tick dref kind w res nb = Ok (d, rt') ->
  still rt rt' /\ exists row, row ∈ action_decisions rt' /\ dr_payload row = d.
Proof.
  intros Hc. pose proof (claim_Ok _ _ _ _ _ _ _ _ _ Hc) as (d0 & q & meta & _ & _ & _ & _ & _ & Hs & Hrt).
  split; [apply steady_still; [exact Hs | eapply rt_claim, Hc] |].
  rewrite Hrt. exists (mkDecisionRow (d_decision_id d) (q_action_id q) d). split; [| reflexivity].
  simpl. apply elem_of_app. right. left.
Qed.

Lemma outcome_still rt id now d outputs d' rt' :
  (exists row, row ∈ action_decisions rt /\ dr_payload row = d) ->
  record_outcome rt id now d outputs = Ok (d', rt') -> still rt rt'.
Proof.
  intros (row & Hin & <-) Ho.
  pose proof (record_outcome_Ok _ _ _ _ _ _ _ Ho) as (meta & _ & _ & _ & Hs & _).
  apply steady_still; [exact Hs | eapply rt_outcome; eassumption].
Qed.

Lemma authorize_still rt tick q work res d rt' :
  authorize rt tick q work res = Ok (d, rt') -> still rt rt'.
Proof.
  intros Ha. apply steady_still; [| eapply rt_authorize, Ha].
  apply authorize_Ok in Ha. destruct Ha as (_ & [(-> & _) | (_ & rref & aref & db1 & w' & checks
    & refs & dref & cl & Hs1 & _ & _ & _ & _ & _ & Hs2 & _)]); [reflexivity |].
  etransitivity; eapply stage_publish_steady; eassumption.
Qed.

Lemma still_typed rt rt' : still rt rt' -> runtime_typed rt -> runtime_typed rt'.
Proof. intros Hs Hty. eapply typed_steps; [exact Hty | apply Hs]. Qed.

Lemma steps_store rt rt' :
  runtime_typed rt -> rtc (runtime_step P) rt rt' ->
  rtc (store_step (R := Rec)) (db_store (rt_db rt)) (db_store (rt_db rt')).
Proof.
  intros Hty Hs. induction Hs as [| rt1 rt2 rt3 H1' _ IH]; [reflexivity |].
  pose proof (runtime_step_effect _ _ _ Hty H1') as Heff.
  etransitivity; [eapply ledger_steps_store, (ef_ledger _ _ _ Heff) |].
  apply IH. eapply runtime_step_typed; eassumption.
Qed.

Lemma still_store rt rt' :
  still rt rt' -> runtime_typed rt ->
  rtc (store_step (R := Rec)) (db_store (rt_db rt)) (db_store (rt_db rt')).
Proof. intros Hs Hty. apply (steps_store _ _ Hty), Hs. Qed.

(** What was published resolves after it. *)
Lemma still_resolve rt rt' ref candidate r :
  still rt rt' -> runtime_typed rt -> resolve_db (rt_db rt) ref candidate = Ok r ->
  resolve_db (rt_db rt') ref candidate = Ok r.
Proof.
  intros Hs Hty. apply resolve_grown; [apply (lw_store _ (ty_ledger _ Hty)) |].
  apply still_store; assumption.
Qed.

Lemma publish_result_still rt tick claimed w request c rt' :
  (exists row, row ∈ action_decisions rt /\ dr_payload row = claimed) ->
  publish_result rt tick claimed w request c = Ok rt' -> still rt rt'.
Proof.
  intros Hrow Hp. unfold publish_result in Hp. call Hp as db1 H1'. call Hp as db2 H2'.
  call Hp as [d rt1] H3'. call Hp as db3 H4'. call Hp as l1 _. call Hp as db4 H5'.
  call Hp as l2 _. call Hp as db5 H6'. call Hp as l3 _. call Hp as db6 H7'.
  injection Hp as <-.
  transitivity (set_db rt db2).
  { apply quiet_still. transitivity db1; [| eapply reserve_matches_quiet, H2'].
    eapply fold_quiet; [| exact H1']. intros; eapply publish_output_quiet; eassumption. }
  transitivity rt1; [eapply outcome_still; [exact Hrow | exact H3'] |].
  rewrite !set_db_twice in *. apply quiet_still. etransitivity; [eapply run_policy_quiet, H4' |].
  etransitivity; [eapply publish_projections_quiet, H5' |].
  etransitivity; [eapply publish_projections_quiet, H6' | eapply publish_projections_quiet, H7'].
Qed.

Lemma report_decision_row rt w draft d :
  report_creation_decision rt w draft = Ok d ->
  exists row, row ∈ action_decisions rt /\ dr_payload row = d.
Proof.
  unfold report_creation_decision. intros Hd. call Hd as exact _. destruct exact; try discriminate Hd.
  destruct (find _ _) as [row |] eqn:Hf; [| discriminate]. call Hd as action _.
  destruct action; try discriminate Hd. apply raise_if_Ok in Hd. destruct Hd as [_ Hd].
  call Hd as r1 _. call Hd as r2 _. call Hd as r3 _. apply raise_if_Ok in Hd. destruct Hd as [_ [= <-]].
  exists row. split; [| reflexivity]. apply find_some in Hf. apply list_elem_of_In, Hf.
Qed.

Lemma projection_still rt r db : publish_projection (rt_db rt) r = Ok db -> still rt (set_db rt db).
Proof. intros Hp. eapply quiet_still, publish_projection_quiet, Hp. Qed.

Lemma publish_indexes_still rt tick p w l c rt' :
  publish_indexes rt tick p w l c = Ok rt' -> still rt rt'.
Proof.
  unfold publish_indexes. intros Hp. call Hp as finding _. call Hp as rt1 H1'. call Hp as report _.
  call Hp as rt2 H2'. call Hp as primitives _. call Hp as index _.
  transitivity rt1; [| transitivity rt2].
  - destruct finding; [| injection H1' as <-; reflexivity]. call H1' as index' _.
    call H1' as db1 Hpub. injection H1' as <-. eapply projection_still, Hpub.
  - destruct report as [[state draft_ref] |]; [| injection H2' as <-; reflexivity].
    call H2' as rt3 H3'. call H2' as db1 Hpub. injection H2' as <-.
    transitivity rt3; [| eapply projection_still, Hpub].
    destruct draft_ref as [draft_ref |]; [| injection H3' as <-; reflexivity].
    destruct (of_kind _ _) as [| draft [|]]; try discriminate H3'.
    call H3' as d Hd. call H3' as [d' rt4] Ho. injection H3' as <-.
    eapply outcome_still; [eapply report_decision_row, Hd | exact Ho].
  - destruct index as [r |]; [| injection Hp as <-; reflexivity]. call Hp as db1 Hpub.
    injection Hp as <-. eapply projection_still, Hpub.
Qed.

(** ** Publishing a result *)

Lemma validate_commit_Ok c c' :
  validate_commit c = Ok c' -> c' = c /\ commit_shape c = Ok tt.
Proof. unfold validate_commit. intros Hv. unbind Hv. split; congruence. Qed.

Lemma validate_attempt_Ok a a' : validate_attempt a = Ok a' -> a' = a.
Proof. unfold validate_attempt. intros Hv. unbind Hv. congruence. Qed.

(** The attempt a result or a cancellation ends, as [rt_publish] asks for it. *)
Lemma attempt_ends rt p id prior ended ref db :
  runtime_typed rt -> w_active_attempt_id p = Some id ->
  work_attempts (rt_db rt) !! id = Some prior ->
  a_attempt_id ended = a_attempt_id prior -> a_work_id ended = a_work_id prior ->
  a_attempt_number ended = a_attempt_number prior -> validate_attempt ended = Ok ended ->
  stage_publish (rt_db rt) (RecAttempt ended) = Ok (ref, db) ->
  quiet P (rt_db rt) db
  /\ attempt_ended p (work_attempts (rt_db rt)) (<[a_attempt_id ended := ended]> (work_attempts db)).
Proof.
  intros Hty Hid Hprior Haid Hwid Hn Hv Hs. pose proof (stage_publish_quiet _ _ _ _ Hs) as Hq.
  split; [exact Hq |]. rewrite (qt_attempts _ _ _ Hq).
  pose proof (ty_attempt _ Hty _ _ Hprior) as [Hpid _]. rewrite Haid, Hpid. right.
  exists id, prior, ended. split; [exact Hid |]. split; [exact Hprior |]. split; [congruence |]. auto.
Qed.

Lemma no_attempt_ends rt p :
  quiet P (rt_db rt) (rt_db rt) /\ rt_db rt = set_attempts (rt_db rt) (work_attempts (rt_db rt))
  /\ attempt_ended p (work_attempts (rt_db rt)) (work_attempts (rt_db rt)).
Proof. split; [reflexivity |]. split; [destruct (rt_db rt); reflexivity | left; reflexivity]. Qed.

Lemma ended_by rt tick p w c db :
  runtime_typed rt -> end_attempt (rt_db rt) tick p w c = Ok db ->
  exists db1 attempts, quiet P (rt_db rt) db1 /\ db = set_attempts db1 attempts
    /\ attempt_ended p (work_attempts (rt_db rt)) attempts.
Proof.
  intros Hty He. unfold end_attempt in He.
  destruct (w_active_attempt_id p) as [id |] eqn:Hid;
    [| injection He as <-; eauto using no_attempt_ends].
  destruct (work_attempts (rt_db rt) !! id) as [prior |] eqn:Hprior; [| discriminate].
  call He as meta Hm. call He as ended Hv. call He as [ref db1] Hs. injection He as <-.
  pose proof (validate_attempt_Ok _ _ Hv) as ->.
  destruct (attempt_ends _ _ _ _ (ended_attempt _ _ _ _ _) _ _ Hty Hid Hprior eq_refl eq_refl
              eq_refl Hv Hs). eauto.
Qed.

Lemma cancelled_by rt tick p now db :
  runtime_typed rt -> cancel_attempt (rt_db rt) tick p now = Ok db ->
  exists db1 attempts, quiet P (rt_db rt) db1 /\ db = set_attempts db1 attempts
    /\ attempt_ended p (work_attempts (rt_db rt)) attempts.
Proof.
  intros Hty He. unfold cancel_attempt in He.
  destruct (w_active_attempt_id p) as [id |] eqn:Hid;
    [| injection He as <-; eauto using no_attempt_ends].
  destruct (work_attempts (rt_db rt) !! id) as [prior |] eqn:Hprior; [| discriminate].
  apply raise_if_Ok in He. destruct He as [_ He].
  call He as meta Hm. call He as ended Hv. call He as [ref db1] Hs. injection He as <-.
  pose proof (validate_attempt_Ok _ _ Hv) as ->.
  destruct (attempt_ends _ _ _ _ (cancelled_attempt _ _ _) _ _ Hty Hid Hprior eq_refl eq_refl
              eq_refl Hv Hs). eauto.
Qed.

(** Everything [finish] does, up to what is quiet. *)
Lemma finish_Ok rt tick request c' rt' :
  runtime_typed rt -> finish rt tick request = Ok (c', rt') ->
  let t := rq_transition request in
  let c := rq_commit request in
  exists p meta at_ rt2 meta' commit_ref waiting now w attempts db,
    check_transition rt (clock (ft tick 0) 0) request = Ok p
    /\ (cancel_latched (rt_db rt) (rm_analysis_id (w_meta p)) = true ->
        c_target_status c = C_CANCELLED)
    /\ next_meta (c_meta c) (fresh (ft tick 2) 0) (clock (ft tick 2) 0) = Ok meta
    /\ c' = settled_commit c meta COMMITTED (Some at_) (c_abort_reason c)
    /\ validate_commit c' = Ok c'
    /\ still rt rt2
    /\ (exists ref, reference (RecCommit c') = Ok ref
          /\ resolve_db (rt_db rt2) ref false = Ok (RecCommit c'))
    /\ next_meta (w_meta p) (fresh (ft tick 13) 0) (clock (ft tick 13) 0) = Ok meta'
    /\ validate_work (finished_work p meta' t c commit_ref waiting now) = Ok w
    /\ attempt_ended p (work_attempts (rt_db rt)) attempts
    /\ save (set_attempts (rt_db rt2) attempts) (ft tick 15) p w = Ok db
    /\ rt' = set_db rt2 (snd (settle_prepared (clear_lease db (w_work_id w)) c')).
Proof.
  intros Hty Hf t c. unfold finish in Hf. fold t c in Hf.
  call Hf as digests _. call Hf as p Hcheck. apply raise_if_Ok in Hf. destruct Hf as [Hlatch Hf].
  call Hf as [claimed rt1] Hclaim. call Hf as meta Hmeta. call Hf as c1 Hval.
  call Hf as [cref db1] Hst. call Hf as rt2 Hpub. call Hf as action _. call Hf as db3 Hret.
  call Hf as meta' Hmeta'. call Hf as commit_ref _. call Hf as w Hw. call Hf as rt4 Hidx.
  call Hf as db5 Hend. call Hf as db6 Hsave.  injection Hf as <- <-.
  pose proof (validate_commit_Ok _ _ Hval) as [-> _].
  pose proof (claim_still _ _ _ _ _ _ _ _ _ Hclaim) as [Hs1 Hrow].
  pose proof (still_typed _ _ Hs1 Hty) as Hty1.
  pose proof (quiet_still rt1 _ (stage_publish_quiet _ _ _ _ Hst)) as Hs2.
  pose proof (publish_result_still (set_db rt1 db1) _ _ _ _ _ _ Hrow Hpub) as Hs3.
  pose proof (stage_publish_resolved _ _ _ _ (lw_store _ (ty_ledger _ Hty1)) Hst) as [Href Hres].
  pose proof (still_typed _ _ Hs2 Hty1) as Hty2.
  assert (Hs4 : still (set_db rt1 db1) (set_db rt2 db3)).
  { transitivity rt2; [exact Hs3 |]. apply quiet_still.
    etransitivity; [apply add_artifacts_quiet |].
    match type of Hret with (if ?b then _ else _) = _ => destruct b end;
      [| injection Hret as <-; reflexivity].
    eapply retire_undispatched_quiet, Hret.
    eapply quiet_wf; [apply add_artifacts_quiet |].
    apply (ty_ledger _ (still_typed _ _ Hs3 Hty2)). }
  assert (Hs6 : still (set_db rt1 db1) rt4)
    by (etransitivity; [exact Hs4 | eapply publish_indexes_still, Hidx]).
  assert (Hs7 : still rt rt4) by (etransitivity; [exact Hs1 | etransitivity; [exact Hs2 | exact Hs6]]).
  destruct (ended_by _ _ _ _ _ _ (still_typed _ _ Hs7 Hty) Hend) as (db2 & attempts & Hq & -> & Hat).
  pose proof (quiet_still _ _ Hq) as Hs8. rewrite (sl_attempts _ _ Hs7) in Hat.
  exists p, meta, (clock (ft tick 2) 1), (set_db rt4 db2), meta', commit_ref. do 5 eexists.
  split; [exact Hcheck |]. split.
  { intros Hl. rewrite Hl in Hlatch. simpl in Hlatch. boolify. exact Hlatch. }
  split; [exact Hmeta |]. split; [reflexivity |]. split; [exact Hval |].
  split; [etransitivity; [exact Hs7 | exact Hs8] |]. split.
  { exists cref. split; [exact Href |]. apply (still_resolve (set_db rt1 db1)); [| exact Hty2 | exact Hres].
    etransitivity; [exact Hs6 | exact Hs8]. }
  split; [exact Hmeta' |]. split; [exact Hw |]. split; [exact Hat |].
  split; [exact Hsave | reflexivity].
Qed.

(** A transition and a journaled commit that are valid and belong together, as
    [commit_request] asks: the commit is PREPARED first. *)
Record sound_pair (t : StateTransition) c : Prop := {
  sp_transition : validate_transition t = Ok t;
  sp_commit : validate_commit c = Ok c;
  sp_prepared : c_state c = PREPARED;
  sp_exact : exists hash, validate_commit_transition c t hash = Ok tt;
}.

Definition sound_request (request : TransitionCommitRequest) : Prop :=
  sound_pair (rq_transition request) (rq_commit request).

Lemma check_transition_Ok rt now request p :
  check_transition rt now request = Ok p ->
  get_work (rt_db rt) (c_work_id (rq_commit request)) = Ok p
  /\ validate_transition_context (rq_transition request) p None = Ok tt.
Proof.
  unfold check_transition. intros Hc. call Hc as refs _. call Hc as w Hw. call Hc as u Hctx.
  destruct u. call Hc as [d q] _. call Hc as u1 _. call Hc as u2 _. call Hc as u3 _.
  call Hc as u4 _. call Hc as u5 _. injection Hc as <-. auto.
Qed.

Lemma stored_id rt id p :
  runtime_typed rt -> get_work (rt_db rt) id = Ok p -> w_work_id p = id.
Proof.
  intros Hty Hg. apply get_work_Ok in Hg. destruct Hg as (row & Hrow & <-).
  apply (ty_work _ Hty _ _ Hrow).
Qed.

(** The version a result was prepared for is that of the stored work. *)
Lemma checked_version rt now request p :
  runtime_typed rt -> sound_request request -> check_transition rt now request = Ok p ->
  w_work_id p = c_work_id (rq_commit request)
  /\ w_state_version p = c_expected_state_version (rq_commit request).
Proof.
  intros Hty [_ _ _ [hash Hexact]] Hc. apply check_transition_Ok in Hc. destruct Hc as [Hg Hctx].
  apply commit_transition_Ok in Hexact. apply transition_context_Ok in Hctx.
  split; [exact (stored_id _ _ _ Hty Hg) |]. destruct Hexact as (_ & -> & _).
  symmetry. apply Hctx.
Qed.

Lemma save_store db tick p w db' :
  save db tick p w = Ok db' -> rtc (store_step (R := Rec)) (db_store db) (db_store db').
Proof.
  intros Hs. apply save_Ok in Hs. destruct Hs as (row & db1 & db2 & _ & _ & Hs1 & -> & Hs2).
  etransitivity; [apply Hs1 | apply (sd_store _ _ Hs2)].
Qed.

Lemma save_commits db tick p w db' :
  save db tick p w = Ok db' -> transition_commits db' = transition_commits db.
Proof.
  intros Hs. apply save_Ok in Hs. destruct Hs as (row & db1 & db2 & _ & _ & Hs1 & -> & Hs2).
  rewrite (sd_commits _ _ Hs2). simpl. apply Hs1.
Qed.

Lemma settle_prepared_env rt db c :
  runtime_step P (set_db rt db) (set_db rt (snd (settle_prepared db c))).
Proof.
  apply (rt_other P _ _ (snd (settle_prepared db c))); try reflexivity;
    unfold settle_prepared; destruct (transition_commits db !! _) as [row |];
    try case_bool_decide; try reflexivity.
  apply rtc_once, ls_env. repeat split; try reflexivity. eauto.
Qed.

Lemma settle_prepared_works db c : work_states (snd (settle_prepared db c)) = work_states db.
Proof. unfold settle_prepared. repeat case_goal; reflexivity. Qed.

Lemma settle_prepared_store db c : db_store (snd (settle_prepared db c)) = db_store db.
Proof. unfold settle_prepared. repeat case_goal; reflexivity. Qed.

Lemma settle_prepared_controls db c : run_controls (snd (settle_prepared db c)) = run_controls db.
Proof. unfold settle_prepared. repeat case_goal; reflexivity. Qed.

(** The journal after a compare-and-set. *)
Definition settled (commits : gmap string CommitRow) c : gmap string CommitRow :=
  alter (fun row => if eqb (c_state (cr_payload row)) PREPARED
                    then mkCommitRow (cr_candidate_binding row) c (cr_transition row)
                           (cr_commit row) (cr_records row)
                    else row) (c_transition_commit_id c) commits.

Lemma settle_prepared_commits db c :
  transition_commits (snd (settle_prepared db c)) = settled (transition_commits db) c.
Proof.
  unfold settle_prepared, settled. apply map_eq. intros id.
  destruct (decide (id = c_transition_commit_id c)) as [-> | Hne].
  - rewrite lookup_alter_eq. destruct (transition_commits db !! _) as [row |] eqn:Hrow; simpl.
    + case_bool_decide; simpl; [apply lookup_insert_eq | exact Hrow].
    + exact Hrow.
  - rewrite lookup_alter_ne by congruence.
    destruct (transition_commits db !! c_transition_commit_id c) as [row |]; [| reflexivity].
    simpl. destruct (eqb _ _); [| reflexivity]. simpl. apply lookup_insert_ne. congruence.
Qed.

(** [finish] as a transaction of the runtime: it publishes one step of the
    stored work and settles its journal entry. *)
Lemma finish_steps rt tick request c' rt' :
  runtime_typed rt -> sound_request request -> finish rt tick request = Ok (c', rt') ->
  rtc (runtime_step P) rt rt'
  /\ transition_commits (rt_db rt') = settled (transition_commits (rt_db rt)) c'
  /\ run_controls (rt_db rt') = run_controls (rt_db rt)
  /\ exists p w row row', get_work (rt_db rt) (c_work_id (rq_commit request)) = Ok p
       /\ work_step p w
       /\ (exists meta cref waiting now,
             w = finished_work p meta (rq_transition request) (rq_commit request) cref waiting now)
       /\ work_states (rt_db rt) !! w_work_id p = Some row /\ wr_payload row' = w
       /\ work_states (rt_db rt') = <[w_work_id p := row']> (work_states (rt_db rt)).
Proof.
  intros Hty Hsound Hf. apply finish_Ok in Hf; [| exact Hty].
  destruct Hf as (p & meta & at_ & rt2 & meta' & cref & waiting & now & w & attempts & db & Hc & _
    & _ & Hc' & _ & Hstill & _ & Hm & Hv & Hat & Hsave & ->).
  destruct Hsound as [Hvt Hvc Hprep [hash Hexact]].
  pose proof (check_transition_Ok _ _ _ _ Hc) as [Hg Hctx].
  pose proof (next_work_publish _ _ _ _ _ _ _ _ _ _ _ _ _ _ _ _ _ Hm Hv) as (Hsame & Hver & Hstat & _).
  assert (Hstep : work_step p w).
  { eapply (step_finish _ (rq_transition request) (rq_commit request) hash);
      [exact Hvt | exact Hvc | exact Hprep | exact Hexact | exact Hctx | exact Hm | exact Hv]. }
  assert (Hid : w_work_id p = w_work_id w) by apply Hsame.
  pose proof (stored_id _ _ _ Hty Hg) as Hpid.
  assert (Hg2 : get_work (rt_db rt2) (w_work_id p) = Ok p)
    by (unfold get_work; rewrite (sl_works _ _ Hstill), Hpid; exact Hg).
  assert (Hcommits : transition_commits db = transition_commits (rt_db rt))
    by (rewrite (save_commits _ _ _ _ _ Hsave); simpl; apply Hstill).
  assert (Hpublish : runtime_step P rt2 (set_db rt2 (clear_lease db (w_work_id w)))).
  { eapply (rt_publish P rt2 _ _ p w attempts db false); [exact Hg2 | exact Hstep | | | | exact Hsave
      | reflexivity].
    - rewrite Hstat. destruct (c_target_status _); discriminate.
    - rewrite Hstat. destruct (c_target_status _); discriminate.
    - rewrite (sl_attempts _ _ Hstill). exact Hat. }
  destruct (save_effect P (rt_db rt2) (set_attempts (rt_db rt2) attempts) _ _ _ _ eq_refl Hg2
              Hstep Hsave) as (Hcalm & row & Hrow & _ & Hworks).
  rewrite Hid in Hworks. destruct (saved_works false _ _ _ _ Hworks) as (row' & Hw' & Hpay & _).
  simpl. split; [| split; [| split]].
  - etransitivity; [apply Hstill |]. eapply rtc_l; [exact Hpublish |].
    apply rtc_once, settle_prepared_env.
  - rewrite settle_prepared_commits. simpl. rewrite Hcommits. reflexivity.
  - rewrite settle_prepared_controls. simpl. rewrite (cm_controls _ _ _ Hcalm). simpl. apply Hstill.
  - exists p, w, row, row'. rewrite settle_prepared_works. rewrite (sl_works _ _ Hstill) in *.
    split; [exact Hg |]. split; [exact Hstep |].
    split; [apply validate_work_Ok in Hv; destruct Hv as [-> _]; eauto |]. split; [exact Hrow |]. split; [exact Hpay | rewrite Hid; exact Hw'].
Qed.

(** ** What a transaction does to the journal *)

(** The revision of [c] that settles it, published. *)
Definition settlement db c c' : Prop :=
  exists meta at_ reason id now,
    next_meta (c_meta c) id now = Ok meta
    /\ c' = settled_commit c meta (c_state c') at_ reason
    /\ c_state c' <> PREPARED
    /\ exists ref, reference (RecCommit c') = Ok ref /\ resolve_db db ref false = Ok (RecCommit c').

(** An entry of the journal names its transition and its commit; its payload is
    that commit or the revision that settled it. *)
Record entry_sound db (id : string) (row : CommitRow) (t : StateTransition) c : Prop := {
  en_id : c_transition_commit_id c = id;
  en_transition : resolve_db db (cr_transition row) false = Ok (RecTransition t);
  en_commit : resolve_db db (cr_commit row) false = Ok (RecCommit c);
  en_pair : sound_pair t c;
  en_payload : cr_payload row = c \/ settlement db c (cr_payload row);
}.

Definition settle_entry (row : CommitRow) c : CommitRow :=
  mkCommitRow (cr_candidate_binding row) c (cr_transition row) (cr_commit row) (cr_records row).

Definition commit_of rt (id : string) : option CommitRow := transition_commits (rt_db rt) !! id.

Inductive journal_change rt rt' : Prop :=
| jc_same : transition_commits (rt_db rt') = transition_commits (rt_db rt) -> journal_change rt rt'
| jc_new id row t c :
    commit_of rt id = None -> entry_sound (rt_db rt') id row t c -> cr_payload row = c ->
    transition_commits (rt_db rt') = <[id := row]> (transition_commits (rt_db rt)) ->
    journal_change rt rt'
| jc_abort id row c' :
    commit_of rt id = Some row -> c_state (cr_payload row) = PREPARED -> c_state c' = ABORTED ->
    settlement (rt_db rt') (cr_payload row) c' ->
    transition_commits (rt_db rt') = <[id := settle_entry row c']> (transition_commits (rt_db rt)) ->
    journal_change rt rt'
| jc_commit id row c' p w wrow :
    commit_of rt id = Some row -> c_state (cr_payload row) = PREPARED -> c_state c' = COMMITTED ->
    settlement (rt_db rt') (cr_payload row) c' ->
    transition_commits (rt_db rt') = <[id := settle_entry row c']> (transition_commits (rt_db rt)) ->
    get_work (rt_db rt) (c_work_id c') = Ok p -> w_state_version p = c_expected_state_version c' ->
    work_step p w -> w_status w = commit_work_status (c_target_status c') ->
    work_states (rt_db rt') !! c_work_id c' = Some wrow -> wr_payload wrow = w ->
    (cancel_latched (rt_db rt) (rm_analysis_id (w_meta p)) = true ->
     c_target_status c' = C_CANCELLED) ->
    journal_change rt rt'.

Record journal_move rt rt' : Prop := {
  jm_steps : rtc (runtime_step P) rt rt';
  jm_change : journal_change rt rt';
}.

(** The invariant of the journal. *)
Record journal_wf rt : Prop := {
  jw_typed : runtime_typed rt;
  jw_entry id row : commit_of rt id = Some row -> exists t c, entry_sound (rt_db rt) id row t c;
  jw_version id row : commit_of rt id = Some row -> c_state (cr_payload row) = COMMITTED ->
    exists wrow, work_states (rt_db rt) !! c_work_id (cr_payload row) = Some wrow
      /\ c_expected_state_version (cr_payload row) < w_state_version (wr_payload wrow);
  jw_once id id' row row' : commit_of rt id = Some row -> commit_of rt id' = Some row' ->
    c_state (cr_payload row) = COMMITTED -> c_state (cr_payload row') = COMMITTED ->
    c_work_id (cr_payload row') = c_work_id (cr_payload row) ->
    c_expected_state_version (cr_payload row') = c_expected_state_version (cr_payload row) ->
    id' = id;
}.

(** ** The transactions of the journal *)

Lemma staged_resolves db r ref db' :
  ledger_wf db -> stage_publish db r = Ok (ref, db') ->
  quiet P db db' /\ ledger_wf db' /\ reference r = Ok ref /\ resolve_db db' ref false = Ok r
  /\ rec_valid r = true.
Proof.
  intros Hwf Hs. pose proof (lw_store _ Hwf) as Hdb.
  pose proof (stage_publish_quiet _ _ _ _ Hs) as Hq.
  pose proof (stage_publish_resolved _ _ _ _ Hdb Hs) as [Href Hres].
  split; [exact Hq |]. split; [exact (quiet_wf _ _ Hq Hwf) |]. split; [exact Href |].
  split; [exact Hres | exact (staged_valid _ _ _ _ Hdb Hs)].
Qed.

Lemma quiet_resolve db db' ref candidate r :
  quiet P db db' -> ledger_wf db -> resolve_db db ref candidate = Ok r ->
  resolve_db db' ref candidate = Ok r.
Proof.
  intros Hq Hwf. apply resolve_grown; [apply (lw_store _ Hwf) |].
  eapply ledger_steps_store, (qt_ledger _ _ _ Hq).
Qed.

Lemma insert_commit_Ok db row db' :
  insert_commit db row = Ok db' ->
  transition_commits db !! c_transition_commit_id (cr_payload row) = None
  /\ db' = set_commits db (<[c_transition_commit_id (cr_payload row) := row]>
                             (transition_commits db)).
Proof.
  unfold insert_commit. intros Hi. apply raise_if_Ok in Hi. destruct Hi as [Hn [= <-]].
  apply orb_false_iff in Hn. destruct Hn as [Hn _]. apply is_some_false in Hn. auto.
Qed.

Lemma commits_env rt db commits :
  runtime_step P (set_db rt db) (set_db rt (set_commits db commits)).
Proof.
  apply (rt_other P _ _ (set_commits db commits)); try reflexivity.
  apply rtc_once, ls_env. repeat split; try reflexivity. eauto.
Qed.

(** Publishing a transition and its commit, and their entry. *)
Lemma journaled_move rt db t c tref cref binding refs db1 db2 db3 :
  runtime_typed rt -> quiet P (rt_db rt) db ->
  stage_publish db (RecTransition t) = Ok (tref, db1) ->
  stage_publish db1 (RecCommit c) = Ok (cref, db2) ->
  (exists hash, validate_commit_transition c t hash = Ok tt) -> c_state c = PREPARED ->
  insert_commit db2 (mkCommitRow binding c tref cref refs) = Ok db3 ->
  journal_move rt (set_db rt db3) /\ quiet P (rt_db rt) db2
  /\ commit_of (set_db rt db3) (c_transition_commit_id c) = Some (mkCommitRow binding c tref cref refs)
  /\ entry_sound db3 (c_transition_commit_id c) (mkCommitRow binding c tref cref refs) t c.
Proof.
  intros Hty Hq0 Hs1 Hs2 Hexact Hprep Hi.
  pose proof (quiet_wf _ _ Hq0 (ty_ledger _ Hty)) as Hwf0.
  apply staged_resolves in Hs1; [| exact Hwf0]. destruct Hs1 as (Hq1 & Hwf1 & _ & Ht & Hvt).
  apply staged_resolves in Hs2; [| exact Hwf1]. destruct Hs2 as (Hq2 & Hwf2 & _ & Hc & Hvc).
  assert (Hq : quiet P (rt_db rt) db2) by (etransitivity; [exact Hq0 | etransitivity; eassumption]).
  apply insert_commit_Ok in Hi. simpl in Hi. destruct Hi as [Hn ->].
  simpl in Hvt, Hvc. boolify. rewrite (qt_commits _ _ _ Hq) in *.
  set (db3 := set_commits db2 _).
  assert (He : entry_sound db3 (c_transition_commit_id c) (mkCommitRow binding c tref cref refs) t c).
  { split; [reflexivity | | exact Hc | split; assumption | left; reflexivity].
    exact (quiet_resolve _ _ _ _ _ Hq2 Hwf1 Ht). }
  split; [split | split; [exact Hq | split; [apply (lookup_insert_eq (transition_commits (rt_db rt))) | exact He]]].
  - eapply rtc_r; [apply (quiet_still _ _ Hq) | apply commits_env].
  - apply (jc_new _ _ (c_transition_commit_id c) (mkCommitRow binding c tref cref refs) t c);
      [exact Hn | exact He | reflexivity | reflexivity].
Qed.

Lemma settlement_unique db c c1 c2 :
  db_wf db -> settlement db c c1 -> settlement db c c2 -> c1 = c2.
Proof.
  intros Hwf (m1 & t1 & r1 & i1 & n1 & Hm1 & E1 & _ & ref1 & _ & Hr1)
    (m2 & t2 & r2 & i2 & n2 & Hm2 & E2 & _ & ref2 & _ & Hr2).
  apply next_meta_Ok in Hm1, Hm2. destruct Hm1 as [-> _], Hm2 as [-> _].
  enough (RecCommit c1 = RecCommit c2) as [= Heq] by exact Heq.
  apply (resolve_published _ _ _ Hwf) in Hr1, Hr2. destruct Hr1 as [_ Hr1], Hr2 as [_ Hr2].
  apply (published_revision (db_store db)); [exact Hwf | exact Hr1 | exact Hr2 | |];
    rewrite E1, E2; reflexivity.
Qed.

Lemma settlement_kept db db' c c' :
  db_wf db -> rtc (store_step (R := Rec)) (db_store db) (db_store db') ->
  settlement db c c' -> settlement db' c c'.
Proof.
  intros Hwf Hs (m & t & r & i & n & Hm & E & Hst & ref & Href & Hr).
  exists m, t, r, i, n. repeat (split; [assumption |]). exists ref. split; [exact Href |].
  eapply resolve_grown; eassumption.
Qed.

Lemma settlement_id db c c' : settlement db c c' ->
  c_transition_commit_id c' = c_transition_commit_id c /\ c_work_id c' = c_work_id c
  /\ c_expected_state_version c' = c_expected_state_version c
  /\ c_target_status c' = c_target_status c /\ c_state c' <> PREPARED.
Proof. intros (m & t & r & i & n & _ & -> & Hst & _). repeat split. exact Hst. Qed.

(** An entry is open exactly while its payload is the journaled commit. *)
Lemma open_entry db id row t c :
  entry_sound db id row t c -> c_state (cr_payload row) = PREPARED -> cr_payload row = c.
Proof.
  intros He Hp. destruct (en_payload _ _ _ _ _ He) as [Hpay | Hs]; [exact Hpay |].
  apply settlement_id in Hs. tauto.
Qed.

Lemma entry_fields db id row t c :
  entry_sound db id row t c ->
  c_transition_commit_id (cr_payload row) = id /\ c_work_id (cr_payload row) = c_work_id c
  /\ c_expected_state_version (cr_payload row) = c_expected_state_version c
  /\ c_target_status (cr_payload row) = c_target_status c.
Proof.
  intros He. pose proof (en_id _ _ _ _ _ He) as Hid.
  destruct (en_payload _ _ _ _ _ He) as [-> | Hs]; [auto |].
  apply settlement_id in Hs. destruct Hs as (H5 & H6 & H7 & H8 & _). split; [congruence | auto].
Qed.

(** A request is the one an entry was journaled for. *)
Definition journaled rt (request : TransitionCommitRequest) : Prop :=
  exists id row, commit_of rt id = Some row
    /\ entry_sound (rt_db rt) id row (rq_transition request) (rq_commit request).

Lemma prepare_move rt now request binding rt' :
  runtime_typed rt -> commit_request request = Ok binding -> prepare rt now request = Ok rt' ->
  journal_move rt rt' /\ journaled rt' request
  /\ (exists row, commit_of rt' (c_transition_commit_id (rq_commit request)) = Some row
       /\ cr_candidate_binding row = binding /\ c_state (cr_payload row) = PREPARED)
  /\ work_states (rt_db rt') = work_states (rt_db rt).
Proof.
  intros Hty Hreq Hp. unfold commit_request in Hreq. call Hreq as hash _. call Hreq as u Hexact.
  destruct u. apply raise_if_Ok in Hreq. destruct Hreq as [Hprep Hreq]. call Hreq as refs' Hrefs.
  unfold bound_outputs in Hrefs. call Hrefs as refs0 Hmap. apply raise_if_Ok in Hrefs.
  destruct Hrefs as [_ [= ->]].
  unfold prepare in Hp. call Hp as w _. call Hp as [tref db1] Hs1. call Hp as [cref db2] Hs2.
  call Hp as refs Hmap'. call Hp as b Hb. call Hp as db3 Hi. injection Hp as <-.
  destruct (journaled_move rt (rt_db rt) _ _ _ _ _ _ _ _ _ Hty ltac:(reflexivity) Hs1 Hs2
              ltac:(eauto) ltac:(boolify; exact Hprep) Hi) as (Hm & Hq & Hrow & He).
  split; [exact Hm |]. split; [do 2 eexists; split; [exact Hrow | exact He] |]. split.
  - eexists. split; [exact Hrow |]. simpl. boolify. split; [congruence | exact Hprep].
  - apply insert_commit_Ok in Hi. destruct Hi as [_ ->]. simpl. apply Hq.
Qed.

Lemma abort_move rt tick request reason rt' :
  runtime_typed rt -> journaled rt request -> abort rt tick (rq_commit request) reason = Ok rt' ->
  journal_move rt rt'
  /\ exists row row', commit_of rt (c_transition_commit_id (rq_commit request)) = Some row
       /\ commit_of rt' (c_transition_commit_id (rq_commit request)) = Some row'
       /\ c_state (cr_payload row') <> PREPARED
       /\ (c_state (cr_payload row) = PREPARED -> c_state (cr_payload row') = ABORTED).
Proof.
  intros Hty (id & row & Hrow & He) Ha. unfold abort in Ha.
  rewrite (en_id _ _ _ _ _ He) in *. unfold commit_of in Hrow. rewrite Hrow in Ha.
  case_bool_decide as Hst; simpl in Ha.
  2: { injection Ha as <-. split; [| exists row, row; tauto]. split; [reflexivity | apply jc_same; reflexivity]. }
  call Ha as meta Hm. call Ha as c' Hv. call Ha as [ref db] Hs. injection Ha as <-.
  apply staged_resolves in Hs; [| apply (ty_ledger _ Hty)]. destruct Hs as (Hq & _ & Href & Hr & _).
  pose proof (validate_commit_Ok _ _ Hv) as [-> _].
  unfold settle_row. simpl. rewrite (en_id _ _ _ _ _ He), (qt_commits _ _ _ Hq). split.
  - split; [eapply rtc_r; [apply (quiet_still _ _ Hq) | apply commits_env] |].
    eapply (jc_abort _ _ id row); [exact Hrow | exact Hst | | | reflexivity]; [reflexivity |].
    rewrite (open_entry _ _ _ _ _ He Hst). exists meta. do 4 eexists.
    split; [exact Hm |]. split; [reflexivity |]. split; [discriminate |]. eauto.
  - exists row. eexists. unfold commit_of. simpl. rewrite lookup_insert_eq.
    split; [exact Hrow |]. split; [reflexivity |]. split; [discriminate | reflexivity].
Qed.

(** A result that can be published has an open entry: the revision that settled
    an ABORTED one is in its place, and the work of a COMMITTED one is past the
    version the result was prepared for. *)
Lemma finish_open rt tick request c' rt' row :
  journal_wf rt -> finish rt tick request = Ok (c', rt') ->
  commit_of rt (c_transition_commit_id (rq_commit request)) = Some row ->
  entry_sound (rt_db rt) (c_transition_commit_id (rq_commit request)) row
    (rq_transition request) (rq_commit request) ->
  c_state (cr_payload row) = PREPARED.
Proof.
  intros Hwf Hf Hrow He. pose proof (jw_typed _ Hwf) as Hty. apply finish_Ok in Hf; [| exact Hty].
  destruct Hf as (p & meta & at_ & rt2 & meta' & cref & waiting & now & w & attempts & db & Hc & _
    & Hm & Hc' & _ & Hstill & Hres & _).
  pose proof (en_pair _ _ _ _ _ He) as Hpair.
  destruct (en_payload _ _ _ _ _ He) as [-> | Hs]; [apply Hpair |].
  pose proof (settlement_id _ _ _ Hs) as (_ & Hw & Hv & _ & Hst).
  destruct (c_state (cr_payload row)) eqn:E; [reflexivity | |]; exfalso.
  - pose proof (checked_version _ _ request _ Hty Hpair Hc) as [_ Hver].
    destruct (jw_version _ Hwf _ _ Hrow E) as (wrow & Hwrow & Hlt).
    apply check_transition_Ok in Hc. destruct Hc as [Hg _]. apply get_work_Ok in Hg.
    destruct Hg as (wrow' & Hg & <-). rewrite Hw, Hg in Hwrow. injection Hwrow as ->. lia.
  - pose proof (lw_store _ (ty_ledger _ Hty)) as Hdb.
    assert (Hs2 : settlement (rt_db rt2) (rq_commit request) (cr_payload row))
      by (eapply settlement_kept; [exact Hdb | apply (still_store _ _ Hstill Hty) | exact Hs]).
    subst c'. set (c' := settled_commit _ _ _ _ _) in *.
    enough (cr_payload row = c') as Heq by (rewrite Heq in E; discriminate).
    apply (settlement_unique (rt_db rt2) (rq_commit request)); [| exact Hs2 |].
    + apply (lw_store _ (ty_ledger _ (still_typed _ _ Hstill Hty))).
    + exists meta. do 4 eexists. split; [exact Hm |]. split; [reflexivity |].
      split; [discriminate | exact Hres].
Qed.

Lemma settled_at commits c row :
  commits !! c_transition_commit_id c = Some row -> c_state (cr_payload row) = PREPARED ->
  settled commits c = <[c_transition_commit_id c := settle_entry row c]> commits.
Proof.
  intros Hrow Hst. unfold settled. apply map_eq. intros id.
  destruct (decide (id = c_transition_commit_id c)) as [-> | Hne].
  - rewrite lookup_alter_eq, lookup_insert_eq, Hrow. simpl. rewrite bool_decide_true by exact Hst.
    reflexivity.
  - rewrite lookup_alter_ne, lookup_insert_ne by congruence. reflexivity.
Qed.

Lemma finish_move rt tick request c' rt' :
  journal_wf rt -> journaled rt request -> finish rt tick request = Ok (c', rt') ->
  journal_move rt rt'
  /\ exists row, commit_of rt (c_transition_commit_id (rq_commit request)) = Some row
       /\ commit_of rt' (c_transition_commit_id (rq_commit request)) = Some (settle_entry row c')
       /\ c_state c' = COMMITTED.
Proof.
  intros Hwf (id & row & Hrow & He) Hf. pose proof (en_id _ _ _ _ _ He) as <-.
  pose proof (jw_typed _ Hwf) as Hty. pose proof (en_pair _ _ _ _ _ He) as Hpair.
  pose proof (finish_open _ _ _ _ _ _ Hwf Hf Hrow He) as Hst.
  pose proof (finish_steps _ _ _ _ _ Hty Hpair Hf) as (Hsteps & Hcommits & _ & p & w & wrow & wrow'
    & Hg & Hstep & (wmeta & wref & wwait & wnow & Hwork) & Hwrow & Hpay & Hworks).
  assert (Hstat : w_status w = commit_work_status (c_target_status (rq_commit request)))
    by (rewrite Hwork; reflexivity).
  apply finish_Ok in Hf; [| exact Hty].
  destruct Hf as (p' & meta & at_ & rt2 & meta' & cref & waiting & now & w2 & attempts & db & Hc
    & Hlatch & Hm & Hc' & _ & Hstill & (ref & Href & Hres) & _ & _ & _ & Hsave & Hrt).
  pose proof (checked_version _ _ request _ Hty Hpair Hc) as [Hid Hver].
  apply check_transition_Ok in Hc. destruct Hc as [Hg' _].
  assert (p' = p) as -> by congruence. subst c'. set (c' := settled_commit _ _ _ _ _) in *.
  assert (Hsettle : transition_commits (rt_db rt')
    = <[c_transition_commit_id (rq_commit request) := settle_entry row c']>
        (transition_commits (rt_db rt))).
  { rewrite Hcommits. apply (settled_at _ c'); [exact Hrow | exact Hst]. }
  split; [split; [exact Hsteps |] |].
  - eapply (jc_commit _ _ _ row c' p w wrow'); [exact Hrow | exact Hst | reflexivity | | exact Hsettle
      | exact Hg | exact Hver | exact Hstep | exact Hstat | | exact Hpay | exact Hlatch].
    + rewrite (open_entry _ _ _ _ _ He Hst). exists meta, (Some at_).
      do 3 eexists. split; [exact Hm |]. split; [reflexivity |]. split; [discriminate |].
      exists ref. split; [exact Href |].
      eapply resolve_grown; [| | exact Hres].
      * apply (lw_store _ (ty_ledger _ (still_typed _ _ Hstill Hty))).
      * rewrite Hrt. simpl. rewrite settle_prepared_store. exact (save_store _ _ _ _ _ Hsave).
    + change (c_work_id c') with (c_work_id (rq_commit request)). rewrite Hworks, <- Hid.
      apply lookup_insert_eq.
  - exists row. unfold commit_of. rewrite Hsettle, lookup_insert_eq. auto.
Qed.

Lemma still_move rt rt' : still rt rt' -> journal_move rt rt'.
Proof. intros Hs. split; [apply Hs | apply jc_same, Hs]. Qed.

(** The second half of a cancellation: its entry is settled and its work
    cancelled. *)
Lemma cancel_publish rt tick1 tick2 p row meta now c' db meta' created tref cref w dba dbs :
  runtime_typed rt -> commit_of rt (c_transition_commit_id (cr_payload row)) = Some row ->
  c_state (cr_payload row) = PREPARED -> c_target_status (cr_payload row) = C_CANCELLED ->
  c_work_id (cr_payload row) = w_work_id p ->
  c_expected_state_version (cr_payload row) = w_state_version p ->
  get_work (rt_db rt) (w_work_id p) = Ok p -> terminal_work (w_status p) = false ->
  next_meta (c_meta (cr_payload row)) (fresh tick1 0) (clock tick1 0) = Ok meta ->
  validate_commit (settled_commit (cr_payload row) meta COMMITTED (Some now)
                     (c_abort_reason (cr_payload row))) = Ok c' ->
  (exists ref, stage_publish (rt_db rt) (RecCommit c') = Ok (ref, db)) ->
  next_meta (w_meta p) (fresh tick2 0) created = Ok meta' ->
  validate_work (cancelled_work p meta' tref cref now) = Ok w ->
  (exists tick, cancel_attempt (snd (settle_prepared db c')) tick p now = Ok dba) ->
  (exists tick, save dba tick p w = Ok dbs) ->
  journal_move rt (set_db rt (clear_lease dbs (w_work_id p)))
  /\ w_status w = CANCELLED /\ w_state_version w = w_state_version p + 1
  /\ commit_of (set_db rt (clear_lease dbs (w_work_id p))) (c_transition_commit_id (cr_payload row))
     = Some (settle_entry row c')
  /\ exists wrow, work_states (clear_lease dbs (w_work_id p))
                  = <[w_work_id p := wrow]> (work_states (rt_db rt)) /\ wr_payload wrow = w.
Proof.
  intros Hty Hrow Hst Htgt Hcw Hcv Hg Hterm Hm Hv [cr Hs] Hm' Hw [t1 Ha] [t2 Hsave].
  pose proof (validate_commit_Ok _ _ Hv) as [-> _]. set (c' := settled_commit _ _ _ _ _) in *.
  apply staged_resolves in Hs; [| apply (ty_ledger _ Hty)]. destruct Hs as (Hq & _ & Href & Hr & _).
  set (dbd := snd (settle_prepared db c')) in *.
  assert (Hs1 : rtc (runtime_step P) rt (set_db rt dbd)).
  { eapply rtc_r; [apply (quiet_still _ _ Hq) | apply settle_prepared_env]. }
  assert (Hworks1 : work_states dbd = work_states (rt_db rt))
    by (unfold dbd; rewrite settle_prepared_works; apply Hq).
  assert (Hcommits1 : transition_commits dbd
    = <[c_transition_commit_id (cr_payload row) := settle_entry row c']> (transition_commits (rt_db rt))).
  { unfold dbd. rewrite settle_prepared_commits, (qt_commits _ _ _ Hq).
    apply (settled_at _ c'); [exact Hrow | exact Hst]. }
  assert (Hty1 : runtime_typed (set_db rt dbd)) by (eapply typed_steps; eassumption).
  destruct (cancelled_by (set_db rt dbd) _ _ _ _ Hty1 Ha) as (db2 & attempts & Hq2 & -> & Hat).
  pose proof (next_work_publish _ _ _ _ _ _ _ _ _ _ _ _ _ _ _ _ _ Hm' Hw) as (Hsame & Hver & Hstat & _).
  assert (Hid : w_work_id p = w_work_id w) by apply Hsame.
  assert (Hstep : work_step p w).
  { eapply (step_cancel _ tref cref); [exact Hterm | exact Hm' | exact Hw]. }
  assert (Hg2 : get_work db2 (w_work_id p) = Ok p)
    by (unfold get_work; rewrite (qt_works _ _ _ Hq2); simpl; rewrite Hworks1; exact Hg).
  destruct (save_effect P db2 (set_attempts db2 attempts) _ _ _ _ eq_refl Hg2 Hstep Hsave)
    as (Hcalm & row0 & Hrow0 & _ & Hworks).
  rewrite Hid in Hworks. destruct (saved_works false _ _ _ _ Hworks) as (wrow & Hw' & Hpay & _).
  assert (Hcommits : transition_commits dbs = transition_commits dbd)
    by (rewrite (save_commits _ _ _ _ _ Hsave); simpl; apply Hq2).
  assert (Hlookup : work_states (clear_lease dbs (w_work_id p)) !! w_work_id p = Some wrow)
    by (rewrite Hid, Hw'; apply lookup_insert_eq).
  split; [split |]; [| | split; [exact Hstat |]; split; [exact Hver |]; split].
  - etransitivity; [exact Hs1 |]. etransitivity; [apply (quiet_still (set_db rt dbd) _ Hq2) |].
    apply rtc_once. rewrite Hid.
    eapply (rt_publish P (set_db rt db2) _ _ p w attempts dbs false);
      [exact Hg2 | exact Hstep | rewrite Hstat; discriminate | rewrite Hstat; discriminate |
      | exact Hsave | reflexivity].
    simpl. rewrite (qt_attempts _ _ _ Hq2). exact Hat.
  - eapply (jc_commit _ _ _ row c' p w wrow); [exact Hrow | exact Hst | reflexivity | | | | | exact Hstep
      | | | exact Hpay | intros _; exact Htgt].
    + exists meta. do 4 eexists. split; [exact Hm |]. split; [reflexivity |].
      split; [discriminate |]. exists cr. split; [exact Href |].
      eapply resolve_grown; [| | exact Hr].
      * apply (lw_store _ (quiet_wf _ _ Hq (ty_ledger _ Hty))).
      * simpl. rewrite <- (settle_prepared_store db c'). fold dbd.
        etransitivity; [eapply ledger_steps_store, (qt_ledger _ _ _ Hq2) |].
        exact (save_store _ _ _ _ _ Hsave).
    + simpl. rewrite Hcommits. exact Hcommits1.
    + simpl. rewrite Hcw. exact Hg.
    + simpl. congruence.
    + rewrite Hstat. simpl. rewrite Htgt. reflexivity.
    + simpl. rewrite Hcw. exact Hlookup.
  - unfold commit_of. simpl. rewrite Hcommits, Hcommits1. apply lookup_insert_eq.
  - exists wrow. split; [| exact Hpay]. pose proof (qt_works _ _ _ Hq2) as Hq2w. simpl in Hq2w.
    rewrite Hid, Hw'. change (work_states (set_attempts db2 attempts)) with (work_states db2).
    rewrite Hq2w, Hworks1. reflexivity.
Qed.

Lemma cancel_fields p meta id tref now c :
  validate_commit (cancel_commit p meta id tref now) = Ok c ->
  c_work_id c = w_work_id p /\ c_expected_state_version c = w_state_version p
  /\ c_target_status c = C_CANCELLED /\ c_state c = PREPARED.
Proof. intros Hv. apply validate_commit_Ok in Hv. destruct Hv as [-> _]. auto. Qed.

Lemma cancel_moves rt tick p identity w rt' :
  runtime_typed rt -> get_work (rt_db rt) (w_work_id p) = Ok p ->
  cancel_in_transaction rt tick p identity = Ok (w, rt') ->
  (terminal_work (w_status p) = true /\ w = p /\ rt' = rt)
  \/ terminal_work (w_status p) = false /\ w_status w = CANCELLED
     /\ w_state_version w = w_state_version p + 1
     /\ rtc journal_move rt rt'
     /\ (exists wrow, work_states (rt_db rt') = <[w_work_id p := wrow]> (work_states (rt_db rt))
          /\ wr_payload wrow = w)
     /\ exists id row, commit_of rt id = None /\ commit_of rt' id = Some row
          /\ c_state (cr_payload row) = COMMITTED
          /\ c_target_status (cr_payload row) = C_CANCELLED
          /\ c_work_id (cr_payload row) = w_work_id p.
Proof.
  intros Hty Hg Hc. unfold cancel_in_transaction in Hc.
  destruct (terminal_work (w_status p)) eqn:Hterm; [injection Hc as <- <-; auto |]. right.
  call Hc as meta1 _. call Hc as work_ref _. call Hc as work_scope _. call Hc as q _.
  call Hc as [d rt1] Hauth. apply raise_if_Ok in Hc. destruct Hc as [_ Hc].
  call Hc as decision_ref _. call Hc as decision_scope _. call Hc as meta2 _. call Hc as key _.
  call Hc as t _. call Hc as u _. call Hc as [tref db1] Hs1. call Hc as tscope _.
  call Hc as meta3 _. call Hc as c Hvc. call Hc as hash _. call Hc as u2 Hexact. destruct u2.
  call Hc as [cref db2] Hs2. call Hc as binding _. call Hc as db3 Hi.
  call Hc as [claimed rt2] Hclaim. call Hc as meta4 Hm4. call Hc as c' Hvc'.
  call Hc as [cref' db4] Hs4. destruct (settle_prepared db4 c') as [matched db5] eqn:Hset.
  apply raise_if_Ok in Hc. destruct Hc as [_ Hc]. call Hc as cscope _. call Hc as meta5 Hm5.
  call Hc as w' Hw. call Hc as dba Hca. call Hc as dbs Hsave. apply raise_if_Ok in Hc.
  destruct Hc as [_ Hc]. injection Hc as <- <-.
  pose proof (authorize_still _ _ _ _ _ _ _ Hauth) as Hst1.
  pose proof (still_typed _ _ Hst1 Hty) as Hty1.
  destruct (cancel_fields _ _ _ _ _ _ Hvc) as (Hcw & Hcv & Htgt & Hprep).
  destruct (journaled_move rt1 (rt_db rt1) t c tref cref binding [] db1 db2 db3 Hty1
              ltac:(reflexivity) Hs1 Hs2 ltac:(eauto) Hprep Hi) as (Hmove & Hq & _).
  apply insert_commit_Ok in Hi. simpl in Hi. destruct Hi as [Hnone ->].
  rewrite (qt_commits _ _ _ Hq), (sl_commits _ _ Hst1) in Hnone.
  set (row := mkCommitRow binding c tref cref []) in *.
  set (rt3 := set_db rt1 _) in Hclaim, Hmove.
  pose proof (claim_still _ _ _ _ _ _ _ _ _ Hclaim) as [Hst2 _].
  pose proof (typed_steps _ _ _ Hty1 (jm_steps _ _ Hmove)) as Hty3.
  pose proof (still_typed _ _ Hst2 Hty3) as Hty2.
  assert (Hw2 : work_states (rt_db rt2) = work_states (rt_db rt)).
  { rewrite (sl_works _ _ Hst2). simpl. rewrite (qt_works _ _ _ Hq). apply Hst1. }
  assert (Hrow2 : commit_of rt2 (c_transition_commit_id c) = Some row).
  { unfold commit_of. rewrite (sl_commits _ _ Hst2). simpl. apply lookup_insert_eq. }
  destruct (cancel_publish rt2 (tick 6%nat) (tick 7%nat) p row meta4 (clock (tick 0%nat) 0) c' db4
              meta5 (clock (tick 7%nat) 0) tscope cscope w' dba dbs)
    as (Hmove2 & Hstat & Hver & Hrow' & Hg');
    [exact Hty2 | exact Hrow2 | exact Hprep | exact Htgt | exact Hcw | exact Hcv
    | unfold get_work; rewrite Hw2; exact Hg | exact Hterm | exact Hm4 | exact Hvc' | eauto | exact Hm5
    | exact Hw | simpl in Hset; rewrite Hset; eauto | eauto |].
  split; [reflexivity |]. split; [exact Hstat |]. split; [exact Hver |].
  assert (Hid : w_work_id w' = w_work_id p).
  { pose proof (next_work_publish _ _ _ _ _ _ _ _ _ _ _ _ _ _ _ _ _ Hm5 Hw) as (Hsame & _).
    symmetry. apply Hsame. }
  rewrite Hw2 in Hg'. split; [| split; [exact Hg' |]].
  - eapply rtc_l; [apply still_move, Hst1 |]. eapply rtc_l; [exact Hmove |].
    eapply rtc_l; [apply still_move, Hst2 | apply rtc_once, Hmove2].
  - exists (c_transition_commit_id c), (settle_entry row c'). split; [exact Hnone |].
    split; [exact Hrow' |]. pose proof (validate_commit_Ok _ _ Hvc') as [-> _]. auto.
Qed.

(** ** Histories of the journal *)

(** One transaction: one of the runtime that leaves the journal alone, a half of
    [commit], the abort of a journaled request, or a cancellation. *)
Inductive journal_step rt rt' : Prop :=
| js_runtime :
    runtime_step P rt rt' -> transition_commits (rt_db rt') = transition_commits (rt_db rt) ->
    journal_step rt rt'
| js_prepare now request binding :
    commit_request request = Ok binding -> prepare rt now request = Ok rt' -> journal_step rt rt'
| js_finish tick request c :
    journaled rt request -> finish rt tick request = Ok (c, rt') -> journal_step rt rt'
| js_abort tick request reason :
    journaled rt request -> abort rt tick (rq_commit request) reason = Ok rt' -> journal_step rt rt'
| js_cancel tick w identity w' :
    get_work (rt_db rt) (w_work_id w) = Ok w ->
    cancel_in_transaction rt tick w identity = Ok (w', rt') -> journal_step rt rt'.

Lemma journal_step_moves rt rt' : journal_wf rt -> journal_step rt rt' -> rtc journal_move rt rt'.
Proof.
  intros Hwf Hs. pose proof (jw_typed _ Hwf) as Hty. destruct Hs as [Hr Hc | now request b Hb Hp
    | tick request c Hj Hf | tick request reason Hj Ha | tick w i w' Hg Hc].
  - apply rtc_once. split; [apply rtc_once, Hr | apply jc_same, Hc].
  - eapply rtc_once, prepare_move; eassumption.
  - eapply rtc_once, finish_move; eassumption.
  - eapply rtc_once, abort_move; eassumption.
  - destruct (cancel_moves _ _ _ _ _ _ Hty Hg Hc) as [(_ & _ & ->) | (_ & _ & _ & Hm & _)];
      [reflexivity | exact Hm].
Qed.

Lemma entry_kept db db' id row t c :
  db_wf db -> rtc (store_step (R := Rec)) (db_store db) (db_store db') ->
  entry_sound db id row t c -> entry_sound db' id row t c.
Proof.
  intros Hwf Hs [Hid Ht Hc Hp Hpay]. split; [exact Hid | | | exact Hp |].
  - eapply resolve_grown; eassumption.
  - eapply resolve_grown; eassumption.
  - destruct Hpay as [Hpay | Hset]; [left; exact Hpay | right; eapply settlement_kept; eassumption].
Qed.

(** The version of a work only grows. *)
Lemma versions_grow rt rt' id row :
  runtime_typed rt -> rtc (runtime_step P) rt rt' -> work_states (rt_db rt) !! id = Some row ->
  exists row', work_states (rt_db rt') !! id = Some row'
    /\ w_state_version (wr_payload row) <= w_state_version (wr_payload row')
    /\ rm_analysis_id (w_meta (wr_payload row')) = rm_analysis_id (w_meta (wr_payload row)).
Proof.
  intros Hty Hs. revert row. induction Hs as [| rt1 rt2 rt3 H1' _ IH]; intros row Hrow.
  { exists row. split; [exact Hrow |]. split; [lia | reflexivity]. }
  pose proof (runtime_step_effect _ _ _ Hty H1') as Heff.
  assert (Hnext : exists row2, work_states (rt_db rt2) !! id = Some row2
    /\ w_state_version (wr_payload row) <= w_state_version (wr_payload row2)
    /\ rm_analysis_id (w_meta (wr_payload row2)) = rm_analysis_id (w_meta (wr_payload row))).
  { destruct (ef_works _ _ _ Heff) as [-> | w key _ _ _ _ Hn _ -> | i r r' Hi _ Hstep _ ->
      | i r worker expires Hi _ ->].
    - exists row. split; [exact Hrow |]. split; [lia | reflexivity].
    - exists row. rewrite lookup_insert_ne by congruence. split; [exact Hrow |].
      split; [lia | reflexivity].
    - destruct (decide (i = id)) as [-> | Hne].
      + exists r'. rewrite lookup_insert_eq. split; [reflexivity |].
        rewrite Hi in Hrow. injection Hrow as <-. split; [| exact (same_analysis _ _ Hstep)].
        apply work_step_inv in Hstep. destruct Hstep as (_ & -> & _). lia.
      + exists row. rewrite lookup_insert_ne by congruence. split; [exact Hrow |].
        split; [lia | reflexivity].
    - destruct (decide (i = id)) as [-> | Hne].
      + eexists. rewrite lookup_insert_eq. split; [reflexivity |].
        rewrite Hi in Hrow. injection Hrow as <-. simpl. split; [lia | reflexivity].
      + exists row. rewrite lookup_insert_ne by congruence. split; [exact Hrow |].
        split; [lia | reflexivity]. }
  destruct Hnext as (row2 & Hrow2 & Hle & Ha).
  destruct (IH (runtime_step_typed _ _ _ Hty H1') row2 Hrow2) as (row3 & Hrow3 & Hle3 & Ha3).
  exists row3. split; [exact Hrow3 |]. split; [lia | congruence].
Qed.

(** What one move does to one entry. *)
Lemma entry_moves rt rt' id row' :
  journal_wf rt -> journal_move rt rt' -> commit_of rt' id = Some row' ->
  (exists row, commit_of rt id = Some row
     /\ (row' = row
         \/ c_state (cr_payload row) = PREPARED /\ c_state (cr_payload row') <> PREPARED
            /\ row' = settle_entry row (cr_payload row')
            /\ settlement (rt_db rt') (cr_payload row) (cr_payload row')))
  \/ (commit_of rt id = None /\ c_state (cr_payload row') = PREPARED
      /\ exists t, entry_sound (rt_db rt') id row' t (cr_payload row')).
Proof.
  intros Hwf [_ Hc] Hrow'. unfold commit_of in *.
  assert (Hsettle : forall i row c', transition_commits (rt_db rt) !! i = Some row ->
    c_state (cr_payload row) = PREPARED -> settlement (rt_db rt') (cr_payload row) c' ->
    transition_commits (rt_db rt') = <[i := settle_entry row c']> (transition_commits (rt_db rt)) ->
    exists row, transition_commits (rt_db rt) !! id = Some row
     /\ (row' = row
         \/ c_state (cr_payload row) = PREPARED /\ c_state (cr_payload row') <> PREPARED
            /\ row' = settle_entry row (cr_payload row')
            /\ settlement (rt_db rt') (cr_payload row) (cr_payload row'))).
  { intros i row c' Hi Hst Hset He. rewrite He in Hrow'. apply lookup_insert_Some in Hrow'.
    destruct Hrow' as [[<- <-] | [_ Hr]]; [| exists row'; auto].
    exists row. split; [exact Hi |]. right. split; [exact Hst |].
    split; [apply (settlement_id _ _ _ Hset) |]. split; [reflexivity | exact Hset]. }
  destruct Hc as [He | i row t c Hn Hsound Hpay He | i row c' Hi Hst _ Hset He
    | i row c' p w wrow Hi Hst _ Hset He _ _ _ _ _ _ _]; [| | left; eauto ..].
  - left. exists row'. rewrite He in Hrow'. auto.
  - rewrite He in Hrow'. apply lookup_insert_Some in Hrow'.
    destruct Hrow' as [[<- <-] | [_ Hr]]; [| left; exists row'; auto].
    right. split; [exact Hn |]. rewrite Hpay. split; [apply Hsound | exists t; exact Hsound].
Qed.

(** A result that a move commits is for the version its work had, and after the
    move the work is past it. *)
Lemma committed_moves rt rt' id row row' :
  journal_wf rt -> journal_move rt rt' -> commit_of rt id = Some row -> commit_of rt' id = Some row' ->
  c_state (cr_payload row) = PREPARED -> c_state (cr_payload row') = COMMITTED ->
  exists p wrow,
    get_work (rt_db rt) (c_work_id (cr_payload row')) = Ok p
    /\ w_state_version p = c_expected_state_version (cr_payload row')
    /\ work_states (rt_db rt') !! c_work_id (cr_payload row') = Some wrow
    /\ work_step p (wr_payload wrow)
    /\ w_status (wr_payload wrow) = commit_work_status (c_target_status (cr_payload row'))
    /\ (cancel_latched (rt_db rt) (rm_analysis_id (w_meta p)) = true ->
        c_target_status (cr_payload row') = C_CANCELLED).
Proof.
  intros Hwf [_ Hc] Hrow Hrow' Hp Hst'. unfold commit_of in *.
  assert (Hother : forall i x y, transition_commits (rt_db rt) !! i = x ->
    c_state (cr_payload y) <> COMMITTED ->
    transition_commits (rt_db rt') = <[i := y]> (transition_commits (rt_db rt)) -> False).
  { intros i x y Hi Hy He. rewrite He in Hrow'. apply lookup_insert_Some in Hrow'.
    destruct Hrow' as [[<- <-] | [_ Hr]]; congruence. }
  destruct Hc as [He | i r t c Hn Hsound Hpay He | i r c' Hi Hst Hab Hset He
    | i r c' p w wrow Hi Hst Hco Hset He Hg Hver Hstep Hstat Hw Hpay Hl].
  - rewrite He in Hrow'. congruence.
  - exfalso. apply (Hother _ _ _ Hn) in He; [exact He |]. rewrite Hpay.
    pose proof (sp_prepared _ _ (en_pair _ _ _ _ _ Hsound)). congruence.
  - exfalso. apply (Hother _ _ _ Hi) in He; [exact He |]. simpl. congruence.
  - rewrite He in Hrow'. apply lookup_insert_Some in Hrow'. destruct Hrow' as [[<- <-] | [_ Hr]];
      [| congruence]. simpl in *. exists p, wrow. rewrite Hpay. auto 10.
Qed.

(** No move commits a second result for a version. *)
Lemma past_version rt rt' id row r row' :
  journal_wf rt -> journal_move rt rt' -> commit_of rt id = Some row ->
  c_state (cr_payload row) = COMMITTED -> forall id', commit_of rt id' = Some r ->
  commit_of rt' id' = Some row' -> c_state (cr_payload r) = PREPARED ->
  c_state (cr_payload row') = COMMITTED ->
  c_work_id (cr_payload row') = c_work_id (cr_payload row) ->
  c_expected_state_version (cr_payload row') <> c_expected_state_version (cr_payload row).
Proof.
  intros Hwf Hm Hrow Hst id' Hr Hrow' Hp Hst' Hwork Hver.
  destruct (committed_moves _ _ _ _ _ Hwf Hm Hr Hrow' Hp Hst') as (p & _ & Hg & Hpv & _).
  destruct (jw_version _ Hwf _ _ Hrow Hst) as (wrow & Hw & Hlt). apply get_work_Ok in Hg.
  destruct Hg as (wrow' & Hg & <-). rewrite Hwork, Hw in Hg. injection Hg as <-. lia.
Qed.

Lemma one_entry_moves rt rt' id id' r r' row row' :
  journal_move rt rt' -> commit_of rt id = Some r -> commit_of rt' id = Some row ->
  commit_of rt id' = Some r' -> commit_of rt' id' = Some row' -> r <> row -> r' <> row' -> id = id'.
Proof.
  unfold commit_of. intros [_ Hc] Hr Hrow Hr' Hrow' Hd Hd'.
  assert (Hone : forall i y, transition_commits (rt_db rt') = <[i := y]> (transition_commits (rt_db rt))
    -> id = id').
  { intros i y He. rewrite He in Hrow, Hrow'. apply lookup_insert_Some in Hrow, Hrow'.
    destruct Hrow as [[<- _] | [_ Hx]], Hrow' as [[<- _] | [_ Hy]]; congruence. }
  destruct Hc as [He | ? ? ? ? _ _ _ He | ? ? ? _ _ _ _ He | ? ? ? ? ? ? _ _ _ _ He]; eauto.
  rewrite He in Hrow. congruence.
Qed.

Lemma journal_move_wf rt rt' : journal_wf rt -> journal_move rt rt' -> journal_wf rt'.
Proof.
  intros Hwf Hm. pose proof (jw_typed _ Hwf) as Hty. pose proof (jm_steps _ _ Hm) as Hsteps.
  pose proof (lw_store _ (ty_ledger _ Hty)) as Hdb. pose proof (steps_store _ _ Hty Hsteps) as Hstore.
  (* a committed entry was committed before, or its version is the one the move was for *)
  assert (Hcom : forall id row', commit_of rt' id = Some row' ->
    c_state (cr_payload row') = COMMITTED ->
    commit_of rt id = Some row'
    \/ exists row, commit_of rt id = Some row /\ c_state (cr_payload row) = PREPARED).
  { intros id row' Hrow' Hst. destruct (entry_moves _ _ _ _ Hwf Hm Hrow')
      as [(row & Hrow & [-> | (Hp & _)]) | (_ & Hp & _)]; [auto | eauto | congruence]. }
  assert (Hpast : forall id row, commit_of rt id = Some row -> c_state (cr_payload row) = COMMITTED ->
    exists wrow, work_states (rt_db rt) !! c_work_id (cr_payload row) = Some wrow
      /\ c_expected_state_version (cr_payload row) < w_state_version (wr_payload wrow))
    by apply Hwf.
  split.
  - exact (typed_steps _ _ _ Hty Hsteps).
  - intros id row' Hrow'. destruct (entry_moves _ _ _ _ Hwf Hm Hrow')
      as [(row & Hrow & Hr) | (_ & _ & t & Hs)]; [| eauto].
    destruct (jw_entry _ Hwf _ _ Hrow) as (t & c & He). exists t, c.
    pose proof (entry_kept _ _ _ _ _ _ Hdb Hstore He) as He'.
    destruct Hr as [-> | (Hp & _ & -> & Hset)]; [exact He' |].
    rewrite (open_entry _ _ _ _ _ He Hp) in Hset. destruct He' as [H5 H6 H7 H8 _].
    split; [exact H5 | exact H6 | exact H7 | exact H8 | right; exact Hset].
  - intros id row' Hrow' Hst. destruct (Hcom _ _ Hrow' Hst) as [Hold | (row & Hrow & Hp)].
    + destruct (Hpast _ _ Hold Hst) as (wrow & Hw & Hlt).
      destruct (versions_grow _ _ _ _ Hty Hsteps Hw) as (wrow' & Hw' & Hle & _).
      exists wrow'. split; [exact Hw' | lia].
    + destruct (committed_moves _ _ _ _ _ Hwf Hm Hrow Hrow' Hp Hst)
        as (p & wrow & _ & Hver & Hw & Hstep & _).
      exists wrow. split; [exact Hw |]. apply work_step_inv in Hstep.
      destruct Hstep as (_ & -> & _). lia.
  - intros id id' row row' Hrow Hrow' Hst Hst' Hwork Hver.
    destruct (Hcom _ _ Hrow Hst) as [Ho | (r & Hr & Hp)], (Hcom _ _ Hrow' Hst') as [Ho' | (r' & Hr' & Hp')].
    + exact (jw_once _ Hwf _ _ _ _ Ho Ho' Hst Hst' Hwork Hver).
    + destruct (past_version _ _ _ _ _ _ Hwf Hm Ho Hst _ Hr' Hrow' Hp' Hst' Hwork Hver).
    + destruct (past_version _ _ _ _ _ _ Hwf Hm Ho' Hst' _ Hr Hrow Hp Hst); congruence.
    + apply (one_entry_moves _ _ _ _ _ _ _ _ Hm Hr' Hrow' Hr Hrow); congruence.
Qed.

Lemma journal_start rt :
  runtime_typed rt -> transition_commits (rt_db rt) = ∅ -> journal_wf rt.
Proof.
  intros Hty He. split; [exact Hty | ..]; unfold commit_of; rewrite He; intros *; discriminate.
Qed.

Lemma journal_moves_wf rt rt' : journal_wf rt -> rtc journal_move rt rt' -> journal_wf rt'.
Proof. intros Hwf Hm. induction Hm; eauto using journal_move_wf. Qed.

Lemma journal_history rt rt' : journal_wf rt -> rtc journal_step rt rt' -> rtc journal_move rt rt'.
Proof.
  intros Hwf Hs. induction Hs as [| rt1 rt2 rt3 H1' _ IH]; [reflexivity |].
  pose proof (journal_step_moves _ _ Hwf H1') as Hm. etransitivity; [exact Hm |].
  apply IH. exact (journal_moves_wf _ _ Hwf Hm).
Qed.

Lemma moves_steps rt rt' : rtc journal_move rt rt' -> rtc (runtime_step P) rt rt'.
Proof.
  induction 1 as [| rt1 rt2 rt3 H1' _ IH]; [reflexivity |].
  etransitivity; [apply (jm_steps _ _ H1') | exact IH].
Qed.

(** C15. Preparing, publishing, aborting and cancelling results refines the
    runtime: every history of the journal is a history of the runtime's
    transactions, so that whatever every runtime history keeps the journal keeps
    too, and it preserves the journal's invariant. *)
Theorem journal_refines_runtime rt rt' :
  journal_wf rt -> rtc journal_step rt rt' -> rtc (runtime_step P) rt rt' /\ journal_wf rt'.
Proof.
  intros Hwf Hs. pose proof (journal_history _ _ Hwf Hs) as Hm.
  split; [exact (moves_steps _ _ Hm) | exact (journal_moves_wf _ _ Hwf Hm)].
Qed.

(** How an entry goes on. *)
Definition entry_goes_on rt' (row row' : CommitRow) : Prop :=
  row' = row
  \/ c_state (cr_payload row) = PREPARED /\ row' = settle_entry row (cr_payload row')
     /\ settlement (rt_db rt') (cr_payload row) (cr_payload row').

Lemma entry_after rt rt' id row :
  journal_wf rt -> journal_move rt rt' -> commit_of rt id = Some row ->
  exists row', commit_of rt' id = Some row' /\ entry_goes_on rt' row row'.
Proof.
  intros Hwf Hm Hrow. destruct (commit_of rt' id) as [row' |] eqn:Hrow'.
  - exists row'. split; [reflexivity |].
    destruct (entry_moves _ _ _ _ Hwf Hm Hrow') as [(r & Hr & [-> | (Hp & _ & Hx)]) | (Hn & _)];
      [left; congruence | right; replace r with row in * by congruence; auto | congruence].
  - exfalso. unfold commit_of in *. destruct (jm_change _ _ Hm) as
      [He | ? ? ? ? _ _ _ He | ? ? ? _ _ _ _ He | ? ? ? ? ? ? _ _ _ _ He];
      rewrite He in Hrow'; try congruence; apply lookup_insert_None in Hrow';
      destruct Hrow'; congruence.
Qed.

Lemma entry_history rt rt' id row :
  journal_wf rt -> rtc journal_move rt rt' -> commit_of rt id = Some row ->
  exists row', commit_of rt' id = Some row' /\ entry_goes_on rt' row row'.
Proof.
  intros Hwf Hm. revert row. induction Hm as [rt | rt1 rt2 rt3 H1' Hm IH]; intros row Hrow.
  { exists row. split; [exact Hrow | left; reflexivity]. }
  destruct (entry_after _ _ _ _ Hwf H1' Hrow) as (row2 & Hrow2 & Hg2).
  pose proof (journal_move_wf _ _ Hwf H1') as Hwf2.
  destruct (IH Hwf2 row2 Hrow2) as (row3 & Hrow3 & Hg3). exists row3. split; [exact Hrow3 |].
  destruct Hg2 as [-> | (Hp & Heq & Hset)]; [exact Hg3 |].
  assert (Hst : c_state (cr_payload row2) <> PREPARED) by apply (settlement_id _ _ _ Hset).
  destruct Hg3 as [-> | (Hp3 & _)]; [| congruence]. right.
  split; [exact Hp |]. split; [exact Heq |]. eapply settlement_kept; [| | exact Hset].
  - apply (lw_store _ (ty_ledger _ (jw_typed _ Hwf2))).
  - apply (steps_store _ _ (jw_typed _ Hwf2) (moves_steps _ _ Hm)).
Qed.

(** A journal entry settles once: through every history it keeps its binding,
    its transition, its commit and its records; once it is COMMITTED or ABORTED
    it never changes again; and what settles it is the next revision of the
    journaled commit, published, with the same result for the same version of
    the same work. *)
Theorem entry_settles_once rt rt' id row :
  journal_wf rt -> rtc journal_step rt rt' -> transition_commits (rt_db rt) !! id = Some row ->
  exists row', transition_commits (rt_db rt') !! id = Some row'
    /\ cr_candidate_binding row' = cr_candidate_binding row
    /\ cr_transition row' = cr_transition row /\ cr_commit row' = cr_commit row
    /\ cr_records row' = cr_records row
    /\ (c_state (cr_payload row) <> PREPARED -> row' = row)
    /\ (cr_payload row' <> cr_payload row ->
        settlement (rt_db rt') (cr_payload row) (cr_payload row')).
Proof.
  intros Hwf Hs Hrow. pose proof (journal_history _ _ Hwf Hs) as Hm.
  destruct (entry_history _ _ _ _ Hwf Hm Hrow) as (row' & Hrow' & Hg). exists row'.
  split; [exact Hrow' |]. destruct Hg as [-> | (Hp & -> & Hset)]; [repeat split; congruence |].
  repeat split; [congruence | auto].
Qed.

(** C17. A version of a work has at most one committed result: after every
    history two COMMITTED entries of the same work are for different versions,
    and the work is past the version of each. *)
Theorem version_has_one_result rt rt' id row :
  journal_wf rt -> rtc journal_step rt rt' -> transition_commits (rt_db rt') !! id = Some row ->
  c_state (cr_payload row) = COMMITTED ->
  (exists w, get_work (rt_db rt') (c_work_id (cr_payload row)) = Ok w
     /\ c_expected_state_version (cr_payload row) < w_state_version w)
  /\ forall id' row', transition_commits (rt_db rt') !! id' = Some row' ->
       c_state (cr_payload row') = COMMITTED ->
       c_work_id (cr_payload row') = c_work_id (cr_payload row) ->
       c_expected_state_version (cr_payload row') = c_expected_state_version (cr_payload row) ->
       id' = id.
Proof.
  intros Hwf Hs Hrow Hst.
  pose proof (journal_moves_wf _ _ Hwf (journal_history _ _ Hwf Hs)) as Hwf'. split.
  - destruct (jw_version _ Hwf' _ _ Hrow Hst) as (wrow & Hw & Hlt). exists (wr_payload wrow).
    unfold get_work. rewrite Hw. auto.
  - intros id' row' Hrow' Hst'. apply (jw_once _ Hwf' _ _ _ _ Hrow Hrow' Hst Hst').
Qed.

(** ** The life of a request *)

(** A binding is a content hash: what an entry with the binding of a request was
    journaled for is that request, unless two requests collide. *)
Definition collision_free rt (request : TransitionCommitRequest) : Prop :=
  forall row, commit_of rt (c_transition_commit_id (rq_commit request)) = Some row ->
    commit_request request = Ok (cr_candidate_binding row) -> journaled rt request.

Lemma stage_records_quiet db l db' : stage_records db l = Ok db' -> quiet P db db'.
Proof.
  apply fold_quiet. intros db0 r db1 Hs. call Hs as [ref db2] Hst. injection Hs as <-.
  apply steady_quiet, grown_steady. unfold stage_db in Hst. call Hst as [ref' s] Hs.
  injection Hst as _ <-. exists s. split; [reflexivity |]. apply rtc_once. eapply step_stage, Hs.
Qed.

Lemma finish_request_Ok rt tick request c rt' :
  finish_request rt tick request = Ok (c, rt') -> finish rt (ct_finish tick) request = Ok (c, rt').
Proof. unfold finish_request. intros Hf. call Hf as w _. exact Hf. Qed.

(** A commit that published left its entry COMMITTED. *)
Definition replayable rt (request : TransitionCommitRequest) c : Prop :=
  exists row, commit_of rt (c_transition_commit_id (rq_commit request)) = Some row
    /\ commit_request request = Ok (cr_candidate_binding row)
    /\ cr_payload row = c /\ c_state c = COMMITTED.

Lemma finish_replayable rt tick request c rt' binding :
  journal_wf rt -> journaled rt request -> finish_request rt tick request = Ok (c, rt') ->
  (exists row, commit_of rt (c_transition_commit_id (rq_commit request)) = Some row
     /\ cr_candidate_binding row = binding) -> commit_request request = Ok binding ->
  journal_step rt rt' /\ replayable rt' request c.
Proof.
  intros Hwf Hj Hf (row & Hrow & Hb) Hreq. apply finish_request_Ok in Hf.
  split; [eapply js_finish; eassumption |].
  destruct (finish_move _ _ _ _ _ Hwf Hj Hf) as (_ & row' & Hr & Hr' & Hst).
  exists (settle_entry row' c). split; [exact Hr' |]. split; [| auto]. simpl.
  rewrite Hreq. congruence.
Qed.

(** [finish] and the handler of [commit] and of [recover_prepared]. *)
Lemma finish_or_abort_steps rt tick request ending rt' :
  journal_wf rt -> journaled rt request -> finish_or_abort rt tick request = (ending, rt') ->
  match ending with
  | Committed c => finish_request rt tick request = Ok (c, rt') /\ journal_step rt rt'
  | Aborted e => work_states (rt_db rt') = work_states (rt_db rt) /\ journal_step rt rt'
      /\ exists row row', commit_of rt (c_transition_commit_id (rq_commit request)) = Some row
           /\ commit_of rt' (c_transition_commit_id (rq_commit request)) = Some row'
           /\ c_state (cr_payload row') <> PREPARED
           /\ (c_state (cr_payload row) = PREPARED -> c_state (cr_payload row') = ABORTED)
  | Raised _ => rt' = rt
  end.
Proof.
  intros Hwf Hj Hf. unfold finish_or_abort in Hf.
  destruct (finish_request rt tick request) as [[c rt1] | e] eqn:Hfr.
  { injection Hf as <- <-. split; [reflexivity |]. eapply js_finish; [exact Hj |].
    apply finish_request_Ok in Hfr. exact Hfr. }
  destruct (caught e) as [reason |]; [| injection Hf as <- <-; reflexivity].
  destruct (abort rt (ct_abort tick) (rq_commit request) reason) as [rt1 | e'] eqn:Ha;
    injection Hf as <- <-; [| reflexivity].
  split; [| split; [eapply js_abort; eassumption |]].
  - unfold abort in Ha. destruct (transition_commits (rt_db rt) !! _); [| discriminate].
    case_bool_decide; simpl in Ha; [| injection Ha as <-; reflexivity].
    call Ha as meta _. call Ha as c' _. call Ha as [ref db] Hs. injection Ha as <-. simpl.
    apply stage_publish_quiet in Hs. apply Hs.
  - exact (proj2 (abort_move _ _ _ _ _ (jw_typed _ Hwf) Hj Ha)).
Qed.

(** What a call of [commit] does, however it ends. *)
Lemma commit_steps rt tick request r rt' :
  journal_wf rt -> collision_free rt request -> commit rt tick request = (r, rt') ->
  rtc journal_step rt rt'
  /\ match r with
     | Ok c => replayable rt' request c
     | Err _ => work_states (rt_db rt') = work_states (rt_db rt)
         /\ forall row', commit_of rt' (c_transition_commit_id (rq_commit request)) = Some row' ->
              commit_of rt (c_transition_commit_id (rq_commit request)) = Some row'
              \/ c_state (cr_payload row') <> COMMITTED
     end.
Proof.
  intros Hwf Hfree Hc. unfold commit in Hc.
  destruct (commit_request request) as [binding | e] eqn:Hreq;
    [| injection Hc as <- <-; split; [reflexivity |]; auto].
  destruct (transition_commits (rt_db rt) !! _) as [old |] eqn:Hold; cbv zeta in Hc.
  - case_bool_decide as Hb; simpl in Hc; [| injection Hc as <- <-; split; [reflexivity |]; auto].
    destruct (c_state (cr_payload old)) eqn:Hst.
    + assert (Hj : journaled rt request) by (apply (Hfree old); [exact Hold | congruence]).
      destruct (finish_request rt tick request) as [[c rt1] | e] eqn:Hf;
        injection Hc as <- <-; [| split; [reflexivity | auto]].
      destruct (finish_replayable _ _ _ _ _ _ Hwf Hj Hf ltac:(eauto) Hreq) as [Hs Hr].
      split; [apply rtc_once, Hs | exact Hr].
    + injection Hc as <- <-. split; [reflexivity |]. exists old. split; [exact Hold |].
      split; [congruence | auto].
    + injection Hc as <- <-. split; [reflexivity |]. auto.
  - destruct (stage_records (rt_db rt) (rq_records request)) as [db | e] eqn:Hst;
      [| injection Hc as <- <-; split; [reflexivity |]; auto].
    pose proof (stage_records_quiet _ _ _ Hst) as Hq. pose proof (quiet_still _ _ Hq) as Hsl.
    assert (Hs1 : rtc journal_step rt (set_db rt db)).
    { apply rtc_once, js_runtime; [| apply Hsl]. apply (rt_other P rt _ db); try apply Hq;
        [rewrite (qt_controls _ _ _ Hq) |]; reflexivity. }
    pose proof (journal_moves_wf _ _ Hwf (rtc_once _ _ (still_move _ _ Hsl))) as Hwf1.
    destruct (prepare (set_db rt db) (ct_prepared tick) request) as [rt2 | e] eqn:Hp;
      [| injection Hc as <- <-; split; [exact Hs1 |]; split; [apply Hq |]; intros row' Hrow';
       left; unfold commit_of in *; simpl in Hrow'; rewrite <- (qt_commits _ _ _ Hq); exact Hrow'].
    destruct (prepare_move _ _ _ _ _ (jw_typed _ Hwf1) Hreq Hp)
      as (Hm & Hj & (row & Hrow & Hb & Hprep) & Hw).
    pose proof (journal_move_wf _ _ Hwf1 Hm) as Hwf2.
    assert (Hs2 : rtc journal_step rt rt2) by (eapply rtc_r; [exact Hs1 | eapply js_prepare; eassumption]).
    assert (Hw2 : work_states (rt_db rt2) = work_states (rt_db rt)) by (rewrite Hw; apply Hq).
    destruct (finish_or_abort rt2 tick request) as [ending rt3] eqn:Hf.
    pose proof (finish_or_abort_steps _ _ _ _ _ Hwf2 Hj Hf) as He.
    destruct ending as [c | e | e]; injection Hc as <- <-.
    + destruct He as [Hfr _].
      destruct (finish_replayable _ _ _ _ _ _ Hwf2 Hj Hfr ltac:(eauto) Hreq) as [Hs3 Hr].
      split; [eapply rtc_r; eassumption | exact Hr].
    + destruct He as (Hw3 & Hs3 & r1 & r2 & Hr1 & Hr2 & _ & Hab).
      split; [eapply rtc_r; eassumption |]. split; [congruence |]. intros row' Hrow'. right.
      rewrite Hr2 in Hrow'. injection Hrow' as <-. rewrite Hab; congruence.
    + subst rt3. split; [exact Hs2 |]. split; [exact Hw2 |]. intros row' Hrow'. right. congruence.
Qed.

(** C16. A result is published exactly once: after a call of [commit] returned a
    commit, every later call with the same request, after any history, returns
    that same commit and changes nothing. *)
Theorem committed_result_replayed rt tick request c rt1 rt2 tick' :
  journal_wf rt -> collision_free rt request -> commit rt tick request = (Ok c, rt1) ->
  rtc journal_step rt1 rt2 -> commit rt2 tick' request = (Ok c, rt2).
Proof.
  intros Hwf Hfree Hc Hs. destruct (commit_steps _ _ _ _ _ Hwf Hfree Hc) as [Hs1 (row & Hrow & Hb & Hpay & Hst)].
  pose proof (journal_moves_wf _ _ Hwf (journal_history _ _ Hwf Hs1)) as Hwf1.
  destruct (entry_history _ _ _ _ Hwf1 (journal_history _ _ Hwf1 Hs) Hrow) as (row' & Hrow' & Hg).
  destruct Hg as [-> | (Hp & _)]; [| congruence]. unfold commit. rewrite Hb.
  unfold commit_of in Hrow'. rewrite Hrow'. cbv zeta. rewrite bool_decide_true by reflexivity.
  simpl. rewrite Hpay, Hst. reflexivity.
Qed.

(** C21. A commit that fails changes no work: whatever exception it raises, at
    whichever of its transactions, every work is as it was, and what it did do
    is a history of the journal, in which its entry, if it made one, is ABORTED
    or still PREPARED. *)
Theorem failed_commit_changes_no_work rt tick request e rt' :
  journal_wf rt -> collision_free rt request -> commit rt tick request = (Err e, rt') ->
  work_states (rt_db rt') = work_states (rt_db rt) /\ rtc journal_step rt rt' /\ journal_wf rt'
  /\ forall row, transition_commits (rt_db rt') !! c_transition_commit_id (rq_commit request)
                  = Some row ->
       transition_commits (rt_db rt) !! c_transition_commit_id (rq_commit request) = Some row
       \/ c_state (cr_payload row) <> COMMITTED.
Proof.
  intros Hwf Hfree Hc. destruct (commit_steps _ _ _ _ _ Hwf Hfree Hc) as (Hs & Hw & Hent).
  split; [exact Hw |]. split; [exact Hs |].
  split; [exact (journal_moves_wf _ _ Hwf (journal_history _ _ Hwf Hs)) | exact Hent].
Qed.

(** C19. Publishing a result: [finish] settles the open entry of its request as
    COMMITTED, publishes that revision, and moves the work, and no other, from
    the version the result was prepared for to the result's status and outputs,
    with no active attempt; in a cancelled run it publishes only a cancellation. *)
Theorem finish_publishes rt tick request c' rt' :
  journal_wf rt -> journaled rt request -> finish rt tick request = Ok (c', rt') ->
  let c := rq_commit request in
  (exists row, transition_commits (rt_db rt) !! c_transition_commit_id c = Some row
     /\ cr_payload row = c
     /\ transition_commits (rt_db rt')
        = <[c_transition_commit_id c := settle_entry row c']> (transition_commits (rt_db rt)))
  /\ c_state c' = COMMITTED /\ settlement (rt_db rt') c c'
  /\ exists p w, get_work (rt_db rt) (c_work_id c) = Ok p
       /\ w_state_version p = c_expected_state_version c
       /\ get_work (rt_db rt') (c_work_id c) = Ok w /\ work_step p w
       /\ w_status w = commit_work_status (c_target_status c)
       /\ w_output_refs w = c_output_refs c /\ w_active_attempt_id w = None
       /\ (forall id, id <> c_work_id c ->
             work_states (rt_db rt') !! id = work_states (rt_db rt) !! id)
       /\ (cancel_latched (rt_db rt) (rm_analysis_id (w_meta p)) = true ->
           c_target_status c = C_CANCELLED).
Proof.
  intros Hwf Hj Hf c. pose proof Hj as (id & row & Hrow & He).
  pose proof (en_id _ _ _ _ _ He) as <-. pose proof (jw_typed _ Hwf) as Hty.
  pose proof (en_pair _ _ _ _ _ He) as Hpair.
  pose proof (finish_open _ _ _ _ _ _ Hwf Hf Hrow He) as Hopen.
  destruct (finish_move _ _ _ _ _ Hwf Hj Hf) as (Hm & row1 & Hrow1 & Hrow' & Hst).
  assert (row1 = row) as -> by congruence.
  pose proof (finish_steps _ _ _ _ _ Hty Hpair Hf) as (_ & Hcommits & _ & p & w & wrow & wrow'
    & Hg & Hstep & (wm & wr & ww & wn & Hw) & Hwrow & Hpay & Hworks).
  destruct (committed_moves _ _ _ _ _ Hwf Hm Hrow Hrow' Hopen Hst)
    as (p' & wrow2 & Hg' & Hver & Hwrow2 & _ & _ & Hlatch).
  pose proof (stored_id _ _ _ Hty Hg) as Hid.
  destruct (entry_moves _ _ _ _ Hwf Hm Hrow') as [(r & Hr & Hset) | (Hn & _)]; [| congruence].
  assert (r = row) as -> by congruence.
  assert (Hsame : settlement (rt_db rt') c c').
  { destruct Hset as [Heq | (_ & _ & _ & Hset)].
    - apply (f_equal cr_payload) in Heq. simpl in Heq. congruence.
    - rewrite (open_entry _ _ _ _ _ He Hopen) in Hset. exact Hset. }
  destruct (settlement_id _ _ _ Hsame) as (Hid' & Hwork & Hexp & Htgt & _).
  simpl in Hg', Hver, Hlatch. rewrite Hwork in Hg'. rewrite Hexp in Hver. rewrite Htgt in Hlatch.
  unfold c in *. assert (p' = p) as -> by congruence.
  split; [exists row; split; [exact Hrow |]; split; [exact (open_entry _ _ _ _ _ He Hopen) |] |].
  { rewrite Hcommits, <- Hid'. apply settled_at; [rewrite Hid'; exact Hrow | exact Hopen]. }
  split; [exact Hst |]. split; [exact Hsame |]. exists p, w. split; [exact Hg |].
  split; [exact Hver |]. split.
  { unfold get_work. rewrite Hworks, <- Hid, lookup_insert_eq. congruence. }
  split; [exact Hstep |]. rewrite Hw. split; [reflexivity |]. split; [reflexivity |].
  split; [reflexivity |]. split; [| exact Hlatch].
  intros i Hne. rewrite Hworks. apply lookup_insert_ne. congruence.
Qed.

(** Cancelling a work: a terminal work is returned as it is and nothing
    changes; any other is cancelled, one version on, and the journal gains one
    entry for it, COMMITTED with target CANCELLED. *)
Theorem cancellation_journaled rt tick p identity w rt' :
  journal_wf rt -> get_work (rt_db rt) (w_work_id p) = Ok p ->
  cancel_in_transaction rt tick p identity = Ok (w, rt') ->
  journal_wf rt'
  /\ ((terminal_work (w_status p) = true /\ w = p /\ rt' = rt)
      \/ terminal_work (w_status p) = false /\ w_status w = CANCELLED
         /\ w_state_version w = w_state_version p + 1
         /\ get_work (rt_db rt') (w_work_id p) = Ok w
         /\ exists id row, transition_commits (rt_db rt) !! id = None
              /\ transition_commits (rt_db rt') !! id = Some row
              /\ c_state (cr_payload row) = COMMITTED
              /\ c_target_status (cr_payload row) = C_CANCELLED
              /\ c_work_id (cr_payload row) = w_work_id p).
Proof.
  intros Hwf Hg Hc. pose proof Hc as Hs.
  destruct (cancel_moves _ _ _ _ _ _ (jw_typed _ Hwf) Hg Hc)
    as [(H5 & H6 & ->) | (H5 & H6 & H7 & Hm & (wrow & H8 & H9) & H10)].
  - split; [exact Hwf | left; auto].
  - split; [exact (journal_moves_wf _ _ Hwf Hm) | right]. do 3 (split; [assumption |]).
    split; [| exact H10]. unfold get_work. rewrite H8, lookup_insert_eq, H9. reflexivity.
Qed.

(** C22. [TransitionService] publishes nothing more of a cancelled run: once the
    cancellation is recorded, every result that any history of its transactions
    (prepare, finish, abort, recovery, cancellation) and those of [runtime_step]
    commits for a work of the run is a cancellation. The BLOCKED entry with which
    [DynamicRegistrationService] parks a parent, which does not check the latch,
    is not written by these transactions. *)
Theorem cancelled_run_publishes_nothing rt rt' a id row w :
  journal_wf rt -> cancel_latched (rt_db rt) a = true -> rtc journal_step rt rt' ->
  transition_commits (rt_db rt') !! id = Some row -> c_state (cr_payload row) = COMMITTED ->
  get_work (rt_db rt') (c_work_id (cr_payload row)) = Ok w -> rm_analysis_id (w_meta w) = a ->
  transition_commits (rt_db rt) !! id = Some row \/ c_target_status (cr_payload row) = C_CANCELLED.
Proof.
  intros Hwf Hl Hs. apply journal_history in Hs; [| exact Hwf]. revert id row w. pattern rt'.
  revert rt' Hs. apply rtc_ind_r; [auto |].
  intros rt1 rt2 Hs Hm IH id row w Hrow Hst Hw Ha.
  pose proof (journal_moves_wf _ _ Hwf Hs) as Hwf1. pose proof (jw_typed _ Hwf1) as Hty1.
  assert (Hback : forall p, get_work (rt_db rt1) (c_work_id (cr_payload row)) = Ok p ->
                    rm_analysis_id (w_meta p) = a).
  { intros p Hp. apply get_work_Ok in Hp, Hw. destruct Hp as (r1 & Hr1 & <-), Hw as (r2 & Hr2 & <-).
    destruct (versions_grow _ _ _ _ Hty1 (jm_steps _ _ Hm) Hr1) as (r & Hr & _ & Hsame). congruence. }
  destruct (entry_moves _ _ _ _ Hwf1 Hm Hrow) as [(r & Hr & [-> | (Hp & _)]) | (_ & Hp & _)];
    [| right | congruence].
  - destruct (jw_version _ Hwf1 _ _ Hr Hst) as (wrow & Hwrow & _).
    assert (Hg : get_work (rt_db rt1) (c_work_id (cr_payload r)) = Ok (wr_payload wrow))
      by (unfold get_work; rewrite Hwrow; reflexivity).
    exact (IH _ _ _ Hr Hst Hg (Hback _ Hg)).
  - destruct (committed_moves _ _ _ _ _ Hwf1 Hm Hr Hrow Hp Hst) as (p & _ & Hg & _ & _ & _ & _ & Hlatch).
    apply Hlatch. rewrite (Hback _ Hg).
    exact (proj1 (frozen_steps _ _ _ _ (jw_typed _ Hwf) (moves_steps _ _ Hs) Hl)).
Qed.

(** ** Recovery *)

(** Every entry of the rows to recover is still in the journal, with the request
    it was journaled with. *)
Definition pending rt (rows : list CommitRow) : Prop :=
  forall row, row ∈ rows -> exists row',
    commit_of rt (c_transition_commit_id (cr_payload row)) = Some row'
    /\ cr_transition row' = cr_transition row /\ cr_commit row' = cr_commit row.

Lemma goes_on_request rt' row row' :
  entry_goes_on rt' row row' -> cr_transition row' = cr_transition row /\ cr_commit row' = cr_commit row.
Proof. intros [-> | (_ & -> & _)]; auto. Qed.

Lemma pending_steps rt rt' rows :
  journal_wf rt -> rtc journal_step rt rt' -> pending rt rows -> pending rt' rows.
Proof.
  intros Hwf Hs Hp row Hin. destruct (Hp row Hin) as (row1 & Hrow1 & Ht & Hc).
  destruct (entry_history _ _ _ _ Hwf (journal_history _ _ Hwf Hs) Hrow1) as (row2 & Hrow2 & Hg).
  apply goes_on_request in Hg. destruct Hg. exists row2. split; [exact Hrow2 |].
  split; congruence.
Qed.

Lemma journaled_request_Ok rt row row' request :
  journal_wf rt -> commit_of rt (c_transition_commit_id (cr_payload row)) = Some row' ->
  cr_transition row' = cr_transition row -> cr_commit row' = cr_commit row ->
  journaled_request (rt_db rt) row = Ok request ->
  journaled rt request
  /\ c_transition_commit_id (rq_commit request) = c_transition_commit_id (cr_payload row).
Proof.
  intros Hwf Hrow' Ht Hc Hj. destruct (jw_entry _ Hwf _ _ Hrow') as (t & c & He).
  unfold journaled_request in Hj. rewrite <- Ht, <- Hc in Hj.
  rewrite (en_transition _ _ _ _ _ He), (en_commit _ _ _ _ _ He) in Hj. simpl in Hj.
  call Hj as l _. injection Hj as <-. split; [| apply He]. do 2 eexists. split; [exact Hrow' | exact He].
Qed.

Lemma recover_row_steps rt tick row r rt' :
  journal_wf rt -> pending rt [row] -> recover_row rt tick row = (r, rt') ->
  rtc journal_step rt rt'
  /\ (r = Ok tt -> exists row', commit_of rt' (c_transition_commit_id (cr_payload row)) = Some row'
        /\ c_state (cr_payload row') <> PREPARED).
Proof.
  intros Hwf Hp Hr. destruct (Hp row ltac:(left)) as (row0 & Hrow0 & Ht & Hc).
  unfold recover_row in Hr. destruct (journaled_request (rt_db rt) row) as [request | e] eqn:Hj;
    [| injection Hr as <- <-; split; [reflexivity | discriminate]].
  destruct (journaled_request_Ok _ _ _ _ Hwf Hrow0 Ht Hc Hj) as [Hjr Hid].
  destruct (finish_or_abort rt tick request) as [ending rt1] eqn:Hf.
  pose proof (finish_or_abort_steps _ _ _ _ _ Hwf Hjr Hf) as He. rewrite <- Hid.
  destruct ending as [c | e | e]; injection Hr as <- <-.
  - destruct He as [Hfr Hs]. split; [apply rtc_once, Hs |]. intros _.
    destruct (finish_move _ _ _ _ _ Hwf Hjr (finish_request_Ok _ _ _ _ _ Hfr))
      as (_ & row1 & _ & Hrow1 & Hst). exists (settle_entry row1 c). split; [exact Hrow1 |].
    simpl. congruence.
  - destruct He as (_ & Hs & _ & row1 & _ & Hrow1 & Hst & _). split; [apply rtc_once, Hs | eauto].
  - subst rt1. split; [reflexivity | discriminate].
Qed.

Lemma settled_stays rt rt' id row :
  journal_wf rt -> rtc journal_step rt rt' -> commit_of rt id = Some row ->
  c_state (cr_payload row) <> PREPARED -> commit_of rt' id = Some row.
Proof.
  intros Hwf Hs Hrow Hst.
  destruct (entry_history _ _ _ _ Hwf (journal_history _ _ Hwf Hs) Hrow) as (row' & Hrow' & Hg).
  destruct Hg as [-> | (Hp & _)]; [exact Hrow' | congruence].
Qed.

Lemma recover_rows_steps rows : forall rt ticks r rt',
  journal_wf rt -> pending rt rows -> length ticks = length rows ->
  recover_rows rt ticks rows = (r, rt') ->
  rtc journal_step rt rt'
  /\ (r = Ok tt -> forall row, row ∈ rows ->
        exists row', commit_of rt' (c_transition_commit_id (cr_payload row)) = Some row'
          /\ c_state (cr_payload row') <> PREPARED).
Proof.
  induction rows as [| row rows IH]; intros rt ticks r rt' Hwf Hp Hlen Hr.
  { destruct ticks; injection Hr as <- <-; (split; [reflexivity |]); intros _ row Hin; inversion Hin. }
  destruct ticks as [| tick ticks]; [discriminate |]. simpl in Hr.
  assert (Hp1 : pending rt [row])
    by (intros x Hx; apply list_elem_of_singleton in Hx as ->; apply Hp; left).
  assert (Hp2 : pending rt rows) by (intros x Hx; apply Hp; right; exact Hx).
  destruct (recover_row rt tick row) as [[[] | e] rt1] eqn:Hone.
  - destruct (recover_row_steps _ _ _ _ _ Hwf Hp1 Hone) as [Hs1 Hset].
    pose proof (journal_moves_wf _ _ Hwf (journal_history _ _ Hwf Hs1)) as Hwf1.
    pose proof (pending_steps _ _ _ Hwf Hs1 Hp2) as Hp3.
    destruct (IH rt1 ticks r rt' Hwf1 Hp3 ltac:(simpl in Hlen; lia) Hr) as [Hs2 Hrest].
    split; [etransitivity; eassumption |]. intros -> x Hx. apply elem_of_cons in Hx.
    destruct Hx as [-> | Hx]; [| auto]. destruct (Hset eq_refl) as (row' & Hrow' & Hst).
    exists row'. split; [exact (settled_stays _ _ _ _ Hwf1 Hs2 Hrow' Hst) | exact Hst].
  - injection Hr as <- <-. destruct (recover_row_steps _ _ _ _ _ Hwf Hp1 Hone) as [Hs1 _].
    split; [exact Hs1 | discriminate].
Qed.

Lemma prepared_rows_elem db row :
  row ∈ prepared_rows db <->
  c_state (cr_payload row) = PREPARED /\ exists id, transition_commits db !! id = Some row.
Proof.
  unfold prepared_rows. rewrite list_elem_of_filter, list_elem_of_fmap. split.
  - intros [Hst ([id row'] & -> & Hin)]. apply elem_of_map_to_list in Hin. eauto.
  - intros [Hst [id Hid]]. split; [exact Hst |]. exists (id, row).
    split; [reflexivity | apply elem_of_map_to_list, Hid].
Qed.

(** C20. Recovery settles every open result: whatever a crash left, when
    [recover_prepared] returns, every entry that was PREPARED is COMMITTED or
    ABORTED and every settled entry is as it was; and even when it raises, what
    it did is a history of the journal. *)
Theorem recovery_settles_journal rt tick r rt' :
  journal_wf rt -> recover_prepared rt tick = (r, rt') ->
  rtc journal_step rt rt' /\ journal_wf rt'
  /\ forall id row, transition_commits (rt_db rt) !! id = Some row ->
       exists row', transition_commits (rt_db rt') !! id = Some row'
         /\ (c_state (cr_payload row) <> PREPARED -> row' = row)
         /\ (r = Ok tt -> c_state (cr_payload row') <> PREPARED).
Proof.
  intros Hwf Hr. unfold recover_prepared in Hr. cbv zeta in Hr.
  apply recover_rows_steps in Hr; [| exact Hwf | | rewrite length_map, length_seq; reflexivity].
  2: { intros row Hin. apply prepared_rows_elem in Hin. destruct Hin as [_ [id Hid]].
       destruct (jw_entry _ Hwf _ _ Hid) as (t & c & He).
       rewrite (proj1 (entry_fields _ _ _ _ _ He)). exists row. auto. }
  destruct Hr as [Hs Hset]. split; [exact Hs |].
  split; [exact (journal_moves_wf _ _ Hwf (journal_history _ _ Hwf Hs)) |].
  intros id row Hrow. destruct (decide (c_state (cr_payload row) = PREPARED)) as [Hst | Hst].
  - destruct (entry_history _ _ _ _ Hwf (journal_history _ _ Hwf Hs) Hrow) as (row' & Hrow' & _).
    exists row'. split; [exact Hrow' |]. split; [congruence |]. intros Hok.
    destruct (jw_entry _ Hwf _ _ Hrow) as (t & c & He).
    destruct (Hset Hok row) as (row2 & Hrow2 & Hst2); [apply prepared_rows_elem; eauto |].
    rewrite (proj1 (entry_fields _ _ _ _ _ He)) in Hrow2. unfold commit_of in *. congruence.
  - exists row. split; [exact (settled_stays _ _ _ _ Hwf Hs Hrow Hst) | auto].
Qed.
End journal.
