(* ===== verification/Claims.v ===== *)
(** * Claims, leases and resumptions

    The operations of [Scheduler] as histories of the runtime: what a claim, a
    renewal and a resumption change, and what every later history keeps of
    them. *)
From S2P Require Import Prelude Records CanonicalJson Store Work Processes WorkLife Actions.
From S2P Require Import Budget Runtime Registry Hierarchy Ledger Dispatch Authority Outputs.
From S2P Require Import Validator Services Projections Transition Scheduler History Journal.

Section claims.
Context `{CodecLaws} `{TrustedEvidence} `{Host} `{StageRules} `{EvidenceRecords}.
Implicit Types (db : Db) (rt : Rt) (w p : WorkExecutionState).

(** ** Budget operations that leave works alone *)

Lemma stage_db_grown db r ref db' : stage_db db r = Ok (ref, db') -> store_grown db db'.
Proof.
  unfold stage_db. destruct (stage (db_store db) r) as [[ref0 s] |] eqn:Hs; [| discriminate].
  intros [= <- <-]. exists s. split; [reflexivity |]. apply rtc_once. eapply step_stage, Hs.
Qed.

Lemma grown_quiet P db db' : store_grown db db' -> quiet P db db'.
Proof. intros Hg. apply steady_quiet, grown_steady, Hg. Qed.

Lemma reserve_quiet P db r r' db' : reserve db r = Ok (r', db') -> quiet P db db'.
Proof.
  intros Hr. pose proof (ls_reserve P db db' r r' Hr) as Hstep. apply reserve_Ok in Hr.
  destruct Hr as (_ & [(row & _ & -> & _) | (_ & _ & _ & db1 & db2 & m & ref & items & Hg & _ & _
    & Hs & Hi)]); [reflexivity |].
  assert (Hq : quiet P db db2).
  { etransitivity; [apply grown_quiet, Hg | eapply stage_publish_quiet, Hs]. }
  apply insert_reservation_Ok in Hi. destruct Hi as [_ ->].
  split; [apply rtc_once, Hstep | apply Hq ..].
Qed.

Lemma commit_quiet (P : Db -> BudgetLedgerEntry -> Prop) db e id t1 t2 e' db' :
  P db e -> commit_usage db e id t1 t2 = Ok (e', db') -> quiet P db db'.
Proof.
  intros HP Hc. pose proof (ls_commit P db db' e id t1 t2 e' HP Hc) as Hstep.
  apply commit_usage_Ok in Hc. destruct Hc as (_ & _ & _ & init & _ & [(old & _ & _ & ->) |
    (_ & row & m & db1 & fin & _ & _ & _ & _ & _ & _ & Hg & Hi)]); [reflexivity |].
  pose proof (grown_quiet P _ _ Hg) as Hq. apply insert_entry_Ok in Hi. destruct Hi as [_ ->].
  split; [apply rtc_once, Hstep | apply Hq ..].
Qed.

(** A reservation under a new id is the record its reference resolves to, in a
    row of its own. *)
Lemma reserve_new db r r' db' :
  ledger_wf db -> find_reservation db (r_reservation_id r) = None ->
  reserve db r = Ok (r', db') ->
  r' = r /\ (exists row, find_reservation db' (r_reservation_id r) = Some row /\ rr_payload row = r)
  /\ forall ref, reference (RecReservation r) = Ok ref ->
       resolve_db db' ref false = Ok (RecReservation r).
Proof.
  intros Hwf Hnone Hr. pose proof (ls_reserve any_commit _ _ _ _ Hr) as Hstep.
  apply reserve_Ok in Hr. destruct Hr as (_ & [(row & Hf & _) | (_ & -> & Hst & db1 & db2 & m & ref
    & items & Hg & _ & _ & Hs & Hi)]); [congruence |].
  pose proof (ledger_wf_store _ _ Hg Hwf) as Hwf1.
  destruct (stage_publish_resolved _ _ _ _ (lw_store _ Hwf1) Hs) as [Href Hres].
  pose proof (stage_publish_Ok _ _ _ _ Hs) as Hg2.
  apply insert_reservation_Ok in Hi. destruct Hi as [Hnew ->].
  split; [reflexivity |]. split.
  - exists (mkReservationRow (r_reservation_id r) (rm_analysis_id (r_meta r))
              (ref_key (r_action_ref r)) R_RESERVED r ref false items).
    split; [| reflexivity]. unfold find_reservation in *. simpl. rewrite find_snoc.
    apply store_grown_tables in Hg, Hg2. destruct Hg as (_ & Hrows & _), Hg2 as (_ & Hrows2 & _).
    rewrite Hrows2, Hrows, Hnone. simpl. rewrite bool_decide_true by reflexivity. reflexivity.
  - intros ref' Href'. replace ref' with ref by congruence. exact Hres.
Qed.

(** ** What a claim did when it returned *)

Lemma claimable_Ok db a id v w :
  claimable_work db a id v = Ok (Some w) ->
  exists row, work_states db !! id = Some row /\ wr_payload row = w
    /\ rm_analysis_id (w_meta w) = a /\ w_status w = READY /\ w_state_version w = v
    /\ w_work_id w = id /\ wr_worker_id row = None.
Proof.
  unfold claimable_work. destruct (work_states db !! id) as [row |]; [| discriminate].
  destruct (_ || _) eqn:Hr; [discriminate |].
  destruct (current_records db !! _) as [[]|]; [| discriminate].
  match goal with |- Ok (if ?b then _ else _) = _ -> _ => destruct b end; [discriminate |].
  intros [= <-]. boolify.
  destruct Hr as ((((((A & B) & C) & D) & _) & E) & _). exists row. auto 10.
Qed.

(** [None] is answered without a trace. *)
Lemma try_claim_None rt tick a id v worker lease rt' :
  try_claim_ready rt tick a id v worker lease = Ok (None, rt') -> rt' = rt.
Proof.
  unfold try_claim_ready. intros Hc. apply raise_if_Ok in Hc. destruct Hc as [_ Hc].
  apply raise_if_Ok in Hc. destruct Hc as [_ Hc]. cbv zeta in Hc.
  destruct (cancel_latched _ _); [congruence |]. call Hc as run _.
  destruct (negb _); [congruence |]. call Hc as found _. destruct found as [w |]; [| congruence].
  call Hc as [scope q] _. call Hc as profile _. destruct (_ <=? _); [congruence |].
  call Hc as m _. destruct (_ || _); [congruence |]. call Hc as trigger _. call Hc as action _.
  call Hc as reservation _. destruct (claim_body _ _ _ _ _ _ _ _ _ _ _ _) as [[] | []];
    try discriminate. destruct (budget_refusal _); congruence.
Qed.

Lemma try_claim_Ok rt tick a id v worker lease c rt' :
  try_claim_ready rt tick a id v worker lease = Ok (Some c, rt') ->
  exists run w scope registration profile trigger action reservation,
    let db := rt_db rt in
    let prior := latest_attempt db id in
    cancel_latched db a = false /\ get_run db a = Ok run /\ s_status run = RUN_RUNNING
    /\ claimable_work db a id v = Ok (Some w)
    /\ _registration_context db w = Ok (scope, registration)
    /\ execution db scope a = Ok profile
    /\ Z.of_nat (running db a) < max_parallel_work profile
    /\ (forall b, prior = Some b -> a_status b <> A_RUNNING)
    /\ claim_trigger db w prior = Ok trigger
    /\ _start_action (sk tick 1%nat) w registration = Ok action
    /\ retry_reservation (sk tick 2%nat) w scope action (if is_none prior then 0 else 1)
          (ep_currency profile) (rm_attempt_id (w_meta w)) (clock (sk tick 0%nat) 1)
        = Ok reservation
    /\ claim_body rt tick w scope action reservation (fresh (sk tick 0%nat) 0) (next_number prior)
          trigger (clock (sk tick 0%nat) 1) worker lease = Ok (c, rt').
Proof.
  unfold try_claim_ready. intros Hc. apply raise_if_Ok in Hc. destruct Hc as [_ Hc].
  apply raise_if_Ok in Hc. destruct Hc as [_ Hc]. cbv zeta in Hc.
  destruct (cancel_latched _ _); [discriminate |]. call Hc as run Hrun.
  destruct (negb _) eqn:Hst; [discriminate |]. call Hc as found Hw.
  destruct found as [w |]; [| discriminate]. call Hc as [scope q] Hreg. call Hc as profile Hprof.
  destruct (_ <=? _) eqn:Hpar; [discriminate |]. call Hc as m _.
  destruct (_ || _) eqn:Hprior; [discriminate |]. call Hc as trigger Ht. call Hc as action Ha.
  call Hc as reservation Hres. destruct (claim_body _ _ _ _ _ _ _ _ _ _ _ _) as [[c' rt2] | []] eqn:Hb;
    try discriminate; [| destruct (budget_refusal _); discriminate]. injection Hc as <- <-.
  boolify. exists run, w, scope, q, profile, trigger, action, reservation. cbv zeta.
  repeat (split; [first [assumption | reflexivity] |]). split; [| auto].
  intros b Hb'. rewrite Hb' in Hprior. boolify. apply Hprior.
Qed.

Lemma claim_body_Ok rt tick w scope q r attempt_id n trigger now worker lease c rt' :
  claim_body rt tick w scope q r attempt_id n trigger now worker lease = Ok (c, rt') ->
  exists ref db0 r' db1 rref d rt1 t rt2 m e e' db2,
    stage_db (rt_db rt) (RecAction q) = Ok (ref, db0) /\ reserve db0 r = Ok (r', db1)
    /\ reference (RecReservation r') = Ok rref
    /\ authorize (set_db rt db1) (sk_auth tick) q (Some w) (Some rref) = Ok (d, rt1)
    /\ d_decision d = ALLOW
    /\ _start_transition (sk tick 3%nat) w d attempt_id = Ok t
    /\ new_attempt (sk tick 4%nat) w attempt_id n trigger now = Ok (cx_attempt c)
    /\ start rt1 (sk tick 5%nat) t (cx_attempt c) rref worker lease = Ok (cx_work c, rt2)
    /\ claim_entry (sk tick 6%nat) w r' scope q m = Ok e
    /\ commit_usage (rt_db rt2) e (fresh (sk tick 7%nat) 0) (clock (sk tick 7%nat) 0)
          (clock (sk tick 7%nat) 1) = Ok (e', db2)
    /\ rt' = set_db rt2 db2.
Proof.
  unfold claim_body. intros Hc. call Hc as [ref db0] H1'. call Hc as [r' db1] H2'.
  call Hc as rref H3'. call Hc as [d rt1] H4'. call Hc as [] H5'. call Hc as t H6'.
  call Hc as attempt H7'. call Hc as [w' rt2] H8'. call Hc as remaining _. call Hc as e H9'.
  call Hc as [e' db2] H10'. injection Hc as <- <-.
  unfold require_allowed in H5'. apply raise_if_Ok in H5'. destruct H5' as [H5' _]. boolify.
  exists ref, db0, r', db1, rref, d, rt1, t, rt2. do 4 eexists.
  repeat (split; [eassumption |]). reflexivity.
Qed.

Lemma retry_reservation_Ok tick w scope q retries currency attempt now r :
  retry_reservation tick w scope q retries currency attempt now = Ok r ->
  r_reservation_id r = fresh tick 1 /\ r_requested_units r = mkUnits 0 0 0 retries 0 currency.
Proof.
  unfold retry_reservation. intros Hr. call Hr as ? ?. call Hr as ? ?. call Hr as ? ?. call Hr as ? ?.
  call Hr as ? ?. apply validate_reservation_Ok in Hr. destruct Hr as (-> & _). auto.
Qed.

Lemma claim_entry_Ok tick w r scope q n e :
  claim_entry tick w r scope q n = Ok e ->
  e_actual_units e = r_requested_units r
  /\ exists ref, reference (RecReservation r) = Ok ref /\ scope_ref (e_reservation_ref e) = ref.
Proof.
  unfold claim_entry. intros He. call He as meta _. call He as ref Href. call He as sref Hs.
  call He as ? ?. call He as ? ?. call He as ? ?. call He as ? ?. apply validate_entry_Ok in He.
  destruct He as (-> & _). split; [reflexivity |]. exists ref. split; [exact Href |].
  unfold as_scope in Hs. destruct (scope_of ref) eqn:E; [| discriminate]. injection Hs as <-.
  apply scope_of_ref, E.
Qed.

(** A commit that returned has its entry, which is the one it was asked to write. *)
Lemma commit_entry db e id t1 t2 e' db' r :
  commit_usage db e id t1 t2 = Ok (e', db') ->
  resolve_db db (e_reservation_ref e) false = Ok (RecReservation r) ->
  exists entry, find_entry db' (r_reservation_id r) = Some entry /\ lr_payload entry = e.
Proof.
  intros Hc Hr. apply commit_usage_Ok in Hc. destruct Hc as (_ & _ & _ & init & Hi & Hc).
  rewrite Hi in Hr. injection Hr as <-.
  destruct Hc as [(old & Hf & Hp & ->) | (Hn & row & m & db1 & fin & _ & _ & _ & _ & _ & _ & Hg & Hins)];
    [eauto |].
  apply insert_entry_Ok in Hins. destruct Hins as [_ ->]. apply store_grown_tables in Hg.
  unfold find_entry in *. simpl. destruct Hg as (_ & _ & -> & _). rewrite find_snoc, Hn. simpl.
  rewrite bool_decide_true by reflexivity. eauto.
Qed.

(** A reservation that was never made has no entry. *)
Lemma new_unsettled db id : ledger_wf db -> find_reservation db id = None -> find_entry db id = None.
Proof.
  intros Hwf Hn. destruct (find_entry db id) as [entry |] eqn:He; [| reflexivity].
  destruct (proj2 (lw_settled _ Hwf id) (ex_intro _ _ He)) as (row & Hrow & _). congruence.
Qed.

(** ** A claim as a history *)

Lemma steps_ledger P rt rt' :
  runtime_typed rt -> rtc (runtime_step P) rt rt' -> rtc (ledger_step P) (rt_db rt) (rt_db rt').
Proof.
  intros Hty Hs. induction Hs as [| rt1 rt2 rt3 Hs _ IH]; [reflexivity |].
  etransitivity; [apply (ef_ledger _ _ _ (runtime_step_effect _ _ _ Hty Hs)) |].
  apply IH. eapply runtime_step_typed; eassumption.
Qed.

(** The entry debits what its reservation holds. *)
Definition debits_reserved db (e : BudgetLedgerEntry) : Prop :=
  forall initial row,
    resolve_db db (e_reservation_ref e) false = Ok (RecReservation initial) ->
    find_reservation db (r_reservation_id initial) = Some row ->
    e_actual_units e = r_requested_units (rr_payload row).

(** Commits that debit what was reserved are among those of [P]. *)
Definition allows_exact (P : Db -> BudgetLedgerEntry -> Prop) : Prop :=
  forall db e, debits_reserved db e -> P db e.

Lemma within_allows_exact : allows_exact within_reservation.
Proof.
  intros db e He initial row Hi Hrow. rewrite (He initial row Hi Hrow). apply Forall_true. lia.
Qed.

Lemma any_allows_exact : allows_exact any_commit.
Proof. intros db e _. exact I. Qed.

(** The id a claim draws for its reservation. *)
Definition claim_reservation_id (tick : SchedTick) : string := fresh (sk tick 2%nat) 1.

Section moves.
Context (P : Db -> BudgetLedgerEntry -> Prop) (HP : allows_exact P).

Lemma claim_moves rt tick w scope q r attempt_id n trigger now worker lease c rt' :
  runtime_typed rt -> find_reservation (rt_db rt) (r_reservation_id r) = None ->
  claim_body rt tick w scope q r attempt_id n trigger now worker lease = Ok (c, rt') ->
  exists rt1 rt2 d t rref,
    still P rt rt1
    /\ _start_transition (sk tick 3%nat) w d attempt_id = Ok t
    /\ new_attempt (sk tick 4%nat) w attempt_id n trigger now = Ok (cx_attempt c)
    /\ start rt1 (sk tick 5%nat) t (cx_attempt c) rref worker lease = Ok (cx_work c, rt2)
    /\ still P rt2 rt'
    /\ exists row, find_reservation (rt_db rt') (r_reservation_id r) = Some row
         /\ r_status (rr_payload row) = R_COMMITTED
         /\ r_requested_units (rr_payload row) = r_requested_units r
         /\ exists entry, find_entry (rt_db rt') (r_reservation_id r) = Some entry
              /\ e_actual_units (lr_payload entry) = r_requested_units r.
Proof.
  intros Hty Hnew Hb. apply claim_body_Ok in Hb.
  destruct Hb as (ref & db0 & r' & db1 & rref & d & rt1 & t & rt2 & m & e & e' & db2 & Hs & Hr & Href
    & Ha & _ & Ht & Hatt & Hst & He & Hc & ->).
  pose proof (stage_db_grown _ _ _ _ Hs) as Hg.
  pose proof (ledger_wf_store _ _ Hg (ty_ledger _ Hty)) as Hwf0.
  assert (Hnew0 : find_reservation db0 (r_reservation_id r) = None).
  { apply store_grown_tables in Hg. rewrite (find_unchanged (rt_db rt)) by apply Hg. exact Hnew. }
  destruct (reserve_new _ _ _ _ Hwf0 Hnew0 Hr) as (-> & (row & Hrow & Hpay) & Hres).
  assert (Hs1 : still P rt (set_db rt db1)).
  { apply quiet_still. etransitivity; [apply grown_quiet, Hg | eapply reserve_quiet, Hr]. }
  assert (Hs2 : still P rt rt1) by (etransitivity; [exact Hs1 | eapply authorize_still, Ha]).
  pose proof (still_typed _ _ _ Hs1 Hty) as Hty1.
  assert (Hsteps : rtc (runtime_step P) (set_db rt db1) rt2).
  { eapply rtc_r; [eapply sl_steps, authorize_still, Ha | eapply rt_start, Hst]. }
  pose proof (steps_ledger _ _ _ Hty1 Hsteps) as Hledger.
  pose proof (typed_steps _ _ _ Hty1 Hsteps) as Hty2.
  destruct (rows_evolve_steps _ _ _ (ty_ledger _ Hty1) Hledger _ _ Hrow) as (row2 & Hrow2 & Hev).
  assert (Hres2 : resolve_db (rt_db rt2) rref false = Ok (RecReservation r)).
  { eapply resolve_grown; [apply (lw_store _ (ty_ledger _ Hty1)) | | exact (Hres _ Href)].
    eapply ledger_steps_store, Hledger. }
  destruct (claim_entry_Ok _ _ _ _ _ _ _ He) as (Hunits & ref' & Href' & Hscope).
  replace ref' with rref in Hscope by congruence.
  assert (Hexact : debits_reserved (rt_db rt2) e).
  { intros initial row' Hi Hrow'. rewrite Hscope, Hres2 in Hi. injection Hi as <-.
    rewrite Hrow2 in Hrow'. injection Hrow' as <-. rewrite Hunits, (ev_requested _ _ Hev), Hpay.
    reflexivity. }
  exists rt1, rt2, d, t, rref. do 4 (split; [assumption |]). split.
  { apply quiet_still. eapply commit_quiet; [apply HP, Hexact | exact Hc]. }
  pose proof (ls_commit any_commit _ _ _ _ _ _ _ I Hc) as Hcs.
  pose proof (ledger_step_wf _ _ _ (ty_ledger _ Hty2) Hcs) as Hwf3.
  destruct (rows_evolve_step _ _ _ (ty_ledger _ Hty2) Hcs _ _ Hrow2) as (row3 & Hrow3 & Hev3).
  assert (Hentry : exists entry, find_entry db2 (r_reservation_id r) = Some entry /\ lr_payload entry = e).
  { eapply commit_entry; [exact Hc | rewrite Hscope; exact Hres2]. }
  destruct Hentry as (entry & Hentry & Hdebit).
  destruct (proj2 (lw_settled _ Hwf3 (r_reservation_id r)) (ex_intro _ _ Hentry)) as (row4 & Hrow4 & Hcom).
  simpl. exists row3. split; [exact Hrow3 |]. split; [congruence |].
  split; [rewrite (ev_requested _ _ Hev3), (ev_requested _ _ Hev), Hpay; reflexivity |].
  exists entry. split; [exact Hentry |]. rewrite Hdebit. exact Hunits.
Qed.

Lemma start_transition_Ok tick w d attempt_id t :
  _start_transition tick w d attempt_id = Ok t -> t_work_id t = w_work_id w.
Proof.
  unfold _start_transition. intros Ht. call Ht as ? ?. call Ht as ? ?. call Ht as ? ?. call Ht as ? ?.
  unfold validate_transition in Ht. unbind Ht. injection Ht as <-. reflexivity.
Qed.

Lemma new_attempt_Ok tick w attempt_id n trigger now a :
  new_attempt tick w attempt_id n trigger now = Ok a ->
  a_work_id a = w_work_id w /\ a_attempt_id a = attempt_id /\ a_attempt_number a = n
  /\ a_trigger a = trigger /\ a_status a = A_RUNNING /\ a_elapsed_ms a = 0.
Proof.
  unfold new_attempt. intros Ha. call Ha as ? ?. apply validate_attempt_Ok in Ha. subst a. auto 10.
Qed.

(** What a claim leaves of the tables. *)
Record claimed rt (id : string) (v : Z) (worker : string) (lease : Z) (c : WorkContext) rt'
  (row : WorkRow) : Prop := {
  cl_row : work_states (rt_db rt) !! id = Some row;
  cl_ready : w_status (wr_payload row) = READY;
  cl_version : w_state_version (wr_payload row) = v;
  cl_worker : wr_worker_id row = None;
  cl_step : work_step (wr_payload row) (cx_work c);
  cl_running : w_status (cx_work c) = RUNNING;
  cl_active : w_active_attempt_id (cx_work c) = Some (a_attempt_id (cx_attempt c));
  cl_works : work_states (rt_db rt') = <[id := leased (cx_work c) row worker lease]>
                                         (work_states (rt_db rt));
  cl_fresh : work_attempts (rt_db rt) !! a_attempt_id (cx_attempt c) = None;
  cl_attempts : work_attempts (rt_db rt') = <[a_attempt_id (cx_attempt c) := cx_attempt c]>
                                              (work_attempts (rt_db rt));
  cl_controls : run_controls (rt_db rt') = run_controls (rt_db rt);
  cl_commits : transition_commits (rt_db rt') = transition_commits (rt_db rt);
  cl_history : rtc (runtime_step P) rt rt';
}.

Lemma try_claim_claimed rt tick a id v worker lease c rt' :
  runtime_typed rt -> find_reservation (rt_db rt) (claim_reservation_id tick) = None ->
  try_claim_ready rt tick a id v worker lease = Ok (Some c, rt') ->
  exists row, claimed rt id v worker lease c rt' row /\ rm_analysis_id (w_meta (wr_payload row)) = a.
Proof.
  intros Hty Hnew Hc. apply try_claim_Ok in Hc.
  destruct Hc as (run & w & scope & q & profile & trigger & action & r & _ & _ & _ & Hw & _ & _ & _ & _
    & _ & _ & Hr & Hb).
  apply claimable_Ok in Hw. destruct Hw as (row & Hrow & Hpay & Ha & Hready & Hv & Hid & Hwk).
  apply retry_reservation_Ok in Hr. destruct Hr as [Hrid _].
  unfold claim_reservation_id in Hnew. rewrite <- Hrid in Hnew. destruct (claim_moves _ _ _ _ _ _ _ _ _ _ _ _ _ _ Hty Hnew Hb)
    as (rt1 & rt2 & d & t & rref & Hs1 & Ht & _ & Hst & Hs2 & _).
  apply start_transition_Ok in Ht. pose proof (still_typed _ _ _ Hs1 Hty) as Hty1.
  pose proof (rt_start P _ _ _ _ _ _ _ _ _ Hst) as Hstep.
  apply (start_tables _ _ _ _ _ _ _ _ _ Hty1) in Hst.
  destruct Hst as (row' & sc & pr & Hrow' & _ & Hws & Hrun & Hact & _ & _ & Hworks & Hfresh & Hatt & Hctl
    & Hcm).
  rewrite (sl_works _ _ _ Hs1), (sl_attempts _ _ _ Hs1), (sl_controls _ _ _ Hs1),
    (sl_commits _ _ _ Hs1), Ht, Hid in *.
  replace row' with row in * by congruence. rewrite Hpay in Hws. subst w.
  exists row. split; [| exact Ha]. split; try assumption.
  - rewrite (sl_works _ _ _ Hs2). exact Hworks.
  - rewrite (sl_attempts _ _ _ Hs2). exact Hatt.
  - rewrite (sl_controls _ _ _ Hs2). exact Hctl.
  - rewrite (sl_commits _ _ _ Hs2). exact Hcm.
  - etransitivity; [apply Hs1 |]. eapply rtc_l; [exact Hstep | apply Hs2].
Qed.

(** ** A resumption as a history *)

Lemma resume_transition_Ok tick w d t :
  _resume_transition tick w d = Ok t ->
  validate_transition t = Ok t /\ t_expected_state_version t = w_state_version w
  /\ t_from_status t = w_status w /\ t_to_status t = T_READY /\ t_cause t = "USER_RESUME".
Proof.
  unfold _resume_transition. intros Ht. call Ht as ? ?. call Ht as ? ?. call Ht as ? ?. call Ht as ? ?.
  pose proof Ht as Hv. unfold validate_transition in Hv. unbind Hv. injection Hv as <-. auto 10.
Qed.

(** A work a user may reopen. *)
Definition reopenable w : Prop :=
  w_status w ∈ [BLOCKED; FAILED] /\ w_active_attempt_id w = None
  /\ (w_status w = FAILED -> w_work_type w = DYNAMIC_REPRO /\ w_stop_reason w = Some "FAILED").

Lemma save_steps rt tick p w db :
  get_work (rt_db rt) (w_work_id p) = Ok p -> work_step p w -> w_status w <> RUNNING ->
  cancel_latched (rt_db rt) (rm_analysis_id (w_meta p)) = false ->
  save (rt_db rt) tick p w = Ok db ->
  runtime_step P rt (set_db rt db)
  /\ calm P (rt_db rt) db
  /\ exists row, work_states (rt_db rt) !! w_work_id p = Some row /\ wr_payload row = p
       /\ work_states db = <[w_work_id p := save_row w row]> (work_states (rt_db rt)).
Proof.
  intros Hp Hstep Hrun Hc Hs. split; [| eapply save_effect; eauto].
  apply (rt_publish P rt _ tick p w (work_attempts (rt_db rt)) db true);
    [exact Hp | exact Hstep | exact Hrun | rewrite (same_analysis _ _ Hstep); auto | left; reflexivity | destruct (rt_db rt); exact Hs
    | reflexivity].
Qed.

Lemma reopen_step tick rt l w d rt' l' :
  runtime_typed rt -> get_work (rt_db rt) (w_work_id w) = Ok w -> reopenable w ->
  cancel_latched (rt_db rt) (rm_analysis_id (w_meta w)) = false ->
  reopen tick (rt, l) (w, Some d) = Ok (rt', l') ->
  exists w' row, l' = l ++ [w'] /\ work_step w w' /\ w_status w' = READY
    /\ work_states (rt_db rt) !! w_work_id w = Some row /\ wr_payload row = w
    /\ work_states (rt_db rt') = <[w_work_id w := save_row w' row]> (work_states (rt_db rt))
    /\ rtc (runtime_step P) rt rt' /\ work_attempts (rt_db rt') = work_attempts (rt_db rt)
    /\ run_controls (rt_db rt') = run_controls (rt_db rt)
    /\ transition_commits (rt_db rt') = transition_commits (rt_db rt).
Proof.
  unfold reopen. intros Hty Hg (Hst & Hact & Hfail) Hlatch Hr. cbv zeta in Hr. call Hr as t Ht.
  call Hr as dref _. call Hr as [d' rt1] Hc. call Hr as [ref db1] Hs. call Hr as tref _.
  call Hr as meta Hm. call Hr as w' Hv. call Hr as db2 Hsv. injection Hr as <- <-.
  apply resume_transition_Ok in Ht. destruct Ht as (Hvt & Hver & Hfrom & Hto & _).
  assert (Hstep : work_step w w') by (eapply step_resume; eauto).
  assert (Hready : w_status w' = READY) by (apply validate_work_Ok in Hv; destruct Hv as [-> _]; reflexivity).
  assert (Hs1 : still P rt (set_db rt1 db1)).
  { etransitivity; [eapply claim_still, Hc |]. eapply quiet_still, stage_publish_quiet, Hs. }
  assert (Hg1 : get_work (rt_db (set_db rt1 db1)) (w_work_id w) = Ok w).
  { unfold get_work in *. rewrite (sl_works _ _ _ Hs1). exact Hg. }
  assert (Hlatch1 : cancel_latched (rt_db (set_db rt1 db1)) (rm_analysis_id (w_meta w)) = false).
  { unfold cancel_latched in *. rewrite (sl_controls _ _ _ Hs1). exact Hlatch. }
  destruct (save_steps _ _ _ _ _ Hg1 Hstep ltac:(congruence) Hlatch1 Hsv) as (Hrt & Hcalm & row & Hrow & Hpay & Hworks).
  rewrite (sl_works _ _ _ Hs1) in Hrow, Hworks. exists w', row.
  repeat (split; [assumption || reflexivity |]). split.
  { eapply rtc_r; [apply Hs1 | exact Hrt]. }
  simpl. rewrite (cm_attempts _ _ _ Hcalm), (cm_controls _ _ _ Hcalm), (cm_commits _ _ _ Hcalm).
  split; [apply Hs1 |]. split; apply Hs1.
Qed.

(** A work as [resume_blocked] found it and as it left it. *)
Definition reopened_row db db' w w' : Prop :=
  work_step w w' /\ w_status w' = READY
  /\ exists row, work_states db !! w_work_id w = Some row /\ wr_payload row = w
       /\ work_states db' !! w_work_id w = Some (save_row w' row).

Lemma reopen_all tick found rt l rt' l' :
  runtime_typed rt ->
  Forall (fun x => get_work (rt_db rt) (w_work_id x.1) = Ok x.1 /\ reopenable x.1 /\ is_Some x.2
                   /\ cancel_latched (rt_db rt) (rm_analysis_id (w_meta x.1)) = false) found ->
  NoDup (map (fun x => w_work_id x.1) found) ->
  fold_result (reopen tick) (rt, l) found = Ok (rt', l') ->
  exists ws, l' = l ++ ws
    /\ Forall2 (fun x w' => reopened_row (rt_db rt) (rt_db rt') x.1 w') found ws
    /\ (forall id, id ∉ map (fun x => w_work_id x.1) found ->
          work_states (rt_db rt') !! id = work_states (rt_db rt) !! id)
    /\ rtc (runtime_step P) rt rt' /\ work_attempts (rt_db rt') = work_attempts (rt_db rt)
    /\ run_controls (rt_db rt') = run_controls (rt_db rt)
    /\ transition_commits (rt_db rt') = transition_commits (rt_db rt).
Proof.
  revert rt l. induction found as [| [w d] found IH]; intros rt l Hty Hall Hnd Hf.
  { injection Hf as <- <-. exists []. rewrite app_nil_r. repeat (split; [reflexivity || constructor |]).
    reflexivity. }
  apply Forall_cons in Hall. destruct Hall as [(Hg & Hre & [d' Hd] & Hc) Hall].
  simpl in Hg, Hre, Hd, Hc. subst d.
  simpl in Hnd. apply NoDup_cons in Hnd. destruct Hnd as [Hw Hnd].
  cbn [fold_result] in Hf. call Hf as [rt1 l1] H1'.
  destruct (reopen_step _ _ _ _ _ _ _ Hty Hg Hre Hc H1') as (w' & row & -> & Hstep & Hready & Hrow & Hpay
    & Hworks & Hsteps & Hatt & Hctl & Hcm).
  pose proof (typed_steps _ _ _ Hty Hsteps) as Hty1.
  assert (Hall1 : Forall (fun x => get_work (rt_db rt1) (w_work_id x.1) = Ok x.1 /\ reopenable x.1
                            /\ is_Some x.2
                            /\ cancel_latched (rt_db rt1) (rm_analysis_id (w_meta x.1)) = false) found).
  { apply Forall_forall. intros x Hx. rewrite Forall_forall in Hall. specialize (Hall x Hx).
    unfold get_work, cancel_latched in *. rewrite Hctl, Hworks, lookup_insert_ne; [exact Hall |].
    intros Heq. apply Hw. rewrite Heq. apply (list_elem_of_fmap_2 (fun x => w_work_id x.1)), Hx. }
  destruct (IH _ _ Hty1 Hall1 Hnd Hf) as (ws & -> & Hfor & Hrest & Hsteps2 & Hatt2 & Hctl2 & Hcm2).
  exists (w' :: ws). rewrite <- app_assoc. split; [reflexivity |]. split.
  { constructor.
    - split; [exact Hstep |]. split; [exact Hready |]. exists row. split; [exact Hrow |].
      split; [exact Hpay |]. simpl. rewrite (Hrest _ Hw), Hworks. apply lookup_insert_eq.
    - eapply Forall2_weaken; [exact Hfor |]. intros x w2 Hx (Hs2 & Hr2 & row2 & Hrow2 & Hx2).
      split; [exact Hs2 |]. split; [exact Hr2 |]. exists row2. split; [| exact Hx2].
      rewrite <- Hrow2, Hworks, lookup_insert_ne; [reflexivity |].
      intros Heq. apply Hw. rewrite Heq. apply (list_elem_of_fmap_2 (fun x => w_work_id x.1)), Hx. }
  split.
  { intros id Hid. apply not_elem_of_cons in Hid. destruct Hid as [Hne Hid].
    rewrite (Hrest _ Hid), Hworks. apply lookup_insert_ne. simpl in Hne. congruence. }
  split; [etransitivity; eassumption |]. repeat split; congruence.
Qed.

(** What the validation loop knows of a candidate it accepts. *)
Definition accepted db (replay : bool) (c : Candidate) (x : WorkExecutionState * option ActionDecision)
  : Prop :=
  (exists row, work_states db !! w_work_id c.1 = Some row /\ wr_payload row = x.1)
  /\ latest_attempt db (w_work_id x.1) = Some c.2
  /\ if replay then
       x.2 = None /\ previous_record_id (w_meta x.1) = Some (record_id (w_meta c.1))
       /\ exists ref t, w_last_transition_ref x.1 = Some ref
            /\ resolve_db db ref false = Ok (RecTransition t)
            /\ t_cause t = "USER_RESUME" /\ t_expected_state_version t = w_state_version c.1
     else x.1 = c.1 /\ is_Some x.2 /\ reopenable x.1.

Lemma current_candidate_Ok db run a w row previous :
  current_candidate db run a w = Ok (row, previous) ->
  work_states db !! w_work_id w = Some row
  /\ latest_attempt db (w_work_id (wr_payload row)) = Some previous.
Proof.
  unfold current_candidate. destruct (work_states db !! _) as [r |]; [| discriminate].
  destruct (negb _); [discriminate |]. destruct (latest_attempt _ _) as [p |] eqn:Hl; [| discriminate].
  intros Hc. call Hc as ? ?. call Hc as ? ?. call Hc as ? ?. call Hc as ? ?. call Hc as ? ?.
  call Hc as ? ?. apply raise_if_Ok in Hc. destruct Hc as [_ Hc]. apply raise_if_Ok in Hc.
  destruct Hc as [_ Hc]. call Hc as ? ?. injection Hc as <- <-. auto.
Qed.

Lemma check_replay_Ok db w previous c :
  check_replay db w previous c = Ok tt ->
  previous = c.2 /\ previous_record_id (w_meta w) = Some (record_id (w_meta c.1))
  /\ exists ref t, w_last_transition_ref w = Some ref
       /\ resolve_db db ref false = Ok (RecTransition t)
       /\ t_cause t = "USER_RESUME" /\ t_expected_state_version t = w_state_version c.1.
Proof.
  destruct c as [s b]. unfold check_replay. destruct (w_last_transition_ref w) as [ref |]; [| discriminate].
  intros Hc. call Hc as t Ht. apply raise_if_Ok in Hc. destruct Hc as [Hcond Hc].
  destruct t as [| | t | | | | | | | | | | | | | | | |]; try discriminate Hcond. call Hc as ? ?. call Hc as ? ?.
  apply raise_if_Ok in Hc. destruct Hc as [Hlast _]. boolify.
  destruct Hcond as (((Hcause & _) & Hver) & Hprev), Hlast as [_ Hb]. simpl.
  split; [exact Hb |]. split; [exact Hprev |]. exists ref, t. auto.
Qed.

Lemma check_blocked_Ok db purpose row previous c :
  check_blocked db purpose row previous c = Ok tt ->
  wr_payload row = c.1 /\ previous = c.2 /\ reopenable (wr_payload row).
Proof.
  destruct c as [s b]. unfold check_blocked. intros Hc. apply raise_if_Ok in Hc.
  destruct Hc as [Hcond Hc]. call Hc as [] Hrule. boolify.
  destruct Hcond as ((((((((H1' & H2') & H3') & H4') & _) & _) & _) & _) & _). simpl.
  split; [exact H1' |]. split; [exact H2' |]. split; [exact H3' |]. split; [exact H4' |].
  intros Hf. rewrite bool_decide_true in Hrule by exact Hf.
  unfold _require_local_failed_dynamic_repair in Hrule. apply raise_if_Ok in Hrule.
  destruct Hrule as [Hrule _]. boolify. tauto.
Qed.

Lemma validate_step run a replay tick rt n found c rt' n' found' :
  validate_candidate run a replay tick (rt, n, found) c = Ok (rt', n', found') ->
  still P rt rt' /\ (replay = true -> rt' = rt)
  /\ exists x, found' = found ++ [x] /\ accepted (rt_db rt) replay c x.
Proof.
  unfold validate_candidate. intros Hv. cbv zeta in Hv. call Hv as [row previous] Hcur.
  call Hv as [scope q] _. call Hv as [] _. call Hv as m _. apply raise_if_Ok in Hv. destruct Hv as [_ Hv].
  apply current_candidate_Ok in Hcur. destruct Hcur as [Hrow Hlast]. destruct replay.
  - call Hv as [] Hr. injection Hv as <- <- <-. split; [reflexivity |]. split; [reflexivity |].
    eexists. split; [reflexivity |]. apply check_replay_Ok in Hr. destruct Hr as (-> & Hprev & Ht).
    split; [eauto |]. split; [exact Hlast |]. auto.
  - call Hv as [] Hb. call Hv as action _. call Hv as [d rt1] Ha. call Hv as [] _.
    injection Hv as <- <- <-. split; [eapply authorize_still, Ha |]. split; [discriminate |].
    eexists. split; [reflexivity |]. apply check_blocked_Ok in Hb. destruct Hb as (Heq & -> & Hre).
    split; [eauto |]. split; [exact Hlast |]. simpl. split; [exact Heq |]. split; [eauto | exact Hre].
Qed.

(** A candidate stays accepted while its work and attempts are unchanged. *)
Lemma accepted_still rt rt' replay c x :
  still P rt rt' -> (replay = true -> rt' = rt) -> accepted (rt_db rt') replay c x ->
  accepted (rt_db rt) replay c x.
Proof.
  intros Hs Heq. destruct replay; [rewrite Heq by reflexivity; auto |].
  unfold accepted, latest_attempt, attempts_of. rewrite (sl_works _ _ _ Hs), (sl_attempts _ _ _ Hs). auto.
Qed.

Lemma validate_all run a replay tick cs rt n found rt' n' found' :
  fold_result (validate_candidate run a replay tick) (rt, n, found) cs = Ok (rt', n', found') ->
  still P rt rt' /\ (replay = true -> rt' = rt)
  /\ exists xs, found' = found ++ xs /\ Forall2 (accepted (rt_db rt) replay) cs xs.
Proof.
  revert rt n found. induction cs as [| c cs IH]; intros rt n found Hf.
  { injection Hf as <- <- <-. split; [reflexivity |]. split; [reflexivity |]. exists [].
    rewrite app_nil_r. split; [reflexivity | constructor]. }
  cbn [fold_result] in Hf. call Hf as [[rt1 n1] found1] Hc.
  apply validate_step in Hc. destruct Hc as (Hs1 & Heq1 & x & -> & Hx).
  destruct (IH _ _ _ Hf) as (Hs2 & Heq2 & xs & -> & Hxs).
  split; [etransitivity; eassumption |].
  split; [intros Hr; rewrite (Heq2 Hr); auto |]. exists (x :: xs). rewrite <- app_assoc.
  split; [reflexivity |]. constructor; [exact Hx |].
  eapply Forall2_impl; [exact Hxs |]. intros c' x'. apply accepted_still; assumption.
Qed.

Lemma resume_Ok rt tick cs ref l rt' :
  resume_blocked rt tick cs ref = Ok (l, rt') ->
  exists a run replay rt1 n found,
    (forall c, c ∈ cs -> rm_analysis_id (w_meta c.1) = a)
    /\ NoDup (map (fun c => w_work_id c.1) cs)
    /\ check_run (rt_db rt) a ref = Ok run
    /\ check_cohort (rt_db rt) run a (map (fun c => w_work_id c.1) cs) = Ok replay
    /\ fold_result (validate_candidate run a replay tick) (rt, 0, []) cs = Ok (rt1, n, found)
    /\ if replay then l = map fst found /\ rt' = rt1
       else fold_result (reopen tick) (rt1, []) found = Ok (rt', l).
Proof.
  unfold resume_blocked. destruct cs as [| [w0 b0] cs]; [discriminate |]. intros Hr.
  apply raise_if_Ok in Hr. destruct Hr as [Hscope Hr]. cbv zeta in Hr. call Hr as run Hrun.
  call Hr as replay Hco. call Hr as [[rt1 n] found] Hv. boolify. destruct Hscope as [Ha Hnd].
  exists (rm_analysis_id (w_meta w0)), run, replay, rt1, n, found. split.
  { intros c Hc. pose proof (existsb_false _ _ _ Ha Hc) as Hx. simpl in Hx. boolify. exact Hx. }
  repeat (split; [assumption |]). destruct replay; [injection Hr as <- <-; auto |].
  call Hr as [rt2 resumed] Hre. injection Hr as <- <-. exact Hre.
Qed.

Lemma run_rows_elem db a row :
  row ∈ run_rows db a <->
  rm_analysis_id (w_meta (wr_payload row)) = a /\ exists id, work_states db !! id = Some row.
Proof. unfold run_rows. rewrite list_elem_of_filter, rows_of_elem. reflexivity. Qed.

Lemma ids_where_elem (p : WorkRow -> bool) rows row :
  row ∈ rows -> p row = true -> w_work_id (wr_payload row) ∈ ids_where p rows.
Proof.
  intros Hin Hp. apply (list_elem_of_fmap_2 (fun row => w_work_id (wr_payload row))).
  apply list_elem_of_filter. auto.
Qed.

Lemma same_ids_Ok l l' : same_ids l l' = true -> forall x, x ∈ l <-> x ∈ l'.
Proof.
  unfold same_ids. rewrite andb_true_iff, !forallb_forall. intros [H1' H2'] x.
  split; intros Hx; apply list_elem_of_In in Hx.
  - apply H1' in Hx. boolify. exact Hx.
  - apply H2' in Hx. boolify. exact Hx.
Qed.

(** The cohort leaves out no work a user could reopen, unless it is a repair of
    dynamic reproduction work. *)
Definition whole_cohort db (run : AnalysisRunState) (a : string) (ids : list string) : Prop :=
  (forall id row, work_states db !! id = Some row -> rm_analysis_id (w_meta (wr_payload row)) = a ->
     resumable_blocked row = true \/ repairable_failed (s_purpose run) row = true ->
     w_work_id (wr_payload row) ∈ ids)
  \/ forall x, x ∈ ids -> exists row, w_work_id (wr_payload row) = x
       /\ row ∈ run_rows db a /\ is_dynamic row = true.

(** Nothing of the run is in progress. *)
Definition quiescent db (a : string) : Prop :=
  running db a = 0%nat
  /\ (forall id row, work_states db !! id = Some row -> rm_analysis_id (w_meta (wr_payload row)) = a ->
        w_status (wr_payload row) <> PENDING /\ w_active_attempt_id (wr_payload row) = None
        /\ wr_worker_id row = None
        /\ forall x, x ∈ external_dispatches db -> x_work_id x = w_work_id (wr_payload row) ->
             unresolved x = false).

Lemma repair_dynamic purpose rows x :
  x ∈ repair_ids purpose rows ->
  exists row, w_work_id (wr_payload row) = x /\ row ∈ rows /\ is_dynamic row = true.
Proof.
  intros Hx. assert (He : exists p : WorkRow -> bool, (p = repairable_failed purpose \/ p = repairable_dynamic_blocked)
                              /\ x ∈ ids_where p rows).
  { unfold repair_ids in Hx. cbv zeta in Hx. destruct (nonempty _); eauto. }
  destruct He as (p & Hp & Hin). apply list_elem_of_fmap in Hin. destruct Hin as (row & -> & Hin).
  apply list_elem_of_filter in Hin. destruct Hin as [Hrow Hin]. exists row.
  split; [reflexivity |]. split; [exact Hin |].
  destruct Hp as [-> | ->]; unfold repairable_failed, repairable_dynamic_blocked in Hrow;
    rewrite !andb_true_iff in Hrow; apply Hrow.
Qed.

Lemma cohort_quiescent db run a ids replay :
  check_cohort db run a ids = Ok replay -> quiescent db a.
Proof.
  unfold check_cohort. cbv zeta. intros Hc. apply raise_if_Ok in Hc. destruct Hc as [_ Hc].
  apply raise_if_Ok in Hc. destruct Hc as [Hbusy [= Hre]]. rewrite Hre in Hbusy.
  apply orb_false_iff in Hbusy. destruct Hbusy as [Hbusy Htab].
  assert (Hrow : forall row, row ∈ run_rows db a -> busy_row replay row = false)
    by (intros row Hin; exact (existsb_false _ _ _ Hbusy Hin)). split.
  - unfold running. apply length_zero_iff_nil. destruct (filter _ (rows_of db)) as [| r l] eqn:Hf; [reflexivity |].
    assert (Hr : r ∈ r :: l) by left. rewrite <- Hf in Hr. apply list_elem_of_filter in Hr.
    destruct Hr as [Hin Hr]. unfold in_analysis in Hin. boolify. destruct Hin as [Ha Hst].
    assert (Hrr : r ∈ run_rows db a) by (apply list_elem_of_filter; auto).
    specialize (Hrow r Hrr). unfold busy_row in Hrow. rewrite Hst in Hrow. discriminate.
  - intros id row Hid Ha. assert (Hin : row ∈ run_rows db a) by (apply run_rows_elem; eauto).
    specialize (Hrow row Hin). unfold busy_row in Hrow. boolify.
    destruct Hrow as ((((Hst & _) & Hact) & Hwk) & _).
    split; [set_solver |]. split; [exact Hact |]. split; [exact Hwk |]. intros x Hx Hxw.
    unfold busy_tables in Htab. apply orb_false_iff in Htab. destruct Htab as [_ Htab].
    pose proof (existsb_false _ _ _ Htab Hx) as Hb. simpl in Hb.
    rewrite Hxw in Hb. unfold unresolved.
    assert (Hm : mem (w_work_id (wr_payload row))
                   (map (fun row => w_work_id (wr_payload row)) (run_rows db a)) = true)
      by (apply mem_true, (list_elem_of_fmap_2 (fun row => w_work_id (wr_payload row))), Hin).
    rewrite Hm in Hb. simpl in Hb. rewrite <- andb_assoc, Hb. apply andb_false_r.
Qed.

Lemma cohort_whole db run a ids :
  check_cohort db run a ids = Ok false -> whole_cohort db run a ids.
Proof.
  unfold check_cohort. cbv zeta. intros Hc. apply raise_if_Ok in Hc. destruct Hc as [Hco Hc].
  apply raise_if_Ok in Hc. destruct Hc as [_ [= Hre]]. rewrite Hre in Hco. simpl in Hco.
  destruct (local_dynamic_repair _ _ _) eqn:Hl in Hco.
  - right. unfold local_dynamic_repair in Hl. apply andb_true_iff in Hl. destruct Hl as [_ Hl].
    intros x Hx. apply (same_ids_Ok _ _ Hl) in Hx. eapply repair_dynamic, Hx.
  - left. simpl in Hco. apply negb_false_iff in Hco. intros id row Hid Ha Hres.
    apply (same_ids_Ok _ _ Hco). apply ids_where_elem; [apply run_rows_elem; eauto |].
    apply orb_true_iff. exact Hres.
Qed.

(** ** Histories of the scheduler *)

(** One call of the scheduler that returned; the id a claim draws for its
    reservation is new. *)
Inductive scheduler_step rt rt' : Prop :=
| sc_claim tick a id v worker lease o :
    find_reservation (rt_db rt) (claim_reservation_id tick) = None ->
    try_claim_ready rt tick a id v worker lease = Ok (o, rt') -> scheduler_step rt rt'
| sc_renew tick c worker lease elapsed c' :
    renew_lease rt tick c worker lease elapsed = Ok (c', rt') -> scheduler_step rt rt'
| sc_resume tick cs ref l :
    resume_blocked rt tick cs ref = Ok (l, rt') -> scheduler_step rt rt'.

(** What the scheduler does not touch. *)
Record scheduled rt rt' : Prop := {
  sh_history : rtc (runtime_step P) rt rt';
  sh_controls : run_controls (rt_db rt') = run_controls (rt_db rt);
  sh_commits : transition_commits (rt_db rt') = transition_commits (rt_db rt);
}.

#[local] Instance scheduled_preorder : PreOrder scheduled.
Proof.
  split; [intros rt; split; reflexivity |].
  intros x y z [] []. split; [etransitivity; eassumption | congruence ..].
Qed.

(** A resumption that returned: a replay, or every candidate reopened. *)
Lemma resume_tables rt tick cs ref l rt' :
  runtime_typed rt -> resume_blocked rt tick cs ref = Ok (l, rt') ->
  scheduled rt rt' /\ work_attempts (rt_db rt') = work_attempts (rt_db rt)
  /\ exists a run, (forall c, c ∈ cs -> rm_analysis_id (w_meta c.1) = a)
     /\ check_run (rt_db rt) a ref = Ok run /\ quiescent (rt_db rt) a
     /\ ((rt' = rt /\ Forall2 (fun c w => accepted (rt_db rt) true c (w, None)) cs l)
         \/ (Forall2 (fun c w => reopened_row (rt_db rt) (rt_db rt') c.1 w) cs l
             /\ Forall (fun c => latest_attempt (rt_db rt) (w_work_id c.1) = Some c.2) cs
             /\ whole_cohort (rt_db rt) run a (map (fun c => w_work_id c.1) cs)
             /\ forall id, id ∉ map (fun c => w_work_id c.1) cs ->
                  work_states (rt_db rt') !! id = work_states (rt_db rt) !! id)).
Proof.
  intros Hty Hr. apply resume_Ok in Hr.
  destruct Hr as (a & run & replay & rt1 & n & found & Ha & Hnd & Hrun & Hco & Hv & Hr).
  pose proof (cohort_quiescent _ _ _ _ _ Hco) as Hq.
  apply validate_all in Hv. destruct Hv as (Hs & Heq & xs & Hfound & Hxs). simpl in Hfound. subst found.
  destruct replay.
  - destruct Hr as [-> ->]. rewrite (Heq eq_refl) in *. split; [reflexivity |]. split; [reflexivity |].
    exists a, run. do 3 (split; [assumption |]). left. split; [reflexivity |].
    apply Forall2_fmap_r. eapply Forall2_impl; [exact Hxs |]. intros c [w d] Hx. simpl.
    assert (d = None) as -> by apply Hx. exact Hx.
  - assert (Hxs1 : Forall2 (fun c x => x.1 = c.1) cs xs)
      by (eapply Forall2_impl; [exact Hxs |]; intros c x Hx; apply Hx).
    assert (Hids : map (fun x => w_work_id x.1) xs = map (fun c => w_work_id c.1) cs).
    { clear - Hxs1. induction Hxs1 as [| c x cs xs Hx _ IH]; simpl; congruence. }
    pose proof (still_typed _ _ _ Hs Hty) as Hty1.
    apply reopen_all in Hr; [| exact Hty1 | | rewrite Hids; exact Hnd].
    2: { eapply Forall2_Forall_r; [exact Hxs |]. apply Forall_forall. intros c Hc x (Hrow & _ & He & Hd & Hre).
         assert (Hlatch : cancel_latched (rt_db rt1) (rm_analysis_id (w_meta x.1)) = false).
         { rewrite He, (Ha c Hc). unfold cancel_latched. rewrite (sl_controls _ _ _ Hs).
           unfold check_run in Hrun. call Hrun as [] Hcc. apply raise_if_Ok in Hcc. apply Hcc. }
         rewrite <- He in Hrow. destruct Hrow as (row & Hrow & Hpay). split; [| auto].
         unfold get_work. rewrite (sl_works _ _ _ Hs), Hrow, Hpay. reflexivity. }
    destruct Hr as (ws & -> & Hfor & Hrest & Hsteps & Hatt & Hctl & Hcm).
    rewrite Hids in Hrest. split.
    { split; [etransitivity; [apply Hs | exact Hsteps] | rewrite Hctl; apply Hs | rewrite Hcm; apply Hs]. }
    split; [rewrite Hatt; apply Hs |]. exists a, run. do 3 (split; [assumption |]). right. split.
    { eapply Forall2_compose; [exact Hxs1 | exact Hfor |].
      intros c x w Hcx (H1' & H2' & H3'). rewrite Hcx, (sl_works _ _ _ Hs) in *.
      repeat (split; [assumption |]). exact H3'. }
    split.
    { eapply Forall2_Forall_l; [exact Hxs |]. apply Forall_forall. intros x _ c (_ & Hl & He & _).
      rewrite <- He. exact Hl. }
    split; [apply cohort_whole, Hco |]. intros id Hid. rewrite (Hrest _ Hid), (sl_works _ _ _ Hs).
    reflexivity.
Qed.

Lemma renew_tables rt tick c worker lease elapsed c' rt' :
  renew_lease rt tick c worker lease elapsed = Ok (c', rt') ->
  scheduled rt rt'
  /\ exists row, work_states (rt_db rt) !! w_work_id (cx_work c) = Some row
       /\ wr_payload row = cx_work c /\ lease_active row worker (clock tick 1) = true
       /\ work_attempts (rt_db rt) !! a_attempt_id (cx_attempt c) = Some (cx_attempt c)
       /\ w_active_attempt_id (cx_work c) = Some (a_attempt_id (cx_attempt c))
       /\ cancel_latched (rt_db rt) (rm_analysis_id (w_meta (cx_work c))) = false
       /\ work_states (rt_db rt') = <[w_work_id (cx_work c) := relet row worker lease]>
                                      (work_states (rt_db rt)).
Proof.
  intros Hr. pose proof (rt_renew P _ _ _ _ _ _ _ _ Hr) as Hstep. apply renew_lease_Ok in Hr.
  destruct Hr as (row & meta & ref & db & _ & _ & Hc & Hrow & Hatt & Hpay & _ & Hact & Hlease & _ & Hs & _
    & Hrt). pose proof (stage_publish_steady _ _ _ _ Hs) as Hst.
  split.
  { split; [apply rtc_once, Hstep | rewrite Hrt; apply Hst | rewrite Hrt; apply Hst]. }
  exists row. repeat (split; [assumption |]). rewrite Hrt. simpl.
  rewrite (sd_works _ _ Hst), <- (insert_id _ _ _ Hrow), alter_insert_eq, (insert_id _ _ _ Hrow).
  reflexivity.
Qed.

Lemma scheduler_step_scheduled rt rt' :
  runtime_typed rt -> scheduler_step rt rt' -> scheduled rt rt'.
Proof.
  intros Hty [tick a id v worker lease [c |] Hnew Hc | tick c worker lease elapsed c' Hr
    | tick cs ref l Hr].
  - destruct (try_claim_claimed _ _ _ _ _ _ _ _ _ Hty Hnew Hc) as (row & Hcl & _).
    split; apply Hcl.
  - rewrite (try_claim_None _ _ _ _ _ _ _ _ Hc). reflexivity.
  - eapply renew_tables, Hr.
  - eapply resume_tables; eassumption.
Qed.

Lemma scheduler_steps_scheduled rt rt' :
  runtime_typed rt -> rtc scheduler_step rt rt' -> scheduled rt rt'.
Proof.
  intros Hty Hs. induction Hs as [rt0 | rt1 rt2 rt3 Hs _ IH]; [reflexivity |].
  pose proof (scheduler_step_scheduled _ _ Hty Hs) as Hsh.
  etransitivity; [exact Hsh |]. apply IH. eapply typed_steps; [exact Hty | apply Hsh].
Qed.

(** At one version of a work its payload and its worker do not change. *)
Lemma version_holds rt rt' id row :
  runtime_typed rt -> rtc (runtime_step P) rt rt' -> work_states (rt_db rt) !! id = Some row ->
  exists row', work_states (rt_db rt') !! id = Some row'
    /\ w_state_version (wr_payload row) <= w_state_version (wr_payload row')
    /\ (w_state_version (wr_payload row') = w_state_version (wr_payload row) ->
          wr_payload row' = wr_payload row /\ wr_worker_id row' = wr_worker_id row).
Proof.
  intros Hty Hs. revert row. induction Hs as [| rt1 rt2 rt3 Hs _ IH]; intros row Hrow.
  { exists row. split; [exact Hrow |]. split; [lia | auto]. }
  pose proof (runtime_step_effect _ _ _ Hty Hs) as Heff.
  assert (Hnext : exists row2, work_states (rt_db rt2) !! id = Some row2
    /\ w_state_version (wr_payload row) <= w_state_version (wr_payload row2)
    /\ (w_state_version (wr_payload row2) = w_state_version (wr_payload row) ->
          wr_payload row2 = wr_payload row /\ wr_worker_id row2 = wr_worker_id row)).
  { assert (Hkept : forall i r', i <> id -> exists row2,
        <[i := r']> (work_states (rt_db rt1)) !! id = Some row2
        /\ w_state_version (wr_payload row) <= w_state_version (wr_payload row2)
        /\ (w_state_version (wr_payload row2) = w_state_version (wr_payload row) ->
              wr_payload row2 = wr_payload row /\ wr_worker_id row2 = wr_worker_id row)).
    { intros i r' Hne. exists row. rewrite lookup_insert_ne by congruence. split; [exact Hrow |].
      split; [lia | auto]. }
    destruct (ef_works _ _ _ Heff) as [-> | w key _ _ _ _ Hn _ -> | i r r' Hi _ Hstep _ ->
      | i r worker expires Hi Hwk ->]; [| apply Hkept; congruence | |].
    - exists row. split; [exact Hrow |]. split; [lia | auto].
    - destruct (decide (i = id)) as [-> | Hne]; [| auto]. exists r'. rewrite lookup_insert_eq.
      split; [reflexivity |]. replace r with row in Hstep by congruence.
      apply work_step_inv in Hstep. destruct Hstep as (_ & Hv & _). split; [lia |]. intros. lia.
    - destruct (decide (i = id)) as [-> | Hne]; [| auto]. exists (relet r worker expires).
      rewrite lookup_insert_eq. split; [reflexivity |]. replace r with row in * by congruence.
      simpl. split; [lia |]. auto. }
  destruct Hnext as (row2 & Hrow2 & Hle2 & Hsame2).
  destruct (IH (runtime_step_typed _ _ _ Hty Hs) row2 Hrow2) as (row3 & Hrow3 & Hle3 & Hsame3).
  exists row3. split; [exact Hrow3 |]. split; [lia |]. intros Heq.
  destruct Hsame3 as [-> ->]; [lia |]. apply Hsame2. lia.
Qed.

Lemma claimed_typed rt id v worker lease c rt' row :
  runtime_typed rt -> claimed rt id v worker lease c rt' row ->
  runtime_typed rt' /\ w_state_version (cx_work c) = v + 1
  /\ work_states (rt_db rt') !! id = Some (leased (cx_work c) row worker lease).
Proof.
  intros Hty Hcl. split; [eapply typed_steps; [exact Hty | apply Hcl] |].
  pose proof (cl_step _ _ _ _ _ _ _ _ Hcl) as Hstep. apply work_step_inv in Hstep.
  destruct Hstep as (_ & -> & _). rewrite (cl_version _ _ _ _ _ _ _ _ Hcl). split; [reflexivity |].
  rewrite (cl_works _ _ _ _ _ _ _ _ Hcl). apply lookup_insert_eq.
Qed.

(** ** Theorems *)

(** C27. The scheduler refines the runtime: every history of claims, lease
    renewals and resumptions is a history of the runtime's transactions (so that
    budgets, parallelism, cancellation and the life cycle are kept), it cancels
    nothing, settles no result and keeps the journal's invariant. *)
Theorem scheduler_refines_runtime rt rt' :
  runtime_typed rt -> rtc scheduler_step rt rt' ->
  rtc (runtime_step P) rt rt' /\ run_controls (rt_db rt') = run_controls (rt_db rt)
  /\ transition_commits (rt_db rt') = transition_commits (rt_db rt)
  /\ (journal_wf rt -> journal_wf rt').
Proof.
  intros Hty Hs. destruct (scheduler_steps_scheduled _ _ Hty Hs) as [Hh Hc Hj].
  repeat (split; [assumption |]). intros Hwf. apply (journal_move_wf P _ _ Hwf).
  split; [exact Hh | apply jc_same, Hj].
Qed.

(** C28. A READY work is claimed once: after a claim of a version, whatever
    history follows, every later claim of that work is of a version beyond the
    one it is running at. *)
Theorem claim_exclusive rt tick a id v worker lease c rt1 rt2 :
  runtime_typed rt -> find_reservation (rt_db rt) (claim_reservation_id tick) = None ->
  try_claim_ready rt tick a id v worker lease = Ok (Some c, rt1) -> rtc (runtime_step P) rt1 rt2 ->
  forall tick' a' v' worker' lease' c' rt3,
    try_claim_ready rt2 tick' a' id v' worker' lease' = Ok (Some c', rt3) -> v + 1 < v'.
Proof.
  intros Hty Hnew Hc Hs tick' a' v' worker' lease' c' rt3 Hc'.
  destruct (try_claim_claimed _ _ _ _ _ _ _ _ _ Hty Hnew Hc) as (row & Hcl & _).
  destruct (claimed_typed _ _ _ _ _ _ _ _ Hty Hcl) as (Hty1 & Hv & Hrow1).
  destruct (version_holds _ _ _ _ Hty1 Hs Hrow1) as (row2 & Hrow2 & Hle & Hsame).
  apply try_claim_Ok in Hc'. destruct Hc' as (run & w & scope & q & profile & trigger & action & r & _ & _ & _
    & Hw & _). apply claimable_Ok in Hw. destruct Hw as (row' & Hrow' & Hpay & _ & Hready & Hv' & _).
  replace row' with row2 in * by congruence. simpl in Hle, Hsame.
  assert (Hne : w_state_version w <> v + 1).
  { intros Heq. destruct Hsame as [Hp _]; [congruence |].
    pose proof (cl_running _ _ _ _ _ _ _ _ Hcl). congruence. }
  rewrite Hpay in Hle. lia.
Qed.

(** A lease has one holder: while a claimed work is at the version of its
    claim, whatever history follows, only its worker renews the lease, for the
    claimed work and attempt and before the lease runs out, and a renewal moves
    nothing but the lease among the works. *)
Theorem lease_has_one_holder rt tick a id v worker lease c rt1 rt2 :
  runtime_typed rt -> find_reservation (rt_db rt) (claim_reservation_id tick) = None ->
  try_claim_ready rt tick a id v worker lease = Ok (Some c, rt1) -> rtc (runtime_step P) rt1 rt2 ->
  forall tick' c' worker' lease' elapsed c2 rt3,
    w_work_id (cx_work c') = id -> w_state_version (cx_work c') = v + 1 ->
    renew_lease rt2 tick' c' worker' lease' elapsed = Ok (c2, rt3) ->
    worker' = worker /\ cx_work c' = cx_work c
    /\ a_attempt_id (cx_attempt c') = a_attempt_id (cx_attempt c)
    /\ exists row expiry, work_states (rt_db rt2) !! id = Some row
         /\ wr_lease_expires_at row = Some expiry /\ clock tick' 1 < expiry
         /\ work_states (rt_db rt3) = <[id := relet row worker lease']> (work_states (rt_db rt2)).
Proof.
  intros Hty Hnew Hc Hs tick' c' worker' lease' elapsed c2 rt3 Hid Hv' Hr.
  destruct (try_claim_claimed _ _ _ _ _ _ _ _ _ Hty Hnew Hc) as (row & Hcl & _).
  destruct (claimed_typed _ _ _ _ _ _ _ _ Hty Hcl) as (Hty1 & Hv & Hrow1).
  destruct (version_holds _ _ _ _ Hty1 Hs Hrow1) as (row2 & Hrow2 & _ & Hsame).
  apply renew_tables in Hr. destruct Hr as (_ & row' & Hrow' & Hpay & Hlease & _ & Hact & _ & Hworks).
  rewrite Hid in *. replace row' with row2 in * by congruence. simpl in Hsame.
  destruct Hsame as [Hp Hwk]; [congruence |]. unfold lease_active in Hlease.
  apply andb_true_iff in Hlease. destruct Hlease as [Hholder Hexp]. boolify.
  destruct (wr_lease_expires_at row2) as [expiry |] eqn:He; [| discriminate]. boolify.
  assert (Hworker : worker' = worker) by congruence. subst worker'.
  assert (Hwork : cx_work c' = cx_work c) by congruence.
  pose proof (cl_active _ _ _ _ _ _ _ _ Hcl) as Hact'.
  split; [reflexivity |]. split; [exact Hwork |]. split; [congruence |].
  exists row2, expiry. auto.
Qed.

(** A cancelled run is not scheduled: once its cancellation is recorded,
    whatever history follows, claiming a work of it returns [None] or raises and
    changes nothing, and no lease of it is renewed and no work of it reopened. *)
Theorem cancelled_run_not_scheduled rt rt' a :
  runtime_typed rt -> cancel_latched (rt_db rt) a = true -> rtc (runtime_step P) rt rt' ->
  (forall tick id v worker lease o rt2,
     try_claim_ready rt' tick a id v worker lease = Ok (o, rt2) -> o = None /\ rt2 = rt')
  /\ (forall tick c worker lease elapsed c' rt2,
        renew_lease rt' tick c worker lease elapsed = Ok (c', rt2) ->
        rm_analysis_id (w_meta (cx_work c)) <> a)
  /\ (forall tick cs ref l rt2 c, resume_blocked rt' tick cs ref = Ok (l, rt2) -> c ∈ cs ->
        rm_analysis_id (w_meta c.1) <> a).
Proof.
  intros Hty Hl Hs. destruct (frozen_steps _ _ _ a Hty Hs Hl) as [Hl' _]. unfold latched in Hl'.
  split; [| split].
  - intros tick id v worker lease [c |] rt2 Hc.
    + apply try_claim_Ok in Hc. destruct Hc as (? & ? & ? & ? & ? & ? & ? & ? & Hc & _). congruence.
    + split; [reflexivity | eapply try_claim_None, Hc].
  - intros tick c worker lease elapsed c' rt2 Hr. apply renew_tables in Hr.
    destruct Hr as (_ & row & _ & _ & _ & _ & _ & Hc & _). congruence.
  - intros tick cs ref l rt2 c Hr Hin. apply resume_Ok in Hr.
    destruct Hr as (a' & run & replay & rt1 & n & found & Ha & _ & Hrun & _). rewrite (Ha c Hin).
    unfold check_run in Hrun. call Hrun as [] Hc. apply raise_if_Ok in Hc. destruct Hc. congruence.
Qed.
End moves.

(** C29. A claim that returns a context takes the work: it was READY at the
    version the scheduler saw, in a run that is not cancelled and runs fewer
    works than its profile allows; it is now RUNNING under the worker and lease,
    with the next attempt of the work; no other work or attempt changed; and the
    ledger has a new entry that debits one retry unit when this is not the first
    attempt, and nothing when it is: the reservation of the claim had no entry
    before, and its entry debits exactly what it requested. *)
Theorem claim_starts_work rt tick a id v worker lease c rt' :
  runtime_typed rt -> find_reservation (rt_db rt) (claim_reservation_id tick) = None ->
  try_claim_ready rt tick a id v worker lease = Ok (Some c, rt') ->
  let prior := latest_attempt (rt_db rt) id in
  exists row scope profile r entry,
    work_states (rt_db rt) !! id = Some row /\ w_status (wr_payload row) = READY
    /\ w_state_version (wr_payload row) = v /\ rm_analysis_id (w_meta (wr_payload row)) = a
    /\ cancel_latched (rt_db rt) a = false /\ execution (rt_db rt) scope a = Ok profile
    /\ Z.of_nat (running (rt_db rt) a) < max_parallel_work profile
    /\ work_step (wr_payload row) (cx_work c) /\ w_status (cx_work c) = RUNNING
    /\ work_states (rt_db rt') = <[id := leased (cx_work c) row worker lease]> (work_states (rt_db rt))
    /\ a_work_id (cx_attempt c) = id /\ a_attempt_number (cx_attempt c) = next_number prior
    /\ a_status (cx_attempt c) = A_RUNNING
    /\ work_attempts (rt_db rt') = <[a_attempt_id (cx_attempt c) := cx_attempt c]>
                                     (work_attempts (rt_db rt))
    /\ find_reservation (rt_db rt') (claim_reservation_id tick) = Some r
    /\ r_status (rr_payload r) = R_COMMITTED
    /\ r_requested_units (rr_payload r)
       = mkUnits 0 0 0 (if is_none prior then 0 else 1) 0 (ep_currency profile)
    /\ find_entry (rt_db rt) (claim_reservation_id tick) = None
    /\ find_entry (rt_db rt') (claim_reservation_id tick) = Some entry
    /\ e_actual_units (lr_payload entry)
       = mkUnits 0 0 0 (if is_none prior then 0 else 1) 0 (ep_currency profile).
Proof.
  intros Hty Hnew Hc prior.
  destruct (try_claim_claimed _ any_allows_exact _ _ _ _ _ _ _ _ _ Hty Hnew Hc) as (row & Hcl & Ha).
  apply try_claim_Ok in Hc.
  destruct Hc as (run & w & scope & q & profile & trigger & action & r & Hl & _ & _ & Hw & _ & Hprof & Hpar
    & _ & _ & _ & Hr & Hb).
  apply claimable_Ok in Hw. destruct Hw as (row' & Hrow' & Hpay & _ & _ & _ & Hid & _).
  apply retry_reservation_Ok in Hr. destruct Hr as [Hrid Hunits].
  unfold claim_reservation_id in *. rewrite <- Hrid in *.
  destruct (claim_moves _ any_allows_exact _ _ _ _ _ _ _ _ _ _ _ _ _ _ Hty Hnew Hb)
    as (rt1 & rt2 & d & t & rref & _ & _ & Hatt & _ & _ & rrow & Hrrow & Hcom & Hreq & entry & Hentry & Hunit).
  pose proof (new_unsettled _ _ (ty_ledger _ Hty) Hnew) as Hnone.
  apply new_attempt_Ok in Hatt. destruct Hatt as (Hawid & _ & Hnum & _ & Hast & _).
  exists row, scope, profile, rrow, entry. destruct Hcl. rewrite Hreq, Hunit, Hunits.
  repeat (split; [first [assumption | reflexivity | congruence] |]). reflexivity.
Qed.

(** Resumption reopens a whole blocked cohort or nothing: when it returns,
    nothing of the run was in progress; either every candidate had been reopened
    before, and nothing changed, or every candidate went from BLOCKED or FAILED
    to READY by one step of its life cycle, the cohort left out no work a user
    could reopen (or was a repair of dynamic reproduction work), and no other
    work and no attempt changed. *)
Theorem resume_reopens_cohort rt tick cs ref l rt' :
  runtime_typed rt -> resume_blocked rt tick cs ref = Ok (l, rt') ->
  work_attempts (rt_db rt') = work_attempts (rt_db rt)
  /\ exists a run, (forall c, c ∈ cs -> rm_analysis_id (w_meta c.1) = a)
     /\ check_run (rt_db rt) a ref = Ok run /\ quiescent (rt_db rt) a
     /\ ((rt' = rt /\ Forall2 (fun c w => accepted (rt_db rt) true c (w, None)) cs l)
         \/ (Forall2 (fun c w => reopened_row (rt_db rt) (rt_db rt') c.1 w) cs l
             /\ Forall (fun c => latest_attempt (rt_db rt) (w_work_id c.1) = Some c.2) cs
             /\ whole_cohort (rt_db rt) run a (map (fun c => w_work_id c.1) cs)
             /\ forall id, id ∉ map (fun c => w_work_id c.1) cs ->
                  work_states (rt_db rt') !! id = work_states (rt_db rt) !! id)).
Proof.
  intros Hty Hr. eapply resume_tables; [exact any_allows_exact | exact Hty | exact Hr].
Qed.
End claims.
