(* ===== verification/Quiescence.v ===== *)
(** * Cancelled runs

    The operations of [RunControl] as histories of the journal: the latch, the
    observations of the requests a cancellation leaves open, its reconciliation
    and the closing of the run. *)
From S2P Require Import Prelude Records CanonicalJson Store Work Processes WorkLife Actions.
From S2P Require Import Budget Runtime Registry Hierarchy Ledger Dispatch Authority Outputs.
From S2P Require Import Validator Services Projections Transition RunControl Scheduler History Journal.

Section quiescence.
Context `{CodecLaws} `{TrustedEvidence} `{Host} `{StageRules} `{OutcomeRules} `{EvidenceRecords}.
Context (P : Db -> BudgetLedgerEntry -> Prop).
Implicit Types (db : Db) (rt : Rt) (ct : Control) (w p : WorkExecutionState).

(** ** Runs that are over *)

Definition of_run (a : string) (row : WorkRow) : Prop :=
  rm_analysis_id (w_meta (wr_payload row)) = a.

Definition closed_row (row : WorkRow) : Prop :=
  terminal_work (w_status (wr_payload row)) = true /\ w_active_attempt_id (wr_payload row) = None
  /\ wr_worker_id row = None /\ wr_lease_expires_at row = None.

(** Every work of the run is terminal and without a lease. *)
Definition run_over db (a : string) : Prop :=
  forall id row, work_states db !! id = Some row -> of_run a row -> closed_row row.

(** The works of the run are the same rows. *)
Definition same_run (a : string) db db' : Prop :=
  forall id row, of_run a row -> work_states db' !! id = Some row <-> work_states db !! id = Some row.

#[local] Instance same_run_preorder a : PreOrder (same_run a).
Proof.
  split; [intros db id row _; reflexivity |].
  intros x y z Hxy Hyz id row Hr. rewrite (Hyz id row Hr). apply Hxy, Hr.
Qed.

Lemma same_run_over a db db' : same_run a db db' -> run_over db a -> run_over db' a.
Proof. intros Hs Ho id row Hrow Hr. apply (Ho id row); [apply (Hs id row Hr), Hrow | exact Hr]. Qed.

Lemma over_step rt rt' a :
  effect P rt rt' -> latched (rt_db rt) a -> run_over (rt_db rt) a ->
  same_run a (rt_db rt) (rt_db rt').
Proof.
  unfold latched. intros Heff Hl Ho.
  assert (Hkey : forall i r r', work_states (rt_db rt') = <[i := r']> (work_states (rt_db rt)) ->
            (of_run a r' -> False) -> (work_states (rt_db rt) !! i = Some r -> of_run a r -> False) ->
            (work_states (rt_db rt) !! i = None \/ work_states (rt_db rt) !! i = Some r) ->
            same_run a (rt_db rt) (rt_db rt')).
  { intros i r r' Hw Hnew Hold Hcase id row Hr. rewrite Hw. destruct (decide (id = i)) as [-> | Hne].
    - rewrite lookup_insert_eq. split; [intros [= <-]; destruct (Hnew Hr) |]. intros Hrow.
      destruct Hcase as [Hc | Hc]; [congruence |]. destruct Hold; [exact Hc |]. congruence.
    - rewrite lookup_insert_ne by congruence. reflexivity. }
  destruct (ef_works _ _ _ Heff) as [Hw | w key _ _ _ Hc Hn _ Hw | i r r' Hi _ Hstep Had Hw
    | i r worker expires Hi Hwk Hw].
  - intros id row _. rewrite Hw. reflexivity.
  - eapply (Hkey _ (mkWorkRow key w None None)); [exact Hw | | congruence | auto].
    unfold of_run. simpl. congruence.
  - assert (Hfalse : of_run a r -> False).
    { intros Hr. destruct (Ho _ _ Hi Hr) as (Hterm & _).
      destruct (terminal_work_absorbing _ _ Hstep Hterm) as (_ & _ & Hready & _).
      pose proof (proj1 Had (or_introl Hready)) as Hcc. rewrite (same_analysis _ _ Hstep) in Hcc.
      unfold of_run in Hr. congruence. }
    eapply Hkey; [exact Hw | | intros _; exact Hfalse | auto].
    intros Hr'. apply Hfalse. unfold of_run in *. rewrite <- (same_analysis _ _ Hstep). exact Hr'.
  - assert (Hfalse : of_run a r -> False).
    { intros Hr. destruct (Ho _ _ Hi Hr) as (_ & _ & Hnone & _). congruence. }
    eapply Hkey; [exact Hw | exact Hfalse | intros _; exact Hfalse | auto].
Qed.

(** A cancelled run that is over stays over, whatever the runtime does. *)
Lemma over_steps rt rt' a :
  runtime_typed rt -> rtc (runtime_step P) rt rt' -> latched (rt_db rt) a -> run_over (rt_db rt) a ->
  same_run a (rt_db rt) (rt_db rt') /\ latched (rt_db rt') a.
Proof.
  intros Hty Hs. induction Hs as [rt0 | rt1 rt2 rt3 Hs _ IH]; intros Hl Ho; [split; [reflexivity | exact Hl] |].
  pose proof (runtime_step_effect _ _ _ Hty Hs) as Heff.
  pose proof (over_step _ _ _ Heff Hl Ho) as H1'.
  destruct (IH (effect_typed _ _ _ Hty Heff) (latched_step _ _ _ _ Heff Hl) (same_run_over _ _ _ H1' Ho))
    as [H2' Hl3].
  split; [etransitivity; eassumption | exact Hl3].
Qed.

(** ** The operations as histories of the journal *)

Lemma env_journal rt db :
  env_step (rt_db rt) db -> work_states db = work_states (rt_db rt) ->
  work_attempts db = work_attempts (rt_db rt) -> run_controls (rt_db rt) ⊆ run_controls db ->
  transition_commits db = transition_commits (rt_db rt) -> journal_step P rt (set_db rt db).
Proof.
  intros Henv Hw Ha Hc Ht. apply js_runtime; [| exact Ht].
  apply (rt_other _ _ _ db); [apply rtc_once, ls_env, Henv | exact Hw | exact Ha | exact Hc | reflexivity].
Qed.

Lemma latched_snoc db a b :
  cancel_latched (latch db b) a = true <-> cancel_latched db a = true \/ a = b.
Proof. unfold cancel_latched. simpl. rewrite !mem_true, elem_of_app, list_elem_of_singleton. reflexivity. Qed.

(** The works a reconciliation cancels. *)
Definition cancelled_from rt rt' w : Prop :=
  exists row, work_states (rt_db rt') !! w_work_id w = Some row
    /\ w_status (wr_payload row) = CANCELLED
    /\ w_state_version (wr_payload row) = w_state_version w + 1.

Lemma cancel_all tick identity ws rt rt' :
  journal_wf rt ->
  Forall (fun w => get_work (rt_db rt) (w_work_id w) = Ok w /\ terminal_work (w_status w) = false) ws ->
  NoDup (map w_work_id ws) ->
  fold_result (cancel_work tick identity) rt ws = Ok rt' ->
  rtc (journal_step P) rt rt'
  /\ (forall id, id ∉ map w_work_id ws ->
        work_states (rt_db rt') !! id = work_states (rt_db rt) !! id)
  /\ Forall (cancelled_from rt rt') ws.
Proof.
  revert rt. induction ws as [| w ws IH]; intros rt Hwf Hall Hnd Hf.
  { injection Hf as <-. split; [reflexivity |]. split; [reflexivity | constructor]. }
  apply Forall_cons in Hall. destruct Hall as [[Hg Hterm] Hall].
  simpl in Hnd. apply NoDup_cons in Hnd. destruct Hnd as [Hw Hnd].
  cbn [fold_result] in Hf. call Hf as rt1 Hc. unfold cancel_work in Hc. call Hc as [w' rt2] Hcancel.
  injection Hc as <-. pose proof (js_cancel P _ _ _ _ _ _ Hg Hcancel) as Hstep.
  pose proof (journal_moves_wf _ _ _ Hwf (journal_step_moves _ _ _ Hwf Hstep)) as Hwf2.
  destruct (cancel_moves P _ _ _ _ _ _ (jw_typed _ Hwf) Hg Hcancel)
    as [(Ht & _) | (_ & Hst & Hver & _ & (wrow & Hworks & Hpay) & _)]; [congruence |].
  assert (Hkept : forall id, id <> w_work_id w ->
            work_states (rt_db rt2) !! id = work_states (rt_db rt) !! id)
    by (intros id Hne; rewrite Hworks; apply lookup_insert_ne; congruence).
  assert (Hne : forall x, x ∈ ws -> w_work_id x <> w_work_id w).
  { intros x Hx Heq. apply Hw. rewrite <- Heq. apply (list_elem_of_fmap_2 w_work_id), Hx. }
  destruct (IH rt2 Hwf2) as (Hsteps & Hrest & Hfor); [| exact Hnd | exact Hf |].
  { apply Forall_forall. intros x Hx. rewrite Forall_forall in Hall. unfold get_work.
    rewrite (Hkept _ (Hne x Hx)). exact (Hall x Hx). }
  split; [eapply rtc_l; eassumption |]. split.
  { intros id Hid. simpl in Hid. apply not_elem_of_cons in Hid. destruct Hid as [H1' H2'].
    rewrite (Hrest _ H2'). apply Hkept, H1'. }
  constructor; [| exact Hfor].
  exists wrow. rewrite (Hrest _ Hw), Hworks, lookup_insert_eq, Hpay. auto.
Qed.

(** ** Closing the dispatches *)

Lemma reconcile_env db i b issued now db' :
  reconcile_dispatch db i b issued now = Ok db' ->
  db' = set_dispatches db (map (fun x => if dispatch_matches i b issued x then set_reconciled now x else x)
                             (external_dispatches db)).
Proof. intros Hr. apply reconcile_dispatch_Ok in Hr. exact Hr. Qed.

(** The request is no longer open. *)
Definition closed_request db (t : CancellationTarget) (issued : RecordRef) : Prop :=
  forall x, x ∈ external_dispatches db ->
    dispatch_matches (target_work_id t) (a_attempt_id (g_attempt t)) issued x = false.

Lemma reconciled_mismatch i b issued now x : dispatch_matches i b issued (set_reconciled now x) = false.
Proof.
  unfold dispatch_matches, unresolved. destruct x. simpl. rewrite !andb_false_r. reflexivity.
Qed.

Lemma close_keeps now found rt rt' t issued :
  close_dispatch now rt found = Ok rt' -> closed_request (rt_db rt) t issued ->
  closed_request (rt_db rt') t issued.
Proof.
  destruct found as [u d]. unfold close_dispatch. intros Hc Hcl. call Hc as db Hr. injection Hc as <-.
  apply reconcile_env in Hr. subst db. intros x Hx. simpl in Hx. apply list_elem_of_fmap in Hx.
  destruct Hx as (y & -> & Hy). destruct (dispatch_matches _ _ d y);
    [apply reconciled_mismatch | apply Hcl, Hy].
Qed.

Lemma close_all now ds rt rt' :
  fold_result (close_dispatch now) rt ds = Ok rt' ->
  rtc (journal_step P) rt rt' /\ work_states (rt_db rt') = work_states (rt_db rt)
  /\ (forall t issued, closed_request (rt_db rt) t issued -> closed_request (rt_db rt') t issued)
  /\ Forall (fun d => closed_request (rt_db rt') d.1 d.2) ds.
Proof.
  revert rt. induction ds as [| [t issued] ds IH]; intros rt Hf.
  { injection Hf as <-. repeat (split; [reflexivity || auto |]). constructor. }
  cbn [fold_result] in Hf. call Hf as rt1 Hc. pose proof (fun t0 i0 => close_keeps _ _ _ _ t0 i0 Hc) as Hkeep.
  destruct (IH _ Hf) as (Hsteps & Hw & Hk & Hall). unfold close_dispatch in Hc. call Hc as db Hr.
  injection Hc as <-. apply reconcile_env in Hr.
  assert (Hstep : journal_step P rt (set_db rt db)).
  { rewrite Hr. apply env_journal; try reflexivity. repeat split; try reflexivity. eauto. }
  split; [eapply rtc_l; eassumption |]. split; [rewrite Hw, Hr; reflexivity |].
  split; [auto |]. constructor; [| exact Hall]. apply Hk. rewrite Hr. intros x Hx.
  simpl in Hx. apply list_elem_of_fmap in Hx. destruct Hx as (y & -> & Hy). simpl.
  destruct (dispatch_matches _ _ issued y) eqn:Hm; [apply reconciled_mismatch | exact Hm].
Qed.

(** ** What a reconciliation did when it returned *)

Lemma reconcile_Ok ct tick now identity a obs ct' :
  reconcile_cancellation ct tick now identity a obs = Ok ct' ->
  exists i found ws rt1 rt2,
    identity = Some i /\ NoDup (map (fun o => target_work_id (v_target o)) obs)
    /\ cancel_latched (ct_db ct) a = true /\ check_observations ct a obs = Ok tt
    /\ fold_result (known_dispatch (ct_db ct)) [] obs = Ok found
    /\ nonterminal_works (ct_db ct) a
         (map (fun o => target_work_id (v_target o)) (filter (fun o => v_status o = "UNKNOWN") obs))
       = Ok ws
    /\ fold_result (cancel_work tick i) (ct_rt ct) ws = Ok rt1
    /\ fold_result (close_dispatch now) rt1 found = Ok rt2 /\ ct' = set_rt ct rt2.
Proof.
  unfold reconcile_cancellation. destruct identity as [i |]; [| discriminate]. intros Hr.
  apply raise_if_Ok in Hr. destruct Hr as [_ Hr]. apply raise_if_Ok in Hr. destruct Hr as [Hnd Hr].
  cbv zeta in Hr. apply raise_if_Ok in Hr. destruct Hr as [Hl Hr]. call Hr as [] Ho.
  apply raise_if_Ok in Hr. destruct Hr as [_ Hr]. call Hr as found Hk. call Hr as ws Hw.
  call Hr as rt1 Hc. call Hr as rt2 Hd. injection Hr as <-. boolify.
  exists i, found, ws, rt1, rt2. auto 10.
Qed.

Definition open_status (s : WorkStatus) : bool := mem s [PENDING; READY; RUNNING; BLOCKED].

Definition to_cancel (uncertain : list string) w : bool :=
  open_status (w_status w) && negb (mem (w_work_id w) uncertain).

Lemma open_terminal s : open_status s = negb (terminal_work s).
Proof. destruct s; reflexivity. Qed.

Lemma nonterminal_loop uncertain l found ws :
  fold_result (fun found kv =>
      let (id, row) := (kv : string * WorkRow) in
      let work := wr_payload row in
      raise_if neqb (w_work_id work) id with "CANCELLATION_WORK_STATE_NOT_CURRENT" ;;
      Ok (if mem (w_status work) [PENDING; READY; RUNNING; BLOCKED]
             && negb (mem (w_work_id work) uncertain)
          then found ++ [work] else found)) found l = Ok ws ->
  Forall (fun kv => w_work_id (wr_payload kv.2) = kv.1) l
  /\ ws = found ++ map (fun kv => wr_payload kv.2)
                     (filter (fun kv => to_cancel uncertain (wr_payload kv.2) = true) l).
Proof.
  revert found. induction l as [| [id row] l IH]; intros found Hf.
  { injection Hf as <-. rewrite app_nil_r. split; [constructor | reflexivity]. }
  cbn [fold_result] in Hf. call Hf as f1 Hc. apply raise_if_Ok in Hc. destruct Hc as [Hid Hc].
  injection Hc as <-. boolify. destruct (IH _ Hf) as [Hall ->]. split; [constructor; assumption |].
  rewrite filter_cons. change (mem (w_status (wr_payload row)) _ && _) with (to_cancel uncertain (wr_payload row)).
  cbn [snd]. destruct (to_cancel uncertain (wr_payload row)); [| reflexivity].
  rewrite decide_True by reflexivity. cbn [map snd]. rewrite <- app_assoc. reflexivity.
Qed.

Lemma run_works_elem db a id row :
  (id, row) ∈ run_works db a <-> work_states db !! id = Some row /\ of_run a row.
Proof.
  unfold run_works, of_run. rewrite sort_by_perm, list_elem_of_filter, elem_of_map_to_list. simpl. tauto.
Qed.

Lemma run_works_NoDup db a : NoDup (map fst (run_works db a)).
Proof.
  unfold run_works. rewrite sort_by_perm. eapply sublist_NoDup; [apply (NoDup_fst_map_to_list (work_states db)) |].
  apply (fmap_sublist fst), sublist_filter.
Qed.

(** The works it cancels are those of the run that are open and certain. *)
Lemma nonterminal_Ok db a uncertain ws :
  nonterminal_works db a uncertain = Ok ws ->
  NoDup (map w_work_id ws)
  /\ forall w, w ∈ ws <-> exists row, work_states db !! w_work_id w = Some row /\ of_run a row
       /\ wr_payload row = w /\ terminal_work (w_status w) = false /\ w_work_id w ∉ uncertain.
Proof.
  intros Hn. apply nonterminal_loop in Hn. destruct Hn as [Hids ->]. simpl. split.
  - pose proof (run_works_NoDup db a) as Hnd. revert Hids Hnd. induction (run_works db a) as [| [id row] l IH];
      [constructor |]. intros Hids Hnd. apply Forall_cons in Hids. destruct Hids as [Hid Hids].
    simpl in Hnd, Hid. apply NoDup_cons in Hnd. destruct Hnd as [Hnew Hnd]. rewrite filter_cons.
    destruct (decide _); [| apply IH; assumption]. simpl. apply NoDup_cons. split; [| apply IH; assumption].
    rewrite Hid. intros Hin. apply Hnew. rewrite map_map in Hin. apply list_elem_of_fmap in Hin.
    destruct Hin as ([k r] & Hk & Hin). apply list_elem_of_filter in Hin. destruct Hin as [_ Hin].
    rewrite Forall_forall in Hids. specialize (Hids _ Hin). simpl in Hids, Hk.
    rewrite Hk, Hids. apply (list_elem_of_fmap_2 fst _ _ Hin).
  - rewrite Forall_forall in Hids. intros w. rewrite list_elem_of_fmap. split.
    + intros ([id row] & -> & Hin). apply list_elem_of_filter in Hin. simpl in Hin. destruct Hin as [Hc Hin].
      specialize (Hids _ Hin). apply run_works_elem in Hin. destruct Hin as [Hrow Ha]. simpl in *.
      unfold to_cancel in Hc. rewrite open_terminal in Hc. exists row. boolify. subst id.
      destruct Hc as [Hc1 Hc2]. auto.
    + intros (row & Hrow & Ha & <- & Hterm & Hun). exists (w_work_id (wr_payload row), row).
      split; [reflexivity |]. apply list_elem_of_filter. simpl. unfold to_cancel. rewrite open_terminal, Hterm. simpl.
      split; [| apply run_works_elem; auto]. apply negb_true_iff, mem_false, Hun.
Qed.

Lemma nonterminal_keys db a uncertain ws id row :
  nonterminal_works db a uncertain = Ok ws ->
  work_states db !! id = Some row -> of_run a row -> w_work_id (wr_payload row) = id.
Proof.
  intros Hn Hrow Ha. apply nonterminal_loop in Hn. destruct Hn as [Hids _].
  rewrite Forall_forall in Hids. apply (Hids (id, row)), run_works_elem. auto.
Qed.

(** Everything a reconciliation does to the tables of the runtime. *)
Lemma reconcile_tables ct tick now identity a obs ct' :
  journal_wf (ct_rt ct) -> reconcile_cancellation ct tick now identity a obs = Ok ct' ->
  exists found ws,
    fold_result (known_dispatch (ct_db ct)) [] obs = Ok found
    /\ nonterminal_works (ct_db ct) a
         (map (fun o => target_work_id (v_target o)) (filter (fun o => v_status o = "UNKNOWN") obs))
       = Ok ws
    /\ rtc (journal_step P) (ct_rt ct) (ct_rt ct')
    /\ (forall id, id ∉ map w_work_id ws ->
          work_states (ct_db ct') !! id = work_states (ct_db ct) !! id)
    /\ Forall (cancelled_from (ct_rt ct) (ct_rt ct')) ws
    /\ Forall (fun d => closed_request (ct_db ct') d.1 d.2) found
    /\ control_rows ct' = control_rows ct
    /\ cancellation_observations ct' = cancellation_observations ct.
Proof.
  intros Hwf Hr. apply reconcile_Ok in Hr.
  destruct Hr as (i & found & ws & rt1 & rt2 & _ & _ & _ & _ & Hk & Hn & Hc & Hd & ->).
  pose proof (nonterminal_Ok _ _ _ _ Hn) as [Hnd Hin].
  destruct (cancel_all _ _ _ _ _ Hwf ltac:(apply Forall_forall; intros w Hw; apply Hin in Hw;
    destruct Hw as (row & Hrow & _ & Hp & Ht & _); split; [| exact Ht]; unfold get_work;
    unfold ct_db in Hrow; rewrite Hrow; congruence) Hnd Hc) as (Hs1 & Hrest & Hall).
  destruct (close_all _ _ _ _ Hd) as (Hs2 & Hw2 & _ & Hclosed). exists found, ws.
  do 2 (split; [assumption |]). split; [etransitivity; eassumption |]. unfold ct_db in *. simpl.
  split; [intros id Hid; rewrite Hw2; apply Hrest, Hid |]. split.
  - eapply Forall_impl; [exact Hall |]. intros w (row & Hrow & Hrest'). exists row. simpl. rewrite Hw2. auto.
  - split; [exact Hclosed |]. auto.
Qed.

(** ** Histories of run control *)

(** One transaction: one of the journal, or one of [RunControlStore]. As in
    [History.runtime_step], the registrations of [storage/dynamic_registration.py],
    [storage/chaining_registration.py] and
    [storage/chaining_child_registration.py] are not steps: they check neither the
    latch nor the closing of a run. *)
Inductive control_step ct ct' : Prop :=
| cs_runtime rt : journal_step P (ct_rt ct) rt -> ct' = set_rt ct rt -> control_step ct ct'
| cs_request a reason now : request_cancel ct a reason now = Ok ct' -> control_step ct ct'
| cs_observe o now : record_cancellation_observation ct o now = Ok ct' -> control_step ct ct'
| cs_reconcile tick now identity a obs :
    reconcile_cancellation ct tick now identity a obs = Ok ct' -> control_step ct ct'
| cs_quiesce a now : mark_quiescent ct a now = Ok ct' -> control_step ct ct'.

Record control_wf ct : Prop := {
  cw_journal : journal_wf (ct_rt ct);
  cw_latched a row : control_rows ct !! a = Some row -> latched (ct_db ct) a;
  cw_closed a row : control_rows ct !! a = Some row -> ctl_quiescent_at row <> None ->
    run_over (ct_db ct) a;
}.

Lemma journal_keeps rt rt' :
  journal_wf rt -> rtc (journal_step P) rt rt' -> journal_wf rt' /\ rtc (runtime_step P) rt rt'.
Proof.
  intros Hwf Hs. pose proof (journal_history _ _ _ Hwf Hs) as Hm.
  split; [exact (journal_moves_wf _ _ _ Hwf Hm) | exact (moves_steps _ _ _ Hm)].
Qed.

Lemma journal_latched rt rt' a :
  journal_wf rt -> rtc (journal_step P) rt rt' -> latched (rt_db rt) a -> latched (rt_db rt') a.
Proof.
  intros Hwf Hs Hl. destruct (journal_keeps _ _ Hwf Hs) as [_ Hr].
  apply (frozen_steps P _ _ a (jw_typed _ Hwf) Hr Hl).
Qed.

(** The rows of run control survive histories of the journal. *)
Lemma control_wf_rt ct rt :
  control_wf ct -> rtc (journal_step P) (ct_rt ct) rt -> control_wf (set_rt ct rt).
Proof.
  intros [Hwf Hl Hc] Hs. destruct (journal_keeps _ _ Hwf Hs) as [Hwf' Hr].
  split; simpl; [exact Hwf' | |].
  - intros a row Hrow. eapply journal_latched; [exact Hwf | exact Hs | exact (Hl a row Hrow)].
  - intros a row Hrow Hq. pose proof (Hc a row Hrow Hq) as Ho.
    eapply same_run_over; [| exact Ho]. apply (over_steps _ _ a (jw_typed _ Hwf) Hr (Hl a row Hrow) Ho).
Qed.

Lemma request_cancel_Ok ct a reason now ct' :
  request_cancel ct a reason now = Ok ct' ->
  safe_reason reason = true
  /\ (cancel_latched (ct_db ct) a = true /\ ct' = ct
      \/ cancel_latched (ct_db ct) a = false
         /\ ct' = mkControl (set_db (ct_rt ct) (latch (ct_db ct) a))
                    (<[a := mkControlRow now reason None]> (control_rows ct))
                    (cancellation_observations ct)).
Proof.
  unfold request_cancel. intros Hr. apply raise_if_Ok in Hr. destruct Hr as [Hin Hr]. cbv zeta in Hr.
  boolify. destruct Hin as [_ Hin]. split; [exact Hin |].
  destruct (cancel_latched _ _); [injection Hr as <-; auto |].
  destruct (is_none _); [discriminate |]. injection Hr as <-. right. auto.
Qed.

Lemma latch_journal rt a : journal_step P rt (set_db rt (latch (rt_db rt) a)).
Proof.
  apply env_journal; try reflexivity.
  - repeat split; try reflexivity. eauto.
  - simpl. intros x Hx. apply elem_of_app. auto.
Qed.

Lemma mark_quiescent_Ok ct a now ct' :
  mark_quiescent ct a now = Ok ct' ->
  exists row, control_rows ct !! a = Some row
    /\ (ctl_quiescent_at row <> None /\ ct' = ct
        \/ ctl_quiescent_at row = None /\ run_over (ct_db ct) a
           /\ open_tables (ct_db ct) (map fst (run_works (ct_db ct) a)) = false
           /\ (forall o, o ∈ run_observations ct a -> observation_open o = false)
           /\ ct' = set_controls ct
                (<[a := mkControlRow (ctl_cancel_requested_at row) (ctl_cancel_reason row) (Some now)]>
                   (control_rows ct))).
Proof.
  unfold mark_quiescent. intros Hm. apply raise_if_Ok in Hm. destruct Hm as [_ Hm]. cbv zeta in Hm.
  destruct (control_rows ct !! a) as [row |] eqn:Hrow; [| discriminate]. exists row.
  split; [reflexivity |]. destruct (is_some (ctl_quiescent_at row)) eqn:Hq.
  { left. injection Hm as <-. split; [| reflexivity]. apply is_some_true in Hq. destruct Hq as [t Ht]. congruence. }
  right. apply raise_if_Ok in Hm. destruct Hm as [Hw Hm]. apply raise_if_Ok in Hm. destruct Hm as [Ht Hm].
  apply raise_if_Ok in Hm. destruct Hm as [Ho Hm]. apply raise_if_Ok in Hm. destruct Hm as [_ Hm].
  injection Hm as <-. apply is_some_false in Hq. split; [exact Hq |]. split.
  { intros id r Hr Ha. assert (Hin : (id, r) ∈ run_works (ct_db ct) a) by (apply run_works_elem; auto).
    pose proof (existsb_false _ _ _ Hw Hin) as Hopen. simpl in Hopen. unfold open_work in Hopen.
    change (mem (w_status (wr_payload r)) _) with (open_status (w_status (wr_payload r))) in Hopen.
    rewrite open_terminal in Hopen. boolify. unfold closed_row. tauto. }
  split; [exact Ht |]. split; [| reflexivity]. intros o Hin. exact (existsb_false _ _ _ Ho Hin).
Qed.

Lemma record_Ok ct o now ct' :
  record_cancellation_observation ct o now = Ok ct' ->
  _validate_observation o = Ok tt
  /\ (observation_of (cancellation_observations ct) (v_target o) = Ok (Some o) /\ ct' = ct
      \/ observation_of (cancellation_observations ct) (v_target o) = Ok None
         /\ exists items rows, _resource_observations o = Ok items
              /\ fold_result (insert_observation o now) (cancellation_observations ct) items = Ok rows
              /\ ct' = set_observations ct rows).
Proof.
  unfold record_cancellation_observation. intros Hr. call Hr as [] Hv. split; [exact Hv |]. cbv zeta in Hr.
  apply raise_if_Ok in Hr. destruct Hr as [_ Hr]. call Hr as current _. apply raise_if_Ok in Hr.
  destruct Hr as [_ Hr]. call Hr as existing He. destruct existing as [old |].
  - apply raise_if_Ok in Hr. destruct Hr as [Heq Hr]. injection Hr as <-. boolify. left. split; congruence.
  - call Hr as items Hi. call Hr as rows Hf. injection Hr as <-. right. split; [exact He |]. eauto.
Qed.

Lemma insert_observation_grows o now rows item rows' :
  insert_observation o now rows item = Ok rows' -> rows ⊆ rows'.
Proof.
  destruct item as [[r s] c]. unfold insert_observation. intros Hi. call Hi as values Hv.
  destruct (rows !! o_observation_key values) eqn:Hn; [discriminate |]. injection Hi as <-.
  apply insert_subseteq, Hn.
Qed.

Lemma insert_all_grows o now items rows rows' :
  fold_result (insert_observation o now) rows items = Ok rows' -> rows ⊆ rows'.
Proof.
  revert rows. induction items as [| item items IH]; intros rows Hf; [injection Hf as <-; reflexivity |].
  cbn [fold_result] in Hf. call Hf as rows1 Hi.
  etransitivity; [eapply insert_observation_grows, Hi | apply IH, Hf].
Qed.

(** A run-control row keeps its reason, and its closing once it has one. *)
Definition control_follows (row row' : ControlRow) : Prop :=
  ctl_cancel_requested_at row' = ctl_cancel_requested_at row
  /\ ctl_cancel_reason row' = ctl_cancel_reason row
  /\ (ctl_quiescent_at row <> None -> ctl_quiescent_at row' = ctl_quiescent_at row).

(** What [mark_quiescent] leaves. *)
Lemma mark_quiescent_row ct a now ct' :
  mark_quiescent ct a now = Ok ct' ->
  exists row, control_rows ct' !! a = Some row /\ ctl_quiescent_at row <> None
    /\ ct_db ct' = ct_db ct.
Proof.
  intros Hm. apply mark_quiescent_Ok in Hm. destruct Hm as (row & Hrow & [(Hq & ->) | (_ & _ & _ & _ & ->)]).
  - exists row. auto.
  - eexists. simpl. rewrite lookup_insert_eq. split; [reflexivity |]. split; [discriminate | reflexivity].
Qed.

(** What every step of run control does. *)
Record controlled ct ct' : Prop := {
  cd_history : rtc (journal_step P) (ct_rt ct) (ct_rt ct');
  cd_wf : control_wf ct';
  cd_rows a row : control_rows ct !! a = Some row ->
    exists row', control_rows ct' !! a = Some row' /\ control_follows row row';
  cd_observations : cancellation_observations ct ⊆ cancellation_observations ct';
}.

Lemma follows_refl row : control_follows row row.
Proof. repeat split; auto. Qed.

Lemma controlled_rt ct rt :
  control_wf ct -> rtc (journal_step P) (ct_rt ct) rt -> controlled ct (set_rt ct rt).
Proof.
  intros Hwf Hs. split; simpl; [exact Hs | apply control_wf_rt; assumption | | reflexivity].
  intros a row Hrow. exists row. split; [exact Hrow | apply follows_refl].
Qed.

Lemma request_controlled ct a reason now ct' :
  control_wf ct -> request_cancel ct a reason now = Ok ct' -> controlled ct ct'.
Proof.
  intros Hwf Hr. apply request_cancel_Ok in Hr. destruct Hr as (_ & [(_ & ->) | (Hn & ->)]).
  { destruct ct as [rt rows obs]. exact (controlled_rt (mkControl rt rows obs) rt Hwf ltac:(reflexivity)). }
  pose proof (latch_journal (ct_rt ct) a) as Hstep.
  assert (Hnew : control_rows ct !! a = None).
  { apply eq_None_not_Some. intros [row Hrow]. pose proof (cw_latched _ Hwf _ _ Hrow) as Hl.
    unfold latched in Hl. congruence. }
  destruct (control_wf_rt ct _ Hwf (rtc_once _ _ Hstep)) as [Hj Hl Hc].
  split; simpl; [apply rtc_once, Hstep | split; simpl; [exact Hj | |] | | reflexivity].
  - intros b row Hrow. apply lookup_insert_Some in Hrow. destruct Hrow as [[<- _] | [_ Hrow]];
      [apply latched_snoc; auto | exact (Hl b row Hrow)].
  - intros b row Hrow Hq. apply lookup_insert_Some in Hrow. destruct Hrow as [[_ <-] | [_ Hrow]];
      [destruct (Hq eq_refl) | exact (Hc b row Hrow Hq)].
  - intros b row Hrow. exists row. rewrite lookup_insert_ne by congruence.
    split; [exact Hrow | apply follows_refl].
Qed.

Lemma quiesce_controlled ct a now ct' :
  control_wf ct -> mark_quiescent ct a now = Ok ct' -> controlled ct ct'.
Proof.
  intros Hwf Hm. apply mark_quiescent_Ok in Hm.
  destruct Hm as (row & Hrow & [(_ & ->) | (Hq & Ho & _ & _ & ->)]).
  { destruct ct as [rt rows obs]. exact (controlled_rt (mkControl rt rows obs) rt Hwf ltac:(reflexivity)). }
  destruct Hwf as [Hj Hl Hc]. split; simpl; [reflexivity | split; simpl; [exact Hj | |] | | reflexivity].
  - intros b r Hr. apply lookup_insert_Some in Hr. destruct Hr as [[<- _] | [_ Hr]]; [eapply Hl, Hrow | eapply Hl, Hr].
  - intros b r Hr Hn. apply lookup_insert_Some in Hr. destruct Hr as [[<- _] | [_ Hr]]; [exact Ho | exact (Hc b r Hr Hn)].
  - intros b r Hr. destruct (decide (b = a)) as [-> | Hne].
    + rewrite lookup_insert_eq. eexists. split; [reflexivity |]. replace r with row by congruence.
      repeat split. intros Hn. congruence.
    + exists r. rewrite lookup_insert_ne by congruence. split; [exact Hr | apply follows_refl].
Qed.

Lemma control_step_controlled ct ct' : control_wf ct -> control_step ct ct' -> controlled ct ct'.
Proof.
  intros Hwf [rt Hs -> | a reason now Hr | o now Hr | tick now i a obs Hr | a now Hm].
  - apply controlled_rt; [exact Hwf | apply rtc_once, Hs].
  - eapply request_controlled; eassumption.
  - apply record_Ok in Hr. destruct Hr as (_ & [(_ & ->) | (_ & items & rows & _ & Hf & ->)]).
    + destruct ct as [rt rows obs]. exact (controlled_rt (mkControl rt rows obs) rt Hwf ltac:(reflexivity)).
    + split; simpl; [reflexivity | destruct Hwf; split; assumption | | eapply insert_all_grows, Hf].
      intros a row Hrow. exists row. split; [exact Hrow | apply follows_refl].
  - destruct (reconcile_tables _ _ _ _ _ _ _ (cw_journal _ Hwf) Hr)
      as (_ & _ & _ & _ & Hs & _ & _ & _ & Hrows & Hobs).
    replace ct' with (set_rt ct (ct_rt ct')); [apply controlled_rt; assumption |].
    destruct ct, ct'. simpl in *. unfold set_rt. simpl. congruence.
  - eapply quiesce_controlled; eassumption.
Qed.

Lemma controlled_trans ct1 ct2 ct3 : controlled ct1 ct2 -> controlled ct2 ct3 -> controlled ct1 ct3.
Proof.
  intros [Hs1 _ Hr1 Ho1] [Hs2 Hwf Hr2 Ho2].
  split; [etransitivity; eassumption | exact Hwf | | etransitivity; eassumption].
  intros a row Hrow. destruct (Hr1 a row Hrow) as (row2 & Hrow2 & A1 & A2 & A3).
  destruct (Hr2 a row2 Hrow2) as (row3 & Hrow3 & B1 & B2 & B3). exists row3. split; [exact Hrow3 |].
  split; [congruence |]. split; [congruence |]. intros Hq.
  rewrite <- (A3 Hq). apply B3. rewrite (A3 Hq). exact Hq.
Qed.

Lemma control_steps_controlled ct ct' : control_wf ct -> rtc control_step ct ct' -> controlled ct ct'.
Proof.
  intros Hwf Hs. induction Hs as [ct0 | ct1 ct2 ct3 Hs _ IH].
  - destruct ct0 as [rt rows obs]. exact (controlled_rt (mkControl rt rows obs) rt Hwf ltac:(reflexivity)).
  - pose proof (control_step_controlled _ _ Hwf Hs) as Hc.
    eapply controlled_trans; [exact Hc | apply IH, Hc].
Qed.

(** ** Reading an observation back *)

(** The row of a resource under its key. *)
Definition row_of (rows : gmap string (ObservationValues * Z)) (t : CancellationTarget)
  (item : ObservationResource * string * option string) (values : ObservationValues) : Prop :=
  _observation_values t item.1.2 item.2 item.1.1 = Ok values
  /\ exists now, rows !! o_observation_key values = Some (values, now).

Lemma row_of_grows rows rows' t item values :
  rows ⊆ rows' -> row_of rows t item values -> row_of rows' t item values.
Proof. intros Hsub (Hv & now & Hr). split; [exact Hv |]. exists now. eapply lookup_weaken; eassumption. Qed.

Lemma insert_all_rows o now items rows rows' :
  fold_result (insert_observation o now) rows items = Ok rows' ->
  exists values, Forall2 (row_of rows' (v_target o)) items values.
Proof.
  revert rows. induction items as [| item items IH]; intros rows Hf; [exists []; constructor |].
  cbn [fold_result] in Hf. call Hf as rows1 Hi. destruct (IH _ Hf) as (values & Hall).
  apply insert_all_grows in Hf. destruct item as [[r s] c]. unfold insert_observation in Hi.
  call Hi as v Hv. destruct (is_some _); [discriminate |]. injection Hi as <-. exists (v :: values).
  constructor; [| exact Hall]. eapply row_of_grows; [exact Hf |].
  split; [exact Hv |]. exists now. apply lookup_insert_eq.
Qed.

Lemma observation_values_Ok t s c r values :
  _observation_values t s c r = Ok values ->
  _observation_key t r = Ok (o_observation_key values) /\ o_status values = s /\ o_reason_code values = c.
Proof.
  unfold _observation_values. destruct (g_issued_action_decision_ref t); [| discriminate].
  intros Hv. call Hv as key Hk. call Hv as ? ?. call Hv as ? ?. call Hv as ? ?. injection Hv as <-. auto.
Qed.

Lemma observed_row_of rows t item values :
  row_of rows t item values -> observed_row rows t item.1.1 = Ok (Some values).
Proof.
  intros (Hv & now & Hr). destruct (observation_values_Ok _ _ _ _ _ Hv) as (Hk & Hs & Hc).
  unfold observed_row. rewrite Hk. simpl. rewrite Hr, Hs, Hc, Hv. simpl.
  rewrite bool_decide_true by reflexivity. reflexivity.
Qed.

Lemma observed_rows_of rows t items values :
  Forall2 (row_of rows t) items values ->
  map_result (observed_row rows t) (map (fun i => i.1.1) items) = Ok (map Some values).
Proof.
  intros Hall. apply map_result_Forall2. apply Forall2_fmap_l, Forall2_fmap_r.
  eapply Forall2_impl; [exact Hall |]. intros i v Hv. apply observed_row_of, Hv.
Qed.

Lemma omap_id_Some {A} (l : list A) : omap id (map Some l) = l.
Proof. induction l as [| x l IH]; [reflexivity |]. cbn. f_equal. exact IH. Qed.

Lemma zip_strict_Ok {A B} (l : list A) (k : list B) pairs :
  zip_strict l k = Ok pairs -> map fst pairs = l /\ map snd pairs = k.
Proof.
  revert k pairs. induction l as [| x l IH]; intros [| y k] pairs Hz; try discriminate.
  - injection Hz as <-. auto.
  - cbn [zip_strict] in Hz. call Hz as r Hr. injection Hz as <-. destruct (IH _ _ Hr) as [<- <-]. auto.
Qed.

Lemma zip_strict_pairs {A B} (pairs : list (A * B)) :
  zip_strict (map fst pairs) (map snd pairs) = Ok pairs.
Proof. induction pairs as [| [x y] l IH]; simpl; [reflexivity |]. rewrite IH. reflexivity. Qed.

(** A sandbox observation is rebuilt from the statuses of its rows. *)
Lemma sandbox_rebuilt o values items :
  map ro_resource (v_resource_observations o) = g_sandbox_resources (v_target o) ->
  map snd items = v_resource_observations o ->
  Forall2 (fun (x : ObservationResource * CancellationResourceObservation) v =>
             o_status v = ro_status x.2 /\ o_reason_code v = ro_reason_code x.2) items values ->
  exists pairs, zip_strict (g_sandbox_resources (v_target o)) values = Ok pairs
    /\ map (fun x => mkResourceObservation x.1 (o_status x.2) (o_reason_code x.2)) pairs
       = v_resource_observations o.
Proof.
  intros <- <- Hall. induction Hall as [| [r ro] v items values [Hs Hc] _ IH]; [exists []; auto |].
  destruct IH as (pairs & Hz & Heq). exists ((ro_resource ro, v) :: pairs). simpl in *. rewrite Hz. simpl.
  split; [reflexivity |]. rewrite Heq, Hs, Hc. destruct ro. reflexivity.
Qed.

(** The resources of a target of another kind: one. *)
Lemma one_resource t resources :
  g_target_kind t <> "SANDBOX" -> _resources t = Ok resources -> exists r, resources = [r].
Proof.
  intros Hk Hr. unfold _resources in Hr. rewrite bool_decide_false in Hr by exact Hk.
  destruct (bool_decide (g_target_kind t = "PROVIDER")).
  - destruct (g_call_spec_ref t); [| discriminate]. call Hr as ? ?. call Hr as ? ?. injection Hr as <-. eauto.
  - destruct (bool_decide (g_target_kind t = "STATIC")); [| discriminate].
    call Hr as ? ?. injection Hr as <-. eauto.
Qed.

Lemma validated_sandbox o :
  _validate_observation o = Ok tt -> g_target_kind (v_target o) = "SANDBOX" ->
  map ro_resource (v_resource_observations o) = g_sandbox_resources (v_target o)
  /\ g_sandbox_resources (v_target o) <> []
  /\ _aggregate_sandbox (v_resource_observations o) = (v_status o, v_reason_code o).
Proof.
  unfold _validate_observation. intros Hv Hk. cbv zeta in Hv.
  do 3 (apply raise_if_Ok in Hv; destruct Hv as [_ Hv]). rewrite bool_decide_true in Hv by exact Hk.
  apply raise_if_Ok in Hv. destruct Hv as [Hi Hv]. call Hv as ? ?. apply raise_if_Ok in Hv.
  destruct Hv as [Ha _]. boolify. destruct Hi as [[Hne _] Heq]. auto.
Qed.

Lemma validated_other o :
  _validate_observation o = Ok tt -> g_target_kind (v_target o) <> "SANDBOX" ->
  v_resource_observations o = [].
Proof.
  unfold _validate_observation. intros Hv Hk. cbv zeta in Hv.
  do 3 (apply raise_if_Ok in Hv; destruct Hv as [_ Hv]). rewrite bool_decide_false in Hv by exact Hk.
  apply raise_if_Ok in Hv. destruct Hv as [Hn _]. destruct (v_resource_observations o); [reflexivity | discriminate].
Qed.

(** The rows of a validated observation are read back as the observation. *)
Lemma observation_read o items rows values :
  _validate_observation o = Ok tt -> _resource_observations o = Ok items ->
  Forall2 (row_of rows (v_target o)) items values ->
  observation_of rows (v_target o) = Ok (Some o).
Proof.
  intros Hv Hi Hall. unfold _resource_observations in Hi. call Hi as resources Hr.
  pose proof (observed_rows_of _ _ _ _ Hall) as Hrows. pose proof (Forall2_length _ _ _ Hall) as Hlen.
  assert (Hst : Forall2 (fun (i : ObservationResource * string * option string) v =>
                  o_status v = i.1.2 /\ o_reason_code v = i.2) items values).
  { eapply Forall2_impl; [exact Hall |]. intros i v [Hiv _].
    apply observation_values_Ok in Hiv. tauto. }
  assert (Hread : map (fun i => i.1.1) items = resources -> values <> [] ->
            rebuilt_observation (v_target o) values = Ok o ->
            observation_of rows (v_target o) = Ok (Some o)).
  { intros Hmap Hne Hobs. unfold observation_of. rewrite Hr. cbn [rbind]. rewrite <- Hmap, Hrows.
    cbn [rbind]. cbv zeta. rewrite omap_id_Some, length_map, Hlen, Nat.eqb_refl.
    destruct values; [congruence |]. cbn [negb]. rewrite Hobs. cbn [rbind]. rewrite Hv. reflexivity. }
  destruct (decide (g_target_kind (v_target o) = "SANDBOX")) as [Hk | Hk].
  - rewrite bool_decide_true in Hi by exact Hk. simpl in Hi. call Hi as pairs Hz. injection Hi as <-.
    destruct (zip_strict_Ok _ _ _ Hz) as [Hfst Hsnd].
    destruct (validated_sandbox _ Hv Hk) as (Hmap & Hne & Hagg).
    destruct (sandbox_rebuilt o values pairs Hmap Hsnd) as (ps & Hps & Hobs).
    { apply Forall2_fmap_l in Hst. exact Hst. }
    apply Hread; [rewrite map_map; exact Hfst | |].
    + intros ->. apply Hne. rewrite <- Hmap, <- Hsnd. destruct pairs; [reflexivity | discriminate].
    + unfold rebuilt_observation. rewrite bool_decide_true by exact Hk. rewrite Hps. simpl.
      rewrite Hobs, Hagg. destruct o. reflexivity.
  - rewrite bool_decide_false in Hi by exact Hk. simpl in Hi. injection Hi as <-.
    destruct (one_resource _ _ Hk Hr) as [r ->]. pose proof (validated_other _ Hv Hk) as Hno.
    inversion Hst as [| ? v ? vs [Hs Hc] Hnil]; subst. inversion Hnil; subst. simpl in *.
    apply Hread; [reflexivity | discriminate |].
    unfold rebuilt_observation. rewrite bool_decide_false by exact Hk. unfold one_status. simpl. rewrite Hs, Hc. destruct o. simpl in *.
    congruence.
Qed.

Lemma observed_row_grows rows rows' t r v :
  rows ⊆ rows' -> observed_row rows t r = Ok (Some v) -> observed_row rows' t r = Ok (Some v).
Proof.
  unfold observed_row. intros Hsub Ho. call Ho as key Hk. rewrite Hk. cbn [rbind].
  destruct (rows !! key) as [[row now] |] eqn:Hrow; [| discriminate].
  rewrite (lookup_weaken _ _ _ _ Hrow Hsub). exact Ho.
Qed.

Lemma omap_id_full {A} (l : list (option A)) :
  length (omap id l) = length l -> l = map Some (omap id l).
Proof.
  induction l as [| [x |] l IH]; intros Hlen; [reflexivity | |].
  - cbn in *. f_equal. apply IH. lia.
  - exfalso. cbn in Hlen. pose proof (length_omap_le id l). unfold id in *. lia.
Qed.

Lemma observation_grows rows rows' t o :
  rows ⊆ rows' -> observation_of rows t = Ok (Some o) -> observation_of rows' t = Ok (Some o).
Proof.
  unfold observation_of. intros Hsub Ho. call Ho as resources Hr. call Ho as found Hf. rewrite Hr.
  cbn [rbind]. cbv zeta in *. destruct (omap id found) as [| v vs] eqn:Hp; [discriminate |].
  apply raise_if_Ok in Ho. destruct Ho as [Hlen Ho]. apply negb_false_iff, Nat.eqb_eq in Hlen.
  pose proof (proj1 (map_result_Forall2 _ _ _) Hf) as Hall. pose proof (Forall2_length _ _ _ Hall) as Hl.
  assert (Hfull : found = map Some (omap id found)) by (apply omap_id_full; rewrite Hp; lia).
  assert (Hf' : map_result (observed_row rows' t) resources = Ok found).
  { apply map_result_Forall2. rewrite Hfull in Hall |- *. apply Forall2_fmap_r in Hall.
    apply Forall2_fmap_r. eapply Forall2_impl; [exact Hall |]. intros r x. apply observed_row_grows, Hsub. }
  rewrite Hf'. cbn [rbind]. cbv zeta. rewrite Hp. rewrite Hlen, Nat.eqb_refl. exact Ho.
Qed.

(** ** The targets of the open requests *)

(** The request a target stands for. *)
Definition targets_request (t : CancellationTarget) (x : DispatchRow) : Prop :=
  target_work_id t = x_work_id x /\ a_attempt_id (g_attempt t) = x_attempt_id x
  /\ g_issued_action_decision_ref t = Some (x_decision_ref x).

Lemma inventory_Ok db a inventory id w b :
  _work_inventory db a = Ok inventory -> (id, (w, Some b)) ∈ inventory ->
  w_work_id w = id /\ w_active_attempt_id w = Some (a_attempt_id b).
Proof.
  unfold _work_inventory. intros Hi Hin. apply map_result_Forall2 in Hi.
  apply list_elem_of_lookup in Hin. destruct Hin as [k Hk].
  destruct (Forall2_lookup_r _ _ _ _ _ Hi Hk) as ([id' row] & _ & Hrow).
  apply raise_if_Ok in Hrow. destruct Hrow as [Hid Hrow]. call Hrow as o Hat. boolify.
  injection Hrow as <- <- ->. split; [exact Hid |]. unfold inventory_attempt in Hat. cbv zeta in Hat.
  destruct (bool_decide (w_status (wr_payload row) = RUNNING)).
  - destruct (_ || _); [discriminate |]. destruct (w_active_attempt_id _) as [id |]; [| discriminate].
    destruct (work_attempts db !! id) as [b' |]; [| discriminate].
    match type of Hat with (if ?c then _ else _) = _ => destruct c eqn:Hc; [discriminate |] end.
    injection Hat as <-. boolify. destruct Hc as [[[_ _] Hc] _]. congruence.
  - match type of Hat with (if ?c then _ else _) = _ => destruct c end; discriminate.
Qed.

Lemma assoc_elem {A} k (l : list (string * A)) v : assoc k l = Some v -> (k, v) ∈ l.
Proof.
  induction l as [| [k' v'] l IH]; [discriminate |]. cbn [assoc].
  destruct (decide (k' = k)) as [-> | Hne].
  - rewrite bool_decide_true by reflexivity. intros [= ->]. left.
  - rewrite bool_decide_false by exact Hne. intros Ha. right. apply IH, Ha.
Qed.

Lemma target_of_Ok rt a inventory x t :
  _work_inventory (rt_db rt) a = Ok inventory -> target_of rt inventory x = Ok t ->
  targets_request t x.
Proof.
  intros Hi Ht. unfold target_of in Ht. destruct (assoc _ inventory) as [[work [attempt |]] |] eqn:Ha;
    try discriminate.
  destruct (inventory_Ok _ _ _ _ _ _ Hi (assoc_elem _ _ _ Ha)) as [Hid Hact].
  apply raise_if_Ok in Ht. destruct Ht as [Hx Ht]. call Ht as issued _. destruct issued; try discriminate.
  call Ht as action _. destruct action; try discriminate. destruct (find _ _) as [row |]; [| discriminate].
  cbv zeta in Ht. call Ht as action_ref _. call Ht as work_ref _. apply raise_if_Ok in Ht.
  destruct Ht as [_ Ht]. call Ht as [] _. destruct (_target_kind _) as [kind |]; [| discriminate].
  call Ht as [] _. call Ht as used_ref _. injection Ht as <-. boolify.
  destruct Hx as [_ Hx]. split; [exact Hid |]. split; [cbn; congruence | reflexivity].
Qed.

Lemma targets_Ok rt a targets :
  cancellation_targets rt a = Ok targets ->
  Forall2 (fun x t => targets_request t x) (open_dispatches (rt_db rt) a) targets.
Proof.
  unfold cancellation_targets. intros Ht. apply raise_if_Ok in Ht. destruct Ht as [_ Ht].
  call Ht as inventory Hi. call Ht as ts Hm. apply raise_if_Ok in Ht. destruct Ht as [_ Ht].
  injection Ht as <-. apply map_result_Forall2 in Hm. eapply Forall2_impl; [exact Hm |].
  intros x t. apply target_of_Ok with (1 := Hi).
Qed.

Lemma same_target_request t t' x :
  _same_target_identity t t' = true -> targets_request t' x -> targets_request t x.
Proof.
  intros Heq. unfold _same_target_identity in Heq. boolify.
  destruct t, t'. unfold target_identity in Heq. simpl in Heq. injection Heq as -> -> -> -> -> -> ->. auto.
Qed.

Lemma zip_forall {A B} (R : A -> B -> bool) (l : list A) (k : list B) :
  length l = length k -> existsb (fun xy : A * B => negb (R xy.1 xy.2)) (zip l k) = false ->
  Forall2 (fun x y => R x y = true) l k.
Proof.
  revert k. induction l as [| x l IH]; intros [| y k] Hlen He; try discriminate; [constructor |].
  simpl in He. apply orb_false_iff in He. destruct He as [Hx He]. apply negb_false_iff in Hx.
  constructor; [exact Hx | apply IH; [simpl in Hlen; lia | exact He]].
Qed.

(** Every open request of the run is the target of one of the observations. *)
Lemma observations_cover ct a obs :
  check_observations ct a obs = Ok tt ->
  Forall2 (fun x o => targets_request (v_target o) x) (open_dispatches (ct_db ct) a) obs
  /\ Forall (fun o => _validate_observation o = Ok tt) obs.
Proof.
  unfold check_observations. intros Hc. call Hc as current Ht. apply raise_if_Ok in Hc.
  destruct Hc as [Hz Hc]. call Hc as persisted _. apply raise_if_Ok in Hc. destruct Hc as [_ Hv].
  boolify. destruct Hz as [Hlen Hz].
  apply (zip_forall (fun o t => _same_target_identity (v_target o) t)) in Hz; [| exact Hlen].
  split.
  - apply targets_Ok in Ht. apply Forall2_flip in Hz. unfold ct_db. clear -Ht Hz.
    revert obs Hz. induction Ht as [| x t xs ts Hx _ IH]; intros obs Hz; inversion Hz; subst; constructor.
    + eapply same_target_request; eassumption.
    + apply IH. assumption.
  - apply for_each_Ok, Hv.
Qed.

(** The works whose request has an unknown outcome. *)
Definition uncertain (obs : list CancellationObservation) : list string :=
  map (fun o => target_work_id (v_target o)) (filter (fun o => v_status o = "UNKNOWN") obs).

(** The observations of known outcome are those whose dispatches are closed. *)
Lemma known_found db obs found0 found o issued :
  fold_result (known_dispatch db) found0 obs = Ok found ->
  o ∈ obs -> v_status o <> "UNKNOWN" -> g_issued_action_decision_ref (v_target o) = Some issued ->
  (v_target o, issued) ∈ found.
Proof.
  assert (Hgrow : forall obs found0 found, fold_result (known_dispatch db) found0 obs = Ok found ->
            found0 ⊆ found).
  { induction obs0 as [| o' obs0 IH]; intros f0 f Hf; [injection Hf as <-; reflexivity |].
    cbn [fold_result] in Hf. call Hf as f1 Hk. etransitivity; [| apply (IH _ _ Hf)].
    unfold known_dispatch in Hk. destruct (bool_decide _); [injection Hk as <-; reflexivity |].
    destruct (g_issued_action_decision_ref _); [| discriminate].
    destruct (filter _ _) as [| ? [| ? ?]]; [discriminate | | discriminate]. injection Hk as <-.
    set_solver. }
  revert found0. induction obs as [| o' obs IH]; intros found0 Hf Hin Hu Hi; [inversion Hin |].
  cbn [fold_result] in Hf. call Hf as f1 Hk. apply elem_of_cons in Hin.
  destruct Hin as [-> | Hin]; [| exact (IH _ Hf Hin Hu Hi)]. apply (Hgrow _ _ _ Hf).
  unfold known_dispatch in Hk. rewrite bool_decide_false, Hi in Hk by exact Hu.
  destruct (filter _ _) as [| ? [| ? ?]]; [discriminate | | discriminate]. injection Hk as <-.
  apply elem_of_app. right. left.
Qed.

(** ** The theorems *)

(** C25. The transactions of [RunControlStore] are histories of the journal: in
    whatever order they and the transactions of [Journal.journal_step]
    ([TransitionService] and [History.runtime_step]) are committed, the runtime's
    tables move by steps of the journal and hence of the runtime, the state keeps
    its invariants, and a cancellation or closing is never undone, so that every
    theorem about those histories holds of runs that are cancelled, reconciled
    and closed. *)
Theorem run_control_refines_journal ct ct' :
  control_wf ct -> rtc control_step ct ct' ->
  rtc (journal_step P) (ct_rt ct) (ct_rt ct') /\ rtc (runtime_step P) (ct_rt ct) (ct_rt ct')
  /\ control_wf ct'
  /\ forall a row, control_rows ct !! a = Some row ->
       exists row', control_rows ct' !! a = Some row' /\ control_follows row row'.
Proof.
  intros Hwf Hs. destruct (control_steps_controlled _ _ Hwf Hs) as [Hj Hwf' Hr _].
  split; [exact Hj |]. split; [apply (journal_keeps _ _ (cw_journal _ Hwf) Hj) |]. auto.
Qed.

(** C23. When [reconcile_cancellation] returns, every work of the run that was not
    terminal and had no request of unknown outcome is CANCELLED, one version on;
    every other work is the row it was; and every external request the run had
    open was the target of one of the observations, and is closed when that
    observation knows what became of it. *)
Theorem reconciliation_cancels_run ct tick now identity a obs ct' :
  control_wf ct -> reconcile_cancellation ct tick now identity a obs = Ok ct' ->
  (forall id row, work_states (ct_db ct) !! id = Some row -> of_run a row ->
     terminal_work (w_status (wr_payload row)) = false -> id ∉ uncertain obs ->
     exists row', work_states (ct_db ct') !! id = Some row'
       /\ w_status (wr_payload row') = CANCELLED
       /\ w_state_version (wr_payload row') = w_state_version (wr_payload row) + 1)
  /\ (forall id, (forall row, work_states (ct_db ct) !! id = Some row -> of_run a row ->
                    terminal_work (w_status (wr_payload row)) = true \/ id ∈ uncertain obs) ->
        work_states (ct_db ct') !! id = work_states (ct_db ct) !! id)
  /\ (forall x, x ∈ open_dispatches (ct_db ct) a -> exists o, o ∈ obs
        /\ targets_request (v_target o) x
        /\ (v_status o <> "UNKNOWN" ->
            closed_request (ct_db ct') (v_target o) (x_decision_ref x))).
Proof.
  intros Hwf Hr. pose proof (reconcile_Ok _ _ _ _ _ _ _ Hr) as (_ & _ & _ & _ & _ & _ & _ & _ & Hobs & _).
  destruct (reconcile_tables _ _ _ _ _ _ _ (cw_journal _ Hwf) Hr)
    as (found & ws & Hk & Hn & _ & Hrest & Hall & Hclosed & _).
  pose proof (fun id row => nonterminal_keys _ _ _ _ id row Hn) as Hkeys.
  destruct (nonterminal_Ok _ _ _ _ Hn) as [_ Hin]. rewrite Forall_forall in Hall. rewrite Forall_forall in Hclosed.
  split; [| split].
  - intros id row Hrow Ha Hterm Hun. pose proof (Hkeys id row Hrow Ha) as Hid. subst id.
    apply (Hall (wr_payload row)), Hin. exists row. auto.
  - intros id Hid. apply Hrest. rewrite list_elem_of_fmap. intros (w & -> & Hw). apply Hin in Hw.
    destruct Hw as (row & Hrow & Ha & Hp & Hterm & Hun). destruct (Hid row Hrow Ha) as [Ht | Hu];
      [congruence | exact (Hun Hu)].
  - intros x Hx. destruct (observations_cover _ _ _ Hobs) as [Hcover _].
    apply list_elem_of_lookup in Hx. destruct Hx as [k Hx].
    destruct (Forall2_lookup_l _ _ _ _ _ Hcover Hx) as (o & Ho & Hreq).
    apply list_elem_of_lookup_2 in Ho. exists o. split; [exact Ho |]. split; [exact Hreq |]. intros Hu.
    destruct Hreq as (_ & _ & Hi).
    exact (Hclosed (v_target o, x_decision_ref x) (known_found _ _ _ _ _ _ Hk Ho Hu Hi)).
Qed.

(** C24. A run that [mark_quiescent] closes stays over under the modelled
    services: at the end of every later history of [control_step] (run control,
    [TransitionService], [WorkService], [AttemptService], the validator, the
    scheduler, the ledger), whatever it attempts, the run is still marked closed
    and cancelled, its works are exactly the rows it was closed with, and each of
    them is terminal and leased to nobody. The dynamic and chaining registrations,
    which insert works without looking at the closing, are not part of such a
    history. *)
Theorem quiescent_run_over ct a now ct1 ct2 :
  control_wf ct -> mark_quiescent ct a now = Ok ct1 -> rtc control_step ct1 ct2 ->
  (exists row, control_rows ct2 !! a = Some row /\ ctl_quiescent_at row <> None)
  /\ cancel_latched (ct_db ct2) a = true
  /\ run_over (ct_db ct2) a /\ same_run a (ct_db ct) (ct_db ct2).
Proof.
  intros Hwf Hm Hs. pose proof (quiesce_controlled _ _ _ _ Hwf Hm) as Hc1.
  destruct (control_steps_controlled _ _ (cd_wf _ _ Hc1) Hs) as [Hj Hwf2 Hr _].
  destruct (mark_quiescent_row _ _ _ _ Hm) as (row & Hrow & Hq & Hdb).
  destruct (Hr a row Hrow) as (row2 & Hrow2 & _ & _ & Hkeep). specialize (Hkeep Hq).
  assert (Hq2 : ctl_quiescent_at row2 <> None) by (rewrite Hkeep; exact Hq).
  split; [eauto |]. split; [exact (cw_latched _ Hwf2 _ _ Hrow2) |].
  split; [exact (cw_closed _ Hwf2 _ _ Hrow2 Hq2) |].
  destruct (journal_keeps _ _ (cw_journal _ (cd_wf _ _ Hc1)) Hj) as [_ Hrs].
  rewrite <- Hdb. apply (over_steps _ _ _ (jw_typed _ (cw_journal _ (cd_wf _ _ Hc1))) Hrs).
  - exact (cw_latched _ (cd_wf _ _ Hc1) _ _ Hrow).
  - exact (cw_closed _ (cd_wf _ _ Hc1) _ _ Hrow Hq).
Qed.

(** C26. An observation that was recorded is durable: at the end of every later
    history the rows of its resources read back as the very observation, and
    recording one of the same target returns only for that observation, and
    changes nothing. *)
Theorem observation_durable ct o now ct1 ct2 :
  control_wf ct -> record_cancellation_observation ct o now = Ok ct1 -> rtc control_step ct1 ct2 ->
  observation_of (cancellation_observations ct2) (v_target o) = Ok (Some o)
  /\ forall o' now' ct3, v_target o' = v_target o ->
       record_cancellation_observation ct2 o' now' = Ok ct3 -> o' = o /\ ct3 = ct2.
Proof.
  intros Hwf Hr Hs. pose proof (control_step_controlled _ _ Hwf (cs_observe _ _ _ _ Hr)) as Hc1.
  destruct (control_steps_controlled _ _ (cd_wf _ _ Hc1) Hs) as [_ _ _ Hsub].
  assert (Hread : observation_of (cancellation_observations ct2) (v_target o) = Ok (Some o)).
  2:{ split; [exact Hread |]. intros o' now' ct3 Ht Hr'.
      destruct (record_Ok _ _ _ _ Hr') as (_ & [(Ho' & ->) | (Ho' & _)]); rewrite Ht, Hread in Ho';
        [split; congruence | discriminate]. }
  eapply observation_grows; [exact Hsub |].
  destruct (record_Ok _ _ _ _ Hr) as (Hv & [(Ho & ->) | (_ & items & rows & Hi & Hf & ->)]); [exact Ho |].
  destruct (insert_all_rows _ _ _ _ _ Hf) as (values & Hall).
  eapply observation_read; eassumption.
Qed.
End quiescence.
