(* ===== verification/Lineage.v ===== *)
(** * Primitive lineage

    [chaining/lineage.py]: the fail-closed traversal of a primitive's committed
    ancestry, the deepest-first order, the retention of the deepest successful
    matches and the exclusion of their ancestors; and the projection of
    [storage/chaining_projection.py] that checks the exclusions again when the
    result is committed. *)
From Stdlib Require Import Sorting.Sorted.
From S2P Require Import Prelude Records CanonicalJson.

(** ** Canonical reference keys *)

Definition contract_model : ModelInfo := mkModelInfo true false [].
Definition opaque_id (id : string) : value := VOpaqueId contract_model (VStr id).

(** A [StoredDataRef] as [_normalize] reads it, field by field. *)
Definition ref_value (r : StoredDataRef) : value :=
  VModel contract_model
    [("stored_data_id", opaque_id (sd_stored_data_id r));
     ("data_kind", VStr (sd_data_kind r));
     ("content_hash", VStr (sd_content_hash r));
     ("workspace_id", opaque_id (sd_workspace_id r));
     ("commit_id", opaque_id (sd_commit_id r));
     ("record_id", match sd_record_id r with Some id => opaque_id id | None => VNone end)].

Definition ref_json (r : StoredDataRef) : json :=
  JObj [("stored_data_id", JStr (sd_stored_data_id r));
        ("data_kind", JStr (sd_data_kind r));
        ("content_hash", JStr (sd_content_hash r));
        ("workspace_id", JStr (sd_workspace_id r));
        ("commit_id", JStr (sd_commit_id r));
        ("record_id", match sd_record_id r with Some id => JStr id | None => JNull end)].

(** [canonical_bytes(ref)] *)
Definition _key (r : StoredDataRef) : string := _encode (ref_json r).

Lemma key_canonical r : canonical_bytes [] (ref_value r) = Ok (_key r).
Proof. destruct r as [? ? ? ? ? []]; reflexivity. Qed.

#[export] Instance key_inj : Inj (=) (=) _key.
Proof.
  intros [a b c d e f] [a' b' c' d' e' f'] H. apply encode_canon in H.
  cbn in H. destruct f, f'; simpl in H; congruence.
Qed.

#[local] Opaque _key.

(** ** Nodes *)

Record LineageNode := mkLineageNode {
  n_primitive_ref : StoredDataRef;
  n_parent_primitive_refs : list StoredDataRef;
  n_analysis_id : string;
  n_workspace_id : string;
  n_commit_id : string;
  n_committed : bool;
}.

Record Lineage := mkLineage {
  l_ancestors : list StoredDataRef;
  l_depth : Z;
}.

Record SuccessfulMatchPair := mkPair {
  upstream_ref : StoredDataRef;
  downstream_ref : StoredDataRef;
}.

Record LineageExclusion := mkExclusion {
  excluded_primitive_ref : StoredDataRef;
  excluded_by_ref : StoredDataRef;
}.

#[export] Instance SuccessfulMatchPair_eq_dec : EqDecision SuccessfulMatchPair.
Proof. solve_decision. Defined.
#[export] Instance LineageExclusion_eq_dec : EqDecision LineageExclusion.
Proof. solve_decision. Defined.

Definition _validate_node (node : LineageNode) (expected_ref : StoredDataRef)
  (root : LineageNode) (analysis_id : string) : result unit :=
  do! require_record_ref expected_ref (Some "primitive") ;;
  raise_if neqb (n_primitive_ref node) expected_ref
    with "CHAINING_LINEAGE_REFERENCE_MISMATCH" ;;
  raise_if negb (n_committed node) with "CHAINING_LINEAGE_NOT_COMMITTED" ;;
  raise_if neqb (n_analysis_id node) analysis_id || neqb (n_analysis_id root) analysis_id
           || neqb (n_workspace_id node) (n_workspace_id root)
           || neqb (n_commit_id node) (n_commit_id root)
           || neqb (sd_workspace_id expected_ref) (n_workspace_id node)
           || neqb (sd_commit_id expected_ref) (n_commit_id node)
    with "CHAINING_LINEAGE_SCOPE_MISMATCH" ;;
  Ok tt.

(** [str(ref.record_id)] of a primitive reference *)
Definition _record_id (ref : StoredDataRef) : result string :=
  do! require_record_ref ref (Some "primitive") ;;
  match sd_record_id ref with Some id => Ok id | None => Err AssertionError end.

Section lineage.
(** The frames the interpreter has left for the recursion. *)
Variable recursion_limit : nat.
Variable resolve : StoredDataRef -> result LineageNode.
Variable analysis_id : string.

(** [try: resolve(ref) except LookupError: raise ValueError(...)]; [KeyError] and
    [IndexError] are [LookupError]s. *)
Definition resolve_node (ref : StoredDataRef) : result LineageNode :=
  match resolve ref with
  | Err (LookupError _) | Err KeyError | Err IndexError => Err (ValueError "CHAINING_LINEAGE_MISSING")
  | r => r
  end.

(** The closure [visit]; the state is [seen] and [ordered]. *)
Fixpoint visit (fuel : nat) (root : LineageNode) (active : list string)
  (st : list string * list StoredDataRef) (current_ref : StoredDataRef)
  : result (list string * list StoredDataRef) :=
  match fuel with
  | O => Err RecursionError
  | S fuel =>
      let key := _key current_ref in
      raise_if mem key active with "CHAINING_LINEAGE_CYCLE" ;;
      if mem key st.1 then Ok st
      else
        let! node := resolve_node current_ref in
        do! _validate_node node current_ref root analysis_id ;;
        let next_active := key :: active in
        fold_result
          (fun st parent_ref =>
             raise_if eqb parent_ref current_ref with "CHAINING_LINEAGE_CYCLE" ;;
             let parent_key := _key parent_ref in
             let! st := visit fuel root next_active st parent_ref in
             Ok (if mem parent_key st.1 then st
                 else (st.1 ++ [parent_key], st.2 ++ [parent_ref])))
          st (n_parent_primitive_refs node)
  end.

Definition lineage (primitive_ref : StoredDataRef) : result Lineage :=
  let! root := resolve_node primitive_ref in
  do! _validate_node root primitive_ref root analysis_id ;;
  let! st := visit recursion_limit root [] ([], []) primitive_ref in
  let root_key := _key primitive_ref in
  let ancestors := filter (fun item => _key item <> root_key) st.2 in
  Ok (mkLineage ancestors (Z.of_nat (length ancestors))).

(** ** Deepest first *)

(** The key [(-depth, record_id)]. *)
Definition rank_leb (x y : Z * string * StoredDataRef) : bool :=
  let '(d, id, _) := x in let '(d', id', _) := y in
  (d' <? d) || ((d' =? d) && str_leb id id').

Definition order_deepest_first (primitive_refs : list StoredDataRef)
  : result (list StoredDataRef) :=
  raise_if has_duplicates (map _key primitive_refs) with "CHAINING_LINEAGE_DUPLICATE" ;;
  let! ranked :=
    map_result (fun ref =>
                  let! l := lineage ref in
                  let! id := _record_id ref in
                  Ok (l_depth l, id, ref)) primitive_refs in
  Ok (map snd (sort_by rank_leb ranked)).

(** ** Successful matches *)

Definition _candidate_ref (pair : SuccessfulMatchPair) (trigger_key : string)
  : StoredDataRef :=
  if eqb (_key (upstream_ref pair)) trigger_key then downstream_ref pair
  else upstream_ref pair.

Fixpoint strs_leb (xs ys : list string) : bool :=
  match xs, ys with
  | [], _ => true
  | _ :: _, [] => false
  | x :: xs, y :: ys => if eqb x y then strs_leb xs ys else str_leb x y
  end.

(** An entry of [ranked]: its depth, its three record ids, its pair. *)
Record Ranked := mkRanked {
  k_depth : Z;
  k_ids : list string;
  k_pair : SuccessfulMatchPair;
}.

Definition ranked_leb (x y : Ranked) : bool :=
  (k_depth y <? k_depth x)
  || ((k_depth y =? k_depth x) && strs_leb (k_ids x) (k_ids y)).

(** [sorted(ranked)]: two entries that agree up to the pair are adjacent in the
    order, and comparing their pairs is a [TypeError]. *)
Definition sorted_ranked (ranked : list Ranked) : result (list Ranked) :=
  if has_duplicates (map (fun e => (k_depth e, k_ids e)) ranked)
  then Err (TypeError "'<' not supported between instances of 'SuccessfulMatchPair'")
  else Ok (sort_by ranked_leb ranked).

(** One pair of the first loop of [retain_deepest_successful_matches]. *)
Definition rank_pair (considered : list string) (trigger_key : string)
  (st : list (string * string) * list Ranked) (pair : SuccessfulMatchPair)
  : result (list (string * string) * list Ranked) :=
  let upstream_key := _key (upstream_ref pair) in
  let downstream_key := _key (downstream_ref pair) in
  let pair_key := (upstream_key, downstream_key) in
  raise_if eqb upstream_key downstream_key
           || negb (mem trigger_key [upstream_key; downstream_key])
           || negb (mem upstream_key considered && mem downstream_key considered)
           || mem pair_key st.1
    with "CHAINING_LINEAGE_INPUT_MISMATCH" ;;
  let candidate := _candidate_ref pair trigger_key in
  let! candidate_lineage := lineage candidate in
  let! candidate_id := _record_id candidate in
  let! upstream_id := _record_id (upstream_ref pair) in
  let! downstream_id := _record_id (downstream_ref pair) in
  Ok (st.1 ++ [pair_key],
      st.2 ++ [mkRanked (l_depth candidate_lineage)
                 [candidate_id; upstream_id; downstream_id] pair]).

(** One pair of its second loop; the state is [excluded] and [retained]. *)
Definition retain_pair (considered : list string) (trigger_key : string)
  (st : list string * list SuccessfulMatchPair) (pair : SuccessfulMatchPair)
  : result (list string * list SuccessfulMatchPair) :=
  let upstream_key := _key (upstream_ref pair) in
  let downstream_key := _key (downstream_ref pair) in
  let candidate_key :=
    if eqb upstream_key trigger_key then downstream_key else upstream_key in
  if mem candidate_key st.1 then Ok st
  else
    let! l := lineage (_candidate_ref pair trigger_key) in
    let! excluded :=
      fold_result (fun excluded ancestor_ref =>
                     let ancestor_key := _key ancestor_ref in
                     raise_if negb (mem ancestor_key considered)
                              || eqb ancestor_key trigger_key
                       with "CHAINING_LINEAGE_INPUT_MISMATCH" ;;
                     Ok (ancestor_key :: excluded)) st.1 (l_ancestors l) in
    Ok (excluded, st.2 ++ [pair]).

Definition retain_deepest_successful_matches (considered_refs : list StoredDataRef)
  (trigger_ref : StoredDataRef) (successful_match_pairs : list SuccessfulMatchPair)
  : result (list SuccessfulMatchPair) :=
  let considered := map _key considered_refs in
  let trigger_key := _key trigger_ref in
  raise_if has_duplicates considered || negb (mem trigger_key considered)
    with "CHAINING_LINEAGE_INPUT_MISMATCH" ;;
  let! st := fold_result (rank_pair considered trigger_key) ([], []) successful_match_pairs in
  let! ranked := sorted_ranked st.2 in
  let! st := fold_result (retain_pair considered trigger_key) ([], []) (map k_pair ranked) in
  Ok st.2.

(** One ancestor of the inner loop of [expected_lineage_exclusions]. *)
Definition exclude_ancestor (considered retained_keys : list string)
  (candidate_ref : StoredDataRef) (st : list string * list LineageExclusion)
  (ancestor_ref : StoredDataRef) : result (list string * list LineageExclusion) :=
  let ancestor_key := _key ancestor_ref in
  raise_if negb (mem ancestor_key considered) with "CHAINING_LINEAGE_INPUT_MISMATCH" ;;
  raise_if mem ancestor_key retained_keys with "CHAINING_SUCCESSFUL_CANDIDATE_EXCLUDED" ;;
  Ok (if eqb ancestor_ref candidate_ref || mem ancestor_key st.1 then st
      else (ancestor_key :: st.1, st.2 ++ [mkExclusion ancestor_ref candidate_ref])).

Definition expected_lineage_exclusions (considered_refs : list StoredDataRef)
  (trigger_ref : StoredDataRef) (successful_match_pairs : list SuccessfulMatchPair)
  : result (list LineageExclusion) :=
  let considered := map _key considered_refs in
  let trigger_key := _key trigger_ref in
  raise_if has_duplicates considered || negb (mem trigger_key considered)
    with "CHAINING_LINEAGE_INPUT_MISMATCH" ;;
  let! retained :=
    retain_deepest_successful_matches considered_refs trigger_ref successful_match_pairs in
  let retained_keys :=
    concat (map (fun pair => [_key (upstream_ref pair); _key (downstream_ref pair)]) retained) in
  let! st :=
    fold_result (fun st pair =>
                   let candidate_ref := _candidate_ref pair trigger_key in
                   let! l := lineage candidate_ref in
                   fold_result (exclude_ancestor considered retained_keys candidate_ref)
                     st (l_ancestors l)) ([], []) retained in
  Ok st.2.
End lineage.

(** ** The commit-time projection *)

(** One ancestor of [_expected_lineage_exclusions]; the state is [seen] and
    [expected]. *)
Definition project_ancestor (candidate_ref : StoredDataRef)
  (st : list (StoredDataRef * StoredDataRef) * list LineageExclusion)
  (ancestor : StoredDataRef)
  : list (StoredDataRef * StoredDataRef) * list LineageExclusion :=
  let pair := (ancestor, candidate_ref) in
  if mem pair st.1 then st
  else (pair :: st.1, st.2 ++ [mkExclusion ancestor candidate_ref]).

(** One match of [_expected_lineage_exclusions], with the lineage port's
    [ancestors] in the result's universe. *)
Definition project_match (ancestors : StoredDataRef -> result (list StoredDataRef))
  (considered used : list StoredDataRef) (trigger : StoredDataRef)
  (st : list (StoredDataRef * StoredDataRef) * list LineageExclusion)
  (match_ : SuccessfulMatchPair)
  : result (list (StoredDataRef * StoredDataRef) * list LineageExclusion) :=
  let up := upstream_ref match_ in
  let down := downstream_ref match_ in
  let! candidate_ref :=
    if eqb up trigger && neqb down trigger then Ok down
    else if eqb down trigger && neqb up trigger then Ok up
    else Err (ValueError "CHAINING_LINEAGE_RESOLUTION_INVALID") in
  let! ancs := ancestors candidate_ref in
  raise_if has_duplicates ancs
           || existsb (fun a => eqb a candidate_ref || negb (mem a considered)) ancs
    with "CHAINING_LINEAGE_RESOLUTION_INVALID" ;;
  raise_if existsb (fun a => mem a used) ancs with "CHAINING_LINEAGE_REUSED_ANCESTOR" ;;
  Ok (fold_left (project_ancestor candidate_ref) ancs st).

Definition _expected_lineage_exclusions
  (ancestors : StoredDataRef -> result (list StoredDataRef))
  (considered used : list StoredDataRef) (trigger : StoredDataRef)
  (matches : list SuccessfulMatchPair) : result (list LineageExclusion) :=
  let! st := fold_result (project_match ancestors considered used trigger) ([], []) matches in
  Ok st.2.

(** [contracts/_domain.py]: [unique] and [exact_set], over the canonical keys
    of the values. *)
Definition unique (keys : list string) (code : string) : result unit :=
  raise_if has_duplicates keys with code ;; Ok tt.

Definition exact_set (actual expected : list string) : result unit :=
  do! unique actual "DUPLICATE_REFERENCE" ;;
  raise_if negb (forallb (fun k => mem k expected) actual
                 && forallb (fun k => mem k actual) expected)
    with "RECORD_REVISION_MISMATCH: exact set closure" ;;
  Ok tt.

Definition exclusion_json (e : LineageExclusion) : json :=
  JObj [("excluded_primitive_ref", ref_json (excluded_primitive_ref e));
        ("excluded_by_ref", ref_json (excluded_by_ref e));
        ("reason_code", JStr "ANCESTOR_REUSE")].

(** [canonical_bytes(exclusion)] *)
Definition exclusion_key (e : LineageExclusion) : string := _encode (exclusion_json e).

#[export] Instance exclusion_key_inj : Inj (=) (=) exclusion_key.
Proof.
  intros [[a b c d e f] [g h i j k l]] [[a' b' c' d' e' f'] [g' h' i' j' k' l']] H.
  apply encode_canon in H. cbn in H. destruct f, f', l, l'; simpl in H; congruence.
Qed.
#[local] Opaque exclusion_key.

(** ** Ancestry *)

Section ancestry.
Context (recursion_limit : nat) (resolve : StoredDataRef -> result LineageNode).
Context (analysis_id : string).

Local Abbreviation node_of := (resolve_node resolve).
Local Abbreviation lineage_of := (lineage recursion_limit resolve analysis_id).

(** [p] is a parent of [r]; [a] is a proper ancestor of [r]. *)
Definition parent_of (r p : StoredDataRef) : Prop :=
  exists node, node_of r = Ok node /\ p ∈ n_parent_primitive_refs node.
Definition ancestor_of : StoredDataRef -> StoredDataRef -> Prop := tc parent_of.

(** [r] resolves to a node the traversal from [root] accepts. *)
Definition sound_node (root : LineageNode) (r : StoredDataRef) : Prop :=
  exists node, node_of r = Ok node /\ _validate_node node r root analysis_id = Ok tt.

(** Every parent of a listed reference is listed before it. *)
Definition parents_first (l : list StoredDataRef) : Prop :=
  forall l1 x l2, l = l1 ++ x :: l2 -> forall p, parent_of x p -> p ∈ l1.

Lemma key_elem r l : _key r ∈ map _key l <-> r ∈ l.
Proof.
  rewrite list_elem_of_fmap. split.
  - intros (x & Hx & Hin). apply (inj _key) in Hx. subst. exact Hin.
  - eauto.
Qed.

Lemma parents_first_nil : parents_first [].
Proof. intros [] x l2; discriminate. Qed.

Lemma parents_first_snoc l x :
  parents_first l -> (forall p, parent_of x p -> p ∈ l) -> parents_first (l ++ [x]).
Proof.
  intros Hl Hx l1 y l2 Heq p Hp.
  destruct l2 as [| z l2 _] using rev_ind.
  - apply app_inj_tail in Heq. destruct Heq as [-> ->]. auto.
  - rewrite app_comm_cons, app_assoc in Heq. apply app_inj_tail in Heq.
    destruct Heq as [-> _]. exact (Hl _ _ _ eq_refl p Hp).
Qed.

Lemma parents_first_closed l x p :
  parents_first l -> x ∈ l -> parent_of x p -> p ∈ l.
Proof.
  intros Hl Hx Hp. apply list_elem_of_split in Hx. destruct Hx as (l1 & l2 & ->).
  apply elem_of_app. left. eauto.
Qed.

Lemma parents_first_ancestors l x a :
  parents_first l -> x ∈ l -> ancestor_of x a -> a ∈ l.
Proof.
  intros Hl Hx Ha. induction Ha as [x p Hp | x p a Hp _ IH];
    eauto using parents_first_closed.
Qed.

(** Such a list is a witness that its references are not their own ancestors. *)
Lemma parents_first_acyclic l x :
  parents_first l -> x ∈ l -> ~ ancestor_of x x.
Proof.
  intros Hl Hx Hc. apply list_elem_of_split_l in Hx. destruct Hx as (l1 & l2 & -> & Hout).
  apply Hout. assert (Hl1 : parents_first l1).
  { intros a y b -> p Hp. apply (Hl a y (b ++ x :: l2)); [| exact Hp].
    rewrite <- app_assoc. reflexivity. }
  inversion Hc as [? ? Hp | ? p ? Hp Ha]; subst.
  - exact (Hl _ _ _ eq_refl x Hp).
  - apply (parents_first_ancestors l1 p); auto. exact (Hl _ _ _ eq_refl p Hp).
Qed.

(** What a returning [visit] has done to its state. *)
Definition visited (root : LineageNode) (active : list string) (r : StoredDataRef)
  (st st' : list string * list StoredDataRef) : Prop :=
  exists l, st'.2 = st.2 ++ l /\ st'.1 = map _key st'.2 /\ NoDup st'.2
    /\ parents_first st'.2
    /\ Forall (sound_node root) st'.2
    /\ Forall (fun x => ancestor_of r x /\ _key x ∉ active) l.

Definition good_state (root : LineageNode) (st : list string * list StoredDataRef) : Prop :=
  st.1 = map _key st.2 /\ NoDup st.2 /\ parents_first st.2 /\ Forall (sound_node root) st.2.

Lemma visited_good root active r st st' :
  visited root active r st st' -> good_state root st'.
Proof. intros (l & _ & Hk & Hnd & Hpf & Hs & _). exact (conj Hk (conj Hnd (conj Hpf Hs))). Qed.

Lemma visited_self root active r st : good_state root st -> visited root active r st st.
Proof. intros (? & ? & ? & ?). exists []. rewrite app_nil_r. auto 10. Qed.

Lemma visited_mono root active r st st' x : visited root active r st st' -> x ∈ st.2 -> x ∈ st'.2.
Proof. intros (l & -> & _) Hx. apply elem_of_app. auto. Qed.

(** Visiting a parent's own ancestry extends the visit of its child. *)
Lemma visited_parent root active r p st st1 st2 :
  parent_of r p -> visited root (_key r :: active) r st st1 ->
  visited root (_key p :: _key r :: active) p st1 st2 ->
  visited root (_key r :: active) r st st2.
Proof.
  intros Hp (l1 & Heq1 & _ & _ & _ & _ & Hl1) (l2 & Heq2 & Hk & Hnd & Hpf & Hs & Hl2).
  exists (l1 ++ l2). rewrite Heq2, Heq1, app_assoc in *. repeat split; auto.
  apply Forall_app. split; [exact Hl1 |]. eapply Forall_impl; [exact Hl2 |]. simpl.
  intros x [Hx Hout]. split; [eapply tc_l; eauto | set_solver].
Qed.

(** So does listing the parent once its own parents are listed. *)
Lemma visited_snoc root active r p st st1 :
  parent_of r p -> _key p ∉ _key r :: active -> sound_node root p ->
  (forall q, parent_of p q -> q ∈ st1.2) -> _key p ∉ st1.1 ->
  visited root (_key r :: active) r st st1 ->
  visited root (_key r :: active) r st (st1.1 ++ [_key p], st1.2 ++ [p]).
Proof.
  intros Hp Hout Hsound Hparents Hnew (l & Heq & Hk & Hnd & Hpf & Hs & Hl).
  rewrite Hk, key_elem in Hnew. exists (l ++ [p]). cbn [fst snd]. repeat split.
  - rewrite Heq, app_assoc. reflexivity.
  - rewrite map_app, Hk. reflexivity.
  - apply NoDup_app. split; [exact Hnd |]. split; [| apply NoDup_singleton]. set_solver.
  - apply parents_first_snoc; auto.
  - apply Forall_app. auto.
  - apply Forall_app. split; [exact Hl |]. constructor; [| constructor].
    split; [apply tc_once; exact Hp | exact Hout].
Qed.

Lemma visit_Ok root fuel : forall active st r st',
  good_state root st ->
  visit resolve analysis_id fuel root active st r = Ok st' ->
  visited root (_key r :: active) r st st' /\ sound_node root r /\ (_key r ∉ active)
  /\ (forall p, parent_of r p -> p ∈ st'.2).
Proof.
  induction fuel as [| fuel IH]; intros active st r st' Hst Hv; [discriminate |].
  cbn [visit] in Hv. apply raise_if_Ok in Hv. destruct Hv as [Hact Hv].
  apply mem_false in Hact. destruct (mem (_key r) st.1) eqn:Hseen.
  { injection Hv as <-. apply mem_true in Hseen. destruct Hst as (Hk & Hnd & Hpf & Hs).
    rewrite Hk in Hseen. apply key_elem in Hseen. pose proof Hs as Hs'.
    rewrite Forall_forall in Hs'. split; [apply visited_self; exact (conj Hk (conj Hnd (conj Hpf Hs))) |].
    split; [auto |]. split; [exact Hact |]. intros p. apply parents_first_closed; assumption. }
  apply rbind_Ok in Hv. destruct Hv as (node & Hnode & Hv).
  apply rbind_Ok in Hv. destruct Hv as ([] & Hval & Hv).
  assert (Hpar : forall p, p ∈ n_parent_primitive_refs node <-> parent_of r p).
  { intros p. split; [intros Hp; exists node; auto |].
    intros (node' & Hnode' & Hp). congruence. }
  enough (visited root (_key r :: active) r st st'
          /\ forall p, p ∈ n_parent_primitive_refs node \/ p ∈ st.2 -> p ∈ st'.2) as [Hv' Hall].
  { split; [exact Hv' |]. split; [exists node; auto |]. split; [exact Hact |].
    intros p Hp. apply Hall. left. apply Hpar, Hp. }
  assert (Hps : forall p, p ∈ n_parent_primitive_refs node -> parent_of r p) by apply Hpar.
  clear Hnode Hval Hpar. pose proof (visited_self root (_key r :: active) r st Hst) as Hv0.
  revert Hps Hv0 Hv. generalize st at 2 3 5 as st0.
  induction (n_parent_primitive_refs node) as [| p ps IHps]; intros st0 Hps Hv0 Hf.
  { injection Hf as <-. split; [exact Hv0 |]. intros p [Hp | Hp]; [inversion Hp | exact Hp]. }
  cbn [fold_result] in Hf. apply rbind_Ok in Hf. destruct Hf as (st1 & Hb & Hf).
  apply raise_if_Ok in Hb. destruct Hb as [_ Hb].
  apply rbind_Ok in Hb. destruct Hb as (st2 & Hrec & Hb).
  assert (Hp : parent_of r p) by (apply Hps; left).
  apply IH in Hrec; [| eapply visited_good; eauto].
  destruct Hrec as (Hv2 & Hsp & Hpact & Hpp).
  pose proof (visited_parent _ _ _ _ _ _ _ Hp Hv0 Hv2) as Hv2'.
  assert (Hst1 : visited root (_key r :: active) r st st1 /\ p ∈ st1.2).
  { destruct (mem (_key p) st2.1) eqn:Hm; injection Hb as <-.
    - apply mem_true in Hm. destruct (visited_good _ _ _ _ _ Hv2') as (Hk & _).
      rewrite Hk in Hm. apply key_elem in Hm. auto.
    - apply mem_false in Hm. split; [apply visited_snoc; auto |]. apply elem_of_app. right. left. }
  destruct Hst1 as (Hv1 & Hin).
  destruct (IHps st1 (fun q Hq => Hps q (list_elem_of_further _ _ _ Hq)) Hv1 Hf) as (Hv' & Hall).
  split; [exact Hv' |]. intros q [Hq | Hq].
  - apply elem_of_cons in Hq. destruct Hq as [-> | Hq]; auto.
  - apply Hall. right. pose proof (visited_mono _ _ _ _ _ q Hv2 Hq) as Hq2.
    destruct (mem (_key p) st2.1); injection Hb as <-; [exact Hq2 |]. apply elem_of_app. auto.
Qed.

(** [x] resolves to a node in the scope of the traversal from [r]. *)
Definition in_scope (r x : StoredDataRef) : Prop :=
  exists root, node_of r = Ok root /\ sound_node root x.

Lemma lineage_Ok r l :
  lineage_of r = Ok l ->
  NoDup (l_ancestors l) /\ parents_first (l_ancestors l)
  /\ l_depth l = Z.of_nat (length (l_ancestors l))
  /\ (forall a, a ∈ l_ancestors l <-> ancestor_of r a)
  /\ (forall x, rtc parent_of r x -> in_scope r x /\ ~ ancestor_of x x).
Proof.
  unfold lineage. intros Hl. apply rbind_Ok in Hl. destruct Hl as (x & E & Hl).
  apply rbind_Ok in Hl. destruct Hl as ([] & E0 & Hl).
  apply rbind_Ok in Hl. destruct Hl as ([seen ordered] & E1 & Hl). injection Hl as <-.
  apply visit_Ok in E1; [| split; [reflexivity | split; [constructor |]];
                           split; [exact parents_first_nil | constructor]].
  destruct E1 as ((l & Heq & _ & Hnd & Hpf & Hs & Hl) & Hsound & _ & Hpar). simpl in *. subst l.
  assert (Hself : r ∉ ordered).
  { intros Hin. rewrite Forall_forall in Hl. destruct (Hl r Hin) as [_ Hk]. set_solver. }
  assert (Hfilter : filter (fun item => _key item <> _key r) ordered = ordered).
  { apply filter_id. apply Forall_forall. intros y Hy Hk.
    apply (inj _key) in Hk. congruence. }
  rewrite Hfilter. simpl. split; [exact Hnd |]. split; [exact Hpf |]. split; [reflexivity |].
  assert (Hanc : forall a, ancestor_of r a -> a ∈ ordered).
  { intros a Ha. inversion Ha as [? ? Hp | ? p ? Hp Ha']; subst; [auto |].
    apply (parents_first_ancestors ordered p); auto. }
  split.
  - intros a. split; [| apply Hanc]. intros Ha. rewrite Forall_forall in Hl.
    exact (proj1 (Hl a Ha)).
  - intros y Hy. apply rtc_tc in Hy. rewrite Forall_forall in Hs.
    destruct Hy as [<- | Hy].
    + split; [exists x; auto | auto].
    + split; [exists x; auto |]. apply (parents_first_acyclic ordered); auto.
Qed.

Lemma validate_node_Err node r root e :
  _validate_node node r root analysis_id = Err e -> e <> RecursionError.
Proof.
  unfold _validate_node, require_record_ref. intros H.
  repeat (case_match; simpl in H; try congruence).
Qed.

(** A traversal that raises has met a reference out of scope or a cycle, or the
    interpreter's recursion limit. *)
Lemma visit_Err root fuel : forall active st r e,
  visit resolve analysis_id fuel root active st r = Err e ->
  e = RecursionError
  \/ exists x, rtc parent_of r x
       /\ (~ sound_node root x \/ _key x ∈ active \/ ancestor_of x x).
Proof.
  induction fuel as [| fuel IH]; intros active st r e Hv; [simpl in Hv; left; congruence |].
  cbn [visit] in Hv. destruct (mem (_key r) active) eqn:Hact.
  { right. exists r. apply mem_true in Hact. split; [constructor | auto]. }
  destruct (mem (_key r) st.1); [discriminate |].
  destruct (node_of r) as [node | e'] eqn:Hnode; simpl in Hv.
  2:{ right. exists r. split; [constructor |]. left. intros (n & Hn & _). congruence. }
  destruct (_validate_node node r root analysis_id) as [[] | e'] eqn:Hval; simpl in Hv.
  2:{ right. exists r. split; [constructor |]. left. intros (n & Hn & Hok). congruence. }
  apply fold_result_Err in Hv. destruct Hv as (st0 & p & Hp & Hv).
  assert (Hparent : parent_of r p) by (exists node; auto).
  destruct (eqb p r) eqn:Hself.
  { apply bool_decide_eq_true in Hself. subst p. right. exists r.
    split; [constructor |]. right. right. apply tc_once. exact Hparent. }
  destruct (visit resolve analysis_id fuel root (_key r :: active) st0 p) as [st1 | e1] eqn:Hrec;
    [discriminate |]. simpl in Hv. injection Hv as ->.
  apply IH in Hrec. destruct Hrec as [-> | (x & Hx & Hbad)]; [auto |]. right.
  destruct Hbad as [Hbad | [Hbad | Hbad]]; [| apply elem_of_cons in Hbad; destruct Hbad as [Hbad | Hbad] |].
  - exists x. split; [eapply rtc_l; eauto | auto].
  - apply (inj _key) in Hbad. subst x. exists r. split; [constructor |].
    right. right. eapply tc_rtc_r; [apply tc_once, Hparent | exact Hx].
  - exists x. split; [eapply rtc_l; eauto | auto].
  - exists x. split; [eapply rtc_l; eauto | auto].
Qed.

Section finite_universe.
Context (universe : list StoredDataRef).
Hypothesis resolve_universe : forall r node, resolve r = Ok node -> r ∈ universe.
Hypothesis resolve_shallow : forall r, resolve r <> Err RecursionError.

Lemma node_of_universe r node : node_of r = Ok node -> r ∈ universe.
Proof.
  unfold resolve_node. intros H. apply (resolve_universe r node).
  destruct (resolve r) as [| []]; congruence.
Qed.

Lemma node_of_shallow r : node_of r <> Err RecursionError.
Proof.
  unfold resolve_node. pose proof (resolve_shallow r).
  destruct (resolve r) as [| []]; congruence.
Qed.

Lemma visit_shallow root fuel : forall active st r,
  NoDup active -> (forall k, k ∈ active -> k ∈ map _key universe) ->
  (length universe < fuel + length active)%nat ->
  visit resolve analysis_id fuel root active st r <> Err RecursionError.
Proof.
  induction fuel as [| fuel IH]; intros active st r Hnd Hsub Hlen Hv.
  { assert (Hle : (length active <= length (map _key universe))%nat)
      by (apply submseteq_length, NoDup_submseteq; assumption).
    rewrite length_map in Hle. lia. }
  cbn [visit] in Hv. destruct (mem (_key r) active) eqn:Hact; [discriminate |].
  apply mem_false in Hact. destruct (mem (_key r) st.1); [discriminate |].
  destruct (node_of r) as [node | e'] eqn:Hnode; simpl in Hv.
  2:{ injection Hv as ->. exact (node_of_shallow _ Hnode). }
  destruct (_validate_node node r root analysis_id) as [[] | e'] eqn:Hval; simpl in Hv.
  2:{ injection Hv as ->. exact (validate_node_Err _ _ _ _ Hval eq_refl). }
  apply fold_result_Err in Hv. destruct Hv as (st0 & p & Hp & Hv).
  destruct (eqb p r); [discriminate |].
  destruct (visit resolve analysis_id fuel root (_key r :: active) st0 p) as [st1 | e1] eqn:Hrec;
    [discriminate |]. simpl in Hv. injection Hv as ->. revert Hrec. apply IH.
  - constructor; assumption.
  - intros k Hk. apply elem_of_cons in Hk. destruct Hk as [-> | Hk]; [| auto].
    apply list_elem_of_fmap_2, (node_of_universe r node), Hnode.
  - simpl. lia.
Qed.

(** C36. The lineage of a primitive is computed exactly and always terminates: it
    is the duplicate-free list of the proper ancestors, each after its own
    parents, with its length as depth; and the traversal fails exactly on a
    reference out of scope or on a cycle, never on the recursion, when the
    resolvable references are fewer than the interpreter's frames. *)
Theorem lineage_correct r :
  (length universe < recursion_limit)%nat ->
  match lineage_of r with
  | Ok l => NoDup (l_ancestors l) /\ parents_first (l_ancestors l)
            /\ l_depth l = Z.of_nat (length (l_ancestors l))
            /\ (forall a, a ∈ l_ancestors l <-> ancestor_of r a)
            /\ (forall x, rtc parent_of r x -> in_scope r x /\ ~ ancestor_of x x)
  | Err e => e <> RecursionError
             /\ exists x, rtc parent_of r x /\ (~ in_scope r x \/ ancestor_of x x)
  end.
Proof.
  intros Hlen. destruct (lineage_of r) as [l | e] eqn:Hl; [apply lineage_Ok, Hl |].
  unfold lineage in Hl. destruct (node_of r) as [root | e'] eqn:Hroot; simpl in Hl.
  2:{ injection Hl as ->. split; [intros ->; exact (node_of_shallow _ Hroot) |].
      exists r. split; [constructor |]. left. intros (n & Hn & _). congruence. }
  destruct (_validate_node root r root analysis_id) as [[] | e'] eqn:Hval; simpl in Hl.
  2:{ injection Hl as ->. split; [exact (validate_node_Err _ _ _ _ Hval) |].
      exists r. split; [constructor |]. left. intros (n & Hn & n' & Hn' & Hok). congruence. }
  destruct (visit _ _ _ _ _ _ _) as [st | e'] eqn:Hv; [discriminate |]. injection Hl as ->.
  assert (Hne : e <> RecursionError).
  { intros ->. revert Hv. apply visit_shallow; simpl; [constructor | set_solver | lia]. }
  split; [exact Hne |]. apply visit_Err in Hv. destruct Hv as [-> | (x & Hx & Hbad)]; [congruence |].
  exists x. split; [exact Hx |]. destruct Hbad as [Hbad | [Hbad | Hbad]]; [left | set_solver | auto].
  intros (n & Hn & Hok). congruence.
Qed.
End finite_universe.

(** ** Deepest first *)

(** An ancestor's own lineage is shorter. *)
Lemma depth_lt c l a la :
  lineage_of c = Ok l -> lineage_of a = Ok la -> ancestor_of c a -> l_depth la < l_depth l.
Proof.
  intros Hl Hla Ha. apply lineage_Ok in Hl, Hla.
  destruct Hl as (Hnd & _ & -> & Hanc & _). destruct Hla as (Hnda & _ & -> & Hanca & Hrefl).
  assert (Hle : (length (a :: l_ancestors la) <= length (l_ancestors l))%nat).
  { apply submseteq_length, NoDup_submseteq.
    - constructor; [| exact Hnda]. rewrite Hanca. apply Hrefl. constructor.
    - intros x Hx. apply Hanc. apply elem_of_cons in Hx. destruct Hx as [-> | Hx]; [exact Ha |].
      apply Hanca in Hx. etransitivity; eauto. }
  simpl in Hle. lia.
Qed.

Lemma rank_leb_total x y : rank_leb x y = true \/ rank_leb y x = true.
Proof.
  destruct x as [[d i] r], y as [[d' i'] r']. unfold rank_leb.
  destruct (str_leb_total i i') as [H | H]; rewrite H;
    destruct (Z.lt_trichotomy d d') as [Hd | [Hd | Hd]]; [right | left | left | right | right | left];
    rewrite orb_true_iff, ?andb_true_iff, ?Z.ltb_lt, ?Z.eqb_eq; auto.
Qed.

Lemma rank_leb_trans x y z :
  rank_leb x y = true -> rank_leb y z = true -> rank_leb x z = true.
Proof.
  destruct x as [[d i] r], y as [[d' i'] r'], z as [[d0 i0] r0]. unfold rank_leb.
  rewrite !orb_true_iff, !andb_true_iff, !Z.ltb_lt, !Z.eqb_eq.
  intros [H1 | [H1 H1']] [H2 | [H2 H2']]; try (left; lia).
  right. split; [lia |]. eapply str_leb_trans; eauto.
Qed.

(** Ordering deepest first is a permutation in which depths never increase
    and no reference precedes one of its descendants. *)
Theorem order_deepest_first_correct refs out :
  order_deepest_first recursion_limit resolve analysis_id refs = Ok out ->
  out ≡ₚ refs
  /\ StronglySorted
       (fun a b => (exists la lb, lineage_of a = Ok la /\ lineage_of b = Ok lb
                                  /\ l_depth lb <= l_depth la)
                   /\ ~ ancestor_of b a) out.
Proof.
  unfold order_deepest_first. intros Ho. apply raise_if_Ok in Ho. destruct Ho as [_ Ho].
  apply rbind_Ok in Ho. destruct Ho as (ranked & Hr & Ho). injection Ho as <-.
  apply map_result_Forall2 in Hr.
  assert (Hmap : map snd ranked = refs
                 /\ Forall (fun e => exists l, lineage_of e.2 = Ok l /\ e.1.1 = l_depth l) ranked).
  { induction Hr as [| ref e refs ranked He _ [IH IH']]; [split; constructor |].
    apply rbind_Ok in He. destruct He as (l & Hl & He).
    apply rbind_Ok in He. destruct He as (id & _ & He). injection He as <-.
    simpl. split; [congruence |]. constructor; eauto. }
  destruct Hmap as [<- Hwf]. split; [apply Permutation_map, sort_by_perm |].
  eapply (StronglySorted_map _ _ _ snd).
  - apply sort_by_sorted; [exact rank_leb_total | exact rank_leb_trans].
  - rewrite sort_by_perm. exact Hwf.
  - intros [[d i] a] [[d' i'] b] (la & Hla & Hda) (lb & Hlb & Hdb) Hle. simpl in *. subst.
    unfold rank_leb in Hle. boolify. assert (l_depth lb <= l_depth la) by lia.
    split; [eauto 10 |]. intros Ha. pose proof (depth_lt _ _ _ _ Hlb Hla Ha). lia.
Qed.

(** ** Successful matches *)

Section matches.
Context (considered_refs : list StoredDataRef) (trigger_ref : StoredDataRef).

Local Abbreviation cand := (fun pair => _candidate_ref pair (_key trigger_ref)).
Local Abbreviation considered := (map _key considered_refs).
Local Abbreviation retain :=
  (retain_deepest_successful_matches recursion_limit resolve analysis_id considered_refs trigger_ref).

(** A pair of two considered references, one of them the trigger. *)
Definition valid_pair (p : SuccessfulMatchPair) : Prop :=
  upstream_ref p <> downstream_ref p
  /\ (upstream_ref p = trigger_ref \/ downstream_ref p = trigger_ref)
  /\ upstream_ref p ∈ considered_refs /\ downstream_ref p ∈ considered_refs.

Lemma candidate_cases p :
  upstream_ref p = trigger_ref /\ cand p = downstream_ref p
  \/ upstream_ref p <> trigger_ref /\ cand p = upstream_ref p.
Proof.
  unfold _candidate_ref. case_bool_decide as Hk; [left | right]; split; auto.
  - exact (inj _key _ _ Hk).
  - congruence.
Qed.

Lemma candidate_not_trigger p : valid_pair p -> cand p <> trigger_ref.
Proof.
  intros (Hne & Htr & _). destruct (candidate_cases p) as [[H ->] | [H ->]]; congruence.
Qed.

Definition ranks (e : Ranked) : Prop :=
  exists l ci ui di,
    lineage_of (cand (k_pair e)) = Ok l /\ e = mkRanked (l_depth l) [ci; ui; di] (k_pair e)
    /\ _record_id (cand (k_pair e)) = Ok ci
    /\ _record_id (upstream_ref (k_pair e)) = Ok ui
    /\ _record_id (downstream_ref (k_pair e)) = Ok di.

Lemma rank_pair_Ok st p st' :
  rank_pair recursion_limit resolve analysis_id considered (_key trigger_ref) st p = Ok st' ->
  valid_pair p /\ ((_key (upstream_ref p), _key (downstream_ref p)) ∉ st.1)
  /\ st'.1 = st.1 ++ [(_key (upstream_ref p), _key (downstream_ref p))]
  /\ exists e, st'.2 = st.2 ++ [e] /\ k_pair e = p /\ ranks e.
Proof.
  unfold rank_pair. intros Hr. apply raise_if_Ok in Hr. destruct Hr as [Hg Hr].
  apply rbind_Ok in Hr. destruct Hr as (l & Hl & Hr).
  do 3 (apply rbind_Ok in Hr; destruct Hr as (? & ? & Hr)). injection Hr as <-. simpl.
  boolify. destruct Hg as [[[Hne Htr] [Hu Hd]] Hnew]. rewrite key_elem in Hu, Hd.
  rewrite elem_of_cons, elem_of_cons in Htr. split.
  - split; [congruence |]. split; [| auto].
    destruct Htr as [Hk | [Hk | Hk]]; [apply (inj _key) in Hk; auto .. | inversion Hk].
  - split; [exact Hnew |]. split; [reflexivity |]. eexists. split; [reflexivity |].
    split; [reflexivity |]. do 4 eexists. eauto.
Qed.

Lemma rank_pairs_Ok pairs : forall st st',
  fold_result (rank_pair recursion_limit resolve analysis_id considered (_key trigger_ref))
    st pairs = Ok st' ->
  Forall valid_pair pairs
  /\ exists new, st'.2 = st.2 ++ new /\ map k_pair new = pairs /\ Forall ranks new.
Proof.
  induction pairs as [| p pairs IH]; intros st st' Hf.
  { injection Hf as <-. split; [constructor |]. exists []. rewrite app_nil_r. auto. }
  simpl in Hf. apply rbind_Ok in Hf. destruct Hf as (st1 & Hp & Hf).
  apply rank_pair_Ok in Hp. destruct Hp as (Hv & _ & _ & e & He & Hpe & Hre).
  apply IH in Hf. destruct Hf as (Hvs & new & Hn & Hpn & Hrn).
  split; [constructor; assumption |]. exists (e :: new). rewrite Hn, He, <- app_assoc.
  simpl. split; [reflexivity |]. split; [congruence | constructor; assumption].
Qed.

Definition share_lineage (p q : SuccessfulMatchPair) : Prop := ancestor_of (cand p) (cand q).

(** The state of the second loop: [excluded] holds the ancestors of the
    retained candidates. *)
Definition retained_state (st : list string * list SuccessfulMatchPair) : Prop :=
  (forall k, k ∈ st.1 <-> exists p a, p ∈ st.2 /\ ancestor_of (cand p) a /\ k = _key a)
  /\ (forall p a, p ∈ st.2 -> ancestor_of (cand p) a -> a ∈ considered_refs /\ a <> trigger_ref).

Lemma exclude_ancestors_Ok (l : list StoredDataRef) : forall exc exc',
  fold_result (fun excluded ancestor_ref =>
                 let ancestor_key := _key ancestor_ref in
                 raise_if negb (mem ancestor_key considered)
                          || eqb ancestor_key (_key trigger_ref)
                   with "CHAINING_LINEAGE_INPUT_MISMATCH" ;;
                 Ok (ancestor_key :: excluded)) exc l = Ok exc' ->
  (forall k, k ∈ exc' <-> k ∈ exc \/ exists a, a ∈ l /\ k = _key a)
  /\ (forall a, a ∈ l -> a ∈ considered_refs /\ a <> trigger_ref).
Proof.
  induction l as [| a l IH]; intros exc exc' Hf.
  { injection Hf as <-. split; [set_solver | intros a Ha; inversion Ha]. }
  simpl in Hf. apply rbind_Ok in Hf. destruct Hf as (exc1 & Hb & Hf).
  apply raise_if_Ok in Hb. destruct Hb as [Hg Hb]. injection Hb as <-. boolify.
  rewrite key_elem in Hg. apply IH in Hf. destruct Hf as [Hk Hl]. split.
  - intros k. rewrite Hk, elem_of_cons. set_solver.
  - intros x Hx. apply elem_of_cons in Hx. destruct Hx as [-> | Hx]; [| auto].
    destruct Hg as [Hin Hne]. split; [exact Hin | congruence].
Qed.

Lemma retain_pair_Ok st p st' :
  retained_state st ->
  retain_pair recursion_limit resolve analysis_id considered (_key trigger_ref) st p = Ok st' ->
  retained_state st'
  /\ (st' = st /\ (exists q, q ∈ st.2 /\ share_lineage q p)
      \/ st'.2 = st.2 ++ [p] /\ Forall (fun q => ~ share_lineage q p) st.2).
Proof.
  intros [Hexc Hcon] Hr. unfold retain_pair in Hr.
  assert (Hck : (if eqb (_key (upstream_ref p)) (_key trigger_ref)
                 then _key (downstream_ref p) else _key (upstream_ref p)) = _key (cand p))
    by (unfold _candidate_ref; case_bool_decide; reflexivity).
  rewrite Hck in Hr. destruct (mem (_key (cand p)) st.1) eqn:Hm.
  { injection Hr as <-. split; [split; assumption |]. left. split; [reflexivity |].
    apply mem_true, Hexc in Hm. destruct Hm as (q & a & Hq & Ha & Hk).
    apply (inj _key) in Hk. subst a. exists q. auto. }
  apply mem_false in Hm. apply rbind_Ok in Hr. destruct Hr as (l & Hl & Hr).
  apply rbind_Ok in Hr. destruct Hr as (exc' & Hf & Hr). injection Hr as <-.
  apply exclude_ancestors_Ok in Hf. destruct Hf as [Hk Hnew].
  apply lineage_Ok in Hl. destruct Hl as (_ & _ & _ & Hanc & _). split.
  - split; simpl.
    + intros k. rewrite Hk, Hexc. split.
      * intros [(q & a & Hq & Ha & ->) | (a & Ha & ->)].
        -- exists q, a. rewrite elem_of_app. auto.
        -- exists p, a. rewrite elem_of_app, <- Hanc. split; [right; left | auto].
      * intros (q & a & Hq & Ha & ->). apply elem_of_app in Hq. destruct Hq as [Hq | Hq].
        -- left. eauto.
        -- apply list_elem_of_singleton in Hq. subst q. right. exists a. rewrite Hanc. auto.
    + intros q a Hq Ha. apply elem_of_app in Hq. destruct Hq as [Hq | Hq]; [eauto |].
      apply list_elem_of_singleton in Hq. subst q. apply Hnew, Hanc, Ha.
  - right. split; [reflexivity |]. apply Forall_forall. intros q Hq Hs. apply Hm, Hexc.
    exists q, (cand p). auto.
Qed.

Lemma retain_pairs_Ok pairs : forall st st',
  retained_state st ->
  fold_result (retain_pair recursion_limit resolve analysis_id considered (_key trigger_ref))
    st pairs = Ok st' ->
  retained_state st'
  /\ (forall p, p ∈ st.2 -> p ∈ st'.2)
  /\ (forall p, p ∈ st'.2 -> p ∈ st.2 \/ p ∈ pairs)
  /\ (forall p, p ∈ pairs -> p ∈ st'.2 \/ exists q, q ∈ st'.2 /\ share_lineage q p)
  /\ (forall (R : SuccessfulMatchPair -> SuccessfulMatchPair -> Prop),
        StronglySorted R (st.2 ++ pairs) -> StronglySorted R st'.2)
  /\ (StronglySorted (fun p q => ~ share_lineage p q) st.2 ->
      StronglySorted (fun p q => ~ share_lineage p q) st'.2).
Proof.
  induction pairs as [| p pairs IH]; intros st st' Hst Hf.
  { injection Hf as <-. split; [exact Hst |]. repeat split; auto.
    - intros p Hp. inversion Hp.
    - intros R. rewrite app_nil_r. auto. }
  simpl in Hf. apply rbind_Ok in Hf. destruct Hf as (st1 & Hp & Hf).
  apply retain_pair_Ok in Hp; [| exact Hst]. destruct Hp as [Hst1 Hcase].
  apply IH in Hf; [| exact Hst1]. destruct Hf as (Hst' & Hmono & Hin & Hall & Hsort & Hanti).
  split; [exact Hst' |]. destruct Hcase as [[-> (q & Hq & Hs)] | [Heq Hout]].
  - split; [exact Hmono |]. split; [| split; [| split; [| exact Hanti]]].
    + intros x Hx. apply Hin in Hx. rewrite elem_of_cons. tauto.
    + intros x Hx. apply elem_of_cons in Hx. destruct Hx as [-> | Hx]; eauto.
    + intros R HR. apply Hsort. apply (StronglySorted_drop R st.2 p pairs), HR.
  - rewrite Heq in *. split; [| split; [| split; [| split]]].
    + intros x Hx. apply Hmono, elem_of_app. auto.
    + intros x Hx. apply Hin in Hx. rewrite elem_of_app, list_elem_of_singleton in Hx.
      rewrite elem_of_cons. tauto.
    + intros x Hx. apply elem_of_cons in Hx. destruct Hx as [-> | Hx]; [| auto].
      left. apply Hmono, elem_of_app. right. left.
    + intros R HR. apply Hsort. rewrite <- app_assoc. exact HR.
    + intros HR. apply Hanti, StronglySorted_snoc; assumption.
Qed.

Lemma strs_leb_total xs : forall ys, strs_leb xs ys = true \/ strs_leb ys xs = true.
Proof.
  induction xs as [| x xs IH]; intros [| y ys]; simpl; auto.
  destruct (decide (x = y)) as [-> | Hne].
  - rewrite bool_decide_true by reflexivity. apply IH.
  - rewrite !bool_decide_false by congruence. apply str_leb_total.
Qed.

Lemma strs_leb_trans xs : forall ys zs,
  strs_leb xs ys = true -> strs_leb ys zs = true -> strs_leb xs zs = true.
Proof.
  induction xs as [| x xs IH]; intros [| y ys] [| z zs] H1 H2; simpl in *; auto; try discriminate.
  repeat case_bool_decide; subst; try congruence; eauto using str_leb_trans.
  exfalso. match goal with H : _ <> _ |- _ => apply H end. apply str_leb_antisym; assumption.
Qed.

Lemma ranked_leb_total x y : ranked_leb x y = true \/ ranked_leb y x = true.
Proof.
  unfold ranked_leb. rewrite !orb_true_iff, !andb_true_iff, !Z.ltb_lt, !Z.eqb_eq.
  destruct (strs_leb_total (k_ids x) (k_ids y)) as [H | H];
    destruct (Z.lt_trichotomy (k_depth x) (k_depth y)) as [Hd | [Hd | Hd]]; auto.
Qed.

Lemma ranked_leb_trans x y z :
  ranked_leb x y = true -> ranked_leb y z = true -> ranked_leb x z = true.
Proof.
  unfold ranked_leb. rewrite !orb_true_iff, !andb_true_iff, !Z.ltb_lt, !Z.eqb_eq.
  intros [H1 | [H1 H1']] [H2 | [H2 H2']]; try (left; lia).
  right. split; [lia |]. eapply strs_leb_trans; eauto.
Qed.

Lemma sorted_ranked_Ok ranked sorted :
  sorted_ranked ranked = Ok sorted -> Forall ranks ranked ->
  map k_pair sorted ≡ₚ map k_pair ranked
  /\ StronglySorted (fun p q => ~ share_lineage q p) (map k_pair sorted).
Proof.
  unfold sorted_ranked. destruct (has_duplicates _); [discriminate |]. intros [= <-] Hr.
  split; [apply Permutation_map, sort_by_perm |].
  apply (StronglySorted_map (fun x y => ranked_leb x y = true) ranks).
  - apply sort_by_sorted; [exact ranked_leb_total | exact ranked_leb_trans].
  - rewrite sort_by_perm. exact Hr.
  - intros x y (l & ? & ? & ? & Hl & -> & _) (l' & ? & ? & ? & Hl' & -> & _) Hle Hs. simpl in *.
    pose proof (depth_lt _ _ _ _ Hl' Hl Hs). unfold ranked_leb in Hle. simpl in Hle. boolify. lia.
Qed.

(** What a returning [retain_deepest_successful_matches] keeps. *)
Lemma retain_Ok pairs ret :
  retain pairs = Ok ret ->
  Forall valid_pair pairs
  /\ (forall p, p ∈ ret <->
        p ∈ pairs /\ ~ exists q, q ∈ pairs /\ share_lineage q p)
  /\ StronglySorted (fun p q => ~ share_lineage q p) ret
  /\ (forall p, p ∈ ret -> exists l, lineage_of (cand p) = Ok l)
  /\ (forall p a, p ∈ ret -> ancestor_of (cand p) a -> a ∈ considered_refs /\ a <> trigger_ref).
Proof.
  unfold retain_deepest_successful_matches. intros Hr.
  apply raise_if_Ok in Hr. destruct Hr as [_ Hr].
  apply rbind_Ok in Hr. destruct Hr as (st & Hrank & Hr). apply rank_pairs_Ok in Hrank.
  destruct Hrank as (Hvalid & new & Hnew & Hpairs & Hranks). simpl in Hnew. rewrite Hnew in Hr.
  apply rbind_Ok in Hr. destruct Hr as (sorted & Hsort & Hr).
  apply rbind_Ok in Hr. destruct Hr as (st' & Hret & Hr). injection Hr as <-.
  apply sorted_ranked_Ok in Hsort; [| exact Hranks]. destruct Hsort as [Hperm Hsort].
  rewrite Hpairs in Hperm.
  apply retain_pairs_Ok in Hret; [| split; set_solver].
  destruct Hret as ([Hexc Hcon] & _ & Hin & Hall & Hkeep & Hanti).
  specialize (Hkeep _ Hsort). specialize (Hanti ltac:(constructor)).
  assert (Hlin : forall p, p ∈ pairs -> exists l, lineage_of (cand p) = Ok l).
  { intros p. rewrite <- Hpairs, list_elem_of_fmap. intros (e & -> & He).
    rewrite Forall_forall in Hranks. destruct (Hranks e He) as (l & ? & ? & ? & Hl & _). eauto. }
  assert (Hsub : forall p, p ∈ st'.2 -> p ∈ pairs).
  { intros p Hp. rewrite <- Hperm. destruct (Hin p Hp) as [Hn | Hn]; [inversion Hn | exact Hn]. }
  assert (Hself : forall p, p ∈ pairs -> ~ share_lineage p p).
  { intros p Hp. destruct (Hlin p Hp) as [l Hl]. apply lineage_Ok in Hl.
    destruct Hl as (_ & _ & _ & _ & Hacyc). apply Hacyc. constructor. }
  assert (Hchain : forall p q, p ∈ st'.2 -> q ∈ st'.2 -> ~ share_lineage p q).
  { intros p q Hp Hq.
    destruct (StronglySorted_elem _ _ p q (StronglySorted_and _ _ _ Hanti Hkeep) Hp Hq)
      as [<- | [[] | []]]; auto. }
  split; [exact Hvalid |]. split; [| split; [exact Hkeep | split; [auto | exact Hcon]]].
  intros p. split.
  - intros Hp. split; [auto |]. intros (q & Hq & Hs). rewrite <- Hperm in Hq.
    destruct (Hall q Hq) as [Hq' | (q' & Hq' & Hs')]; [exact (Hchain _ _ Hq' Hp Hs) |].
    apply (Hchain q' p Hq' Hp). unfold share_lineage in *. etransitivity; eauto.
  - intros [Hp Hno]. rewrite <- Hperm in Hp. destruct (Hall p Hp) as [H | (q & Hq & Hs)]; [exact H |].
    exfalso. apply Hno. exists q. auto.
Qed.

(** Matches the retention can rank: distinct pairs of distinct considered
    primitives with distinct record ids, each candidate with a lineage inside
    the considered references and without the trigger. *)
Record usable_matches (pairs : list SuccessfulMatchPair) : Prop := {
  um_considered : NoDup considered_refs;
  um_trigger : trigger_ref ∈ considered_refs;
  um_pairs : NoDup pairs;
  um_valid : Forall valid_pair pairs;
  um_records : forall r, r ∈ considered_refs -> exists id, _record_id r = Ok id;
  um_distinct : forall r r', r ∈ considered_refs -> r' ∈ considered_refs ->
                  _record_id r = _record_id r' -> r = r';
  um_lineage : forall p, p ∈ pairs -> exists l, lineage_of (cand p) = Ok l;
  um_ancestors : forall p a, p ∈ pairs -> ancestor_of (cand p) a ->
                   a ∈ considered_refs /\ a <> trigger_ref;
}.

Definition pair_key (p : SuccessfulMatchPair) : string * string :=
  (_key (upstream_ref p), _key (downstream_ref p)).

#[local] Instance pair_key_inj : Inj (=) (=) pair_key.
Proof.
  intros [u d] [u' d'] Hk. apply pair_eq in Hk. destruct Hk as [Hu Hd]. simpl in *.
  apply (inj _key) in Hu, Hd. congruence.
Qed.

Lemma candidate_considered p : valid_pair p -> cand p ∈ considered_refs.
Proof.
  intros (_ & _ & Hu & Hd). destruct (candidate_cases p) as [[_ ->] | [_ ->]]; assumption.
Qed.

Lemma rank_pair_returns pairs st p :
  usable_matches pairs -> p ∈ pairs -> pair_key p ∉ st.1 ->
  exists e, rank_pair recursion_limit resolve analysis_id considered (_key trigger_ref) st p
            = Ok (st.1 ++ [pair_key p], st.2 ++ [e]).
Proof.
  intros Hu Hp Hnew. pose proof (um_valid _ Hu) as Hv. rewrite Forall_forall in Hv.
  pose proof (Hv p Hp) as Hvp. destruct Hvp as (Hne & Htr & Hup & Hdown).
  destruct (um_lineage _ Hu p Hp) as [l Hl].
  destruct (um_records _ Hu _ (candidate_considered p (Hv p Hp))) as [ci Hci].
  destruct (um_records _ Hu _ Hup) as [ui Hui]. destruct (um_records _ Hu _ Hdown) as [di Hdi].
  unfold rank_pair. rewrite bool_decide_false by (intros Hk; apply (inj _key) in Hk; auto).
  replace (mem (_key trigger_ref) _) with true.
  2:{ symmetry. apply mem_true. rewrite !elem_of_cons. destruct Htr as [-> | ->]; auto. }
  replace (mem _ considered && mem _ considered) with true.
  2:{ symmetry. rewrite andb_true_iff, !mem_true, !key_elem. auto. }
  replace (mem _ st.1) with false by (symmetry; apply mem_false; exact Hnew). simpl.
  rewrite Hl. simpl. rewrite Hci. simpl. rewrite Hui. simpl. rewrite Hdi. simpl. eauto.
Qed.

Lemma rank_pairs_return pairs : usable_matches pairs -> forall rest processed new,
  pairs = processed ++ rest ->
  exists st, fold_result (rank_pair recursion_limit resolve analysis_id considered
                            (_key trigger_ref)) (map pair_key processed, new) rest = Ok st.
Proof.
  intros Hu. induction rest as [| p rest IH]; intros processed new Heq; [eauto |].
  destruct (rank_pair_returns pairs (map pair_key processed, new) p) as [e He]; auto.
  - rewrite Heq, elem_of_app. right. left.
  - pose proof (um_pairs _ Hu) as Hnd. rewrite Heq in Hnd. apply NoDup_app in Hnd.
    destruct Hnd as (_ & Hdisj & _). simpl. rewrite list_elem_of_fmap.
    intros (q & Hk & Hq). apply (inj pair_key) in Hk. subst q. apply (Hdisj p Hq). left.
  - destruct (IH (processed ++ [p]) (new ++ [e])) as [st Hst];
      [rewrite <- app_assoc; exact Heq |].
    rewrite map_app in Hst. exists st. simpl fold_result. rewrite He. exact Hst.
Qed.

Lemma sorted_ranked_returns pairs ranked :
  usable_matches pairs -> map k_pair ranked = pairs -> Forall ranks ranked ->
  exists sorted, sorted_ranked ranked = Ok sorted.
Proof.
  intros Hu Hp Hr. unfold sorted_ranked.
  replace (has_duplicates _) with false; [eauto |]. symmetry. apply has_duplicates_false.
  assert (Hnd : NoDup (k_pair <$> ranked)) by (pose proof (um_pairs _ Hu); rewrite <- Hp in *; assumption).
  apply NoDup_fmap_2_strong; [| exact (NoDup_fmap_1 _ _ Hnd)].
  rewrite Forall_forall in Hr. pose proof (um_valid _ Hu) as Hv. rewrite Forall_forall in Hv.
  assert (Hin : forall e, e ∈ ranked -> valid_pair (k_pair e))
    by (intros e He; apply Hv; rewrite <- Hp; apply list_elem_of_fmap_2, He).
  intros x y Hx Hy Heq. pose proof (Hin x Hx) as (_ & _ & Hxu & Hxd).
  pose proof (Hin y Hy) as (_ & _ & Hyu & Hyd).
  destruct (Hr x Hx) as (l & c & u & d & _ & Hex & _ & Hu1 & Hd1).
  destruct (Hr y Hy) as (l' & c' & u' & d' & _ & Hey & _ & Hu2 & Hd2).
  rewrite Hex, Hey in Heq |- *. simpl in Heq. injection Heq as Hdep -> -> ->.
  f_equal; [exact Hdep |].
  destruct (k_pair x) as [xu xd], (k_pair y) as [yu yd]. simpl in *.
  f_equal; apply (um_distinct _ Hu); congruence.
Qed.

Lemma retain_pairs_return pairs ps st :
  usable_matches pairs -> (forall p, p ∈ ps -> p ∈ pairs) ->
  exists st', fold_result (retain_pair recursion_limit resolve analysis_id considered
                             (_key trigger_ref)) st ps = Ok st'.
Proof.
  intros Hu Hps.
  destruct (fold_result_total (fun _ => True)
              (retain_pair recursion_limit resolve analysis_id considered (_key trigger_ref)) st ps)
    as (st' & Hst' & _); [| exact I | eauto].
  intros st0 p Hp _. unfold retain_pair. destruct (mem _ st0.1); [eauto |].
  destruct (um_lineage _ Hu p (Hps p Hp)) as [l Hl]. rewrite Hl. simpl.
  match goal with |- context [fold_result ?f ?b ?xs] =>
    destruct (fold_result_total (fun _ => True) f b xs) as (exc & Hexc & _);
      [| exact I | rewrite Hexc; simpl; eauto] end.
  intros exc a Ha _. apply lineage_Ok in Hl. destruct Hl as (_ & _ & _ & Hanc & _).
  destruct (um_ancestors _ Hu p a (Hps p Hp)) as [Hin Hne]; [apply Hanc, Ha |].
  replace (mem (_key a) considered) with true by (symmetry; apply mem_true, key_elem; exact Hin).
  rewrite bool_decide_false by (intros Hk; apply (inj _key) in Hk; auto). simpl. eauto.
Qed.

Lemma retain_returns pairs : usable_matches pairs -> exists ret, retain pairs = Ok ret.
Proof.
  intros Hu. unfold retain_deepest_successful_matches.
  replace (has_duplicates considered) with false.
  2:{ symmetry. apply has_duplicates_false. apply (NoDup_fmap_2 _key), Hu. }
  replace (mem _ considered) with true by (symmetry; apply mem_true, key_elem, Hu). simpl.
  destruct (rank_pairs_return pairs Hu pairs [] [] eq_refl) as [st Hst].
  simpl in Hst. rewrite Hst. simpl. apply rank_pairs_Ok in Hst.
  destruct Hst as (_ & new & Hnew & Hpairs & Hranks). simpl in Hnew. rewrite Hnew.
  destruct (sorted_ranked_returns pairs new Hu Hpairs Hranks) as [sorted Hsort].
  rewrite Hsort. simpl. apply sorted_ranked_Ok in Hsort; [| exact Hranks].
  destruct Hsort as [Hperm _]. rewrite Hpairs in Hperm.
  destruct (retain_pairs_return pairs (map k_pair sorted) ([], []) Hu) as [st' Hst'].
  - intros p. rewrite Hperm. auto.
  - rewrite Hst'. simpl. eauto.
Qed.

(** On usable matches the retention returns, and keeps exactly the matches
    whose candidate is not an ancestor of another matched candidate; what it
    keeps is listed deepest first, and no ancestor of a kept candidate is the
    trigger or outside the considered references. *)
Theorem retain_deepest_correct pairs :
  usable_matches pairs ->
  exists ret, retain pairs = Ok ret
    /\ (forall p, p ∈ ret <->
          p ∈ pairs /\ ~ exists q, q ∈ pairs /\ ancestor_of (cand q) (cand p))
    /\ StronglySorted (fun p q => ~ ancestor_of (cand q) (cand p)) ret
    /\ (forall p a, p ∈ ret -> ancestor_of (cand p) a ->
          a ∈ considered_refs /\ a <> trigger_ref).
Proof.
  intros Hu. destruct (retain_returns pairs Hu) as [ret Hret]. exists ret.
  split; [exact Hret |]. apply retain_Ok in Hret.
  destruct Hret as (_ & Hin & Hsort & _ & Hcon). auto.
Qed.

(** ** Exclusions *)

(** The state of the exclusion loops after the ancestors in [covered]. *)
Definition exclusion_state (ret : list SuccessfulMatchPair)
  (covered : StoredDataRef -> Prop) (st : list string * list LineageExclusion) : Prop :=
  (forall k, k ∈ st.1 <-> exists a, a ∈ map excluded_primitive_ref st.2 /\ k = _key a)
  /\ NoDup (map excluded_primitive_ref st.2)
  /\ (forall a, a ∈ map excluded_primitive_ref st.2 <-> covered a)
  /\ Forall (fun e => exists p, p ∈ ret /\ excluded_by_ref e = cand p
                    /\ ancestor_of (cand p) (excluded_primitive_ref e)) st.2.

Lemma exclude_ancestors_spec ret retained_keys p covered :
  p ∈ ret -> (forall k, k ∈ retained_keys -> exists q, q ∈ ret /\
                (k = _key (upstream_ref q) \/ k = _key (downstream_ref q))) ->
  (forall q a, q ∈ ret -> ancestor_of (cand p) a -> a <> upstream_ref q /\ a <> downstream_ref q) ->
  forall l st,
  (forall a, a ∈ l -> ancestor_of (cand p) a /\ a ∈ considered_refs /\ a <> cand p) ->
  exclusion_state ret covered st ->
  exists st', fold_result (exclude_ancestor considered retained_keys (cand p)) st l = Ok st'
    /\ exclusion_state ret (fun a => covered a \/ a ∈ l) st'.
Proof.
  intros Hp Hkeys Hused. induction l as [| a l IH] in covered |- *; intros st Hl Hst.
  { exists st. split; [reflexivity |]. destruct Hst as (H1 & H2 & H3 & H4).
    split; [exact H1 |]. split; [exact H2 |]. split; [| exact H4].
    intros a. rewrite H3. set_solver. }
  destruct (Hl a ltac:(left)) as (Ha & Hcon & Hne). simpl. unfold exclude_ancestor at 1.
  rewrite (proj2 (mem_true (_key a) considered)) by (apply key_elem; exact Hcon).
  rewrite (proj2 (mem_false (_key a) retained_keys)).
  2:{ intros Hk. destruct (Hkeys _ Hk) as (q & Hq & [Heq | Heq]);
        apply (inj _key) in Heq; destruct (Hused q a Hq Ha); congruence. }
  rewrite bool_decide_false by exact Hne. simpl.
  destruct Hst as (Hk & Hnd & Hcov & Hall).
  destruct (IH (fun x => covered x \/ x = a)
              (if mem (_key a) st.1 then st
               else (_key a :: st.1, st.2 ++ [mkExclusion a (cand p)]))) as (st' & Hf & Hst').
  - intros x Hx. apply Hl. right. exact Hx.
  - destruct (mem (_key a) st.1) eqn:Hm.
    + apply mem_true, Hk in Hm. destruct Hm as (a' & Ha' & Heq). apply (inj _key) in Heq. subst a'.
      split; [exact Hk |]. split; [exact Hnd |]. split; [| exact Hall].
      intros x. rewrite Hcov in *. intuition congruence.
    + apply mem_false in Hm. assert (Hnew : a ∉ map excluded_primitive_ref st.2)
        by (intros Hin; apply Hm, Hk; eauto).
      unfold exclusion_state. cbn [fst snd]. rewrite map_app. simpl. repeat split.
      * intros [-> | Hx]%elem_of_cons; [exists a; split; [apply elem_of_app; right; left | reflexivity] |].
        apply Hk in Hx. destruct Hx as (b & Hb & ->). exists b. rewrite elem_of_app. auto.
      * intros (b & Hb & ->). apply elem_of_app in Hb. apply elem_of_cons.
        rewrite list_elem_of_singleton in Hb. destruct Hb as [Hb | ->]; [right; apply Hk; eauto | auto].
      * apply NoDup_app. split; [exact Hnd |]. split; [set_solver | apply NoDup_singleton].
      * rewrite elem_of_app, list_elem_of_singleton, Hcov. tauto.
      * rewrite elem_of_app, list_elem_of_singleton, Hcov. tauto.
      * apply Forall_app. split; [exact Hall |]. constructor; [| constructor]. simpl. eauto.
  - exists st'. split; [exact Hf |]. destruct Hst' as (H1 & H2 & H3 & H4).
    split; [exact H1 |]. split; [exact H2 |]. split; [| exact H4].
    intros x. rewrite H3, elem_of_cons. tauto.
Qed.

Local Abbreviation expected :=
  (expected_lineage_exclusions recursion_limit resolve analysis_id considered_refs trigger_ref).

(** What a kept candidate's lineage never meets: the references in use. *)
Lemma kept_unused pairs ret p q a :
  retain pairs = Ok ret -> p ∈ ret -> q ∈ ret -> ancestor_of (cand p) a ->
  a <> upstream_ref q /\ a <> downstream_ref q /\ a <> cand p.
Proof.
  intros Hret Hp Hq Ha. apply retain_Ok in Hret. destruct Hret as (Hv & Hin & _ & _ & Hcon).
  rewrite Forall_forall in Hv. destruct (Hcon p a Hp Ha) as [_ Htr].
  assert (Hcand : forall r, r ∈ ret -> a <> cand r).
  { intros r Hr ->. apply Hin in Hp, Hr. destruct Hr as [_ Hr]. apply Hr. exists p.
    split; [apply Hp | exact Ha]. }
  pose proof (Hcand q Hq) as Hcq. apply Hin in Hq. destruct (Hv q (proj1 Hq)) as (_ & Htq & _).
  destruct (candidate_cases q) as [[Hu Hc] | [Hu Hc]]; cbv beta in *; rewrite Hc in Hcq;
    (split; [| split; [| exact (Hcand p Hp)]]); destruct Htq; congruence.
Qed.

(** The exclusions of the kept matches: every ancestor of a kept candidate
    once, with a kept candidate it is an ancestor of. *)
Lemma exclusions_Ok pairs ret :
  NoDup considered_refs -> trigger_ref ∈ considered_refs -> retain pairs = Ok ret ->
  exists ex, expected pairs = Ok ex
    /\ NoDup (map excluded_primitive_ref ex)
    /\ (forall a, a ∈ map excluded_primitive_ref ex <->
          exists p, p ∈ ret /\ ancestor_of (cand p) a)
    /\ Forall (fun e => exists p, p ∈ ret /\ excluded_by_ref e = cand p
                      /\ ancestor_of (cand p) (excluded_primitive_ref e)) ex.
Proof.
  intros Hnd Htr Hret. unfold expected_lineage_exclusions.
  replace (has_duplicates considered) with false
    by (symmetry; apply has_duplicates_false, (NoDup_fmap_2 _key), Hnd).
  replace (mem _ considered) with true by (symmetry; apply mem_true, key_elem, Htr). simpl.
  rewrite Hret. simpl.
  set (keys := concat _).
  assert (Hkeys : forall k, k ∈ keys -> exists q, q ∈ ret /\
                    (k = _key (upstream_ref q) \/ k = _key (downstream_ref q))).
  { intros k Hk. apply list_elem_of_In, in_concat in Hk. destruct Hk as (ks & Hks & Hk).
    apply in_map_iff in Hks. destruct Hks as (q & <- & Hq). exists q.
    split; [apply list_elem_of_In, Hq |]. simpl in Hk. intuition congruence. }
  clearbody keys. pose proof Hret as Hok. apply retain_Ok in Hok.
  destruct Hok as (_ & _ & _ & Hlin & Hcon).
  assert (Hloop : forall rest done st, (forall p, p ∈ rest -> p ∈ ret) ->
    exclusion_state ret (fun a => exists p, p ∈ done /\ ancestor_of (cand p) a) st ->
    exists st', fold_result
      (fun st0 pair => let! l := lineage_of (cand pair) in
         fold_result (exclude_ancestor considered keys (cand pair)) st0 (l_ancestors l)) st rest
      = Ok st' /\ exclusion_state ret
          (fun a => exists p, p ∈ done ++ rest /\ ancestor_of (cand p) a) st').
  { induction rest as [| p rest IH]; intros done st Hrest Hst.
    { exists st. rewrite app_nil_r. auto. }
    assert (Hp : p ∈ ret) by (apply Hrest; left). destruct (Hlin p Hp) as [l Hl].
    simpl. rewrite Hl. simpl. apply lineage_Ok in Hl. destruct Hl as (_ & _ & _ & Hanc & _).
    destruct (exclude_ancestors_spec ret keys p
                (fun a => exists q, q ∈ done /\ ancestor_of (cand q) a) Hp Hkeys)
      with (l := l_ancestors l) (st := st) as (st1 & -> & Hst1); [| | exact Hst |].
    - intros q a Hq Ha. destruct (kept_unused _ _ _ _ _ Hret Hp Hq Ha) as (? & ? & _). auto.
    - intros a Ha. apply Hanc in Ha. destruct (Hcon p a Hp Ha).
      destruct (kept_unused _ _ _ _ _ Hret Hp Hp Ha) as (_ & _ & ?). auto.
    - simpl. destruct (IH (done ++ [p]) st1) as (st' & Hf & Hst').
      + intros q Hq. apply Hrest. right. exact Hq.
      + destruct Hst1 as (H1 & H2 & H3 & H4). split; [exact H1 |]. split; [exact H2 |].
        split; [| exact H4]. intros a. rewrite H3, Hanc. set_solver.
      + exists st'. rewrite <- app_assoc in Hst'. auto. }
  destruct (Hloop ret [] ([], [])) as (st & -> & _ & Hndx & Hcov & Hall); [auto | | simpl; eauto 10].
  split; [set_solver |]. split; [constructor |]. split; [set_solver | constructor].
Qed.

(** The exclusions of usable matches are computed without error, list every
    ancestor of a kept candidate exactly once, and attribute it to a kept
    candidate it is an ancestor of. *)
Theorem expected_exclusions_correct pairs :
  usable_matches pairs ->
  exists ret ex, retain pairs = Ok ret /\ expected pairs = Ok ex
    /\ NoDup (map excluded_primitive_ref ex)
    /\ (forall a, a ∈ map excluded_primitive_ref ex <->
          exists p, p ∈ ret /\ ancestor_of (cand p) a)
    /\ (forall e, e ∈ ex -> exists p, p ∈ ret /\ excluded_by_ref e = cand p
          /\ ancestor_of (cand p) (excluded_primitive_ref e)).
Proof.
  intros Hu. destruct (retain_returns pairs Hu) as [ret Hret].
  destruct (exclusions_Ok pairs ret (um_considered _ Hu) (um_trigger _ Hu) Hret)
    as (ex & Hex & Hnd & Hcov & Hall).
  rewrite Forall_forall in Hall. exists ret, ex. auto 10.
Qed.

(** ** The projection *)

Lemma project_ancestors_spec c l : forall st,
  (forall a b, (a, b) ∈ st.1 <-> mkExclusion a b ∈ st.2) ->
  let st' := fold_left (project_ancestor c) l st in
  (forall a b, (a, b) ∈ st'.1 <-> mkExclusion a b ∈ st'.2)
  /\ (forall a b, mkExclusion a b ∈ st'.2 <-> mkExclusion a b ∈ st.2 \/ a ∈ l /\ b = c).
Proof.
  induction l as [| x l IH]; intros st Hst; simpl; [split; [exact Hst | set_solver] |].
  set (st1 := project_ancestor c st x).
  assert (Hst1 : (forall a b, (a, b) ∈ st1.1 <-> mkExclusion a b ∈ st1.2)
                 /\ (forall a b, mkExclusion a b ∈ st1.2 <->
                      mkExclusion a b ∈ st.2 \/ a = x /\ b = c)).
  { unfold st1, project_ancestor. destruct (mem (x, c) st.1) eqn:Hm; simpl.
    - apply mem_true, Hst in Hm. split; [exact Hst |]. intros a b. intuition congruence.
    - split; intros a b; rewrite elem_of_app, list_elem_of_singleton;
        rewrite ?elem_of_cons, ?Hst; intuition congruence. }
  destruct Hst1 as [H1 H2]. destruct (IH st1 H1) as [H3 H4]. split; [exact H3 |].
  intros a b. rewrite H4, H2, elem_of_cons. tauto.
Qed.

(** The lineage port answers with the candidates' proper ancestors. *)
Definition port_agrees (ancestors : StoredDataRef -> result (list StoredDataRef))
  (ps : list SuccessfulMatchPair) : Prop :=
  forall p, p ∈ ps -> exists l, ancestors (cand p) = Ok l /\ NoDup l
    /\ forall a, a ∈ l <-> ancestor_of (cand p) a.

(** A port that answers with the computed lineages agrees. *)
Lemma lineage_port ps :
  (forall p, p ∈ ps -> exists l, lineage_of (cand p) = Ok l) ->
  port_agrees (fun c => let! l := lineage_of c in Ok (l_ancestors l)) ps.
Proof.
  intros Hps p Hp. destruct (Hps p Hp) as [l Hl]. exists (l_ancestors l). rewrite Hl.
  apply lineage_Ok in Hl. destruct Hl as (Hnd & _ & _ & Hanc & _). auto.
Qed.

Lemma project_match_Ok ancestors used pairs ret p st :
  retain pairs = Ok ret -> port_agrees ancestors ret -> p ∈ ret ->
  (forall u, u ∈ used -> exists q, q ∈ ret /\ (u = upstream_ref q \/ u = downstream_ref q)) ->
  (forall a b, (a, b) ∈ st.1 <-> mkExclusion a b ∈ st.2) ->
  exists st', project_match ancestors considered_refs used trigger_ref st p = Ok st'
    /\ (forall a b, (a, b) ∈ st'.1 <-> mkExclusion a b ∈ st'.2)
    /\ (forall a b, mkExclusion a b ∈ st'.2 <->
          mkExclusion a b ∈ st.2 \/ ancestor_of (cand p) a /\ b = cand p).
Proof.
  intros Hret Hport Hp Hused Hst. destruct (Hport p Hp) as (l & Hl & Hnd & Hanc).
  assert (Hcand : (if eqb (upstream_ref p) trigger_ref && neqb (downstream_ref p) trigger_ref
                   then Ok (downstream_ref p)
                   else if eqb (downstream_ref p) trigger_ref && neqb (upstream_ref p) trigger_ref
                        then Ok (upstream_ref p)
                        else Err (ValueError "CHAINING_LINEAGE_RESOLUTION_INVALID"))
                  = Ok (cand p)).
  { pose proof Hret as Hok. apply retain_Ok in Hok. destruct Hok as (Hv & Hin & _).
    rewrite Forall_forall in Hv. apply Hin in Hp. destruct (Hv p (proj1 Hp)) as (Hne & Htr & _).
    destruct (candidate_cases p) as [[Hu ->] | [Hu ->]]; repeat case_bool_decide; simpl;
      first [reflexivity | exfalso; destruct Htr; congruence]. }
  unfold project_match. rewrite Hcand. simpl. rewrite Hl. simpl.
  replace (has_duplicates l) with false by (symmetry; apply has_duplicates_false; exact Hnd).
  assert (Hunused : forall a, a ∈ l -> a ∈ considered_refs /\ a <> cand p /\ a ∉ used).
  { intros a Ha. apply Hanc in Ha. pose proof Hret as Hok. apply retain_Ok in Hok.
    destruct Hok as (_ & _ & _ & _ & Hcon). split; [apply (Hcon p a Hp Ha) |].
    split; [apply (kept_unused _ _ _ _ _ Hret Hp Hp Ha) |]. intros Hin.
    destruct (Hused a Hin) as (q & Hq & Heq).
    destruct (kept_unused _ _ _ _ _ Hret Hp Hq Ha) as (? & ? & _). destruct Heq; congruence. }
  replace (existsb _ l) with false.
  2:{ symmetry. apply not_true_iff_false. rewrite existsb_exists. intros (a & Ha & Hb).
      apply list_elem_of_In in Ha. destruct (Hunused a Ha) as (H1 & H2 & _).
      apply orb_true_iff in Hb. destruct Hb as [Hb | Hb]; boolify; auto. }
  replace (existsb _ l) with false.
  2:{ symmetry. apply not_true_iff_false. rewrite existsb_exists. intros (a & Ha & Hb).
      apply list_elem_of_In in Ha. destruct (Hunused a Ha) as (_ & _ & H3). boolify. auto. }
  simpl. eexists. split; [reflexivity |].
  destruct (project_ancestors_spec (cand p) l st Hst) as [H1 H2]. split; [exact H1 |].
  intros a b. rewrite H2, Hanc. reflexivity.
Qed.

Lemma projection_Ok ancestors used pairs ret matches :
  retain pairs = Ok ret -> port_agrees ancestors ret -> (forall p, p ∈ matches -> p ∈ ret) ->
  (forall u, u ∈ used -> exists q, q ∈ ret /\ (u = upstream_ref q \/ u = downstream_ref q)) ->
  exists ex, _expected_lineage_exclusions ancestors considered_refs used trigger_ref matches = Ok ex
    /\ forall a b, mkExclusion a b ∈ ex <->
         exists p, p ∈ matches /\ b = cand p /\ ancestor_of (cand p) a.
Proof.
  intros Hret Hport Hsub Hused. unfold _expected_lineage_exclusions.
  assert (Hloop : forall ms st, (forall p, p ∈ ms -> p ∈ ret) ->
    (forall a b, (a, b) ∈ st.1 <-> mkExclusion a b ∈ st.2) ->
    exists st', fold_result (project_match ancestors considered_refs used trigger_ref) st ms = Ok st'
      /\ forall a b, mkExclusion a b ∈ st'.2 <-> mkExclusion a b ∈ st.2
           \/ exists p, p ∈ ms /\ b = cand p /\ ancestor_of (cand p) a).
  { induction ms as [| p ms IH]; intros st Hms Hst; [exists st; set_solver |].
    destruct (project_match_Ok ancestors used pairs ret p st) as (st1 & Hp1 & Hst1 & Hel); auto.
    { apply Hms. left. }
    simpl. rewrite Hp1. simpl.
    destruct (IH st1) as (st' & -> & Hel'); [intros q Hq; apply Hms; right; exact Hq | exact Hst1 |].
    exists st'. split; [reflexivity |]. intros a b. rewrite Hel', Hel. set_solver. }
  destruct (Hloop matches ([], [])) as (st & -> & Hel); [exact Hsub | set_solver |].
  simpl. eexists. split; [reflexivity |]. intros a b. rewrite Hel. set_solver.
Qed.

Lemma exact_set_Ok l l' :
  exact_set (map exclusion_key l) (map exclusion_key l') = Ok tt <->
  NoDup l /\ forall e, e ∈ l <-> e ∈ l'.
Proof.
  assert (Hmem : forall e k, mem (exclusion_key e) (map exclusion_key k) = true <-> e ∈ k).
  { intros e k. rewrite mem_true, list_elem_of_fmap. split; [| eauto].
    intros (x & Hx & Hin). apply (inj exclusion_key) in Hx. congruence. }
  assert (Hguard : forall d b : bool, (do! (raise_if d with "DUPLICATE_REFERENCE" ;; Ok tt) ;;
             raise_if b with "RECORD_REVISION_MISMATCH: exact set closure" ;; Ok tt) = Ok tt
             <-> d = false /\ b = false)
    by (intros [] []; simpl; split; intros; intuition discriminate).
  unfold exact_set, unique. rewrite Hguard.
  rewrite has_duplicates_false. change (map exclusion_key l) with (exclusion_key <$> l) at 1.
  rewrite (NoDup_fmap exclusion_key l), negb_false_iff, andb_true_iff, !forallb_forall.
  split; intros [Hnd Hsub]; (split; [exact Hnd |]).
  - destruct Hsub as [Hl Hr]. intros e. split; intros He.
    + apply Hmem, Hl, in_map, list_elem_of_In, He.
    + apply Hmem, Hr, in_map, list_elem_of_In, He.
  - split; intros k Hk; apply in_map_iff in Hk; destruct Hk as (e & <- & He);
      apply Hmem, Hsub, list_elem_of_In, He.
Qed.

(** C37. The exclusions a chaining result is published with pass the check of its
    commit exactly when no two kept candidates have an ancestor in common: the
    service attributes an ancestor to one candidate, the check expects it under
    each. *)
Theorem exclusions_accepted_iff pairs ret ancestors matches used :
  NoDup considered_refs -> trigger_ref ∈ considered_refs -> retain pairs = Ok ret ->
  (forall p, p ∈ matches <-> p ∈ ret) -> port_agrees ancestors ret ->
  (forall u, u ∈ used -> exists q, q ∈ ret /\ (u = upstream_ref q \/ u = downstream_ref q)) ->
  exists ex ex',
    expected pairs = Ok ex
    /\ _expected_lineage_exclusions ancestors considered_refs used trigger_ref matches = Ok ex'
    /\ (exact_set (map exclusion_key ex) (map exclusion_key ex') = Ok tt <->
        forall p q a, p ∈ ret -> q ∈ ret -> ancestor_of (cand p) a -> ancestor_of (cand q) a ->
          cand p = cand q).
Proof.
  intros Hnd Htr Hret Hms Hport Hused.
  destruct (exclusions_Ok pairs ret Hnd Htr Hret) as (ex & Hex & Hndx & Hcov & Hall).
  destruct (projection_Ok ancestors used pairs ret matches) as (ex' & Hex' & Hel'); auto.
  { intros p. apply Hms. }
  exists ex, ex'. split; [exact Hex |]. split; [exact Hex' |]. rewrite exact_set_Ok.
  rewrite Forall_forall in Hall. split.
  - intros [_ Heq] p q a Hp Hq Hpa Hqa.
    assert (Hin : forall r, r ∈ ret -> ancestor_of (cand r) a -> mkExclusion a (cand r) ∈ ex).
    { intros r Hr Hra. apply Heq, Hel'. exists r. rewrite Hms. auto. }
    pose proof (Hin p Hp Hpa) as H1. pose proof (Hin q Hq Hqa) as H2.
    apply (f_equal excluded_by_ref (x := mkExclusion a (cand p)) (y := mkExclusion a (cand q))).
    apply (NoDup_map_inj excluded_primitive_ref ex); auto.
  - intros Huniq. split; [exact (NoDup_fmap_1 excluded_primitive_ref _ Hndx) |].
    intros [a b]. rewrite Hel'. split.
    + intros He. destruct (Hall _ He) as (p & Hp & Hb & Ha). simpl in *. subst b.
      exists p. rewrite Hms. auto.
    + intros (p & Hp & -> & Ha). apply Hms in Hp.
      assert (Hin : a ∈ map excluded_primitive_ref ex) by (apply Hcov; eauto).
      apply list_elem_of_fmap in Hin. destruct Hin as ([a' b'] & Heqa & He). simpl in Heqa. subst a'.
      destruct (Hall _ He) as (q & Hq & Hb & Haq). simpl in *. subst b'.
      replace (cand p) with (cand q); [exact He |]. eapply Huniq; eauto.
Qed.
End matches.
End ancestry.
