(* ===== verification/Matching.v ===== *)
(** * Primitive matching

    [chaining/matching.py]: the directional comparisons of a trigger with its
    pinned universe, and the rule that gives every pair of primitives one
    owner. *)
From stdpp Require Import pretty.
From S2P Require Import Prelude Records Hash CanonicalJson Store Lineage.
#[local] Opaque _key.

(** The fields of [contracts/chaining.py]'s [Primitive] the comparison reads:
    its scope, the ids of its inputs in order, and whether it has a result. *)
Class PrimitiveFields (P : Type) := {
  p_workspace_id : P -> string;
  p_commit_id : P -> string;
  p_input_ids : P -> list string;
  p_has_result : P -> bool;
}.

(** ** Pair ownership *)

Definition owns_pair (trigger_ref other_ref : StoredDataRef)
  (trigger_pool other_trigger_pool : list StoredDataRef) : result bool :=
  raise_if eqb trigger_ref other_ref with "CHAINING_SELF_PAIR_FORBIDDEN" ;;
  do! require_record_ref trigger_ref (Some "primitive") ;;
  do! require_record_ref other_ref (Some "primitive") ;;
  raise_if has_duplicates (map _key trigger_pool)
           || has_duplicates (map _key other_trigger_pool)
           || negb (mem trigger_ref trigger_pool) || negb (mem other_ref trigger_pool)
           || negb (mem other_ref other_trigger_pool)
    with "CHAINING_POOL_HISTORY_MISMATCH" ;;
  if negb (mem trigger_ref other_trigger_pool) then Ok true
  else
    match sd_record_id trigger_ref, sd_record_id other_ref with
    | Some id, Some id' => Ok (negb (str_leb id id'))
    | _, _ => Err AssertionError
    end.

(** ** Directional comparisons *)

Record DirectionalComparison := mkComparison {
  comparison_key : string;
  c_upstream_ref : StoredDataRef;
  c_downstream_ref : StoredDataRef;
  matched_input_id : string;
}.

Section comparisons.
Context {P : Type} `{StoredRecord P} `{PrimitiveFields P}.

Record PrimitiveEntry := mkEntry { pe_ref : StoredDataRef; pe_primitive : P }.

(** The scope of a [RecordMeta]. *)
Definition code_scope (m : RecordMetadata) : option (string * string * string) :=
  match m with
  | MRun m => (fun c => (rm_analysis_id m, workspace_id c, commit_id c)) <$> rm_code m
  | MPolicy _ => None
  end.

(** Whether the loop over [entries] rejects the entry. *)
Definition foreign_entry (trigger entry : PrimitiveEntry) : result bool :=
  match code_scope (rec_meta (pe_primitive entry)) with
  | None => Ok true
  | Some (analysis, workspace, commit) =>
      let! ref := reference (pe_primitive entry) in
      Ok (neqb ref (RStored (pe_ref entry))
          || neqb (Some (analysis, workspace, commit))
                  (code_scope (rec_meta (pe_primitive trigger)))
          || neqb (p_workspace_id (pe_primitive entry)) workspace
          || neqb (p_commit_id (pe_primitive entry)) commit)
  end.

Definition check_entry (trigger entry : PrimitiveEntry) : result unit :=
  let! foreign := foreign_entry trigger entry in
  raise_if foreign with "CHAINING_PINNED_UNIVERSE_MISMATCH" ;; Ok tt.

(** The questions of one direction, before they are numbered. *)
Definition questions (upstream downstream : PrimitiveEntry)
  : list (StoredDataRef * StoredDataRef * string) :=
  if p_has_result (pe_primitive upstream)
  then map (fun id => (pe_ref upstream, pe_ref downstream, id))
         (p_input_ids (pe_primitive downstream))
  else [].

Definition entry_questions (trigger other : PrimitiveEntry) :=
  if eqb (pe_ref other) (pe_ref trigger) then []
  else questions trigger other ++ questions other trigger.

(** [comparison_key=f"comparison-{ordinal}"], from [ordinal = 1] *)
Definition numbered (n : nat) (q : StoredDataRef * StoredDataRef * string)
  : DirectionalComparison :=
  mkComparison ("comparison-" +:+ pretty (N.of_nat (S n))) q.1.1 q.1.2 q.2.

Definition directional_comparisons (trigger_ref : StoredDataRef)
  (entries : list PrimitiveEntry) : result (list DirectionalComparison) :=
  raise_if has_duplicates (map (fun e => _key (pe_ref e)) entries)
    with "CHAINING_PINNED_UNIVERSE_MISMATCH" ;;
  match find (fun e => eqb (_key (pe_ref e)) (_key trigger_ref)) entries with
  | None => Err (ValueError "CHAINING_PINNED_UNIVERSE_MISMATCH")
  | Some trigger =>
      raise_if is_none (code_scope (rec_meta (pe_primitive trigger)))
        with "CHAINING_PINNED_UNIVERSE_MISMATCH" ;;
      do! for_each (check_entry trigger) entries ;;
      Ok (imap numbered (concat (map (entry_questions trigger) entries)))
  end.
End comparisons.
Arguments PrimitiveEntry P : clear implicits.

(** ** Theorems *)

Lemma str_leb_strict s t : s <> t -> str_leb s t = negb (str_leb t s).
Proof.
  intros Hne. destruct (str_leb_total s t) as [Hl | Hl]; rewrite Hl.
  - destruct (str_leb t s) eqn:Hr; [| reflexivity]. exfalso. apply Hne, str_leb_antisym; assumption.
  - destruct (str_leb s t) eqn:Hr; [| reflexivity]. exfalso. apply Hne, str_leb_antisym; assumption.
Qed.

(** A pool fixed at the registration of [ref]. *)
Definition pool_of (ref : StoredDataRef) (pool : list StoredDataRef) : Prop :=
  NoDup pool /\ ref ∈ pool /\ require_record_ref ref (Some "primitive") = Ok tt.

Definition owns (a b : StoredDataRef) (pool_a pool_b : list StoredDataRef) : Prop :=
  owns_pair a b pool_a pool_b = Ok true.

Lemma owns_iff a b pa pb ia ib :
  pool_of a pa -> pool_of b pb -> a <> b ->
  sd_record_id a = Some ia -> sd_record_id b = Some ib ->
  (owns a b pa pb <-> b ∈ pa /\ (a ∉ pb \/ str_leb ia ib = false)).
Proof.
  intros (Hna & Ha & Hra) (Hnb & Hb & Hrb) Hne Hia Hib. unfold owns, owns_pair.
  rewrite bool_decide_false by exact Hne. rewrite Hra, Hrb, Hia, Hib. simpl.
  replace (has_duplicates (map _key pa)) with false
    by (symmetry; apply has_duplicates_false, (NoDup_fmap_2 _key), Hna).
  replace (has_duplicates (map _key pb)) with false
    by (symmetry; apply has_duplicates_false, (NoDup_fmap_2 _key), Hnb).
  unfold mem. rewrite (bool_decide_true (a ∈ pa)), (bool_decide_true (b ∈ pb)) by assumption. simpl.
  repeat case_bool_decide; simpl; split; intros Hx; try discriminate; try tauto.
  - injection Hx as Hx. apply negb_true_iff in Hx. auto.
  - destruct Hx as [_ [Hx | ->]]; [contradiction | reflexivity].
Qed.

(** Every pair has one owner: of two primitives with their registration-time
    pools, when at least one pool saw the other primitive, exactly one of the
    two works compares the pair. *)
Theorem pair_has_one_owner a b pool_a pool_b :
  pool_of a pool_a -> pool_of b pool_b -> sd_record_id a <> sd_record_id b ->
  b ∈ pool_a \/ a ∈ pool_b ->
  (owns a b pool_a pool_b /\ ~ owns b a pool_b pool_a)
  \/ (~ owns a b pool_a pool_b /\ owns b a pool_b pool_a).
Proof.
  intros Ha Hb Hid Hseen.
  assert (Hsome : forall r pool, pool_of r pool -> exists id, sd_record_id r = Some id).
  { intros r pool (_ & _ & Hr). apply require_record_ref_Ok in Hr. destruct Hr as [Hr _].
    simpl in Hr. destruct (sd_record_id r); [eauto | congruence]. }
  destruct (Hsome a _ Ha) as [ia Hia], (Hsome b _ Hb) as [ib Hib].
  assert (Hne : a <> b) by congruence. assert (Hneq : b <> a) by congruence.
  rewrite (owns_iff a b _ _ ia ib Ha Hb), (owns_iff b a _ _ ib ia Hb Ha) by assumption.
  assert (Hs : ia <> ib) by congruence. pose proof (str_leb_strict ia ib Hs) as Hl.
  destruct (decide (b ∈ pool_a)), (decide (a ∈ pool_b)), (str_leb ia ib), (str_leb ib ia);
    simpl in Hl; intuition discriminate.
Qed.

Section comparison_laws.
Context {P : Type} `{StoredRecord P} `{PrimitiveFields P}.

(** The comparisons are complete and directed: numbered from 1 without
    repetition, there is one for each input of each other primitive when the
    trigger has a result, and one for each input of the trigger for each other
    primitive with a result, and no others. *)
Theorem directional_comparisons_correct trigger_ref (entries : list (PrimitiveEntry P)) cs :
  directional_comparisons trigger_ref entries = Ok cs ->
  NoDup (map comparison_key cs)
  /\ exists trigger, trigger ∈ entries /\ pe_ref trigger = trigger_ref
     /\ forall up down input,
          (exists key, mkComparison key up down input ∈ cs) <->
          exists other, other ∈ entries /\ pe_ref other <> trigger_ref
            /\ ((up = trigger_ref /\ down = pe_ref other
                 /\ p_has_result (pe_primitive trigger) = true
                 /\ input ∈ p_input_ids (pe_primitive other))
                \/ (up = pe_ref other /\ down = trigger_ref
                    /\ p_has_result (pe_primitive other) = true
                    /\ input ∈ p_input_ids (pe_primitive trigger))).
Proof.
  unfold directional_comparisons. intros Hc. apply raise_if_Ok in Hc. destruct Hc as [_ Hc].
  destruct (find _ entries) as [trigger |] eqn:Hf; [| discriminate].
  apply find_some in Hf. destruct Hf as [Hin Hk]. apply bool_decide_eq_true in Hk.
  apply (inj _key) in Hk. apply list_elem_of_In in Hin.
  apply raise_if_Ok in Hc. destruct Hc as [_ Hc]. apply rbind_Ok in Hc.
  destruct Hc as ([] & _ & Hc). injection Hc as <-. set (qs := concat _). split.
  - apply NoDup_alt. intros i j k. change (map comparison_key) with (fmap (M := list) comparison_key).
    rewrite !list_lookup_fmap, !list_lookup_imap.
    destruct (qs !! i), (qs !! j); simpl; try discriminate. intros [= <-] [= Hij].
    apply pretty_N_inj in Hij. lia.
  - exists trigger. split; [exact Hin |]. split; [exact Hk |]. intros up down input.
    transitivity ((up, down, input) ∈ qs).
    + split.
      * intros (key & Hx). apply elem_of_lookup_imap in Hx. destruct Hx as (i & q & Hq & Hl).
        injection Hq as _ -> -> ->. apply list_elem_of_lookup. exists i.
        rewrite <- !surjective_pairing. exact Hl.
      * intros Hq. apply list_elem_of_lookup in Hq. destruct Hq as [i Hi]. eexists.
        apply elem_of_lookup_imap. exists i, (up, down, input). split; [reflexivity | exact Hi].
    + unfold qs. rewrite list_elem_of_In, in_concat. setoid_rewrite in_map_iff.
      setoid_rewrite <- list_elem_of_In. split.
      * intros (l & (other & <- & Ho) & Hq). unfold entry_questions in Hq.
        case_bool_decide as Hne; [inversion Hq |]. exists other. split; [exact Ho |].
        split; [congruence |]. unfold questions in Hq. apply elem_of_app in Hq.
        destruct Hq as [Hq | Hq]; [left | right];
          destruct (p_has_result _) eqn:Hr in Hq; try (inversion Hq; fail);
          apply list_elem_of_fmap in Hq; destruct Hq as (id & Hq & Hid);
          injection Hq as -> -> ->; auto.
      * intros (other & Ho & Hne & Hcase). exists (entry_questions trigger other).
        split; [eauto |]. unfold entry_questions, questions.
        rewrite bool_decide_false by congruence. apply elem_of_app.
        destruct Hcase as [(-> & -> & -> & Hid) | (-> & -> & -> & Hid)]; [left | right];
          rewrite Hk || rewrite <- Hk; apply list_elem_of_fmap; eauto.
Qed.
End comparison_laws.
