(* ===== verification/Scans.v ===== *)
(** * Scan target chunks

    [simple_runtime/semgrep_fallback_plan.py]: the targets of a fallback scan
    are sorted and cut into chunks whose exact Windows command line fits, and
    the chunks are cut again by source size. [subprocess.list2cmdline] is
    CPython's. A Python string is its UTF-8 encoding. *)
From Stdlib Require Import Sorting.Sorted.
From S2P Require Import Prelude CanonicalJson.

(** ** The command line *)

Definition backslash : Ascii.ascii := Ascii.ascii_of_nat 92.
Definition quote_char : Ascii.ascii := Ascii.ascii_of_nat 34.
Definition repeated (n : nat) (c : Ascii.ascii) : string :=
  String.string_of_list_ascii (repeat c n).

Fixpoint has_char (p : Ascii.ascii -> bool) (s : string) : bool :=
  match s with
  | EmptyString => false
  | String c s => p c || has_char p s
  end.

Definition is_blank (c : Ascii.ascii) : bool :=
  Ascii.eqb c (Ascii.ascii_of_nat 32) || Ascii.eqb c (Ascii.ascii_of_nat 9).

(** The loop over the characters of one argument; [bs_buf] is the length of the
    backslash buffer. *)
Fixpoint quoted_chars (needquote : bool) (bs_buf : nat) (arg : string) : string :=
  match arg with
  | EmptyString =>
      repeated bs_buf backslash +:+ (if needquote then repeated bs_buf backslash else "")
  | String c arg =>
      if Ascii.eqb c backslash then quoted_chars needquote (S bs_buf) arg
      else if Ascii.eqb c quote_char then
        repeated (2 * bs_buf) backslash
        +:+ String backslash (String quote_char (quoted_chars needquote 0 arg))
      else repeated bs_buf backslash +:+ String c (quoted_chars needquote 0 arg)
  end.

Definition quoted_arg (arg : string) : string :=
  let needquote := has_char is_blank arg || eqb arg "" in
  let mark := if needquote then String quote_char "" else "" in
  mark +:+ quoted_chars needquote 0 arg +:+ mark.

Definition list2cmdline (args : list string) : string := join " " (map quoted_arg args).

(** The UTF-16 code units a byte of a UTF-8 text starts: a lead byte of four
    bytes stands for a surrogate pair, a continuation byte for nothing. *)
Definition byte_units (c : Ascii.ascii) : Z :=
  let n := Ascii.nat_of_ascii c in
  if (n <? 128)%nat then 1 else if (n <? 192)%nat then 0 else if (n <? 240)%nat then 1 else 2.
Fixpoint utf16_units (s : string) : Z :=
  match s with
  | EmptyString => 0
  | String c s => byte_units c + utf16_units s
  end.

Definition semgrep_command_utf16_units (command : list string) : Z :=
  utf16_units (list2cmdline command).

(** ** Chunks *)

(** [target.replace("\\", "/")] *)
Fixpoint posix_path (s : string) : string :=
  match s with
  | EmptyString => ""
  | String c s =>
      String (if Ascii.eqb c backslash then Ascii.ascii_of_nat 47 else c) (posix_path s)
  end.

Definition MAX_SEMGREP_COMMAND_UTF16_UNITS : Z := 24000.

(** [not target or "\x00" in target] *)
Definition invalid_target (t : string) : bool :=
  eqb t "" || has_char (fun c => Ascii.eqb c (Ascii.ascii_of_nat 0)) t.

Section plan.
Variable command_for : list string -> list string.
Variables max_targets max_command_utf16_units : Z.

Definition fits (chunk : list string) : bool :=
  if max_targets <? Z.of_nat (length chunk) then false
  else semgrep_command_utf16_units (command_for chunk) <=? max_command_utf16_units.

(** One iteration; the state is [result] and [current]. *)
Definition plan_step (st : list (list string) * list string) (target : string)
  : result (list (list string) * list string) :=
  let candidate := st.2 ++ [target] in
  if fits candidate then Ok (st.1, candidate)
  else
    let res := if nonempty st.2 then st.1 ++ [st.2] else st.1 in
    if negb (fits [target]) then Err (RuntimeError "SEMGREP_COMMAND_TOO_LONG")
    else Ok (res, [target]).

(** [sorted({target.replace("\\", "/") for target in targets})] *)
Definition normalized (targets : list string) : list string :=
  sort_by str_leb (remove_dups (map posix_path targets)).

Definition plan_semgrep_target_chunks (targets : list string) : result (list (list string)) :=
  if (max_targets <? 1) || (max_command_utf16_units <? 1)
  then Err (RuntimeError "SEMGREP_COMMAND_TOO_LONG")
  else if existsb invalid_target (normalized targets)
  then Err (RuntimeError "SEMGREP_RESULT_INVALID")
  else
    let! st := fold_result plan_step ([], []) (normalized targets) in
    Ok (if nonempty st.2 then st.1 ++ [st.2] else st.1).
End plan.

Section split.
(** [size_for]; [None] is a value whose type is not exactly [int]. *)
Variable size_for : string -> option Z.
Variable max_bytes : Z.

(** One target; the state is [result], [current] and [total]. *)
Definition split_step (st : list (list string) * list string * Z) (target : string)
  : result (list (list string) * list string * Z) :=
  match size_for target with
  | None => Err (RuntimeError "SCAN_TARGET_SIZE_INVALID")
  | Some size =>
      if size <? 0 then Err (RuntimeError "SCAN_TARGET_SIZE_INVALID")
      else
        let '(res, current, total) := st in
        let '(res, current, total) :=
          if nonempty current && (max_bytes <? total + size) then (res ++ [current], [], 0)
          else (res, current, total) in
        let current := current ++ [target] in
        let total := total + size in
        Ok (if max_bytes <? size then (res ++ [current], [], 0) else (res, current, total))
  end.

Definition split_root (res : list (list string)) (root : list string)
  : result (list (list string)) :=
  let! st := fold_result split_step (res, [], 0) root in
  let '(res, current, _) := st in
  Ok (if nonempty current then res ++ [current] else res).

Definition split_target_chunks_by_source_bytes (roots : list (list string))
  : result (list (list string)) :=
  if max_bytes <? 1 then Err (RuntimeError "SCAN_SOURCE_BYTE_LIMIT_INVALID")
  else fold_result split_root [] roots.
End split.

(** ** Command lengths *)

Lemma byte_units_nonneg c : 0 <= byte_units c.
Proof. unfold byte_units. repeat case_match; lia. Qed.
Lemma utf16_units_nonneg s : 0 <= utf16_units s.
Proof. induction s as [| c s IH]; simpl; [lia |]. pose proof (byte_units_nonneg c). lia. Qed.
Lemma utf16_units_app a b : utf16_units (a +:+ b) = utf16_units a + utf16_units b.
Proof.
  induction a as [| c a IH]; [rewrite sapp_nil; simpl; lia |].
  rewrite sapp_cons. simpl. rewrite IH. lia.
Qed.

Lemma units_cons a l :
  l <> [] ->
  semgrep_command_utf16_units (a :: l)
  = utf16_units (quoted_arg a) + 1 + semgrep_command_utf16_units l.
Proof.
  unfold semgrep_command_utf16_units, list2cmdline. destruct l as [| b l]; [congruence |].
  intros _. change (map quoted_arg (a :: b :: l)) with (quoted_arg a :: map quoted_arg (b :: l)).
  change (join " " (quoted_arg a :: map quoted_arg (b :: l)))
    with (quoted_arg a +:+ (" " +:+ join " " (map quoted_arg (b :: l)))).
  rewrite !utf16_units_app. change (utf16_units " ") with 1. lia.
Qed.

Lemma units_cons_le a l :
  utf16_units (quoted_arg a) <= semgrep_command_utf16_units (a :: l)
  /\ semgrep_command_utf16_units l <= semgrep_command_utf16_units (a :: l).
Proof.
  pose proof (utf16_units_nonneg (quoted_arg a)).
  destruct l as [| b l]; [split; [reflexivity | exact (utf16_units_nonneg (quoted_arg a))] |].
  rewrite (units_cons a) by discriminate.
  pose proof (utf16_units_nonneg (list2cmdline (b :: l))).
  unfold semgrep_command_utf16_units in *. lia.
Qed.

(** Leaving arguments out never makes a command longer. *)
Lemma units_sublist l k :
  sublist l k -> semgrep_command_utf16_units l <= semgrep_command_utf16_units k.
Proof.
  induction 1 as [| x l k Hs IH | x l k _ IH].
  - reflexivity.
  - destruct l as [| y l]; [apply units_cons_le |].
    destruct k as [| z k]; [apply sublist_nil_r in Hs; discriminate |].
    rewrite !(units_cons x) by discriminate. lia.
  - pose proof (units_cons_le x k). lia.
Qed.

(** ** Planning *)

Lemma normalized_elem targets t :
  t ∈ normalized targets <-> exists t', t' ∈ targets /\ posix_path t' = t.
Proof.
  unfold normalized. rewrite sort_by_perm, elem_of_remove_dups, list_elem_of_fmap. firstorder.
Qed.
Lemma normalized_NoDup targets : NoDup (normalized targets).
Proof. unfold normalized. rewrite sort_by_perm. apply NoDup_remove_dups. Qed.
Lemma normalized_sorted targets :
  StronglySorted (fun a b => str_leb a b = true) (normalized targets).
Proof. apply sort_by_sorted; [exact str_leb_total | exact str_leb_trans]. Qed.

Section plan_laws.
Variable command_for : list string -> list string.
Variables max_targets max_units : Z.
Local Abbreviation fits := (fits command_for max_targets max_units).
Local Abbreviation plan_step := (plan_step command_for max_targets max_units).
Local Abbreviation plan := (plan_semgrep_target_chunks command_for max_targets max_units).

(** The chunks the loop has so far. *)
Definition flushed (st : list (list string) * list string) : list (list string) :=
  if nonempty st.2 then st.1 ++ [st.2] else st.1.

Definition chunk_ok (chunk : list string) : Prop := chunk <> [] /\ fits chunk = true.

(** A chunk ends where its next target no longer fits. *)
Definition greedy (chunks : list (list string)) : Prop :=
  forall i c t d, chunks !! i = Some c -> chunks !! S i = Some (t :: d) ->
    fits (c ++ [t]) = false.

Record planned (done : list string) (st : list (list string) * list string) : Prop := {
  pl_covers : concat (flushed st) = done;
  pl_ok : Forall chunk_ok (flushed st);
  pl_greedy : greedy (flushed st);
  pl_start : st.2 = [] -> st.1 = [];
}.

Lemma greedy_snoc chunks c :
  greedy chunks ->
  (forall b t d, last chunks = Some b -> c = t :: d -> fits (b ++ [t]) = false) ->
  greedy (chunks ++ [c]).
Proof.
  intros Hg Hc i b t d Hb Hd. apply lookup_app_Some in Hd. destruct Hd as [Hd | [Hi Hd]].
  - apply (Hg i b t d); [| exact Hd]. apply lookup_app_Some in Hb. destruct Hb as [Hb | [Hn _]]; [exact Hb |].
    apply lookup_lt_Some in Hd. lia.
  - destruct (S i - length chunks)%nat as [| k] eqn:Hk; [| destruct k; discriminate].
    injection Hd as ->. rewrite lookup_app_l in Hb by lia. eapply Hc; [| reflexivity].
    rewrite last_lookup. replace (pred (length chunks)) with i by lia. exact Hb.
Qed.

(** Extending the last chunk keeps the breaks before it. *)
Lemma greedy_extend chunks c x :
  c <> [] -> greedy (chunks ++ [c]) -> greedy (chunks ++ [c ++ [x]]).
Proof.
  intros Hc Hg i b t d Hb Hd.
  assert (Hi : (S i <= length chunks)%nat).
  { apply lookup_lt_Some in Hd. rewrite length_app in Hd. simpl in Hd. lia. }
  rewrite lookup_app_l in Hb by lia.
  apply lookup_app_Some in Hd. destruct Hd as [Hd | [Hge Hd]].
  - pose proof (lookup_lt_Some _ _ _ Hd). apply (Hg i b t d); rewrite lookup_app_l by lia; assumption.
  - destruct (S i - length chunks)%nat as [| k] eqn:Hk; [| destruct k; discriminate].
    injection Hd as Hd. destruct c as [| y c]; [congruence |]. injection Hd as -> Hd.
    apply (Hg i b t c); [rewrite lookup_app_l by lia; exact Hb |].
    rewrite lookup_app_r by lia. rewrite Hk. reflexivity.
Qed.

Lemma plan_step_planned done st t st' :
  planned done st -> plan_step st t = Ok st' -> planned (done ++ [t]) st' /\ st'.2 <> [].
Proof.
  destruct st as [res cur]. intros [Hcov Hok Hg Hst] Hs. unfold Scans.plan_step in Hs. simpl in *.
  unfold flushed in Hcov, Hok, Hg. simpl in *.
  destruct (fits (cur ++ [t])) eqn:Hf.
  - injection Hs as <-. split; [| destruct cur; discriminate].
    assert (Hfl : flushed (res, cur ++ [t]) = res ++ [cur ++ [t]]) by (destruct cur; reflexivity).
    split; simpl; rewrite ?Hfl; [| | | destruct cur; discriminate].
    + rewrite <- Hcov, concat_app. simpl. rewrite app_nil_r, app_assoc. f_equal.
      destruct cur as [| y cur]; [rewrite (Hst eq_refl); reflexivity |].
      simpl. rewrite concat_app. simpl. rewrite app_nil_r. reflexivity.
    + apply Forall_app. split; [destruct cur; [exact Hok | apply Forall_app in Hok; apply Hok] |].
      repeat constructor; [destruct cur; discriminate | exact Hf].
    + destruct cur as [| y cur]; [| apply greedy_extend; [discriminate | exact Hg]].
      rewrite (Hst eq_refl). intros i b z d Hb Hd. destruct i; discriminate.
  - destruct (fits [t]) eqn:Ht; [| discriminate]. injection Hs as <-. split; [| discriminate].
    split; [| | | discriminate]; unfold flushed; simpl.
    + rewrite concat_app, <- Hcov. reflexivity.
    + apply Forall_app. split; [exact Hok |]. repeat constructor; [discriminate | exact Ht].
    + apply greedy_snoc; [exact Hg |]. intros b z d Hb [= <- <-].
      destruct cur as [| y cur]; simpl in Hb.
      * simpl in Hf. congruence.
      * rewrite last_snoc in Hb. congruence.
Qed.

Lemma plan_loop targets : forall done st st',
  planned done st -> fold_result plan_step st targets = Ok st' -> planned (done ++ targets) st'.
Proof.
  induction targets as [| t targets IH]; intros done st st' Hp Hf; simpl in Hf.
  { injection Hf as <-. rewrite app_nil_r. exact Hp. }
  apply rbind_Ok in Hf. destruct Hf as (st1 & Hs & Hf). eapply plan_step_planned in Hs; [| exact Hp].
  rewrite cons_middle, app_assoc. eapply IH; [apply Hs | exact Hf].
Qed.

Lemma plan_Ok targets chunks :
  plan targets = Ok chunks ->
  1 <= max_targets /\ 1 <= max_units
  /\ (forall t, t ∈ normalized targets -> invalid_target t = false)
  /\ concat chunks = normalized targets /\ Forall chunk_ok chunks /\ greedy chunks.
Proof.
  unfold Scans.plan_semgrep_target_chunks. intros Hp.
  destruct ((max_targets <? 1) || (max_units <? 1)) eqn:Hb; [discriminate |].
  destruct (existsb invalid_target (normalized targets)) eqn:Hv; [discriminate |].
  apply rbind_Ok in Hp. destruct Hp as (st & Hf & [= <-]).
  boolify. destruct Hb. split; [assumption |]. split; [assumption |]. split.
  { intros t Ht. apply not_true_iff_false. intros Hi. apply not_true_iff_false in Hv. apply Hv.
    apply existsb_exists. exists t. rewrite <- list_elem_of_In. auto. }
  destruct (plan_loop (normalized targets) [] ([], []) st) as [Hcov Hok Hg _]; [| exact Hf | auto].
  split; try reflexivity; [constructor | intros i; destruct i; discriminate].
Qed.

(** The loop can only fail on a target too long for a command of its own. *)
Lemma plan_returns targets :
  1 <= max_targets -> 1 <= max_units ->
  (forall t, t ∈ normalized targets -> invalid_target t = false /\ fits [t] = true) ->
  exists chunks, plan targets = Ok chunks.
Proof.
  intros Ht Hu Hall. unfold Scans.plan_semgrep_target_chunks.
  replace (max_targets <? 1) with false by lia. replace (max_units <? 1) with false by lia. simpl.
  replace (existsb _ _) with false.
  2:{ symmetry. apply not_true_iff_false. rewrite existsb_exists. intros (t & Hin & Hi).
      apply list_elem_of_In in Hin. destruct (Hall t Hin). congruence. }
  destruct (fold_result_total (fun _ => True) plan_step ([], []) (normalized targets)) as (st & -> & _);
    [| exact I | simpl; eauto].
  intros st t Hin _. unfold Scans.plan_step. destruct (fits (st.2 ++ [t])); [eauto |].
  destruct (Hall t Hin) as [_ ->]. simpl. eauto.
Qed.
End plan_laws.

(** ** Commands with a fixed prefix *)

(** What both callers use: the fixed arguments followed by the targets. *)
Definition prefixed (prefix targets : list string) : list string := prefix ++ targets.

Lemma fits_sublist prefix max_targets max_units l k :
  sublist l k -> fits (prefixed prefix) max_targets max_units k = true ->
  fits (prefixed prefix) max_targets max_units l = true.
Proof.
  intros Hs. unfold fits. pose proof (sublist_length _ _ Hs).
  destruct (max_targets <? Z.of_nat (length k)) eqn:Hk; [discriminate |].
  replace (max_targets <? Z.of_nat (length l)) with false by lia. intros Hu.
  pose proof (units_sublist (prefixed prefix l) (prefixed prefix k)
                (sublist_app _ _ _ _ ltac:(reflexivity) Hs)). lia.
Qed.

Lemma normalized_one t : normalized [t] = [posix_path t].
Proof. reflexivity. Qed.

(** Planning succeeds on a set of targets exactly when it succeeds on each
    of them alone: once the targets that are too long by themselves are set
    aside, the rest can always be planned. *)
Theorem plan_accepts_iff prefix max_targets max_units targets :
  1 <= max_targets -> 1 <= max_units ->
  (exists chunks, plan_semgrep_target_chunks (prefixed prefix) max_targets max_units targets
                  = Ok chunks)
  <-> Forall (fun t => plan_semgrep_target_chunks (prefixed prefix) max_targets max_units [t]
                       = Ok [[posix_path t]]) targets.
Proof.
  intros Hm Hu. rewrite Forall_forall. split.
  - intros [chunks Hp] t Ht. apply plan_Ok in Hp. destruct Hp as (_ & _ & Hv & Hcat & Hok & _).
    assert (Hin : posix_path t ∈ normalized targets) by (apply normalized_elem; eauto).
    assert (Hfit : fits (prefixed prefix) max_targets max_units [posix_path t] = true).
    { pose proof Hin as Hc. rewrite <- Hcat, list_elem_of_In, in_concat in Hc.
      destruct Hc as (c & Hc & Htc). rewrite Forall_forall in Hok.
      apply (fits_sublist _ _ _ _ c); [apply singleton_sublist_l, list_elem_of_In; exact Htc |].
      apply Hok, list_elem_of_In. exact Hc. }
    unfold plan_semgrep_target_chunks. rewrite normalized_one. simpl. rewrite (Hv _ Hin). simpl.
    replace (max_targets <? 1) with false by lia. replace (max_units <? 1) with false by lia. simpl.
    unfold plan_step. simpl. rewrite Hfit. reflexivity.
  - intros Hall. apply plan_returns; [exact Hm | exact Hu |]. intros t Ht.
    apply normalized_elem in Ht. destruct Ht as (t' & Ht' & <-).
    apply Hall, plan_Ok in Ht'. destruct Ht' as (_ & _ & Hv & _ & Hok & _).
    split; [apply Hv; rewrite normalized_one; left |]. apply (Forall_inv Hok).
Qed.

(** ** Splitting by size *)

Lemma sublist_concat {A} (c : list A) l : c ∈ l -> sublist c (concat l).
Proof.
  induction l as [| d l IH]; intros Hc; [inversion Hc |]. simpl. apply elem_of_cons in Hc.
  destruct Hc as [-> | Hc]; [apply sublist_inserts_r | apply sublist_inserts_l, IH, Hc]; reflexivity.
Qed.

Section split_laws.
Variable size_for : string -> option Z.
Variable max_bytes : Z.
Hypothesis max_pos : 1 <= max_bytes.
Local Abbreviation split_step := (split_step size_for max_bytes).
Local Abbreviation split_root := (split_root size_for max_bytes).
Local Abbreviation split := (split_target_chunks_by_source_bytes size_for max_bytes).

Definition chunk_bytes (chunk : list string) : Z :=
  foldr (fun t n => default 0 (size_for t) + n) 0 chunk.

Lemma chunk_bytes_snoc chunk t :
  chunk_bytes (chunk ++ [t]) = chunk_bytes chunk + default 0 (size_for t).
Proof. induction chunk as [| u chunk IH]; simpl; [lia |]. rewrite IH. lia. Qed.

(** Only a target that is too large by itself exceeds the limit. *)
Definition piece_ok (chunk : list string) : Prop :=
  chunk <> [] /\ (chunk_bytes chunk <= max_bytes \/ length chunk = 1%nat).

(** The pieces of one root: [pieces] are closed, [current] is open. *)
Definition splitting (pieces : list (list string)) (current : list string) (total : Z) : Prop :=
  Forall piece_ok pieces /\ total = chunk_bytes current /\ 0 <= total <= max_bytes.

Lemma split_step_Ok res pieces current total t st :
  splitting pieces current total ->
  split_step (res ++ pieces, current, total) t = Ok st ->
  exists pieces' current' total', st = (res ++ pieces', current', total')
    /\ splitting pieces' current' total'
    /\ concat pieces' ++ current' = concat pieces ++ current ++ [t].
Proof.
  intros (Hok & Htot & Hb) Hs. unfold Scans.split_step in Hs.
  destruct (size_for t) as [size |] eqn:Hsize; [| discriminate].
  destruct (size <? 0) eqn:Hpos; [discriminate |].
  assert (Hclose : forall c, c <> [] -> chunk_bytes c <= max_bytes -> Forall piece_ok (pieces ++ [c])).
  { intros c Hc Hle. apply Forall_app. split; [exact Hok | repeat constructor; auto]. }
  pose proof (chunk_bytes_snoc current t) as Hsnoc. rewrite Hsize in Hsnoc. simpl in Hsnoc.
  assert (Hone : piece_ok [t]) by (split; [discriminate | right; reflexivity]).
  assert (Hbt : chunk_bytes [t] = size) by (simpl; rewrite Hsize; simpl; lia).
  destruct (nonempty current && (max_bytes <? total + size)) eqn:Hover; boolify.
  - destruct Hover as [Hcur Hlim]. assert (Hle : chunk_bytes current <= max_bytes) by lia.
    destruct (max_bytes <? size) eqn:Hbig; injection Hs as <-.
    + exists ((pieces ++ [current]) ++ [[t]]), [], 0. rewrite !app_assoc. split; [reflexivity |].
      split; [| rewrite !concat_app; simpl; rewrite !app_nil_r; reflexivity].
      split; [apply Forall_app; auto |]. simpl. lia.
    + exists (pieces ++ [current]), [t], size. rewrite !app_assoc. split; [reflexivity |].
      split; [| rewrite !concat_app; simpl; rewrite !app_nil_r; reflexivity].
      split; [auto |]. lia.
  - destruct (max_bytes <? size) eqn:Hbig; injection Hs as <-.
    + assert (Hcur : current = []).
      { destruct current; [reflexivity |]. exfalso. specialize (Hover ltac:(discriminate)). lia. }
      subst current. exists (pieces ++ [[t]]), [], 0. rewrite !app_assoc. split; [reflexivity |].
      split; [| rewrite !concat_app; simpl; rewrite !app_nil_r; reflexivity].
      split; [apply Forall_app; auto |]. simpl. lia.
    + exists pieces, (current ++ [t]), (total + size). split; [reflexivity |].
      split; [| reflexivity]. split; [exact Hok |]. split; [lia |].
      destruct current; [simpl in *; lia |]. specialize (Hover ltac:(discriminate)). lia.
Qed.

Lemma split_loop targets : forall res pieces current total st,
  splitting pieces current total ->
  fold_result split_step (res ++ pieces, current, total) targets = Ok st ->
  exists pieces' current' total', st = (res ++ pieces', current', total')
    /\ splitting pieces' current' total'
    /\ concat pieces' ++ current' = concat pieces ++ current ++ targets.
Proof.
  induction targets as [| t targets IH]; intros res pieces current total st Hp Hf; simpl in Hf.
  { injection Hf as <-. exists pieces, current, total. rewrite app_nil_r. auto. }
  apply rbind_Ok in Hf. destruct Hf as (st1 & Hs & Hf).
  apply split_step_Ok in Hs; [| exact Hp]. destruct Hs as (p1 & c1 & t1 & -> & Hp1 & Heq).
  apply IH in Hf; [| exact Hp1]. destruct Hf as (p2 & c2 & t2 & -> & Hp2 & Heq2).
  exists p2, c2, t2. split; [reflexivity |]. split; [exact Hp2 |].
  rewrite Heq2, app_assoc, Heq, <- !app_assoc. reflexivity.
Qed.

Lemma split_root_Ok res root res' :
  split_root res root = Ok res' ->
  exists pieces, res' = res ++ pieces /\ concat pieces = root /\ Forall piece_ok pieces.
Proof.
  intros Hs. unfold Scans.split_root in Hs. apply rbind_Ok in Hs. destruct Hs as (st & Hf & Hs).
  rewrite <- (app_nil_r res) in Hf.
  apply split_loop in Hf; [| split; [constructor | simpl; lia]].
  destruct Hf as (pieces & current & total & -> & (Hok & Htot & Hb) & Hcat). simpl in Hcat.
  injection Hs as <-. destruct current as [| t current]; simpl.
  - exists pieces. rewrite app_nil_r in Hcat. auto.
  - exists (pieces ++ [t :: current]). rewrite app_assoc, concat_app. simpl. rewrite app_nil_r.
    split; [reflexivity |]. split; [exact Hcat |]. apply Forall_app. split; [exact Hok |].
    constructor; [| constructor]. split; [discriminate | left; lia].
Qed.

Lemma split_roots_Ok roots : forall res chunks,
  fold_result split_root res roots = Ok chunks ->
  exists pieces, chunks = res ++ pieces /\ concat pieces = concat roots /\ Forall piece_ok pieces
    /\ Forall (fun c => exists root, root ∈ roots /\ sublist c root) pieces.
Proof.
  induction roots as [| root roots IH]; intros res chunks Hf; simpl in Hf.
  { injection Hf as <-. exists []. rewrite app_nil_r. auto. }
  apply rbind_Ok in Hf. destruct Hf as (res1 & Hs & Hf). apply split_root_Ok in Hs.
  destruct Hs as (p1 & -> & Hcat1 & Hok1). apply IH in Hf.
  destruct Hf as (p2 & -> & Hcat2 & Hok2 & Hsub2). exists (p1 ++ p2).
  split; [rewrite app_assoc; reflexivity |].
  split; [rewrite concat_app, Hcat1, Hcat2; reflexivity |].
  split; [apply Forall_app; auto |]. apply Forall_app. split.
  - apply Forall_forall. intros c Hc. exists root. split; [left |]. rewrite <- Hcat1.
    apply sublist_concat, Hc.
  - eapply Forall_impl; [exact Hsub2 |]. intros c (r & Hr & Hs). exists r. split; [right; exact Hr | exact Hs].
Qed.

Lemma split_step_returns st t :
  (exists size, size_for t = Some size /\ 0 <= size) -> exists st', split_step st t = Ok st'.
Proof.
  intros (size & Hs & Hp). unfold Scans.split_step. rewrite Hs.
  replace (size <? 0) with false by lia. destruct st as [[res current] total].
  destruct (nonempty current && _); eauto.
Qed.

Lemma split_returns roots :
  (forall t, t ∈ concat roots -> exists size, size_for t = Some size /\ 0 <= size) ->
  exists chunks, split roots = Ok chunks.
Proof.
  intros Hall. unfold split_target_chunks_by_source_bytes.
  replace (max_bytes <? 1) with false by lia.
  destruct (fold_result_total (fun _ => True) split_root [] roots) as (chunks & Hc & _); [| exact I | eauto].
  intros res root Hroot _. unfold Scans.split_root.
  destruct (fold_result_total (fun _ => True) split_step (res, [], 0) root) as ([[r c] n] & -> & _);
    [| exact I | simpl; eauto].
  intros st t Ht _. destruct (split_step_returns st t) as [st' Hst]; [| eauto].
  apply Hall. eapply elem_of_sublist; [exact Ht | apply sublist_concat, Hroot].
Qed.
End split_laws.

(** C38. The fallback scan covers every target once within its limits: planning
    and then splitting returns chunks that list each normalized target exactly
    once and in order, each within the target count and the command length,
    and each within the source size unless it is one oversized target. *)
Theorem scan_chunks_safe prefix size_for max_targets max_units max_bytes targets roots :
  plan_semgrep_target_chunks (prefixed prefix) max_targets max_units targets = Ok roots ->
  1 <= max_bytes ->
  (forall t, t ∈ targets -> exists size, size_for (posix_path t) = Some size /\ 0 <= size) ->
  exists chunks, split_target_chunks_by_source_bytes size_for max_bytes roots = Ok chunks
    /\ NoDup (concat chunks) /\ StronglySorted (fun a b => str_leb a b = true) (concat chunks)
    /\ (forall t, t ∈ concat chunks <-> exists t', t' ∈ targets /\ posix_path t' = t)
    /\ Forall (fun chunk => Z.of_nat (length chunk) <= max_targets
                  /\ semgrep_command_utf16_units (prefix ++ chunk) <= max_units
                  /\ piece_ok size_for max_bytes chunk) chunks.
Proof.
  intros Hp Hm Hsizes. apply plan_Ok in Hp. destruct Hp as (_ & _ & _ & Hcat & Hok & _).
  destruct (split_returns size_for max_bytes Hm roots) as [chunks Hs].
  { rewrite Hcat. intros t Ht. apply normalized_elem in Ht. destruct Ht as (t' & Ht' & <-). auto. }
  exists chunks. split; [exact Hs |]. unfold split_target_chunks_by_source_bytes in Hs.
  replace (max_bytes <? 1) with false in Hs by lia. apply split_roots_Ok in Hs; [| exact Hm].
  destruct Hs as (pieces & -> & Hcat' & Hpieces & Hsub). simpl. rewrite Hcat', Hcat.
  split; [apply normalized_NoDup |]. split; [apply normalized_sorted |].
  split; [intros t; apply normalized_elem |].
  rewrite Forall_forall in *. intros chunk Hc. destruct (Hsub chunk Hc) as (root & Hroot & Hs).
  pose proof (fits_sublist prefix max_targets max_units _ _ Hs (proj2 (Hok root Hroot))) as Hfit.
  unfold fits in Hfit. destruct (max_targets <? Z.of_nat (length chunk)) eqn:Hn; [discriminate |].
  split; [lia |]. split; [unfold prefixed in Hfit; lia | apply Hpieces, Hc].
Qed.
