(* ===== verification/Text.v ===== *)
(** * Python text

    What the modelled code uses of Python's [str] beyond bytes: code points,
    [isdecimal], [int(text)] and [f"{n:03d}"]. A string is its UTF-8
    encoding. *)
From stdpp Require Import pretty.
From S2P Require Import Prelude Records CanonicalJson.

Definition byte_of (c : Ascii.ascii) : Z := Z.of_nat (Ascii.nat_of_ascii c).

(** The payload bits of the first byte of a code point. *)
Definition lead_bits (b : Z) : Z :=
  if b <? 128 then b else if b <? 224 then b - 192 else if b <? 240 then b - 224 else b - 240.

(** [acc] is the code point being read. *)
Fixpoint points_from (acc : Z) (s : string) : list Z :=
  match s with
  | EmptyString => [acc]
  | String c s =>
      let b := byte_of c in
      if (128 <=? b) && (b <? 192) then points_from (acc * 64 + (b - 128)) s
      else acc :: points_from (lead_bits b) s
  end.

Definition code_points (s : string) : list Z :=
  match s with
  | EmptyString => []
  | String c s => points_from (lead_bits (byte_of c)) s
  end.

(** The zeros of the decimal digit ranges (category Nd) of Unicode 15.0, the
    version of Python 3.12. *)
Definition decimal_zeros : list Z :=
  [48; 1632; 1776; 1984; 2406; 2534; 2662; 2790; 2918; 3046; 3174; 3302; 3430; 3558; 3664; 3792;
   3872; 4160; 4240; 6112; 6160; 6470; 6608; 6784; 6800; 6992; 7088; 7232; 7248; 42528; 43216;
   43264; 43472; 43504; 43600; 44016; 65296; 66720; 68912; 69734; 69872; 69942; 70096; 70384;
   70736; 70864; 71248; 71360; 71472; 71904; 72016; 72784; 73040; 73120; 73552; 92768; 92864;
   93008; 120782; 120792; 120802; 120812; 120822; 123200; 123632; 124144; 125264; 130032].

(** [unicodedata.decimal(chr(c), None)] *)
Definition decimal_digit (c : Z) : option Z :=
  match find (fun z => (z <=? c) && (c <=? z + 9)) decimal_zeros with
  | Some z => Some (c - z)
  | None => None
  end.

(** [s.isdecimal()] *)
Definition isdecimal (s : string) : bool :=
  negb (eqb s "") && forallb (fun c => is_some (decimal_digit c)) (code_points s).

(** [sys.int_info.default_max_str_digits] *)
Definition max_str_digits : nat := 4300.

(** [int(s)] of a text for which [isdecimal] holds. *)
Definition int_of_text (s : string) : result Z :=
  let digits := omap decimal_digit (code_points s) in
  raise_if (max_str_digits <? length digits)%nat
    with "Exceeds the limit (4300 digits) for integer string conversion" ;;
  Ok (foldl (fun n d => 10 * n + d) 0 digits).

(** [s.partition(sep)] for a separator of one ASCII character: the part before
    its first occurrence, whether there is one, and the part after. *)
Fixpoint partition (sep : Ascii.ascii) (s : string) : string * bool * string :=
  match s with
  | EmptyString => ("", false, "")
  | String c s =>
      if Ascii.eqb c sep then ("", true, s)
      else let '(a, found, b) := partition sep s in (String c a, found, b)
  end.

(** [s.split(sep)] for a separator of one ASCII character *)
Fixpoint split_on (sep : Ascii.ascii) (s : string) : list string :=
  match s with
  | EmptyString => [""]
  | String c s =>
      if Ascii.eqb c sep then "" :: split_on sep s
      else match split_on sep s with
           | part :: parts => String c part :: parts
           | [] => [String c ""]
           end
  end.

(** ** Texts of ASCII digits *)

Definition ascii_digit (c : Ascii.ascii) : bool :=
  let n := Ascii.nat_of_ascii c in ((48 <=? n) && (n <=? 57))%nat.

Fixpoint ascii_value (acc : Z) (s : string) : Z :=
  match s with
  | EmptyString => acc
  | String c s => ascii_value (10 * acc + (byte_of c - 48)) s
  end.

Lemma ascii_digit_byte c : ascii_digit c = true <-> 48 <= byte_of c <= 57.
Proof. unfold ascii_digit, byte_of. rewrite andb_true_iff, !Nat.leb_le. lia. Qed.

Lemma ascii_decimal c : 48 <= c <= 57 -> decimal_digit c = Some (c - 48).
Proof.
  intros Hc. unfold decimal_digit. cbn [find decimal_zeros].
  replace ((48 <=? c) && (c <=? 48 + 9)) with true by lia. reflexivity.
Qed.

Lemma ascii_points s acc :
  all_chars ascii_digit s = true ->
  points_from acc s = acc :: map byte_of (String.list_ascii_of_string s).
Proof.
  revert acc. induction s as [| c s IH]; intros acc Hs; simpl; [reflexivity |].
  simpl in Hs. apply andb_true_iff in Hs. destruct Hs as [Hc Hs]. apply ascii_digit_byte in Hc.
  replace ((128 <=? byte_of c) && (byte_of c <? 192)) with false by lia.
  rewrite IH by exact Hs. unfold lead_bits. replace (byte_of c <? 128) with true by lia. reflexivity.
Qed.

Lemma ascii_code_points s :
  all_chars ascii_digit s = true -> code_points s = map byte_of (String.list_ascii_of_string s).
Proof.
  destruct s as [| c s]; intros Hs; [reflexivity |]. simpl in *.
  apply andb_true_iff in Hs. destruct Hs as [Hc Hs]. apply ascii_digit_byte in Hc.
  rewrite ascii_points by exact Hs. unfold lead_bits. replace (byte_of c <? 128) with true by lia.
  reflexivity.
Qed.

Lemma ascii_isdecimal s : s <> "" -> all_chars ascii_digit s = true -> isdecimal s = true.
Proof.
  intros Hne Hs. unfold isdecimal. rewrite bool_decide_false by exact Hne. simpl.
  rewrite ascii_code_points by exact Hs. clear Hne. induction s as [| c s IH]; [reflexivity |].
  simpl in *. apply andb_true_iff in Hs. destruct Hs as [Hc Hs]. apply ascii_digit_byte in Hc.
  rewrite ascii_decimal by lia. simpl. auto.
Qed.

Lemma ascii_int s :
  all_chars ascii_digit s = true -> (String.length s <= max_str_digits)%nat ->
  int_of_text s = Ok (ascii_value 0 s).
Proof.
  intros Hs Hl. unfold int_of_text. rewrite ascii_code_points by exact Hs.
  assert (Hd : omap decimal_digit (map byte_of (String.list_ascii_of_string s))
               = map (fun c => byte_of c - 48) (String.list_ascii_of_string s)).
  { clear Hl. induction s as [| c s IH]; [reflexivity |]. simpl in *. apply andb_true_iff in Hs.
    destruct Hs as [Hc Hs]. apply ascii_digit_byte in Hc. cbn. rewrite ascii_decimal by lia.
    f_equal. apply IH, Hs. }
  rewrite Hd, length_map.
  assert (Hn : length (String.list_ascii_of_string s) = String.length s)
    by (clear; induction s as [| c s IH]; simpl; [reflexivity | rewrite IH; reflexivity]).
  rewrite Hn. replace (max_str_digits <? String.length s)%nat with false
    by (symmetry; apply Nat.ltb_ge; exact Hl).
  f_equal. clear. generalize 0. induction s as [| c s IH]; intros acc; simpl; [reflexivity | apply IH].
Qed.

Lemma digit_char (d : N) : (d < 10)%N -> byte_of (pretty_N_char d) = 48 + Z.of_N d.
Proof.
  intros Hd. assert (d = 0 \/ d = 1 \/ d = 2 \/ d = 3 \/ d = 4 \/ d = 5 \/ d = 6 \/ d = 7 \/ d = 8 \/ d = 9)%N
    as H by lia.
  destruct_or! H; subst; reflexivity.
Qed.

(** [f"{n:0{width}d}"] of a natural number. *)
Lemma pretty_go_value (x : N) : forall s,
  ascii_value 0 (pretty_N_go x s) = ascii_value (Z.of_N x) s
  /\ (all_chars ascii_digit s = true -> all_chars ascii_digit (pretty_N_go x s) = true)
  /\ forall k, (x < 10 ^ N.of_nat k)%N ->
       (String.length (pretty_N_go x s) <= k + String.length s)%nat.
Proof.
  induction (N.lt_wf_0 x) as [x _ IH]; intros s. destruct (decide (0 < x)%N) as [Hx | Hx].
  - rewrite pretty_N_go_step by exact Hx.
    destruct (IH (x `div` 10)%N ltac:(apply N.div_lt; lia) (String (pretty_N_char (x `mod` 10)) s))
      as (Hv & Hd & Hl).
    assert (Hc : byte_of (pretty_N_char (x `mod` 10)) = 48 + Z.of_N (x `mod` 10)).
    { pose proof (N.mod_lt x 10 ltac:(lia)) as Hm. apply digit_char, Hm. }
    split; [| split].
    + rewrite Hv. simpl. f_equal. rewrite Hc, N2Z.inj_div, N2Z.inj_mod. change (Z.of_N 10) with 10.
      pose proof (Z.div_mod (Z.of_N x) 10 ltac:(lia)). lia.
    + intros Hs. apply Hd. simpl. rewrite Hs, andb_true_r. apply ascii_digit_byte.
      rewrite Hc. pose proof (N.mod_lt x 10 ltac:(lia)) as Hm. clear -Hm. revert Hm.
      generalize (x `mod` 10)%N. intros d Hm. lia.
    + intros k Hk. destruct k as [| k]; [simpl in Hk; lia |].
      rewrite Nat2N.inj_succ, N.pow_succ_r' in Hk.
      pose proof (Hl k ltac:(apply N.Div0.div_lt_upper_bound; lia)) as Hlk. simpl in Hlk. lia.
  - replace x with 0%N by lia. rewrite pretty_N_go_0. split; [reflexivity |]. split; [auto | lia].
Qed.

Lemma pretty_text (n : Z) (k : nat) :
  0 <= n < 10 ^ Z.of_nat (S k) ->
  ascii_value 0 (pretty n) = n /\ all_chars ascii_digit (pretty n) = true
  /\ (1 <= String.length (pretty n) <= S k)%nat.
Proof.
  intros Hn. destruct n as [| p | p]; [simpl; repeat split; lia | | lia].
  change (pretty (Z.pos p)) with (pretty_N_go (N.pos p) "").
  destruct (pretty_go_value (N.pos p) "") as (Hv & Hd & Hl). rewrite Hv.
  split; [reflexivity |]. split; [apply Hd; reflexivity |].
  specialize (Hl (S k) ltac:(apply N2Z.inj_lt; rewrite N2Z.inj_pow, nat_N_Z; exact (proj2 Hn))). simpl String.length in Hl at 2.
  split; [| lia].
  destruct (pretty_N_go (N.pos p) "") eqn:He; [| simpl; lia].
  exfalso. change (pretty_N_go (N.pos p) "") with (pretty (Z.pos p)) in He.
  destruct (pretty_first (Z.pos p)) as (c & t & Hc & _). congruence.
Qed.

Lemma zeros_value k s :
  ascii_value 0 (String.string_of_list_ascii (repeat (Ascii.ascii_of_nat 48) k) +:+ s)
  = ascii_value 0 s.
Proof. induction k as [| k IH]; [reflexivity | exact IH]. Qed.

Lemma zeros_text k s :
  all_chars ascii_digit (String.string_of_list_ascii (repeat (Ascii.ascii_of_nat 48) k) +:+ s)
  = all_chars ascii_digit s
  /\ String.length (String.string_of_list_ascii (repeat (Ascii.ascii_of_nat 48) k) +:+ s)
     = (k + String.length s)%nat.
Proof.
  induction k as [| k [IH1 IH2]]; [split; reflexivity |]. split; [exact IH1 |].
  change (S (String.length (String.string_of_list_ascii (repeat (Ascii.ascii_of_nat 48) k) +:+ s))
          = S (k + String.length s)). rewrite IH2. reflexivity.
Qed.

Lemma zero_padded_text width (n : Z) (k : nat) :
  0 <= n < 10 ^ Z.of_nat (S k) ->
  ascii_value 0 (zero_padded width n) = n /\ all_chars ascii_digit (zero_padded width n) = true
  /\ (1 <= String.length (zero_padded width n))%nat
  /\ (width <= String.length (zero_padded width n) <= width + S k)%nat.
Proof.
  intros Hn. destruct (pretty_text n k Hn) as (Hv & Hd & Hl). unfold zero_padded.
  destruct (zeros_text (width - String.length (pretty n)) (pretty n)) as [-> ->].
  rewrite zeros_value. repeat split; try assumption; lia.
Qed.
