(* ===== verification/Groups.v ===== *)
(** * Presentation groups of findings

    [simple_runtime/finding_groups.py] with [FlowAnchor] of
    [simple_runtime/finding_flow.py]: verified findings are grouped only when
    their flow anchors are proven equal. A dictionary is the list of its items
    in insertion order. *)
From Stdlib Require Import Sorting.Sorted.
From S2P Require Import Prelude Records Hash CanonicalJson Text.

(** ** Data *)

Record FlowAnchor := mkAnchor {
  fa_route : string;
  fa_function : string;
  fa_source_file : string;
  fa_source_line : Z;
  fa_source_access : string;
  fa_source_key : string;
  fa_def_use_nodes : list string;
  fa_sink_file : string;
  fa_sink_line : Z;
  fa_sink_callee : string;
  fa_sink_argument : Z;
  fa_branch_nodes : list string;
  fa_cwe : string;
  fa_trace_nodes : list string;
}.

Record CandidateOrigin := mkOrigin {
  co_engine : string;
  co_rule_id : string;
  co_artifact_ref : StoredDataRef;
  co_result_index : Z;
}.

Record VerifiedFindingMember := mkMember {
  vm_analysis_id : string;
  vm_workspace_id : string;
  vm_commit_id : string;
  vm_display_id : string;
  vm_finding_ref : StoredDataRef;
  vm_hypothesis_id : string;
  vm_validated_poc_ref : StoredDataRef;
  vm_proposal_ref : StoredDataRef;
  vm_cwe_ref : StoredDataRef;
  vm_candidate_ids : list string;
  vm_candidate_origins : list CandidateOrigin;
  vm_scope_status : string;
  vm_anchor : option FlowAnchor;
  vm_undetermined_reason : option string;
  vm_surface_id : option string;
}.

#[export] Instance FlowAnchor_eq_dec : EqDecision FlowAnchor.
Proof. solve_decision. Defined.
#[export] Instance CandidateOrigin_eq_dec : EqDecision CandidateOrigin.
Proof. solve_decision. Defined.
#[export] Instance VerifiedFindingMember_eq_dec : EqDecision VerifiedFindingMember.
Proof. solve_decision. Defined.

Inductive GroupStatus := PROVEN_SAME_FLOW | GROUPING_UNDETERMINED.
#[export] Instance GroupStatus_eq_dec : EqDecision GroupStatus.
Proof. solve_decision. Defined.

Record FindingGroup := mkGroup {
  fg_group_id : string;
  fg_representative_id : string;
  fg_member_ids : list string;
  fg_members : list VerifiedFindingMember;
  fg_status : GroupStatus;
  fg_scope_status : string;
}.

Record FindingGroupProjection := mkProjection {
  gp_groups : list FindingGroup;
  gp_raw_count : nat;
  gp_visible_group_count : nat;
  gp_undetermined_count : nat;
}.

(** ** Keys *)

Definition _display_order (display_id : string) : result (Z * string) :=
  let '(prefix, separator, number) := partition (Ascii.ascii_of_nat 45) display_id in
  if eqb prefix "F" && separator && isdecimal number
  then let! n := int_of_text number in Ok (n, display_id)
  else Ok (2 ^ 63, display_id).

Definition order_leb (x y : Z * string) : bool :=
  (x.1 <? y.1) || ((x.1 =? y.1) && str_leb x.2 y.2).

(** [sorted(items, key=lambda item: _display_order(id_of(item)))] *)
Definition sorted_by_display {A} (id_of : A -> string) (items : list A) : result (list A) :=
  let! keys := map_result (fun x => _display_order (id_of x)) items in
  Ok (map snd (sort_by (fun x y => order_leb x.1 y.1) (zip keys items))).

(** The members of [asdict(anchor)] without its trace. *)
Definition flow_members (a : FlowAnchor) : list (string * json) :=
  [("route", JStr (fa_route a)); ("function", JStr (fa_function a));
   ("source_file", JStr (fa_source_file a)); ("source_line", JInt (fa_source_line a));
   ("source_access", JStr (fa_source_access a)); ("source_key", JStr (fa_source_key a));
   ("def_use_nodes", JArr (map JStr (fa_def_use_nodes a)));
   ("sink_file", JStr (fa_sink_file a)); ("sink_line", JInt (fa_sink_line a));
   ("sink_callee", JStr (fa_sink_callee a)); ("sink_argument", JInt (fa_sink_argument a));
   ("branch_nodes", JArr (map JStr (fa_branch_nodes a))); ("cwe", JStr (fa_cwe a))].

Definition legacy_identity (m : VerifiedFindingMember) : bool :=
  match vm_anchor m with
  | None => true
  | Some a => eqb (fa_cwe a) "CWE-78" && negb (nonempty (fa_trace_nodes a))
  end.

(** The dictionary [_group_key] takes the digest of. *)
Definition group_identity (m : VerifiedFindingMember) : json :=
  JObj
    ([("version", JStr (if legacy_identity m then "verified-python-flow-v1"
                        else "verified-python-flow-v2"));
      ("analysis_id", JStr (vm_analysis_id m)); ("workspace_id", JStr (vm_workspace_id m));
      ("commit_id", JStr (vm_commit_id m))]
     ++ match vm_anchor m with
        | Some a =>
            [("flow", JObj (flow_members a
                            ++ if nonempty (fa_trace_nodes a)
                               then [("trace_nodes", JArr (map JStr (fa_trace_nodes a)))]
                               else []))]
        | None =>
            [("singleton_display_id", JStr (vm_display_id m));
             ("hypothesis_id", JStr (vm_hypothesis_id m));
             ("finding_hash", JStr (sd_content_hash (vm_finding_ref m)))]
        end).

Definition _digest (v : json) : string := sha256 (_encode v).
Definition _group_key (m : VerifiedFindingMember) : string := _digest (group_identity m).

Definition _flow_without_trace_identity (m : VerifiedFindingMember) : result string :=
  match vm_anchor m with
  | None => Err (ValueError "FINDING_GROUP_FLOW_ANCHOR_REQUIRED")
  | Some a =>
      Ok (_encode
            (JObj [("version", JStr "verified-python-flow-v2-base");
                   ("analysis_id", JStr (vm_analysis_id m));
                   ("workspace_id", JStr (vm_workspace_id m));
                   ("commit_id", JStr (vm_commit_id m)); ("flow", JObj (flow_members a))]))
  end.

(** ** Grouping *)

(** [d.setdefault(key, []).extend(xs)] *)
Fixpoint extend {K V} `{EqDecision K} (key : K) (xs : list V) (d : list (K * list V))
  : list (K * list V) :=
  match d with
  | [] => [(key, xs)]
  | (k, ys) :: d => if eqb k key then (k, ys ++ xs) :: d else (k, ys) :: extend key xs d
  end.

Local Abbreviation buckets := (list (string * list VerifiedFindingMember)).

(** The first loop; the state is [by_display], [buckets] and [flow_buckets]. *)
Definition place_member (st : list (string * string) * buckets * buckets)
  (m : VerifiedFindingMember) : result (list (string * string) * buckets * buckets) :=
  let '(by_display, bs, flows) := st in
  let identity := (vm_analysis_id m, vm_display_id m) in
  raise_if mem identity by_display with "FINDING_GROUP_DUPLICATE_DISPLAY_ID" ;;
  match vm_anchor m with
  | None => Ok (identity :: by_display, extend (_group_key m) [m] bs, flows)
  | Some _ =>
      let! key := _flow_without_trace_identity m in
      Ok (identity :: by_display, bs, extend key [m] flows)
  end.

(** The inner loop over one flow bucket: [traced] and [untraced]. *)
Definition split_traces (st : list (list string * list VerifiedFindingMember)
                              * list VerifiedFindingMember) (m : VerifiedFindingMember)
  : result (list (list string * list VerifiedFindingMember) * list VerifiedFindingMember) :=
  match vm_anchor m with
  | None => Err AssertionError
  | Some a =>
      Ok (if nonempty (fa_trace_nodes a) then (extend (fa_trace_nodes a) [m] st.1, st.2)
          else (st.1, st.2 ++ [m]))
  end.

(** [buckets.setdefault(_group_key(ms[0]), []).extend(ms)] *)
Definition add_bucket (bs : buckets) (ms : list VerifiedFindingMember) : result buckets :=
  match ms with
  | [] => Err IndexError
  | m :: _ => Ok (extend (_group_key m) ms bs)
  end.

(** One flow bucket of the second loop. *)
Definition place_flow (bs : buckets) (entries : list VerifiedFindingMember) : result buckets :=
  let! st := fold_result split_traces ([], []) entries in
  let! bs := fold_result add_bucket bs (map snd st.1) in
  if nonempty st.2 then add_bucket bs st.2 else Ok bs.

(** [scope_values.pop() if len(scope_values) == 1 else "MIXED"] *)
Definition group_scope (ordered : list VerifiedFindingMember) : string :=
  match remove_dups (map vm_scope_status ordered) with
  | [s] => s
  | _ => "MIXED"
  end.

Definition make_group (bucket : string * list VerifiedFindingMember) : result FindingGroup :=
  let! ordered := sorted_by_display vm_display_id bucket.2 in
  match ordered with
  | [] => Err IndexError
  | first :: _ =>
      Ok (mkGroup bucket.1 (vm_display_id first) (map vm_display_id ordered) ordered
            (if is_some (vm_anchor first) then PROVEN_SAME_FLOW else GROUPING_UNDETERMINED)
            (group_scope ordered))
  end.

Definition group_verified_findings (members : list VerifiedFindingMember)
  : result FindingGroupProjection :=
  let! st := fold_result place_member ([], [], []) members in
  let '(_, bs, flows) := st in
  let! bs := fold_result place_flow bs (map snd flows) in
  let! groups := map_result make_group bs in
  let! groups := sorted_by_display fg_representative_id groups in
  Ok (mkProjection groups (length members) (length groups)
        (length (filter (fun g => fg_status g = GROUPING_UNDETERMINED) groups))).

(** ** Rows *)

Definition opt_text (o : option string) : json :=
  match o with Some s => JStr s | None => JNull end.
Definition status_text (s : GroupStatus) : string :=
  match s with
  | PROVEN_SAME_FLOW => "PROVEN_SAME_FLOW"
  | GROUPING_UNDETERMINED => "GROUPING_UNDETERMINED"
  end.

Definition origin_row (o : CandidateOrigin) : json :=
  JObj [("engine", JStr (co_engine o)); ("rule_id", JStr (co_rule_id o));
        ("artifact_hash", JStr (sd_content_hash (co_artifact_ref o)));
        ("result_index", JInt (co_result_index o))].

Definition member_row (m : VerifiedFindingMember) : json :=
  JObj [("display_id", JStr (vm_display_id m)); ("hypothesis_id", JStr (vm_hypothesis_id m));
        ("finding_hash", JStr (sd_content_hash (vm_finding_ref m)));
        ("validated_poc_hash", JStr (sd_content_hash (vm_validated_poc_ref m)));
        ("candidate_ids", JArr (map JStr (vm_candidate_ids m)));
        ("candidate_origins", JArr (map origin_row (vm_candidate_origins m)));
        ("surface_id", opt_text (vm_surface_id m)); ("scope_status", JStr (vm_scope_status m));
        ("undetermined_reason", opt_text (vm_undetermined_reason m))].

Definition group_row (g : FindingGroup) : json :=
  JObj [("group_id", JStr (fg_group_id g)); ("representative_id", JStr (fg_representative_id g));
        ("member_ids", JArr (map JStr (fg_member_ids g)));
        ("status", JStr (status_text (fg_status g))); ("scope_status", JStr (fg_scope_status g));
        ("members", JArr (map member_row (fg_members g)))].

Definition finding_group_rows (p : FindingGroupProjection) : list json :=
  map group_row (gp_groups p).

(** ** Dictionaries of lists *)

Section dict.
Context {K V : Type} `{EqDecision K} (P : K -> V -> Prop).
Implicit Types (d : list (K * list V)) (k : K) (xs : list V).

Definition values d : list V := concat (map snd d).

(** Unique keys, and under each key a non-empty list of values it is for. *)
Record dict_by d : Prop := {
  db_keys : NoDup (map fst d);
  db_values kv : kv ∈ d -> kv.2 <> [] /\ forall v, v ∈ kv.2 -> P kv.1 v;
}.

Lemma extend_values k xs d : values (extend k xs d) ≡ₚ values d ++ xs.
Proof.
  unfold values. induction d as [| [k' ys] d IH]; simpl.
  - rewrite app_nil_r. reflexivity.
  - case_bool_decide; simpl.
    + rewrite <- !app_assoc. apply Permutation_app_head, Permutation_app_comm.
    + rewrite IH, app_assoc. reflexivity.
Qed.

Lemma extend_keys k xs d k' : k' ∈ map fst (extend k xs d) <-> k' = k \/ k' ∈ map fst d.
Proof.
  induction d as [| [k1 ys] d IH]; simpl; [set_solver |].
  case_bool_decide as Hk; simpl; rewrite ?elem_of_cons, ?IH; [subst k1 |]; tauto.
Qed.

Lemma extend_elem k xs d kv :
  kv ∈ extend k xs d ->
  kv ∈ d \/ kv.1 = k /\ (kv.2 = xs \/ exists ys, (k, ys) ∈ d /\ kv.2 = ys ++ xs).
Proof.
  induction d as [| [k1 ys] d IH]; simpl; intros Hin.
  - apply list_elem_of_singleton in Hin. subst kv. auto.
  - case_bool_decide as Hk; apply elem_of_cons in Hin; destruct Hin as [-> | Hin].
    + subst k1. right. split; [reflexivity |]. right. exists ys. split; [left | reflexivity].
    + left. right. exact Hin.
    + left. left.
    + destruct (IH Hin) as [Hd | (Hk1 & [Hx | (zs & Hzs & Hx)])]; [left; right; exact Hd | auto |].
      right. split; [exact Hk1 |]. right. exists zs. split; [right; exact Hzs | exact Hx].
Qed.

Lemma extend_dict k xs d :
  dict_by d -> xs <> [] -> (forall v, v ∈ xs -> P k v) -> dict_by (extend k xs d).
Proof.
  intros [Hk Hv] Hxs Hp. split.
  - clear Hv. induction d as [| [k1 ys] d IH]; simpl; [apply NoDup_singleton |].
    simpl in Hk. apply NoDup_cons in Hk. destruct Hk as [Hn Hk].
    case_bool_decide as Heq; simpl; apply NoDup_cons; [auto |].
    split; [rewrite extend_keys; intros [? | ?]; auto | apply IH, Hk].
  - intros kv Hin. apply extend_elem in Hin.
    destruct Hin as [Hin | (-> & [-> | (ys & Hys & ->)])]; [auto | auto |].
    destruct (Hv _ Hys) as [Hne Hall]. simpl in *. split; [destruct ys; [congruence | discriminate] |].
    intros v Hin. apply elem_of_app in Hin. destruct Hin; auto.
Qed.

Lemma dict_nil : dict_by [].
Proof. split; [constructor | intros kv Hin; inversion Hin]. Qed.

(** Two entries that share a key are one entry. *)
Lemma dict_unique d kv kv' : dict_by d -> kv ∈ d -> kv' ∈ d -> kv.1 = kv'.1 -> kv = kv'.
Proof. intros Hd Hin Hin' Hk. eapply NoDup_map_inj; [apply Hd | | |]; eassumption. Qed.

Lemma values_elem d v : v ∈ values d <-> exists kv, kv ∈ d /\ v ∈ kv.2.
Proof.
  unfold values. rewrite list_elem_of_In, in_concat. split.
  - intros (ys & Hy & Hv). apply list_elem_of_In, list_elem_of_fmap in Hy.
    destruct Hy as (kv & -> & Hkv). exists kv. split; [exact Hkv | apply list_elem_of_In, Hv].
  - intros (kv & Hkv & Hv). exists kv.2. rewrite <- !list_elem_of_In. split; [| exact Hv].
    apply (list_elem_of_fmap_2 snd), Hkv.
Qed.
End dict.

(** ** Keys of equal flows *)

Lemma canon_strings l : map canon (map JStr l) = map JStr l.
Proof. induction l as [| s l IH]; simpl; [reflexivity | rewrite IH; reflexivity]. Qed.

#[export] Instance JStr_inj : Inj (=) (=) JStr.
Proof. intros s t H. congruence. Qed.

Lemma JArr_strings_inj l l' : JArr (map canon (map JStr l)) = JArr (map canon (map JStr l')) -> l = l'.
Proof. rewrite !canon_strings. intros H. injection H as H. exact (inj (fmap JStr) _ _ H). Qed.

Definition member_scope (m : VerifiedFindingMember) : string * string * string :=
  (vm_analysis_id m, vm_workspace_id m, vm_commit_id m).

Definition drop_trace (a : FlowAnchor) : FlowAnchor :=
  mkAnchor (fa_route a) (fa_function a) (fa_source_file a) (fa_source_line a) (fa_source_access a)
    (fa_source_key a) (fa_def_use_nodes a) (fa_sink_file a) (fa_sink_line a) (fa_sink_callee a)
    (fa_sink_argument a) (fa_branch_nodes a) (fa_cwe a) [].

Lemma anchor_split a a' :
  drop_trace a = drop_trace a' -> fa_trace_nodes a = fa_trace_nodes a' -> a = a'.
Proof.
  destruct a, a'. unfold drop_trace. simpl. intros H Ht. injection H. intros. subst. reflexivity.
Qed.

(** Equal objects agree on every member, whatever the order of the others. *)
Lemma canon_member l l' k :
  NoDup (map fst l) -> NoDup (map fst l') -> canon (JObj l) = canon (JObj l') ->
  option_map canon (assoc k l) = option_map canon (assoc k l').
Proof.
  intros Hl Hl' H. injection H as H.
  assert (Hassoc : forall m : list (string * json), NoDup (map fst m) ->
            forall v, option_map canon (assoc k m) = Some v
                      <-> (k, v) ∈ sort_by key_leb (map (fun kv => (kv.1, canon kv.2)) m)).
  { clear. intros m Hm v. rewrite sort_by_perm, list_elem_of_fmap. split.
    - destruct (assoc k m) as [w |] eqn:Ha; [| discriminate]. intros [= <-]. exists (k, w).
      split; [reflexivity |]. clear Hm. induction m as [| [k' w'] m IH]; [discriminate |].
      simpl in Ha. case_bool_decide as Hk; [injection Ha as ->; subst; left | right; auto].
    - intros ([k' w] & Hkw & Hin). simpl in Hkw. injection Hkw as -> ->.
      induction m as [| [k2 w2] m IH]; [inversion Hin |]. simpl in Hm |- *.
      apply NoDup_cons in Hm. destruct Hm as [Hn Hm]. apply elem_of_cons in Hin.
      destruct Hin as [[= -> ->] | Hin]; [rewrite bool_decide_true by reflexivity; reflexivity |].
      rewrite bool_decide_false; [apply IH; auto |]. intros ->. apply Hn.
      apply (list_elem_of_fmap_2 fst _ (k', w)), Hin. }
  apply option_eq. intros v. rewrite (Hassoc l Hl), (Hassoc l' Hl'), H. reflexivity.
Qed.

Lemma flow_keys a t :
  NoDup (map fst (flow_members a
                  ++ if nonempty t then [("trace_nodes", JArr (map JStr t))] else [])).
Proof. destruct t; apply (bool_decide_unpack _); vm_compute; exact I. Qed.

Ltac member H k :=
  let M := fresh "M" in
  pose proof (canon_member _ _ k (flow_keys _ _) (flow_keys _ _) H) as M; cbn -[map] in M;
  injection M; clear M; intros M.

(** A flow determines its anchor and trace. *)
Lemma flow_canon_inj a a' t t' :
  canon (JObj (flow_members a ++ if nonempty t then [("trace_nodes", JArr (map JStr t))] else []))
  = canon (JObj (flow_members a' ++ if nonempty t' then [("trace_nodes", JArr (map JStr t'))] else []))
  -> drop_trace a = drop_trace a' /\ t = t'.
Proof.
  intros H. split.
  - member H "route". member H "function". member H "source_file". member H "source_line".
    member H "source_access". member H "source_key". member H "def_use_nodes".
    member H "sink_file". member H "sink_line". member H "sink_callee". member H "sink_argument".
    member H "branch_nodes". member H "cwe".
    repeat match goal with
      | M : map canon (map JStr _) = map canon (map JStr _) |- _ =>
          apply (f_equal JArr), JArr_strings_inj in M
      end.
    unfold drop_trace. f_equal; assumption.
  - pose proof (canon_member _ _ "trace_nodes" (flow_keys _ _) (flow_keys _ _) H) as M.
    destruct t, t'; cbn -[map] in M; [reflexivity | discriminate M | discriminate M |].
    apply (inj Some), JArr_strings_inj in M. exact M.
Qed.

Definition identity_members (m : VerifiedFindingMember) : list (string * json) :=
  match group_identity m with JObj l => l | _ => [] end.

Lemma identity_keys m : NoDup (map fst (identity_members m)).
Proof.
  unfold identity_members, group_identity.
  destruct (vm_anchor m); apply (bool_decide_unpack _); vm_compute; exact I.
Qed.

(** The digested text of a finding determines its scope and its flow; without
    a flow it determines the finding's display id. *)
Lemma identity_inj a b :
  _encode (group_identity a) = _encode (group_identity b) ->
  member_scope a = member_scope b /\ vm_anchor a = vm_anchor b
  /\ (vm_anchor a = None -> vm_display_id a = vm_display_id b).
Proof.
  intros H. apply encode_canon in H.
  pose proof (fun k => canon_member _ _ k (identity_keys a) (identity_keys b) H) as M. clear H.
  pose proof (M "analysis_id") as Ha. pose proof (M "workspace_id") as Hw.
  pose proof (M "commit_id") as Hc. pose proof (M "flow") as Hf.
  pose proof (M "singleton_display_id") as Hd. clear M.
  unfold identity_members, group_identity, member_scope in *.
  cbn -[canon flow_members] in Ha, Hw, Hc. injection Ha as ->. injection Hw as ->. injection Hc as ->.
  split; [reflexivity |].
  destruct (vm_anchor a) as [f |], (vm_anchor b) as [f' |];
    cbn -[canon flow_members] in Hf, Hd; try discriminate.
  - apply (inj Some), flow_canon_inj in Hf. destruct Hf as [Hd' Ht].
    rewrite (anchor_split f f' Hd' Ht). split; [reflexivity | discriminate].
  - injection Hd as ->. auto.
Qed.

Lemma identity_same a b :
  member_scope a = member_scope b -> vm_anchor a = vm_anchor b -> vm_anchor a <> None ->
  _group_key a = _group_key b.
Proof.
  unfold _group_key, _digest, group_identity, legacy_identity, member_scope.
  intros Hs Hab Hn. injection Hs as -> -> ->. rewrite Hab in *.
  destruct (vm_anchor b); [reflexivity | congruence].
Qed.

Definition base_members (a : FlowAnchor) (m : VerifiedFindingMember) : list (string * json) :=
  [("version", JStr "verified-python-flow-v2-base"); ("analysis_id", JStr (vm_analysis_id m));
   ("workspace_id", JStr (vm_workspace_id m)); ("commit_id", JStr (vm_commit_id m));
   ("flow", JObj (flow_members a))].

Lemma base_keys a m : NoDup (map fst (base_members a m)).
Proof. apply (bool_decide_unpack _). vm_compute. exact I. Qed.

Lemma flow_identity_inj a b k :
  _flow_without_trace_identity a = Ok k -> _flow_without_trace_identity b = Ok k ->
  member_scope a = member_scope b
  /\ exists f f', vm_anchor a = Some f /\ vm_anchor b = Some f' /\ drop_trace f = drop_trace f'.
Proof.
  unfold _flow_without_trace_identity. intros Ha Hb.
  destruct (vm_anchor a) as [f |], (vm_anchor b) as [f' |]; try discriminate.
  pose proof (inj Ok _ _ (eq_trans Hb (eq_sym Ha))) as H. clear Ha Hb. apply encode_canon in H.
  pose proof (fun k => canon_member _ _ k (base_keys f' b) (base_keys f a) H) as M.
  pose proof (M "analysis_id") as Hi. pose proof (M "workspace_id") as Hw.
  pose proof (M "commit_id") as Hc. pose proof (M "flow") as Hf. clear M H.
  cbn -[canon flow_members] in Hi, Hw, Hc, Hf. unfold member_scope.
  injection Hi as ->. injection Hw as ->. injection Hc as ->. split; [reflexivity |].
  exists f, f'. split; [reflexivity |]. split; [reflexivity |].
  apply (inj Some) in Hf. rewrite <- (app_nil_r (flow_members f)), <- (app_nil_r (flow_members f')) in Hf.
  symmetry. apply (flow_canon_inj f' f [] []), Hf.
Qed.

(** ** The loops *)

Local Abbreviation by_group := (dict_by (fun k m => _group_key m = k)).
Local Abbreviation by_flow := (dict_by (fun k m => _flow_without_trace_identity m = Ok k)).

Definition has_trace (t : list string) (m : VerifiedFindingMember) : Prop :=
  exists a, vm_anchor m = Some a /\ fa_trace_nodes a = t.

Definition identity_of (m : VerifiedFindingMember) : string * string :=
  (vm_analysis_id m, vm_display_id m).

(** What the first loop has placed. *)
Record placed (ms : list VerifiedFindingMember)
  (st : list (string * string) * buckets * buckets) : Prop := {
  pd_seen i : i ∈ st.1.1 <-> i ∈ map identity_of ms;
  pd_distinct : NoDup (map identity_of ms);
  pd_groups : by_group st.1.2;
  pd_flows : by_flow st.2;
  pd_all : values st.1.2 ++ values st.2 ≡ₚ ms;
}.

Lemma extend_one {K} `{EqDecision K} (P : K -> VerifiedFindingMember -> Prop) k m d :
  dict_by P d -> P k m -> dict_by P (extend k [m] d).
Proof.
  intros Hd Hp. apply extend_dict; [exact Hd | discriminate |].
  intros v Hv. apply list_elem_of_singleton in Hv. subst. exact Hp.
Qed.

Lemma place_member_Ok ms st m st' :
  placed ms st -> place_member st m = Ok st' -> placed (ms ++ [m]) st'.
Proof.
  destruct st as [[seen bs] flows]. intros [Hseen Hnd Hg Hf Hall] Hp. unfold place_member in Hp.
  simpl in *. apply raise_if_Ok in Hp. destruct Hp as [Hnew Hp]. apply mem_false in Hnew.
  change (vm_analysis_id m, vm_display_id m) with (identity_of m) in *.
  assert (Hnd' : NoDup (map identity_of (ms ++ [m]))).
  { rewrite map_app. apply NoDup_app. split; [exact Hnd |]. split; [| apply NoDup_singleton].
    intros i Hi Hm. apply list_elem_of_singleton in Hm. subst i. apply Hnew, Hseen, Hi. }
  assert (Hseen' : forall i, i ∈ identity_of m :: seen <-> i ∈ map identity_of (ms ++ [m])).
  { intros i. rewrite map_app, elem_of_app, elem_of_cons, Hseen. simpl.
    rewrite list_elem_of_singleton. tauto. }
  destruct (vm_anchor m) as [a |] eqn:Ha.
  - apply rbind_Ok in Hp. destruct Hp as (key & Hkey & [= <-]).
    split; simpl; [exact Hseen' | exact Hnd' | exact Hg | apply extend_one; assumption |].
    rewrite extend_values, app_assoc, Hall. reflexivity.
  - injection Hp as <-.
    split; simpl; [exact Hseen' | exact Hnd' | apply extend_one; [assumption | reflexivity] | exact Hf |].
    rewrite extend_values, <- Hall, <- !app_assoc. apply Permutation_app_head, Permutation_app_comm.
Qed.

Lemma place_members_Ok l : forall ms st st',
  placed ms st -> fold_result place_member st l = Ok st' -> placed (ms ++ l) st'.
Proof.
  induction l as [| m l IH]; intros ms st st' Hp Hf; simpl in Hf.
  { injection Hf as <-. rewrite app_nil_r. exact Hp. }
  apply rbind_Ok in Hf. destruct Hf as (st1 & Hm & Hf).
  rewrite cons_middle, app_assoc. eapply IH; [eapply place_member_Ok; eassumption | exact Hf].
Qed.

Lemma place_members_return l : forall ms st,
  placed ms st -> NoDup (map identity_of (ms ++ l)) ->
  exists st', fold_result place_member st l = Ok st'.
Proof.
  induction l as [| m l IH]; intros ms st Hp Hnd; [simpl; eauto |].
  destruct (place_member st m) as [st1 | e] eqn:Hm.
  - simpl. rewrite Hm. simpl. apply (IH (ms ++ [m])); [eapply place_member_Ok; eassumption |].
    rewrite <- app_assoc. exact Hnd.
  - exfalso. destruct st as [[seen bs] flows]. unfold place_member in Hm.
    destruct (mem _ seen) eqn:Hmem.
    + apply mem_true in Hmem. change (vm_analysis_id m, vm_display_id m) with (identity_of m) in Hmem.
      apply (pd_seen _ _ Hp) in Hmem. rewrite map_app in Hnd. apply NoDup_app in Hnd.
      destruct Hnd as (_ & Hnd & _). apply (Hnd _ Hmem). left.
    + unfold _flow_without_trace_identity in Hm. destruct (vm_anchor m); discriminate.
Qed.

Lemma split_traces_Ok l : forall st,
  dict_by has_trace st.1 -> (forall m, m ∈ st.2 -> has_trace [] m) ->
  (forall m, m ∈ l -> vm_anchor m <> None) ->
  exists st', fold_result split_traces st l = Ok st' /\ dict_by has_trace st'.1
    /\ (forall m, m ∈ st'.2 -> has_trace [] m)
    /\ values st'.1 ++ st'.2 ≡ₚ (values st.1 ++ st.2) ++ l.
Proof.
  induction l as [| m l IH]; intros [traced untraced] Ht Hu Hl; simpl in *.
  { eexists. split; [reflexivity |]. rewrite app_nil_r. auto. }
  unfold split_traces at 1. destruct (vm_anchor m) as [a |] eqn:Ha;
    [| exfalso; apply (Hl m); [left | exact Ha]].
  cbn [rbind]. destruct (fa_trace_nodes a) as [| t0 ts] eqn:Htr; simpl.
  - destruct (IH (traced, untraced ++ [m])) as (st' & Hf & Hd & Hu' & Hp); simpl; [exact Ht | | |].
    + intros x Hx. apply elem_of_app in Hx. destruct Hx as [Hx | Hx]; [auto |].
      apply list_elem_of_singleton in Hx. subst. exists a. auto.
    + intros x Hx. apply Hl. right. exact Hx.
    + exists st'. split; [exact Hf |]. split; [exact Hd |]. split; [exact Hu' |].
      rewrite Hp. simpl. rewrite <- !app_assoc. reflexivity.
  - destruct (IH (extend (t0 :: ts) [m] traced, untraced)) as (st' & Hf & Hd & Hu' & Hp);
      simpl; [| exact Hu | |].
    + apply extend_one; [exact Ht | exists a; auto].
    + intros x Hx. apply Hl. right. exact Hx.
    + exists st'. split; [exact Hf |]. split; [exact Hd |]. split; [exact Hu' |].
      rewrite Hp. simpl. rewrite extend_values, <- !app_assoc. apply Permutation_app_head.
      rewrite <- Permutation_middle. reflexivity.
Qed.

(** Findings under one flow key with one trace share their group key. *)
Lemma same_flow_key k t a b :
  _flow_without_trace_identity a = Ok k -> _flow_without_trace_identity b = Ok k ->
  has_trace t a -> has_trace t b -> _group_key a = _group_key b.
Proof.
  intros Ha Hb (f & Hf & Ht) (f' & Hf' & Ht').
  destruct (flow_identity_inj a b k Ha Hb) as (Hs & g & g' & Hg & Hg' & Hd).
  apply identity_same; [exact Hs | | congruence].
  rewrite Hf, Hf'. f_equal. apply anchor_split; congruence.
Qed.

Lemma add_bucket_Ok bs ms :
  by_group bs -> ms <> [] -> (forall a b, a ∈ ms -> b ∈ ms -> _group_key a = _group_key b) ->
  exists bs', add_bucket bs ms = Ok bs' /\ by_group bs' /\ values bs' ≡ₚ values bs ++ ms.
Proof.
  intros Hb Hne Hsame. destruct ms as [| m ms]; [congruence |]. eexists. split; [reflexivity |].
  split; [| apply extend_values]. apply extend_dict; [exact Hb | discriminate |].
  intros v Hv. apply Hsame; [exact Hv | left].
Qed.

Lemma add_buckets_Ok k d : forall bs,
  by_group bs -> dict_by has_trace d ->
  (forall m, m ∈ values d -> _flow_without_trace_identity m = Ok k) ->
  exists bs', fold_result add_bucket bs (map snd d) = Ok bs' /\ by_group bs'
    /\ values bs' ≡ₚ values bs ++ values d.
Proof.
  induction d as [| [t ms] d IH]; intros bs Hb Hd Hk; simpl.
  { exists bs. rewrite app_nil_r. auto. }
  destruct Hd as [Hkeys Hvals]. simpl in Hkeys. apply NoDup_cons in Hkeys.
  destruct (Hvals (t, ms) ltac:(left)) as [Hne Hms]. simpl in Hne, Hms.
  destruct (add_bucket_Ok bs ms Hb Hne) as (bs1 & Hadd & Hb1 & Hv1).
  { intros a b Ha Hb'. apply (same_flow_key k t); auto; apply Hk, values_elem;
      exists (t, ms); (split; [left | assumption]). }
  rewrite Hadd. cbn [rbind]. destruct (IH bs1 Hb1) as (bs2 & Hf & Hb2 & Hv2).
  - split; [apply Hkeys |]. intros kv Hkv. apply Hvals. right. exact Hkv.
  - intros m Hm. apply Hk. change (values ((t, ms) :: d)) with (ms ++ values d).
    apply elem_of_app. right. exact Hm.
  - exists bs2. split; [exact Hf |]. split; [exact Hb2 |]. rewrite Hv2, Hv1, <- app_assoc. reflexivity.
Qed.

Lemma place_flow_Ok k bs entries :
  by_group bs -> (forall m, m ∈ entries -> _flow_without_trace_identity m = Ok k) ->
  exists bs', place_flow bs entries = Ok bs' /\ by_group bs' /\ values bs' ≡ₚ values bs ++ entries.
Proof.
  intros Hb Hk. unfold place_flow.
  destruct (split_traces_Ok entries ([], [])) as ([traced untraced] & Hf & Hd & Hu & Hp).
  - apply dict_nil.
  - intros m Hm. inversion Hm.
  - intros m Hm Hn. specialize (Hk m Hm). unfold _flow_without_trace_identity in Hk.
    rewrite Hn in Hk. discriminate.
  - rewrite Hf. cbn [rbind]. simpl in Hd, Hu, Hp. simpl in Hp.
    assert (Hin : forall m, m ∈ values traced ++ untraced -> _flow_without_trace_identity m = Ok k)
      by (intros m Hm; apply Hk; rewrite <- Hp; exact Hm).
    destruct (add_buckets_Ok k traced bs Hb Hd) as (bs1 & Hadd & Hb1 & Hv1).
    { intros m Hm. apply Hin, elem_of_app. auto. }
    cbn [fst snd]. rewrite Hadd. cbn [rbind].
    assert (Hall : values bs1 ++ untraced ≡ₚ values bs ++ entries)
      by (rewrite Hv1, <- app_assoc, Hp; reflexivity).
    destruct untraced as [| m untraced]; simpl nonempty; cbv iota.
    + exists bs1. rewrite app_nil_r in Hall. auto.
    + destruct (add_bucket_Ok bs1 (m :: untraced) Hb1) as (bs2 & Hadd2 & Hb2 & Hv2);
        [discriminate | |].
      * intros a b Ha Hb'. apply (same_flow_key k []); auto; apply Hin, elem_of_app; auto.
      * exists bs2. split; [exact Hadd2 |]. split; [exact Hb2 |]. rewrite Hv2. exact Hall.
Qed.

Lemma place_flows_Ok flows : forall bs,
  by_group bs -> by_flow flows ->
  exists bs', fold_result place_flow bs (map snd flows) = Ok bs' /\ by_group bs'
    /\ values bs' ≡ₚ values bs ++ values flows.
Proof.
  induction flows as [| [k ms] flows IH]; intros bs Hb Hf; simpl.
  { exists bs. rewrite app_nil_r. auto. }
  destruct Hf as [Hkeys Hvals]. simpl in Hkeys. apply NoDup_cons in Hkeys.
  destruct (Hvals (k, ms) ltac:(left)) as [_ Hms].
  destruct (place_flow_Ok k bs ms Hb Hms) as (bs1 & Hadd & Hb1 & Hv1).
  rewrite Hadd. cbn [rbind]. destruct (IH bs1 Hb1) as (bs2 & Hf2 & Hb2 & Hv2).
  - split; [apply Hkeys |]. intros kv Hkv. apply Hvals. right. exact Hkv.
  - exists bs2. split; [exact Hf2 |]. split; [exact Hb2 |].
    rewrite Hv2, Hv1, <- app_assoc. reflexivity.
Qed.

(** ** Display order *)

Lemma order_leb_total x y : order_leb x y = true \/ order_leb y x = true.
Proof.
  destruct x as [n s], y as [m t]. unfold order_leb. simpl.
  rewrite !orb_true_iff, !andb_true_iff, !Z.ltb_lt, !Z.eqb_eq.
  destruct (Z.lt_total n m) as [H | [H | H]]; auto.
  destruct (str_leb_total s t); auto.
Qed.
Lemma order_leb_trans x y z : order_leb x y = true -> order_leb y z = true -> order_leb x z = true.
Proof.
  destruct x as [n s], y as [m t], z as [p u]. unfold order_leb. simpl.
  rewrite !orb_true_iff, !andb_true_iff, !Z.ltb_lt, !Z.eqb_eq.
  intros [H | [H Hs]] [H' | [H' Hs']]; [left; lia | left; lia | left; lia | right].
  split; [lia | eapply str_leb_trans; eassumption].
Qed.

Definition orderable (display_id : string) : Prop := exists k, _display_order display_id = Ok k.

Definition before {A} (id_of : A -> string) (x y : A) : Prop :=
  exists k k', _display_order (id_of x) = Ok k /\ _display_order (id_of y) = Ok k'
    /\ order_leb k k' = true.

Lemma zip_Forall2 {A B} (P : A -> B -> Prop) l l' :
  Forall2 P l l' -> map snd (zip l' l) = l /\ Forall (fun p => P p.2 p.1) (zip l' l).
Proof. induction 1 as [| x y l l' Hp _ [IH1 IH2]]; simpl; split; try constructor; congruence || auto. Qed.

Lemma sorted_by_display_Ok {A} (id_of : A -> string) items l :
  sorted_by_display id_of items = Ok l ->
  l ≡ₚ items /\ StronglySorted (before id_of) l /\ forall x, x ∈ items -> orderable (id_of x).
Proof.
  unfold sorted_by_display. intros H. apply rbind_Ok in H. destruct H as (keys & Hk & H).
  apply (inj Ok) in H. subst l. apply map_result_Forall2 in Hk.
  destruct (zip_Forall2 _ _ _ Hk) as [Hmap Hall]. split; [| split].
  - rewrite <- Hmap at 2. apply Permutation_map, sort_by_perm.
  - eapply (StronglySorted_map _ (fun p => _display_order (id_of p.2) = Ok p.1)).
    + apply (sort_by_sorted (fun x y : (Z * string) * A => order_leb x.1 y.1)).
      * intros x y. apply order_leb_total.
      * intros x y z. apply order_leb_trans.
    + rewrite sort_by_perm. exact Hall.
    + intros x y Hx Hy Hle. exists x.1, y.1. auto.
  - intros x Hx. rewrite <- Hmap in Hx. apply list_elem_of_fmap in Hx.
    destruct Hx as (p & -> & Hp). rewrite Forall_forall in Hall. eexists. apply Hall, Hp.
Qed.

Lemma sorted_by_display_returns {A} (id_of : A -> string) items :
  (forall x, x ∈ items -> orderable (id_of x)) -> exists l, sorted_by_display id_of items = Ok l.
Proof.
  intros Hall. unfold sorted_by_display.
  assert (Hk : exists keys, map_result (fun x => _display_order (id_of x)) items = Ok keys).
  { induction items as [| x items IH]; simpl; [eauto |].
    destruct (Hall x ltac:(left)) as [k ->]. destruct IH as [ks ->].
    - intros y Hy. apply Hall. right. exact Hy.
    - simpl. eauto. }
  destruct Hk as [keys ->]. simpl. eauto.
Qed.

(** ** Groups *)

(** A group as its bucket makes it. *)
Record group_of (k : string) (ms : list VerifiedFindingMember) (g : FindingGroup) : Prop := {
  go_id : fg_group_id g = k;
  go_members : fg_members g ≡ₚ ms;
  go_ids : fg_member_ids g = map vm_display_id (fg_members g);
  go_order : StronglySorted (before vm_display_id) (fg_members g);
  go_first : exists first rest, fg_members g = first :: rest
    /\ fg_representative_id g = vm_display_id first
    /\ (fg_status g = GROUPING_UNDETERMINED <-> vm_anchor first = None);
}.

Lemma make_group_Ok kv g : make_group kv = Ok g -> group_of kv.1 kv.2 g.
Proof.
  unfold make_group. intros H. apply rbind_Ok in H. destruct H as (ordered & Ho & H).
  apply sorted_by_display_Ok in Ho. destruct Ho as (Hp & Hs & _).
  destruct ordered as [| first rest]; [discriminate |]. apply (inj Ok) in H. subst g.
  split; simpl; auto. exists first, rest. split; [reflexivity |]. split; [reflexivity |].
  destruct (vm_anchor first); simpl; split; congruence.
Qed.

Record grouped (members : list VerifiedFindingMember) (p : FindingGroupProjection) : Prop := {
  gr_distinct : NoDup (map identity_of members);
  gr_all : concat (map fg_members (gp_groups p)) ≡ₚ members;
  gr_ids : NoDup (map fg_group_id (gp_groups p));
  gr_order : StronglySorted (before fg_representative_id) (gp_groups p);
  gr_groups g : g ∈ gp_groups p ->
    group_of (fg_group_id g) (fg_members g) g
    /\ forall m, m ∈ fg_members g -> _group_key m = fg_group_id g;
  gr_raw : gp_raw_count p = length members;
  gr_visible : gp_visible_group_count p = length (gp_groups p);
  gr_undetermined : gp_undetermined_count p
    = length (filter (fun g => fg_status g = GROUPING_UNDETERMINED) (gp_groups p));
}.

Lemma placed_nil : placed [] ([], [], []).
Proof. split; simpl; try apply dict_nil; [intros i; split; intros Hi; inversion Hi | constructor | reflexivity]. Qed.

Lemma make_groups_Ok bs groups :
  by_group bs -> Forall2 (fun kv g => make_group kv = Ok g) bs groups ->
  concat (map fg_members groups) ≡ₚ values bs /\ map fg_group_id groups = map fst bs
  /\ forall g, g ∈ groups -> group_of (fg_group_id g) (fg_members g) g
       /\ forall m, m ∈ fg_members g -> _group_key m = fg_group_id g.
Proof.
  intros [_ Hvals] Hf. induction Hf as [| [k ms] g bs groups Hg Hf IH]; simpl.
  { split; [reflexivity |]. split; [reflexivity |]. intros g Hg. inversion Hg. }
  apply make_group_Ok in Hg. simpl in Hg. pose proof (go_members _ _ _ Hg) as Hms.
  pose proof (go_id _ _ _ Hg) as Hk.
  destruct IH as (Hc & Hi & Hall); [intros kv Hkv; apply Hvals; right; exact Hkv |].
  destruct (Hvals (k, ms) ltac:(left)) as [_ Hkey]. simpl in Hkey.
  split; [rewrite Hc, Hms; reflexivity |]. split; [rewrite Hk, Hi; reflexivity |].
  intros g' Hg'. apply elem_of_cons in Hg'. destruct Hg' as [-> | Hg']; [| auto]. split.
  - destruct Hg. split; auto.
  - intros m Hm. rewrite Hk. apply Hkey. rewrite <- Hms. exact Hm.
Qed.

Lemma group_verified_Ok members p :
  group_verified_findings members = Ok p -> grouped members p.
Proof.
  unfold group_verified_findings. intros H. apply rbind_Ok in H.
  destruct H as ([[seen bs] flows] & Hf & H).
  apply (place_members_Ok _ [] _ _ placed_nil) in Hf. destruct Hf as [_ Hnd Hg Hfl Hall]. simpl in *.
  destruct (place_flows_Ok flows bs Hg Hfl) as (bs2 & Hbs2 & Hg2 & Hv2). rewrite Hbs2 in H.
  cbn [rbind] in H. apply rbind_Ok in H. destruct H as (groups & Hgr & H).
  apply map_result_Forall2 in Hgr. apply (make_groups_Ok _ _ Hg2) in Hgr.
  destruct Hgr as (Hc & Hi & Hok). apply rbind_Ok in H. destruct H as (sorted & Hs & H).
  apply sorted_by_display_Ok in Hs. destruct Hs as (Hp & Hsort & _).
  apply (inj Ok) in H. subst p. split; simpl; auto.
  - rewrite Hp, Hc, Hv2, Hall. reflexivity.
  - rewrite Hp, Hi. apply Hg2.
  - intros g Hin. apply Hok. rewrite <- Hp. exact Hin.
Qed.

Definition together (p : FindingGroupProjection) (a b : VerifiedFindingMember) : Prop :=
  exists g, g ∈ gp_groups p /\ a ∈ fg_members g /\ b ∈ fg_members g.

(** No two of the findings collide under SHA-256. *)
Definition collision_free (members : list VerifiedFindingMember) : Prop :=
  forall a b, a ∈ members -> b ∈ members -> _group_key a = _group_key b ->
    _encode (group_identity a) = _encode (group_identity b).

Lemma together_key members p a b :
  grouped members p -> a ∈ members -> b ∈ members ->
  (together p a b <-> _group_key a = _group_key b).
Proof.
  intros Hg Ha Hb. split.
  - intros (g & Hin & Hga & Hgb). destruct (gr_groups _ _ Hg g Hin) as [_ Hk].
    rewrite (Hk a Hga), (Hk b Hgb). reflexivity.
  - intros Hk. rewrite <- (gr_all _ _ Hg) in Ha, Hb.
    rewrite list_elem_of_In, in_concat in Ha, Hb.
    destruct Ha as (la & Hla & Ha), Hb as (lb & Hlb & Hb).
    apply list_elem_of_In, list_elem_of_fmap in Hla, Hlb. rewrite <- list_elem_of_In in Ha, Hb.
    destruct Hla as (ga & -> & Hga), Hlb as (gb & -> & Hgb). exists ga. split; [exact Hga |].
    split; [exact Ha |]. replace ga with gb; [exact Hb |].
    eapply NoDup_map_inj; [apply (gr_ids _ _ Hg) | exact Hgb | exact Hga |].
    destruct (gr_groups _ _ Hg ga Hga) as [_ Hka], (gr_groups _ _ Hg gb Hgb) as [_ Hkb].
    rewrite <- (Hka a Ha), <- (Hkb b Hb). congruence.
Qed.

Lemma same_key_iff members a b :
  collision_free members -> NoDup (map identity_of members) -> a ∈ members -> b ∈ members ->
  (_group_key a = _group_key b
   <-> a = b \/ member_scope a = member_scope b /\ vm_anchor a = vm_anchor b /\ vm_anchor a <> None).
Proof.
  intros Hc Hnd Ha Hb. split.
  - intros Hk. apply (Hc a b Ha Hb), identity_inj in Hk. destruct Hk as (Hs & Han & Hd).
    destruct (vm_anchor a) as [f |] eqn:Hf; [right; split; [exact Hs | split; [exact Han | discriminate]] |].
    left. eapply NoDup_map_inj; [exact Hnd | exact Ha | exact Hb |].
    unfold identity_of, member_scope in *. injection Hs as Hs _ _. rewrite Hs, (Hd eq_refl). reflexivity.
  - intros [-> | (Hs & Han & Hn)]; [reflexivity | apply identity_same; assumption].
Qed.

(** A group holds one finding without a flow, or only findings with one. *)
Lemma group_unanchored members p g :
  collision_free members -> grouped members p -> g ∈ gp_groups p ->
  length (filter (fun m => vm_anchor m = None) (fg_members g))
  = (if bool_decide (fg_status g = GROUPING_UNDETERMINED) then 1%nat else 0%nat).
Proof.
  intros Hc Hg Hin. destruct (gr_groups _ _ Hg g Hin) as [[_ _ _ _ Hfirst] Hk].
  destruct Hfirst as (first & rest & Hms & _ & Hst).
  assert (Hmem : forall m, m ∈ fg_members g -> m ∈ members).
  { intros m Hm. rewrite <- (gr_all _ _ Hg), list_elem_of_In, in_concat. exists (fg_members g).
    rewrite <- !list_elem_of_In. split; [apply list_elem_of_fmap_2, Hin | exact Hm]. }
  assert (Hsame : forall m, m ∈ fg_members g -> m = first \/ vm_anchor m = vm_anchor first /\ vm_anchor m <> None).
  { intros m Hm. assert (Hf : first ∈ fg_members g) by (rewrite Hms; left).
    destruct (proj1 (same_key_iff members m first Hc (gr_distinct _ _ Hg) (Hmem m Hm) (Hmem _ Hf)))
      as [Heq | (_ & Heq & Hn)]; [rewrite (Hk m Hm), (Hk first Hf); reflexivity | auto | auto]. }
  rewrite Hms in *. case_bool_decide as Hu.
  - apply Hst in Hu. assert (Hrest : rest = []).
    { destruct rest as [| m rest]; [reflexivity | exfalso].
      assert (Hm : m = first) by (destruct (Hsame m ltac:(right; left)) as [? | [? ?]]; congruence).
      pose proof (gr_distinct _ _ Hg) as Hnd. rewrite <- (gr_all _ _ Hg) in Hnd.
      apply list_elem_of_lookup in Hin. destruct Hin as [i Hi].
      apply take_drop_middle in Hi. rewrite <- Hi, map_app, concat_app, map_app in Hnd.
      apply NoDup_app in Hnd. destruct Hnd as (_ & _ & Hnd). simpl in Hnd. rewrite Hms in Hnd.
      simpl in Hnd. apply NoDup_cons in Hnd. destruct Hnd as [Hnot _]. apply Hnot. subst m. left. }
    subst rest. rewrite filter_cons_True by exact Hu. reflexivity.
  - assert (Ha : vm_anchor first <> None) by (intros Hn; apply Hu, Hst, Hn).
    assert (Hnone : forall m, m ∈ first :: rest -> vm_anchor m <> None)
      by (intros m Hm; destruct (Hsame m Hm) as [-> | [_ ?]]; assumption).
    clear -Hnone. induction (first :: rest) as [| m l IH]; [reflexivity |].
    rewrite filter_cons_False by (apply Hnone; left). apply IH. intros x Hx. apply Hnone. right. exact Hx.
Qed.

Lemma unanchored_count members p :
  collision_free members -> grouped members p ->
  gp_undetermined_count p = length (filter (fun m => vm_anchor m = None) members).
Proof.
  intros Hc Hg. rewrite (gr_undetermined _ _ Hg). rewrite <- (gr_all _ _ Hg).
  assert (Hall : forall g, g ∈ gp_groups p -> length (filter (fun m => vm_anchor m = None) (fg_members g))
     = (if bool_decide (fg_status g = GROUPING_UNDETERMINED) then 1%nat else 0%nat))
    by (intros g; apply group_unanchored with members; assumption).
  induction (gp_groups p) as [| g l IH]; [reflexivity |]. simpl.
  rewrite filter_app, length_app, Hall by left. rewrite <- IH by (intros x Hx; apply Hall; right; exact Hx).
  rewrite filter_cons. case_decide as Hd; case_bool_decide; try contradiction; reflexivity.
Qed.

Lemma group_verified_returns members :
  NoDup (map identity_of members) -> (forall m, m ∈ members -> orderable (vm_display_id m)) ->
  exists p, group_verified_findings members = Ok p.
Proof.
  intros Hnd Hord. unfold group_verified_findings.
  destruct (place_members_return members [] _ placed_nil Hnd) as ([[seen bs] flows] & Hf).
  rewrite Hf. apply (place_members_Ok _ [] _ _ placed_nil) in Hf. destruct Hf as [_ _ Hg Hfl Hall].
  simpl in *. destruct (place_flows_Ok flows bs Hg Hfl) as (bs2 & -> & [_ Hb2] & Hv2). cbn [rbind].
  assert (Hin : forall kv m, kv ∈ bs2 -> m ∈ kv.2 -> orderable (vm_display_id m)).
  { intros kv m Hkv Hm. apply Hord. rewrite <- Hall, <- Hv2. apply values_elem. eauto. }
  assert (Hgr : exists groups, map_result make_group bs2 = Ok groups
                  /\ forall g, g ∈ groups -> orderable (fg_representative_id g)).
  { clear -Hb2 Hin. induction bs2 as [| kv bs2 IH]; simpl.
    - exists []. split; [reflexivity |]. intros g Hg. inversion Hg.
    - destruct IH as (groups & -> & Hgs); [intros; apply Hb2; right; assumption | |].
      { intros kv' m Hkv. apply (Hin kv'). right. exact Hkv. }
      destruct (sorted_by_display_returns vm_display_id kv.2) as [ordered Ho];
        [intros m; apply Hin; left |].
      pose proof Ho as Hperm. apply sorted_by_display_Ok in Hperm. destruct Hperm as (Hperm & _ & _).
      unfold make_group. rewrite Ho. cbn [rbind].
      destruct (Hb2 kv ltac:(left)) as [Hne _]. destruct ordered as [| first rest].
      { apply Permutation_nil_l in Hperm. congruence. }
      cbn [rbind]. eexists. split; [reflexivity |]. intros g Hg. apply elem_of_cons in Hg.
      destruct Hg as [-> | Hg]; [| auto]. simpl. apply (Hin kv); [left |]. rewrite <- Hperm. left. }
  destruct Hgr as (groups & -> & Hgs). cbn [rbind].
  destruct (sorted_by_display_returns fg_representative_id groups Hgs) as [sorted ->].
  simpl. eauto.
Qed.

(** C39. Only proven flows converge: every finding is in exactly one group, two
    findings share a group exactly when they are proven to be the same flow of
    the same analysis, workspace and commit, a finding without a proven flow is
    alone, and groups and members are listed in display order. The projection
    is refused only for a repeated display id (or a number too long to read). *)
Theorem groups_are_flows members :
  collision_free members -> NoDup (map identity_of members) ->
  (forall m, m ∈ members -> orderable (vm_display_id m)) ->
  exists p, group_verified_findings members = Ok p
  /\ concat (map fg_members (gp_groups p)) ≡ₚ members
  /\ (forall a b, a ∈ members -> b ∈ members ->
        (together p a b <-> a = b \/ member_scope a = member_scope b
                                     /\ vm_anchor a = vm_anchor b /\ vm_anchor a <> None))
  /\ gp_raw_count p = length members /\ gp_visible_group_count p = length (gp_groups p)
  /\ gp_undetermined_count p = length (filter (fun m => vm_anchor m = None) members)
  /\ StronglySorted (before fg_representative_id) (gp_groups p)
  /\ forall g, g ∈ gp_groups p -> StronglySorted (before vm_display_id) (fg_members g)
       /\ head (fg_member_ids g) = Some (fg_representative_id g).
Proof.
  intros Hc Hids Hread. destruct (group_verified_returns members Hids Hread) as [p Hp].
  exists p. split; [exact Hp |]. apply group_verified_Ok in Hp. rename Hp into H.
  pose proof H as [Hnd Hall _ Hord Hgr Hraw Hvis _].
  split; [exact Hall |]. split.
  { intros a b Ha Hb. rewrite (together_key members) by assumption. apply (same_key_iff members); assumption. }
  split; [exact Hraw |]. split; [exact Hvis |].
  split; [apply unanchored_count; assumption |]. split; [exact Hord |].
  intros g Hg. destruct (Hgr g Hg) as [[_ _ Hmi Hs (first & rest & Hms & Hrep & _)] _].
  split; [exact Hs |]. rewrite Hmi, Hms, Hrep. reflexivity.
Qed.
