(* ===== verification/DisplayIds.v ===== *)
(** * Display identifiers of findings

    [reporting/finding_display_id.py]: the table that gives every finding of an
    analysis its human-facing name. The state is the table, one transaction a
    function from table to table ([BEGIN IMMEDIATE] admits one writer). *)
From stdpp Require Import pretty.
From Stdlib Require Import Sorting.Sorted.
From S2P Require Import Prelude Records CanonicalJson Text Groups.

(** A row of [finding_display_ids]; [finding_ref_json] is kept as the reference
    it serialises. *)
Record DisplayRow := mkDisplayRow {
  d_analysis_id : string;
  d_finding_hash : string;
  d_finding_ref : StoredDataRef;
  d_display_number : Z;
}.

(** [[A-Za-z0-9_-]{1,128}\Z] *)
Definition analysis_char (c : Ascii.ascii) : bool :=
  let n := Ascii.nat_of_ascii c in
  ((65 <=? n) && (n <=? 90) || (97 <=? n) && (n <=? 122) || (48 <=? n) && (n <=? 57)
   || (n =? 95) || (n =? 45))%nat.

Definition _validate_analysis_id (analysis_id : string) : result unit :=
  let n := String.length analysis_id in
  raise_if negb ((1 <=? n) && (n <=? 128) && all_chars analysis_char analysis_id)%nat
    with "FINDING_ANALYSIS_ID_INVALID" ;;
  Ok tt.

Definition _format (number : Z) : string := "F-" +:+ zero_padded 3 number.

(** The group of a full match of [F-([0-9]{3,})\Z]. *)
Definition match_display_id (display_id : string) : option string :=
  match display_id with
  | String c (String d digits) =>
      if eqb c (Ascii.ascii_of_nat 70) && eqb d (Ascii.ascii_of_nat 45)
         && (3 <=? String.length digits)%nat && all_chars ascii_digit digits
      then Some digits else None
  | _ => None
  end.

(** Integers bound to a statement are 64-bit. *)
Definition max_sqlite : Z := 2 ^ 63 - 1.
Definition bind_integer (z : Z) : result Z :=
  if max_sqlite <? z then Err OverflowError else Ok z.

Definition row_of (t : list DisplayRow) (analysis_id hash : string) : option DisplayRow :=
  find (fun r => eqb (d_analysis_id r) analysis_id && eqb (d_finding_hash r) hash) t.
Definition row_numbered (t : list DisplayRow) (analysis_id : string) (n : Z)
  : option DisplayRow :=
  find (fun r => eqb (d_analysis_id r) analysis_id && eqb (d_display_number r) n) t.

(** [COALESCE(MAX(display_number), 0) + 1] *)
Definition next_number (t : list DisplayRow) (analysis_id : string) : Z :=
  foldr Z.max 0 (map d_display_number (filter (fun r => d_analysis_id r = analysis_id) t)) + 1.

(** The insertion with the constraints of the table. *)
Definition insert_row (t : list DisplayRow) (r : DisplayRow) : result (list DisplayRow) :=
  if is_some (row_of t (d_analysis_id r) (d_finding_hash r))
     || is_some (row_numbered t (d_analysis_id r) (d_display_number r))
     || (d_display_number r <=? 0)
  then Err IntegrityError else Ok (t ++ [r]).

Definition get_or_allocate (t : list DisplayRow) (analysis_id : string)
  (finding_ref : StoredDataRef) : result (string * list DisplayRow) :=
  do! _validate_analysis_id analysis_id ;;
  match row_of t analysis_id (sd_content_hash finding_ref) with
  | Some row =>
      raise_if neqb (d_finding_ref row) finding_ref
        with "FINDING_DISPLAY_REFERENCE_CONFLICT" ;;
      Ok (_format (d_display_number row), t)
  | None =>
      let number := next_number t analysis_id in
      let! bound := bind_integer number in
      let! t := insert_row t (mkDisplayRow analysis_id (sd_content_hash finding_ref) finding_ref bound) in
      Ok (_format number, t)
  end.

(** [resolve], and [resolve_existing] on the same table. *)
Definition resolve (t : list DisplayRow) (analysis_id display_id : string)
  : result StoredDataRef :=
  do! _validate_analysis_id analysis_id ;;
  match match_display_id display_id with
  | None => Err (ValueError "FINDING_DISPLAY_ID_INVALID")
  | Some digits =>
      let! n := int_of_text digits in
      let! bound := bind_integer n in
      match row_numbered t analysis_id bound with
      | None => Err (LookupError "FINDING_DISPLAY_ID_NOT_FOUND")
      | Some row => Ok (d_finding_ref row)
      end
  end.

(** ** Names *)

Lemma format_text (n : Z) :
  0 < n <= max_sqlite ->
  match_display_id (_format n) = Some (zero_padded 3 n)
  /\ int_of_text (zero_padded 3 n) = Ok n /\ bind_integer n = Ok n
  /\ _display_order (_format n) = Ok (n, _format n).
Proof.
  intros Hn. unfold max_sqlite in Hn.
  destruct (zero_padded_text 3 n 18) as (Hv & Hd & H1 & Hl); [split; [lia |]; simpl Z.of_nat; lia |].
  assert (Hint : int_of_text (zero_padded 3 n) = Ok n).
  { rewrite ascii_int by (try exact Hd; unfold max_str_digits; lia). rewrite Hv. reflexivity. }
  assert (Hdec : isdecimal (zero_padded 3 n) = true).
  { apply ascii_isdecimal; [| exact Hd]. intros He. rewrite He in H1. simpl in H1. lia. }
  unfold _format, bind_integer, max_sqlite. revert Hd H1 Hl Hint Hdec.
  generalize (zero_padded 3 n). intros text Hd H1 Hl Hint Hdec.
  split; [| split; [exact Hint | split]].
  - change (match_display_id ("F-" +:+ text))
      with (if (3 <=? String.length text)%nat && all_chars ascii_digit text then Some text else None).
    rewrite Hd. replace (3 <=? String.length text)%nat with true by (symmetry; apply Nat.leb_le; lia).
    reflexivity.
  - replace (2 ^ 63 - 1 <? n) with false by lia. reflexivity.
  - change (_display_order ("F-" +:+ text))
      with (if isdecimal text then let! m := int_of_text text in Ok (m, "F-" +:+ text)
            else Ok (2 ^ 63, "F-" +:+ text)).
    rewrite Hdec, Hint. reflexivity.
Qed.

Lemma format_inj n m : 0 < n <= max_sqlite -> 0 < m <= max_sqlite -> _format n = _format m -> n = m.
Proof.
  intros Hn Hm H. destruct (format_text n Hn) as (_ & _ & _ & Ha), (format_text m Hm) as (_ & _ & _ & Hb).
  rewrite H in Ha. rewrite Ha in Hb. congruence.
Qed.

(** ** The table *)

Definition rows_of (t : list DisplayRow) (analysis_id : string) : list DisplayRow :=
  filter (fun r => d_analysis_id r = analysis_id) t.

(** The findings of an analysis are numbered from 1 in the order of their
    first request. *)
Record display_wf (t : list DisplayRow) : Prop := {
  dw_numbers an : map d_display_number (rows_of t an) = seqZ 1 (Z.of_nat (length (rows_of t an)));
  dw_bound r : r ∈ t -> d_display_number r <= max_sqlite;
}.

Definition allocation (t t' : list DisplayRow) : Prop :=
  exists an ref id, get_or_allocate t an ref = Ok (id, t').

Lemma numbers_max k n :
  foldr Z.max 0 (seqZ k (Z.of_nat n)) = (match n with O => 0 | _ => Z.max 0 (k + Z.of_nat n - 1) end).
Proof.
  revert k. induction n as [| n IH]; intros k; [reflexivity |].
  rewrite seqZ_cons by lia. replace (Z.pred (Z.of_nat (S n))) with (Z.of_nat n) by lia.
  simpl foldr. rewrite IH. destruct n; lia.
Qed.

Lemma next_number_wf t an :
  display_wf t -> next_number t an = Z.of_nat (length (rows_of t an)) + 1.
Proof.
  intros Hwf. unfold next_number. fold (rows_of t an). rewrite (dw_numbers _ Hwf), numbers_max.
  destruct (length (rows_of t an)); lia.
Qed.

Lemma find_Some {A} (f : A -> bool) l x : find f l = Some x -> x ∈ l /\ f x = true.
Proof.
  induction l as [| y l IH]; simpl; [discriminate |]. destruct (f y) eqn:Hy.
  - intros [= ->]. split; [left | exact Hy].
  - intros Hx. destruct (IH Hx). split; [right |]; assumption.
Qed.

Lemma find_app {A} (f : A -> bool) l k x : find f l = Some x -> find f (l ++ k) = Some x.
Proof. induction l as [| y l IH]; simpl; [discriminate |]. destruct (f y); auto. Qed.

Lemma find_None_app {A} (f : A -> bool) l x :
  find f l = None -> f x = true -> find f (l ++ [x]) = Some x.
Proof.
  induction l as [| y l IH]; simpl; intros Hn Hx; [rewrite Hx; reflexivity |].
  destruct (f y); [discriminate | auto].
Qed.

(** The two outcomes of a request: the recorded name, or the next number. *)
Lemma get_or_allocate_Ok t an ref id t' :
  get_or_allocate t an ref = Ok (id, t') ->
  _validate_analysis_id an = Ok tt
  /\ exists n, id = _format n
     /\ row_of t' an (sd_content_hash ref) = Some (mkDisplayRow an (sd_content_hash ref) ref n)
     /\ row_numbered t' an n <> None
     /\ (t' = t \/ n = next_number t an /\ n <= max_sqlite
                   /\ row_numbered t an n = None
                   /\ t' = t ++ [mkDisplayRow an (sd_content_hash ref) ref n]).
Proof.
  unfold get_or_allocate. intros H. apply rbind_Ok in H. destruct H as ([] & Hv & H).
  split; [exact Hv |]. destruct (row_of t an (sd_content_hash ref)) as [row |] eqn:Hrow.
  - apply raise_if_Ok in H. destruct H as [Href H]. apply (inj Ok) in H. injection H as <- <-.
    boolify. pose proof Hrow as Hr. apply find_Some in Hr. destruct Hr as [Hin Hr]. boolify.
    destruct Hr as [Han Hh]. exists (d_display_number row). split; [reflexivity |]. split.
    { rewrite Hrow. destruct row. simpl in *. congruence. }
    split; [| auto]. unfold row_numbered. intros Hn.
    assert (Hno : forall x, x ∈ t -> eqb (d_analysis_id x) an && eqb (d_display_number x) (d_display_number row) = false).
    { clear -Hn. induction t as [| y t IH]; intros x Hx; [inversion Hx |]. simpl in Hn.
      destruct (eqb (d_analysis_id y) an && _) eqn:Hy; [discriminate |].
      apply elem_of_cons in Hx. destruct Hx as [-> | Hx]; auto. }
    specialize (Hno row Hin). rewrite !bool_decide_true in Hno by congruence. discriminate.
  - apply rbind_Ok in H. destruct H as (n & Hn & H). apply rbind_Ok in H. destruct H as (t1 & Hi & H).
    apply (inj Ok) in H. injection H as <- <-. unfold bind_integer in Hn.
    destruct (max_sqlite <? next_number t an) eqn:Hb; [discriminate |]. apply (inj Ok) in Hn. subst n.
    unfold insert_row in Hi. simpl in Hi.
    destruct (is_some (row_of t an (sd_content_hash ref)) || _ || _) eqn:Hc; [discriminate |].
    apply (inj Ok) in Hi. subst t1. boolify. destruct Hc as [[_ Hnum] _].
    exists (next_number t an). split; [reflexivity |]. split.
    { apply find_None_app; [exact Hrow |]. simpl. rewrite !bool_decide_true by reflexivity. reflexivity. }
    split; [| right; split; [reflexivity | split; [lia | auto]]].
    unfold row_numbered. rewrite (find_None_app _ _ _ Hnum); [discriminate |].
    simpl. rewrite !bool_decide_true by reflexivity. reflexivity.
Qed.

Lemma allocation_wf t t' : display_wf t -> allocation t t' -> display_wf t'.
Proof.
  intros Hwf (an & ref & id & H). apply get_or_allocate_Ok in H.
  destruct H as (_ & n & _ & _ & _ & [-> | (Hn & Hb & _ & ->)]); [exact Hwf |].
  rewrite (next_number_wf _ _ Hwf) in Hn. destruct Hwf as [Hnum Hbound]. split.
  - intros an'. unfold rows_of in *. rewrite filter_app, filter_cons, filter_nil. simpl.
    case_decide as Han; [subst an' | rewrite app_nil_r; apply Hnum].
    rewrite map_app, length_app, Hnum. simpl. rewrite Nat2Z.inj_add, seqZ_app by lia.
    rewrite Hn. simpl. f_equal. rewrite seqZ_cons by lia. simpl. f_equal. lia.
  - intros r Hr. apply elem_of_app in Hr. destruct Hr as [Hr | Hr]; [auto |].
    apply list_elem_of_singleton in Hr. subst r. exact Hb.
Qed.

Lemma allocation_keeps t t' :
  allocation t t' ->
  (forall an h r, row_of t an h = Some r -> row_of t' an h = Some r)
  /\ forall an n r, row_numbered t an n = Some r -> row_numbered t' an n = Some r.
Proof.
  intros (an & ref & id & H). apply get_or_allocate_Ok in H.
  destruct H as (_ & n & _ & _ & _ & [-> | (_ & _ & _ & ->)]); [auto |].
  split; intros; apply find_app; assumption.
Qed.

Lemma allocations_keep t t' :
  rtc allocation t t' -> display_wf t ->
  display_wf t'
  /\ (forall an h r, row_of t an h = Some r -> row_of t' an h = Some r)
  /\ forall an n r, row_numbered t an n = Some r -> row_numbered t' an n = Some r.
Proof.
  induction 1 as [t0 | t1 t2 t3 Hs _ IH]; intros Hwf; [auto |].
  destruct (IH (allocation_wf _ _ Hwf Hs)) as (Hwf3 & Hk & Hk').
  apply allocation_keeps in Hs. destruct Hs as [H1 H2]. auto.
Qed.

Lemma empty_display_wf : display_wf [].
Proof. split; [reflexivity | intros r Hr; inversion Hr]. Qed.

(** A number names one row of its analysis. *)
Lemma number_row t r :
  display_wf t -> r ∈ t -> row_numbered t (d_analysis_id r) (d_display_number r) = Some r.
Proof.
  intros Hwf Hin. destruct (row_numbered t (d_analysis_id r) (d_display_number r)) as [r' |] eqn:Hr.
  - apply find_Some in Hr. destruct Hr as [Hin' Hr]. boolify. destruct Hr as [Han Hn]. f_equal.
    apply (NoDup_map_inj d_display_number (rows_of t (d_analysis_id r))); [| | | exact Hn].
    + rewrite (dw_numbers _ Hwf). apply NoDup_seqZ.
    + unfold rows_of. rewrite list_elem_of_filter. auto.
    + unfold rows_of. rewrite list_elem_of_filter. auto.
  - exfalso. unfold row_numbered in Hr. clear Hwf. induction t as [| x t IH]; [inversion Hin |]. simpl in Hr.
    destruct (eqb (d_analysis_id x) _ && _) eqn:Hx; [discriminate |].
    apply elem_of_cons in Hin. destruct Hin as [-> | Hin]; [| auto].
    rewrite !bool_decide_true in Hx by reflexivity. discriminate.
Qed.

Lemma numbers_positive t r : display_wf t -> r ∈ t -> 0 < d_display_number r <= max_sqlite.
Proof.
  intros Hwf Hin. split; [| apply (dw_bound _ Hwf r Hin)].
  assert (Hr : d_display_number r ∈ map d_display_number (rows_of t (d_analysis_id r))).
  { apply (list_elem_of_fmap_2 d_display_number). unfold rows_of. rewrite list_elem_of_filter. auto. }
  rewrite (dw_numbers _ Hwf) in Hr. apply elem_of_seqZ in Hr. lia.
Qed.

(** Rows numbered consecutively are in display order. *)
Lemma consecutive_before l : forall k,
  (forall r, r ∈ l -> 0 < d_display_number r <= max_sqlite) ->
  map d_display_number l = seqZ k (Z.of_nat (length l)) ->
  StronglySorted (before (fun r => _format (d_display_number r))) l.
Proof.
  induction l as [| r l IH]; intros k Hall Hnums; [constructor |].
  simpl length in Hnums. rewrite seqZ_cons in Hnums by lia.
  replace (Z.pred (Z.of_nat (S (length l)))) with (Z.of_nat (length l)) in Hnums by lia.
  simpl map in Hnums. injection Hnums as Hr Hl. constructor.
  { apply (IH (Z.succ k)); [| exact Hl]. intros x Hx. apply Hall. right. exact Hx. }
  apply Forall_forall. intros x Hx.
  assert (Hkx : Z.succ k <= d_display_number x).
  { apply (list_elem_of_fmap_2 d_display_number) in Hx.
    change (d_display_number <$> l) with (map d_display_number l) in Hx.
    rewrite Hl in Hx. apply elem_of_seqZ in Hx. lia. }
  destruct (format_text (d_display_number r)) as (_ & _ & _ & Hor); [apply Hall; left |].
  destruct (format_text (d_display_number x)) as (_ & _ & _ & Hox); [apply Hall; right; exact Hx |].
  eexists _, _. split; [exact Hor |]. split; [exact Hox |]. unfold order_leb. cbn [fst].
  replace (d_display_number r <? d_display_number x) with true by lia. reflexivity.
Qed.

(** C40. A finding keeps its display name: once allocated, the name resolves to
    exactly that finding and is the answer to every later request for it, no
    other finding of the analysis gets it, and the names of an analysis are
    numbered without gaps in the order the groups list them. *)
Theorem display_ids_stable t an ref id t1 t2 :
  rtc allocation [] t -> get_or_allocate t an ref = Ok (id, t1) -> rtc allocation t1 t2 ->
  resolve t2 an id = Ok ref
  /\ get_or_allocate t2 an ref = Ok (id, t2)
  /\ (forall ref' t3, get_or_allocate t2 an ref' = Ok (id, t3) -> ref' = ref)
  /\ map d_display_number (rows_of t2 an) = seqZ 1 (Z.of_nat (length (rows_of t2 an)))
  /\ StronglySorted (before (fun r => _format (d_display_number r))) (rows_of t2 an).
Proof.
  intros Ht Ha Hlater. destruct (allocations_keep _ _ Ht empty_display_wf) as (Hwf & _ & _).
  pose proof (allocation_wf _ _ Hwf ltac:(exists an, ref, id; exact Ha)) as Hwf1.
  destruct (allocations_keep _ _ Hlater Hwf1) as (Hwf2 & Hkeep & _).
  apply get_or_allocate_Ok in Ha. destruct Ha as (Hv & n & -> & Hrow & _ & _).
  apply Hkeep in Hrow. pose proof Hrow as Hin. apply find_Some in Hin. destruct Hin as [Hin _].
  pose proof (number_row _ _ Hwf2 Hin) as Hnum. simpl in Hnum.
  pose proof (numbers_positive _ _ Hwf2 Hin) as Hpos. simpl in Hpos.
  destruct (format_text n Hpos) as (Hm & Hi & Hb & _).
  split; [| split; [| split; [| split]]].
  - unfold resolve. rewrite Hv, Hm. cbn [rbind]. rewrite Hi. cbn [rbind]. rewrite Hb. cbn [rbind].
    rewrite Hnum. reflexivity.
  - unfold get_or_allocate. rewrite Hv. cbn [rbind]. rewrite Hrow. simpl.
    rewrite bool_decide_true by reflexivity. reflexivity.
  - intros ref' t3 H. pose proof (allocation_wf _ _ Hwf2 ltac:(exists an, ref', (_format n); exact H)) as Hwf3.
    pose proof (allocation_keeps t2 t3 ltac:(exists an, ref', (_format n); exact H)) as [_ Hk3].
    apply get_or_allocate_Ok in H. destruct H as (_ & m & Heq & Hrow' & _ & _).
    apply find_Some in Hrow'. destruct Hrow' as [Hin' _].
    pose proof (numbers_positive _ _ Hwf3 Hin') as Hpos'. simpl in Hpos'.
    apply format_inj in Heq; [| assumption | assumption]. subst m.
    pose proof (number_row _ _ Hwf3 Hin') as Hnum'. simpl in Hnum'. apply Hk3 in Hnum. congruence.
  - apply (dw_numbers _ Hwf2).
  - apply (consecutive_before _ 1); [| apply (dw_numbers _ Hwf2)].
    intros r Hr. unfold rows_of in Hr. rewrite list_elem_of_filter in Hr.
    apply (numbers_positive t2); [exact Hwf2 | apply Hr].
Qed.
