(* ===== verification/Evidence.v ===== *)
(** * Hypotheses and evidence

    What a verification is about: the code models of [contracts/static.py], the
    hypotheses of [contracts/hypothesis.py] and the records of
    [contracts/verification.py] with their [model_validator]s. The constraints of
    single fields (types, ranges, non-empty strings) are pydantic's; a field whose
    [Literal] has one value is left out. *)
From S2P Require Import Prelude Records CanonicalJson Store Lineage Work Processes Actions Budget.
From S2P Require Import Runtime Registry Authority Outputs.

(** ** [contracts/_domain.py] *)

(** The fields of a model, as [canonical_json] walks them. *)
Class Dumped (A : Type) := dump : A -> value.

(** [unique] and [exact_set] on values *)
Definition canonical_keys {A} `{Dumped A} (l : list A) : result (list string) :=
  map_result (fun x => canonical_bytes [] (dump x)) l.
Definition unique_values {A} `{Dumped A} (l : list A) : result unit :=
  let! keys := canonical_keys l in unique keys "DUPLICATE_REFERENCE".
Definition exact_values {A} `{Dumped A} (actual expected : list A) : result unit :=
  let! keys := canonical_keys actual in
  do! unique keys "DUPLICATE_REFERENCE" ;;
  let! expected_keys := canonical_keys expected in
  exact_set keys expected_keys.

#[export] Instance string_dumped : Dumped string := VStr.
#[export] Instance stored_ref_dumped : Dumped StoredDataRef := fun r => Outputs.ref_value (RStored r).

(** An [OpaqueId] *)
Definition ids_dumped : Dumped string := id_value.

(** [exact] *)
Definition exact {A} `{Dumped A} (ref : RecordRef) (meta : RunMeta) (target : A)
  (consumer : RunMeta) : result unit :=
  let! hash := content_hash [] (dump target) in
  validate_exact_ref ref (MRun meta) hash (Some (rm_analysis_id consumer)).

(** [try: ... except ValueError: raise ValueError(code)] *)
Definition value_error_as {A} (code : string) (r : result A) : result A :=
  match r with
  | Err (ValueError _) => Err (ValueError code)
  | _ => r
  end.

(** [same_scope] with [hypothesis=False], and with [attempt=True] *)
Definition code_scope_names (m : RunMeta) := (rm_analysis_id m, rm_workspace_id m, rm_commit_id m).
Definition same_code_scope (left right : RunMeta) : result unit :=
  raise_if neqb (code_scope_names left) (code_scope_names right) with "RECORD_SCOPE_MISMATCH" ;;
  Ok tt.
Definition same_attempt_scope (left right : RunMeta) : result unit :=
  raise_if neqb (scope_names (MRun left), rm_attempt_id left)
                (scope_names (MRun right), rm_attempt_id right)
    with "RECORD_SCOPE_MISMATCH" ;;
  Ok tt.

(** ** Code models *)

Inductive SymbolKind := SY_FILE | SY_MODULE | SY_TYPE | SY_CALLABLE | SY_DATA | SY_ROUTE | SY_CONFIG.
Inductive FactKind :=
| FK_SOURCE | FK_SINK | FK_SANITIZER | FK_VALIDATOR | FK_AUTH_CHECK | FK_PERMISSION_CHECK | FK_OTHER.
Inductive RelationKind :=
| RL_CALL | RL_DATA_FLOW | RL_IMPORT | RL_INHERITANCE | RL_ROUTE_BINDING | RL_OTHER.
Inductive ErrorStage :=
| ES_INPUT | ES_REPOSITORY | ES_STATIC_ANALYSIS | ES_CONTEXT | ES_ORCHESTRATION | ES_AGENT
| ES_PROVIDER | ES_SANDBOX | ES_POLICY | ES_GATE | ES_REPORT | ES_STATE | ES_STORAGE | ES_RECOVERY
| ES_AUTHORITY.

#[export] Instance SymbolKind_eq_dec : EqDecision SymbolKind.
Proof. solve_decision. Defined.
#[export] Instance FactKind_eq_dec : EqDecision FactKind.
Proof. solve_decision. Defined.
#[export] Instance RelationKind_eq_dec : EqDecision RelationKind.
Proof. solve_decision. Defined.

Record CodeLocation := mkLocation {
  cl_workspace_id : string;
  cl_commit_id : string;
  cl_file_path : string;
  cl_start_line : Z;
  cl_start_column : option Z;
  cl_end_line : Z;
  cl_end_column : option Z;
}.

Record CodeSymbol := mkSymbol {
  sy_symbol_id : string;
  sy_symbol_kind : SymbolKind;
  sy_native_kind : option string;
  sy_name : string;
  sy_location : CodeLocation;
}.

Record ToolSource := mkToolSource {
  ts_attempt_id : string;
  ts_tool_name : string;
  ts_tool_version : string;
  ts_rule_id : option string;
  ts_raw_result_ref : StoredDataRef;
}.

Record CodeFact := mkFact {
  cf_fact_id : string;
  cf_fact_kind : FactKind;
  cf_symbol_id : option string;
  cf_location : CodeLocation;
  cf_producer : ToolSource;
}.

Record CodeFactRef := mkFactRef {
  fx_bundle_ref : StoredDataRef;
  fx_fact_id : string;
}.

Record Restriction := mkRestriction {
  rx_restriction_id : string;
  rx_statement : string;
  rx_fact_refs : list CodeFactRef;
  rx_evidence_refs : list StoredDataRef;
}.

Record CodeRelation := mkRelation {
  rl_relation_id : string;
  rl_relation_kind : RelationKind;
  rl_from_symbol_id : option string;
  rl_from_location : CodeLocation;
  rl_to_symbol_id : option string;
  rl_to_location : CodeLocation;
  rl_producer : ToolSource;
}.

Record AnalysisError := mkAnalysisError {
  ae_error_id : string;
  ae_stage : ErrorStage;
  ae_code : string;
  ae_safe_message : string;
  ae_retryable : bool;
  ae_work_id : option string;
  ae_attempt_id : option string;
  ae_related_record_ids : list string;
  ae_created_at : Z;
}.

#[export] Instance CodeLocation_eq_dec : EqDecision CodeLocation.
Proof. solve_decision. Defined.
#[export] Instance CodeSymbol_eq_dec : EqDecision CodeSymbol.
Proof. solve_decision. Defined.
#[export] Instance ToolSource_eq_dec : EqDecision ToolSource.
Proof. solve_decision. Defined.
#[export] Instance CodeFact_eq_dec : EqDecision CodeFact.
Proof. solve_decision. Defined.
#[export] Instance CodeFactRef_eq_dec : EqDecision CodeFactRef.
Proof. solve_decision. Defined.
#[export] Instance Restriction_eq_dec : EqDecision Restriction.
Proof. solve_decision. Defined.
#[export] Instance CodeRelation_eq_dec : EqDecision CodeRelation.
Proof. solve_decision. Defined.

(** [CodeLocation.range_shape] *)
Definition range_shape (l : CodeLocation) : result unit :=
  raise_if (cl_end_line l <? cl_start_line l)
           || neqb (is_none (cl_start_column l)) (is_none (cl_end_column l))
    with "INVALID_CODE_RANGE" ;;
  raise_if eqb (cl_start_line l) (cl_end_line l)
           && match cl_start_column l, cl_end_column l with
              | Some s, Some e => e <=? s
              | _, _ => false
              end
    with "INVALID_CODE_RANGE" ;;
  Ok tt.

#[export] Instance fact_ref_dumped : Dumped CodeFactRef := fun f =>
  VModel contract_info [("bundle_ref", dump (fx_bundle_ref f)); ("fact_id", VStr (fx_fact_id f))].

(** [CodeFactRef.bundle_kind] *)
Definition bundle_kind (f : CodeFactRef) : result unit :=
  require_record_ref (RStored (fx_bundle_ref f)) (Some "static_fact_bundle").

(** [Restriction.supported] *)
Definition restriction_supported (r : Restriction) : result unit :=
  raise_if negb (nonempty (rx_fact_refs r)) && negb (nonempty (rx_evidence_refs r))
    with "RESTRICTION_EVIDENCE_REQUIRED" ;;
  do! unique_values (rx_fact_refs r) ;;
  unique_values (rx_evidence_refs r).

(** ** Hypotheses *)

Inductive Origin := O_INITIAL | O_VERIFICATION | O_CHAINING.
#[export] Instance Origin_eq_dec : EqDecision Origin.
Proof. solve_decision. Defined.

Record FalsificationQuestion := mkQuestion {
  fq_question_id : string;
  fq_question : string;
}.
Record ValidationCheck := mkCheck {
  ck_validation_id : string;
  ck_instruction : string;
}.
#[export] Instance FalsificationQuestion_eq_dec : EqDecision FalsificationQuestion.
Proof. solve_decision. Defined.
#[export] Instance ValidationCheck_eq_dec : EqDecision ValidationCheck.
Proof. solve_decision. Defined.

Record HypothesisShape := mkShape {
  hs_meta : RunMeta;
  hs_origin : Origin;
  hs_target_entities : list CodeSymbol;
  hs_target_locations : list CodeLocation;
  hs_suspected_path : list (CodeRelation + CodeLocation);
  hs_falsification_questions : list FalsificationQuestion;
  hs_validation_checks : list ValidationCheck;
  hs_parent_hypothesis_ids : list string;
  hs_source_primitive_match_id : option string;
}.

Record HypothesisProposal := mkProposal {
  hp_shape :> HypothesisShape;
  hp_proposal_id : string;
  hp_statement : string;
  hp_vulnerability_type_candidates : list string;
  hp_observed_facts : list CodeFact;
  hp_assumptions : list string;
  hp_restrictions : list Restriction;
}.

Record VulnerabilityHypothesis := mkHypothesis {
  vh_shape :> HypothesisShape;
  vh_proposal_ref : StoredDataRef;
  vh_statement : string;
}.

(** [HypothesisShape.origin_shape] *)
Definition origin_shape (h : HypothesisShape) : result unit :=
  raise_if negb (nonempty (hs_falsification_questions h)) || negb (nonempty (hs_validation_checks h))
    with "HYPOTHESIS_QUESTIONS_REQUIRED" ;;
  do! unique_values (map fq_question_id (hs_falsification_questions h)) ;;
  do! unique_values (map ck_validation_id (hs_validation_checks h)) ;;
  do! @unique_values _ ids_dumped (hs_parent_hypothesis_ids h) ;;
  do! (if eqb (hs_origin h) O_CHAINING then
         raise_if match hs_source_primitive_match_id h with
                  | None | Some EmptyString => true
                  | _ => false
                  end
                  || negb (nonempty (hs_parent_hypothesis_ids h))
           with "CHAINING_ORIGIN_REQUIRED" ;;
         Ok tt
       else
         raise_if is_some (hs_source_primitive_match_id h) with "CHAINING_ORIGIN_FORBIDDEN" ;;
         Ok tt) ;;
  raise_if eqb (hs_origin h) O_INITIAL && nonempty (hs_parent_hypothesis_ids h)
    with "INITIAL_PARENT_FORBIDDEN" ;;
  raise_if neqb (hs_origin h) O_CHAINING && negb (nonempty (hs_target_locations h))
    with "HYPOTHESIS_LOCATION_REQUIRED" ;;
  Ok tt.

(** [HypothesisProposal.observations] *)
Definition observations (p : HypothesisProposal) : result unit :=
  let observed := map cf_fact_id (hp_observed_facts p) in
  let restricted := concat (map (fun r => map fx_fact_id (rx_fact_refs r)) (hp_restrictions p)) in
  do! unique_values (hp_vulnerability_type_candidates p) ;;
  do! unique_values observed ;;
  do! unique_values (map rx_restriction_id (hp_restrictions p)) ;;
  raise_if existsb (fun f => mem f restricted) observed with "FACT_RESTRICTION_OVERLAP" ;;
  raise_if eqb (hs_origin p) O_INITIAL
           && existsb (fun r => negb (nonempty (rx_fact_refs r))) (hp_restrictions p)
    with "INITIAL_RESTRICTION_FACT_REQUIRED" ;;
  raise_if eqb (hs_origin p) O_CHAINING && nonempty (hp_observed_facts p)
    with "CHAINING_FACT_FORBIDDEN" ;;
  Ok tt.

(** [validate_hypothesis_registration] *)
Definition validate_hypothesis_registration `{Dumped HypothesisProposal}
  (hypothesis : VulnerabilityHypothesis) (proposal : HypothesisProposal) : result unit :=
  do! exact (RStored (vh_proposal_ref hypothesis)) (hs_meta proposal) proposal
        (hs_meta hypothesis) ;;
  do! same_code_scope (hs_meta hypothesis) (hs_meta proposal) ;;
  raise_if neqb (vh_statement hypothesis) (hp_statement proposal)
           || neqb (hs_origin hypothesis) (hs_origin proposal)
           || neqb (hs_parent_hypothesis_ids hypothesis) (hs_parent_hypothesis_ids proposal)
           || neqb (hs_source_primitive_match_id hypothesis) (hs_source_primitive_match_id proposal)
           || neqb (hs_target_entities hypothesis) (hs_target_entities proposal)
           || neqb (hs_target_locations hypothesis) (hs_target_locations proposal)
           || neqb (hs_suspected_path hypothesis) (hs_suspected_path proposal)
           || neqb (hs_falsification_questions hypothesis) (hs_falsification_questions proposal)
           || neqb (hs_validation_checks hypothesis) (hs_validation_checks proposal)
    with "PROPOSAL_REGISTRATION_DRIFT" ;;
  Ok tt.

(** ** Verification records ([contracts/verification.py]) *)

Inductive Verdict := V_TRUE | V_FALSE | V_HOLD.
Inductive PlaybookScope := P_COMMON | P_TYPE_SPECIFIC.
Inductive SelectionReason := TYPE_MATCH | NO_TYPE | MULTIPLE_TYPES | TYPE_NOT_ALLOWED.
Inductive NextStep := POC_CONFIRMATION_STEP | VERDICT_EVIDENCE_STEP | FINALIZE_WITHOUT_DYNAMIC.
Inductive SourceRole := SR_VERIFICATION | SR_PRO | SR_CON.
Inductive CandidateType := CT_BYPASS | CT_ALTERNATE_PATH | CT_IMPACT_ESCALATION.
Inductive Outcome := DISPROVED | NOT_DISPROVED | INCONCLUSIVE_ANSWER.
Inductive Completion := COMPLETE | INCOMPLETE.
Inductive VerificationMode := BASIC | CONDITIONAL_DEBATE | ALWAYS_DEBATE.

#[export] Instance Verdict_eq_dec : EqDecision Verdict.
Proof. solve_decision. Defined.
#[export] Instance PlaybookScope_eq_dec : EqDecision PlaybookScope.
Proof. solve_decision. Defined.
#[export] Instance SelectionReason_eq_dec : EqDecision SelectionReason.
Proof. solve_decision. Defined.
#[export] Instance NextStep_eq_dec : EqDecision NextStep.
Proof. solve_decision. Defined.
#[export] Instance SourceRole_eq_dec : EqDecision SourceRole.
Proof. solve_decision. Defined.
#[export] Instance Outcome_eq_dec : EqDecision Outcome.
Proof. solve_decision. Defined.
#[export] Instance Completion_eq_dec : EqDecision Completion.
Proof. solve_decision. Defined.
#[export] Instance VerificationMode_eq_dec : EqDecision VerificationMode.
Proof. solve_decision. Defined.

(** [EvidenceRef]: a reference [actual_evidence_ref] lets through. *)
Definition NOT_EVIDENCE : list string :=
  ["analysis_error"; "data_gap"; "verification_initial_assessment"].
Definition actual_evidence_ref (ref : StoredDataRef) : result StoredDataRef :=
  raise_if mem (sd_data_kind ref) NOT_EVIDENCE with "ERROR_IS_NOT_EVIDENCE" ;; Ok ref.

Record PlaybookQuestionTemplate := mkTemplate {
  pq_template_key : string;
  pq_question : string;
}.

Record VerificationPlaybook := mkPlaybook {
  pl_meta : RunMeta;
  pl_scope : PlaybookScope;
  pl_vulnerability_type : option string;
  pl_prerequisites : list string;
  pl_source_checks : list string;
  pl_sink_checks : list string;
  pl_path_checks : list string;
  pl_defense_checks : list string;
  pl_falsification_question_templates : list PlaybookQuestionTemplate;
  pl_static_evidence_requirements : list string;
  pl_dynamic_evidence_requirements : list string;
  pl_restriction_checks : list string;
  pl_hold_conditions : list string;
}.

(** [VerificationPlaybook.playbook_shape] *)
Definition playbook_shape (p : VerificationPlaybook) : result unit :=
  raise_if neqb (eqb (pl_scope p) P_COMMON) (is_none (pl_vulnerability_type p))
    with "PLAYBOOK_SCOPE_MISMATCH" ;;
  unique_values (map pq_template_key (pl_falsification_question_templates p)).

Record PlaybookPolicyItem := mkPolicyItem {
  pi_vulnerability_type : string;
  pi_playbook_ref : StoredDataRef;
}.

Record PlaybookPolicy := mkPlaybookPolicy {
  pp_meta : RunMeta;
  pp_common_playbook_ref : StoredDataRef;
  pp_type_playbooks : list PlaybookPolicyItem;
  pp_approved_by : string;
  pp_approved_at : Z;
}.

(** [PlaybookPolicy.mapping_shape] *)
Definition mapping_shape (p : PlaybookPolicy) : result unit :=
  do! unique_values (map pi_vulnerability_type (pp_type_playbooks p)) ;;
  for_each (fun ref => require_record_ref (RStored ref) (Some "verification_playbook"))
    (pp_common_playbook_ref p :: map pi_playbook_ref (pp_type_playbooks p)).

Record AppliedPlaybookQuestion := mkApplied {
  aq_template_key : string;
  aq_question : string;
  aq_question_id : string;
}.

Record PlaybookApplication := mkApplication {
  pa_meta : RunMeta;
  pa_verification_work_id : string;
  pa_verification_generation : Z;
  pa_hypothesis_ref : StoredDataRef;
  pa_proposal_ref : StoredDataRef;
  pa_policy_ref : StoredDataRef;
  pa_playbook_ref : StoredDataRef;
  pa_selection : PlaybookScope;
  pa_selected_type : option string;
  pa_selection_reason : SelectionReason;
  pa_questions : list AppliedPlaybookQuestion;
}.

(** [PlaybookApplication.application_shape] *)
Definition application_shape (p : PlaybookApplication) : result unit :=
  raise_if neqb (eqb (pa_selection p) P_TYPE_SPECIFIC) (is_some (pa_selected_type p))
           || neqb (eqb (pa_selection p) P_TYPE_SPECIFIC) (eqb (pa_selection_reason p) TYPE_MATCH)
    with "PLAYBOOK_SELECTION_MISMATCH" ;;
  do! unique_values (map aq_template_key (pa_questions p)) ;;
  unique_values (map aq_question_id (pa_questions p)).

Record VerificationInitialAssessment := mkAssessment {
  ia_meta : RunMeta;
  ia_verification_work_id : string;
  ia_verification_generation : Z;
  ia_hypothesis_ref : StoredDataRef;
  ia_policy_ref : StoredDataRef;
  ia_playbook_ref : StoredDataRef;
  ia_playbook_application_ref : StoredDataRef;
  ia_pro_evidence_ref : StoredDataRef;
  ia_con_evidence_ref : StoredDataRef;
  ia_next_step : NextStep;
  ia_proposed_verdict : Verdict;
  ia_rationale : string;
  ia_evidence_refs : list StoredDataRef;
  ia_unresolved_conditions : list string;
  ia_llm_call_id : string;
}.

(** [VerificationInitialAssessment.assessment_route] *)
Definition assessment_route (a : VerificationInitialAssessment) : result unit :=
  raise_if eqb (ia_next_step a) POC_CONFIRMATION_STEP && neqb (ia_proposed_verdict a) V_TRUE
           || eqb (ia_next_step a) VERDICT_EVIDENCE_STEP && neqb (ia_proposed_verdict a) V_HOLD
           || eqb (ia_next_step a) FINALIZE_WITHOUT_DYNAMIC && eqb (ia_proposed_verdict a) V_TRUE
    with "INITIAL_ASSESSMENT_ROUTE_MISMATCH" ;;
  Ok tt.

Record EvidenceClaim := mkClaim {
  ec_claim_id : string;
  ec_statement : string;
  ec_source_role : SourceRole;
  ec_evidence_refs : list StoredDataRef;
  ec_code_locations : list CodeLocation;
  ec_limitations : list string;
}.

(** [EvidenceClaim.actual_evidence] *)
Definition actual_evidence (c : EvidenceClaim) : result unit :=
  raise_if negb (nonempty (ec_evidence_refs c)) with "EVIDENCE_REQUIRED" ;;
  do! unique_values (ec_evidence_refs c) ;;
  raise_if existsb (fun r => mem (sd_data_kind r) NOT_EVIDENCE) (ec_evidence_refs c)
    with "ERROR_IS_NOT_EVIDENCE" ;;
  Ok tt.

(** A claim as [canonical_json] walks it. *)
Definition optional_int (o : option Z) : value := match o with Some z => VInt z | None => VNone end.
#[export] Instance location_dumped : Dumped CodeLocation := fun l =>
  VModel contract_info
    [("workspace_id", id_value (cl_workspace_id l)); ("commit_id", id_value (cl_commit_id l));
     ("file_path", VStr (cl_file_path l)); ("start_line", VInt (cl_start_line l));
     ("start_column", optional_int (cl_start_column l)); ("end_line", VInt (cl_end_line l));
     ("end_column", optional_int (cl_end_column l))].
Definition role_name (r : SourceRole) : string :=
  match r with SR_VERIFICATION => "VERIFICATION" | SR_PRO => "PRO" | SR_CON => "CON" end.
#[export] Instance claim_dumped : Dumped EvidenceClaim := fun c =>
  VModel contract_info
    [("claim_id", VStr (ec_claim_id c)); ("statement", VStr (ec_statement c));
     ("source_role", VStr (role_name (ec_source_role c)));
     ("evidence_refs", VSequence (map dump (ec_evidence_refs c)));
     ("code_locations", VSequence (map dump (ec_code_locations c)));
     ("limitations", VSequence (map VStr (ec_limitations c)))].
#[export] Instance restriction_dumped : Dumped Restriction := fun r =>
  VModel contract_info
    [("restriction_id", VStr (rx_restriction_id r)); ("statement", VStr (rx_statement r));
     ("fact_refs", VSequence (map dump (rx_fact_refs r)));
     ("evidence_refs", VSequence (map dump (rx_evidence_refs r)))].

Record EvidenceAgentResult := mkEvidence {
  er_meta : RunMeta;
  er_role : SourceRole;   (** PRO or CON *)
  er_parent_work_id : string;
  er_evidence_work_id : string;
  er_verification_generation : Z;
  er_llm_call_id : string;
  er_debate_input_hash : string;
  er_evidence : list EvidenceClaim;
  er_summary : string;
  er_limitations : list string;
}.

(** [EvidenceAgentResult.own_role_only] *)
Definition evidence_kind (r : SourceRole) : string :=
  match r with
  | SR_PRO => "pro_evidence_result"
  | SR_CON => "con_evidence_result"
  | SR_VERIFICATION => "verification_evidence_result"
  end.
Definition own_role_only (e : EvidenceAgentResult) : result unit :=
  raise_if neqb (record_type (er_meta e)) (evidence_kind (er_role e)) with "RECORD_KIND_MISMATCH" ;;
  raise_if existsb (fun c => neqb (ec_source_role c) (er_role e)) (er_evidence e)
    with "CROSS_ROLE_INPUT_DENIED" ;;
  unique_values (map ec_claim_id (er_evidence e)).

Record CandidateRef := mkCandidateRef {
  cand_candidate_id : string;
  cand_candidate_type : CandidateType;
  cand_statement : string;
  cand_source_hypothesis_ids : list string;
  cand_target_entities : list CodeSymbol;
  cand_target_locations : list CodeLocation;
  cand_evidence_refs : list StoredDataRef;
  cand_missing_information : list string;
}.

Record PrimitiveDraft := mkDraft {
  pd_draft_id : string;
  pd_entity_refs : list CodeSymbol;
  pd_privilege_level : option string;
  pd_evidence_refs : list StoredDataRef;
  pd_description : string;
}.

(** [PrimitiveDraft.supported] *)
Definition draft_supported (d : PrimitiveDraft) : result unit :=
  raise_if negb (nonempty (pd_evidence_refs d)) with "EVIDENCE_REQUIRED" ;;
  unique_values (pd_evidence_refs d).

Record VerificationMetrics := mkMetrics {
  vm_pro_tokens : option Z;
  vm_con_tokens : option Z;
  vm_synthesis_tokens : option Z;
  vm_elapsed_ms : Z;
  vm_verdict_changed_after_debate : bool;
  vm_hold_resolved : bool;
  vm_false_positive_reduction_candidate : bool;
  vm_new_bypass_count : Z;
  vm_new_restriction_count : Z;
  vm_new_falsification_count : Z;
}.

Record FalsificationResult := mkFalsification {
  fr_question_id : string;
  fr_outcome : Outcome;
  fr_evidence_refs : list StoredDataRef;
  fr_rationale : string;
}.

Record ValidationCheckResult := mkCheckResult {
  vc_validation_id : string;
  vc_completion : Completion;
  vc_evidence_refs : list StoredDataRef;
  vc_summary : string;
}.

Record VerificationResult := mkVerification {
  vr_meta : RunMeta;
  vr_playbook_ref : StoredDataRef;
  vr_playbook_application_ref : StoredDataRef;
  vr_verification_mode : VerificationMode;
  vr_debate_triggers : list string;
  vr_debate_skip_reason : option string;
  vr_debate_input_hash : option string;
  vr_pro_evidence_ref : option StoredDataRef;
  vr_con_evidence_ref : option StoredDataRef;
  vr_supporting_evidence : list EvidenceClaim;
  vr_counter_evidence : list EvidenceClaim;
  vr_falsification_results : list FalsificationResult;
  vr_validation_results : list ValidationCheckResult;
  vr_initial_verdict : Verdict;
  vr_dynamic_request_ref : option StoredDataRef;
  vr_dynamic_result_ref : option StoredDataRef;
  vr_poc_ref : option StoredDataRef;
  vr_verdict : Verdict;
  vr_verdict_rationale : string;
  vr_restrictions : list Restriction;
  vr_bypass_candidates : list CandidateRef;
  vr_required_primitive_candidates : list PrimitiveDraft;
  vr_provided_primitive_candidates : list PrimitiveDraft;
  vr_impact_escalation_candidates : list CandidateRef;
  vr_material_child_proposals : list HypothesisProposal;
  vr_unresolved_conditions : list string;
  vr_metrics : VerificationMetrics;
  vr_errors : list AnalysisError;
}.

(** [VerificationResult.final_shape] *)
Definition debated (r : VerificationResult) : bool :=
  eqb (vr_verification_mode r) ALWAYS_DEBATE
  || eqb (vr_verification_mode r) CONDITIONAL_DEBATE && nonempty (vr_debate_triggers r).

Definition absent_text (o : option string) : bool :=
  match o with None | Some EmptyString => true | _ => false end.

(** The debate took place exactly when its records and metrics are there. *)
Definition debate_shape (r : VerificationResult) : result unit :=
  let debate := debated r in
  raise_if neqb (is_some (vr_debate_input_hash r)) debate
           || neqb (is_some (vr_pro_evidence_ref r)) debate
           || neqb (is_some (vr_con_evidence_ref r)) debate
    with "DEBATE_CLOSURE_REQUIRED" ;;
  raise_if eqb (vr_verification_mode r) CONDITIONAL_DEBATE && negb debate
           && absent_text (vr_debate_skip_reason r)
    with "DEBATE_SKIP_REASON_REQUIRED" ;;
  raise_if negb debate
           && (is_some (vm_pro_tokens (vr_metrics r)) || is_some (vm_con_tokens (vr_metrics r))
               || vm_verdict_changed_after_debate (vr_metrics r))
    with "DEBATE_METRICS_MISMATCH" ;;
  Ok tt.

(** The verdict and the evidence it needs. *)
Definition verdict_shape (r : VerificationResult) : result unit :=
  raise_if neqb (is_none (vr_dynamic_request_ref r)) (is_none (vr_dynamic_result_ref r))
    with "DYNAMIC_CLOSURE_REQUIRED" ;;
  do! (if eqb (vr_verdict r) V_TRUE then
         raise_if is_none (vr_poc_ref r) || is_none (vr_dynamic_result_ref r)
                  || negb (nonempty (vr_supporting_evidence r))
           with "VALIDATED_POC_REQUIRED" ;;
         Ok tt
       else
         raise_if is_some (vr_poc_ref r) with "VALIDATED_POC_FORBIDDEN" ;; Ok tt) ;;
  raise_if neqb (eqb (vr_verdict r) V_FALSE)
                (existsb (fun q => eqb (fr_outcome q) DISPROVED) (vr_falsification_results r))
    with "FALSIFICATION_VERDICT_MISMATCH" ;;
  raise_if eqb (vr_verdict r) V_HOLD && negb (nonempty (vr_unresolved_conditions r))
    with "HOLD_CONDITIONS_REQUIRED" ;;
  raise_if negb (nonempty (vr_falsification_results r))
           || negb (nonempty (vr_validation_results r))
           || existsb (fun v => neqb (vc_completion v) COMPLETE
                                || negb (nonempty (vc_evidence_refs v)))
                (vr_validation_results r)
    with "VERIFICATION_INCOMPLETE" ;;
  raise_if existsb (fun q => negb (nonempty (fr_evidence_refs q))) (vr_falsification_results r)
    with "EVIDENCE_REQUIRED" ;;
  do! unique_values (map fr_question_id (vr_falsification_results r)) ;;
  unique_values (map vc_validation_id (vr_validation_results r)).

(** What the result says besides its verdict. *)
Definition content_shape (r : VerificationResult) : result unit :=
  do! unique_values (map ec_claim_id (vr_supporting_evidence r ++ vr_counter_evidence r)) ;;
  raise_if existsb (fun c => eqb (ec_source_role c) SR_CON) (vr_supporting_evidence r)
           || existsb (fun c => eqb (ec_source_role c) SR_PRO) (vr_counter_evidence r)
    with "CROSS_ROLE_INPUT_DENIED" ;;
  do! unique_values (map rx_restriction_id (vr_restrictions r)) ;;
  let drafts := vr_required_primitive_candidates r ++ vr_provided_primitive_candidates r in
  do! unique_values (map pd_draft_id drafts) ;;
  raise_if eqb (vr_verdict r) V_FALSE && nonempty drafts with "FALSE_PRIMITIVE_FORBIDDEN" ;;
  let candidates := vr_bypass_candidates r ++ vr_impact_escalation_candidates r in
  do! unique_values (map cand_candidate_id candidates) ;;
  raise_if existsb (fun c => negb (mem (rm_hypothesis_id (vr_meta r))
                                     (map Some (cand_source_hypothesis_ids c)))) candidates
    with "CANDIDATE_HYPOTHESIS_MISMATCH" ;;
  raise_if existsb (fun p => neqb (hs_origin p) O_VERIFICATION)
             (map hp_shape (vr_material_child_proposals r))
    with "CHILD_ORIGIN_MISMATCH" ;;
  raise_if vm_hold_resolved (vr_metrics r)
           && negb (eqb (vr_initial_verdict r) V_HOLD && neqb (vr_verdict r) V_HOLD)
    with "HOLD_METRICS_MISMATCH" ;;
  Ok tt.

Definition final_shape (r : VerificationResult) : result unit :=
  do! debate_shape r ;;
  do! for_each (fun '(ref, kind) => require_kind ref kind)
        [(Some (vr_playbook_ref r), "verification_playbook");
         (Some (vr_playbook_application_ref r), "playbook_application");
         (vr_pro_evidence_ref r, "pro_evidence_result");
         (vr_con_evidence_ref r, "con_evidence_result");
         (vr_dynamic_request_ref r, "dynamic_reproduction_request");
         (vr_dynamic_result_ref r, "dynamic_reproduction_result");
         (vr_poc_ref r, "poc_bundle")] ;;
  do! verdict_shape r ;;
  content_shape r.
