(* ===== verification/Verdicts.v ===== *)
(** * Verdicts

    How a verdict is justified: the dynamic records of [contracts/dynamic.py] it
    may rest on, the closure checks of [contracts/verification.py] and
    [contracts/gates.py], and the router of [verification/verdict_router.py]. *)
From S2P Require Import Prelude Records CanonicalJson Store Lineage Work Processes Actions Budget.
From S2P Require Import Runtime Registry Authority Outputs Evidence.

(** ** Dynamic reproduction ([contracts/dynamic.py]) *)

Inductive DynamicPurpose := POC_CONFIRMATION | VERDICT_EVIDENCE.
Inductive HypothesisOutcome := HO_SUPPORTED | HO_DISPROVED | HO_INCONCLUSIVE.
Inductive NeedKind :=
| NK_APP_ROLE | NK_AUTH | NK_DATA | NK_DATABASE | NK_SERVICE | NK_FIXTURE | NK_MOCK | NK_VERSION
| NK_HEALTH_CHECK.
Inductive ResultStatus := DS_SUCCEEDED | DS_PARTIAL | DS_FAILED | DS_BLOCKED | DS_CANCELLED.
Inductive FailureCategory :=
| FC_NONE | FC_POLICY_BLOCKED | FC_EXTERNAL_CONFIGURATION | FC_PLAN | FC_ENVIRONMENT_SETUP
| FC_DEPENDENCY | FC_AGENT | FC_EXECUTION | FC_OBSERVATION | FC_TIMEOUT | FC_RESOURCE_LIMIT
| FC_RETRY_LIMIT | FC_INTERNAL.
Inductive IssueCode :=
| MISSING_INPUT | CONTRADICTORY_REQUIREMENT | UNEXECUTABLE_GOAL | STALE_REFERENCE | OTHER_ISSUE.
Inductive IssueStatus := IS_OPEN | IS_RESOLVED.
Inductive PlanStatus := EXECUTABLE | EXECUTABLE_WITH_LIMITATIONS | NEEDS_REVISION.
Inductive CleanupStatus := CU_SUCCEEDED | CU_FAILED | CU_NOT_REQUIRED.

#[export] Instance DynamicPurpose_eq_dec : EqDecision DynamicPurpose.
Proof. solve_decision. Defined.
#[export] Instance HypothesisOutcome_eq_dec : EqDecision HypothesisOutcome.
Proof. solve_decision. Defined.
#[export] Instance ResultStatus_eq_dec : EqDecision ResultStatus.
Proof. solve_decision. Defined.
#[export] Instance FailureCategory_eq_dec : EqDecision FailureCategory.
Proof. solve_decision. Defined.
#[export] Instance IssueStatus_eq_dec : EqDecision IssueStatus.
Proof. solve_decision. Defined.
#[export] Instance PlanStatus_eq_dec : EqDecision PlanStatus.
Proof. solve_decision. Defined.
#[export] Instance CleanupStatus_eq_dec : EqDecision CleanupStatus.
Proof. solve_decision. Defined.

Record EnvironmentNeed := mkNeed {
  en_need_id : string;
  en_kind : NeedKind;
  en_description : string;
  en_required : bool;
  en_source_refs : list StoredDataRef;
}.

Record DynamicReproductionRequest := mkDynamicRequest {
  dq_meta : RunMeta;
  dq_verification_assignment_ref : StoredDataRef;
  dq_verification_generation : Z;
  dq_hypothesis_ref : StoredDataRef;
  dq_purpose : DynamicPurpose;
  dq_initial_verdict : Verdict;   (** TRUE or HOLD *)
  dq_goal : string;
  dq_environment_needs : list EnvironmentNeed;
  dq_sandbox_profile_ref : StoredDataRef;
  dq_code_refs : list StoredDataRef;
  dq_static_evidence_refs : list StoredDataRef;
  dq_pro_evidence_ref : StoredDataRef;
  dq_con_evidence_ref : StoredDataRef;
  dq_created_at : Z;
}.

(** [DynamicReproductionRequest.purpose_shape] *)
Definition purpose_shape (q : DynamicReproductionRequest) : result unit :=
  raise_if neqb (eqb (dq_purpose q) POC_CONFIRMATION) (eqb (dq_initial_verdict q) V_TRUE)
    with "DYNAMIC_PURPOSE_MISMATCH" ;;
  unique_values (map en_need_id (dq_environment_needs q)).

Record PoCBundle := mkBundle {
  poc_meta : RunMeta;
  poc_request_ref : StoredDataRef;
  poc_reproduction_plan_ref : StoredDataRef;
  poc_environment_recipe_ref : StoredDataRef;
  poc_environment_ref : StoredDataRef;
  poc_agent_log_ref : StoredDataRef;
  poc_candidate_ref : StoredDataRef;
  poc_candidate_digest : string;
  poc_execution_action_id : string;
  poc_evidence_refs : list StoredDataRef;
  poc_validated_at : Z;
}.

Record PlanIssueItem := mkIssue {
  is_issue_code : IssueCode;
  is_status : IssueStatus;
  is_message : string;
  is_related_refs : list StoredDataRef;
}.

Record DynamicReproductionResult := mkDynamicResult {
  dyn_meta : RunMeta;
  dyn_request_ref : StoredDataRef;
  dyn_action_decision_ref : option StoredDataRef;
  dyn_reproduction_plan_ref : option StoredDataRef;
  dyn_purpose : DynamicPurpose;
  dyn_policy_decision_ref : option StoredDataRef;
  dyn_agent_invoked : bool;
  dyn_agent_log_ref : StoredDataRef;
  dyn_agent_conclusion_ref : option StoredDataRef;
  dyn_environment_recipe_ref : option StoredDataRef;
  dyn_environment_ref : option StoredDataRef;
  dyn_poc_candidate_ref : option StoredDataRef;
  dyn_poc_ref : option StoredDataRef;
  dyn_observation_refs : list StoredDataRef;
  dyn_status : ResultStatus;
  dyn_failure_category : FailureCategory;
  dyn_failure_reason : option string;
  dyn_plan_issues : list PlanIssueItem;
  dyn_hypothesis_outcome : HypothesisOutcome;
  dyn_hypothesis_evidence_refs : list StoredDataRef;
  dyn_hypothesis_disproved : bool;
  dyn_disproof_evidence_refs : list StoredDataRef;
  dyn_hypothesis_linkage : string;
  dyn_plan_execution_status : PlanStatus;
  dyn_plan_issue_evidence_refs : list StoredDataRef;
  dyn_limitations : list string;
  dyn_cleanup_required : bool;
  dyn_cleanup_status : CleanupStatus;
  dyn_cleanup_ref : option StoredDataRef;
  dyn_started_at : Z;
  dyn_finished_at : Z;
  dyn_elapsed_ms : Z;
}.

Definition successful (d : DynamicReproductionResult) : bool :=
  mem (dyn_status d) [DS_SUCCEEDED; DS_PARTIAL].
Definition supported (d : DynamicReproductionResult) : bool :=
  eqb (dyn_status d) DS_SUCCEEDED && eqb (dyn_hypothesis_outcome d) HO_SUPPORTED.

Definition pre_boundary_categories : list FailureCategory :=
  [FC_PLAN; FC_EXTERNAL_CONFIGURATION; FC_ENVIRONMENT_SETUP; FC_DEPENDENCY; FC_AGENT; FC_TIMEOUT;
   FC_RESOURCE_LIMIT; FC_RETRY_LIMIT; FC_INTERNAL].

(** The outcome and the evidence it rests on. *)
Definition outcome_shape (d : DynamicReproductionResult) : result unit :=
  raise_if neqb (successful d) (eqb (dyn_failure_category d) FC_NONE)
           || neqb (successful d) (is_none (dyn_failure_reason d))
    with "DYNAMIC_FAILURE_STATUS_MISMATCH" ;;
  raise_if neqb (dyn_status d) DS_SUCCEEDED && neqb (dyn_hypothesis_outcome d) HO_INCONCLUSIVE
    with "EXECUTION_FAILURE_IS_NOT_VERDICT" ;;
  raise_if neqb (supported d) (is_some (dyn_poc_ref d)) with "VALIDATED_POC_STATUS_MISMATCH" ;;
  raise_if supported d
           && (negb (dyn_agent_invoked d) || is_none (dyn_reproduction_plan_ref d)
               || is_none (dyn_environment_recipe_ref d) || is_none (dyn_environment_ref d)
               || is_none (dyn_poc_candidate_ref d))
    with "VALIDATED_POC_PROVENANCE_REQUIRED" ;;
  raise_if neqb (dyn_hypothesis_outcome d) HO_INCONCLUSIVE
           && (negb (nonempty (dyn_observation_refs d))
               || negb (nonempty (dyn_hypothesis_evidence_refs d)))
    with "DYNAMIC_OBSERVATIONS_REQUIRED" ;;
  raise_if neqb (eqb (dyn_hypothesis_outcome d) HO_DISPROVED) (dyn_hypothesis_disproved d)
           || neqb (dyn_hypothesis_disproved d) (nonempty (dyn_disproof_evidence_refs d))
    with "DISPROOF_EVIDENCE_MISMATCH" ;;
  Ok tt.

(** The execution behind it. *)
Definition execution_shape (d : DynamicReproductionResult) : result unit :=
  raise_if successful d && (negb (dyn_agent_invoked d) || is_none (dyn_agent_conclusion_ref d))
    with "DYNAMIC_CONCLUSION_REQUIRED" ;;
  raise_if eqb (dyn_status d) DS_PARTIAL
           && (negb (nonempty (dyn_observation_refs d))
               || negb (nonempty (dyn_hypothesis_evidence_refs d))
               || negb (nonempty (dyn_limitations d)))
    with "PARTIAL_EVIDENCE_REQUIRED" ;;
  raise_if negb (dyn_agent_invoked d) && is_some (dyn_agent_conclusion_ref d)
    with "UNINVOKED_CONCLUSION_FORBIDDEN" ;;
  raise_if is_none (dyn_action_decision_ref d)
           && (negb (mem (dyn_failure_category d) pre_boundary_categories)
               || dyn_agent_invoked d || is_some (dyn_policy_decision_ref d)
               || is_some (dyn_environment_recipe_ref d) || is_some (dyn_environment_ref d)
               || is_some (dyn_poc_candidate_ref d) || is_some (dyn_poc_ref d))
    with "PRE_BOUNDARY_FAILURE_MISMATCH" ;;
  raise_if (dyn_agent_invoked d || eqb (dyn_failure_category d) FC_POLICY_BLOCKED)
           && (is_none (dyn_action_decision_ref d) || is_none (dyn_policy_decision_ref d))
    with "BOUNDARY_DECISION_REQUIRED" ;;
  Ok tt.

(** Cleanup, plan and times. *)
Definition closing_shape (d : DynamicReproductionResult) : result unit :=
  raise_if neqb (dyn_cleanup_required d) (neqb (dyn_cleanup_status d) CU_NOT_REQUIRED)
           || neqb (dyn_cleanup_required d) (is_some (dyn_cleanup_ref d))
    with "CLEANUP_STATUS_MISMATCH" ;;
  raise_if is_some (dyn_environment_ref d) && negb (dyn_cleanup_required d)
    with "CLEANUP_REQUIRED" ;;
  raise_if existsb (fun i => eqb (is_status i) IS_OPEN) (dyn_plan_issues d)
           && (neqb (dyn_hypothesis_outcome d) HO_INCONCLUSIVE
               || negb (mem (dyn_status d) [DS_FAILED; DS_BLOCKED]))
    with "OPEN_PLAN_ISSUE" ;;
  raise_if eqb (dyn_plan_execution_status d) NEEDS_REVISION && negb (nonempty (dyn_plan_issues d))
    with "PLAN_ISSUE_REQUIRED" ;;
  raise_if dyn_finished_at d <? dyn_started_at d with "INVALID_TIME_RANGE" ;;
  Ok tt.

(** [DynamicReproductionResult.result_shape] *)
Definition result_shape (d : DynamicReproductionResult) : result unit :=
  do! outcome_shape d ;;
  do! execution_shape d ;;
  closing_shape d.

Section verdicts.
Context `{!Dumped HypothesisProposal} `{!Dumped VulnerabilityHypothesis}.
Context `{!Dumped VerificationPlaybook} `{!Dumped PlaybookPolicy} `{!Dumped PlaybookApplication}.
Context `{!Dumped EvidenceAgentResult} `{!Dumped VerificationResult}.
Context `{!Dumped DynamicReproductionRequest} `{!Dumped DynamicReproductionResult}.
Context `{!Dumped PoCBundle}.

(** ** The debate *)

(** [validate_evidence_pair] *)
Definition validate_evidence_pair (pro con : EvidenceAgentResult) (parent_work_id : string)
  (generation : Z) (debate_input_hash : string) : result unit :=
  raise_if neqb (er_role pro) SR_PRO || neqb (er_role con) SR_CON with "CROSS_ROLE_INPUT_DENIED" ;;
  do! same_scope (MRun (er_meta pro)) (MRun (er_meta con)) ;;
  do! for_each (fun e =>
          raise_if neqb (er_parent_work_id e, er_verification_generation e, er_debate_input_hash e)
                        (parent_work_id, generation, debate_input_hash)
            with "STALE_RESULT" ;;
          Ok tt) [pro; con] ;;
  raise_if eqb (er_evidence_work_id pro) (er_evidence_work_id con)
           || eqb (rm_attempt_id (er_meta pro)) (rm_attempt_id (er_meta con))
           || eqb (er_llm_call_id pro) (er_llm_call_id con)
    with "EVIDENCE_INDEPENDENCE_REQUIRED" ;;
  Ok tt.

(** [validate_evidence_sessions] *)
Definition validate_evidence_sessions (pro con : EvidenceAgentResult)
  (pro_session_id con_session_id : string) (pro_mode con_mode : SessionMode) : result unit :=
  do! validate_evidence_pair pro con (er_parent_work_id pro) (er_verification_generation pro)
        (er_debate_input_hash pro) ;;
  raise_if neqb pro_mode M_NEW || neqb con_mode M_NEW || eqb pro_session_id ""
           || eqb con_session_id "" || eqb pro_session_id con_session_id
    with "EVIDENCE_NEW_SESSION_REQUIRED" ;;
  Ok tt.

(** ** The playbook *)

(** [{item.vulnerability_type: item.playbook_ref for item in policy.type_playbooks}]:
    of two items with one key the later is read. *)
Definition playbook_for (policy : PlaybookPolicy) (kind : string) : option StoredDataRef :=
  assoc kind (rev (map (fun i => (pi_vulnerability_type i, pi_playbook_ref i))
                     (pp_type_playbooks policy))).

Definition selection_of (types : list string) (policy : PlaybookPolicy)
  : SelectionReason * StoredDataRef :=
  match types with
  | [] => (NO_TYPE, pp_common_playbook_ref policy)
  | [t] =>
      match playbook_for policy t with
      | Some ref => (TYPE_MATCH, ref)
      | None => (TYPE_NOT_ALLOWED, pp_common_playbook_ref policy)
      end
  | _ => (MULTIPLE_TYPES, pp_common_playbook_ref policy)
  end.

(** [validate_playbook_application] *)
Definition validate_playbook_application (application : PlaybookApplication)
  (hypothesis : VulnerabilityHypothesis) (proposal : HypothesisProposal)
  (policy : PlaybookPolicy) (playbook : VerificationPlaybook) : result unit :=
  let meta := pa_meta application in
  do! same_scope (MRun meta) (MRun (hs_meta hypothesis)) ;;
  do! exact (RStored (pa_hypothesis_ref application)) (hs_meta hypothesis) hypothesis meta ;;
  do! exact (RStored (pa_proposal_ref application)) (hs_meta proposal) proposal meta ;;
  do! exact (RStored (pa_policy_ref application)) (pp_meta policy) policy meta ;;
  do! exact (RStored (pa_playbook_ref application)) (pl_meta playbook) playbook meta ;;
  raise_if neqb (pa_proposal_ref application) (vh_proposal_ref hypothesis)
    with "PROPOSAL_REFERENCE_MISMATCH" ;;
  let (reason, expected_ref) := selection_of (hp_vulnerability_type_candidates proposal) policy in
  raise_if neqb (pa_selection_reason application) reason
           || neqb (pa_playbook_ref application) expected_ref
           || neqb (pa_selection application) (pl_scope playbook)
           || neqb (pa_selected_type application) (pl_vulnerability_type playbook)
    with "PLAYBOOK_SELECTION_MISMATCH" ;;
  raise_if neqb (map (fun q => (aq_template_key q, aq_question q)) (pa_questions application))
                (map (fun q => (pq_template_key q, pq_question q))
                   (pl_falsification_question_templates playbook))
    with "PLAYBOOK_QUESTION_DRIFT" ;;
  unique_values (map aq_question_id (pa_questions application)
                 ++ map fq_question_id (hs_falsification_questions hypothesis)).

(** ** The closure of a result *)

Inductive ClosurePurpose := CP_PRODUCTION | CP_EVALUATION | CP_LOCAL_EVALUATION.
#[local] Instance ClosurePurpose_eq_dec : EqDecision ClosurePurpose.
Proof. solve_decision. Defined.

(** The debate of a result that has one. *)
Definition debate_closure (result : VerificationResult) (pro con : option EvidenceAgentResult)
  (current_work_id : string) (current_generation : Z) (hash : string) : Prelude.result unit :=
  match pro, con, vr_pro_evidence_ref result, vr_con_evidence_ref result with
  | Some pro, Some con, Some pro_ref, Some con_ref =>
      do! validate_evidence_pair pro con current_work_id current_generation hash ;;
      do! for_each (fun '(ref, target) =>
              do! exact (RStored ref) (er_meta target) target (vr_meta result) ;;
              same_scope (MRun (vr_meta result)) (MRun (er_meta target)))
            [(pro_ref, pro); (con_ref, con)] ;;
      do! exact_values (List.filter (fun c => eqb (ec_source_role c) SR_PRO)
                          (vr_supporting_evidence result)) (er_evidence pro) ;;
      exact_values (List.filter (fun c => eqb (ec_source_role c) SR_CON)
                      (vr_counter_evidence result)) (er_evidence con)
  | _, _, _, _ => Err (ValueError "DEBATE_CLOSURE_REQUIRED")
  end.

(** [validate_verification_closure] *)
Definition validate_verification_closure (result : VerificationResult)
  (hypothesis : VulnerabilityHypothesis) (proposal : HypothesisProposal)
  (application : PlaybookApplication) (pro con : option EvidenceAgentResult)
  (current_work_id : string) (current_generation : Z) (purpose : ClosurePurpose)
  : Prelude.result unit :=
  let meta := vr_meta result in
  do! same_scope (MRun meta) (MRun (hs_meta hypothesis)) ;;
  do! same_scope (MRun meta) (MRun (pa_meta application)) ;;
  do! exact (RStored (vr_playbook_application_ref result)) (pa_meta application) application meta ;;
  do! exact (RStored (pa_hypothesis_ref application)) (hs_meta hypothesis) hypothesis meta ;;
  do! exact (RStored (vh_proposal_ref hypothesis)) (hs_meta proposal) proposal meta ;;
  raise_if neqb (pa_proposal_ref application) (vh_proposal_ref hypothesis)
    with "PROPOSAL_REFERENCE_MISMATCH" ;;
  raise_if neqb (pa_verification_work_id application) current_work_id
           || neqb (pa_verification_generation application) current_generation
           || neqb (vr_playbook_ref result) (pa_playbook_ref application)
    with "STALE_RESULT" ;;
  raise_if mem purpose [CP_PRODUCTION; CP_LOCAL_EVALUATION]
           && neqb (vr_verification_mode result) ALWAYS_DEBATE
    with "PRODUCTION_DEBATE_REQUIRED" ;;
  do! exact_values (map fr_question_id (vr_falsification_results result))
        (map fq_question_id (hs_falsification_questions hypothesis)
         ++ map aq_question_id (pa_questions application)) ;;
  do! exact_values (map vc_validation_id (vr_validation_results result))
        (map ck_validation_id (hs_validation_checks hypothesis)) ;;
  do! for_each (fun r => raise_if negb (mem r (vr_restrictions result))
                           with "RESTRICTION_DROPPED" ;; Ok tt)
        (hp_restrictions proposal) ;;
  match vr_debate_input_hash result with
  | None => Ok tt
  | Some hash => debate_closure result pro con current_work_id current_generation hash
  end.

(** ** The dynamic verdict *)

Definition expected_verdict (o : HypothesisOutcome) : Verdict :=
  match o with HO_SUPPORTED => V_TRUE | HO_DISPROVED => V_FALSE | HO_INCONCLUSIVE => V_HOLD end.

(** [validate_dynamic_verdict] *)
Definition validate_dynamic_verdict (result : VerificationResult)
  (request : DynamicReproductionRequest) (dynamic : DynamicReproductionResult)
  (poc : option PoCBundle) (generation : Z) : Prelude.result unit :=
  let meta := vr_meta result in
  match vr_dynamic_request_ref result, vr_dynamic_result_ref result with
  | Some request_ref, Some result_ref =>
      do! exact (RStored request_ref) (dq_meta request) request meta ;;
      do! exact (RStored result_ref) (dyn_meta dynamic) dynamic meta ;;
      do! same_scope (MRun meta) (MRun (dq_meta request)) ;;
      do! same_scope (MRun meta) (MRun (dyn_meta dynamic)) ;;
      raise_if neqb (dq_verification_generation request) generation
               || neqb (dyn_request_ref dynamic) request_ref
               || neqb (dyn_purpose dynamic) (dq_purpose request)
        with "STALE_RESULT" ;;
      raise_if negb (successful dynamic) with "EXECUTION_FAILURE_IS_NOT_VERDICT" ;;
      raise_if neqb (vr_verdict result) (expected_verdict (dyn_hypothesis_outcome dynamic))
        with "DYNAMIC_VERDICT_MISMATCH" ;;
      raise_if neqb (vr_poc_ref result) (dyn_poc_ref dynamic)
               || neqb (is_none (vr_poc_ref result)) (is_none poc)
        with "VALIDATED_POC_REQUIRED" ;;
      match poc, vr_poc_ref result with
      | Some poc, Some poc_ref =>
          do! exact (RStored poc_ref) (poc_meta poc) poc meta ;;
          do! same_attempt_scope (poc_meta poc) (dyn_meta dynamic) ;;
          raise_if neqb (poc_request_ref poc) (dyn_request_ref dynamic)
            with "POC_PROVENANCE_MISMATCH" ;;
          Ok tt
      | _, _ => Ok tt
      end
  | _, _ => Err (ValueError "DYNAMIC_CLOSURE_REQUIRED")
  end.

(** [validate_true_dynamic] ([contracts/gates.py]) *)
Definition validate_true_dynamic (verification : VerificationResult)
  (dynamic : DynamicReproductionResult) (poc : PoCBundle) : result unit :=
  raise_if neqb (vr_verdict verification) V_TRUE
           || neqb (vr_verification_mode verification) ALWAYS_DEBATE
           || neqb (dyn_status dynamic) DS_SUCCEEDED
           || neqb (dyn_hypothesis_outcome dynamic) HO_SUPPORTED
    with "TECHNICAL_TRUE_REQUIRED" ;;
  match vr_dynamic_result_ref verification, vr_poc_ref verification with
  | Some result_ref, Some poc_ref =>
      do! exact (RStored result_ref) (dyn_meta dynamic) dynamic (vr_meta verification) ;;
      do! exact (RStored poc_ref) (poc_meta poc) poc (vr_meta verification) ;;
      do! same_scope (MRun (vr_meta verification)) (MRun (dyn_meta dynamic)) ;;
      do! same_attempt_scope (dyn_meta dynamic) (poc_meta poc) ;;
      raise_if neqb (vr_dynamic_request_ref verification) (Some (dyn_request_ref dynamic))
               || neqb (vr_poc_ref verification) (dyn_poc_ref dynamic)
               || neqb (poc_request_ref poc) (dyn_request_ref dynamic)
        with "DYNAMIC_VERIFICATION_CLOSURE_MISMATCH" ;;
      Ok tt
  | _, _ => Err (ValueError "VALIDATED_POC_REQUIRED")
  end.

(** ** The router ([verification/verdict_router.py]) *)

(** The records the router is given. *)
Inductive VerdictRecord :=
| VR_result (r : VerificationResult)
| VR_request (q : DynamicReproductionRequest)
| VR_dynamic (d : DynamicReproductionResult)
| VR_poc (p : PoCBundle)
| VR_process (h : HypothesisProcessState)
| VR_other.

Inductive RouteKind := PRIMITIVE_UPDATE_ROUTE | CWE_LABEL_ROUTE.
Record VerdictRoute := mkRoute {
  rt_work_type : RouteKind;
  rt_input_refs : list StoredDataRef;
}.

(** [current_process_from] *)
Definition current_process_from (records : string -> string -> list VerdictRecord)
  (result : VerificationResult) : option HypothesisProcessState :=
  match omap (fun item => match item with
                          | VR_process h =>
                              if eqb (rm_hypothesis_id (h_meta h)) (rm_hypothesis_id (vr_meta result))
                              then Some h else None
                          | _ => None
                          end)
          (records (rm_analysis_id (vr_meta result)) "hypothesis_process_state") with
  | [h] => Some h
  | _ => None
  end.

(** [ExactRecordReader] and [CurrentProcessResolver] *)
Section router.
Context (get_exact : StoredDataRef -> Prelude.result VerdictRecord).
Context (current_process : option (VerificationResult -> option HypothesisProcessState)).

(** [VerdictRouter._exact], for each model it is used with *)
Definition exact_request (ref : StoredDataRef) : result DynamicReproductionRequest :=
  let! value := get_exact ref in
  match value with
  | VR_request q => do! exact (RStored ref) (dq_meta q) q (dq_meta q) ;; Ok q
  | _ => Err (ValueError "RECORD_REVISION_MISMATCH")
  end.
Definition exact_dynamic (ref : StoredDataRef) : result DynamicReproductionResult :=
  let! value := get_exact ref in
  match value with
  | VR_dynamic d => do! exact (RStored ref) (dyn_meta d) d (dyn_meta d) ;; Ok d
  | _ => Err (ValueError "RECORD_REVISION_MISMATCH")
  end.
Definition exact_poc (ref : StoredDataRef) : result PoCBundle :=
  let! value := get_exact ref in
  match value with
  | VR_poc p => do! exact (RStored ref) (poc_meta p) p (poc_meta p) ;; Ok p
  | _ => Err (ValueError "RECORD_REVISION_MISMATCH")
  end.

(** The process a TRUE verdict is committed in. *)
Definition committed_process (result : VerificationResult) (result_ref : StoredDataRef)
  : Prelude.result HypothesisProcessState :=
  match current_process with
  | None => Err (ValueError "STALE_RESULT")
  | Some resolve =>
      match resolve result with
      | None => Err (ValueError "STALE_RESULT")
      | Some process =>
          raise_if neqb (h_status process) H_TERMINAL
                   || neqb (h_verification_result_ref process) (Some result_ref)
                   || is_some (h_verification_work_ref process)
                   || neqb (scope_names (MRun (h_meta process))) (scope_names (MRun (vr_meta result)))
            with "STALE_RESULT" ;;
          Ok process
      end
  end.

(** [VerdictRouter._require_committed_true] *)
Definition _require_committed_true (result : VerificationResult) (result_ref : StoredDataRef)
  : Prelude.result unit :=
  let! process := committed_process result result_ref in
  match vr_dynamic_request_ref result, vr_dynamic_result_ref result, vr_poc_ref result with
  | Some request_ref, Some dynamic_ref, Some poc_ref =>
      let! request := exact_request request_ref in
      let! dynamic := exact_dynamic dynamic_ref in
      let! poc := exact_poc poc_ref in
      do! validate_dynamic_verdict result request dynamic (Some poc)
            (h_verification_generation process) ;;
      validate_true_dynamic result dynamic poc
  | _, _, _ => Err (ValueError "DYNAMIC_CLOSURE_REQUIRED")
  end.

(** [VerdictRouter.route] *)
Definition route (result_ref : StoredDataRef) : result (list VerdictRoute) :=
  let! value := get_exact result_ref in
  match value with
  | VR_result value =>
      do! exact (RStored result_ref) (vr_meta value) value (vr_meta value) ;;
      match vr_verdict value with
      | V_FALSE => Ok []
      | V_TRUE =>
          do! _require_committed_true value result_ref ;;
          Ok [mkRoute CWE_LABEL_ROUTE [result_ref]]
      | V_HOLD =>
          if nonempty (vr_required_primitive_candidates value)
          then Ok [mkRoute PRIMITIVE_UPDATE_ROUTE [result_ref]] else Ok []
      end
  | _ => Err (ValueError "RECORD_REVISION_MISMATCH")
  end.

End router.

(** ** Sets of identifiers *)

Lemma unique_values_NoDup {A} `{Dumped A} (l : list A) : unique_values l = Ok tt -> NoDup l.
Proof.
  unfold unique_values, canonical_keys. intros Hu. call Hu as keys Hk. unfold unique in Hu.
  apply raise_if_Ok in Hu. destruct Hu as [Hd _]. apply has_duplicates_false in Hd.
  apply map_result_Forall2 in Hk. apply NoDup_alt. intros i j x Hi Hj.
  destruct (Forall2_lookup_l _ _ _ _ _ Hk Hi) as (k & Hki & Hx).
  destruct (Forall2_lookup_l _ _ _ _ _ Hk Hj) as (k' & Hkj & Hx').
  rewrite NoDup_alt in Hd. apply (Hd i j k Hki). congruence.
Qed.

Lemma exact_set_elem actual expected :
  exact_set actual expected = Ok tt -> NoDup actual /\ forall k, k ∈ actual <-> k ∈ expected.
Proof.
  unfold exact_set, unique. intros He. call He as [] Hu. apply raise_if_Ok in Hu. destruct Hu as [Hu _].
  apply raise_if_Ok in He. destruct He as [He _]. apply has_duplicates_false in Hu. boolify.
  destruct He as [H1 H2]. split; [exact Hu |]. rewrite forallb_forall in H1, H2.
  setoid_rewrite <- list_elem_of_In in H1. setoid_rewrite <- list_elem_of_In in H2.
  intros k. split; intros Hk; apply mem_true; auto.
Qed.

(** Values with an injective canonical form: [exact_set] compares them as sets. *)
Lemma exact_values_Ok {A} `{Dumped A} (key : A -> string) `{!Inj (=) (=) key} (actual expected : list A) :
  (forall x, canonical_bytes [] (dump x) = Ok (key x)) ->
  exact_values actual expected = Ok tt -> NoDup actual /\ forall x, x ∈ actual <-> x ∈ expected.
Proof.
  intros Hkey. assert (Hmap : forall l keys, canonical_keys l = Ok keys -> keys = map key l).
  { intros l keys Hk. unfold canonical_keys in Hk. apply map_result_Forall2 in Hk.
    induction Hk as [| x k l keys Hx _ IH]; [reflexivity |]. rewrite Hkey in Hx. injection Hx as <-.
    cbn. f_equal. exact IH. }
  assert (Hin : forall x l, key x ∈ map key l <-> x ∈ l).
  { intros x l. rewrite list_elem_of_fmap. split; [| eauto]. intros (y & Hy & Hl).
    apply (inj key) in Hy. congruence. }
  unfold exact_values. intros He. call He as keys Hk. call He as [] _. call He as keys' Hk'.
  apply Hmap in Hk, Hk'. subst. apply exact_set_elem in He. destruct He as [Hnd He]. split.
  - apply (NoDup_fmap_1 key), Hnd.
  - intros x. specialize (He (key x)). rewrite !Hin in He. exact He.
Qed.

Definition text_key (s : string) : string := _encode (JStr s).
#[export] Instance text_key_inj : Inj (=) (=) text_key.
Proof. intros s t He. apply encode_canon in He. cbn in He. congruence. Qed.

Lemma exact_texts_Ok (actual expected : list string) :
  exact_values actual expected = Ok tt -> NoDup actual /\ forall s, s ∈ actual <-> s ∈ expected.
Proof. apply (exact_values_Ok text_key). reflexivity. Qed.

Lemma exact_refs_Ok (actual expected : list StoredDataRef) :
  exact_values actual expected = Ok tt -> NoDup actual /\ forall r, r ∈ actual <-> r ∈ expected.
Proof. apply (exact_values_Ok _key). exact key_canonical. Qed.

(** ** The theorems *)

Lemma evidence_pair_Ok pro con w g h :
  validate_evidence_pair pro con w g h = Ok tt ->
  er_role pro = SR_PRO /\ er_role con = SR_CON
  /\ (er_parent_work_id pro = w /\ er_parent_work_id con = w)
  /\ (er_verification_generation pro = g /\ er_verification_generation con = g)
  /\ (er_debate_input_hash pro = h /\ er_debate_input_hash con = h)
  /\ er_evidence_work_id pro <> er_evidence_work_id con
  /\ rm_attempt_id (er_meta pro) <> rm_attempt_id (er_meta con)
  /\ er_llm_call_id pro <> er_llm_call_id con.
Proof.
  unfold validate_evidence_pair. intros Hv. apply raise_if_Ok in Hv. destruct Hv as [Hr Hv].
  call Hv as [] _. call Hv as [] Ht. apply raise_if_Ok in Hv. destruct Hv as [Hi _].
  cbn [for_each] in Ht. call Ht as [] Hp. call Ht as [] Hc. apply raise_if_Ok in Hp, Hc.
  destruct Hp as [Hp _], Hc as [Hc _]. boolify. intuition congruence.
Qed.

(** The evidence of a debate: independent, of this verification, and quoted in
    full. *)
Definition debate_evidence (result : VerificationResult) (work_id : string) (generation : Z)
  (pro con : EvidenceAgentResult) : Prop :=
  er_role pro = SR_PRO /\ er_role con = SR_CON
  /\ (er_parent_work_id pro = work_id /\ er_parent_work_id con = work_id)
  /\ (er_verification_generation pro = generation /\ er_verification_generation con = generation)
  /\ er_evidence_work_id pro <> er_evidence_work_id con
  /\ rm_attempt_id (er_meta pro) <> rm_attempt_id (er_meta con)
  /\ er_llm_call_id pro <> er_llm_call_id con
  /\ exists pro_ref con_ref, vr_pro_evidence_ref result = Some pro_ref
       /\ vr_con_evidence_ref result = Some con_ref
       /\ exact (RStored pro_ref) (er_meta pro) pro (vr_meta result) = Ok tt
       /\ exact (RStored con_ref) (er_meta con) con (vr_meta result) = Ok tt.

Lemma debate_closure_Ok result pro con w g h :
  debate_closure result pro con w g h = Ok tt ->
  exists p c, pro = Some p /\ con = Some c /\ debate_evidence result w g p c.
Proof.
  unfold debate_closure. intros Hd. destruct pro as [p |]; [| discriminate].
  destruct con as [c |]; [| discriminate]. destruct (vr_pro_evidence_ref result) as [pr |] eqn:Hpr; [| discriminate].
  destruct (vr_con_evidence_ref result) as [cr |] eqn:Hcr; [| discriminate].
  call Hd as [] Hp. call Hd as [] Hx. clear Hd. apply evidence_pair_Ok in Hp.
  cbn [for_each] in Hx. call Hx as [] Hxp. call Hx as [] Hxc. call Hxp as [] Hxp'. call Hxc as [] Hxc'.
  exists p, c. split; [reflexivity |]. split; [reflexivity |]. unfold debate_evidence.
  destruct Hp as (H1 & H2 & H3 & H4 & _ & H5 & H6 & H7). repeat (split; [assumption |]).
  exists pr, cr. auto.
Qed.

Lemma verdict_shape_Ok r :
  verdict_shape r = Ok tt ->
  (vr_verdict r = V_TRUE <-> vr_poc_ref r <> None)
  /\ (vr_verdict r = V_TRUE -> vr_dynamic_result_ref r <> None /\ vr_supporting_evidence r <> [])
  /\ (vr_verdict r = V_FALSE <-> exists q, q ∈ vr_falsification_results r /\ fr_outcome q = DISPROVED)
  /\ (vr_verdict r = V_HOLD -> vr_unresolved_conditions r <> [])
  /\ (forall q, q ∈ vr_falsification_results r -> fr_evidence_refs q <> [])
  /\ (forall v, v ∈ vr_validation_results r -> vc_completion v = COMPLETE /\ vc_evidence_refs v <> []).
Proof.
  unfold verdict_shape. intros Hv. apply raise_if_Ok in Hv. destruct Hv as [_ Hv]. call Hv as [] Ht.
  apply raise_if_Ok in Hv. destruct Hv as [Hf Hv]. apply raise_if_Ok in Hv. destruct Hv as [Hh Hv].
  apply raise_if_Ok in Hv. destruct Hv as [Hc Hv]. apply raise_if_Ok in Hv. destruct Hv as [He _].
  apply orb_false_iff in Hc. destruct Hc as [_ Hc].
  split; [| split; [| split; [| split; [| split]]]].
  - destruct (vr_verdict r); simpl in Ht; apply raise_if_Ok in Ht; destruct Ht as [Ht _]; boolify;
      destruct (vr_poc_ref r); naive_solver.
  - intros Htrue. rewrite Htrue in Ht. simpl in Ht. apply raise_if_Ok in Ht. destruct Ht as [Ht _].
    boolify. destruct Ht as [[_ Hd] Hs]. split; [destruct (vr_dynamic_result_ref r); naive_solver | exact Hs].
  - apply negb_false_iff, bool_decide_eq_true in Hf. split.
    + intros Hfalse. rewrite Hfalse in Hf. symmetry in Hf. apply existsb_exists in Hf.
      destruct Hf as (q & Hin & Hq). exists q. apply list_elem_of_In in Hin. boolify. auto.
    + intros (q & Hin & Hq). apply list_elem_of_In in Hin.
      assert (Hx : existsb (fun q => eqb (fr_outcome q) DISPROVED) (vr_falsification_results r) = true)
        by (apply existsb_exists; exists q; split; [exact Hin | apply bool_decide_eq_true, Hq]).
      rewrite Hx in Hf. apply bool_decide_eq_true in Hf. exact Hf.
  - intros Hhold. rewrite Hhold in Hh. boolify. exact (Hh eq_refl).
  - intros q Hin. pose proof (existsb_false _ _ _ He Hin) as Hq. simpl in Hq. boolify. exact Hq.
  - intros v Hin. pose proof (existsb_false _ _ _ Hc Hin) as Hq. simpl in Hq. boolify. exact Hq.
Qed.


(** What a dynamic result that passes its checks shows. *)
Lemma result_shape_Ok d :
  result_shape d = Ok tt ->
  (dyn_hypothesis_outcome d <> HO_INCONCLUSIVE ->
     dyn_status d = DS_SUCCEEDED /\ dyn_observation_refs d <> [] /\ dyn_hypothesis_evidence_refs d <> [])
  /\ (dyn_hypothesis_outcome d = HO_SUPPORTED <-> dyn_poc_ref d <> None)
  /\ (dyn_hypothesis_outcome d = HO_DISPROVED <-> dyn_disproof_evidence_refs d <> [])
  /\ (successful d = true -> dyn_agent_invoked d = true /\ dyn_agent_conclusion_ref d <> None)
  /\ (dyn_agent_invoked d = true -> dyn_action_decision_ref d <> None /\ dyn_policy_decision_ref d <> None).
Proof.
  unfold result_shape, outcome_shape, execution_shape. intros Hr. call Hr as [] Ho. call Hr as [] He. clear Hr.
  apply raise_if_Ok in Ho. destruct Ho as [_ Ho]. apply raise_if_Ok in Ho. destruct Ho as [Hf Ho].
  apply raise_if_Ok in Ho. destruct Ho as [Hp Ho]. apply raise_if_Ok in Ho. destruct Ho as [_ Ho].
  apply raise_if_Ok in Ho. destruct Ho as [Hob Ho]. apply raise_if_Ok in Ho. destruct Ho as [Hd _].
  apply raise_if_Ok in He. destruct He as [Hc He]. do 3 (apply raise_if_Ok in He; destruct He as [_ He]).
  apply raise_if_Ok in He. destruct He as [Hb _]. unfold supported in Hp.
  split; [| split; [| split; [| split]]].
  - intros Hne. boolify. destruct (decide (dyn_status d = DS_SUCCEEDED)); [| exfalso; tauto].
    split; [assumption |]. specialize (Hob Hne). tauto.
  - apply negb_false_iff, bool_decide_eq_true in Hp. split.
    + intros Hs Hn. rewrite Hn in Hp. simpl in Hp.
      destruct (decide (dyn_status d = DS_SUCCEEDED)) as [Ht | Ht]; [rewrite Ht, Hs in Hp; discriminate Hp |].
      rewrite Hs in Hf. destruct (dyn_status d); (discriminate Hf || congruence).
    + intros Hn. destruct (dyn_poc_ref d); [| congruence]. simpl in Hp. boolify. tauto.
  - apply orb_false_iff in Hd. destruct Hd as [H1 H2]. apply negb_false_iff, bool_decide_eq_true in H1, H2.
    rewrite <- nonempty_true, <- H2, <- H1. symmetry. apply bool_decide_eq_true.
  - intros Hs. rewrite Hs in Hc. simpl in Hc. apply orb_false_iff in Hc. destruct Hc as [H1 H2].
    apply negb_false_iff in H1. split; [exact H1 |]. destruct (dyn_agent_conclusion_ref d); [discriminate | discriminate H2].
  - intros Hi. rewrite Hi in Hb. simpl in Hb. apply orb_false_iff in Hb.
    destruct (dyn_action_decision_ref d), (dyn_policy_decision_ref d); simpl in Hb; naive_solver.
Qed.

Lemma boundary_required d :
  result_shape d = Ok tt -> dyn_agent_invoked d = true \/ dyn_failure_category d = FC_POLICY_BLOCKED ->
  dyn_policy_decision_ref d <> None.
Proof.
  unfold result_shape, execution_shape. intros Hr Hc. call Hr as [] _. call Hr as [] He. clear Hr.
  do 4 (apply raise_if_Ok in He; destruct He as [_ He]). apply raise_if_Ok in He. destruct He as [He _].
  assert (Hb : dyn_agent_invoked d || eqb (dyn_failure_category d) FC_POLICY_BLOCKED = true)
    by (apply orb_true_iff; rewrite bool_decide_eq_true; exact Hc).
  rewrite Hb in He. apply orb_false_iff in He. destruct He as [_ He]. intros Hn. rewrite Hn in He. discriminate He.
Qed.

(** The references of a proof of concept that confirms a verdict. *)
Record reproduced (result : VerificationResult) (request : DynamicReproductionRequest)
  (dynamic : DynamicReproductionResult) (poc : PoCBundle) : Prop := {
  rp_succeeded : dyn_status dynamic = DS_SUCCEEDED;
  rp_supported : dyn_hypothesis_outcome dynamic = HO_SUPPORTED;
  rp_request : vr_dynamic_request_ref result = Some (dyn_request_ref dynamic);
  rp_poc : vr_poc_ref result = dyn_poc_ref dynamic;
  rp_poc_request : poc_request_ref poc = dyn_request_ref dynamic;
  rp_attempt : rm_attempt_id (poc_meta poc) = rm_attempt_id (dyn_meta dynamic);
  rp_purpose : dyn_purpose dynamic = dq_purpose request;
}.

Lemma true_dynamic_Ok v d p :
  validate_true_dynamic v d p = Ok tt ->
  vr_verdict v = V_TRUE /\ vr_verification_mode v = ALWAYS_DEBATE
  /\ dyn_status d = DS_SUCCEEDED /\ dyn_hypothesis_outcome d = HO_SUPPORTED
  /\ vr_dynamic_request_ref v = Some (dyn_request_ref d)
  /\ vr_poc_ref v = dyn_poc_ref d /\ poc_request_ref p = dyn_request_ref d
  /\ rm_attempt_id (dyn_meta d) = rm_attempt_id (poc_meta p)
  /\ exists result_ref poc_ref, vr_dynamic_result_ref v = Some result_ref /\ vr_poc_ref v = Some poc_ref
       /\ exact (RStored result_ref) (dyn_meta d) d (vr_meta v) = Ok tt
       /\ exact (RStored poc_ref) (poc_meta p) p (vr_meta v) = Ok tt.
Proof.
  unfold validate_true_dynamic. intros Hv. apply raise_if_Ok in Hv. destruct Hv as [Ht Hv].
  destruct (vr_dynamic_result_ref v) as [rr |]; [| discriminate].
  destruct (vr_poc_ref v) as [pr |] eqn:Hpr; [| discriminate].
  call Hv as [] Hx. call Hv as [] Hy. call Hv as [] _. call Hv as [] Ha. apply raise_if_Ok in Hv.
  destruct Hv as [Hv _]. unfold same_attempt_scope in Ha. apply raise_if_Ok in Ha. destruct Ha as [Ha _].
  apply negb_false_iff, bool_decide_eq_true in Ha. injection Ha as _ _ _ _ Ha. boolify.
  repeat (split; [intuition congruence |]). exists rr, pr. auto.
Qed.

(** C7. What the execution says is what the verdict says: a result accepted with
    a dynamic run is TRUE exactly when the run supported the hypothesis, FALSE
    exactly when it disproved it and HOLD otherwise; a conclusive run succeeded,
    observed something and was authorized, and a TRUE verdict names its proof of
    concept, validated in the same attempt for the same request. *)
Theorem dynamic_verdict_agrees result request dynamic poc generation :
  result_shape dynamic = Ok tt ->
  validate_dynamic_verdict result request dynamic poc generation = Ok tt ->
  (vr_verdict result = V_TRUE <-> dyn_hypothesis_outcome dynamic = HO_SUPPORTED)
  /\ (vr_verdict result = V_FALSE <-> dyn_disproof_evidence_refs dynamic <> [])
  /\ (vr_verdict result = V_HOLD <-> dyn_hypothesis_outcome dynamic = HO_INCONCLUSIVE)
  /\ (vr_verdict result <> V_HOLD ->
        dyn_status dynamic = DS_SUCCEEDED /\ dyn_observation_refs dynamic <> []
        /\ dyn_hypothesis_evidence_refs dynamic <> [])
  /\ dyn_action_decision_ref dynamic <> None /\ dyn_policy_decision_ref dynamic <> None
  /\ dq_verification_generation request = generation
  /\ (vr_verdict result = V_TRUE ->
        exists p, poc = Some p /\ reproduced result request dynamic p).
Proof.
  intros Hs Hv. destruct (result_shape_Ok _ Hs) as (S1 & S2 & S3 & S4 & S5).
  unfold validate_dynamic_verdict in Hv. cbv zeta in Hv.
  destruct (vr_dynamic_request_ref result) as [qr |] eqn:Hqr; [| discriminate].
  destruct (vr_dynamic_result_ref result) as [rr |]; [| discriminate].
  do 4 (call Hv as [] _). apply raise_if_Ok in Hv. destruct Hv as [Hst Hv].
  apply raise_if_Ok in Hv. destruct Hv as [Hsu Hv]. apply raise_if_Ok in Hv. destruct Hv as [Hver Hv].
  apply raise_if_Ok in Hv. destruct Hv as [Hpoc Hv]. apply negb_false_iff in Hsu.
  apply negb_false_iff, bool_decide_eq_true in Hver.
  destruct (S4 Hsu) as [Hinv _]. destruct (S5 Hinv) as [Hact Hpol].
  assert (Htrue : vr_verdict result = V_TRUE <-> dyn_hypothesis_outcome dynamic = HO_SUPPORTED)
    by (rewrite Hver; destruct (dyn_hypothesis_outcome dynamic); simpl; split; congruence).
  split; [exact Htrue |]. split.
  { rewrite <- S3, Hver. destruct (dyn_hypothesis_outcome dynamic); simpl; split; congruence. }
  split; [rewrite Hver; destruct (dyn_hypothesis_outcome dynamic); simpl; split; congruence |].
  split; [intros Hne; apply S1; intros Hx; apply Hne; rewrite Hver, Hx; reflexivity |].
  split; [exact Hact |]. split; [exact Hpol |].
  boolify. destruct Hst as [[Hgen Hreq] Hpur]. split; [exact Hgen |]. intros Ht.
  pose proof (proj1 Htrue Ht) as Hsup. pose proof (proj1 S2 Hsup) as Hsome.
  destruct Hpoc as [Hpr Hnone]. rewrite Hpr in Hv, Hnone.
  destruct (dyn_poc_ref dynamic) as [pr |] eqn:Hdp; [| congruence]. destruct poc as [p |]; [| discriminate (proj2 Hnone eq_refl)].
  exists p. split; [reflexivity |]. call Hv as [] _. call Hv as [] Ha. apply raise_if_Ok in Hv.
  destruct Hv as [Hpq _]. unfold same_attempt_scope in Ha. apply raise_if_Ok in Ha. destruct Ha as [Ha _].
  apply negb_false_iff, bool_decide_eq_true in Ha. injection Ha as _ _ _ _ Ha. boolify.
  split; try congruence. apply S1. congruence.
Qed.

(** C32. The router follows the verdict: a FALSE result is routed nowhere, a HOLD
    to the primitives it asks for, and a TRUE one to labelling only when its
    hypothesis is committed to it and its run, resolved by exact references,
    reproduced it. *)
Theorem route_follows_verdict get_exact current_process result_ref routes :
  route get_exact current_process result_ref = Ok routes ->
  exists result, get_exact result_ref = Ok (VR_result result)
    /\ exact (RStored result_ref) (vr_meta result) result (vr_meta result) = Ok tt
    /\ match vr_verdict result with
       | V_FALSE => routes = []
       | V_HOLD =>
           routes = match vr_required_primitive_candidates result with
                    | [] => []
                    | _ => [mkRoute PRIMITIVE_UPDATE_ROUTE [result_ref]]
                    end
       | V_TRUE =>
           routes = [mkRoute CWE_LABEL_ROUTE [result_ref]]
           /\ vr_verification_mode result = ALWAYS_DEBATE
           /\ exists process request dynamic poc request_ref dynamic_ref poc_ref,
                committed_process current_process result result_ref = Ok process
                /\ vr_dynamic_request_ref result = Some request_ref
                /\ vr_dynamic_result_ref result = Some dynamic_ref
                /\ vr_poc_ref result = Some poc_ref
                /\ get_exact request_ref = Ok (VR_request request)
                /\ get_exact dynamic_ref = Ok (VR_dynamic dynamic)
                /\ get_exact poc_ref = Ok (VR_poc poc)
                /\ dq_verification_generation request = h_verification_generation process
                /\ reproduced result request dynamic poc
       end.
Proof.
  unfold route. intros Hr. call Hr as value Hg. destruct value as [result | | | | |]; try discriminate.
  call Hr as [] Hx. exists result. split; [exact Hg |]. split; [exact Hx |].
  destruct (vr_verdict result) eqn:Hver.
  - call Hr as [] Hc. injection Hr as <-. split; [reflexivity |]. unfold _require_committed_true in Hc.
    call Hc as process Hp. destruct (vr_dynamic_request_ref result) as [qr |] eqn:Hqr; [| discriminate].
    destruct (vr_dynamic_result_ref result) as [rr |] eqn:Hrr; [| discriminate].
    destruct (vr_poc_ref result) as [pr |] eqn:Hpr; [| discriminate].
    call Hc as request Hq. call Hc as dynamic Hd. call Hc as poc Hpoc. call Hc as [] Hv.
    destruct (true_dynamic_Ok _ _ _ Hc) as (_ & Hm & T1 & T2 & T3 & T4 & T5 & T6 & _).
    split; [exact Hm |]. unfold exact_request, exact_dynamic, exact_poc in Hq, Hd, Hpoc.
    call Hq as q Hq'. destruct q; try discriminate. call Hq as [] _. injection Hq as ->.
    call Hd as d Hd'. destruct d; try discriminate. call Hd as [] _. injection Hd as ->.
    call Hpoc as p Hp'. destruct p; try discriminate. call Hpoc as [] _. injection Hpoc as ->.
    exists process, request, dynamic, poc, qr, rr, pr. repeat (split; [assumption || reflexivity |]).
    unfold validate_dynamic_verdict in Hv. cbv zeta in Hv. rewrite Hqr, Hrr in Hv. do 4 (call Hv as [] _).
    apply raise_if_Ok in Hv. destruct Hv as [Hst _]. boolify. destruct Hst as [[Hgen _] Hpur].
    split; [exact Hgen |]. split; congruence.
  - injection Hr as <-. reflexivity.
  - destruct (vr_required_primitive_candidates result); injection Hr as <-; reflexivity.
Qed.
End verdicts.
