(* ===== verification/Policy.v ===== *)
(** * Program policies ([contracts/policy.py])

    What a program allows: the policy a run collected or reused from the cache,
    its freshness, and the checks that bind them to each other. *)
From S2P Require Import Prelude Records CanonicalJson Store Lineage Work Processes Actions Budget.
From S2P Require Import Runtime Registry Authority Outputs Evidence.

Inductive PolicyArea :=
| AREA_RULE | AREA_SCOPE | AREA_IMPACT | AREA_SOURCE | AREA_FRESHNESS | AREA_TESTING_RESTRICTION.
Inductive PolicyStatus :=
| PS_PREPARING | PS_CURRENT | PS_ABSENT | PS_BLOCKED | PS_FAILED | PS_UNVERIFIED.
Inductive PreparationSource := COLLECTED | REUSED_CACHE.
Inductive SourceCheckStatus := SC_VERIFIED | SC_UNVERIFIED.
Inductive ParserStatus := PR_SUCCEEDED | PR_FAILED | PR_INVALID_OUTPUT.
Inductive FreshnessStatus := FS_CURRENT | FS_STALE | FS_UNVERIFIED.
Inductive CollectionStatus := CS_FOUND | CS_ABSENT_CONFIRMED | CS_COLLECTION_FAILED.

#[export] Instance PolicyArea_eq_dec : EqDecision PolicyArea.
Proof. solve_decision. Defined.
#[export] Instance PolicyStatus_eq_dec : EqDecision PolicyStatus.
Proof. solve_decision. Defined.
#[export] Instance PreparationSource_eq_dec : EqDecision PreparationSource.
Proof. solve_decision. Defined.
#[export] Instance SourceCheckStatus_eq_dec : EqDecision SourceCheckStatus.
Proof. solve_decision. Defined.
#[export] Instance ParserStatus_eq_dec : EqDecision ParserStatus.
Proof. solve_decision. Defined.
#[export] Instance FreshnessStatus_eq_dec : EqDecision FreshnessStatus.
Proof. solve_decision. Defined.
#[export] Instance CollectionStatus_eq_dec : EqDecision CollectionStatus.
Proof. solve_decision. Defined.

(** ** Records *)

Record OfficialPolicySourceConfig := mkSourceConfig {
  os_meta : RunMeta;
  os_program_id : string;
  os_source_artifact_ref : StoredDataRef;
  os_program_namespace : string;
  os_external_program_id : string;
  os_source_version : string;
  os_official_endpoint : string;
  os_publisher : string;
  os_parser_name : string;
  os_parser_version : string;
  os_timeout_seconds : Z;
  os_max_response_bytes : Z;
  os_allowed_content_types : list string;
  os_allowed_redirect_hosts : list string;
}.

(** [OfficialPolicySourceConfig.complete_source] *)
Definition complete_source (c : OfficialPolicySourceConfig) : result unit :=
  raise_if negb (nonempty (os_allowed_content_types c))
    with "POLICY_SOURCE_CONFIGURATION_INVALID" ;;
  Ok tt.

Record PolicyFreshnessCriterion := mkCriterion {
  pf_meta : RunMeta;
  pf_program_id : string;
  pf_criterion_artifact_ref : StoredDataRef;
  pf_source_version : string;
  pf_freshness_ttl_seconds : Z;
}.

Record RunPolicyState := mkRunPolicy {
  ps_meta : RunMeta;
  ps_program_id : string;
  ps_status : PolicyStatus;
  ps_preparation_source : option PreparationSource;
  ps_source_config_ref : BudgetScopeRef;
  ps_parser_name : string;
  ps_parser_version : string;
  ps_policy_work_ref : StoredDataRef;
  ps_policy_cache_ref : option PolicyCacheRef;
  ps_collection_result_ref : option StoredDataRef;
  ps_policy_record_ref : option StoredDataRef;
  ps_freshness_criterion_ref : option StoredDataRef;
  ps_freshness_checked_at : option Z;
  ps_freshness_evidence_refs : list StoredDataRef;
  ps_freshness_valid_until : option Z;
}.

(** [RunPolicyState.state_shape] *)
Definition state_shape (s : RunPolicyState) : result unit :=
  let ready := mem (ps_status s) [PS_CURRENT; PS_ABSENT] in
  raise_if ready
           && (is_none (ps_preparation_source s) || is_none (ps_policy_cache_ref s)
               || is_none (ps_collection_result_ref s) || is_none (ps_freshness_criterion_ref s)
               || is_none (ps_freshness_checked_at s) || is_none (ps_freshness_valid_until s)
               || negb (nonempty (ps_freshness_evidence_refs s)))
    with "POLICY_FRESHNESS_REQUIRED" ;;
  raise_if negb ready && is_some (ps_policy_cache_ref s) with "UNVERIFIED_CACHE_FORBIDDEN" ;;
  raise_if eqb (ps_status s) PS_CURRENT && is_none (ps_policy_record_ref s)
    with "POLICY_RECORD_REQUIRED" ;;
  raise_if mem (ps_status s) [PS_ABSENT; PS_PREPARING; PS_BLOCKED; PS_FAILED]
           && is_some (ps_policy_record_ref s)
    with "POLICY_RECORD_FORBIDDEN" ;;
  raise_if eqb (ps_status s) PS_UNVERIFIED && is_none (ps_collection_result_ref s)
    with "POLICY_COLLECTION_REQUIRED" ;;
  raise_if eqb (ps_status s) PS_PREPARING
           && (is_some (ps_preparation_source s) || is_some (ps_collection_result_ref s))
    with "POLICY_PREPARING_MISMATCH" ;;
  raise_if match ps_policy_cache_ref s with
           | Some r => neqb (pc_program_id r) (ps_program_id s)
           | None => false
           end
    with "POLICY_PROGRAM_MISMATCH" ;;
  Ok tt.

Record PolicyItem := mkItem {
  it_policy_item_id : string;
  it_value : string;
  it_description : string;
  it_conditions : list string;
  it_source_ref : StoredDataRef;
  it_source_locator : string;
}.

Record PolicySourceCheck := mkSourceCheck {
  sc_source_id : string;
  sc_source_ref : StoredDataRef;
  sc_source_url : string;
  sc_publisher : string;
  sc_status : SourceCheckStatus;
  sc_evidence_refs : list StoredDataRef;
  sc_checked_at : Z;
}.

Record PolicyParserResult := mkParserResult {
  pr_meta : RunMeta;
  pr_parser_result_id : string;
  pr_parser_name : string;
  pr_parser_version : string;
  pr_source_ref : StoredDataRef;
  pr_llm_invocation_ref : StoredDataRef;
  pr_parsed_output_ref : option StoredDataRef;
  pr_status : ParserStatus;
  pr_error_ids : list string;
  pr_completed_at : Z;
}.

(** [PolicyParserResult.parser_status] *)
Definition parser_status (p : PolicyParserResult) : result unit :=
  if eqb (pr_status p) PR_SUCCEEDED then
    raise_if is_none (pr_parsed_output_ref p) || nonempty (pr_error_ids p)
      with "PARSER_STATUS_MISMATCH" ;; Ok tt
  else raise_if negb (nonempty (pr_error_ids p)) with "PARSER_ERROR_REQUIRED" ;; Ok tt.

Record PolicyMissingInfo := mkMissingInfo {
  mi_missing_info_id : string;
  mi_area : PolicyArea;
  mi_blocks_allow : bool;
  mi_description : string;
  mi_policy_item_ids : list string;
  mi_evidence_refs : list StoredDataRef;
}.

(** [PreparedPolicyRecord] *)
Record PreparedPolicyRecord := mkPrepared {
  pre_meta : RunMeta;
  pre_program_id : string;
  pre_preparation_source : PreparationSource;
  pre_source_cache_ref : option PolicyCacheRef;
}.

#[export] Instance PolicyItem_eq_dec : EqDecision PolicyItem.
Proof. solve_decision. Defined.
#[export] Instance PolicySourceCheck_eq_dec : EqDecision PolicySourceCheck.
Proof. solve_decision. Defined.
#[export] Instance PolicyMissingInfo_eq_dec : EqDecision PolicyMissingInfo.
Proof. solve_decision. Defined.

(** [PreparedPolicyRecord.preparation] *)
Definition preparation (p : PreparedPolicyRecord) : result unit :=
  raise_if neqb (eqb (pre_preparation_source p) REUSED_CACHE) (is_some (pre_source_cache_ref p))
    with "POLICY_CACHE_PROVENANCE_REQUIRED" ;;
  raise_if match pre_source_cache_ref p with
           | Some r => neqb (pc_program_id r) (pre_program_id p)
           | None => false
           end
    with "POLICY_PROGRAM_MISMATCH" ;;
  Ok tt.

(** The fields of [ProgramPolicyRecord] that a reuse preserves: all but [meta],
    [policy_record_id], [preparation_source] and [source_cache_ref]. *)
Record PolicyContent := mkContent {
  pol_program_id : string;
  pol_program_namespace : string;
  pol_external_program_id : string;
  pol_policy_version : string;
  pol_fetched_at : Z;
  pol_freshness_status : FreshnessStatus;
  pol_freshness_checked_at : option Z;
  pol_in_scope_assets : list PolicyItem;
  pol_out_of_scope_assets : list PolicyItem;
  pol_accepted_vulnerability_classes : list PolicyItem;
  pol_excluded_vulnerability_classes : list PolicyItem;
  pol_testing_restrictions : list PolicyItem;
  pol_reward_conditions : list PolicyItem;
  pol_impact_criteria : list PolicyItem;
  pol_disclosure_requirements : list PolicyItem;
  pol_parser_version : string;
  pol_source_refs : list StoredDataRef;
  pol_source_checks : list PolicySourceCheck;
  pol_parser_result_refs : list StoredDataRef;
  pol_freshness_criterion_ref : option StoredDataRef;
  pol_freshness_evidence_refs : list StoredDataRef;
  pol_freshness_valid_until : option Z;
  pol_missing_information : list PolicyMissingInfo;
  pol_freshness_warning : option string;
}.
#[export] Instance PolicyContent_eq_dec : EqDecision PolicyContent.
Proof. solve_decision. Defined.

Record ProgramPolicyRecord := mkProgramPolicy {
  pol_meta : RunMeta;
  pol_policy_record_id : string;
  pol_preparation_source : PreparationSource;
  pol_source_cache_ref : option PolicyCacheRef;
  pol_content :> PolicyContent;
}.

Definition policy_prepared (p : ProgramPolicyRecord) : PreparedPolicyRecord :=
  mkPrepared (pol_meta p) (pol_program_id p) (pol_preparation_source p) (pol_source_cache_ref p).

(** [ProgramPolicyRecord.items] *)
Definition items (p : PolicyContent) : list PolicyItem :=
  pol_in_scope_assets p ++ pol_out_of_scope_assets p ++ pol_accepted_vulnerability_classes p
  ++ pol_excluded_vulnerability_classes p ++ pol_testing_restrictions p
  ++ pol_reward_conditions p ++ pol_impact_criteria p ++ pol_disclosure_requirements p.

(** [ProgramPolicyRecord.source_closure] *)
Definition source_closure (p : PolicyContent) : result unit :=
  do! unique_values (map it_policy_item_id (items p)) ;;
  do! unique_values (map sc_source_id (pol_source_checks p)) ;;
  do! exact_values (map sc_source_ref (pol_source_checks p)) (pol_source_refs p) ;;
  raise_if existsb (fun i => negb (mem (it_source_ref i) (pol_source_refs p))) (items p)
    with "OFFICIAL_POLICY_SOURCE_REQUIRED" ;;
  if eqb (pol_freshness_status p) FS_CURRENT then
    raise_if existsb (fun c => neqb (sc_status c) SC_VERIFIED
                               || negb (nonempty (sc_evidence_refs c))) (pol_source_checks p)
             || negb (nonempty (pol_source_checks p))
      with "OFFICIAL_POLICY_SOURCE_UNVERIFIED" ;;
    raise_if is_none (pol_freshness_criterion_ref p) || is_none (pol_freshness_checked_at p)
             || is_none (pol_freshness_valid_until p)
             || negb (nonempty (pol_freshness_evidence_refs p))
      with "POLICY_FRESHNESS_REQUIRED" ;;
    Ok tt
  else Ok tt.

Record PolicyCollectionResult := mkCollection {
  col_prepared :> PreparedPolicyRecord;
  col_collection_result_id : string;
  col_status : CollectionStatus;
  col_official_source_refs : list StoredDataRef;
  col_parser_result_refs : list StoredDataRef;
  col_policy_record_ref : option StoredDataRef;
  col_gap_ids : list string;
  col_error_ids : list string;
  col_completed_at : Z;
}.

(** [PolicyCollectionResult.collection_shape] *)
Definition collection_shape (c : PolicyCollectionResult) : result unit :=
  raise_if neqb (eqb (col_status c) CS_FOUND) (is_some (col_policy_record_ref c))
    with "POLICY_COLLECTION_RECORD_MISMATCH" ;;
  do! (if eqb (col_status c) CS_COLLECTION_FAILED then
         raise_if negb (nonempty (col_error_ids c)) || neqb (pre_preparation_source c) COLLECTED
           with "POLICY_COLLECTION_FAILURE_REQUIRED" ;; Ok tt
       else
         raise_if nonempty (col_error_ids c) || negb (nonempty (col_parser_result_refs c))
                  || negb (nonempty (col_official_source_refs c))
           with "POLICY_COLLECTION_PROVENANCE_REQUIRED" ;; Ok tt) ;;
  raise_if eqb (col_status c) CS_ABSENT_CONFIRMED && negb (nonempty (col_gap_ids c))
    with "POLICY_ABSENCE_GAP_REQUIRED" ;;
  do! unique_values (col_official_source_refs c) ;;
  unique_values (col_parser_result_refs c).

Record PolicyCacheRecord := mkCacheRecord {
  pcr_meta : PolicyCacheMeta;
  pcr_source_config_ref : BudgetScopeRef;
  pcr_parser_name : string;
  pcr_parser_version : string;
  pcr_collection_status : CollectionStatus;   (** FOUND or ABSENT_CONFIRMED *)
  pcr_collection_result_ref : StoredDataRef;
  pcr_parser_result_refs : list StoredDataRef;
  pcr_policy_record_ref : option StoredDataRef;
  pcr_freshness_criterion_ref : StoredDataRef;
  pcr_freshness_checked_at : Z;
  pcr_freshness_evidence_refs : list StoredDataRef;
  pcr_freshness_valid_until : Z;
  pcr_published_at : Z;
}.

(** [PolicyCacheRecord.reusable] *)
Definition reusable (c : PolicyCacheRecord) : result unit :=
  raise_if neqb (eqb (pcr_collection_status c) CS_FOUND) (is_some (pcr_policy_record_ref c))
           || negb (nonempty (pcr_parser_result_refs c))
           || negb (nonempty (pcr_freshness_evidence_refs c))
           || (pcr_freshness_valid_until c <=? pcr_freshness_checked_at c)
    with "POLICY_CACHE_INVALID" ;;
  Ok tt.

(** ** Closures *)

Section policy.
Context `{!Dumped PolicyCacheRecord} `{!Dumped ProgramPolicyRecord}.
Context `{!Dumped PolicyCollectionResult} `{!Dumped PolicyParserResult}.

(** [validate_exact_ref(ref, cache.meta, content_hash(cache))] *)
Definition exact_cache (ref : PolicyCacheRef) (cache : PolicyCacheRecord) : result unit :=
  let! hash := content_hash [] (dump cache) in
  validate_exact_ref (RPolicy ref) (MPolicy (pcr_meta cache)) hash None.

(** The sources of a reused collection. *)
Definition collection_cache (collection : PolicyCollectionResult)
  (source_cache : option PolicyCacheRecord) : result unit :=
  if eqb (pre_preparation_source collection) REUSED_CACHE then
    match source_cache, pre_source_cache_ref collection with
    | Some cache, Some ref =>
        do! exact_cache ref cache ;;
        exact_values (col_parser_result_refs collection) (pcr_parser_result_refs cache)
    | _, _ => Err (ValueError "POLICY_CACHE_PROVENANCE_REQUIRED")
    end
  else raise_if is_some source_cache with "POLICY_CACHE_PROVENANCE_FORBIDDEN" ;; Ok tt.

(** The policy of a collection. *)
Definition collection_policy (collection : PolicyCollectionResult)
  (policy : option ProgramPolicyRecord) : result unit :=
  raise_if neqb (is_none (col_policy_record_ref collection)) (is_none policy)
    with "POLICY_COLLECTION_RECORD_MISMATCH" ;;
  match policy, col_policy_record_ref collection with
  | Some policy, Some ref =>
      do! exact (RStored ref) (pol_meta policy) policy (pre_meta collection) ;;
      do! same_attempt_scope (pre_meta collection) (pol_meta policy) ;;
      raise_if neqb (pol_program_id policy, pol_preparation_source policy, pol_source_cache_ref policy)
                    (pre_program_id collection, pre_preparation_source collection,
                     pre_source_cache_ref collection)
        with "POLICY_PROGRAM_MISMATCH" ;;
      do! exact_values (col_official_source_refs collection) (pol_source_refs policy) ;;
      exact_values (col_parser_result_refs collection) (pol_parser_result_refs policy)
  | _, _ => Ok tt
  end.

(** One parser result of a collection. *)
Definition collection_parser (collection : PolicyCollectionResult)
  (policy : option ProgramPolicyRecord) (cached : bool)
  (pair : StoredDataRef * PolicyParserResult) : result unit :=
  let (ref, parser) := pair in
  do! exact (RStored ref) (pr_meta parser) parser
        (if cached then pr_meta parser else pre_meta collection) ;;
  do! (if cached then Ok tt else same_attempt_scope (pre_meta collection) (pr_meta parser)) ;;
  raise_if neqb (col_status collection) CS_COLLECTION_FAILED && neqb (pr_status parser) PR_SUCCEEDED
    with "PARSER_FAILURE_NOT_POLICY" ;;
  raise_if negb (mem (pr_source_ref parser) (col_official_source_refs collection))
           || match policy with
              | Some policy => neqb (pol_parser_version policy) (pr_parser_version parser)
              | None => false
              end
    with "PARSER_SOURCE_MISMATCH" ;;
  Ok tt.

(** [validate_policy_collection] *)
Definition validate_policy_collection (collection : PolicyCollectionResult)
  (policy : option ProgramPolicyRecord) (parsers : list PolicyParserResult)
  (source_cache : option PolicyCacheRecord) : result unit :=
  do! collection_cache collection source_cache ;;
  do! collection_policy collection policy ;;
  raise_if negb (length parsers =? length (col_parser_result_refs collection))%nat
    with "PARSER_CLOSURE_MISMATCH" ;;
  for_each (collection_parser collection policy (is_some source_cache))
    (zip (col_parser_result_refs collection) parsers).

(** [validate_policy_freshness] *)
Definition validate_policy_freshness (state : RunPolicyState) (policy : ProgramPolicyRecord)
  : result unit :=
  raise_if match ps_status state with
           | PS_CURRENT => neqb (pol_freshness_status policy) FS_CURRENT
           | PS_UNVERIFIED => neqb (pol_freshness_status policy) FS_UNVERIFIED
           | _ => true
           end
    with "POLICY_STATE_FRESHNESS_MISMATCH" ;;
  raise_if neqb (ps_program_id state) (pol_program_id policy)
           || neqb (ps_parser_version state) (pol_parser_version policy)
           || neqb (ps_preparation_source state) (Some (pol_preparation_source policy))
    with "POLICY_STATE_FRESHNESS_MISMATCH" ;;
  raise_if neqb (ps_freshness_criterion_ref state) (pol_freshness_criterion_ref policy)
           || neqb (ps_freshness_checked_at state) (pol_freshness_checked_at policy)
           || neqb (ps_freshness_valid_until state) (pol_freshness_valid_until policy)
           || neqb (ps_freshness_evidence_refs state) (pol_freshness_evidence_refs policy)
    with "POLICY_STATE_FRESHNESS_MISMATCH" ;;
  Ok tt.

(** The cache record a state was taken from. *)
Definition state_cache (state : RunPolicyState) (cache : option PolicyCacheRecord) : result unit :=
  match ps_policy_cache_ref state with
  | None => Ok tt
  | Some ref =>
      match cache with
      | None => Err (ValueError "POLICY_CACHE_PROVENANCE_REQUIRED")
      | Some cache =>
          do! exact_cache ref cache ;;
          raise_if neqb (ps_parser_name state) (pcr_parser_name cache)
                   || neqb (ps_parser_version state) (pcr_parser_version cache)
                   || neqb (ps_freshness_criterion_ref state)
                        (Some (pcr_freshness_criterion_ref cache))
                   || neqb (ps_freshness_checked_at state) (Some (pcr_freshness_checked_at cache))
                   || neqb (ps_freshness_valid_until state) (Some (pcr_freshness_valid_until cache))
                   || neqb (ps_freshness_evidence_refs state) (pcr_freshness_evidence_refs cache)
            with "POLICY_CACHE_STATE_DRIFT" ;;
          raise_if neqb (ref_content_hash (scope_ref (ps_source_config_ref state)))
                        (ref_content_hash (scope_ref (pcr_source_config_ref cache)))
            with "POLICY_CACHE_STATE_DRIFT" ;;
          Ok tt
      end
  end.

Definition allowed_collection (s : PolicyStatus) : list CollectionStatus :=
  match s with
  | PS_CURRENT => [CS_FOUND]
  | PS_ABSENT => [CS_ABSENT_CONFIRMED]
  | PS_UNVERIFIED => [CS_FOUND; CS_ABSENT_CONFIRMED]
  | PS_BLOCKED | PS_FAILED => [CS_COLLECTION_FAILED]
  | PS_PREPARING => []
  end.

(** The collection of a state. *)
Definition state_collection (state : RunPolicyState) (collection : option PolicyCollectionResult)
  : result unit :=
  raise_if neqb (is_none (ps_collection_result_ref state)) (is_none collection)
    with "POLICY_COLLECTION_REQUIRED" ;;
  match collection, ps_collection_result_ref state with
  | Some collection, Some ref =>
      do! exact (RStored ref) (pre_meta collection) collection (ps_meta state) ;;
      raise_if neqb (ps_program_id state) (pre_program_id collection)
               || neqb (ps_policy_record_ref state) (col_policy_record_ref collection)
               || neqb (ps_preparation_source state) (Some (pre_preparation_source collection))
               || eqb (pre_preparation_source collection) REUSED_CACHE
                  && neqb (pre_source_cache_ref collection) (ps_policy_cache_ref state)
        with "POLICY_STATE_CLOSURE_MISMATCH" ;;
      raise_if negb (mem (col_status collection) (allowed_collection (ps_status state)))
        with "POLICY_STATE_STATUS_MISMATCH" ;;
      Ok tt
  | _, _ => Ok tt
  end.

(** [validate_run_policy] *)
Definition validate_run_policy (state : RunPolicyState) (collection : option PolicyCollectionResult)
  (policy : option ProgramPolicyRecord) (started_at : Z) (cache : option PolicyCacheRecord)
  : result unit :=
  do! state_cache state cache ;;
  do! state_collection state collection ;;
  raise_if neqb (is_none (ps_policy_record_ref state)) (is_none policy)
    with "POLICY_RECORD_REQUIRED" ;;
  do! match policy, ps_policy_record_ref state with
      | Some policy, Some ref =>
          do! exact (RStored ref) (pol_meta policy) policy (ps_meta state) ;;
          validate_policy_freshness state policy
      | _, _ => Ok tt
      end ;;
  raise_if mem (ps_status state) [PS_CURRENT; PS_ABSENT]
           && match ps_freshness_valid_until state with
              | None => true
              | Some t => t <=? started_at
              end
    with "POLICY_SOURCE_STALE" ;;
  Ok tt.

(** The original policy a cache record was published for. *)
Definition cached_policy (cache : PolicyCacheRecord) (original_collection : PolicyCollectionResult)
  (original_policy : option ProgramPolicyRecord) : result unit :=
  match original_policy, pcr_policy_record_ref cache with
  | Some policy, Some ref =>
      do! exact (RStored ref) (pol_meta policy) policy (pre_meta original_collection) ;;
      raise_if neqb (pol_freshness_status policy) FS_CURRENT with "POLICY_SOURCE_STALE" ;;
      raise_if neqb (Some (pcr_freshness_criterion_ref cache)) (pol_freshness_criterion_ref policy)
               || neqb (Some (pcr_freshness_checked_at cache)) (pol_freshness_checked_at policy)
               || neqb (Some (pcr_freshness_valid_until cache)) (pol_freshness_valid_until policy)
               || neqb (pcr_freshness_evidence_refs cache) (pol_freshness_evidence_refs policy)
        with "CACHE_POLICY_CONTENT_DRIFT" ;;
      Ok tt
  | None, None => Ok tt
  | _, _ => Err (ValueError "POLICY_CACHE_RECORD_MISMATCH")
  end.

(** [validate_policy_cache_reuse] *)
Definition validate_policy_cache_reuse (cache : PolicyCacheRecord) (cache_ref : PolicyCacheRef)
  (original_collection : PolicyCollectionResult) (original_policy : option ProgramPolicyRecord)
  (parsers : list PolicyParserResult) (new_collection : PolicyCollectionResult)
  (new_policy : option ProgramPolicyRecord) (started_at : Z) : result unit :=
  do! exact_cache cache_ref cache ;;
  raise_if pcr_freshness_valid_until cache <=? started_at with "POLICY_SOURCE_STALE" ;;
  do! exact (RStored (pcr_collection_result_ref cache)) (pre_meta original_collection)
        original_collection (pre_meta original_collection) ;;
  raise_if neqb (col_status original_collection) (pcr_collection_status cache)
           || neqb (pre_program_id original_collection) (pcm_program_id (pcr_meta cache))
    with "POLICY_CACHE_STATUS_MISMATCH" ;;
  do! exact_values (pcr_parser_result_refs cache) (col_parser_result_refs original_collection) ;;
  do! cached_policy cache original_collection original_policy ;;
  do! validate_policy_collection original_collection original_policy parsers None ;;
  raise_if neqb (pre_source_cache_ref new_collection) (Some cache_ref)
           || neqb (pre_preparation_source new_collection) REUSED_CACHE
           || neqb (col_status new_collection) (pcr_collection_status cache)
    with "POLICY_CACHE_PROVENANCE_REQUIRED" ;;
  raise_if eqb (rm_analysis_id (pre_meta new_collection)) (rm_analysis_id (pre_meta original_collection))
           || eqb (record_id (pre_meta new_collection)) (record_id (pre_meta original_collection))
    with "POLICY_CACHE_NEW_RUN_REQUIRED" ;;
  do! exact_values (col_official_source_refs new_collection)
        (col_official_source_refs original_collection) ;;
  raise_if neqb (is_none new_policy) (is_none original_policy)
    with "POLICY_CACHE_RECORD_MISMATCH" ;;
  do! match new_policy, original_policy with
      | Some new_policy, Some original_policy =>
          raise_if neqb (pol_content new_policy) (pol_content original_policy)
            with "CACHE_POLICY_CONTENT_DRIFT" ;; Ok tt
      | _, _ => Ok tt
      end ;;
  validate_policy_collection new_collection new_policy parsers (Some cache).
End policy.
