(* ===== verification/Gates.v ===== *)
(** * The gates ([contracts/gates.py])

    CWE labelling, the technical gate and the rule and scope gate, in the order a
    finding passes them. *)
From S2P Require Import Prelude Records CanonicalJson Store Lineage Work Processes Actions Budget.
From S2P Require Import Runtime Registry Authority Outputs Evidence Verdicts Policy.

(** ** Records *)

Record CWELabel := mkLabel {
  cwe_meta : RunMeta;
  cwe_verification_result_ref : StoredDataRef;
  cwe_verification_generation : Z;
  cwe_cwe_labeling_work_id : string;
  cwe_llm_call_id : string;
  cwe_primary : option string;
  cwe_alternatives : list string;
  cwe_taxonomy_version : string;
  cwe_rationale : string;
  cwe_evidence_refs : list StoredDataRef;
  cwe_uncertainty : option string;
}.

(** [CWELabel.label_shape] *)
Definition label_shape (l : CWELabel) : result unit :=
  do! unique_values (cwe_alternatives l) ;;
  raise_if mem (cwe_primary l) (map Some (cwe_alternatives l)) with "CWE_LABEL_DUPLICATE" ;;
  raise_if negb (nonempty (cwe_evidence_refs l)) with "CWE_EVIDENCE_REQUIRED" ;;
  Ok tt.

Inductive TechnicalStatus := TG_ACCEPT | TG_REVISE | TG_REJECT.
Inductive Compliance := CO_PASS | CO_FAIL | CO_UNCERTAIN.
Inductive Impact := IM_SUFFICIENT | IM_INSUFFICIENT | IM_UNCERTAIN.
#[export] Instance TechnicalStatus_eq_dec : EqDecision TechnicalStatus.
Proof. solve_decision. Defined.
#[export] Instance Compliance_eq_dec : EqDecision Compliance.
Proof. solve_decision. Defined.
#[export] Instance Impact_eq_dec : EqDecision Impact.
Proof. solve_decision. Defined.

Record TechnicalEvidenceReview := mkTechnical {
  tg_meta : RunMeta;
  tg_action_decision_ref : StoredDataRef;
  tg_verification_result_ref : StoredDataRef;
  tg_cwe_label_ref : StoredDataRef;
  tg_status : TechnicalStatus;
  tg_evidence_verdict_alignment : string;
  tg_code_flow_linkage : string;
  tg_dynamic_linkage : string;
  tg_cwe_assessment : string;
  tg_restriction_assessment : string;
  tg_ready : bool;   (** [handoff_readiness == "READY"] *)
  tg_revision_requests : list string;
  tg_verification_requests : list string;
  tg_rationale : string;
}.

(** [TechnicalEvidenceReview.readiness] *)
Definition readiness (t : TechnicalEvidenceReview) : result unit :=
  raise_if neqb (eqb (tg_status t) TG_ACCEPT) (tg_ready t) with "TECHNICAL_READINESS_MISMATCH" ;;
  Ok tt.

Record RuleScopeEvidenceLink := mkLink {
  lk_link_id : string;
  lk_area : PolicyArea;
  lk_policy_item_ids : list string;
  lk_evidence_refs : list StoredDataRef;
}.

(** [RuleScopeEvidenceLink.actual_evidence] *)
Definition link_evidence (l : RuleScopeEvidenceLink) : result unit :=
  raise_if negb (nonempty (lk_evidence_refs l)) with "GATE_EVIDENCE_REQUIRED" ;;
  do! unique_values (lk_policy_item_ids l) ;;
  unique_values (lk_evidence_refs l).

Record RuleScopeImpactReview := mkReview {
  rs_meta : RunMeta;
  rs_action_decision_ref : StoredDataRef;
  rs_verification_result_ref : StoredDataRef;
  rs_technical_review_ref : StoredDataRef;
  rs_cwe_label_ref : StoredDataRef;
  rs_run_policy_state_ref : StoredDataRef;
  rs_policy_collection_result_ref : StoredDataRef;
  rs_policy_record_ref : option StoredDataRef;
  rs_review_status : Compliance;
  rs_rule_compliance : Compliance;
  rs_scope_compliance : Compliance;
  rs_testing_restriction_compliance : Compliance;
  rs_security_impact : Impact;
  rs_allow : bool;   (** [report_permission == "ALLOW"] *)
  rs_evidence_links : list RuleScopeEvidenceLink;
  rs_reasons : list string;
  rs_missing_information : list PolicyMissingInfo;
}.

(** [RuleScopeImpactReview.report_ready] *)
Definition report_ready (r : RuleScopeImpactReview) : bool :=
  eqb (rs_review_status r) CO_PASS && eqb (rs_rule_compliance r) CO_PASS
  && eqb (rs_scope_compliance r) CO_PASS && eqb (rs_testing_restriction_compliance r) CO_PASS
  && eqb (rs_security_impact r) IM_SUFFICIENT && rs_allow r
  && negb (existsb mi_blocks_allow (rs_missing_information r)).

(** One area of [RuleScopeImpactReview.evidence_areas] *)
Definition evidence_area (r : RuleScopeImpactReview) (area : PolicyArea) (uncertain : bool)
  : result unit :=
  if uncertain then
    raise_if negb (existsb (fun m => eqb (mi_area m) area) (rs_missing_information r))
      with "GATE_MISSING_INFORMATION_REQUIRED" ;; Ok tt
  else
    raise_if negb (existsb (fun l => eqb (lk_area l) area) (rs_evidence_links r))
      with "GATE_EVIDENCE_REQUIRED" ;; Ok tt.

(** [RuleScopeImpactReview.evidence_areas] *)
Definition evidence_areas (r : RuleScopeImpactReview) : result unit :=
  raise_if rs_allow r && negb (report_ready r) with "REPORT_NOT_READY" ;;
  do! unique_values (map lk_link_id (rs_evidence_links r)) ;;
  do! unique_values (map mi_missing_info_id (rs_missing_information r)) ;;
  do! evidence_area r AREA_RULE (eqb (rs_rule_compliance r) CO_UNCERTAIN) ;;
  do! evidence_area r AREA_SCOPE (eqb (rs_scope_compliance r) CO_UNCERTAIN) ;;
  do! evidence_area r AREA_TESTING_RESTRICTION
        (eqb (rs_testing_restriction_compliance r) CO_UNCERTAIN) ;;
  evidence_area r AREA_IMPACT (eqb (rs_security_impact r) IM_UNCERTAIN).

(** ** The gates *)

Section gates.
Context `{!Dumped VerificationResult} `{!Dumped DynamicReproductionResult} `{!Dumped PoCBundle}.
Context `{!Dumped CWELabel} `{!Dumped TechnicalEvidenceReview}.
Context `{!Dumped ProgramPolicyRecord} `{!Dumped PolicyCollectionResult} `{!Dumped RunPolicyState}.

(** [validate_cwe_evidence] *)
Definition validate_cwe_evidence (label : CWELabel) (verification : VerificationResult)
  (current_generation : Z) (allowed_evidence : list StoredDataRef) : result unit :=
  do! exact (RStored (cwe_verification_result_ref label)) (vr_meta verification) verification
        (cwe_meta label) ;;
  do! same_scope (MRun (cwe_meta label)) (MRun (vr_meta verification)) ;;
  raise_if neqb (vr_verdict verification) V_TRUE
           || neqb (cwe_verification_generation label) current_generation
    with "STALE_RESULT" ;;
  do! unique_values (cwe_evidence_refs label) ;;
  raise_if existsb (fun r => negb (mem r allowed_evidence)) (cwe_evidence_refs label)
    with "CWE_EVIDENCE_CLOSURE_MISMATCH" ;;
  Ok tt.

(** [validate_technical_gate] *)
Definition validate_technical_gate (review : TechnicalEvidenceReview)
  (verification : VerificationResult) (label : CWELabel) (dynamic : DynamicReproductionResult)
  (poc : PoCBundle) (current_generation : Z) : result unit :=
  do! validate_true_dynamic verification dynamic poc ;;
  do! exact (RStored (tg_verification_result_ref review)) (vr_meta verification) verification
        (tg_meta review) ;;
  do! same_scope (MRun (tg_meta review)) (MRun (vr_meta verification)) ;;
  do! exact (RStored (tg_cwe_label_ref review)) (cwe_meta label) label (tg_meta review) ;;
  do! same_scope (MRun (tg_meta review)) (MRun (cwe_meta label)) ;;
  raise_if neqb (cwe_verification_generation label) current_generation with "STALE_RESULT" ;;
  raise_if neqb (cwe_verification_result_ref label) (tg_verification_result_ref review)
    with "CWE_VERIFICATION_REVISION_MISMATCH" ;;
  Ok tt.

(** The policy a review was made under. *)
Definition gate_policy (review : RuleScopeImpactReview) (state : RunPolicyState)
  (collection : PolicyCollectionResult) (policy : option ProgramPolicyRecord) : result unit :=
  match policy with
  | Some policy =>
      do! validate_policy_freshness state policy ;;
      match rs_policy_record_ref review with
      | None => Err (ValueError "POLICY_RECORD_REQUIRED")
      | Some ref =>
          do! exact (RStored ref) (pol_meta policy) policy (rs_meta review) ;;
          raise_if neqb (pol_program_id policy) (pre_program_id collection)
                   || eqb (pol_freshness_status policy) FS_STALE
            with "STALE_RESULT" ;;
          raise_if existsb (fun l => existsb (fun i => negb (mem i (map it_policy_item_id (items policy))))
                                       (lk_policy_item_ids l)) (rs_evidence_links review)
            with "POLICY_ITEM_CLOSURE_MISMATCH" ;;
          Ok tt
      end
  | None => raise_if eqb (col_status collection) CS_FOUND with "POLICY_RECORD_REQUIRED" ;; Ok tt
  end.

(** [validate_rule_scope_gate] *)
Definition validate_rule_scope_gate (review : RuleScopeImpactReview)
  (technical : TechnicalEvidenceReview) (state : RunPolicyState)
  (collection : PolicyCollectionResult) (policy : option ProgramPolicyRecord) : result unit :=
  let meta := rs_meta review in
  do! exact (RStored (rs_technical_review_ref review)) (tg_meta technical) technical meta ;;
  do! same_scope (MRun meta) (MRun (tg_meta technical)) ;;
  raise_if neqb (tg_status technical) TG_ACCEPT
           || neqb (tg_verification_result_ref technical) (rs_verification_result_ref review)
           || neqb (tg_cwe_label_ref technical) (rs_cwe_label_ref review)
    with "GATE_ORDER_BYPASS" ;;
  do! exact (RStored (rs_run_policy_state_ref review)) (ps_meta state) state meta ;;
  do! exact (RStored (rs_policy_collection_result_ref review)) (pre_meta collection) collection meta ;;
  raise_if eqb (col_status collection) CS_COLLECTION_FAILED
    with "COLLECTION_FAILED_GATE_FORBIDDEN" ;;
  raise_if negb (mem (ps_status state) [PS_CURRENT; PS_ABSENT; PS_UNVERIFIED])
           || eqb (ps_status state) PS_CURRENT && neqb (col_status collection) CS_FOUND
           || eqb (ps_status state) PS_ABSENT && neqb (col_status collection) CS_ABSENT_CONFIRMED
    with "POLICY_STATE_STATUS_MISMATCH" ;;
  raise_if neqb (ps_collection_result_ref state) (Some (rs_policy_collection_result_ref review))
           || neqb (ps_policy_record_ref state) (rs_policy_record_ref review)
           || neqb (col_policy_record_ref collection) (rs_policy_record_ref review)
           || neqb (ps_program_id state) (pre_program_id collection)
    with "GATE_POLICY_CLOSURE_MISMATCH" ;;
  do! gate_policy review state collection policy ;;
  raise_if (eqb (col_status collection) CS_ABSENT_CONFIRMED || eqb (ps_status state) PS_UNVERIFIED)
           && (neqb (rs_rule_compliance review) CO_UNCERTAIN
               || neqb (rs_scope_compliance review) CO_UNCERTAIN
               || neqb (rs_testing_restriction_compliance review) CO_UNCERTAIN
               || neqb (rs_review_status review) CO_UNCERTAIN || rs_allow review)
    with "UNVERIFIED_POLICY_GATE_MISMATCH" ;;
  Ok tt.

(** ** What the gates let through *)

Lemma technical_gate_Ok review v label d p g :
  validate_technical_gate review v label d p g = Ok tt ->
  validate_true_dynamic v d p = Ok tt
  /\ exact (RStored (tg_verification_result_ref review)) (vr_meta v) v (tg_meta review) = Ok tt
  /\ exact (RStored (tg_cwe_label_ref review)) (cwe_meta label) label (tg_meta review) = Ok tt
  /\ cwe_verification_generation label = g
  /\ cwe_verification_result_ref label = tg_verification_result_ref review.
Proof.
  unfold validate_technical_gate. intros Hv. call Hv as [] Ht. call Hv as [] Hx. call Hv as [] _.
  call Hv as [] Hy. call Hv as [] _. apply raise_if_Ok in Hv. destruct Hv as [Hg Hv].
  apply raise_if_Ok in Hv. destruct Hv as [Hr _]. boolify. auto 10.
Qed.

(** A review that allows a report, under the policy it was made with. *)
Record report_allowed (review : RuleScopeImpactReview) (technical : TechnicalEvidenceReview)
  (state : RunPolicyState) (collection : PolicyCollectionResult) (policy : ProgramPolicyRecord)
  : Prop := {
  ra_technical : tg_status technical = TG_ACCEPT;
  ra_verification : tg_verification_result_ref technical = rs_verification_result_ref review;
  ra_label : tg_cwe_label_ref technical = rs_cwe_label_ref review;
  ra_state : ps_status state = PS_CURRENT;
  ra_found : col_status collection = CS_FOUND;
  ra_collection : ps_collection_result_ref state = Some (rs_policy_collection_result_ref review);
  ra_policy : ps_policy_record_ref state = rs_policy_record_ref review;
  ra_fresh : pol_freshness_status policy = FS_CURRENT;
  ra_program : pol_program_id policy = ps_program_id state;
  ra_until : pol_freshness_valid_until policy = ps_freshness_valid_until state;
  ra_compliant : rs_rule_compliance review = CO_PASS /\ rs_scope_compliance review = CO_PASS
    /\ rs_testing_restriction_compliance review = CO_PASS /\ rs_review_status review = CO_PASS;
  ra_impact : rs_security_impact review = IM_SUFFICIENT;
  ra_items l i : l ∈ rs_evidence_links review -> i ∈ lk_policy_item_ids l ->
    exists item, item ∈ items policy /\ it_policy_item_id item = i;
}.

Lemma report_ready_Ok r :
  report_ready r = true ->
  (rs_rule_compliance r = CO_PASS /\ rs_scope_compliance r = CO_PASS
   /\ rs_testing_restriction_compliance r = CO_PASS /\ rs_review_status r = CO_PASS)
  /\ rs_security_impact r = IM_SUFFICIENT /\ rs_allow r = true
  /\ Forall (fun m => mi_blocks_allow m = false) (rs_missing_information r).
Proof.
  unfold report_ready. intros Hr. apply andb_prop in Hr. destruct Hr as [Hr Hm].
  apply negb_true_iff in Hm. boolify. repeat split; try tauto. apply Forall_forall. intros m Hin.
  exact (existsb_false _ _ _ Hm Hin).
Qed.

(** The rule and scope gate, for a review that allows the report. *)
Lemma rule_scope_gate_Ok review technical state collection policy :
  validate_rule_scope_gate review technical state collection policy = Ok tt ->
  report_ready review = true ->
  exists p ref, policy = Some p /\ rs_policy_record_ref review = Some ref
    /\ exact (RStored ref) (pol_meta p) p (rs_meta review) = Ok tt
    /\ exact (RStored (rs_technical_review_ref review)) (tg_meta technical) technical (rs_meta review)
       = Ok tt
    /\ report_allowed review technical state collection p.
Proof.
  intros Hv Hready. destruct (report_ready_Ok _ Hready) as (Hall & Himp & Hallow & _).
  unfold validate_rule_scope_gate in Hv. cbv zeta in Hv. call Hv as [] Hxt. call Hv as [] _.
  apply raise_if_Ok in Hv. destruct Hv as [Hord Hv]. call Hv as [] _. call Hv as [] _.
  apply raise_if_Ok in Hv. destruct Hv as [Hcf Hv]. apply raise_if_Ok in Hv. destruct Hv as [Hst Hv].
  apply raise_if_Ok in Hv. destruct Hv as [Hclo Hv]. call Hv as [] Hpol. apply raise_if_Ok in Hv.
  destruct Hv as [Hun _]. rewrite Hallow, orb_true_r, andb_true_r in Hun.
  apply orb_false_iff in Hun. destruct Hun as [Habs Hunv].
  assert (Hcur : ps_status state = PS_CURRENT /\ col_status collection = CS_FOUND).
  { revert Hcf Hst Habs Hunv. destruct (ps_status state), (col_status collection); simpl; intros; auto; discriminate. }
  destruct Hcur as [Hcur Hfound]. unfold gate_policy in Hpol.
  destruct policy as [p |]; [| rewrite Hfound in Hpol; discriminate Hpol].
  call Hpol as [] Hfr. destruct (rs_policy_record_ref review) as [ref |] eqn:Href; [| discriminate].
  call Hpol as [] Hxp. apply raise_if_Ok in Hpol. destruct Hpol as [_ Hpol].
  apply raise_if_Ok in Hpol. destruct Hpol as [Hitems _].
  unfold validate_policy_freshness in Hfr. rewrite Hcur in Hfr. apply raise_if_Ok in Hfr.
  destruct Hfr as [Hf1 Hfr]. apply raise_if_Ok in Hfr. destruct Hfr as [Hf2 Hfr].
  apply raise_if_Ok in Hfr. destruct Hfr as [Hf3 _].
  exists p, ref. do 4 (split; [reflexivity || assumption |]). clear Hst Habs Hunv Hcf.
  pose proof Hitems as Hi. clear Hitems. boolify.
  destruct Hord as [[O1 O2] O3], Hclo as [[[C1 C2] C3] C4], Hf2 as [[F1 F2] F3], Hf3 as [[[F4 F5] F6] F7].
  split; auto; try congruence.
  intros l i Hl Hin. pose proof (existsb_false _ _ _ Hi Hl) as Hl'. simpl in Hl'.
  pose proof (existsb_false _ _ _ Hl' Hin) as Hi'. simpl in Hi'. boolify.
  apply list_elem_of_fmap in Hi'. destruct Hi' as (item & -> & Hit). eauto.
Qed.
End gates.
