(* ===== verification/Traversal.v ===== *)
(** * Following references

    The loop [evidence_closure] of [contracts/reporting.py] and
    [validate_execution_support] of [contracts/dynamic.py] share: a stack of
    references, each followed once. What follows from a reference is an argument.
    The lemmas show when the loop ends and what it returns. *)
From S2P Require Import Prelude Records.

Section traversal.
Context (edges : StoredDataRef -> result (list StoredDataRef)).

(** [while pending: ...]; [pending] from its end, [seen] in insertion order *)
Fixpoint follow (fuel : nat) (seen pending : list StoredDataRef)
  : option (result (list StoredDataRef)) :=
  match fuel with
  | O => None
  | S fuel =>
      match pending with
      | [] => Some (Ok seen)
      | ref :: pending =>
          if mem ref seen then follow fuel seen pending
          else
            match edges ref with
            | Err e => Some (Err e)
            | Ok refs => follow fuel (seen ++ [ref]) (rev refs ++ pending)
            end
      end
  end.

(** What the loop can come to from [roots]. *)
Inductive followed (roots : list StoredDataRef) : StoredDataRef -> Prop :=
| followed_root r : r ∈ roots -> followed roots r
| followed_edge r refs r' :
    followed roots r -> edges r = Ok refs -> r' ∈ refs -> followed roots r'.

(** ** Termination *)

Lemma follow_terminates (cost : list StoredDataRef -> nat) :
  (forall seen r refs, r ∉ seen -> edges r = Ok refs ->
     (length refs + cost (seen ++ [r]) <= cost seen)%nat) ->
  forall fuel seen pending,
  (length pending + cost seen < fuel)%nat -> exists res, follow fuel seen pending = Some res.
Proof.
  intros Hcost fuel. induction fuel as [| fuel IH]; intros seen pending Hf; [lia |].
  simpl. destruct pending as [| r pending]; [eauto |]. simpl in Hf.
  destruct (mem r seen) eqn:Hm; [apply IH; lia |].
  destruct (edges r) as [refs | e] eqn:He; [| eauto].
  assert (Hr : r ∉ seen) by (rewrite <- mem_true; congruence).
  pose proof (Hcost _ _ _ Hr He). apply IH. rewrite length_app, length_rev. lia.
Qed.

Lemma sum_le {X} (f g : X -> nat) l :
  (forall x, f x <= g x)%nat -> (sum_list_with f l <= sum_list_with g l)%nat.
Proof. intros Hfg. induction l as [| x l IH]; simpl; [lia |]. specialize (Hfg x). lia. Qed.

Lemma sum_drop {X} (f g : X -> nat) l x :
  (forall y, f y <= g y)%nat -> x ∈ l -> f x = 0%nat ->
  (g x + sum_list_with f l <= sum_list_with g l)%nat.
Proof.
  intros Hfg Hx Hf. apply list_elem_of_In in Hx. induction l as [| y l IH]; simpl in *; [contradiction |].
  destruct Hx as [-> | Hx].
  - pose proof (sum_le f g l Hfg). lia.
  - specialize (Hfg y). specialize (IH Hx). lia.
Qed.

(** ** Correctness *)

(** What the loop keeps: every reference seen can be come to, and what follows
    from it was seen or is about to be. *)
Record follow_ok (roots seen pending : list StoredDataRef) : Prop := {
  fo_nodup : NoDup seen;
  fo_followed r : r ∈ seen \/ r ∈ pending -> followed roots r;
  fo_roots r : r ∈ roots -> r ∈ seen \/ r ∈ pending;
  fo_closed r : r ∈ seen ->
    exists refs, edges r = Ok refs /\ (forall r', r' ∈ refs -> r' ∈ seen \/ r' ∈ pending);
}.

Lemma elem_rev (l : list StoredDataRef) x : x ∈ rev l <-> x ∈ l.
Proof. rewrite !list_elem_of_In. symmetry. apply in_rev. Qed.

Lemma follow_skip roots seen r pending :
  follow_ok roots seen (r :: pending) -> r ∈ seen -> follow_ok roots seen pending.
Proof.
  intros [H1 H2 H3 H4] Hr. split; [exact H1 | intros x Hx; apply H2; set_solver | |].
  - intros x Hx. specialize (H3 x Hx). set_solver.
  - intros x Hx. destruct (H4 x Hx) as (refs & He & Hin). exists refs. split; [exact He |].
    intros y Hy. specialize (Hin y Hy). set_solver.
Qed.

Lemma follow_visit roots seen r pending refs :
  follow_ok roots seen (r :: pending) -> r ∉ seen -> edges r = Ok refs ->
  follow_ok roots (seen ++ [r]) (rev refs ++ pending).
Proof.
  intros [H1 H2 H3 H4] Hr He. assert (Hrr : followed roots r) by (apply H2; set_solver).
  split.
  - apply NoDup_app. split; [exact H1 |]. split; [set_solver | apply NoDup_singleton].
  - intros x Hx. destruct (decide (x ∈ refs)) as [Hin | Hin]; [exact (followed_edge _ _ _ _ Hrr He Hin) |].
    apply H2. rewrite !elem_of_app, elem_rev in Hx. set_solver.
  - intros x Hx. specialize (H3 x Hx). set_solver.
  - intros x Hx. rewrite elem_of_app in Hx. destruct Hx as [Hx | Hx].
    + destruct (H4 x Hx) as (l & Hl & Hin). exists l. split; [exact Hl |]. intros y Hy.
      specialize (Hin y Hy). set_solver.
    + apply list_elem_of_singleton in Hx. subst x. exists refs. split; [exact He |]. intros y Hy.
      right. apply elem_of_app. left. apply elem_rev, Hy.
Qed.

Lemma follow_result roots fuel seen pending res :
  follow_ok roots seen pending -> follow fuel seen pending = Some res ->
  match res with
  | Ok l => follow_ok roots l []
  | Err e => exists r, followed roots r /\ edges r = Err e
  end.
Proof.
  revert seen pending. induction fuel as [| fuel IH]; intros seen pending Hok Hl; [discriminate |].
  simpl in Hl. destruct pending as [| r pending]; [injection Hl as <-; exact Hok |].
  destruct (mem r seen) eqn:Hm.
  - apply mem_true in Hm. exact (IH _ _ (follow_skip _ _ _ _ Hok Hm) Hl).
  - assert (Hr : r ∉ seen) by (rewrite <- mem_true; congruence).
    destruct (edges r) as [refs | e] eqn:He.
    + exact (IH _ _ (follow_visit _ _ _ _ _ Hok Hr He) Hl).
    + injection Hl as <-. exists r. split; [| exact He]. apply (fo_followed _ _ _ Hok). set_solver.
Qed.

Lemma follow_start roots : follow_ok roots [] (rev roots).
Proof.
  split; [apply NoDup_nil_2 | | |].
  - intros r [Hr | Hr]; [set_solver |]. apply followed_root, elem_rev, Hr.
  - intros r Hr. right. apply elem_rev, Hr.
  - set_solver.
Qed.

Lemma follow_complete roots l r : follow_ok roots l [] -> followed roots r -> r ∈ l.
Proof.
  intros [_ _ H3 H4] Hr. induction Hr as [r Hr | r refs r' _ IH He Hin].
  - specialize (H3 r Hr). set_solver.
  - destruct (H4 r IH) as (refs' & He' & Hc). rewrite He in He'. injection He' as <-.
    specialize (Hc _ Hin). set_solver.
Qed.

(** A traversal that ends without an error returns exactly what can be come to. *)
Lemma follow_Ok roots fuel l :
  follow fuel [] (rev roots) = Some (Ok l) ->
  NoDup l /\ (forall r, r ∈ l <-> followed roots r)
  /\ (forall r, r ∈ l -> exists refs, edges r = Ok refs).
Proof.
  intros Hc. pose proof (follow_result _ _ _ _ _ (follow_start roots) Hc) as Hok. simpl in Hok.
  split; [apply (fo_nodup _ _ _ Hok) |]. split.
  - intros r. split; [| exact (follow_complete _ _ _ Hok)].
    intros Hr. apply (fo_followed _ _ _ Hok). auto.
  - intros r Hr. destruct (fo_closed _ _ _ Hok r Hr) as (refs & He & _). eauto.
Qed.

Lemma follow_Err roots fuel e :
  follow fuel [] (rev roots) = Some (Err e) -> exists r, followed roots r /\ edges r = Err e.
Proof. exact (follow_result _ _ _ _ _ (follow_start roots)). Qed.
End traversal.
