(* ===== verification/Findings.v ===== *)
(** * Findings and reports ([contracts/reporting.py])

    The records of the finding a TRUE verdict becomes and of the report drafted
    from it, and the evidence a verdict rests on, as a traversal of the supplied
    records. *)
From S2P Require Import Prelude Records CanonicalJson Store Lineage Work Processes Actions Budget.
From S2P Require Import Runtime Registry Authority Outputs Evidence Verdicts Policy Gates Traversal.

(** ** Records *)

Inductive ConditionKind := RESTRICTION | LIMITATION | UNRESOLVED_CONDITION.
#[export] Instance ConditionKind_eq_dec : EqDecision ConditionKind.
Proof. solve_decision. Defined.

Record FindingConditionSource := mkSource {
  src_kind : ConditionKind;
  src_source_ref : StoredDataRef;
  src_source_path : string;
}.
#[export] Instance FindingConditionSource_eq_dec : EqDecision FindingConditionSource.
Proof. solve_decision. Defined.

Definition slash : Ascii.ascii := Ascii.ascii_of_nat 47.
Definition tilde : Ascii.ascii := Ascii.ascii_of_nat 126.

(** [FindingConditionSource.pointer] *)
Definition pointer (s : FindingConditionSource) : result unit :=
  do! require_record_ref (RStored (src_source_ref s)) None ;;
  raise_if match src_source_path s with
           | String c _ => negb (Ascii.eqb c slash)
           | EmptyString => true
           end
    with "CONDITION_JSON_POINTER_REQUIRED" ;;
  Ok tt.

Definition condition_name (k : ConditionKind) : string :=
  match k with
  | RESTRICTION => "RESTRICTION" | LIMITATION => "LIMITATION"
  | UNRESOLVED_CONDITION => "UNRESOLVED_CONDITION"
  end.
#[export] Instance source_dumped : Dumped FindingConditionSource := fun s =>
  VModel contract_info
    [("kind", VStr (condition_name (src_kind s))); ("source_ref", dump (src_source_ref s));
     ("source_path", VStr (src_source_path s))].

Record Finding := mkFinding {
  fi_meta : RunMeta;
  fi_verification_result_ref : StoredDataRef;
  fi_dynamic_result_ref : StoredDataRef;
  fi_poc_ref : StoredDataRef;
  fi_cwe_label_ref : StoredDataRef;
  fi_technical_review_ref : StoredDataRef;
  fi_rule_scope_impact_review_ref : StoredDataRef;
  fi_policy_collection_result_ref : StoredDataRef;
  fi_policy_record_ref : option StoredDataRef;
  fi_evidence_refs : list StoredDataRef;
  fi_condition_sources : list FindingConditionSource;
}.

(** [Finding.normalized_shape] *)
Definition normalized_shape (f : Finding) : result unit :=
  do! unique_values (fi_evidence_refs f) ;;
  unique_values (fi_condition_sources f).

Inductive IndexStatus := IX_EMPTY | IX_CURRENT | IX_STALE.
#[export] Instance IndexStatus_eq_dec : EqDecision IndexStatus.
Proof. solve_decision. Defined.

Record FindingIndexState := mkIndex {
  ix_meta : RunMeta;
  ix_state_version : Z;
  ix_status : IndexStatus;
  ix_finding_ref : option StoredDataRef;
  ix_stale_finding_ref : option StoredDataRef;
  ix_normalization_work_ref : option StoredDataRef;
  ix_last_transition_commit_ref : option StoredDataRef;
  ix_invalidated_by_refs : list StoredDataRef;
}.

(** [FindingIndexState.current_shape] *)
Definition current_shape (i : FindingIndexState) : result unit :=
  do! (if eqb (ix_status i) IX_EMPTY then
         raise_if neqb (ix_state_version i) 1 || neqb (revision_number (ix_meta i)) 1
                  || is_some (ix_finding_ref i) || is_some (ix_stale_finding_ref i)
                  || is_some (ix_normalization_work_ref i)
                  || is_some (ix_last_transition_commit_ref i)
           with "FINDING_EMPTY_INDEX_MISMATCH" ;; Ok tt
       else
         raise_if is_none (ix_normalization_work_ref i) || is_none (ix_last_transition_commit_ref i)
           with "FINDING_INDEX_COMMIT_REQUIRED" ;;
         raise_if neqb (eqb (ix_status i) IX_CURRENT) (is_some (ix_finding_ref i))
                  || neqb (eqb (ix_status i) IX_STALE) (is_some (ix_stale_finding_ref i))
           with "FINDING_INDEX_POINTER_MISMATCH" ;; Ok tt) ;;
  raise_if neqb (eqb (ix_status i) IX_STALE) (nonempty (ix_invalidated_by_refs i))
    with "FINDING_INVALIDATION_REQUIRED" ;;
  unique_values (ix_invalidated_by_refs i).

Inductive ReportStatus := RP_NOT_REQUESTED | RP_DRAFTED | RP_FAILED.
#[export] Instance ReportStatus_eq_dec : EqDecision ReportStatus.
Proof. solve_decision. Defined.

Record ReportProcessState := mkReportState {
  rps_meta : RunMeta;
  rps_status : ReportStatus;
  rps_report_draft_ref : option StoredDataRef;
  rps_started_at : option Z;
  rps_finished_at : option Z;
  rps_elapsed_ms : Z;
}.

(** [ReportProcessState.lifecycle_shape] *)
Definition lifecycle_shape (s : ReportProcessState) : result unit :=
  if eqb (rps_status s) RP_NOT_REQUESTED then
    raise_if is_some (rps_report_draft_ref s) || is_some (rps_started_at s)
             || is_some (rps_finished_at s) || neqb (rps_elapsed_ms s) 0
      with "REPORT_NOT_REQUESTED_STATE_MISMATCH" ;; Ok tt
  else
    match rps_started_at s, rps_finished_at s with
    | Some started, Some finished =>
        raise_if finished <? started with "REPORT_FINISHED_BEFORE_STARTED" ;;
        if eqb (rps_status s) RP_DRAFTED then
          match rps_report_draft_ref s with
          | None => Err (ValueError "REPORT_DRAFT_REF_REQUIRED")
          | Some ref => require_record_ref (RStored ref) (Some "report_draft")
          end
        else
          raise_if is_some (rps_report_draft_ref s)
            with "FAILED_REPORT_MUST_NOT_REFERENCE_DRAFT" ;; Ok tt
    | _, _ => Err (ValueError "REPORT_TERMINAL_TIMES_REQUIRED")
    end.

Record ReportDraft := mkReportDraft {
  rd_meta : RunMeta;
  rd_action_decision_ref : StoredDataRef;
  rd_finding_ref : StoredDataRef;
  rd_verification_result_ref : StoredDataRef;
  rd_technical_review_ref : StoredDataRef;
  rd_rule_scope_impact_review_ref : StoredDataRef;
  rd_cwe_label_ref : StoredDataRef;
  rd_run_policy_state_ref : StoredDataRef;
  rd_policy_record_ref : StoredDataRef;
  rd_dynamic_result_ref : option StoredDataRef;
  rd_poc_ref : option StoredDataRef;
  rd_content_ref : StoredDataRef;
  rd_restrictions : list Restriction;
  rd_limitations : list string;
  rd_unresolved_conditions : list string;
}.

(** ** The evidence of a verdict *)

(** A record of any class, as [walk] and [condition_sources] see it by
    reflection: the fields of its models, tuples, references, texts. A
    [Restriction] is a model that is known to be one. *)
#[local] Unset Elimination Schemes.
Inductive node :=
| NModel (restriction : option Restriction) (fields : list (string * node))
| NTuple (elements : list node)
| NRef (r : StoredDataRef)
| NText (s : string)
| NOther.
#[local] Set Elimination Schemes.

Class AnyRecord (D : Type) := {
  any_meta : D -> RunMeta;
  any_dumped : Dumped D;
  any_tree : D -> node;
  any_dynamic : D -> bool;   (** [isinstance(record, DynamicRecord)] *)
  of_verification : VerificationResult -> D;
  of_dynamic : DynamicReproductionResult -> D;
  of_poc : PoCBundle -> D;
  of_label : CWELabel -> D;
  of_technical : TechnicalEvidenceReview -> D;
  of_review : RuleScopeImpactReview -> D;
  of_collection : PolicyCollectionResult -> D;
}.
#[export] Existing Instance any_dumped.

Definition node_refs (x : node) : list StoredDataRef :=
  match x with
  | NTuple elements => omap (fun e => match e with NRef r => Some r | _ => None end) elements
  | _ => []
  end.
Definition own_evidence_refs (fields : list (string * node)) : list StoredDataRef :=
  match find (fun kv => eqb kv.1 "evidence_refs") fields with
  | Some kv => node_refs kv.2
  | None => []
  end.

(** The [evidence_refs] of the models in a record, in the order of [walk]. *)
Fixpoint tree_evidence (x : node) : list StoredDataRef :=
  match x with
  | NModel _ fields =>
      own_evidence_refs fields ++ concat (map (fun kv => let '(_, v) := kv in tree_evidence v) fields)
  | NTuple elements => concat (map tree_evidence elements)
  | _ => []
  end.

Section closure.
Context {D : Type} `{!AnyRecord D}.

Definition any_evidence_refs (d : D) : list StoredDataRef := tree_evidence (any_tree d).

(** [roots] *)
Definition evidence_roots (v : VerificationResult) : list StoredDataRef :=
  option_list (vr_pro_evidence_ref v) ++ option_list (vr_con_evidence_ref v)
  ++ concat (map ec_evidence_refs (vr_supporting_evidence v))
  ++ concat (map ec_evidence_refs (vr_counter_evidence v))
  ++ concat (map vc_evidence_refs (vr_validation_results v))
  ++ concat (map fr_evidence_refs (vr_falsification_results v))
  ++ concat (map pd_evidence_refs (vr_required_primitive_candidates v))
  ++ concat (map pd_evidence_refs (vr_provided_primitive_candidates v))
  ++ concat (map cand_evidence_refs (vr_bypass_candidates v))
  ++ concat (map cand_evidence_refs (vr_impact_escalation_candidates v)).

(** What follows from one reference. *)
Definition evidence_edges (meta : RunMeta) (resolved : gmap string D) (ref : StoredDataRef)
  : result (list StoredDataRef) :=
  match sd_record_id ref with
  | None => Ok []
  | Some _ =>
      match resolved !! _key ref with
      | None => Err (ValueError "EVIDENCE_TRANSITIVE_CLOSURE_MISSING")
      | Some target =>
          do! exact (RStored ref) (any_meta target) target meta ;;
          Ok (any_evidence_refs target)
      end
  end.

(** The references of all resolved records, and the roots: enough fuel. *)
Definition evidence_fuel (v : VerificationResult) (resolved : gmap string D) : nat :=
  S (length (evidence_roots v)
     + sum_list_with (fun kv => length (any_evidence_refs kv.2)) (map_to_list resolved)).

(** [evidence_closure]: its [visited] is keyed by the canonical bytes of a
    reference, which tell references apart ([Lineage.key_inj]). *)
Definition evidence_closure (v : VerificationResult) (resolved : gmap string D)
  : option (result (list StoredDataRef)) :=
  follow (evidence_edges (vr_meta v) resolved) (evidence_fuel v resolved) [] (rev (evidence_roots v)).
(** ** The closure is the reachable evidence *)

(** What the evidence of [v] reaches: the references its claims name, and those
    the records behind them name. *)
Inductive reached (v : VerificationResult) (resolved : gmap string D) : StoredDataRef -> Prop :=
| reached_root r : r ∈ evidence_roots v -> reached v resolved r
| reached_edge r target r' :
    reached v resolved r -> sd_record_id r <> None -> resolved !! _key r = Some target ->
    r' ∈ any_evidence_refs target -> reached v resolved r'.

(** The references not followed yet. *)
Definition unfollowed (visited : list StoredDataRef) (kv : string * D) : nat :=
  if mem kv.1 (map _key visited) then 0%nat else length (any_evidence_refs kv.2).
Definition cost (resolved : gmap string D) (visited : list StoredDataRef) : nat :=
  sum_list_with (unfollowed visited) (map_to_list resolved).

Lemma unfollowed_snoc visited r kv : (unfollowed (visited ++ [r]) kv <= unfollowed visited kv)%nat.
Proof.
  unfold unfollowed. destruct (mem kv.1 (map _key visited)) eqn:H1;
    destruct (mem kv.1 (map _key (visited ++ [r]))) eqn:H2; try lia.
  exfalso. apply mem_true in H1. rewrite map_app in H2. rewrite <- not_true_iff_false, mem_true in H2. set_solver.
Qed.

Lemma follow_cost resolved visited r t :
  r ∉ visited -> resolved !! _key r = Some t ->
  (length (any_evidence_refs t) + cost resolved (visited ++ [r]) <= cost resolved visited)%nat.
Proof.
  intros Hr Ht. apply elem_of_map_to_list in Ht.
  assert (H0 : unfollowed visited (_key r, t) = length (any_evidence_refs t)).
  { unfold unfollowed. cbn. destruct (mem _ _) eqn:Hm; [| reflexivity]. apply mem_true in Hm. destruct (Hr (proj1 (key_elem _ _) Hm)). }
  rewrite <- H0. apply sum_drop; [apply unfollowed_snoc | exact Ht |]. unfold unfollowed. cbn.
  replace (mem _ _) with true; [reflexivity |]. symmetry. apply mem_true. rewrite map_app. set_solver.
Qed.

Lemma edges_cost meta resolved visited r refs :
  r ∉ visited -> evidence_edges meta resolved r = Ok refs ->
  (length refs + cost resolved (visited ++ [r]) <= cost resolved visited)%nat.
Proof.
  unfold evidence_edges. intros Hr He. destruct (sd_record_id r).
  - destruct (resolved !! _key r) as [t |] eqn:Ht; [| discriminate]. call He as [] _. injection He as <-.
    exact (follow_cost _ _ _ _ Hr Ht).
  - injection He as <-. apply sum_le, unfollowed_snoc.
Qed.

Lemma cost_start resolved :
  (cost resolved []
   <= sum_list_with (fun kv => length (any_evidence_refs kv.2)) (map_to_list resolved))%nat.
Proof. apply sum_le. intros kv. unfold unfollowed. destruct (mem _ _); lia. Qed.

Lemma edges_reached v resolved r : followed (evidence_edges (vr_meta v) resolved) (evidence_roots v) r ->
  reached v resolved r.
Proof.
  induction 1 as [r Hr | r refs r' _ IH He Hin]; [apply reached_root, Hr |].
  unfold evidence_edges in He. destruct (sd_record_id r) eqn:Hid.
  - destruct (resolved !! _key r) as [t |] eqn:Ht; [| discriminate]. call He as [] _. injection He as <-.
    apply (reached_edge _ _ r t); auto. congruence.
  - injection He as <-. set_solver.
Qed.

(** What is reached is seen when every reference seen is resolved. *)
Lemma reached_edges v resolved r :
  (forall r', followed (evidence_edges (vr_meta v) resolved) (evidence_roots v) r' ->
     exists refs, evidence_edges (vr_meta v) resolved r' = Ok refs) ->
  reached v resolved r -> followed (evidence_edges (vr_meta v) resolved) (evidence_roots v) r.
Proof.
  intros Hok. induction 1 as [r Hr | r t r' _ IH Hid Ht Hin]; [apply followed_root, Hr |].
  destruct (Hok r IH) as [refs He]. apply (followed_edge _ _ r refs); [exact IH | exact He |].
  unfold evidence_edges in He. destruct (sd_record_id r); [| congruence]. rewrite Ht in He.
  call He as [] _. injection He as <-. exact Hin.
Qed.

Lemma closure_total v resolved : exists res, evidence_closure v resolved = Some res.
Proof.
  apply (follow_terminates _ (cost resolved)); [intros seen r refs; apply edges_cost |].
  unfold evidence_fuel. rewrite length_rev. pose proof (cost_start resolved). lia.
Qed.

Lemma closure_Ok v resolved l :
  evidence_closure v resolved = Some (Ok l) -> NoDup l /\ forall r, r ∈ l <-> reached v resolved r.
Proof.
  intros Hc. destruct (follow_Ok _ _ _ _ Hc) as (Hnd & Hin & Hok). split; [exact Hnd |]. intros r.
  rewrite Hin. split; [apply edges_reached |]. apply reached_edges. intros r' Hr'. apply Hok, Hin, Hr'.
Qed.

Lemma closure_Err v resolved e :
  evidence_closure v resolved = Some (Err e) ->
  exists r, reached v resolved r /\ evidence_edges (vr_meta v) resolved r = Err e.
Proof.
  intros Hc. destruct (follow_Err _ _ _ _ Hc) as (r & Hr & He). exists r. split; [apply edges_reached, Hr | exact He].
Qed.

(** C30. The evidence closure is the evidence a verdict can be traced to: the
    traversal always ends; when every record it reaches is supplied and is exactly
    the record its reference names, it returns, without repetition, exactly the
    references reachable from the verdict's claims; and it fails only for a
    reached reference whose record is missing or is another one. *)
Theorem evidence_closure_correct v resolved :
  exists res, evidence_closure v resolved = Some res
    /\ match res with
       | Ok l => NoDup l /\ forall r, r ∈ l <-> reached v resolved r
       | Err e => exists r, reached v resolved r /\ evidence_edges (vr_meta v) resolved r = Err e
       end
    /\ ((forall r, reached v resolved r -> exists refs, evidence_edges (vr_meta v) resolved r = Ok refs) ->
        exists l, res = Ok l).
Proof.
  destruct (closure_total v resolved) as [res Hres]. exists res. split; [exact Hres |].
  assert (Hr : match res with
               | Ok l => NoDup l /\ forall r, r ∈ l <-> reached v resolved r
               | Err e => exists r, reached v resolved r /\ evidence_edges (vr_meta v) resolved r = Err e
               end).
  { destruct res as [l | e]; [exact (closure_Ok _ _ _ Hres) | exact (closure_Err _ _ _ Hres)]. }
  split; [exact Hr |]. intros Hall. destruct res as [l | e]; [eauto |].
  destruct Hr as (r & Hin & He). destruct (Hall r Hin) as [refs Hrefs]. congruence.
Qed.
End closure.
