(* ===== verification/Reports.v ===== *)
(** * What a report carries ([contracts/reporting.py])

    The conditions of the upstream records, the closure of a finding over its
    verdict, its gates and its evidence, and the closure of the draft over the
    finding. *)
From stdpp Require Import pretty.
From S2P Require Import Prelude Records CanonicalJson Text Store Lineage Work Processes Actions Budget.
From S2P Require Import Runtime Registry Authority Outputs Evidence Verdicts Policy Gates Findings.

(** ** Conditions *)

Definition condition_field (name : string) : option ConditionKind :=
  if eqb name "restrictions" then Some RESTRICTION
  else if eqb name "limitations" then Some LIMITATION
  else if eqb name "unresolved_conditions" then Some UNRESOLVED_CONDITION
  else None.
Definition child_path (path name : string) : string := path +:+ String slash name.

(** One source per element of a tuple of conditions. *)
Definition tuple_sources (ref : StoredDataRef) (kind : ConditionKind) (path : string) (elements : list node)
  : list FindingConditionSource :=
  imap (fun i _ => mkSource kind ref (child_path path (pretty (Z.of_nat i)))) elements.

(** [collect] of [condition_sources] *)
Fixpoint collect (ref : StoredDataRef) (path : string) (x : node) : list FindingConditionSource :=
  match x with
  | NModel _ fields =>
      concat (map (fun kv => let '(name, child) := kv in
        let pointer := child_path path name in
        match condition_field name, child with
        | Some kind, NTuple elements => tuple_sources ref kind pointer elements
        | _, _ => collect ref pointer child
        end) fields)
  | NTuple elements =>
      (fix each (i : nat) (elements : list node) : list FindingConditionSource :=
         match elements with
         | [] => []
         | child :: elements =>
             collect ref (child_path path (pretty (Z.of_nat i))) child ++ each (S i) elements
         end) 0%nat elements
  | _ => []
  end.

(** [part.replace("~1", "/")] and [.replace("~0", "~")] *)
Fixpoint replace_pair (a b c : Ascii.ascii) (s : string) : string :=
  match s with
  | String x ((String y s') as rest) =>
      if Ascii.eqb x a && Ascii.eqb y b then String c (replace_pair a b c s')
      else String x (replace_pair a b c rest)
  | _ => s
  end.
Definition decoded (part : string) : string :=
  replace_pair tilde (Ascii.ascii_of_nat 48) tilde
    (replace_pair tilde (Ascii.ascii_of_nat 49) slash part).

(** [getattr(value, decoded)] of a model, and [value[int(decoded)]] of a tuple.
    The paths are those [collect] made: fields of the model, indices in ASCII
    digits. *)
Definition get_part (x : node) (part : string) : result node :=
  match x with
  | NModel _ fields =>
      match find (fun kv => eqb kv.1 part) fields with
      | Some kv => Ok kv.2
      | None => Err AttributeError
      end
  | NTuple elements =>
      if isdecimal part then
        let! i := int_of_text part in
        match elements !! Z.to_nat i with
        | Some child => Ok child
        | None => Err IndexError
        end
      else Err (ValueError "invalid literal for int() with base 10")
  | _ => Err (ValueError "CONDITION_CLOSURE_MISMATCH")
  end.
Fixpoint get_parts (x : node) (parts : list string) : result node :=
  match parts with
  | [] => Ok x
  | part :: parts => let! child := get_part x (decoded part) in get_parts child parts
  end.

(** The conditions collected so far, and the one a source leads to. *)
Definition conditions := (list Restriction * list string * list string)%type.
Definition add_new `{EqDecision A} (x : A) (l : list A) : list A := if mem x l then l else l ++ [x].
Definition add_condition (kind : ConditionKind) (value : node) (c : conditions) : result conditions :=
  let '(restrictions, limitations, unresolved) := c in
  match kind, value with
  | RESTRICTION, NModel (Some r) _ => Ok (add_new r restrictions, limitations, unresolved)
  | LIMITATION, NText s => Ok (restrictions, add_new s limitations, unresolved)
  | UNRESOLVED_CONDITION, NText s => Ok (restrictions, limitations, add_new s unresolved)
  | _, _ => Err (ValueError "CONDITION_KIND_MISMATCH")
  end.

Section findings.
Context {D : Type} `{!AnyRecord D} `{!EqDecision D}.

(** [condition_sources] *)
Definition condition_sources (records : list (StoredDataRef * D)) : result (list FindingConditionSource) :=
  let conditions := concat (map (fun p => collect p.1 "" (any_tree p.2)) records) in
  do! for_each pointer conditions ;;
  do! unique_values conditions ;;
  Ok conditions.

Definition exact_record (meta : RunMeta) (p : StoredDataRef * D) : result unit :=
  exact (RStored p.1) (any_meta p.2) p.2 meta.

(** [{canonical_bytes(ref): record ...}]: the last record of a reference *)
Definition by_ref (records : list (StoredDataRef * D)) : gmap string D :=
  list_to_map (rev (map (fun p => (_key p.1, p.2)) records)).

Definition source_value (records : list (StoredDataRef * D)) (s : FindingConditionSource) : result node :=
  match by_ref records !! _key (src_source_ref s) with
  | None => Err KeyError
  | Some d => get_parts (any_tree d) (tail (split_on slash (src_source_path s)))
  end.

Fixpoint add_conditions (records : list (StoredDataRef * D)) (sources : list FindingConditionSource)
  (c : conditions) : result conditions :=
  match sources with
  | [] => Ok c
  | s :: sources =>
      let! value := source_value records s in
      let! c := add_condition (src_kind s) value c in
      add_conditions records sources c
  end.

(** [validate_finding_conditions] *)
Definition validate_finding_conditions (finding : Finding) (records : list (StoredDataRef * D))
  : result conditions :=
  do! for_each (exact_record (fi_meta finding)) records ;;
  do! value_error_as "CONDITION_CLOSURE_MISMATCH"
        (let! expected := condition_sources records in
         exact_values (fi_condition_sources finding) expected) ;;
  add_conditions records (fi_condition_sources finding) ([], [], []).

Context `{!Dumped VerificationResult} `{!Dumped DynamicReproductionResult} `{!Dumped PoCBundle}.
Context `{!Dumped CWELabel} `{!Dumped TechnicalEvidenceReview} `{!Dumped RuleScopeImpactReview}.
Context `{!Dumped ProgramPolicyRecord} `{!Dumped PolicyCollectionResult} `{!Dumped RunPolicyState}.
Context `{!Dumped Finding}.

(** The closure as [validate_finding_closure] uses it: [closure_total] shows that
    the fuel never runs out. *)
Definition traced (v : VerificationResult) (resolved : gmap string D) : result (list StoredDataRef) :=
  match evidence_closure v resolved with
  | Some r => r
  | None => Err AssertionError
  end.

(** The records a finding names, and the ones it is made of. *)
Record FindingUpstream := mkUpstream {
  up_verification : VerificationResult;
  up_dynamic : DynamicReproductionResult;
  up_poc : PoCBundle;
  up_label : CWELabel;
  up_technical : TechnicalEvidenceReview;
  up_scope : RuleScopeImpactReview;
  up_state : RunPolicyState;
  up_collection : PolicyCollectionResult;
  up_policy : option ProgramPolicyRecord;
}.
Definition upstream_pairs (f : Finding) (u : FindingUpstream) : list (StoredDataRef * D) :=
  [(fi_verification_result_ref f, of_verification (up_verification u));
   (fi_dynamic_result_ref f, of_dynamic (up_dynamic u)); (fi_poc_ref f, of_poc (up_poc u));
   (fi_cwe_label_ref f, of_label (up_label u)); (fi_technical_review_ref f, of_technical (up_technical u));
   (fi_rule_scope_impact_review_ref f, of_review (up_scope u));
   (fi_policy_collection_result_ref f, of_collection (up_collection u))].

(** The evidence records of the closure are among the upstream records. *)
Definition evidence_upstream (resolved : gmap string D) (upstream : list (StoredDataRef * D))
  (ref : StoredDataRef) : result unit :=
  match sd_record_id ref with
  | None => Ok tt
  | Some _ =>
      match resolved !! _key ref with
      | None => Err KeyError
      | Some d => raise_if negb (mem (ref, d) upstream) with "CONDITION_UPSTREAM_RECORD_MISSING" ;; Ok tt
      end
  end.

(** [validate_finding_closure] *)
Definition validate_finding_closure (finding : Finding) (u : FindingUpstream) (generation : Z)
  (resolved : gmap string D) (upstream : list (StoredDataRef * D)) : result unit :=
  let meta := fi_meta finding in
  let v := up_verification u in
  do! exact (RStored (fi_verification_result_ref finding)) (vr_meta v) v meta ;;
  do! exact (RStored (fi_dynamic_result_ref finding)) (dyn_meta (up_dynamic u)) (up_dynamic u) meta ;;
  do! exact (RStored (fi_poc_ref finding)) (poc_meta (up_poc u)) (up_poc u) meta ;;
  do! exact (RStored (fi_cwe_label_ref finding)) (cwe_meta (up_label u)) (up_label u) meta ;;
  do! exact (RStored (fi_technical_review_ref finding)) (tg_meta (up_technical u)) (up_technical u) meta ;;
  do! exact (RStored (fi_rule_scope_impact_review_ref finding)) (rs_meta (up_scope u)) (up_scope u) meta ;;
  do! exact (RStored (fi_policy_collection_result_ref finding)) (pre_meta (up_collection u))
        (up_collection u) meta ;;
  do! validate_technical_gate (up_technical u) v (up_label u) (up_dynamic u) (up_poc u) generation ;;
  do! validate_rule_scope_gate (up_scope u) (up_technical u) (up_state u) (up_collection u) (up_policy u) ;;
  raise_if neqb (tg_status (up_technical u)) TG_ACCEPT
           || neqb (fi_policy_record_ref finding) (rs_policy_record_ref (up_scope u))
           || neqb (fi_verification_result_ref finding) (rs_verification_result_ref (up_scope u))
           || neqb (Some (fi_dynamic_result_ref finding)) (vr_dynamic_result_ref v)
           || neqb (Some (fi_poc_ref finding)) (vr_poc_ref v)
    with "FINDING_UPSTREAM_CLOSURE_MISMATCH" ;;
  let! closure := traced v resolved in
  do! exact_values (fi_evidence_refs finding) closure ;;
  do! for_each (exact_record meta) upstream ;;
  raise_if existsb (fun p => negb (mem p upstream)) (upstream_pairs finding u)
    with "CONDITION_UPSTREAM_RECORD_MISSING" ;;
  do! for_each (evidence_upstream resolved upstream) closure ;;
  let! _ := validate_finding_conditions finding upstream in
  Ok tt.

(** A location of the report inside one the evidence names. *)
Definition located_in (location source : CodeLocation) : bool :=
  eqb (cl_workspace_id location, cl_commit_id location, cl_file_path location)
      (cl_workspace_id source, cl_commit_id source, cl_file_path source)
  && (cl_start_line source <=? cl_start_line location)
  && (cl_start_line location <=? cl_end_line location)
  && (cl_end_line location <=? cl_end_line source).

(** The references a draft repeats from its finding. *)
Definition draft_refs (d : ReportDraft) : list (option StoredDataRef) :=
  [Some (rd_verification_result_ref d); Some (rd_technical_review_ref d);
   Some (rd_rule_scope_impact_review_ref d); Some (rd_cwe_label_ref d);
   Some (rd_policy_record_ref d); rd_dynamic_result_ref d; rd_poc_ref d].
Definition finding_refs (f : Finding) : list (option StoredDataRef) :=
  [Some (fi_verification_result_ref f); Some (fi_technical_review_ref f);
   Some (fi_rule_scope_impact_review_ref f); Some (fi_cwe_label_ref f);
   fi_policy_record_ref f; Some (fi_dynamic_result_ref f); Some (fi_poc_ref f)].

(** The conditions a draft carries are the upstream ones. *)
Definition draft_conditions (draft : ReportDraft) (verification : VerificationResult)
  (c : conditions) : result unit :=
  let '(restrictions, limitations, unresolved) := c in
  do! exact_values (rd_restrictions draft) restrictions ;;
  do! exact_values (rd_limitations draft) limitations ;;
  do! exact_values (rd_unresolved_conditions draft) unresolved ;;
  raise_if existsb (fun s => negb (mem s (rd_unresolved_conditions draft)))
                   (vr_unresolved_conditions verification)
    with "REPORT_CONDITION_DROPPED" ;;
  Ok tt.

(** [validate_report_closure] *)
Definition validate_report_closure (draft : ReportDraft) (finding : Finding) (index : FindingIndexState)
  (verification : VerificationResult) (technical : TechnicalEvidenceReview)
  (scope : RuleScopeImpactReview) (state : RunPolicyState) (content_locations : list CodeLocation)
  (condition_records : list (StoredDataRef * D)) : result unit :=
  let meta := rd_meta draft in
  do! exact (RStored (rd_finding_ref draft)) (fi_meta finding) finding meta ;;
  raise_if neqb (ix_status index) IX_CURRENT || neqb (ix_finding_ref index) (Some (rd_finding_ref draft))
    with "STALE_RESULT" ;;
  raise_if neqb (draft_refs draft) (finding_refs finding) with "REPORT_UPSTREAM_CLOSURE_MISMATCH" ;;
  do! exact (RStored (rd_verification_result_ref draft)) (vr_meta verification) verification meta ;;
  do! exact (RStored (rd_technical_review_ref draft)) (tg_meta technical) technical meta ;;
  do! exact (RStored (rd_rule_scope_impact_review_ref draft)) (rs_meta scope) scope meta ;;
  do! exact (RStored (rd_run_policy_state_ref draft)) (ps_meta state) state meta ;;
  raise_if neqb (vr_verdict verification) V_TRUE || neqb (tg_status technical) TG_ACCEPT
           || negb (report_ready scope) || neqb (ps_status state) PS_CURRENT
    with "REPORT_NOT_READY" ;;
  raise_if neqb (rd_run_policy_state_ref draft) (rs_run_policy_state_ref scope)
           || neqb (ps_policy_record_ref state) (Some (rd_policy_record_ref draft))
    with "REPORT_POLICY_CLOSURE_MISMATCH" ;;
  raise_if neqb (rd_restrictions draft) (vr_restrictions verification)
    with "REPORT_RESTRICTION_DRIFT" ;;
  let! c := validate_finding_conditions finding condition_records in
  do! draft_conditions draft verification c ;;
  let allowed := concat (map ec_code_locations
                           (vr_supporting_evidence verification ++ vr_counter_evidence verification)) in
  raise_if existsb (fun l => negb (existsb (located_in l) allowed)) content_locations
    with "REPORT_CODE_LOCATION_UNSUPPORTED" ;;
  Ok tt.
End findings.

(** ** Paths *)

(** [x] is a condition of kind [k] of the tree: the elements of the tuples in the
    fields of that name, and the path to it. *)
Inductive located (k : ConditionKind) : node -> list string -> node -> Prop :=
| located_condition r fields name elements i x :
    (name, NTuple elements) ∈ fields -> condition_field name = Some k -> elements !! i = Some x ->
    located k (NModel r fields) [name; pretty (Z.of_nat i)] x
| located_field r fields name child parts x :
    (name, child) ∈ fields ->
    (condition_field name = None \/ forall elements, child <> NTuple elements) ->
    located k child parts x -> located k (NModel r fields) (name :: parts) x
| located_element elements i child parts x :
    elements !! i = Some child -> located k child parts x ->
    located k (NTuple elements) (pretty (Z.of_nat i) :: parts) x.

Definition held (k : ConditionKind) (tree x : node) : Prop := exists parts, located k tree parts x.

(** The names of fields are distinct identifiers; a tuple has at most
    [sys.maxsize] elements. *)
Definition plain_char (c : Ascii.ascii) : bool := negb (Ascii.eqb c slash) && negb (Ascii.eqb c tilde).
Fixpoint tree_ok (x : node) : bool :=
  match x with
  | NModel _ fields =>
      negb (has_duplicates (map fst fields))
      && forallb (fun kv => let '(name, child) := kv in all_chars plain_char name && tree_ok child) fields
  | NTuple elements => (Z.of_nat (length elements) <? 2 ^ 63) && forallb tree_ok elements
  | _ => true
  end.

Lemma node_ind (P : node -> Prop) :
  (forall r fields, Forall (fun kv => P kv.2) fields -> P (NModel r fields)) ->
  (forall elements, Forall P elements -> P (NTuple elements)) ->
  (forall r, P (NRef r)) -> (forall s, P (NText s)) -> P NOther -> forall x, P x.
Proof.
  intros Hm Ht Hr Hs Ho. fix go 1. intros [r fields | elements | r | s |].
  - apply Hm. induction fields as [| [name child] fields IH]; constructor; [apply go | exact IH].
  - apply Ht. induction elements as [| child elements IH]; constructor; [apply go | exact IH].
  - apply Hr.
  - apply Hs.
  - exact Ho.
Qed.

Fixpoint joined (parts : list string) : string :=
  match parts with
  | [] => ""
  | part :: parts => String slash (part +:+ joined parts)
  end.

Lemma split_plain p s parts :
  all_chars plain_char p = true -> split_on slash s = "" :: parts -> split_on slash (p +:+ s) = p :: parts.
Proof.
  intros Hp Hs. induction p as [| c p IH]; [exact Hs |]. simpl in Hp. apply andb_prop in Hp.
  destruct Hp as [Hc Hp]. unfold plain_char in Hc. apply andb_prop in Hc. destruct Hc as [Hc _].
  apply negb_true_iff in Hc. change (String c p +:+ s) with (String c (p +:+ s)). cbn [split_on].
  rewrite Hc, (IH Hp). reflexivity.
Qed.

Lemma split_joined parts :
  Forall (fun p => all_chars plain_char p = true) parts -> split_on slash (joined parts) = "" :: parts.
Proof.
  induction 1 as [| p parts Hp _ IH]; [reflexivity |].
  change (split_on slash (joined (p :: parts))) with ("" :: split_on slash (p +:+ joined parts)).
  rewrite (split_plain _ _ _ Hp IH). reflexivity.
Qed.

Lemma replace_plain b c s : all_chars plain_char s = true -> replace_pair tilde b c s = s.
Proof.
  induction s as [| x s IH]; [reflexivity |]. intros Hs. simpl in Hs. apply andb_prop in Hs.
  destruct Hs as [Hx Hs]. unfold plain_char in Hx. apply andb_prop in Hx. destruct Hx as [_ Hx].
  apply negb_true_iff in Hx. destruct s as [| y s]; [reflexivity |]. cbn [replace_pair].
  rewrite Hx. cbn [andb]. f_equal. exact (IH Hs).
Qed.

Lemma decoded_plain s : all_chars plain_char s = true -> decoded s = s.
Proof. intros Hs. unfold decoded. rewrite (replace_plain _ _ s Hs). exact (replace_plain _ _ _ Hs). Qed.

Lemma all_chars_weaken (f g : Ascii.ascii -> bool) s :
  (forall c, f c = true -> g c = true) -> all_chars f s = true -> all_chars g s = true.
Proof.
  intros Hfg. induction s as [| c s IH]; [reflexivity |]. simpl. rewrite !andb_true_iff. intros [Hc Hs]. auto.
Qed.

Lemma digit_plain c : ascii_digit c = true -> plain_char c = true.
Proof.
  rewrite ascii_digit_byte. unfold byte_of, plain_char. intros Hc. apply andb_true_intro. split;
    apply negb_true_iff, Ascii.eqb_neq; intros ->; destruct Hc as [H1 H2]; (apply H1; reflexivity) || (apply H2; reflexivity).
Qed.

(** An index is read back from its decimal form. *)
Lemma index_part (i : nat) :
  Z.of_nat i < 2 ^ 63 ->
  all_chars plain_char (pretty (Z.of_nat i)) = true /\ isdecimal (pretty (Z.of_nat i)) = true
  /\ int_of_text (pretty (Z.of_nat i)) = Ok (Z.of_nat i).
Proof.
  intros Hi. destruct (pretty_text (Z.of_nat i) 18) as (Hv & Hd & Hl); [split; [lia |]; apply (Z.lt_trans _ (2 ^ 63)); [exact Hi | reflexivity] |].
  split; [exact (all_chars_weaken _ _ _ digit_plain Hd) |]. split.
  - apply ascii_isdecimal; [| exact Hd]. intros He. rewrite He in Hl. simpl in Hl. lia.
  - rewrite ascii_int by (try exact Hd; unfold max_str_digits; lia). rewrite Hv. reflexivity.
Qed.

(** ** The sources are the conditions *)

Lemma sapp_nil_r s : s +:+ "" = s.
Proof. induction s as [| c s IH]; [reflexivity |]. change (String c (s +:+ "") = String c s). f_equal. exact IH. Qed.

Lemma joined_cons path p parts : child_path path p +:+ joined parts = path +:+ joined (p :: parts).
Proof. unfold child_path. rewrite !sapp_assoc. reflexivity. Qed.

Lemma tuple_sources_elem ref kind path elements s :
  s ∈ tuple_sources ref kind path elements
  <-> exists i x, elements !! i = Some x /\ s = mkSource kind ref (child_path path (pretty (Z.of_nat i))).
Proof.
  unfold tuple_sources. rewrite list_elem_of_lookup. split.
  - intros (i & Hi). rewrite list_lookup_imap in Hi. destruct (elements !! i) as [x |] eqn:Hx; [| discriminate].
    injection Hi as <-. eauto.
  - intros (i & x & Hx & ->). exists i. rewrite list_lookup_imap, Hx. reflexivity.
Qed.

Lemma collect_tuple ref path elements s :
  s ∈ collect ref path (NTuple elements)
  <-> exists i child, elements !! i = Some child
        /\ s ∈ collect ref (child_path path (pretty (Z.of_nat i))) child.
Proof.
  cbn [collect].
  assert (Hgo : forall n,
    s ∈ (fix each (i : nat) (elements : list node) : list FindingConditionSource :=
           match elements with
           | [] => []
           | child :: elements =>
               collect ref (child_path path (pretty (Z.of_nat i))) child ++ each (S i) elements
           end) n elements
    <-> exists i child, elements !! i = Some child
          /\ s ∈ collect ref (child_path path (pretty (Z.of_nat (n + i)))) child).
  { induction elements as [| x elements IH]; intros n; [split; [set_solver | intros (i & c & Hi & _); discriminate] |].
    rewrite elem_of_app, IH. split.
    - intros [Hs | (i & c & Hi & Hs)].
      + exists 0%nat, x. rewrite Nat.add_0_r. auto.
      + exists (S i), c. rewrite Nat.add_succ_r. auto.
    - intros ([| i] & c & Hi & Hs).
      + left. rewrite Nat.add_0_r in Hs. injection Hi as ->. exact Hs.
      + right. exists i, c. rewrite Nat.add_succ_r in Hs. auto. }
  apply (Hgo 0%nat).
Qed.

Lemma collect_model ref path r fields s :
  s ∈ collect ref path (NModel r fields)
  <-> exists name child, (name, child) ∈ fields
        /\ s ∈ match condition_field name, child with
               | Some kind, NTuple elements => tuple_sources ref kind (child_path path name) elements
               | _, _ => collect ref (child_path path name) child
               end.
Proof.
  cbn [collect]. rewrite list_elem_of_In, in_concat. setoid_rewrite in_map_iff.
  setoid_rewrite <- list_elem_of_In. split.
  - intros (l & ([name child] & <- & Hf) & Hs). eauto.
  - intros (name & child & Hf & Hs). eexists. split; [exists (name, child); split; [reflexivity | exact Hf] | exact Hs].
Qed.

Lemma collect_located ref x : forall path s,
  s ∈ collect ref path x
  <-> exists k parts value, s = mkSource k ref (path +:+ joined parts) /\ located k x parts value.
Proof.
  induction x as [r fields IH | elements IH | r | t |] using node_ind; intros path s;
    try (split; [intros Hs; apply elem_of_nil in Hs as [] | intros (k & parts & v & _ & Hl); inversion Hl]).
  - rewrite collect_model. split.
    + intros (name & child & Hf & Hs). rewrite Forall_forall in IH. specialize (IH _ Hf). simpl in IH.
      destruct (condition_field name) as [kind |] eqn:Hk; [destruct child as [| elements | | |] |].
      2:{ apply tuple_sources_elem in Hs. destruct Hs as (i & v & Hi & ->).
          exists kind, [name; pretty (Z.of_nat i)], v. split; [| exact (located_condition _ _ _ _ _ _ _ Hf Hk Hi)].
          f_equal. unfold child_path. rewrite sapp_assoc. cbn [joined]. rewrite !sapp_nil_r. reflexivity. }
      all: apply IH in Hs; destruct Hs as (k & parts & v & -> & Hl); exists k, (name :: parts), v;
        rewrite joined_cons; split; [reflexivity |]; apply (located_field _ _ _ _ _ _ _ Hf); auto;
        right; discriminate.
    + intros (k & parts & v & -> & Hl). inversion Hl as [? ? name elements i ? Hf Hk Hi | ? ? name child ps ? Hf Hn Hl' |]; subst.
      * exists name, (NTuple elements). split; [exact Hf |]. rewrite Hk. apply tuple_sources_elem.
        exists i, v. split; [exact Hi |]. f_equal. unfold child_path. rewrite sapp_assoc. cbn [joined].
        rewrite !sapp_nil_r. reflexivity.
      * exists name, child. split; [exact Hf |]. rewrite Forall_forall in IH. specialize (IH _ Hf). simpl in IH.
        assert (Hs : mkSource k ref (path +:+ joined (name :: ps)) ∈ collect ref (child_path path name) child)
          by (apply IH; exists k, ps, v; rewrite joined_cons; auto).
        destruct Hn as [-> | Hn]; [exact Hs |]. destruct (condition_field name); [| exact Hs].
        destruct child as [| elements | | |]; try exact Hs. destruct (Hn elements eq_refl).
  - rewrite collect_tuple. rewrite Forall_lookup in IH. split.
    + intros (i & child & Hi & Hs). apply (IH i child Hi) in Hs. destruct Hs as (k & parts & v & -> & Hl).
      exists k, (pretty (Z.of_nat i) :: parts), v. rewrite joined_cons. split; [reflexivity |].
      exact (located_element _ _ _ _ _ _ Hi Hl).
    + intros (k & parts & v & -> & Hl). inversion Hl as [| | ? i child ps ? Hi Hl']; subst. exists i, child.
      split; [exact Hi |]. apply (IH i child Hi). exists k, ps, v. rewrite joined_cons. auto.
Qed.

Lemma field_part r fields name child :
  tree_ok (NModel r fields) = true -> (name, child) ∈ fields ->
  all_chars plain_char name = true /\ get_part (NModel r fields) name = Ok child /\ tree_ok child = true.
Proof.
  cbn [tree_ok]. intros Hok Hf. apply andb_prop in Hok. destruct Hok as [Hd Hall].
  apply negb_true_iff, has_duplicates_false in Hd. rewrite forallb_forall in Hall.
  pose proof (Hall (name, child) ltac:(apply list_elem_of_In, Hf)) as Hn. simpl in Hn. apply andb_prop in Hn.
  destruct Hn as [Hn Hc]. split; [exact Hn |]. split; [| exact Hc]. cbn [get_part].
  destruct (find _ fields) as [[name' child'] |] eqn:Hfind.
  - apply find_some in Hfind. destruct Hfind as [Hin He]. apply list_elem_of_In in Hin. simpl in He. boolify.
    subst name'. pose proof (NoDup_map_inj fst fields (name, child) (name, child') Hd Hf Hin eq_refl) as Heq.
    injection Heq as <-. reflexivity.
  - exfalso. apply list_elem_of_In in Hf. pose proof (find_none _ _ Hfind _ Hf) as Hn'. simpl in Hn'.
    rewrite bool_decide_true in Hn' by reflexivity. discriminate.
Qed.

Lemma element_part elements i child :
  (Z.of_nat (length elements) <? 2 ^ 63) = true -> elements !! i = Some child ->
  all_chars plain_char (pretty (Z.of_nat i)) = true
  /\ get_part (NTuple elements) (pretty (Z.of_nat i)) = Ok child.
Proof.
  intros Hl Hi. pose proof (lookup_lt_Some _ _ _ Hi) as Hlt. apply Z.ltb_lt in Hl.
  destruct (index_part i ltac:(lia)) as (Hp & Hd & Hv). split; [exact Hp |]. cbn [get_part].
  rewrite Hd, Hv. cbn. rewrite Nat2Z.id, Hi. reflexivity.
Qed.

Lemma get_parts_cons x part child parts :
  all_chars plain_char part = true -> get_part x part = Ok child ->
  get_parts x (part :: parts) = get_parts child parts.
Proof. intros Hp Hg. cbn [get_parts]. rewrite decoded_plain by exact Hp. rewrite Hg. reflexivity. Qed.

(** The path of a condition leads back to it. *)
Lemma located_get k x parts value :
  located k x parts value -> tree_ok x = true ->
  Forall (fun p => all_chars plain_char p = true) parts /\ get_parts x parts = Ok value.
Proof.
  intros Hl. induction Hl as [r fields name elements i x Hf Hk Hi | r fields name child parts x Hf _ Hl IH
                             | elements i child parts x Hi Hl IH]; intros Hok.
  - destruct (field_part _ _ _ _ Hok Hf) as (Hp & Hg & Hc). cbn [tree_ok] in Hc. apply andb_prop in Hc.
    destruct (element_part _ _ _ (proj1 Hc) Hi) as [Hpi Hgi].
    split; [repeat constructor; assumption |]. rewrite (get_parts_cons _ _ _ _ Hp Hg).
    exact (get_parts_cons _ _ _ [] Hpi Hgi).
  - destruct (field_part _ _ _ _ Hok Hf) as (Hp & Hg & Hc). destruct (IH Hc) as [Hps Hv].
    split; [constructor; assumption |]. rewrite (get_parts_cons _ _ _ _ Hp Hg). exact Hv.
  - cbn [tree_ok] in Hok. apply andb_prop in Hok. destruct Hok as [Hlen Hall].
    destruct (element_part _ _ _ Hlen Hi) as [Hpi Hgi]. rewrite forallb_forall in Hall.
    destruct (IH (Hall child ltac:(apply list_elem_of_In, (list_elem_of_lookup_2 _ _ _ Hi)))) as [Hps Hv].
    split; [constructor; assumption |]. rewrite (get_parts_cons _ _ _ _ Hpi Hgi). exact Hv.
Qed.

(** ** What a finding carries *)

Definition source_key (s : FindingConditionSource) : string :=
  _encode (JObj [("kind", JStr (condition_name (src_kind s))); ("source_ref", ref_json (src_source_ref s));
                 ("source_path", JStr (src_source_path s))]).

Lemma source_canonical s : canonical_bytes [] (dump s) = Ok (source_key s).
Proof. destruct s as [k [? ? ? ? ? []] p]; reflexivity. Qed.

#[export] Instance source_key_inj : Inj (=) (=) source_key.
Proof.
  intros [k [a b c d e f] p] [k' [a' b' c' d' e' f'] p'] H. apply encode_canon in H.
  cbn in H. destruct f, f', k, k'; simpl in H; congruence.
Qed.

Lemma add_new_elem `{EqDecision A} (x y : A) l : y ∈ add_new x l <-> y = x \/ y ∈ l.
Proof.
  unfold add_new. destruct (mem x l) eqn:Hm; [apply mem_true in Hm; set_solver | set_solver].
Qed.

Lemma add_new_NoDup `{EqDecision A} (x : A) l : NoDup l -> NoDup (add_new x l).
Proof.
  unfold add_new. intros Hl. destruct (mem x l) eqn:Hm; [exact Hl |].
  assert (Hx : x ∉ l) by (rewrite <- mem_true; congruence).
  apply NoDup_app. split; [exact Hl |]. split; [set_solver | apply NoDup_singleton].
Qed.

Section carried.
Context {D : Type} `{!AnyRecord D} `{!EqDecision D}.

(** A source of kind [k] that leads to a value for which [P] holds. *)
Definition leads (records : list (StoredDataRef * D)) (sources : list FindingConditionSource)
  (k : ConditionKind) (P : node -> Prop) : Prop :=
  exists s value, s ∈ sources /\ src_kind s = k /\ source_value records s = Ok value /\ P value.
Definition is_restriction (r : Restriction) (x : node) : Prop := exists fields, x = NModel (Some r) fields.

Lemma add_conditions_Ok records sources c c' :
  add_conditions records sources c = Ok c' ->
  (forall r, r ∈ c'.1.1 <-> r ∈ c.1.1 \/ leads records sources RESTRICTION (is_restriction r))
  /\ (forall t, t ∈ c'.1.2 <-> t ∈ c.1.2 \/ leads records sources LIMITATION (eq (NText t)))
  /\ (forall t, t ∈ c'.2 <-> t ∈ c.2 \/ leads records sources UNRESOLVED_CONDITION (eq (NText t)))
  /\ (NoDup c.1.1 -> NoDup c'.1.1) /\ (NoDup c.1.2 -> NoDup c'.1.2) /\ (NoDup c.2 -> NoDup c'.2).
Proof.
  revert c. induction sources as [| s sources IH]; intros c Hc; cbn [add_conditions] in Hc.
  - injection Hc as <-. repeat split; auto; intros [Hx | (s & v & Hs & _)]; auto; apply elem_of_nil in Hs as [].
  - call Hc as value Hv. call Hc as c1 Hc1. apply IH in Hc. clear IH.
    assert (Hcons : forall k (P : node -> Prop), leads records (s :: sources) k P
              <-> (src_kind s = k /\ P value) \/ leads records sources k P).
    { intros k P. unfold leads. split.
      - intros (s' & v & Hs & Hk & Hv' & HP). apply elem_of_cons in Hs. destruct Hs as [-> | Hs]; [| right; eauto 10].
        left. rewrite Hv in Hv'. injection Hv' as <-. auto.
      - intros [[Hk HP] | (s' & v & Hs & Hv')]; [exists s, value | exists s', v]; repeat split; auto; try apply Hv';
          apply elem_of_cons; auto. }
    setoid_rewrite Hcons. clear Hcons Hv. unfold add_condition in Hc1. destruct c as [[rs ls] us].
    destruct (src_kind s); destruct value as [[r |] fields | | | t |]; try discriminate; injection Hc1 as <-;
      cbn [fst snd] in *; destruct Hc as (H1 & H2 & H3 & N1 & N2 & N3);
      setoid_rewrite add_new_elem in H1 || setoid_rewrite add_new_elem in H2 || setoid_rewrite add_new_elem in H3;
      (split; [| split; [| split]]); try (intros x; rewrite ?H1, ?H2, ?H3; unfold is_restriction; naive_solver);
      eauto using @add_new_NoDup.
Qed.

Lemma by_ref_lookup (records : list (StoredDataRef * D)) p :
  NoDup (map fst records) -> p ∈ records -> by_ref records !! _key p.1 = Some p.2.
Proof.
  intros Hnd Hp. unfold by_ref. apply elem_of_list_to_map_1.
  - assert (Hp' : NoDup (map _key (map fst records))) by (apply (NoDup_fmap_2 _key), Hnd).
    rewrite map_map in Hp'. rewrite <- Permutation_rev, <- list_fmap_compose. exact Hp'.
  - apply list_elem_of_In. rewrite <- in_rev. apply in_map_iff. exists p. split; [reflexivity |].
    apply list_elem_of_In, Hp.
Qed.

Lemma collected_elem (records : list (StoredDataRef * D)) s :
  s ∈ concat (map (fun p => collect p.1 "" (any_tree p.2)) records)
  <-> exists p k parts value, p ∈ records /\ s = mkSource k p.1 (joined parts)
        /\ located k (any_tree p.2) parts value.
Proof.
  rewrite list_elem_of_In, in_concat. setoid_rewrite in_map_iff. setoid_rewrite <- list_elem_of_In. split.
  - intros (l & (p & <- & Hp) & Hs). apply collect_located in Hs. destruct Hs as (k & parts & v & -> & Hl).
    exists p, k, parts, v. auto.
  - intros (p & k & parts & v & Hp & -> & Hl). eexists. split; [exists p; split; [reflexivity | exact Hp] |].
    apply collect_located. exists k, parts, v. auto.
Qed.

Lemma source_value_located records p k parts value :
  NoDup (map fst records) -> p ∈ records -> tree_ok (any_tree p.2) = true ->
  located k (any_tree p.2) parts value -> source_value records (mkSource k p.1 (joined parts)) = Ok value.
Proof.
  intros Hnd Hp Hok Hl. destruct (located_get _ _ _ _ Hl Hok) as [Hparts Hv]. unfold source_value.
  cbn [src_source_ref src_source_path]. rewrite (by_ref_lookup _ _ Hnd Hp), (split_joined _ Hparts). exact Hv.
Qed.

(** A condition of kind [k] in one of the records, for which [P] holds. *)
Definition upstream_condition (records : list (StoredDataRef * D)) (k : ConditionKind) (P : node -> Prop)
  : Prop :=
  exists p value, p ∈ records /\ held k (any_tree p.2) value /\ P value.
Definition records_ok (records : list (StoredDataRef * D)) : Prop :=
  NoDup (map fst records) /\ Forall (fun p => tree_ok (any_tree p.2) = true) records.

Lemma leads_upstream records sources k P :
  records_ok records ->
  (forall s, s ∈ sources <-> s ∈ concat (map (fun p => collect p.1 "" (any_tree p.2)) records)) ->
  leads records sources k P <-> upstream_condition records k P.
Proof.
  intros [Hnd Hok] Hs. rewrite Forall_forall in Hok. unfold leads, upstream_condition, held. split.
  - intros (s & v & Hin & Hk & Hv & HP). apply Hs, collected_elem in Hin.
    destruct Hin as (p & k' & parts & v' & Hp & -> & Hl).
    rewrite (source_value_located _ _ _ _ _ Hnd Hp (Hok p Hp) Hl) in Hv. injection Hv as <-. simpl in Hk. subst k'.
    eauto 10.
  - intros (p & v & Hp & (parts & Hl) & HP). exists (mkSource k p.1 (joined parts)), v.
    split; [apply Hs, collected_elem; exists p, k, parts, v; auto |]. split; [reflexivity |].
    split; [exact (source_value_located _ _ _ _ _ Hnd Hp (Hok p Hp) Hl) | exact HP].
Qed.

(** The conditions a list carries are exactly those of the records. *)
Definition carries (records : list (StoredDataRef * D)) (c : conditions) : Prop :=
  (forall r, r ∈ c.1.1 <-> upstream_condition records RESTRICTION (is_restriction r))
  /\ (forall t, t ∈ c.1.2 <-> upstream_condition records LIMITATION (eq (NText t)))
  /\ (forall t, t ∈ c.2 <-> upstream_condition records UNRESOLVED_CONDITION (eq (NText t)))
  /\ NoDup c.1.1 /\ NoDup c.1.2 /\ NoDup c.2.

Lemma conditions_Ok finding records c :
  validate_finding_conditions finding records = Ok c -> records_ok records -> carries records c.
Proof.
  unfold validate_finding_conditions. intros Hv Hok. call Hv as [] _. call Hv as [] He.
  assert (Hs : forall s, s ∈ fi_condition_sources finding
                 <-> s ∈ concat (map (fun p => collect p.1 "" (any_tree p.2)) records)).
  { unfold condition_sources in He. destruct (for_each pointer _) as [[] | e]; [| destruct e; discriminate].
    destruct (unique_values _) as [[] | e]; [| destruct e; discriminate]. cbn [rbind] in He.
    apply (exact_values_Ok source_key _ _ source_canonical).
    destruct (exact_values _ _) as [[] | e] eqn:Hx in He; [| destruct e; discriminate]. exact Hx. }
  destruct (add_conditions_Ok _ _ _ _ Hv) as (H1 & H2 & H3 & N1 & N2 & N3).
  unfold carries. setoid_rewrite H1. setoid_rewrite H2. setoid_rewrite H3.
  setoid_rewrite (leads_upstream _ _ _ _ Hok Hs). cbn [fst snd] in *.
  repeat split; try (intros [Hx | Hx]; [apply elem_of_nil in Hx as [] | exact Hx]); auto using NoDup_nil_2.
Qed.


Context `{!Dumped VerificationResult} `{!Dumped DynamicReproductionResult} `{!Dumped PoCBundle}.
Context `{!Dumped CWELabel} `{!Dumped TechnicalEvidenceReview} `{!Dumped RuleScopeImpactReview}.
Context `{!Dumped ProgramPolicyRecord} `{!Dumped PolicyCollectionResult} `{!Dumped RunPolicyState}.
Context `{!Dumped Finding}.

(** The finding is that of its verdict. *)
Record finding_justified (finding : Finding) (u : FindingUpstream) (generation : Z)
  (resolved : gmap string D) : Prop := {
  fj_true : vr_verdict (up_verification u) = V_TRUE;
  fj_debated : vr_verification_mode (up_verification u) = ALWAYS_DEBATE;
  fj_succeeded : dyn_status (up_dynamic u) = DS_SUCCEEDED;
  fj_supported : dyn_hypothesis_outcome (up_dynamic u) = HO_SUPPORTED;
  fj_dynamic : vr_dynamic_result_ref (up_verification u) = Some (fi_dynamic_result_ref finding);
  fj_poc : vr_poc_ref (up_verification u) = Some (fi_poc_ref finding);
  fj_poc_request : poc_request_ref (up_poc u) = dyn_request_ref (up_dynamic u);
  fj_generation : cwe_verification_generation (up_label u) = generation;
  fj_label : cwe_verification_result_ref (up_label u) = fi_verification_result_ref finding;
  fj_accepted : tg_status (up_technical u) = TG_ACCEPT;
  fj_evidence r : r ∈ fi_evidence_refs finding <-> reached (up_verification u) resolved r;
}.

Lemma finding_closure_Ok finding u g resolved upstream :
  validate_finding_closure finding u g resolved upstream = Ok tt ->
  finding_justified finding u g resolved
  /\ validate_rule_scope_gate (up_scope u) (up_technical u) (up_state u) (up_collection u) (up_policy u) = Ok tt
  /\ fi_policy_record_ref finding = rs_policy_record_ref (up_scope u).
Proof.
  unfold validate_finding_closure. cbv zeta. intros Hv. do 7 (call Hv as [] _).
  call Hv as [] Ht. call Hv as [] Hs. apply raise_if_Ok in Hv. destruct Hv as [Hu Hv].
  call Hv as closure Hc. call Hv as [] He. clear Hv. apply technical_gate_Ok in Ht.
  destruct Ht as (Hd & _ & _ & Hg & Hl). destruct (true_dynamic_Ok _ _ _ Hd) as (D1 & D2 & D3 & D4 & _ & _ & D5 & _).
  unfold traced in Hc. destruct (evidence_closure _ _) as [res |] eqn:Hcl; [| discriminate]. subst res.
  destruct (closure_Ok _ _ _ Hcl) as [_ Hreach]. apply exact_refs_Ok in He. destruct He as [_ He].
  pose proof Hs as Hs'. unfold validate_rule_scope_gate in Hs'. cbv zeta in Hs'. do 2 (call Hs' as [] _).
  apply raise_if_Ok in Hs'. destruct Hs' as [Ho _]. boolify.
  destruct Hu as [[[[U1 U2] U3] U4] U5], Ho as [[_ O2] _].
  split; [split; auto; try congruence | auto]. intros r. rewrite He. apply Hreach.
Qed.

(** A location of the report lies within one the evidence of the verdict names. *)
Definition supported_location (v : VerificationResult) (l : CodeLocation) : Prop :=
  exists claim source, claim ∈ vr_supporting_evidence v ++ vr_counter_evidence v
    /\ source ∈ ec_code_locations claim
    /\ (cl_workspace_id l, cl_commit_id l, cl_file_path l)
       = (cl_workspace_id source, cl_commit_id source, cl_file_path source)
    /\ cl_start_line source <= cl_start_line l <= cl_end_line l /\ cl_end_line l <= cl_end_line source.

Lemma locations_Ok v locations :
  existsb (fun l => negb (existsb (located_in l)
    (concat (map ec_code_locations (vr_supporting_evidence v ++ vr_counter_evidence v))))) locations = false ->
  forall l, l ∈ locations -> supported_location v l.
Proof.
  intros He l Hl. pose proof (existsb_false _ _ _ He Hl) as Hx. apply negb_false_iff, existsb_exists in Hx.
  destruct Hx as (source & Hin & Hs). apply in_concat in Hin. destruct Hin as (ls & Hin & Hsrc).
  apply in_map_iff in Hin. destruct Hin as (claim & <- & Hclaim). exists claim, source.
  rewrite !list_elem_of_In. split; [exact Hclaim |]. split; [exact Hsrc |].
  unfold located_in in Hs. rewrite !andb_true_iff, !Z.leb_le in Hs. destruct Hs as [[[Hn H1] H2] H3].
  apply bool_decide_eq_true in Hn. auto.
Qed.

(** What a draft keeps of its finding. *)
Record draft_faithful (draft : ReportDraft) (finding : Finding) (index : FindingIndexState)
  (u : FindingUpstream) (locations : list CodeLocation) (records : list (StoredDataRef * D)) : Prop := {
  df_finding : exact (RStored (rd_finding_ref draft)) (fi_meta finding) finding (rd_meta draft) = Ok tt;
  df_current : ix_status index = IX_CURRENT /\ ix_finding_ref index = Some (rd_finding_ref draft);
  df_refs : draft_refs draft = finding_refs finding;
  df_true : vr_verdict (up_verification u) = V_TRUE;
  df_accepted : tg_status (up_technical u) = TG_ACCEPT;
  df_ready : report_ready (up_scope u) = true;
  df_state : rd_run_policy_state_ref draft = rs_run_policy_state_ref (up_scope u);
  df_policy : ps_policy_record_ref (up_state u) = Some (rd_policy_record_ref draft);
  df_restrictions : rd_restrictions draft = vr_restrictions (up_verification u);
  df_limitations t :
    t ∈ rd_limitations draft <-> upstream_condition records LIMITATION (eq (NText t));
  df_unresolved t :
    t ∈ rd_unresolved_conditions draft <-> upstream_condition records UNRESOLVED_CONDITION (eq (NText t));
  df_kept : vr_unresolved_conditions (up_verification u) ⊆ rd_unresolved_conditions draft;
  df_locations l : l ∈ locations -> supported_location (up_verification u) l;
}.

Lemma report_closure_Ok draft finding index u locations records :
  validate_report_closure draft finding index (up_verification u) (up_technical u) (up_scope u) (up_state u)
    locations records = Ok tt ->
  records_ok records -> draft_faithful draft finding index u locations records.
Proof.
  unfold validate_report_closure. cbv zeta. intros Hv Hok. call Hv as [] Hf.
  apply raise_if_Ok in Hv. destruct Hv as [Hi Hv]. apply raise_if_Ok in Hv. destruct Hv as [Hr Hv].
  do 4 (call Hv as [] _). apply raise_if_Ok in Hv. destruct Hv as [Hready Hv].
  apply raise_if_Ok in Hv. destruct Hv as [Hp Hv]. apply raise_if_Ok in Hv. destruct Hv as [Hx Hv].
  call Hv as c Hc. call Hv as [] Hd. apply raise_if_Ok in Hv. destruct Hv as [Hl _].
  pose proof (conditions_Ok _ _ _ Hc Hok) as (_ & C2 & C3 & _). destruct c as [[rs ls] us]. cbn [fst snd] in *.
  unfold draft_conditions in Hd. call Hd as [] _. call Hd as [] Hls. call Hd as [] Hus.
  apply raise_if_Ok in Hd. destruct Hd as [Hk _]. apply exact_texts_Ok in Hls, Hus.
  destruct Hls as [_ Hls], Hus as [_ Hus]. pose proof (locations_Ok _ _ Hl) as Hloc. clear Hl.
  assert (Hkept : vr_unresolved_conditions (up_verification u) ⊆ rd_unresolved_conditions draft).
  { intros t Ht. pose proof (existsb_false _ _ _ Hk Ht) as Hm. simpl in Hm. boolify. exact Hm. }
  clear Hk. boolify. destruct Hready as [[[R1 R2] R3] R4], Hp as [P1 P2].
  split; auto; intros t; rewrite ?Hls, ?Hus; auto.
Qed.

(** C5. A report is drafted only for a justified finding: when the finding and the
    draft pass their closures, the current finding of the hypothesis rests on a TRUE
    verdict whose dynamic run supported it with the proof of concept named, on a
    label of the current generation, on an accepting technical gate and on a rule
    and scope review that allows the report under the current policy of the
    program; its evidence is exactly what the verdict can be traced to; and the
    draft repeats every restriction, limitation and open condition, and cites code
    only where the evidence does. *)
Theorem report_justified draft finding index u generation resolved upstream locations records :
  validate_finding_closure finding u generation resolved upstream = Ok tt ->
  validate_report_closure draft finding index (up_verification u) (up_technical u) (up_scope u) (up_state u)
    locations records = Ok tt ->
  records_ok records ->
  finding_justified finding u generation resolved
  /\ draft_faithful draft finding index u locations records
  /\ exists policy, up_policy u = Some policy
       /\ report_allowed (up_scope u) (up_technical u) (up_state u) (up_collection u) policy
       /\ fi_policy_record_ref finding = Some (rd_policy_record_ref draft)
       /\ exact (RStored (rd_policy_record_ref draft)) (pol_meta policy) policy (rs_meta (up_scope u)) = Ok tt.
Proof.
  intros Hf Hr Hok. destruct (finding_closure_Ok _ _ _ _ _ Hf) as (Hj & Hs & Hp).
  pose proof (report_closure_Ok _ _ _ _ _ _ Hr Hok) as Hd. split; [exact Hj |]. split; [exact Hd |].
  destruct (rule_scope_gate_Ok _ _ _ _ _ Hs (df_ready _ _ _ _ _ _ Hd)) as (p & ref & Hpol & Href & Hx & _ & Ha).
  exists p. split; [exact Hpol |]. split; [exact Ha |]. pose proof (df_refs _ _ _ _ _ _ Hd) as Hrefs.
  assert (Hpr : fi_policy_record_ref finding = Some (rd_policy_record_ref draft)) by (injection Hrefs; congruence).
  split; [exact Hpr |]. assert (Href' : ref = rd_policy_record_ref draft) by congruence. rewrite <- Href'. exact Hx.
Qed.
End carried.
