(* ===== verification/Reproduction.v ===== *)
(** * Dynamic reproduction ([contracts/dynamic.py])

    The records of a reproduction attempt: what it needs, the recipe and the
    environment it ran in, the boundary decision, the commands, the log and the
    candidate, with the [model_validator]s of their classes. The constraints of
    single fields are pydantic's: the patterns [safe_diagnostic] and
    [safe_command_value] search for, and [SandboxCommandInput.secret_handles]
    which applies them to the joined arguments, are not modelled. *)
From S2P Require Import Prelude Records CanonicalJson Text Store Lineage Work Processes Actions.
From S2P Require Import Budget Runtime Registry Authority Outputs Evidence Verdicts Policy.

(** [DynamicRecord.exact_request], of every record with a [request_ref] *)
Definition exact_request (request_ref : StoredDataRef) : result unit :=
  require_record_ref (RStored request_ref) (Some "dynamic_reproduction_request").

(** ** The environment *)

Inductive DependencyEcosystem := PYTHON_WHEELS | NPM_CACHE.
Inductive DockerfileOrigin := FROM_REPOSITORY | GENERATED.
Inductive BuildDisposition := BUILT | REUSED_BUILD.
Inductive CheckStatus := EC_MATCH | EC_MISMATCH | EC_NOT_CHECKED | EC_ERROR.
Inductive ContainerAction := CREATED | REUSED_CONTAINER.
Inductive ContainerReason :=
| INITIAL_CLEAN | NO_RELEVANT_CHANGE | STATE_CHANGED | CONFIG_CHANGED | STATE_UNCERTAIN.
Inductive EnvironmentStatus := EV_READY | EV_MISMATCH | EV_ERROR.

#[export] Instance NeedKind_eq_dec : EqDecision NeedKind.
Proof. solve_decision. Defined.
#[export] Instance BuildDisposition_eq_dec : EqDecision BuildDisposition.
Proof. solve_decision. Defined.
#[export] Instance CheckStatus_eq_dec : EqDecision CheckStatus.
Proof. solve_decision. Defined.
#[export] Instance ContainerAction_eq_dec : EqDecision ContainerAction.
Proof. solve_decision. Defined.
#[export] Instance ContainerReason_eq_dec : EqDecision ContainerReason.
Proof. solve_decision. Defined.
#[export] Instance EnvironmentStatus_eq_dec : EqDecision EnvironmentStatus.
Proof. solve_decision. Defined.

Record EnvironmentRequirement := mkRequirement {
  eq_requirement_id : string;
  eq_kind : NeedKind;
  eq_name : string;
  eq_required : bool;
  eq_expected : option string;
  eq_expected_ref : option StoredDataRef;
  eq_alternatives : list string;
  eq_check_ref : option StoredDataRef;
  eq_secret_ref : option StoredDataRef;
  eq_source_refs : list StoredDataRef;
}.

(** [EnvironmentRequirement.secret_handle] *)
Definition secret_handle (r : EnvironmentRequirement) : result unit :=
  raise_if match eq_secret_ref r with
           | Some s => neqb (sd_data_kind s) "secret_handle"
           | None => false
           end
    with "SECRET_HANDLE_REQUIRED" ;;
  Ok tt.

Record EnvironmentRequirements := mkRequirements {
  er_items_meta : RunMeta;
  er_items_request_ref : StoredDataRef;
  er_items : list EnvironmentRequirement;
}.

(** [EnvironmentRequirements.ids] *)
Definition requirement_ids (r : EnvironmentRequirements) : result unit :=
  unique_values (map eq_requirement_id (er_items r)).

Definition ecosystem_name (e : DependencyEcosystem) : string :=
  match e with PYTHON_WHEELS => "PYTHON_WHEELS" | NPM_CACHE => "NPM_CACHE" end.

(** [dependency_bundle_target_hash] *)
Definition dependency_bundle_target_hash (request_ref : StoredDataRef)
  (ecosystem : DependencyEcosystem) (repository_profile_ref : StoredDataRef)
  (dependency_input_hash : string) (archive_ref : StoredDataRef) (archive_digest : string)
  : result string :=
  content_hash []
    (VSequence [dump request_ref; VStr (ecosystem_name ecosystem); dump repository_profile_ref;
                VStr dependency_input_hash; dump archive_ref; VStr archive_digest; VStr "TAR"]).

Record DependencyBundle := mkDependency {
  bu_meta : RunMeta;
  bu_request_ref : StoredDataRef;
  bu_repository_profile_ref : StoredDataRef;
  bu_ecosystem : DependencyEcosystem;
  bu_dependency_input_hash : string;
  bu_archive_ref : StoredDataRef;
  bu_archive_digest : string;
  bu_approval_target_hash : string;
  bu_approved_by : string;
  bu_approved_at : Z;
}.

(** [DependencyBundle.exact_approved_archive] *)
Definition exact_approved_archive (b : DependencyBundle) : result unit :=
  do! require_record_ref (RStored (bu_repository_profile_ref b)) (Some "repository_profile") ;;
  raise_if neqb (sd_data_kind (bu_archive_ref b)) "artifact" || is_some (sd_record_id (bu_archive_ref b))
           || neqb (sd_content_hash (bu_archive_ref b)) (bu_archive_digest b)
    with "DEPENDENCY_BUNDLE_ARTIFACT_INVALID" ;;
  raise_if bu_approved_at b <? created_at (bu_meta b)
    with "DEPENDENCY_BUNDLE_APPROVAL_PRECEDES_RECORD" ;;
  let! expected := dependency_bundle_target_hash (bu_request_ref b) (bu_ecosystem b)
                     (bu_repository_profile_ref b) (bu_dependency_input_hash b) (bu_archive_ref b)
                     (bu_archive_digest b) in
  raise_if neqb (bu_approval_target_hash b) expected
    with "DEPENDENCY_BUNDLE_APPROVAL_TARGET_MISMATCH" ;;
  Ok tt.

Record ReproductionPlan := mkPlan {
  pn_meta : RunMeta;
  pn_request_ref : StoredDataRef;
  pn_purpose : DynamicPurpose;
  pn_hypothesis_ref : StoredDataRef;
  pn_environment_requirements_ref : StoredDataRef;
  pn_sandbox_profile_ref : StoredDataRef;
  pn_reproduction_goal : string;
  pn_strategy_summary : string;
  pn_requested_evidence : list string;
}.

Record SandboxProfile := mkSandboxProfile {
  sp_meta : RunMeta;
  sp_allowed_egress_refs : list StoredDataRef;
  sp_isolation_policy_refs : list StoredDataRef;
  sp_cpu_limit_millicores : Z;
  sp_memory_limit_bytes : Z;
  sp_disk_limit_bytes : Z;
  sp_pid_limit : Z;
  sp_max_requested_execution_ms : Z;
  sp_created_at : Z;
}.

Record EnvironmentRecipeSourceManifest := mkManifest {
  sm_repository_profile_ref : StoredDataRef;
  sm_dockerfile_ref : StoredDataRef;
  sm_build_context_ref : StoredDataRef;
  sm_dockerfile_path : string;
  sm_dockerfile_origin : DockerfileOrigin;
  sm_dockerfile_digest : string;
  sm_context_digest : string;
  sm_dependency_bundle_ref : option StoredDataRef;
  sm_dependency_manifest_path : option string;
}.

Definition scope_pair (r : StoredDataRef) : string * string := (sd_workspace_id r, sd_commit_id r).
Definition code_char (n : nat) : Ascii.ascii := Ascii.ascii_of_nat n.
Fixpoint has_code (n : nat) (s : string) : bool :=
  match s with
  | EmptyString => false
  | String c s => Ascii.eqb c (code_char n) || has_code n s
  end.
Fixpoint starts_with (prefix s : string) : bool :=
  match prefix, s with
  | EmptyString, _ => true
  | String a prefix, String b s => Ascii.eqb a b && starts_with prefix s
  | _, _ => false
  end.

(** A manifest path that leaves the build context: absolute, with a backslash, a
    parent component or a control character. *)
Definition invalid_path (p : string) : bool :=
  starts_with (String (code_char 47) "") p || starts_with (String (code_char 92) "") p
  || has_code 92 p || mem ".." (split_on (code_char 47) p)
  || has_code 13 p || has_code 10 p || has_code 0 p.

(** [EnvironmentRecipeSourceManifest.exact_sources] *)
Definition exact_sources (m : EnvironmentRecipeSourceManifest) : result unit :=
  do! require_record_ref (RStored (sm_repository_profile_ref m)) (Some "repository_profile") ;;
  raise_if neqb (sd_data_kind (sm_dockerfile_ref m)) "artifact"
           || neqb (sd_data_kind (sm_build_context_ref m)) "artifact"
           || is_some (sd_record_id (sm_dockerfile_ref m))
           || is_some (sd_record_id (sm_build_context_ref m))
           || neqb (sd_content_hash (sm_dockerfile_ref m)) (sm_dockerfile_digest m)
           || neqb (sd_content_hash (sm_build_context_ref m)) (sm_context_digest m)
    with "RECIPE_SOURCE_MANIFEST_INVALID" ;;
  raise_if neqb (scope_pair (sm_dockerfile_ref m)) (scope_pair (sm_repository_profile_ref m))
           || neqb (scope_pair (sm_build_context_ref m)) (scope_pair (sm_repository_profile_ref m))
    with "RECIPE_SOURCE_MANIFEST_SCOPE_MISMATCH" ;;
  do! match sm_dependency_bundle_ref m with
      | None => Ok tt
      | Some bundle =>
          do! require_record_ref (RStored bundle) (Some "dependency_bundle") ;;
          raise_if neqb (scope_pair bundle) (scope_pair (sm_repository_profile_ref m))
            with "RECIPE_SOURCE_MANIFEST_SCOPE_MISMATCH" ;;
          raise_if is_none (sm_dependency_manifest_path m) with "DEPENDENCY_MANIFEST_PATH_REQUIRED" ;;
          Ok tt
      end ;;
  raise_if match sm_dependency_manifest_path m with Some p => invalid_path p | None => false end
    with "DEPENDENCY_MANIFEST_PATH_INVALID" ;;
  Ok tt.

Record EnvironmentRecipe := mkRecipe {
  rc_meta : RunMeta;
  rc_request_ref : StoredDataRef;
  rc_environment_requirements_ref : StoredDataRef;
  rc_recipe_source_ref : StoredDataRef;
  rc_source_refs : list StoredDataRef;
  rc_base_image_digest : string;
  rc_built_image_digest : string;
  rc_baseline_recipe_ref : option StoredDataRef;
  rc_build_disposition : BuildDisposition;
  rc_source_manifest : option EnvironmentRecipeSourceManifest;
  rc_created_at : Z;
}.

(** [EnvironmentRecipe.baseline] *)
Definition baseline (r : EnvironmentRecipe) : result unit :=
  raise_if eqb (rc_build_disposition r) REUSED_BUILD && is_none (rc_baseline_recipe_ref r)
    with "BASELINE_RECIPE_REQUIRED" ;;
  let repository_refs := List.filter (fun s => eqb (sd_data_kind s) "repository_profile") (rc_source_refs r) in
  raise_if neqb (nonempty repository_refs) (is_some (rc_source_manifest r))
    with "RECIPE_SOURCE_MANIFEST_REQUIRED" ;;
  match rc_source_manifest r with
  | None => Ok tt
  | Some m =>
      let manifest_refs := [sm_repository_profile_ref m; sm_dockerfile_ref m; sm_build_context_ref m]
                           ++ option_list (sm_dependency_bundle_ref m) in
      raise_if neqb repository_refs [sm_repository_profile_ref m]
               || negb (same_set manifest_refs (rc_source_refs r))
        with "RECIPE_SOURCE_MANIFEST_MISMATCH" ;;
      Ok tt
  end.

Record EnvironmentCheck := mkEnvironmentCheck {
  ek_requirement_id : string;
  ek_status : CheckStatus;
  ek_actual : option string;
  ek_actual_ref : option StoredDataRef;
  ek_difference : option string;
  ek_evidence_refs : list StoredDataRef;
  ek_check_result_ref : option StoredDataRef;
}.

(** [EnvironmentCheck.check_shape] *)
Definition check_shape (c : EnvironmentCheck) : result unit :=
  raise_if negb (nonempty (ek_evidence_refs c)) && is_none (ek_check_result_ref c)
    with "ENVIRONMENT_CHECK_EVIDENCE_REQUIRED" ;;
  raise_if mem (ek_status c) [EC_MATCH; EC_MISMATCH] && is_none (ek_actual c) && is_none (ek_actual_ref c)
    with "ENVIRONMENT_ACTUAL_REQUIRED" ;;
  raise_if neqb (ek_status c) EC_MATCH && is_none (ek_difference c)
    with "ENVIRONMENT_DIFFERENCE_REQUIRED" ;;
  Ok tt.

Record SandboxEnvironment := mkEnvironment {
  se_meta : RunMeta;
  se_request_ref : StoredDataRef;
  se_reproduction_plan_ref : StoredDataRef;
  se_environment_recipe_ref : StoredDataRef;
  se_requirements_ref : StoredDataRef;
  se_container_instance_id : string;
  se_container_action : ContainerAction;
  se_container_reason : ContainerReason;
  se_previous_environment_ref : option StoredDataRef;
  se_status : EnvironmentStatus;
  se_checks : list EnvironmentCheck;
  se_limitations : list string;
  se_created_at : Z;
}.

(** [SandboxEnvironment.container_shape] *)
Definition container_shape (e : SandboxEnvironment) : result unit :=
  do! unique_values (map ek_requirement_id (se_checks e)) ;;
  raise_if neqb (eqb (se_container_action e) REUSED_CONTAINER) (eqb (se_container_reason e) NO_RELEVANT_CHANGE)
    with "CONTAINER_REUSE_MISMATCH" ;;
  raise_if neqb (eqb (se_container_reason e) INITIAL_CLEAN) (is_none (se_previous_environment_ref e))
    with "CONTAINER_PREDECESSOR_REQUIRED" ;;
  Ok tt.

(** ** The boundary *)

Record SandboxPolicyDecision := mkBoundary {
  bd_meta : RunMeta;
  bd_request_ref : StoredDataRef;
  bd_action_decision_ref : StoredDataRef;
  bd_sandbox_profile_ref : StoredDataRef;
  bd_resource_profile_ref : StoredDataRef;
  bd_run_policy_state_ref : StoredDataRef;
  bd_policy_collection_result_ref : option StoredDataRef;
  bd_policy_record_ref : option StoredDataRef;
  bd_observed_policy_status : PolicyStatus;
  bd_allow : bool;   (** [decision == "ALLOW"] *)
  bd_reason_codes : list string;
  bd_checked_boundary_refs : list StoredDataRef;
  bd_decided_at : Z;
}.

(** [SandboxPolicyDecision.policy_shape] *)
Definition policy_shape (d : SandboxPolicyDecision) : result unit :=
  raise_if negb (nonempty (bd_reason_codes d)) with "POLICY_REASON_REQUIRED" ;;
  raise_if eqb (bd_observed_policy_status d) PS_PREPARING
           && (is_some (bd_policy_collection_result_ref d) || is_some (bd_policy_record_ref d))
    with "POLICY_PROVENANCE_MISMATCH" ;;
  raise_if eqb (bd_observed_policy_status d) PS_CURRENT
           && (is_none (bd_policy_collection_result_ref d) || is_none (bd_policy_record_ref d))
    with "POLICY_PROVENANCE_MISMATCH" ;;
  raise_if mem (bd_observed_policy_status d) [PS_ABSENT; PS_BLOCKED; PS_FAILED]
           && is_some (bd_policy_record_ref d)
    with "POLICY_PROVENANCE_MISMATCH" ;;
  Ok tt.

(** ** Commands *)

Inductive RedactionStatus := REDACTED | REDACTION_NOT_REQUIRED.
Inductive ToolAction := RUN_COMMAND | USE_POC_CANDIDATE | REQUEST_SANDBOX_RECREATE | FINISH_ACTION.
#[export] Instance RedactionStatus_eq_dec : EqDecision RedactionStatus.
Proof. solve_decision. Defined.
#[export] Instance ToolAction_eq_dec : EqDecision ToolAction.
Proof. solve_decision. Defined.

Definition POC_RUNTIME_PATH : string := "/tmp/sastsimi-poc-candidate".
Definition POC_EXECUTABLE : string := "/bin/sh".

Record SandboxCommandInput := mkCommandInput {
  ci_executable : string;
  ci_arguments : list string;
  ci_working_directory : string;
  ci_environment_binding_refs : list StoredDataRef;
  ci_stdin_ref : option StoredDataRef;
  ci_secret_refs : list StoredDataRef;
}.

(** [is_poc_execution_command] *)
Definition is_poc_execution_command (c : SandboxCommandInput) : bool :=
  eqb (ci_executable c) POC_EXECUTABLE
  && match ci_arguments c with
     | argument :: _ => eqb argument POC_RUNTIME_PATH
     | [] => false
     end.

(** The fields of a command, of the model and of the dict of its fields. *)
Definition command_fields (c : SandboxCommandInput) : list (string * value) :=
  [("executable", VStr (ci_executable c)); ("arguments", VSequence (map VStr (ci_arguments c)));
   ("working_directory", VStr (ci_working_directory c));
   ("environment_binding_refs", VSequence (map dump (ci_environment_binding_refs c)));
   ("stdin_ref", match ci_stdin_ref c with Some r => dump r | None => VNone end);
   ("secret_refs", VSequence (map dump (ci_secret_refs c)))].
#[export] Instance command_dumped : Dumped SandboxCommandInput := fun c =>
  VModel contract_info (command_fields c).
Definition fields_hash (c : SandboxCommandInput) : result string :=
  content_hash [] (VMapping (map (fun kv => (Some kv.1, kv.2)) (command_fields c))).

Record SandboxCommandRecord := mkCommandRecord {
  cr_meta : RunMeta;
  cr_request_ref : StoredDataRef;
  cr_input :> SandboxCommandInput;
  cr_action_id : string;
  cr_tool_request_ref : StoredDataRef;
  cr_reproduction_plan_ref : StoredDataRef;
  cr_environment_recipe_ref : StoredDataRef;
  cr_environment_ref : StoredDataRef;
  cr_command_digest : string;
  cr_redaction_status : RedactionStatus;
  cr_created_at : Z;
}.

(** [SandboxCommandRecord.digest] *)
Definition digest (r : SandboxCommandRecord) : result unit :=
  let! hash := fields_hash r in
  raise_if neqb (cr_command_digest r) hash with "COMMAND_DIGEST_MISMATCH" ;; Ok tt.

Record DynamicReproductionToolRequest := mkToolRequest {
  tr_meta : RunMeta;
  tr_request_ref : StoredDataRef;
  tr_reproduction_plan_ref : StoredDataRef;
  tr_environment_ref : StoredDataRef;
  tr_turn_number : Z;
  tr_action : ToolAction;
  tr_command : option SandboxCommandInput;
  tr_poc_candidate_ref : option StoredDataRef;
  tr_recreate_reason : option ContainerReason;
  tr_rationale : string;
  tr_llm_call_id : string;
}.

(** [DynamicReproductionToolRequest.action_shape] *)
Definition action_shape (r : DynamicReproductionToolRequest) : result unit :=
  raise_if neqb (eqb (tr_action r) RUN_COMMAND) (is_some (tr_command r))
           || neqb (eqb (tr_action r) USE_POC_CANDIDATE) (is_some (tr_poc_candidate_ref r))
           || neqb (eqb (tr_action r) REQUEST_SANDBOX_RECREATE) (is_some (tr_recreate_reason r))
    with "DYNAMIC_TOOL_ACTION_MISMATCH" ;;
  Ok tt.

Record CleanupResult := mkCleanup {
  cn_meta : RunMeta;
  cn_request_ref : StoredDataRef;
  cn_environment_refs : list StoredDataRef;
  cn_resource_refs : list StoredDataRef;
  cn_status : CleanupStatus;   (** SUCCEEDED or FAILED *)
  cn_failure_reason : option string;
  cn_finished_at : Z;
}.

(** [CleanupResult.failure] *)
Definition failure (c : CleanupResult) : result unit :=
  raise_if neqb (eqb (cn_status c) CU_FAILED) (is_some (cn_failure_reason c))
    with "CLEANUP_STATUS_MISMATCH" ;;
  Ok tt.

Record PoCCandidate := mkCandidate {
  pk_meta : RunMeta;
  pk_request_ref : StoredDataRef;
  pk_reproduction_plan_ref : StoredDataRef;
  pk_content_ref : StoredDataRef;
  pk_content_digest : string;
  pk_llm_call_id : string;
  pk_created_at : Z;
}.

(** [PoCCandidate.digest] *)
Definition candidate_digest (c : PoCCandidate) : result unit :=
  raise_if neqb (pk_content_digest c) (sd_content_hash (pk_content_ref c))
    with "CANDIDATE_DIGEST_MISMATCH" ;;
  Ok tt.

Record DynamicReproductionConclusion := mkConclusion {
  dc_meta : RunMeta;
  dc_request_ref : StoredDataRef;
  dc_reproduction_plan_ref : StoredDataRef;
  dc_environment_ref : StoredDataRef;
  dc_poc_candidate_ref : option StoredDataRef;
  dc_observation_refs : list StoredDataRef;
  dc_proposed_outcome : HypothesisOutcome;
  dc_hypothesis_evidence_refs : list StoredDataRef;
  dc_hypothesis_linkage : string;
  dc_limitations : list string;
  dc_llm_call_id : string;
}.

(** ** The log *)

(** What an event is about, and whether it starts or finishes it: an event type
    that ends in [_STARTED] or in [_FINISHED], or neither. *)
Inductive Phase := PH_SESSION | PH_AGENT | PH_COMMAND | PH_POC_EXECUTION | PH_CLEANUP.
Inductive EventType :=
| STARTED (p : Phase) | FINISHED (p : Phase)
| POC_CANDIDATE_CREATED | OBSERVATION_RECORDED | SANDBOX_RECREATE_REQUESTED | SANDBOX_RECREATED
| POLICY_BLOCKED_EVENT | ERROR_EVENT.
Inductive Actor :=
| BY_DYNAMIC_REPRODUCTION | BY_SETUP_AUTOMATION | BY_TOOL_RUNTIME | BY_SANDBOX_CONTROLLER
| BY_SESSION_MANAGER.
#[export] Instance Phase_eq_dec : EqDecision Phase.
Proof. solve_decision. Defined.
#[export] Instance EventType_eq_dec : EqDecision EventType.
Proof. solve_decision. Defined.
#[export] Instance Actor_eq_dec : EqDecision Actor.
Proof. solve_decision. Defined.

Record AgentLogEvent := mkEvent {
  ev_event_id : string;
  ev_sequence : Z;
  ev_action_id : string;
  ev_event_type : EventType;
  ev_actor : Actor;
  ev_environment_ref : option StoredDataRef;
  ev_environment_recipe_ref : option StoredDataRef;
  ev_poc_candidate_ref : option StoredDataRef;
  ev_tool_request_ref : option StoredDataRef;
  ev_command_ref : option StoredDataRef;
  ev_command_digest : option string;
  ev_redaction_status : option RedactionStatus;
  ev_input_refs : list StoredDataRef;
  ev_output_refs : list StoredDataRef;
  ev_exit_code : option Z;
  ev_timed_out : option bool;
  ev_safe_message : option string;
  ev_occurred_at : Z;
}.
#[export] Instance AgentLogEvent_eq_dec : EqDecision AgentLogEvent.
Proof. solve_decision. Defined.

(** Which of the four values a command carries are missing. *)
Definition command_values (e : AgentLogEvent) : list bool :=
  [is_none (ev_tool_request_ref e); is_none (ev_command_ref e); is_none (ev_command_digest e);
   is_none (ev_redaction_status e)].

(** [AgentLogEvent.command_shape] *)
Definition command_shape (e : AgentLogEvent) : result unit :=
  do! for_each (fun '(ref, kind) => require_kind ref kind)
        [(ev_command_ref e, "sandbox_command_record");
         (ev_tool_request_ref e, "dynamic_reproduction_tool_request");
         (ev_environment_ref e, "sandbox_environment");
         (ev_environment_recipe_ref e, "environment_recipe");
         (ev_poc_candidate_ref e, "poc_candidate")] ;;
  let command := mem (ev_event_type e) [STARTED PH_COMMAND; FINISHED PH_COMMAND] in
  let poc_execution := mem (ev_event_type e) [STARTED PH_POC_EXECUTION; FINISHED PH_POC_EXECUTION] in
  let execution_finished := mem (ev_event_type e) [FINISHED PH_COMMAND; FINISHED PH_POC_EXECUTION] in
  let missing := command_values e in
  raise_if command && mem true missing || negb command && negb poc_execution && mem false missing
           || poc_execution && mem true missing && mem false missing
    with "COMMAND_EVENT_PROVENANCE" ;;
  raise_if (command || poc_execution)
           && (is_none (ev_environment_ref e) || is_none (ev_environment_recipe_ref e))
    with "COMMAND_ENVIRONMENT_REQUIRED" ;;
  raise_if neqb execution_finished (is_some (ev_timed_out e)) with "COMMAND_TIMEOUT_STATUS_REQUIRED" ;;
  Ok tt.

Record AgentLog := mkLog {
  al_meta : RunMeta;
  al_request_ref : StoredDataRef;
  al_events : list AgentLogEvent;
}.

(** [pending]: the action started and not finished, by phase and action *)
Definition Pending := list (Phase * string * AgentLogEvent).
Definition started_in (pending : Pending) (key : Phase * string) : option AgentLogEvent :=
  match find (fun kv => eqb kv.1 key) pending with
  | Some kv => Some kv.2
  | None => None
  end.

(** The provenance a finished execution shares with its start. *)
Definition provenance (e : AgentLogEvent) :=
  (ev_command_ref e, ev_tool_request_ref e, ev_command_digest e, ev_environment_ref e,
   ev_environment_recipe_ref e, ev_poc_candidate_ref e).

(** One event of [AgentLog.event_sequence] *)
Definition log_event (pending : Pending) (event : AgentLogEvent) : result Pending :=
  match ev_event_type event with
  | STARTED phase =>
      let key := (phase, ev_action_id event) in
      raise_if is_some (started_in pending key) with "LOG_ACTION_DUPLICATE" ;;
      Ok (pending ++ [(key, event)])
  | FINISHED phase =>
      let key := (phase, ev_action_id event) in
      match started_in pending key with
      | None => Err (ValueError "LOG_ACTION_START_REQUIRED")
      | Some start =>
          raise_if ev_occurred_at event <? ev_occurred_at start with "LOG_TIME_MISMATCH" ;;
          raise_if mem phase [PH_COMMAND; PH_POC_EXECUTION] && neqb (provenance start) (provenance event)
            with "LOG_ACTION_PROVENANCE_MISMATCH" ;;
          raise_if eqb phase PH_POC_EXECUTION && neqb (ev_input_refs start) (ev_input_refs event)
            with "LOG_ACTION_PROVENANCE_MISMATCH" ;;
          Ok (List.filter (fun kv => neqb kv.1 key) pending)
      end
  | _ => Ok pending
  end.

(** [AgentLog.event_sequence] *)
Definition event_sequence (log : AgentLog) : result unit :=
  do! unique_values (map ev_event_id (al_events log)) ;;
  raise_if neqb (map ev_sequence (al_events log)) (seqZ 1 (Z.of_nat (length (al_events log))))
    with "LOG_SEQUENCE_MISMATCH" ;;
  let! _ := fold_result log_event [] (al_events log) in
  Ok tt.

(** [validate_log_revision] *)
Definition validate_log_revision (previous current : AgentLog) : result unit :=
  do! validate_revision (MRun (al_meta previous)) (MRun (al_meta current)) ;;
  do! same_attempt_scope (al_meta previous) (al_meta current) ;;
  raise_if neqb (al_request_ref previous) (al_request_ref current)
           || (length (al_events current) <=? length (al_events previous))%nat
           || neqb (take (length (al_events previous)) (al_events current)) (al_events previous)
    with "LOG_APPEND_ONLY" ;;
  Ok tt.

(** ** What a log says *)

Definition starts (e : AgentLogEvent) : option (Phase * string) :=
  match ev_event_type e with STARTED p => Some (p, ev_action_id e) | _ => None end.
Definition finishes (e : AgentLogEvent) : option (Phase * string) :=
  match ev_event_type e with FINISHED p => Some (p, ev_action_id e) | _ => None end.
Definition touches (e : AgentLogEvent) (key : Phase * string) : Prop :=
  starts e = Some key \/ finishes e = Some key.

(** After the events [l] the action [key] that [s] started is not finished. *)
Definition open_in (l : list AgentLogEvent) (key : Phase * string) (s : AgentLogEvent) : Prop :=
  exists i, l !! i = Some s /\ starts s = Some key
    /\ forall j e, (i < j)%nat -> l !! j = Some e -> ~ touches e key.

(** An event starts only what is not open, and finishes only what is: later than
    its start and, for an execution, with the same provenance. *)
Definition event_paired (l : list AgentLogEvent) (e : AgentLogEvent) : Prop :=
  (forall key s, starts e = Some key -> ~ open_in l key s)
  /\ (forall key, finishes e = Some key ->
        exists s, open_in l key s /\ ev_occurred_at s <= ev_occurred_at e
          /\ (key.1 = PH_COMMAND \/ key.1 = PH_POC_EXECUTION -> provenance s = provenance e)
          /\ (key.1 = PH_POC_EXECUTION -> ev_input_refs s = ev_input_refs e)).
Definition log_paired (l : list AgentLogEvent) : Prop :=
  forall j e, l !! j = Some e -> event_paired (take j l) e.

Lemma open_in_snoc l e key s :
  open_in (l ++ [e]) key s <-> (starts e = Some key /\ s = e) \/ (open_in l key s /\ ~ touches e key).
Proof.
  split.
  - intros (i & Hi & Hs & Hq). destruct (decide (i = length l)) as [-> | Hne].
    + left. rewrite lookup_app_r in Hi by lia. rewrite Nat.sub_diag in Hi. injection Hi as <-. auto.
    + assert (Hlt : (i < length l)%nat) by (pose proof (lookup_lt_Some _ _ _ Hi) as H; rewrite length_app in H; simpl in H; lia).
      rewrite lookup_app_l in Hi by exact Hlt. right. split.
      * exists i. split; [exact Hi |]. split; [exact Hs |]. intros j x Hj Hx. apply (Hq j x Hj).
        apply lookup_app_l_Some, Hx.
      * apply (Hq (length l) e Hlt). rewrite lookup_app_r, Nat.sub_diag by lia. reflexivity.
  - intros [[Hs ->] | [(i & Hi & Hs & Hq) Ht]].
    + exists (length l). rewrite lookup_app_r, Nat.sub_diag by lia. split; [reflexivity |]. split; [exact Hs |].
      intros j x Hj Hx. apply lookup_lt_Some in Hx. rewrite length_app in Hx. simpl in Hx. lia.
    + exists i. split; [apply lookup_app_l_Some, Hi |]. split; [exact Hs |]. intros j x Hj Hx.
      destruct (decide (j < length l)%nat) as [Hlt | Hge].
      * rewrite lookup_app_l in Hx by exact Hlt. exact (Hq j x Hj Hx).
      * rewrite lookup_app_r in Hx by lia. destruct (j - length l)%nat as [| n]; [| destruct n; discriminate].
        injection Hx as <-. exact Ht.
Qed.

Lemma log_paired_snoc l e : log_paired l -> event_paired l e -> log_paired (l ++ [e]).
Proof.
  intros Hl He j x Hx. destruct (decide (j < length l)%nat) as [Hlt | Hge].
  - rewrite lookup_app_l in Hx by exact Hlt. rewrite take_app_le by lia. exact (Hl j x Hx).
  - rewrite lookup_app_r in Hx by lia. destruct (j - length l)%nat as [| n] eqn:Hn; [| destruct n; discriminate].
    injection Hx as <-. rewrite take_app_le by lia. rewrite take_ge by lia. exact He.
Qed.

Lemma started_in_app pending key key' e :
  started_in (pending ++ [(key, e)]) key'
  = match started_in pending key' with Some s => Some s | None => if eqb key key' then Some e else None end.
Proof.
  unfold started_in. induction pending as [| [k v] pending IH]; simpl.
  - destruct (decide (key = key')) as [-> | Hne]; [rewrite !bool_decide_true by reflexivity; reflexivity |].
    rewrite !bool_decide_false by exact Hne. reflexivity.
  - destruct (bool_decide (k = key')); [reflexivity | exact IH].
Qed.

Lemma started_in_filter pending key key' :
  started_in (List.filter (fun kv => neqb kv.1 key) pending) key'
  = if eqb key key' then None else started_in pending key'.
Proof.
  unfold started_in. induction pending as [| [k v] pending IH]; simpl.
  - destruct (bool_decide (key = key')); reflexivity.
  - destruct (decide (k = key)) as [-> | Hk].
    + rewrite (bool_decide_true (key = key)) by reflexivity. simpl. rewrite IH.
      destruct (bool_decide (key = key')) eqn:He; [reflexivity |]. reflexivity.
    + rewrite (bool_decide_false (k = key)) by exact Hk. simpl.
      destruct (decide (k = key')) as [-> | Hk'].
      * rewrite (bool_decide_true (key' = key')) by reflexivity.
        rewrite bool_decide_false by congruence. reflexivity.
      * rewrite (bool_decide_false (k = key')) by exact Hk'. exact IH.
Qed.

(** [pending] is what the events so far leave open. *)
Definition log_state (l : list AgentLogEvent) (pending : Pending) : Prop :=
  log_paired l /\ forall key s, started_in pending key = Some s <-> open_in l key s.

Lemma log_event_state l pending e pending' :
  log_state l pending -> log_event pending e = Ok pending' -> log_state (l ++ [e]) pending'.
Proof.
  intros [Hl Hp] He. unfold log_event in He.
  destruct (ev_event_type e) as [phase | phase | | | | | |] eqn:Ht.
  3-8: injection He as <-; split; [apply log_paired_snoc; [exact Hl | split; intros key; unfold starts, finishes; rewrite Ht; discriminate] |];
    intros key s; rewrite Hp, open_in_snoc; unfold touches, starts at 1 2, finishes; rewrite Ht;
    split; [right; split; [assumption | intros [? | ?]; discriminate] | intros [[? _] | [? _]]; [discriminate | assumption]].
  - apply raise_if_Ok in He. destruct He as [Hn He]. injection He as <-.
    destruct (started_in pending (phase, ev_action_id e)) eqn:Hs; [discriminate Hn |].
    assert (Hst : starts e = Some (phase, ev_action_id e)) by (unfold starts; rewrite Ht; reflexivity).
    assert (Hfi : finishes e = None) by (unfold finishes; rewrite Ht; reflexivity). split.
    + apply log_paired_snoc; [exact Hl |]. split; [| intros key; rewrite Hfi; discriminate].
      intros key s Hk Ho. rewrite Hst in Hk. injection Hk as <-. apply Hp in Ho. congruence.
    + intros key s. rewrite open_in_snoc, started_in_app, <- Hp. unfold touches. rewrite Hst, Hfi.
      destruct (decide ((phase, ev_action_id e) = key)) as [<- | Hne].
      * rewrite Hs, bool_decide_true by reflexivity. split; [intros [= <-]; auto | intros [[_ ->] | [Ho _]]; congruence].
      * rewrite bool_decide_false by exact Hne. destruct (started_in pending key); split; try congruence.
        -- intros Ho. right. split; [exact Ho |]. intros [? | ?]; congruence.
        -- intros [[? _] | [Ho _]]; congruence.
        -- intros [[? _] | [Ho _]]; congruence.
  - assert (Hst : starts e = None) by (unfold starts; rewrite Ht; reflexivity).
    assert (Hfi : finishes e = Some (phase, ev_action_id e)) by (unfold finishes; rewrite Ht; reflexivity).
    destruct (started_in pending (phase, ev_action_id e)) as [s |] eqn:Hs; [| discriminate].
    apply raise_if_Ok in He. destruct He as [H1 He]. apply raise_if_Ok in He. destruct He as [H2 He].
    apply raise_if_Ok in He. destruct He as [H3 He]. injection He as <-. split.
    + apply log_paired_snoc; [exact Hl |]. split; [intros key x Hk; rewrite Hst in Hk; discriminate |].
      intros key Hk. rewrite Hfi in Hk. injection Hk as <-. exists s. split; [apply Hp, Hs |].
      split; [lia |]. apply andb_false_iff in H2, H3. split; intros Hph; simpl in Hph.
      * destruct H2 as [H2 | H2]; [| apply negb_false_iff, bool_decide_eq_true in H2; exact H2].
        exfalso. destruct Hph as [-> | ->]; discriminate H2.
      * destruct H3 as [H3 | H3]; [| apply negb_false_iff, bool_decide_eq_true in H3; exact H3].
        rewrite Hph in H3. discriminate H3.
    + intros key x. rewrite open_in_snoc, started_in_filter, <- Hp. unfold touches. rewrite Hst, Hfi.
      destruct (decide ((phase, ev_action_id e) = key)) as [<- | Hne].
      * rewrite bool_decide_true by reflexivity.
        split; [discriminate | intros [[? _] | [_ Hn]]; [discriminate | exfalso; apply Hn; auto]].
      * rewrite bool_decide_false by exact Hne. split.
        -- intros Ho. right. split; [exact Ho |]. intros [? | ?]; congruence.
        -- intros [[? _] | [Ho _]]; [discriminate | exact Ho].
Qed.

Lemma log_events_state rest l pending pending' :
  log_state l pending -> fold_result log_event pending rest = Ok pending' ->
  log_state (l ++ rest) pending'.
Proof.
  revert l pending. induction rest as [| e rest IH]; intros l pending Hl Hf; simpl in Hf.
  - injection Hf as <-. rewrite app_nil_r. exact Hl.
  - call Hf as p He. rewrite cons_middle, app_assoc. exact (IH _ _ (log_event_state _ _ _ _ Hl He) Hf).
Qed.

Lemma event_sequence_paired log : event_sequence log = Ok tt -> log_paired (al_events log).
Proof.
  unfold event_sequence. intros Hs. call Hs as [] _. apply raise_if_Ok in Hs. destruct Hs as [_ Hs].
  call Hs as pending Hp. apply (log_events_state (al_events log) [] [] pending); [| exact Hp].
  split; [intros j e He; discriminate |]. intros key s. split; [discriminate |].
  intros (i & Hi & _). discriminate.
Qed.

(** C9. A log pairs what it starts and finishes: in an accepted log events are
    numbered 1, 2, ... and named apart; an action is never started while it is
    open; and every event that finishes one has an open start before it, not
    later in time, and for a command or an execution of the proof of concept with
    the same command, tool request, environment, recipe and candidate. *)
Theorem log_events_paired log :
  event_sequence log = Ok tt ->
  log_paired (al_events log)
  /\ NoDup (map ev_event_id (al_events log))
  /\ forall i e, al_events log !! i = Some e -> ev_sequence e = Z.of_nat i + 1.
Proof.
  intros Hs. split; [exact (event_sequence_paired _ Hs) |]. unfold event_sequence in Hs.
  call Hs as [] Hu. apply raise_if_Ok in Hs. destruct Hs as [Hn _].
  apply negb_false_iff, bool_decide_eq_true in Hn. split; [exact (unique_values_NoDup _ Hu) |].
  intros i e Hi. assert (Hm : map ev_sequence (al_events log) !! i = Some (ev_sequence e))
    by (rewrite list_lookup_fmap, Hi; reflexivity).
  rewrite Hn in Hm. apply lookup_seqZ in Hm. lia.
Qed.

Lemma log_revision_Ok p c :
  validate_log_revision p c = Ok tt ->
  al_events p `prefix_of` al_events c /\ (length (al_events p) < length (al_events c))%nat
  /\ al_request_ref p = al_request_ref c
  /\ rm_attempt_id (al_meta p) = rm_attempt_id (al_meta c)
  /\ logical_record_id (al_meta p) = logical_record_id (al_meta c)
  /\ revision_number (al_meta c) = revision_number (al_meta p) + 1.
Proof.
  unfold validate_log_revision. intros Hv. call Hv as [] Hr. call Hv as [] Ha. apply raise_if_Ok in Hv.
  destruct Hv as [Hv _]. apply orb_false_iff in Hv. destruct Hv as [Hv Ht]. apply orb_false_iff in Hv.
  destruct Hv as [Hq Hl]. apply negb_false_iff, bool_decide_eq_true in Hq, Ht. apply Nat.leb_gt in Hl.
  unfold same_attempt_scope in Ha. apply raise_if_Ok in Ha. destruct Ha as [Ha _].
  apply negb_false_iff, bool_decide_eq_true in Ha. injection Ha as _ _ _ _ Ha.
  apply validate_revision_Ok in Hr.
  split; [| split; [exact Hl |]].
  - exists (drop (length (al_events p)) (al_events c)). rewrite <- Ht at 1. symmetry. apply take_drop.
  - simpl in Hr. intuition congruence.
Qed.

(** A log only grows: through any chain of accepted revisions every event
    stays where it is, each revision adds at least one, and all are of one
    attempt, request and logical record, numbered consecutively. *)
Theorem log_append_only first last n :
  nsteps (fun p c => validate_log_revision p c = Ok tt) n first last ->
  al_events first `prefix_of` al_events last
  /\ (length (al_events first) + n <= length (al_events last))%nat
  /\ al_request_ref first = al_request_ref last
  /\ rm_attempt_id (al_meta first) = rm_attempt_id (al_meta last)
  /\ logical_record_id (al_meta first) = logical_record_id (al_meta last)
  /\ revision_number (al_meta last) = revision_number (al_meta first) + Z.of_nat n.
Proof.
  induction 1 as [log | n x y z Hxy _ IH].
  - split; [reflexivity |]. repeat split; lia.
  - apply log_revision_Ok in Hxy. destruct Hxy as (A1 & A2 & A3 & A4 & A5 & A6).
    destruct IH as (B1 & B2 & B3 & B4 & B5 & B6). split; [etrans; eassumption |].
    repeat split; try lia; congruence.
Qed.
