(* ===== verification/Execution.v ===== *)
(** * The closure of a reproduction ([contracts/dynamic.py])

    How a dynamic result is bound to everything it claims: its environment and
    the requirements checked there, the boundary decision, every command of the
    log, the execution of the proof of concept, its evidence and its cleanup. *)
From S2P Require Import Prelude Records CanonicalJson Text Store Lineage Work Processes Actions.
From S2P Require Import Budget Runtime Registry Authority Outputs Evidence Verdicts Policy Gates.
From S2P Require Import Traversal Findings Reproduction.

(** [same_scope] with both flags *)
Definition same_scope_with (hypothesis attempt : bool) (left right : RunMeta) : result unit :=
  raise_if neqb (code_scope_names left) (code_scope_names right)
           || hypothesis && neqb (rm_hypothesis_id left) (rm_hypothesis_id right)
           || attempt && neqb (rm_attempt_id left) (rm_attempt_id right)
    with "RECORD_SCOPE_MISMATCH" ;;
  Ok tt.

(** ** Environments *)

(** The text [_VERSION_TOKEN] matches first: a run of ASCII digits and up to three
    more, each after a period. *)
Fixpoint digits_of (s : string) : string * string :=
  match s with
  | String c s' =>
      if ascii_digit c then let '(d, rest) := digits_of s' in (String c d, rest) else ("", s)
  | EmptyString => ("", "")
  end.
Fixpoint dotted (more : nat) (s : string) : string :=
  match more, s with
  | S more, String c s' =>
      if Ascii.eqb c (code_char 46) then
        let '(d, rest) := digits_of s' in
        if eqb d "" then "" else String c (d +:+ dotted more rest)
      else ""
  | _, _ => ""
  end.
Fixpoint version_token (s : string) : option string :=
  match s with
  | EmptyString => None
  | String c s' =>
      if ascii_digit c then let '(d, rest) := digits_of s in Some (d +:+ dotted 3 rest)
      else version_token s'
  end.

(** [d[k]] of a dict built by a comprehension: of two items with one key the later
    is read. *)
Definition last_of {A} (key : A -> string) (l : list A) (k : string) : option A :=
  find (fun x => eqb (key x) k) (rev l).

Definition check_of (e : SandboxEnvironment) (r : EnvironmentRequirement) : option EnvironmentCheck :=
  last_of ek_requirement_id (se_checks e) (eq_requirement_id r).

(** [expected] *)
Definition expected_status (required : list EnvironmentCheck) : EnvironmentStatus :=
  if existsb (fun c => eqb (ek_status c) EC_ERROR) required then EV_ERROR
  else if existsb (fun c => neqb (ek_status c) EC_MATCH) required then EV_MISMATCH
  else EV_READY.

(** The version of a matching check is an allowed one, and a difference from the
    expected one is stated. *)
Definition allowed_versions (r : EnvironmentRequirement) : list string :=
  omap version_token (option_list (eq_expected r) ++ eq_alternatives r).
Definition version_allowed (actual version : string) : bool :=
  eqb actual version || starts_with (version +:+ ".") actual.
Definition check_version (r : EnvironmentRequirement) (c : EnvironmentCheck) : result unit :=
  match ek_actual c with
  | Some actual =>
      if eqb (eq_kind r) NK_VERSION && eqb (ek_status c) EC_MATCH then
        raise_if negb (existsb (version_allowed actual) (allowed_versions r))
          with "ENVIRONMENT_VERSION_MISMATCH" ;;
        raise_if neqb (Some actual) (eq_expected r ≫= version_token)
                 && match ek_difference c with None | Some EmptyString => true | _ => false end
          with "ENVIRONMENT_DIFFERENCE_REQUIRED" ;;
        Ok tt
      else Ok tt
  | None => Ok tt
  end.

(** [checks[item.requirement_id]] *)
Definition required_check (e : SandboxEnvironment) (r : EnvironmentRequirement) : result EnvironmentCheck :=
  match check_of e r with Some c => Ok c | None => Err KeyError end.

Section closure.
Context `{!Dumped DynamicReproductionRequest} `{!Dumped DynamicReproductionResult} `{!Dumped PoCBundle}.
Context `{!Dumped EnvironmentRequirements} `{!Dumped ReproductionPlan} `{!Dumped EnvironmentRecipe}.
Context `{!Dumped SandboxEnvironment} `{!Dumped SandboxPolicyDecision} `{!Dumped AgentLog}.
Context `{!Dumped SandboxCommandRecord} `{!Dumped DynamicReproductionToolRequest}.
Context `{!Dumped PoCCandidate} `{!Dumped DynamicReproductionConclusion} `{!Dumped CleanupResult}.

(** One record of the attempt: exact, of this attempt and of this request. *)
Definition bound {A} `{Dumped A} (meta : RunMeta) (request_ref ref : StoredDataRef) (target_meta : RunMeta)
  (target_request : StoredDataRef) (target : A) : result unit :=
  do! exact (RStored ref) target_meta target meta ;;
  do! same_attempt_scope meta target_meta ;;
  raise_if neqb target_request request_ref with "DYNAMIC_REQUEST_MISMATCH" ;;
  Ok tt.

(** [validate_environment] *)
Definition validate_environment (environment : SandboxEnvironment) (requirements : EnvironmentRequirements)
  (plan : ReproductionPlan) (recipe : EnvironmentRecipe) : result unit :=
  let meta := se_meta environment in
  let request := se_request_ref environment in
  do! bound meta request (se_requirements_ref environment) (er_items_meta requirements)
        (er_items_request_ref requirements) requirements ;;
  do! bound meta request (se_reproduction_plan_ref environment) (pn_meta plan) (pn_request_ref plan) plan ;;
  do! bound meta request (se_environment_recipe_ref environment) (rc_meta recipe) (rc_request_ref recipe)
        recipe ;;
  raise_if neqb (pn_environment_requirements_ref plan) (se_requirements_ref environment)
           || neqb (rc_environment_requirements_ref recipe) (se_requirements_ref environment)
    with "ENVIRONMENT_REQUIREMENTS_MISMATCH" ;;
  do! exact_values (map ek_requirement_id (se_checks environment))
        (map eq_requirement_id (er_items requirements)) ;;
  let! required := map_result (required_check environment)
                     (List.filter eq_required (er_items requirements)) in
  raise_if neqb (se_status environment) (expected_status required) with "ENVIRONMENT_STATUS_MISMATCH" ;;
  for_each (fun r => let! c := required_check environment r in check_version r c) (er_items requirements).

(** [bindings], the given ones or each need its own requirement *)
Definition bindings_of (request : DynamicReproductionRequest)
  (need_bindings : option (list (string * list string))) : list (string * list string) :=
  match need_bindings with
  | Some b => b
  | None => map (fun n => (en_need_id n, [en_need_id n])) (dq_environment_needs request)
  end.

(** One requirement bound to a need. *)
Definition covers (requirements : EnvironmentRequirements) (need : EnvironmentNeed) (id : string)
  : result unit :=
  raise_if match last_of eq_requirement_id (er_items requirements) id with
           | None => true
           | Some item =>
               neqb (eq_kind item) (en_kind need) || en_required need && negb (eq_required item)
               || negb (forallb (fun r => mem r (eq_source_refs item)) (en_source_refs need))
           end
    with "ENVIRONMENT_NEED_COVERAGE" ;;
  Ok tt.

(** [validate_environment_requirements] *)
Definition validate_environment_requirements (request : DynamicReproductionRequest)
  (requirements : EnvironmentRequirements) (need_bindings : option (list (string * list string)))
  : result unit :=
  do! exact (RStored (er_items_request_ref requirements)) (dq_meta request) request
        (er_items_meta requirements) ;;
  do! same_scope (MRun (dq_meta request)) (MRun (er_items_meta requirements)) ;;
  let bindings := bindings_of request need_bindings in
  raise_if negb (same_set (map fst bindings) (map en_need_id (dq_environment_needs request)))
    with "ENVIRONMENT_NEED_COVERAGE" ;;
  for_each (fun need =>
      match last_of fst bindings (en_need_id need) with
      | None => Err KeyError
      | Some (_, ids) =>
          raise_if negb (nonempty ids) || has_duplicates ids with "ENVIRONMENT_NEED_COVERAGE" ;;
          for_each (covers requirements need) ids
      end) (dq_environment_needs request).

(** ** Commands *)

(** The exact records an event of a command names. *)
Definition exact_named {A} `{Dumped A} (consumer : RunMeta) (ref : option StoredDataRef) (meta : RunMeta)
  (target : A) : result unit :=
  match ref with
  | None => Err (ValueError "COMMAND_CLOSURE_MISSING")
  | Some ref => exact (RStored ref) meta target consumer
  end.
Definition event_records (command : SandboxCommandRecord) (tool : DynamicReproductionToolRequest)
  (environment : SandboxEnvironment) (recipe : EnvironmentRecipe) (event : AgentLogEvent) : result unit :=
  let meta := cr_meta command in
  do! exact_named meta (ev_command_ref event) meta command ;;
  do! exact_named meta (ev_tool_request_ref event) (tr_meta tool) tool ;;
  do! exact_named meta (ev_environment_ref event) (se_meta environment) environment ;;
  do! exact_named meta (ev_environment_recipe_ref event) (rc_meta recipe) recipe ;;
  raise_if neqb (ev_command_digest event, ev_redaction_status event)
                (Some (cr_command_digest command), Some (cr_redaction_status command))
    with "COMMAND_CONTENT_MISMATCH" ;;
  Ok tt.

(** A record of the attempt and request of a command. *)
Definition command_sibling (command : SandboxCommandRecord) (meta : RunMeta) (request_ref : StoredDataRef)
  : result unit :=
  do! same_attempt_scope (cr_meta command) meta ;;
  raise_if neqb request_ref (cr_request_ref command) with "DYNAMIC_REQUEST_MISMATCH" ;;
  Ok tt.

(** [validate_command_closure] *)
Definition validate_command_closure (start : AgentLogEvent) (finish : option AgentLogEvent)
  (tool : DynamicReproductionToolRequest) (command : SandboxCommandRecord)
  (request : DynamicReproductionRequest) (plan : ReproductionPlan) (environment : SandboxEnvironment)
  (recipe : EnvironmentRecipe) (require_completion : bool) : result unit :=
  let meta := cr_meta command in
  raise_if is_none finish && require_completion with "COMMAND_CLOSURE_MISSING" ;;
  raise_if neqb (ev_event_type start) (STARTED PH_COMMAND)
           || neqb (ev_action_id start) (cr_action_id command)
           || match finish with
              | Some f =>
                  neqb (ev_event_type f) (FINISHED PH_COMMAND)
                  || neqb (ev_action_id start) (ev_action_id f)
                  || (ev_sequence f <=? ev_sequence start) || (ev_occurred_at f <? ev_occurred_at start)
              | None => false
              end
    with "COMMAND_ACTION_MISMATCH" ;;
  do! for_each (event_records command tool environment recipe) (start :: option_list finish) ;;
  do! command_sibling command (tr_meta tool) (tr_request_ref tool) ;;
  do! command_sibling command (pn_meta plan) (pn_request_ref plan) ;;
  do! command_sibling command (se_meta environment) (se_request_ref environment) ;;
  do! command_sibling command (rc_meta recipe) (rc_request_ref recipe) ;;
  do! exact (RStored (cr_request_ref command)) (dq_meta request) request meta ;;
  do! same_scope (MRun meta) (MRun (dq_meta request)) ;;
  do! exact (RStored (cr_tool_request_ref command)) (tr_meta tool) tool meta ;;
  do! exact (RStored (cr_reproduction_plan_ref command)) (pn_meta plan) plan meta ;;
  do! exact (RStored (cr_environment_ref command)) (se_meta environment) environment meta ;;
  do! exact (RStored (cr_environment_recipe_ref command)) (rc_meta recipe) recipe meta ;;
  raise_if neqb (tr_action tool) RUN_COMMAND || neqb (se_status environment) EV_READY
           || neqb (tr_environment_ref tool) (cr_environment_ref command)
           || neqb (tr_reproduction_plan_ref tool) (cr_reproduction_plan_ref command)
           || neqb (se_environment_recipe_ref environment) (cr_environment_recipe_ref command)
           || neqb (se_reproduction_plan_ref environment) (cr_reproduction_plan_ref command)
    with "COMMAND_PROVENANCE_MISMATCH" ;;
  match tr_command tool with
  | None => Err (ValueError "COMMAND_CONTENT_MISMATCH")
  | Some c =>
      let! requested := content_hash [] (dump c) in
      let! executed := fields_hash command in
      raise_if neqb requested executed with "COMMAND_CONTENT_MISMATCH" ;;
      Ok tt
  end.

(** The records of a tuple a reference names. *)
Definition named {A} (meta : A -> RunMeta) (ref : option StoredDataRef) (records : list A) : list A :=
  match ref with
  | None => []
  | Some ref => List.filter (fun r => eqb (Some (record_id (meta r))) (sd_record_id ref)) records
  end.

(** What [validate_dynamic_closure] is given besides the result, its request and
    its log. *)
Context {D : Type} `{!AnyRecord D}.
Record ClosureInputs := mkInputs {
  in_generation : Z;
  in_plan : option ReproductionPlan;
  in_recipe : option EnvironmentRecipe;
  in_environment : option SandboxEnvironment;
  in_candidate : option PoCCandidate;
  in_poc : option PoCBundle;
  in_conclusion : option DynamicReproductionConclusion;
  in_policy : option SandboxPolicyDecision;
  in_cleanup : option CleanupResult;
  in_resolved_evidence : gmap string D;
  in_command_records : list SandboxCommandRecord;
  in_tool_requests : list DynamicReproductionToolRequest;
  in_attempt_environments : list SandboxEnvironment;
  in_attempt_recipes : list EnvironmentRecipe;
  in_requirements : option EnvironmentRequirements;
  in_need_bindings : option (list (string * list string));
  in_attempt_resource_refs : list StoredDataRef;
}.

Definition finishes_of (events : list AgentLogEvent) (start : AgentLogEvent) : list AgentLogEvent :=
  List.filter (fun e => eqb (ev_event_type e) (FINISHED PH_COMMAND)
                        && eqb (ev_action_id e) (ev_action_id start)) events.

(** One command of [validate_command_log] *)
Definition logged_command (events : list AgentLogEvent) (request : DynamicReproductionRequest)
  (plan : option ReproductionPlan) (command_records : list SandboxCommandRecord)
  (tool_requests : list DynamicReproductionToolRequest) (environments : list SandboxEnvironment)
  (recipes : list EnvironmentRecipe) (require_completion : bool) (start : AgentLogEvent) : result unit :=
  match plan, named cr_meta (ev_command_ref start) command_records,
        named tr_meta (ev_tool_request_ref start) tool_requests,
        named se_meta (ev_environment_ref start) environments,
        named rc_meta (ev_environment_recipe_ref start) recipes with
  | Some plan, [record], [tool], [environment], [recipe] =>
      match finishes_of events start with
      | [] =>
          raise_if require_completion with "COMMAND_CLOSURE_MISSING" ;;
          validate_command_closure start None tool record request plan environment recipe require_completion
      | [finish] =>
          validate_command_closure start (Some finish) tool record request plan environment recipe
            require_completion
      | _ => Err (ValueError "COMMAND_CLOSURE_MISSING")
      end
  | _, _, _, _, _ => Err (ValueError "COMMAND_CLOSURE_MISSING")
  end.

(** [validate_command_log] *)
Definition validate_command_log (log : AgentLog) (request : DynamicReproductionRequest)
  (plan : option ReproductionPlan) (command_records : list SandboxCommandRecord)
  (tool_requests : list DynamicReproductionToolRequest) (environments : list SandboxEnvironment)
  (recipes : list EnvironmentRecipe) (require_completion : bool) : result unit :=
  for_each (logged_command (al_events log) request plan command_records tool_requests environments recipes
              require_completion)
    (List.filter (fun e => eqb (ev_event_type e) (STARTED PH_COMMAND)) (al_events log)).

(** ** Bindings *)

(** [validate_poc_candidate] *)
Definition validate_poc_candidate (poc : PoCBundle) (candidate : PoCCandidate) : result unit :=
  do! exact (RStored (poc_candidate_ref poc)) (pk_meta candidate) candidate (poc_meta poc) ;;
  do! same_attempt_scope (poc_meta poc) (pk_meta candidate) ;;
  raise_if neqb (poc_candidate_digest poc) (pk_content_digest candidate)
    with "POC_CANDIDATE_DIGEST_MISMATCH" ;;
  raise_if neqb (poc_request_ref poc) (pk_request_ref candidate)
           || neqb (poc_reproduction_plan_ref poc) (pk_reproduction_plan_ref candidate)
    with "POC_PROVENANCE_MISMATCH" ;;
  Ok tt.

(** [validate_boundary_binding] *)
Definition validate_boundary_binding (result : DynamicReproductionResult)
  (request : DynamicReproductionRequest) (log : AgentLog) (policy : SandboxPolicyDecision)
  : Prelude.result unit :=
  raise_if neqb (Some (bd_action_decision_ref policy)) (dyn_action_decision_ref result)
           || neqb (bd_sandbox_profile_ref policy) (dq_sandbox_profile_ref request)
    with "SANDBOX_POLICY_BINDING_MISMATCH" ;;
  raise_if dyn_agent_invoked result && negb (bd_allow policy)
           || eqb (dyn_failure_category result) FC_POLICY_BLOCKED && bd_allow policy
    with "SANDBOX_POLICY_DECISION_MISMATCH" ;;
  raise_if negb (existsb (fun e =>
               mem (ev_event_type e) [STARTED PH_SESSION; SANDBOX_RECREATE_REQUESTED; POLICY_BLOCKED_EVENT]
               && mem (dyn_policy_decision_ref result) (map Some (ev_input_refs e))) (al_events log))
    with "SANDBOX_POLICY_LOG_MISMATCH" ;;
  Ok tt.

(** [validate_conclusion_binding] *)
Definition validate_conclusion_binding (result : DynamicReproductionResult)
  (conclusion : DynamicReproductionConclusion) : Prelude.result unit :=
  raise_if neqb (Some (dc_reproduction_plan_ref conclusion)) (dyn_reproduction_plan_ref result)
           || neqb (Some (dc_environment_ref conclusion)) (dyn_environment_ref result)
           || neqb (dc_poc_candidate_ref conclusion) (dyn_poc_candidate_ref result)
    with "DYNAMIC_CONCLUSION_ARTIFACT_MISMATCH" ;;
  raise_if neqb (dyn_hypothesis_outcome result, dyn_hypothesis_linkage result, dyn_limitations result)
                (dc_proposed_outcome conclusion, dc_hypothesis_linkage conclusion, dc_limitations conclusion)
    with "DYNAMIC_CONCLUSION_DRIFT" ;;
  do! exact_values (dyn_hypothesis_evidence_refs result) (dc_hypothesis_evidence_refs conclusion) ;;
  exact_values (dyn_observation_refs result) (dc_observation_refs conclusion).

(** ** Cleanup *)

(** The environments the log and the result name. *)
Definition used_environments (result : DynamicReproductionResult) (log : AgentLog) : list StoredDataRef :=
  omap ev_environment_ref (al_events log) ++ option_list (dyn_environment_ref result).

(** One environment of a cleanup. *)
Definition cleaned (result : DynamicReproductionResult) (environments : list SandboxEnvironment)
  (reference : StoredDataRef) : Prelude.result unit :=
  match named se_meta (Some reference) environments with
  | [target] =>
      bound (dyn_meta result) (dyn_request_ref result) reference (se_meta target) (se_request_ref target)
        target
  | _ => Err (ValueError "CLEANUP_ENVIRONMENT_UNRESOLVED")
  end.

(** [validate_cleanup_coverage] *)
Definition validate_cleanup_coverage (result : DynamicReproductionResult) (log : AgentLog)
  (cleanup : option CleanupResult) (environments : list SandboxEnvironment)
  (resources : list StoredDataRef) : Prelude.result unit :=
  let refs := used_environments result log in
  raise_if (nonempty refs || nonempty environments || nonempty resources)
           && (negb (dyn_cleanup_required result) || is_none cleanup)
    with "CLEANUP_COVERAGE_MISMATCH" ;;
  match cleanup with
  | None => Ok tt
  | Some cleanup =>
      raise_if negb (forallb (fun r => mem r (cn_environment_refs cleanup)) refs)
               || negb (same_set (map sd_record_id (cn_environment_refs cleanup))
                          (map (fun e => Some (record_id (se_meta e))) environments))
               || negb (same_set (cn_resource_refs cleanup) resources)
        with "CLEANUP_COVERAGE_MISMATCH" ;;
      do! unique_values (cn_environment_refs cleanup) ;;
      do! unique_values (cn_resource_refs cleanup) ;;
      for_each (cleaned result environments) (cn_environment_refs cleanup)
  end.

(** ** The proof of concept *)

(** What follows from a reference of the evidence of an execution. The dict of the
    resolved records is keyed here by the canonical encoding of a reference. *)
Definition execution_edges (meta : RunMeta) (resolved : gmap string D) (ref : StoredDataRef)
  : result (list StoredDataRef) :=
  match sd_record_id ref with
  | None => Ok []
  | Some _ =>
      match resolved !! _key ref with
      | None => Err (ValueError "POC_EXECUTION_EVIDENCE_MISMATCH")
      | Some target =>
          do! exact (RStored ref) (any_meta target) target meta ;;
          do! same_scope_with (is_some (rm_hypothesis_id (any_meta target))) (any_dynamic target) meta
                (any_meta target) ;;
          Ok (any_evidence_refs target)
      end
  end.

(** The references of all resolved records, and the roots: enough fuel. *)
Definition execution_fuel (roots : list StoredDataRef) (resolved : gmap string D) : nat :=
  S (length roots + sum_list_with (fun kv => length (any_evidence_refs kv.2)) (map_to_list resolved)).

(** The evidence of [roots] reaches an output of the execution. *)
Definition rests_on (meta : RunMeta) (resolved : gmap string D) (outputs roots : list StoredDataRef)
  : result unit :=
  match follow (execution_edges meta resolved) (execution_fuel roots resolved) [] (rev roots) with
  | None => Err AssertionError
  | Some (Err e) => Err e
  | Some (Ok seen) =>
      raise_if negb (existsb (fun r => mem r outputs) seen) with "POC_EXECUTION_EVIDENCE_MISMATCH" ;;
      Ok tt
  end.

(** The command event that finished with an execution. *)
Definition same_execution (execution event : AgentLogEvent) : bool :=
  eqb (ev_event_type event) (FINISHED PH_COMMAND) && eqb (ev_action_id event) (ev_action_id execution)
  && eqb (provenance event) (provenance execution)
  && eqb (ev_redaction_status event) (ev_redaction_status execution).

Definition executed_candidate (result : DynamicReproductionResult) (candidate : PoCCandidate)
  (execution : AgentLogEvent) : Prelude.result unit :=
  match ev_poc_candidate_ref execution with
  | None => Err (ValueError "POC_CANDIDATE_CONTENT_MISMATCH")
  | Some ref => exact (RStored ref) (pk_meta candidate) candidate (dyn_meta result)
  end.

(** [validate_execution_support] *)
Definition validate_execution_support (result : DynamicReproductionResult) (poc : PoCBundle)
  (candidate : PoCCandidate) (execution : AgentLogEvent) (log : AgentLog)
  (command_records : list SandboxCommandRecord) (resolved : gmap string D) : Prelude.result unit :=
  raise_if neqb (ev_environment_ref execution, ev_environment_recipe_ref execution)
                (dyn_environment_ref result, dyn_environment_recipe_ref result)
    with "POC_EXECUTION_ENVIRONMENT_MISMATCH" ;;
  do! value_error_as "POC_CANDIDATE_CONTENT_MISMATCH" (executed_candidate result candidate execution) ;;
  raise_if neqb (ev_input_refs execution) [pk_content_ref candidate]
    with "POC_CANDIDATE_CONTENT_MISMATCH" ;;
  let commands := List.filter (same_execution execution) (al_events log) in
  raise_if neqb (ev_timed_out execution) (Some false)
           || existsb (fun c => neqb (ev_timed_out c) (Some false)) commands
           || negb (length commands =? 1)%nat
           || match named cr_meta (ev_command_ref execution) command_records with
              | [record] => negb (is_poc_execution_command record)
              | _ => true
              end
    with "POC_EXECUTION_COMMAND_MISMATCH" ;;
  raise_if negb (nonempty (ev_output_refs execution)) with "POC_EXECUTION_EVIDENCE_MISMATCH" ;;
  for_each (rests_on (dyn_meta result) resolved (ev_output_refs execution))
    [poc_evidence_refs poc; dyn_hypothesis_evidence_refs result].

(** The finished executions a proof of concept names. *)
Definition executions_of (poc : PoCBundle) (log : AgentLog) : list AgentLogEvent :=
  List.filter (fun e => eqb (ev_event_type e) (FINISHED PH_POC_EXECUTION)
                        && eqb (ev_action_id e) (poc_execution_action_id poc)
                        && eqb (ev_poc_candidate_ref e) (Some (poc_candidate_ref poc))
                        && eqb (ev_exit_code e) (Some 0)) (al_events log).

(** The proof of concept of a result. *)
Definition supported_poc (result : DynamicReproductionResult) (log : AgentLog) (i : ClosureInputs)
  (poc : PoCBundle) : Prelude.result unit :=
  match in_candidate i with
  | None => Err (ValueError "POC_CANDIDATE_REQUIRED")
  | Some candidate =>
      do! validate_poc_candidate poc candidate ;;
      raise_if neqb (poc_request_ref poc) (dyn_request_ref result)
               || neqb (Some (poc_reproduction_plan_ref poc)) (dyn_reproduction_plan_ref result)
               || neqb (Some (poc_environment_recipe_ref poc)) (dyn_environment_recipe_ref result)
               || neqb (Some (poc_environment_ref poc)) (dyn_environment_ref result)
               || neqb (poc_agent_log_ref poc) (dyn_agent_log_ref result)
        with "POC_PROVENANCE_MISMATCH" ;;
      raise_if neqb (Some (poc_candidate_ref poc)) (dyn_poc_candidate_ref result)
               || neqb (poc_candidate_digest poc) (pk_content_digest candidate)
        with "POC_CANDIDATE_MISMATCH" ;;
      match executions_of poc log with
      | [execution] =>
          raise_if negb (nonempty (poc_evidence_refs poc)) with "POC_EXECUTION_REQUIRED" ;;
          validate_execution_support result poc candidate execution log (in_command_records i)
            (in_resolved_evidence i)
      | _ => Err (ValueError "POC_EXECUTION_REQUIRED")
      end
  end.

(** ** The closure *)

(** One of the [pairs]. *)
Definition closed_pair {A} `{Dumped A} (result : DynamicReproductionResult) (meta_of : A -> RunMeta)
  (request_of : A -> StoredDataRef) (ref : option StoredDataRef) (target : option A) : Prelude.result unit :=
  match ref, target with
  | Some ref, Some target =>
      bound (dyn_meta result) (dyn_request_ref result) ref (meta_of target) (request_of target) target
  | None, None => Ok tt
  | _, _ => Err (ValueError "DYNAMIC_CLOSURE_MISSING")
  end.

(** The plan of a result. *)
Definition closed_plan (result : DynamicReproductionResult) (request : DynamicReproductionRequest)
  (i : ClosureInputs) (plan : ReproductionPlan) : Prelude.result unit :=
  match in_requirements i with
  | None => Err (ValueError "ENVIRONMENT_REQUIREMENTS_MISSING")
  | Some requirements =>
      do! exact (RStored (pn_environment_requirements_ref plan)) (er_items_meta requirements) requirements
            (dyn_meta result) ;;
      do! same_attempt_scope (dyn_meta result) (er_items_meta requirements) ;;
      do! validate_environment_requirements request requirements (in_need_bindings i) ;;
      match in_environment i, in_recipe i with
      | Some environment, Some recipe => validate_environment environment requirements plan recipe
      | _, _ => Ok tt
      end
  end.

Definition environments_of (i : ClosureInputs) : list SandboxEnvironment :=
  in_attempt_environments i ++ option_list (in_environment i).
Definition recipes_of (i : ClosureInputs) : list EnvironmentRecipe :=
  in_attempt_recipes i ++ option_list (in_recipe i).

(** [if x is not None: f(x)] *)
Definition if_some {A} (o : option A) (f : A -> result unit) : result unit :=
  match o with Some x => f x | None => Ok tt end.

(** [validate_dynamic_closure] *)
Definition validate_dynamic_closure (result : DynamicReproductionResult)
  (request : DynamicReproductionRequest) (log : AgentLog) (i : ClosureInputs) : Prelude.result unit :=
  let meta := dyn_meta result in
  do! exact (RStored (dyn_request_ref result)) (dq_meta request) request meta ;;
  do! same_scope (MRun meta) (MRun (dq_meta request)) ;;
  raise_if neqb (dq_verification_generation request) (in_generation i)
           || neqb (dyn_purpose result) (dq_purpose request)
    with "STALE_RESULT" ;;
  do! closed_pair result al_meta al_request_ref (Some (dyn_agent_log_ref result)) (Some log) ;;
  do! closed_pair result pn_meta pn_request_ref (dyn_reproduction_plan_ref result) (in_plan i) ;;
  do! closed_pair result rc_meta rc_request_ref (dyn_environment_recipe_ref result) (in_recipe i) ;;
  do! closed_pair result se_meta se_request_ref (dyn_environment_ref result) (in_environment i) ;;
  do! closed_pair result pk_meta pk_request_ref (dyn_poc_candidate_ref result) (in_candidate i) ;;
  do! closed_pair result poc_meta poc_request_ref (dyn_poc_ref result) (in_poc i) ;;
  do! closed_pair result dc_meta dc_request_ref (dyn_agent_conclusion_ref result) (in_conclusion i) ;;
  do! closed_pair result bd_meta bd_request_ref (dyn_policy_decision_ref result) (in_policy i) ;;
  do! closed_pair result cn_meta cn_request_ref (dyn_cleanup_ref result) (in_cleanup i) ;;
  raise_if neqb (dyn_agent_invoked result)
                (existsb (fun e => eqb (ev_event_type e) (STARTED PH_AGENT)) (al_events log))
    with "AGENT_LOG_INVOCATION_MISMATCH" ;;
  do! if_some (in_plan i) (fun plan =>
        raise_if neqb (pn_purpose plan, pn_hypothesis_ref plan, pn_sandbox_profile_ref plan)
                      (dq_purpose request, dq_hypothesis_ref request, dq_sandbox_profile_ref request)
          with "DYNAMIC_PLAN_REQUEST_MISMATCH" ;;
        Ok tt) ;;
  do! if_some (in_plan i) (closed_plan result request i) ;;
  do! if_some (in_policy i) (validate_boundary_binding result request log) ;;
  do! if_some (in_conclusion i) (validate_conclusion_binding result) ;;
  raise_if is_some (in_candidate i)
           && negb (existsb (fun e =>
                 eqb (ev_poc_candidate_ref e) (dyn_poc_candidate_ref result)
                 && mem (ev_event_type e) [POC_CANDIDATE_CREATED; STARTED PH_POC_EXECUTION]) (al_events log))
    with "CANDIDATE_LOG_REQUIRED" ;;
  do! validate_command_log log request (in_plan i) (in_command_records i) (in_tool_requests i)
        (environments_of i) (recipes_of i)
        (successful result || nonempty (dyn_hypothesis_evidence_refs result)) ;;
  do! if_some (in_poc i) (supported_poc result log i) ;;
  raise_if match in_cleanup i with
           | Some cleanup => neqb (cn_status cleanup) (dyn_cleanup_status result)
           | None => false
           end
    with "CLEANUP_STATUS_MISMATCH" ;;
  validate_cleanup_coverage result log (in_cleanup i) (environments_of i) (in_attempt_resource_refs i).

(** ** What a closure shows *)

Lemma filter_elem {A} (f : A -> bool) (l : list A) x : x ∈ List.filter f l <-> x ∈ l /\ f x = true.
Proof. rewrite !list_elem_of_In. apply filter_In. Qed.

Lemma named_elem {A} (meta : A -> RunMeta) ref (records : list A) x :
  x ∈ named meta (Some ref) records <-> x ∈ records /\ Some (record_id (meta x)) = sd_record_id ref.
Proof. unfold named. rewrite filter_elem, bool_decide_eq_true. reflexivity. Qed.

Lemma named_one {A} (meta : A -> RunMeta) ref (records : list A) x :
  named meta ref records = [x] -> exists r, ref = Some r /\ x ∈ records /\ Some (record_id (meta x)) = sd_record_id r.
Proof.
  intros Hn. destruct ref as [r |]; [| discriminate]. exists r. split; [reflexivity |].
  apply named_elem. rewrite Hn. apply list_elem_of_singleton. reflexivity.
Qed.

(** An exact reference names its record. *)
Lemma exact_record_id {A} `{Dumped A} ref (m : RunMeta) (x : A) consumer :
  exact (RStored ref) m x consumer = Ok tt -> sd_record_id ref = Some (record_id m).
Proof.
  unfold exact, validate_exact_ref. intros He. call He as h _. call He as [] _. call He as [] _.
  call He as [] _. apply raise_if_Ok in He. destruct He as [He _]. unfold revision_mismatch in He.
  apply orb_false_iff in He. destruct He as [He _]. apply negb_false_iff, bool_decide_eq_true in He. exact He.
Qed.

(** A command of the log: asked for by the agent with the very input that ran, in
    an environment that was ready, its records the exact ones the log names. *)
Record requested (i : ClosureInputs) (start : AgentLogEvent) (tool : DynamicReproductionToolRequest)
  (record : SandboxCommandRecord) (environment : SandboxEnvironment) (recipe : EnvironmentRecipe) : Prop := {
  rq_record : record ∈ in_command_records i;
  rq_tool : tool ∈ in_tool_requests i;
  rq_environment : environment ∈ environments_of i;
  rq_recipe : recipe ∈ recipes_of i;
  rq_action : ev_action_id start = cr_action_id record;
  rq_run : tr_action tool = RUN_COMMAND;
  rq_ready : se_status environment = EV_READY;
  rq_same_environment : tr_environment_ref tool = cr_environment_ref record;
  rq_events : event_records record tool environment recipe start = Ok tt;
  rq_input : exists c, tr_command tool = Some c
    /\ exists hash, content_hash [] (dump c) = Ok hash /\ fields_hash record = Ok hash;
}.

Definition finished_after (log : AgentLog) (start : AgentLogEvent) : Prop :=
  exists finish, finish ∈ al_events log /\ ev_event_type finish = FINISHED PH_COMMAND
    /\ ev_action_id finish = ev_action_id start /\ ev_sequence start < ev_sequence finish
    /\ ev_occurred_at start <= ev_occurred_at finish.

Lemma command_closure_Ok i start finish tool record request plan environment recipe complete :
  validate_command_closure start finish tool record request plan environment recipe complete = Ok tt ->
  record ∈ in_command_records i -> tool ∈ in_tool_requests i -> environment ∈ environments_of i ->
  recipe ∈ recipes_of i ->
  requested i start tool record environment recipe
  /\ match finish with
     | None => complete = false
     | Some f => ev_event_type f = FINISHED PH_COMMAND /\ ev_action_id f = ev_action_id start
                 /\ ev_sequence start < ev_sequence f /\ ev_occurred_at start <= ev_occurred_at f
     end.
Proof.
  unfold validate_command_closure. cbv zeta. intros Hv H1 H2 H3 H4.
  apply raise_if_Ok in Hv. destruct Hv as [Hc Hv]. apply raise_if_Ok in Hv. destruct Hv as [Ha Hv].
  call Hv as [] He. do 10 (call Hv as [] _). apply raise_if_Ok in Hv. destruct Hv as [Hp Hv].
  apply orb_false_iff in Ha. destruct Ha as [Ha Hf]. apply for_each_Ok in He. apply Forall_cons in He.
  destruct He as [He _]. split.
  - destruct (tr_command tool) as [c |] eqn:Hcmd; [| discriminate]. call Hv as h1 Hh1. call Hv as h2 Hh2.
    apply raise_if_Ok in Hv. destruct Hv as [Hh _]. clear Hf Hc. boolify. destruct Ha as [_ Ha].
    destruct Hp as [[[[[P1 P2] P3] P4] P5] P6]. split; auto. exists c. split; [exact Hcmd |]. exists h1.
    split; [exact Hh1 | congruence].
  - destruct finish as [f |]; [clear Hc | exact Hc]. clear Ha Hp. apply orb_false_iff in Hf.
    destruct Hf as [Hf H5]. apply orb_false_iff in Hf. destruct Hf as [Hf H6]. boolify.
    destruct Hf as [F1 F2]. repeat split; auto; lia.
Qed.

(** What [validate_command_log] shows of one started command. *)
Lemma command_log_Ok log request i complete start :
  validate_command_log log request (in_plan i) (in_command_records i) (in_tool_requests i)
    (environments_of i) (recipes_of i) complete = Ok tt ->
  start ∈ al_events log -> ev_event_type start = STARTED PH_COMMAND ->
  exists tool record environment recipe,
    requested i start tool record environment recipe
    /\ named cr_meta (ev_command_ref start) (in_command_records i) = [record]
    /\ named se_meta (ev_environment_ref start) (environments_of i) = [environment]
    /\ (complete = true -> finished_after log start).
Proof.
  unfold validate_command_log. intros Hv Hs Ht. apply for_each_Ok in Hv. rewrite Forall_forall in Hv.
  specialize (Hv start ltac:(apply filter_elem; split; [exact Hs | apply bool_decide_eq_true, Ht])).
  unfold logged_command in Hv. destruct (in_plan i) as [plan |]; [| discriminate].
  destruct (named cr_meta _ _) as [| record [| ? ?]] eqn:Hr; try discriminate.
  destruct (named tr_meta _ _) as [| tool [| ? ?]] eqn:Htl; try discriminate.
  destruct (named se_meta _ _) as [| environment [| ? ?]] eqn:He; try discriminate.
  destruct (named rc_meta _ _) as [| recipe [| ? ?]] eqn:Hrc; try discriminate.
  destruct (named_one _ _ _ _ Hr) as (_ & _ & Hr' & _), (named_one _ _ _ _ Htl) as (_ & _ & Htl' & _),
    (named_one _ _ _ _ He) as (_ & _ & He' & _), (named_one _ _ _ _ Hrc) as (_ & _ & Hrc' & _).
  exists tool, record, environment, recipe.
  destruct (finishes_of (al_events log) start) as [| f [| ? ?]] eqn:Hf; [| | discriminate].
  - apply raise_if_Ok in Hv. destruct Hv as [Hc Hv].
    destruct (command_closure_Ok i _ _ _ _ _ _ _ _ _ Hv Hr' Htl' He' Hrc') as [Hq _].
    split; [exact Hq |]. split; [reflexivity |]. split; [reflexivity |]. congruence.
  - destruct (command_closure_Ok i _ _ _ _ _ _ _ _ _ Hv Hr' Htl' He' Hrc') as [Hq Hfin].
    split; [exact Hq |]. split; [reflexivity |]. split; [reflexivity |]. intros _. exists f.
    split; [| exact Hfin].
    assert (Hin : f ∈ finishes_of (al_events log) start) by (rewrite Hf; apply list_elem_of_singleton; reflexivity).
    apply filter_elem in Hin. apply Hin.
Qed.

(** An execution that proves the candidate: finished without a timeout, with exit
    code 0, the candidate's bytes its only input, in the environment of the result;
    the only one the proof of concept can mean. *)
Record execution_proved (result : DynamicReproductionResult) (log : AgentLog) (poc : PoCBundle)
  (candidate : PoCCandidate) (execution : AgentLogEvent) : Prop := {
  ex_logged : execution ∈ al_events log;
  ex_finished : ev_event_type execution = FINISHED PH_POC_EXECUTION;
  ex_action : ev_action_id execution = poc_execution_action_id poc;
  ex_candidate : ev_poc_candidate_ref execution = Some (poc_candidate_ref poc);
  ex_exit : ev_exit_code execution = Some 0;
  ex_in_time : ev_timed_out execution = Some false;
  ex_input : ev_input_refs execution = [pk_content_ref candidate];
  ex_environment : ev_environment_ref execution = dyn_environment_ref result;
  ex_recipe : ev_environment_recipe_ref execution = dyn_environment_recipe_ref result;
  ex_only e : e ∈ executions_of poc log -> e = execution;
  ex_digest : poc_candidate_digest poc = pk_content_digest candidate;
}.

(** The evidence of [roots] is an output of the execution, or names records whose
    evidence is. *)
Definition evidenced (meta : RunMeta) (resolved : gmap string D) (roots outputs : list StoredDataRef) : Prop :=
  exists output, output ∈ outputs /\ followed (execution_edges meta resolved) roots output.

Lemma rests_on_Ok meta resolved outputs roots :
  rests_on meta resolved outputs roots = Ok tt -> evidenced meta resolved roots outputs.
Proof.
  unfold rests_on. destruct (follow _ _ _ _) as [[seen | e] |] eqn:Hf; try discriminate. intros Hr.
  apply raise_if_Ok in Hr. destruct Hr as [Hr _]. apply negb_false_iff, existsb_exists in Hr.
  destruct Hr as (r & Hin & Ho). apply mem_true in Ho. apply list_elem_of_In in Hin.
  destruct (follow_Ok _ _ _ _ Hf) as (_ & Hfol & _). exists r. split; [exact Ho | apply Hfol, Hin].
Qed.

(** The traversals of the evidence end. *)
Lemma execution_edges_cost meta resolved seen r refs :
  r ∉ seen -> execution_edges meta resolved r = Ok refs ->
  (length refs + cost resolved (seen ++ [r]) <= cost resolved seen)%nat.
Proof.
  unfold execution_edges. intros Hr He. destruct (sd_record_id r).
  - destruct (resolved !! _key r) as [t |] eqn:Ht; [| discriminate]. call He as [] _. call He as [] _.
    injection He as <-. exact (follow_cost _ _ _ _ Hr Ht).
  - injection He as <-. apply sum_le, unfollowed_snoc.
Qed.

Lemma rests_on_total meta resolved outputs roots :
  exists res, follow (execution_edges meta resolved) (execution_fuel roots resolved) [] (rev roots) = Some res
    /\ rests_on meta resolved outputs roots
       = match res with
         | Err e => Err e
         | Ok seen => raise_if negb (existsb (fun r => mem r outputs) seen)
                        with "POC_EXECUTION_EVIDENCE_MISMATCH" ;; Ok tt
         end.
Proof.
  assert (Hf : exists res, follow (execution_edges meta resolved) (execution_fuel roots resolved) [] (rev roots)
                           = Some res).
  { apply (follow_terminates _ (cost resolved)); [intros seen r refs; apply execution_edges_cost |].
    unfold execution_fuel. rewrite length_rev. pose proof (cost_start resolved). lia. }
  destruct Hf as [res Hres]. exists res. split; [exact Hres |]. unfold rests_on. rewrite Hres. reflexivity.
Qed.

Lemma execution_support_Ok result poc candidate execution log records resolved :
  validate_execution_support result poc candidate execution log records resolved = Ok tt ->
  ev_environment_ref execution = dyn_environment_ref result
  /\ ev_environment_recipe_ref execution = dyn_environment_recipe_ref result
  /\ ev_input_refs execution = [pk_content_ref candidate]
  /\ ev_timed_out execution = Some false
  /\ (exists event, event ∈ al_events log /\ ev_event_type event = FINISHED PH_COMMAND
        /\ ev_action_id event = ev_action_id execution /\ provenance event = provenance execution)
  /\ (exists record, named cr_meta (ev_command_ref execution) records = [record]
        /\ is_poc_execution_command record = true)
  /\ evidenced (dyn_meta result) resolved (poc_evidence_refs poc) (ev_output_refs execution)
  /\ evidenced (dyn_meta result) resolved (dyn_hypothesis_evidence_refs result) (ev_output_refs execution).
Proof.
  unfold validate_execution_support. cbv zeta. intros Hv. apply raise_if_Ok in Hv. destruct Hv as [He Hv].
  call Hv as [] _. apply raise_if_Ok in Hv. destruct Hv as [Hi Hv]. apply raise_if_Ok in Hv.
  destruct Hv as [Hc Hv]. apply raise_if_Ok in Hv. destruct Hv as [_ Hv].
  cbn [for_each] in Hv. call Hv as [] H1. call Hv as [] H2. clear Hv.
  apply orb_false_iff in Hc. destruct Hc as [Hc Hrec]. apply orb_false_iff in Hc. destruct Hc as [Hc Hlen].
  apply orb_false_iff in Hc. destruct Hc as [Ht _]. apply negb_false_iff in Hlen. apply Nat.eqb_eq in Hlen.
  apply negb_false_iff, bool_decide_eq_true in He, Hi, Ht. injection He as He1 He2.
  do 4 (split; [assumption |]). split; [| split; [| split; [exact (rests_on_Ok _ _ _ _ H1) | exact (rests_on_Ok _ _ _ _ H2)]]].
  - destruct (List.filter (same_execution execution) (al_events log)) as [| event [| ? ?]] eqn:Hf; try discriminate.
    exists event. assert (Hin : event ∈ List.filter (same_execution execution) (al_events log))
      by (rewrite Hf; apply list_elem_of_singleton; reflexivity).
    apply filter_elem in Hin. destruct Hin as [Hin Hs]. unfold same_execution in Hs.
    rewrite !andb_true_iff in Hs. destruct Hs as [[[S1 S2] S3] _].
    apply bool_decide_eq_true in S1, S2, S3. auto.
  - destruct (named cr_meta _ _) as [| record [| ? ?]]; try discriminate. apply negb_false_iff in Hrec. eauto.
Qed.

(** The environment checked: every required requirement was found to match. *)
Definition environment_matches (environment : SandboxEnvironment) (requirements : EnvironmentRequirements)
  : Prop :=
  se_status environment = EV_READY ->
  forall r, r ∈ er_items requirements -> eq_required r = true ->
    exists c, c ∈ se_checks environment /\ ek_requirement_id c = eq_requirement_id r /\ ek_status c = EC_MATCH.

Lemma last_of_elem {A} (key : A -> string) l k x :
  last_of key l k = Some x -> x ∈ l /\ key x = k.
Proof.
  unfold last_of. intros Hf. apply find_some in Hf. destruct Hf as [Hin Hk]. apply in_rev in Hin.
  apply list_elem_of_In in Hin. apply bool_decide_eq_true in Hk. auto.
Qed.

Lemma expected_ready required :
  expected_status required = EV_READY -> forall c, c ∈ required -> ek_status c = EC_MATCH.
Proof.
  unfold expected_status. intros He c Hc. destruct (existsb _ required); [discriminate |].
  destruct (existsb (fun c => neqb (ek_status c) EC_MATCH) required) eqn:Hm; [discriminate |].
  pose proof (existsb_false _ _ _ Hm Hc) as Hx. apply negb_false_iff, bool_decide_eq_true in Hx. exact Hx.
Qed.

Lemma environment_Ok environment requirements plan recipe :
  validate_environment environment requirements plan recipe = Ok tt ->
  environment_matches environment requirements.
Proof.
  unfold validate_environment. cbv zeta. intros Hv. do 3 (call Hv as [] _). apply raise_if_Ok in Hv.
  destruct Hv as [_ Hv]. call Hv as [] _. call Hv as required Hr. apply raise_if_Ok in Hv.
  destruct Hv as [Hs _]. apply negb_false_iff, bool_decide_eq_true in Hs. intros Hready r Hin Hreq.
  rewrite Hready in Hs. symmetry in Hs. apply map_result_Forall2 in Hr.
  assert (Hf : r ∈ List.filter eq_required (er_items requirements)) by (apply filter_elem; auto).
  apply list_elem_of_lookup in Hf. destruct Hf as [k Hk].
  destruct (Forall2_lookup_l _ _ _ _ _ Hr Hk) as (c & Hc & Hck). unfold required_check, check_of in Hck.
  destruct (last_of _ _ _) as [c' |] eqn:Hl; [| discriminate]. injection Hck as ->.
  apply last_of_elem in Hl. destruct Hl as [Hl1 Hl2]. exists c. split; [exact Hl1 |]. split; [exact Hl2 |].
  exact (expected_ready _ Hs c (list_elem_of_lookup_2 _ _ _ Hc)).
Qed.

(** The parts of a closure, by name. *)
Record closure_parts (result : DynamicReproductionResult) (request : DynamicReproductionRequest)
  (log : AgentLog) (i : ClosureInputs) : Prop := {
  cp_generation : dq_verification_generation request = in_generation i;
  cp_environment : closed_pair result se_meta se_request_ref (dyn_environment_ref result) (in_environment i) = Ok tt;
  cp_recipe : closed_pair result rc_meta rc_request_ref (dyn_environment_recipe_ref result) (in_recipe i) = Ok tt;
  cp_candidate : closed_pair result pk_meta pk_request_ref (dyn_poc_candidate_ref result) (in_candidate i) = Ok tt;
  cp_boundary : closed_pair result bd_meta bd_request_ref (dyn_policy_decision_ref result) (in_policy i) = Ok tt;
  cp_plan : if_some (in_plan i) (closed_plan result request i) = Ok tt;
  cp_planned : closed_pair result pn_meta pn_request_ref (dyn_reproduction_plan_ref result) (in_plan i) = Ok tt;
  cp_policy : if_some (in_policy i) (validate_boundary_binding result request log) = Ok tt;
  cp_commands : validate_command_log log request (in_plan i) (in_command_records i) (in_tool_requests i)
                  (environments_of i) (recipes_of i)
                  (successful result || nonempty (dyn_hypothesis_evidence_refs result)) = Ok tt;
  cp_poc : if_some (in_poc i) (supported_poc result log i) = Ok tt;
  cp_cleanup : validate_cleanup_coverage result log (in_cleanup i) (environments_of i)
                 (in_attempt_resource_refs i) = Ok tt;
}.

Lemma dynamic_closure_Ok result request log i :
  validate_dynamic_closure result request log i = Ok tt -> closure_parts result request log i.
Proof.
  unfold validate_dynamic_closure. cbv zeta. intros Hv. do 2 (call Hv as [] _).
  apply raise_if_Ok in Hv. destruct Hv as [Hg Hv]. call Hv as [] _. call Hv as [] Hpn. call Hv as [] Hrc.
  call Hv as [] Hse. call Hv as [] Hpk. do 2 (call Hv as [] _). call Hv as [] Hbd. call Hv as [] _.
  apply raise_if_Ok in Hv. destruct Hv as [_ Hv]. call Hv as [] _. call Hv as [] Hplan. call Hv as [] Hpol.
  call Hv as [] _. apply raise_if_Ok in Hv. destruct Hv as [_ Hv]. call Hv as [] Hcmd. call Hv as [] Hpoc.
  apply raise_if_Ok in Hv. destruct Hv as [_ Hv]. apply orb_false_iff in Hg. destruct Hg as [Hg _].
  apply negb_false_iff, bool_decide_eq_true in Hg. split; assumption.
Qed.

(** A pair of the closure is present together and exact. *)
Lemma closed_pair_Ok {A} `{Dumped A} result (meta_of : A -> RunMeta) request_of ref target :
  closed_pair result meta_of request_of (Some ref) target = Ok tt ->
  exists x, target = Some x /\ exact (RStored ref) (meta_of x) x (dyn_meta result) = Ok tt
    /\ rm_attempt_id (dyn_meta result) = rm_attempt_id (meta_of x) /\ request_of x = dyn_request_ref result.
Proof.
  unfold closed_pair, bound. destruct target as [x |]; [| discriminate]. intros Hc. exists x.
  call Hc as [] He. call Hc as [] Ha. apply raise_if_Ok in Hc. destruct Hc as [Hr _].
  apply negb_false_iff, bool_decide_eq_true in Hr. unfold same_attempt_scope in Ha. apply raise_if_Ok in Ha.
  destruct Ha as [Ha _]. apply negb_false_iff, bool_decide_eq_true in Ha. injection Ha as _ _ _ _ Ha. auto.
Qed.

Lemma open_in_elem l key s : open_in l key s -> s ∈ l /\ starts s = Some key.
Proof. intros (k & Hk & Hs & _). split; [exact (list_elem_of_lookup_2 _ _ _ Hk) | exact Hs]. Qed.

(** A command that finished was started, with the same provenance. *)
Lemma finished_command l e :
  log_paired l -> e ∈ l -> ev_event_type e = FINISHED PH_COMMAND ->
  exists s, s ∈ l /\ ev_event_type s = STARTED PH_COMMAND /\ ev_action_id s = ev_action_id e
    /\ provenance s = provenance e.
Proof.
  intros Hl He Ht. apply list_elem_of_lookup in He. destruct He as [j Hj]. destruct (Hl j e Hj) as [_ Hf].
  destruct (Hf (PH_COMMAND, ev_action_id e)) as (s & Ho & _ & Hp & _); [unfold finishes; rewrite Ht; reflexivity |].
  apply open_in_elem in Ho. destruct Ho as [Hs Hst]. exists s. split.
  - apply list_elem_of_lookup in Hs. destruct Hs as [k Hk]. apply lookup_take_Some in Hk.
    exact (list_elem_of_lookup_2 _ _ _ (proj1 Hk)).
  - unfold starts in Hst. destruct (ev_event_type s) as [p | p | | | | | |]; try discriminate. injection Hst as -> Ha.
    split; [reflexivity |]. split; [exact Ha | apply Hp; left; reflexivity].
Qed.

(** The parts of a proof of concept in a closure. *)
Lemma supported_poc_Ok result log i poc :
  supported_poc result log i poc = Ok tt ->
  exists candidate execution, in_candidate i = Some candidate /\ executions_of poc log = [execution]
    /\ poc_candidate_digest poc = pk_content_digest candidate
    /\ dyn_reproduction_plan_ref result = Some (poc_reproduction_plan_ref poc)
    /\ dyn_environment_recipe_ref result = Some (poc_environment_recipe_ref poc)
    /\ dyn_environment_ref result = Some (poc_environment_ref poc)
    /\ validate_execution_support result poc candidate execution log (in_command_records i)
         (in_resolved_evidence i) = Ok tt.
Proof.
  unfold supported_poc. intros Hv. destruct (in_candidate i) as [candidate |]; [| discriminate].
  call Hv as [] _. apply raise_if_Ok in Hv. destruct Hv as [Hp Hv]. apply raise_if_Ok in Hv.
  destruct Hv as [Hc Hv]. destruct (executions_of poc log) as [| execution [| ? ?]]; try discriminate.
  apply raise_if_Ok in Hv. destruct Hv as [_ Hv]. exists candidate, execution. boolify.
  destruct Hp as [[[[P1 P2] P3] P4] P5], Hc as [C1 C2]. auto 10.
Qed.

(** C8. A validated proof of concept was executed: when the log is well formed and
    the closure of the result holds, exactly one execution of the log is the one
    the proof of concept names; it ran the candidate's bytes, and only them, to exit
    code 0 in time, by a command whose script is the candidate; the agent asked for
    that very command; it ran in the environment of the result, which was ready
    with every required requirement found to match; and both the evidence of the
    proof of concept and that of the hypothesis lead to an output of it. *)
Theorem poc_executed result request log i poc :
  event_sequence log = Ok tt ->
  validate_dynamic_closure result request log i = Ok tt ->
  in_poc i = Some poc ->
  exists candidate execution start tool record environment recipe requirements,
    in_candidate i = Some candidate
    /\ execution_proved result log poc candidate execution
    /\ (start ∈ al_events log /\ ev_event_type start = STARTED PH_COMMAND
        /\ ev_action_id start = ev_action_id execution /\ provenance start = provenance execution)
    /\ requested i start tool record environment recipe
    /\ is_poc_execution_command record = true
    /\ in_environment i = Some environment /\ in_requirements i = Some requirements
    /\ environment_matches environment requirements
    /\ evidenced (dyn_meta result) (in_resolved_evidence i) (poc_evidence_refs poc) (ev_output_refs execution)
    /\ evidenced (dyn_meta result) (in_resolved_evidence i) (dyn_hypothesis_evidence_refs result)
         (ev_output_refs execution).
Proof.
  intros Hlog Hv Hpoc. apply dynamic_closure_Ok in Hv. destruct Hv as [_ Hse Hrc _ _ Hplan Hpn _ Hcmd Hp _].
  rewrite Hpoc in Hp. apply supported_poc_Ok in Hp.
  destruct Hp as (candidate & execution & Hcand & Hex & Hdig & P1 & P2 & P3 & Hsup).
  destruct (execution_support_Ok _ _ _ _ _ _ _ Hsup) as (S1 & S2 & S3 & S4 & (fin & F1 & F2 & F3 & F4) & (record & R1 & R2) & E1 & E2).
  destruct (finished_command _ _ (event_sequence_paired _ Hlog) F1 F2) as (start & T1 & T2 & T3 & T4).
  destruct (command_log_Ok _ _ _ _ _ Hcmd T1 T2) as (tool & record' & environment & recipe & Q & Q1 & Q2 & _).
  assert (Hprov : provenance start = provenance execution) by congruence.
  assert (Hpc : ev_command_ref start = ev_command_ref execution) by (unfold provenance in Hprov; congruence).
  assert (Hpe : ev_environment_ref start = ev_environment_ref execution) by (unfold provenance in Hprov; congruence).
  rewrite Hpc, R1 in Q1. injection Q1 as <-.
  rewrite P3 in Hse. destruct (closed_pair_Ok _ _ _ _ _ Hse) as (env & He & Hxe & _).
  rewrite P2 in Hrc. destruct (closed_pair_Ok _ _ _ _ _ Hrc) as (rec & Hr & _).
  rewrite P1 in Hpn. destruct (closed_pair_Ok _ _ _ _ _ Hpn) as (plan & Hpl & _).
  assert (Henv : environment = env).
  { assert (Hin : env ∈ named se_meta (ev_environment_ref start) (environments_of i)).
    { rewrite Hpe, S1, P3. apply named_elem. split; [| symmetry; exact (exact_record_id _ _ _ _ Hxe)].
      unfold environments_of. rewrite He. apply elem_of_app. right. apply list_elem_of_singleton. reflexivity. }
    rewrite Q2 in Hin. apply list_elem_of_singleton in Hin. congruence. }
  subst env. rewrite Hpl in Hplan. simpl in Hplan. unfold closed_plan in Hplan.
  destruct (in_requirements i) as [requirements |]; [| discriminate]. do 3 (call Hplan as [] _).
  rewrite He, Hr in Hplan. pose proof (environment_Ok _ _ _ _ Hplan) as Hm.
  exists candidate, execution, start, tool, record, environment, recipe, requirements.
  split; [exact Hcand |]. split.
  - assert (Hin : execution ∈ executions_of poc log) by (rewrite Hex; apply list_elem_of_singleton; reflexivity).
    apply filter_elem in Hin. destruct Hin as [Hin Hx]. rewrite !andb_true_iff in Hx.
    destruct Hx as [[[X1 X2] X3] X4]. apply bool_decide_eq_true in X1, X2, X3, X4. split; auto.
    intros e Hel. rewrite Hex in Hel. apply list_elem_of_singleton in Hel. exact Hel.
  - split; [split; [exact T1 | split; [exact T2 | split; congruence]] |]. auto 10.
Qed.

Lemma cleanup_Ok result log cleanup environments resources :
  validate_cleanup_coverage result log cleanup environments resources = Ok tt ->
  (forall ref, ref ∈ used_environments result log ->
     exists c e, cleanup = Some c /\ ref ∈ cn_environment_refs c /\ e ∈ environments
       /\ exact (RStored ref) (se_meta e) e (dyn_meta result) = Ok tt)
  /\ (forall e, e ∈ environments -> exists c ref, cleanup = Some c /\ ref ∈ cn_environment_refs c
        /\ sd_record_id ref = Some (record_id (se_meta e)))
  /\ (forall r, r ∈ resources -> exists c, cleanup = Some c /\ r ∈ cn_resource_refs c).
Proof.
  unfold validate_cleanup_coverage. cbv zeta. intros Hv. apply raise_if_Ok in Hv. destruct Hv as [Hn Hv].
  destruct cleanup as [c |].
  - clear Hn. apply raise_if_Ok in Hv. destruct Hv as [Hs Hv]. do 2 (call Hv as [] _).
    apply orb_false_iff in Hs. destruct Hs as [Hs H3]. apply orb_false_iff in Hs. destruct Hs as [H1 H2].
    apply negb_false_iff in H1, H2, H3. unfold same_set in H2, H3. apply andb_prop in H2, H3.
    destruct H2 as [_ H2], H3 as [_ H3]. rewrite forallb_forall in H1, H2, H3.
    apply for_each_Ok in Hv. rewrite Forall_forall in Hv. split; [| split].
    + intros ref Hin. apply list_elem_of_In in Hin. specialize (H1 _ Hin). apply mem_true in H1.
      specialize (Hv _ H1). unfold cleaned in Hv.
      destruct (named se_meta (Some ref) environments) as [| e [| ? ?]] eqn:He; try discriminate.
      destruct (named_one _ _ _ _ He) as (_ & _ & Hel & _). unfold bound in Hv. call Hv as [] Hx. eauto 10.
    + intros e He. assert (Hin : In (Some (record_id (se_meta e))) (map (fun e => Some (record_id (se_meta e))) environments))
        by (apply in_map_iff; exists e; split; [reflexivity | apply list_elem_of_In, He]).
      specialize (H2 _ Hin). apply mem_true, list_elem_of_fmap in H2. destruct H2 as (ref & Hr & Hin').
      exists c, ref. auto.
    + intros r Hr. apply list_elem_of_In in Hr. specialize (H3 _ Hr). apply mem_true in H3. eauto.
  - rewrite orb_true_r, andb_true_r in Hn. apply orb_false_iff in Hn. destruct Hn as [Hn Hr].
    apply orb_false_iff in Hn. destruct Hn as [Hu He]. apply nonempty_false in Hu, He, Hr.
    rewrite Hu, He, Hr. repeat split; intros x Hx; apply elem_of_nil in Hx as [].
Qed.

(** The boundary decision of a closed result is the exact record it names, for the
    same action, and allows or denies as the result says. *)
Lemma boundary_decided result request log i ref :
  validate_dynamic_closure result request log i = Ok tt -> dyn_policy_decision_ref result = Some ref ->
  exists policy, in_policy i = Some policy
    /\ exact (RStored ref) (bd_meta policy) policy (dyn_meta result) = Ok tt
    /\ dyn_action_decision_ref result = Some (bd_action_decision_ref policy)
    /\ (dyn_agent_invoked result = true -> bd_allow policy = true)
    /\ (dyn_failure_category result = FC_POLICY_BLOCKED -> bd_allow policy = false).
Proof.
  intros Hv Href. apply dynamic_closure_Ok in Hv. destruct Hv as [_ _ _ _ Hbd _ _ Hpol _ _ _].
  rewrite Href in Hbd. destruct (closed_pair_Ok _ _ _ _ _ Hbd) as (policy & Hp & Hx & _).
  exists policy. rewrite Hp in Hpol. simpl in Hpol. split; [exact Hp |]. split; [exact Hx |].
  unfold validate_boundary_binding in Hpol. apply raise_if_Ok in Hpol. destruct Hpol as [H1 Hpol].
  apply raise_if_Ok in Hpol. destruct Hpol as [H2 _]. apply orb_false_iff in H1, H2.
  destruct H1 as [H1 _], H2 as [H2 H3]. apply negb_false_iff, bool_decide_eq_true in H1.
  split; [symmetry; exact H1 |]. split.
  - intros Hi. rewrite Hi in H2. simpl in H2. apply negb_false_iff in H2. exact H2.
  - intros Hc. rewrite Hc in H3. simpl in H3. exact H3.
Qed.

(** C18. A run is accounted for: when a result has its own shape and its closure
    holds, every command its log starts was asked for by the agent and executed as
    asked in an environment that was ready, and finished if the result concludes
    anything; a result that invoked the agent, or was blocked by policy, names the
    boundary decision of its action, and that decision allowed the agent in the
    first case and denied it in the second; and every environment the log or the
    result names, and every resource of the attempt, is in the cleanup. *)
Theorem run_accounted result request log i :
  result_shape result = Ok tt ->
  validate_dynamic_closure result request log i = Ok tt ->
  (forall start, start ∈ al_events log -> ev_event_type start = STARTED PH_COMMAND ->
     exists tool record environment recipe, requested i start tool record environment recipe
       /\ (successful result = true \/ dyn_hypothesis_evidence_refs result <> [] -> finished_after log start))
  /\ (dyn_agent_invoked result = true \/ dyn_failure_category result = FC_POLICY_BLOCKED ->
        exists policy_ref policy,
          dyn_policy_decision_ref result = Some policy_ref /\ in_policy i = Some policy
          /\ exact (RStored policy_ref) (bd_meta policy) policy (dyn_meta result) = Ok tt
          /\ dyn_action_decision_ref result = Some (bd_action_decision_ref policy)
          /\ (dyn_agent_invoked result = true -> bd_allow policy = true)
          /\ (dyn_failure_category result = FC_POLICY_BLOCKED -> bd_allow policy = false))
  /\ (forall ref, ref ∈ used_environments result log ->
        exists c e, in_cleanup i = Some c /\ ref ∈ cn_environment_refs c /\ e ∈ environments_of i
          /\ exact (RStored ref) (se_meta e) e (dyn_meta result) = Ok tt)
  /\ (forall e, e ∈ environments_of i -> exists c ref, in_cleanup i = Some c /\ ref ∈ cn_environment_refs c
        /\ sd_record_id ref = Some (record_id (se_meta e)))
  /\ (forall r, r ∈ in_attempt_resource_refs i -> exists c, in_cleanup i = Some c /\ r ∈ cn_resource_refs c).
Proof.
  intros Hshape Hv. pose proof (fun ref => boundary_decided _ _ _ _ ref Hv) as Hbd.
  apply dynamic_closure_Ok in Hv. destruct Hv as [_ _ _ _ _ _ _ _ Hcmd _ Hcl].
  split; [| split; [| exact (cleanup_Ok _ _ _ _ _ Hcl)]].
  - intros start Hs Ht. destruct (command_log_Ok _ _ _ _ _ Hcmd Hs Ht) as (tool & record & env & recipe & Q & _ & _ & Hf).
    exists tool, record, env, recipe. split; [exact Q |]. intros Hc. apply Hf. apply orb_true_iff.
    rewrite nonempty_true. exact Hc.
  - intros Hc. pose proof (boundary_required _ Hshape Hc) as Hn.
    destruct (dyn_policy_decision_ref result) as [ref |] eqn:Href; [| contradiction]. exists ref.
    destruct (Hbd ref eq_refl) as (policy & Hp). exists policy. split; [reflexivity | exact Hp].
Qed.
End closure.
