(* ===== verification/LineageExamples.v ===== *)
(** * Concrete lineages

    A small committed lineage (two children [C1] and [C2] of one primitive [A],
    and a trigger [T]) on which the theorems of [Lineage] and [Matching] are
    applied. *)
From S2P Require Import Prelude Records CanonicalJson Store Lineage Matching.

Definition ex_prim (id : string) : StoredDataRef :=
  mkStoredDataRef id "primitive" "h" "ws" "c0" (Some id).

Definition ex_A := ex_prim "a".
Definition ex_C1 := ex_prim "c1".
Definition ex_C2 := ex_prim "c2".
Definition ex_T := ex_prim "t".
Definition ex_universe : list StoredDataRef := [ex_A; ex_C1; ex_C2; ex_T].

Definition ex_parents (r : StoredDataRef) : list StoredDataRef :=
  if eqb r ex_C1 || eqb r ex_C2 then [ex_A] else [].

Definition ex_resolve (r : StoredDataRef) : result LineageNode :=
  if mem r ex_universe then Ok (mkLineageNode r (ex_parents r) "an" "ws" "c0" true)
  else Err (LookupError "unknown primitive").

Local Abbreviation ex_lineage := (lineage 1000 ex_resolve "an").

Lemma ex_resolve_universe r node : ex_resolve r = Ok node -> r ∈ ex_universe.
Proof.
  unfold ex_resolve. destruct (mem r ex_universe) eqn:Hm; [| discriminate].
  intros _. apply mem_true, Hm.
Qed.

Lemma ex_resolve_shallow r : ex_resolve r <> Err RecursionError.
Proof. unfold ex_resolve. destruct (mem r ex_universe); discriminate. Qed.

(** The lineage of [C1] is [A]. *)
Lemma lineage_correct_witness :
  match ex_lineage ex_C1 with
  | Ok l => l_ancestors l = [ex_A]
            /\ forall a, a ∈ l_ancestors l <-> ancestor_of ex_resolve ex_C1 a
  | Err e => False
  end.
Proof.
  pose proof (lineage_correct 1000 ex_resolve "an" ex_universe ex_resolve_universe
                ex_resolve_shallow ex_C1 ltac:(simpl; lia)) as Hl.
  assert (He : ex_lineage ex_C1 = Ok (mkLineage [ex_A] 1)) by (vm_compute; reflexivity).
  rewrite He in *. split; [reflexivity | apply Hl].
Defined.

Lemma order_deepest_first_correct_witness :
  order_deepest_first 1000 ex_resolve "an" [ex_A; ex_C1] = Ok [ex_C1; ex_A]
  /\ [ex_C1; ex_A] ≡ₚ [ex_A; ex_C1].
Proof.
  assert (Ho : order_deepest_first 1000 ex_resolve "an" [ex_A; ex_C1] = Ok [ex_C1; ex_A])
    by (vm_compute; reflexivity).
  split; [exact Ho |]. exact (proj1 (order_deepest_first_correct _ _ _ _ _ Ho)).
Defined.

(** ** Matches of the trigger *)

Definition ex_considered : list StoredDataRef := [ex_T; ex_A; ex_C1; ex_C2].
Definition ex_pair_A := mkPair ex_A ex_T.
Definition ex_pair_C1 := mkPair ex_C1 ex_T.
Definition ex_pair_C2 := mkPair ex_T ex_C2.

Lemma ex_ancestors c l :
  ex_lineage c = Ok l -> forall a, ancestor_of ex_resolve c a -> a ∈ l_ancestors l.
Proof. intros Hl a. apply lineage_Ok in Hl. apply Hl. Qed.

Ltac by_decision :=
  match goal with |- ?P => apply (@bool_decide_unpack P _); vm_compute; exact I end.

Ltac in_list H :=
  repeat (apply elem_of_cons in H; destruct H as [-> | H]; [| try (inversion H; fail)]);
  try (inversion H; fail).

Lemma ex_usable : usable_matches 1000 ex_resolve "an" ex_considered ex_T
                    [ex_pair_A; ex_pair_C1; ex_pair_C2].
Proof.
  assert (HA : ex_lineage ex_A = Ok (mkLineage [] 0)) by (vm_compute; reflexivity).
  assert (H1 : ex_lineage ex_C1 = Ok (mkLineage [ex_A] 1)) by (vm_compute; reflexivity).
  assert (H2 : ex_lineage ex_C2 = Ok (mkLineage [ex_A] 1)) by (vm_compute; reflexivity).
  assert (Hcand : forall p, p ∈ [ex_pair_A; ex_pair_C1; ex_pair_C2] ->
            exists l, ex_lineage (_candidate_ref p (_key ex_T)) = Ok l
              /\ forall a, a ∈ l_ancestors l -> a = ex_A).
  { intros p Hp. in_list Hp.
    - exists (mkLineage [] 0). split; [exact HA | intros a Ha; inversion Ha].
    - exists (mkLineage [ex_A] 1). split; [exact H1 |].
      intros a Ha. apply list_elem_of_singleton in Ha. exact Ha.
    - exists (mkLineage [ex_A] 1). split; [exact H2 |].
      intros a Ha. apply list_elem_of_singleton in Ha. exact Ha. }
  split.
  - by_decision.
  - left.
  - by_decision.
  - repeat constructor; by_decision.
  - intros r Hr. in_list Hr; eexists; reflexivity.
  - intros r r' Hr Hr' Hid. in_list Hr; in_list Hr'; try reflexivity; discriminate Hid.
  - intros p Hp. destruct (Hcand p Hp) as (l & Hl & _). eauto.
  - intros p a Hp Ha. destruct (Hcand p Hp) as (l & Hl & Hall).
    rewrite (Hall a (ex_ancestors _ _ Hl _ Ha)). split; [right; left | discriminate].
Qed.

Definition ex_retained : list SuccessfulMatchPair := [ex_pair_C1; ex_pair_C2].

Lemma ex_retain :
  retain_deepest_successful_matches 1000 ex_resolve "an" ex_considered ex_T
    [ex_pair_A; ex_pair_C1; ex_pair_C2] = Ok ex_retained.
Proof. vm_compute. reflexivity. Qed.

(** The match with [A] is dropped: [A] is an ancestor of [C1]. *)
Lemma retain_deepest_correct_witness :
  exists ret, retain_deepest_successful_matches 1000 ex_resolve "an" ex_considered ex_T
                [ex_pair_A; ex_pair_C1; ex_pair_C2] = Ok ret
    /\ ret = ex_retained
    /\ forall p, p ∈ ret <->
         p ∈ [ex_pair_A; ex_pair_C1; ex_pair_C2]
         /\ ~ exists q, q ∈ [ex_pair_A; ex_pair_C1; ex_pair_C2]
              /\ ancestor_of ex_resolve (_candidate_ref q (_key ex_T))
                   (_candidate_ref p (_key ex_T)).
Proof.
  destruct (retain_deepest_correct _ _ _ _ _ _ ex_usable) as (ret & Hret & Hin & _).
  exists ret. split; [exact Hret |]. rewrite ex_retain in Hret. injection Hret as <-.
  split; [reflexivity | exact Hin].
Defined.

Lemma expected_exclusions_correct_witness :
  exists ex, expected_lineage_exclusions 1000 ex_resolve "an" ex_considered ex_T
               [ex_pair_A; ex_pair_C1; ex_pair_C2] = Ok ex
    /\ NoDup (map excluded_primitive_ref ex) /\ ex = [mkExclusion ex_A ex_C1].
Proof.
  destruct (expected_exclusions_correct _ _ _ _ _ _ ex_usable) as (ret & ex & _ & Hex & Hnd & _).
  exists ex. split; [exact Hex |]. split; [exact Hnd |].
  assert (He : expected_lineage_exclusions 1000 ex_resolve "an" ex_considered ex_T
                 [ex_pair_A; ex_pair_C1; ex_pair_C2] = Ok [mkExclusion ex_A ex_C1])
    by (vm_compute; reflexivity).
  congruence.
Defined.

(** [C1] and [C2] were both kept and share the ancestor [A]: the result the
    service builds is refused when it is committed. *)
Lemma exclusions_accepted_iff_witness :
  exists ex ex',
    expected_lineage_exclusions 1000 ex_resolve "an" ex_considered ex_T
      [ex_pair_A; ex_pair_C1; ex_pair_C2] = Ok ex
    /\ _expected_lineage_exclusions (fun c => let! l := ex_lineage c in Ok (l_ancestors l))
         ex_considered [ex_C1; ex_T; ex_C2] ex_T ex_retained = Ok ex'
    /\ exact_set (map exclusion_key ex) (map exclusion_key ex') <> Ok tt.
Proof.
  destruct (exclusions_accepted_iff 1000 ex_resolve "an" ex_considered ex_T
              [ex_pair_A; ex_pair_C1; ex_pair_C2] ex_retained
              (fun c => let! l := ex_lineage c in Ok (l_ancestors l)) ex_retained
              [ex_C1; ex_T; ex_C2]) as (ex & ex' & Hex & Hex' & Hiff).
  - apply ex_usable.
  - left.
  - exact ex_retain.
  - reflexivity.
  - apply lineage_port. intros p Hp. in_list Hp; eexists; vm_compute; reflexivity.
  - intros u Hu. in_list Hu;
      [exists ex_pair_C1 | exists ex_pair_C1 | exists ex_pair_C2];
      (split; [by_decision |]); auto.
  - exists ex, ex'. split; [exact Hex |]. split; [exact Hex' |]. rewrite Hiff.
    intros Huniq. assert (Hanc : forall c l, ex_lineage c = Ok l -> ex_A ∈ l_ancestors l ->
                            ancestor_of ex_resolve c ex_A)
      by (intros c l Hl; apply lineage_Ok in Hl; apply Hl).
    specialize (Huniq ex_pair_C1 ex_pair_C2 ex_A ltac:(left) ltac:(right; left)).
    assert (He : ex_C1 = ex_C2); [| discriminate He].
    apply Huniq.
    + apply (Hanc ex_C1 (mkLineage [ex_A] 1)); [vm_compute; reflexivity | left].
    + apply (Hanc ex_C2 (mkLineage [ex_A] 1)); [vm_compute; reflexivity | left].
Defined.

(** ** Pairs and comparisons *)

Lemma pair_has_one_owner_witness :
  (owns ex_C1 ex_A [ex_A; ex_C1] [ex_A] /\ ~ owns ex_A ex_C1 [ex_A] [ex_A; ex_C1])
  \/ (~ owns ex_C1 ex_A [ex_A; ex_C1] [ex_A] /\ owns ex_A ex_C1 [ex_A] [ex_A; ex_C1]).
Proof.
  apply pair_has_one_owner.
  - split; [by_decision |]. split; [right; left | reflexivity].
  - split; [by_decision |]. split; [left | reflexivity].
  - discriminate.
  - left. left.
Defined.

(** Primitives reduced to their metadata, scope, inputs and result. *)
Record ExPrimitive := mkExPrimitive {
  xp_id : string; xp_inputs : list string; xp_result : bool;
}.

Definition ex_meta (p : ExPrimitive) : RecordMetadata :=
  MRun (mkRunMeta (mkRevisionMeta (xp_id p) (xp_id p) "primitive" "1" 1 None 0) "an"
          (Some (mkCodeScope "ws" "c0" (Some "hyp") None))).

#[local] Instance ExPrimitive_stored : StoredRecord ExPrimitive := {|
  rec_meta := ex_meta; rec_host_id _ := None;
  rec_value p := VModel contract_model [("primitive_id", VStr (xp_id p))];
  schema _ := None;
|}.
#[local] Instance ExPrimitive_fields : PrimitiveFields ExPrimitive := {|
  p_workspace_id _ := "ws"; p_commit_id _ := "c0";
  p_input_ids := xp_inputs; p_has_result := xp_result;
|}.

Definition ex_entry (p : ExPrimitive) : PrimitiveEntry ExPrimitive :=
  mkEntry (match reference p with Ok (RStored r) => r | _ => ex_T end) p.

Definition ex_entries : list (PrimitiveEntry ExPrimitive) :=
  [ex_entry (mkExPrimitive "t" ["in"] true); ex_entry (mkExPrimitive "a" ["x"; "y"] true)].

Lemma directional_comparisons_correct_witness :
  exists cs, directional_comparisons (pe_ref (ex_entry (mkExPrimitive "t" ["in"] true))) ex_entries
             = Ok cs
    /\ map comparison_key cs = ["comparison-1"; "comparison-2"; "comparison-3"]
    /\ NoDup (map comparison_key cs).
Proof.
  destruct (directional_comparisons (pe_ref (ex_entry (mkExPrimitive "t" ["in"] true))) ex_entries)
    as [cs | e] eqn:Hc; [| vm_compute in Hc; discriminate Hc].
  exists cs. split; [reflexivity |]. split.
  - vm_compute in Hc. injection Hc as <-. reflexivity.
  - exact (proj1 (directional_comparisons_correct _ _ _ Hc)).
Defined.
