(* ===== verification/Finite.v ===== *)
(** * Finite codecs

    A concrete [Codec] for any finite list of records, with the laws the
    services rely on: each record's JSON is its position in the list and its
    record type, and a kind parses the JSON of the listed records of that kind.
    The examples evaluate the services over such codecs. *)
From S2P Require Import Prelude Records CanonicalJson Store Work Actions Budget Runtime.
From S2P Require Import Registry.

Fixpoint position (r : Rec) (l : list Rec) : Z :=
  match l with
  | [] => -1
  | x :: l => if eqb x r then 0 else let n := position r l in if n <? 0 then -1 else 1 + n
  end.

Definition finite_value (rs : list Rec) (r : Rec) : value :=
  VModel (mkModelInfo true false [])
    [("i", VInt (position r rs)); ("t", VStr (record_type (meta_rev (rec_metadata r))))].

Definition rec_registered (r : Rec) (kind : string) : bool :=
  match rec_kind r with
  | Some k => eqb k kind
  | None => negb (mem kind registered_kinds)
  end.

Definition finite_match (rs : list Rec) (kind payload : string) (r : Rec) : bool :=
  eqb (canonical_bytes [] (finite_value rs r)) (Ok payload)
  && eqb (record_type (meta_rev (rec_metadata r))) kind
  && rec_registered r kind && rec_valid r
  && eqb (revision_shape (meta_rev (rec_metadata r))) (Ok tt).

Definition finite_schema (rs : list Rec) (kind : string) : option (string -> result Rec) :=
  Some (fun payload =>
    match find (finite_match rs kind payload) rs with
    | Some r => Ok r
    | None => Err (ValueError "ValidationError")
    end).

Definition finite_codec (rs : list Rec) : Codec := {|
  model_value := finite_value rs;
  model_schema := finite_schema rs;
|}.

Lemma position_bounds r rs : -1 <= position r rs.
Proof. induction rs; simpl; [lia |]. case_bool_decide; [lia |]. case_match; lia. Qed.

Lemma position_in r rs : r ∈ rs -> 0 <= position r rs.
Proof.
  induction rs as [| x rs IH]; simpl; intros Hin; [inversion Hin |].
  case_bool_decide as Hx; [lia |]. apply elem_of_cons in Hin.
  destruct Hin as [-> | Hin]; [congruence |]. specialize (IH Hin). case_match; lia.
Qed.

Lemma position_inj r r' rs : 0 <= position r rs -> position r rs = position r' rs -> r = r'.
Proof.
  induction rs as [| x rs IH]; simpl; [lia |].
  pose proof (position_bounds r rs). pose proof (position_bounds r' rs).
  repeat case_bool_decide; subst; auto; repeat case_match; try lia.
  intros _ Hp. apply IH; lia.
Qed.

Lemma finite_bytes rs r :
  canonical_bytes [] (finite_value rs r)
  = Ok (_encode (JObj [("i", JInt (position r rs));
                       ("t", JStr (record_type (meta_rev (rec_metadata r))))])).
Proof. reflexivity. Qed.

Lemma finite_bytes_inj rs r r' payload :
  canonical_bytes [] (finite_value rs r) = Ok payload ->
  canonical_bytes [] (finite_value rs r') = Ok payload ->
  position r rs = position r' rs
  /\ record_type (meta_rev (rec_metadata r)) = record_type (meta_rev (rec_metadata r')).
Proof.
  rewrite !finite_bytes, !encode_print. intros Hr Hr'.
  assert (He : forall a b : string, Ok a = Ok payload -> Ok b = Ok payload -> a +:+ "" = b +:+ "")
    by congruence.
  specialize (He _ _ Hr Hr'). apply print_delimited in He; [| exact I | exact I].
  destruct He as [He _]. simpl in He. injection He as -> ->. auto.
Qed.

Lemma finite_find rs kind payload r :
  find (finite_match rs kind payload) rs = Some r ->
  r ∈ rs /\ canonical_bytes [] (finite_value rs r) = Ok payload
  /\ record_type (meta_rev (rec_metadata r)) = kind /\ rec_registered r kind = true
  /\ rec_valid r = true /\ revision_shape (meta_rev (rec_metadata r)) = Ok tt.
Proof.
  intros Hf. apply find_some in Hf. destruct Hf as [Hin Hm]. unfold finite_match in Hm.
  rewrite !andb_true_iff, !bool_decide_eq_true in Hm. apply list_elem_of_In in Hin. tauto.
Qed.

#[export] Instance finite_laws rs : @CodecLaws (finite_codec rs).
Proof.
  split; [split |..].
  - intros r model payload r' [= <-] Hp. destruct (find _ rs) as [x |] eqn:Hf; [| discriminate].
    intros [= ->]. apply finite_find in Hf. destruct Hf as (Hin & Hb & _).
    destruct (finite_bytes_inj _ _ _ _ Hb Hp) as [Hpos _].
    eapply position_inj; [| exact Hpos]. apply position_in, Hin.
  - intros r r' payload Hr Hr'. exact (proj2 (finite_bytes_inj rs r r' payload Hr Hr')).
  - intros kind model payload r [= <-]. destruct (find _ rs) as [x |] eqn:Hf; [| discriminate].
    intros [= ->]. apply finite_find in Hf. tauto.
  - intros kind model payload r [= <-]. destruct (find _ rs) as [x |] eqn:Hf; [| discriminate].
    intros [= ->]. apply finite_find in Hf. destruct Hf as (_ & _ & _ & Hk & _).
    unfold rec_registered in Hk. destruct (rec_kind r); boolify; assumption.
  - intros kind model payload r [= <-]. destruct (find _ rs) as [x |] eqn:Hf; [| discriminate].
    intros [= ->]. apply finite_find in Hf. tauto.
Qed.
