(* ===== verification/ContractExamples.v ===== *)
(** * Examples for the contracts

    One workspace-preparation work taken through its life cycle, and concrete
    decisions, actions and JSON values: the theorems on the contracts applied
    where their hypotheses hold. *)
From S2P Require Import Prelude Records CanonicalJson Work WorkLife Actions Budget.

(** ** A work and its life *)

Definition ex_hash : string :=
  "0123456789abcdef0123456789abcdef0123456789abcdef0123456789abcdef".

Definition ex_meta (kind id : string) (now : Z) : RunMeta :=
  mkRunMeta (mkRevisionMeta id id kind "1.0.0" 1 None now) "an" None.

Definition ex_ref (kind id : string) : BudgetScopeRef :=
  BRun (mkRunStoredDataRef id kind ex_hash "an" (Some id)).

Definition ex_pending : WorkExecutionState :=
  mkWork (ex_meta "work_execution_state" "w1" 0) "work" None WORKSPACE_PREP S_ANALYSIS
    (SubAnalysis "an") 1 PENDING 1 None None None ex_hash ex_hash None [] [] [] [] [] None
    None None 0.

Definition ex_transition (id : string) (from : WorkStatus) (to : TransitionTargetStatus)
  (version : Z) (attempt : option string) (cause : string) : StateTransition :=
  mkTransition (ex_meta "state_transition" id 0) id "work" (ex_ref "action_decision" "d1")
    from to version (version + 1) attempt cause [] [] [] ex_hash 0.

Definition ex_attempt : WorkAttempt :=
  mkAttempt (ex_meta "work_attempt" "a1" 2) "work" "attempt" 1 INITIAL ex_hash A_RUNNING [] []
    [] 2 None 0.

Definition ex_next (w : WorkExecutionState) (id : string) (now : Z) : RunMeta :=
  mkRunMeta (next_rev (w_meta w) id now) (rm_analysis_id (w_meta w)) (rm_code (w_meta w)).

Definition ex_to_ready := ex_transition "t1" PENDING T_READY 1 None "REGISTERED".
Definition ex_ready : WorkExecutionState :=
  ready_work ex_pending (ex_next ex_pending "w2" 1) ex_to_ready (ex_ref "state_transition" "t1").
Definition ex_to_running := ex_transition "t2" READY T_RUNNING 2 (Some "attempt") "CLAIMED".
Definition ex_running : WorkExecutionState :=
  running_work ex_ready (ex_next ex_ready "w3" 2) ex_to_running
    (ex_ref "state_transition" "t2") ex_attempt.
Definition ex_to_done := ex_transition "t3" RUNNING T_SUCCEEDED 3 (Some "attempt") "COMPLETED".
Definition ex_commit : TransitionCommit :=
  mkCommit (ex_meta "transition_commit" "c1" 3) "c1" "work" (ex_ref "state_transition" "t3") 3 4
    (Some "attempt") C_SUCCEEDED [] [] [] PREPARED 3 None None.
Definition ex_done : WorkExecutionState :=
  finished_work ex_running (ex_next ex_running "w4" 4) ex_to_done ex_commit
    (ex_ref "transition_commit" "c1") W_INPUT 4.

Ltac by_vm := vm_compute; reflexivity.
Ltac elem := repeat first [left | right].

Lemma ex_step_ready : work_step ex_pending ex_ready.
Proof.
  apply (step_make_ready _ ex_to_ready "w2" 1 (ex_next ex_pending "w2" 1)
           (ex_ref "state_transition" "t1")); try by_vm. left.
Defined.

Lemma ex_step_running : work_step ex_ready ex_running.
Proof.
  apply (step_start _ ex_to_running ex_attempt None "w3" 2 (ex_next ex_ready "w3" 2)
           (ex_ref "state_transition" "t2")); by_vm.
Defined.

Lemma ex_step_done : work_step ex_running ex_done.
Proof.
  apply (step_finish _ ex_to_done ex_commit ex_hash (ex_ref "transition_commit" "c1") W_INPUT
           "w4" 4 4 (ex_next ex_running "w4" 4)); by_vm.
Defined.

Lemma ex_life : work_steps 3 ex_pending ex_done.
Proof.
  apply (steps_next _ _ _ _ ex_step_ready), (steps_next _ _ _ _ ex_step_running),
    (steps_next _ _ _ _ ex_step_done), steps_refl.
Defined.

Lemma work_reachable_witness :
  same_work ex_pending ex_done /\ w_state_version ex_done = 4 /\ w_status ex_done = SUCCEEDED.
Proof.
  destruct (work_reachable 3 ex_pending ex_done) as (H1 & _ & H3 & _);
    [by_vm | reflexivity | exact ex_life |]. split; [exact H1 | split; [exact H3 | reflexivity]].
Defined.

(** A failed dynamic reproduction, and its explicit resume. *)
Definition ex_code_meta (kind id : string) : RunMeta :=
  mkRunMeta (mkRevisionMeta id id kind "1.0.0" 1 None 0) "an"
    (Some (mkCodeScope "ws" "commit" (Some "h1") None)).
Definition ex_code_ref (kind id : string) : BudgetScopeRef :=
  BStored (mkStoredDataRef id kind ex_hash "ws" "commit" (Some id)).
Definition ex_failed : WorkExecutionState :=
  mkWork (ex_code_meta "work_execution_state" "w1") "work" (Some (ex_code_ref "work_execution_state" "p1"))
    DYNAMIC_REPRO S_HYPOTHESIS (SubHypothesis "h1") 1 FAILED 4 (Some (ex_code_ref "state_transition" "t3"))
    None None ex_hash ex_hash None [] [] [] ["boom"] [] (Some "FAILED") (Some 1) (Some 2) 0.
Definition ex_to_resume : StateTransition :=
  mkTransition (ex_code_meta "state_transition" "t4") "t4" "work" (ex_code_ref "action_decision" "d1")
    FAILED T_READY 4 5 None "USER_RESUME" [] [] [] ex_hash 0.
Definition ex_resumed : WorkExecutionState :=
  resumed_work ex_failed (ex_next ex_failed "w2" 3) ex_to_resume (ex_code_ref "state_transition" "t4").

Lemma terminal_work_absorbing_witness :
  work_step ex_failed ex_resumed /\ w_status ex_resumed = READY /\ w_error_ids ex_resumed = [].
Proof.
  assert (Hs : work_step ex_failed ex_resumed).
  { apply (step_resume _ ex_to_resume "w2" 3 (ex_next ex_failed "w2" 3)
             (ex_code_ref "state_transition" "t4")); try by_vm; [right; left | split; reflexivity]. }
  destruct (terminal_work_absorbing ex_failed ex_resumed Hs eq_refl) as (_ & _ & H1 & H2 & _).
  split; [exact Hs | split; assumption].
Defined.

Lemma stale_transition_rejected_witness :
  validate_transition_context ex_to_ready ex_ready None =
    Err (ValueError "STATE_VERSION_CONFLICT: transition does not match current work").
Proof.
  apply (stale_transition_rejected ex_pending ex_ready ex_to_ready None None ex_step_ready).
  by_vm.
Defined.

Lemma cancel_always_possible_witness :
  exists w', work_step ex_running w' /\ w_status w' = CANCELLED.
Proof.
  destruct (cancel_always_possible ex_running "w9" 9 9 (ex_ref "state_transition" "t9")
              (ex_ref "transition_commit" "c9")) as (w' & H1 & H2 & _);
    [by_vm | by_vm | discriminate | intros s [= <-]; discriminate
    | split; by_vm | split; by_vm |].
  exists w'. split; assumption.
Defined.

Lemma finish_publishes_iff_witness : validate_work ex_done = Ok ex_done.
Proof.
  apply (finish_publishes_iff ex_running ex_to_done ex_commit ex_hash "w4" 4 4
           (ex_next ex_running "w4" 4) (ex_ref "transition_commit" "c1") W_INPUT);
    try by_vm; [split; by_vm | intros s [= <-]; discriminate |].
  split; [reflexivity | split; discriminate].
Defined.

(** ** A decision and an action *)

Definition ex_decision : ActionDecision :=
  mkDecision (ex_meta "action_decision" "d1" 1) "d1" (ex_ref "action_request" "q1") ALLOW
    [K_SCHEMA; K_AUTHORITY] [mkActionCheck K_SCHEMA PASS "OK" "ok"; mkActionCheck K_AUTHORITY PASS "OK" "ok"]
    (Some 1) [] (Some 10) [] UNUSED None None None [] 1.

Definition ex_decision_meta : RunMeta := mkRunMeta (next_rev (d_meta ex_decision) "d2" 5) "an" None.

Lemma decision_claimed_once_witness :
  d_use_status (used_decision ex_decision ex_decision_meta 5) = USED
  /\ d_decision_id ex_decision = "d1".
Proof.
  assert (Hr : validate_decision_revision ex_decision (used_decision ex_decision ex_decision_meta 5) = Ok tt)
    by by_vm.
  destruct (decision_claimed_once ex_decision (used_decision ex_decision ex_decision_meta 5))
    as (H1 & _); [apply (chain_next _ _ _ Hr), chain_refl |].
  split; [reflexivity | exact H1].
Defined.

Lemma claim_within_validity_witness :
  validate_decision_revision ex_decision (used_decision ex_decision ex_decision_meta 5) = Ok tt.
Proof.
  apply (claim_within_validity ex_decision "d2" 5 ex_decision_meta 10);
    first [by_vm | simpl; lia].
Defined.

Definition ex_action : ActionRequest :=
  mkAction (ex_meta "action_request" "q1" 0) "q1" Q_ORCHESTRATION (ex_ref "identity" "i1")
    REGISTER_WORK (Some (ex_ref "work_execution_state" "w1")) (Some 1) None None [] [] None None
    None None None None [] None None None None None None [] None "Register" 0.

Lemma action_least_authority_witness :
  action_shape ex_action = Ok tt /\ q_image_digest ex_action = None.
Proof.
  assert (Hs : action_shape ex_action = Ok tt) by by_vm.
  destruct (action_least_authority ex_action Hs) as (H1 & _).
  split; [exact Hs | apply H1; discriminate].
Defined.

(** ** Canonical JSON *)

Lemma encode_member_order_witness :
  _encode (JObj [("b", JInt 1); ("a", JStr "x")]) = _encode (JObj [("a", JStr "x"); ("b", JInt 1)]).
Proof.
  apply encode_member_order; [| apply Permutation_swap].
  apply (bool_decide_unpack _). vm_compute. exact I.
Defined.

Lemma canonical_set_list_witness :
  canonical_bytes [([], None)] (VSequence [VInt 2; VInt 1]) = Ok "[1,2]".
Proof.
  apply (canonical_set_list [([], None)] [VInt 1; VInt 2]);
    [reflexivity | apply Permutation_swap | by_vm].
Defined.
