(* ===== verification/LedgerExamples.v ===== *)
(** * Examples for the store and the ledger

    A bootstrap run: a profile, its run state, the workspace-preparation work
    and its registration action, over a finite codec. One reservation is
    granted, claimed and committed; another copy of the database releases it.
    The theorems on the store, the registry and the ledger are applied to these
    tables. *)
From S2P Require Import Prelude Records Hash CanonicalJson Store Work Actions Budget Runtime.
From S2P Require Import Registry Hierarchy Ledger Finite WorkLife ContractExamples.

(** ** Records *)

(** The hash the finite codec gives the record at a position. *)
Definition ex_hash_at (i : Z) (kind : string) : string :=
  sha256 (_encode (JObj [("i", JInt i); ("t", JStr kind)])).

Definition at_run (i : Z) (kind id : string) : RunStoredDataRef :=
  mkRunStoredDataRef id kind (ex_hash_at i kind) "an" (Some id).
Definition at_ref (i : Z) (kind id : string) : BudgetScopeRef := BRun (at_run i kind id).

Definition ex_profile : ExecutionBudgetProfile :=
  mkExecutionProfile (ex_meta "execution_budget_profile" "p1" 0)
    (mkApproval (Some (ex_ref "approval" "ok")) (Some "R8") (Some 0) ACTIVE)
    "default" PRODUCTION 100 50 "USD" (ex_ref "pricing" "price") 3 7 1 2.

Definition ex_run : AnalysisRunState :=
  mkRunState (ex_meta "analysis_run_state" "s1" 0) PRODUCTION []
    (at_run 37 "analysis_run_input" "in") "prog"
    (at_run 0 "execution_budget_profile" "p1") None None None None None RUN_RUNNING None 0 None 0.

Definition ex_units : BudgetUnits := mkUnits 10 1 2 0 5 "USD".

Definition ex_reservation : BudgetReservation :=
  mkReservation (ex_meta "budget_reservation" "r1" 1) "reservation"
    (at_ref 0 "execution_budget_profile" "p1") (at_ref 3 "action_request" "q1")
    (at_ref 2 "work_execution_state" "w1") ex_units R_RESERVED None 1 None.

Definition ex_final (status : ReservationStatus) (entry : option BudgetScopeRef)
  : BudgetReservation :=
  mkReservation (mkRunMeta (next_rev (r_meta ex_reservation) "r2" 2) "an" None) "reservation"
    (at_ref 0 "execution_budget_profile" "p1") (at_ref 3 "action_request" "q1")
    (at_ref 2 "work_execution_state" "w1") ex_units status entry 1 (Some 3).

Definition ex_entry : BudgetLedgerEntry :=
  mkLedgerEntry (ex_meta "budget_ledger_entry" "e1" 2) "entry"
    (at_ref 4 "budget_reservation" "r1") (at_ref 0 "execution_budget_profile" "p1")
    (at_ref 3 "action_request" "q1") (at_ref 2 "work_execution_state" "w1")
    (mkUnits 8 1 2 0 4 "USD") [] 1 2.

Definition ex_verification : VerificationBudgetProfile :=
  mkVerificationProfile (ex_code_meta "verification_budget_profile" "v1") "default" 60 4 6 1 2
    ACTIVE.
Definition ex_dynamic : DynamicReproductionLifecycleProfile :=
  mkDynamicProfile (ex_code_meta "dynamic_reproduction_lifecycle_profile" "y1") "default"
    (mkStoredDataRef "wp1" "work_budget_profile" ex_hash "ws" "commit" (Some "wp1"))
    "WORK_REMAINING_TIME" 1 ACTIVE 0.

Definition ex_records : list Rec :=
  [RecExecution ex_profile; RecRunState ex_run; RecWork ex_pending; RecAction ex_action;
   RecReservation ex_reservation;
   RecReservation (ex_final R_COMMITTED (Some (at_ref 6 "budget_ledger_entry" "e1")));
   RecLedger ex_entry; RecReservation (ex_final R_RELEASED None);
   RecVerification ex_verification; RecDynamic ex_dynamic].

#[local] Instance ex_codec : Codec := finite_codec ex_records.
#[local] Instance ex_evidence : TrustedEvidence := {|
  pricing := fun _ => true;
  item_count := fun _ _ => Some 1;
|}.
#[local] Instance ex_laws : CodecLaws := finite_laws ex_records.

(** ** The database *)

Definition put `{Codec} (s : Store) (r : Rec) : Store :=
  match stage s r with
  | Ok (ref, s1) => match publish (R := Rec) s1 ref with Ok s2 => s2 | Err _ => s end
  | Err _ => s
  end.

Lemma put_steps `{Codec} s r : rtc (store_step (R := Rec)) s (put s r).
Proof.
  unfold put. destruct (stage s r) as [[ref s1] |] eqn:Hs; [| reflexivity].
  destruct (publish s1 ref) as [s2 |] eqn:Hp; [| reflexivity].
  apply (rtc_l _ _ s1); [eapply step_stage; eauto | apply rtc_once; eapply step_publish; eauto].
Qed.

Definition ex_store : Store :=
  put (put (put (put empty_store (RecExecution ex_profile)) (RecRunState ex_run))
         (RecWork ex_pending)) (RecAction ex_action).

Lemma ex_store_reachable : rtc (store_step (R := Rec)) empty_store ex_store.
Proof. unfold ex_store. do 3 (etransitivity; [| apply put_steps]). apply put_steps. Qed.

Definition ex_db : Db :=
  mkDb ex_store {[ "an" := ex_run ]} ∅ [] ∅ ∅
    {[ ("an", "execution_budget_profile") := scope_ref (at_ref 0 "execution_budget_profile" "p1") ]}
    [] [] [] ∅ [] [].

Lemma ex_db_wf : db_wf ex_db.
Proof. exact (store_steps_wf _ _ ex_store_reachable empty_store_wf). Qed.

Lemma ex_ledger_wf : ledger_wf ex_db.
Proof.
  split; [split; simpl | |].
  - exact ex_db_wf.
  - constructor.
  - intros row Hin. inversion Hin.
  - intros row Hin. inversion Hin.
  - intros row Hin. inversion Hin.
  - intros id. split.
    + intros (row & Hf & _). discriminate.
    + intros [row Hf]. discriminate.
  - intros a. reflexivity.
Qed.

(** The value and the database of a transaction that returns. *)
Definition db_of {A} (c : result (A * Db)) : Db :=
  match c with Ok (_, db) => db | Err _ => empty_db end.
Definition returned {A} `{EqDecision A} (c : result (A * Db)) (a : A) : bool :=
  match c with Ok (x, _) => eqb x a | Err _ => false end.

Lemma returned_Ok {A} `{EqDecision A} (c : result (A * Db)) a :
  returned c a = true -> c = Ok (a, db_of c).
Proof.
  destruct c as [[x db] |]; simpl; [| discriminate]. intros Hx.
  apply bool_decide_eq_true in Hx. congruence.
Qed.

Definition ex_reserved : Db := db_of (reserve ex_db ex_reservation).
Definition ex_claimed : Db :=
  db_of (claim_reservation ex_reserved (Some (scope_ref (at_ref 4 "budget_reservation" "r1")))
           ex_action ex_pending).
Definition ex_committed : Db := db_of (commit_usage ex_claimed ex_entry "r2" 2 3).
Definition ex_released : Db := db_of (release ex_reserved (ex_final R_RELEASED None)).

Lemma ex_reserve : reserve ex_db ex_reservation = Ok (ex_reservation, ex_reserved).
Proof. unfold ex_reserved. apply returned_Ok. vm_compute. reflexivity. Qed.
Lemma ex_claim :
  claim_reservation ex_reserved (Some (scope_ref (at_ref 4 "budget_reservation" "r1")))
    ex_action ex_pending = Ok (ex_reservation, ex_claimed).
Proof. unfold ex_claimed. apply returned_Ok. vm_compute. reflexivity. Qed.
Lemma ex_commit_usage : commit_usage ex_claimed ex_entry "r2" 2 3 = Ok (ex_entry, ex_committed).
Proof. unfold ex_committed. apply returned_Ok. vm_compute. reflexivity. Qed.
Lemma ex_release : release ex_reserved (ex_final R_RELEASED None)
                   = Ok (ex_final R_RELEASED None, ex_released).
Proof. unfold ex_released. apply returned_Ok. vm_compute. reflexivity. Qed.

(** ** Histories *)

Lemma ex_step_reserve P : ledger_step P ex_db ex_reserved.
Proof. eapply ls_reserve. exact ex_reserve. Qed.
Lemma ex_step_claim P : ledger_step P ex_reserved ex_claimed.
Proof. eapply ls_claim. exact ex_claim. Qed.
Lemma ex_step_commit (P : Db -> BudgetLedgerEntry -> Prop) :
  P ex_claimed ex_entry -> ledger_step P ex_claimed ex_committed.
Proof. intros HP. eapply ls_commit; [exact HP |]. exact ex_commit_usage. Qed.

Lemma ex_history (P : Db -> BudgetLedgerEntry -> Prop) :
  P ex_claimed ex_entry -> rtc (ledger_step P) ex_db ex_committed.
Proof.
  intros HP. apply (rtc_l _ _ ex_reserved _ (ex_step_reserve P)).
  apply (rtc_l _ _ ex_claimed _ (ex_step_claim P)). apply rtc_once, ex_step_commit, HP.
Qed.

Lemma ex_committed_reachable : rtc (store_step (R := Rec)) empty_store (db_store ex_committed).
Proof.
  etransitivity; [exact ex_store_reachable |].
  exact (ledger_steps_store any_commit ex_db ex_committed (ex_history any_commit I)).
Qed.

Definition ex_committed_row : ReservationRow :=
  mkReservationRow "reservation" "an" "q1" R_COMMITTED
    (ex_final R_COMMITTED (Some (at_ref 6 "budget_ledger_entry" "e1")))
    (scope_ref (at_ref 4 "budget_reservation" "r1")) true (Some 1).

(** ** The ledger *)

Lemma ledger_balanced_witness :
  map e_sequence (ledger_entries ex_committed "an") = [1]
  /\ is_Some (find_entry ex_committed "reservation").
Proof.
  destruct (ledger_balanced ex_db ex_committed ex_ledger_wf (ex_history any_commit I)) as [H1 H2].
  split; [rewrite H2; vm_compute; reflexivity |].
  apply H1. exists ex_committed_row. split; vm_compute; reflexivity.
Defined.

Lemma ex_committed_wf : ledger_wf ex_committed.
Proof. exact (ledger_steps_wf any_commit _ _ (ex_history any_commit I) ex_ledger_wf). Qed.

Lemma reservation_settles_once_witness :
  exists row', find_reservation ex_committed "reservation" = Some row'
    /\ r_requested_units (rr_payload row') = ex_units.
Proof.
  assert (Hs : rtc (ledger_step any_commit) ex_reserved ex_committed).
  { apply (rtc_l _ _ ex_claimed _ (ex_step_claim _)). apply rtc_once, ex_step_commit. exact I. }
  destruct (reservation_settles_once ex_reserved ex_committed "reservation"
              (mkReservationRow "reservation" "an" "q1" R_RESERVED ex_reservation
                 (scope_ref (at_ref 4 "budget_reservation" "r1")) false (Some 1)))
    as (row' & Hf & Hu & _);
    [exact (reserve_wf _ _ _ _ ex_ledger_wf ex_reserve) | exact Hs | vm_compute; reflexivity |].
  exists row'. split; [exact Hf | exact Hu].
Defined.

Lemma ex_late_release :
  release ex_committed (ex_final R_RELEASED None)
  = Ok (ex_final R_COMMITTED (Some (at_ref 6 "budget_ledger_entry" "e1")),
        db_of (release ex_committed (ex_final R_RELEASED None))).
Proof. apply returned_Ok. vm_compute. reflexivity. Qed.

Lemma claimed_once_witness :
  db_of (release ex_committed (ex_final R_RELEASED None)) = ex_committed.
Proof.
  refine (proj2 (proj2 (claimed_once _ _ _ _ _ _ ex_committed
                          (reserve_wf _ _ _ _ ex_ledger_wf ex_reserve) ex_claim _)
                   _ _ _ ex_late_release eq_refl)).
  apply rtc_once, ex_step_commit. exact I.
Defined.

Lemma reserve_idempotent_witness :
  exists row, find_reservation ex_committed "reservation" = Some row
    /\ reserve ex_committed ex_reservation = Ok (rr_payload row, ex_committed).
Proof.
  destruct (reserve_idempotent _ _ _ _ ex_committed ex_ledger_wf ex_reserve) as (row & H1 & H2 & _).
  - apply (rtc_l _ _ ex_claimed _ (ex_step_claim _)). apply rtc_once, ex_step_commit. exact I.
  - exists row. split; [exact H1 | exact H2].
Defined.

Lemma ex_claimed_wf : ledger_wf ex_claimed.
Proof.
  exact (ledger_step_wf any_commit _ _ (reserve_wf _ _ _ _ ex_ledger_wf ex_reserve)
           (ex_step_claim _)).
Qed.

Lemma commit_idempotent_witness :
  commit_usage ex_committed ex_entry "r9" 8 9 = Ok (ex_entry, ex_committed).
Proof.
  exact (commit_idempotent _ _ _ _ _ _ _ ex_committed "r9" 8 9 ex_claimed_wf ex_commit_usage
           (rtc_refl _ _)).
Defined.

Lemma ex_within : within_reservation ex_claimed ex_entry.
Proof.
  intros initial row Hi Hf.
  assert (Hi' : resolve_db ex_claimed (e_reservation_ref ex_entry) false = Ok (RecReservation ex_reservation))
    by (vm_compute; reflexivity).
  rewrite Hi' in Hi. injection Hi as <-.
  assert (Hf' : find_reservation ex_claimed "reservation"
                = Some (mkReservationRow "reservation" "an" "q1" R_RESERVED ex_reservation
                          (scope_ref (at_ref 4 "budget_reservation" "r1")) true (Some 1)))
    by (vm_compute; reflexivity).
  simpl in Hf. rewrite Hf' in Hf. injection Hf as <-. repeat constructor; simpl; lia.
Qed.

Lemma budget_never_exceeded_witness : within_limits ex_committed "an" ex_profile.
Proof.
  apply (budget_never_exceeded ex_db ex_committed "an" ex_run ex_profile ex_ledger_wf eq_refl).
  - vm_compute. reflexivity.
  - repeat constructor; vm_compute; discriminate.
  - exact (ex_history within_reservation ex_within).
Defined.

(** ** The registry and the hierarchy *)

Lemma execution_fuel_enough_witness :
  execution_fuel 2 ex_db (at_ref 0 "execution_budget_profile" "p1") "an"
  = execution ex_db (at_ref 0 "execution_budget_profile" "p1") "an".
Proof. apply (execution_fuel_enough _ _ _ 2 ex_db_wf). lia. Defined.

Lemma execution_sound_witness :
  exists st, get_run ex_db "an" = Ok st /\ ap_status (ep_approval ex_profile) = ACTIVE.
Proof.
  destruct (execution_sound ex_db (at_ref 0 "execution_budget_profile" "p1") "an" ex_profile ex_db_wf)
    as (st & H1 & _ & _ & _ & H2 & _); [vm_compute; reflexivity |].
  exists st. split; [exact H1 | exact H2].
Defined.

Lemma verification_root_correct_witness : w_work_type ex_pending <> VERIFICATION.
Proof.
  pose proof (verification_root_correct ex_db ex_pending ex_db_wf) as Hroot.
  assert (Hn : verification_root ex_db ex_pending = Ok None) by (vm_compute; reflexivity).
  rewrite Hn in Hroot. apply Hroot, rtc_refl.
Defined.

(** A Verification work under its caps. *)
Definition ex_verification_ref : StoredDataRef :=
  mkStoredDataRef "v1" "verification_budget_profile" (ex_hash_at 8 "verification_budget_profile")
    "ws" "commit" (Some "v1").
Definition ex_dynamic_ref : StoredDataRef :=
  mkStoredDataRef "y1" "dynamic_reproduction_lifecycle_profile"
    (ex_hash_at 9 "dynamic_reproduction_lifecycle_profile") "ws" "commit" (Some "y1").
Definition ex_binding : BudgetProfileBinding :=
  mkBinding (ex_code_meta "budget_profile_binding" "b1")
    (mkApproval (Some (ex_code_ref "approval" "ok")) (Some "R8") (Some 0) ACTIVE) "default" PRODUCTION
    (at_run 0 "execution_budget_profile" "p1") ex_dynamic_ref ex_verification_ref ex_dynamic_ref.
Definition ex_verification_work : WorkExecutionState :=
  mkWork (ex_code_meta "work_execution_state" "vw1") "vwork" None VERIFICATION S_HYPOTHESIS
    (SubHypothesis "h1") 1 PENDING 1 None None None ex_hash ex_hash None [] [] [] [] [] None None
    None 0.
Definition ex_hierarchy_db : Db :=
  set_store ex_db (put (put ex_store (RecVerification ex_verification)) (RecDynamic ex_dynamic)).

Lemma check_hierarchy_caps_witness :
  u_work_count ex_units + 0 <= max_work_per_verification ex_verification.
Proof.
  refine (proj1 (check_hierarchy_caps ex_hierarchy_db ex_reservation ex_verification_work ex_action
                   ex_binding "vwork" ex_verification ex_run None _ _ _ _ _)); by_vm.
Defined.

(** ** The store *)

Lemma ex_resolve_first :
  resolve (R := Rec) (db_store ex_committed) (scope_ref (at_ref 4 "budget_reservation" "r1")) false
  = Ok (RecReservation ex_reservation).
Proof. vm_compute. reflexivity. Qed.

Definition ex_second : Rec :=
  RecReservation (ex_final R_COMMITTED (Some (at_ref 6 "budget_ledger_entry" "e1"))).
Definition ex_second_ref : RecordRef := scope_ref (at_ref 5 "budget_reservation" "r2").

Lemma ex_resolve_second :
  resolve (R := Rec) (db_store ex_committed) ex_second_ref false = Ok ex_second.
Proof. vm_compute. reflexivity. Qed.

Lemma published_history_witness :
  exists! r', published (db_store ex_committed) r'
    /\ logical_record_id (rec_rev r') = "r1" /\ revision_number (rec_rev r') = 1.
Proof.
  apply (published_history (db_store ex_committed) ex_second 1 ex_committed_reachable).
  - apply (resolve_published _ ex_second_ref);
      [exact (store_steps_wf _ _ ex_committed_reachable empty_store_wf) | exact ex_resolve_second].
  - vm_compute. split; discriminate.
Defined.

Lemma resolve_durable_witness :
  resolve (db_store ex_committed) (scope_ref (at_ref 0 "execution_budget_profile" "p1")) false
  = Ok (RecExecution ex_profile).
Proof.
  apply (resolve_durable ex_store _ _ _ _ ex_store_reachable).
  - exact (ledger_steps_store any_commit ex_db ex_committed (ex_history any_commit I)).
  - vm_compute. reflexivity.
Defined.

Lemma stage_publish_resolve_witness :
  exists s1 s2,
    stage ex_store (RecReservation ex_reservation)
      = Ok (scope_ref (at_ref 4 "budget_reservation" "r1"), s1)
    /\ resolve s2 (scope_ref (at_ref 4 "budget_reservation" "r1")) false
       = Ok (RecReservation ex_reservation).
Proof.
  destruct (stage ex_store (RecReservation ex_reservation)) as [[ref s1] |] eqn:Hs;
    [| exfalso; vm_compute in Hs; discriminate].
  destruct (publish (R := Rec) s1 ref) as [s2 |] eqn:Hp;
    [| exfalso; vm_compute in Hs; injection Hs as <- <-; vm_compute in Hp; discriminate].
  assert (ref = scope_ref (at_ref 4 "budget_reservation" "r1")) as ->.
  { vm_compute in Hs. injection Hs as <- _. vm_compute. reflexivity. }
  exists s1, s2. split; [reflexivity |].
  exact (proj1 (stage_publish_resolve _ _ _ _ _ ex_store_reachable Hs Hp)).
Defined.

Lemma resolve_exact_witness :
  reference (RecReservation ex_reservation)
  = Ok (scope_ref (at_ref 4 "budget_reservation" "r1")).
Proof. exact (proj1 (resolve_exact _ _ _ _ ex_committed_reachable ex_resolve_first)). Defined.

Lemma is_revision_descendant_witness :
  exists b, is_revision_descendant (R := Rec) (db_store ex_committed)
              (scope_ref (at_ref 4 "budget_reservation" "r1")) ex_second_ref = Some (Ok b)
    /\ (b = true <-> rtc (predecessor (db_store ex_committed)) ex_second (RecReservation ex_reservation)).
Proof.
  exact (is_revision_descendant_correct _ _ _ _ _ ex_committed_reachable
           ex_resolve_first ex_resolve_second).
Defined.
