(* ===== verification/DispatchExamples.v ===== *)
(** * Examples for the dispatch boundary

    One tool run: its dispatch row is prepared, sent and answered; and the same
    reservation released by lease recovery when the request was never sent. *)
From S2P Require Import Prelude Records Hash CanonicalJson Store Work Actions Budget Runtime.
From S2P Require Import Registry Hierarchy Ledger Dispatch Finite WorkLife ContractExamples.
From S2P Require Import LedgerExamples.

Definition dx_action : ActionRequest :=
  mkAction (ex_meta "action_request" "q1" 0) "q1" Q_ORCHESTRATION (ex_ref "identity" "i1")
    RUN_TOOL (Some (ex_ref "work_execution_state" "w1")) (Some 1) None None [] [] None None
    None None None (Some "tool") ["main.py"] None None None None None None [] None "Run" 0.

Definition dx_reservation (id : string) (rev : RunMeta) (status : ReservationStatus)
  (finalized : option Z) : BudgetReservation :=
  mkReservation rev "reservation" (at_ref 9 "execution_budget_profile" "p1")
    (at_ref 1 "action_request" "q1") (at_ref 0 "work_execution_state" "w1") ex_units status None 1
    finalized.

Definition dx_reserved : BudgetReservation :=
  dx_reservation "r1" (ex_meta "budget_reservation" "r1" 1) R_RESERVED None.
Definition dx_released : BudgetReservation :=
  dx_reservation "r2"
    (mkRunMeta (next_rev (ex_meta "budget_reservation" "r1" 1) "r2" 2) "an" None) R_RELEASED (Some 3).

#[local] Instance dx_codec : Codec :=
  finite_codec [RecWork ex_pending; RecAction dx_action; RecReservation dx_reserved;
                RecReservation dx_released].
#[local] Instance dx_evidence : TrustedEvidence := {|
  pricing := fun _ => true; item_count := fun _ _ => Some 1;
|}.
#[local] Instance dx_laws : CodecLaws := finite_laws _.

Definition dx_store : Store :=
  put (put (put empty_store (RecWork ex_pending)) (RecAction dx_action)) (RecReservation dx_reserved).

Lemma dx_store_wf : store_wf (R := Rec) dx_store.
Proof.
  apply (store_steps_wf empty_store); [| exact empty_store_wf].
  unfold dx_store. do 2 (etransitivity; [| apply put_steps]). apply put_steps.
Qed.

Definition dx_row : ReservationRow :=
  mkReservationRow "reservation" "an" "q1" R_RESERVED dx_reserved
    (scope_ref (at_ref 2 "budget_reservation" "r1")) true (Some 1).

(** A work that runs its first attempt. *)
Definition dx_work : WorkRow :=
  mkWorkRow "key"
    (mkWork (ex_meta "work_execution_state" "w1" 0) "work" None WORKSPACE_PREP S_ANALYSIS
       (SubAnalysis "an") 1 RUNNING 1 None None (Some "attempt") ex_hash ex_hash None [] [] [] [] []
       None None None 0) None None.

Definition dx_db : Db :=
  mkDb dx_store ∅ ∅ [] {[ "work" := dx_work ]} ∅ ∅ [dx_row] [] [] ∅ [] [].

Lemma dx_ledger_wf : ledger_wf dx_db.
Proof.
  split; [split; simpl | |].
  - exact dx_store_wf.
  - repeat constructor. set_solver.
  - intros row Hin. apply list_elem_of_singleton in Hin. subst. repeat split.
  - intros row Hin. apply list_elem_of_singleton in Hin. subst. exists dx_reserved.
    split; [vm_compute; reflexivity |]. split; reflexivity.
  - intros row Hin. inversion Hin.
  - intros id. unfold find_reservation. simpl. split.
    + intros (row & Hf & Hs). case_bool_decide; [| discriminate]. injection Hf as <-. discriminate Hs.
    + intros [row Hf]. discriminate.
  - intros a. reflexivity.
Qed.

Lemma dx_dispatch_wf : dispatch_wf dx_db.
Proof. split; simpl; [constructor | intros x x' Hx; inversion Hx]. Qed.

Definition ok_db (c : result Db) : Db := match c with Ok db => db | Err _ => empty_db end.
Lemma ok_db_Ok c : match c with Ok _ => true | Err _ => false end = true -> c = Ok (ok_db c).
Proof. destruct c; [reflexivity | discriminate]. Qed.

Definition dx_decision : RecordRef := scope_ref (at_ref 5 "action_decision" "d1").
Definition dx_prepared : Db :=
  ok_db (insert_dispatch dx_db "q1" "work" "attempt" dx_decision
           (scope_ref (at_ref 2 "budget_reservation" "r1")) 4).
Definition dx_sent : Db := ok_db (mark_dispatched dx_prepared dx_decision (Some "req") None 5).
Definition dx_returned : Db := ok_db (mark_returned dx_sent dx_decision 6).

Lemma dx_step_prepare : dispatch_step dx_db dx_prepared.
Proof. eapply ds_prepare. apply ok_db_Ok. vm_compute. reflexivity. Qed.
Lemma dx_send : mark_dispatched dx_prepared dx_decision (Some "req") None 5 = Ok dx_sent.
Proof. apply ok_db_Ok. vm_compute. reflexivity. Qed.
Lemma dx_step_return : dispatch_step dx_sent dx_returned.
Proof. eapply ds_return. apply ok_db_Ok. vm_compute. reflexivity. Qed.

Lemma dx_prepared_wf : dispatch_wf dx_prepared.
Proof. exact (proj1 (dispatch_step_Ok _ _ dx_dispatch_wf dx_step_prepare)). Qed.

Lemma one_request_in_flight_witness :
  Forall (fun x => Forall (fun x' => unresolved x = true -> unresolved x' = true ->
                             x_work_id x = x_work_id x' -> x = x')
                     (external_dispatches dx_sent)) (external_dispatches dx_sent).
Proof.
  apply Forall_forall. intros x Hx. apply Forall_forall. intros x' Hx'.
  refine (proj1 (one_request_in_flight dx_db dx_sent dx_dispatch_wf _) x x' Hx Hx').
  apply (rtc_l _ _ dx_prepared _ dx_step_prepare). apply rtc_once. eapply ds_dispatch, dx_send.
Defined.

Lemma dispatched_once_witness :
  exists e, mark_dispatched dx_returned dx_decision (Some "again") None 9 = Err e.
Proof.
  exact (proj2 (dispatched_once _ _ _ _ _ _ dx_returned dx_prepared_wf dx_send
                  (rtc_once _ _ dx_step_return)) (Some "again") None 9).
Defined.

Definition dx_tick (id : string) : string * Z * Z * Z := ("r2", 2, 3, 4).
Definition dx_recovered : Db := ok_db (retire_undispatched dx_tick dx_db ex_pending).

Lemma dx_recover : retire_undispatched dx_tick dx_db ex_pending = Ok dx_recovered.
Proof. apply ok_db_Ok. vm_compute. reflexivity. Qed.

(** The tool run was never sent: its reservation is released. *)
Lemma recovery_releases_unsent_witness :
  exists row', find_reservation dx_recovered "reservation" = Some row' /\ retired row'.
Proof.
  destruct (recovery_releases_unsent dx_tick ex_pending dx_db dx_recovered dx_ledger_wf
              dx_dispatch_wf dx_recover) as [_ Hall].
  destruct (Hall "reservation" dx_row ltac:(vm_compute; reflexivity)) as [[_ Hr] | [Hno _]];
    [exact Hr |].
  exfalso. apply Hno. split; [reflexivity |]. split; [reflexivity |].
  split; [vm_compute; reflexivity |]. exists dx_action.
  split; [vm_compute; reflexivity |]. split; [| reflexivity].
  apply (bool_decide_unpack _). vm_compute. exact I.
Defined.
