(* ===== verification/RuntimeExamples.v ===== *)
(** * Examples for the runtime services

    A bootstrap run taken from an empty work table to a running attempt: each
    action is decided by [authorize], then used by the service it is for. The
    theorems on histories are applied to this run. *)
From S2P Require Import Prelude Records Hash CanonicalJson Store Work Processes WorkLife Actions.
From S2P Require Import Budget Runtime Registry Hierarchy Ledger Dispatch Authority Outputs Validator.
From S2P Require Import Services Projections Transition History Finite ContractExamples.
From S2P Require Import LedgerExamples.

(** ** Records *)

Definition hx_profile_ref : BudgetScopeRef := at_ref 0 "execution_budget_profile" "p1".

Definition hx_action (id : string) (kind : ActionType) (work : option BudgetScopeRef)
  (version : option Z) : ActionRequest :=
  mkAction (ex_meta "action_request" id 0) id Q_ORCHESTRATION (ex_ref "identity" "i1") kind work
    version None None [] [] None None None None None None [] None None None None None None [] None
    "Run" 0.

Definition hx_register : ActionRequest := hx_action "q1" REGISTER_WORK None None.
Definition hx_change : ActionRequest :=
  hx_action "q2" CHANGE_WORK_STATE (Some (at_ref 2 "work_execution_state" "w1")) (Some 1).
Definition hx_start : ActionRequest :=
  hx_action "q3" START_ATTEMPT (Some (at_ref 11 "work_execution_state" "w2")) (Some 2).

Definition hx_reservation (id action : string) (i j : Z) (work : string) : BudgetReservation :=
  mkReservation (ex_meta "budget_reservation" id 1) id hx_profile_ref
    (at_ref i "action_request" action) (at_ref j "work_execution_state" work) ex_units R_RESERVED
    None 1 None.
Definition hx_r1 : BudgetReservation := hx_reservation "r1" "q1" 3 2 "w1".
Definition hx_r2 : BudgetReservation := hx_reservation "r2" "q3" 12 11 "w2".

(** The decisions [authorize] takes when every check passes, and their claims. *)
Definition hx_tick (id : string) : AuthTick := mkAuthTick id 1 id 2 "e" 3.
Definition hx_decision (id : string) (q : ActionRequest) (i : Z) (version : Z)
  (refs : list CheckedConfigurationRef) : ActionDecision :=
  decision_of q (at_ref i "action_request" (q_action_id q)) (hx_tick id)
    (Some (next_work ex_pending (w_meta ex_pending) PENDING version None None None [] [] [] []
             None None None))
    (map (fun k => mkActionCheck k PASS "OK" "Trusted runtime check passed.")
       (sorted_checks (q_action_type q))) refs.
Definition hx_used (d : ActionDecision) (id : string) : ActionDecision :=
  used_decision d (mkRunMeta (next_rev (d_meta d) id 4) "an" None) 4.

Definition hx_d1 := hx_decision "d1" hx_register 3 1 [CScope hx_profile_ref].
Definition hx_d2 := hx_decision "d2" hx_change 8 1 [].
Definition hx_d3 := hx_decision "d3" hx_start 12 2 [CScope hx_profile_ref].

Definition hx_transition (id : string) (i : Z) (decision : string) (from : WorkStatus)
  (to : TransitionTargetStatus) (version : Z) (attempt : option string) : StateTransition :=
  mkTransition (ex_meta "state_transition" id 0) id "work" (at_ref i "action_decision" decision)
    from to version (version + 1) attempt "RUN" [] [] [] ex_hash 0.
Definition hx_t1 := hx_transition "t1" 9 "d2" PENDING T_READY 1 None.
Definition hx_t2 := hx_transition "t2" 14 "d3" READY T_RUNNING 2 (Some "attempt").

Definition hx_w2 : WorkExecutionState :=
  ready_work ex_pending (ex_next ex_pending "w2" 4) hx_t1 (at_ref 7 "state_transition" "t1").
Definition hx_w3 : WorkExecutionState :=
  running_work hx_w2 (ex_next hx_w2 "w3" 4) hx_t2 (at_ref 16 "state_transition" "t2") ex_attempt.

(** The attempt fails: its result, journaled and published. *)
Definition hx_next (m : RunMeta) (id : string) : RunMeta := mkRunMeta (next_rev m id 4) "an" None.
Definition hx_fail : ActionRequest :=
  hx_action "q4" CHANGE_WORK_STATE (Some (at_ref 18 "work_execution_state" "w3")) (Some 3).
Definition hx_d4 := hx_decision "d4" hx_fail 19 3 [].
Definition hx_t3 : StateTransition :=
  mkTransition (ex_meta "state_transition" "t3" 0) "t3" "work" (at_ref 20 "action_decision" "d4")
    RUNNING T_FAILED 3 4 (Some "attempt") "FAILED" [] [] ["error"] ex_hash 0.
Definition hx_c1 : TransitionCommit :=
  mkCommit (ex_meta "transition_commit" "c1" 0) "c1" "work" (at_ref 22 "state_transition" "t3") 3 4
    (Some "attempt") C_FAILED [] [] ["error"] PREPARED 0 None None.
Definition hx_settled (id : string) (state : CommitState) (at_ : option Z) (reason : option string)
  : TransitionCommit := settled_commit hx_c1 (hx_next (c_meta hx_c1) id) state at_ reason.
Definition hx_committed := hx_settled "c2" COMMITTED (Some 4) None.
Definition hx_w4 : WorkExecutionState :=
  finished_work hx_w3 (ex_next hx_w3 "w4" 4) hx_t3 hx_c1 (at_ref 24 "transition_commit" "c2") W_INPUT 4.

(** The cancellation of the running work. *)
Definition hx_q5 : ActionRequest :=
  cancel_action hx_w3 (ex_meta "action_request" "q5" 4) "q5" (ex_ref "identity" "i1")
    (at_ref 18 "work_execution_state" "w3") 4.
Definition hx_d5 : ActionDecision :=
  decision_of hx_q5 (at_ref 29 "action_request" "q5") (mkAuthTick "d5" 4 "d5" 4 "e" 4) (Some hx_w3)
    (map (fun k => mkActionCheck k PASS "OK" "Trusted runtime check passed.")
       (sorted_checks CANCEL_WORK)) [].
Definition hx_dedupe : string :=
  match content_hash [] (VSequence [id_value "work"; VInt 3; VStr "CANCELLED"]) with
  | Ok h => h | Err _ => EmptyString
  end.
Definition hx_t4 : StateTransition :=
  cancel_transition hx_w3 (ex_meta "state_transition" "t4" 4) "t4" hx_dedupe
    (at_ref 30 "action_decision" "d5") 4.
Definition hx_c3 : TransitionCommit :=
  cancel_commit hx_w3 (ex_meta "transition_commit" "c3" 4) "c3" (at_ref 32 "state_transition" "t4") 4.
Definition hx_w5 : WorkExecutionState :=
  cancelled_work hx_w3 (ex_next hx_w3 "w5" 4) (at_ref 32 "state_transition" "t4")
    (at_ref 34 "transition_commit" "c4") 4.

(** The run's input, and the claim of the READY work by the scheduler. *)
Definition hx_input : Rec := RecOther (MRun (ex_meta "analysis_run_input" "in" 0)) None "input".
Definition hx_hash (fields : list value) : string :=
  match content_hash [] (VSequence fields) with Ok h => h | Err _ => EmptyString end.

Definition hx_q6 : ActionRequest :=
  mkAction (ex_meta "action_request" "q6" 4) "q6" Q_ORCHESTRATION (ex_ref "identity" "i1")
    START_ATTEMPT (Some (at_ref 11 "work_execution_state" "w2")) (Some 2) None None [] [] None None
    None None None None [] None None None None None None [] None "Claim exact READY work" 4.
Definition hx_r3 : BudgetReservation :=
  mkReservation (ex_meta "budget_reservation" "r3" 4) "r3" hx_profile_ref
    (at_ref 38 "action_request" "q6") (at_ref 11 "work_execution_state" "w2")
    (mkUnits 0 0 0 0 0 "USD") R_RESERVED None 4 None.
Definition hx_d6 := hx_decision "d6" hx_q6 38 2 [CScope hx_profile_ref].
Definition hx_t6 : StateTransition :=
  mkTransition (ex_meta "state_transition" "t6" 4) "t6" "work" (at_ref 40 "action_decision" "d6")
    READY T_RUNNING 2 3 (Some "b1") "STARTED" [] [] []
    (hx_hash [id_value "work"; VInt 2; VStr "RUNNING"; id_value "b1"]) 4.
Definition hx_attempt6 : WorkAttempt :=
  mkAttempt (ex_meta "work_attempt" "b1m" 4) "work" "b1" 1 INITIAL ex_hash A_RUNNING [] [] [] 4 None 0.
Definition hx_w6 : WorkExecutionState :=
  running_work hx_w2 (ex_next hx_w2 "w6" 4) hx_t6 (at_ref 42 "state_transition" "t6") hx_attempt6.
Definition hx_e6 : BudgetLedgerEntry :=
  mkLedgerEntry (ex_meta "budget_ledger_entry" "e6" 4) "e6" (at_ref 39 "budget_reservation" "r3")
    hx_profile_ref (at_ref 38 "action_request" "q6") (at_ref 11 "work_execution_state" "w2")
    (mkUnits 0 0 0 0 0 "USD") [] 1 4.
Definition hx_r3c : BudgetReservation :=
  mkReservation (mkRunMeta (next_rev (r_meta hx_r3) "r3c" 4) "an" None) "r3" hx_profile_ref
    (at_ref 38 "action_request" "q6") (at_ref 11 "work_execution_state" "w2")
    (mkUnits 0 0 0 0 0 "USD") R_COMMITTED (Some (at_ref 46 "budget_ledger_entry" "e6")) 4 (Some 4).
(** The same attempt under a renewed lease. *)
Definition hx_renewed : WorkAttempt :=
  mkAttempt (hx_next (a_meta hx_attempt6) "b2m") "work" "b1" 1 INITIAL ex_hash A_RUNNING [] [] [] 4
    None 7.

(** The attempt waits for an input, and the user reopens the work. *)
Definition hx_t7 : StateTransition :=
  mkTransition (ex_meta "state_transition" "t7" 0) "t7" "work" (at_ref 20 "action_decision" "d4")
    RUNNING T_BLOCKED 3 4 (Some "attempt") "WAITING_FOR_INPUT" [] [] [] ex_hash 0.
Definition hx_c7 : TransitionCommit :=
  mkCommit (ex_meta "transition_commit" "c7" 0) "c7" "work" (at_ref 48 "state_transition" "t7") 3 4
    (Some "attempt") C_BLOCKED [] [] [] PREPARED 0 None None.
Definition hx_c8 : TransitionCommit :=
  settled_commit hx_c7 (hx_next (c_meta hx_c7) "c8") COMMITTED (Some 4) None.
Definition hx_w7 : WorkExecutionState :=
  finished_work hx_w3 (ex_next hx_w3 "w7" 4) hx_t7 hx_c7 (at_ref 50 "transition_commit" "c8") W_INPUT 4.
Definition hx_ended : WorkAttempt :=
  ended_attempt ex_attempt (hx_next (a_meta ex_attempt) "a7") hx_w7 hx_c7 4.
Definition hx_q8 : ActionRequest :=
  mkAction (ex_meta "action_request" "q8" 4) "q8" Q_ORCHESTRATION (ex_ref "identity" "i1")
    CHANGE_WORK_STATE (Some (at_ref 51 "work_execution_state" "w7")) (Some 4) None None [] [] None None
    None None None None [] None None None None None None [] None "Resume exact local repair work" 4.
Definition hx_d8 := hx_decision "d8" hx_q8 53 4 [].
Definition hx_t8 : StateTransition :=
  mkTransition (ex_meta "state_transition" "t8" 4) "t8" "work" (at_ref 54 "action_decision" "d8")
    BLOCKED T_READY 4 5 None "USER_RESUME" [] [] []
    (hx_hash [id_value "work"; VInt 4; VStr "USER_RESUME"]) 4.
Definition hx_w8 : WorkExecutionState :=
  resumed_work hx_w7 (ex_next hx_w7 "w8" 4) hx_t8 (at_ref 56 "state_transition" "t8").

(** A tool run of the RUNNING work. *)
Definition hx_q9 : ActionRequest :=
  mkAction (ex_meta "action_request" "q9" 4) "q9" Q_REPOSITORY_LOADER (ex_ref "identity" "i2")
    RUN_TOOL (Some (at_ref 18 "work_execution_state" "w3")) (Some 3) None None [] [] None None
    None None None (Some "tool") ["main.py"] None None None None None None [] None "Run" 4.
Definition hx_r9 : BudgetReservation :=
  mkReservation (ex_meta "budget_reservation" "r9" 4) "r9" hx_profile_ref
    (at_ref 58 "action_request" "q9") (at_ref 18 "work_execution_state" "w3") ex_units R_RESERVED
    None 4 None.
Definition hx_d9 := hx_decision "d9" hx_q9 58 3 [CScope hx_profile_ref].

Definition hx_records : list Rec :=
  [RecExecution ex_profile; RecRunState ex_run; RecWork ex_pending; RecAction hx_register;
   RecReservation hx_r1; RecDecision hx_d1; RecDecision (hx_used hx_d1 "d1u");
   RecTransition hx_t1; RecAction hx_change; RecDecision hx_d2; RecDecision (hx_used hx_d2 "d2u");
   RecWork hx_w2; RecAction hx_start; RecReservation hx_r2; RecDecision hx_d3;
   RecDecision (hx_used hx_d3 "d3u"); RecTransition hx_t2; RecAttempt ex_attempt; RecWork hx_w3;
   RecAction hx_fail; RecDecision hx_d4; RecDecision (hx_used hx_d4 "d4u"); RecTransition hx_t3;
   RecCommit hx_c1; RecCommit hx_committed;
   RecDecision (completed_decision (hx_used hx_d4 "d4u")
                  (hx_next (d_meta (hx_used hx_d4 "d4u")) "d4o") []);
   RecAttempt (ended_attempt ex_attempt (hx_next (a_meta ex_attempt) "a2") hx_w4 hx_c1 4);
   RecWork hx_w4; RecCommit (hx_settled "c5" ABORTED None (Some "RUN_CANCELLED"));
   RecAction hx_q5; RecDecision hx_d5; RecDecision (hx_used hx_d5 "d5u"); RecTransition hx_t4;
   RecCommit hx_c3; RecCommit (settled_commit hx_c3 (hx_next (c_meta hx_c3) "c4") COMMITTED (Some 4) None);
   RecAttempt (cancelled_attempt ex_attempt (hx_next (a_meta ex_attempt) "a3") 4); RecWork hx_w5;
   hx_input; RecAction hx_q6; RecReservation hx_r3; RecDecision hx_d6;
   RecDecision (hx_used hx_d6 "d6u"); RecTransition hx_t6; RecAttempt hx_attempt6; RecWork hx_w6;
   RecAttempt hx_renewed; RecLedger hx_e6; RecReservation hx_r3c; RecTransition hx_t7;
   RecCommit hx_c7; RecCommit hx_c8; RecWork hx_w7; RecAttempt hx_ended; RecAction hx_q8;
   RecDecision hx_d8; RecDecision (hx_used hx_d8 "d8u"); RecTransition hx_t8; RecWork hx_w8; RecAction hx_q9;
   RecReservation hx_r9; RecDecision hx_d9; RecDecision (hx_used hx_d9 "d9u")].

#[local] Instance hx_codec : Codec := finite_codec hx_records.
#[local] Instance hx_laws : CodecLaws := finite_laws hx_records.
#[local] Instance hx_evidence : TrustedEvidence := {|
  pricing := fun _ => true;
  item_count := fun _ _ => Some 1;
|}.
#[local] Instance hx_host : Host := {|
  identity_role := fun _ => Some Q_ORCHESTRATION;
  action_evidence := fun _ _ => None;
  authorized_outputs := fun _ => None;
  finding_service_identity_ref := None;
  require_current_capability_ref := fun _ => Err (ValueError "CAPABILITY_RESOLVER_REQUIRED");
  recovery_failed := false;
|}.
#[local] Instance hx_rules : StageRules := {|
  check_stage := fun _ _ _ => Ok tt;
  require_context_request := fun _ _ _ => Ok tt;
  check_context_response := fun _ _ _ => Ok tt;
  initial_assessment := fun _ => (EmptyString, 0);
|}.

(** ** The run *)

Definition hx_store : Store :=
  put (put (put (put (put empty_store (RecExecution ex_profile)) (RecRunState ex_run))
         (RecWork ex_pending)) (RecAction hx_register)) hx_input.

Definition hx_db0 : Db :=
  mkDb hx_store {[ "an" := ex_run ]} {[ "s1" := ("s1", 1) ]} [] ∅ ∅
    {[ ("an", "execution_budget_profile") := scope_ref hx_profile_ref ]} [] [] [] ∅ [] [].
Definition hx_rt (db : Db) : Rt := mkRt db ∅ ∅ ∅ [].
Definition hx_empty : Rt := hx_rt empty_db.

Definition rt_of {A} (c : result (A * Rt)) : Rt :=
  match c with Ok (_, rt) => rt | Err _ => hx_empty end.
Definition gives {A} `{EqDecision A} (c : result (A * Rt)) (a : A) : bool :=
  match c with Ok (x, _) => eqb x a | Err _ => false end.
Lemma gives_Ok {A} `{EqDecision A} (c : result (A * Rt)) a : gives c a = true -> c = Ok (a, rt_of c).
Proof.
  destruct c as [[x rt] |]; simpl; [| discriminate]. intros Hx.
  apply bool_decide_eq_true in Hx. congruence.
Qed.

Definition hx_clock (ids : list string) : Tick := mkTick (fun n => default "" (ids !! n)) (fun _ => 4).

Definition hx_rt0 : Rt := Eval vm_compute in hx_rt (db_of (reserve hx_db0 hx_r1)).
Definition hx_rt1 : Rt := Eval vm_compute in
  rt_of (authorize hx_rt0 (hx_tick "d1") hx_register (Some ex_pending)
           (Some (scope_ref (at_ref 4 "budget_reservation" "r1")))).
Definition hx_rt2 : Rt := Eval vm_compute in
  rt_of (register hx_rt1 (hx_clock ["d1u"]) ex_pending (scope_ref (at_ref 5 "action_decision" "d1"))
           (Some (scope_ref (at_ref 4 "budget_reservation" "r1")))).
Definition hx_rt3 : Rt := Eval vm_compute in rt_of (authorize hx_rt2 (hx_tick "d2") hx_change None None).
Definition hx_rt4 : Rt := Eval vm_compute in rt_of (make_ready hx_rt3 (hx_clock ["d2u"; "w2"]) hx_t1).
Definition hx_db5 : Db := Eval vm_compute in
  db_of (reserve (set_store (rt_db hx_rt4) (put (db_store (rt_db hx_rt4)) (RecAction hx_start)))
           hx_r2).
Definition hx_rt5 : Rt := Eval vm_compute in set_db hx_rt4 hx_db5.
Definition hx_rt6 : Rt := Eval vm_compute in
  rt_of (authorize hx_rt5 (hx_tick "d3") hx_start None
           (Some (scope_ref (at_ref 13 "budget_reservation" "r2")))).
Definition hx_rt7 : Rt := Eval vm_compute in
  rt_of (start hx_rt6 (hx_clock ["w3"; "d3u"]) hx_t2 ex_attempt
           (scope_ref (at_ref 13 "budget_reservation" "r2")) "worker" 9).

(** ** Its history *)

Lemma hx_authorize1 :
  authorize hx_rt0 (hx_tick "d1") hx_register (Some ex_pending)
    (Some (scope_ref (at_ref 4 "budget_reservation" "r1"))) = Ok (hx_d1, hx_rt1).
Proof. vm_compute. reflexivity. Qed.
Lemma hx_registered :
  register hx_rt1 (hx_clock ["d1u"]) ex_pending (scope_ref (at_ref 5 "action_decision" "d1"))
    (Some (scope_ref (at_ref 4 "budget_reservation" "r1"))) = Ok (ex_pending, hx_rt2).
Proof. vm_compute. reflexivity. Qed.
Lemma hx_authorize2 : authorize hx_rt2 (hx_tick "d2") hx_change None None = Ok (hx_d2, hx_rt3).
Proof. vm_compute. reflexivity. Qed.
Lemma hx_made_ready : make_ready hx_rt3 (hx_clock ["d2u"; "w2"]) hx_t1 = Ok (hx_w2, hx_rt4).
Proof. vm_compute. reflexivity. Qed.
Lemma hx_reserved :
  reserve (set_store (rt_db hx_rt4) (put (db_store (rt_db hx_rt4)) (RecAction hx_start))) hx_r2
  = Ok (hx_r2, hx_db5).
Proof. vm_compute. reflexivity. Qed.
Lemma hx_authorize3 :
  authorize hx_rt5 (hx_tick "d3") hx_start None
    (Some (scope_ref (at_ref 13 "budget_reservation" "r2"))) = Ok (hx_d3, hx_rt6).
Proof. vm_compute. reflexivity. Qed.
Lemma hx_started :
  start hx_rt6 (hx_clock ["w3"; "d3u"]) hx_t2 ex_attempt
    (scope_ref (at_ref 13 "budget_reservation" "r2")) "worker" 9 = Ok (hx_w3, hx_rt7).
Proof. vm_compute. reflexivity. Qed.

Lemma put_grown db r : store_grown db (set_store db (put (db_store db) r)).
Proof. exists (put (db_store db) r). split; [reflexivity | apply put_steps]. Qed.

Lemma hx_reserve_step : runtime_step any_commit hx_rt4 hx_rt5.
Proof.
  eapply (rt_other _ _ _ hx_db5);
    [| vm_compute; reflexivity | vm_compute; reflexivity | | reflexivity];
    [| replace (run_controls (rt_db hx_rt4)) with (@nil string) by (vm_compute; reflexivity);
       apply list_subseteq_nil].
  eapply rtc_l; [eapply ls_env, grown_env, put_grown |].
  apply rtc_once. eapply ls_reserve. exact hx_reserved.
Qed.

Lemma hx_run2 : rtc (runtime_step any_commit) hx_rt2 hx_rt7.
Proof.
  eapply rtc_l; [eapply rt_authorize, hx_authorize2 |].
  eapply rtc_l; [eapply rt_make_ready, hx_made_ready |].
  eapply rtc_l; [exact hx_reserve_step |].
  eapply rtc_l; [eapply rt_authorize, hx_authorize3 |].
  apply rtc_once. eapply rt_start, hx_started.
Qed.
Lemma hx_run1 : rtc (runtime_step any_commit) hx_rt1 hx_rt7.
Proof. eapply rtc_l; [eapply rt_register, hx_registered | exact hx_run2]. Qed.
Lemma hx_run : rtc (runtime_step any_commit) hx_rt0 hx_rt7.
Proof. eapply rtc_l; [eapply rt_authorize, hx_authorize1 | exact hx_run1]. Qed.

Lemma hx_db0_wf : ledger_wf hx_db0.
Proof.
  split; [split; simpl | |].
  - apply (store_steps_wf empty_store); [| exact empty_store_wf].
    unfold hx_store. do 4 (etransitivity; [| apply put_steps]). apply put_steps.
  - constructor.
  - intros row Hin. inversion Hin.
  - intros row Hin. inversion Hin.
  - intros row Hin. inversion Hin.
  - intros id. split.
    + intros (row & Hf & _). discriminate.
    + intros [row Hf]. discriminate.
  - intros a. reflexivity.
Qed.

Lemma hx_db_typed db :
  ledger_wf db -> work_states db = ∅ -> work_attempts db = ∅ -> runtime_typed (hx_rt db).
Proof.
  intros Hwf Hw Ha. split; simpl; rewrite ?Hw, ?Ha; try exact Hwf; try constructor;
    intros; (rewrite lookup_empty in *; discriminate) || inversion H.
Qed.

Lemma hx_reserved0 : reserve hx_db0 hx_r1 = Ok (hx_r1, rt_db hx_rt0).
Proof. vm_compute. reflexivity. Qed.

Lemma hx_rt0_typed : runtime_typed hx_rt0.
Proof.
  change hx_rt0 with (hx_rt (rt_db hx_rt0)). apply hx_db_typed; [| vm_compute; reflexivity | vm_compute; reflexivity].
  exact (reserve_wf _ _ _ _ hx_db0_wf hx_reserved0).
Qed.

(** ** Witnesses *)

Lemma runtime_tables_typed_witness : runtime_typed hx_rt7 /\ length (action_decisions hx_rt7) = 3%nat.
Proof.
  split; [exact (runtime_tables_typed _ _ _ hx_rt0_typed hx_run) | vm_compute; reflexivity].
Defined.

Lemma services_refine_life_cycle_witness :
  rtc life_step (works_view hx_rt0) (works_view hx_rt7)
  /\ works_view hx_rt7 !! "work" = Some hx_w3.
Proof.
  split; [exact (services_refine_life_cycle _ _ _ hx_rt0_typed hx_run) | vm_compute; reflexivity].
Defined.

Lemma parallel_work_bounded_witness :
  Z.of_nat (running (rt_db hx_rt7) "an") <= 2 /\ running (rt_db hx_rt7) "an" = 1%nat.
Proof.
  split; [| vm_compute; reflexivity].
  refine (parallel_work_bounded any_commit hx_rt0 hx_rt7 "an" ex_run ex_profile hx_rt0_typed _ _ _ hx_run).
  - vm_compute. reflexivity.
  - vm_compute. reflexivity.
  - vm_compute. discriminate.
Defined.

Lemma action_used_once_witness :
  exists row', row' ∈ action_decisions hx_rt7 /\ dr_action_id row' = "q1"
    /\ d_use_status (dr_payload row') = USED.
Proof.
  destruct (action_used_once any_commit hx_rt2 hx_rt7
              (mkDecisionRow "d1" "q1" (hx_used hx_d1 "d1u"))) as [(row' & Hin & Hid & Hu & _) _].
  - apply (runtime_step_typed any_commit hx_rt1);
      [| eapply rt_register, hx_registered].
    apply (runtime_step_typed any_commit hx_rt0); [exact hx_rt0_typed |].
    eapply rt_authorize, hx_authorize1.
  - replace (action_decisions hx_rt2) with [mkDecisionRow "d1" "q1" (hx_used hx_d1 "d1u")]
      by (vm_compute; reflexivity). left.
  - exact hx_run2.
  - exists row'. auto.
Defined.

Lemma decision_final_witness :
  authorize hx_rt7 (hx_tick "again") hx_register None None = Ok (hx_d1, hx_rt7).
Proof.
  exact (proj1 (decision_final any_commit _ _ _ _ _ _ _ _ hx_rt0_typed hx_authorize1 hx_run1)
           (hx_tick "again") None None).
Defined.

Lemma registered_once_witness :
  exists row, wr_payload row = hx_w3
    /\ register hx_rt7 (hx_clock []) ex_pending (scope_ref (at_ref 5 "action_decision" "d1")) None
       = Ok (wr_payload row, hx_rt7).
Proof.
  destruct (registered_once any_commit hx_rt1 _ _ _ _ _ _ hx_rt7
              (runtime_step_typed any_commit hx_rt0 _ hx_rt0_typed
                 (rt_authorize _ _ _ _ _ _ _ _ hx_authorize1)) hx_registered hx_run2)
    as (row & Hrow & _ & Hr).
  exists row. split.
  - apply (f_equal (fmap wr_payload)) in Hrow.
    assert (Hw : wr_payload <$> work_states (rt_db hx_rt7) !! w_work_id ex_pending = Some hx_w3)
      by (vm_compute; reflexivity).
    rewrite Hw in Hrow. apply (inj Some) in Hrow. symmetry. exact Hrow.
  - apply Hr; [vm_compute; reflexivity | reflexivity | vm_compute; reflexivity].
Defined.

Lemma authorize_decides_witness :
  exists dref, action_requests hx_rt1 !! "q1" = Some (mkIssued (scope_ref (at_ref 3 "action_request" "q1")) dref)
    /\ d_valid_until hx_d1 = Some (2 + one_minute).
Proof.
  destruct (authorize_decides hx_rt0 (hx_tick "d1") hx_register (Some ex_pending)
              (Some (scope_ref (at_ref 4 "budget_reservation" "r1"))) hx_d1 hx_rt1)
    as (ref & db1 & w' & dref & Hs & _ & _ & _ & Hi & _ & Ha & _).
  - apply (lw_store _ (ty_ledger _ hx_rt0_typed)).
  - reflexivity.
  - exact hx_authorize1.
  - exists dref. split; [| apply Ha; vm_compute; reflexivity].
    change (q_action_id hx_register) with "q1" in Hi. rewrite Hi. f_equal. f_equal.
    apply (f_equal (fun c => match c with Ok (r, _) => Some r | Err _ => None end)) in Hs.
    assert (Hv : match stage_publish (rt_db hx_rt0) (RecAction hx_register) with
                 | Ok (r, _) => Some r | Err _ => None end
                 = Some (scope_ref (at_ref 3 "action_request" "q1"))) by (vm_compute; reflexivity).
    rewrite Hv in Hs. apply (inj Some) in Hs. symmetry. exact Hs.
Defined.

(** The same run, cancelled before its work was registered. *)
Definition cancelled (db : Db) : Db :=
  mkDb (db_store db) (analysis_runs db) (current_records db) ["an"] ∅ ∅ (budget_profiles db)
    (budget_reservations db) (budget_ledger_entries db) [] ∅ [] [].
Definition hx_cancelled : Rt := hx_rt (cancelled (rt_db hx_rt0)).
Definition hx_cancelled1 : Rt :=
  rt_of (authorize hx_cancelled (hx_tick "d1") hx_register (Some ex_pending)
           (Some (scope_ref (at_ref 4 "budget_reservation" "r1")))).

Lemma hx_authorize_cancelled :
  authorize hx_cancelled (hx_tick "d1") hx_register (Some ex_pending)
    (Some (scope_ref (at_ref 4 "budget_reservation" "r1"))) = Ok (hx_d1, hx_cancelled1).
Proof. unfold hx_cancelled1. apply gives_Ok. vm_compute. reflexivity. Qed.

Lemma cancelled_wf db : ledger_wf db -> ledger_wf (cancelled db).
Proof. intros [[A B C D E] F G]. split; [split |..]; assumption. Qed.

Lemma hx_cancelled_typed : runtime_typed hx_cancelled.
Proof.
  apply hx_db_typed; [| reflexivity | reflexivity].
  apply cancelled_wf, (ty_ledger _ hx_rt0_typed).
Qed.

Lemma cancellation_final_witness :
  Forall (fun ids => forall w' rt2,
      register hx_cancelled1 (hx_clock ids) ex_pending
        (scope_ref (at_ref 5 "action_decision" "d1"))
        (Some (scope_ref (at_ref 4 "budget_reservation" "r1"))) <> Ok (w', rt2))
    [["d1u"]; ["other"]].
Proof.
  destruct (cancellation_final any_commit hx_cancelled hx_cancelled1 "an" hx_cancelled_typed)
    as (_ & _ & Hr & _).
  - reflexivity.
  - apply rtc_once. eapply rt_authorize, hx_authorize_cancelled.
  - apply Forall_forall. intros ids _ w' rt2 Hreg. exact (Hr _ _ _ _ _ _ Hreg eq_refl).
Defined.
