(* ===== verification/JournalExamples.v ===== *)
(** * Examples for the journal

    The running attempt of [RuntimeExamples] fails, or is cancelled: its result
    is committed, replayed, recovered and refused, and the theorems of [Journal]
    are applied to these runs. *)
From S2P Require Import Prelude Records Hash CanonicalJson Store Work Processes WorkLife Actions.
From S2P Require Import Budget Runtime Registry Hierarchy Ledger Dispatch Authority Outputs Validator.
From S2P Require Import Services Projections Transition History Journal Finite ContractExamples.
From S2P Require Import LedgerExamples RuntimeExamples.

#[local] Existing Instances hx_codec hx_laws hx_evidence hx_host hx_rules.

(** No projected record: the result has no outputs. *)
#[local] Instance jx_outcomes : OutcomeRules := {|
  _validate_repository_profile := fun _ _ _ _ _ _ => Ok tt;
  run_policy_update := fun _ _ _ => Ok None;
  hypothesis_projection := fun _ _ _ _ => Ok [];
  verification_projection := fun _ _ _ _ => Ok [];
  dynamic_projection := fun _ _ _ _ _ => Ok [];
  validate_finding_output := fun _ _ _ => Ok None;
  finding_index_projection := fun _ _ _ r _ => Ok r;
  validate_primitive_outputs := fun _ _ _ => Ok [];
  primitive_index_projection := fun _ _ _ _ => Ok None;
  validate_chaining_output := fun _ _ _ => Ok tt;
  validate_report_output := fun _ _ _ => Ok tt;
  report_process_projection := fun _ _ _ _ _ => Ok None;
  match_candidates := fun _ => None;
  draft_decision_ref := fun _ => mkStoredDataRef "" "" "" "" "" None;
|}.

(** ** The failing attempt *)

Definition jx_request : TransitionCommitRequest := mkCommitRequest hx_t3 hx_c1 [].

Definition jx_finish : FinishTick :=
  mkFinishTick (fun n => hx_clock [match n with
                                   | 1%nat => "d4u" | 2%nat => "c2" | 4%nat => "d4o"
                                   | 13%nat => "w4" | 14%nat => "a2" | _ => "none"
                                   end]) (fun _ => ("none", 4, 4, 4)).
Definition jx_tick : CommitTick := mkCommitTick 4 4 jx_finish (hx_clock ["c5"]).

Definition jx_rt0 : Rt := Eval vm_compute in rt_of (authorize hx_rt7 (hx_tick "d4") hx_fail None None).
Definition jx_committed : Rt := Eval vm_compute in snd (commit jx_rt0 jx_tick jx_request).
Definition tables_of (c : result Rt) : Rt := match c with Ok rt => rt | Err _ => hx_empty end.
Definition jx_prepared : Rt := Eval vm_compute in tables_of (prepare jx_rt0 4 jx_request).
Definition jx_finished : Rt := Eval vm_compute in
  rt_of (finish jx_prepared jx_finish jx_request).
Definition jx_recovered : Rt := Eval vm_compute in snd (recover_prepared jx_prepared (fun _ => jx_tick)).


Definition is_ok {A} (c : result A) : bool := match c with Ok _ => true | Err _ => false end.
Lemma tables_of_Ok c : is_ok c = true -> c = Ok (tables_of c).
Proof. destruct c; [reflexivity | discriminate]. Qed.

(** [commit] and [recover_prepared] by their results. *)
Definition ends {A} `{EqDecision A} (c : result A * Rt) (r : result A) : bool := eqb (fst c) r.
Lemma ends_eq {A} `{EqDecision A} (c : result A * Rt) r : ends c r = true -> c = (r, snd c).
Proof. unfold ends. destruct c. simpl. intros Hr. apply bool_decide_eq_true in Hr. congruence. Qed.

Lemma jx_authorized : authorize hx_rt7 (hx_tick "d4") hx_fail None None = Ok (hx_d4, jx_rt0).
Proof. vm_compute. reflexivity. Qed.
Lemma jx_prepare : prepare jx_rt0 4 jx_request = Ok jx_prepared.
Proof. vm_compute. reflexivity. Qed.
Lemma jx_finish_ok : finish jx_prepared jx_finish jx_request = Ok (hx_committed, jx_finished).
Proof. vm_compute. reflexivity. Qed.
Lemma jx_commit : commit jx_rt0 jx_tick jx_request = (Ok hx_committed, jx_committed).
Proof. vm_compute. reflexivity. Qed.
Lemma jx_recover : recover_prepared jx_prepared (fun _ => jx_tick) = (Ok tt, jx_recovered).
Proof. vm_compute. reflexivity. Qed.

Lemma jx_typed : runtime_typed jx_rt0.
Proof.
  eapply runtime_step_typed; [| eapply (rt_authorize any_commit), jx_authorized].
  exact (typed_steps _ _ _ hx_rt0_typed hx_run).
Qed.

Lemma jx_rt0_wf : journal_wf jx_rt0.
Proof. apply journal_start; [exact jx_typed | vm_compute; reflexivity]. Qed.

Lemma jx_request_binds : exists b, commit_request jx_request = Ok b.
Proof. eexists. vm_compute. reflexivity. Qed.

Lemma jx_prepared_wf : journal_wf jx_prepared /\ journaled jx_prepared jx_request.
Proof.
  destruct jx_request_binds as [b Hb].
  destruct (prepare_move any_commit _ _ _ _ _ jx_typed Hb jx_prepare) as (Hm & Hj & _).
  split; [exact (journal_move_wf _ _ _ jx_rt0_wf Hm) | exact Hj].
Qed.

Lemma jx_free : collision_free jx_rt0 jx_request.
Proof.
  intros row Hrow. exfalso. revert Hrow. change (transition_commits (rt_db jx_rt0) !! "c1" <> Some row).
  assert (Hn : is_none (transition_commits (rt_db jx_rt0) !! "c1") = true) by (vm_compute; reflexivity).
  apply is_none_true in Hn. congruence.
Qed.

Lemma jx_history : rtc (journal_step any_commit) jx_rt0 jx_committed.
Proof. exact (proj1 (commit_steps any_commit _ _ _ _ _ jx_rt0_wf jx_free jx_commit)). Qed.

(** The state of an entry and of the work. *)
Definition entry_state (rt : Rt) (id : string) : option (CommitState * CommitTargetStatus) :=
  (fun row => (c_state (cr_payload row), c_target_status (cr_payload row)))
    <$> transition_commits (rt_db rt) !! id.

Lemma entry_state_Some rt id s :
  entry_state rt id = Some s -> exists row, transition_commits (rt_db rt) !! id = Some row
    /\ s = (c_state (cr_payload row), c_target_status (cr_payload row)).
Proof. unfold entry_state. rewrite fmap_Some. intros (row & Hrow & ->). eauto. Qed.

(** ** Witnesses *)

Lemma journal_refines_runtime_witness :
  rtc (runtime_step any_commit) jx_rt0 jx_committed
  /\ entry_state jx_committed "c1" = Some (COMMITTED, C_FAILED).
Proof.
  split; [exact (proj1 (journal_refines_runtime _ _ _ jx_rt0_wf jx_history)) | vm_compute; reflexivity].
Defined.

Lemma committed_result_replayed_witness :
  commit jx_committed jx_tick jx_request = (Ok hx_committed, jx_committed).
Proof.
  exact (committed_result_replayed any_commit _ _ _ _ _ _ jx_tick jx_rt0_wf jx_free jx_commit
           (rtc_refl _ _)).
Defined.

Lemma finish_publishes_witness :
  exists w, get_work (rt_db jx_finished) "work" = Ok w /\ w_status w = FAILED.
Proof.
  destruct jx_prepared_wf as [Hwf Hj].
  destruct (finish_publishes any_commit _ _ _ _ _ Hwf Hj jx_finish_ok)
    as (_ & _ & _ & p & w & _ & _ & Hw & _ & Hst & _).
  exists w. split; [exact Hw | exact Hst].
Defined.

Lemma recovery_settles_journal_witness :
  exists row, transition_commits (rt_db jx_recovered) !! "c1" = Some row
    /\ c_state (cr_payload row) <> PREPARED.
Proof.
  destruct (recovery_settles_journal any_commit _ _ _ _ (proj1 jx_prepared_wf) jx_recover) as (_ & _ & Hs).
  destruct (entry_state_Some jx_prepared "c1" (PREPARED, C_FAILED)) as (row & Hrow & _);
    [vm_compute; reflexivity |].
  destruct (Hs _ _ Hrow) as (row' & Hrow' & _ & Hst). exists row'. split; [exact Hrow' | auto].
Defined.

Lemma entry_settles_once_witness :
  exists row row', transition_commits (rt_db jx_prepared) !! "c1" = Some row
    /\ transition_commits (rt_db jx_finished) !! "c1" = Some row'
    /\ cr_transition row' = cr_transition row.
Proof.
  destruct (entry_state_Some jx_prepared "c1" (PREPARED, C_FAILED)) as (row & Hrow & _);
    [vm_compute; reflexivity |].
  assert (Hs : rtc (journal_step any_commit) jx_prepared jx_finished)
    by (apply rtc_once; eapply js_finish; [exact (proj2 jx_prepared_wf) | exact jx_finish_ok]).
  destruct (entry_settles_once any_commit _ _ _ _ (proj1 jx_prepared_wf) Hs Hrow)
    as (row' & Hrow' & _ & Ht & _).
  exists row, row'. auto.
Defined.

Lemma version_has_one_result_witness :
  exists w, get_work (rt_db jx_committed) "work" = Ok w /\ 3 < w_state_version w.
Proof.
  destruct (entry_state_Some jx_committed "c1" (COMMITTED, C_FAILED)) as (row & Hrow & [= Hst _]);
    [vm_compute; reflexivity |].
  destruct (version_has_one_result any_commit _ _ _ _ jx_rt0_wf jx_history Hrow (eq_sym Hst))
    as [(w & Hw & Hlt) _].
  assert (Hrow' : (fun r => (c_work_id (cr_payload r), c_expected_state_version (cr_payload r)))
                    <$> transition_commits (rt_db jx_committed) !! "c1" = Some ("work", 3))
    by (vm_compute; reflexivity).
  rewrite Hrow in Hrow'. injection Hrow' as Hid Hv. exists w. rewrite <- Hid, <- Hv. auto.
Defined.

(** The decision has expired when the result is prepared. *)
Definition jx_late : CommitTick := mkCommitTick 100000000 4 jx_finish (hx_clock ["c5"]).

Lemma failed_commit_changes_no_work_witness :
  exists e rt, commit jx_rt0 jx_late jx_request = (Err e, rt)
    /\ work_states (rt_db rt) = work_states (rt_db jx_rt0).
Proof.
  assert (Hc : commit jx_rt0 jx_late jx_request
               = (Err (ValueError "ACTION_EXPIRED_OR_DENIED"), snd (commit jx_rt0 jx_late jx_request)))
    by (apply ends_eq; vm_compute; reflexivity).
  eexists _, _. split; [exact Hc |].
  exact (proj1 (failed_commit_changes_no_work any_commit _ _ _ _ _ jx_rt0_wf jx_free Hc)).
Defined.

(** ** The cancelled attempt *)

Definition jx_identity : BudgetScopeRef := ex_ref "identity" "i1".
Definition jx_cancel_tick (n : nat) : Tick :=
  hx_clock match n with
           | 1%nat => ["q5"; "q5"] | 2%nat => ["d5"; "d5"; "e"] | 3%nat => ["t4"; "t4"]
           | 4%nat => ["c3"; "c3"] | 5%nat => ["d5u"] | 6%nat => ["c4"] | 7%nat => ["w5"]
           | 8%nat => ["a3"] | _ => []
           end.

(** The run's cancellation is recorded first. *)
Definition latch (db : Db) : Db :=
  mkDb (db_store db) (analysis_runs db) (current_records db) ["an"] (work_states db)
    (work_attempts db) (budget_profiles db) (budget_reservations db) (budget_ledger_entries db)
    (external_dispatches db) (transition_commits db) (artifacts db) (match_reservations db).
Definition jx_latched : Rt := Eval vm_compute in set_db hx_rt7 (latch (rt_db hx_rt7)).
Definition jx_cancelled : Rt := Eval vm_compute in rt_of (cancel_in_transaction jx_latched jx_cancel_tick hx_w3 jx_identity).

Lemma jx_cancel :
  cancel_in_transaction jx_latched jx_cancel_tick hx_w3 jx_identity = Ok (hx_w5, jx_cancelled).
Proof. vm_compute. reflexivity. Qed.

Lemma latch_step rt :
  run_controls (rt_db rt) = [] -> runtime_step any_commit rt (set_db rt (latch (rt_db rt))).
Proof.
  intros Hc. apply (rt_other _ _ _ (latch (rt_db rt))); [| reflexivity | reflexivity | | reflexivity].
  - apply rtc_once, ls_env. repeat split; try reflexivity. eauto.
  - rewrite Hc. apply list_subseteq_nil.
Qed.

Lemma jx_latched_wf : journal_wf jx_latched.
Proof.
  apply journal_start; [| vm_compute; reflexivity].
  eapply (runtime_step_typed any_commit hx_rt7); [exact (typed_steps _ _ _ hx_rt0_typed hx_run) |].
  replace jx_latched with (set_db hx_rt7 (latch (rt_db hx_rt7))) by (vm_compute; reflexivity).
  apply latch_step. vm_compute. reflexivity.
Qed.

Lemma get_work_view rt id w :
  wr_payload <$> work_states (rt_db rt) !! id = Some w -> get_work (rt_db rt) id = Ok w.
Proof. unfold get_work. rewrite fmap_Some. intros (row & -> & ->). reflexivity. Qed.

Lemma jx_running : get_work (rt_db jx_latched) (w_work_id hx_w3) = Ok hx_w3.
Proof. apply get_work_view. vm_compute. reflexivity. Qed.

Lemma cancellation_journaled_witness :
  get_work (rt_db jx_cancelled) "work" = Ok hx_w5 /\ w_status hx_w5 = CANCELLED.
Proof.
  destruct (cancellation_journaled any_commit _ _ _ _ _ _ jx_latched_wf jx_running jx_cancel)
    as [_ [(Ht & _) | (_ & Hst & _ & Hg & _)]]; [discriminate | auto].
Defined.

Lemma cancelled_run_publishes_nothing_witness :
  exists row, transition_commits (rt_db jx_cancelled) !! "c3" = Some row
    /\ c_target_status (cr_payload row) = C_CANCELLED.
Proof.
  destruct (entry_state_Some jx_cancelled "c3" (COMMITTED, C_CANCELLED)) as (row & Hrow & [= Hst _]);
    [vm_compute; reflexivity |].
  assert (Hid : (fun r => c_work_id (cr_payload r)) <$> transition_commits (rt_db jx_cancelled) !! "c3"
                = Some "work") by (vm_compute; reflexivity).
  rewrite Hrow in Hid. injection Hid as Hid.
  exists row. split; [exact Hrow |].
  destruct (cancelled_run_publishes_nothing any_commit jx_latched jx_cancelled "an" "c3" row hx_w5
              jx_latched_wf) as [Hold | Hc]; [| | exact Hrow | exact (eq_sym Hst) | | | | exact Hc].
  - reflexivity.
  - apply rtc_once. eapply js_cancel; [exact jx_running | exact jx_cancel].
  - rewrite Hid. apply get_work_view. vm_compute. reflexivity.
  - reflexivity.
  - exfalso. apply (f_equal is_none) in Hold. revert Hold. vm_compute. discriminate.
Defined.
