(* ===== verification/SchedulerExamples.v ===== *)
(** * Examples for the scheduler

    The READY work of [RuntimeExamples] claimed by a worker and its lease
    renewed; its attempt blocked on an input and reopened by the user. *)
From S2P Require Import Prelude Records Hash CanonicalJson Store Work Processes WorkLife Actions.
From S2P Require Import Budget Runtime Registry Hierarchy Ledger Dispatch Authority Outputs Validator.
From S2P Require Import Services Projections Transition Scheduler History Journal Claims Finite.
From S2P Require Import ContractExamples LedgerExamples RuntimeExamples JournalExamples.

#[local] Existing Instances hx_codec hx_laws hx_evidence hx_host hx_rules jx_outcomes.

Definition sx_input : AnalysisRunInput :=
  mkRunInput (ex_meta "analysis_run_input" "in" 0) "repo" "main" "prog" PRODUCTION None None None None
    None.
#[local] Instance sx_records : EvidenceRecords := {|
  run_input := fun r => if eqb r hx_input then Some sx_input else None;
  dynamic_outcome := fun _ => None;
|}.

(** ** The claim *)

Definition sx_tick : SchedTick :=
  mkSchedTick (fun n => hx_clock match n with
                                 | 0%nat => ["b1"] | 1%nat => ["q6"; "q6"] | 2%nat => ["r3"; "r3"]
                                 | 3%nat => ["t6"; "t6"] | 4%nat => ["b1m"] | 5%nat => ["w6"; "d6u"]
                                 | 6%nat => ["e6"; "e6"] | 7%nat => ["r3c"] | _ => []
                                 end) (hx_tick "d6").
Definition sx_context : WorkContext := mkContext hx_w6 hx_attempt6.
Definition sx_claimed : Rt := Eval vm_compute in
  rt_of (try_claim_ready hx_rt4 sx_tick "an" "work" 2 "worker" 9).
Definition sx_renewed : Rt := Eval vm_compute in
  rt_of (renew_lease sx_claimed (hx_clock ["b2m"]) sx_context "worker" 20 7).
Lemma sx_claim :
  try_claim_ready hx_rt4 sx_tick "an" "work" 2 "worker" 9 = Ok (Some sx_context, sx_claimed).
Proof. vm_compute. reflexivity. Qed.
Lemma sx_renew :
  renew_lease sx_claimed (hx_clock ["b2m"]) sx_context "worker" 20 7
  = Ok (mkContext hx_w6 hx_renewed, sx_renewed).
Proof. vm_compute. reflexivity. Qed.

(** ** The resumption *)

(** The attempt of [hx_rt7] blocks. *)
Definition sx_request : TransitionCommitRequest := mkCommitRequest hx_t7 hx_c7 [].
Definition sx_finish : FinishTick :=
  mkFinishTick (fun n => hx_clock [match n with
                                   | 1%nat => "d4u" | 2%nat => "c8" | 13%nat => "w7" | 14%nat => "a7"
                                   | _ => "d4o"
                                   end]) (fun _ => ("none", 4, 4, 4)).
Definition sx_blocked : Rt := Eval vm_compute in
  snd (commit jx_rt0 (mkCommitTick 4 4 sx_finish (hx_clock ["none"])) sx_request).
Definition sx_resume_tick (id : string) : SchedTick :=
  mkSchedTick (fun n => hx_clock match n with
                                 | 2%nat => ["q8"; "q8"] | 3%nat => ["t8"; "t8"] | 4%nat => ["d8u"]
                                 | 5%nat => ["w8"] | _ => [id; id]
                                 end) (hx_tick "d8").
Definition sx_run_ref : RunStoredDataRef := at_run 1 "analysis_run_state" "s1".
Definition sx_resumed : Rt := Eval vm_compute in
  rt_of (resume_blocked sx_blocked sx_resume_tick [(hx_w7, hx_ended)] sx_run_ref).

Lemma sx_block :
  commit jx_rt0 (mkCommitTick 4 4 sx_finish (hx_clock ["none"])) sx_request = (Ok hx_c8, sx_blocked).
Proof. vm_compute. reflexivity. Qed.
Lemma sx_resume :
  resume_blocked sx_blocked sx_resume_tick [(hx_w7, hx_ended)] sx_run_ref = Ok ([hx_w8], sx_resumed).
Proof. vm_compute. reflexivity. Qed.

Lemma sx_free : collision_free jx_rt0 sx_request.
Proof.
  intros row Hrow. exfalso.
  revert Hrow. change (transition_commits (rt_db jx_rt0) !! "c7" <> Some row).
  assert (Hn : is_none (transition_commits (rt_db jx_rt0) !! "c7") = true) by (vm_compute; reflexivity).
  apply is_none_true in Hn. congruence.
Qed.

Lemma sx_blocked_typed : runtime_typed sx_blocked.
Proof.
  destruct (commit_steps any_commit _ _ _ _ _ jx_rt0_wf sx_free sx_block) as [Hs _].
  exact (jw_typed _ (journal_moves_wf _ _ _ jx_rt0_wf (journal_history _ _ _ jx_rt0_wf Hs))).
Qed.

Lemma hx_rt4_typed : runtime_typed hx_rt4.
Proof.
  eapply (typed_steps any_commit); [exact hx_rt0_typed |].
  eapply rtc_l; [eapply rt_authorize, hx_authorize1 |].
  eapply rtc_l; [eapply rt_register, hx_registered |].
  eapply rtc_l; [eapply rt_authorize, hx_authorize2 |].
  apply rtc_once. eapply rt_make_ready, hx_made_ready.
Qed.

Lemma sx_new : find_reservation (rt_db hx_rt4) (claim_reservation_id sx_tick) = None.
Proof. vm_compute. reflexivity. Qed.

(** ** Witnesses *)

Lemma scheduler_refines_runtime_witness :
  rtc (runtime_step within_reservation) hx_rt4 sx_renewed
  /\ running (rt_db sx_renewed) "an" = 1%nat.
Proof.
  split; [| vm_compute; reflexivity].
  refine (proj1 (scheduler_refines_runtime within_reservation within_allows_exact _ _ hx_rt4_typed _)).
  eapply rtc_l; [eapply sc_claim; [exact sx_new | exact sx_claim] |].
  apply rtc_once. eapply sc_renew, sx_renew.
Defined.

Lemma claim_exclusive_witness :
  Forall (fun v => forall tick worker lease c rt,
      try_claim_ready sx_renewed tick "an" "work" v worker lease <> Ok (Some c, rt)) [1; 2; 3].
Proof.
  apply Forall_forall. intros v Hv tick worker lease c rt Hc.
  apply (claim_exclusive any_commit any_allows_exact _ _ _ _ _ _ _ _ _ sx_renewed hx_rt4_typed sx_new
           sx_claim) in Hc.
  - revert Hv Hc. rewrite !elem_of_cons. set_solver by lia.
  - apply rtc_once. eapply rt_renew, sx_renew.
Defined.

Lemma lease_has_one_holder_witness :
  exists row expiry, work_states (rt_db sx_claimed) !! "work" = Some row
    /\ wr_lease_expires_at row = Some expiry /\ 4 < expiry
    /\ work_states (rt_db sx_renewed) = <[ "work" := relet row "worker" 20 ]>
                                          (work_states (rt_db sx_claimed)).
Proof.
  destruct (lease_has_one_holder any_commit any_allows_exact _ _ _ _ _ _ _ _ _ sx_claimed hx_rt4_typed
              sx_new sx_claim (rtc_refl _ _) (hx_clock ["b2m"]) sx_context "worker" 20 7 _ _
              eq_refl eq_refl sx_renew)
    as (_ & _ & _ & row & expiry & Hrow & He & Hlt & Hw).
  exists row, expiry. auto.
Defined.

Lemma cancelled_run_not_scheduled_witness :
  Forall (fun v => forall tick worker lease o rt,
      try_claim_ready jx_latched tick "an" "work" v worker lease = Ok (o, rt) -> o = None) [2; 3].
Proof.
  apply Forall_forall. intros v _ tick worker lease o rt Hc.
  destruct (cancelled_run_not_scheduled any_commit jx_latched jx_latched "an" (jw_typed _ jx_latched_wf)
              ltac:(vm_compute; reflexivity) (rtc_refl _ _)) as [Hn _].
  exact (proj1 (Hn _ _ _ _ _ _ _ Hc)).
Defined.

Lemma claim_starts_work_witness :
  exists r entry, find_reservation (rt_db sx_claimed) "r3" = Some r /\ r_status (rr_payload r) = R_COMMITTED
    /\ find_entry (rt_db sx_claimed) "r3" = Some entry /\ u_retry_count (e_actual_units (lr_payload entry)) = 0.
Proof.
  destruct (claim_starts_work _ _ _ _ _ _ _ _ _ hx_rt4_typed sx_new sx_claim)
    as (row & scope & profile & r & entry & H).
  assert (Hp : is_none (latest_attempt (rt_db hx_rt4) "work") = true) by (vm_compute; reflexivity).
  rewrite Hp in H. decompose [and] H. exists r, entry. do 3 (split; [assumption |]).
  match goal with Hu : e_actual_units _ = _ |- _ => rewrite Hu end. reflexivity.
Defined.

Lemma resume_reopens_cohort_witness :
  work_attempts (rt_db sx_resumed) = work_attempts (rt_db sx_blocked)
  /\ (wr_payload <$> work_states (rt_db sx_resumed) !! "work") = Some hx_w8
  /\ w_status hx_w8 = READY.
Proof.
  split; [exact (proj1 (resume_reopens_cohort _ _ _ _ _ _ sx_blocked_typed sx_resume)) |].
  split; vm_compute; reflexivity.
Defined.
