(* ===== verification/ControlExamples.v ===== *)
(** * Examples for run control

    The running work of [RuntimeExamples] sends a tool run; its run is cancelled
    by the user, the request observed stopped, the run reconciled and closed. *)
From S2P Require Import Prelude Records Hash CanonicalJson Store Work Processes WorkLife Actions.
From S2P Require Import Budget Runtime Registry Hierarchy Ledger Dispatch Authority Outputs Validator.
From S2P Require Import Services Projections Transition RunControl Scheduler History Journal.
From S2P Require Import Quiescence Finite ContractExamples LedgerExamples RuntimeExamples.
From S2P Require Import JournalExamples SchedulerExamples.

#[local] Existing Instances hx_codec hx_laws hx_evidence hx_rules jx_outcomes sx_records.

(** The host with the identity of the repository loader. *)
#[local] Instance kx_host : Host := {|
  identity_role := fun ref =>
    Some (if eqb ref (ex_ref "identity" "i2") then Q_REPOSITORY_LOADER else Q_ORCHESTRATION);
  action_evidence := fun _ _ => Some [];
  authorized_outputs := fun _ => None;
  finding_service_identity_ref := None;
  require_current_capability_ref := fun _ => Err (ValueError "CAPABILITY_RESOLVER_REQUIRED");
  recovery_failed := false;
|}.

(** ** The open request *)

Definition kx_reservation : RecordRef := scope_ref (at_ref 59 "budget_reservation" "r9").
Definition kx_decision : RecordRef := scope_ref (at_ref 60 "action_decision" "d9").
Definition kx_used : RecordRef := scope_ref (at_ref 61 "action_decision" "d9u").
Definition kx_claim : ClaimTick := mkClaimTick 4 "d9u" 4 4.

Definition kx_db0 : Db := Eval vm_compute in
  db_of (reserve (set_store (rt_db hx_rt7) (put (db_store (rt_db hx_rt7)) (RecAction hx_q9))) hx_r9).
Definition kx_rt0 : Rt := Eval vm_compute in set_db hx_rt7 kx_db0.
Definition kx_rt1 : Rt := Eval vm_compute in
  rt_of (authorize kx_rt0 (hx_tick "d9") hx_q9 None (Some kx_reservation)).
Definition kx_rt2 : Rt := Eval vm_compute in
  rt_of (claim_external kx_rt1 kx_claim 4 4 "work" kx_decision (Some kx_reservation)).
Definition kx_rt3 : Rt := Eval vm_compute in
  tables_of (validated_dispatch kx_rt2 4 5 kx_decision (Some "req") None).

Lemma kx_reserved :
  reserve (set_store (rt_db hx_rt7) (put (db_store (rt_db hx_rt7)) (RecAction hx_q9))) hx_r9
  = Ok (hx_r9, kx_db0).
Proof. vm_compute. reflexivity. Qed.
Lemma kx_authorized :
  authorize kx_rt0 (hx_tick "d9") hx_q9 None (Some kx_reservation) = Ok (hx_d9, kx_rt1).
Proof. vm_compute. reflexivity. Qed.
Lemma kx_claimed :
  claim_external kx_rt1 kx_claim 4 4 "work" kx_decision (Some kx_reservation) = Ok (kx_used, kx_rt2).
Proof. vm_compute. reflexivity. Qed.
Lemma kx_sent : validated_dispatch kx_rt2 4 5 kx_decision (Some "req") None = Ok kx_rt3.
Proof. vm_compute. reflexivity. Qed.

Lemma kx_reserve_step : runtime_step any_commit hx_rt7 kx_rt0.
Proof.
  eapply (rt_other _ _ _ kx_db0);
    [| vm_compute; reflexivity | vm_compute; reflexivity | | reflexivity];
    [| replace (run_controls (rt_db hx_rt7)) with (@nil string) by (vm_compute; reflexivity);
       apply list_subseteq_nil].
  eapply rtc_l; [eapply ls_env, grown_env, put_grown |].
  apply rtc_once. eapply ls_reserve. exact kx_reserved.
Qed.

Lemma kx_run : rtc (runtime_step any_commit) hx_rt7 kx_rt3.
Proof.
  eapply rtc_l; [exact kx_reserve_step |].
  eapply rtc_l; [eapply rt_authorize, kx_authorized |].
  eapply rtc_l; [eapply rt_claim_external, kx_claimed |].
  apply rtc_once. eapply rt_dispatch, kx_sent.
Qed.

(** ** The cancelled run *)

Definition ct_of (c : result Control) : Control :=
  match c with Ok ct => ct | Err _ => mkControl hx_empty ∅ ∅ end.

Definition kx_ct0 : Control := mkControl kx_rt3 ∅ ∅.
Definition kx_ct1 : Control := Eval vm_compute in ct_of (request_cancel kx_ct0 "an" "USER" 6).
Definition kx_target : CancellationTarget :=
  mkTarget "STATIC" hx_w3 ex_attempt (scope_ref (at_ref 58 "action_request" "q9")) kx_used None []
    (Some kx_decision) [] None.
Definition kx_observation : CancellationObservation := mkObservation kx_target "STOPPED" None [].
Definition kx_ct2 : Control := Eval vm_compute in
  ct_of (record_cancellation_observation kx_ct1 kx_observation 7).
Definition kx_ct3 : Control := Eval vm_compute in
  ct_of (reconcile_cancellation kx_ct2 (fun _ => jx_cancel_tick) (fun _ => 8) (Some jx_identity) "an"
           [kx_observation]).
Definition kx_ct4 : Control := Eval vm_compute in ct_of (mark_quiescent kx_ct3 "an" 9).

Lemma kx_targets : cancellation_targets (ct_rt kx_ct1) "an" = Ok [kx_target].
Proof. vm_compute. reflexivity. Qed.
Lemma kx_requested : request_cancel kx_ct0 "an" "USER" 6 = Ok kx_ct1.
Proof. vm_compute. reflexivity. Qed.
Lemma kx_observed : record_cancellation_observation kx_ct1 kx_observation 7 = Ok kx_ct2.
Proof. vm_compute. reflexivity. Qed.
Lemma kx_reconciled :
  reconcile_cancellation kx_ct2 (fun _ => jx_cancel_tick) (fun _ => 8) (Some jx_identity) "an"
    [kx_observation] = Ok kx_ct3.
Proof. vm_compute. reflexivity. Qed.
Lemma kx_closed : mark_quiescent kx_ct3 "an" 9 = Ok kx_ct4.
Proof. vm_compute. reflexivity. Qed.

(** It is not closed before its open request is settled. *)
Lemma kx_not_closed : mark_quiescent kx_ct2 "an" 9 = Err (ValueError "RUN_NOT_QUIESCENT").
Proof. vm_compute. reflexivity. Qed.

Lemma kx_rt3_wf : journal_wf kx_rt3.
Proof.
  apply journal_start; [| vm_compute; reflexivity].
  exact (typed_steps _ _ _ (typed_steps _ _ _ hx_rt0_typed hx_run) kx_run).
Qed.

Lemma control_start rt : journal_wf rt -> control_wf (mkControl rt ∅ ∅).
Proof. intros Hwf. split; [exact Hwf | intros *; simpl; rewrite lookup_empty; discriminate ..]. Qed.

Lemma kx_ct0_wf : control_wf kx_ct0.
Proof. exact (control_start _ kx_rt3_wf). Qed.

Lemma kx_step1 : control_step any_commit kx_ct0 kx_ct1.
Proof. eapply cs_request, kx_requested. Qed.
Lemma kx_step2 : control_step any_commit kx_ct1 kx_ct2.
Proof. eapply cs_observe, kx_observed. Qed.
Lemma kx_step3 : control_step any_commit kx_ct2 kx_ct3.
Proof. eapply cs_reconcile, kx_reconciled. Qed.
Lemma kx_step4 : control_step any_commit kx_ct3 kx_ct4.
Proof. eapply cs_quiesce, kx_closed. Qed.

Lemma kx_step_wf ct ct' : control_wf ct -> control_step any_commit ct ct' -> control_wf ct'.
Proof. intros Hwf Hs. exact (cd_wf _ _ _ (control_step_controlled _ _ _ Hwf Hs)). Qed.
Lemma kx_ct1_wf : control_wf kx_ct1. Proof. exact (kx_step_wf _ _ kx_ct0_wf kx_step1). Qed.
Lemma kx_ct2_wf : control_wf kx_ct2. Proof. exact (kx_step_wf _ _ kx_ct1_wf kx_step2). Qed.
Lemma kx_ct3_wf : control_wf kx_ct3. Proof. exact (kx_step_wf _ _ kx_ct2_wf kx_step3). Qed.

(** The open request of the run, as it was sent. *)
Definition kx_dispatch : DispatchRow :=
  default (mkDispatchRow "" "" "" kx_decision kx_decision 0 None None None None None)
    (head (open_dispatches (ct_db kx_ct2) "an")).
Lemma kx_opened : open_dispatches (ct_db kx_ct2) "an" = [kx_dispatch].
Proof. vm_compute. reflexivity. Qed.

(** ** Witnesses *)

Lemma run_control_refines_journal_witness :
  rtc (journal_step any_commit) kx_rt3 (ct_rt kx_ct4)
  /\ rtc (runtime_step any_commit) kx_rt3 (ct_rt kx_ct4) /\ control_wf kx_ct4.
Proof.
  destruct (run_control_refines_journal any_commit kx_ct0 kx_ct4 kx_ct0_wf) as (Hj & Hr & Hwf & _).
  - eapply rtc_l; [exact kx_step1 |]. eapply rtc_l; [exact kx_step2 |].
    eapply rtc_l; [exact kx_step3 |]. apply rtc_once, kx_step4.
  - auto.
Defined.

(** The work is cancelled and the request closed. *)
Lemma reconciliation_cancels_run_witness :
  (exists row, work_states (ct_db kx_ct3) !! "work" = Some row
     /\ w_status (wr_payload row) = CANCELLED)
  /\ closed_request (ct_db kx_ct3) kx_target kx_decision.
Proof.
  destruct (reconciliation_cancels_run any_commit _ _ _ _ _ _ _ kx_ct2_wf kx_reconciled)
    as (Hc & _ & Ho).
  split.
  - destruct (work_states (ct_db kx_ct2) !! "work") as [row |] eqn:Hrow;
      [| vm_compute in Hrow; discriminate Hrow].
    assert (Hv : (fun r => (rm_analysis_id (w_meta (wr_payload r)), w_status (wr_payload r)))
                   <$> work_states (ct_db kx_ct2) !! "work" = Some ("an", RUNNING))
      by (vm_compute; reflexivity).
    rewrite Hrow in Hv. injection Hv as Ha Hs.
    destruct (Hc "work" row Hrow Ha) as (row' & Hrow' & Hst & _);
      [rewrite Hs; reflexivity | apply (bool_decide_unpack _); vm_compute; exact I |].
    exists row'. auto.
  - destruct (Ho kx_dispatch) as (o & Hin & Ht & Hcl);
      [rewrite kx_opened; left |].
    apply list_elem_of_singleton in Hin. subst o.
    replace kx_decision with (x_decision_ref kx_dispatch) by (vm_compute; reflexivity).
    apply Hcl. discriminate.
Defined.

Lemma quiescent_run_over_witness : run_over (ct_db kx_ct4) "an".
Proof.
  exact (proj1 (proj2 (proj2 (quiescent_run_over any_commit _ _ _ _ _ kx_ct3_wf kx_closed
                                (rtc_refl _ _))))).
Defined.

Lemma observation_durable_witness :
  observation_of (cancellation_observations kx_ct4) kx_target = Ok (Some kx_observation).
Proof.
  refine (proj1 (observation_durable any_commit _ _ _ _ kx_ct4 kx_ct1_wf kx_observed _)).
  eapply rtc_l; [exact kx_step3 |]. apply rtc_once, kx_step4.
Defined.
