(* ===== verification/ScanExamples.v ===== *)
(** * Examples for the scans and the findings

    A small scan plan with a long path, and two analyses of findings with a
    shared flow. *)
From S2P Require Import Prelude Records Hash CanonicalJson Scans Text Groups DisplayIds.

(** ** Scan chunks *)

Definition ex_prefix : list string := ["opengrep"; "--config"; "my rules.yml"].
Definition ex_targets : list string := ["src\b.py"; "src/a.py"; "src/b.py"; "src/c d.py"; "x.py"].
Definition ex_sizes (t : string) : option Z := if eqb t "x.py" then Some 5000 else Some 300.
Definition ex_plan : list (list string) :=
  [["src/a.py"; "src/b.py"]; ["src/c d.py"; "x.py"]].

Lemma ex_planned : plan_semgrep_target_chunks (prefixed ex_prefix) 2 60 ex_targets = Ok ex_plan.
Proof. vm_compute. reflexivity. Qed.

Lemma plan_accepts_iff_witness :
  exists chunks, plan_semgrep_target_chunks (prefixed ex_prefix) 2 60 ex_targets = Ok chunks.
Proof.
  apply (plan_accepts_iff ex_prefix 2 60 ex_targets); [lia | lia |].
  repeat constructor; vm_compute; reflexivity.
Defined.

Lemma scan_chunks_safe_witness :
  exists chunks,
    split_target_chunks_by_source_bytes ex_sizes 500 ex_plan = Ok chunks
    /\ NoDup (concat chunks)
    /\ chunks = [["src/a.py"]; ["src/b.py"]; ["src/c d.py"]; ["x.py"]].
Proof.
  destruct (scan_chunks_safe ex_prefix ex_sizes 2 60 500 ex_targets ex_plan ex_planned ltac:(lia))
    as (chunks & Hs & Hnd & _).
  - intros t _. unfold ex_sizes. destruct (eqb (posix_path t) "x.py"); eexists; (split; [reflexivity | lia]).
  - exists chunks. split; [exact Hs |]. split; [exact Hnd |]. vm_compute in Hs. congruence.
Defined.

(** ** Findings *)

Definition ex_finding (hash : string) : StoredDataRef :=
  mkStoredDataRef hash "finding" hash "ws" "commit" (Some hash).
Definition ex_anchor (trace : list string) : FlowAnchor :=
  mkAnchor "/run" "handler" "app.py" 3 "request.args" "cmd" ["app.py:4"] "app.py" 9 "os.system" 0 []
    "CWE-78" trace.
Definition ex_member (display hash : string) (anchor : option FlowAnchor) : VerifiedFindingMember :=
  mkMember "an" "ws" "commit" display (ex_finding hash) "h1" (ex_finding "poc") (ex_finding "p")
    (ex_finding "cwe") ["c1"] [] "IN_SCOPE" anchor None None.

Definition ex_members : list VerifiedFindingMember :=
  [ex_member "F-010" "b" (Some (ex_anchor [])); ex_member "F-002" "a" (Some (ex_anchor []));
   ex_member "F-003" "c" (Some (ex_anchor ["app.py:7"])); ex_member "F-001" "d" None].

Lemma groups_are_flows_witness :
  exists p, group_verified_findings ex_members = Ok p
    /\ map fg_member_ids (gp_groups p) = [["F-001"]; ["F-002"; "F-010"]; ["F-003"]]
    /\ gp_undetermined_count p = 1%nat.
Proof.
  destruct (groups_are_flows ex_members) as (p & Hp & _ & _ & _ & _ & Hu & _).
  - intros a b Ha Hb. unfold ex_members in *.
    rewrite !elem_of_cons in Ha, Hb. destruct Ha as [-> | [-> | [-> | [-> | Ha]]]]; [.. | inversion Ha];
      (destruct Hb as [-> | [-> | [-> | [-> | Hb]]]]; [.. | inversion Hb]);
      first [intros _; reflexivity | intros Hk; exfalso; vm_compute in Hk; discriminate Hk].
  - apply (bool_decide_unpack _). vm_compute. exact I.
  - intros m Hm. unfold ex_members in Hm. rewrite !elem_of_cons in Hm.
    destruct Hm as [-> | [-> | [-> | [-> | Hm]]]]; [.. | inversion Hm]; eexists; vm_compute; reflexivity.
  - exists p. split; [exact Hp |]. split; [| rewrite Hu; reflexivity].
    vm_compute in Hp. injection Hp as <-. reflexivity.
Defined.

(** ** Display ids *)

Definition ex_first : list DisplayRow := [mkDisplayRow "an" "a" (ex_finding "a") 1].
Definition ex_second : list DisplayRow := ex_first ++ [mkDisplayRow "an" "b" (ex_finding "b") 2].

Lemma display_ids_stable_witness :
  resolve ex_second "an" "F-001" = Ok (ex_finding "a")
  /\ get_or_allocate ex_second "an" (ex_finding "a") = Ok ("F-001", ex_second).
Proof.
  destruct (display_ids_stable [] "an" (ex_finding "a") "F-001" ex_first ex_second) as (Hr & Hg & _).
  - constructor.
  - vm_compute. reflexivity.
  - apply rtc_once. exists "an", (ex_finding "b"), "F-002". vm_compute. reflexivity.
  - split; assumption.
Defined.
