(* ===== verification/VerdictExamples.v ===== *)
(** * Examples for verdicts, findings and reports

    One verification from its debate to its report: a TRUE verdict with its
    dynamic run, the gates that accept it, the finding made of it and the draft.
    The records are walked ([Dumped]) by the fields that tell them apart, and the
    example's records of any class are named by their identifiers. *)
From S2P Require Import Prelude Records Hash CanonicalJson Text Store Lineage Work Processes Actions.
From S2P Require Import Budget Runtime Registry Authority Outputs Evidence Verdicts Policy Gates.
From S2P Require Import Findings Reports.

(** ** Records *)

Definition fx_meta (id kind attempt : string) : RunMeta :=
  mkRunMeta (mkRevisionMeta id id kind "1.0.0" 1 None 0) "an"
    (Some (mkCodeScope "ws" "c0" (Some "h1") (Some attempt))).
Definition fx_value (m : RunMeta) (kind : string) (refs : list StoredDataRef) (texts : list string) : value :=
  VModel contract_info
    [("record_id", id_value (record_id m)); ("record_type", VStr (record_type m)); ("kind", VStr kind);
     ("refs", VSequence (map dump refs)); ("texts", VSequence (map VStr texts))].
Definition fx_leaf (id : string) : StoredDataRef := mkStoredDataRef id "tool_output" "0" "ws" "c0" None.
Definition fx_playbook_ref : StoredDataRef := mkStoredDataRef "pb" "verification_playbook" "0" "ws" "c0" (Some "pb").
Definition fx_ref {A} `{Dumped A} (m : RunMeta) (x : A) : StoredDataRef :=
  mkStoredDataRef (record_id m) (record_type m)
    (match content_hash [] (dump x) with Ok h => h | Err _ => "" end) "ws" "c0" (Some (record_id m)).

#[local] Instance proposal_dumped : Dumped HypothesisProposal := fun p =>
  fx_value (hs_meta p) (hp_proposal_id p) [] (hp_statement p :: map rx_statement (hp_restrictions p)).
#[local] Instance hypothesis_dumped : Dumped VulnerabilityHypothesis := fun h =>
  fx_value (hs_meta h) "hypothesis" [vh_proposal_ref h] [vh_statement h].
#[local] Instance application_dumped : Dumped PlaybookApplication := fun a =>
  fx_value (pa_meta a) "application" [pa_hypothesis_ref a; pa_proposal_ref a] [pa_verification_work_id a].
#[local] Instance evidence_dumped : Dumped EvidenceAgentResult := fun e =>
  fx_value (er_meta e) (role_name (er_role e)) [] (map ec_statement (er_evidence e)).
#[local] Instance verification_dumped : Dumped VerificationResult := fun v =>
  fx_value (vr_meta v) "verification"
    (option_list (vr_dynamic_result_ref v) ++ option_list (vr_poc_ref v)) (vr_unresolved_conditions v).
#[local] Instance request_dumped : Dumped DynamicReproductionRequest := fun q =>
  fx_value (dq_meta q) "request" [dq_hypothesis_ref q] [dq_goal q].
#[local] Instance dynamic_dumped : Dumped DynamicReproductionResult := fun d =>
  fx_value (dyn_meta d) "result" (dyn_request_ref d :: option_list (dyn_poc_ref d)) (dyn_limitations d).
#[local] Instance poc_dumped : Dumped PoCBundle := fun p =>
  fx_value (poc_meta p) "poc" [poc_request_ref p] [poc_candidate_digest p].
#[local] Instance label_dumped : Dumped CWELabel := fun l =>
  fx_value (cwe_meta l) "label" [cwe_verification_result_ref l] (option_list (cwe_primary l)).
#[local] Instance technical_dumped : Dumped TechnicalEvidenceReview := fun t =>
  fx_value (tg_meta t) "technical" [tg_verification_result_ref t; tg_cwe_label_ref t] [].
#[local] Instance review_dumped : Dumped RuleScopeImpactReview := fun r =>
  fx_value (rs_meta r) "review" [rs_technical_review_ref r; rs_run_policy_state_ref r] (rs_reasons r).
#[local] Instance program_dumped : Dumped ProgramPolicyRecord := fun p =>
  fx_value (pol_meta p) "policy" (pol_source_refs p) [pol_program_id p].
#[local] Instance collection_dumped : Dumped PolicyCollectionResult := fun c =>
  fx_value (pre_meta c) "collection" (option_list (col_policy_record_ref c)) [pre_program_id c].
#[local] Instance state_dumped : Dumped RunPolicyState := fun s =>
  fx_value (ps_meta s) "state" (option_list (ps_policy_record_ref s)) [ps_program_id s].
#[local] Instance finding_dumped : Dumped Finding := fun f =>
  fx_value (fi_meta f) "finding" (fi_verification_result_ref f :: fi_evidence_refs f) [].

Definition fx_location : CodeLocation := mkLocation "ws" "c0" "app.py" 10 None 20 None.
Definition fx_restriction : Restriction := mkRestriction "x1" "only for admins" [] [fx_leaf "e1"].
Definition fx_shape (id kind : string) : HypothesisShape :=
  mkShape (fx_meta id kind "a0") O_INITIAL [] [fx_location] [] [mkQuestion "fq1" "is it escaped?"]
    [mkCheck "vc1" "trace it"] [] None.
Definition fx_proposal : HypothesisProposal :=
  mkProposal (fx_shape "hp1" "hypothesis_proposal") "hp1" "xss" ["xss"] [] [] [fx_restriction].
Definition fx_hypothesis : VulnerabilityHypothesis :=
  mkHypothesis (fx_shape "vh1" "vulnerability_hypothesis") (fx_ref (hs_meta fx_proposal) fx_proposal) "xss".
Definition fx_application : PlaybookApplication :=
  mkApplication (fx_meta "pa1" "playbook_application" "a1") "w1" 1 (fx_ref (hs_meta fx_hypothesis) fx_hypothesis)
    (fx_ref (hs_meta fx_proposal) fx_proposal) (fx_leaf "pp") fx_playbook_ref P_COMMON None NO_TYPE
    [mkApplied "t1" "is input validated?" "aq1"].

Definition fx_claim (id : string) (role : SourceRole) (leaf : string) : EvidenceClaim :=
  mkClaim id "claim" role [fx_leaf leaf] [fx_location] ["static only"].
Definition fx_evidence (id kind attempt : string) (role : SourceRole) (claim : EvidenceClaim)
  : EvidenceAgentResult :=
  mkEvidence (fx_meta id kind attempt) role "w1" id 1 attempt "hash" [claim] "summary" ["static only"].
Definition fx_pro := fx_evidence "pro1" "pro_evidence_result" "a2" SR_PRO (fx_claim "k1" SR_PRO "e1").
Definition fx_con := fx_evidence "con1" "con_evidence_result" "a3" SR_CON (fx_claim "k2" SR_CON "e2").

Definition fx_request : DynamicReproductionRequest :=
  mkDynamicRequest (fx_meta "dq1" "dynamic_reproduction_request" "a1") (fx_leaf "va") 1
    (fx_ref (hs_meta fx_hypothesis) fx_hypothesis) POC_CONFIRMATION V_TRUE "confirm" []
    (fx_leaf "profile") [] [] (fx_ref (er_meta fx_pro) fx_pro) (fx_ref (er_meta fx_con) fx_con) 1.
Definition fx_request_ref := fx_ref (dq_meta fx_request) fx_request.
Definition fx_poc : PoCBundle :=
  mkBundle (fx_meta "poc1" "poc_bundle" "a4") fx_request_ref (fx_leaf "plan") (fx_leaf "recipe")
    (fx_leaf "env") (fx_leaf "log") (fx_leaf "candidate") "digest" "act" [fx_leaf "e3"] 5.
Definition fx_poc_ref := fx_ref (poc_meta fx_poc) fx_poc.
Definition fx_dynamic : DynamicReproductionResult :=
  mkDynamicResult (fx_meta "dyn1" "dynamic_reproduction_result" "a4") fx_request_ref (Some (fx_leaf "dec"))
    (Some (fx_leaf "plan")) POC_CONFIRMATION (Some (fx_leaf "pol")) true (fx_leaf "log")
    (Some (fx_leaf "conclusion")) (Some (fx_leaf "recipe")) (Some (fx_leaf "env"))
    (Some (fx_leaf "candidate")) (Some fx_poc_ref) [fx_leaf "obs"] DS_SUCCEEDED FC_NONE None []
    HO_SUPPORTED [fx_leaf "obs"] false [] "script executed" EXECUTABLE [] ["headless browser only"] true
    CU_SUCCEEDED (Some (fx_leaf "cleanup")) 2 5 3.
Definition fx_dynamic_ref := fx_ref (dyn_meta fx_dynamic) fx_dynamic.

Definition fx_verification : VerificationResult :=
  mkVerification (fx_meta "vr1" "verification_result" "a1") fx_playbook_ref
    (fx_ref (pa_meta fx_application) fx_application) ALWAYS_DEBATE [] None (Some "hash")
    (Some (fx_ref (er_meta fx_pro) fx_pro)) (Some (fx_ref (er_meta fx_con) fx_con))
    [fx_claim "k1" SR_PRO "e1"] [fx_claim "k2" SR_CON "e2"]
    [mkFalsification "aq1" NOT_DISPROVED [fx_leaf "e1"] "no"; mkFalsification "fq1" NOT_DISPROVED [fx_leaf "e1"] "no"]
    [mkCheckResult "vc1" COMPLETE [fx_leaf "e2"] "traced"] V_TRUE (Some fx_request_ref) (Some fx_dynamic_ref)
    (Some fx_poc_ref) V_TRUE "confirmed" [fx_restriction] [] [] [] [] [] ["needs a login"]
    (mkMetrics None None None 1 false false false 0 0 0) [].
Definition fx_verification_ref := fx_ref (vr_meta fx_verification) fx_verification.

(** ** The verdict *)

Lemma fx_final : final_shape fx_verification = Ok tt.
Proof. vm_compute. reflexivity. Qed.

Lemma fx_closure :
  validate_verification_closure fx_verification fx_hypothesis fx_proposal fx_application (Some fx_pro)
    (Some fx_con) "w1" 1 CP_PRODUCTION = Ok tt.
Proof. vm_compute. reflexivity. Qed.


Lemma fx_result : result_shape fx_dynamic = Ok tt.
Proof. vm_compute. reflexivity. Qed.
Lemma fx_accepted : validate_dynamic_verdict fx_verification fx_request fx_dynamic (Some fx_poc) 1 = Ok tt.
Proof. vm_compute. reflexivity. Qed.

Lemma dynamic_verdict_agrees_witness :
  vr_verdict fx_verification = V_TRUE
  /\ exists p, Some fx_poc = Some p /\ reproduced fx_verification fx_request fx_dynamic p.
Proof.
  pose proof (dynamic_verdict_agrees fx_verification fx_request fx_dynamic (Some fx_poc) 1
                fx_result fx_accepted) as H.
  destruct H as (_ & _ & _ & _ & _ & _ & _ & Hrep). split; [reflexivity | apply Hrep; reflexivity].
Defined.

Definition fx_process : HypothesisProcessState :=
  mkProcess (fx_meta "hs1" "hypothesis_process_state" "a5") (fx_leaf "hp") H_TERMINAL None 1 None
    (Some fx_verification_ref) 0 (Some 6) 6.
Definition fx_get (r : StoredDataRef) : result VerdictRecord :=
  if eqb r fx_verification_ref then Ok (VR_result fx_verification)
  else if eqb r fx_request_ref then Ok (VR_request fx_request)
  else if eqb r fx_dynamic_ref then Ok (VR_dynamic fx_dynamic)
  else if eqb r fx_poc_ref then Ok (VR_poc fx_poc)
  else Err (LookupError "RECORD_NOT_FOUND").
Definition fx_current : option (VerificationResult -> option HypothesisProcessState) :=
  Some (current_process_from (fun _ _ => [VR_process fx_process])).

Lemma fx_routed : route fx_get fx_current fx_verification_ref = Ok [mkRoute CWE_LABEL_ROUTE [fx_verification_ref]].
Proof. vm_compute. reflexivity. Qed.

Lemma route_follows_verdict_witness :
  route fx_get fx_current fx_verification_ref = Ok [mkRoute CWE_LABEL_ROUTE [fx_verification_ref]]
  /\ exists result, fx_get fx_verification_ref = Ok (VR_result result)
       /\ exact (RStored fx_verification_ref) (vr_meta result) result (vr_meta result) = Ok tt.
Proof.
  split; [exact fx_routed |]. destruct (route_follows_verdict _ _ _ _ fx_routed) as (result & Hg & Hx & _). eauto.
Defined.

(** ** The gates and the policy *)

Definition fx_label : CWELabel :=
  mkLabel (fx_meta "cwe1" "cwe_label" "a6") fx_verification_ref 1 "w2" "call" (Some "CWE-79") [] "4.14" "xss"
    [fx_leaf "e1"] None.
Definition fx_label_ref := fx_ref (cwe_meta fx_label) fx_label.
Definition fx_technical : TechnicalEvidenceReview :=
  mkTechnical (fx_meta "tg1" "technical_evidence_review" "a7") (fx_leaf "dec") fx_verification_ref fx_label_ref
    TG_ACCEPT "aligned" "linked" "linked" "right" "kept" true [] [] "accepted".
Definition fx_technical_ref := fx_ref (tg_meta fx_technical) fx_technical.

Definition fx_item : PolicyItem := mkItem "i1" "app" "in scope" [] (fx_leaf "src") "line 1".
Definition fx_policy : ProgramPolicyRecord :=
  mkProgramPolicy (fx_meta "pol1" "program_policy_record" "a8") "pol1" COLLECTED None
    (mkContent "prog" "ns" "ext" "v1" 0 FS_CURRENT (Some 0) [fx_item] [] [] [] [] [] [] [] "1" [fx_leaf "src"]
       [mkSourceCheck "s1" (fx_leaf "src") "url" "pub" SC_VERIFIED [fx_leaf "src"] 0] [] (Some (fx_leaf "crit"))
       [fx_leaf "fresh"] (Some 100) [] None).
Definition fx_policy_ref := fx_ref (pol_meta fx_policy) fx_policy.
Definition fx_collection : PolicyCollectionResult :=
  mkCollection (mkPrepared (fx_meta "col1" "policy_collection_result" "a8") "prog" COLLECTED None) "col1"
    CS_FOUND [fx_leaf "src"] [fx_leaf "parsed"] (Some fx_policy_ref) [] [] 1.
Definition fx_collection_ref := fx_ref (pre_meta fx_collection) fx_collection.
Definition fx_state : RunPolicyState :=
  mkRunPolicy (fx_meta "ps1" "run_policy_state" "a8") "prog" PS_CURRENT (Some COLLECTED)
    (BRun (mkRunStoredDataRef "cfg" "policy_source_config" "0" "an" (Some "cfg"))) "parser" "1" (fx_leaf "work") None
    (Some fx_collection_ref) (Some fx_policy_ref) (Some (fx_leaf "crit")) (Some 0) [fx_leaf "fresh"] (Some 100).
Definition fx_state_ref := fx_ref (ps_meta fx_state) fx_state.
Definition fx_review : RuleScopeImpactReview :=
  mkReview (fx_meta "rs1" "rule_scope_impact_review" "a9") (fx_leaf "dec") fx_verification_ref fx_technical_ref
    fx_label_ref fx_state_ref fx_collection_ref (Some fx_policy_ref) CO_PASS CO_PASS CO_PASS CO_PASS
    IM_SUFFICIENT true
    [mkLink "l1" AREA_RULE ["i1"] [fx_leaf "e1"]; mkLink "l2" AREA_SCOPE ["i1"] [fx_leaf "e1"];
     mkLink "l3" AREA_TESTING_RESTRICTION [] [fx_leaf "e1"]; mkLink "l4" AREA_IMPACT [] [fx_leaf "e1"]] [] [].
Definition fx_review_ref := fx_ref (rs_meta fx_review) fx_review.
Definition fx_upstream : FindingUpstream :=
  mkUpstream fx_verification fx_dynamic fx_poc fx_label fx_technical fx_review fx_state fx_collection
    (Some fx_policy).

(** ** The records by reflection *)

Definition fx_model (fields : list (string * node)) : node := NModel None fields.
Definition fx_claim_node (c : EvidenceClaim) : node :=
  fx_model [("claim_id", NText (ec_claim_id c)); ("evidence_refs", NTuple (map NRef (ec_evidence_refs c)));
            ("limitations", NTuple (map NText (ec_limitations c)))].
Definition fx_restriction_node (r : Restriction) : node :=
  NModel (Some r) [("restriction_id", NText (rx_restriction_id r)); ("statement", NText (rx_statement r));
                   ("fact_refs", NTuple []); ("evidence_refs", NTuple (map NRef (rx_evidence_refs r)))].
Definition fx_evidence_node (e : EvidenceAgentResult) : node :=
  fx_model [("role", NText (role_name (er_role e))); ("evidence", NTuple (map fx_claim_node (er_evidence e)));
            ("summary", NText (er_summary e)); ("limitations", NTuple (map NText (er_limitations e)))].
Definition fx_verification_node (v : VerificationResult) : node :=
  fx_model [("supporting_evidence", NTuple (map fx_claim_node (vr_supporting_evidence v)));
            ("counter_evidence", NTuple (map fx_claim_node (vr_counter_evidence v)));
            ("restrictions", NTuple (map fx_restriction_node (vr_restrictions v)));
            ("unresolved_conditions", NTuple (map NText (vr_unresolved_conditions v)))].

Definition fx_entry {A} `{Dumped A} (m : RunMeta) (x : A) (tree : node) : string * (RunMeta * value * node) :=
  (record_id m, (m, dump x, tree)).
Definition fx_entries : list (string * (RunMeta * value * node)) :=
  [fx_entry (er_meta fx_pro) fx_pro (fx_evidence_node fx_pro);
   fx_entry (er_meta fx_con) fx_con (fx_evidence_node fx_con);
   fx_entry (vr_meta fx_verification) fx_verification (fx_verification_node fx_verification);
   fx_entry (dyn_meta fx_dynamic) fx_dynamic
     (fx_model [("status", NText "SUCCEEDED"); ("limitations", NTuple (map NText (dyn_limitations fx_dynamic)))]);
   fx_entry (poc_meta fx_poc) fx_poc (fx_model [("evidence_refs", NTuple (map NRef (poc_evidence_refs fx_poc)))]);
   fx_entry (cwe_meta fx_label) fx_label (fx_model [("rationale", NText "xss")]);
   fx_entry (tg_meta fx_technical) fx_technical (fx_model [("rationale", NText "accepted")]);
   fx_entry (rs_meta fx_review) fx_review (fx_model []);
   fx_entry (pre_meta fx_collection) fx_collection (fx_model [("gap_ids", NTuple [])])].
Definition fx_find (id : string) : RunMeta * value * node :=
  default (fx_meta id "missing" "a0", VNone, NOther) (assoc id fx_entries).

#[local] Instance fx_any : AnyRecord string := {|
  any_meta id := (fx_find id).1.1;
  any_dumped id := (fx_find id).1.2;
  any_tree id := (fx_find id).2;
  any_dynamic id := mem id ["dyn1"; "poc1"];
  of_verification v := record_id (vr_meta v);
  of_dynamic d := record_id (dyn_meta d);
  of_poc p := record_id (poc_meta p);
  of_label l := record_id (cwe_meta l);
  of_technical t := record_id (tg_meta t);
  of_review r := record_id (rs_meta r);
  of_collection c := record_id (pre_meta c);
|}.

(** ** The finding *)

Definition fx_pro_ref := fx_ref (er_meta fx_pro) fx_pro.
Definition fx_con_ref := fx_ref (er_meta fx_con) fx_con.
Definition fx_resolved : gmap string string :=
  list_to_map [(_key fx_pro_ref, "pro1"); (_key fx_con_ref, "con1")].
Definition fx_records : list (StoredDataRef * string) :=
  [(fx_verification_ref, "vr1"); (fx_dynamic_ref, "dyn1"); (fx_poc_ref, "poc1"); (fx_label_ref, "cwe1");
   (fx_technical_ref, "tg1"); (fx_review_ref, "rs1"); (fx_collection_ref, "col1"); (fx_pro_ref, "pro1");
   (fx_con_ref, "con1")].
Definition fx_sources : list FindingConditionSource :=
  Eval vm_compute in match condition_sources fx_records with Ok l => l | Err _ => [] end.
Definition fx_finding : Finding :=
  mkFinding (fx_meta "f1" "finding" "a10") fx_verification_ref fx_dynamic_ref fx_poc_ref fx_label_ref
    fx_technical_ref fx_review_ref fx_collection_ref (Some fx_policy_ref)
    [fx_leaf "e1"; fx_leaf "e2"; fx_pro_ref; fx_con_ref] fx_sources.

(** The restriction, the limitations of the two claims, of the evidence results
    and of the run, and the open condition. *)
Lemma fx_conditions :
  validate_finding_conditions fx_finding fx_records
  = Ok ([fx_restriction], ["static only"; "headless browser only"], ["needs a login"]).
Proof. vm_compute. reflexivity. Qed.

Lemma fx_records_ok : records_ok fx_records.
Proof.
  split.
  - apply has_duplicates_false. vm_compute. reflexivity.
  - apply Forall_forall. intros p Hp.
    assert (Hall : forallb (fun p => tree_ok (any_tree p.2)) fx_records = true) by (vm_compute; reflexivity).
    rewrite forallb_forall in Hall. apply Hall, list_elem_of_In, Hp.
Qed.


Lemma fx_finding_closed : validate_finding_closure fx_finding fx_upstream 1 fx_resolved fx_records = Ok tt.
Proof. vm_compute. reflexivity. Qed.

Lemma fx_traced : evidence_closure fx_verification fx_resolved
  = Some (Ok [fx_leaf "e1"; fx_leaf "e2"; fx_con_ref; fx_pro_ref]).
Proof. vm_compute. reflexivity. Qed.

Lemma evidence_closure_correct_witness :
  evidence_closure fx_verification fx_resolved
  = Some (Ok [fx_leaf "e1"; fx_leaf "e2"; fx_con_ref; fx_pro_ref])
  /\ reached fx_verification fx_resolved fx_pro_ref.
Proof.
  destruct (evidence_closure_correct fx_verification fx_resolved) as (res & Hres & Hr & _).
  split; [exact fx_traced |]. rewrite fx_traced in Hres. injection Hres as <-. destruct Hr as [_ Hr].
  apply Hr. rewrite !elem_of_cons. auto 10.
Defined.

(** ** The report *)

Definition fx_finding_ref := fx_ref (fi_meta fx_finding) fx_finding.
Definition fx_index : FindingIndexState :=
  mkIndex (fx_meta "ix1" "finding_index_state" "a11") 2 IX_CURRENT (Some fx_finding_ref) None
    (Some (fx_leaf "work")) (Some (fx_leaf "commit")) [].
Definition fx_draft : ReportDraft :=
  mkReportDraft (fx_meta "rd1" "report_draft" "a12") (fx_leaf "dec") fx_finding_ref fx_verification_ref
    fx_technical_ref fx_review_ref fx_label_ref fx_state_ref fx_policy_ref (Some fx_dynamic_ref)
    (Some fx_poc_ref) (fx_leaf "content") [fx_restriction] ["static only"; "headless browser only"]
    ["needs a login"].
Definition fx_cited : list CodeLocation := [mkLocation "ws" "c0" "app.py" 12 None 14 None].

Lemma fx_reported :
  validate_report_closure fx_draft fx_finding fx_index fx_verification fx_technical fx_review fx_state
    fx_cited fx_records = Ok tt.
Proof. vm_compute. reflexivity. Qed.

Lemma report_justified_witness :
  finding_justified fx_finding fx_upstream 1 fx_resolved
  /\ draft_faithful fx_draft fx_finding fx_index fx_upstream fx_cited fx_records.
Proof.
  destruct (report_justified fx_draft fx_finding fx_index fx_upstream 1 fx_resolved fx_records fx_cited
              fx_records fx_finding_closed fx_reported fx_records_ok) as (Hj & Hd & _).
  exact (conj Hj Hd).
Defined.
