(* ===== verification/ReproductionExamples.v ===== *)
(** * Examples for reproductions

    One attempt from its request to its cleanup: an environment with one required
    version, the agent's command that runs the candidate, the log of it and the
    closure of the result. Of the two versions of the environment one is
    required and met, the other is not required and could not be checked. *)
From S2P Require Import Prelude Records Hash CanonicalJson Text Store Lineage Work Processes Actions.
From S2P Require Import Budget Runtime Registry Authority Outputs Evidence Verdicts Policy Gates.
From S2P Require Import Traversal Findings Reports Reproduction Execution VerdictExamples.

#[local] Existing Instances fx_any request_dumped dynamic_dumped poc_dumped.

#[local] Instance requirements_dumped : Dumped EnvironmentRequirements := fun r =>
  fx_value (er_items_meta r) "requirements" [er_items_request_ref r] (map eq_name (er_items r)).
#[local] Instance plan_dumped : Dumped ReproductionPlan := fun p =>
  fx_value (pn_meta p) "plan" [pn_request_ref p; pn_environment_requirements_ref p] [pn_reproduction_goal p].
#[local] Instance recipe_dumped : Dumped EnvironmentRecipe := fun r =>
  fx_value (rc_meta r) "recipe" [rc_environment_requirements_ref r] [rc_built_image_digest r].
#[local] Instance environment_dumped : Dumped SandboxEnvironment := fun e =>
  fx_value (se_meta e) "environment" [se_environment_recipe_ref e] (map ek_requirement_id (se_checks e)).
#[local] Instance boundary_dumped : Dumped SandboxPolicyDecision := fun d =>
  fx_value (bd_meta d) "boundary" [bd_action_decision_ref d] (bd_reason_codes d).
#[local] Instance log_dumped : Dumped AgentLog := fun l =>
  fx_value (al_meta l) "log" [al_request_ref l] (map ev_event_id (al_events l)).
#[local] Instance record_dumped : Dumped SandboxCommandRecord := fun r =>
  fx_value (cr_meta r) "command" [cr_tool_request_ref r] [cr_command_digest r].
#[local] Instance tool_dumped : Dumped DynamicReproductionToolRequest := fun t =>
  fx_value (tr_meta t) "tool" [tr_environment_ref t] [tr_rationale t].
#[local] Instance candidate_dumped : Dumped PoCCandidate := fun c =>
  fx_value (pk_meta c) "candidate" [pk_content_ref c] [pk_content_digest c].
#[local] Instance conclusion_dumped : Dumped DynamicReproductionConclusion := fun c =>
  fx_value (dc_meta c) "conclusion" [dc_environment_ref c] [dc_hypothesis_linkage c].
#[local] Instance cleanup_dumped : Dumped CleanupResult := fun c =>
  fx_value (cn_meta c) "cleanup" (cn_environment_refs c) [].

(** ** The attempt *)

Definition rx_meta (id kind : string) : RunMeta := fx_meta id kind "a4".
Definition rx_need : EnvironmentNeed := mkNeed "n1" NK_VERSION "python" true [fx_leaf "e1"].
Definition rx_request : DynamicReproductionRequest :=
  mkDynamicRequest (fx_meta "rq1" "dynamic_reproduction_request" "a1") (fx_leaf "va") 1
    (fx_leaf "hypothesis") POC_CONFIRMATION V_TRUE "confirm" [rx_need] (fx_leaf "profile") [] []
    (fx_leaf "pro") (fx_leaf "con") 1.
Definition rx_request_ref := fx_ref (dq_meta rx_request) rx_request.
Definition rx_requirements : EnvironmentRequirements :=
  mkRequirements (rx_meta "er1" "environment_requirements") rx_request_ref
    [mkRequirement "n1" NK_VERSION "python" true (Some "3.11") None [] None None [fx_leaf "e1"];
     mkRequirement "n2" NK_VERSION "node" false (Some "node 20") None [] None None []].
Definition rx_requirements_ref := fx_ref (er_items_meta rx_requirements) rx_requirements.
Definition rx_plan : ReproductionPlan :=
  mkPlan (rx_meta "pn1" "reproduction_plan") rx_request_ref POC_CONFIRMATION (fx_leaf "hypothesis")
    rx_requirements_ref (fx_leaf "profile") "run the script" "post a form" ["an alert"].
Definition rx_plan_ref := fx_ref (pn_meta rx_plan) rx_plan.
Definition rx_recipe : EnvironmentRecipe :=
  mkRecipe (rx_meta "rc1" "environment_recipe") rx_request_ref rx_requirements_ref (fx_leaf "src")
    [fx_leaf "src"] "base" "built" None BUILT None 1.
Definition rx_recipe_ref := fx_ref (rc_meta rx_recipe) rx_recipe.
Definition rx_environment : SandboxEnvironment :=
  mkEnvironment (rx_meta "se1" "sandbox_environment") rx_request_ref rx_plan_ref rx_recipe_ref
    rx_requirements_ref "container" CREATED INITIAL_CLEAN None EV_READY
    [mkEnvironmentCheck "n1" EC_MATCH (Some "3.11") None None [fx_leaf "out"] None;
     mkEnvironmentCheck "n2" EC_NOT_CHECKED None None (Some "no network") [fx_leaf "out"] None] [] 1.
Definition rx_environment_ref := fx_ref (se_meta rx_environment) rx_environment.
Definition rx_policy : SandboxPolicyDecision :=
  mkBoundary (rx_meta "bd1" "sandbox_policy_decision") rx_request_ref (fx_leaf "dec") (fx_leaf "profile")
    (fx_leaf "resources") (fx_leaf "policy") None None PS_PREPARING true ["IN_BOUNDS"] [] 1.
Definition rx_policy_ref := fx_ref (bd_meta rx_policy) rx_policy.
Definition rx_candidate : PoCCandidate :=
  mkCandidate (rx_meta "pk1" "poc_candidate") rx_request_ref rx_plan_ref (fx_leaf "script") "0" "call" 1.
Definition rx_candidate_ref := fx_ref (pk_meta rx_candidate) rx_candidate.
Definition rx_command : SandboxCommandInput :=
  mkCommandInput POC_EXECUTABLE [POC_RUNTIME_PATH] "/work" [] None [].
Definition rx_digest : string := match fields_hash rx_command with Ok h => h | Err _ => "" end.
Definition rx_tool : DynamicReproductionToolRequest :=
  mkToolRequest (rx_meta "tr1" "dynamic_reproduction_tool_request") rx_request_ref rx_plan_ref
    rx_environment_ref 1 RUN_COMMAND (Some rx_command) None None "run it" "call".
Definition rx_tool_ref := fx_ref (tr_meta rx_tool) rx_tool.
Definition rx_record : SandboxCommandRecord :=
  mkCommandRecord (rx_meta "cr1" "sandbox_command_record") rx_request_ref rx_command "act" rx_tool_ref
    rx_plan_ref rx_recipe_ref rx_environment_ref rx_digest REDACTION_NOT_REQUIRED 1.
Definition rx_record_ref := fx_ref (cr_meta rx_record) rx_record.

(** ** The log *)

Definition rx_plain (n : Z) (id action : string) (t : EventType) (candidate : option StoredDataRef)
  (inputs : list StoredDataRef) : AgentLogEvent :=
  mkEvent id n action t BY_DYNAMIC_REPRODUCTION None None candidate None None None None inputs [] None None None n.
Definition rx_run (n : Z) (id : string) (t : EventType) (inputs outputs : list StoredDataRef)
  (exit : option Z) (timed_out : option bool) : AgentLogEvent :=
  mkEvent id n "act" t BY_TOOL_RUNTIME (Some rx_environment_ref) (Some rx_recipe_ref) (Some rx_candidate_ref)
    (Some rx_tool_ref) (Some rx_record_ref) (Some rx_digest) (Some REDACTION_NOT_REQUIRED) inputs outputs exit
    timed_out None n.
Definition rx_started : list AgentLogEvent :=
  [rx_plain 1 "v1" "session" (STARTED PH_SESSION) None [rx_policy_ref];
   rx_plain 2 "v2" "agent" (STARTED PH_AGENT) None [];
   rx_plain 3 "v3" "create" POC_CANDIDATE_CREATED (Some rx_candidate_ref) []].
Definition rx_ran : list AgentLogEvent :=
  [rx_run 4 "v4" (STARTED PH_COMMAND) [] [] None None;
   rx_run 5 "v5" (STARTED PH_POC_EXECUTION) [fx_leaf "script"] [] None None;
   rx_run 6 "v6" (FINISHED PH_COMMAND) [] [fx_leaf "e1"] (Some 0) (Some false);
   rx_run 7 "v7" (FINISHED PH_POC_EXECUTION) [fx_leaf "script"] [fx_leaf "e1"] (Some 0) (Some false)].
Definition rx_ended : list AgentLogEvent :=
  [rx_plain 8 "v8" "agent" (FINISHED PH_AGENT) None []; rx_plain 9 "v9" "session" (FINISHED PH_SESSION) None []].
Definition rx_log_meta (n : Z) (id : string) (previous : option string) : RunMeta :=
  mkRunMeta (mkRevisionMeta id "al" "agent_log" "1.0.0" n previous 0) "an"
    (Some (mkCodeScope "ws" "c0" (Some "h1") (Some "a4"))).
Definition rx_log1 : AgentLog := mkLog (rx_log_meta 1 "al1" None) rx_request_ref rx_started.
Definition rx_log2 : AgentLog := mkLog (rx_log_meta 2 "al2" (Some "al1")) rx_request_ref (rx_started ++ rx_ran).
Definition rx_log3 : AgentLog :=
  mkLog (rx_log_meta 3 "al3" (Some "al2")) rx_request_ref (rx_started ++ rx_ran ++ rx_ended).

Lemma rx_accepted : event_sequence rx_log3 = Ok tt.
Proof. vm_compute. reflexivity. Qed.

Lemma rx_shapes : for_each command_shape (al_events rx_log3) = Ok tt.
Proof. vm_compute. reflexivity. Qed.

(** A session that finishes without having started. *)
Example rx_unstarted :
  event_sequence (mkLog (rx_log_meta 1 "al1" None) rx_request_ref
    [rx_plain 1 "v1" "session" (FINISHED PH_SESSION) None []]) = Err (ValueError "LOG_ACTION_START_REQUIRED").
Proof. vm_compute. reflexivity. Qed.

Lemma log_events_paired_witness :
  event_sequence rx_log3 = Ok tt /\ log_paired (al_events rx_log3).
Proof.
  split; [exact rx_accepted |]. destruct (log_events_paired rx_log3 rx_accepted) as (H & _). exact H.
Defined.

Lemma rx_first_revision : validate_log_revision rx_log1 rx_log2 = Ok tt.
Proof. vm_compute. reflexivity. Qed.
Lemma rx_second_revision : validate_log_revision rx_log2 rx_log3 = Ok tt.
Proof. vm_compute. reflexivity. Qed.

Lemma log_append_only_witness : al_events rx_log1 `prefix_of` al_events rx_log3.
Proof.
  destruct (log_append_only rx_log1 rx_log3 2
    (nsteps_l _ _ _ _ _ rx_first_revision
      (nsteps_l _ _ _ _ _ rx_second_revision (nsteps_O _ _)))) as (H & _).
  exact H.
Defined.

(** ** The closure *)

Definition rx_log_ref := fx_ref (al_meta rx_log3) rx_log3.
Definition rx_poc : PoCBundle :=
  mkBundle (rx_meta "bp1" "poc_bundle") rx_request_ref rx_plan_ref rx_recipe_ref rx_environment_ref rx_log_ref
    rx_candidate_ref "0" "act" [fx_leaf "e1"] 10.
Definition rx_conclusion : DynamicReproductionConclusion :=
  mkConclusion (rx_meta "dc1" "dynamic_reproduction_conclusion") rx_request_ref rx_plan_ref rx_environment_ref
    (Some rx_candidate_ref) [fx_leaf "out"] HO_SUPPORTED [fx_pro_ref] "the script ran" ["one browser"] "call".
Definition rx_cleanup : CleanupResult :=
  mkCleanup (rx_meta "cn1" "cleanup_result") rx_request_ref [rx_environment_ref] [fx_leaf "volume"] CU_SUCCEEDED
    None 11.
Definition rx_result : DynamicReproductionResult :=
  mkDynamicResult (rx_meta "dy1" "dynamic_reproduction_result") rx_request_ref (Some (fx_leaf "dec"))
    (Some rx_plan_ref) POC_CONFIRMATION (Some rx_policy_ref) true rx_log_ref
    (Some (fx_ref (dc_meta rx_conclusion) rx_conclusion)) (Some rx_recipe_ref) (Some rx_environment_ref)
    (Some rx_candidate_ref) (Some (fx_ref (poc_meta rx_poc) rx_poc)) [fx_leaf "out"] DS_SUCCEEDED FC_NONE None []
    HO_SUPPORTED [fx_pro_ref] false [] "the script ran" EXECUTABLE [] ["one browser"] true CU_SUCCEEDED
    (Some (fx_ref (cn_meta rx_cleanup) rx_cleanup)) 1 12 11.
Definition rx_inputs : ClosureInputs :=
  mkInputs 1 (Some rx_plan) (Some rx_recipe) (Some rx_environment) (Some rx_candidate) (Some rx_poc)
    (Some rx_conclusion) (Some rx_policy) (Some rx_cleanup) fx_resolved [rx_record] [rx_tool] [] []
    (Some rx_requirements) None [fx_leaf "volume"].

Lemma rx_shape : result_shape rx_result = Ok tt.
Proof. vm_compute. reflexivity. Qed.

Lemma rx_closed : validate_dynamic_closure rx_result rx_request rx_log3 rx_inputs = Ok tt.
Proof. vm_compute. reflexivity. Qed.

Lemma poc_executed_witness :
  in_poc rx_inputs = Some rx_poc
  /\ exists candidate execution, in_candidate rx_inputs = Some candidate
       /\ execution_proved rx_result rx_log3 rx_poc candidate execution.
Proof.
  split; [reflexivity |].
  destruct (poc_executed rx_result rx_request rx_log3 rx_inputs rx_poc rx_accepted rx_closed eq_refl)
    as (candidate & execution & _ & _ & _ & _ & _ & _ & Hc & Hp & _).
  exists candidate, execution. exact (conj Hc Hp).
Defined.

Lemma run_accounted_witness :
  [fx_leaf "volume"] = in_attempt_resource_refs rx_inputs
  /\ (exists policy, in_policy rx_inputs = Some policy /\ bd_allow policy = true)
  /\ forall r, r ∈ in_attempt_resource_refs rx_inputs ->
       exists c, in_cleanup rx_inputs = Some c /\ r ∈ cn_resource_refs c.
Proof.
  split; [reflexivity |].
  destruct (run_accounted rx_result rx_request rx_log3 rx_inputs rx_shape rx_closed) as (_ & Hb & _ & _ & H).
  split; [| exact H]. destruct (Hb (or_introl eq_refl)) as (ref & policy & Hr & Hp & _ & _ & Ha & _).
  exists policy. exact (conj Hp (Ha eq_refl)).
Defined.

(** An environment the cleanup leaves out. *)
Example rx_left_over :
  validate_cleanup_coverage rx_result rx_log3
    (Some (mkCleanup (rx_meta "cn1" "cleanup_result") rx_request_ref [] [fx_leaf "volume"] CU_SUCCEEDED None 11))
    [rx_environment] [fx_leaf "volume"] = Err (ValueError "CLEANUP_COVERAGE_MISMATCH").
Proof. vm_compute. reflexivity. Qed.

(** [_VERSION_TOKEN] *)
Example version_tokens :
  map version_token ["Python 3.11.4"; "v1.2.3.4.5"; "7."; "none"]
  = [Some "3.11.4"; Some "1.2.3.4"; Some "7"; None].
Proof. vm_compute. reflexivity. Qed.
